(* ===== verification/_CoqProject ===== *)
-Q . S2P
Prelude.v
Crc.v
Monad.v
Hw.v
Uart.v
Dbg.v
Spi.v
I2cs.v
Machine.v
UartProtocol.v
SRecord.v
UartSafety.v
I2CProtocol.v
Boot.v
FlashImage.v
FlashBoot.v
BootMain.v
HostLoop.v
UartSession.v
Crt0.v
Bitbang.v
UartDpi.v
Pulp.v
BootCode.v
PulpBoot.v
PulpLoad.v
PulpMain.v
BothRoms.v
Builtins.v
Regs.v
PeriphRegs.v
Fll.v
Periph.v
GpioV2.v
HwceV4.v
UdmaMram.v
UdmaHyper.v
UdmaI2sV2.v
UdmaI2sV1.v
UdmaI2sV3.v
UdmaMemcpy.v
PwmV1.v
RtcV2.v
MchanV7.v
Mmio.v
Rab.v
Tryx.v
Riscv.v
Hyper.v
Eu.v
Dma.v
DmaV6.v
MaestroV3.v
MaestroV2.v
MaestroV1.v
Pmu.v
OtherRegs.v
