(* ===== verification/Prelude.v ===== *)
(** * The boot software of the CORE-V MCU

    This development models the C software under src/ that runs when the chip comes
    out of reset, its drivers and register headers, and the C side of the simulation
    test bench, and proves what they do.

    ** The program and its parts

    - [a2_boot/]: the boot ROM of the CORE-V MCU.  [main.c] reads the boot pin and
      either loads an image from the SPI flash and enters it, or prints a banner and
      serves two host protocols until one of them jumps to loaded code: Motorola
      S-records over a UART ([uartProtocol.c]) and framed commands over the I2C slave
      ([I2CProtocol.c]).  Below them are the drivers [uart.c], [spi.c],
      [hal_apb_i2cs.c], the console [dbg.c] and the CRC calculator [crc.c].
    - [boot_code/]: the boot ROM of the PULPissimo platform the MCU derives from:
      [boot_code.c] over the HAL of [include/hal] and the register headers of
      [include/archi].
    - [tb/]: the JTAG remote-bitbang server and the UART bridge of the test bench.

    ** How the code is modelled

    C code that changes state is a program [M S A] of [Monad.v]: from a state it
    returns ([Ok]), leaves through a jump to an absolute address ([Jump]), has
    undefined behaviour, such as an index outside an array ([Fault]), or is still
    polling or looping when its fuel or its schedule of outside events ends ([Spin]).
    Integers are [Z] with the wrap-around of their C type written out ([u8], [u16],
    [u32], [s32] below); the bit-field macros, which shift [int]s, are undefined
    ([None]) where C leaves the shift undefined; arrays are lists with checked access; memory that a DMA
    engine or a loader fills is a map from addresses to bytes.  Hardware registers
    behave as their documentation under src/rtl/*/data and src/docs says; the outside
    world (received characters, the flash array, the debugger, the answers of a
    socket) is part of the state, so that the theorems hold for all of its behaviours.

    ** Files

    Shared: this file (words, bits, arrays, [bitblast]); [Monad] (outcomes, loops,
    memory).

    The CORE-V MCU boot ROM:
    - [Crc]: crc.c and crc.h for the three standards, with the polynomial division
      as specification;
    - [Hw]: uDMA UART, QSPI master with flash, I2C slave and SoC controller.  The
      uDMA reaches the 512 KB of L2 that its 19-bit address registers name, and the
      QSPI master moves whole words where the command says so;
    - [Uart], [Dbg], [Spi], [I2cs]: the drivers.  [Uart] and [Spi] end in a class,
      [UartPort] and [FlashPort], that states what clients rely on; [I2cs] has
      [I2csPort].  The clients' proofs use the instances only;
    - [Machine]: the static variables next to the hardware, as crt0.S leaves them;
    - [UartProtocol] (the character state machine), [SRecord] (the S-record format
      and the refinement of it by the state machine), [UartSafety] (arbitrary input);
    - [I2CProtocol]: frames, their CRC, the command handler;
    - [Boot] (main.c), [FlashImage] (what an image is and the memory it makes),
      [FlashBoot] (loading it), [BootMain] ([main] up to the host loop, and the flash
      path), [HostLoop] (the loop turn by turn against a host that acts between the
      turns, and the I2C host), [UartSession] (the UART host against the loop, for any
      waiting time), [Crt0] (the start-up code before [main]).

    The test bench: [Bitbang] (remote_bitbang.c, sim_jtag.c, rbs_test.c), [UartDpi]
    (uartdpi.c).

    The PULPissimo boot ROM and its headers:
    - [Pulp]: the platform state [soc] with its interrupts, events and time, and the
      HAL of interrupt controller, event unit, uDMA, UART, SoC controller and CSRs;
    - [BootCode] (boot_code.c), [PulpBoot] (its waits, SPI commands and
      initialisation), [PulpLoad] (the loader), [PulpMain] (the choice of the source),
      [BothRoms] (the two boot ROMs on the same flash);
    - [Builtins]: the emulated PULP builtins; [Regs]: what a register header states,
      and what the agreement of its tables means; [PeriphRegs]: the headers of GPIO,
      timer and camera; [Fll]: the FLL header and HAL; [Periph]: the HAL of GPIO,
      timer, camera and I2C, and the UART fields;
    - the generated headers of other chips of the family, which the tree carries:
      [GpioV2], [HwceV4], [UdmaMram], [UdmaHyper], [UdmaI2sV1], [UdmaI2sV2],
      [UdmaI2sV3], [UdmaMemcpy], [PwmV1], [RtcV2], [MchanV7], [MaestroV1], [MaestroV2],
      [MaestroV3], each with its tables, its accessors and a report of the decision
      procedure of [Regs], which [OtherRegs] collects;
    - [Eu] and [Dma]: the HAL of a cluster's event unit and of its DMA, the latter
      read through the tables of [MchanV7]; [DmaV6]: version 6 of the DMA's HAL;
    - [Mmio]: registers that read back what was written, with the log of the stores,
      the port of the files that follow;
    - [Rab] and [Tryx]: the HAL of the remapping address block (slices, the miss
      queue) and of the accesses that are retried after a miss;
    - [Riscv]: the core access headers riscv_v3.h and riscv_v4.h, and the RV32 macros
      of riscv_v5.h;
    - [Hyper]: the HAL of the HyperBus interface; [Pmu]: the HAL of the power manager,
      in three versions, over the tables of [MaestroV3].

    Definitions keep the names of the C code.  A [for] or [while] body that the C
    code writes inline has a name of its own, such as [load_blocks].

    ** What the theorems show

    - From reset: [Crt0.reset_boots_session], [HostLoop.main_boots_i2c] and
      [BootMain.main_boots_from_flash] follow the program from reset to the jump into
      the loaded program: for a UART host that sends S-records and
      repeats the rejected ones, after any wait (the prompt is printed at every 90000th
      turn: [UartSession.main_session], and [main_boots_srec] for a whole file), for an
      I2C host that does the same with frames, and for every well-formed flash image.
      [Crt0.start_clears_bss] is the start-up code
      on its own; [HostLoop.protocols_exclude] the arbitration of the two protocols:
      the first host to be served excludes the other.
      [PulpMain.pulp_boots_image] and [pulp_boots_jtag] do it for
      boot_code, [pulp_stays_in_rom] lists the settings that never leave the ROM;
      [BothRoms.roms_agree] compares the two ROMs on one image.
    - Loading: [FlashBoot.flash_image_boots] refines the specification of an image in
      [FlashImage]; [findDataFit_apart] keeps the loader's own data off the image;
      [findDataFit_unsorted_overlaps] and [seventeen_sections_overrun] show what
      images outside the format do.
    - The host protocols: [SRecord.srec_file_boots], [srec_bad_checksum_rejected],
      [I2CProtocol.i2c_load_frame], [i2c_jump_frame], [i2c_burst_rejected],
      [i2c_handshake], [form_frame_layout] on what a correct or corrupted host sends;
      [UartSafety.uart_handler_safe] on every input, with its two exceptions
      [short_count_overflows] and [s5_record_never_ends].
    - The CRC: [Crc.crcFast_correct] (table and bit-serial forms agree),
      [crcSlow_remainder] (they compute the division), [crcSlow_detects_bursts],
      [ccitt_residue].
    - The drivers: [Spi.udma_flash_read_loads], [flash_reset_on_wire],
      [Dbg.hex32_atoh_roundtrip], [PulpMain.pulp_read_words], [pulp_init_events].
    - Registers and arithmetic: [Builtins.bit_macros_correct] (what the bit-field macros
      do, and for exactly which fields C defines them), [dot_products_exact],
      [PeriphRegs.registers_sound], [Fll.fll_update_sets_two_fields],
      [Periph.gpio_sets_selected_pins], [OtherRegs.other_registers_sound] (the tables
      of the other headers agree but for an exact list).
    - The cluster: [Eu.eu_waits], [Dma.dma_enqueues] (the words pushed mean the
      transfer asked for), [dma_waits], [DmaV6.dma_versions_agree] (versions 6 and 7
      ask for the same transfers, each read with its own decoding).
    - Address translation: [Rab.config_rab_slice_maps] and [config_rab_l2_entry_maps]
      (the entry is enabled last, so that no wrong mapping is ever active),
      [get_rab_miss_decodes]; [Tryx.try_through_slice] (a blocking access ends in the
      physical memory a configured slice maps it to, after one sleep for each miss,
      whatever the handler does), [prefetch_probes].
    - Cores and power: [Riscv.irq_sections_nest], [rv32_macros] (the macros that do
      what they are named for), [rv32_macros_deviate] (those that do not);
      [Hyper.hyper_fields_are_independent] (34 setters, each read back, none touching
      another's field); [Pmu.pmu_codes_roundtrip], [maestro_requests] (the words sent
      mean the request), [wakeup_configured].
    - The test bench: [Bitbang.ticks_follow_protocol] (the protocol but for its reset
      commands, which are dropped), [eof_blocks_clients],
      [UartDpi.uartdpi_keeps_order] (over any terminal for which cfmakeraw keeps its
      promise).
    - What modelling found in the code: [UartSafety.s5_record_never_ends],
      [short_count_overflows], [SRecord.srec_address_zero_acknowledged],
      [I2CProtocol.resend_sends_blank], [Spi.udma_flash_write_returns_early],
      [BootMain.boot_pin_decides], [FlashBoot.seventeen_sections_overrun],
      [Builtins.bitextract_never_signed], [Fll.fll_macros_checked],
      [OtherRegs.other_registers_sound], [Eu.eu_waits], [Eu.mutex_id_addr],
      [Periph.cam_headers_compared], [cam_event_is_i2c], [Riscv.irq_sections_nest] (the
      interrupt macros of version 3 do not disable), [Riscv.rv32_macros_deviate],
      [Builtins.bit_macros_correct] and [Periph.gpio_sets_selected_pins] (shifts of an
      [int] into its sign bit), [Bitbang.ticks_follow_protocol] (reset commands),
      [Spi.udma_flash_read_loads] (lengths that are no multiple of four never end).

    ** Bounds and fuel

    A theorem that says the code returns or jumps has a hypothesis on the fuel that
    some number meets: for a flash image, the largest block count of its sections
    ([FlashImage.image_fine]); for the main loop, the length of the receive schedule
    (the waiting turns included); for a string, its length; for the start-up loop, the
    words of the cleared section; for the waits of the DMA, the number of polls in
    which it is busy; for a blocking access, the number of misses before a slice
    allows it.  Loops with a fixed bound (17 sections, 257 bytes of the I2C FIFO) have
    fuel of one more than the index that leaves their array, so that the fault comes
    before the fuel ends.  boot_code's waits take as many wake-ups as [after_ticks]
    and [dones] count in the schedule of platform events; its loader's hypothesis
    ([PulpLoad.bootable]) is that the transfers of the image are in the schedule.

    ** Not modelled, and why

    - The RTL and its vendored IP: SystemVerilog; the models rely on the documented
      register behaviour only.
    - The interrupt vectors of the two crt0.S, which lead to [mret], and the linker
      scripts; the symbols these define are [Crt0.Linked].
    - boot_code's DEBUG and HyperBus branches: the PULPissimo build leaves them out,
      and the first does not compile.
    - The rest of the HAL of other chips (accelerators, instruction caches, blocks of
      other vendors, version 5 of the DMA and the older event units) and the headers
      that list their constants without bit-field tables: no program here calls them.
    - In builtins_v2_emu.h the macros that cannot be expanded (an unclosed
      parenthesis), the complex-number macros (never compiled) and the floating-point
      conversions; in the register headers the classes of the simulator.
    - The Python and make files.
    - Timing other than order: baud rates, the clock of the flash; and interrupt
      handlers, which neither ROM installs. *)

(** ** Words, bytes and arrays *)

From Stdlib Require Export ZArith Lia Bool Btauto.
From stdpp Require Export base tactics decidable option list list_numbers numbers gmap strings.

#[global] Open Scope Z_scope.

(** ** Machine-width integers

    A C object of an unsigned type of width [w] is a [Z] kept in
    [[0, 2^w)]; a store to such an object reduces modulo [2^w]. *)

Definition wrap (w x : Z) : Z := x mod 2 ^ w.
Definition u8 (x : Z) : Z := wrap 8 x.
Definition u16 (x : Z) : Z := wrap 16 x.
Definition u32 (x : Z) : Z := wrap 32 x.

(** A C [int] on the 32-bit target: two's complement reading of 32 bits. *)
Definition s32 (x : Z) : Z := (x + 2 ^ 31) mod 2 ^ 32 - 2 ^ 31.

Declare Scope boot_scope.
Delimit Scope boot_scope with boot.
Notation "x '&&&' y" := (Z.land x y) (at level 40, left associativity) : boot_scope.
Notation "x '|||' y" := (Z.lor x y) (at level 50, left associativity) : boot_scope.
Notation "x '^^^' y" := (Z.lxor x y) (at level 45, left associativity) : boot_scope.
#[global] Open Scope boot_scope.

Create HintDb words.
Create Rewrite HintDb words.
Create Rewrite HintDb zbits.

Lemma wrap_range w x : 0 <= w -> 0 <= wrap w x < 2 ^ w.
Proof. intros Hw. apply Z.mod_pos_bound. by apply Z.pow_pos_nonneg. Qed.

Lemma wrap_small w x : 0 <= x < 2 ^ w -> wrap w x = x.
Proof. apply Z.mod_small. Qed.

Lemma wrap_testbit w x i :
  0 <= w -> 0 <= i -> Z.testbit (wrap w x) i = (i <? w) && Z.testbit x i.
Proof.
  intros Hw Hi. unfold wrap. rewrite <- Z.land_ones by done. rewrite Z.land_spec.
  destruct (i <? w) eqn:E; rewrite ?Z.ltb_lt, ?Z.ltb_ge in E.
  - rewrite Z.ones_spec_low by lia. by rewrite andb_true_r.
  - rewrite Z.ones_spec_high by lia. by rewrite andb_false_r.
Qed.

Lemma u8_range x : 0 <= u8 x < 256.
Proof. apply (wrap_range 8). lia. Qed.
Lemma u16_range x : 0 <= u16 x < 65536.
Proof. apply (wrap_range 16). lia. Qed.
Lemma u32_range x : 0 <= u32 x < 4294967296.
Proof. apply (wrap_range 32). lia. Qed.
Lemma u8_small x : 0 <= x < 256 -> u8 x = x.
Proof. apply (wrap_small 8). Qed.
Lemma u16_small x : 0 <= x < 65536 -> u16 x = x.
Proof. apply (wrap_small 16). Qed.
Lemma u32_small x : 0 <= x < 4294967296 -> u32 x = x.
Proof. apply (wrap_small 32). Qed.
#[export] Hint Resolve wrap_range u8_range u16_range u32_range : words.
#[export] Hint Rewrite u8_small u16_small u32_small using lia : words.

(** Bits above the width of a bounded number are zero. *)
Lemma testbit_above w x i : 0 <= w -> 0 <= x < 2 ^ w -> w <= i -> Z.testbit x i = false.
Proof.
  intros Hw Hx Hi. rewrite <- (wrap_small w x Hx), wrap_testbit by lia.
  by replace (i <? w) with false by lia.
Qed.

(** A nonnegative number with no bit at or above [w] is below [2^w]. *)
Lemma testbit_bound w x :
  0 <= w -> 0 <= x -> (forall i, w <= i -> Z.testbit x i = false) -> 0 <= x < 2 ^ w.
Proof.
  intros Hw Hx Hhi. assert (x = wrap w x) as ->; [|by apply wrap_range].
  apply Z.bits_inj'. intros i Hi. rewrite wrap_testbit by done.
  destruct (i <? w) eqn:E; simpl; [done|]. apply Hhi. lia.
Qed.

(** The rewrite rules of [zbits] push [Z.testbit] to the leaves. *)
Lemma shiftl_testbit x n i :
  0 <= i -> 0 <= n -> Z.testbit (Z.shiftl x n) i = (n <=? i) && Z.testbit x (i - n).
Proof.
  intros Hi Hn. rewrite Z.shiftl_spec by done.
  destruct (n <=? i) eqn:E; simpl; [done|]. apply Z.testbit_neg_r. lia.
Qed.
Lemma shiftr_testbit x n i : 0 <= i -> Z.testbit (Z.shiftr x n) i = Z.testbit x (i + n).
Proof. intros. by apply Z.shiftr_spec. Qed.
Lemma if_testbit (b : bool) x y i :
  Z.testbit (if b then x else y) i = if b then Z.testbit x i else Z.testbit y i.
Proof. by destruct b. Qed.
Lemma ones_testbit w i : 0 <= i -> 0 <= w -> Z.testbit (Z.ones w) i = (i <? w).
Proof.
  intros. destruct (i <? w) eqn:E; [apply Z.ones_spec_low | apply Z.ones_spec_high]; lia.
Qed.
Lemma mod_testbit x w i :
  0 <= w -> 0 <= i -> Z.testbit (x mod 2 ^ w) i = (i <? w) && Z.testbit x i.
Proof. apply wrap_testbit. Qed.
#[export] Hint Rewrite Z.lxor_spec Z.land_spec Z.lor_spec Z.bits_0 if_testbit : zbits.
#[export] Hint Rewrite shiftl_testbit shiftr_testbit wrap_testbit ones_testbit mod_testbit
  using lia : zbits.

(** [bitblast] proves an equation between bit expressions index by index:
    every comparison of indices is decided, then the booleans are left to
    [btauto]. *)
Ltac bit_cases :=
  repeat match goal with
  | |- context [?a <=? ?b] =>
      destruct (Z.leb_spec a b); try (exfalso; lia)
  | |- context [?a <? ?b] =>
      destruct (Z.ltb_spec a b); try (exfalso; lia)
  end.
Ltac bitblast :=
  apply Z.bits_inj'; let i := fresh "i" in let Hi := fresh "Hi" in
  intros i Hi; unfold u8, u16, u32;
  do 3 (autorewrite with zbits; bit_cases;
        rewrite ?andb_true_l, ?andb_false_l, ?xorb_false_l, ?xorb_false_r);
  try reflexivity; try btauto.

(** Arithmetic with [mod] and [/] by constants. *)
Ltac word_lia :=
  unfold u8, u16, u32, s32, wrap in *;
  change (2 ^ 8) with 256 in *; change (2 ^ 16) with 65536 in *;
  change (2 ^ 32) with 4294967296 in *; change (2 ^ 31) with 2147483648 in *;
  Z.div_mod_to_equations; lia.

(** ** Bytes *)

Definition byte_ok (b : Z) : Prop := 0 <= b < 256.
#[export] Instance byte_ok_dec b : Decision (byte_ok b).
Proof. unfold byte_ok. apply _. Defined.
Definition bytes_ok (bs : list Z) : Prop := Forall byte_ok bs.
#[export] Instance bytes_ok_dec bs : Decision (bytes_ok bs).
Proof. unfold bytes_ok. apply _. Defined.

Lemma byte_ok_u8 x : byte_ok (u8 x).
Proof. apply u8_range. Qed.
#[export] Hint Resolve byte_ok_u8 : words.

(** The bytes of an ASCII string, as a C string literal lays them out (without
    the terminating NUL). *)
Fixpoint ascii_bytes (s : string) : list Z :=
  match s with
  | EmptyString => []
  | String a s' => Z.of_N (Ascii.N_of_ascii a) :: ascii_bytes s'
  end.

(** ** Arrays

    A C array object is a list; [array !? i] reads it at a [Z] index, [None]
    outside the object. *)
Definition zlookup {A} (l : list A) (i : Z) : option A :=
  if 0 <=? i then l !! Z.to_nat i else None.
Notation "l '!?' i" := (zlookup l i) (at level 20) : boot_scope.

Definition zupdate {A} (l : list A) (i : Z) (x : A) : option (list A) :=
  if (0 <=? i) && (i <? Z.of_nat (length l)) then Some (<[Z.to_nat i := x]> l) else None.

#[global] Arguments zlookup : simpl never.
#[global] Arguments zupdate : simpl never.
#[global] Arguments wrap : simpl never.
#[global] Arguments u8 : simpl never.
#[global] Arguments u16 : simpl never.
#[global] Arguments u32 : simpl never.

Lemma zlookup_nat {A} (l : list A) (n : nat) : l !? Z.of_nat n = l !! n.
Proof. unfold zlookup. destruct (Z.leb_spec 0 (Z.of_nat n)); [|lia]. by rewrite Nat2Z.id. Qed.

Lemma zlookup_some_range {A} (l : list A) i x :
  l !? i = Some x -> 0 <= i < Z.of_nat (length l).
Proof.
  unfold zlookup. destruct (Z.leb_spec 0 i); [|done]. intros ?%lookup_lt_Some. lia.
Qed.

Lemma zlookup_is_some {A} (l : list A) i :
  0 <= i < Z.of_nat (length l) -> exists x, l !? i = Some x.
Proof.
  intros Hi. unfold zlookup. destruct (Z.leb_spec 0 i); [|lia].
  apply lookup_lt_is_Some. lia.
Qed.

Lemma zupdate_some {A} (l : list A) i x :
  0 <= i < Z.of_nat (length l) -> zupdate l i x = Some (<[Z.to_nat i := x]> l).
Proof.
  intros Hi. unfold zupdate.
  destruct (Z.leb_spec 0 i), (Z.ltb_spec i (Z.of_nat (length l))); simpl; (done || lia).
Qed.

Lemma zupdate_none {A} (l : list A) i x :
  ~ 0 <= i < Z.of_nat (length l) -> zupdate l i x = None.
Proof.
  intros Hi. unfold zupdate.
  destruct (Z.leb_spec 0 i), (Z.ltb_spec i (Z.of_nat (length l))); simpl; (done || lia).
Qed.

(** The mask test of C, [x & (1 << n)], reads one bit. *)
Lemma land_bit_eqb x n : 0 <= n -> (x &&& Z.shiftl 1 n =? 0) = negb (Z.testbit x n).
Proof.
  intros Hn. destruct (Z.eqb_spec (x &&& Z.shiftl 1 n) 0) as [E|E].
  - pose proof (f_equal (fun z => Z.testbit z n) E) as Hb. cbv beta in Hb.
    rewrite Z.land_spec, shiftl_testbit, Z.sub_diag, Z.bits_0 in Hb by lia.
    destruct (Z.leb_spec n n); [|lia]. simpl in Hb. rewrite andb_true_r in Hb. by rewrite Hb.
  - destruct (Z.testbit x n) eqn:Hx; [done|]. exfalso. apply E.
    apply Z.bits_inj'. intros i Hi. rewrite Z.land_spec, shiftl_testbit, Z.bits_0 by lia.
    destruct (Z.leb_spec n i); simpl; [|by rewrite andb_false_r].
    destruct (Z.eq_dec i n) as [->|Hne]; [by rewrite Hx|].
    change 1 with (2 ^ 0). rewrite Z.pow2_bits_false by lia. by rewrite andb_false_r.
Qed.

(** Values below a power of two survive a shift without wrapping. *)
Lemma shiftl_wrap w x n :
  0 <= n <= w -> 0 <= x < 2 ^ (w - n) -> wrap w (Z.shiftl x n) = Z.shiftl x n.
Proof.
  intros Hn Hx. apply wrap_small. rewrite Z.shiftl_mul_pow2 by lia.
  assert (2 ^ w = 2 ^ (w - n) * 2 ^ n) by (rewrite <- Z.pow_add_r by lia; f_equal; lia).
  pose proof (Z.pow_pos_nonneg 2 n ltac:(lia) ltac:(lia)). nia.
Qed.

(** Or-ing a small word under a shifted one adds it. *)
Lemma shiftl_lor_add y n f : 0 <= n -> 0 <= f < 2 ^ n -> Z.shiftl y n ||| f = y * 2 ^ n + f.
Proof.
  intros Hn Hf. rewrite <- Z.shiftl_mul_pow2 by done. symmetry.
  rewrite <- Z.lxor_lor, <- Z.add_nocarry_lxor; [done| |]; apply Z.bits_inj'; intros i Hi;
    rewrite Z.land_spec, shiftl_testbit, Z.bits_0 by lia; destruct (Z.leb_spec n i); simpl; try done;
    rewrite (testbit_above n f i) by done; by rewrite andb_false_r.
Qed.

Lemma land_1_eqb x : (x &&& 1 =? 0) = negb (Z.testbit x 0).
Proof. apply (land_bit_eqb x 0). lia. Qed.
