(* ===== verification/Crc.v ===== *)
(** * Crc: the CRC calculator of a2_boot/crc.c and a2_boot/include/crc.h

    The three standards of crc.h, the bit-serial [crcSlow], the table
    generator [crcInit] and the table-driven [crcFast], for every standard at
    once; the configuration the boot loader compiles is [CRC_CCITT]. *)

From S2P Require Import Prelude.

(** ** Polynomials over GF(2)

    A polynomial is the integer whose bits are its coefficients.  [gf2_mul q g]
    multiplies [g] by the polynomial whose coefficients are the list [q], most
    significant first (Horner's rule): this is the reference notion of
    "modulo-2" arithmetic that the comments of crc.c appeal to. *)
Definition gf2_mul (q : list bool) (g : Z) : Z :=
  foldl (fun acc (b : bool) => Z.shiftl acc 1 ^^^ (if b then g else 0)) 0 q.

(** The polynomial of a message: its bytes, most significant first. *)
Definition be_poly (bs : list Z) : Z := foldl (fun acc b => Z.shiftl acc 8 ^^^ b) 0 bs.

(** ** crc.h: the standards *)

Record crc_std := mk_crc_std {
  std_width : Z;               (* 8 * sizeof(crc) *)
  POLYNOMIAL : Z;
  INITIAL_REMAINDER : Z;
  FINAL_XOR_VALUE : Z;
  std_reflect_data : bool;
  std_reflect_remainder : bool;
  CHECK_VALUE : Z
}.

Definition CRC_CCITT : crc_std := mk_crc_std 16 0x1021 0xFFFF 0x0000 false false 0x29B1.
Definition CRC16 : crc_std := mk_crc_std 16 0x8005 0x0000 0x0000 true true 0xBB3D.
Definition CRC32 : crc_std :=
  mk_crc_std 32 0x04C11DB7 0xFFFFFFFF 0xFFFFFFFF true true 0xCBF43926.

(** What the code needs of a standard. *)
Record crc_std_ok (p : crc_std) : Prop := {
  width_ok : 8 <= std_width p <= 32;
  poly_ok : 0 <= POLYNOMIAL p < 2 ^ std_width p;
  poly_odd : Z.testbit (POLYNOMIAL p) 0 = true;
  init_ok : 0 <= INITIAL_REMAINDER p < 2 ^ std_width p;
  xor_ok : 0 <= FINAL_XOR_VALUE p < 2 ^ std_width p
}.

(** ** crc.c: reflect *)

Fixpoint reflect_loop (n : nat) (bit nBits data reflection : Z) : Z :=
  match n with
  | O => reflection
  | S n' =>
      let reflection :=
        if negb (data &&& 0x01 =? 0)
        then u32 (reflection ||| Z.shiftl 1 ((nBits - 1) - bit)) else reflection in
      reflect_loop n' (bit + 1) nBits (Z.shiftr data 1) reflection
  end.
Definition reflect (data nBits : Z) : Z := reflect_loop (Z.to_nat nBits) 0 nBits data 0.

(** ** The calculators, over one standard *)
Section Calculator.
Context (p : crc_std).
Let WIDTH : Z := std_width p.

Definition TOPBIT : Z := Z.shiftl 1 (WIDTH - 1).
Definition REFLECT_DATA (x : Z) : Z := if std_reflect_data p then u8 (reflect x 8) else x.
Definition REFLECT_REMAINDER (x : Z) : Z :=
  if std_reflect_remainder p then wrap WIDTH (reflect x WIDTH) else x.

(** "Try to divide the current data bit." *)
Definition crc_bit (remainder : Z) : Z :=
  if negb (remainder &&& TOPBIT =? 0)
  then wrap WIDTH (Z.shiftl remainder 1 ^^^ POLYNOMIAL p)
  else wrap WIDTH (Z.shiftl remainder 1).

(** The loop [for (bit = 8; bit > 0; --bit)]. *)
Definition crc_bits (remainder : Z) : Z := Nat.iter 8 crc_bit remainder.

Definition crcSlow_byte (remainder b : Z) : Z :=
  crc_bits (wrap WIDTH (remainder ^^^ Z.shiftl (REFLECT_DATA b) (WIDTH - 8))).

(** [None] is a read outside [message]. *)
Fixpoint crcSlow_loop (n : nat) (byte : Z) (message : list Z) (remainder : Z) : option Z :=
  match n with
  | O => Some remainder
  | S n' => b ← message !? byte; crcSlow_loop n' (byte + 1) message (crcSlow_byte remainder b)
  end.

Definition crc_result (remainder : Z) : Z :=
  wrap WIDTH (REFLECT_REMAINDER remainder ^^^ FINAL_XOR_VALUE p).

Definition crcSlow (message : list Z) (nBytes : Z) : option Z :=
  remainder ← crcSlow_loop (Z.to_nat nBytes) 0 message (INITIAL_REMAINDER p);
  Some (crc_result remainder).

Definition crcInit_entry (dividend : Z) : Z :=
  crc_bits (wrap WIDTH (Z.shiftl dividend (WIDTH - 8))).

(** The loop over the 256 dividends, storing into the global table. *)
Definition crcInit (crcTable : list Z) : list Z :=
  foldl (fun table dividend => <[Z.to_nat dividend := crcInit_entry dividend]> table)
    crcTable (seqZ 0 256).

Definition crcFast_byte (crcTable : list Z) (remainder b : Z) : option Z :=
  let data := u8 (REFLECT_DATA b ^^^ Z.shiftr remainder (WIDTH - 8)) in
  entry ← crcTable !? data;
  Some (wrap WIDTH (entry ^^^ Z.shiftl remainder 8)).

Fixpoint crcFast_loop (n : nat) (byte : Z) (crcTable message : list Z) (remainder : Z)
    : option Z :=
  match n with
  | O => Some remainder
  | S n' =>
      b ← message !? byte;
      r ← crcFast_byte crcTable remainder b;
      crcFast_loop n' (byte + 1) crcTable message r
  end.

Definition crcFast (crcTable message : list Z) (nBytes : Z) : option Z :=
  remainder ← crcFast_loop (Z.to_nat nBytes) 0 crcTable message (INITIAL_REMAINDER p);
  Some (crc_result remainder).
End Calculator.

(** The table as crt0.S leaves it: [crcTable] lives in .bss. *)
Definition crcTable_bss : list Z := replicate 256 0.

(** ** Polynomial multiples *)
Section Gf2.
Context (w g : Z) (Hw : 0 < w) (Hg : 2 ^ w <= g < 2 ^ (w + 1)).

Lemma gf2_mul_snoc q b : gf2_mul (q ++ [b]) g = Z.shiftl (gf2_mul q g) 1 ^^^ (if b then g else 0).
Proof. unfold gf2_mul. by rewrite foldl_app. Qed.

Lemma gf2_mul_nonneg q : 0 <= gf2_mul q g.
Proof.
  induction q as [|b q IH] using rev_ind; [done|]. rewrite gf2_mul_snoc.
  apply Z.lxor_nonneg. rewrite Z.shiftl_nonneg. destruct b; lia.
Qed.

(** The bit of [g] at its degree is its leading one. *)
Lemma g_testbit_top : Z.testbit g w = true.
Proof.
  rewrite Z.testbit_true by lia. rewrite Z.pow_add_r in Hg by lia.
  replace (g / 2 ^ w) with 1; [done|]. apply Z.div_unique with (g - 2 ^ w); lia.
Qed.

Lemma g_testbit_above i : w < i -> Z.testbit g i = false.
Proof. intros Hi. apply (testbit_above (w + 1)); lia. Qed.

(** A multiple of [g] of degree below that of [g] is zero. *)
Lemma gf2_mul_small q : gf2_mul q g < 2 ^ w -> gf2_mul q g = 0.
Proof.
  induction q as [|b q IH] using rev_ind; [done|]. rewrite gf2_mul_snoc. intros Hlt.
  pose proof (gf2_mul_nonneg q) as Hnn.
  set (y := gf2_mul q g) in *.
  assert (Hhi : forall i, w <= i -> Z.testbit (Z.shiftl y 1 ^^^ (if b then g else 0)) i = false).
  { intros i Hi. apply (testbit_above w); [lia| |lia]. split; [|done].
    apply Z.lxor_nonneg. rewrite Z.shiftl_nonneg. destruct b; lia. }
  assert (y < 2 ^ w) as Hy.
  { apply (testbit_bound w); [lia|done|]. intros i Hi. specialize (Hhi (i + 1) ltac:(lia)).
    rewrite Z.lxor_spec, shiftl_testbit in Hhi by lia. replace (i + 1 - 1) with i in Hhi by lia.
    destruct (Z.leb_spec 1 (i + 1)); [|lia]. simpl in Hhi.
    destruct b; rewrite ?g_testbit_above, ?Z.bits_0, ?xorb_false_r in Hhi by lia; done. }
  rewrite (IH Hy) in *. destruct b; [|done].
  specialize (Hhi w ltac:(lia)). rewrite Z.shiftl_0_l, Z.lxor_0_l, g_testbit_top in Hhi. done.
Qed.

Lemma gf2_mul_cons_false q : gf2_mul (false :: q) g = gf2_mul q g.
Proof. done. Qed.

Lemma gf2_mul_pad n q : gf2_mul (replicate n false ++ q) g = gf2_mul q g.
Proof. induction n as [|n IH]; [done|]. simpl. by rewrite gf2_mul_cons_false. Qed.

Lemma gf2_mul_lxor_same q1 : forall q2, length q1 = length q2 ->
  gf2_mul (zip_with xorb q1 q2) g = gf2_mul q1 g ^^^ gf2_mul q2 g.
Proof.
  induction q1 as [|b1 q1 IH] using rev_ind; intros q2 Hl.
  - destruct q2; [done|discriminate].
  - destruct q2 as [|b2 q2 _] using rev_ind; rewrite !length_app in Hl; simpl in Hl; [lia|].
    rewrite zip_with_app by lia. simpl. rewrite !gf2_mul_snoc, IH by lia.
    rewrite Z.shiftl_lxor.
    destruct b1, b2; simpl; rewrite ?Z.lxor_0_r; bitblast.
Qed.

(** Multiples of [g] are closed under addition. *)
Lemma gf2_mul_lxor q1 q2 : exists q, gf2_mul q g = gf2_mul q1 g ^^^ gf2_mul q2 g.
Proof.
  exists (zip_with xorb (replicate (length q2) false ++ q1) (replicate (length q1) false ++ q2)).
  rewrite gf2_mul_lxor_same, !gf2_mul_pad; [done|].
  rewrite !length_app, !length_replicate. lia.
Qed.

(** [x^k] is coprime to a polynomial with a constant term. *)
Lemma gf2_mul_shift_small (k : nat) : forall e q, Z.testbit g 0 = true -> 0 <= e < 2 ^ w ->
  gf2_mul q g = Z.shiftl e (Z.of_nat k) -> e = 0.
Proof.
  induction k as [|k IH]; intros e q Hodd He Heq.
  { rewrite Z.shiftl_0_r in Heq. rewrite <- Heq. apply gf2_mul_small. lia. }
  destruct q as [|b q _] using rev_ind.
  { symmetry in Heq. change (gf2_mul [] g) with 0 in Heq. apply Z.shiftl_eq_0_iff in Heq; lia. }
  rewrite gf2_mul_snoc in Heq.
  assert (b = false) as ->.
  { pose proof (f_equal (fun z => Z.testbit z 0) Heq) as H0. cbv beta in H0.
    rewrite Z.lxor_spec, !shiftl_testbit in H0 by lia.
    destruct (Z.leb_spec 1 0), (Z.leb_spec (Z.of_nat (S k)) 0); try lia; simpl in H0.
    destruct b; [|done]. rewrite Z.bit0_odd in Hodd. congruence. }
  apply (IH e q Hodd He). rewrite Z.lxor_0_r in Heq.
  apply Z.bits_inj'. intros i Hi.
  pose proof (f_equal (fun z => Z.testbit z (i + 1)) Heq) as H1. cbv beta in H1.
  rewrite !shiftl_testbit in H1 by lia. rewrite shiftl_testbit by lia.
  destruct (Z.leb_spec 1 (i + 1)); [|lia]. simpl in H1.
  replace (i + 1 - 1) with i in H1 by lia. rewrite H1.
  replace (i + 1 - Z.of_nat (S k)) with (i - Z.of_nat k) by lia.
  destruct (Z.leb_spec (Z.of_nat (S k)) (i + 1)), (Z.leb_spec (Z.of_nat k) i); lia || done.
Qed.
End Gf2.

(** ** The bit step is linear *)
Section CalculatorFacts.
Context (p : crc_std) (Hp : crc_std_ok p).
Local Abbreviation W := (std_width p).

Lemma crc_bit_testbit r i : 0 <= i ->
  Z.testbit (crc_bit p r) i =
  (i <? W) && xorb ((1 <=? i) && Z.testbit r (i - 1)) (Z.testbit r (W - 1) && Z.testbit (POLYNOMIAL p) i).
Proof.
  intros Hi. destruct Hp as [Hw _ _ _ _]. unfold crc_bit, TOPBIT.
  rewrite land_bit_eqb by lia. rewrite negb_involutive.
  destruct (Z.testbit r (W - 1)); autorewrite with zbits; [done|].
  by rewrite andb_false_l, xorb_false_r.
Qed.

Lemma crc_bit_range r : 0 <= crc_bit p r < 2 ^ W.
Proof. destruct Hp as [Hw _ _ _ _]. unfold crc_bit. case_match; apply wrap_range; lia. Qed.

Lemma crc_bit_lxor r s : crc_bit p (r ^^^ s) = crc_bit p r ^^^ crc_bit p s.
Proof.
  apply Z.bits_inj'. intros i Hi. rewrite Z.lxor_spec, !crc_bit_testbit by done.
  rewrite !Z.lxor_spec. btauto.
Qed.

Lemma crc_bit_low r : 0 <= r < 2 ^ (W - 1) -> crc_bit p r = Z.shiftl r 1.
Proof.
  intros Hr. destruct Hp as [Hw _ _ _ _]. unfold crc_bit, TOPBIT. rewrite land_bit_eqb by lia.
  rewrite (testbit_above (W - 1)) by lia. simpl. apply shiftl_wrap; lia.
Qed.

Lemma crc_iter_lxor n r s :
  Nat.iter n (crc_bit p) (r ^^^ s) = Nat.iter n (crc_bit p) r ^^^ Nat.iter n (crc_bit p) s.
Proof. induction n as [|n IH]; [done|]. simpl. by rewrite IH, crc_bit_lxor. Qed.

Lemma crc_iter_low (n : nat) : forall r, Z.of_nat n <= W -> 0 <= r < 2 ^ (W - Z.of_nat n) ->
  Nat.iter n (crc_bit p) r = Z.shiftl r (Z.of_nat n).
Proof.
  induction n as [|n IH]; intros r Hn Hr; [by rewrite Z.shiftl_0_r|].
  simpl Nat.iter. assert (2 ^ (W - Z.of_nat (S n)) <= 2 ^ (W - Z.of_nat n)) by (apply Z.pow_le_mono_r; lia).
  rewrite IH by lia.
  rewrite crc_bit_low; [rewrite Z.shiftl_shiftl by lia; f_equal; lia|].
  rewrite Z.shiftl_mul_pow2 by lia. replace (W - 1) with (W - Z.of_nat (S n) + Z.of_nat n) by lia.
  rewrite Z.pow_add_r by lia. pose proof (Z.pow_pos_nonneg 2 (Z.of_nat n) ltac:(lia) ltac:(lia)). nia.
Qed.

Lemma crc_bits_lxor r s : crc_bits p (r ^^^ s) = crc_bits p r ^^^ crc_bits p s.
Proof. apply (crc_iter_lxor 8). Qed.

Lemma crc_bits_range r : 0 <= crc_bits p r < 2 ^ W.
Proof. apply crc_bit_range. Qed.

Lemma crc_bits_low r : 0 <= r < 2 ^ (W - 8) -> crc_bits p r = Z.shiftl r 8.
Proof. destruct Hp as [Hw _ _ _ _]. intros Hr. apply (crc_iter_low 8); [|done]. simpl. lia. Qed.

(** ** The table *)

Lemma crcInit_length t : length (crcInit p t) = length t.
Proof.
  unfold crcInit. generalize (seqZ 0 256). intros l. revert t.
  induction l as [|d l IH]; intros t; [done|]. simpl. rewrite IH. apply length_insert.
Qed.

Lemma table_fill_lookup (f : Z -> Z) (m : nat) : forall (n : nat) (t : list Z) (i : nat),
  (n + m <= length t)%nat -> (n <= i < n + m)%nat ->
  foldl (fun table d => <[Z.to_nat d := f d]> table) t (seqZ (Z.of_nat n) (Z.of_nat m)) !! i
  = Some (f (Z.of_nat i)).
Proof.
  induction m as [|m IH] using nat_ind; intros n t i Hl Hi; [lia|].
  rewrite (seqZ_S (Z.of_nat n) m), foldl_app. simpl.
  destruct (decide (i = n + m)%nat) as [->|Hne].
  - replace (Z.of_nat n + Z.of_nat m) with (Z.of_nat (n + m)) by lia. rewrite Nat2Z.id.
    apply list_lookup_insert_eq.
    assert (Hlen : forall l t', length (foldl (fun table d => <[Z.to_nat d := f d]> table) t' l) = length t').
    { induction l as [|d l IHl]; intros t'; [done|]. simpl. by rewrite IHl, length_insert. }
    rewrite Hlen. lia.
  - rewrite list_lookup_insert_ne by lia. apply IH; lia.
Qed.

Lemma crcInit_lookup t d : length t = 256%nat -> 0 <= d < 256 ->
  crcInit p t !? d = Some (crcInit_entry p d).
Proof.
  intros Hl Hd. unfold zlookup. destruct (Z.leb_spec 0 d); [|lia].
  unfold crcInit. rewrite (table_fill_lookup (crcInit_entry p) 256 0) by lia. do 2 f_equal. lia.
Qed.

(** ** One byte: the table step is eight bit steps *)

Lemma reflect_loop_range n : forall bit m d r, 0 <= r < 2 ^ 32 -> 0 <= reflect_loop n bit m d r < 2 ^ 32.
Proof.
  induction n as [|n IH]; intros bit m d r Hr; [done|]. simpl. apply IH.
  case_match; [apply u32_range|done].
Qed.

Lemma REFLECT_DATA_byte b : byte_ok b -> byte_ok (REFLECT_DATA p b).
Proof. intros Hb. unfold REFLECT_DATA. case_match; [apply byte_ok_u8|done]. Qed.

Lemma crcFast_byte_slow t r b : length t = 256%nat -> 0 <= r < 2 ^ W -> byte_ok b ->
  crcFast_byte p (crcInit p t) r b = Some (crcSlow_byte p r b).
Proof.
  intros Hl Hr Hb. destruct Hp as [Hw _ _ _ _]. unfold crcFast_byte, crcSlow_byte.
  pose proof (REFLECT_DATA_byte b Hb) as Hd. set (d := REFLECT_DATA p b) in *.
  assert (Hd8 : forall i, 8 <= i -> Z.testbit d i = false).
  { intros i Hi. apply (testbit_above 8); [lia|apply Hd|done]. }
  assert (HrW : forall i, W <= i -> Z.testbit r i = false).
  { intros i Hi. apply (testbit_above W); lia. }
  rewrite crcInit_lookup by (done || apply u8_range). simpl. f_equal.
  unfold crcInit_entry.
  assert (Hsplit : wrap W (r ^^^ Z.shiftl d (W - 8)) =
    wrap W (Z.shiftl (u8 (d ^^^ Z.shiftr r (W - 8))) (W - 8)) ^^^ wrap (W - 8) r).
  { bitblast; rewrite ?HrW, ?Hd8 by lia; try btauto.
    replace (i - (W - 8) + (W - 8)) with i by lia. btauto. }
  rewrite Hsplit, crc_bits_lxor, (crc_bits_low (wrap (W - 8) r)) by (apply wrap_range; lia).
  set (e := crc_bits p _).
  assert (HeW : forall i, W <= i -> Z.testbit e i = false).
  { intros i Hi. apply (testbit_above W); [lia|apply crc_bits_range|done]. }
  bitblast; rewrite ?HeW by lia; btauto.
Qed.

Lemma crcSlow_byte_range r b : 0 <= crcSlow_byte p r b < 2 ^ W.
Proof. apply crc_bits_range. Qed.

Lemma crcFast_loop_slow t : length t = 256%nat -> forall n i m r, 0 <= r < 2 ^ W -> bytes_ok m ->
  crcFast_loop p n i (crcInit p t) m r = crcSlow_loop p n i m r.
Proof.
  intros Hl. induction n as [|n IH]; intros i m r Hr Hm; [done|]. simpl.
  destruct (m !? i) as [b|] eqn:Eb; simpl; [|done].
  assert (byte_ok b).
  { unfold zlookup in Eb. case_match; [|done]. by eapply Forall_lookup_1. }
  rewrite crcFast_byte_slow by done. simpl. apply IH; [apply crcSlow_byte_range|done].
Qed.
End CalculatorFacts.

(** ** Division: what the register holds after each byte *)
Definition crc_poly (p : crc_std) : Z := 2 ^ std_width p ^^^ POLYNOMIAL p.

Section Division.
Context (p : crc_std) (Hp : crc_std_ok p).
Local Abbreviation W := (std_width p).
Local Abbreviation G := (crc_poly p).

Lemma crc_poly_testbit i : 0 <= i ->
  Z.testbit G i = xorb (i =? W) ((i <? W) && Z.testbit (POLYNOMIAL p) i).
Proof.
  intros Hi. destruct Hp as [Hw Hpoly _ _ _]. unfold crc_poly.
  rewrite Z.lxor_spec, Z.pow2_bits_eqb by lia. rewrite (Z.eqb_sym W i).
  destruct (Z.ltb_spec i W); simpl; [done|]. by rewrite (testbit_above W _ i) by lia.
Qed.

Lemma crc_poly_range : 2 ^ W <= G < 2 ^ (W + 1).
Proof.
  destruct Hp as [Hw Hpoly _ _ _]. unfold crc_poly.
  rewrite <- Z.add_nocarry_lxor; [rewrite Z.pow_add_r by lia; lia|].
  apply Z.bits_inj'. intros i Hi.
  rewrite Z.land_spec, Z.pow2_bits_eqb, Z.bits_0 by lia.
  destruct (Z.eqb_spec W i) as [E|]; simpl; [|done]. apply (testbit_above W); lia.
Qed.

(** One bit step subtracts [x^0 G] when the leading bit is set. *)
Lemma crc_bit_poly r : 0 <= r < 2 ^ W ->
  Z.shiftl r 1 = crc_bit p r ^^^ (if Z.testbit r (W - 1) then G else 0).
Proof.
  intros Hr. destruct Hp as [Hw _ _ _ _]. apply Z.bits_inj'. intros i Hi.
  rewrite Z.lxor_spec, if_testbit, crc_bit_testbit, crc_poly_testbit, shiftl_testbit, Z.bits_0 by (done || lia).
  destruct (Z.ltb_spec i W), (Z.eqb_spec i W), (Z.leb_spec 1 i); try lia; simpl.
  all: try (subst i; replace (W - 1) with (W + -1) by lia).
  all: rewrite ?(testbit_above W r (i - 1)) by lia.
  all: repeat (case_match; simpl); try btauto; try done.
  all: subst; replace (W + -1) with (W - 1) in * by lia; congruence.
Qed.

Fixpoint crc_quot (n : nat) (r : Z) : list bool :=
  match n with
  | O => []
  | S n' => Z.testbit r (W - 1) :: crc_quot n' (crc_bit p r)
  end.

(** [n] bit steps divide [r x^n] by [G]. *)
Lemma crc_iter_poly (n : nat) : forall q r, 0 <= r < 2 ^ W ->
  gf2_mul (q ++ crc_quot n r) G ^^^ Nat.iter n (crc_bit p) r
  = Z.shiftl (gf2_mul q G ^^^ r) (Z.of_nat n).
Proof.
  induction n as [|n IH]; intros q r Hr; [by rewrite app_nil_r, Z.shiftl_0_r|].
  cbn [crc_quot]. replace (q ++ Z.testbit r (W - 1) :: crc_quot n (crc_bit p r))
    with ((q ++ [Z.testbit r (W - 1)]) ++ crc_quot n (crc_bit p r)) by (by rewrite <- app_assoc).
  rewrite Nat.iter_succ_r, IH by (by apply crc_bit_range). rewrite gf2_mul_snoc.
  replace (Z.of_nat (S n)) with (1 + Z.of_nat n) by lia. rewrite <- Z.shiftl_shiftl by lia.
  f_equal. rewrite Z.shiftl_lxor, (crc_bit_poly r Hr).
  rewrite !Z.lxor_assoc. f_equal. by rewrite Z.lxor_comm.
Qed.

Lemma crc_quot_length n : forall r, length (crc_quot n r) = n.
Proof. induction n as [|n IH]; intros r; [done|]. simpl. by rewrite IH. Qed.

Lemma be_poly_snoc l b : be_poly (l ++ [b]) = Z.shiftl (be_poly l) 8 ^^^ b.
Proof. unfold be_poly. by rewrite foldl_app. Qed.

(** The bit-serial loop, seen from the consumed prefix [pre]. *)
Lemma crcSlow_loop_div : forall (suf pre : list Z) q r,
  bytes_ok suf -> 0 <= r < 2 ^ W ->
  Z.shiftl (be_poly (map (REFLECT_DATA p) pre)) W ^^^
    Z.shiftl (INITIAL_REMAINDER p) (8 * Z.of_nat (length pre)) = gf2_mul q G ^^^ r ->
  length q = (8 * length pre)%nat ->
  exists q' r', length q' = (8 * length (pre ++ suf))%nat /\ 0 <= r' < 2 ^ W /\
    crcSlow_loop p (length suf) (Z.of_nat (length pre)) (pre ++ suf) r = Some r' /\
    Z.shiftl (be_poly (map (REFLECT_DATA p) (pre ++ suf))) W ^^^
      Z.shiftl (INITIAL_REMAINDER p) (8 * Z.of_nat (length (pre ++ suf))) = gf2_mul q' G ^^^ r'.
Proof.
  destruct Hp as [Hw _ _ Hinit _].
  induction suf as [|b suf IH]; intros pre q r Hs Hr Heq Hq.
  { exists q, r. rewrite app_nil_r. done. }
  inversion Hs as [|? ? Hb Hs']; subst.
  pose proof (REFLECT_DATA_byte p b Hb) as Hd.
  set (x := wrap W (r ^^^ Z.shiftl (REFLECT_DATA p b) (W - 8))).
  assert (Hx : 0 <= x < 2 ^ W) by (apply wrap_range; lia).
  destruct (IH (pre ++ [b]) (q ++ crc_quot 8 x) (crcSlow_byte p r b) Hs') as (q' & r' & HL & HR & HE & HP).
  - by apply crcSlow_byte_range.
  - change (crcSlow_byte p r b) with (Nat.iter 8 (crc_bit p) x).
    rewrite (crc_iter_poly 8 q x Hx), map_app, length_app. simpl map. rewrite be_poly_snoc.
    simpl length. replace (8 * Z.of_nat (length pre + 1)) with (8 * Z.of_nat (length pre) + 8) by lia.
    assert (x = r ^^^ Z.shiftl (REFLECT_DATA p b) (W - 8)) as ->.
    { apply wrap_small, testbit_bound; [lia| |].
      - apply Z.lxor_nonneg. rewrite Z.shiftl_nonneg. unfold byte_ok in Hd. lia.
      - intros i Hi. rewrite Z.lxor_spec, shiftl_testbit by lia.
        rewrite (testbit_above W r), (testbit_above 8 (REFLECT_DATA p b)) by (lia || apply Hd).
        by rewrite andb_false_r. }
    apply (f_equal (fun z => Z.shiftl z 8)) in Heq.
    rewrite !Z.shiftl_lxor, !Z.shiftl_shiftl in * by lia. change (Z.of_nat 8) with 8 in *.
    replace (W - 8 + 8) with W by lia. replace (8 + W) with (W + 8) by lia.
    rewrite Z.lxor_assoc, (Z.lxor_comm (Z.shiftl (REFLECT_DATA p b) W)), <- Z.lxor_assoc, Heq.
    apply Z.lxor_assoc.
  - rewrite !length_app, crc_quot_length, Hq. simpl. lia.
  - replace ((pre ++ [b]) ++ suf) with (pre ++ b :: suf) in * by (by rewrite <- app_assoc).
    exists q', r'. split; [done|]. split; [done|]. split; [|done]. simpl.
    rewrite zlookup_nat, list_lookup_middle by done. simpl.
    rewrite length_app in HE. simpl in HE. by replace (Z.of_nat (length pre) + 1) with (Z.of_nat (length pre + 1)) by lia.
Qed.
End Division.

(** ** Theorems *)

Lemma zlookup_bytes_ok m i b : bytes_ok m -> m !? i = Some b -> byte_ok b.
Proof. intros Hm. unfold zlookup. case_match; [|done]. intros Hb. by eapply Forall_lookup_1. Qed.

(** C9. the table-driven [crcFast] computes what the bit-serial [crcSlow]
    computes, for every standard of crc.h, on every message of bytes and every
    length argument (a length beyond the buffer makes both read out of it). *)
Theorem crcFast_correct (p : crc_std) (Hp : crc_std_ok p) (t m : list Z) (nBytes : Z) :
  length t = 256%nat -> bytes_ok m ->
  crcFast p (crcInit p t) m nBytes = crcSlow p m nBytes.
Proof.
  intros Ht Hm. unfold crcFast, crcSlow. destruct Hp as [Hw Hpoly Hodd Hinit Hx].
  rewrite crcFast_loop_slow; done.
Qed.

Lemma CRC_CCITT_ok : crc_std_ok CRC_CCITT.
Proof. split; done. Defined.
Lemma CRC16_ok : crc_std_ok CRC16.
Proof. split; done. Defined.
Lemma CRC32_ok : crc_std_ok CRC32.
Proof. split; done. Defined.
#[export] Hint Resolve CRC_CCITT_ok CRC16_ok CRC32_ok : core.

Theorem crcFast_correct_witness :
  crcFast CRC_CCITT (crcInit CRC_CCITT crcTable_bss) [0xA5; 0x07] 2 = crcSlow CRC_CCITT [0xA5; 0x07] 2
  /\ crcSlow CRC_CCITT [0xA5; 0x07] 2 = Some 0x8F63.
Proof.
  split; [|vm_compute; reflexivity].
  apply (crcFast_correct CRC_CCITT CRC_CCITT_ok crcTable_bss [0xA5; 0x07] 2);
    [reflexivity|repeat constructor; discriminate].
Defined.

Lemma crcSlow_division (p : crc_std) (Hp : crc_std_ok p) (m : list Z) (Hm : bytes_ok m) :
  exists q r,
    length q = (8 * length m)%nat /\ 0 <= r < 2 ^ std_width p /\
    Z.shiftl (be_poly (map (REFLECT_DATA p) m)) (std_width p) ^^^
      Z.shiftl (INITIAL_REMAINDER p) (8 * Z.of_nat (length m)) = gf2_mul q (crc_poly p) ^^^ r /\
    crcSlow p m (Z.of_nat (length m)) = Some (crc_result p r).
Proof.
  destruct (crcSlow_loop_div p Hp m [] [] (INITIAL_REMAINDER p) Hm (init_ok p Hp)) as (q & r & Hq & Hr & E & HP).
  - cbn -[Z.shiftl]. by rewrite Z.mul_0_r, Z.shiftl_0_l, Z.shiftl_0_r.
  - done.
  - exists q, r. split; [done|]. split; [done|]. split; [done|].
    unfold crcSlow. rewrite Nat2Z.id. rewrite app_nil_l in E.
    change (Z.of_nat (length [])) with 0 in E. by rewrite E.
Qed.

(** C16. [crcSlow] returns, and its register is the remainder of the message,
    shifted by the width and with the initial remainder added to its leading
    bits, in the division by the standard's polynomial. *)
Theorem crcSlow_remainder (p : crc_std) (Hp : crc_std_ok p) (m : list Z) (Hm : bytes_ok m) :
  exists q r,
    length q = (8 * length m)%nat /\ 0 <= r < 2 ^ std_width p /\
    Z.shiftl (be_poly (map (REFLECT_DATA p) m)) (std_width p) ^^^
      Z.shiftl (INITIAL_REMAINDER p) (8 * Z.of_nat (length m)) = gf2_mul q (crc_poly p) ^^^ r /\
    crcSlow p m (Z.of_nat (length m)) = Some (crc_result p r).
Proof. by apply crcSlow_division. Qed.

Theorem crcSlow_remainder_witness :
  exists q r, length q = 8%nat /\ 0 <= r < 2 ^ 16 /\
    Z.shiftl 0x5A 16 ^^^ 0xFFFF00 = gf2_mul q 0x11021 ^^^ r /\
    crcSlow CRC_CCITT [0x5A] 1 = Some (crc_result CRC_CCITT r).
Proof.
  apply (crcSlow_remainder CRC_CCITT CRC_CCITT_ok [0x5A]). repeat constructor; discriminate.
Defined.

(** The bit reflection of the low [n] bits. *)
Lemma reflect_loop_testbit (n : nat) : forall bit m d r i,
  0 <= bit -> Z.of_nat n + bit = m -> m <= 32 -> 0 <= i -> 0 <= r < 2 ^ 32 ->
  Z.testbit (reflect_loop n bit m d r) i =
  Z.testbit r i || ((i <? Z.of_nat n) && Z.testbit d (Z.of_nat n - 1 - i)).
Proof.
  induction n as [|n IH]; intros bit m d r i Hb Hm H32 Hi Hr.
  { simpl. destruct (Z.ltb_spec i (Z.of_nat 0)); [lia|]. by rewrite orb_false_r. }
  cbn [reflect_loop]. rewrite IH; [|lia|lia|lia|lia|case_match; [apply u32_range|done]].
  rewrite land_1_eqb, negb_involutive.
  replace (m - 1 - bit) with (Z.of_nat n) by lia.
  assert (Hstep : Z.testbit (if Z.testbit d 0 then u32 (r ||| Z.shiftl 1 (Z.of_nat n)) else r) i =
    Z.testbit r i || ((i =? Z.of_nat n) && Z.testbit d 0)).
  { rewrite if_testbit. destruct (Z.testbit d 0); [|by rewrite andb_false_r, orb_false_r].
    unfold u32. rewrite wrap_testbit, Z.lor_spec, shiftl_testbit by lia.
    change 1 with (2 ^ 0). rewrite Z.pow2_bits_eqb by lia.
    destruct (Z.ltb_spec i 32), (Z.leb_spec (Z.of_nat n) i), (Z.eqb_spec i (Z.of_nat n)),
      (Z.eqb_spec 0 (i - Z.of_nat n)); try lia; simpl; rewrite ?orb_false_r; try done.
    all: by rewrite (testbit_above 32 r) by lia. }
  rewrite Hstep, <- orb_assoc. f_equal.
  destruct (Z.eqb_spec i (Z.of_nat n)), (Z.ltb_spec i (Z.of_nat n)), (Z.ltb_spec i (Z.of_nat (S n)));
    try lia; cbn [orb andb]; rewrite ?orb_false_r; try done.
  - f_equal. lia.
  - rewrite Z.shiftr_spec by lia. f_equal. lia.
Qed.

Lemma reflect_testbit n d i : 0 <= n <= 32 -> 0 <= i ->
  Z.testbit (reflect d n) i = (i <? n) && Z.testbit d (n - 1 - i).
Proof.
  intros Hn Hi. unfold reflect. rewrite reflect_loop_testbit by lia.
  by rewrite Z2Nat.id, Z.bits_0 by lia.
Qed.

Lemma reflect_range n d : 0 <= n <= 32 -> 0 <= reflect d n < 2 ^ n.
Proof.
  intros Hn. apply testbit_bound; [lia|apply reflect_loop_range; lia|].
  intros i Hi. rewrite reflect_testbit by lia. by destruct (Z.ltb_spec i n); [lia|].
Qed.

(** [reflect] mirrors the low [nBits] bits and is its own inverse on
    [nBits]-bit values, for every [nBits] up to the 32 the comment asks for. *)
Theorem reflect_involutive (nBits data : Z) :
  0 <= nBits <= 32 -> 0 <= data < 2 ^ nBits ->
  (forall i, 0 <= i < nBits -> Z.testbit (reflect data nBits) i = Z.testbit data (nBits - 1 - i)) /\
  reflect (reflect data nBits) nBits = data.
Proof.
  intros Hn Hd. split.
  { intros i Hi. rewrite reflect_testbit by lia. by destruct (Z.ltb_spec i nBits); [|lia]. }
  apply Z.bits_inj'. intros i Hi. rewrite reflect_testbit by lia.
  destruct (Z.ltb_spec i nBits); simpl; [|by rewrite (testbit_above nBits) by lia].
  rewrite reflect_testbit by lia. destruct (Z.ltb_spec (nBits - 1 - i) nBits); [|lia]. simpl.
  f_equal. lia.
Qed.

Theorem reflect_involutive_witness :
  (forall i, 0 <= i < 8 -> Z.testbit (reflect 0xB1 8) i = Z.testbit 0xB1 (8 - 1 - i)) /\
  reflect (reflect 0xB1 8) 8 = 0xB1.
Proof. apply (reflect_involutive 8 0xB1); split; (reflexivity || discriminate). Defined.

Lemma reflect_inj n a b : 0 <= n <= 32 -> 0 <= a < 2 ^ n -> 0 <= b < 2 ^ n ->
  reflect a n = reflect b n -> a = b.
Proof.
  intros Hn Ha Hb E. apply Z.bits_inj'. intros i Hi.
  destruct (Z.ltb_spec i n); [|by rewrite !(testbit_above n) by lia].
  pose proof (f_equal (fun z => Z.testbit z (n - 1 - i)) E) as E'. cbv beta in E'.
  rewrite !reflect_testbit in E' by lia. destruct (Z.ltb_spec (n - 1 - i) n); [|lia].
  cbn [andb] in E'. by replace (n - 1 - (n - 1 - i)) with i in E' by lia.
Qed.

Lemma lxor_range w a b : 0 <= w -> 0 <= a < 2 ^ w -> 0 <= b < 2 ^ w -> 0 <= a ^^^ b < 2 ^ w.
Proof.
  intros Hw Ha Hb. apply testbit_bound; [done|apply Z.lxor_nonneg; lia|].
  intros i Hi. by rewrite Z.lxor_spec, !(testbit_above w) by lia.
Qed.

Lemma lxor_cancel_r a b c : a ^^^ c = b ^^^ c -> a = b.
Proof.
  intros E. rewrite <- (Z.lxor_0_r a), <- (Z.lxor_0_r b), <- (Z.lxor_nilpotent c).
  by rewrite <- !Z.lxor_assoc, E.
Qed.

Lemma lxor_diff a1 a2 c q1 q2 r :
  a1 ^^^ c = q1 ^^^ r -> a2 ^^^ c = q2 ^^^ r -> a1 ^^^ a2 = q1 ^^^ q2.
Proof.
  intros E1 E2. apply (lxor_cancel_r _ _ (c ^^^ r)).
  replace (a1 ^^^ a2 ^^^ (c ^^^ r)) with ((a1 ^^^ c) ^^^ (a2 ^^^ r)) by bitblast.
  replace (q1 ^^^ q2 ^^^ (c ^^^ r)) with ((q1 ^^^ r) ^^^ (q2 ^^^ r) ^^^ (r ^^^ c)) by bitblast.
  rewrite E1, <- E2. bitblast.
Qed.

Lemma crc_result_inj p (Hp : crc_std_ok p) r s :
  0 <= r < 2 ^ std_width p -> 0 <= s < 2 ^ std_width p -> crc_result p r = crc_result p s -> r = s.
Proof.
  intros Hr Hs. destruct Hp as [Hw _ _ _ Hx]. unfold crc_result.
  assert (HR : forall z, 0 <= z < 2 ^ std_width p -> 0 <= REFLECT_REMAINDER p z < 2 ^ std_width p).
  { intros z Hz. unfold REFLECT_REMAINDER. case_match; [apply wrap_range; lia|done]. }
  rewrite !wrap_small by (apply lxor_range; [lia|by apply HR|done]).
  intros E%lxor_cancel_r. unfold REFLECT_REMAINDER in E. case_match; [|done].
  rewrite !wrap_small in E by (apply reflect_range; lia).
  apply (reflect_inj (std_width p)); (done || lia).
Qed.

Lemma crc_poly_odd p (Hp : crc_std_ok p) : Z.testbit (crc_poly p) 0 = true.
Proof.
  rewrite crc_poly_testbit; [|done|lia]. destruct Hp as [Hw Hpoly Hodd Hi Hx].
  destruct (Z.eqb_spec 0 (std_width p)), (Z.ltb_spec 0 (std_width p)); try lia.
  by rewrite Hodd.
Qed.

Lemma burst_changes_crc (p : crc_std) (Hp : crc_std_ok p) (m1 m2 : list Z) (e : Z) (k : nat) :
  bytes_ok m1 -> bytes_ok m2 -> length m1 = length m2 -> 0 < e < 2 ^ std_width p ->
  be_poly (map (REFLECT_DATA p) m1) ^^^ be_poly (map (REFLECT_DATA p) m2) = Z.shiftl e (Z.of_nat k) ->
  crcSlow p m1 (Z.of_nat (length m1)) <> crcSlow p m2 (Z.of_nat (length m2)).
Proof.
  intros H1 H2 Hl He Hdiff Heq.
  destruct (crcSlow_division p Hp m1 H1) as (q1 & r1 & _ & Hr1 & E1 & C1).
  destruct (crcSlow_division p Hp m2 H2) as (q2 & r2 & _ & Hr2 & E2 & C2).
  rewrite C1, C2 in Heq. injection Heq as Heq. apply crc_result_inj in Heq; [|done..]. subst r2.
  destruct (gf2_mul_lxor (std_width p) (crc_poly p) ltac:(destruct Hp; lia) q1 q2) as [q Hq].
  assert (gf2_mul q (crc_poly p) = Z.shiftl e (Z.of_nat (k + Z.to_nat (std_width p)))) as Hmul.
  { destruct Hp as [Hw _ _ _ _]. rewrite Hq, Nat2Z.inj_add, Z2Nat.id by lia.
    rewrite <- Z.shiftl_shiftl, <- Hdiff, Z.shiftl_lxor by lia.
    rewrite Hl in E1. by rewrite (lxor_diff _ _ _ _ _ _ E1 E2). }
  assert (e = 0); [|lia].
  refine (gf2_mul_shift_small (std_width p) (crc_poly p) _ (crc_poly_range p Hp) _ e q
            (crc_poly_odd p Hp) _ Hmul); [destruct Hp; lia|lia].
Qed.

(** C17. burst errors.  Two messages of the same length whose difference is a
    nonzero pattern of at most the CRC's width in bits, anywhere in the
    message (in transmission order), never have the same CRC. *)
Theorem crcSlow_detects_bursts (p : crc_std) (Hp : crc_std_ok p) (m1 m2 : list Z) (e : Z) (k : nat) :
  bytes_ok m1 -> bytes_ok m2 -> length m1 = length m2 -> 0 < e < 2 ^ std_width p ->
  be_poly (map (REFLECT_DATA p) m1) ^^^ be_poly (map (REFLECT_DATA p) m2) = Z.shiftl e (Z.of_nat k) ->
  crcSlow p m1 (Z.of_nat (length m1)) <> crcSlow p m2 (Z.of_nat (length m2)).
Proof. by apply burst_changes_crc. Qed.

Theorem crcSlow_detects_bursts_witness :
  crcSlow CRC_CCITT [0xA5; 0x07; 0x24] 3 <> crcSlow CRC_CCITT [0xA5; 0x87; 0x25] 3.
Proof.
  apply (crcSlow_detects_bursts CRC_CCITT CRC_CCITT_ok [0xA5; 0x07; 0x24] [0xA5; 0x87; 0x25] 0x8001 0);
    [repeat constructor; discriminate|repeat constructor; discriminate|reflexivity|split; reflexivity|reflexivity].
Defined.

(** every standard of crc.h has the check value its comment table gives:
    both calculators map the nine characters 123456789 to [CHECK_VALUE]. *)
Theorem crc_check_values :
  Forall (fun p => crcSlow p (ascii_bytes "123456789") 9 = Some (CHECK_VALUE p) /\
                   crcFast p (crcInit p crcTable_bss) (ascii_bytes "123456789") 9 = Some (CHECK_VALUE p))
    [CRC_CCITT; CRC16; CRC32].
Proof. repeat constructor; vm_compute; reflexivity. Qed.

(** ** The residue: a message followed by its own CRC *)

Lemma crcSlow_loop_app p : forall (suf pre : list Z) i r,
  crcSlow_loop p (length pre + length suf) i (pre ++ suf) r =
  (r' ← crcSlow_loop p (length pre) i (pre ++ suf) r;
   crcSlow_loop p (length suf) (i + Z.of_nat (length pre)) (pre ++ suf) r').
Proof.
  intros suf pre. generalize (pre ++ suf). intros m.
  induction pre as [|x pre IH]; intros i r; [by rewrite Z.add_0_r|].
  cbn [length Nat.add crcSlow_loop]. destruct (m !? i); simpl; [|done].
  rewrite IH. replace (i + 1 + Z.of_nat (length pre)) with (i + Z.of_nat (length (x :: pre)));
    [done|simpl; lia].
Qed.

Lemma zlookup_app_l {A} (l1 l2 : list A) i :
  i < Z.of_nat (length l1) -> (l1 ++ l2) !? i = l1 !? i.
Proof.
  intros Hi. unfold zlookup. destruct (Z.leb_spec 0 i); [|done].
  apply lookup_app_l. lia.
Qed.

(** Only the first [n] bytes of the buffer matter. *)
Lemma crcSlow_loop_prefix p (n : nat) : forall i m1 m2 r,
  0 <= i -> i + Z.of_nat n <= Z.of_nat (length m1) ->
  crcSlow_loop p n i (m1 ++ m2) r = crcSlow_loop p n i m1 r.
Proof.
  induction n as [|n IH]; intros i m1 m2 r Hi Hn; [done|]. cbn [crcSlow_loop].
  rewrite zlookup_app_l by lia. destruct (m1 !? i); simpl; [|done]. apply IH; lia.
Qed.

Lemma crc_bits_0 p (Hp : crc_std_ok p) : crc_bits p 0 = 0.
Proof.
  rewrite crc_bits_low by (done || (destruct Hp; split; [lia|apply Z.pow_pos_nonneg; lia])).
  apply Z.shiftl_0_l.
Qed.

(** Feeding a 16-bit register its own two bytes, high byte first, clears it. *)
Lemma ccitt_absorb r : 0 <= r < 2 ^ 16 ->
  crcSlow_byte CRC_CCITT (crcSlow_byte CRC_CCITT r (Z.shiftr r 8)) (u8 r) = 0.
Proof.
  intros Hr.
  assert (Hhi : forall i, 16 <= i -> Z.testbit r i = false) by (intros; apply (testbit_above 16); lia).
  unfold crcSlow_byte, REFLECT_DATA. simpl std_reflect_data. cbv iota. simpl std_width. change (16 - 8) with 8.
  replace (wrap 16 (r ^^^ Z.shiftl (Z.shiftr r 8) 8)) with (u8 r)
    by (bitblast; rewrite ?Hhi by lia; try btauto; replace (i - 8 + 8) with i by lia; btauto).
  rewrite (crc_bits_low CRC_CCITT CRC_CCITT_ok (u8 r)) by apply (u8_range r).
  rewrite Z.lxor_nilpotent. by apply crc_bits_0.
Qed.

(** Appending a message's CRC-CCITT, high byte first as
    [formI2CProtocolFrame] stores it, makes the CRC of the whole zero. *)
Theorem ccitt_residue (m : list Z) (Hm : bytes_ok m) :
  exists c, crcSlow CRC_CCITT m (Z.of_nat (length m)) = Some c /\
    crcSlow CRC_CCITT (m ++ [Z.shiftr c 8; u8 c]) (Z.of_nat (length m) + 2) = Some 0.
Proof.
  destruct (crcSlow_division CRC_CCITT CRC_CCITT_ok m Hm) as (q & r & _ & Hr & _ & E).
  assert (Hres : crc_result CRC_CCITT r = r).
  { unfold crc_result, REFLECT_REMAINDER. simpl. rewrite Z.lxor_0_r. by apply wrap_small. }
  rewrite Hres in E. exists r. split; [done|].
  unfold crcSlow in *. rewrite Nat2Z.id in E.
  destruct (crcSlow_loop CRC_CCITT (length m) 0 m _) as [r'|] eqn:El; [|done]. simpl in E.
  assert (r' = r) as ->.
  { destruct (crcSlow_loop_div CRC_CCITT CRC_CCITT_ok m [] [] (INITIAL_REMAINDER CRC_CCITT) Hm) as (q' & r2 & _ & Hr2 & E2 & _);
      [done|reflexivity|reflexivity|].
    rewrite app_nil_l in E2. change (Z.of_nat (length [])) with 0 in E2.
    rewrite El in E2. injection E2 as ->.
    apply (crc_result_inj CRC_CCITT CRC_CCITT_ok); [done..|congruence]. }
  replace (Z.to_nat (Z.of_nat (length m) + 2)) with (length m + length [Z.shiftr r 8; u8 r])%nat
    by (simpl; lia).
  rewrite crcSlow_loop_app, crcSlow_loop_prefix, El by lia. cbn [length mbind option_bind].
  rewrite Z.add_0_l. cbn [crcSlow_loop].
  rewrite zlookup_nat, lookup_app_r, Nat.sub_diag by lia. cbn [lookup list_lookup mbind option_bind].
  replace (Z.of_nat (length m) + 1) with (Z.of_nat (S (length m))) by lia.
  rewrite zlookup_nat, lookup_app_r by lia. replace (S (length m) - length m)%nat with 1%nat by lia.
  cbn [lookup list_lookup mbind option_bind]. by rewrite ccitt_absorb.
Qed.

Theorem ccitt_residue_witness :
  exists c, crcSlow CRC_CCITT [0x70; 0x5A] 2 = Some c /\
    crcSlow CRC_CCITT ([0x70; 0x5A] ++ [Z.shiftr c 8; u8 c]) 4 = Some 0.
Proof. apply (ccitt_residue [0x70; 0x5A]). repeat constructor; discriminate. Defined.
