(* ===== verification/Monad.v ===== *)
(** * Monad: outcomes of C code, loops, and the byte-addressed memory

    Stateful C code is a function from a state to an [outcome]: it returns,
    leaves the program through a jump to an absolute address, runs into
    undefined behaviour, or is still polling when its fuel ends. *)

From S2P Require Import Prelude.

Inductive outcome (S A : Type) : Type :=
  | Ok (a : A) (s : S)              (* the function returned *)
  | Jump (entry : Z) (s : S)        (* control left through [jump_to_address] *)
  | Fault (s : S)                   (* undefined behaviour: an access out of an object *)
  | Spin (s : S).                   (* the poll budget is used up *)
Arguments Ok {S A} a s.
Arguments Jump {S A} entry s.
Arguments Fault {S A} s.
Arguments Spin {S A} s.

Definition M (S A : Type) : Type := S -> outcome S A.

#[export] Instance M_ret S : MRet (M S) := fun A a s => Ok a s.
#[export] Instance M_bind S : MBind (M S) := fun A B f m s =>
  match m s with
  | Ok a s' => f a s'
  | Jump e s' => Jump e s'
  | Fault s' => Fault s'
  | Spin s' => Spin s'
  end.

Definition gets {S A} (f : S -> A) : M S A := fun s => Ok (f s) s.
Definition modify {S} (f : S -> S) : M S unit := fun s => Ok tt (f s).
Definition fault {S A} : M S A := fun s => Fault s.
Definition spin {S A} : M S A := fun s => Spin s.
Definition skip {S} : M S unit := fun s => Ok tt s.
(** a2_boot/include/bootloader.h: the entry point is called and nothing is
    executed after it (the C function spins if the callee returns). *)
Definition jump_to_address {S A} (address : Z) : M S A := fun s => Jump (u32 address) s.
Definition of_opt {S A} (o : option A) : M S A :=
  match o with Some a => mret a | None => fault end.
Definition when {S} (b : bool) (m : M S unit) : M S unit := if b then m else skip.

(** [while (cond) body], with at most [fuel] executions of the body. *)
Fixpoint while {S} (fuel : nat) (cond : M S bool) (body : M S unit) : M S unit :=
  b ← cond;
  if (b : bool) then
    match fuel with
    | O => spin
    | Datatypes.S fuel' => body ;; while fuel' cond body
    end
  else skip.

(** [for (i = start; i < start + n; i++) body(i)]. *)
Fixpoint for_ {S} (n : nat) (i : Z) (body : Z -> M S unit) : M S unit :=
  match n with
  | O => skip
  | Datatypes.S n' => body i ;; for_ n' (i + 1) body
  end.

(** ** Running sequentially *)

Lemma bind_ok {S A B} (m : M S A) (f : A -> M S B) s a s' :
  m s = Ok a s' -> (m ≫= f) s = f a s'.
Proof. intros E. unfold mbind, M_bind. by rewrite E. Qed.

Lemma bind_jump {S A B} (m : M S A) (f : A -> M S B) s e s' :
  m s = Jump e s' -> (m ≫= f) s = Jump e s'.
Proof. intros E. unfold mbind, M_bind. by rewrite E. Qed.

Lemma bind_fault {S A B} (m : M S A) (f : A -> M S B) s s' :
  m s = Fault s' -> (m ≫= f) s = Fault s'.
Proof. intros E. unfold mbind, M_bind. by rewrite E. Qed.

Lemma bind_spin {S A B} (m : M S A) (f : A -> M S B) s s' :
  m s = Spin s' -> (m ≫= f) s = Spin s'.
Proof. intros E. unfold mbind, M_bind. by rewrite E. Qed.

Lemma bind_gets {S A B} (g : S -> A) (f : A -> M S B) s : (gets g ≫= f) s = f (g s) s.
Proof. done. Qed.
Lemma bind_modify {S B} (g : S -> S) (f : unit -> M S B) s : (modify g ≫= f) s = f tt (g s).
Proof. done. Qed.
Lemma bind_ret {S A B} (a : A) (f : A -> M S B) s : (mret a ≫= f) s = f a s.
Proof. done. Qed.
Lemma bind_skip {S B} (f : unit -> M S B) s : (skip ≫= f) s = f tt s.
Proof. done. Qed.
Lemma bind_assoc {S A B C} (m : M S A) (f : A -> M S B) (g : B -> M S C) s :
  ((m ≫= f) ≫= g) s = (m ≫= (fun a => f a ≫= g)) s.
Proof. unfold mbind, M_bind. by destruct (m s). Qed.

Lemma bind_ext {S A B} (m : M S A) (f g : A -> M S B) s :
  (forall a s', f a s' = g a s') -> (m ≫= f) s = (m ≫= g) s.
Proof. intros E. unfold mbind, M_bind. by destruct (m s). Qed.

Create Rewrite HintDb monad.
#[export] Hint Rewrite @bind_gets @bind_modify @bind_ret @bind_skip @bind_assoc : monad.

Lemma while_false {S} fuel (cond : M S bool) body s s' :
  cond s = Ok false s' -> while fuel cond body s = Ok tt s'.
Proof. intros E. destruct fuel; simpl; by rewrite (bind_ok _ _ _ _ _ E). Qed.

Lemma while_true {S} fuel (cond : M S bool) body s s' :
  cond s = Ok true s' ->
  while (Datatypes.S fuel) cond body s = (body ;; while fuel cond body) s'.
Proof. intros E. simpl. by rewrite (bind_ok _ _ _ _ _ E). Qed.

(** A loop that runs out of budget has executed its condition each time. *)
Lemma while_spin_0 {S} (cond : M S bool) body s s' :
  cond s = Ok true s' -> while 0 cond body s = Spin s'.
Proof. intros E. simpl. by rewrite (bind_ok _ _ _ _ _ E). Qed.

(** More fuel does not change a loop that ended. *)
Lemma while_fuel_mono {S} (cond : M S bool) body : forall fuel fuel' s,
  (fuel <= fuel')%nat -> (forall s', while fuel cond body s <> Spin s') ->
  (forall s0 s', body s0 <> Spin s') -> (forall s0 s', cond s0 <> Spin s') ->
  while fuel' cond body s = while fuel cond body s.
Proof.
  induction fuel as [|fuel IH]; intros fuel' s Hle Hns Hb Hc.
  - destruct (cond s) as [b s'|e s'|s'|s'] eqn:E.
    + destruct b.
      * exfalso. apply (Hns s'). by apply while_spin_0.
      * by rewrite !(while_false _ _ _ _ _ E).
    + destruct fuel'; simpl; by rewrite !(bind_jump _ _ _ _ _ E).
    + destruct fuel'; simpl; by rewrite !(bind_fault _ _ _ _ E).
    + by apply Hc in E.
  - destruct fuel' as [|fuel']; [lia|].
    destruct (cond s) as [b s'|e s'|s'|s'] eqn:E.
    + destruct b; [|by rewrite !(while_false _ _ _ _ _ E)].
      rewrite !(while_true _ _ _ _ _ E).
      destruct (body s') as [[] s2|e s2|s2|s2] eqn:Eb.
      * rewrite !(bind_ok _ _ _ _ _ Eb). apply IH; [lia| |done|done].
        intros s3 E3. apply (Hns s3). rewrite (while_true _ _ _ _ _ E).
        by rewrite (bind_ok _ _ _ _ _ Eb).
      * by rewrite !(bind_jump _ _ _ _ _ Eb).
      * by rewrite !(bind_fault _ _ _ _ Eb).
      * by apply Hb in Eb.
    + simpl; by rewrite !(bind_jump _ _ _ _ _ E).
    + simpl; by rewrite !(bind_fault _ _ _ _ E).
    + by apply Hc in E.
Qed.

Lemma for_S {S} n i (body : Z -> M S unit) s :
  for_ (Datatypes.S n) i body s = (body i ;; for_ n (i + 1) body) s.
Proof. done. Qed.

(** ** Memory

    RAM is a finite map from byte addresses to bytes; a byte never written
    reads as zero, as crt0.S leaves .bss.  Two memories are equivalent when
    every byte reads the same. *)
Abbreviation memory := (gmap Z Z).

Definition mem_get (m : memory) (a : Z) : Z := default 0 (m !! a).
Definition mem_set (m : memory) (a v : Z) : memory := <[a := u8 v]> m.

Fixpoint mem_write (m : memory) (a : Z) (bs : list Z) : memory :=
  match bs with
  | [] => m
  | b :: bs' => mem_write (mem_set m a b) (a + 1) bs'
  end.
Definition mem_read (m : memory) (a : Z) (n : nat) : list Z :=
  map (fun i => mem_get m (a + i)) (seqZ 0 (Z.of_nat n)).

(** Little-endian 32-bit access, the byte order of the target. *)
Definition le32 (v : Z) : list Z :=
  [u8 v; u8 (Z.shiftr v 8); u8 (Z.shiftr v 16); u8 (Z.shiftr v 24)].
Definition load32 (m : memory) (a : Z) : Z :=
  mem_get m a + 256 * mem_get m (a + 1) + 65536 * mem_get m (a + 2) + 16777216 * mem_get m (a + 3).
Definition store32 (m : memory) (a v : Z) : memory := mem_write m a (le32 v).

Definition mem_eqv (m1 m2 : memory) : Prop := forall a, mem_get m1 a = mem_get m2 a.
#[export] Instance mem_eqv_equiv : Equivalence mem_eqv.
Proof. split; [done|intros m1 m2 H a; by rewrite H|intros m1 m2 m3 H12 H23 a; by rewrite H12]. Qed.
Infix "≈" := mem_eqv (at level 70) : boot_scope.

Lemma mem_get_set m a v x : mem_get (mem_set m a v) x = if x =? a then u8 v else mem_get m x.
Proof.
  unfold mem_get, mem_set. rewrite lookup_insert.
  destruct (Z.eqb_spec x a), (decide (a = x)); (done || congruence).
Qed.

Lemma mem_get_write_out bs : forall m a x,
  ~ a <= x < a + Z.of_nat (length bs) -> mem_get (mem_write m a bs) x = mem_get m x.
Proof.
  induction bs as [|b bs IH]; intros m a x Hx; [done|]. simpl in *.
  rewrite IH by lia. rewrite mem_get_set. destruct (Z.eqb_spec x a); [lia|done].
Qed.

Lemma mem_get_write_in bs : forall m a (i : nat) b,
  bs !! i = Some b -> mem_get (mem_write m a bs) (a + Z.of_nat i) = u8 b.
Proof.
  induction bs as [|b0 bs IH]; intros m a i b Hi; [done|]. destruct i as [|i]; simpl in *.
  - simplify_eq. rewrite mem_get_write_out by lia. rewrite Z.add_0_r, mem_get_set.
    by rewrite Z.eqb_refl.
  - replace (a + Z.of_nat (S i)) with (a + 1 + Z.of_nat i) by lia. by apply IH.
Qed.

#[export] Instance mem_get_proper : Proper (mem_eqv ==> eq ==> eq) mem_get.
Proof. intros m1 m2 H a ? <-. apply H. Qed.

(** Two memories that agree at [x] still agree there after the same write. *)
Lemma mem_write_agree bs m1 m2 a x :
  mem_get m1 x = mem_get m2 x -> mem_get (mem_write m1 a bs) x = mem_get (mem_write m2 a bs) x.
Proof.
  intros E. destruct (decide (a <= x < a + Z.of_nat (length bs))) as [Hin|Hout].
  - assert (Hlt : (Z.to_nat (x - a) < length bs)%nat) by lia.
    apply lookup_lt_is_Some in Hlt as [b Hb].
    replace x with (a + Z.of_nat (Z.to_nat (x - a))) by lia.
    by rewrite !(mem_get_write_in _ _ _ _ _ Hb).
  - by rewrite !mem_get_write_out.
Qed.
#[export] Instance mem_write_proper : Proper (mem_eqv ==> eq ==> eq ==> mem_eqv) mem_write.
Proof. intros m1 m2 H a ? <- bs ? <- x. by apply mem_write_agree. Qed.

Lemma mem_write_app bs1 : forall bs2 m a,
  mem_write m a (bs1 ++ bs2) = mem_write (mem_write m a bs1) (a + Z.of_nat (length bs1)) bs2.
Proof.
  induction bs1 as [|b bs1 IH]; intros bs2 m a; simpl; [by rewrite Z.add_0_r|].
  rewrite IH. f_equal. lia.
Qed.

Lemma mem_read_length m a n : length (mem_read m a n) = n.
Proof. unfold mem_read. rewrite length_map, length_seqZ. lia. Qed.

Lemma mem_read_lookup m a n (i : nat) :
  (i < n)%nat -> mem_read m a n !! i = Some (mem_get m (a + Z.of_nat i)).
Proof.
  intros Hi. unfold mem_read. rewrite list_lookup_fmap.
  rewrite lookup_seqZ_lt by lia. done.
Qed.

Lemma mem_read_ext m1 m2 a n :
  (forall x, a <= x < a + Z.of_nat n -> mem_get m1 x = mem_get m2 x) -> mem_read m1 a n = mem_read m2 a n.
Proof.
  intros H. apply list_eq_same_length with n; [apply mem_read_length|apply mem_read_length|].
  intros i x y Hi. rewrite !mem_read_lookup by lia. intros [= <-] [= <-]. apply H. lia.
Qed.
#[export] Instance mem_read_proper : Proper (mem_eqv ==> eq ==> eq ==> eq) mem_read.
Proof. intros m1 m2 H a ? <- n ? <-. apply mem_read_ext. intros. apply H. Qed.

(** What was written is read back. *)
Lemma mem_read_write m a bs : bytes_ok bs -> mem_read (mem_write m a bs) a (length bs) = bs.
Proof.
  intros Hb. apply list_eq_same_length with (length bs); [done|apply mem_read_length|].
  intros i x y Hi. rewrite mem_read_lookup by lia. intros [= <-] Hy.
  rewrite (mem_get_write_in _ _ _ _ _ Hy). apply u8_small. exact (Forall_lookup_1 _ _ _ _ Hb Hy).
Qed.

Lemma mem_read_write_disjoint m a bs b n :
  b + Z.of_nat n <= a \/ a + Z.of_nat (length bs) <= b -> mem_read (mem_write m a bs) b n = mem_read m b n.
Proof. intros H. apply mem_read_ext. intros x Hx. apply mem_get_write_out. lia. Qed.

Lemma load32_store32 m a v : load32 (store32 m a v) a = u32 v.
Proof.
  unfold load32, store32.
  pose proof (fun i b => mem_get_write_in (le32 v) m a i b) as H.
  pose proof (H 0%nat _ eq_refl) as H0. pose proof (H 1%nat _ eq_refl) as H1.
  pose proof (H 2%nat _ eq_refl) as H2. pose proof (H 3%nat _ eq_refl) as H3.
  change (Z.of_nat 0) with 0 in H0. change (Z.of_nat 1) with 1 in H1.
  change (Z.of_nat 2) with 2 in H2. change (Z.of_nat 3) with 3 in H3.
  rewrite Z.add_0_r in H0. rewrite H0, H1, H2, H3.
  unfold u8, u32, wrap. rewrite !Z.mod_mod by lia. rewrite !Z.shiftr_div_pow2 by lia.
  change (2 ^ 8) with 256. change (2 ^ 16) with 65536. change (2 ^ 24) with 16777216.
  change (2 ^ 32) with 4294967296. Z.div_mod_to_equations. lia.
Qed.

Lemma load32_store32_disjoint m a v b :
  b + 4 <= a \/ a + 4 <= b -> load32 (store32 m a v) b = load32 m b.
Proof.
  intros Hd. unfold load32, store32.
  by rewrite !mem_get_write_out by (simpl; lia).
Qed.

Lemma load32_ext m1 m2 a :
  (forall x, a <= x < a + 4 -> mem_get m1 x = mem_get m2 x) -> load32 m1 a = load32 m2 a.
Proof. intros H. unfold load32. by rewrite !H by lia. Qed.
#[export] Instance load32_proper : Proper (mem_eqv ==> eq ==> eq) load32.
Proof. intros m1 m2 H a ? <-. apply load32_ext. intros. apply H. Qed.
#[global] Arguments mem_get : simpl never.
#[global] Arguments mem_set : simpl never.
#[global] Arguments mem_read : simpl never.
#[global] Arguments load32 : simpl never.
#[global] Arguments store32 : simpl never.

(** A computation run [n] times over. *)
Fixpoint iter_ {S} (n : nat) (m : M S unit) : M S unit :=
  match n with O => skip | Datatypes.S n' => m ;; iter_ n' m end.

Lemma iter_app {S} (m : M S unit) n k s : iter_ (n + k) m s = (iter_ n m ;; iter_ k m) s.
Proof.
  revert s. induction n as [|n IH]; intros s; [done|]. cbn [Nat.add iter_].
  rewrite bind_assoc. unfold mbind, M_bind. destruct (m s); [|done..]. apply IH.
Qed.

(** Outcomes by computation. *)
Definition ok_with {S A} (p : A -> S -> bool) (o : outcome S A) : bool :=
  match o with Ok a s => p a s | _ => false end.
Definition is_fault {S A} (o : outcome S A) : bool := match o with Fault _ => true | _ => false end.
Definition jump_with {S A} (p : Z -> S -> bool) (o : outcome S A) : bool :=
  match o with Jump e s => p e s | _ => false end.
Lemma ok_with_true {S A} p (o : outcome S A) : ok_with p o = true -> exists a s, o = Ok a s /\ p a s = true.
Proof. destruct o as [a s|? ?|?|?]; simpl; try done. by exists a, s. Qed.
Lemma jump_with_true {S A} p (o : outcome S A) : jump_with p o = true -> exists e s, o = Jump e s /\ p e s = true.
Proof. destruct o as [?|e s|?|?]; simpl; try done. by exists e, s. Qed.
Lemma is_fault_true {S A} (o : outcome S A) : is_fault o = true -> exists s, o = Fault s.
Proof. destruct o; simpl; try done. by eexists. Qed.
