(* ===== verification/Hw.v ===== *)
(** * Hw: the peripherals as their documentation describes them

    The boot loader's environment: the register behaviour of the uDMA UART,
    the uDMA QSPI master with a serial flash on its bus, the APB I2C slave and
    the SoC controller, as the register tables under src/rtl/*/data and
    src/docs/doc-src/ip-blocks give them.  Every register is named by the C
    member through which the code reaches it (the headers with the struct
    layouts are generated by the build and are not in the repository).  What the
    documentation leaves open is input: the delays of transfers ([delays]), the
    characters and debugger writes that arrive ([u_rx], [s_jtag]), the
    contents and presence of the flash ([flash]). *)

From S2P Require Import Prelude Monad.

(** ** Register names *)
Inductive uart_reg :=
  | uart_tx_saddr | uart_tx_size | uart_tx_cfg_en
  | uart_setup_div | uart_setup_bits | uart_setup_rx_polling_en | uart_setup_en_tx | uart_setup_en_rx
  | uart_valid_rx_data_valid | uart_data_rx_data.
Inductive qspi_reg :=
  | rx_saddr | rx_size | rx_cfg_en | rx_cfg_clr
  | tx_saddr | tx_size | tx_cfg_en | tx_cfg_clr | tx_cfg_datasize
  | cmd_saddr | cmd_size | cmd_cfg_en | cmd_cfg_clr.
Inductive i2cs_reg :=
  | i2cs_dev_address_slave_addr | i2cs_enable_ip_enable
  | i2cs_msg_i2c_apb | i2cs_msg_i2c_apb_status | i2cs_msg_apb_i2c | i2cs_msg_apb_i2c_status
  | i2cs_fifo_i2c_apb_read_data_port | i2cs_fifo_i2c_apb_flush_enable
  | i2cs_fifo_i2c_apb_write_flags | i2cs_fifo_i2c_apb_read_flags
  | i2cs_fifo_apb_i2c_write_data_port | i2cs_fifo_apb_i2c_flush_enable
  | i2cs_fifo_apb_i2c_write_flags | i2cs_fifo_apb_i2c_read_flags.
Inductive soc_reg := reset_reason | bootsel | jtagreg.
Inductive reg :=
  | Uart (uart_id : Z) (r : uart_reg)
  | Qspim (qspim_id : Z) (r : qspi_reg)
  | I2cs (r : i2cs_reg)
  | Soc (r : soc_reg)
  | Udma_reg_rst | Udma_reg_cg
  | Word (addr : Z).             (* a 32-bit word at an absolute address: the FLLs *)

(** ** Peripheral state *)
Record uart_hw := mk_uart {
  u_saddr : Z; u_size : Z;
  u_busy : nat;                  (* polls of TX_SIZE until the transfer is drained *)
  u_sent : list Z;               (* bytes put on the line so far *)
  u_rx : list (option Z);        (* one element per poll of VALID: a character or none *)
  u_div : Z; u_bits : Z; u_polling : Z; u_en_tx : Z; u_en_rx : Z
}.
Definition uart_reset : uart_hw := mk_uart 0 0 0 [] [] 0 0 0 0 0.

Record flash_hw := mk_flash {
  flash_mem : Z -> Z;            (* the array, by 24-bit address *)
  flash_id : list Z              (* answer to READ ID *)
}.

Record qspi_hw := mk_qspi {
  q_rx_saddr : Z; q_rx_size : Z; q_rx_en : Z;
  q_tx_saddr : Z; q_tx_size : Z; q_tx_en : Z; q_tx_datasize : Z;
  q_cmd_saddr : Z; q_cmd_size : Z;
  q_busy : nat;                  (* polls of RX_SIZE until the receive channel is drained *)
  q_inflight : list Z;           (* bytes received, not yet seen in memory *)
  q_log : list (list Z)          (* the command sequences executed, oldest first *)
}.
Definition qspi_reset : qspi_hw := mk_qspi 0 0 0 0 0 0 0 0 0 0 [] [].

Record i2cs_hw := mk_i2cs {
  i_addr : Z; i_enable : Z;
  i_msg : Z; i_status : Z;       (* message register written by the host, and its flag *)
  i_rx : list Z;                 (* I2C-to-APB FIFO *)
  i_tx : list Z;                 (* APB-to-I2C FIFO *)
  i_out : list Z                 (* messages posted to the host, oldest first *)
}.

Record hw := mk_hw {
  ram : memory;
  uarts : gmap Z uart_hw;
  qspis : gmap Z qspi_hw;
  i2cs : i2cs_hw;
  flash : flash_hw;              (* on chip select 0 of QSPI master 0 *)
  s_reset_reason : Z; s_bootsel : Z;
  s_jtagreg : Z; s_jtag : list (option Z);   (* debugger writes before each read *)
  udma_rst : Z; udma_cg : Z;
  words : gmap Z Z;
  delays : list nat
}.

Definition with_ram (m : memory) (h : hw) : hw :=
  mk_hw m (uarts h) (qspis h) (i2cs h) (flash h) (s_reset_reason h) (s_bootsel h) (s_jtagreg h)
    (s_jtag h) (udma_rst h) (udma_cg h) (words h) (delays h).
Definition get_uart (id : Z) (h : hw) : uart_hw := default uart_reset (uarts h !! id).
Definition with_uart (id : Z) (u : uart_hw) (h : hw) : hw :=
  mk_hw (ram h) (<[id := u]> (uarts h)) (qspis h) (i2cs h) (flash h) (s_reset_reason h) (s_bootsel h)
    (s_jtagreg h) (s_jtag h) (udma_rst h) (udma_cg h) (words h) (delays h).
Definition get_qspi (id : Z) (h : hw) : qspi_hw := default qspi_reset (qspis h !! id).
Definition with_qspi (id : Z) (q : qspi_hw) (h : hw) : hw :=
  mk_hw (ram h) (uarts h) (<[id := q]> (qspis h)) (i2cs h) (flash h) (s_reset_reason h) (s_bootsel h)
    (s_jtagreg h) (s_jtag h) (udma_rst h) (udma_cg h) (words h) (delays h).
Definition with_i2cs (i : i2cs_hw) (h : hw) : hw :=
  mk_hw (ram h) (uarts h) (qspis h) i (flash h) (s_reset_reason h) (s_bootsel h) (s_jtagreg h)
    (s_jtag h) (udma_rst h) (udma_cg h) (words h) (delays h).
Definition with_jtag (v : Z) (l : list (option Z)) (h : hw) : hw :=
  mk_hw (ram h) (uarts h) (qspis h) (i2cs h) (flash h) (s_reset_reason h) (s_bootsel h) v l
    (udma_rst h) (udma_cg h) (words h) (delays h).
Definition with_udma (rst cg : Z) (h : hw) : hw :=
  mk_hw (ram h) (uarts h) (qspis h) (i2cs h) (flash h) (s_reset_reason h) (s_bootsel h) (s_jtagreg h)
    (s_jtag h) rst cg (words h) (delays h).
Definition with_words (w : gmap Z Z) (h : hw) : hw :=
  mk_hw (ram h) (uarts h) (qspis h) (i2cs h) (flash h) (s_reset_reason h) (s_bootsel h) (s_jtagreg h)
    (s_jtag h) (udma_rst h) (udma_cg h) w (delays h).
Definition with_delays (d : list nat) (h : hw) : hw :=
  mk_hw (ram h) (uarts h) (qspis h) (i2cs h) (flash h) (s_reset_reason h) (s_bootsel h) (s_jtagreg h)
    (s_jtag h) (udma_rst h) (udma_cg h) (words h) d.
Definition next_delay (h : hw) : nat := hd 0%nat (delays h).
Definition pop_delay (h : hw) : hw := with_delays (tl (delays h)) h.

(** ** The QSPI command language and the flash

    udma_qspi_reg_defs.csv: a command is one word, its code in bits 31..28. *)
Definition field (w hi lo : Z) : Z := Z.shiftr w lo &&& Z.ones (hi - lo + 1).

(** [n] bits of [v], most significant first, and back. *)
Fixpoint bits_msb (n : nat) (v : Z) : list bool :=
  match n with O => [] | S n' => Z.testbit v (Z.of_nat n') :: bits_msb n' v end.
Definition bits_val (bs : list bool) : Z := foldl (fun acc (b : bool) => 2 * acc + Z.b2z b) 0 bs.

(** [WORD_PER_TRANSF]: the words of one uDMA access.  A reception hands over whole
    accesses only: of the 8-bit words [bs], [g] at a time, each access one 32-bit
    word in L2 ([DATASIZE] keeps its reset value), its unused bytes zero.  The
    words of an access that is not complete stay in the shift register. *)
Definition words_per_transf (w : Z) : nat :=
  let f := field w 22 21 in if f =? 1 then 2%nat else if f =? 2 then 4%nat else 1%nat.
Fixpoint accesses (n g : nat) (bs : list Z) : list Z :=
  match n with
  | O => []
  | S n' => take g bs ++ replicate (4 - g) 0 ++ accesses n' g (drop g bs)
  end.
Definition received (g : nat) (bs : list Z) : list Z := accesses (length bs / g) g bs.

Record spim_st := mk_spim { cs : option Z; mosi : list bool; miso : list Z }.

(** A flash answers READ (0x03) with a 24-bit address by streaming its array,
    wrapping at its end, and READ ID (0x9f) with its identification; otherwise,
    and when it is not selected, the line floats high. *)
Definition flash_reply (f : flash_hw) (m : list bool) (n : nat) : list Z :=
  let opcode := bits_val (take 8 m) in
  if (opcode =? 0x03) && (Z.of_nat (length m) =? 32) then
    map (fun i => u8 (flash_mem f ((bits_val (drop 8 m) + i) mod 2 ^ 24))) (seqZ 0 (Z.of_nat n))
  else if (opcode =? 0x9f) && (Z.of_nat (length m) =? 8) then
    take n (flash_id f ++ replicate n 0xFF)
  else replicate n 0xFF.

Definition spim_word (f : flash_hw) (st : spim_st) (w : Z) : spim_st :=
  let code := field w 31 28 in
  if code =? 1 then mk_spim (Some (field w 1 0)) [] (miso st)
  else if code =? 2 then
    mk_spim (cs st) (mosi st ++ bits_msb (Z.to_nat (field w 19 16 + 1)) (field w 15 0)) (miso st)
  else if code =? 7 then
    let n := Z.to_nat (field w 15 0 + 1) in
    if field w 20 16 =? 7 then
      mk_spim (cs st) (mosi st)
        (miso st ++ received (words_per_transf w)
                      (if bool_decide (cs st = Some 0) then flash_reply f (mosi st) n else replicate n 0xFF))
    else st
  else if code =? 9 then mk_spim None (mosi st) (miso st)
  else st.

Definition spim_run (f : flash_hw) (ws : list Z) : list Z :=
  miso (foldl (spim_word f) (mk_spim None [] []) ws).

(** The words of a command sequence in memory. *)
Definition fetch_words (m : memory) (a : Z) (n : nat) : list Z :=
  map (fun i => load32 m (a + 4 * i)) (seqZ 0 (Z.of_nat n)).

(** ** The uDMA and the L2 memory

    The address registers of the uDMA channels hold 19 bits (SADDR in udma_qspim.rst
    and udma_uart.rst): a place in the 512 KB of L2 at 0x1C000000 (mmap.rst).  Whatever
    address software writes, the channel accesses L2, and wraps at its end. *)
Definition L2_BASE : Z := 0x1C000000.
Definition L2_SIZE : Z := 2 ^ 19.
Definition saddr (v : Z) : Z := v mod L2_SIZE.
Definition l2_addr (a : Z) : Z := L2_BASE + saddr a.
Definition in_l2 (a n : Z) : Prop := L2_BASE <= a /\ a + n <= L2_BASE + L2_SIZE.
Definition dma_read (m : memory) (a : Z) (n : nat) : list Z :=
  map (fun i => mem_get m (l2_addr (a + i))) (seqZ 0 (Z.of_nat n)).
Fixpoint dma_write (m : memory) (a : Z) (bs : list Z) : memory :=
  match bs with
  | [] => m
  | b :: bs' => dma_write (mem_set m (l2_addr a) b) (a + 1) bs'
  end.
Definition dma_words (m : memory) (a : Z) (n : nat) : list Z :=
  map (fun i => load32 m (l2_addr (a + 4 * i))) (seqZ 0 (Z.of_nat n)).

Lemma l2_addr_in a n i : in_l2 a n -> 0 <= i < n -> l2_addr (a + i) = a + i.
Proof. unfold in_l2, l2_addr, saddr, L2_BASE, L2_SIZE. intros. Z.div_mod_to_equations. lia. Qed.
Lemma l2_addr_saddr v i : l2_addr (saddr v + i) = l2_addr (v + i).
Proof. unfold l2_addr, saddr. by rewrite Zplus_mod_idemp_l. Qed.

Lemma dma_read_saddr m v n : dma_read m (saddr v) n = dma_read m v n.
Proof. apply map_ext. intros i. by rewrite l2_addr_saddr. Qed.
Lemma dma_read_l2 m a n : in_l2 a (Z.of_nat n) -> dma_read m a n = mem_read m a n.
Proof.
  intros Ha. apply map_ext_in. intros i Hi%list_elem_of_In%elem_of_seqZ. by rewrite (l2_addr_in a (Z.of_nat n)) by (done || lia).
Qed.
Lemma dma_words_saddr m v n : dma_words m (saddr v) n = dma_words m v n.
Proof. apply map_ext. intros i. by rewrite l2_addr_saddr. Qed.
Lemma dma_words_l2 m a n : in_l2 a (4 * Z.of_nat n) -> dma_words m a n = fetch_words m a n.
Proof.
  intros Ha. apply map_ext_in. intros i Hi%list_elem_of_In%elem_of_seqZ.
  by rewrite (l2_addr_in a (4 * Z.of_nat n)) by (done || lia).
Qed.

Lemma dma_write_saddr bs : forall m v, dma_write m (saddr v) bs = dma_write m v bs.
Proof.
  assert (Hgen : forall m v i, dma_write m (saddr v + i) bs = dma_write m (v + i) bs).
  { induction bs as [|b bs IH]; intros m v i; [done|]. cbn [dma_write].
    rewrite l2_addr_saddr, <- !Z.add_assoc. apply IH. }
  intros m v. specialize (Hgen m v 0). by rewrite !Z.add_0_r in Hgen.
Qed.
Lemma dma_write_place bs m v : dma_write m v bs = dma_write m (l2_addr v) bs.
Proof.
  rewrite <- (dma_write_saddr bs m (l2_addr v)), <- (dma_write_saddr bs m v). f_equal.
  unfold l2_addr, saddr, L2_BASE, L2_SIZE. Z.div_mod_to_equations. lia.
Qed.
Lemma dma_write_l2 bs : forall m a, in_l2 a (Z.of_nat (length bs)) -> dma_write m a bs = mem_write m a bs.
Proof.
  induction bs as [|b bs IH]; intros m a Ha; [done|]. cbn [dma_write mem_write length] in *.
  pose proof (l2_addr_in a _ 0 Ha ltac:(lia)) as E. rewrite !Z.add_0_r in E. rewrite E. apply IH. unfold in_l2 in *. lia.
Qed.
Lemma dma_write_out bs : forall m a x, (forall i, 0 <= i < Z.of_nat (length bs) -> x <> l2_addr (a + i)) ->
  mem_get (dma_write m a bs) x = mem_get m x.
Proof.
  induction bs as [|b bs IH]; intros m a x Hx; [done|]. cbn [dma_write length] in *. rewrite IH.
  - rewrite mem_get_set. destruct (Z.eqb_spec x (l2_addr a)) as [E|]; [|done].
    exfalso. apply (Hx 0); [lia|]. by rewrite Z.add_0_r.
  - intros i Hi. rewrite <- Z.add_assoc. apply Hx. lia.
Qed.
Lemma dma_write_in bs : forall m a (i : nat) b, (Z.of_nat (length bs) <= L2_SIZE) -> bs !! i = Some b ->
  mem_get (dma_write m a bs) (l2_addr (a + Z.of_nat i)) = u8 b.
Proof.
  induction bs as [|b0 bs IH]; intros m a i b Hl Hi; [done|]. cbn [dma_write length] in *. destruct i as [|i].
  - simplify_eq/=. rewrite dma_write_out.
    + by rewrite Z.add_0_r, mem_get_set, Z.eqb_refl.
    + intros j Hj. unfold l2_addr, saddr, L2_SIZE in *. Z.div_mod_to_equations. lia.
  - replace (a + Z.of_nat (S i)) with (a + 1 + Z.of_nat i) by lia. apply IH; [lia|done].
Qed.

(** ** Register reads *)
Definition fifo_read_flags (n : Z) : Z :=
  if n =? 0 then 0 else if n =? 1 then 1 else if n <? 4 then 2 else if n <? 8 then 3
  else if n <? 32 then 4 else if n <? 64 then 5 else if n <? 128 then 6 else 7.
Definition fifo_write_flags (n : Z) : Z :=
  let s := 256 - n in
  if s =? 0 then 7 else if s =? 1 then 6 else if s <? 4 then 5 else if s <? 8 then 4
  else if s <? 32 then 3 else if s <? 64 then 2 else if s <? 128 then 1 else 0.

Definition uart_read (id : Z) (r : uart_reg) (h : hw) : Z * hw :=
  let u := get_uart id h in
  let upd busy rx := with_uart id (mk_uart (u_saddr u) (u_size u) busy (u_sent u) rx
    (u_div u) (u_bits u) (u_polling u) (u_en_tx u) (u_en_rx u)) h in
  match r with
  | uart_tx_size =>
      match u_busy u with O => (0, h) | S n => (u_size u, upd n (u_rx u)) end
  | uart_valid_rx_data_valid =>
      match u_rx u with
      | Some _ :: _ => (1, h)
      | None :: rest => (0, upd (u_busy u) rest)
      | [] => (0, h)
      end
  | uart_data_rx_data =>
      match u_rx u with
      | Some c :: rest => (u8 c, upd (u_busy u) rest)
      | _ => (0, h)
      end
  | uart_tx_saddr => (u_saddr u, h)
  | uart_tx_cfg_en => (0, h)
  | uart_setup_div => (u_div u, h)
  | uart_setup_bits => (u_bits u, h)
  | uart_setup_rx_polling_en => (u_polling u, h)
  | uart_setup_en_tx => (u_en_tx u, h)
  | uart_setup_en_rx => (u_en_rx u, h)
  end.

Definition qspi_read (id : Z) (r : qspi_reg) (h : hw) : Z * hw :=
  let q := get_qspi id h in
  let upd saddr size busy inflight := with_qspi id (mk_qspi saddr size (q_rx_en q)
    (q_tx_saddr q) (q_tx_size q) (q_tx_en q) (q_tx_datasize q) (q_cmd_saddr q) (q_cmd_size q)
    busy inflight (q_log q)) in
  match r with
  | rx_size =>
      match q_busy q with
      | S n => (q_rx_size q, upd (q_rx_saddr q) (q_rx_size q) n (q_inflight q) h)
      | O =>
          let n := Z.of_nat (length (q_inflight q)) in
          let left := q_rx_size q - n in
          (left, upd (saddr (q_rx_saddr q + n)) left 0%nat []
                   (with_ram (dma_write (ram h) (q_rx_saddr q) (q_inflight q)) h))
      end
  | rx_saddr => (q_rx_saddr q, h)
  | tx_saddr => (q_tx_saddr q, h)
  | tx_size => (q_tx_size q, h)
  | cmd_saddr => (q_cmd_saddr q, h)
  | cmd_size => (q_cmd_size q, h)
  | rx_cfg_en => (q_rx_en q, h)
  | tx_cfg_en => (q_tx_en q, h)
  | tx_cfg_datasize => (0, h)
  | cmd_cfg_en | rx_cfg_clr | tx_cfg_clr | cmd_cfg_clr => (0, h)
  end.

Definition i2cs_read (r : i2cs_reg) (h : hw) : Z * hw :=
  let i := i2cs h in
  match r with
  | i2cs_dev_address_slave_addr => (i_addr i, h)
  | i2cs_enable_ip_enable => (i_enable i, h)
  | i2cs_msg_i2c_apb =>
      (i_msg i, with_i2cs (mk_i2cs (i_addr i) (i_enable i) (i_msg i) 0 (i_rx i) (i_tx i) (i_out i)) h)
  | i2cs_msg_i2c_apb_status => (i_status i, h)
  | i2cs_msg_apb_i2c => (List.last (i_out i) 0, h)
  | i2cs_msg_apb_i2c_status => (if bool_decide (i_out i = []) then 0 else 1, h)
  | i2cs_fifo_i2c_apb_read_data_port =>
      match i_rx i with
      | b :: rest =>
          (b, with_i2cs (mk_i2cs (i_addr i) (i_enable i) (i_msg i) (i_status i) rest (i_tx i) (i_out i)) h)
      | [] => (0, h)
      end
  | i2cs_fifo_i2c_apb_read_flags => (fifo_read_flags (Z.of_nat (length (i_rx i))), h)
  | i2cs_fifo_i2c_apb_write_flags => (fifo_write_flags (Z.of_nat (length (i_rx i))), h)
  | i2cs_fifo_apb_i2c_read_flags => (fifo_read_flags (Z.of_nat (length (i_tx i))), h)
  | i2cs_fifo_apb_i2c_write_flags => (fifo_write_flags (Z.of_nat (length (i_tx i))), h)
  | i2cs_fifo_i2c_apb_flush_enable | i2cs_fifo_apb_i2c_write_data_port
  | i2cs_fifo_apb_i2c_flush_enable => (0, h)
  end.

Definition soc_read (r : soc_reg) (h : hw) : Z * hw :=
  match r with
  | reset_reason => (s_reset_reason h, h)
  | bootsel => (s_bootsel h, h)
  | jtagreg =>
      match s_jtag h with
      | Some v :: rest => (v, with_jtag v rest h)
      | None :: rest => (s_jtagreg h, with_jtag (s_jtagreg h) rest h)
      | [] => (s_jtagreg h, h)
      end
  end.

Definition hw_read (r : reg) (h : hw) : Z * hw :=
  match r with
  | Uart id r => uart_read id r h
  | Qspim id r => qspi_read id r h
  | I2cs r => i2cs_read r h
  | Soc r => soc_read r h
  | Udma_reg_rst => (udma_rst h, h)
  | Udma_reg_cg => (udma_cg h, h)
  | Word a => (default 0 (words h !! a), h)
  end.

(** ** Register writes *)
Definition uart_write (id : Z) (r : uart_reg) (v : Z) (h : hw) : hw :=
  let u := get_uart id h in
  let setup div bits pol etx erx := with_uart id (mk_uart (u_saddr u) (u_size u) (u_busy u) (u_sent u)
    (u_rx u) div bits pol etx erx) h in
  let tx saddr size := with_uart id (mk_uart saddr size (u_busy u) (u_sent u)
    (u_rx u) (u_div u) (u_bits u) (u_polling u) (u_en_tx u) (u_en_rx u)) h in
  match r with
  | uart_tx_saddr => tx (saddr v) (u_size u)
  | uart_tx_size => tx (u_saddr u) v
  | uart_tx_cfg_en =>
      if v =? 1 then
        with_uart id (mk_uart (u_saddr u) (u_size u) (next_delay h)
          (u_sent u ++ dma_read (ram h) (u_saddr u) (Z.to_nat (u_size u)))
          (u_rx u) (u_div u) (u_bits u) (u_polling u) (u_en_tx u) (u_en_rx u)) (pop_delay h)
      else h
  | uart_setup_div => setup v (u_bits u) (u_polling u) (u_en_tx u) (u_en_rx u)
  | uart_setup_bits => setup (u_div u) v (u_polling u) (u_en_tx u) (u_en_rx u)
  | uart_setup_rx_polling_en => setup (u_div u) (u_bits u) v (u_en_tx u) (u_en_rx u)
  | uart_setup_en_tx => setup (u_div u) (u_bits u) (u_polling u) v (u_en_rx u)
  | uart_setup_en_rx => setup (u_div u) (u_bits u) (u_polling u) (u_en_tx u) v
  | uart_valid_rx_data_valid | uart_data_rx_data => h      (* read only *)
  end.

(** Enabling the command channel fetches and executes the command sequence;
    what it receives goes to the receive buffer if that channel is enabled. *)
Definition qspi_start (id : Z) (h : hw) : hw :=
  let q := get_qspi id h in
  let ws := dma_words (ram h) (q_cmd_saddr q) (Z.to_nat (q_cmd_size q / 4)) in
  let rx := if id =? 0 then spim_run (flash h) ws
            else spim_run (mk_flash (fun _ => 0xFF) []) ws in
  let inflight := if q_rx_en q =? 1 then take (Z.to_nat (q_rx_size q)) rx else [] in
  with_qspi id (mk_qspi (q_rx_saddr q) (q_rx_size q) (q_rx_en q) (q_tx_saddr q) (q_tx_size q)
    (q_tx_en q) (q_tx_datasize q) (q_cmd_saddr q) (q_cmd_size q) (next_delay h) inflight
    (q_log q ++ [ws])) (pop_delay h).

Definition qspi_write (id : Z) (r : qspi_reg) (v : Z) (h : hw) : hw :=
  let q := get_qspi id h in
  let rx saddr size en busy inflight := with_qspi id (mk_qspi saddr size en (q_tx_saddr q) (q_tx_size q)
    (q_tx_en q) (q_tx_datasize q) (q_cmd_saddr q) (q_cmd_size q) busy inflight (q_log q)) h in
  let tx saddr size en ds := with_qspi id (mk_qspi (q_rx_saddr q) (q_rx_size q) (q_rx_en q) saddr size en ds
    (q_cmd_saddr q) (q_cmd_size q) (q_busy q) (q_inflight q) (q_log q)) h in
  let cmd saddr size := with_qspi id (mk_qspi (q_rx_saddr q) (q_rx_size q) (q_rx_en q) (q_tx_saddr q)
    (q_tx_size q) (q_tx_en q) (q_tx_datasize q) saddr size (q_busy q) (q_inflight q) (q_log q)) h in
  match r with
  | rx_saddr => rx (saddr v) (q_rx_size q) (q_rx_en q) (q_busy q) (q_inflight q)
  | rx_size => rx (q_rx_saddr q) v (q_rx_en q) (q_busy q) (q_inflight q)
  | rx_cfg_en => rx (q_rx_saddr q) (q_rx_size q) v (q_busy q) (q_inflight q)
  | rx_cfg_clr => if v =? 1 then rx (q_rx_saddr q) 0 0 0%nat [] else h
  | tx_saddr => tx (saddr v) (q_tx_size q) (q_tx_en q) (q_tx_datasize q)
  | tx_size => tx (q_tx_saddr q) v (q_tx_en q) (q_tx_datasize q)
  | tx_cfg_en => tx (q_tx_saddr q) (q_tx_size q) v (q_tx_datasize q)
  | tx_cfg_datasize => tx (q_tx_saddr q) (q_tx_size q) (q_tx_en q) v
  | tx_cfg_clr => if v =? 1 then tx (q_tx_saddr q) 0 0 (q_tx_datasize q) else h
  | cmd_saddr => cmd (saddr v) (q_cmd_size q)
  | cmd_size => cmd (q_cmd_saddr q) v
  | cmd_cfg_en => if v =? 1 then qspi_start id h else h
  | cmd_cfg_clr => if v =? 1 then cmd (q_cmd_saddr q) 0 else h
  end.

Definition i2cs_write (r : i2cs_reg) (v : Z) (h : hw) : hw :=
  let i := i2cs h in
  match r with
  | i2cs_dev_address_slave_addr =>
      with_i2cs (mk_i2cs (v mod 128) (i_enable i) (i_msg i) (i_status i) (i_rx i) (i_tx i) (i_out i)) h
  | i2cs_enable_ip_enable =>
      with_i2cs (mk_i2cs (i_addr i) v (i_msg i) (i_status i) (i_rx i) (i_tx i) (i_out i)) h
  | i2cs_msg_apb_i2c =>
      with_i2cs (mk_i2cs (i_addr i) (i_enable i) (i_msg i) (i_status i) (i_rx i) (i_tx i) (i_out i ++ [u8 v])) h
  | i2cs_fifo_apb_i2c_write_data_port =>
      if bool_decide (length (i_tx i) < 256)%nat then
        with_i2cs (mk_i2cs (i_addr i) (i_enable i) (i_msg i) (i_status i) (i_rx i) (i_tx i ++ [u8 v]) (i_out i)) h
      else h
  | i2cs_fifo_apb_i2c_flush_enable =>
      if v =? 1 then with_i2cs (mk_i2cs (i_addr i) (i_enable i) (i_msg i) (i_status i) (i_rx i) [] (i_out i)) h else h
  | i2cs_fifo_i2c_apb_flush_enable =>
      if v =? 1 then with_i2cs (mk_i2cs (i_addr i) (i_enable i) (i_msg i) (i_status i) [] (i_tx i) (i_out i)) h else h
  | i2cs_msg_i2c_apb | i2cs_msg_i2c_apb_status | i2cs_msg_apb_i2c_status
  | i2cs_fifo_i2c_apb_read_data_port | i2cs_fifo_i2c_apb_write_flags | i2cs_fifo_i2c_apb_read_flags
  | i2cs_fifo_apb_i2c_write_flags | i2cs_fifo_apb_i2c_read_flags => h      (* read only *)
  end.

Definition hw_write (r : reg) (v : Z) (h : hw) : hw :=
  match r with
  | Uart id r => uart_write id r v h
  | Qspim id r => qspi_write id r v h
  | I2cs r => i2cs_write r v h
  | Soc jtagreg => with_jtag v (s_jtag h) h
  | Soc _ => h
  | Udma_reg_rst => with_udma v (udma_cg h) h
  | Udma_reg_cg => with_udma (udma_rst h) v h
  | Word a => with_words (<[a := v]> (words h)) h
  end.

(** ** Accesses as computations *)
Definition rd (r : reg) : M hw Z := fun h => let '(v, h') := hw_read r h in Ok v h'.
Definition wr (r : reg) (v : Z) : M hw unit := fun h => Ok tt (hw_write r v h).
Definition set_ram (f : memory -> memory) : M hw unit := modify (fun h => with_ram (f (ram h)) h).

Lemma bind_rd {B} r (f : Z -> M hw B) h : (rd r ≫= f) h = f (hw_read r h).1 (hw_read r h).2.
Proof. unfold mbind, M_bind, rd. by destruct (hw_read r h). Qed.
Lemma bind_wr {B} r v (f : unit -> M hw B) h : (wr r v ≫= f) h = f tt (hw_write r v h).
Proof. done. Qed.
Lemma bind_set_ram {B} g (f : unit -> M hw B) h :
  (set_ram g ≫= f) h = f tt (with_ram (g (ram h)) h).
Proof. done. Qed.
#[export] Hint Rewrite @bind_rd @bind_wr @bind_set_ram : monad.

Lemma get_with_uart id u h : get_uart id (with_uart id u h) = u.
Proof. unfold get_uart. simpl. by rewrite lookup_insert_eq. Qed.
Lemma get_with_uart_ne id id' u h : id <> id' -> get_uart id' (with_uart id u h) = get_uart id' h.
Proof. intros Hne. unfold get_uart. simpl. by rewrite lookup_insert_ne. Qed.
Lemma get_with_qspi id q h : get_qspi id (with_qspi id q h) = q.
Proof. unfold get_qspi. simpl. by rewrite lookup_insert_eq. Qed.
#[export] Hint Rewrite get_with_uart get_with_qspi : monad.

(** Unfold register accesses whose register is known, and read back records. *)
Ltac hw_simpl :=
  cbn [hw_read hw_write uart_read uart_write qspi_read qspi_write i2cs_read i2cs_write soc_read fst snd];
  repeat (rewrite ?get_with_uart, ?get_with_qspi;
          cbn [u_saddr u_size u_busy u_sent u_rx u_div u_bits u_polling u_en_tx u_en_rx
               q_rx_saddr q_rx_size q_rx_en q_tx_saddr q_tx_size q_tx_en q_tx_datasize q_cmd_saddr
               q_cmd_size q_busy q_inflight q_log]).

(** ** Addresses the compiler and the linker choose

    The objects whose address the code hands to a DMA engine: the local [c] of
    [dbg_ch_raw], the local [lChar] of [sendUartProtocolFrame], the command buffer
    [auccmd] of spi.c and the static [bootCode] of main.c.  All other C objects
    are kept apart from [ram]. *)
Class Layout := {
  addr_c : Z;
  addr_lChar : Z;
  addr_auccmd : Z;
  addr_bootCode : Z
}.

(** The locals lie in L2, where the stack is. *)
Class LocalsOk (L : Layout) : Prop := {
  locals_c : in_l2 addr_c 4;
  locals_lChar : in_l2 addr_lChar 1
}.

(** What core-v-mcu2-rom.ld guarantees: statics and stack are in L2, and the objects
    do not overlap. *)
Class LayoutOk (L : Layout) : Prop := {
  layout_locals :: LocalsOk L;
  layout_auccmd : in_l2 addr_auccmd 64;
  layout_bootCode : in_l2 addr_bootCode 6440;
  layout_c_auccmd : addr_c + 4 <= addr_auccmd \/ addr_auccmd + 64 <= addr_c;
  layout_lChar_auccmd : addr_lChar < addr_auccmd \/ addr_auccmd + 64 <= addr_lChar;
  layout_bootCode_auccmd : addr_bootCode + 6440 <= addr_auccmd \/ addr_auccmd + 64 <= addr_bootCode;
  layout_bootCode_c : addr_bootCode + 6440 <= addr_c \/ addr_c + 4 <= addr_bootCode;
  layout_bootCode_lChar : addr_bootCode + 6440 <= addr_lChar \/ addr_lChar < addr_bootCode
}.

(** A board after reset: idle peripherals, nothing received, an immediate bus.
    Witnesses run on it. *)
Definition reset_board (f : flash_hw) : hw :=
  mk_hw ∅ ∅ ∅ (mk_i2cs 0 0 0 0 [] [] []) f 1 0 0 [] 0 0 ∅ [].
Definition board_receiving (cs : list Z) (f : flash_hw) : hw :=
  with_uart 0 (mk_uart 0 0 0 [] (map Some cs) 0 0 0 0 0) (reset_board f).
Definition sample_flash : flash_hw := mk_flash (fun a => (a * 7 + 3) mod 256) [0x20; 0xBA; 0x18; 0x10].
Definition sample_layout : Layout := {|
  addr_c := 0x1C07FF00;
  addr_lChar := 0x1C07FF10;
  addr_auccmd := 0x1C07E000;
  addr_bootCode := 0x1C07C000
|}.
#[export] Instance sample_layout_ok : LayoutOk sample_layout.
Proof. split; try split; unfold in_l2, L2_BASE, L2_SIZE; simpl; lia. Qed.
