(* ===== verification/Uart.v ===== *)
(** * Uart: the uDMA UART driver of a2_boot/uart.c

    The register-level driver ([udma_uart_open], [udma_uart_writeraw],
    [udma_uart_readraw]), the interface [UartPort] its clients program against,
    and the proof that the driver keeps the interface's promises. *)

From S2P Require Import Prelude Monad Hw.

(** The number of polls a busy-wait loop is given. *)
Class Budget := budget : nat.
Definition sample_budget : Budget := 3%nat.

(** Clock-enable masks of the generated core-v-mcu-config.h. *)
Class SocConfig := {
  UDMA_CTRL_UART0_CLKEN : Z;
  UDMA_CTRL_QSPIM0_CLKEN : Z
}.

(** [while (reg != 0) i++;] *)
Fixpoint poll_zero (fuel : nat) (r : reg) (i : Z) : M hw Z :=
  v ← rd r;
  if v =? 0 then mret i
  else match fuel with O => spin | S fuel' => poll_zero fuel' r (i + 1) end.

Section Driver.
Context `{Budget} `{SocConfig}.

Definition udma_uart_open (uart_id xbaudrate : Z) : M hw Z :=
  let mask := Z.shiftl UDMA_CTRL_UART0_CLKEN uart_id in
  rst ← rd Udma_reg_rst; wr Udma_reg_rst (u32 (rst ||| mask)) ;;
  rst ← rd Udma_reg_rst; wr Udma_reg_rst (u32 (rst &&& Z.lnot mask)) ;;
  cg ← rd Udma_reg_cg; wr Udma_reg_cg (u32 (cg ||| mask)) ;;
  (if xbaudrate =? 0 then fault else wr (Uart uart_id uart_setup_div) (u16 (5000000 / xbaudrate))) ;;
  wr (Uart uart_id uart_setup_bits) 3 ;;
  wr (Uart uart_id uart_setup_rx_polling_en) 1 ;;
  wr (Uart uart_id uart_setup_en_tx) 1 ;;
  wr (Uart uart_id uart_setup_en_rx) 1 ;;
  mret 0.

Definition udma_uart_writeraw (uart_id write_len write_buffer : Z) : M hw Z :=
  i ← poll_zero budget (Uart uart_id uart_tx_size) 0;
  wr (Uart uart_id uart_tx_saddr) write_buffer ;;
  wr (Uart uart_id uart_tx_size) (u16 write_len) ;;
  wr (Uart uart_id uart_tx_cfg_en) 1 ;;
  i ← poll_zero budget (Uart uart_id uart_tx_size) i;
  mret (u16 i).

(** The status, and the character stored through [read_buffer] (its old value
    when nothing was received). *)
Definition udma_uart_readraw (uart_id read_len read_buffer : Z) : M hw (Z * Z) :=
  valid ← rd (Uart uart_id uart_valid_rx_data_valid);
  if valid =? 1 then
    c ← rd (Uart uart_id uart_data_rx_data);
    mret (1, c)
  else mret (0, read_buffer).
End Driver.

(** ** The interface

    [console out h h']: between [h] and [h'] the bytes [out], tagged with their
    UART, went out and nothing else that the boot loader can observe changed. *)
Definition sent (id : Z) (h : hw) : list Z := u_sent (get_uart id h).
Definition rx_schedule (id : Z) (h : hw) : list (option Z) := u_rx (get_uart id h).
Definition on_uart (id : Z) (out : list (Z * Z)) : list Z :=
  omap (fun p => if p.1 =? id then Some p.2 else None) out.

(** Every transfer, running or future, drains within the poll budget. *)
Definition timely `{Budget} (h : hw) : Prop :=
  Forall (fun d => d <= budget)%nat (delays h) /\ forall id, (u_busy (get_uart id h) <= budget)%nat.

Record same_board (h h' : hw) : Prop := {
  same_ram : ram h' = ram h;
  same_qspis : qspis h' = qspis h;
  same_i2cs : i2cs h' = i2cs h;
  same_flash : flash h' = flash h;
  same_reset : s_reset_reason h' = s_reset_reason h;
  same_bootsel : s_bootsel h' = s_bootsel h;
  same_jtagreg : s_jtagreg h' = s_jtagreg h;
  same_jtag : s_jtag h' = s_jtag h;
  same_words : words h' = words h
}.
#[export] Instance same_board_preorder : PreOrder same_board.
Proof.
  split; [intros h; by split|]. intros h1 h2 h3 [] []. split; congruence.
Qed.

Record console `{Budget} (out : list (Z * Z)) (h h' : hw) : Prop := {
  con_board : same_board h h';
  con_sent : forall id, sent id h' = sent id h ++ on_uart id out;
  con_rx : forall id, rx_schedule id h' = rx_schedule id h;
  con_timely : timely h -> timely h'
}.

Class UartPort := {
  readraw : Z -> Z -> Z -> M hw (Z * Z);
  writeraw : Z -> Z -> Z -> M hw Z
}.

(** What the driver promises: a write sends exactly the buffer, which the uDMA
    finds when it is in L2; a read takes
    the next element of the receive schedule. *)
Class UartPortOk `{Budget} (P : UartPort) := {
  writeraw_sends : forall id len a h, timely h -> 0 <= len < 65536 -> in_l2 a len ->
    exists r h', writeraw id len a h = Ok r h' /\
      console (map (pair id) (mem_read (ram h) a (Z.to_nat len))) h h';
  readraw_char : forall id len b h c rest, rx_schedule id h = Some c :: rest ->
    exists h', readraw id len b h = Ok (1, u8 c) h' /\ same_board h h' /\
      (forall j, sent j h' = sent j h) /\ rx_schedule id h' = rest /\ (timely h -> timely h');
  readraw_none : forall id len b h, head (rx_schedule id h) = None \/ head (rx_schedule id h) = Some None ->
    exists h', readraw id len b h = Ok (0, b) h' /\ same_board h h' /\
      (forall j, sent j h' = sent j h) /\ rx_schedule id h' = tail (rx_schedule id h) /\ (timely h -> timely h')
}.

#[export] Instance uart_port `{Budget} : UartPort := {
  readraw := udma_uart_readraw;
  writeraw := udma_uart_writeraw
}.

Lemma reset_timely `{Budget} f : timely (reset_board f).
Proof. split; [constructor|]. intros id. apply Nat.le_0_l. Qed.

Lemma receiving_timely `{Budget} cs f : timely (board_receiving cs f).
Proof.
  split; [constructor|]. intros id. unfold board_receiving.
  destruct (decide (0 = id)) as [<-|Hne].
  - rewrite get_with_uart. apply Nat.le_0_l.
  - rewrite get_with_uart_ne by done. apply Nat.le_0_l.
Qed.

(** ** The driver keeps the interface's promises *)
Section DriverFacts.
Context `{Budget}.

Lemma on_uart_app id o1 o2 : on_uart id (o1 ++ o2) = on_uart id o1 ++ on_uart id o2.
Proof. apply omap_app. Qed.

Lemma on_uart_self id bs : on_uart id (map (pair id) bs) = bs.
Proof.
  unfold on_uart. induction bs as [|b bs IH]; [done|]. simpl. rewrite Z.eqb_refl.
  cbn. f_equal. exact IH.
Qed.

Lemma on_uart_other id j bs : id <> j -> on_uart j (map (pair id) bs) = [].
Proof.
  intros Hne. unfold on_uart. induction bs as [|b bs IH]; [done|]. simpl.
  destruct (Z.eqb_spec id j); [done|]. exact IH.
Qed.

Lemma console_refl h : console [] h h.
Proof. split; [reflexivity| |auto|auto]. intros id. by rewrite app_nil_r. Qed.

Lemma console_trans o1 o2 h1 h2 h3 :
  console o1 h1 h2 -> console o2 h2 h3 -> console (o1 ++ o2) h1 h3.
Proof.
  intros [B1 S1 R1 T1] [B2 S2 R2 T2]. split.
  - by etrans.
  - intros id. by rewrite S2, S1, on_uart_app, app_assoc.
  - intros id. by rewrite R2.
  - auto.
Qed.

(** One uart record replaced, the line output extended by [bs]. *)
Lemma console_with_uart id u bs h :
  u_sent u = sent id h ++ bs -> u_rx u = rx_schedule id h ->
  (timely h -> (u_busy u <= budget)%nat) -> console (map (pair id) bs) h (with_uart id u h).
Proof.
  intros Hs Hr Hb. split; [by split| | |].
  - intros j. unfold sent in *. destruct (decide (id = j)) as [->|Hne].
    + by rewrite get_with_uart, on_uart_self.
    + by rewrite get_with_uart_ne, on_uart_other, app_nil_r.
  - intros j. unfold rx_schedule in *. destruct (decide (id = j)) as [->|Hne].
    + by rewrite get_with_uart.
    + by rewrite get_with_uart_ne.
  - intros Ht. pose proof (Hb Ht) as Hbu. destruct Ht as [Hd Hbusy]. split; [done|].
    intros j. destruct (decide (id = j)) as [->|Hne]; [by rewrite get_with_uart|by rewrite get_with_uart_ne].
Qed.

Lemma timely_pop h : timely h -> timely (pop_delay h).
Proof. intros [Hd Hb]. split; [|done]. simpl. by destruct (delays h); inversion Hd. Qed.

Lemma next_delay_timely h : timely h -> (next_delay h <= budget)%nat.
Proof. intros [Hd _]. unfold next_delay. destruct Hd; simpl; lia. Qed.

Lemma poll_zero_uart id : forall fuel i h, (u_busy (get_uart id h) <= fuel)%nat ->
  exists i' h', poll_zero fuel (Uart id uart_tx_size) i h = Ok i' h' /\ console [] h h'.
Proof.
  induction fuel as [|fuel IH]; intros i h Hb; simpl; rewrite bind_rd; cbn [hw_read];
    unfold uart_read; destruct (u_busy (get_uart id h)) as [|n] eqn:Eb; cbn [fst snd].
  - exists i, h. split; [done|apply console_refl].
  - lia.
  - exists i, h. split; [done|apply console_refl].
  - set (h1 := with_uart _ _ _).
    assert (C1 : console [] h h1).
    { apply (console_with_uart id _ [] h); [by rewrite app_nil_r|done|].
      intros [_ Ht]. specialize (Ht id). simpl. lia. }
    destruct (u_size (get_uart id h) =? 0); [by exists i, h1|].
    destruct (IH (i + 1) h1) as (i' & h' & E & C2).
    { unfold h1. rewrite get_with_uart. simpl. lia. }
    exists i', h'. split; [done|]. apply (console_trans [] [] _ h1); done.
Qed.

Lemma console_upd id u h :
  u_sent u = sent id h -> u_rx u = rx_schedule id h -> u_busy u = u_busy (get_uart id h) ->
  console [] h (with_uart id u h).
Proof.
  intros Hs Hr Hb. apply (console_with_uart id u [] h); [by rewrite app_nil_r|done|].
  intros [_ Ht]. rewrite Hb. apply Ht.
Qed.

Lemma uart_writeraw_sends id len a h : timely h -> 0 <= len < 65536 -> in_l2 a len ->
  exists r h', udma_uart_writeraw id len a h = Ok r h' /\
    console (map (pair id) (mem_read (ram h) a (Z.to_nat len))) h h'.
Proof.
  intros Ht Hlen Hl2. unfold udma_uart_writeraw.
  destruct (poll_zero_uart id budget 0 h) as (i1 & h1 & E1 & C1); [apply Ht|].
  rewrite (bind_ok _ _ _ _ _ E1), !bind_wr.
  set (h2 := hw_write _ _ h1).
  assert (C2 : console [] h1 h2) by (by apply console_upd).
  set (h3 := hw_write _ _ h2).
  assert (C3 : console [] h2 h3) by (by apply console_upd).
  assert (Hg3 : u_saddr (get_uart id h3) = saddr a /\ u_size (get_uart id h3) = len).
  { unfold h3, h2. hw_simpl.
    split; [done|]. by apply u16_small. }
  destruct Hg3 as [Ha Hsz].
  set (h4 := hw_write _ _ h3).
  assert (Hram : ram h3 = ram h).
  { by rewrite (same_ram _ _ (con_board _ _ _ C3)), (same_ram _ _ (con_board _ _ _ C2)),
      (same_ram _ _ (con_board _ _ _ C1)). }
  assert (Ht3 : timely h3) by (apply C3, C2, C1, Ht).
  assert (C4 : console (map (pair id) (mem_read (ram h) a (Z.to_nat len))) h3 h4).
  { unfold h4. hw_simpl. simpl (1 =? 1). cbv iota. rewrite Ha, Hsz, Hram, dma_read_saddr, dma_read_l2 by (rewrite Z2Nat.id; (done || lia)).
    assert (Cp : console [] h3 (pop_delay h3)).
    { split; [by split| |done|apply timely_pop]. intros j. by rewrite app_nil_r. }
    apply (console_trans [] _ _ (pop_delay h3)); [done|].
    apply console_with_uart; [done|done|]. intros _. by apply next_delay_timely. }
  destruct (poll_zero_uart id budget i1 h4) as (i5 & h5 & E5 & C5).
  { apply C4, Ht3. }
  rewrite (bind_ok _ _ _ _ _ E5), <- (app_nil_r (map _ _)).
  exists (u16 i5), h5. split; [done|].
  apply (console_trans [] _ _ h1); [done|]. apply (console_trans [] _ _ h2); [done|].
  apply (console_trans [] _ _ h3); [done|]. by apply (console_trans _ [] _ h4).
Qed.

Lemma same_board_with_uart id u h : same_board h (with_uart id u h).
Proof. by split. Qed.

Lemma rx_update id u h :
  u_sent u = sent id h -> u_busy u = u_busy (get_uart id h) ->
  same_board h (with_uart id u h) /\ (forall j, sent j (with_uart id u h) = sent j h) /\
  rx_schedule id (with_uart id u h) = u_rx u /\ (timely h -> timely (with_uart id u h)).
Proof.
  intros Hs Hb. split; [by split|]. split; [|split].
  - intros j. unfold sent in *. destruct (decide (id = j)) as [->|Hne].
    + by rewrite get_with_uart.
    + by rewrite get_with_uart_ne.
  - unfold rx_schedule. by rewrite get_with_uart.
  - intros [Hd Ht]. split; [done|]. intros j. destruct (decide (id = j)) as [->|Hne].
    + rewrite get_with_uart, Hb. apply Ht.
    + by rewrite get_with_uart_ne.
Qed.

#[export] Instance uart_port_ok : UartPortOk uart_port.
Proof.
  split.
  - apply uart_writeraw_sends.
  - intros id len b h c rest Hrx. unfold rx_schedule in Hrx. cbn [readraw uart_port].
    unfold udma_uart_readraw. rewrite bind_rd. cbn [hw_read uart_read].
    rewrite Hrx. cbn [fst snd]. simpl (1 =? 1). cbv iota. rewrite bind_rd.
    cbn [hw_read uart_read]. rewrite Hrx. cbn [fst snd].
    eexists. split; [reflexivity|]. by apply rx_update.
  - intros id len b h Hh. unfold rx_schedule in Hh. cbn [readraw uart_port].
    unfold udma_uart_readraw. rewrite bind_rd. cbn [hw_read uart_read].
    unfold rx_schedule. destruct (u_rx (get_uart id h)) as [|[c|] rest] eqn:Hrx;
      cbn [fst snd]; simpl (_ =? 1); cbv iota.
    + exists h. by rewrite Hrx.
    + destruct Hh; discriminate.
    + eexists. split; [reflexivity|]. by apply rx_update.
Qed.
End DriverFacts.
