(* ===== verification/Dbg.v ===== *)
(** * Dbg: text and hexadecimal output, hexadecimal input

    a2_boot/dbg.c prints on UART 1 through the [UartPort] interface; [atoh] of
    a2_boot/main.c reads the hexadecimal fields of S-records. *)

From S2P Require Import Prelude Monad Hw Uart.

(** A C string literal, with its terminating NUL. *)
Definition cstr (s : string) : list Z := ascii_bytes s ++ [0].

Section Output.
Context `{UartPort} `{Layout}.

Definition dbg_ch_raw (c : Z) : M hw unit :=
  set_ram (fun m => store32 m addr_c c) ;;
  _ ← writeraw 1 1 addr_c; skip.

Definition dbg_nl : M hw unit := dbg_ch_raw 13 ;; dbg_ch_raw 10.

Definition dbg_ch (ch : Z) : M hw unit := if ch =? 10 then dbg_nl else dbg_ch_raw ch.

Fixpoint dbg_str (s : list Z) : M hw unit :=
  match s with
  | [] => fault
  | c :: s' => if c =? 0 then skip else dbg_ch c ;; dbg_str s'
  end.

Definition hex4_char (v : Z) : Z :=
  let v := v &&& 0x0f in
  let v := v + 48 in
  if v >? 57 then v - (57 + 1) + 97 else v.
Definition dbg_hex4 (v : Z) : M hw unit := dbg_ch (hex4_char v).
Definition dbg_hex8 (v : Z) : M hw unit := dbg_hex4 (Z.shiftr v 4) ;; dbg_hex4 (Z.shiftr v 0).
Definition dbg_hex16 (v : Z) : M hw unit := dbg_hex8 (Z.shiftr v 8) ;; dbg_hex8 (Z.shiftr v 0).
Definition dbg_hex32 (v : Z) : M hw unit := dbg_hex16 (Z.shiftr v 16) ;; dbg_hex16 (Z.shiftr v 0).
End Output.

(** [for (i = 0; i < aSize && aBuf[i] != '\0' && aBuf[i] != ' '; i++)]: [n]
    counts [aSize - i]; [None] is a read outside the buffer. *)
Definition atoh_char (b lChar : Z) : Z :=
  if (48 <=? b) && (b <=? 57) then u8 (b - 48)
  else if (65 <=? b) && (b <=? 70) then u8 (b - 65 + 10)
  else if (97 <=? b) && (b <=? 102) then u8 (b - 97 + 10)
  else lChar.

Fixpoint atoh_loop (n : nat) (aBuf : list Z) (i lValue lChar : Z) : option Z :=
  match n with
  | O => Some lValue
  | S n' =>
      match aBuf !? i with
      | None => None
      | Some b =>
          if (b =? 0) || (b =? 32) then Some lValue
          else
            let lChar := atoh_char b lChar in
            atoh_loop n' aBuf (i + 1) (u32 (u32 (lValue * 16) + lChar)) lChar
      end
  end.
Definition atoh (aBuf : list Z) (aSize : Z) : option Z := atoh_loop (Z.to_nat aSize) aBuf 0 0 0.

(** ** What output promises

    Printing stores the character in the local it transmits from; [scratch] is
    that part of the stack. *)
Definition scratch `{Layout} (x : Z) : Prop := addr_c <= x < addr_c + 4 \/ x = addr_lChar.
#[export] Instance scratch_dec `{Layout} x : Decision (scratch x).
Proof. unfold scratch. apply _. Defined.

(** [printed out h h']: the bytes [out] went out, and memory is unchanged but for
    the scratch locals. *)
Definition printed `{Budget} `{Layout} (out : list (Z * Z)) (h h' : hw) : Prop :=
  exists m, (forall x, ~ scratch x -> mem_get m x = mem_get (ram h) x) /\ console out (with_ram m h) h'.

(** A newline goes out as CR LF. *)
Definition crlf : list Z := [13; 10].
Definition cook (bs : list Z) : list Z := bs ≫= (fun b => if b =? 10 then [13; 10] else [b]).
Definition uart1 (bs : list Z) : list (Z * Z) := map (pair 1) bs.
Definition line_out (s : string) : list (Z * Z) := uart1 (crlf ++ ascii_bytes s).
Definition hex_digits (n : nat) (v : Z) : list Z :=
  map (fun i => hex4_char (Z.shiftr v (4 * i))) (reverse (seqZ 0 (Z.of_nat n))).

Section Printed.
Context `{Budget} `{Layout}.

Lemma console_with_ram o h h' m : console o h h' -> console o (with_ram m h) (with_ram m h').
Proof.
  intros [[] Hs Hr Ht]. split; [by split|done|done|exact Ht].
Qed.

Lemma printed_refl h : printed [] h h.
Proof. exists (ram h). split; [done|]. destruct h. apply console_refl. Qed.

Lemma printed_trans o1 o2 h1 h2 h3 :
  printed o1 h1 h2 -> printed o2 h2 h3 -> printed (o1 ++ o2) h1 h3.
Proof.
  intros (m1 & F1 & C1) (m2 & F2 & C2). exists m2. split.
  - intros x Hx. rewrite F2, (same_ram _ _ (con_board _ _ _ C1)) by done. by apply F1.
  - apply (console_trans _ _ _ (with_ram m2 h2)); [|done].
    apply (console_with_ram _ (with_ram m1 h1) _ m2 C1).
Qed.

Lemma printed_timely o h h' : printed o h h' -> timely h -> timely h'.
Proof. intros (m & _ & C) Ht. by apply C. Qed.

Lemma printed_ram o h h' x : printed o h h' -> ~ scratch x -> mem_get (ram h') x = mem_get (ram h) x.
Proof. intros (m & F & C) Hx. rewrite (same_ram _ _ (con_board _ _ _ C)). by apply F. Qed.

(** One byte transmitted from a scratch local. *)
Lemma printed_byte `{UartPort} `{!UartPortOk _} id b a h m :
  timely h -> in_l2 a 1 -> (forall x, ~ scratch x -> mem_get m x = mem_get (ram h) x) -> mem_get m a = b ->
  exists r h', writeraw id 1 a (with_ram m h) = Ok r h' /\ printed [(id, b)] h h'.
Proof.
  intros Ht Hl Hm Hb. destruct (writeraw_sends id 1 a (with_ram m h)) as (r & h' & E & C); [done|lia|done|].
  exists r, h'. split; [done|]. exists m. split; [done|].
  replace [(id, b)] with (map (pair id) (mem_read m a (Z.to_nat 1))); [done|].
  unfold mem_read. simpl. by rewrite Z.add_0_r, Hb.
Qed.
End Printed.

(** [prints m out]: on a board whose transfers drain in time, [m] returns and
    prints [out]. *)
Definition prints `{Budget} `{Layout} (m : M hw unit) (out : list (Z * Z)) : Prop :=
  forall h, timely h -> exists h', m h = Ok tt h' /\ printed out h h'.

(** The side conditions of a string literal, character by character. *)
Ltac literal := repeat (constructor; [done|]); constructor.

Section OutputFacts.
Context `{Budget} `{LocalsOk} `{UartPort} `{!UartPortOk _}.

Lemma prints_skip : prints skip [].
Proof. intros h Ht. exists h. split; [done|apply printed_refl]. Qed.

Lemma prints_seq m1 m2 o1 o2 : prints m1 o1 -> prints m2 o2 -> prints (m1 ;; m2) (o1 ++ o2).
Proof.
  intros P1 P2 h Ht. destruct (P1 h Ht) as (h1 & E1 & Q1).
  destruct (P2 h1) as (h2 & E2 & Q2); [by eapply printed_timely|].
  exists h2. split; [by rewrite (bind_ok _ _ _ _ _ E1)|by eapply printed_trans].
Qed.

Lemma dbg_ch_raw_prints c : prints (dbg_ch_raw c) (uart1 [u8 c]).
Proof.
  intros h Ht. unfold dbg_ch_raw. rewrite bind_set_ram.
  destruct (printed_byte 1 (u8 c) addr_c h (store32 (ram h) addr_c c) Ht) as (r & h' & E & P).
  - pose proof locals_c. unfold in_l2 in *. lia.
  - intros x Hx. unfold store32. apply mem_get_write_out. unfold scratch in Hx. simpl. lia.
  - pose proof (mem_get_write_in (le32 c) (ram h) addr_c 0 _ eq_refl) as E.
    rewrite Z.add_0_r in E. unfold store32. rewrite E. by rewrite u8_small by apply u8_range.
  - exists h'. split; [|done]. by rewrite (bind_ok _ _ _ _ _ E).
Qed.

Lemma dbg_ch_prints c : 0 <= c < 256 -> prints (dbg_ch c) (uart1 (cook [c])).
Proof.
  intros Hc. unfold dbg_ch. simpl. destruct (c =? 10) eqn:E.
  - apply (prints_seq (dbg_ch_raw 13) (dbg_ch_raw 10) (uart1 [u8 13]) (uart1 [u8 10])); apply dbg_ch_raw_prints.
  - rewrite <- (u8_small c) at 2 by done. apply dbg_ch_raw_prints.
Qed.

Lemma uart1_app a b : uart1 (a ++ b) = uart1 a ++ uart1 b.
Proof. apply map_app. Qed.
Lemma cook_app a b : cook (a ++ b) = cook a ++ cook b.
Proof. unfold cook. apply bind_app. Qed.

(** A NUL-free string up to its terminator; what follows is not touched. *)
Lemma dbg_str_prints s rest :
  Forall (fun c => 0 < c < 256) s -> prints (dbg_str (s ++ 0 :: rest)) (uart1 (cook s)).
Proof.
  induction 1 as [|c s Hc Hs IH]; [apply prints_skip|].
  cbn [dbg_str app]. destruct (Z.eqb_spec c 0); [lia|].
  change (c :: s) with ([c] ++ s). rewrite cook_app, uart1_app.
  apply prints_seq; [apply dbg_ch_prints; lia|done].
Qed.

Lemma cook_plain l : Forall (fun c => c <> 10) l -> cook l = l.
Proof.
  induction 1 as [|c l Hc Hl IH]; [done|]. change (c :: l) with ([c] ++ l). rewrite cook_app, IH. f_equal.
  unfold cook. simpl. by destruct (Z.eqb_spec c 10).
Qed.

(** A literal, and a literal behind a newline. *)
Lemma dbg_cstr_prints s : Forall (fun c => 0 < c < 256) (ascii_bytes s) ->
  Forall (fun c => c <> 10) (ascii_bytes s) -> prints (dbg_str (cstr s)) (uart1 (ascii_bytes s)).
Proof. intros Hs Hn. rewrite <- (cook_plain (ascii_bytes s)) by done. by apply (dbg_str_prints (ascii_bytes s) []). Qed.

Lemma dbg_line_prints s : Forall (fun c => 0 < c < 256) (ascii_bytes s) ->
  Forall (fun c => c <> 10) (ascii_bytes s) -> prints (dbg_str (10 :: cstr s)) (line_out s).
Proof.
  intros Hs Hn. unfold line_out. replace (crlf ++ ascii_bytes s) with (cook (10 :: ascii_bytes s)).
  - apply (dbg_str_prints (10 :: ascii_bytes s) []). by constructor.
  - change (10 :: ascii_bytes s) with ([10] ++ ascii_bytes s). by rewrite cook_app, (cook_plain (ascii_bytes s)).
Qed.

Lemma hex4_char_range v : 48 <= hex4_char v <= 102.
Proof.
  unfold hex4_char. change 0x0f with (Z.ones 4). rewrite Z.land_ones by lia.
  pose proof (Z.mod_pos_bound v (2 ^ 4) ltac:(lia)). change (2 ^ 4) with 16 in *.
  destruct (Z.gtb_spec (v mod 16 + 48) 57); lia.
Qed.

Lemma dbg_hex4_prints v : prints (dbg_hex4 v) (uart1 [hex4_char v]).
Proof.
  pose proof (hex4_char_range v). unfold dbg_hex4.
  pose proof (dbg_ch_prints (hex4_char v) ltac:(lia)) as P. simpl in P.
  by destruct (Z.eqb_spec (hex4_char v) 10); [lia|].
Qed.

Lemma hex_digits_S n v : hex_digits (S n) v = hex4_char (Z.shiftr v (4 * Z.of_nat n)) :: hex_digits n v.
Proof.
  unfold hex_digits. replace (Z.of_nat (S n)) with (Z.of_nat n + 1) by lia.
  rewrite seqZ_app by lia. rewrite reverse_app, map_app. done.
Qed.

Lemma dbg_hex8_prints v : prints (dbg_hex8 v) (uart1 (hex_digits 2 v)).
Proof. rewrite !hex_digits_S. apply (prints_seq _ _ (uart1 [_]) (uart1 [_])); apply dbg_hex4_prints. Qed.

Lemma hex_digits_split n k v :
  hex_digits (n + k) v = hex_digits n (Z.shiftr v (4 * Z.of_nat k)) ++ hex_digits k v.
Proof.
  induction n as [|n IH]; [done|]. cbn [Nat.add]. rewrite !hex_digits_S, IH.
  rewrite Z.shiftr_shiftr by lia. simpl. do 3 f_equal. lia.
Qed.

Lemma dbg_hex32_prints v : prints (dbg_hex32 v) (uart1 (hex_digits 8 v)).
Proof.
  assert (H16 : forall v, prints (dbg_hex16 v) (uart1 (hex_digits 4 v))).
  { intros w. rewrite (hex_digits_split 2 2), uart1_app.
    apply prints_seq; [apply dbg_hex8_prints|]. rewrite <- (Z.shiftr_0_r w) at 2. apply dbg_hex8_prints. }
  rewrite (hex_digits_split 4 4), uart1_app.
  apply prints_seq; [apply H16|]. rewrite <- (Z.shiftr_0_r v) at 2. apply H16.
Qed.
End OutputFacts.

(** ** Hexadecimal input *)
Definition is_hex (b : Z) : bool :=
  (48 <=? b) && (b <=? 57) || (65 <=? b) && (b <=? 70) || (97 <=? b) && (b <=? 102).
Definition hex_value (bs : list Z) : Z := foldl (fun acc b => 16 * acc + atoh_char b 0) 0 bs.

Lemma atoh_char_hex b c : is_hex b = true -> atoh_char b c = atoh_char b 0 /\ 0 <= atoh_char b 0 < 16.
Proof.
  unfold is_hex, atoh_char. intros Hb.
  destruct (Z.leb_spec 48 b), (Z.leb_spec b 57), (Z.leb_spec 65 b), (Z.leb_spec b 70),
    (Z.leb_spec 97 b), (Z.leb_spec b 102); simpl in *; try done; try lia;
    split; (done || (rewrite u8_small; lia)).
Qed.

Lemma is_hex_not_stop b : is_hex b = true -> (b =? 0) || (b =? 32) = false.
Proof.
  unfold is_hex. intros Hb. destruct (Z.eqb_spec b 0) as [->|]; [done|].
  by destruct (Z.eqb_spec b 32) as [->|].
Qed.

Lemma hex_value_app a b : hex_value (a ++ [b]) = 16 * hex_value a + atoh_char b 0.
Proof. unfold hex_value. by rewrite foldl_app. Qed.

(** The digits read so far, one digit more at a time. *)
Lemma atoh_loop_digits ds : forall n pre rest c,
  (length ds <= n)%nat -> Forall (fun b => is_hex b = true) ds ->
  exists c', atoh_loop n (pre ++ ds ++ rest) (Z.of_nat (length pre)) (u32 (hex_value pre)) c =
    atoh_loop (n - length ds) ((pre ++ ds) ++ rest) (Z.of_nat (length (pre ++ ds)))
      (u32 (hex_value (pre ++ ds))) c'.
Proof.
  induction ds as [|d ds IH]; intros n pre rest c Hn Hd; inversion Hd; subst.
  - exists c. rewrite app_nil_r, Nat.sub_0_r. done.
  - destruct n as [|n]; simpl in Hn; [lia|]. cbn [atoh_loop].
    rewrite zlookup_nat, lookup_app_r, Nat.sub_diag by lia. cbn [app lookup list_lookup].
    rewrite is_hex_not_stop by done. destruct (atoh_char_hex d c) as [E R]; [done|]. rewrite E.
    destruct (IH n (pre ++ [d]) rest (atoh_char d 0)) as [c' E']; [lia|done|].
    exists c'. rewrite <- !app_assoc in E'. rewrite <- !app_assoc. cbn [app Nat.sub length] in E' |- *.
    rewrite <- E', length_app, hex_value_app. cbn [length]. f_equal; [lia|word_lia].
Qed.

(** [atoh] of a digit string that ends with the buffer or at a NUL or space. *)
Lemma atoh_value ds rest aSize :
  Forall (fun b => is_hex b = true) ds -> Z.of_nat (length ds) <= aSize ->
  aSize = Z.of_nat (length ds) \/ head rest = Some 0 \/ head rest = Some 32 ->
  atoh (ds ++ rest) aSize = Some (u32 (hex_value ds)).
Proof.
  intros Hd Hn Hend. unfold atoh.
  destruct (atoh_loop_digits ds (Z.to_nat aSize) [] rest 0) as [c' E]; [lia|done|].
  change (u32 (hex_value [])) with 0 in E. cbn [app length] in E. change (Z.of_nat 0) with 0 in E.
  rewrite E. destruct (Z.to_nat aSize - length ds)%nat as [|k] eqn:Ek; [done|].
  destruct Hend as [Hz|Hr]; [lia|]. cbn [atoh_loop].
  rewrite zlookup_nat, lookup_app_r, Nat.sub_diag by lia.
  destruct rest as [|r rest]; [by destruct Hr|]. cbn. simpl in Hr.
  by destruct Hr as [[= ->]|[= ->]].
Qed.

Lemma hex4_char_atoh v : is_hex (hex4_char v) = true /\ atoh_char (hex4_char v) 0 = v mod 16.
Proof.
  unfold hex4_char. change 0x0f with (Z.ones 4). rewrite Z.land_ones by lia.
  pose proof (Z.mod_pos_bound v (2 ^ 4) ltac:(lia)) as Hd. change (2 ^ 4) with 16 in *.
  generalize dependent (v mod 16). intros d Hd.
  assert (d ∈ seqZ 0 16) as Hin by (apply elem_of_seqZ; lia).
  repeat (apply elem_of_cons in Hin as [->|Hin]; [done|]). by apply elem_of_nil in Hin.
Qed.

Lemma hex_digits_hex n v : Forall (fun b => is_hex b = true) (hex_digits n v).
Proof.
  apply Forall_forall. intros b Hb. apply list_elem_of_In, in_map_iff in Hb as (i & <- & _).
  apply hex4_char_atoh.
Qed.

Lemma hex_digits_length n v : length (hex_digits n v) = n.
Proof. unfold hex_digits. rewrite length_map, length_reverse, length_seqZ. lia. Qed.

Lemma hex_value_digits n v : hex_value (hex_digits n v) = v mod 2 ^ (4 * Z.of_nat n).
Proof.
  revert v. induction n as [|n IH]; intros v; [by rewrite Z.mod_1_r|].
  replace (S n) with (n + 1)%nat by lia. rewrite hex_digits_split, hex_digits_S, hex_value_app, IH.
  rewrite (proj2 (hex4_char_atoh _)). change (4 * Z.of_nat 0) with 0. rewrite Z.shiftr_0_r.
  rewrite Z.shiftr_div_pow2 by lia. change (2 ^ (4 * Z.of_nat 1)) with 16.
  replace (4 * Z.of_nat (n + 1)) with (4 + 4 * Z.of_nat n) by lia.
  rewrite Z.pow_add_r by lia. change (2 ^ 4) with 16.
  rewrite Z.rem_mul_r; [lia|lia|]. apply Z.pow_pos_nonneg; lia.
Qed.

(** ** Properties *)


