(* ===== verification/Spi.v ===== *)
(** * Spi: the QSPI flash driver of a2_boot/spi.c

    Each operation builds a command sequence in [auccmd], points the uDMA
    channels at it and starts them.  [FlashPort] is the interface the boot code
    reads the flash through; [flash_port_ok] proves that [udma_flash_read] keeps
    its promise on the documented command interpreter of [Hw]. *)

From S2P Require Import Prelude Monad Hw Uart Dbg.

(** a2_boot/include/udma_qspi_driver.h: [spim_cmd_t]. *)
Definition kSPIm_Cfg : Z := Z.shiftl 0x0 28.
Definition kSPIm_SOT : Z := Z.shiftl 0x1 28.
Definition kSPIm_SendCmd : Z := Z.shiftl 0x2 28.
Definition kSPIm_Dummy : Z := Z.shiftl 0x4 28.
Definition kSPIm_Wait : Z := Z.shiftl 0x5 28.
Definition kSPIm_TxData : Z := Z.shiftl 0x6 28.
Definition kSPIm_RxData : Z := Z.shiftl 0x7 28.
Definition kSPIm_Repeat : Z := Z.shiftl 0x8 28.
Definition kSPIm_EOT : Z := Z.shiftl 0x9 28.
Definition kSPIm_RepeatEnd : Z := Z.shiftl 0xa 28.
Definition kSPIm_RxCheck : Z := Z.shiftl 0xb 28.
Definition kSPIm_FDX : Z := Z.shiftl 0xc 28.
Definition kSPIm_UCA : Z := Z.shiftl 0xd 28.
Definition kSPIm_UCS : Z := Z.shiftl 0xe 28.

Section Driver.
Context `{Budget} `{SocConfig} `{Layout}.

(** The result and the new value of the static [aucclkdiv]. *)
Definition udma_qspim_open (qspim_id clk_freq : Z) : M hw (Z * Z) :=
  let mask := Z.shiftl UDMA_CTRL_QSPIM0_CLKEN qspim_id in
  rst ← rd Udma_reg_rst; wr Udma_reg_rst (u32 (rst ||| mask)) ;;
  rst ← rd Udma_reg_rst; wr Udma_reg_rst (u32 (rst &&& Z.lnot mask)) ;;
  cg ← rd Udma_reg_cg; wr Udma_reg_cg (u32 (cg ||| mask)) ;;
  if clk_freq =? 0 then fault else mret (0, u8 (5000000 / clk_freq)).

(** [*pcmd++ = w], for each word of the sequence. *)
Definition emit (ws : list Z) : M hw unit :=
  set_ram (fun m => mem_write m addr_auccmd (ws ≫= le32)).
Definition cmd_bytes (ws : list Z) : Z := u32 (Z.of_nat (length ws) * 4).

Definition start_cmd (qspim_id : Z) (ws : list Z) : M hw unit :=
  wr (Qspim qspim_id cmd_saddr) (u32 addr_auccmd) ;;
  wr (Qspim qspim_id cmd_size) (cmd_bytes ws) ;;
  wr (Qspim qspim_id cmd_cfg_en) 1.

Definition disable_channels : M hw unit :=
  wr (Qspim 0 rx_cfg_en) 0 ;; wr (Qspim 0 tx_cfg_en) 0 ;; wr (Qspim 0 cmd_cfg_en) 0.

Definition readid_cmds (aucclkdiv : Z) : list Z :=
  [ u32 (kSPIm_Cfg ||| aucclkdiv);
    kSPIm_SOT;
    kSPIm_SendCmd ||| 0x7009f;
    kSPIm_RxData ||| (0x00470000 ||| (4 - 1));
    kSPIm_EOT ||| 1 ].
Definition udma_flash_readid (aucclkdiv l2addr : Z) : M hw unit :=
  let cmds := readid_cmds aucclkdiv in
  disable_channels ;;
  emit cmds ;;
  wr (Qspim 0 rx_saddr) l2addr ;;
  wr (Qspim 0 rx_size) 4 ;;
  wr (Qspim 0 rx_cfg_en) 1 ;;
  start_cmd 0 cmds ;;
  _ ← poll_zero budget (Qspim 0 rx_size) 0; skip.

Definition command_cmds (aucclkdiv cs opcode : Z) : list Z :=
  [ u32 (kSPIm_Cfg ||| aucclkdiv);
    kSPIm_SOT ||| cs;
    kSPIm_SendCmd ||| opcode;
    kSPIm_EOT ||| 1 ].
Definition udma_flash_reset_enable (aucclkdiv qspim_id cs : Z) : M hw Z :=
  let cmds := command_cmds aucclkdiv cs 0x70066 in
  wr (Qspim qspim_id cmd_cfg_en) 0 ;;
  wr (Qspim qspim_id cmd_cfg_clr) 1 ;;
  emit cmds ;;
  start_cmd qspim_id cmds ;;
  mret 0.
Definition udma_flash_reset_memory (aucclkdiv qspim_id cs : Z) : M hw Z :=
  let cmds := command_cmds aucclkdiv cs 0x70099 in
  wr (Qspim qspim_id cmd_cfg_en) 0 ;;
  wr (Qspim qspim_id cmd_cfg_clr) 1 ;;
  emit cmds ;;
  start_cmd qspim_id cmds ;;
  mret 0.

Definition read_cmds (aucclkdiv flash_addr read_len : Z) : list Z :=
  [ u32 (kSPIm_Cfg ||| aucclkdiv);
    kSPIm_SOT;
    kSPIm_SendCmd ||| 0x70003;
    (kSPIm_SendCmd ||| 0xf0000) ||| (Z.shiftr flash_addr 8 &&& 0xffff);
    (kSPIm_SendCmd ||| 0x70000) ||| (flash_addr &&& 0xff);
    u32 (kSPIm_RxData ||| (0x00470000 ||| (read_len - 1)));
    kSPIm_EOT ||| 1 ].
Definition udma_flash_read (aucclkdiv flash_addr l2addr read_len : Z) : M hw unit :=
  let cmds := read_cmds aucclkdiv flash_addr read_len in
  disable_channels ;;
  emit cmds ;;
  wr (Qspim 0 rx_saddr) l2addr ;;
  wr (Qspim 0 rx_size) read_len ;;
  wr (Qspim 0 rx_cfg_en) 1 ;;
  start_cmd 0 cmds ;;
  _ ← poll_zero budget (Qspim 0 rx_size) 0; skip.

Definition write_cmds (aucclkdiv flash_addr write_len : Z) : list Z :=
  [ u32 (kSPIm_Cfg ||| aucclkdiv);
    kSPIm_SOT;
    kSPIm_SendCmd ||| 0x70006;
    (kSPIm_SendCmd ||| 0xf0000) ||| (Z.shiftr flash_addr 8 &&& 0xffff);
    (kSPIm_SendCmd ||| 0x70000) ||| (flash_addr &&& 0xff);
    u32 (kSPIm_TxData ||| (0x00470000 ||| (write_len - 1)));
    kSPIm_EOT ||| 1 ].
Definition udma_flash_write (aucclkdiv flash_addr l2addr write_len : Z) : M hw unit :=
  let cmds := write_cmds aucclkdiv flash_addr write_len in
  disable_channels ;;
  emit cmds ;;
  wr (Qspim 0 tx_saddr) l2addr ;;
  wr (Qspim 0 tx_size) (u32 (write_len - 1)) ;;
  wr (Qspim 0 tx_cfg_datasize) 2 ;;
  wr (Qspim 0 tx_cfg_en) 1 ;;
  start_cmd 0 cmds ;;
  _ ← poll_zero budget (Qspim 0 rx_size) 0; skip.

Definition qspim_write_cmds (aucclkdiv cs write_len : Z) : list Z :=
  [ u32 (kSPIm_Cfg ||| aucclkdiv);
    kSPIm_SOT ||| cs;
    u32 ((kSPIm_TxData ||| 0x0470000) ||| (write_len - 1));
    kSPIm_EOT ||| 1 ].
Definition udma_qspim_write (aucclkdiv qspim_id cs write_len write_data : Z) : M hw unit :=
  let cmds := qspim_write_cmds aucclkdiv cs write_len in
  wr (Qspim qspim_id rx_cfg_clr) 1 ;;
  wr (Qspim qspim_id tx_cfg_clr) 1 ;;
  wr (Qspim qspim_id cmd_cfg_clr) 1 ;;
  emit cmds ;;
  wr (Qspim qspim_id tx_saddr) write_data ;;
  wr (Qspim qspim_id tx_size) (u32 (write_len - 1)) ;;
  wr (Qspim qspim_id tx_cfg_datasize) 2 ;;
  wr (Qspim qspim_id tx_cfg_en) 1 ;;
  start_cmd qspim_id cmds.
End Driver.

(** ** The interface *)
Definition cmdbuf `{Layout} (x : Z) : Prop := addr_auccmd <= x < addr_auccmd + 64.
#[export] Instance cmdbuf_dec `{Layout} x : Decision (cmdbuf x).
Proof. unfold cmdbuf. apply _. Defined.

Definition flash_bytes (f : flash_hw) (flash_addr n : Z) : list Z :=
  map (fun i => u8 (flash_mem f ((flash_addr + i) mod 2 ^ 24))) (seqZ 0 n).

(** A flash operation leaves everything but memory and its own channel alone. *)
Record flash_op `{Budget} (h h' : hw) : Prop := {
  fo_uarts : uarts h' = uarts h;
  fo_i2cs : i2cs h' = i2cs h;
  fo_flash : flash h' = flash h;
  fo_reset : s_reset_reason h' = s_reset_reason h;
  fo_bootsel : s_bootsel h' = s_bootsel h;
  fo_jtagreg : s_jtagreg h' = s_jtagreg h;
  fo_jtag : s_jtag h' = s_jtag h;
  fo_words : words h' = words h;
  fo_timely : timely h -> timely h'
}.

Class FlashPort := {
  flash_open : Z -> Z -> M hw (Z * Z);
  flash_readid : Z -> Z -> M hw unit;
  flash_reset_enable : Z -> Z -> Z -> M hw Z;
  flash_reset_memory : Z -> Z -> Z -> M hw Z;
  flash_read : Z -> Z -> Z -> Z -> M hw unit
}.

(** A read needs a length of whole accesses, of four bytes each, and a destination
    in L2; the identifier goes to the place of L2 that its address means. *)
Class FlashPortOk `{Budget} `{Layout} (P : FlashPort) := {
  flash_reads : forall aucclkdiv fa la len h,
    timely h -> 0 <= aucclkdiv < 256 -> 0 <= fa -> 0 < len < 65536 -> len mod 4 = 0 -> in_l2 la len ->
    exists h', flash_read aucclkdiv fa la len h = Ok tt h' /\ flash_op h h' /\
      forall x, ~ cmdbuf x \/ la <= x < la + len ->
        mem_get (ram h') x = mem_get (mem_write (ram h) la (flash_bytes (flash h) fa len)) x;
  flash_reads_id : forall aucclkdiv la h,
    timely h -> 0 <= aucclkdiv < 256 -> (4 <= length (flash_id (flash h)))%nat -> in_l2 (l2_addr la) 4 ->
    exists h', flash_readid aucclkdiv la h = Ok tt h' /\ flash_op h h' /\
      forall x, ~ cmdbuf x \/ l2_addr la <= x < l2_addr la + 4 ->
        mem_get (ram h') x = mem_get (mem_write (ram h) (l2_addr la) (take 4 (flash_id (flash h)))) x;
  flash_commands : forall aucclkdiv h, timely h -> 0 <= aucclkdiv < 256 ->
    (exists h', flash_reset_enable aucclkdiv 0 0 h = Ok 0 h' /\ flash_op h h' /\
       forall x, ~ cmdbuf x -> mem_get (ram h') x = mem_get (ram h) x) /\
    (exists h', flash_reset_memory aucclkdiv 0 0 h = Ok 0 h' /\ flash_op h h' /\
       forall x, ~ cmdbuf x -> mem_get (ram h') x = mem_get (ram h) x);
  flash_opens : forall freq h, timely h -> 0 < freq ->
    exists h', flash_open 0 freq h = Ok (0, u8 (5000000 / freq)) h' /\ flash_op h h' /\ ram h' = ram h
}.

#[export] Instance flash_port `{Budget} `{SocConfig} `{Layout} : FlashPort := {
  flash_open := udma_qspim_open;
  flash_readid := udma_flash_readid;
  flash_reset_enable := udma_flash_reset_enable;
  flash_reset_memory := udma_flash_reset_memory;
  flash_read := udma_flash_read
}.

(** ** Command words *)
Lemma lor_add w c x : 0 <= w -> 0 <= x < 2 ^ w -> c mod 2 ^ w = 0 -> c ||| x = c + x.
Proof.
  intros Hw Hx Hc. rewrite <- Z.add_lor_land.
  replace (c &&& x) with 0; [lia|]. symmetry. apply Z.bits_inj'. intros i Hi.
  rewrite Z.land_spec, Z.bits_0. destruct (Z.ltb_spec i w).
  - assert (Hb : Z.testbit (c mod 2 ^ w) i = false) by (by rewrite Hc, Z.bits_0).
    rewrite mod_testbit in Hb by done. destruct (Z.ltb_spec i w); [|lia]. simpl in Hb. by rewrite Hb.
  - rewrite (testbit_above w x) by done. by rewrite andb_false_r.
Qed.

Lemma field_arith w hi lo : 0 <= lo <= hi + 1 -> field w hi lo = w / 2 ^ lo mod 2 ^ (hi - lo + 1).
Proof. intros H. unfold field. by rewrite Z.shiftr_div_pow2, Z.land_ones by lia. Qed.

Lemma bits_msb_length n v : length (bits_msb n v) = n.
Proof. induction n; simpl; [done|by f_equal]. Qed.

Lemma bits_val_app a b : bits_val (a ++ b) = bits_val a * 2 ^ Z.of_nat (length b) + bits_val b.
Proof.
  unfold bits_val. induction b as [|x b IH] using rev_ind; [rewrite app_nil_r; simpl; lia|].
  rewrite app_assoc, !foldl_snoc, IH, length_app. simpl (length [x]).
  replace (Z.of_nat (length b + 1)) with (Z.of_nat (length b) + 1) by lia.
  rewrite Z.pow_add_r by lia. lia.
Qed.

Lemma bits_val_msb n v : bits_val (bits_msb n v) = v mod 2 ^ Z.of_nat n.
Proof.
  induction n as [|n IH]; [by rewrite Z.mod_1_r|]. cbn [bits_msb].
  change (?b :: ?l) with ([b] ++ l). rewrite bits_val_app, bits_msb_length, IH.
  replace (Z.of_nat (S n)) with (Z.of_nat n + 1) by lia. rewrite Z.pow_add_r by lia.
  rewrite Z.rem_mul_r by (first [apply Z.pow_nonzero; lia | lia]).
  change (bits_val [?b]) with (2 * 0 + Z.b2z b). rewrite Z.testbit_spec' by lia. change (2 ^ 1) with 2. lia.
Qed.

Lemma fetch_words_S m a n : fetch_words m a (S n) = load32 m a :: fetch_words m (a + 4) n.
Proof.
  unfold fetch_words. replace (Z.of_nat (S n)) with (1 + Z.of_nat n) by lia.
  rewrite seqZ_app, map_app by lia. change (map ?g (seqZ 0 1)) with [g 0]. cbn [app].
  f_equal; [f_equal; lia|]. replace (0 + 1) with (1 + 0) by lia. rewrite <- fmap_add_seqZ.
  change (@fmap list list_fmap) with map. rewrite map_map. apply map_ext. intros i. f_equal. lia.
Qed.

Lemma fetch_words_emit ws : forall m a,
  Forall (fun w => 0 <= w < 2 ^ 32) ws -> fetch_words (mem_write m a (ws ≫= le32)) a (length ws) = ws.
Proof.
  induction ws as [|w ws IH]; intros m a Hw; [done|]. inversion Hw; subst.
  cbn [length]. rewrite fetch_words_S. change ((w :: ws) ≫= le32) with (le32 w ++ (ws ≫= le32)).
  rewrite mem_write_app. change (Z.of_nat (length (le32 w))) with 4. f_equal; [|by apply IH].
  rewrite (load32_ext _ (store32 m a w)).
  - rewrite load32_store32. by apply u32_small.
  - intros x Hx. by rewrite mem_get_write_out by lia.
Qed.

(** The words that carry a run-time value. *)
Lemma cfg_field d : 0 <= d < 256 -> field (u32 (kSPIm_Cfg ||| d)) 31 28 = 0.
Proof. intros Hd. change (kSPIm_Cfg ||| d) with d. rewrite field_arith by lia. word_lia. Qed.

Lemma send_word_fields n v :
  1 <= n <= 16 -> 0 <= v < 2 ^ 16 ->
  let w := (kSPIm_SendCmd ||| Z.shiftl (n - 1) 16) ||| v in
  field w 31 28 = 2 /\ field w 19 16 = n - 1 /\ field w 15 0 = v /\ 0 <= w < 2 ^ 32.
Proof.
  intros Hn Hv w. assert (E : w = 536870912 + (n - 1) * 65536 + v).
  { unfold w. rewrite Z.shiftl_mul_pow2 by lia. change (2 ^ 16) with 65536 in *.
    rewrite (lor_add 28 kSPIm_SendCmd) by (try done; lia).
    change kSPIm_SendCmd with 536870912. rewrite (lor_add 16); [done|lia|done|].
    change (2 ^ 16) with 65536. Z.div_mod_to_equations. lia. }
  rewrite !field_arith by lia. rewrite E. change (2 ^ 16) with 65536 in *.
  repeat split; Z.div_mod_to_equations; lia.
Qed.

Lemma rx_word_fields n : 0 < n <= 65536 ->
  let w := u32 (kSPIm_RxData ||| (0x00470000 ||| (n - 1))) in
  field w 31 28 = 7 /\ field w 20 16 = 7 /\ field w 15 0 = n - 1 /\ words_per_transf w = 4%nat.
Proof.
  intros Hn w. assert (E : w = 1883701248 + (n - 1)).
  { unfold w. rewrite (lor_add 16 0x00470000) by (try done; lia).
    rewrite (lor_add 28) by (try done; lia). change kSPIm_RxData with 1879048192. rewrite u32_small; lia. }
  unfold words_per_transf. rewrite !field_arith by lia. rewrite E.
  assert (E2 : (1883701248 + (n - 1)) / 2 ^ 21 mod 2 ^ (22 - 21 + 1) = 2) by (Z.div_mod_to_equations; lia).
  rewrite E2. repeat split; Z.div_mod_to_equations; lia.
Qed.

(** Four words to an access: the bytes of the whole accesses, unchanged. *)
Lemma accesses_4 n : forall bs, (4 * n <= length bs)%nat -> accesses n 4 bs = take (4 * n) bs.
Proof.
  induction n as [|n IH]; intros bs Hl; [done|]. cbn [accesses Nat.sub replicate app].
  rewrite IH by (rewrite length_drop; lia). replace (4 * S n)%nat with (4 + 4 * n)%nat by lia. apply take_take_drop.
Qed.
Lemma received_4 bs : received 4 bs = take (4 * (length bs / 4)) bs.
Proof. apply accesses_4. pose proof (Nat.Div0.div_mod (length bs) 4). lia. Qed.

Lemma spim_word_cfg f st d : 0 <= d < 256 -> spim_word f st (u32 (kSPIm_Cfg ||| d)) = st.
Proof. intros Hd. unfold spim_word. by rewrite cfg_field. Qed.

Lemma spim_word_send f st n v : 1 <= n <= 16 -> 0 <= v < 2 ^ 16 ->
  spim_word f st ((kSPIm_SendCmd ||| Z.shiftl (n - 1) 16) ||| v) =
  mk_spim (cs st) (mosi st ++ bits_msb (Z.to_nat n) v) (miso st).
Proof.
  intros Hn Hv. unfold spim_word. destruct (send_word_fields n v Hn Hv) as (-> & -> & -> & _).
  simpl. do 3 f_equal. lia.
Qed.

Lemma spim_word_rx f o n : 0 < n <= 65536 -> cs o = Some 0 ->
  spim_word f o (u32 (kSPIm_RxData ||| (0x00470000 ||| (n - 1)))) =
  mk_spim (cs o) (mosi o) (miso o ++ received 4 (flash_reply f (mosi o) (Z.to_nat n))).
Proof.
  intros Hn Hcs. unfold spim_word. destruct (rx_word_fields n Hn) as (-> & -> & -> & ->).
  simpl. rewrite Hcs. rewrite bool_decide_eq_true_2 by done. do 5 f_equal. lia.
Qed.

Lemma read_header fa : 0 <= fa ->
  let m := bits_msb 8 3 ++ bits_msb 16 (Z.shiftr fa 8 &&& 0xffff) ++ bits_msb 8 (fa &&& 0xff) in
  bits_val (take 8 m) = 3 /\ length m = 32%nat /\ bits_val (drop 8 m) = fa mod 2 ^ 24.
Proof.
  intros Hfa m. change 0xffff with (Z.ones 16) in m. change 0xff with (Z.ones 8) in m.
  split; [done|]. split; [done|]. unfold m.
  rewrite drop_app_length' by done. rewrite bits_val_app, bits_msb_length, !bits_val_msb.
  rewrite !Z.land_ones, Z.shiftr_div_pow2 by lia. change (Z.of_nat 16) with 16. change (Z.of_nat 8) with 8.
  rewrite !Z.mod_mod by lia. change (2 ^ 24) with 16777216. change (2 ^ 16) with 65536. change (2 ^ 8) with 256.
  Z.div_mod_to_equations. lia.
Qed.

Lemma flash_bytes_length f fa n : 0 <= n -> Z.of_nat (length (flash_bytes f fa n)) = n.
Proof. intros. unfold flash_bytes. rewrite length_map, length_seqZ. lia. Qed.

Lemma flash_bytes_take f fa n k : 0 <= k <= n -> take (Z.to_nat k) (flash_bytes f fa n) = flash_bytes f fa k.
Proof.
  intros Hk. unfold flash_bytes. replace n with (k + (n - k)) by lia.
  rewrite seqZ_app, map_app, take_app_length' by (rewrite ?length_map, ?length_seqZ; lia). done.
Qed.

(** What the read sequence brings back: the words of whole accesses. *)
Definition whole (len : Z) : Z := len - len mod 4.
Lemma read_exchange f d fa len : 0 <= d < 256 -> 0 <= fa -> 0 < len < 65536 ->
  spim_run f (read_cmds d fa len) = flash_bytes f fa (whole len).
Proof.
  intros Hd Hfa Hlen. unfold spim_run, read_cmds. cbn [foldl].
  rewrite spim_word_cfg by done.
  change (spim_word f (mk_spim None [] []) kSPIm_SOT) with (mk_spim (Some 0) [] []).
  change (spim_word f _ (kSPIm_SendCmd ||| 0x70003)) with (mk_spim (Some 0) (bits_msb 8 3) []).
  assert (Hhi : 0 <= Z.shiftr fa 8 &&& 0xffff < 2 ^ 16).
  { change 0xffff with (Z.ones 16). rewrite Z.land_ones by lia. apply Z.mod_pos_bound. lia. }
  assert (Hlo : 0 <= fa &&& 0xff < 2 ^ 8).
  { change 0xff with (Z.ones 8). rewrite Z.land_ones by lia. apply Z.mod_pos_bound. lia. }
  change 0xf0000 with (Z.shiftl (16 - 1) 16). rewrite spim_word_send by lia.
  change 0x70000 with (Z.shiftl (8 - 1) 16). rewrite spim_word_send by lia. cbn [cs mosi miso].
  rewrite spim_word_rx by (done || lia). cbn [cs mosi miso]. rewrite <- app_assoc.
  change (Z.to_nat 16) with 16%nat. change (Z.to_nat 8) with 8%nat.
  destruct (read_header fa Hfa) as (Hop & Hl & Hv). set (m := bits_msb 8 3 ++ _) in *.
  change (miso (spim_word f ?s (kSPIm_EOT ||| 1))) with (miso s). cbn [miso app].
  assert (E : flash_reply f m (Z.to_nat len) = flash_bytes f fa len).
  { unfold flash_reply. rewrite Hop, Hl, Hv. cbn. rewrite Z2Nat.id by lia.
    apply map_ext. intros i. by rewrite Zplus_mod_idemp_l. }
  rewrite E, received_4, <- (flash_bytes_take f fa len (whole len)) by (unfold whole; Z.div_mod_to_equations; lia).
  f_equal. pose proof (flash_bytes_length f fa len ltac:(lia)) as Hfl.
  apply Nat2Z.inj. rewrite Nat2Z.inj_mul, Nat2Z.inj_div, Hfl, Z2Nat.id by (unfold whole; Z.div_mod_to_equations; lia).
  unfold whole. change (Z.of_nat 4) with 4. Z.div_mod_to_equations. lia.
Qed.

(** ** The channels

    Between two starts the writes only rewrite the record of one master. *)
Lemma with_qspi_twice id q q' h : with_qspi id q (with_qspi id q' h) = with_qspi id q h.
Proof. unfold with_qspi. simpl. by rewrite insert_insert_eq. Qed.
Lemma ram_with_qspi id q m h : with_ram m (with_qspi id q h) = with_qspi id q (with_ram m h).
Proof. done. Qed.
Lemma get_qspi_ram id m h : get_qspi id (with_ram m h) = get_qspi id h.
Proof. done. Qed.
Lemma ram_with_ram m h : ram (with_ram m h) = m.
Proof. done. Qed.

Lemma ram_of_qspi id q h : ram (with_qspi id q h) = ram h.
Proof. done. Qed.
Lemma flash_of_qspi id q m h : flash (with_qspi id q (with_ram m h)) = flash h.
Proof. done. Qed.
Lemma pop_with_qspi id q h : pop_delay (with_qspi id q h) = with_qspi id q (pop_delay h).
Proof. done. Qed.
Lemma next_delay_with_qspi id q m h : next_delay (with_qspi id q (with_ram m h)) = next_delay h.
Proof. done. Qed.

Ltac channel_simpl :=
  rewrite ?bind_wr, ?bind_set_ram, ?bind_ret;
  cbn [hw_write qspi_write Z.eqb Pos.eqb];
  rewrite ?ram_with_qspi, ?get_with_qspi, ?with_qspi_twice, ?get_qspi_ram, ?ram_of_qspi, ?ram_with_ram,
    ?flash_of_qspi, ?next_delay_with_qspi, ?pop_with_qspi, ?with_qspi_twice;
  cbn [q_rx_saddr q_rx_size q_rx_en q_tx_saddr q_tx_size q_tx_en q_tx_datasize q_cmd_saddr
       q_cmd_size q_busy q_inflight q_log].

Lemma flash_op_with_qspi `{Budget} id q m h : flash_op h (with_qspi id q (with_ram m h)).
Proof. by split. Qed.

Lemma flash_op_trans `{Budget} h1 h2 h3 : flash_op h1 h2 -> flash_op h2 h3 -> flash_op h1 h3.
Proof. intros [] []. split; (congruence || auto). Qed.

Lemma flash_op_pop `{Budget} h : flash_op h (pop_delay h).
Proof. split; try done. apply timely_pop. Qed.

Section Proofs.
Context `{Budget} `{SocConfig} `{LayoutOk}.

(** The command channel finds the sequence the driver stored. *)
Lemma auccmd_range : 0 <= addr_auccmd < 2 ^ 32.
Proof. pose proof layout_auccmd. unfold in_l2, L2_BASE, L2_SIZE in *. lia. Qed.
Lemma fetch_emitted m ws : (length ws <= 16)%nat -> Forall (fun w => 0 <= w < 2 ^ 32) ws ->
  dma_words (mem_write m addr_auccmd (ws ≫= le32)) (saddr addr_auccmd) (length ws) = ws.
Proof.
  intros Hl Hw. rewrite dma_words_saddr, dma_words_l2 by (pose proof layout_auccmd; unfold in_l2 in *; lia).
  by apply fetch_words_emit.
Qed.

(** The receive channel drains: the data is in memory when the loop exits. *)
Lemma poll_rx : forall fuel i q h,
  (q_busy q <= fuel)%nat -> q_rx_size q = Z.of_nat (length (q_inflight q)) -> 0 < q_rx_size q ->
  exists i' q', poll_zero fuel (Qspim 0 rx_size) i (with_qspi 0 q h) =
    Ok i' (with_qspi 0 q' (with_ram (dma_write (ram h) (q_rx_saddr q) (q_inflight q)) h)).
Proof.
  induction fuel as [|fuel IH]; intros i q h Hb Hsz Hpos; cbn [poll_zero]; rewrite bind_rd;
    cbn [hw_read]; unfold qspi_read; rewrite get_with_qspi;
    destruct (q_busy q) as [|n] eqn:Eb; try lia; cbn [fst snd].
  - rewrite Hsz, Z.sub_diag. cbn [Z.eqb]. rewrite ram_with_qspi, with_qspi_twice. by eauto.
  - rewrite Hsz, Z.sub_diag. cbn [Z.eqb]. rewrite ram_with_qspi, with_qspi_twice. by eauto.
  - destruct (Z.eqb_spec (q_rx_size q) 0); [lia|]. rewrite with_qspi_twice.
    apply (IH (i + 1) (mk_qspi _ _ _ _ _ _ _ _ _ n (q_inflight q) _)); simpl; (done || lia).
Qed.

(** A channel that receives less than it was told to never reads as drained. *)
Lemma poll_rx_short : forall fuel i q h,
  Z.of_nat (length (q_inflight q)) < q_rx_size q ->
  exists h', poll_zero fuel (Qspim 0 rx_size) i (with_qspi 0 q h) = Spin h'.
Proof.
  induction fuel as [|fuel IH]; intros i q h Hsz; cbn [poll_zero]; rewrite bind_rd;
    cbn [hw_read]; unfold qspi_read; rewrite get_with_qspi;
    destruct (q_busy q) as [|n] eqn:Eb; cbn [fst snd];
    match goal with |- context [if ?x =? 0 then _ else _] => destruct (Z.eqb_spec x 0); [lia|] end;
    rewrite ?ram_with_qspi, ?with_qspi_twice; [by eexists..| |]; apply IH; cbn [q_inflight q_rx_size length]; lia.
Qed.

Lemma start_cmd_spec ws q h :
  q_rx_en q = 1 -> (length ws <= 16)%nat ->
  Forall (fun w => 0 <= w < 2 ^ 32) ws ->
  exists q', start_cmd 0 ws (with_qspi 0 q (with_ram (mem_write (ram h) addr_auccmd (ws ≫= le32)) h)) =
      Ok tt (pop_delay (with_qspi 0 q' (with_ram (mem_write (ram h) addr_auccmd (ws ≫= le32)) h))) /\
    q_rx_saddr q' = q_rx_saddr q /\ q_rx_size q' = q_rx_size q /\ q_busy q' = next_delay h /\
    q_inflight q' = take (Z.to_nat (q_rx_size q)) (spim_run (flash h) ws).
Proof.
  intros Hen Hl Hw. unfold start_cmd, cmd_bytes. channel_simpl.
  rewrite (u32_small addr_auccmd) by apply auccmd_range. rewrite (u32_small (_ * 4)) by lia.
  unfold wr. channel_simpl. unfold qspi_start. channel_simpl.
  rewrite Z.div_mul, Nat2Z.id, fetch_emitted by (done || lia).
  rewrite Hen. cbn [Z.eqb]. eexists. split; [reflexivity|]. done.
Qed.

Lemma word_range_lor c x : 0 <= c < 2 ^ 32 -> 0 <= x < 2 ^ 32 -> 0 <= (c ||| x) < 2 ^ 32.
Proof.
  intros Hc Hx. apply testbit_bound; [lia|apply Z.lor_nonneg; lia|]. intros i Hi.
  rewrite Z.lor_spec, !(testbit_above 32) by lia. done.
Qed.

Lemma read_cmds_range d fa len : Forall (fun w => 0 <= w < 2 ^ 32) (read_cmds d fa len).
Proof.
  unfold read_cmds. change 0xffff with (Z.ones 16). change 0xff with (Z.ones 8).
  rewrite !Z.land_ones by lia.
  pose proof (Z.mod_pos_bound (Z.shiftr fa 8) (2 ^ 16) ltac:(lia)).
  pose proof (Z.mod_pos_bound fa (2 ^ 8) ltac:(lia)).
  repeat constructor; try apply u32_range; try done; apply word_range_lor; (done || lia).
Qed.

(** A receive transfer on master 0, whatever the command sequence: it ends when the
    sequence receives as much as the channel was told to expect, and polls for ever
    when it receives less. *)
Definition rx_run (ws : list Z) (la n : Z) : M hw unit :=
  disable_channels ;; emit ws ;; wr (Qspim 0 rx_saddr) la ;; wr (Qspim 0 rx_size) n ;;
  wr (Qspim 0 rx_cfg_en) 1 ;; start_cmd 0 ws ;; _ ← poll_zero budget (Qspim 0 rx_size) 0; skip.

Lemma rx_starts ws la n h : (length ws <= 16)%nat -> Forall (fun w => 0 <= w < 2 ^ 32) ws ->
  let h1 := pop_delay (with_ram (mem_write (ram h) addr_auccmd (ws ≫= le32)) h) in
  exists q, rx_run ws la n h = (_ ← poll_zero budget (Qspim 0 rx_size) 0; skip) (with_qspi 0 q h1) /\
    q_rx_saddr q = saddr la /\ q_rx_size q = n /\ q_busy q = next_delay h /\
    q_inflight q = take (Z.to_nat n) (spim_run (flash h) ws).
Proof.
  intros Hl Hw. unfold rx_run, disable_channels, emit. rewrite !bind_assoc.
  channel_simpl. rewrite bind_assoc. channel_simpl. channel_simpl.
  set (q := mk_qspi (saddr la) n _ _ _ _ _ _ _ _ _ _).
  destruct (start_cmd_spec ws q h) as (q' & Es & Esa & Esz & Ebu & Ein); [done..|].
  rewrite (bind_ok _ _ _ _ _ Es), pop_with_qspi. by exists q'.
Qed.

Lemma rx_spec ws la n h bytes :
  timely h -> (length ws <= 16)%nat ->
  Forall (fun w => 0 <= w < 2 ^ 32) ws ->
  0 < n -> spim_run (flash h) ws = bytes -> Z.of_nat (length bytes) = n ->
  exists h', rx_run ws la n h = Ok tt h' /\ flash_op h h' /\
    ram h' = dma_write (mem_write (ram h) addr_auccmd (ws ≫= le32)) la bytes.
Proof.
  intros Ht Hl Hw Hn Hrun Hlen.
  destruct (rx_starts ws la n h Hl Hw) as (q & -> & Esa & Esz & Ebu & Ein).
  rewrite Hrun, take_ge in Ein by lia.
  destruct (poll_rx budget 0 q (pop_delay (with_ram (mem_write (ram h) addr_auccmd (ws ≫= le32)) h)))
    as (i' & q2 & Ep); [rewrite Ebu; by apply next_delay_timely|rewrite Esz, Ein; lia|lia|].
  rewrite (bind_ok _ _ _ _ _ Ep). eexists. split; [reflexivity|]. rewrite Esa, Ein. split; [|by apply dma_write_saddr].
  apply (flash_op_trans _ (pop_delay h)); [apply flash_op_pop|by split].
Qed.

Lemma rx_short ws la n h : (length ws <= 16)%nat -> Forall (fun w => 0 <= w < 2 ^ 32) ws ->
  Z.of_nat (length (spim_run (flash h) ws)) < n -> exists h', rx_run ws la n h = Spin h'.
Proof.
  intros Hl Hw Hn. destruct (rx_starts ws la n h Hl Hw) as (q & -> & _ & Esz & _ & Ein).
  destruct (poll_rx_short budget 0 q (pop_delay (with_ram (mem_write (ram h) addr_auccmd (ws ≫= le32)) h))) as (h' & E).
  { rewrite Ein, length_take. lia. }
  exists h'. by apply bind_spin.
Qed.

Lemma le32_bytes_length ws : length (ws ≫= le32) = (4 * length ws)%nat.
Proof.
  induction ws as [|w ws IH]; [done|].
  change ((w :: ws) ≫= le32) with (le32 w ++ (ws ≫= le32)). rewrite length_app, IH. simpl. lia.
Qed.

Lemma mem_get_two_writes ws m la bytes x :
  (length ws <= 16)%nat -> ~ cmdbuf x \/ la <= x < la + Z.of_nat (length bytes) ->
  mem_get (mem_write (mem_write m addr_auccmd (ws ≫= le32)) la bytes) x = mem_get (mem_write m la bytes) x.
Proof.
  intros Hl Hx. destruct (decide (la <= x < la + Z.of_nat (length bytes))) as [Hin|Hout].
  - assert (Hlt : (Z.to_nat (x - la) < length bytes)%nat) by lia.
    apply lookup_lt_is_Some in Hlt as [b Hb].
    replace x with (la + Z.of_nat (Z.to_nat (x - la))) by lia.
    by rewrite !(mem_get_write_in _ _ _ _ _ Hb).
  - rewrite !mem_get_write_out; [done|done| |done]. destruct Hx as [Hx|Hx]; [|done].
    unfold cmdbuf in Hx. rewrite le32_bytes_length. lia.
Qed.

Lemma udma_flash_read_spec d fa la len h :
  timely h -> 0 <= d < 256 -> 0 <= fa -> 0 < len < 65536 -> len mod 4 = 0 ->
  exists h', udma_flash_read d fa la len h = Ok tt h' /\ flash_op h h' /\
    ram h' = dma_write (mem_write (ram h) addr_auccmd (read_cmds d fa len ≫= le32)) la
               (flash_bytes (flash h) fa len).
Proof.
  intros Ht Hd Hfa Hlen H4. apply (rx_spec (read_cmds d fa len)); try done; try lia.
  - simpl. lia.
  - apply read_cmds_range.
  - rewrite read_exchange by done. f_equal. unfold whole. lia.
  - apply flash_bytes_length. lia.
Qed.

Lemma readid_exchange f d : 0 <= d < 256 -> (4 <= length (flash_id f))%nat ->
  spim_run f (readid_cmds d) = take 4 (flash_id f).
Proof.
  intros Hd Hl. unfold spim_run, readid_cmds. cbn [foldl]. rewrite spim_word_cfg by done.
  change (spim_word f (mk_spim None [] []) kSPIm_SOT) with (mk_spim (Some 0) [] []).
  change (spim_word f _ (kSPIm_SendCmd ||| 0x7009f)) with (mk_spim (Some 0) (bits_msb 8 0x9f) []).
  change (miso (spim_word f ?s (kSPIm_EOT ||| 1))) with (miso s).
  change (miso _) with (received 4 (take 4 (flash_id f ++ replicate 4 0xFF))).
  rewrite take_app_le, received_4, length_take by done. by rewrite Nat.min_l, take_take by done.
Qed.

Lemma readid_range d : Forall (fun w => 0 <= w < 2 ^ 32) (readid_cmds d).
Proof. repeat constructor; try apply u32_range; done. Qed.

Lemma command_range d cs op : 0 <= cs < 2 ^ 32 -> 0 <= op < 2 ^ 32 ->
  Forall (fun w => 0 <= w < 2 ^ 32) (command_cmds d cs op).
Proof.
  intros. repeat constructor; try apply u32_range; try done; apply word_range_lor; (done || lia).
Qed.

(** The two reset commands: no data comes back, nothing is waited for. *)
Lemma command_spec id ws h : (length ws <= 16)%nat -> Forall (fun w => 0 <= w < 2 ^ 32) ws ->
  exists q', (wr (Qspim id cmd_cfg_en) 0 ;; wr (Qspim id cmd_cfg_clr) 1 ;; emit ws ;;
      start_cmd id ws ;; mret 0) h =
    Ok 0 (pop_delay (with_qspi id q' (with_ram (mem_write (ram h) addr_auccmd (ws ≫= le32)) h))) /\
    q_log q' = q_log (get_qspi id h) ++ [ws].
Proof.
  intros Hl Hw. unfold emit, start_cmd, cmd_bytes.
  channel_simpl. channel_simpl. rewrite bind_assoc. channel_simpl.
  rewrite bind_assoc. channel_simpl. rewrite (u32_small addr_auccmd), (u32_small (_ * 4)) by (lia || apply auccmd_range).
  unfold qspi_start. channel_simpl.
  rewrite Z.div_mul, Nat2Z.id, fetch_emitted by (done || lia).
  eexists. split; [reflexivity|]. done.
Qed.

Lemma open_spec id freq h : 0 < freq ->
  exists h', udma_qspim_open id freq h = Ok (0, u8 (5000000 / freq)) h' /\ flash_op h h' /\ ram h' = ram h.
Proof.
  intros Hf. unfold udma_qspim_open. rewrite !bind_rd, !bind_wr. cbn [hw_read fst snd].
  destruct (Z.eqb_spec freq 0); [lia|]. eexists. split; [reflexivity|]. split; [by split|done].
Qed.

#[export] Instance flash_port_ok : FlashPortOk flash_port.
Proof.
  split.
  - intros d fa la len h Ht Hd Hfa Hlen H4 Hl2.
    destruct (udma_flash_read_spec d fa la len h) as (h' & E & Fo & Hr); [done..|].
    exists h'. split; [done|]. split; [done|]. intros x Hx. rewrite Hr, dma_write_l2 by (by rewrite flash_bytes_length by lia).
    apply mem_get_two_writes; [simpl; lia|]. by rewrite flash_bytes_length by lia.
  - intros d la h Ht Hd Hid Hl2.
    assert (Hl : length (take 4 (flash_id (flash h))) = 4%nat) by (rewrite length_take; lia).
    destruct (rx_spec (readid_cmds d) la 4 h (take 4 (flash_id (flash h)))) as (h' & E & Fo & Hr);
      [done|simpl; lia|apply readid_range|lia|by apply readid_exchange|by rewrite Hl|].
    exists h'. split; [exact E|]. split; [done|]. intros x Hx. rewrite Hr, dma_write_place, dma_write_l2 by (by rewrite Hl).
    apply mem_get_two_writes; [simpl; lia|]. by rewrite Hl.
  - intros d h Ht Hd. cbn [flash_reset_enable flash_reset_memory flash_port].
    unfold udma_flash_reset_enable, udma_flash_reset_memory.
    split;
      match goal with |- context [start_cmd 0 ?ws] =>
        destruct (command_spec 0 ws h) as (q' & E & _); [simpl; lia|by apply command_range|] end;
      (eexists; split; [exact E|]; split;
       [apply (flash_op_trans _ (pop_delay h)); [apply flash_op_pop|by split]|];
       intros x Hx; cbn [ram pop_delay with_delays with_qspi with_ram]; apply mem_get_write_out; simpl; unfold cmdbuf in Hx; lia).
  - intros freq h Ht Hf. by apply open_spec.
Qed.
End Proofs.

(** ** What goes over the wire

    The transactions of a command sequence: at each end of transfer, the chip
    selected and the bits sent. *)
Fixpoint wire (f : flash_hw) (st : spim_st) (ws : list Z) : list (Z * list bool) :=
  match ws with
  | [] => []
  | w :: ws' =>
      (if field w 31 28 =? 9 then from_option (fun c => [(c, mosi st)]) [] (cs st) else [])
      ++ wire f (spim_word f st w) ws'
  end.
Definition transactions (f : flash_hw) (ws : list Z) : list (Z * list bool) :=
  wire f (mk_spim None [] []) ws.

Lemma command_transactions f d c op : 0 <= d < 256 -> 0 <= c < 4 -> 0 <= op < 2 ^ 16 ->
  transactions f (command_cmds d c (Z.shiftl (8 - 1) 16 ||| op)) = [(c, bits_msb 8 op)].
Proof.
  intros Hd Hc Hop. unfold transactions, command_cmds. cbn [wire].
  rewrite cfg_field, spim_word_cfg by done.
  assert (Es : forall st, spim_word f st (kSPIm_SOT ||| c) = mk_spim (Some c) [] (miso st) /\
    field (kSPIm_SOT ||| c) 31 28 = 1).
  { intros st. unfold spim_word.
    assert (E : kSPIm_SOT ||| c = 268435456 + c) by (apply (lor_add 28); (done || lia)).
    rewrite E, !field_arith by lia.
    replace ((268435456 + c) / 2 ^ 28 mod 2 ^ (31 - 28 + 1)) with 1
      by (symmetry; change (2 ^ 28) with 268435456; Z.div_mod_to_equations; lia).
    replace ((268435456 + c) / 2 ^ 0 mod 2 ^ (1 - 0 + 1)) with c
      by (symmetry; simpl; Z.div_mod_to_equations; lia). done. }
  rewrite (proj1 (Es _)), (proj2 (Es (mk_spim None [] []))).
  rewrite Z.lor_assoc, spim_word_send by lia.
  destruct (send_word_fields 8 op) as (-> & _); [lia|done|]. done.
Qed.

Lemma write_transactions f d fa len : 0 <= d < 256 -> 0 <= fa -> 0 < len < 65536 ->
  exists bits, transactions f (write_cmds d fa len) = [(0, bits)] /\ bits_val (take 8 bits) = 6.
Proof.
  intros Hd Hfa Hlen.
  exists (bits_msb 8 6 ++ bits_msb 16 (Z.shiftr fa 8 &&& 0xffff) ++ bits_msb 8 (fa &&& 0xff)).
  split; [|done]. unfold transactions, write_cmds. cbn [wire].
  rewrite cfg_field, spim_word_cfg by done.
  change (spim_word f (mk_spim None [] []) kSPIm_SOT) with (mk_spim (Some 0) [] []).
  change (spim_word f _ (kSPIm_SendCmd ||| 0x70006)) with (mk_spim (Some 0) (bits_msb 8 6) []).
  assert (Hhi : 0 <= Z.shiftr fa 8 &&& 0xffff < 2 ^ 16).
  { change 0xffff with (Z.ones 16). rewrite Z.land_ones by lia. apply Z.mod_pos_bound. lia. }
  assert (Hlo : 0 <= fa &&& 0xff < 2 ^ 8).
  { change 0xff with (Z.ones 8). rewrite Z.land_ones by lia. apply Z.mod_pos_bound. lia. }
  change 0xf0000 with (Z.shiftl (16 - 1) 16). change 0x70000 with (Z.shiftl (8 - 1) 16).
  rewrite !spim_word_send by lia.
  rewrite (proj1 (send_word_fields 16 _ ltac:(lia) Hhi)).
  rewrite (proj1 (send_word_fields 8 (fa &&& 0xff) ltac:(lia) ltac:(lia))).
  assert (E6 : field (u32 (kSPIm_TxData ||| (0x00470000 ||| (len - 1)))) 31 28 = 6).
  { rewrite (lor_add 16 0x00470000) by (try done; lia). rewrite (lor_add 28) by (try done; lia).
    change kSPIm_TxData with 1610612736. rewrite u32_small, field_arith by lia.
    Z.div_mod_to_equations; lia. }
  unfold spim_word. rewrite E6. done.
Qed.

Lemma write_cmds_range d fa len : Forall (fun w => 0 <= w < 2 ^ 32) (write_cmds d fa len).
Proof.
  unfold write_cmds. change 0xffff with (Z.ones 16). change 0xff with (Z.ones 8).
  rewrite !Z.land_ones by lia.
  pose proof (Z.mod_pos_bound (Z.shiftr fa 8) (2 ^ 16) ltac:(lia)).
  pose proof (Z.mod_pos_bound fa (2 ^ 8) ltac:(lia)).
  repeat constructor; try apply u32_range; try done; apply word_range_lor; (done || lia).
Qed.

Section Properties.
Context `{Budget} `{SocConfig} `{LayoutOk}.

(** C8. [udma_flash_read] on the documented SPI master, uDMA and flash, for every
    address and every length of 1 to 65535 bytes.  The receive command moves four
    words per access: when the length is a multiple of four, on a board whose
    transfers drain within the poll budget, the call returns with the flash bytes
    from the (24-bit, wrapping) address at the destination; no other byte of memory
    changes but the command buffer's, and no other peripheral state.  The address
    register reaches L2 only: a destination elsewhere means the byte of L2 with the
    same low 19 bits.  For every other length the call never returns, on no board
    and with no budget: the last words stay in the shift register and the count of
    the channel never reaches zero. *)
Theorem udma_flash_read_loads d fa la len h :
  0 <= d < 256 -> 0 <= fa -> 0 < len < 65536 ->
  (timely h -> len mod 4 = 0 ->
   exists h', udma_flash_read d fa la len h = Ok tt h' /\ flash_op h h' /\
    (forall i, 0 <= i < len ->
       mem_get (ram h') (l2_addr (la + i)) = u8 (flash_mem (flash h) ((fa + i) mod 2 ^ 24))) /\
    (in_l2 la len -> mem_read (ram h') la (Z.to_nat len) = flash_bytes (flash h) fa len) /\
    forall x, ~ cmdbuf x -> (forall i, 0 <= i < len -> x <> l2_addr (la + i)) -> mem_get (ram h') x = mem_get (ram h) x) /\
  (len mod 4 <> 0 -> exists h', udma_flash_read d fa la len h = Spin h').
Proof.
  intros Hd Hfa Hlen. pose proof (flash_bytes_length (flash h) fa len ltac:(lia)) as Hl. split.
  - intros Ht H4. destruct (udma_flash_read_spec d fa la len h) as (h' & E & Fo & Hr); [done..|].
    exists h'. split; [done|]. split; [done|]. rewrite Hr. split; [|split].
    + intros i Hi. rewrite <- (Z2Nat.id i) by lia.
      rewrite (dma_write_in _ _ _ _ (u8 (flash_mem (flash h) ((fa + i) mod 2 ^ 24)))).
      * rewrite Z2Nat.id by lia. apply u8_small, u8_range.
      * unfold L2_SIZE. lia.
      * unfold flash_bytes. rewrite list_lookup_fmap, lookup_seqZ_lt by lia. cbn. do 4 f_equal. lia.
    + intros Hl2. rewrite dma_write_l2 by (by rewrite Hl).
      replace (Z.to_nat len) with (length (flash_bytes (flash h) fa len)) by lia.
      apply mem_read_write. apply Forall_forall. intros b Hb.
      apply list_elem_of_In, in_map_iff in Hb as (i & <- & _). apply byte_ok_u8.
    + intros x Hx Hout. rewrite dma_write_out by (by rewrite Hl).
      apply mem_get_write_out. unfold cmdbuf in Hx. rewrite (le32_bytes_length (read_cmds d fa len)). simpl. lia.
  - intros H4. apply (rx_short (read_cmds d fa len)); [simpl; lia|apply read_cmds_range|].
    rewrite read_exchange, flash_bytes_length by (done || unfold whole; Z.div_mod_to_equations; lia).
    unfold whole. Z.div_mod_to_equations. lia.
Qed.

(** The flash reset of [main]: [udma_flash_reset_enable] and then
    [udma_flash_reset_memory] put exactly two transactions on the wire of the
    addressed master, the one-byte commands 0x66 and 0x99 to the given chip
    select, in this order, and both calls return 0. *)
Theorem flash_reset_on_wire d id c h :
  0 <= d < 256 -> 0 <= c < 4 ->
  exists h1 h2 s1 s2, udma_flash_reset_enable d id c h = Ok 0 h1 /\
    udma_flash_reset_memory d id c h1 = Ok 0 h2 /\
    q_log (get_qspi id h2) = q_log (get_qspi id h) ++ [s1; s2] /\
    transactions (flash h) s1 = [(c, bits_msb 8 0x66)] /\
    transactions (flash h) s2 = [(c, bits_msb 8 0x99)].
Proof.
  intros Hd Hc. unfold udma_flash_reset_enable, udma_flash_reset_memory.
  set (s1 := command_cmds d c 0x70066). set (s2 := command_cmds d c 0x70099).
  destruct (command_spec id s1 h) as (q1 & E1 & L1); [simpl; lia|apply command_range; lia|].
  rewrite E1. match type of E1 with _ = Ok 0 ?x => set (h1 := x) in * end.
  destruct (command_spec id s2 h1) as (q2 & E2 & L2); [simpl; lia|apply command_range; lia|].
  eexists h1, _, s1, s2. split; [done|]. split; [exact E2|].
  change (pop_delay (with_qspi ?i ?q ?h)) with (with_qspi i q (pop_delay h)).
  rewrite get_with_qspi, L2. unfold h1.
  change (pop_delay (with_qspi ?i ?q ?h)) with (with_qspi i q (pop_delay h)).
  rewrite get_with_qspi, L1, <- app_assoc. split; [done|].
  split; [apply (command_transactions _ d c 0x66)|apply (command_transactions _ d c 0x99)]; lia.
Qed.

(** [udma_flash_write] waits on the wrong channel: with an idle receive
    channel it returns after a single poll while its transfer is still running
    (all but one of the transfer's polls remain), and the opcode it sends, whatever the
    address, is 0x06, write enable, not a page program. *)
Theorem udma_flash_write_returns_early d fa la len h :
  0 <= d < 256 -> 0 <= fa -> 0 < len < 65536 ->
  q_rx_size (get_qspi 0 h) = 0 ->
  exists h' sq bits, udma_flash_write d fa la len h = Ok tt h' /\
    q_busy (get_qspi 0 h') = pred (next_delay h) /\
    q_log (get_qspi 0 h') = q_log (get_qspi 0 h) ++ [sq] /\
    transactions (flash h) sq = [(0, bits)] /\ bits_val (take 8 bits) = 6.
Proof.
  intros Hd Hfa Hlen Hrx.
  destruct (write_transactions (flash h) d fa len Hd Hfa Hlen) as (bits & Etr & Ebits).
  pose proof (write_cmds_range d fa len) as Hr.
  unfold udma_flash_write. set (ws := write_cmds d fa len) in *.
  assert (Hl : length ws = 7%nat) by done. clearbody ws.
  unfold disable_channels, emit, start_cmd, cmd_bytes.
  do 6 (channel_simpl; rewrite ?bind_assoc).
  rewrite Hl, (u32_small addr_auccmd), (u32_small (_ * 4)) by (lia || apply auccmd_range).
  unfold qspi_start. channel_simpl.
  rewrite Z.div_mul, Nat2Z.id by lia. replace 7%nat with (length ws) by done. rewrite fetch_emitted by (done || lia). cbn [Z.eqb].
  rewrite Hrx.
  match goal with |- context [with_qspi 0 ?q ?h'] => set (Q := q); set (h1 := h') end.
  assert (E : exists h2, poll_zero budget (Qspim 0 rx_size) 0 (with_qspi 0 Q h1) = Ok 0 h2 /\
            q_busy (get_qspi 0 h2) = pred (next_delay h) /\ q_log (get_qspi 0 h2) = q_log Q).
  { destruct budget; cbn [poll_zero]; rewrite bind_rd; cbn [hw_read]; unfold qspi_read;
      rewrite get_with_qspi; cbn [q_busy Q]; destruct (next_delay h) eqn:Ed; rewrite ?Ed;
      cbn [fst snd]; (eexists; split; [reflexivity|]); rewrite ?get_with_qspi; cbn [q_busy Q];
      rewrite ?Ed; done. }
  destruct E as (h2 & E & Eb & El). rewrite (bind_ok _ _ _ _ _ E).
  exists h2, ws, bits. by rewrite Hl.
Qed.
End Properties.

Section Witnesses.
#[local] Instance w_budget : Budget := sample_budget.
#[local] Instance w_config : SocConfig := {| UDMA_CTRL_UART0_CLKEN := 1; UDMA_CTRL_QSPIM0_CLKEN := 4 |}.
#[local] Instance w_layout : Layout := sample_layout.

Lemma udma_flash_read_loads_witness :
  (exists h', udma_flash_read 2 0x1000 0x1C000000 16 (reset_board sample_flash) = Ok tt h' /\
    flash_op (reset_board sample_flash) h' /\
    mem_read (ram h') 0x1C000000 16 = flash_bytes sample_flash 0x1000 16) /\
  (exists h', udma_flash_read 2 0x1000 0x1C000000 18 (reset_board sample_flash) = Spin h').
Proof.
  split.
  - destruct (udma_flash_read_loads 2 0x1000 0x1C000000 16 (reset_board sample_flash)) as [Hok _]; [lia..|].
    destruct Hok as (h' & E & Fo & _ & Hm & _); [apply reset_timely|done|]. exists h'. split; [done|]. split; [done|].
    apply Hm. unfold in_l2, L2_BASE, L2_SIZE. lia.
  - apply (udma_flash_read_loads 2 0x1000 0x1C000000 18 (reset_board sample_flash)); [lia..|done].
Defined.

Lemma flash_reset_on_wire_witness :
  exists h1 h2 s1 s2, udma_flash_reset_enable 2 0 0 (reset_board sample_flash) = Ok 0 h1 /\
    udma_flash_reset_memory 2 0 0 h1 = Ok 0 h2 /\
    q_log (get_qspi 0 h2) = [s1; s2] /\
    transactions sample_flash s1 = [(0, bits_msb 8 0x66)] /\
    transactions sample_flash s2 = [(0, bits_msb 8 0x99)].
Proof. apply (flash_reset_on_wire 2 0 0 (reset_board sample_flash)); lia. Defined.

Lemma udma_flash_write_returns_early_witness :
  exists h' sq bits,
    udma_flash_write 2 0x1000 0x1C000000 16 (with_delays [3%nat] (reset_board sample_flash)) = Ok tt h' /\
    q_busy (get_qspi 0 h') = 2%nat /\ q_log (get_qspi 0 h') = [sq] /\
    transactions sample_flash sq = [(0, bits)] /\ bits_val (take 8 bits) = 6.
Proof.
  apply (udma_flash_write_returns_early 2 0x1000 0x1C000000 16 (with_delays [3%nat] (reset_board sample_flash)));
    (lia || done).
Defined.
End Witnesses.
