(* ===== verification/I2cs.v ===== *)
(** * I2cs: the APB I2C slave accessors of a2_boot/hal_apb_i2cs.c

    One definition per accessor; [I2csPort] is the part of them the I2C boot
    protocol programs against, with the promises it relies on. *)

From S2P Require Import Prelude Monad Hw.

(** a2_boot/include/hal_apb_i2cs.h *)
Definition MY_I2C_SLAVE_ADDRESS : Z := 0x62.
Definition MY_I2C_SLAVE_ADDRESS_7BIT : Z := Z.shiftl 0x62 1.

Definition rd8 (r : i2cs_reg) : M hw Z := v ← rd (I2cs r); mret (u8 v).

Definition hal_get_apb_i2cs_slave_address : M hw Z := rd8 i2cs_dev_address_slave_addr.
Definition hal_set_apb_i2cs_slave_address (aSlaveAddress : Z) : M hw unit :=
  wr (I2cs i2cs_dev_address_slave_addr) aSlaveAddress.
Definition hal_set_apb_i2cs_slave_on_off (aStatus : Z) : M hw Z :=
  (if aStatus =? 1 then wr (I2cs i2cs_enable_ip_enable) 1
   else if aStatus =? 0 then wr (I2cs i2cs_enable_ip_enable) 0
   else skip) ;;
  rd8 i2cs_enable_ip_enable.
Definition hal_get_i2cs_fifo_i2c_apb_read_data_port : M hw Z := rd8 i2cs_fifo_i2c_apb_read_data_port.
Definition hal_set_i2cs_fifo_apb_i2c_write_data_port (aData : Z) : M hw unit :=
  wr (I2cs i2cs_fifo_apb_i2c_write_data_port) aData.
Definition hal_get_i2cs_fifo_i2c_apb_write_flags : M hw Z := rd8 i2cs_fifo_i2c_apb_write_flags.
Definition hal_get_i2cs_fifo_i2c_apb_read_flags : M hw Z := rd8 i2cs_fifo_i2c_apb_read_flags.
Definition hal_get_i2cs_fifo_apb_i2c_read_flags : M hw Z := rd8 i2cs_fifo_apb_i2c_read_flags.
Definition hal_get_i2cs_fifo_apb_i2c_write_flags : M hw Z := rd8 i2cs_fifo_apb_i2c_write_flags.
Definition hal_get_i2cs_msg_i2c_apb : M hw Z := rd8 i2cs_msg_i2c_apb.
Definition hal_get_i2cs_msg_i2c_apb_status : M hw Z := rd8 i2cs_msg_i2c_apb_status.
Definition hal_set_i2cs_msg_apb_i2c (aData : Z) : M hw unit := wr (I2cs i2cs_msg_apb_i2c) aData.
Definition hal_get_i2cs_msg_apb_i2c_status : M hw Z := rd8 i2cs_msg_apb_i2c_status.

(** [for (i = 0; i < 1000; i++);] *)
Definition spin_1000 : M hw unit := for_ 1000 0 (fun _ => skip).

Definition hal_i2cs_fifo_i2c_apb_FIFO_flush : M hw unit :=
  wr (I2cs i2cs_fifo_i2c_apb_flush_enable) 1 ;; spin_1000 ;;
  wr (I2cs i2cs_fifo_i2c_apb_flush_enable) 0 ;; spin_1000.
Definition hal_i2cs_fifo_apb_i2c_FIFO_flush : M hw unit :=
  wr (I2cs i2cs_fifo_apb_i2c_flush_enable) 1 ;; spin_1000 ;;
  wr (I2cs i2cs_fifo_apb_i2c_flush_enable) 0 ;; spin_1000.

(** ** The interface

    Setters of one component of the slave, the rest of the board untouched. *)
Definition set_rx (l : list Z) (h : hw) : hw :=
  let i := i2cs h in with_i2cs (mk_i2cs (i_addr i) (i_enable i) (i_msg i) (i_status i) l (i_tx i) (i_out i)) h.
Definition set_tx (l : list Z) (h : hw) : hw :=
  let i := i2cs h in with_i2cs (mk_i2cs (i_addr i) (i_enable i) (i_msg i) (i_status i) (i_rx i) l (i_out i)) h.
Definition set_status (v : Z) (h : hw) : hw :=
  let i := i2cs h in with_i2cs (mk_i2cs (i_addr i) (i_enable i) (i_msg i) v (i_rx i) (i_tx i) (i_out i)) h.
Definition set_out (l : list Z) (h : hw) : hw :=
  let i := i2cs h in with_i2cs (mk_i2cs (i_addr i) (i_enable i) (i_msg i) (i_status i) (i_rx i) (i_tx i) l) h.

Class I2csPort := {
  msg_status : M hw Z;
  msg_get : M hw Z;
  msg_put : Z -> M hw unit;
  rx_flags : M hw Z;
  rx_port : M hw Z;
  tx_port : Z -> M hw unit;
  tx_flush : M hw unit
}.

Class I2csPortOk (P : I2csPort) : Prop := {
  msg_status_spec : forall h, msg_status h = Ok (u8 (i_status (i2cs h))) h;
  msg_get_spec : forall h, msg_get h = Ok (u8 (i_msg (i2cs h))) (set_status 0 h);
  msg_put_spec : forall v h, msg_put v h = Ok tt (set_out (i_out (i2cs h) ++ [u8 v]) h);
  rx_flags_spec : forall h, exists n, rx_flags h = Ok n h /\ (n = 0 <-> i_rx (i2cs h) = []);
  rx_port_spec : forall h b rest, i_rx (i2cs h) = b :: rest -> rx_port h = Ok (u8 b) (set_rx rest h);
  tx_port_spec : forall v h, (length (i_tx (i2cs h)) < 256)%nat ->
    tx_port v h = Ok tt (set_tx (i_tx (i2cs h) ++ [u8 v]) h);
  tx_flush_spec : forall h, tx_flush h = Ok tt (set_tx [] h)
}.

#[export] Instance i2cs_port : I2csPort := {
  msg_status := hal_get_i2cs_msg_i2c_apb_status;
  msg_get := hal_get_i2cs_msg_i2c_apb;
  msg_put := hal_set_i2cs_msg_apb_i2c;
  rx_flags := hal_get_i2cs_fifo_i2c_apb_read_flags;
  rx_port := hal_get_i2cs_fifo_i2c_apb_read_data_port;
  tx_port := hal_set_i2cs_fifo_apb_i2c_write_data_port;
  tx_flush := hal_i2cs_fifo_apb_i2c_FIFO_flush
}.

Lemma for_skip {S} n : forall i (s : S), for_ n i (fun _ => skip) s = Ok tt s.
Proof. induction n as [|n IH]; intros i s; [done|]. rewrite for_S, bind_skip. apply IH. Qed.

Lemma spin_1000_skip h : spin_1000 h = Ok tt h.
Proof. apply for_skip. Qed.

Lemma bind_spin_1000 {B} (f : unit -> M hw B) h : (spin_1000 ≫= f) h = f tt h.
Proof. by rewrite (bind_ok _ _ _ _ _ (spin_1000_skip h)). Qed.

Lemma fifo_read_flags_range n : 0 <= fifo_read_flags n < 8.
Proof. unfold fifo_read_flags. repeat case_match; lia. Qed.
Lemma fifo_write_flags_range n : 0 <= fifo_write_flags n < 8.
Proof. unfold fifo_write_flags. repeat case_match; lia. Qed.

Lemma fifo_read_flags_zero {A} (l : list A) : fifo_read_flags (Z.of_nat (length l)) = 0 <-> l = [].
Proof.
  split; [|by intros ->]. unfold fifo_read_flags.
  destruct (Z.eqb_spec (Z.of_nat (length l)) 0); [by destruct l|]. repeat case_match; lia.
Qed.

(** Reading 8-bit registers, one rewrite. *)
Lemma rd8_spec r h : rd8 r h = Ok (u8 (i2cs_read r h).1) (i2cs_read r h).2.
Proof. unfold rd8. by rewrite bind_rd. Qed.

Lemma rx_flush_spec h : hal_i2cs_fifo_i2c_apb_FIFO_flush h = Ok tt (set_rx [] h).
Proof.
  unfold hal_i2cs_fifo_i2c_apb_FIFO_flush. by rewrite !bind_wr, bind_spin_1000, bind_wr, spin_1000_skip.
Qed.
Lemma tx_flush_empties h : hal_i2cs_fifo_apb_i2c_FIFO_flush h = Ok tt (set_tx [] h).
Proof.
  unfold hal_i2cs_fifo_apb_i2c_FIFO_flush. by rewrite !bind_wr, bind_spin_1000, bind_wr, spin_1000_skip.
Qed.
Lemma read_flags_empty h :
  exists n, hal_get_i2cs_fifo_i2c_apb_read_flags h = Ok n h /\ (n = 0 <-> i_rx (i2cs h) = []).
Proof.
  unfold hal_get_i2cs_fifo_i2c_apb_read_flags. rewrite rd8_spec. cbn [i2cs_read fst snd].
  eexists. split; [done|]. rewrite u8_small; [apply fifo_read_flags_zero|].
  pose proof (fifo_read_flags_range (Z.of_nat (length (i_rx (i2cs h))))). lia.
Qed.
#[local] Opaque spin_1000.

#[export] Instance i2cs_port_ok : I2csPortOk i2cs_port.
Proof.
  split; cbn [msg_status msg_get msg_put rx_flags rx_port tx_port tx_flush i2cs_port]; try done.
  - apply read_flags_empty.
  - intros h b rest Hrx. unfold hal_get_i2cs_fifo_i2c_apb_read_data_port. rewrite rd8_spec.
    cbn [i2cs_read]. by rewrite Hrx.
  - intros v h Hl. unfold hal_set_i2cs_fifo_apb_i2c_write_data_port, wr. cbn [hw_write i2cs_write].
    by rewrite bool_decide_eq_true_2.
Qed.

(** ** Properties *)

(** The driver's own view of its FIFOs and registers after each operation. *)
Definition set_i2cs_enable (v : Z) (h : hw) : hw :=
  let i := i2cs h in with_i2cs (mk_i2cs (i_addr i) v (i_msg i) (i_status i) (i_rx i) (i_tx i) (i_out i)) h.

(** The slave's on/off switch: 1 and 0 write the enable bit and read it
    back, every other value leaves the register alone and reports it; the slave
    address written is the one read, for every 7-bit address; both flushes empty
    their own FIFO and nothing else; and the flag the receive loop tests is zero
    exactly when the receive FIFO is empty. *)
Theorem i2cs_accessors h v :
  hal_set_apb_i2cs_slave_on_off 1 h = Ok 1 (set_i2cs_enable 1 h) /\
  hal_set_apb_i2cs_slave_on_off 0 h = Ok 0 (set_i2cs_enable 0 h) /\
  (v <> 0 -> v <> 1 -> hal_set_apb_i2cs_slave_on_off v h = Ok (u8 (i_enable (i2cs h))) h) /\
  (forall a, 0 <= a < 128 ->
     (hal_set_apb_i2cs_slave_address a ;; hal_get_apb_i2cs_slave_address) h =
     Ok a (hw_write (I2cs i2cs_dev_address_slave_addr) a h)) /\
  hal_i2cs_fifo_i2c_apb_FIFO_flush h = Ok tt (set_rx [] h) /\
  hal_i2cs_fifo_apb_i2c_FIFO_flush h = Ok tt (set_tx [] h) /\
  exists n, hal_get_i2cs_fifo_i2c_apb_read_flags h = Ok n h /\ (n = 0 <-> i_rx (i2cs h) = []).
Proof.
  split; [done|]. split; [done|]. split.
  { intros H0 H1. unfold hal_set_apb_i2cs_slave_on_off.
    destruct (Z.eqb_spec v 1), (Z.eqb_spec v 0); done. }
  split.
  { intros a Ha. unfold hal_set_apb_i2cs_slave_address. rewrite bind_wr.
    unfold hal_get_apb_i2cs_slave_address. rewrite rd8_spec. cbn.
    rewrite Z.mod_small by lia. by rewrite u8_small by lia. }
  split; [apply rx_flush_spec|]. split; [apply tx_flush_empties|apply read_flags_empty].
Qed.

Lemma i2cs_accessors_witness :
  hal_set_apb_i2cs_slave_on_off 7 (reset_board sample_flash) = Ok 0 (reset_board sample_flash) /\
  (hal_set_apb_i2cs_slave_address 0x62 ;; hal_get_apb_i2cs_slave_address) (reset_board sample_flash) =
    Ok 0x62 (hw_write (I2cs i2cs_dev_address_slave_addr) 0x62 (reset_board sample_flash)).
Proof.
  destruct (i2cs_accessors (reset_board sample_flash) 7) as (_ & _ & H7 & Ha & _).
  split; [by apply H7|apply Ha; lia].
Defined.
