(* ===== verification/Machine.v ===== *)
(** * Machine: the static variables of the boot loader next to the board

    Every C object with static storage is a field here, except the two that are
    handed to a DMA engine ([auccmd] and [bootCode], which live in [ram]); crt0.S
    clears them all before [main]. *)

From S2P Require Import Prelude Monad Hw Crc.

(** uartProtocol.h *)
Definition UART_PROTOCOL_CONV_BUF_LEN : nat := 512%nat.
Definition UART_PROTOCOL_MEMORY_WRITE_BUF_LEN : nat := 256%nat.
Definition UART0_PROTOCOL_STATE_IDLE : Z := 0.
Definition UART0_PROTOCOL_GET_RECORD_TYPE : Z := 1.
Definition UART0_PROTOCOL_GET_COUNT : Z := 2.
Definition UART0_PROTOCOL_GET_DESTINATION_ADDRESS : Z := 3.
Definition UART0_PROTOCOL_GET_DATA : Z := 4.
Definition UART0_PROTOCOL_GET_CRC : Z := 5.
Definition UART0_PROTOCOL_GET_TERMINATION_CHARACTER : Z := 6.

(** The statics of uartProtocol.c. *)
Record uart_vars := mk_uart_vars {
  gsUartProtocolConvToHexBuf : list Z;          (* uint8_t [512] *)
  gsMemoryWriteBuf : list Z;                    (* uint8_t [256] *)
  gsUart0FillIndex : Z;                         (* uint16_t *)
  gsUart0ProtocolState : Z;                     (* uint8_t *)
  gsSRecordType : Z;                            (* uint8_t *)
  gsDestinationAddress : Z;                     (* uint32_t *)
  gsDestinationAddressSizeInBytes : Z;          (* uint16_t *)
  gsTotalCountInBytes : Z;                      (* uint16_t *)
  gsDataCountInBytes : Z;                       (* uint16_t *)
  gsMemoryWriteBufIndex : Z;                    (* uint16_t *)
  gsDataRxdCounterInCharacters : Z;             (* uint16_t *)
  gsCRCVal : Z;                                 (* uint8_t *)
  gsCalculatedChkSum : Z                        (* uint16_t *)
}.
Definition uart_vars_bss : uart_vars :=
  mk_uart_vars (replicate UART_PROTOCOL_CONV_BUF_LEN 0)
    (replicate UART_PROTOCOL_MEMORY_WRITE_BUF_LEN 0) 0 0 0 0 0 0 0 0 0 0 0.

Section Setters.
Context (u : uart_vars).
Definition set_conv b := mk_uart_vars b (gsMemoryWriteBuf u) (gsUart0FillIndex u)
  (gsUart0ProtocolState u) (gsSRecordType u) (gsDestinationAddress u)
  (gsDestinationAddressSizeInBytes u) (gsTotalCountInBytes u) (gsDataCountInBytes u)
  (gsMemoryWriteBufIndex u) (gsDataRxdCounterInCharacters u) (gsCRCVal u) (gsCalculatedChkSum u).
Definition set_wbuf b := mk_uart_vars (gsUartProtocolConvToHexBuf u) b (gsUart0FillIndex u)
  (gsUart0ProtocolState u) (gsSRecordType u) (gsDestinationAddress u)
  (gsDestinationAddressSizeInBytes u) (gsTotalCountInBytes u) (gsDataCountInBytes u)
  (gsMemoryWriteBufIndex u) (gsDataRxdCounterInCharacters u) (gsCRCVal u) (gsCalculatedChkSum u).
Definition set_fill v := mk_uart_vars (gsUartProtocolConvToHexBuf u) (gsMemoryWriteBuf u) v
  (gsUart0ProtocolState u) (gsSRecordType u) (gsDestinationAddress u)
  (gsDestinationAddressSizeInBytes u) (gsTotalCountInBytes u) (gsDataCountInBytes u)
  (gsMemoryWriteBufIndex u) (gsDataRxdCounterInCharacters u) (gsCRCVal u) (gsCalculatedChkSum u).
Definition set_state v := mk_uart_vars (gsUartProtocolConvToHexBuf u) (gsMemoryWriteBuf u)
  (gsUart0FillIndex u) v (gsSRecordType u) (gsDestinationAddress u)
  (gsDestinationAddressSizeInBytes u) (gsTotalCountInBytes u) (gsDataCountInBytes u)
  (gsMemoryWriteBufIndex u) (gsDataRxdCounterInCharacters u) (gsCRCVal u) (gsCalculatedChkSum u).
Definition set_type v := mk_uart_vars (gsUartProtocolConvToHexBuf u) (gsMemoryWriteBuf u)
  (gsUart0FillIndex u) (gsUart0ProtocolState u) v (gsDestinationAddress u)
  (gsDestinationAddressSizeInBytes u) (gsTotalCountInBytes u) (gsDataCountInBytes u)
  (gsMemoryWriteBufIndex u) (gsDataRxdCounterInCharacters u) (gsCRCVal u) (gsCalculatedChkSum u).
Definition set_dest v := mk_uart_vars (gsUartProtocolConvToHexBuf u) (gsMemoryWriteBuf u)
  (gsUart0FillIndex u) (gsUart0ProtocolState u) (gsSRecordType u) v
  (gsDestinationAddressSizeInBytes u) (gsTotalCountInBytes u) (gsDataCountInBytes u)
  (gsMemoryWriteBufIndex u) (gsDataRxdCounterInCharacters u) (gsCRCVal u) (gsCalculatedChkSum u).
Definition set_destsize v := mk_uart_vars (gsUartProtocolConvToHexBuf u) (gsMemoryWriteBuf u)
  (gsUart0FillIndex u) (gsUart0ProtocolState u) (gsSRecordType u) (gsDestinationAddress u)
  v (gsTotalCountInBytes u) (gsDataCountInBytes u)
  (gsMemoryWriteBufIndex u) (gsDataRxdCounterInCharacters u) (gsCRCVal u) (gsCalculatedChkSum u).
Definition set_total v := mk_uart_vars (gsUartProtocolConvToHexBuf u) (gsMemoryWriteBuf u)
  (gsUart0FillIndex u) (gsUart0ProtocolState u) (gsSRecordType u) (gsDestinationAddress u)
  (gsDestinationAddressSizeInBytes u) v (gsDataCountInBytes u)
  (gsMemoryWriteBufIndex u) (gsDataRxdCounterInCharacters u) (gsCRCVal u) (gsCalculatedChkSum u).
Definition set_datacount v := mk_uart_vars (gsUartProtocolConvToHexBuf u) (gsMemoryWriteBuf u)
  (gsUart0FillIndex u) (gsUart0ProtocolState u) (gsSRecordType u) (gsDestinationAddress u)
  (gsDestinationAddressSizeInBytes u) (gsTotalCountInBytes u) v
  (gsMemoryWriteBufIndex u) (gsDataRxdCounterInCharacters u) (gsCRCVal u) (gsCalculatedChkSum u).
Definition set_windex v := mk_uart_vars (gsUartProtocolConvToHexBuf u) (gsMemoryWriteBuf u)
  (gsUart0FillIndex u) (gsUart0ProtocolState u) (gsSRecordType u) (gsDestinationAddress u)
  (gsDestinationAddressSizeInBytes u) (gsTotalCountInBytes u) (gsDataCountInBytes u)
  v (gsDataRxdCounterInCharacters u) (gsCRCVal u) (gsCalculatedChkSum u).
Definition set_rxcount v := mk_uart_vars (gsUartProtocolConvToHexBuf u) (gsMemoryWriteBuf u)
  (gsUart0FillIndex u) (gsUart0ProtocolState u) (gsSRecordType u) (gsDestinationAddress u)
  (gsDestinationAddressSizeInBytes u) (gsTotalCountInBytes u) (gsDataCountInBytes u)
  (gsMemoryWriteBufIndex u) v (gsCRCVal u) (gsCalculatedChkSum u).
Definition set_crcval v := mk_uart_vars (gsUartProtocolConvToHexBuf u) (gsMemoryWriteBuf u)
  (gsUart0FillIndex u) (gsUart0ProtocolState u) (gsSRecordType u) (gsDestinationAddress u)
  (gsDestinationAddressSizeInBytes u) (gsTotalCountInBytes u) (gsDataCountInBytes u)
  (gsMemoryWriteBufIndex u) (gsDataRxdCounterInCharacters u) v (gsCalculatedChkSum u).
Definition set_chk v := mk_uart_vars (gsUartProtocolConvToHexBuf u) (gsMemoryWriteBuf u)
  (gsUart0FillIndex u) (gsUart0ProtocolState u) (gsSRecordType u) (gsDestinationAddress u)
  (gsDestinationAddressSizeInBytes u) (gsTotalCountInBytes u) (gsDataCountInBytes u)
  (gsMemoryWriteBufIndex u) (gsDataRxdCounterInCharacters u) (gsCRCVal u) v.
End Setters.

(** Chains of setters, overwritten fields dropped. *)
Lemma set_chk_twice u a b : set_chk (set_chk u a) b = set_chk u b.
Proof. done. Qed.
Lemma store_setters u b2 n2 b3 n3 wb w :
  set_fill (set_windex (set_wbuf (set_fill (set_conv (set_fill (set_conv u b2) n2) b3) n3) wb) w) 0 =
  set_fill (set_windex (set_wbuf (set_conv u b3) wb) w) 0.
Proof. by destruct u. Qed.
Lemma field_end_setters u r k :
  set_state (set_rxcount (set_fill (set_chk (set_rxcount u r) k) 0) 0) 5 =
  set_state (set_rxcount (set_fill (set_chk u k) 0) 0) 5.
Proof. by destruct u. Qed.

(** Compute the fields of updated [uart_vars]. *)
Ltac uv_simpl :=
  cbn [set_conv set_wbuf set_fill set_state set_type set_dest set_destsize set_total set_datacount
       set_windex set_rxcount set_crcval set_chk gsUartProtocolConvToHexBuf gsMemoryWriteBuf
       gsUart0FillIndex gsUart0ProtocolState gsSRecordType gsDestinationAddress
       gsDestinationAddressSizeInBytes gsTotalCountInBytes gsDataCountInBytes gsMemoryWriteBufIndex
       gsDataRxdCounterInCharacters gsCRCVal gsCalculatedChkSum].

(** The globals of main.c, uartProtocol.c and I2CProtocol.c that switch the two
    protocols off. *)
Record flags := mk_flags {
  gStopUartMsgFlg : Z;
  gStopUartBootLoaderFlg : Z;
  gStopI2CBootLoaderFlg : Z
}.
Definition flags_bss : flags := mk_flags 0 0 0.

(** The statics of I2CProtocol.c. *)
Record i2c_vars := mk_i2c_vars {
  gsI2CProtocolFrameRxBuf : list Z;             (* uint8_t [256] *)
  gUseCRCFlg : Z;                               (* uint8_t *)
  gsI2CProtocolFrameTxBuf : list Z;             (* uint8_t [16] *)
  gsI2CProtocolFrameCounter : Z;                (* uint16_t *)
  lastSentFrameSize : Z                         (* uint8_t *)
}.
Definition i2c_vars_bss : i2c_vars := mk_i2c_vars (replicate 256 0) 0 (replicate 16 0) 0 0.

Record machine := mk_machine {
  board : hw;
  flgs : flags;
  uartp : uart_vars;
  i2cp : i2c_vars;
  aucclkdiv : Z;                                (* uint8_t, spi.c *)
  crcTable : list Z                             (* crc crcTable[256], crc.c *)
}.
Definition after_crt0 (h : hw) : machine :=
  mk_machine h flags_bss uart_vars_bss i2c_vars_bss 0 crcTable_bss.

Definition with_board (h : hw) (s : machine) : machine :=
  mk_machine h (flgs s) (uartp s) (i2cp s) (aucclkdiv s) (crcTable s).
Definition with_flags (f : flags) (s : machine) : machine :=
  mk_machine (board s) f (uartp s) (i2cp s) (aucclkdiv s) (crcTable s).
Definition with_uartp (u : uart_vars) (s : machine) : machine :=
  mk_machine (board s) (flgs s) u (i2cp s) (aucclkdiv s) (crcTable s).
Definition with_i2cp (i : i2c_vars) (s : machine) : machine :=
  mk_machine (board s) (flgs s) (uartp s) i (aucclkdiv s) (crcTable s).
Definition with_clkdiv (d : Z) (s : machine) : machine :=
  mk_machine (board s) (flgs s) (uartp s) (i2cp s) d (crcTable s).
Definition with_crcTable (t : list Z) (s : machine) : machine :=
  mk_machine (board s) (flgs s) (uartp s) (i2cp s) (aucclkdiv s) t.

(** A computation on the board, run on the machine. *)
Definition lift {A} (m : M hw A) : M machine A := fun s =>
  match m (board s) with
  | Ok a h => Ok a (with_board h s)
  | Jump e h => Jump e (with_board h s)
  | Fault h => Fault (with_board h s)
  | Spin h => Spin (with_board h s)
  end.

(** A statement over the statics of uartProtocol.c; [None] is an access outside
    a buffer. *)
Definition on_uartp (f : uart_vars -> option uart_vars) : M machine unit := fun s =>
  match f (uartp s) with Some u => Ok tt (with_uartp u s) | None => Fault s end.

Lemma lift_ok {A} (m : M hw A) s a h : m (board s) = Ok a h -> lift m s = Ok a (with_board h s).
Proof. intros E. unfold lift. by rewrite E. Qed.

Lemma bind_lift {A B} (m : M hw A) (f : A -> M machine B) s a h :
  m (board s) = Ok a h -> (lift m ≫= f) s = f a (with_board h s).
Proof. intros E. by apply bind_ok, lift_ok. Qed.

Lemma bind_on_uartp {B} f (k : unit -> M machine B) s u :
  f (uartp s) = Some u -> (on_uartp f ≫= k) s = k tt (with_uartp u s).
Proof. intros E. apply bind_ok. unfold on_uartp. by rewrite E. Qed.

(** The copy of an array into memory: [memcpy(dest, buf, n)]. *)
Definition memcpy_out (dest : Z) (buf : list Z) (n : Z) : M machine unit := fun s =>
  if n <=? Z.of_nat (length buf) then
    Ok tt (with_board (with_ram (mem_write (ram (board s)) dest (take (Z.to_nat n) buf)) (board s)) s)
  else Fault s.
