(* ===== verification/UartProtocol.v ===== *)
(** * UartProtocol: the S-record loader of a2_boot/uartProtocol.c

    [processUartProtocolFrames] consumes at most one character of UART 0 and
    advances the record state machine by it. *)

From S2P Require Import Prelude Monad Hw Uart Dbg Machine.

Section Protocol.
Context `{UartPort} `{Layout}.

Fixpoint send_loop (n : nat) (buf : list Z) (i : Z) : M hw Z :=
  match n with
  | O => mret i
  | S n' =>
      lChar ← of_opt (buf !? i);
      set_ram (fun m => mem_set m addr_lChar lChar) ;;
      _ ← writeraw 0 1 addr_lChar;
      send_loop n' buf (u8 (i + 1))
  end.
Definition sendUartProtocolFrame (aUartProtocolFrameBuf : option (list Z)) (aFrameSize : Z) : M hw Z :=
  match aUartProtocolFrameBuf with
  | Some buf => send_loop (Z.to_nat aFrameSize) buf 0
  | None => mret 0
  end.

Definition sendUartBootMeFrame : M hw Z :=
  sendUartProtocolFrame (Some (ascii_bytes "A2 BOOTME" ++ crlf ++ [0])) 11.
Definition sendUartOKorNotOKFrame (aSts : Z) : M hw Z :=
  if aSts =? 1 then sendUartProtocolFrame (Some (ascii_bytes "OK" ++ crlf ++ [0])) 4
  else if aSts =? 0 then sendUartProtocolFrame (Some (ascii_bytes "NOT OK" ++ crlf ++ [0])) 8
  else mret 0.

Definition stop_others (s : machine) : machine :=
  let f := flgs s in
  let f := if gStopUartMsgFlg f =? 0
           then mk_flags 1 (gStopUartBootLoaderFlg f) (gStopI2CBootLoaderFlg f) else f in
  let f := if gStopI2CBootLoaderFlg f =? 0
           then mk_flags (gStopUartMsgFlg f) (gStopUartBootLoaderFlg f) 1 else f in
  with_flags f s.

Definition parseUartProtocolFrame (aBuf : list Z) (aLen : Z) : M machine unit :=
  modify stop_others ;;
  lift (dbg_str aBuf) ;;
  _ ← lift (sendUartOKorNotOKFrame 1); skip.

(** The cases of the switch, given the character received. *)
Definition idle_char (lChar : Z) : M machine unit :=
  if lChar =? 83 then
    on_uartp (fun u => Some (set_state u UART0_PROTOCOL_GET_RECORD_TYPE)) ;;
    modify stop_others
  else skip.

Definition start_count (u : uart_vars) : uart_vars :=
  set_chk (set_fill (set_state u UART0_PROTOCOL_GET_COUNT) 0) 0.
Definition record_type_char (lChar : Z) (u : uart_vars) : option uart_vars :=
  let u := set_type u lChar in
  let t := gsSRecordType u in
  Some (if t =? 48 then start_count (set_destsize u 2)
        else if t =? 49 then start_count (set_destsize u 2)
        else if t =? 50 then start_count (set_destsize u 3)
        else if t =? 51 then start_count (set_destsize u 4)
        else if t =? 53 then start_count u
        else if t =? 55 then start_count (set_destsize u 4)
        else if t =? 56 then start_count (set_destsize u 3)
        else if t =? 57 then start_count (set_destsize u 2)
        else u).

(** [gsUartProtocolConvToHexBuf[gsUart0FillIndex] = lChar; gsUart0FillIndex++;] *)
Definition put_conv (lChar : Z) (u : uart_vars) : option uart_vars :=
  b ← zupdate (gsUartProtocolConvToHexBuf u) (gsUart0FillIndex u) lChar;
  Some (set_fill (set_conv u b) (u16 (gsUart0FillIndex u + 1))).
(** [gsUartProtocolConvToHexBuf[gsUart0FillIndex++] = 0;
    value = atoh(gsUartProtocolConvToHexBuf, gsUart0FillIndex);] *)
Definition convert (u : uart_vars) : option (Z * uart_vars) :=
  u ← put_conv 0 u;
  v ← atoh (gsUartProtocolConvToHexBuf u) (gsUart0FillIndex u);
  Some (v, u).

Definition get_count_char (lChar : Z) (u : uart_vars) : option uart_vars :=
  u ← put_conv lChar u;
  if gsUart0FillIndex u >=? 2 then
    '(v, u) ← convert u;
    let u := set_total u (u16 v) in
    let u := set_datacount u (u16 (gsTotalCountInBytes u - gsDestinationAddressSizeInBytes u - 1)) in
    let u := set_fill u 0 in
    let u := set_chk u (u16 (gsCalculatedChkSum u + gsTotalCountInBytes u)) in
    Some (set_state u UART0_PROTOCOL_GET_DESTINATION_ADDRESS)
  else Some u.

Definition is_data_type (t : Z) : bool := (t =? 48) || (t =? 49) || (t =? 50) || (t =? 51).
Definition is_load_type (t : Z) : bool := (t =? 49) || (t =? 50) || (t =? 51).
Definition is_start_type (t : Z) : bool := (t =? 55) || (t =? 56) || (t =? 57).

Definition get_destination_char (lChar : Z) (u : uart_vars) : option uart_vars :=
  u ← put_conv lChar u;
  if gsUart0FillIndex u >=? 2 * gsDestinationAddressSizeInBytes u then
    '(v, u) ← convert u;
    let u := set_dest u v in
    let a := gsDestinationAddress u in
    let u := set_chk u (u16 (gsCalculatedChkSum u + (a &&& 0xFF))) in
    let u := set_chk u (u16 (gsCalculatedChkSum u + Z.shiftr (a &&& 0xFF00) 8)) in
    let u := set_chk u (u16 (gsCalculatedChkSum u + Z.shiftr (a &&& 0xFF0000) 16)) in
    let u := set_chk u (u16 (gsCalculatedChkSum u + Z.shiftr (a &&& 0xFF000000) 24)) in
    let u := set_windex (set_rxcount (set_fill u 0) 0) 0 in
    if is_data_type (gsSRecordType u) then Some (set_state u UART0_PROTOCOL_GET_DATA)
    else if is_start_type (gsSRecordType u) then Some (set_state u UART0_PROTOCOL_GET_CRC)
    else Some u
  else Some u.

(** [for (i = 0; i < gsMemoryWriteBufIndex; i++) gsCalculatedChkSum += gsMemoryWriteBuf[i];]
    with [uint8_t i]; [n] bounds the iterations. *)
Fixpoint chksum_loop (n : nat) (i : Z) : M machine unit :=
  u ← gets uartp;
  if i <? gsMemoryWriteBufIndex u then
    match n with
    | O => spin
    | S n' =>
        on_uartp (fun u => b ← gsMemoryWriteBuf u !? i; Some (set_chk u (u16 (gsCalculatedChkSum u + b)))) ;;
        chksum_loop n' (u8 (i + 1))
    end
  else skip.

Definition store_data_char (lChar : Z) (u : uart_vars) : option uart_vars :=
  u ← put_conv lChar u;
  if gsUart0FillIndex u =? 2 then
    '(v, u) ← convert u;
    b ← zupdate (gsMemoryWriteBuf u) (gsMemoryWriteBufIndex u) (u8 v);
    Some (set_fill (set_windex (set_wbuf u b) (u16 (gsMemoryWriteBufIndex u + 1))) 0)
  else Some u.
Definition get_data_char (lChar : Z) : M machine unit :=
  on_uartp (store_data_char lChar) ;;
  on_uartp (fun u => Some (set_rxcount u (u16 (gsDataRxdCounterInCharacters u + 1)))) ;;
  u ← gets uartp;
  when (gsDataRxdCounterInCharacters u >=? 2 * gsDataCountInBytes u) (
    chksum_loop 256 0 ;;
    on_uartp (fun u => Some (set_state (set_rxcount (set_fill u 0) 0) UART0_PROTOCOL_GET_CRC))).

Definition accept_record : M machine unit :=
  u ← gets uartp;
  (if negb (gsDestinationAddress u =? 0) then
     if is_load_type (gsSRecordType u) then
       memcpy_out (gsDestinationAddress u) (gsMemoryWriteBuf u) (gsMemoryWriteBufIndex u)
     else if is_start_type (gsSRecordType u) then
       lift (dbg_str (10 :: cstr "UART BL JMP ")) ;;
       lift (dbg_hex32 (gsDestinationAddress u)) ;;
       lift (dbg_str (cstr " ")) ;;
       jump_to_address (gsDestinationAddress u)
     else skip
   else skip) ;;
  _ ← lift (sendUartOKorNotOKFrame 1); skip.

Definition reject_record : M machine unit :=
  u ← gets uartp;
  lift (dbg_str (10 :: cstr "CHKSUM ERR ")) ;;
  lift (dbg_hex8 (gsCalculatedChkSum u)) ;;
  lift (dbg_hex8 (gsCRCVal u)) ;;
  _ ← lift (sendUartOKorNotOKFrame 0); skip.

Definition complete_crc (u : uart_vars) : option uart_vars :=
  '(v, u) ← convert u;
  let u := set_crcval u (u8 v) in
  let u := set_chk u (gsCalculatedChkSum u &&& 0xFF) in
  Some (set_chk u (gsCalculatedChkSum u ^^^ 0xFF)).
Definition get_crc_char (lChar : Z) : M machine unit :=
  on_uartp (put_conv lChar) ;;
  u ← gets uartp;
  when (gsUart0FillIndex u >=? 2) (
    on_uartp complete_crc ;;
    u ← gets uartp;
    (if gsCalculatedChkSum u =? gsCRCVal u then accept_record else reject_record) ;;
    on_uartp (fun u =>
      Some (set_state (set_windex (set_fill u 0) 0) UART0_PROTOCOL_GET_TERMINATION_CHARACTER))).

Definition termination_char (lChar : Z) (u : uart_vars) : option uart_vars :=
  let u := set_type u 0 in
  let u := set_dest u 0 in
  let u := set_rxcount u 0 in
  let u := set_destsize u 0 in
  let u := set_chk u 0 in
  let u := set_crcval u 0 in
  let u := set_fill u 0 in
  let u := set_windex u 0 in
  let u := set_total u 0 in
  Some (set_state u UART0_PROTOCOL_STATE_IDLE).

(** [if (udma_uart_readraw(0, 1, &lChar) == 1) { ... }] *)
Definition receive (k : Z -> M machine unit) : M machine unit :=
  r ← lift (readraw 0 1 0);
  let '(status, lChar) := r in
  if status =? 1 then k lChar else skip.

Definition processUartProtocolFrames : M machine unit :=
  u ← gets uartp;
  let st := gsUart0ProtocolState u in
  if st =? UART0_PROTOCOL_STATE_IDLE then receive idle_char
  else if st =? UART0_PROTOCOL_GET_RECORD_TYPE then receive (fun c => on_uartp (record_type_char c))
  else if st =? UART0_PROTOCOL_GET_COUNT then receive (fun c => on_uartp (get_count_char c))
  else if st =? UART0_PROTOCOL_GET_DESTINATION_ADDRESS then
    receive (fun c => on_uartp (get_destination_char c))
  else if st =? UART0_PROTOCOL_GET_DATA then receive get_data_char
  else if st =? UART0_PROTOCOL_GET_CRC then receive get_crc_char
  else if st =? UART0_PROTOCOL_GET_TERMINATION_CHARACTER then
    receive (fun c => on_uartp (termination_char c))
  else skip.
End Protocol.
