(* ===== verification/SRecord.v ===== *)
(** * SRecord: the loader against the S-record format

    The Motorola S-record format as a specification (records, their text, the
    effect of a file on memory), the simulation that relates it to the character
    state machine of [UartProtocol], and the theorems on records and files.
    [feeds] says what a stretch of the receive schedule, idle polls included,
    does to the loader. *)

From S2P Require Import Prelude Monad Hw Uart Dbg Machine UartProtocol.

(** ** Views: what of a machine the protocol determines *)
Record view := mk_view {
  vu : uart_vars;
  vf : flags;
  vm : memory;
  vs : Z -> list Z
}.

Section Feeding.
Context `{Budget} `{LayoutOk} `{UartPort} `{!UartPortOk _}.

(** Machine [s] shows view [v]; everything the protocol never touches is as in
    [s0]. *)
Record shows (s0 : machine) (v : view) (s : machine) : Prop := {
  sh_uart : uartp s = vu v;
  sh_flags : flgs s = vf v;
  sh_mem : forall x, ~ scratch x -> mem_get (ram (board s)) x = mem_get (vm v) x;
  sh_sent : forall id, sent id (board s) = vs v id;
  sh_timely : timely (board s);
  sh_i2cp : i2cp s = i2cp s0;
  sh_clk : aucclkdiv s = aucclkdiv s0;
  sh_crc : crcTable s = crcTable s0;
  sh_board : same_board (with_ram (ram (board s)) (board s0)) (board s)
}.

Definition view_of (s : machine) : view :=
  mk_view (uartp s) (flgs s) (ram (board s)) (fun id => sent id (board s)).

Lemma shows_self s : timely (board s) -> shows s (view_of s) s.
Proof. intros Ht. by split. Qed.

(** Receiving. *)
Lemma receive_char s0 v s k c rest :
  shows s0 v s -> rx_schedule 0 (board s) = Some c :: rest ->
  exists s', receive k s = k (u8 c) s' /\ shows s0 v s' /\ rx_schedule 0 (board s') = rest.
Proof.
  intros [] Hrx. destruct (readraw_char 0 1 0 (board s) c rest Hrx) as (h & E & B & Hs & Hr & Ht).
  exists (with_board h s). unfold receive. rewrite (bind_lift _ _ _ _ _ E). split; [done|].
  split; [|done]. pose proof (same_ram _ _ B) as Hram. split; simpl; try done.
  - intros x Hx. rewrite Hram. auto.
  - intros id. by rewrite Hs.
  - auto.
  - etrans; [|exact B]. rewrite Hram. exact sh_board0.
Qed.

Lemma receive_none s0 v s k sched :
  shows s0 v s -> rx_schedule 0 (board s) = None :: sched ->
  exists s', receive k s = Ok tt s' /\ shows s0 v s' /\ rx_schedule 0 (board s') = sched.
Proof.
  intros [] Hrx. destruct (readraw_none 0 1 0 (board s)) as (h & E & B & Hs & Hr & Ht);
    [rewrite Hrx; by right|].
  exists (with_board h s). unfold receive. rewrite (bind_lift _ _ _ _ _ E). split; [done|].
  rewrite Hrx in Hr. split; [|done]. pose proof (same_ram _ _ B) as Hram. split; simpl; try done.
  - intros x Hx. rewrite Hram. auto.
  - intros id. by rewrite Hs.
  - auto.
  - etrans; [|exact B]. rewrite Hram. exact sh_board0.
Qed.

(** The case of the switch for a state. *)
Definition body (st : Z) : Z -> M machine unit :=
  if st =? 0 then idle_char
  else if st =? 1 then fun c => on_uartp (record_type_char c)
  else if st =? 2 then fun c => on_uartp (get_count_char c)
  else if st =? 3 then fun c => on_uartp (get_destination_char c)
  else if st =? 4 then get_data_char
  else if st =? 5 then get_crc_char
  else fun c => on_uartp (termination_char c).

Definition in_switch (u : uart_vars) : Prop := 0 <= gsUart0ProtocolState u <= 6.

Lemma process_body s : in_switch (uartp s) ->
  processUartProtocolFrames s = receive (body (gsUart0ProtocolState (uartp s))) s.
Proof.
  unfold in_switch. intros Hst. unfold processUartProtocolFrames. rewrite bind_gets.
  set (st := gsUart0ProtocolState (uartp s)) in *.
  assert (Hin : st ∈ seqZ 0 7) by (apply elem_of_seqZ; lia). clearbody st.
  repeat (apply elem_of_cons in Hin as [->|Hin]; [done|]). by apply elem_of_nil in Hin.
Qed.

(** A stretch of schedule that carries the characters [cs] takes the loader from
    [v] to [v']. *)
Definition feeds (s0 : machine) (v : view) (cs : list Z) (v' : view) : Prop :=
  forall s sched rest, shows s0 v s -> rx_schedule 0 (board s) = sched ++ rest -> omap id sched = cs ->
    exists s', iter_ (length sched) processUartProtocolFrames s = Ok tt s' /\
      shows s0 v' s' /\ rx_schedule 0 (board s') = rest.

Definition feeds_jump (s0 : machine) (v : view) (cs : list Z) (e : Z) (v' : view) : Prop :=
  forall s sched rest, shows s0 v s -> rx_schedule 0 (board s) = sched ++ rest -> omap id sched = cs ->
    exists s', iter_ (length sched) processUartProtocolFrames s = Jump e s' /\ shows s0 v' s'.

Lemma feeds_nil s0 v : in_switch (vu v) -> feeds s0 v [] v.
Proof.
  intros Hw s sched. revert s. induction sched as [|[c|] sched IH]; intros s rest Hs Hrx Ho.
  - by exists s.
  - discriminate Ho.
  - cbn [length iter_].
    destruct (receive_none s0 v s (body (gsUart0ProtocolState (uartp s))) _ Hs Hrx) as (s1 & E & Hs1 & Hrx1).
    destruct (IH s1 rest Hs1 Hrx1 Ho) as (s2 & E2 & Hs2 & Hrx2).
    exists s2. split; [|done]. rewrite (bind_ok _ _ _ tt s1); [done|].
    rewrite process_body; [done|]. by rewrite (sh_uart _ _ _ Hs).
Qed.

Lemma omap_app_inv (sched : list (option Z)) : forall c1 c2, omap id sched = c1 ++ c2 ->
  exists s1 s2, sched = s1 ++ s2 /\ omap id s1 = c1 /\ omap id s2 = c2.
Proof.
  induction sched as [|o sched IH]; intros c1 c2 E.
  - exists [], []. by destruct c1, c2.
  - destruct o as [c|].
    + destruct c1 as [|d c1]; simpl in E.
      * exists [], (Some c :: sched). done.
      * injection E as -> E. destruct (IH _ _ E) as (s1 & s2 & -> & E1 & E2).
        exists (Some d :: s1), s2. split; [done|]. split; [|done]. simpl. by f_equal.
    + destruct (IH _ _ E) as (s1 & s2 & -> & E1 & E2). by exists (None :: s1), s2.
Qed.

Lemma feeds_app s0 v1 v2 v3 c1 c2 : feeds s0 v1 c1 v2 -> feeds s0 v2 c2 v3 -> feeds s0 v1 (c1 ++ c2) v3.
Proof.
  intros F1 F2 s sched rest Hs Hrx Ho. apply omap_app_inv in Ho as (k1 & k2 & -> & O1 & O2).
  rewrite <- app_assoc in Hrx. destruct (F1 s k1 _ Hs Hrx O1) as (s1 & E1 & Hs1 & Hrx1).
  destruct (F2 s1 k2 _ Hs1 Hrx1 O2) as (s2 & E2 & Hs2 & Hrx2).
  exists s2. split; [|done]. by rewrite length_app, iter_app, (bind_ok _ _ _ _ _ E1).
Qed.

Lemma feeds_app_jump s0 v1 v2 v3 c1 c2 e :
  feeds s0 v1 c1 v2 -> feeds_jump s0 v2 c2 e v3 -> feeds_jump s0 v1 (c1 ++ c2) e v3.
Proof.
  intros F1 F2 s sched rest Hs Hrx Ho. apply omap_app_inv in Ho as (k1 & k2 & -> & O1 & O2).
  rewrite <- app_assoc in Hrx. destruct (F1 s k1 _ Hs Hrx O1) as (s1 & E1 & Hs1 & Hrx1).
  destruct (F2 s1 k2 _ Hs1 Hrx1 O2) as (s2 & E2 & Hs2).
  exists s2. split; [|done]. by rewrite length_app, iter_app, (bind_ok _ _ _ _ _ E1).
Qed.

(** The first character of a schedule, after any number of idle polls. *)
Lemma first_char s0 v s sched c cs rest :
  in_switch (vu v) -> shows s0 v s -> rx_schedule 0 (board s) = sched ++ rest ->
  omap id sched = c :: cs ->
  exists k1 k2 s1 s2, sched = k1 ++ Some c :: k2 /\ omap id k2 = cs /\
    iter_ (length k1) processUartProtocolFrames s = Ok tt s1 /\
    processUartProtocolFrames s1 = body (gsUart0ProtocolState (vu v)) (u8 c) s2 /\
    shows s0 v s2 /\ rx_schedule 0 (board s2) = k2 ++ rest.
Proof.
  intros Hw Hs Hrx Ho.
  assert (Hsplit : exists k1 k2, sched = k1 ++ Some c :: k2 /\ omap id k1 = @nil Z /\ omap id k2 = cs).
  { clear -Ho. induction sched as [|[d|] sched IH]; simpl in Ho.
    - done.
    - injection Ho as -> Ho. by exists [], sched.
    - destruct (IH Ho) as (k1 & k2 & -> & O1 & O2). by exists (None :: k1), k2. }
  destruct Hsplit as (k1 & k2 & -> & O1 & O2). rewrite <- app_assoc in Hrx.
  destruct (feeds_nil s0 v Hw s k1 _ Hs Hrx O1) as (s1 & E1 & Hs1 & Hrx1). cbn [app] in Hrx1.
  destruct (receive_char s0 v s1 (body (gsUart0ProtocolState (vu v))) c _ Hs1 Hrx1) as (s2 & E2 & Hs2 & Hrx2).
  exists k1, k2, s1, s2. split; [done|]. split; [done|]. split; [done|]. split; [|done].
  rewrite process_body, (sh_uart _ _ _ Hs1); [done|]. by rewrite (sh_uart _ _ _ Hs1).
Qed.

Lemma feeds_char s0 v c v' :
  in_switch (vu v) -> in_switch (vu v') -> 0 <= c < 256 ->
  (forall s, shows s0 v s -> exists s', body (gsUart0ProtocolState (vu v)) c s = Ok tt s' /\
     shows s0 v' s' /\ rx_schedule 0 (board s') = rx_schedule 0 (board s)) ->
  feeds s0 v [c] v'.
Proof.
  intros Hw Hw' Hc Hb s sched rest Hs Hrx Ho.
  destruct (first_char s0 v s sched c [] rest Hw Hs Hrx Ho) as (k1 & k2 & s1 & s2 & -> & O2 & E1 & E2 & Hs2 & Hrx2).
  rewrite u8_small in E2 by done. destruct (Hb s2 Hs2) as (s3 & E3 & Hs3 & Hrx3).
  destruct (feeds_nil s0 v' Hw' s3 k2 rest Hs3) as (s4 & E4 & Hs4 & Hrx4); [by rewrite Hrx3|done|].
  exists s4. split; [|done]. rewrite length_app, iter_app, (bind_ok _ _ _ _ _ E1). cbn [length iter_].
  by rewrite E3 in E2; rewrite (bind_ok _ _ _ _ _ E2).
Qed.

Lemma feeds_char_jump s0 v c e v' :
  in_switch (vu v) -> 0 <= c < 256 ->
  (forall s, shows s0 v s -> exists s', body (gsUart0ProtocolState (vu v)) c s = Jump e s' /\ shows s0 v' s') ->
  feeds_jump s0 v [c] e v'.
Proof.
  intros Hw Hc Hb s sched rest Hs Hrx Ho.
  destruct (first_char s0 v s sched c [] rest Hw Hs Hrx Ho) as (k1 & k2 & s1 & s2 & -> & O2 & E1 & E2 & Hs2 & Hrx2).
  rewrite u8_small in E2 by done. destruct (Hb s2 Hs2) as (s3 & E3 & Hs3).
  exists s3. split; [|done]. rewrite length_app, iter_app, (bind_ok _ _ _ _ _ E1). cbn [length iter_].
  rewrite E3 in E2. by rewrite (bind_jump _ _ _ _ _ E2).
Qed.

(** *** What one statement does to a view *)
Definition put_u (u : uart_vars) (v : view) : view := mk_view u (vf v) (vm v) (vs v).
Definition put_f (f : flags) (v : view) : view := mk_view (vu v) f (vm v) (vs v).
Definition put_m (m : memory) (v : view) : view := mk_view (vu v) (vf v) m (vs v).
Definition put_out (out : list (Z * Z)) (v : view) : view :=
  mk_view (vu v) (vf v) (vm v) (fun id => vs v id ++ on_uart id out).

(** [does m v v']: from a machine showing [v], [m] returns one showing [v'] and
    consumes no input. *)
Definition does (s0 : machine) (m : M machine unit) (v v' : view) : Prop :=
  forall s, shows s0 v s -> exists s', m s = Ok tt s' /\ shows s0 v' s' /\
    rx_schedule 0 (board s') = rx_schedule 0 (board s).

Lemma does_skip s0 v : does s0 skip v v.
Proof. intros s Hs. by exists s. Qed.

Lemma does_seq s0 m1 m2 v1 v2 v3 : does s0 m1 v1 v2 -> does s0 m2 v2 v3 -> does s0 (m1 ;; m2) v1 v3.
Proof.
  intros D1 D2 s Hs. destruct (D1 s Hs) as (s1 & E1 & Hs1 & R1).
  destruct (D2 s1 Hs1) as (s2 & E2 & Hs2 & R2).
  exists s2. split; [by rewrite (bind_ok _ _ _ _ _ E1)|]. split; [done|congruence].
Qed.

Lemma does_gets s0 {A} (g : machine -> A) a k v v' :
  (forall s, shows s0 v s -> g s = a) -> does s0 (k a) v v' -> does s0 (x ← gets g; k x) v v'.
Proof. intros Hg D s Hs. rewrite bind_gets, (Hg s Hs). by apply D. Qed.

Lemma does_on_uartp s0 f v u : f (vu v) = Some u -> does s0 (on_uartp f) v (put_u u v).
Proof.
  intros Hf s Hs. exists (with_uartp u s). unfold on_uartp. rewrite (sh_uart _ _ _ Hs), Hf.
  split; [done|]. split; [|done]. by destruct Hs.
Qed.

Lemma does_stop_others s0 v :
  does s0 (modify stop_others) v
    (put_f (flgs (stop_others (mk_machine (board s0) (vf v) (vu v) (i2cp s0) 0 []))) v).
Proof.
  intros s Hs. exists (stop_others s). split; [done|]. split; [|done].
  unfold stop_others. rewrite (sh_flags _ _ _ Hs). by destruct Hs.
Qed.

Lemma shows_printed s0 v s out h :
  shows s0 v s -> printed out (board s) h -> shows s0 (put_out out v) (with_board h s).
Proof.
  intros [] P. pose proof (printed_timely _ _ _ P sh_timely0) as Ht.
  pose proof (fun x => printed_ram _ _ _ x P) as Hm. destruct P as (m & Hf & [B Hs Hr _]).
  split; simpl; try done.
  - intros x Hx. rewrite Hm by done. auto.
  - intros id. rewrite Hs. unfold sent in *. by rewrite <- sh_sent0.
  - pose proof (same_ram _ _ B) as Hram. simpl in Hram. rewrite Hram.
    etrans; [|exact B]. destruct sh_board0. by split.
Qed.

Lemma printed_rx out h h' : printed out h h' -> rx_schedule 0 h' = rx_schedule 0 h.
Proof. intros (m & _ & [_ _ Hr _]). apply Hr. Qed.

Lemma does_lift s0 m out v : prints m out -> does s0 (lift m) v (put_out out v).
Proof.
  intros P s Hs. destruct (P (board s) (sh_timely _ _ _ Hs)) as (h & E & Q).
  exists (with_board h s). split; [by apply lift_ok|]. split; [by apply shows_printed|].
  by apply printed_rx in Q.
Qed.

(** A function that transmits and returns a count. *)
Lemma does_lift_drop s0 (m : M hw Z) out v :
  (forall h, timely h -> exists r h', m h = Ok r h' /\ printed out h h') ->
  does s0 (_ ← lift m; skip) v (put_out out v).
Proof.
  intros P s Hs. destruct (P (board s) (sh_timely _ _ _ Hs)) as (r & h & E & Q).
  exists (with_board h s). split; [by rewrite (bind_lift _ _ _ _ _ E)|].
  split; [by apply shows_printed|]. by apply printed_rx in Q.
Qed.

Lemma does_memcpy s0 a buf n v : 0 <= n <= Z.of_nat (length buf) ->
  does s0 (memcpy_out a buf n) v (put_m (mem_write (vm v) a (take (Z.to_nat n) buf)) v).
Proof.
  intros Hn s Hs. unfold memcpy_out. destruct (Z.leb_spec n (Z.of_nat (length buf))); [|lia].
  eexists. split; [reflexivity|]. split; [|done]. destruct Hs. split; simpl; try done.
  - intros x Hx. apply mem_write_agree. auto.
  - destruct sh_board0. by split.
Qed.

(** [sendUartProtocolFrame] sends the first [n] bytes of its buffer on UART 0. *)
Lemma send_loop_prints buf : forall n i h,
  timely h -> bytes_ok buf -> 0 <= i -> i + Z.of_nat n <= Z.of_nat (length buf) ->
  i + Z.of_nat n < 256 ->
  exists h', send_loop n buf i h = Ok (i + Z.of_nat n) h' /\
    printed (map (pair 0) (take n (drop (Z.to_nat i) buf))) h h'.
Proof.
  induction n as [|n IH]; intros i h Ht Hb Hi Hl Hm.
  - exists h. split; [by rewrite Z.add_0_r|]. apply printed_refl.
  - cbn [send_loop]. destruct (zlookup_is_some buf i) as [c Hc]; [lia|].
    rewrite Hc. cbn [of_opt]. rewrite bind_ret, bind_set_ram.
    assert (Hcb : byte_ok c).
    { unfold zlookup in Hc. destruct (Z.leb_spec 0 i); [|done]. exact (Forall_lookup_1 _ _ _ _ Hb Hc). }
    destruct (printed_byte 0 c addr_lChar h (mem_set (ram h) addr_lChar c) Ht) as (r & h1 & E1 & P1).
    { apply locals_lChar. }
    { intros x Hx. rewrite mem_get_set. destruct (Z.eqb_spec x addr_lChar); [|done].
      destruct Hx. by right. }
    { rewrite mem_get_set, Z.eqb_refl. by apply u8_small. }
    rewrite (bind_ok _ _ _ _ _ E1).
    destruct (IH (u8 (i + 1)) h1) as (h2 & E2 & P2);
      [by eapply printed_timely|done|rewrite u8_small; lia..|].
    rewrite u8_small in E2, P2 by lia. exists h2. split; [rewrite u8_small by lia; rewrite E2; f_equal; lia|].
    assert (Hdr : drop (Z.to_nat i) buf = c :: drop (Z.to_nat (i + 1)) buf).
    { unfold zlookup in Hc. destruct (Z.leb_spec 0 i); [|done].
      rewrite (drop_S _ _ _ Hc). do 2 f_equal. lia. }
    rewrite Hdr. cbn [take map]. by apply (printed_trans [(0, c)] _ _ h1).
Qed.

Lemma send_frame_prints buf n h : timely h -> bytes_ok buf -> 0 <= n < 256 -> n <= Z.of_nat (length buf) ->
  exists r h', sendUartProtocolFrame (Some buf) n h = Ok r h' /\
    printed (map (pair 0) (take (Z.to_nat n) buf)) h h'.
Proof.
  intros Ht Hb Hn Hl. destruct (send_loop_prints buf (Z.to_nat n) 0 h) as (h' & E & P); [done|done|lia..|].
  eexists _, h'. split; [exact E|done].
Qed.

Definition ok_text : list Z := ascii_bytes "OK" ++ crlf.
Definition not_ok_text : list Z := ascii_bytes "NOT OK" ++ crlf.

Lemma does_ok s0 v : does s0 (_ ← lift (sendUartOKorNotOKFrame 1); skip) v
  (put_out (map (pair 0) ok_text) v).
Proof.
  apply does_lift_drop. intros h Ht. apply (send_frame_prints (ok_text ++ [0]) 4 h Ht); [|lia|done].
  repeat (constructor; [done|]). constructor.
Qed.
Lemma does_not_ok s0 v : does s0 (_ ← lift (sendUartOKorNotOKFrame 0); skip) v
  (put_out (map (pair 0) not_ok_text) v).
Proof.
  apply does_lift_drop. intros h Ht. apply (send_frame_prints (not_ok_text ++ [0]) 8 h Ht); [|lia|done].
  repeat (constructor; [done|]). constructor.
Qed.
End Feeding.

(** ** Phases of a record

    One predicate per state of the switch. *)
Definition asz (t : Z) : Z :=
  if t =? 51 then 4 else if t =? 55 then 4 else if t =? 50 then 3 else if t =? 56 then 3 else 2.

Record bufs (u : uart_vars) : Prop := {
  bufs_conv : length (gsUartProtocolConvToHexBuf u) = 512%nat;
  bufs_w : length (gsMemoryWriteBuf u) = 256%nat
}.
Record at_state (st : Z) (u : uart_vars) : Prop := {
  st_bufs : bufs u;
  st_state : gsUart0ProtocolState u = st
}.
Record at_count (t : Z) (u : uart_vars) : Prop := {
  cnt_st : at_state 2 u;
  cnt_type : gsSRecordType u = t;
  cnt_size : gsDestinationAddressSizeInBytes u = asz t;
  cnt_fill : gsUart0FillIndex u = 0;
  cnt_chk : gsCalculatedChkSum u = 0
}.
Record at_dest (t total : Z) (u : uart_vars) : Prop := {
  dst_st : at_state 3 u;
  dst_type : gsSRecordType u = t;
  dst_size : gsDestinationAddressSizeInBytes u = asz t;
  dst_data : gsDataCountInBytes u = u16 (total - asz t - 1);
  dst_fill : gsUart0FillIndex u = 0;
  dst_chk : gsCalculatedChkSum u = total
}.
Record at_data (t a n chk : Z) (done : list Z) (u : uart_vars) : Prop := {
  dat_st : at_state 4 u;
  dat_type : gsSRecordType u = t;
  dat_dest : gsDestinationAddress u = a;
  dat_count : gsDataCountInBytes u = n;
  dat_fill : gsUart0FillIndex u = 0;
  dat_index : gsMemoryWriteBufIndex u = Z.of_nat (length done);
  dat_rx : gsDataRxdCounterInCharacters u = 2 * Z.of_nat (length done);
  dat_buf : take (length done) (gsMemoryWriteBuf u) = done;
  dat_chk : gsCalculatedChkSum u = chk
}.
Record at_crc (t a chk : Z) (data : list Z) (u : uart_vars) : Prop := {
  crc_st : at_state 5 u;
  crc_type : gsSRecordType u = t;
  crc_dest : gsDestinationAddress u = a;
  crc_fill : gsUart0FillIndex u = 0;
  crc_index : gsMemoryWriteBufIndex u = Z.of_nat (length data);
  crc_buf : take (length data) (gsMemoryWriteBuf u) = data;
  crc_chk : gsCalculatedChkSum u = chk
}.

(** *** The conversion buffer *)
Record collected (ds : list Z) (u : uart_vars) : Prop := {
  col_len : length (gsUartProtocolConvToHexBuf u) = 512%nat;
  col_take : take (length ds) (gsUartProtocolConvToHexBuf u) = ds;
  col_fill : gsUart0FillIndex u = Z.of_nat (length ds)
}.

Lemma put_conv_spec ds c u : collected ds u -> (length ds < 500)%nat ->
  exists b, put_conv c u = Some (set_fill (set_conv u b) (Z.of_nat (length ds) + 1)) /\
    collected (ds ++ [c]) (set_fill (set_conv u b) (Z.of_nat (length ds) + 1)) /\
    b !! length ds = Some c.
Proof.
  intros [Hl Ht Hf] Hds. unfold put_conv. rewrite Hf, zupdate_some by lia. cbn.
  rewrite u16_small by lia. rewrite Nat2Z.id. eexists. split; [reflexivity|]. split; [split; cbn|].
  - by rewrite length_insert.
  - rewrite length_app. cbn [length]. rewrite Nat.add_1_r.
    erewrite take_S_r; [|apply list_lookup_insert_eq; lia].
    rewrite take_insert_ge by lia. by rewrite Ht.
  - rewrite length_app. simpl. lia.
  - apply list_lookup_insert_eq. lia.
Qed.

Lemma convert_spec ds u : collected ds u -> (length ds < 500)%nat ->
  Forall (fun b => is_hex b = true) ds ->
  exists b, convert u = Some (u32 (hex_value ds), set_fill (set_conv u b) (Z.of_nat (length ds) + 1)) /\
    length b = 512%nat.
Proof.
  intros Hc Hds Hhex. unfold convert.
  destruct (put_conv_spec ds 0 u Hc Hds) as (b & -> & [Hl Ht Hf] & H0). cbn in *.
  exists b. split; [|done].
  assert (E : take (length ds) b = ds).
  { rewrite length_app, Nat.add_1_r, (take_S_r _ _ _ H0) in Ht. by apply app_inj_tail in Ht as [? _]. }
  rewrite <- (take_drop (length ds) b) at 1. rewrite E.
  rewrite (drop_S _ _ _ H0). rewrite atoh_value; [done|done|lia|]. right. by left.
Qed.

(** The next state is a constant of the switch. *)
Ltac next_state :=
  unfold in_switch; cbn; unfold UART0_PROTOCOL_STATE_IDLE, UART0_PROTOCOL_GET_RECORD_TYPE,
    UART0_PROTOCOL_GET_COUNT, UART0_PROTOCOL_GET_DESTINATION_ADDRESS, UART0_PROTOCOL_GET_DATA,
    UART0_PROTOCOL_GET_CRC, UART0_PROTOCOL_GET_TERMINATION_CHARACTER; lia.

(** *** Pure steps *)
Section Phases.
Context `{Budget} `{LayoutOk} `{UartPort} `{!UartPortOk _}.

(** [to s0 v cs P]: the characters lead to a state satisfying [P], the rest of
    the view unchanged. *)
Definition to (s0 : machine) (v : view) (cs : list Z) (P : uart_vars -> Prop) : Prop :=
  exists u, feeds s0 v cs (put_u u v) /\ P u.

Lemma to_app s0 v c1 c2 (P Q : uart_vars -> Prop) :
  to s0 v c1 P -> (forall u, P u -> to s0 (put_u u v) c2 Q) -> to s0 v (c1 ++ c2) Q.
Proof.
  intros (u & F & HP) HQ. destruct (HQ u HP) as (u' & F' & Hu'). exists u'. split; [|done].
  by apply (feeds_app _ _ (put_u u v)).
Qed.

(** A state whose case is one pure statement. *)
Lemma to_step s0 v c st f (P : uart_vars -> Prop) u :
  gsUart0ProtocolState (vu v) = st -> 0 <= st <= 6 -> 0 <= c < 256 ->
  body st c = on_uartp (f c) -> f c (vu v) = Some u -> in_switch u -> P u -> to s0 v [c] P.
Proof.
  intros Hst Hr Hc Hb Hf Hu HP. exists u. split; [|done].
  apply feeds_char; [unfold in_switch; lia|done|done|]. rewrite Hst, Hb. by apply does_on_uartp.
Qed.

Lemma hex_byte c : is_hex c = true -> 0 <= c < 256.
Proof.
  unfold is_hex. destruct (Z.leb_spec 48 c), (Z.leb_spec c 57), (Z.leb_spec 65 c), (Z.leb_spec c 70),
    (Z.leb_spec 97 c), (Z.leb_spec c 102); simpl; (discriminate || lia).
Qed.

(** Two digits of the count field. *)
Lemma to_count s0 v t c1 c2 : at_count t (vu v) -> is_hex c1 = true -> is_hex c2 = true ->
  to s0 v [c1; c2] (at_dest t (hex_value [c1; c2])).
Proof.
  intros [[[Hl Hw] Hst] Ht Hsz Hf Hk] Hx1 Hx2.
  destruct (put_conv_spec [] c1 (vu v)) as (b1 & E1 & C1 & _); [by split|simpl; lia|].
  apply (to_app _ _ [c1] [c2] (fun u => u = set_fill (set_conv (vu v) b1) 1)).
  { apply (to_step _ _ _ 2 get_count_char _ (set_fill (set_conv (vu v) b1) 1)); try done; try lia.
    - by apply hex_byte.
    - unfold get_count_char. by rewrite E1.
    - next_state. }
  intros u ->. destruct (put_conv_spec [c1] c2 _ C1) as (b2 & E2 & C2 & _); [simpl; lia|].
  destruct (convert_spec _ _ C2) as (b3 & E3 & L3); [simpl; lia|by repeat constructor|].
  pose proof (hex_value_app [c1] c2) as Ev. cbn [app length] in *.
  change (Z.of_nat 0 + 1) with 1 in *. change (Z.of_nat 1 + 1) with 2 in *.
  change (Z.of_nat 2 + 1) with 3 in *.
  destruct (atoh_char_hex c1 0 Hx1) as [_ R1]. destruct (atoh_char_hex c2 0 Hx2) as [_ R2].
  assert (R : 0 <= hex_value [c1; c2] < 256) by (rewrite Ev; cbn [hex_value foldl]; lia).
  rewrite u32_small in E3 by lia.
  eapply (to_step _ _ _ 2 get_count_char); [done|lia|by apply hex_byte|done| |..].
  - unfold get_count_char. change (vu (put_u ?u v)) with u. rewrite E2. cbn [mbind option_bind].
    cbn [gsUart0FillIndex set_fill]. cbn [Z.geb Z.compare]. simpl (_ >=? 2). cbv iota. rewrite E3. reflexivity.
  - next_state.
  - rewrite (u16_small (hex_value _)) by lia. split; cbn; try done.
    + by rewrite Hsz.
    + rewrite Hk, u16_small; [done|]. cbn [hex_value foldl] in R. lia.
Qed.

Definition known_type (t : Z) : Prop := is_data_type t = true \/ is_start_type t = true.

Lemma known_type_cases t : known_type t ->
  t = 48 \/ t = 49 \/ t = 50 \/ t = 51 \/ t = 55 \/ t = 56 \/ t = 57.
Proof.
  unfold known_type, is_data_type, is_start_type.
  destruct (Z.eqb_spec t 48), (Z.eqb_spec t 49), (Z.eqb_spec t 50), (Z.eqb_spec t 51),
    (Z.eqb_spec t 55), (Z.eqb_spec t 56), (Z.eqb_spec t 57); simpl; intros [?|?]; (discriminate || lia).
Qed.

Lemma asz_range t : 2 <= asz t <= 4.
Proof. unfold asz. repeat case_match; lia. Qed.

Lemma to_type s0 v t : at_state 1 (vu v) -> known_type t -> to s0 v [t] (at_count t).
Proof.
  intros [[Hl Hw] Hst] Ht. apply known_type_cases in Ht.
  eapply (to_step _ _ _ 1 record_type_char); [done|lia|lia|done|reflexivity|..];
    destruct Ht as [-> |[-> |[-> |[-> |[-> |[-> | ->]]]]]]; (next_state || by repeat split).
Qed.

(** Digits that do not complete the address field. *)
Definition filling (u0 : uart_vars) (ds : list Z) (u : uart_vars) : Prop :=
  collected ds u /\ exists b, u = set_fill (set_conv u0 b) (Z.of_nat (length ds)).

Lemma to_dest_digits s0 v u0 cs : forall ds,
  gsUart0ProtocolState u0 = 3 -> filling u0 ds (vu v) -> Forall (fun b => is_hex b = true) cs ->
  Z.of_nat (length (ds ++ cs)) < 2 * gsDestinationAddressSizeInBytes u0 ->
  2 * gsDestinationAddressSizeInBytes u0 <= 8 ->
  to s0 v cs (filling u0 (ds ++ cs)).
Proof.
  intros ds Hst. revert v ds. induction cs as [|c cs IH]; intros v ds Hf Hx Hl Hm.
  - exists (vu v). rewrite app_nil_r. split; [|done]. destruct v. apply feeds_nil.
    destruct Hf as (_ & b & E). simpl in E. subst. unfold in_switch. simpl. lia.
  - inversion Hx; subst. rewrite length_app in Hl. cbn [length] in Hl.
    destruct Hf as (Hc & b & Eu).
    destruct (put_conv_spec ds c (vu v) Hc) as (b' & E & Hc' & _); [lia|].
    replace (c :: cs) with ([c] ++ cs) by done. replace (ds ++ [c] ++ cs) with ((ds ++ [c]) ++ cs)
      by (by rewrite <- app_assoc).
    apply (to_app _ _ _ _ (filling u0 (ds ++ [c]))).
    + eapply (to_step _ _ _ 3 get_destination_char); [|lia|by apply hex_byte|done| |..].
      * by rewrite Eu.
      * unfold get_destination_char. rewrite E. cbn [mbind option_bind].
        rewrite Eu. cbn [gsUart0FillIndex gsDestinationAddressSizeInBytes set_fill set_conv].
        destruct (Z.geb_spec (Z.of_nat (length ds) + 1) (2 * gsDestinationAddressSizeInBytes u0)); [lia|].
        reflexivity.
      * unfold in_switch. simpl. rewrite Hst. lia.
      * rewrite Eu in Hc'. split; [exact Hc'|]. exists b'. rewrite length_app. cbn [length].
        rewrite Nat2Z.inj_add. done.
    + intros u Hu. apply IH; try done. rewrite !length_app. cbn [length]. lia.
Qed.

Definition addr_sum (a : Z) : Z :=
  a mod 256 + a / 256 mod 256 + a / 65536 mod 256 + a / 16777216 mod 256.

Lemma mask_byte a n : 0 <= n -> Z.shiftr (a &&& Z.shiftl 0xFF n) n = a / 2 ^ n mod 256.
Proof.
  intros Hn. rewrite Z.shiftr_land, Z.shiftr_shiftl_l, Z.sub_diag by lia.
  change (Z.shiftl 0xFF 0) with (Z.ones 8). by rewrite Z.land_ones, Z.shiftr_div_pow2 by lia.
Qed.

Lemma addr_sum_range a : 0 <= addr_sum a <= 1020.
Proof. unfold addr_sum. Z.div_mod_to_equations. lia. Qed.

(** The four additions of the address bytes. *)
Lemma chk_address chk a : 0 <= chk < 256 ->
  u16 (u16 (u16 (u16 (chk + (a &&& 0xFF)) + Z.shiftr (a &&& 0xFF00) 8) +
    Z.shiftr (a &&& 0xFF0000) 16) + Z.shiftr (a &&& 0xFF000000) 24) = chk + addr_sum a.
Proof.
  intros Hc. change 0xFF00 with (Z.shiftl 0xFF 8). change 0xFF0000 with (Z.shiftl 0xFF 16).
  change 0xFF000000 with (Z.shiftl 0xFF 24). rewrite !mask_byte by lia.
  change 0xFF with (Z.ones 8). rewrite Z.land_ones by lia.
  change (2 ^ 8) with 256. change (2 ^ 16) with 65536. change (2 ^ 24) with 16777216.
  unfold addr_sum.
  pose proof (Z.mod_pos_bound a 256 ltac:(lia)). pose proof (Z.mod_pos_bound (a / 256) 256 ltac:(lia)).
  pose proof (Z.mod_pos_bound (a / 65536) 256 ltac:(lia)).
  pose proof (Z.mod_pos_bound (a / 16777216) 256 ltac:(lia)).
  rewrite (u16_small (chk + a mod 256)), (u16_small (chk + a mod 256 + _)) by lia.
  rewrite (u16_small (chk + a mod 256 + a / 256 mod 256 + _)) by lia. rewrite u16_small; lia.
Qed.

Lemma hex_value_bound ds : Forall (fun b => is_hex b = true) ds ->
  0 <= hex_value ds < 16 ^ Z.of_nat (length ds).
Proof.
  induction ds as [|d ds IH] using rev_ind; intros Hx; [done|].
  apply Forall_app in Hx as [Hx Hd]. inversion Hd; subst. rewrite hex_value_app, length_app.
  destruct (atoh_char_hex d 0) as [_ R]; [done|]. cbn [length].
  replace (Z.of_nat (length ds + 1)) with (Z.of_nat (length ds) + 1) by lia.
  rewrite Z.pow_add_r by lia. change (16 ^ 1) with 16. specialize (IH Hx). lia.
Qed.

Lemma is_hex_init (ds : list Z) c : Forall (fun b => is_hex b = true) (ds ++ [c]) ->
  Forall (fun b => is_hex b = true) ds /\ is_hex c = true.
Proof. intros Hx. apply Forall_app in Hx as [Hd Hc]. by inversion Hc. Qed.

(** The whole address field. *)
Definition at_body (t a n chk : Z) : uart_vars -> Prop :=
  if is_data_type t then at_data t a n chk [] else at_crc t a chk [].

Lemma to_dest s0 v t total cs :
  at_dest t total (vu v) -> known_type t -> 0 <= total < 256 ->
  Forall (fun b => is_hex b = true) cs -> Z.of_nat (length cs) = 2 * asz t ->
  to s0 v cs (at_body t (hex_value cs) (u16 (total - asz t - 1)) (total + addr_sum (hex_value cs))).
Proof.
  intros [[[Hl Hw] Hst] Ht Hsz Hdc Hf Hk] Hkn Htot Hx Hlen. pose proof (asz_range t).
  destruct (exists_last (l := cs)) as (ds & c & ->); [by intros ->; simpl in *; lia|].
  pose proof (hex_value_bound _ Hx) as Hb. destruct (is_hex_init _ _ Hx) as [Hds Hc].
  assert (16 ^ Z.of_nat (length (ds ++ [c])) <= 16 ^ 8) by (apply Z.pow_le_mono_r; lia).
  change (16 ^ 8) with 4294967296 in *. rewrite length_app in Hlen. cbn [length] in Hlen.
  apply (to_app _ _ _ _ (filling (vu v) ds)).
  { apply (to_dest_digits s0 v (vu v) ds []); try done; try lia.
    - split; [by split|]. exists (gsUartProtocolConvToHexBuf (vu v)). simpl.
      destruct v as [[] ? ? ?]. cbn in *. by subst.
    - cbn [app]. rewrite Hsz. lia. }
  intros u (Hcol & b & Eu).
  destruct (put_conv_spec ds c u Hcol) as (b' & E & Hcol' & _); [lia|].
  destruct (convert_spec _ _ Hcol') as (b3 & E3 & L3); [rewrite length_app; simpl; lia|done|].
  rewrite u32_small in E3 by lia.
  assert (Hst' : gsUart0ProtocolState u = 3) by (by rewrite Eu).
  assert (Hg : get_destination_char c u = Some (
    let u1 := set_fill (set_conv (set_fill (set_conv u b') (Z.of_nat (length ds) + 1)) b3)
                (Z.of_nat (length (ds ++ [c])) + 1) in
    set_state (set_windex (set_rxcount (set_fill (set_chk (set_dest u1 (hex_value (ds ++ [c])))
      (total + addr_sum (hex_value (ds ++ [c])))) 0) 0) 0) (if is_data_type t then 4 else 5))).
  { unfold get_destination_char. rewrite E. cbn [mbind option_bind].
    rewrite E3, Eu. cbn [gsUart0FillIndex gsDestinationAddressSizeInBytes set_fill set_conv].
    rewrite Hsz. destruct (Z.geb_spec (Z.of_nat (length ds) + 1) (2 * asz t)); [|lia].
    cbn [mbind option_bind]. uv_simpl. rewrite Ht, Hk, chk_address, !set_chk_twice by lia.
    destruct (is_data_type t) eqn:Et; [reflexivity|].
    destruct Hkn as [?|Es]; [congruence|]. rewrite Es. reflexivity. }
  eapply (to_step _ _ _ 3 get_destination_char); [done|lia|by apply hex_byte|done|exact Hg|..].
  - destruct (is_data_type t); next_state.
  - rewrite Eu. unfold at_body. uv_simpl. destruct (is_data_type t); split; done.
Qed.

(** *** The data field *)
Definition zsum (l : list Z) : Z := foldr Z.add 0 l.

Lemma u16_add_l x y : u16 (u16 x + y) = u16 (x + y).
Proof. unfold u16, wrap. by rewrite Zplus_mod_idemp_l. Qed.

Lemma chksum_loop_does s0 : forall n i v,
  bufs (vu v) -> 0 <= i -> gsMemoryWriteBufIndex (vu v) <= i + Z.of_nat n ->
  gsMemoryWriteBufIndex (vu v) <= 255 -> 0 <= gsCalculatedChkSum (vu v) < 65536 ->
  does s0 (chksum_loop n i) v (put_u (set_chk (vu v) (u16 (gsCalculatedChkSum (vu v) +
    zsum (drop (Z.to_nat i) (take (Z.to_nat (gsMemoryWriteBufIndex (vu v))) (gsMemoryWriteBuf (vu v))))))) v).
Proof.
  assert (Hstop : forall i v, bufs (vu v) -> 0 <= i -> gsMemoryWriteBufIndex (vu v) <= i ->
    0 <= gsCalculatedChkSum (vu v) < 65536 ->
    put_u (set_chk (vu v) (u16 (gsCalculatedChkSum (vu v) +
      zsum (drop (Z.to_nat i) (take (Z.to_nat (gsMemoryWriteBufIndex (vu v))) (gsMemoryWriteBuf (vu v))))))) v = v).
  { intros i v _ Hi Hle Hk. rewrite drop_ge by (rewrite length_take; lia). simpl.
    rewrite Z.add_0_r, u16_small by done. by destruct v as [[] ? ? ?]. }
  induction n as [|n IH]; intros i v Hb Hi Hn Hm Hk; cbn [chksum_loop];
    apply (does_gets s0 uartp (vu v)); try (by intros s []);
    (destruct (Z.ltb_spec i (gsMemoryWriteBufIndex (vu v))); [|by rewrite Hstop by (done || lia); apply does_skip]).
  - lia.
  - destruct Hb as [Hc Hw].
    destruct (zlookup_is_some (gsMemoryWriteBuf (vu v)) i) as [b Eb]; [lia|].
    eapply does_seq; [apply does_on_uartp; rewrite Eb; reflexivity|].
    rewrite u8_small by lia. set (v1 := put_u _ v).
    replace (put_u (set_chk (vu v) _) v) with
      (put_u (set_chk (vu v1) (u16 (gsCalculatedChkSum (vu v1) + zsum (drop (Z.to_nat (i + 1))
        (take (Z.to_nat (gsMemoryWriteBufIndex (vu v1))) (gsMemoryWriteBuf (vu v1))))))) v1).
    + apply IH; [done|lia|simpl; lia|done|simpl; apply u16_range].
    + unfold v1, put_u. cbn [vu vf vm vs]. rewrite set_chk_twice. uv_simpl. rewrite u16_add_l.
      unfold zlookup in Eb. destruct (Z.leb_spec 0 i); [|lia].
      rewrite (drop_S (take _ _) b (Z.to_nat i)) by (rewrite lookup_take_lt by lia; done).
      replace (S (Z.to_nat i)) with (Z.to_nat (i + 1)) by lia. cbn [zsum foldr].
      do 3 f_equal. unfold zsum. lia.
Qed.

(** The second digit of a byte stores it. *)
Lemma store_second c1 c2 u k :
  collected [c1] u -> is_hex c1 = true -> is_hex c2 = true ->
  length (gsMemoryWriteBuf u) = 256%nat -> gsMemoryWriteBufIndex u = Z.of_nat k -> (k < 256)%nat ->
  exists b, length b = 512%nat /\ store_data_char c2 u =
    Some (set_fill (set_windex (set_wbuf (set_conv u b) (<[k := hex_value [c1; c2]]> (gsMemoryWriteBuf u)))
      (Z.of_nat k + 1)) 0).
Proof.
  intros C1 Hx1 Hx2 Hw Hi Hk. destruct (put_conv_spec [c1] c2 u C1) as (b2 & E2 & C2 & _); [simpl; lia|].
  destruct (convert_spec _ _ C2) as (b3 & E3 & L3); [simpl; lia|by repeat constructor|].
  pose proof (hex_value_bound [c1; c2] ltac:(by repeat constructor)) as R.
  change (16 ^ Z.of_nat (length [c1; c2])) with 256 in R.
  exists b3. split; [done|]. unfold store_data_char. rewrite E2. cbn [mbind option_bind app length] in *.
  change (gsUart0FillIndex _ =? 2) with true. cbv iota. rewrite E3. cbn [mbind option_bind].
  rewrite u32_small, u8_small by lia. uv_simpl. rewrite Hi, zupdate_some, Nat2Z.id by lia.
  cbn [mbind option_bind]. rewrite u16_small by lia. by rewrite store_setters.
Qed.

(** A data character after its store: more of the field to come, or its end. *)
Lemma data_char_does s0 v c u2 :
  store_data_char c (vu v) = Some u2 -> 0 <= gsDataRxdCounterInCharacters u2 < 65535 ->
  bufs u2 -> gsMemoryWriteBufIndex u2 <= 255 -> 0 <= gsCalculatedChkSum u2 < 65536 ->
  let rx := gsDataRxdCounterInCharacters u2 + 1 in
  does s0 (get_data_char c) v (put_u (
    if rx >=? 2 * gsDataCountInBytes u2 then
      set_state (set_rxcount (set_fill (set_chk u2 (u16 (gsCalculatedChkSum u2 +
        zsum (take (Z.to_nat (gsMemoryWriteBufIndex u2)) (gsMemoryWriteBuf u2))))) 0) 0) 5
    else set_rxcount u2 rx) v).
Proof.
  intros E Hrx Hb Hi Hk rx. unfold get_data_char.
  eapply does_seq; [by apply does_on_uartp|].
  set (u3 := set_rxcount u2 rx).
  assert (D2 : does s0 (on_uartp (fun u => Some (set_rxcount u (u16 (gsDataRxdCounterInCharacters u + 1)))))
            (put_u u2 v) (put_u u3 v)).
  { apply (does_on_uartp s0 _ (put_u u2 v)). cbn [vu put_u]. by rewrite u16_small by lia. }
  eapply does_seq; [exact D2|]. eapply does_gets; [by intros s []|]. cbn [vu put_u].
  change (gsDataRxdCounterInCharacters u3) with rx.
  change (gsDataCountInBytes u3) with (gsDataCountInBytes u2).
  destruct (rx >=? 2 * gsDataCountInBytes u2); [|apply does_skip].
  eapply does_seq; [apply (chksum_loop_does s0 256 0 (put_u u3 v)); cbn [vu put_u]; unfold u3; uv_simpl;
                    (lia || by destruct Hb)|].
  apply (does_on_uartp s0 _ (put_u _ (put_u u3 v))). cbn [vu put_u]. rewrite drop_0.
  unfold u3. rewrite field_end_setters. reflexivity.
Qed.

(** A character that only enters the conversion buffer. *)
Lemma store_first c u : collected [] u ->
  exists b, store_data_char c u = Some (set_fill (set_conv u b) 1) /\
    collected [c] (set_fill (set_conv u b) 1).
Proof.
  intros C. destruct (put_conv_spec [] c u C) as (b & E & C1 & _); [simpl; lia|].
  exists b. split; [|done]. unfold store_data_char. by rewrite E.
Qed.

Lemma insert_next (l done : list Z) b : take (length done) l = done -> (length done < length l)%nat ->
  take (length (done ++ [b])) (<[length done := b]> l) = done ++ [b].
Proof.
  intros Ht Hl. rewrite length_app, Nat.add_1_r.
  erewrite take_S_r; [|apply list_lookup_insert_eq; lia]. by rewrite take_insert_ge, Ht by lia.
Qed.

(** One data byte. *)
Lemma to_data_byte s0 v t a n chk done c1 c2 :
  at_data t a n chk done (vu v) -> Z.of_nat (length done) < n <= 255 -> 0 <= chk < 65536 ->
  is_hex c1 = true -> is_hex c2 = true ->
  to s0 v [c1; c2] (fun u =>
    if Z.of_nat (length done) + 1 =? n
    then at_crc t a (u16 (chk + zsum (done ++ [hex_value [c1; c2]]))) (done ++ [hex_value [c1; c2]]) u
    else at_data t a n chk (done ++ [hex_value [c1; c2]]) u).
Proof.
  intros [[[Hl Hw] Hst] Ht Hd Hn Hf Hi Hr Hb Hk] Hlen Hchk Hx1 Hx2.
  destruct (store_first c1 (vu v)) as (b1 & E1 & C1); [by split|].
  set (u1 := set_rxcount (set_fill (set_conv (vu v) b1) 1) (2 * Z.of_nat (length done) + 1)).
  apply (to_app _ _ [c1] [c2] (fun u => u = u1)).
  { exists u1. split; [|done]. apply feeds_char; [next_state|next_state|by apply hex_byte|].
    rewrite Hst. pose proof (data_char_does s0 v c1 _ E1) as D. revert D. uv_simpl. rewrite Hr, Hn, Hi.
    destruct (Z.geb_spec (2 * Z.of_nat (length done) + 1) (2 * n)); [lia|]. intros D.
    apply D; try lia. split; [by destruct C1|done]. }
  intros u ->. destruct (store_second c1 c2 u1 (length done)) as (b3 & L3 & E3); try done; [by destruct C1|lia|].
  set (b := hex_value [c1; c2]) in *. change (gsMemoryWriteBuf u1) with (gsMemoryWriteBuf (vu v)) in E3.
  pose proof (insert_next _ _ b Hb ltac:(lia)) as Hwt.
  assert (Hwl : length (<[length done := b]> (gsMemoryWriteBuf (vu v))) = 256%nat) by (by rewrite length_insert).
  set (wb := <[length done := b]> (gsMemoryWriteBuf (vu v))) in *. clearbody wb.
  pose proof (data_char_does s0 (put_u u1 v) c2 _ E3) as D.
  revert D. unfold u1. uv_simpl. rewrite Hn, Hk. intros D.
  replace (Z.to_nat (Z.of_nat (length done) + 1)) with (length (done ++ [b])) in D
    by (rewrite length_app; simpl; lia).
  rewrite Hwt in D. eexists. split.
  - apply feeds_char; [next_state| |by apply hex_byte|];
      [|cbn [vu put_u]; uv_simpl; rewrite Hst; apply D; try lia; by split].
    cbn [vu put_u]. destruct (_ >=? _); next_state.
  - cbn [vu put_u]. destruct (Z.geb_spec (2 * Z.of_nat (length done) + 1 + 1) (2 * n)),
      (Z.eqb_spec (Z.of_nat (length done) + 1) n); try lia; split; uv_simpl; try done;
      rewrite length_app; simpl; lia.
Qed.

(** *** The checksum field and what follows it *)
Lemma complement_byte x : (x &&& 0xFF) ^^^ 0xFF = 255 - x mod 256.
Proof.
  change 0xFF with (Z.ones 8). rewrite Z.land_ones by lia. change (2 ^ 8) with 256.
  pose proof (Z.mod_pos_bound x 256 ltac:(lia)) as R. generalize dependent (x mod 256). intros y R.
  assert (E : forallb (fun y => (y ^^^ 0xFF) =? 255 - y) (seqZ 0 256) = true) by (by vm_compute).
  rewrite forallb_forall in E. apply Z.eqb_eq, E, list_elem_of_In, elem_of_seqZ. lia.
Qed.

(** What is left once both checksum digits are in: the value computed and the
    one received. *)
Record checked (t a : Z) (data : list Z) (calc rcvd : Z) (u : uart_vars) : Prop := {
  chd_bufs : bufs u;
  chd_type : gsSRecordType u = t;
  chd_dest : gsDestinationAddress u = a;
  chd_index : gsMemoryWriteBufIndex u = Z.of_nat (length data);
  chd_buf : take (length data) (gsMemoryWriteBuf u) = data;
  chd_calc : gsCalculatedChkSum u = calc;
  chd_rcvd : gsCRCVal u = rcvd;
  chd_state : gsUart0ProtocolState u = 5
}.
Definition leave (u : uart_vars) : uart_vars := set_state (set_windex (set_fill u 0) 0) 6.

Lemma crc_field s0 v t a chk data c1 c2 :
  at_crc t a chk data (vu v) -> is_hex c1 = true -> is_hex c2 = true ->
  let calc := 255 - chk mod 256 in let rcvd := hex_value [c1; c2] in
  exists u1, feeds s0 v [c1] (put_u u1 v) /\ gsUart0ProtocolState u1 = 5 /\
    exists u2, checked t a data calc rcvd u2 /\
      forall s, shows s0 (put_u u1 v) s -> exists s', shows s0 (put_u u2 v) s' /\
        rx_schedule 0 (board s') = rx_schedule 0 (board s) /\
        body 5 c2 s = ((if calc =? rcvd then accept_record else reject_record) ;;
          on_uartp (fun u => Some (leave u))) s'.
Proof.
  intros [[[Hl Hw] Hst] Ht Hd Hf Hi Hb Hk] Hx1 Hx2 calc rcvd.
  destruct (put_conv_spec [] c1 (vu v)) as (b1 & E1 & C1 & _); [by split|simpl; lia|].
  change (Z.of_nat (length (@nil Z)) + 1) with 1 in *. cbn [app] in C1.
  set (u1 := set_fill (set_conv (vu v) b1) 1) in *. exists u1. split.
  { apply feeds_char; [unfold in_switch; lia|unfold in_switch; simpl; lia|by apply hex_byte|].
    rewrite Hst. change (body 5) with get_crc_char. unfold get_crc_char.
    eapply does_seq; [by apply does_on_uartp|]. eapply does_gets; [by intros s []|]. apply does_skip. }
  split; [done|]. destruct (put_conv_spec [c1] c2 u1 C1) as (b2 & E2 & C2 & _); [simpl; lia|].
  destruct (convert_spec _ _ C2) as (b3 & E3 & L3); [simpl; lia|by repeat constructor|].
  pose proof (hex_value_bound [c1; c2] ltac:(by repeat constructor)) as R.
  change (16 ^ Z.of_nat (length [c1; c2])) with 256 in R. cbn [app] in *.
  set (b := hex_value [c1; c2]) in *. rewrite u32_small in E3 by lia.
  set (u2 := set_fill (set_conv u1 b2) _) in *. set (u3 := set_fill (set_conv u2 b3) _) in *.
  exists (set_chk (set_crcval u3 b) (255 - chk mod 256)). split; [split; try done; by split|].
  intros s Hs. destruct (does_on_uartp s0 (put_conv c2) (put_u u1 v) u2 E2 s Hs) as (s1 & Es1 & Hs1 & R1).
  assert (Ef : complete_crc u2 = Some (set_chk (set_crcval u3 b) (255 - chk mod 256))).
  { unfold complete_crc. rewrite E3. cbn [mbind option_bind]. rewrite set_chk_twice. uv_simpl.
    change (gsCalculatedChkSum u3) with (gsCalculatedChkSum (vu v)). by rewrite Hk, complement_byte, u8_small. }
  destruct (does_on_uartp s0 complete_crc (put_u u2 v) _ Ef s1 Hs1) as (s2 & Es2 & Hs2 & R2).
  exists s2. split; [done|]. split; [congruence|].
  change (body 5) with get_crc_char. unfold get_crc_char. rewrite (bind_ok _ _ _ _ _ Es1), bind_gets.
  rewrite (sh_uart _ _ _ Hs1). change (gsUart0FillIndex (vu (put_u u2 _)) >=? 2) with true. cbn [when].
  rewrite (bind_ok _ _ _ _ _ Es2), bind_gets, (sh_uart _ _ _ Hs2). done.
Qed.

Definition ok_out : list (Z * Z) := map (pair 0) ok_text.
Definition not_ok_out : list (Z * Z) := map (pair 0) not_ok_text.
Lemma accept_loads s0 v t a data calc rcvd u :
  checked t a data calc rcvd u -> is_load_type t = true -> a <> 0 -> (length data <= 255)%nat ->
  does s0 accept_record (put_u u v) (put_out ok_out (put_m (mem_write (vm v) a data) (put_u u v))).
Proof.
  intros [[Hl Hw] Ht Hd Hi Hb _ _ _] Hlt Ha Hlen. unfold accept_record.
  apply (does_gets s0 uartp u); [by intros s []|]. rewrite Hd, Ht, Hlt.
  destruct (Z.eqb_spec a 0); [done|]. cbn [negb]. eapply does_seq; [|apply does_ok].
  rewrite Hi. replace data with (take (Z.to_nat (Z.of_nat (length data))) (gsMemoryWriteBuf u)) at 2
    by (by rewrite Nat2Z.id).
  apply (does_memcpy s0 a (gsMemoryWriteBuf u) _ (put_u u v)). lia.
Qed.

Lemma accept_ignores s0 v t a data calc rcvd u :
  checked t a data calc rcvd u -> a = 0 \/ (is_load_type t = false /\ is_start_type t = false) ->
  does s0 accept_record (put_u u v) (put_out ok_out (put_u u v)).
Proof.
  intros [_ Ht Hd _ _ _ _ _] Hcase. unfold accept_record.
  apply (does_gets s0 uartp u); [by intros s []|]. rewrite Hd, Ht.
  eapply does_seq; [|apply does_ok].
  destruct Hcase as [-> | [-> ->]]; [|destruct (negb _)]; apply does_skip.
Qed.

Lemma put_out_twice s0 o1 o2 v s : shows s0 (put_out o2 (put_out o1 v)) s <-> shows s0 (put_out (o1 ++ o2) v) s.
Proof. split; intros []; split; try done; intros id; rewrite sh_sent0; simpl; by rewrite on_uart_app, app_assoc. Qed.

Lemma accept_jumps s0 v t a u :
  gsSRecordType u = t -> gsDestinationAddress u = a -> is_start_type t = true -> 0 < a < 2 ^ 32 -> forall s, shows s0 (put_u u v) s ->
  exists s', accept_record s = Jump a s' /\
    shows s0 (put_out (line_out "UART BL JMP " ++ uart1 (hex_digits 8 a) ++ uart1 [32]) (put_u u v)) s'.
Proof.
  intros Ht Hd Hst Ha s Hs. unfold accept_record. rewrite bind_gets, (sh_uart _ _ _ Hs).
  cbn [vu put_u]. rewrite Hd, Ht, Hst. destruct (Z.eqb_spec a 0); [lia|]. cbn [negb].
  assert (is_load_type t = false) as ->.
  { unfold is_start_type, is_load_type in *.
    by destruct (Z.eqb_spec t 49) as [-> |]; [|destruct (Z.eqb_spec t 50) as [-> |]; [|destruct (Z.eqb_spec t 51) as [-> |]]]. }
  destruct (does_lift s0 _ _ _ (dbg_line_prints "UART BL JMP " ltac:(literal) ltac:(literal)) s Hs)
    as (s1 & E1 & Hs1 & _).
  destruct (does_lift s0 _ _ _ (dbg_hex32_prints a) s1 Hs1) as (s2 & E2 & Hs2 & _).
  destruct (does_lift s0 _ _ _ (dbg_str_prints [32] [] ltac:(literal)) s2 Hs2) as (s3 & E3 & Hs3 & _).
  exists s3. split.
  - rewrite bind_assoc, (bind_ok _ _ _ _ _ E1), bind_assoc, (bind_ok _ _ _ _ _ E2), bind_assoc.
    change (cstr " ") with ([32] ++ [0]). rewrite (bind_ok _ _ _ _ _ E3).
    apply bind_jump. unfold jump_to_address. by rewrite u32_small by lia.
  - apply (proj1 (put_out_twice _ _ _ _ _)), (proj1 (put_out_twice _ _ _ _ _)). exact Hs3.
Qed.

Definition reject_out (calc rcvd : Z) : list (Z * Z) :=
  line_out "CHKSUM ERR " ++ uart1 (hex_digits 2 calc) ++ uart1 (hex_digits 2 rcvd) ++ not_ok_out.

Lemma does_out_app s0 m v v' o1 o2 :
  does s0 m v (put_out o2 (put_out o1 v')) -> does s0 m v (put_out (o1 ++ o2) v').
Proof.
  intros D s Hs. destruct (D s Hs) as (s' & E & Hs' & R). exists s'. split; [done|].
  split; [by apply put_out_twice|done].
Qed.

Lemma reject_does s0 v calc rcvd u : gsCalculatedChkSum u = calc -> gsCRCVal u = rcvd ->
  does s0 reject_record (put_u u v) (put_out (reject_out calc rcvd) (put_u u v)).
Proof.
  intros Hk Hr. unfold reject_record, reject_out.
  apply (does_gets s0 uartp u); [by intros s []|]. rewrite Hk, Hr.
  do 3 apply does_out_app.
  eapply does_seq; [apply does_lift, dbg_line_prints; literal|].
  eapply does_seq; [apply does_lift, dbg_hex8_prints|].
  eapply does_seq; [apply does_lift, dbg_hex8_prints|]. apply does_not_ok.
Qed.

(** The checksum field, when control stays in the loader. *)
Lemma feeds_crc s0 v t a chk data c1 c2 (v2 : uart_vars -> view) :
  at_crc t a chk data (vu v) -> is_hex c1 = true -> is_hex c2 = true ->
  let calc := 255 - chk mod 256 in let rcvd := hex_value [c1; c2] in
  (forall u, checked t a data calc rcvd u ->
     does s0 (if calc =? rcvd then accept_record else reject_record) (put_u u v) (v2 u) /\ vu (v2 u) = u) ->
  exists u, feeds s0 v [c1; c2] (put_u (leave u) (v2 u)) /\ at_state 6 (leave u).
Proof.
  intros Hc Hx1 Hx2 calc rcvd Hd.
  destruct (crc_field s0 v t a chk data c1 c2 Hc Hx1 Hx2) as (u1 & F1 & Hst1 & u & Hu & F2).
  destruct (Hd u Hu) as [D Hvu]. exists u. split; [|by destruct Hu as [[]]; repeat split].
  apply (feeds_app _ _ (put_u u1 v) _ [c1]); [done|].
  apply feeds_char; [next_state|next_state|by apply hex_byte|].
  intros s Hs. cbn [vu put_u]. rewrite Hst1. destruct (F2 s Hs) as (s1 & Hs1 & R1 & ->).
  destruct (D s1 Hs1) as (s2 & E2 & Hs2 & R2). fold calc rcvd. rewrite (bind_ok _ _ _ _ _ E2).
  destruct (does_on_uartp s0 (fun u => Some (leave u)) (v2 u) (leave u) ltac:(cbv beta; congruence) s2 Hs2)
    as (s3 & E3 & Hs3 & R3).
  exists s3. split; [done|]. split; [done|congruence].
Qed.

(** The character after the checksum. *)
Lemma to_idle s0 v c : at_state 6 (vu v) -> 0 <= c < 256 -> to s0 v [c] (at_state 0).
Proof.
  intros [[Hl Hw] Hst] Hc.
  eapply (to_step _ _ _ 6 termination_char); [done|lia|done|done|reflexivity|next_state|by repeat split].
Qed.
End Phases.

(** ** The format *)
Record srec := mk_srec {
  r_type : Z;                  (* the character after 'S' *)
  r_addr : Z;
  r_data : list Z
}.

(** The digit set of the sender: capitals, small letters or a mixture. *)
Class HexCoding (digit : Z -> Z) : Prop :=
  hex_coding : forall d, 0 <= d < 16 -> is_hex (digit d) = true /\ atoh_char (digit d) 0 = d.

Definition upper_digit (d : Z) : Z := if d <? 10 then 48 + d else 55 + d.
#[export] Instance upper_coding : HexCoding upper_digit.
Proof.
  intros d Hd. assert (Hin : d ∈ seqZ 0 16) by (apply elem_of_seqZ; lia). clear Hd.
  repeat (apply elem_of_cons in Hin as [-> |Hin]; [done|]). by apply elem_of_nil in Hin.
Qed.
#[export] Instance lower_coding : HexCoding hex4_char.
Proof. intros d Hd. destruct (hex4_char_atoh d) as [H1 H2]. by rewrite Z.mod_small in H2 by lia. Qed.

Fixpoint be_bytes (k : nat) (a : Z) : list Z :=
  match k with O => [] | S k' => be_bytes k' (a / 256) ++ [a mod 256] end.
Definition be_value (bs : list Z) : Z := foldl (fun acc b => 256 * acc + b) 0 bs.

Section Text.
Context (digit : Z -> Z).
Definition byte_text (b : Z) : list Z := [digit (b / 16); digit (b mod 16)].
Definition text (bs : list Z) : list Z := bs ≫= byte_text.
Definition record_count (r : srec) : Z := asz (r_type r) + Z.of_nat (length (r_data r)) + 1.
Definition address_bytes (r : srec) : list Z := be_bytes (Z.to_nat (asz (r_type r))) (r_addr r).
Definition record_sum (r : srec) : Z := record_count r + zsum (address_bytes r) + zsum (r_data r).
Definition record_chk (r : srec) : Z := 255 - record_sum r mod 256.
Definition record_text (r : srec) (chk : Z) : list Z :=
  83 :: r_type r :: text (record_count r :: address_bytes r ++ r_data r ++ [chk]).
End Text.

Record valid_record (r : srec) : Prop := {
  val_type : known_type (r_type r);
  val_addr : 0 <= r_addr r < 256 ^ asz (r_type r);
  val_data : bytes_ok (r_data r);
  val_count : record_count r <= 255;
  val_body : if is_data_type (r_type r) then r_data r <> [] else r_data r = []
}.

(** What a record does to memory: data records other than S0 load their data;
    address 0 is never written. *)
Definition record_effect (r : srec) (m : memory) : memory :=
  if is_load_type (r_type r) && negb (r_addr r =? 0) then mem_write m (r_addr r) (r_data r) else m.

Section TextFacts.
Context `{HexCoding digit}.

Lemma byte_text_hex b : byte_ok b -> Forall (fun c => is_hex c = true) (byte_text digit b).
Proof. intros Hb. unfold byte_ok in Hb. repeat constructor; apply hex_coding; Z.div_mod_to_equations; lia. Qed.

Lemma byte_text_value b : byte_ok b -> hex_value (byte_text digit b) = b.
Proof.
  intros Hb. unfold byte_ok in Hb. unfold byte_text, hex_value. cbn [foldl].
  rewrite (proj2 (hex_coding (b / 16) ltac:(Z.div_mod_to_equations; lia))).
  rewrite (proj2 (hex_coding (b mod 16) ltac:(Z.div_mod_to_equations; lia))).
  Z.div_mod_to_equations; lia.
Qed.

Lemma text_app a b : text digit (a ++ b) = text digit a ++ text digit b.
Proof. apply bind_app. Qed.

Lemma text_hex bs : bytes_ok bs -> Forall (fun c => is_hex c = true) (text digit bs).
Proof.
  induction 1 as [|b bs Hb Hbs IH]; [constructor|].
  change (text digit (b :: bs)) with (byte_text digit b ++ text digit bs).
  apply Forall_app_2; [by apply byte_text_hex|done].
Qed.

Lemma text_length bs : length (text digit bs) = (2 * length bs)%nat.
Proof.
  induction bs as [|b bs IH]; [done|].
  change (text digit (b :: bs)) with (byte_text digit b ++ text digit bs).
  rewrite length_app, IH. simpl. lia.
Qed.

Lemma text_value bs : bytes_ok bs -> hex_value (text digit bs) = be_value bs.
Proof.
  induction bs as [|b bs IH] using rev_ind; [done|]. intros Hb. apply Forall_app in Hb as [Hbs Hb].
  inversion Hb; subst. rewrite text_app. unfold be_value. rewrite foldl_snoc. fold (be_value bs).
  rewrite <- IH by done. change (text digit [b]) with (byte_text digit b).
  pose proof (byte_text_value b ltac:(done)) as Eb. unfold byte_text, hex_value in *.
  rewrite foldl_app. cbn [foldl] in *. lia.
Qed.

Lemma be_bytes_ok k : forall a, bytes_ok (be_bytes k a).
Proof.
  induction k as [|k IH]; intros a; [constructor|]. apply Forall_app_2; [apply IH|].
  repeat constructor; Z.div_mod_to_equations; lia.
Qed.
Lemma be_bytes_length k : forall a, length (be_bytes k a) = k.
Proof. induction k as [|k IH]; intros a; [done|]. simpl. rewrite length_app, IH. simpl. lia. Qed.

Lemma be_bytes_value k : forall a, be_value (be_bytes k a) = a mod 256 ^ Z.of_nat k.
Proof.
  induction k as [|k IH]; intros a; [by rewrite Z.mod_1_r|]. cbn [be_bytes]. unfold be_value.
  rewrite foldl_snoc. fold (be_value (be_bytes k (a / 256))). rewrite IH.
  replace (Z.of_nat (S k)) with (1 + Z.of_nat k) by lia. rewrite Z.pow_add_r by lia. change (256 ^ 1) with 256.
  rewrite Z.rem_mul_r; [lia|lia|]. apply Z.pow_pos_nonneg; lia.
Qed.

Lemma be_bytes_sum k a : 2 <= k <= 4 -> 0 <= a < 256 ^ k -> zsum (be_bytes (Z.to_nat k) a) = addr_sum a.
Proof.
  intros Hk Ha. unfold addr_sum.
  assert (k = 2 \/ k = 3 \/ k = 4) as [-> |[-> | ->]] by lia;
    [change (256 ^ 2) with 65536 in Ha|change (256 ^ 3) with 16777216 in Ha|change (256 ^ 4) with 4294967296 in Ha].
  - change (zsum _) with (a / 256 mod 256 + (a mod 256 + 0)). Z.div_mod_to_equations. lia.
  - change (zsum _) with (a / 256 / 256 mod 256 + (a / 256 mod 256 + (a mod 256 + 0))).
    rewrite Z.div_div by lia. Z.div_mod_to_equations. lia.
  - change (zsum _) with (a / 256 / 256 / 256 mod 256 + (a / 256 / 256 mod 256 + (a / 256 mod 256 + (a mod 256 + 0)))).
    rewrite !Z.div_div by lia. Z.div_mod_to_equations. lia.
Qed.

Lemma address_bytes_sum r : valid_record r -> zsum (address_bytes r) = addr_sum (r_addr r).
Proof. intros [Ht Ha _ _ _]. apply be_bytes_sum; [apply asz_range|done]. Qed.

Lemma address_bytes_value r : valid_record r -> be_value (address_bytes r) = r_addr r.
Proof.
  intros [Ht Ha _ _ _]. pose proof (asz_range (r_type r)). unfold address_bytes.
  rewrite be_bytes_value, Z2Nat.id by lia. by apply Z.mod_small.
Qed.

Lemma zsum_app a b : zsum (a ++ b) = zsum a + zsum b.
Proof. unfold zsum. induction a; simpl; lia. Qed.
End TextFacts.

(** ** Records against the state machine *)
Definition stopped (f : flags) : flags :=
  mk_flags (if gStopUartMsgFlg f =? 0 then 1 else gStopUartMsgFlg f) (gStopUartBootLoaderFlg f)
    (if gStopI2CBootLoaderFlg f =? 0 then 1 else gStopI2CBootLoaderFlg f).

Section Records.
Context `{Budget} `{LayoutOk} `{UartPort} `{!UartPortOk _} `{HexCoding digit}.

Lemma stop_others_flags s : flgs (stop_others s) = stopped (flgs s).
Proof.
  unfold stop_others, stopped. destruct (flgs s) as [f1 f2 f3]. simpl.
  destruct (f1 =? 0); simpl; by destruct (f3 =? 0).
Qed.

Lemma feeds_S s0 v : at_state 0 (vu v) ->
  exists u, feeds s0 v [83] (put_u u (put_f (stopped (vf v)) v)) /\ at_state 1 u.
Proof.
  intros [[Hl Hw] Hst]. exists (set_state (vu v) 1). split; [|by repeat split].
  apply feeds_char; [unfold in_switch; lia|unfold in_switch; simpl; lia|lia|].
  rewrite Hst. change (body 0 83) with
    (on_uartp (fun u => Some (set_state u UART0_PROTOCOL_GET_RECORD_TYPE)) ;; modify stop_others).
  intros s Hs. destruct (does_on_uartp s0 (fun u => Some (set_state u UART0_PROTOCOL_GET_RECORD_TYPE)) v _ eq_refl s Hs)
    as (s1 & E1 & Hs1 & R1).
  destruct (does_stop_others s0 _ s1 Hs1) as (s2 & E2 & Hs2 & R2).
  exists s2. split; [by rewrite (bind_ok _ _ _ _ _ E1)|]. split; [|congruence].
  rewrite stop_others_flags in Hs2. exact Hs2.
Qed.

Lemma to_data_all s0 t a n chk rest : forall v pre,
  at_data t a n chk pre (vu v) -> rest <> [] -> Z.of_nat (length (pre ++ rest)) = n -> n <= 255 ->
  0 <= chk < 65536 -> bytes_ok rest ->
  to s0 v (text digit rest) (at_crc t a (u16 (chk + zsum (pre ++ rest))) (pre ++ rest)).
Proof.
  induction rest as [|b rest IH]; intros v pre Hd Hne Hn Hm Hk Hb; [done|]. apply Forall_cons in Hb as [Hb0 Hb].
  rewrite length_app in Hn. cbn [length] in Hn.
  change (text digit (b :: rest)) with (byte_text digit b ++ text digit rest).
  pose proof (byte_text_hex b Hb0) as Hx. pose proof (byte_text_value b Hb0) as Hv.
  apply Forall_cons in Hx as [Hx1 Hx]. apply Forall_cons in Hx as [Hx2 _].
  eapply to_app; [apply (to_data_byte s0 v t a _ chk pre _ _ Hd); (done || lia)|].
  intros u Hu. cbv beta in Hu. unfold byte_text in Hv. rewrite Hv in Hu.
  destruct (Z.eqb_spec (Z.of_nat (length pre) + 1) n).
  - destruct rest; [|simpl in *; lia]. exists u. split; [|exact Hu].
    apply feeds_nil. unfold in_switch. cbn [vu put_u]. rewrite (st_state _ _ (crc_st _ _ _ _ _ Hu)). lia.
  - change (b :: rest) with ([b] ++ rest). rewrite app_assoc.
    apply (IH (put_u u v) (pre ++ [b])); try done.
    + destruct rest; [exfalso; simpl in *; lia|done].
    + rewrite !length_app. simpl. lia.
Qed.

Lemma u16_mod_256 x : u16 x mod 256 = x mod 256.
Proof. apply Z.mod_mod_divide. by exists 256. Qed.

Lemma record_count_range r : valid_record r -> 0 <= record_count r <= 255.
Proof.
  intros Hv. pose proof (val_count _ Hv). pose proof (asz_range (r_type r)). unfold record_count in *. lia.
Qed.

(** Everything between the 'S' and the checksum. *)
Lemma to_checksum s0 v r : at_state 1 (vu v) -> valid_record r ->
  to s0 v (r_type r :: text digit (record_count r :: address_bytes r ++ r_data r))
    (fun u => exists chk, at_crc (r_type r) (r_addr r) chk (r_data r) u /\ chk mod 256 = record_sum r mod 256).
Proof.
  intros Hst Hv. pose proof (record_count_range r Hv) as Hc. pose proof (asz_range (r_type r)) as Ha.
  pose proof (address_bytes_sum r Hv) as Hsum. pose proof (addr_sum_range (r_addr r)).
  pose proof (val_type _ Hv) as Hkn.
  apply (to_app _ _ [r_type r] _ _ _ (to_type s0 v _ Hst Hkn)). intros u1 H1'.
  change (text digit (record_count r :: ?l)) with (byte_text digit (record_count r) ++ text digit l).
  assert (Hcb : byte_ok (record_count r)) by (unfold byte_ok; lia).
  pose proof (byte_text_hex _ Hcb) as Hx. inversion Hx as [|? ? Hx1 Hx']; subst. inversion Hx' as [|? ? Hx2 _]; subst.
  apply (to_app _ _ _ _ _ _ (to_count s0 (put_u u1 v) _ _ _ H1' Hx1 Hx2)). intros u2 H2'.
  pose proof (byte_text_value _ Hcb) as Hcv. unfold byte_text in Hcv. rewrite Hcv in H2'.
  pose proof (be_bytes_ok (Z.to_nat (asz (r_type r))) (r_addr r)) as Hab. fold (address_bytes r) in Hab.
  rewrite text_app. apply (to_app _ _ _ _ _ _ (to_dest s0 (put_u u2 (put_u u1 v)) _ _ (text digit (address_bytes r)) H2'
    Hkn ltac:(lia) ltac:(by apply text_hex) ltac:(rewrite text_length; unfold address_bytes; rewrite be_bytes_length; lia))).
  intros u3. unfold at_body. rewrite text_value, address_bytes_value by done.
  pose proof (val_body _ Hv) as Hb. intros H3'. destruct (is_data_type (r_type r)) eqn:Et.
  - replace (u16 (record_count r - asz (r_type r) - 1)) with (Z.of_nat (length (r_data r))) in H3'
      by (unfold record_count in *; rewrite u16_small by lia; lia).
    destruct (to_data_all s0 _ _ _ _ (r_data r) (put_u u3 (put_u u2 (put_u u1 v))) [] H3') as (u4 & F4 & H4');
      [done|done|unfold record_count in *; lia|lia|apply (val_data _ Hv)|].
    exists u4. split; [done|]. eexists. split; [exact H4'|]. cbn [app]. unfold record_sum. rewrite Hsum.
    rewrite u16_mod_256. done.
  - rewrite Hb. exists u3. split; [apply feeds_nil; unfold in_switch; cbn [vu put_u];
      rewrite (st_state _ _ (crc_st _ _ _ _ _ H3')); lia|].
    eexists. split; [exact H3'|]. unfold record_sum. rewrite Hsum, Hb. cbn. f_equal. lia.
Qed.

(** What a record with checksum byte [c] does, when control stays in the loader. *)
Definition record_view (r : srec) (c : Z) (v : view) : view :=
  put_out (if record_chk r =? c then ok_out else reject_out (record_chk r) c)
    (put_m (if record_chk r =? c then record_effect r (vm v) else vm v) (put_f (stopped (vf v)) v)).

Lemma record_text_split r c : record_text digit r c =
  [83] ++ (r_type r :: text digit (record_count r :: address_bytes r ++ r_data r)) ++ byte_text digit c.
Proof.
  unfold record_text. cbn [app]. do 2 f_equal.
  rewrite app_assoc, (app_comm_cons (address_bytes r ++ r_data r)). by rewrite text_app.
Qed.

Lemma feeds_to_crc s0 v r c : at_state 0 (vu v) -> valid_record r -> byte_ok c ->
  exists u chk, feeds s0 v ([83] ++ (r_type r :: text digit (record_count r :: address_bytes r ++ r_data r)))
      (put_u u (put_f (stopped (vf v)) v)) /\
    at_crc (r_type r) (r_addr r) chk (r_data r) u /\ 255 - chk mod 256 = record_chk r.
Proof.
  intros Hst Hv Hc. destruct (feeds_S s0 v Hst) as (u1 & F1 & H1').
  destruct (to_checksum s0 (put_u u1 (put_f (stopped (vf v)) v)) r H1' Hv) as (u2 & F2 & chk & H2' & E).
  exists u2, chk. split; [by eapply feeds_app|]. split; [done|]. unfold record_chk. by rewrite E.
Qed.

Lemma byte_text_pair c : byte_ok c ->
  exists c1 c2, byte_text digit c = [c1; c2] /\ is_hex c1 = true /\ is_hex c2 = true /\ hex_value [c1; c2] = c.
Proof.
  intros Hc. pose proof (byte_text_hex c Hc) as Hx. pose proof (byte_text_value c Hc) as Hv.
  apply Forall_cons in Hx as [Hx1 Hx]. apply Forall_cons in Hx as [Hx2 _]. by eexists _, _.
Qed.

Lemma data_length r : valid_record r -> (length (r_data r) <= 255)%nat.
Proof.
  intros Hv. pose proof (val_count _ Hv). pose proof (asz_range (r_type r)). unfold record_count in *. lia.
Qed.

Lemma known_split t : known_type t -> is_load_type t = true \/ t = 48 \/ is_start_type t = true.
Proof.
  intros Ht. apply known_type_cases in Ht.
  destruct Ht as [-> |[-> |[-> |[-> |[-> |[-> | ->]]]]]]; auto.
Qed.

Lemma feeds_record s0 v r c term :
  at_state 0 (vu v) -> valid_record r -> byte_ok c -> byte_ok term ->
  is_start_type (r_type r) = false \/ r_addr r = 0 \/ record_chk r <> c ->
  exists u, feeds s0 v (record_text digit r c ++ [term]) (put_u u (record_view r c v)) /\ at_state 0 u.
Proof.
  intros Hst Hv Hc Hterm Hstay. destruct (feeds_to_crc s0 v r c Hst Hv Hc) as (u1 & chk & F1 & H1' & Echk).
  destruct (byte_text_pair c Hc) as (c1 & c2 & Ec & Hx1 & Hx2 & Hcv).
  set (v1 := put_f (stopped (vf v)) v) in *.
  destruct (feeds_crc s0 (put_u u1 v1) _ _ _ _ c1 c2 (fun u => put_u u (record_view r c v)) H1' Hx1 Hx2)
    as (u2 & F2 & H2'); rewrite ?Echk, ?Hcv in *.
  { intros u Hu. split; [|done]. unfold record_view. destruct (Z.eqb_spec (record_chk r) c) as [E|E].
    - unfold record_effect. destruct (is_load_type (r_type r)) eqn:El.
      + destruct (Z.eqb_spec (r_addr r) 0); cbn [andb negb].
        * eapply (accept_ignores s0 v1); [exact Hu|by left].
        * apply (accept_loads s0 v1 _ _ _ _ _ _ Hu); [done|done|by apply data_length].
      + eapply (accept_ignores s0 v1); [exact Hu|].
        destruct Hstay as [?|[?|?]]; [by right|by left|done].
    - by apply (reject_does s0 v1), (chd_rcvd _ _ _ _ _ _ Hu); apply (chd_calc _ _ _ _ _ _ Hu). }
  destruct (to_idle s0 (put_u (leave u2) (record_view r c v)) term H2' Hterm) as (u3 & F3 & H3').
  exists u3. split; [|done]. rewrite record_text_split, Ec, app_assoc.
  by eapply feeds_app; [eapply feeds_app; [exact F1|exact F2]|exact F3].
Qed.

Lemma feeds_start s0 v r :
  at_state 0 (vu v) -> valid_record r -> is_start_type (r_type r) = true -> r_addr r <> 0 ->
  exists u, feeds_jump s0 v (record_text digit r (record_chk r)) (r_addr r)
    (put_out (line_out "UART BL JMP " ++ uart1 (hex_digits 8 (r_addr r)) ++ uart1 [32])
      (put_u u (put_f (stopped (vf v)) v))).
Proof.
  intros Hst Hv Ht Ha.
  assert (Hc : byte_ok (record_chk r)) by (unfold byte_ok, record_chk; Z.div_mod_to_equations; lia).
  destruct (feeds_to_crc s0 v r _ Hst Hv Hc) as (u1 & chk & F1 & H1' & Echk).
  destruct (byte_text_pair _ Hc) as (c1 & c2 & Ec & Hx1 & Hx2 & Hcv).
  set (v1 := put_f (stopped (vf v)) v) in *.
  destruct (crc_field s0 (put_u u1 v1) _ _ _ _ c1 c2 H1' Hx1 Hx2) as (u2 & F2 & Hst2 & u3 & Hu3 & F3).
  rewrite Echk, Hcv, Z.eqb_refl in F3. exists u3.
  rewrite record_text_split, Ec, app_assoc. eapply feeds_app_jump; [exact F1|].
  eapply (feeds_app_jump s0 _ (put_u u2 v1) _ [c1]); [exact F2|].
  apply feeds_char_jump; [next_state|by apply hex_byte|]. cbn [vu put_u]. rewrite Hst2.
  intros s Hs. destruct (F3 s Hs) as (s1 & Hs1 & _ & ->).
  assert (Ha32 : 0 < r_addr r < 2 ^ 32).
  { pose proof (val_addr _ Hv). pose proof (asz_range (r_type r)).
    assert (256 ^ asz (r_type r) <= 256 ^ 4) by (apply Z.pow_le_mono_r; lia). lia. }
  destruct (accept_jumps s0 v1 _ _ u3 (chd_type _ _ _ _ _ _ Hu3) (chd_dest _ _ _ _ _ _ Hu3) Ht Ha32 s1 Hs1) as (s2 & E2 & Hs2).
  exists s2. split; [|done]. by rewrite (bind_jump _ _ _ _ _ E2).
Qed.
End Records.

(** ** Files *)
Definition file_memory (rs : list srec) (m : memory) : memory := foldl (fun m r => record_effect r m) m rs.
Lemma file_memory_agree rs : forall m1 m2 x, mem_get m1 x = mem_get m2 x ->
  mem_get (file_memory rs m1) x = mem_get (file_memory rs m2) x.
Proof.
  induction rs as [|r rs IH]; intros m1 m2 x E; [done|]. cbn. apply IH. unfold record_effect.
  destruct (_ && _); [by apply mem_write_agree|done].
Qed.

Section Files.
Context `{Budget} `{LayoutOk} `{UartPort} `{!UartPortOk _} `{HexCoding digit}.

(** The line ends: any character after the checksum, then no 'S'. *)
Definition line_end (eol : list Z) : Prop :=
  bytes_ok eol /\ eol <> [] /\ Forall (fun c => c <> 83) (tail eol).
Definition file_text (eol : list Z) (rs : list srec) : list Z :=
  rs ≫= (fun r => record_text digit r (record_chk r) ++ eol).

Lemma feeds_idle s0 v cs : at_state 0 (vu v) -> bytes_ok cs -> Forall (fun c => c <> 83) cs -> feeds s0 v cs v.
Proof.
  intros Hst. assert (in_switch (vu v)) by (unfold in_switch; rewrite (st_state _ _ Hst); lia).
  induction cs as [|c cs IH]; intros Hb Hs; [by apply feeds_nil|].
  apply Forall_cons in Hb as [Hb0 Hb]. apply Forall_cons in Hs as [Hs0 Hs].
  apply (feeds_app _ _ v _ [c]); [|by apply IH]. apply feeds_char; try done.
  rewrite (st_state _ _ Hst). change (body 0) with idle_char. unfold idle_char.
  destruct (Z.eqb_spec c 83); [done|]. apply does_skip.
Qed.

Lemma feeds_line s0 v r c eol :
  at_state 0 (vu v) -> valid_record r -> byte_ok c -> line_end eol ->
  is_start_type (r_type r) = false \/ r_addr r = 0 \/ record_chk r <> c ->
  exists u, feeds s0 v (record_text digit r c ++ eol) (put_u u (record_view r c v)) /\ at_state 0 u.
Proof.
  intros Hst Hv Hc (Hb & Hne & Hs) Hstay. destruct eol as [|e eol]; [done|].
  apply Forall_cons in Hb as [He Hb]. destruct (feeds_record s0 v r c e Hst Hv Hc He Hstay) as (u & F & Hu).
  exists u. split; [|done]. change (e :: eol) with ([e] ++ eol). rewrite app_assoc.
  eapply feeds_app; [exact F|]. by apply feeds_idle.
Qed.

Lemma record_chk_ok r : byte_ok (record_chk r).
Proof. unfold byte_ok, record_chk. Z.div_mod_to_equations. lia. Qed.

(** *** Lines: records with the checksum byte that arrived *)
Definition accepted (l : srec * Z) : bool := record_chk l.1 =? l.2.
Definition line_effect (l : srec * Z) (m : memory) : memory := if accepted l then record_effect l.1 m else m.
Definition line_reply (l : srec * Z) : list Z := if accepted l then ok_text else not_ok_text.
Definition line_output (l : srec * Z) : list (Z * Z) :=
  if accepted l then ok_out else reject_out (record_chk l.1) l.2.
Definition lines_memory (ls : list (srec * Z)) (m : memory) : memory := foldl (fun m l => line_effect l m) m ls.
Definition lines_text (eol : list Z) (ls : list (srec * Z)) : list Z :=
  ls ≫= (fun l => record_text digit l.1 l.2 ++ eol).
Record valid_line (l : srec * Z) : Prop := {
  vl_record : valid_record l.1;
  vl_chk : byte_ok l.2;
  vl_stays : is_start_type (r_type l.1) = false \/ r_addr l.1 = 0 \/ record_chk l.1 <> l.2
}.

Lemma line_output_uart0 ls : on_uart 0 (ls ≫= line_output) = ls ≫= line_reply.
Proof.
  induction ls as [|l ls IH]; [done|]. cbn [mbind list_bind]. rewrite on_uart_app. f_equal; [|exact IH].
  unfold line_output, line_reply. destruct (accepted l); [apply on_uart_self|].
  unfold reject_out, line_out, uart1, not_ok_out. rewrite !on_uart_app, on_uart_self.
  by rewrite !(on_uart_other 1 0).
Qed.

Lemma feeds_lines s0 eol ls : line_end eol -> forall v, at_state 0 (vu v) -> Forall valid_line ls ->
  exists u f, feeds s0 v (lines_text eol ls)
      (put_out (ls ≫= line_output) (mk_view u f (lines_memory ls (vm v)) (vs v))) /\ at_state 0 u.
Proof.
  intros Hl. induction ls as [|l ls IH]; intros v Hst Hv.
  - exists (vu v), (vf v). split; [|done]. destruct v as [u f m so]. intros s sched rest Hs Hrx Ho.
    destruct (feeds_nil s0 (mk_view u f m so) ltac:(unfold in_switch; rewrite (st_state _ _ Hst); lia) s sched rest Hs Hrx Ho)
      as (s' & E & Hs' & Hr). exists s'. split; [done|]. split; [|done].
    destruct Hs'. split; try done. intros id. rewrite sh_sent0. simpl. by rewrite app_nil_r.
  - apply Forall_cons in Hv as [[Hv0 Hc0 Hs0] Hv]. destruct l as [r c]. cbn [fst snd] in *.
    destruct (feeds_line s0 v r c eol Hst Hv0 Hc0 Hl Hs0) as (u1 & F1 & H1').
    destruct (IH (put_u u1 (record_view r c v)) H1' Hv) as (u2 & f2 & F2 & H2').
    exists u2, f2. split; [|done].
    change (lines_text eol ((r, c) :: ls)) with ((record_text digit r c ++ eol) ++ lines_text eol ls).
    intros s sched rest Hs Hrx Ho.
    destruct (feeds_app s0 v _ _ _ _ F1 F2 s sched rest Hs Hrx Ho) as (s' & E & Hs' & Hr).
    exists s'. split; [done|]. split; [|done]. destruct Hs'. split; try done.
    intros id. rewrite sh_sent0. cbn [vs put_out put_u put_m put_f].
    unfold record_view. cbn [vs put_out put_u put_m put_f].
    change (((r, c) :: ls) ≫= line_output) with (line_output (r, c) ++ (ls ≫= line_output)).
    by rewrite on_uart_app, app_assoc.
Qed.

Lemma session_boots s ls start eol sched rest :
  timely (board s) -> at_state 0 (uartp s) -> line_end eol -> Forall valid_line ls ->
  valid_record start -> is_start_type (r_type start) = true -> r_addr start <> 0 ->
  rx_schedule 0 (board s) = sched ++ rest ->
  omap id sched = lines_text eol ls ++ record_text digit start (record_chk start) ->
  exists s', iter_ (length sched) processUartProtocolFrames s = Jump (r_addr start) s' /\
    (forall x, ~ scratch x -> mem_get (ram (board s')) x = mem_get (lines_memory ls (ram (board s))) x) /\
    sent 0 (board s') = sent 0 (board s) ++ (ls ≫= line_reply) /\
    sent 1 (board s') = sent 1 (board s) ++ on_uart 1 (ls ≫= line_output) ++
      crlf ++ ascii_bytes "UART BL JMP " ++ hex_digits 8 (r_addr start) ++ [32].
Proof.
  intros Ht Hst Hl Hv Hvs Hss Ha Hrx Ho.
  destruct (feeds_lines s eol ls Hl (view_of s) Hst Hv) as (u1 & f1 & F1 & H1').
  set (v1 := put_out _ _) in F1.
  destruct (feeds_start s v1 start H1' Hvs Hss Ha) as (u2 & F2).
  destruct (feeds_app_jump s _ _ _ _ _ _ F1 F2 s sched rest (shows_self s Ht) Hrx Ho) as (s' & E & Hs').
  exists s'. split; [done|]. split; [exact (sh_mem _ _ _ Hs')|].
  pose proof (sh_sent _ _ _ Hs' 0) as E0. pose proof (sh_sent _ _ _ Hs' 1) as E1.
  unfold v1, put_out, put_u, put_f, view_of in E0, E1. cbn [vs vu vf vm] in E0, E1.
  unfold line_out, uart1 in E0, E1. rewrite !on_uart_app in E0, E1.
  rewrite !on_uart_self in E1. rewrite !(on_uart_other 1 0), line_output_uart0 in E0 by done.
  rewrite !app_nil_r in E0. rewrite <- !app_assoc in E1. by split.
Qed.

Lemma lines_memory_agree ls : forall m1 m2 x, mem_get m1 x = mem_get m2 x ->
  mem_get (lines_memory ls m1) x = mem_get (lines_memory ls m2) x.
Proof.
  induction ls as [|l ls IH]; intros m1 m2 x E; [done|]. cbn. apply IH. unfold line_effect, record_effect.
  destruct (accepted l); [|done]. destruct (_ && _); [by apply mem_write_agree|done].
Qed.

(** Files: every line as it was sent. *)
Definition sent_line (r : srec) : srec * Z := (r, record_chk r).
Lemma accepted_sent r : accepted (sent_line r) = true.
Proof. apply Z.eqb_refl. Qed.
Lemma sent_lines_valid rs : Forall valid_record rs -> Forall (fun r => is_start_type (r_type r) = false) rs ->
  Forall valid_line (map sent_line rs).
Proof.
  intros Hv Hn. apply Forall_map, Forall_forall. intros r Hr. split; cbn.
  - by apply (proj1 (Forall_forall _ _) Hv).
  - apply record_chk_ok.
  - left. by apply (proj1 (Forall_forall _ _) Hn).
Qed.
Lemma lines_text_file eol rs : lines_text eol (map sent_line rs) = file_text eol rs.
Proof. induction rs as [|r rs IH]; [done|]. exact (f_equal2 app eq_refl IH). Qed.
Lemma lines_memory_file rs : forall m, lines_memory (map sent_line rs) m = file_memory rs m.
Proof.
  induction rs as [|r rs IH]; intros m; [done|].
  change (lines_memory (map sent_line rs) (line_effect (sent_line r) m) = file_memory rs (record_effect r m)).
  rewrite IH. unfold line_effect. by rewrite accepted_sent.
Qed.
Lemma line_reply_file rs : map sent_line rs ≫= line_reply = concat (replicate (length rs) ok_text).
Proof.
  induction rs as [|r rs IH]; [done|].
  change (line_reply (sent_line r) ++ (map sent_line rs ≫= line_reply) = ok_text ++ concat (replicate (length rs) ok_text)).
  rewrite IH. unfold line_reply. by rewrite accepted_sent.
Qed.
Lemma line_output_file rs : on_uart 1 (map sent_line rs ≫= line_output) = [].
Proof.
  induction rs as [|r rs IH]; [done|].
  change (on_uart 1 (line_output (sent_line r) ++ (map sent_line rs ≫= line_output)) = []).
  rewrite on_uart_app, IH. unfold line_output. rewrite accepted_sent. unfold ok_out. by rewrite on_uart_other.
Qed.

Lemma file_boots s rs start eol sched rest :
  timely (board s) -> at_state 0 (uartp s) -> line_end eol ->
  Forall valid_record rs -> Forall (fun r => is_start_type (r_type r) = false) rs ->
  valid_record start -> is_start_type (r_type start) = true -> r_addr start <> 0 ->
  rx_schedule 0 (board s) = sched ++ rest ->
  omap id sched = file_text eol rs ++ record_text digit start (record_chk start) ->
  exists s', iter_ (length sched) processUartProtocolFrames s = Jump (r_addr start) s' /\
    (forall x, ~ scratch x -> mem_get (ram (board s')) x = mem_get (file_memory rs (ram (board s))) x) /\
    sent 0 (board s') = sent 0 (board s) ++ concat (replicate (length rs) ok_text) /\
    sent 1 (board s') = sent 1 (board s) ++ crlf ++ ascii_bytes "UART BL JMP " ++
      hex_digits 8 (r_addr start) ++ [32].
Proof.
  intros Ht Hst Hl Hv Hn Hvs Hss Ha Hrx Ho. rewrite <- lines_text_file in Ho.
  destruct (session_boots s (map sent_line rs) start eol sched rest) as (s' & E & Hm & E0 & E1); try done.
  - by apply sent_lines_valid.
  - exists s'. rewrite lines_memory_file in Hm. rewrite line_reply_file in E0. rewrite line_output_file in E1. done.
Qed.

(** C6. A whole S-record file over the UART: from the idle state, for every list
    of valid S0..S3 records and a valid start record with a nonzero address, sent
    with any mixture of idle polls, any hexadecimal digit case and any line ends,
    the loader never faults or stalls; it jumps to the start record's address
    exactly at its last character, with memory equal to the image the records
    describe, one OK line per record on UART 0, and the jump announced on
    UART 1. *)
Theorem srec_file_boots s rs start eol sched rest :
  timely (board s) -> at_state 0 (uartp s) -> line_end eol ->
  Forall valid_record rs -> Forall (fun r => is_start_type (r_type r) = false) rs ->
  valid_record start -> is_start_type (r_type start) = true -> r_addr start <> 0 ->
  rx_schedule 0 (board s) = sched ++ rest ->
  omap id sched = file_text eol rs ++ record_text digit start (record_chk start) ->
  exists s', iter_ (length sched) processUartProtocolFrames s = Jump (r_addr start) s' /\
    (forall x, ~ scratch x -> mem_get (ram (board s')) x = mem_get (file_memory rs (ram (board s))) x) /\
    sent 0 (board s') = sent 0 (board s) ++ concat (replicate (length rs) ok_text) /\
    sent 1 (board s') = sent 1 (board s) ++ crlf ++ ascii_bytes "UART BL JMP " ++
      hex_digits 8 (r_addr start) ++ [32].
Proof. apply file_boots. Qed.

(** C10. A record whose checksum byte differs from the computed one is not
    loaded, whatever its type: memory is unchanged, UART 0 gets NOT OK, UART 1 the
    two values, and the loader is idle again, ready for the repeated record. *)
Theorem srec_bad_checksum_rejected s r c eol sched rest :
  timely (board s) -> at_state 0 (uartp s) -> line_end eol -> valid_record r ->
  byte_ok c -> c <> record_chk r ->
  rx_schedule 0 (board s) = sched ++ rest ->
  omap id sched = record_text digit r c ++ eol ->
  exists s', iter_ (length sched) processUartProtocolFrames s = Ok tt s' /\
    (forall x, ~ scratch x -> mem_get (ram (board s')) x = mem_get (ram (board s)) x) /\
    sent 0 (board s') = sent 0 (board s) ++ not_ok_text /\
    sent 1 (board s') = sent 1 (board s) ++ crlf ++ ascii_bytes "CHKSUM ERR " ++
      hex_digits 2 (record_chk r) ++ hex_digits 2 c /\
    at_state 0 (uartp s') /\ rx_schedule 0 (board s') = rest /\ timely (board s').
Proof.
  intros Ht Hst Hl Hv Hc Hne Hrx Ho.
  destruct (feeds_line s (view_of s) r c eol Hst Hv Hc Hl) as (u & F & Hu); [by right; right|].
  destruct (F s sched rest (shows_self s Ht) Hrx Ho) as (s' & E & Hs' & Hr).
  exists s'. split; [done|].
  unfold record_view in Hs'. destruct (Z.eqb_spec (record_chk r) c); [done|].
  split; [exact (sh_mem _ _ _ Hs')|].
  pose proof (sh_sent _ _ _ Hs' 0) as E0. pose proof (sh_sent _ _ _ Hs' 1) as E1.
  unfold put_out, put_u, put_f, put_m, view_of in E0, E1. cbn [vs vu vf vm] in E0, E1.
  unfold reject_out, line_out, uart1, not_ok_out in E0, E1. rewrite !on_uart_app in E0, E1.
  rewrite !on_uart_self in E0. rewrite !on_uart_self in E1.
  rewrite !(on_uart_other 1 0) in E0 by done. rewrite !(on_uart_other 0 1) in E1 by done.
  rewrite app_nil_r, <- !app_assoc in E1. cbn [app] in E0.
  split; [done|]. split; [done|]. split; [by rewrite (sh_uart _ _ _ Hs')|].
  split; [done|exact (sh_timely _ _ _ Hs')].
Qed.

(** A load record for address 0 is acknowledged but not executed: with a
    correct checksum the answer is OK, and memory is exactly what it was. *)
Theorem srec_address_zero_acknowledged s r eol sched rest :
  timely (board s) -> at_state 0 (uartp s) -> line_end eol -> valid_record r -> r_addr r = 0 ->
  rx_schedule 0 (board s) = sched ++ rest ->
  omap id sched = record_text digit r (record_chk r) ++ eol ->
  exists s', iter_ (length sched) processUartProtocolFrames s = Ok tt s' /\
    (forall x, ~ scratch x -> mem_get (ram (board s')) x = mem_get (ram (board s)) x) /\
    sent 0 (board s') = sent 0 (board s) ++ ok_text /\ at_state 0 (uartp s').
Proof.
  intros Ht Hst Hl Hv Ha Hrx Ho.
  destruct (feeds_line s (view_of s) r _ eol Hst Hv (record_chk_ok r) Hl) as (u & F & Hu); [by right; left|].
  destruct (F s sched rest (shows_self s Ht) Hrx Ho) as (s' & E & Hs' & Hr).
  exists s'. split; [done|]. unfold record_view, record_effect in Hs'. rewrite Z.eqb_refl, Ha, andb_false_r in Hs'.
  split; [exact (sh_mem _ _ _ Hs')|]. pose proof (sh_sent _ _ _ Hs' 0) as E0.
  unfold put_out, put_u, put_f, put_m, view_of, ok_out in E0. cbn [vs vu vf vm] in E0.
  rewrite on_uart_self in E0. split; [done|]. by rewrite (sh_uart _ _ _ Hs').
Qed.
End Files.

(** ** Witnesses *)
(** The side conditions of a literal record. *)
Ltac validate :=
  split; [first [by left | by right] | by vm_compute | by apply (bool_decide_unpack _) | by vm_compute |
          first [done | discriminate]].

Section Witnesses.
#[local] Instance w_budget : Budget := sample_budget.
#[local] Instance w_layout : Layout := sample_layout.

Definition sample_file : list srec :=
  [ mk_srec 48 0 [72; 73]; mk_srec 49 0x1000 [1; 2; 3]; mk_srec 51 0x1C000000 [0xAA] ].
Definition sample_start : srec := mk_srec 55 0x1C000080 [].
Definition sample_crlf : list Z := [13; 10].

Lemma sample_file_valid : Forall valid_record sample_file.
Proof. repeat (apply Forall_cons_2; [validate|]). apply Forall_nil_2. Qed.
Lemma sample_start_valid : valid_record sample_start.
Proof. validate. Qed.
Lemma sample_line_end : line_end sample_crlf.
Proof. split; [by apply (bool_decide_unpack _)|]. split; [done|by repeat constructor]. Qed.
Lemma bss_idle : at_state 0 uart_vars_bss.
Proof. by repeat split. Qed.
Lemma omap_some (l : list Z) : omap id (map Some l) = l.
Proof. induction l as [|x l IH]; [done|]. simpl. by f_equal. Qed.
Lemma receiving_rx cs : rx_schedule 0 (board_receiving cs sample_flash) = map Some cs.
Proof. unfold rx_schedule, board_receiving. by rewrite get_with_uart. Qed.

Lemma srec_file_boots_witness :
  let cs := file_text (digit := upper_digit) sample_crlf sample_file ++
            record_text upper_digit sample_start (record_chk sample_start) in
  let s := after_crt0 (board_receiving cs sample_flash) in
  exists s', iter_ (length (map Some cs)) processUartProtocolFrames s = Jump 0x1C000080 s' /\
    (forall x, ~ scratch x -> mem_get (ram (board s')) x = mem_get (file_memory sample_file ∅) x) /\
    sent 0 (board s') = concat (replicate 3 ok_text) /\
    sent 1 (board s') = crlf ++ ascii_bytes "UART BL JMP " ++ hex_digits 8 0x1C000080 ++ [32].
Proof.
  intros cs s. apply (srec_file_boots (digit := upper_digit) s sample_file sample_start sample_crlf (map Some cs) []).
  - apply receiving_timely.
  - apply bss_idle.
  - apply sample_line_end.
  - apply sample_file_valid.
  - by repeat constructor.
  - apply sample_start_valid.
  - done.
  - done.
  - rewrite app_nil_r. apply receiving_rx.
  - apply omap_some.
Defined.

Lemma srec_bad_checksum_rejected_witness :
  let r := mk_srec 49 0x1000 [1; 2; 3] in
  let cs := record_text hex4_char r 0 ++ sample_crlf in
  let s := after_crt0 (board_receiving cs sample_flash) in
  exists s', iter_ (length (map Some cs)) processUartProtocolFrames s = Ok tt s' /\
    (forall x, ~ scratch x -> mem_get (ram (board s')) x = mem_get (ram (board s)) x) /\
    sent 0 (board s') = not_ok_text /\
    sent 1 (board s') = crlf ++ ascii_bytes "CHKSUM ERR " ++ hex_digits 2 (record_chk r) ++ hex_digits 2 0 /\
    at_state 0 (uartp s') /\ rx_schedule 0 (board s') = [] /\ timely (board s').
Proof.
  intros r cs s. apply (srec_bad_checksum_rejected (digit := hex4_char) s r 0 sample_crlf (map Some cs) []).
  - apply receiving_timely.
  - apply bss_idle.
  - apply sample_line_end.
  - validate.
  - by vm_compute.
  - by vm_compute.
  - rewrite app_nil_r. apply receiving_rx.
  - apply omap_some.
Defined.

Lemma srec_address_zero_acknowledged_witness :
  let r := mk_srec 49 0 [1; 2; 3] in
  let cs := record_text upper_digit r (record_chk r) ++ sample_crlf in
  let s := after_crt0 (board_receiving cs sample_flash) in
  exists s', iter_ (length (map Some cs)) processUartProtocolFrames s = Ok tt s' /\
    (forall x, ~ scratch x -> mem_get (ram (board s')) x = mem_get (ram (board s)) x) /\
    sent 0 (board s') = ok_text /\ at_state 0 (uartp s').
Proof.
  intros r cs s. apply (srec_address_zero_acknowledged (digit := upper_digit) s r sample_crlf (map Some cs) []).
  - apply receiving_timely.
  - apply bss_idle.
  - apply sample_line_end.
  - validate.
  - done.
  - rewrite app_nil_r. apply receiving_rx.
  - apply omap_some.
Defined.
End Witnesses.
