(* ===== verification/UartSafety.v ===== *)
(** * UartSafety: the loader on arbitrary input

    The invariant of the record state machine, its preservation on every
    character (hexadecimal or not), and the two inputs that break the protocol:
    a count field smaller than the address field, and an S5 record. *)

From S2P Require Import Prelude Monad Hw Uart Dbg Machine UartProtocol SRecord.

(** ** Hexadecimal input of arbitrary characters *)
Lemma atoh_char_range b c : 0 <= c < 16 -> 0 <= atoh_char b c < 16.
Proof.
  unfold atoh_char. intros Hc.
  destruct (Z.leb_spec 48 b), (Z.leb_spec b 57), (Z.leb_spec 65 b), (Z.leb_spec b 70),
    (Z.leb_spec 97 b), (Z.leb_spec b 102); simpl; rewrite ?u8_small by lia; lia.
Qed.

Lemma atoh_loop_some n : forall buf i v c,
  0 <= i -> i + Z.of_nat n <= Z.of_nat (length buf) -> 0 <= v < 2 ^ 32 ->
  exists w, atoh_loop n buf i v c = Some w /\ 0 <= w < 2 ^ 32.
Proof.
  induction n as [|n IH]; intros buf i v c Hi Hl Hv; [by exists v|]. cbn [atoh_loop].
  destruct (zlookup_is_some buf i) as [b ->]; [lia|]. destruct (_ || _); [by exists v|].
  apply IH; [lia|lia|]. apply u32_range.
Qed.

(** Two characters and a NUL: at most 255. *)
Lemma atoh_two buf c1 c2 : take 3 buf = [c1; c2; 0] ->
  exists w, atoh buf 3 = Some w /\ 0 <= w < 256.
Proof.
  intros Hb. destruct buf as [|? [|? [|? buf]]]; try discriminate. injection Hb as -> -> ->.
  unfold atoh. change (Z.to_nat 3) with 3%nat. cbn [atoh_loop].
  change ((c1 :: c2 :: 0 :: buf) !? 0) with (Some c1). cbv iota.
  destruct (_ || _); [by exists 0|].
  change ((c1 :: c2 :: 0 :: buf) !? (0 + 1)) with (Some c2). cbv iota.
  pose proof (atoh_char_range c1 0 ltac:(lia)) as R1. set (d1 := atoh_char c1 0) in *.
  change (u32 (0 * 16)) with 0. rewrite (u32_small (0 + d1)) by lia.
  destruct (_ || _); [exists (0 + d1); split; [done|lia]|].
  change ((c1 :: c2 :: 0 :: buf) !? (0 + 1 + 1)) with (Some 0). cbn [Z.eqb orb].
  pose proof (atoh_char_range c2 d1 R1). eexists. split; [reflexivity|].
  rewrite (u32_small (_ * 16)), u32_small by lia. lia.
Qed.

(** ** The invariant *)
Record wf (u : uart_vars) : Prop := {
  wf_bufs : bufs u;
  wf_state : in_switch u;
  wf_size : 0 <= gsDestinationAddressSizeInBytes u <= 4;
  wf_dest : 0 <= gsDestinationAddress u < 2 ^ 32;
  wf_fill : 0 <= gsUart0FillIndex u <=
    if decide (gsUart0ProtocolState u = 3) then 7 else 1;
  wf_chk : 0 <= gsCalculatedChkSum u < 65536;
  wf_index : 0 <= gsMemoryWriteBufIndex u <= 254;
  wf_count : gsUart0ProtocolState u = 3 -> 0 <= gsDataCountInBytes u <= 254;
  wf_data : gsUart0ProtocolState u = 4 ->
    0 <= gsDataCountInBytes u <= 254 /\ 0 <= gsDataRxdCounterInCharacters u /\
    2 * gsMemoryWriteBufIndex u + gsUart0FillIndex u = gsDataRxdCounterInCharacters u /\
    gsDataRxdCounterInCharacters u <= 2 * gsDataCountInBytes u /\
    (gsDataRxdCounterInCharacters u < 2 * gsDataCountInBytes u \/ gsDataRxdCounterInCharacters u = 0)
}.

(** The count field announces fewer bytes than the address and checksum take. *)
Definition short_count (u : uart_vars) : Prop :=
  gsUart0ProtocolState u = 3 /\ gsTotalCountInBytes u <= gsDestinationAddressSizeInBytes u.

Lemma put_conv_any c u : length (gsUartProtocolConvToHexBuf u) = 512%nat -> 0 <= gsUart0FillIndex u < 500 ->
  exists b, put_conv c u = Some (set_fill (set_conv u b) (gsUart0FillIndex u + 1)) /\
    b = <[Z.to_nat (gsUart0FillIndex u) := c]> (gsUartProtocolConvToHexBuf u) /\ length b = 512%nat.
Proof.
  intros Hl Hf. unfold put_conv. rewrite zupdate_some by lia. cbn. rewrite u16_small by lia.
  eexists. split; [reflexivity|]. split; [done|]. by rewrite length_insert.
Qed.

Lemma convert_any u : length (gsUartProtocolConvToHexBuf u) = 512%nat -> 0 <= gsUart0FillIndex u < 500 ->
  exists b v, convert u = Some (v, set_fill (set_conv u b) (gsUart0FillIndex u + 1)) /\
    length b = 512%nat /\ 0 <= v < 2 ^ 32 /\ (gsUart0FillIndex u = 2 -> v < 256).
Proof.
  intros Hl Hf. unfold convert. destruct (put_conv_any 0 u Hl Hf) as (b & -> & Eb & Lb).
  cbn [mbind option_bind]. uv_simpl.
  destruct (atoh_loop_some (Z.to_nat (gsUart0FillIndex u + 1)) b 0 0 0) as (v & Ev & Rv); try lia.
  unfold atoh. rewrite Ev. exists b, v. split; [done|]. split; [done|]. split; [done|].
  intros Hf2. rewrite Hf2 in Ev, Eb. change (Z.to_nat (2 + 1)) with (Z.to_nat 3) in Ev.
  destruct (gsUartProtocolConvToHexBuf u) as [|c1 [|c2 [|c3 l]]]; try discriminate.
  destruct (atoh_two b c1 c2) as (w & Ew & Rw); [by subst b|]. unfold atoh in Ew. rewrite Ew in Ev.
  injection Ev as <-. lia.
Qed.

(** *** The pure cases *)
Ltac unfold_states :=
  unfold UART0_PROTOCOL_STATE_IDLE, UART0_PROTOCOL_GET_RECORD_TYPE,
    UART0_PROTOCOL_GET_COUNT, UART0_PROTOCOL_GET_DESTINATION_ADDRESS, UART0_PROTOCOL_GET_DATA,
    UART0_PROTOCOL_GET_CRC, UART0_PROTOCOL_GET_TERMINATION_CHARACTER in *.
(** The fields of [wf] on an updated record, by arithmetic. *)
Ltac wf_fields :=
  split; unfold in_switch; uv_simpl; unfold_states;
  first [by split | case_decide; lia | lia | (intros; lia) | auto].

Lemma record_type_safe c u : wf u -> gsUart0ProtocolState u = 1 -> 0 <= c < 256 ->
  exists u', record_type_char c u = Some u' /\ wf u'.
Proof.
  intros [[Hl Hw] Hs Hz Hd Hf Hk Hi Hc Hdt] Hst Hcr. eexists. split; [reflexivity|]. rewrite Hst in *. rewrite decide_False in Hf by done.
  unfold start_count. repeat case_match; wf_fields.
Qed.

Lemma get_count_safe c u : wf u -> gsUart0ProtocolState u = 2 -> 0 <= c < 256 ->
  exists u', get_count_char c u = Some u' /\ (wf u' \/ short_count u').
Proof.
  intros [[Hl Hw] Hs Hz Hd Hf Hk Hi Hc Hdt] Hst Hcr. rewrite Hst in *. rewrite decide_False in Hf by done.
  unfold get_count_char. destruct (put_conv_any c u Hl) as (b & -> & _ & Lb); [lia|].
  cbn [mbind option_bind]. uv_simpl.
  destruct (Z.geb_spec (gsUart0FillIndex u + 1) 2).
  - destruct (convert_any (set_fill (set_conv u b) (gsUart0FillIndex u + 1))) as (b2 & v & -> & Lb2 & Rv & R2);
      [done|uv_simpl; lia|]. cbn [mbind option_bind]. uv_simpl. cbn [gsUart0FillIndex set_fill] in R2.
    specialize (R2 ltac:(lia)). rewrite (u16_small v) by lia.
    eexists. split; [reflexivity|]. unfold short_count. uv_simpl. unfold_states.
    destruct (Z.leb_spec v (gsDestinationAddressSizeInBytes u)); [by right|left].
    pose proof (u16_range (gsCalculatedChkSum u + v)).
    assert (u16 (v - gsDestinationAddressSizeInBytes u - 1) <= 254) by (rewrite u16_small; lia).
    pose proof (u16_range (v - gsDestinationAddressSizeInBytes u - 1)). wf_fields.
  - eexists. split; [reflexivity|]. left. wf_fields.
Qed.

Lemma get_destination_safe c u : wf u -> gsUart0ProtocolState u = 3 -> 0 <= c < 256 ->
  exists u', get_destination_char c u = Some u' /\ wf u'.
Proof.
  intros [[Hl Hw] Hs Hz Hd Hf Hk Hi Hc Hdt] Hst Hcr. rewrite Hst in *. rewrite decide_True in Hf by done.
  unfold get_destination_char. destruct (put_conv_any c u Hl) as (b & -> & _ & Lb); [lia|].
  cbn [mbind option_bind]. uv_simpl.
  destruct (Z.geb_spec (gsUart0FillIndex u + 1) (2 * gsDestinationAddressSizeInBytes u)).
  - destruct (convert_any (set_fill (set_conv u b) (gsUart0FillIndex u + 1))) as (b2 & v & -> & Lb2 & Rv & _);
      [done|uv_simpl; lia|]. cbn [mbind option_bind]. uv_simpl.
    set (k1 := u16 (gsCalculatedChkSum u + _)). set (k2 := u16 (k1 + _)). set (k3 := u16 (k2 + _)).
    match goal with |- context [u16 (k3 + ?x)] => pose proof (u16_range (k3 + x)) end. specialize (Hc eq_refl).
    repeat case_match; eexists; (split; [reflexivity|]); wf_fields.
  - eexists. split; [reflexivity|]. wf_fields.
Qed.

Lemma termination_safe c u : wf u -> exists u', termination_char c u = Some u' /\ wf u'.
Proof.
  intros [[Hl Hw] Hs Hz Hd Hf Hk Hi Hc Hdt]. eexists. split; [reflexivity|]. wf_fields.
Qed.

(** A data character is stored in bounds. *)
Lemma store_data_safe c u : wf u -> gsUart0ProtocolState u = 4 -> 0 <= c < 256 ->
  exists u2, store_data_char c u = Some u2 /\ bufs u2 /\ gsMemoryWriteBufIndex u2 <= 254 /\
    let rx := gsDataRxdCounterInCharacters u2 + 1 in
    1 <= rx <= 509 /\ 0 <= gsCalculatedChkSum u2 < 65536 /\
    ((rx >=? 2 * gsDataCountInBytes u2) = false -> wf (set_rxcount u2 rx)) /\
    forall k, 0 <= k < 65536 -> wf (set_state (set_rxcount (set_fill (set_chk u2 k) 0) 0) 5).
Proof.
  intros [[Hl Hw] Hs Hz Hd Hf Hk Hi Hc Hdt] Hst Hcr. rewrite Hst in *. rewrite decide_False in Hf by done.
  specialize (Hdt eq_refl) as (Hn & Hr & Hsum & Hle & Hlt).
  unfold store_data_char. destruct (put_conv_any c u Hl) as (b & -> & _ & Lb); [lia|].
  cbn [mbind option_bind]. uv_simpl. destruct (Z.eqb_spec (gsUart0FillIndex u + 1) 2).
  - destruct (convert_any (set_fill (set_conv u b) (gsUart0FillIndex u + 1))) as (b2 & v & -> & Lb2 & Rv & R2);
      [done|uv_simpl; lia|]. cbn [mbind option_bind]. uv_simpl.
    rewrite zupdate_some by lia. cbn [mbind option_bind]. rewrite u16_small by lia.
    eexists. split; [reflexivity|]. uv_simpl. split; [split; uv_simpl; [done|by rewrite length_insert]|].
    split; [lia|]. split; [lia|]. split; [lia|]. split.
    + destruct (Z.geb_spec (gsDataRxdCounterInCharacters u + 1) (2 * gsDataCountInBytes u)); [done|]. intros _.
      split; unfold in_switch; uv_simpl; rewrite ?Hst; try done; try lia; try (case_decide; lia).
      split; uv_simpl; by rewrite ?length_insert.
    + intros k Hk'. split; unfold in_switch; uv_simpl; try done; try lia.
      split; uv_simpl; by rewrite ?length_insert.
  - eexists. split; [reflexivity|]. uv_simpl. split; [by split|].
    split; [lia|]. split; [lia|]. split; [lia|]. split.
    + destruct (Z.geb_spec (gsDataRxdCounterInCharacters u + 1) (2 * gsDataCountInBytes u)); [done|]. intros _.
      split; unfold in_switch; uv_simpl; rewrite ?Hst; try done; try lia. case_decide; lia.
    + intros k Hk'. split; unfold in_switch; uv_simpl; try done; try lia.
Qed.

(** *** One call of the handler *)
Section Safety.
Context `{Budget} `{LayoutOk} `{UartPort} `{!UartPortOk _}.

(** The two ways a case ends. *)
Definition ends_well (s0 : machine) (m : M machine unit) (s : machine) : Prop :=
  (exists v' s', m s = Ok tt s' /\ shows s0 v' s' /\ (wf (vu v') \/ short_count (vu v'))) \/
  (exists e s', m s = Jump e s').

Lemma does_ends s0 m v v' s : does s0 m v v' -> shows s0 v s -> wf (vu v') \/ short_count (vu v') -> ends_well s0 m s.
Proof. intros D Hs Hw. destruct (D s Hs) as (s' & E & Hs' & _). left. by exists v', s'. Qed.

Lemma pure_ends s0 f v s u' : f (vu v) = Some u' -> shows s0 v s -> wf u' \/ short_count u' ->
  ends_well s0 (on_uartp f) s.
Proof. intros E Hs Hw. by apply (does_ends s0 _ v (put_u u' v) s (does_on_uartp s0 f v u' E)). Qed.

Lemma get_data_ends s0 v c s : wf (vu v) -> gsUart0ProtocolState (vu v) = 4 -> 0 <= c < 256 ->
  shows s0 v s -> ends_well s0 (get_data_char c) s.
Proof.
  intros Hw Hst Hc Hs. destruct (store_data_safe c (vu v) Hw Hst Hc) as (u2 & E & Hb & Hi & Hrx & Hk & Hno & Hyes).
  pose proof (data_char_does s0 v c u2 E ltac:(lia) Hb ltac:(lia) Hk) as D.
  apply (does_ends _ _ _ _ _ D Hs). left. cbn [vu put_u].
  destruct (_ >=? _) eqn:Eg; [|by apply Hno]. apply Hyes. apply u16_range.
Qed.

Lemma accept_ends s0 v u s : vu v = u -> bufs u -> 0 <= gsMemoryWriteBufIndex u <= 254 ->
  0 <= gsDestinationAddress u < 2 ^ 32 -> shows s0 v s ->
  (exists v', does s0 accept_record v v' /\ vu v' = u) \/ (exists e s', accept_record s = Jump e s').
Proof.
  intros Hvu Hb Hi Hd Hs. subst u.
  destruct (Z.eqb_spec (gsDestinationAddress (vu v)) 0) as [Ea|Ea].
  - left. exists (put_out ok_out v). split; [|done]. unfold accept_record.
    eapply does_gets; [by intros s' []|]. rewrite Ea. eapply does_seq; [apply does_skip|apply does_ok].
  - destruct (is_load_type (gsSRecordType (vu v))) eqn:El; [left|destruct (is_start_type (gsSRecordType (vu v))) eqn:Es; [right|left]].
    + eexists (put_out ok_out (put_m _ v)). split; [|done]. unfold accept_record.
      eapply does_gets; [by intros s' []|]. rewrite El. destruct (Z.eqb_spec (gsDestinationAddress (vu v)) 0); [done|].
      cbn [negb]. eapply does_seq; [apply does_memcpy|apply does_ok].
      rewrite (bufs_w _ Hb). lia.
    + destruct (accept_jumps s0 v _ _ (vu v) eq_refl eq_refl Es ltac:(lia) s) as (s' & E & _); [by destruct v|].
      by exists (gsDestinationAddress (vu v)), s'.
    + exists (put_out ok_out v). split; [|done]. unfold accept_record.
      eapply does_gets; [by intros s' []|]. rewrite El, Es.
      eapply does_seq; [|apply does_ok]. destruct (negb _); apply does_skip.
Qed.

Lemma leave_wf u : wf u -> wf (leave u).
Proof. intros [[Hl Hw] Hs Hz Hd Hf Hk Hi Hc Hdt]. unfold leave. wf_fields. Qed.

(** The second checksum digit. *)
Lemma complete_crc_safe u b : wf u -> length b = 512%nat -> exists u2,
  complete_crc (set_fill (set_conv u b) 2) = Some u2 /\ bufs u2 /\
  gsMemoryWriteBufIndex u2 = gsMemoryWriteBufIndex u /\
  gsDestinationAddress u2 = gsDestinationAddress u /\ wf (leave u2).
Proof.
  intros [[Hl Hw] Hs Hz Hd Hf Hk Hi Hc Hdt] Lb. unfold complete_crc.
  destruct (convert_any (set_fill (set_conv u b) 2)) as (b2 & v & -> & Lb2 & Rv & R2); [done|uv_simpl; lia|].
  cbn [mbind option_bind]. uv_simpl. eexists. split; [reflexivity|]. uv_simpl.
  split; [by split|]. split; [done|]. split; [done|]. rewrite complement_byte. unfold leave.
  pose proof (Z.mod_pos_bound (gsCalculatedChkSum u) 256 ltac:(lia)). wf_fields.
Qed.

Lemma get_crc_ends s0 v c s : wf (vu v) -> gsUart0ProtocolState (vu v) = 5 -> 0 <= c < 256 ->
  shows s0 v s -> ends_well s0 (get_crc_char c) s.
Proof.
  intros Hw Hst Hc Hs. pose proof (wf_fill _ Hw) as Hf. rewrite Hst, decide_False in Hf by done.
  destruct (put_conv_any c (vu v) (bufs_conv _ (wf_bufs _ Hw)) ltac:(lia)) as (b & E & _ & Lb).
  destruct (does_on_uartp s0 _ v _ E s Hs) as (s1 & E1 & Hs1 & _).
  unfold ends_well, get_crc_char. rewrite (bind_ok _ _ _ _ _ E1), bind_gets, (sh_uart _ _ _ Hs1).
  cbn [vu put_u]. uv_simpl. destruct (Z.geb_spec (gsUart0FillIndex (vu v) + 1) 2) as [Hge|Hlt]; cbn [when].
  2:{ left. eexists _, s1. split; [reflexivity|]. split; [exact Hs1|]. left. cbn [vu put_u].
      destruct Hw as [[Hl' Hw'] Hs' Hz Hd Hf' Hk Hi Hcn Hdt].
      split; unfold in_switch; uv_simpl; rewrite ?Hst; try done; try lia.
      rewrite decide_False by done. lia. }
  replace (gsUart0FillIndex (vu v) + 1) with 2 in Hs1 by lia.
  destruct (complete_crc_safe (vu v) b Hw Lb) as (u2 & E2 & Hb2 & Ei & Ed & Hl).
  destruct (does_on_uartp s0 complete_crc (put_u (set_fill (set_conv (vu v) b) 2) v) u2 E2 s1 Hs1) as (s2 & Es2 & Hs2 & _).
  rewrite (bind_ok _ _ _ _ _ Es2), bind_gets, (sh_uart _ _ _ Hs2). cbn [vu put_u].
  set (v2 := put_u u2 _) in Hs2.
  assert (Hdone : forall v', does s0 (if gsCalculatedChkSum u2 =? gsCRCVal u2 then accept_record else reject_record) v2 v' ->
    vu v' = u2 -> ends_well s0 ((if gsCalculatedChkSum u2 =? gsCRCVal u2 then accept_record else reject_record) ;;
      on_uartp (fun u => Some (leave u))) s2).
  { intros v' D Hv'. eapply does_ends; [eapply does_seq; [exact D|apply (does_on_uartp s0 _ v' (leave u2))]| |].
    - cbv beta. congruence.
    - exact Hs2.
    - by left. }
  destruct (gsCalculatedChkSum u2 =? gsCRCVal u2).
  - destruct (accept_ends s0 v2 u2 s2 eq_refl Hb2) as [(v' & D & Hv')|(e & s' & Ej)];
      [rewrite Ei; apply (wf_index _ Hw)|rewrite Ed; apply (wf_dest _ Hw)|done|by apply (Hdone v')|].
    right. exists e, s'. by rewrite (bind_jump _ _ _ _ _ Ej).
  - apply (Hdone (put_out (reject_out (gsCalculatedChkSum u2) (gsCRCVal u2)) v2)); [|done].
    by apply (reject_does s0 v2).
Qed.

Lemma body_ends s0 v c s : wf (vu v) -> 0 <= c < 256 -> shows s0 v s ->
  ends_well s0 (body (gsUart0ProtocolState (vu v)) c) s.
Proof.
  intros Hw Hc Hs. pose proof (wf_state _ Hw) as Hst. unfold in_switch in Hst.
  remember (gsUart0ProtocolState (vu v)) as st eqn:Est. symmetry in Est.
  assert (Hin : st = 0 \/ st = 1 \/ st = 2 \/ st = 3 \/ st = 4 \/ st = 5 \/ st = 6) by lia.
  destruct Hin as [-> |[-> |[-> |[-> |[-> |[-> | ->]]]]]].
  - change (body 0) with idle_char. unfold idle_char. destruct (c =? 83).
    + eapply does_ends; [eapply does_seq; [by apply does_on_uartp|apply does_stop_others]|exact Hs|].
      left. cbn [vu put_u put_f]. destruct Hw as [[Hl' Hw'] Hs' Hz Hd Hf' Hk Hi Hcn Hdt].
      rewrite Est, decide_False in Hf' by done. wf_fields.
    + eapply does_ends; [apply does_skip|exact Hs|by left].
  - destruct (record_type_safe c _ Hw Est Hc) as (u' & E & Hw'). by eapply pure_ends; [|exact Hs|left; exact Hw'].
  - destruct (get_count_safe c _ Hw Est Hc) as (u' & E & Hw'). by eapply pure_ends; [|exact Hs|exact Hw'].
  - destruct (get_destination_safe c _ Hw Est Hc) as (u' & E & Hw'). by eapply pure_ends; [|exact Hs|left; exact Hw'].
  - by eapply get_data_ends.
  - by eapply get_crc_ends.
  - destruct (termination_safe c _ Hw) as (u' & E & Hw'). by eapply pure_ends; [|exact Hs|left; exact Hw'].
Qed.

(** C12. Memory safety of the UART loader on arbitrary input: from every state
    that satisfies the invariant, and whatever character (hexadecimal or not)
    or idle poll comes next, one call of [processUartProtocolFrames] returns or
    jumps; it never indexes outside its buffers and never loops.  The invariant
    holds again, unless the character just completed a count field that is
    smaller than the address field needs. *)
Theorem uart_handler_safe s :
  timely (board s) -> wf (uartp s) -> bytes_ok (omap id (rx_schedule 0 (board s))) ->
  (exists s', processUartProtocolFrames s = Ok tt s' /\ timely (board s') /\
     (wf (uartp s') \/ short_count (uartp s'))) \/
  (exists e s', processUartProtocolFrames s = Jump e s').
Proof.
  intros Ht Hw Hb. rewrite process_body by apply (wf_state _ Hw).
  pose proof (shows_self s Ht) as Hs.
  destruct (rx_schedule 0 (board s)) as [|[c|] rest] eqn:Hrx.
  - left. destruct (readraw_none 0 1 0 (board s)) as (h & E & B & _ & _ & Ht'); [rewrite Hrx; by left|].
    exists (with_board h s). unfold receive. rewrite (bind_lift _ _ _ _ _ E). split; [done|]. by split; [auto|left].
  - destruct (receive_char s _ s (body (gsUart0ProtocolState (uartp s))) c rest Hs Hrx) as (s1 & -> & Hs1 & _).
    apply Forall_cons in Hb as [Hc _]. rewrite u8_small by done.
    destruct (body_ends s (view_of s) c s1 Hw Hc Hs1) as [(v' & s' & E & Hs' & Hw')|?]; [|by right].
    left. exists s'. split; [done|]. split; [exact (sh_timely _ _ _ Hs')|]. by rewrite (sh_uart _ _ _ Hs').
  - left. destruct (receive_none s _ s (body (gsUart0ProtocolState (uartp s))) rest Hs Hrx) as (s1 & -> & Hs1 & _).
    exists s1. split; [done|]. split; [exact (sh_timely _ _ _ Hs1)|]. rewrite (sh_uart _ _ _ Hs1). by left.
Qed.
End Safety.

(** ** Two inputs that break the protocol *)
Record stuck (u : uart_vars) : Prop := {
  stk_wf : wf u;
  stk_state : gsUart0ProtocolState u = 3;
  stk_type : gsSRecordType u = 53
}.

Lemma stuck_step c u : stuck u -> 0 <= c < 256 -> exists u', get_destination_char c u = Some u' /\ stuck u'.
Proof.
  intros [Hw Hst Ht] Hc. destruct (get_destination_safe c u Hw Hst Hc) as (u' & E & Hw').
  exists u'. split; [done|]. revert E. unfold get_destination_char.
  destruct (put_conv_any c u (bufs_conv _ (wf_bufs _ Hw))) as (b & -> & _ & Lb).
  { pose proof (wf_fill _ Hw) as Hf. rewrite Hst, decide_True in Hf by done. lia. }
  cbn [mbind option_bind]. destruct (_ >=? _).
  - destruct (convert (set_fill (set_conv u b) (gsUart0FillIndex u + 1))) as [[v u3]|] eqn:E3; [|done].
    cbn [mbind option_bind]. uv_simpl.
    assert (Hu3 : gsUart0ProtocolState u3 = 3 /\ gsSRecordType u3 = 53).
    { revert E3. unfold convert, put_conv. uv_simpl. destruct (zupdate _ _ _); [|done]. cbn [mbind option_bind].
      destruct (atoh _ _); [|done]. cbn [mbind option_bind]. intros [= _ <-]. by uv_simpl. }
    destruct Hu3 as [Hst3 Ht3]. rewrite Ht3. simpl (is_data_type 53). simpl (is_start_type 53). cbv iota.
    intros [= <-]. split; [done|by uv_simpl|by uv_simpl].
  - intros [= <-]. split; [done|by uv_simpl|by uv_simpl].
Qed.

Section Breaking.
Context `{Budget} `{LayoutOk} `{UartPort} `{!UartPortOk _}.

Lemma feeds_stuck s0 cs : forall v, stuck (vu v) -> bytes_ok cs -> to s0 v cs stuck.
Proof.
  induction cs as [|c cs IH]; intros v Hs Hb.
  - exists (vu v). split; [|done]. destruct v. apply feeds_nil, (wf_state _ (stk_wf _ Hs)).
  - apply Forall_cons in Hb as [Hc Hb]. destruct (stuck_step c _ Hs Hc) as (u & E & Hu).
    apply (to_app _ _ [c] cs stuck); [|intros u' Hu'; by apply IH].
    eapply (to_step _ _ _ 3 get_destination_char); [apply Hs|lia|done|done|exact E|apply (wf_state _ (stk_wf _ Hu))|done].
Qed.

(** C20. An S5 (record count) record wedges the loader: once its count field is
    in, no text whatever, of any length, ends the record.  The loader stays in the
    address state, loads nothing, answers nothing, and every record that follows
    is swallowed. *)
Theorem s5_record_never_ends s sched rest :
  timely (board s) -> stuck (uartp s) -> bytes_ok (omap id sched) ->
  rx_schedule 0 (board s) = sched ++ rest ->
  exists s', iter_ (length sched) processUartProtocolFrames s = Ok tt s' /\ stuck (uartp s') /\
    (forall x, ~ scratch x -> mem_get (ram (board s')) x = mem_get (ram (board s)) x) /\
    (forall id, sent id (board s') = sent id (board s)) /\ rx_schedule 0 (board s') = rest.
Proof.
  intros Ht Hs Hb Hrx. destruct (feeds_stuck s (omap id sched) (view_of s) Hs Hb) as (u & F & Hu).
  destruct (F s sched rest (shows_self s Ht) Hrx eq_refl) as (s' & E & Hs' & Hr).
  exists s'. split; [done|]. rewrite (sh_uart _ _ _ Hs'). split; [done|].
  split; [exact (sh_mem _ _ _ Hs')|]. split; [exact (sh_sent _ _ _ Hs')|done].
Qed.
End Breaking.

Section Witnesses.
#[local] Instance w_budget : Budget := sample_budget.
#[local] Instance w_layout : Layout := sample_layout.

Definition short_record : list Z := ascii_bytes "S1020100" ++ replicate 514 48.

(** A count field below the minimum overflows the write buffer: after reset,
    the record S102 0100 (a count of 2 leaves no room for address and checksum)
    makes the data count wrap to 65535, the loader keeps storing data bytes, and
    the 257th goes past the end of [gsMemoryWriteBuf]. *)
Theorem short_count_overflows :
  (exists s, iter_ 521 processUartProtocolFrames
     (after_crt0 (board_receiving short_record sample_flash)) = Ok tt s /\
     gsDataCountInBytes (uartp s) = 65535 /\ gsMemoryWriteBufIndex (uartp s) = 256) /\
  exists s, iter_ 522 processUartProtocolFrames
     (after_crt0 (board_receiving short_record sample_flash)) = Fault s.
Proof.
  split.
  - destruct (ok_with_true (fun _ s => (gsDataCountInBytes (uartp s) =? 65535) &&
      (gsMemoryWriteBufIndex (uartp s) =? 256)) (iter_ 521 processUartProtocolFrames
      (after_crt0 (board_receiving short_record sample_flash)))) as ([] & s & E & Hp); [by vm_compute|].
    apply andb_prop in Hp as [H1%Z.eqb_eq H2%Z.eqb_eq].
    exists s. split; [exact E|split; assumption].
  - apply is_fault_true. by vm_compute.
Qed.

Lemma bss_wf : wf uart_vars_bss.
Proof. split; try done; vm_compute; repeat split; discriminate. Qed.

Lemma uart_handler_safe_witness :
  let s := after_crt0 (board_receiving [83] sample_flash) in
  (exists s', processUartProtocolFrames s = Ok tt s' /\ timely (board s') /\
     (wf (uartp s') \/ short_count (uartp s'))) \/
  (exists e s', processUartProtocolFrames s = Jump e s').
Proof.
  apply (uart_handler_safe (after_crt0 (board_receiving [83] sample_flash)));
    [apply receiving_timely|apply bss_wf|repeat constructor; lia].
Defined.

Definition in_s5 : uart_vars := set_type (set_state uart_vars_bss 3) 53.
Lemma s5_record_never_ends_witness :
  let cs := ascii_bytes "0003F9S1130000" in
  let s := with_uartp in_s5 (after_crt0 (board_receiving cs sample_flash)) in
  exists s', iter_ (length (map Some cs)) processUartProtocolFrames s = Ok tt s' /\ stuck (uartp s') /\
    (forall x, ~ scratch x -> mem_get (ram (board s')) x = mem_get (ram (board s)) x) /\
    (forall id, sent id (board s') = sent id (board s)) /\ rx_schedule 0 (board s') = [].
Proof.
  intros cs s. apply (s5_record_never_ends s (map Some cs) []).
  - apply receiving_timely.
  - split; [split; try done; vm_compute; repeat split; discriminate|done|done].
  - rewrite omap_some. by apply (bool_decide_unpack _).
  - rewrite app_nil_r. apply receiving_rx.
Defined.
End Witnesses.
