(* ===== verification/I2CProtocol.v ===== *)
(** * I2CProtocol: the I2C boot protocol of a2_boot/I2CProtocol.c

    Framing, the CRC check and the command handler, over the [I2csPort]
    interface of the slave and the [UartPort] interface of the console. *)

From S2P Require Import Prelude Monad Crc Hw Uart Dbg I2cs Machine.

(** a2_boot/include/I2CProtocol.h.  [I2CProtocolFrame_t] is packed: SOF at 0,
    A2RamAddress at 2, CmdType at 6, DataLen at 7, Data at 8. *)
Definition I2C_PROTOCOL_MAX_PAYLOAD_SIZE : Z := 240.
Definition sizeof_I2CProtocolFrame_t : Z := 2 + 4 + 1 + 1 + 2.
Definition I2C_PROTOCOL_FRAME_HEADER_SIZE : Z := sizeof_I2CProtocolFrame_t - 2.
Definition I2C_PROTOCOL_FRAME_CRC_SIZE : Z := 2.
Definition A2_TO_HOST_FRAME_HEADER : Z := 0x5A70.
Definition HOST_TO_A2_FRAME_HEADER : Z := 0xA507.
Definition A2_I2C_BL_WITHOUT_CRC_IS_READY_CHECK_CMD : Z := 0x19.
Definition A2_I2C_BL_WITH_CRC_IS_READY_CHECK_CMD : Z := 0x20.
Definition A2_I2C_BL_IS_READY_CHECK_RSP_YES : Z := 0x21.
Definition A2_I2C_BL_IS_READY_CHECK_RSP_NO : Z := 0x22.
Definition I2C_NEW_FRAME_READY_BYTE : Z := 0x23.
Definition A2_LOAD_MEMORY_CMD : Z := 0x24.
Definition A2_READ_MEMORY_CMD : Z := 0x25.
Definition A2_JUMP_TO_ADDRESS_CMD : Z := 0x26.
Definition A2_RESET_REASON_POR : Z := 0x27.
Definition A2_RESET_REASON_WDT : Z := 0x28.
Definition A2_RESET_REASON_BUTTON_PRESS : Z := 0x29.
Definition A2_CORRUPTED_FRAME_RCVD : Z := 0x30.
Definition A2_GOOD_FRAME_RCVD : Z := 0x31.

(** crc.h selects CRC-CCITT. *)
Definition I2CProtocolFrameCalChksum (crcTable cbuf : list Z) (pkt_size : Z) : option Z :=
  c ← crcFast CRC_CCITT crcTable cbuf pkt_size; Some (u16 c).

(** *** Packed fields of a frame in a byte buffer *)
Definition put16 (buf : list Z) (o v : Z) : option (list Z) :=
  buf ← zupdate buf o (u8 v); zupdate buf (o + 1) (u8 (Z.shiftr v 8)).
Definition get16 (buf : list Z) (o : Z) : option Z :=
  b0 ← buf !? o; b1 ← buf !? (o + 1); Some (b0 + 256 * b1).
Definition get32 (buf : list Z) (o : Z) : option Z :=
  lo ← get16 buf o; hi ← get16 buf (o + 2); Some (lo + 65536 * hi).

Fixpoint fill_data (n : nat) (i : Z) (buf : list Z) (aData : option (list Z)) : option (list Z) :=
  match n with
  | O => Some buf
  | S n' =>
      buf ← match aData with
            | Some d => b ← d !? i; zupdate buf (8 + i) b
            | None => Some buf
            end;
      fill_data n' (i + 1) buf aData
  end.

(** The returned size and the buffer; [aBufSize] is not looked at. *)
Definition formI2CProtocolFrame (crcTable aBuf : list Z) (aBufSize aCmdType : Z)
    (aData : option (list Z)) (aDataLen aCRCOnOff : Z) : option (Z * list Z) :=
  if aDataLen <=? I2C_PROTOCOL_MAX_PAYLOAD_SIZE then
    buf ← put16 aBuf 0 A2_TO_HOST_FRAME_HEADER;
    buf ← zupdate buf 6 aCmdType;
    buf ← zupdate buf 7 aDataLen;
    buf ← fill_data (Z.to_nat aDataLen) 0 buf aData;
    let i := aDataLen in
    '(c1, c2) ← (if aCRCOnOff =? 1 then
        ui16Crc ← I2CProtocolFrameCalChksum crcTable buf (u16 (i + I2C_PROTOCOL_FRAME_HEADER_SIZE));
        Some (u8 (Z.shiftr ui16Crc 8), u8 ui16Crc)
      else Some (0, 0));
    buf ← zupdate buf (8 + i) c1;
    buf ← zupdate buf (8 + i + 1) c2;
    Some (u8 (u8 (i + 2) + I2C_PROTOCOL_FRAME_HEADER_SIZE), buf)
  else Some (0, aBuf).

Section Protocol.
Context `{UartPort} `{I2csPort} `{Layout}.

Definition set_i2cp (f : i2c_vars -> i2c_vars) : M machine unit := modify (fun s => with_i2cp (f (i2cp s)) s).

Fixpoint tx_loop (n : nat) (i : Z) (buf : list Z) : M hw Z :=
  match n with
  | O => mret i
  | S n' => b ← of_opt (buf !? i); tx_port b ;; tx_loop n' (u8 (i + 1)) buf
  end.

Definition sendI2CProtocolFrame (aI2CProtocolFrameBuf : option (list Z)) (aFrameSize : Z) : M machine Z :=
  v ← gets i2cp;
  '(ptr, lFrameSize) ← (match aI2CProtocolFrameBuf with
    | None =>
        if aFrameSize =? 0 then mret (gsI2CProtocolFrameTxBuf v, lastSentFrameSize v)
        else set_i2cp (fun v => mk_i2c_vars (gsI2CProtocolFrameRxBuf v) (gUseCRCFlg v)
               (gsI2CProtocolFrameTxBuf v) (gsI2CProtocolFrameCounter v) aFrameSize) ;;
             mret ([], aFrameSize)
    | Some buf =>
        set_i2cp (fun v => mk_i2c_vars (gsI2CProtocolFrameRxBuf v) (gUseCRCFlg v)
          (gsI2CProtocolFrameTxBuf v) (gsI2CProtocolFrameCounter v) aFrameSize) ;;
        mret (buf, aFrameSize)
    end);
  lift tx_flush ;;
  i ← lift (tx_loop (Z.to_nat lFrameSize) 0 ptr);
  lift (msg_put I2C_NEW_FRAME_READY_BYTE) ;;
  set_i2cp (fun v => mk_i2c_vars (gsI2CProtocolFrameRxBuf v) (gUseCRCFlg v)
    (gsI2CProtocolFrameTxBuf v) (u16 (gsI2CProtocolFrameCounter v + 1)) (lastSentFrameSize v)) ;;
  mret i.

(** The commands of a frame whose CRC is good, or not checked. *)
Definition handle_frame (aBuf : list Z) (crc_on : bool) : M machine unit :=
  sof ← of_opt (get16 aBuf 0);
  if sof =? HOST_TO_A2_FRAME_HEADER then
    cmd ← of_opt (aBuf !? 6);
    (if cmd =? A2_LOAD_MEMORY_CMD then
       a ← of_opt (get32 aBuf 2);
       n ← of_opt (aBuf !? 7);
       memcpy_out a (drop 8 aBuf) n
     else if cmd =? A2_JUMP_TO_ADDRESS_CMD then
       lift (dbg_str (10 :: cstr "I2C BL JMP ")) ;;
       a ← of_opt (get32 aBuf 2);
       lift (dbg_hex32 a) ;;
       lift (dbg_str (cstr " ")) ;;
       jump_to_address a
     else skip) ;;
    when crc_on (lift (msg_put A2_GOOD_FRAME_RCVD))
  else skip.

Definition parseI2CProtocolFrame (aBuf : list Z) (aLen : Z) : M machine unit :=
  s ← gets id;
  let crc_on := gUseCRCFlg (i2cp s) =? 1 in
  '(ui16Crc, lRxdCrc) ← (if crc_on then
      c ← of_opt (I2CProtocolFrameCalChksum (crcTable s) aBuf (u16 (aLen - 2)));
      b0 ← of_opt (aBuf !? (aLen - 1));
      b1 ← of_opt (aBuf !? (aLen - 2));
      mret (c, b0 + 256 * b1)
    else mret (0, 0));
  if lRxdCrc =? ui16Crc then handle_frame aBuf crc_on
  else when crc_on (lift (msg_put A2_CORRUPTED_FRAME_RCVD)).

(** [while (flags != 0) { gsI2CProtocolFrameRxBuf[i] = port; i++; }]; the store
    past the buffer comes before the fuel of 257 iterations ends. *)
Definition set_rxbuf (b : list Z) (v : i2c_vars) : i2c_vars :=
  mk_i2c_vars b (gUseCRCFlg v) (gsI2CProtocolFrameTxBuf v) (gsI2CProtocolFrameCounter v) (lastSentFrameSize v).
Definition set_usecrc (x : Z) (v : i2c_vars) : i2c_vars :=
  mk_i2c_vars (gsI2CProtocolFrameRxBuf v) x (gsI2CProtocolFrameTxBuf v) (gsI2CProtocolFrameCounter v) (lastSentFrameSize v).

Fixpoint read_fifo (n : nat) (i : Z) : M machine Z :=
  f ← lift rx_flags;
  if f =? 0 then mret i
  else match n with
       | O => spin
       | S n' =>
           b ← lift rx_port;
           v ← gets i2cp;
           buf ← of_opt (zupdate (gsI2CProtocolFrameRxBuf v) i b);
           set_i2cp (set_rxbuf buf) ;;
           read_fifo n' (u16 (i + 1))
       end.

Definition stop_uart (s : machine) : machine :=
  with_flags (mk_flags 1 1 (gStopI2CBootLoaderFlg (flgs s))) s.

Definition processI2CProtocolFrames : M machine unit :=
  st ← lift msg_status;
  when (negb (st =? 0)) (
    modify stop_uart ;;
    m ← lift msg_get;
    if m =? A2_I2C_BL_WITHOUT_CRC_IS_READY_CHECK_CMD then
      set_i2cp (set_usecrc 0) ;;
      lift (msg_put A2_I2C_BL_IS_READY_CHECK_RSP_YES)
    else
      m ← lift msg_get;
      if m =? A2_I2C_BL_WITH_CRC_IS_READY_CHECK_CMD then
        set_i2cp (set_usecrc 1) ;;
        lift (msg_put A2_I2C_BL_IS_READY_CHECK_RSP_YES)
      else
        m ← lift msg_get;
        when (m =? I2C_NEW_FRAME_READY_BYTE) (
          i ← read_fifo 257 0;
          v ← gets i2cp;
          parseI2CProtocolFrame (gsI2CProtocolFrameRxBuf v) i)).
End Protocol.

(** ** Facts *)

(** The CRC a host computes over a message. *)
Definition ccitt (m : list Z) : Z := default 0 (crcSlow CRC_CCITT m (Z.of_nat (length m))).

Lemma ccitt_some m : bytes_ok m ->
  crcSlow CRC_CCITT m (Z.of_nat (length m)) = Some (ccitt m) /\ 0 <= ccitt m < 65536.
Proof.
  intros Hm. destruct (crcSlow_division CRC_CCITT CRC_CCITT_ok m Hm) as (q & r & _ & _ & _ & E).
  unfold ccitt. rewrite E. split; [done|]. simpl. unfold crc_result. apply (wrap_range 16). lia.
Qed.

Lemma crcFast_prefix t m rest : length t = 256%nat -> bytes_ok m -> bytes_ok rest ->
  crcFast CRC_CCITT (crcInit CRC_CCITT t) (m ++ rest) (Z.of_nat (length m)) = Some (ccitt m).
Proof.
  intros Ht Hm Hr. unfold crcFast. rewrite crcFast_loop_slow; [|done..|by apply Forall_app_2].
  rewrite Nat2Z.id, crcSlow_loop_prefix by lia.
  rewrite <- (proj1 (ccitt_some m Hm)). unfold crcSlow. by rewrite Nat2Z.id.
Qed.

(** The frame a host sends, without its CRC. *)
Definition host_frame (addr cmd : Z) (data : list Z) : list Z :=
  [0x07; 0xA5] ++ le32 addr ++ [cmd; Z.of_nat (length data)] ++ data.
Definition with_crc (c : Z) (m : list Z) : list Z := m ++ [Z.shiftr c 8; u8 c].

Lemma host_frame_length addr cmd data : length (host_frame addr cmd data) = (8 + length data)%nat.
Proof. unfold host_frame. rewrite !length_app. simpl. lia. Qed.

Lemma host_frame_ok addr cmd data : byte_ok cmd -> (length data < 256)%nat -> bytes_ok data ->
  bytes_ok (host_frame addr cmd data).
Proof.
  intros Hc Hl Hd. unfold host_frame. repeat apply Forall_app_2; try done.
  - by apply (bool_decide_unpack _).
  - repeat constructor; apply byte_ok_u8.
  - repeat (apply Forall_cons_2); try done; unfold byte_ok; lia.
Qed.

Lemma get32_frame addr cmd data rest : 0 <= addr < 2 ^ 32 ->
  get32 (host_frame addr cmd data ++ rest) 2 = Some addr.
Proof.
  intros Ha. unfold get32, get16.
  change (host_frame addr cmd data ++ rest) with
    (0x07 :: 0xA5 :: u8 addr :: u8 (Z.shiftr addr 8) :: u8 (Z.shiftr addr 16) :: u8 (Z.shiftr addr 24) ::
     cmd :: Z.of_nat (length data) :: (data ++ rest)).
  change (?l !? 2) with (l !! 2%nat). change (?l !? (2 + 1)) with (l !! 3%nat).
  change (?l !? (2 + 2)) with (l !! 4%nat). change (?l !? (2 + 2 + 1)) with (l !! 5%nat).
  cbn. f_equal. rewrite !Z.shiftr_div_pow2 by lia. word_lia.
Qed.

(** *** Boards up to one component of the slave *)
Lemma set_rx_twice a b h : set_rx a (set_rx b h) = set_rx a h.
Proof. done. Qed.
Lemma with_board_twice h1 h2 s : with_board h1 (with_board h2 s) = with_board h1 s.
Proof. done. Qed.

Section Facts.
Context `{Budget} `{LayoutOk} `{UartPort} `{!UartPortOk _} `{I2csPort} `{!I2csPortOk _}.

(** The receive loop copies the FIFO into the buffer and empties it. *)
Lemma read_fifo_spec bs : forall n i s,
  i_rx (i2cs (board s)) = bs -> bytes_ok bs -> (length bs <= n)%nat -> 0 <= i ->
  length (gsI2CProtocolFrameRxBuf (i2cp s)) = 256%nat -> i + Z.of_nat (length bs) <= 256 ->
  read_fifo n i s = Ok (i + Z.of_nat (length bs))
    (with_i2cp (set_rxbuf (take (Z.to_nat i) (gsI2CProtocolFrameRxBuf (i2cp s)) ++ bs ++
       drop (Z.to_nat i + length bs) (gsI2CProtocolFrameRxBuf (i2cp s))) (i2cp s))
      (with_board (set_rx [] (board s)) s)).
Proof.
  induction bs as [|b bs IH]; intros n i s Hrx Hb Hn Hi Hl Hm.
  - assert (E0 : read_fifo n i s = Ok i s).
    { destruct (rx_flags_spec (board s)) as (f & E & Hf). rewrite (proj2 Hf Hrx) in E.
      destruct n; cbn [read_fifo]; rewrite (bind_lift _ _ _ _ _ E); by destruct s. }
    rewrite E0. rewrite Nat.add_0_r. cbn [app]. rewrite take_drop, Z.add_0_r. f_equal.
    destruct s as [h ? ? [] ? ?]. simpl in *. unfold set_rx, with_i2cp, with_board. simpl. f_equal.
    destruct h as [? ? ? [] ? ? ? ? ? ? ? ? ?]. simpl in *. by subst.
  - destruct n as [|n]; [simpl in Hn; lia|]. cbn [read_fifo].
    destruct (rx_flags_spec (board s)) as (f & E & Hf). rewrite (bind_lift _ _ _ _ _ E).
    destruct (Z.eqb_spec f 0) as [E0|_]; [rewrite (proj1 Hf E0) in Hrx; done|].
    replace (with_board (board s) s) with s by (by destruct s).
    rewrite (bind_lift _ _ _ _ _ (rx_port_spec _ _ _ Hrx)), bind_gets.
    apply Forall_cons in Hb as [Hb0 Hb]. rewrite u8_small by done. cbn [i2cp with_board length] in *.
    rewrite zupdate_some by lia. cbn [of_opt]. rewrite bind_ret. unfold set_i2cp at 1. rewrite bind_modify.
    rewrite u16_small by lia. rewrite IH; cbn; try done; try lia; [|by rewrite length_insert].
    f_equal; [lia|]. unfold with_i2cp, with_board, set_rxbuf. cbn. f_equal. f_equal.
    replace (Z.to_nat (i + 1)) with (S (Z.to_nat i)) by lia.
    rewrite (take_S_r _ (Z.to_nat i) b), take_insert_ge by (try apply list_lookup_insert_eq; lia).
    rewrite <- app_assoc. cbn [app]. do 3 f_equal.
    rewrite drop_insert_lt by lia. f_equal. lia.
Qed.

(** The frame handler up to its parser. *)
Definition received (bs : list Z) (s : machine) : machine :=
  with_i2cp (set_rxbuf (bs ++ drop (length bs) (gsI2CProtocolFrameRxBuf (i2cp s))) (i2cp s))
    (with_board (set_rx [] (set_status 0 (board s))) (stop_uart s)).

Lemma process_frame bs s :
  u8 (i_status (i2cs (board s))) <> 0 -> i_msg (i2cs (board s)) = I2C_NEW_FRAME_READY_BYTE ->
  i_rx (i2cs (board s)) = bs -> bytes_ok bs -> (length bs <= 256)%nat ->
  length (gsI2CProtocolFrameRxBuf (i2cp s)) = 256%nat ->
  processI2CProtocolFrames s =
    parseI2CProtocolFrame (bs ++ drop (length bs) (gsI2CProtocolFrameRxBuf (i2cp s)))
      (Z.of_nat (length bs)) (received bs s).
Proof.
  intros Hst Hmsg Hrx Hb Hl Hbuf. unfold processI2CProtocolFrames.
  rewrite (bind_lift _ _ _ _ _ (msg_status_spec (board s))).
  destruct (Z.eqb_spec (u8 (i_status (i2cs (board s)))) 0); [done|]. cbn [negb when]. rewrite bind_modify.
  replace (with_board (board s) s) with s by (by destruct s).
  assert (Em : forall h, i_msg (i2cs h) = I2C_NEW_FRAME_READY_BYTE -> msg_get h = Ok 0x23 (set_status 0 h)).
  { intros h E. rewrite msg_get_spec, E. done. }
  rewrite (bind_lift _ _ (stop_uart s) _ _ (Em (board s) Hmsg)).
  cbn [Z.eqb Pos.eqb A2_I2C_BL_WITHOUT_CRC_IS_READY_CHECK_CMD].
  set (s1 := with_board (set_status 0 (board s)) (stop_uart s)).
  rewrite (bind_lift _ _ s1 _ _ (Em (set_status 0 (board s)) Hmsg)).
  cbn [Z.eqb Pos.eqb A2_I2C_BL_WITH_CRC_IS_READY_CHECK_CMD].
  change (with_board (set_status 0 (set_status 0 (board s))) s1) with s1.
  rewrite (bind_lift _ _ s1 _ _ (Em (set_status 0 (board s)) Hmsg)).
  change (with_board (set_status 0 (set_status 0 (board s))) s1) with s1.
  cbn [Z.eqb Pos.eqb I2C_NEW_FRAME_READY_BYTE when].
  erewrite bind_ok; [|apply (read_fifo_spec bs); [exact Hrx|done|lia|lia|exact Hbuf|lia]].
  rewrite bind_gets. cbn [Z.to_nat take app Nat.add]. reflexivity.
Qed.

Lemma parse_checked f c rest t s :
  gUseCRCFlg (i2cp s) = 1 -> crcTable s = crcInit CRC_CCITT t -> length t = 256%nat ->
  bytes_ok f -> bytes_ok rest -> Z.of_nat (length f) < 60000 -> 0 <= c < 65536 ->
  parseI2CProtocolFrame (with_crc c f ++ rest) (Z.of_nat (length f) + 2) s =
    (if c =? ccitt f then handle_frame (with_crc c f ++ rest) true
     else lift (msg_put A2_CORRUPTED_FRAME_RCVD)) s.
Proof.
  intros Hcrc Htab Ht Hf Hr Hl Hc. unfold parseI2CProtocolFrame. rewrite bind_gets. cbn [id].
  rewrite Hcrc, Htab. cbn [Z.eqb Pos.eqb]. rewrite bind_assoc.
  unfold I2CProtocolFrameCalChksum. rewrite u16_small by lia.
  replace (Z.of_nat (length f) + 2 - 2) with (Z.of_nat (length f)) by lia.
  unfold with_crc. rewrite <- app_assoc.
  assert (Hhi : byte_ok (Z.shiftr c 8)).
  { unfold byte_ok. rewrite Z.shiftr_div_pow2 by lia. change (2 ^ 8) with 256. Z.div_mod_to_equations. lia. }
  rewrite crcFast_prefix; [|done|done|]; [|by repeat (apply Forall_cons_2); [|apply byte_ok_u8|]].
  cbn [of_opt mbind option_bind]. rewrite bind_ret, bind_assoc.
  replace (Z.of_nat (length f) + 2 - 1) with (Z.of_nat (S (length f))) by lia.
  rewrite !zlookup_nat, (lookup_app_r f _ (S (length f))), (lookup_app_r f _ (length f)), Nat.sub_diag by lia.
  replace (S (length f) - length f)%nat with 1%nat by lia. cbn [app lookup list_lookup of_opt].
  rewrite bind_ret, bind_assoc, bind_ret, bind_ret.
  destruct (ccitt_some f Hf) as [_ Rf]. rewrite (u16_small (ccitt f)) by lia.
  replace (u8 c + 256 * Z.shiftr c 8) with c.
  - destruct (c =? ccitt f); done.
  - rewrite Z.shiftr_div_pow2 by lia. word_lia.
Qed.

Lemma sof_of_frame addr cmd data rest : get16 (host_frame addr cmd data ++ rest) 0 = Some HOST_TO_A2_FRAME_HEADER.
Proof. done. Qed.

(** The load command copies the payload. *)
Lemma handle_load addr data rest s :
  0 <= addr < 2 ^ 32 -> (length data < 256)%nat ->
  handle_frame (host_frame addr A2_LOAD_MEMORY_CMD data ++ rest) true s =
    lift (msg_put A2_GOOD_FRAME_RCVD) (with_board (with_ram (mem_write (ram (board s)) addr data) (board s)) s).
Proof.
  intros Ha Hl. unfold handle_frame. rewrite sof_of_frame. cbn [of_opt]. rewrite bind_ret, Z.eqb_refl.
  change ((host_frame addr A2_LOAD_MEMORY_CMD data ++ rest) !? 6) with (Some A2_LOAD_MEMORY_CMD).
  cbn [of_opt]. rewrite bind_ret, Z.eqb_refl, get32_frame by done. cbn [of_opt].
  rewrite bind_assoc, bind_ret, bind_assoc.
  change ((host_frame addr A2_LOAD_MEMORY_CMD data ++ rest) !? 7) with (Some (Z.of_nat (length data))).
  cbn [of_opt]. rewrite bind_ret. erewrite bind_ok; [reflexivity|]. unfold memcpy_out.
  change (drop 8 (host_frame addr A2_LOAD_MEMORY_CMD data ++ rest)) with (data ++ rest).
  destruct (Z.leb_spec (Z.of_nat (length data)) (Z.of_nat (length (data ++ rest))));
    [|rewrite length_app in *; lia].
  by rewrite Nat2Z.id, take_app_length.
Qed.
End Facts.

(** ** Properties *)
Section Properties.
Context `{Budget} `{LayoutOk} `{UartPort} `{!UartPortOk _} `{I2csPort} `{!I2csPortOk _}.

(** A frame [bs] waits in the slave, and the host announced it. *)
Record frame_waiting (bs : list Z) (s : machine) : Prop := {
  fw_status : u8 (i_status (i2cs (board s))) <> 0;
  fw_msg : i_msg (i2cs (board s)) = I2C_NEW_FRAME_READY_BYTE;
  fw_rx : i_rx (i2cs (board s)) = bs
}.
(** CRC mode, after [crcInit] has run. *)
Record crc_mode (s : machine) : Prop := {
  cm_flag : gUseCRCFlg (i2cp s) = 1;
  cm_table : crcTable s = crcInit CRC_CCITT crcTable_bss;
  cm_buf : length (gsI2CProtocolFrameRxBuf (i2cp s)) = 256%nat;
  cm_bytes : bytes_ok (gsI2CProtocolFrameRxBuf (i2cp s))
}.

Lemma with_crc_ok c f : bytes_ok f -> 0 <= c < 65536 -> bytes_ok (with_crc c f).
Proof.
  intros Hf Hc. apply Forall_app_2; [done|]. repeat (apply Forall_cons_2); [|apply byte_ok_u8|constructor].
  unfold byte_ok. rewrite Z.shiftr_div_pow2 by lia. change (2 ^ 8) with 256. Z.div_mod_to_equations. lia.
Qed.

Lemma process_crc_frame c f s :
  crc_mode s -> frame_waiting (with_crc c f) s -> bytes_ok f -> (length f <= 254)%nat -> 0 <= c < 65536 ->
  exists rest, processI2CProtocolFrames s =
    (if c =? ccitt f then handle_frame (with_crc c f ++ rest) true
     else lift (msg_put A2_CORRUPTED_FRAME_RCVD)) (received (with_crc c f) s).
Proof.
  intros [Hfl Htab Hlen Hbytes] [Hst Hmsg Hrx] Hf Hl Hc.
  exists (drop (length (with_crc c f)) (gsI2CProtocolFrameRxBuf (i2cp s))).
  assert (Hlc : length (with_crc c f) = (length f + 2)%nat) by (unfold with_crc; rewrite length_app; simpl; lia).
  rewrite (process_frame (with_crc c f)); [|assumption..|by apply with_crc_ok|lia|assumption].
  rewrite Hlc at 2. rewrite Nat2Z.inj_add. change (Z.of_nat 2) with 2.
  apply (parse_checked f c _ crcTable_bss); [exact Hfl|exact Htab|reflexivity|assumption|by apply Forall_drop|lia|lia].
Qed.

Definition out_msgs (s : machine) : list Z := i_out (i2cs (board s)).

(** What each kind of frame and announcement leaves behind. *)
Definition replied (v : Z) (s : machine) : machine :=
  with_board (set_out (out_msgs s ++ [u8 v]) (board s)) s.
Definition stored (addr : Z) (data : list Z) (s : machine) : machine :=
  with_board (with_ram (mem_write (ram (board s)) addr data) (board s)) s.
Definition in_mode (m : Z) (s : machine) : machine :=
  with_i2cp (set_usecrc (if m =? A2_I2C_BL_WITH_CRC_IS_READY_CHECK_CMD then 1 else 0) (i2cp s))
    (with_board (set_status 0 (board s)) (stop_uart s)).

Lemma lift_msg_put v s : lift (msg_put v) s = Ok tt (replied v s).
Proof. by erewrite lift_ok by apply msg_put_spec. Qed.

Lemma received_crc_mode c f s : crc_mode s -> bytes_ok f -> 0 <= c < 65536 -> (length f <= 254)%nat ->
  crc_mode (received (with_crc c f) s).
Proof.
  intros [Hfl Htab Hlen Hb] Hf Hc Hl. split; [exact Hfl|exact Htab|..];
    cbn [received i2cp with_board with_i2cp set_rxbuf gsI2CProtocolFrameRxBuf].
  - rewrite length_app, length_drop, Hlen. unfold with_crc. rewrite length_app. simpl. lia.
  - apply Forall_app_2; [by apply with_crc_ok|by apply Forall_drop].
Qed.

Lemma process_load s addr data :
  crc_mode s -> 0 <= addr < 2 ^ 32 -> bytes_ok data -> (length data <= 246)%nat ->
  let f := host_frame addr A2_LOAD_MEMORY_CMD data in
  frame_waiting (with_crc (ccitt f) f) s ->
  let s' := replied A2_GOOD_FRAME_RCVD (stored addr data (received (with_crc (ccitt f) f) s)) in
  processI2CProtocolFrames s = Ok tt s' /\ crc_mode s'.
Proof.
  intros Hm Ha Hd Hl f Hw. pose proof (host_frame_length addr A2_LOAD_MEMORY_CMD data) as Hfl. fold f in Hfl.
  assert (Hf : bytes_ok f) by (apply host_frame_ok; (done || lia)).
  destruct (ccitt_some f Hf) as [_ Rf].
  destruct (process_crc_frame (ccitt f) f s Hm Hw Hf ltac:(lia) Rf) as (rest & E).
  rewrite Z.eqb_refl in E. unfold with_crc in E at 1. rewrite <- app_assoc in E. unfold f at 1 in E.
  rewrite handle_load, lift_msg_put in E by (done || lia). split; [exact E|].
  destruct (received_crc_mode (ccitt f) f s Hm Hf Rf ltac:(lia)). by split.
Qed.

Lemma process_garbled s c f :
  crc_mode s -> bytes_ok f -> (length f <= 254)%nat -> 0 <= c < 65536 -> c <> ccitt f ->
  frame_waiting (with_crc c f) s ->
  let s' := replied A2_CORRUPTED_FRAME_RCVD (received (with_crc c f) s) in
  processI2CProtocolFrames s = Ok tt s' /\ crc_mode s'.
Proof.
  intros Hm Hf Hl Hc Hne Hw. destruct (process_crc_frame c f s Hm Hw Hf Hl Hc) as (rest & E).
  destruct (Z.eqb_spec c (ccitt f)); [done|]. rewrite lift_msg_put in E. split; [exact E|].
  destruct (received_crc_mode c f s Hm Hf Hc Hl). by split.
Qed.

Lemma burst_detected sentf recvf e (k : nat) :
  bytes_ok sentf -> bytes_ok recvf -> length recvf = length sentf ->
  0 < e < 2 ^ 16 -> be_poly recvf ^^^ be_poly sentf = Z.shiftl e (Z.of_nat k) -> ccitt sentf <> ccitt recvf.
Proof.
  intros Hs Hr Hlr He Hburst Heq.
  destruct (ccitt_some sentf Hs) as [Es Rs]. destruct (ccitt_some recvf Hr) as [Er _].
  apply (burst_changes_crc CRC_CCITT CRC_CCITT_ok recvf sentf e k Hr Hs Hlr He).
  - change (REFLECT_DATA CRC_CCITT) with (fun x : Z => x). by rewrite !map_id.
  - by rewrite Es, Er, Heq.
Qed.

Lemma process_jump s addr :
  timely (board s) -> crc_mode s -> 0 <= addr < 2 ^ 32 ->
  let f := host_frame addr A2_JUMP_TO_ADDRESS_CMD [] in
  frame_waiting (with_crc (ccitt f) f) s ->
  exists s', processI2CProtocolFrames s = Jump addr s' /\
    (forall x, ~ scratch x -> mem_get (ram (board s')) x = mem_get (ram (board s)) x) /\
    sent 1 (board s') = sent 1 (board s) ++ crlf ++ ascii_bytes "I2C BL JMP " ++ hex_digits 8 addr ++ [32] /\
    out_msgs s' = out_msgs s.
Proof.
  intros Ht Hm Ha f Hw. assert (Hf : bytes_ok f) by (by apply host_frame_ok; [|simpl; lia|constructor]).
  destruct (ccitt_some f Hf) as [_ Rf].
  destruct (process_crc_frame (ccitt f) f s Hm Hw Hf ltac:(unfold f; rewrite host_frame_length; simpl; lia) Rf) as (rest & E).
  rewrite Z.eqb_refl in E. unfold with_crc in E at 1. rewrite <- app_assoc in E.
  set (s1 := received _ s) in E. set (tl := _ ++ rest) in E.
  assert (Ht1 : timely (board s1)) by exact Ht.
  destruct (dbg_line_prints "I2C BL JMP " ltac:(literal) ltac:(literal) (board s1) Ht1) as (h2 & E2 & P2).
  pose proof (printed_timely _ _ _ P2 Ht1) as Ht2.
  destruct (dbg_hex32_prints addr h2 Ht2) as (h3 & E3 & P3).
  pose proof (printed_timely _ _ _ P3 Ht2) as Ht3.
  destruct (dbg_str_prints [32] [] ltac:(repeat constructor) h3 Ht3) as (h4 & E4 & P4).
  assert (P : printed (line_out "I2C BL JMP " ++ uart1 (hex_digits 8 addr) ++ uart1 [32])
            (board s1) h4).
  { eapply printed_trans; [exact P2|]. by eapply printed_trans. }
  exists (with_board h4 s1). split; [rewrite E|split; [|split]].
  - unfold handle_frame. unfold f. rewrite sof_of_frame. cbn [of_opt]. rewrite bind_ret, Z.eqb_refl.
    change ((host_frame addr A2_JUMP_TO_ADDRESS_CMD [] ++ tl) !? 6) with (Some A2_JUMP_TO_ADDRESS_CMD).
    cbn [of_opt]. rewrite bind_ret. cbn [Z.eqb Pos.eqb A2_LOAD_MEMORY_CMD A2_JUMP_TO_ADDRESS_CMD].
    rewrite bind_assoc, (bind_lift _ _ _ _ _ E2), get32_frame by done. cbn [of_opt].
    rewrite bind_assoc, bind_ret, bind_assoc, (bind_lift _ _ (with_board h2 s1) _ _ E3), bind_assoc.
    change (cstr " ") with ([32] ++ [0]). rewrite (bind_lift _ _ (with_board h3 s1) _ _ E4).
    apply bind_jump. unfold jump_to_address. by rewrite u32_small by lia.
  - intros x Hx. apply (printed_ram _ _ _ x P Hx).
  - destruct P as (m & _ & [_ Hsent _ _]). change (sent 1 (board s)) with (sent 1 (with_ram m (board s1))).
    cbn [board with_board]. rewrite Hsent. unfold line_out, uart1. rewrite <- !map_app, on_uart_self, <- !app_assoc. done.
  - destruct P as (m & _ & [B _ _ _]). unfold out_msgs. cbn [board with_board]. by rewrite (same_i2cs _ _ B).
Qed.

Lemma i2c_idle s : u8 (i_status (i2cs (board s))) = 0 -> processI2CProtocolFrames s = Ok tt s.
Proof.
  intros Hz. unfold processI2CProtocolFrames. rewrite (bind_lift _ _ _ _ _ (msg_status_spec (board s))), Hz. by destruct s.
Qed.

Lemma process_handshake m s :
  u8 (i_status (i2cs (board s))) <> 0 -> i_msg (i2cs (board s)) = m -> m = 0x19 \/ m = 0x20 ->
  processI2CProtocolFrames s = Ok tt (replied A2_I2C_BL_IS_READY_CHECK_RSP_YES (in_mode m s)).
Proof.
  intros Hst Hmsg Hcase. unfold processI2CProtocolFrames. rewrite (bind_lift _ _ _ _ _ (msg_status_spec (board s))).
  replace (with_board (board s) s) with s by (by destruct s).
  destruct (Z.eqb_spec (u8 (i_status (i2cs (board s)))) 0); [done|]. cbn [negb when]. rewrite bind_modify.
  assert (Em : forall h, i_msg (i2cs h) = m -> msg_get h = Ok m (set_status 0 h)).
  { intros h E. rewrite msg_get_spec, E. destruct Hcase as [-> | ->]; done. }
  rewrite (bind_lift _ _ (stop_uart s) _ _ (Em (board s) Hmsg)).
  set (s1 := with_board (set_status 0 (board s)) (stop_uart s)).
  unfold set_i2cp. destruct Hcase as [-> | ->]; cbn [Z.eqb Pos.eqb A2_I2C_BL_WITHOUT_CRC_IS_READY_CHECK_CMD].
  - rewrite bind_modify. apply lift_msg_put.
  - rewrite (bind_lift _ _ s1 _ _ (Em (set_status 0 (board s)) Hmsg)).
    cbn [Z.eqb Pos.eqb A2_I2C_BL_WITH_CRC_IS_READY_CHECK_CMD]. rewrite bind_modify. apply lift_msg_put.
Qed.

(** C7. A load frame with its CRC-16 over I2C: the payload is in memory at the
    frame's address and nothing else in memory changes; the host is told
    GOOD_FRAME, the FIFO is empty and the new-message flag cleared, and the UART
    loader is switched off.  Every payload a frame can carry (up to 246 bytes with
    the 256-byte FIFO), every address. *)
Theorem i2c_load_frame s addr data :
  crc_mode s -> 0 <= addr < 2 ^ 32 -> bytes_ok data -> (length data <= 246)%nat ->
  let f := host_frame addr A2_LOAD_MEMORY_CMD data in
  frame_waiting (with_crc (ccitt f) f) s ->
  exists s', processI2CProtocolFrames s = Ok tt s' /\
    ram (board s') = mem_write (ram (board s)) addr data /\
    out_msgs s' = out_msgs s ++ [A2_GOOD_FRAME_RCVD] /\
    i_rx (i2cs (board s')) = [] /\ i_status (i2cs (board s')) = 0 /\
    gStopUartBootLoaderFlg (flgs s') = 1 /\ gStopUartMsgFlg (flgs s') = 1 /\ crc_mode s'.
Proof.
  intros Hm Ha Hd Hl f Hw. destruct (process_load s addr data Hm Ha Hd Hl Hw) as [E Hm'].
  eexists. split; [exact E|]. do 6 (split; [done|]). exact Hm'.
Qed.

(** C11. Error detection over I2C: if what arrives differs from the frame the
    host sent by one burst of up to 16 bits inside the frame (address, command,
    length or payload), the handler changes no byte of memory, does not jump, and
    answers CORRUPTED_FRAME. *)
Theorem i2c_burst_rejected s sentf recvf e (k : nat) :
  crc_mode s -> bytes_ok sentf -> bytes_ok recvf -> length recvf = length sentf -> (length sentf <= 254)%nat ->
  0 < e < 2 ^ 16 -> be_poly recvf ^^^ be_poly sentf = Z.shiftl e (Z.of_nat k) ->
  frame_waiting (with_crc (ccitt sentf) recvf) s ->
  exists s', processI2CProtocolFrames s = Ok tt s' /\ ram (board s') = ram (board s) /\
    out_msgs s' = out_msgs s ++ [A2_CORRUPTED_FRAME_RCVD] /\ i_rx (i2cs (board s')) = [] /\ crc_mode s'.
Proof.
  intros Hm Hs Hr Hlr Hl He Hburst Hw. destruct (ccitt_some sentf Hs) as [_ Rs].
  destruct (process_garbled s (ccitt sentf) recvf Hm Hr ltac:(lia) Rs) as [E Hm'];
    [by eapply burst_detected|exact Hw|].
  eexists. split; [exact E|]. do 3 (split; [done|]). exact Hm'.
Qed.

(** A jump frame with a good CRC leaves the boot loader through its address,
    which is printed on UART 1 first; the host gets no reply. *)
Theorem i2c_jump_frame s addr :
  timely (board s) -> crc_mode s -> 0 <= addr < 2 ^ 32 ->
  let f := host_frame addr A2_JUMP_TO_ADDRESS_CMD [] in
  frame_waiting (with_crc (ccitt f) f) s ->
  exists s', processI2CProtocolFrames s = Jump addr s' /\
    (forall x, ~ scratch x -> mem_get (ram (board s')) x = mem_get (ram (board s)) x) /\
    sent 1 (board s') = sent 1 (board s) ++ crlf ++ ascii_bytes "I2C BL JMP " ++ hex_digits 8 addr ++ [32] /\
    out_msgs s' = out_msgs s.
Proof. apply process_jump. Qed.

(** The handshake selects the CRC mode: the announcements 0x19 and 0x20 are
    answered with BL_IS_READY, set [gUseCRCFlg] to 0 and 1, touch nothing in
    memory and leave the receive FIFO alone; with no announcement pending the
    handler does nothing at all. *)
Theorem i2c_handshake s :
  (u8 (i_status (i2cs (board s))) = 0 -> processI2CProtocolFrames s = Ok tt s) /\
  forall m, u8 (i_status (i2cs (board s))) <> 0 -> i_msg (i2cs (board s)) = m -> m = 0x19 \/ m = 0x20 ->
    exists s', processI2CProtocolFrames s = Ok tt s' /\ ram (board s') = ram (board s) /\
      gUseCRCFlg (i2cp s') = (if m =? 0x20 then 1 else 0) /\
      out_msgs s' = out_msgs s ++ [A2_I2C_BL_IS_READY_CHECK_RSP_YES] /\
      i_status (i2cs (board s')) = 0 /\ i_rx (i2cs (board s')) = i_rx (i2cs (board s)) /\
      gStopUartBootLoaderFlg (flgs s') = 1 /\ gStopUartMsgFlg (flgs s') = 1.
Proof.
  split; [apply i2c_idle|]. intros m Hst Hmsg Hcase.
  eexists. split; [by apply process_handshake|]. done.
Qed.
End Properties.

(** ** A device frame is laid out as a host reads it *)
Definition device_frame (a : list Z) (cmd : Z) (data : list Z) : list Z :=
  [0x70; 0x5A] ++ a ++ [cmd; Z.of_nat (length data)] ++ data.

Lemma zupdate_app {A} (pre : list A) x y rest i :
  i = Z.of_nat (length pre) -> zupdate (pre ++ x :: rest) i y = Some ((pre ++ [y]) ++ rest).
Proof.
  intros ->. rewrite zupdate_some by (rewrite length_app; simpl; lia).
  by rewrite Nat2Z.id, insert_app_r_alt, Nat.sub_diag, <- app_assoc by lia.
Qed.

Lemma fill_data_copies d : forall done_ pre rest i,
  i = Z.of_nat (length done_) -> Z.of_nat (length pre) = 8 + i -> (length d <= length rest)%nat ->
  fill_data (length d) i (pre ++ rest) (Some (done_ ++ d)) = Some (pre ++ d ++ drop (length d) rest).
Proof.
  induction d as [|b d IH]; intros dn pre rest i Hi Hp Hl; [done|].
  destruct rest as [|r rest]; [simpl in Hl; lia|]. cbn [fill_data length].
  rewrite Hi at 1. rewrite zlookup_nat, lookup_app_r, Nat.sub_diag by lia.
  cbn [lookup list_lookup mbind option_bind]. rewrite zupdate_app by lia. cbn [mbind option_bind].
  replace (dn ++ b :: d) with ((dn ++ [b]) ++ d) by by rewrite <- app_assoc.
  rewrite IH.
  - by rewrite <- !app_assoc.
  - rewrite length_app. simpl. lia.
  - rewrite length_app. simpl. lia.
  - simpl in Hl. lia.
Qed.

Lemma form_header x0 x1 a x6 x7 cmd n rest : length a = 4%nat ->
  (buf ← put16 ([x0; x1] ++ a ++ [x6; x7] ++ rest) 0 A2_TO_HOST_FRAME_HEADER;
   buf ← zupdate buf 6 cmd; zupdate buf 7 n) =
  Some (([0x70; 0x5A] ++ a ++ [cmd; n]) ++ rest).
Proof. destruct a as [|? [|? [|? [|? [|]]]]]; intros [=]. unfold put16. cbn [app].
  repeat (rewrite zupdate_some by (rewrite ?length_insert; cbn [length]; lia); cbn [mbind option_bind]). reflexivity.
Qed.


(** ** Sending a frame, and sending it again *)
Section Sending.
Context `{I2csPort} `{!I2csPortOk _}.

Lemma tx_loop_fills buf : forall n i s,
  0 <= i -> (Z.to_nat i + n <= length buf)%nat -> i + Z.of_nat n < 256 -> bytes_ok buf ->
  (length (i_tx (i2cs s)) + n <= 256)%nat ->
  tx_loop n i buf s = Ok (i + Z.of_nat n) (set_tx (i_tx (i2cs s) ++ take n (drop (Z.to_nat i) buf)) s).
Proof.
  induction n as [|n IH]; intros i s Hi Hl Hm Hb Hf.
  - rewrite take_0, app_nil_r, Z.add_0_r. cbn [tx_loop]. f_equal.
    by destruct s as [? ? ? [] ? ? ? ? ? ? ? ? ?].
  - cbn [tx_loop]. destruct (lookup_lt_is_Some_2 buf (Z.to_nat i)) as [b Eb]; [lia|].
    rewrite <- (Z2Nat.id i) at 1 by lia. rewrite zlookup_nat, Eb. cbn [of_opt]. rewrite bind_ret.
    erewrite bind_ok by (apply tx_port_spec; lia).
    rewrite (u8_small b) by (by apply (proj1 (Forall_lookup _ _) Hb _ _ Eb)).
    rewrite u8_small by lia. rewrite IH; try done; try lia; [|unfold set_tx; cbn; rewrite length_app; cbn [length]; lia].
    f_equal; [lia|]. rewrite (drop_S _ _ _ Eb). cbn [take]. unfold set_tx at 1 3. cbn.
    replace (Z.to_nat (i + 1)) with (S (Z.to_nat i)) by lia. rewrite <- app_assoc. done.
Qed.

Definition announced (h : hw) : hw := set_out (i_out (i2cs h) ++ [I2C_NEW_FRAME_READY_BYTE]) h.

(** A frame of up to 255 bytes goes to the host's FIFO as it is, followed by
    the announcement; but the repetition that a NULL frame of size 0 asks for
    sends as many bytes of [gsI2CProtocolFrameTxBuf], which nothing ever fills:
    zeros in place of the frame. *)
Theorem resend_sends_blank buf (n : nat) s :
  (n <= 16)%nat -> (n <= length buf)%nat -> bytes_ok buf ->
  gsI2CProtocolFrameTxBuf (i2cp s) = gsI2CProtocolFrameTxBuf i2c_vars_bss ->
  exists s1 s2,
    sendI2CProtocolFrame (Some buf) (Z.of_nat n) s = Ok (Z.of_nat n) s1 /\
    board s1 = announced (set_tx (take n buf) (board s)) /\
    sendI2CProtocolFrame None 0 s1 = Ok (Z.of_nat n) s2 /\
    board s2 = announced (set_tx (replicate n 0) (board s1)) /\
    gsI2CProtocolFrameCounter (i2cp s2) = u16 (u16 (gsI2CProtocolFrameCounter (i2cp s) + 1) + 1).
Proof.
  intros Hn Hl Hb Htx. unfold sendI2CProtocolFrame, set_i2cp. rewrite bind_gets.
  rewrite bind_assoc, bind_modify, bind_ret.
  erewrite bind_lift by apply tx_flush_spec.
  erewrite bind_lift by (rewrite Nat2Z.id; apply tx_loop_fills; cbn; (done || lia)).
  erewrite bind_lift by apply msg_put_spec. rewrite bind_modify.
  do 2 eexists. split; [reflexivity|]. split; [done|].
  rewrite bind_gets. cbn [Z.eqb]. rewrite bind_ret.
  erewrite bind_lift by apply tx_flush_spec.
  erewrite bind_lift.
  2: { cbn [i2cp with_i2cp with_board lastSentFrameSize]. rewrite Nat2Z.id. apply tx_loop_fills; cbn.
       - lia.
       - rewrite Htx. cbn. lia.
       - lia.
       - rewrite Htx. by apply (bool_decide_unpack _).
       - lia. }
  erewrite bind_lift by apply msg_put_spec. rewrite bind_modify.
  split; [reflexivity|]. split; [|done]. cbn [board with_i2cp with_board i2cs set_tx i_tx i2cp gsI2CProtocolFrameTxBuf].
  rewrite Htx. change (drop (Z.to_nat 0) (gsI2CProtocolFrameTxBuf i2c_vars_bss)) with (replicate 16 0).
  rewrite take_replicate, Nat.min_l by lia. reflexivity.
Qed.
End Sending.

(** ** Concrete runs *)
Section Witnesses.
#[local] Instance w_budget : Budget := sample_budget.
#[local] Instance w_layout : Layout := sample_layout.

(** The ROM in CRC mode, a message [msg] and the FIFO content [rx] from the host. *)
Definition i2c_sample (crc_on msg : Z) (rx : list Z) : machine :=
  mk_machine (with_i2cs (mk_i2cs 0x62 1 msg 1 rx [] []) (reset_board sample_flash)) flags_bss uart_vars_bss
    (mk_i2c_vars (replicate 256 0) crc_on (replicate 16 0) 0 0) 0 (crcInit CRC_CCITT crcTable_bss).

Lemma sample_crc_mode msg rx : crc_mode (i2c_sample 1 msg rx).
Proof. split; try reflexivity. by apply (bool_decide_unpack _). Qed.
Lemma sample_waiting rx : frame_waiting rx (i2c_sample 1 0x23 rx).
Proof. by split. Qed.

Lemma i2c_load_frame_witness :
  let f := host_frame 0x1C001000 A2_LOAD_MEMORY_CMD [1; 2; 3] in
  let s := i2c_sample 1 0x23 (with_crc (ccitt f) f) in
  exists s', processI2CProtocolFrames s = Ok tt s' /\
    ram (board s') = mem_write (ram (board s)) 0x1C001000 [1; 2; 3] /\
    out_msgs s' = out_msgs s ++ [A2_GOOD_FRAME_RCVD] /\
    i_rx (i2cs (board s')) = [] /\ i_status (i2cs (board s')) = 0 /\
    gStopUartBootLoaderFlg (flgs s') = 1 /\ gStopUartMsgFlg (flgs s') = 1 /\ crc_mode s'.
Proof.
  intros f s. apply (i2c_load_frame s 0x1C001000 [1; 2; 3]);
    [apply sample_crc_mode|lia|by apply (bool_decide_unpack _)|simpl; lia|apply sample_waiting].
Defined.

Lemma i2c_burst_rejected_witness :
  let sentf := host_frame 0x1C001000 A2_LOAD_MEMORY_CMD [1; 2; 3] in
  let recvf := host_frame 0x1C001000 A2_JUMP_TO_ADDRESS_CMD [1; 2; 3] in
  let s := i2c_sample 1 0x23 (with_crc (ccitt sentf) recvf) in
  exists s', processI2CProtocolFrames s = Ok tt s' /\ ram (board s') = ram (board s) /\
    out_msgs s' = out_msgs s ++ [A2_CORRUPTED_FRAME_RCVD] /\ i_rx (i2cs (board s')) = [] /\ crc_mode s'.
Proof.
  intros sentf recvf s. apply (i2c_burst_rejected s sentf recvf 2 32);
    [apply sample_crc_mode|by apply (bool_decide_unpack _)|by apply (bool_decide_unpack _)|reflexivity|
     simpl; lia|lia|by vm_compute|apply sample_waiting].
Defined.

Lemma i2c_jump_frame_witness :
  let f := host_frame 0x1C000080 A2_JUMP_TO_ADDRESS_CMD [] in
  let s := i2c_sample 1 0x23 (with_crc (ccitt f) f) in
  exists s', processI2CProtocolFrames s = Jump 0x1C000080 s' /\
    (forall x, ~ scratch x -> mem_get (ram (board s')) x = mem_get (ram (board s)) x) /\
    sent 1 (board s') = sent 1 (board s) ++ crlf ++ ascii_bytes "I2C BL JMP " ++ hex_digits 8 0x1C000080 ++ [32] /\
    out_msgs s' = out_msgs s.
Proof.
  intros f s. apply (i2c_jump_frame s 0x1C000080);
    [apply reset_timely|apply sample_crc_mode|lia|apply sample_waiting].
Defined.

Lemma i2c_handshake_witness :
  exists s', processI2CProtocolFrames (i2c_sample 0 0x20 [9]) = Ok tt s' /\
    gUseCRCFlg (i2cp s') = 1 /\ out_msgs s' = [0x21] /\ i_rx (i2cs (board s')) = [9].
Proof.
  destruct (i2c_handshake (i2c_sample 0 0x20 [9])) as [_ Hm].
  destruct (Hm 0x20) as (s' & E & _ & Hf & Ho & _ & Hr & _);
    [by vm_compute|reflexivity|by right|]. exists s'. by rewrite Hf, Ho, Hr.
Defined.


Lemma resend_sends_blank_witness :
  exists s1 s2,
    sendI2CProtocolFrame (Some [8; 9]) 2 (i2c_sample 0 0 []) = Ok 2 s1 /\
    board s1 = announced (set_tx [8; 9] (board (i2c_sample 0 0 []))) /\
    sendI2CProtocolFrame None 0 s1 = Ok 2 s2 /\ board s2 = announced (set_tx [0; 0] (board s1)) /\
    gsI2CProtocolFrameCounter (i2cp s2) = 2.
Proof.
  apply (resend_sends_blank [8; 9] 2 (i2c_sample 0 0 []));
    [lia|simpl; lia|by apply (bool_decide_unpack _)|reflexivity].
Defined.
End Witnesses.
