(* ===== verification/Boot.v ===== *)
(** * Boot: the boot loader's main program, a2_boot/main.c

    The flash image loader ([getMemAreas], [findDataFit], [load_section],
    [loadBinaryAndStart], [bootFromRom]) and [main].  The structures of flash.h
    that the flash DMA fills live in [ram] at their C offsets, which are computed
    from the field lists below; the statics of the protocols are in [machine]. *)

From S2P Require Import Prelude Monad Crc Hw Uart Dbg Spi I2cs Machine UartProtocol I2CProtocol.

(** ** C structures: fields with their sizes and alignments *)
Record c_field := mk_field { f_name : string; f_size : Z; f_align : Z }.
Definition align_up (a o : Z) : Z := (o + a - 1) / a * a.
Fixpoint layout_from (o : Z) (fs : list c_field) : list (string * Z) * Z :=
  match fs with
  | [] => ([], o)
  | f :: fs' =>
      let o := align_up (f_align f) o in
      let '(l, e) := layout_from (o + f_size f) fs' in ((f_name f, o) :: l, e)
  end.
Definition offset_of (name : string) (fs : list c_field) : Z :=
  default (-1) (snd <$> list_find (fun p => p.1 = name) (layout_from 0 fs).1 ≫= fun p => Some p.2).
Definition struct_align (fs : list c_field) : Z := foldr (fun f a => Z.max (f_align f) a) 1 fs.
Definition sizeof (fs : list c_field) : Z := align_up (struct_align fs) (layout_from 0 fs).2.

Definition uint32_field (name : string) : c_field := mk_field name 4 4.
Definition array_field (name : string) (n size align : Z) : c_field := mk_field name (n * size) align.
Definition struct_field (name : string) (fs : list c_field) : c_field := mk_field name (sizeof fs) (struct_align fs).

(** *** flash.h *)
Definition BOOT_STACK_SIZE : Z := 1024.
Definition MAX_NB_AREA : Z := 16.
Definition FLASH_BLOCK_SIZE : Z := 4096.
Definition HYPER_FLASH_BLOCK_SIZE_LOG2 : Z := 10.
Definition HYPER_FLASH_BLOCK_SIZE : Z := Z.shiftl 1 HYPER_FLASH_BLOCK_SIZE_LOG2.

Definition flash_v2_mem_area_t : list c_field :=
  [uint32_field "start"; uint32_field "ptr"; uint32_field "size"; uint32_field "blocks"].
Definition flash_v2_header_t : list c_field :=
  [uint32_field "nextDesc"; uint32_field "nbAreas"; uint32_field "entry"; uint32_field "bootaddr"].
Definition flash_v3_header_t : list c_field :=
  [uint32_field "chipID"; uint32_field "nbBinaries"; array_field "ptrBinaries" 6 4 4].
Definition binary_v3_desc_t : list c_field :=
  [uint32_field "checksum"; uint32_field "nbAreas"; uint32_field "entry"; uint32_field "bootaddr";
   array_field "memArea" 16 (sizeof flash_v2_mem_area_t) (struct_align flash_v2_mem_area_t)].
Definition flash_v2_header_single_t : list c_field :=
  [struct_field "header" flash_v2_header_t; struct_field "area" flash_v2_mem_area_t].
Definition boot_code_t : list c_field :=
  [array_field "flashBuffer" FLASH_BLOCK_SIZE 1 1; array_field "udma_buffer" 256 4 4;
   uint32_field "spi_flash_id"; uint32_field "step";
   struct_field "header" flash_v2_header_t;
   array_field "memArea" MAX_NB_AREA (sizeof flash_v2_mem_area_t) (struct_align flash_v2_mem_area_t);
   array_field "udma_uart_tx_buffer" 1 1 1; array_field "stack" BOOT_STACK_SIZE 1 1;
   uint32_field "hyperflash"; uint32_field "blockSize"; uint32_field "qpi"].

(** The compiler's numbers, once and for all. *)
Definition off_flashBuffer : Z := Eval vm_compute in offset_of "flashBuffer" boot_code_t.
Definition off_step : Z := Eval vm_compute in offset_of "step" boot_code_t.
Definition off_header : Z := Eval vm_compute in offset_of "header" boot_code_t.
Definition off_memArea : Z := Eval vm_compute in offset_of "memArea" boot_code_t.
Definition off_stack : Z := Eval vm_compute in offset_of "stack" boot_code_t.
Definition off_hyperflash : Z := Eval vm_compute in offset_of "hyperflash" boot_code_t.
Definition off_blockSize : Z := Eval vm_compute in offset_of "blockSize" boot_code_t.
Definition off_qpi : Z := Eval vm_compute in offset_of "qpi" boot_code_t.
Definition sizeof_boot_code_t : Z := Eval vm_compute in sizeof boot_code_t.
Definition sizeof_header : Z := Eval vm_compute in sizeof flash_v2_header_t.
Definition sizeof_area : Z := Eval vm_compute in sizeof flash_v2_mem_area_t.

(** ** Memory as main.c sees it *)
Definition rd32 (a : Z) : M machine Z := gets (fun s => load32 (ram (board s)) a).
Definition wr32 (a v : Z) : M machine unit := lift (set_ram (fun m => store32 m a v)).
(** [memcpy] between two regions of memory; C forbids an overlap. *)
Definition memcpy (dest src n : Z) : M machine unit := fun s =>
  if (dest + n <=? src) || (src + n <=? dest) then
    Ok tt (with_board (with_ram (mem_write (ram (board s)) dest (mem_read (ram (board s)) src (Z.to_nat n))) (board s)) s)
  else Fault s.

(** The element [i] of an array of [n] structures of [size] bytes; C forbids an
    index out of range. *)
Definition elem_of_array (base n size i : Z) : M machine Z :=
  if (0 <=? i) && (i <? n) then mret (base + size * i) else fault.

Section Loader.
Context `{UartPort} `{FlashPort} `{Layout}.

Definition flash_load (flash_addr l2addr read_len : Z) : M machine unit :=
  d ← gets aucclkdiv; lift (flash_read d flash_addr l2addr (u16 read_len)).

(** [for (i = 0; i < area->blocks; i++) { ... }]: the area and the block size are
    read from memory in every iteration, as the calls in between may write it. *)
Fixpoint load_blocks (fuel : nat) (data area : Z) (isL2Section : bool) (i flash_addr area_addr size : Z) :
    M machine unit :=
  blocks ← rd32 (area + 12);
  if i <? blocks then
    match fuel with
    | O => spin
    | S fuel' =>
        blockSize ← rd32 (data + off_blockSize);
        let iterSize := blockSize in
        let iterSize := if iterSize >? size then u32 (size + 3) &&& 0xfffffffc else iterSize in
        (if isL2Section then flash_load flash_addr area_addr iterSize
         else
           flash_load flash_addr (data + off_flashBuffer) iterSize ;;
           memcpy area_addr (data + off_flashBuffer) iterSize) ;;
        load_blocks fuel' data area isL2Section (u32 (i + 1)) (u32 (flash_addr + iterSize))
          (u32 (area_addr + iterSize)) (u32 (size - iterSize))
    end
  else skip.

Definition load_section (fuel : nat) (data area : Z) : M machine unit :=
  flash_addr ← rd32 area;
  area_addr ← rd32 (area + 4);
  size ← rd32 (area + 8);
  let isL2Section := (area_addr >=? 0x1C000000) && (area_addr <? 0x1D000000) in
  load_blocks fuel data area isL2Section 0 flash_addr area_addr size.

Definition jump_to_entry {A} (header : Z) : M machine A :=
  entry ← rd32 (header + 8); jump_to_address entry.

Definition getMemAreas (data : Z) : M machine unit :=
  flash_load 0 (data + off_header) sizeof_header ;;
  nbArea ← rd32 (data + off_header + 4);
  let nbArea := s32 nbArea in
  let nbArea := if nbArea >=? MAX_NB_AREA then MAX_NB_AREA else nbArea in
  when (negb (nbArea =? 0)) (flash_load sizeof_header (data + off_memArea) (u32 (nbArea * sizeof_area))).

(** [for (i = 0; i < data->header.nbAreas; i++)]: index 16 is out of range, so
    17 iterations are enough. *)
Fixpoint load_sections (n fuel : nat) (data i : Z) : M machine unit :=
  nbAreas ← rd32 (data + off_header + 4);
  if i <? nbAreas then
    match n with
    | O => spin
    | S n' =>
        lift (dbg_str (10 :: cstr "Loading Section ")) ;;
        lift (dbg_hex32 i) ;;
        lift (dbg_str (cstr " to ")) ;;
        area ← elem_of_array (data + off_memArea) MAX_NB_AREA sizeof_area i;
        ptr ← rd32 (area + 4);
        lift (dbg_hex32 ptr) ;;
        load_section fuel data area ;;
        load_sections n' fuel data (u32 (i + 1))
    end
  else skip.

Definition loadBinaryAndStart (fuel : nat) (data : Z) : M machine unit :=
  getMemAreas data ;;
  load_sections 17 fuel data 0 ;;
  lift (dbg_str (10 :: cstr "Jumping to ")) ;;
  entry ← rd32 (data + off_header + 8);
  lift (dbg_hex32 entry) ;;
  lift (dbg_str (cstr " ")) ;;
  jump_to_entry (data + off_header).

Fixpoint findDataFit_loop (n : nat) (data i addr : Z) : M machine Z :=
  nbAreas ← rd32 (data + off_header + 4);
  if i <? nbAreas then
    match n with
    | O => spin
    | S n' =>
        area ← elem_of_array (data + off_memArea) MAX_NB_AREA sizeof_area i;
        ptr ← rd32 (area + 4);
        size ← rd32 (area + 8);
        blockSize ← rd32 (data + off_blockSize);
        let addr :=
          if (addr >=? ptr) && (addr <? u32 (ptr + size))
             || (addr <? ptr) && (u32 (addr + sizeof_boot_code_t) >? ptr)
          then u32 (u32 (ptr + size) + blockSize - 1) &&& Z.lnot (blockSize - 1)
          else addr in
        findDataFit_loop n' data (u32 (i + 1)) addr
    end
  else mret addr.
Definition findDataFit (data : Z) : M machine Z := findDataFit_loop 17 data 0 0x1c000000.
End Loader.

(** ** The stack switch

    [changeStack] of crt0.S sets the stack pointer and jumps: the locals whose
    addresses the code hands to the DMA move to the new stack, at the offsets
    below its top that the compiler chose. *)
Class Frames := { frame_c : Z; frame_lChar : Z }.
Class FramesOk (F : Frames) : Prop := {
  frames_c : 0 <= frame_c /\ frame_c + 4 <= BOOT_STACK_SIZE;
  frames_lChar : 0 <= frame_lChar < BOOT_STACK_SIZE
}.
Definition on_stack `{Frames} (L : Layout) (sp : Z) : Layout := {|
  addr_c := sp - BOOT_STACK_SIZE + frame_c;
  addr_lChar := sp - BOOT_STACK_SIZE + frame_lChar;
  addr_auccmd := @addr_auccmd L;
  addr_bootCode := @addr_bootCode L
|}.
Definition changeStack `{Frames} `{L : Layout} (data : Z) (entry : Layout -> Z -> M machine unit) (stack : Z) :
    M machine unit := entry (on_stack L stack) data.

Section Main.
Context `{Budget} `{SocConfig} `{UartPort} `{I2csPort} `{FlashPort} `{Frames} `{Layout}.

Definition loadBinaryAndStart_newStack (fuel : nat) (data : Z) : M machine unit :=
  changeStack data (fun L data => @loadBinaryAndStart _ _ L fuel data) (u32 (data + off_stack + BOOT_STACK_SIZE)).

Definition block_size (hyperflash : Z) : Z :=
  if negb (hyperflash =? 0) then HYPER_FLASH_BLOCK_SIZE else FLASH_BLOCK_SIZE.

Definition bootFromRom (fuel : nat) (hyperflash qpi : Z) : M machine unit :=
  let data := addr_bootCode in
  wr32 (data + off_hyperflash) hyperflash ;;
  wr32 (data + off_step) 0 ;;
  wr32 (data + off_blockSize) (block_size hyperflash) ;;
  wr32 (data + off_qpi) qpi ;;
  getMemAreas data ;;
  newData ← findDataFit data;
  wr32 (newData + off_hyperflash) hyperflash ;;
  wr32 (newData + off_qpi) qpi ;;
  wr32 (newData + off_blockSize) (block_size hyperflash) ;;
  loadBinaryAndStart_newStack fuel newData.

Definition FLL_START_ADDR : Z := 0x1A100000.
Definition setFLLInResetAndBypass (aFLLNum : Z) : M hw unit :=
  when (aFLLNum <=? 2) (
    let lPLLStartAddress := FLL_START_ADDR + aFLLNum * 32 in
    v ← rd (Word lPLLStartAddress); wr (Word lPLLStartAddress) (v ||| Z.shiftl 1 19) ;;
    v ← rd (Word lPLLStartAddress); wr (Word lPLLStartAddress) (v &&& Z.lnot (Z.shiftl 1 2))).

(** [while (1) { ... }]: [tstring] is what the countdown prints, [count] the
    reused variable [bootsel]. *)
Fixpoint main_loop (fuel : nat) (tstring : list Z) (count : Z) : M machine unit :=
  match fuel with
  | O => spin
  | S fuel' =>
      v ← lift (rd (Soc jtagreg));
      (if negb (v =? 1) then jump_to_address 0x1C008080 else skip) ;;
      f ← gets flgs;
      when (gStopUartBootLoaderFlg f =? 0) processUartProtocolFrames ;;
      f ← gets flgs;
      when (gStopI2CBootLoaderFlg f =? 0) processI2CProtocolFrames ;;
      let count := u32 (count + 1) in
      if count >=? 90000 then
        f ← gets flgs;
        when (gStopUartMsgFlg f =? 0) (
          lift (dbg_str tstring) ;;
          _ ← lift sendUartBootMeFrame; skip) ;;
        main_loop fuel' tstring 0
      else main_loop fuel' tstring count
  end.

(** The host path: no image is loaded from flash. *)
Definition host_boot (fuel : nat) (tstring : list Z) : M machine unit :=
  modify (fun s => with_crcTable (crcInit CRC_CCITT (crcTable s)) s) ;;
  rr ← lift (rd (Soc reset_reason));
  (if rr =? 1 then lift (hal_set_i2cs_msg_apb_i2c A2_RESET_REASON_POR)
   else
     rr ← lift (rd (Soc reset_reason));
     when (negb (rr &&& 2 =? 0)) (lift (hal_set_i2cs_msg_apb_i2c A2_RESET_REASON_WDT))) ;;
  lift (wr (Soc jtagreg) 1) ;;
  main_loop fuel tstring 0.

(** What the build puts into the image: [__DATE__] and [__TIME__] (without their
    NUL), and whether it is the VERILATOR build. *)
Class RomBuild := { DATE : string; TIME : string; VERILATOR : bool }.
Context `{RomBuild}.

Definition banner (bootsel resetreason : Z) : M hw unit :=
  dbg_str (cstr DATE) ;;
  dbg_str (cstr "  ") ;;
  dbg_str (cstr TIME) ;;
  dbg_str (10 :: cstr "A2 Bootloader Bootsel=") ;;
  (if bootsel =? 1 then dbg_str (cstr "1 ") else dbg_str (cstr "0 ")) ;;
  dbg_str (cstr "rr=") ;;
  dbg_hex8 resetreason.

(** Up to the banner: clocks, boot pin, I2C slave, the two UARTs. *)
Definition main_setup : M hw (Z * Z) :=
  for_ 3 0 setFLLInResetAndBypass ;;
  resetreason ← rd (Soc reset_reason);
  b ← rd (Soc bootsel);
  b ← rd (Soc bootsel); let bootsel := b &&& 1 in
  _ ← hal_set_apb_i2cs_slave_on_off 1;
  a ← hal_get_apb_i2cs_slave_address;
  when (negb (a =? MY_I2C_SLAVE_ADDRESS)) (hal_set_apb_i2cs_slave_address MY_I2C_SLAVE_ADDRESS) ;;
  _ ← udma_uart_open 0 115200;
  _ ← udma_uart_open 1 115200;
  banner bootsel resetreason ;;
  mret (bootsel, resetreason).

(** The flash is opened, reset and probed. *)
Definition main_flash : M machine unit :=
  r ← lift (flash_open 0 2500000);
  modify (with_clkdiv r.2) ;;
  d ← gets aucclkdiv;
  _ ← lift (flash_reset_enable d 0 0);
  _ ← lift (flash_reset_memory d 0 0);
  let lFlashID := 0 in
  lift (flash_readid d lFlashID).

Definition main (fuel : nat) : M machine unit :=
  r ← lift main_setup;
  let bootsel := r.1 in
  when VERILATOR (
    lift (dbg_str (10 :: cstr "Jumping to address 0x1C000880")) ;;
    jump_to_address 0x1C000880) ;;
  main_flash ;;
  let lFlashID := 0 in
  let flash_present := if negb (lFlashID &&& 0xFF =? 0xFF) then 1 else 0 in
  let tstring :=
    if bootsel =? 0 then [46; 0; 0; 0; 0; 0; 0; 0]
    else if flash_present =? 0 then [33; 0; 0; 0; 0; 0; 0; 0]
    else [0; 0; 0; 0; 0; 0; 0; 0] in
  if (bootsel =? 1) && (flash_present =? 1) then bootFromRom fuel 0 0
  else host_boot fuel tstring.
End Main.
