(* ===== verification/FlashImage.v ===== *)
(** * FlashImage: what a boot image in the SPI flash is

    The image format both boot ROMs read (flash.h of a2_boot, hal/rom/rom_v2.h of
    boot_code), the room [findDataFit] leaves for the loader, and the memory the
    sections of a well-formed image make. *)

From Stdlib Require Import Sorted.
From S2P Require Import Prelude Monad Hw Spi Boot.

(** ** The image in flash *)
Definition flash_byte (f : flash_hw) (a : Z) : Z := u8 (flash_mem f (a mod 2 ^ 24)).
Definition flash_word (f : flash_hw) (a : Z) : Z :=
  flash_byte f a + 256 * flash_byte f (a + 1) + 65536 * flash_byte f (a + 2) + 16777216 * flash_byte f (a + 3).

Record area := mk_area { a_start : Z; a_ptr : Z; a_size : Z; a_blocks : Z }.
Definition flash_nbAreas (f : flash_hw) : Z := flash_word f 4.
Definition flash_entry (f : flash_hw) : Z := flash_word f 8.
Definition flash_area (f : flash_hw) (i : Z) : area :=
  let o := 16 + 16 * i in mk_area (flash_word f o) (flash_word f (o + 4)) (flash_word f (o + 8)) (flash_word f (o + 12)).
Definition flash_areas (f : flash_hw) : list area := map (flash_area f) (seqZ 0 (flash_nbAreas f)).
Definition area_bytes (f : flash_hw) (a : area) : list Z := flash_bytes f (a_start a) (a_size a).

(** Sums of flash bytes, address by address. *)
Ltac flash_sum :=
  repeat match goal with
  | |- flash_byte _ _ = flash_byte _ _ => f_equal; lia
  | |- _ + _ = _ + _ => f_equal
  | |- _ * _ = _ * _ => f_equal
  end.

Lemma flash_byte_range f a : 0 <= flash_byte f a < 256.
Proof. apply u8_range. Qed.
Lemma flash_word_range f a : 0 <= flash_word f a < 2 ^ 32.
Proof.
  unfold flash_word. pose proof (flash_byte_range f a). pose proof (flash_byte_range f (a + 1)).
  pose proof (flash_byte_range f (a + 2)). pose proof (flash_byte_range f (a + 3)). lia.
Qed.

Lemma flash_bytes_lookup f fa n (i : nat) : Z.of_nat i < n ->
  flash_bytes f fa n !! i = Some (flash_byte f (fa + Z.of_nat i)).
Proof. intros Hi. unfold flash_bytes. rewrite list_lookup_fmap, lookup_seqZ_lt by lia. done. Qed.

Lemma flash_bytes_in m la f fa n x : la <= x < la + n ->
  mem_get (mem_write m la (flash_bytes f fa n)) x = flash_byte f (fa + (x - la)).
Proof.
  intros Hx. replace x with (la + Z.of_nat (Z.to_nat (x - la))) at 1 by lia.
  rewrite (mem_get_write_in _ _ _ _ _ (flash_bytes_lookup f fa n (Z.to_nat (x - la)) ltac:(lia))).
  rewrite u8_small by apply flash_byte_range. f_equal. lia.
Qed.

Lemma flash_bytes_out m la f fa n x : 0 <= n -> ~ la <= x < la + n ->
  mem_get (mem_write m la (flash_bytes f fa n)) x = mem_get m x.
Proof. intros Hn Hx. apply mem_get_write_out. by rewrite flash_bytes_length by lia. Qed.

Lemma flash_bytes_app f fa a b : 0 <= a -> 0 <= b ->
  flash_bytes f fa (a + b) = flash_bytes f fa a ++ flash_bytes f (fa + a) b.
Proof.
  intros Ha Hb. unfold flash_bytes. rewrite seqZ_app, map_app by lia. f_equal.
  apply list_eq. intros i. rewrite !list_lookup_fmap.
  destruct (decide (Z.of_nat i < b)).
  - rewrite !lookup_seqZ_lt by lia. cbn. do 4 f_equal. lia.
  - rewrite !lookup_seqZ_ge by lia. done.
Qed.

(** ** Writes, in order *)
Definition writes (ws : list (Z * list Z)) (m : memory) : memory := foldl (fun m w => mem_write m w.1 w.2) m ws.
Definition covers (x : Z) (w : Z * list Z) : Prop := w.1 <= x < w.1 + Z.of_nat (length w.2).

Lemma writes_agree ws : forall m1 m2 x, mem_get m1 x = mem_get m2 x -> mem_get (writes ws m1) x = mem_get (writes ws m2) x.
Proof. induction ws as [|w ws IH]; intros m1 m2 x E; [done|]. cbn. apply IH. by apply mem_write_agree. Qed.

Lemma writes_out ws : forall m x, Forall (fun w => ~ covers x w) ws -> mem_get (writes ws m) x = mem_get m x.
Proof.
  induction ws as [|w ws IH]; intros m x Hw; [done|]. apply Forall_cons in Hw as [Hw Hws].
  change (writes (w :: ws) m) with (writes ws (mem_write m w.1 w.2)). rewrite IH by done. by apply mem_get_write_out.
Qed.

Lemma writes_app w1 w2 m : writes (w1 ++ w2) m = writes w2 (writes w1 m).
Proof. unfold writes. apply foldl_app. Qed.

(** ** Room for the loader's data *)
Definition fit_step (addr : Z) (a : area) : Z :=
  if (addr >=? a_ptr a) && (addr <? u32 (a_ptr a + a_size a))
     || (addr <? a_ptr a) && (u32 (addr + sizeof_boot_code_t) >? a_ptr a)
  then u32 (u32 (a_ptr a + a_size a) + FLASH_BLOCK_SIZE - 1) &&& Z.lnot (FLASH_BLOCK_SIZE - 1)
  else addr.
Definition data_fit (areas : list area) : Z := foldl fit_step 0x1c000000 areas.

(** Rounding up to a block by clearing the low twelve bits. *)
Lemma clear_low x : 0 <= x -> x &&& Z.lnot (FLASH_BLOCK_SIZE - 1) = x - x mod 4096.
Proof.
  intros Hx. change (FLASH_BLOCK_SIZE - 1) with (Z.ones 12). rewrite <- Z.ldiff_land, Z.ldiff_ones_r by lia.
  rewrite Z.shiftl_mul_pow2, Z.shiftr_div_pow2 by lia. change (2 ^ 12) with 4096. Z.div_mod_to_equations. lia.
Qed.

Definition apart (addr : Z) (a : area) : Prop :=
  a_ptr a + a_size a <= addr \/ addr + sizeof_boot_code_t <= a_ptr a.
Definition area_low (a : area) : Prop :=
  0 <= a_ptr a /\ 0 <= a_size a /\ a_ptr a + a_size a + FLASH_BLOCK_SIZE + sizeof_boot_code_t <= 2 ^ 32.

Lemma fit_step_range addr a : area_low a -> 0 <= addr <= 2 ^ 32 - 6440 ->
  0 <= fit_step addr a <= 2 ^ 32 - 6440.
Proof.
  unfold area_low, fit_step, FLASH_BLOCK_SIZE, sizeof_boot_code_t. intros Ha Hd.
  destruct (_ || _); [|done].
  rewrite (u32_small (a_ptr a + a_size a)), u32_small by lia.
  change (4096 - 1) with (FLASH_BLOCK_SIZE - 1). rewrite clear_low by lia.
  pose proof (Z.mod_pos_bound (a_ptr a + a_size a + 4096 - 1) 4096 ltac:(lia)). lia.
Qed.

(** One area: the new address clears it, and stays clear of what ends before. *)
Lemma fit_step_apart addr a : area_low a -> 0 <= addr <= 2 ^ 32 - 6440 ->
  apart (fit_step addr a) a /\
  (fit_step addr a = addr \/ a_ptr a + a_size a <= fit_step addr a).
Proof.
  unfold area_low, fit_step, apart, FLASH_BLOCK_SIZE, sizeof_boot_code_t. intros Ha Hd.
  replace (u32 (a_ptr a + a_size a)) with (a_ptr a + a_size a) by (rewrite u32_small; lia).
  destruct (decide (addr + 6440 = 2 ^ 32)) as [Eq|Ne].
  - rewrite Eq. change (u32 (2 ^ 32)) with 0.
    destruct (Z.geb_spec addr (a_ptr a)), (Z.ltb_spec addr (a_ptr a + a_size a)), (Z.ltb_spec addr (a_ptr a)),
      (Z.gtb_spec 0 (a_ptr a)); cbn [andb orb]; lia.
  - rewrite (u32_small (addr + _)) by lia.
    rewrite u32_small by lia. change (4096 - 1) with (FLASH_BLOCK_SIZE - 1). rewrite clear_low by lia.
    pose proof (Z.mod_pos_bound (a_ptr a + a_size a + 4096 - 1) 4096 ltac:(lia)).
    destruct (Z.geb_spec addr (a_ptr a)), (Z.ltb_spec addr (a_ptr a + a_size a)), (Z.ltb_spec addr (a_ptr a)),
      (Z.gtb_spec (addr + 6440) (a_ptr a)); cbn [andb orb]; lia.
Qed.

(** Sections in order of their ends. *)
Definition by_end (areas : list area) : Prop :=
  StronglySorted (fun a b => a_ptr a + a_size a <= a_ptr b + a_size b) areas.

Lemma data_fit_apart areas : Forall area_low areas -> by_end areas ->
  Forall (apart (data_fit areas)) areas /\ 0 <= data_fit areas <= 2 ^ 32 - 6440.
Proof.
  unfold data_fit. assert (H0 : 0 <= 0x1c000000 <= 2 ^ 32 - 6440) by lia. revert H0.
  assert (Hgen : forall addr, 0 <= addr <= 2 ^ 32 - 6440 -> Forall area_low areas -> by_end areas ->
    (forall a, area_low a -> Forall (fun b => a_ptr a + a_size a <= a_ptr b + a_size b) areas -> apart addr a ->
       apart (foldl fit_step addr areas) a) /\
    Forall (apart (foldl fit_step addr areas)) areas /\ 0 <= foldl fit_step addr areas <= 2 ^ 32 - 6440).
  { induction areas as [|b areas IH]; intros addr Hr Hl Hs; [done|]. cbn [foldl].
    apply Forall_cons in Hl as [Hb Hl]. apply StronglySorted_inv in Hs as [Hs Hbs].
    pose proof (fit_step_range addr b Hb Hr) as Hr'. destruct (fit_step_apart addr b Hb Hr) as [Hab Hor].
    destruct (IH (fit_step addr b) Hr' Hl Hs) as (Hk & Hall & Hrr). split; [|split; [|done]].
    - intros a Ha Hle Haa. apply Forall_cons in Hle as [Hle1 Hle2]. apply Hk; [done|done|].
      destruct Hor as [-> |Hge]; [done|]. left. lia.
    - apply Forall_cons_2; [|done]. apply Hk; [done|done|done]. }
  intros H0 Hl Hs. destruct (Hgen _ H0 Hl Hs) as (_ & ? & ?). done.
Qed.

(** *** Room in L2

    The uDMA reaches the 512 KB of L2 only, while the loaders take every address from
    0x1C000000 to 0x1CFFFFFF for L2.  A section [reached] by the loader leaves, when it
    starts below the end of that window, room in L2 behind it. *)
Definition reached (a : area) : Prop :=
  a_ptr a + a_size a + FLASH_BLOCK_SIZE + sizeof_boot_code_t <= L2_BASE + L2_SIZE \/ 0x1D000000 <= a_ptr a.

Lemma fit_step_l2 addr a : area_low a -> reached a -> in_l2 addr sizeof_boot_code_t -> in_l2 (fit_step addr a) sizeof_boot_code_t.
Proof.
  unfold area_low, reached, in_l2, fit_step, FLASH_BLOCK_SIZE, sizeof_boot_code_t, L2_BASE, L2_SIZE. intros Ha Hr Hd.
  rewrite (u32_small (a_ptr a + a_size a)), (u32_small (addr + 6440)) by lia.
  rewrite u32_small by lia. change (4096 - 1) with (FLASH_BLOCK_SIZE - 1). rewrite clear_low by lia.
  pose proof (Z.mod_pos_bound (a_ptr a + a_size a + 4096 - 1) 4096 ltac:(lia)).
  destruct (Z.geb_spec addr (a_ptr a)), (Z.ltb_spec addr (a_ptr a + a_size a)), (Z.ltb_spec addr (a_ptr a)),
    (Z.gtb_spec (addr + 6440) (a_ptr a)); cbn [andb orb]; lia.
Qed.
Lemma data_fit_l2 areas : Forall area_low areas -> Forall reached areas -> in_l2 (data_fit areas) sizeof_boot_code_t.
Proof.
  unfold data_fit. assert (H0 : in_l2 0x1c000000 sizeof_boot_code_t) by (unfold in_l2, L2_BASE, L2_SIZE, sizeof_boot_code_t; lia).
  revert H0. generalize 0x1c000000. induction areas as [|a areas IH]; intros addr H0 Hl Hr; [done|].
  apply Forall_cons in Hl as [Ha Hl]. apply Forall_cons in Hr as [Hra Hr]. apply IH; [by apply fit_step_l2|done|done].
Qed.

(** ** Sections and images *)
Lemma round4 size : 0 <= size <= FLASH_BLOCK_SIZE -> size mod 4 = 0 -> u32 (size + 3) &&& 0xfffffffc = size.
Proof.
  unfold FLASH_BLOCK_SIZE. intros Hs Hm.
  assert (Hall : forallb (fun q => u32 (4 * q + 3) &&& 0xfffffffc =? 4 * q) (seqZ 0 1025) = true) by by vm_compute.
  rewrite forallb_forall in Hall. specialize (Hall (size / 4)).
  replace (4 * (size / 4)) with size in Hall by (Z.div_mod_to_equations; lia).
  apply Z.eqb_eq, Hall, list_elem_of_In, elem_of_seqZ. Z.div_mod_to_equations; lia.
Qed.

Definition blocks_of (size : Z) : Z := (size + FLASH_BLOCK_SIZE - 1) / FLASH_BLOCK_SIZE.

(** What makes a section of the image loadable: a positive multiple of four
    bytes, as many blocks as it needs, inside the flash's and the memory's address
    space, and not on top of the loader's structure. *)
Record loadable (data : Z) (a : area) : Prop := {
  lo_size : 0 < a_size a;
  lo_words : a_size a mod 4 = 0;
  lo_blocks : a_blocks a = blocks_of (a_size a);
  lo_start : a_start a + a_size a < 2 ^ 32;
  lo_ptr : a_ptr a + a_size a < 2 ^ 32;
  lo_apart : apart data a
}.
Definition section_write (f : flash_hw) (i : Z) : Z * list Z :=
  let a := flash_area f i in (a_ptr a, area_bytes f a).
Definition image_writes (f : flash_hw) : list (Z * list Z) := map (section_write f) (seqZ 0 (flash_nbAreas f)).

(** A flash image the loaders are meant for: at most 16 sections in address order,
    each as [loadable] asks, below the top of the address space. *)
Record image_fine (f : flash_hw) (fuel : nat) : Prop := {
  im_count : flash_nbAreas f <= MAX_NB_AREA;
  im_section : forall i, 0 <= i < flash_nbAreas f ->
    let a := flash_area f i in
    0 < a_size a /\ a_size a mod 4 = 0 /\ a_blocks a = blocks_of (a_size a) /\ a_blocks a <= Z.of_nat fuel /\
    a_start a + a_size a < 2 ^ 32 /\ area_low a;
  im_order : forall i j, 0 <= i -> i < j -> j < flash_nbAreas f ->
    a_ptr (flash_area f i) + a_size (flash_area f i) <= a_ptr (flash_area f j)
}.

Lemma sorted_index {A} (R : A -> A -> Prop) (g : Z -> A) n : forall lo,
  (forall i j, lo <= i -> i < j -> j < lo + Z.of_nat n -> R (g i) (g j)) ->
  StronglySorted R (map g (seqZ lo (Z.of_nat n))).
Proof.
  induction n as [|n IH]; intros lo Hr; [constructor|].
  rewrite seqZ_cons by lia. replace (Z.pred (Z.of_nat (S n))) with (Z.of_nat n) by lia. cbn [map].
  constructor; [apply IH; intros; apply Hr; lia|].
  apply Forall_map, Forall_forall. intros j Hj%elem_of_seqZ. apply Hr; lia.
Qed.

Section Image.
Context (f : flash_hw) (fuel : nat) (Him : image_fine f fuel).
#[local] Abbreviation newData := (data_fit (flash_areas f)).

Lemma nbAreas_range : 0 <= flash_nbAreas f <= 16.
Proof. pose proof (flash_word_range f 4 : 0 <= flash_nbAreas f < 2 ^ 32). pose proof (im_count _ _ Him). unfold MAX_NB_AREA in *. lia. Qed.

Lemma image_fit : Forall (apart newData) (flash_areas f) /\ 0 <= newData /\ newData + sizeof_boot_code_t <= 2 ^ 32.
Proof.
  pose proof nbAreas_range as Hn. destruct (data_fit_apart (flash_areas f)) as [Ha Hr].
  - apply Forall_map, Forall_forall. intros i Hi%elem_of_seqZ. apply (im_section _ _ Him i). lia.
  - unfold by_end, flash_areas. rewrite <- (Z2Nat.id (flash_nbAreas f)) by lia. apply sorted_index.
    intros i j Hi Hij Hj. pose proof (im_order _ _ Him i j ltac:(lia) Hij ltac:(lia)).
    destruct (im_section _ _ Him j ltac:(lia)) as (Hs & _). lia.
  - split; [done|]. unfold sizeof_boot_code_t. lia.
Qed.

Lemma image_loadable i : 0 <= i < flash_nbAreas f -> loadable newData (flash_area f i).
Proof.
  intros Hi. destruct (im_section _ _ Him i Hi) as (Hs & H4 & Hb & _ & Hst & Hlo).
  unfold area_low, sizeof_boot_code_t, FLASH_BLOCK_SIZE in Hlo. split; try done; [lia|].
  destruct image_fit as [Ha _]. rewrite Forall_forall in Ha. apply Ha. unfold flash_areas.
  apply list_elem_of_fmap. exists i. split; [done|]. apply elem_of_seqZ. lia.
Qed.

Lemma image_fit_l2 : (forall i, 0 <= i < flash_nbAreas f -> reached (flash_area f i)) -> in_l2 newData sizeof_boot_code_t.
Proof.
  intros Hr. apply data_fit_l2; apply Forall_map, Forall_forall; intros i Hi%elem_of_seqZ;
    [apply (im_section _ _ Him i); lia|apply Hr; lia].
Qed.

(** What the image's writes leave in memory. *)
Lemma image_in m i x : 0 <= i < flash_nbAreas f ->
  a_ptr (flash_area f i) <= x < a_ptr (flash_area f i) + a_size (flash_area f i) ->
  mem_get (writes (image_writes f) m) x = flash_byte f (a_start (flash_area f i) + (x - a_ptr (flash_area f i))).
Proof.
  intros Hi Hx. unfold image_writes.
  replace (flash_nbAreas f) with (i + (1 + (flash_nbAreas f - i - 1))) by lia.
  rewrite !seqZ_app, !map_app, !writes_app by lia. rewrite writes_out.
  - change (seqZ (0 + i) 1) with [0 + i]. rewrite Z.add_0_l. cbn. by apply flash_bytes_in.
  - apply Forall_map, Forall_forall. intros j Hj%elem_of_seqZ. unfold covers, section_write, area_bytes. cbn [fst snd].
    pose proof (im_order _ _ Him i j ltac:(lia) ltac:(lia) ltac:(lia)).
    destruct (im_section _ _ Him j ltac:(lia)) as (Hs & _). rewrite flash_bytes_length by lia. lia.
Qed.

Lemma image_out m x :
  (forall i, 0 <= i < flash_nbAreas f ->
     ~ a_ptr (flash_area f i) <= x < a_ptr (flash_area f i) + a_size (flash_area f i)) ->
  mem_get (writes (image_writes f) m) x = mem_get m x.
Proof.
  intros Hx. apply writes_out. apply Forall_map, Forall_forall. intros j Hj%elem_of_seqZ.
  unfold covers, section_write, area_bytes. cbn [fst snd].
  destruct (im_section _ _ Him j ltac:(lia)) as (Hs & _). rewrite flash_bytes_length by lia. apply Hx. lia.
Qed.
End Image.


(** ** A concrete image: two sections, one outside L2 and one inside *)
Definition image_flash (words : list Z) : flash_hw :=
  mk_flash (fun a => nth (Z.to_nat a) (words ≫= le32) 0xFF) [0x20; 0xBA; 0x18; 0x10].
Definition sample_image : list Z :=
  [0; 2; 0x1C000080; 0;  0x30; 0x2000; 8; 1;  0x38; 0x1C000000; 4; 1;  0x03020100; 0x07060504; 0x13121110].

Lemma sample_image_fine : image_fine (image_flash sample_image) 1.
Proof.
  assert (Hn : flash_nbAreas (image_flash sample_image) = 2) by by vm_compute.
  split; rewrite ?Hn.
  - by vm_compute.
  - intros i Hi. assert (i = 0 \/ i = 1) as [-> | ->] by lia;
      (vm_compute; repeat split; discriminate).
  - intros i j Hi Hij Hj. assert (i = 0) as -> by lia. assert (j = 1) as -> by lia. by vm_compute.
Qed.
