(* ===== verification/FlashBoot.v ===== *)
(** * FlashBoot: booting from the SPI flash

    What the loader of Boot promises: [findDataFit] finds room next to the
    image, and a flash that holds a well-formed image is loaded section by section
    and entered.  The proofs use the drivers only through [FlashPort] and
    [UartPort]. *)

From Stdlib Require Import Sorted.
From S2P Require Import Prelude Monad Crc Hw Uart Dbg Spi I2cs Machine UartProtocol I2CProtocol Boot FlashImage.

(** ** Loader steps

    [loads out ws s s']: [out] went out on the UARTs, the flash and the clock
    divider are as before, and memory outside the loader's working storage [work]
    is what the writes [ws] make of it. *)
Record loads `{Budget} (work : Z -> Prop) (out : list (Z * Z)) (ws : list (Z * list Z)) (s s' : machine) : Prop := {
  ld_flash : flash (board s') = flash (board s);
  ld_clk : aucclkdiv s' = aucclkdiv s;
  ld_timely : timely (board s');
  ld_sent : forall id, sent id (board s') = sent id (board s) ++ on_uart id out;
  ld_mem : forall x, ~ work x -> mem_get (ram (board s')) x = mem_get (writes ws (ram (board s))) x
}.

Lemma loads_refl `{Budget} work s : timely (board s) -> loads work [] [] s s.
Proof. intros Ht. split; try done. intros id. by rewrite app_nil_r. Qed.

Lemma loads_trans `{Budget} work o1 o2 w1 w2 s1 s2 s3 :
  loads work o1 w1 s1 s2 -> loads work o2 w2 s2 s3 -> loads work (o1 ++ o2) (w1 ++ w2) s1 s3.
Proof.
  intros [Hf1 Hc1 Ht1 Hs1 Hm1] [Hf2 Hc2 Ht2 Hs2 Hm2]. split; [congruence|congruence|done|..].
  - intros id. by rewrite Hs2, Hs1, on_uart_app, app_assoc.
  - intros x Hx. rewrite Hm2, writes_app by done. by apply writes_agree, Hm1.
Qed.

Lemma loads_weaken `{Budget} (w1 w2 : Z -> Prop) out ws s s' :
  (forall x, w1 x -> w2 x) -> loads w1 out ws s s' -> loads w2 out ws s s'.
Proof. intros Hw [Hf Hc Ht Hs Hm]. split; try done. intros x Hx. apply Hm. by intros ?%Hw. Qed.

Lemma bind_rd32 {B} a (k : Z -> M machine B) s : (rd32 a ≫= k) s = k (load32 (ram (board s)) a) s.
Proof. done. Qed.
Lemma bind_wr32 {B} a v (k : unit -> M machine B) s :
  (wr32 a v ≫= k) s = k tt (with_board (with_ram (store32 (ram (board s)) a v) (board s)) s).
Proof. done. Qed.
Lemma bind_elem {B} base i (k : Z -> M machine B) s : 0 <= i < MAX_NB_AREA ->
  (elem_of_array base MAX_NB_AREA sizeof_area i ≫= k) s = k (base + 16 * i) s.
Proof.
  intros Hi. unfold elem_of_array. destruct (Z.leb_spec 0 i), (Z.ltb_spec i MAX_NB_AREA); [done|lia..].
Qed.

Section Loader.
Context `{Budget} `{HL : Layout} `{!LocalsOk HL} `{UartPort} `{!UartPortOk _} `{FlashPort} `{!FlashPortOk _}.
Context (data : Z).

(** The structure the loader runs on, and the parts of it that the loader writes
    while it runs: the flash buffer, the stack and, elsewhere, [auccmd]. *)
Definition in_data (x : Z) : Prop := data <= x < data + sizeof_boot_code_t.
Definition work (x : Z) : Prop :=
  cmdbuf x \/ data <= x < data + FLASH_BLOCK_SIZE \/ data + off_stack <= x < data + off_stack + BOOT_STACK_SIZE.

Context (Hscratch : forall x, scratch x -> data + off_stack <= x < data + off_stack + BOOT_STACK_SIZE).
Context (Hcmd : forall x, in_data x -> ~ cmdbuf x).
Context (Hl2 : in_l2 data sizeof_boot_code_t) (Hdata : 0 <= data /\ data + sizeof_boot_code_t <= 2 ^ 32).

(** The loader may run: its transfers drain and its clock divider is a byte. *)
Definition running (s : machine) : Prop := timely (board s) /\ 0 <= aucclkdiv s < 256.
Lemma running_loads wk out ws s s' : running s -> loads wk out ws s s' -> running s'.
Proof. intros [_ Hd] [_ Hc Ht _ _]. split; [done|by rewrite Hc]. Qed.

Lemma flash_load_spec fa la n s : running s -> 0 <= fa -> 0 < n < 65536 -> n mod 4 = 0 -> in_l2 la n ->
  exists s', flash_load fa la n s = Ok tt s' /\
    loads (fun x => cmdbuf x /\ ~ la <= x < la + n) [] [(la, flash_bytes (flash (board s)) fa n)] s s'.
Proof.
  intros [Ht Hd] Hfa Hn H4 Hla.
  destruct (flash_reads (aucclkdiv s) fa la n (board s) Ht Hd Hfa Hn H4 Hla) as (h' & E & Fo & Hm).
  exists (with_board h' s). unfold flash_load. rewrite bind_gets, u16_small by lia.
  split; [by apply lift_ok|]. split; cbn [board with_board aucclkdiv]; [apply Fo|done|by apply Fo|..].
  - intros id. unfold sent, get_uart. by rewrite (fo_uarts _ _ Fo), app_nil_r.
  - intros x Hx. apply Hm. destruct (decide (cmdbuf x)); [|by left]. right.
    destruct (decide (la <= x < la + n)); [done|]. exfalso. by apply Hx.
Qed.

Lemma print_loads m out s : prints m out -> running s ->
  exists s', lift m s = Ok tt s' /\ loads work out [] s s'.
Proof.
  intros P [Ht Hd]. destruct (P (board s) Ht) as (h' & E & (mm & Hm & C)).
  exists (with_board h' s). split; [by apply lift_ok|]. destruct C as [B Hs Hr Htt].
  split; cbn [board with_board aucclkdiv]; [apply B|done|by apply Htt|exact Hs|].
  - intros x Hx. cbn. rewrite (same_ram _ _ B). apply Hm. intros Hsc. apply Hx. right. right. by apply Hscratch.
Qed.

(** *** One block *)
Lemma cmdbuf_work x (P : Prop) : cmdbuf x /\ P -> work x.
Proof. intros [? _]. by left. Qed.

Lemma block_direct fa la n s : running s -> 0 <= fa -> 0 < n <= FLASH_BLOCK_SIZE -> n mod 4 = 0 -> in_l2 la n ->
  exists s', flash_load fa la n s = Ok tt s' /\ loads work [] [(la, flash_bytes (flash (board s)) fa n)] s s'.
Proof.
  intros Hr Hfa Hn H4 Hla. destruct (flash_load_spec fa la n s Hr Hfa) as (s' & E & L); [unfold FLASH_BLOCK_SIZE in *; lia|done|done|].
  exists s'. split; [done|]. eapply loads_weaken; [|exact L]. intros x. apply cmdbuf_work.
Qed.

Lemma block_buffered fa la n s : running s -> 0 <= fa -> 0 < n <= FLASH_BLOCK_SIZE -> n mod 4 = 0 ->
  la + n <= data \/ data + sizeof_boot_code_t <= la ->
  exists s', (flash_load fa (data + off_flashBuffer) n ;; memcpy la (data + off_flashBuffer) n) s = Ok tt s' /\
    loads work [] [(la, flash_bytes (flash (board s)) fa n)] s s'.
Proof.
  unfold FLASH_BLOCK_SIZE, sizeof_boot_code_t, off_flashBuffer. rewrite Z.add_0_r. intros Hr Hfa Hn H4 Hap.
  assert (Hbl2 : in_l2 data n) by (unfold in_l2, sizeof_boot_code_t in *; lia).
  destruct (flash_load_spec fa data n s Hr Hfa ltac:(lia) H4 Hbl2) as (s1 & E & [Hf Hc Ht Hs Hm]).
  rewrite (bind_ok _ _ _ _ _ E). unfold memcpy.
  assert (Hbuf : mem_read (ram (board s1)) data (Z.to_nat n) = flash_bytes (flash (board s)) fa n).
  { pose proof (flash_bytes_length (flash (board s)) fa n ltac:(lia)) as Hl.
    apply list_eq_same_length with (Z.to_nat n); [lia|apply mem_read_length|].
    intros i x y Hi. rewrite mem_read_lookup, flash_bytes_lookup by lia. intros [= <-] [= <-].
    rewrite Hm by (intros [_ Hx]; apply Hx; lia). cbn. rewrite flash_bytes_in by lia. f_equal. lia. }
  rewrite Hbuf. destruct (Z.leb_spec (la + n) data), (Z.leb_spec (data + n) la); cbn [orb]; try lia;
    (eexists; split; [reflexivity|]; split; cbn [board with_board with_ram flash ram aucclkdiv]; try done;
     intros x Hx; cbn; apply mem_write_agree; rewrite Hm by (intros [Hx' _]; apply Hx; by left); cbn;
     apply flash_bytes_out; [lia|]; intros Hin; apply Hx; right; left; unfold FLASH_BLOCK_SIZE; lia).
Qed.
(** *** The image's tables, once the loader has read them *)
Record tables (f : flash_hw) (m : memory) : Prop := {
  tb_words : forall x, data + off_header <= x < data + off_memArea + 16 * flash_nbAreas f ->
    mem_get m x = flash_byte f (x - (data + off_header));
  tb_block : load32 m (data + off_blockSize) = FLASH_BLOCK_SIZE
}.

Lemma tables_word f m o : tables f m -> 0 <= o -> o + 4 <= 16 + 16 * flash_nbAreas f ->
  load32 m (data + off_header + o) = flash_word f o.
Proof.
  intros [Hw _] Ho Hl. unfold load32, flash_word. unfold off_header, off_memArea in *.
  rewrite !Hw by lia. flash_sum.
Qed.

Definition clear_of_data (w : Z * list Z) : Prop :=
  w.1 + Z.of_nat (length w.2) <= data \/ data + sizeof_boot_code_t <= w.1.

Lemma writes_in_data ws m x : Forall clear_of_data ws -> in_data x -> mem_get (writes ws m) x = mem_get m x.
Proof.
  intros Hw Hx. apply writes_out. eapply Forall_impl; [exact Hw|]. unfold clear_of_data, covers, in_data in *. lia.
Qed.

(** Headers, area table and the fields behind the stack are not working storage. *)
Definition kept (x : Z) : Prop :=
  data + off_header <= x < data + off_memArea + 256 \/ data + off_hyperflash <= x < data + sizeof_boot_code_t.
Lemma kept_in_data x : kept x -> in_data x.
Proof. unfold kept, in_data, off_header, off_memArea, off_hyperflash, sizeof_boot_code_t. lia. Qed.
Lemma kept_not_work x : kept x -> ~ work x.
Proof.
  intros Hk [Hc|Hx]; [by apply (Hcmd x); [apply kept_in_data|]|]. revert Hk Hx.
  unfold kept, off_header, off_memArea, off_hyperflash, sizeof_boot_code_t, off_stack, BOOT_STACK_SIZE, FLASH_BLOCK_SIZE. lia.
Qed.

Lemma loads_kept out ws s s' x : loads work out ws s s' -> Forall clear_of_data ws -> kept x ->
  mem_get (ram (board s')) x = mem_get (ram (board s)) x.
Proof.
  intros L Hw Hx. rewrite (ld_mem _ _ _ _ _ L) by (by apply kept_not_work).
  apply writes_in_data; [done|by apply kept_in_data].
Qed.

Lemma loads_tables f out ws s s' : flash_nbAreas f <= MAX_NB_AREA -> tables f (ram (board s)) ->
  loads work out ws s s' -> Forall clear_of_data ws -> tables f (ram (board s')).
Proof.
  unfold MAX_NB_AREA. intros Hn [Hw Hb] L Hc. split.
  - intros x Hx. rewrite (loads_kept _ _ _ _ _ L Hc); [by apply Hw|]. left. lia.
  - rewrite <- Hb. apply load32_ext. intros x Hx. apply (loads_kept _ _ _ _ _ L Hc). right.
    unfold off_blockSize, off_hyperflash, sizeof_boot_code_t in *. lia.
Qed.

(** *** A section *)
Lemma load_blocks_spec f ar isL2 : forall (k fuel : nat) i fa la size s,
  flash (board s) = f -> flash_nbAreas f <= MAX_NB_AREA -> tables f (ram (board s)) -> running s ->
  kept (ar + 12) -> kept (ar + 15) -> load32 (ram (board s)) (ar + 12) = i + Z.of_nat k ->
  (k <= fuel)%nat -> 0 <= i -> i + Z.of_nat k < 2 ^ 32 ->
  0 <= size -> size mod 4 = 0 -> Z.of_nat k = blocks_of size ->
  0 <= fa -> fa + size < 2 ^ 32 -> 0 <= la -> la + size < 2 ^ 32 ->
  la + size <= data \/ data + sizeof_boot_code_t <= la -> (isL2 = true -> in_l2 la size) ->
  exists s', load_blocks fuel data ar isL2 i fa la size s = Ok tt s' /\
    loads work [] [(la, flash_bytes f fa size)] s s'.
Proof.
  unfold blocks_of, FLASH_BLOCK_SIZE. induction k as [|k IH]; intros fuel i fa la size s Hf Hnb Htab Hr Hk1 Hk2 Hbl Hfuel Hi Hik Hs0 Hs4 Hk Hfa Hfs Hla Hls Hap Hw.
  - assert (size = 0) as -> by (Z.div_mod_to_equations; lia). exists s. split.
    + destruct fuel; cbn [load_blocks]; rewrite bind_rd32, Hbl;
        destruct (Z.ltb_spec i (i + Z.of_nat 0)); (done || lia).
    + destruct (loads_refl work s (proj1 Hr)). by split.
  - destruct fuel as [|fuel]; [lia|]. cbn [load_blocks]. rewrite bind_rd32, Hbl.
    destruct (Z.ltb_spec i (i + Z.of_nat (S k))) as [_|]; [|lia].
    rewrite bind_rd32, (tb_block _ _ Htab).
    set (n := if FLASH_BLOCK_SIZE >? size then u32 (size + 3) &&& 0xfffffffc else FLASH_BLOCK_SIZE).
    assert (Hn : n = Z.min 4096 size).
    { unfold n. unfold FLASH_BLOCK_SIZE in *. destruct (Z.gtb_spec 4096 size); [|lia]. rewrite round4; unfold FLASH_BLOCK_SIZE; lia. }
    assert (Hnp : 0 < n <= FLASH_BLOCK_SIZE) by (unfold FLASH_BLOCK_SIZE; Z.div_mod_to_equations; lia).
    assert (Hblk : exists s1, (if isL2 then flash_load fa la n
         else flash_load fa (data + off_flashBuffer) n ;; memcpy la (data + off_flashBuffer) n) s = Ok tt s1 /\
        loads work [] [(la, flash_bytes (flash (board s)) fa n)] s s1).
    { assert (H4 : n mod 4 = 0) by (rewrite Hn; Z.div_mod_to_equations; lia).
      destruct isL2; [apply block_direct; try done|apply block_buffered; [done..|lia]].
      specialize (Hw eq_refl). unfold in_l2 in *. lia. }
    destruct Hblk as (s1 & E1 & L1). rewrite (bind_ok _ _ _ _ _ E1).
    assert (Hcl : Forall clear_of_data [(la, flash_bytes (flash (board s)) fa n)]).
    { apply Forall_cons_2; [|constructor]. unfold clear_of_data. cbn [fst snd]. rewrite flash_bytes_length; lia. }
    destruct (IH fuel (i + 1) (fa + n) (la + n) (size - n) s1) as (s2 & E2 & L2);
      try lia; try done.
    + by rewrite (ld_flash _ _ _ _ _ L1).
    + by eapply loads_tables.
    + by eapply running_loads.
    + rewrite <- Hbl in *. transitivity (load32 (ram (board s)) (ar + 12)); [|lia]. apply load32_ext. intros x Hx.
      apply (loads_kept _ _ _ _ _ L1 Hcl). unfold kept in *.
      unfold off_header, off_memArea, off_hyperflash, sizeof_boot_code_t in *. lia.
    + Z.div_mod_to_equations; lia.
    + Z.div_mod_to_equations; lia.
    + intros Hi2. specialize (Hw Hi2). unfold in_l2 in *. lia.
    + exists s2. rewrite !u32_small by lia. split; [exact E2|].
      pose proof (loads_trans _ _ _ _ _ _ _ _ L1 L2) as L. rewrite Hf in L.
      replace size with (n + (size - n)) by lia. rewrite flash_bytes_app by lia.
      destruct L as [Lf Lc Lt Ls Lm]. split; try done. intros x Hx. rewrite Lm by done. cbn.
      rewrite mem_write_app, flash_bytes_length by lia. done.
Qed.
Definition section_out (f : flash_hw) (i : Z) : list (Z * Z) :=
  line_out "Loading Section " ++ uart1 (hex_digits 8 i) ++ uart1 (ascii_bytes " to ") ++
  uart1 (hex_digits 8 (a_ptr (flash_area f i))).

Lemma section_clear f i : loadable data (flash_area f i) -> clear_of_data (section_write f i).
Proof.
  intros [Hs _ _ _ _ Ha]. unfold clear_of_data, section_write, area_bytes, apart in *. cbn [fst snd].
  rewrite flash_bytes_length; lia.
Qed.

Section Sections.
Context (f : flash_hw) (Hnb : flash_nbAreas f <= MAX_NB_AREA).
Context (fuel : nat) (Hfuel : forall i, 0 <= i < flash_nbAreas f -> a_blocks (flash_area f i) <= Z.of_nat fuel).
Context (Hok : forall i, 0 <= i < flash_nbAreas f -> loadable data (flash_area f i)).
Context (Hre : forall i, 0 <= i < flash_nbAreas f -> reached (flash_area f i)).

(** The machine between two sections. *)
Definition ready (s : machine) : Prop := flash (board s) = f /\ tables f (ram (board s)) /\ running s.

Lemma ready_loads out ws s s' : ready s -> loads work out ws s s' -> Forall clear_of_data ws -> ready s'.
Proof.
  intros (Hf & Ht & Hr) L Hc. split; [by rewrite (ld_flash _ _ _ _ _ L)|].
  split; [by eapply loads_tables|by eapply running_loads].
Qed.

Lemma lift_shows m out s : prints m out -> ready s ->
  exists s', lift m s = Ok tt s' /\ loads work out [] s s' /\ ready s'.
Proof.
  intros P Hr. destruct (print_loads m out s P) as (s' & E & L); [apply Hr|].
  exists s'. split; [done|]. split; [done|]. by eapply ready_loads.
Qed.

Lemma area_word s i o : ready s -> 0 <= i < flash_nbAreas f -> 0 <= o <= 12 ->
  load32 (ram (board s)) (data + off_memArea + 16 * i + o) = flash_word f (16 + 16 * i + o).
Proof.
  intros (_ & Ht & _) Hi Ho. rewrite <- (tables_word f _ (16 + 16 * i + o) Ht) by lia.
  f_equal. unfold off_memArea, off_header. lia.
Qed.

Lemma load_section_spec i s : ready s -> 0 <= i < flash_nbAreas f ->
  exists s', load_section fuel data (data + off_memArea + 16 * i) s = Ok tt s' /\
    loads work [] [section_write f i] s s' /\ ready s'.
Proof.
  intros Hr Hi. pose proof (Hok i Hi) as Hl. pose proof (section_clear f i Hl) as Hcl.
  destruct Hl as [Hs Hw Hb Hst Hp Ha]. pose proof (Hfuel i Hi) as Hfu. unfold load_section.
  pose proof (area_word s i 0 Hr Hi ltac:(lia)) as W0. rewrite !Z.add_0_r in W0.
  rewrite bind_rd32, W0, bind_rd32, (area_word s i 4), bind_rd32, (area_word s i 8) by (done || lia).
  change (flash_word f (16 + 16 * i)) with (a_start (flash_area f i)).
  change (flash_word f (16 + 16 * i + 4)) with (a_ptr (flash_area f i)).
  change (flash_word f (16 + 16 * i + 8)) with (a_size (flash_area f i)).
  set (a := flash_area f i) in *. unfold MAX_NB_AREA in *.
  assert (Ra : forall o, 0 <= flash_word f o < 2 ^ 32) by apply flash_word_range.
  pose proof (Ra (16 + 16 * i) : 0 <= a_start a < 2 ^ 32). pose proof (Ra (16 + 16 * i + 4) : 0 <= a_ptr a < 2 ^ 32).
  pose proof (Ra (16 + 16 * i + 12) : 0 <= a_blocks a < 2 ^ 32).
  assert (Hkept : forall o, 0 <= o < 16 -> kept (data + off_memArea + 16 * i + o)).
  { intros o Ho. left. unfold off_header, off_memArea. lia. }
  destruct Hr as (Hf & Ht & Hrun).
  destruct (load_blocks_spec f (data + off_memArea + 16 * i)
    ((a_ptr a >=? 0x1C000000) && (a_ptr a <? 0x1D000000)) (Z.to_nat (a_blocks a)) fuel 0 (a_start a) (a_ptr a)
    (a_size a) s) as (s' & E & L); try done; try lia; try (apply Hkept; lia).
  - rewrite (area_word s i 12) by (done || lia). change (flash_word f (16 + 16 * i + 12)) with (a_blocks a). lia.
  - intros [Hge Hlt]%andb_prop. apply Z.geb_le in Hge. apply Z.ltb_lt in Hlt. pose proof (Hre i Hi) as Hra. fold a in Hra.
    unfold reached, in_l2, FLASH_BLOCK_SIZE, sizeof_boot_code_t, L2_BASE in *. lia.
  - exists s'. split; [exact E|]. split; [exact L|]. eapply ready_loads; [by split|exact L|by apply Forall_cons_2].
Qed.

Lemma load_sections_spec : forall (k n : nat) i s, ready s -> (k <= n)%nat -> 0 <= i ->
  flash_nbAreas f = i + Z.of_nat k ->
  exists s', load_sections n fuel data i s = Ok tt s' /\ ready s' /\
    loads work (concat (map (section_out f) (seqZ i (Z.of_nat k)))) (map (section_write f) (seqZ i (Z.of_nat k))) s s'.
Proof.
  induction k as [|k IH]; intros n i s Hr Hn Hi Hk.
  all: assert (Hw : load32 (ram (board s)) (data + off_header + 4) = flash_nbAreas f)
    by (destruct Hr as (_ & Ht & _); by apply (tables_word f _ 4 Ht); lia).
  - exists s. split; [|split; [done|apply loads_refl, Hr]].
    destruct n; cbn [load_sections]; rewrite bind_rd32, Hw, Hk; destruct (Z.ltb_spec i (i + Z.of_nat 0)); (done || lia).
  - destruct n as [|n]; [lia|]. cbn [load_sections]. rewrite bind_rd32, Hw. destruct (Z.ltb_spec i (flash_nbAreas f)); [|lia].
    destruct (lift_shows _ _ s (dbg_line_prints "Loading Section " ltac:(literal) ltac:(literal)) Hr) as (s1 & Es1 & L1 & R1). rewrite (bind_ok _ _ _ _ _ Es1).
    destruct (lift_shows _ _ s1 (dbg_hex32_prints i) R1) as (s2 & Es2 & L2 & R2). rewrite (bind_ok _ _ _ _ _ Es2).
    destruct (lift_shows _ _ s2 (dbg_cstr_prints " to " ltac:(literal) ltac:(literal)) R2) as (s3 & Es3 & L3 & R3). rewrite (bind_ok _ _ _ _ _ Es3).
    unfold MAX_NB_AREA in *. rewrite bind_elem, bind_rd32, (area_word s3 i 4) by (done || unfold MAX_NB_AREA; lia).
    change (flash_word f (16 + 16 * i + 4)) with (a_ptr (flash_area f i)).
    destruct (lift_shows _ _ s3 (dbg_hex32_prints (a_ptr (flash_area f i))) R3) as (s4 & Es4 & L4 & R4). rewrite (bind_ok _ _ _ _ _ Es4).
    destruct (load_section_spec i s4 R4 ltac:(lia)) as (s5 & E5 & L5 & R5). rewrite (bind_ok _ _ _ _ _ E5).
    destruct (IH n (i + 1) s5 R5 ltac:(lia) ltac:(lia) ltac:(lia)) as (s6 & E6 & R6 & L6).
    exists s6. rewrite u32_small by lia. split; [exact E6|]. split; [exact R6|].
    replace (Z.of_nat (S k)) with (1 + Z.of_nat k) by lia. rewrite seqZ_app, !map_app, concat_app by lia.
    change (seqZ i 1) with [i]. cbn [map concat app]. rewrite app_nil_r.
    eapply (loads_trans _ _ _ [section_write f i]); [|exact L6]. unfold section_out.
    eapply (loads_trans _ _ _ [] [section_write f i]); [exact L1|].
    eapply (loads_trans _ _ _ [] [section_write f i]); [exact L2|].
    eapply (loads_trans _ _ _ [] [section_write f i]); [exact L3|].
    rewrite <- (app_nil_r (uart1 (hex_digits 8 (a_ptr _)))).
    eapply (loads_trans _ _ _ [] [section_write f i]); [exact L4|exact L5].
Qed.
End Sections.
(** *** The whole loader on its structure *)
Definition busy (x : Z) : Prop := cmdbuf x \/ in_data x.
Lemma work_busy x : work x -> busy x.
Proof.
  intros [Hc|Hx]; [by left|right]. revert Hx.
  unfold in_data, sizeof_boot_code_t, off_stack, BOOT_STACK_SIZE, FLASH_BLOCK_SIZE. lia.
Qed.

(** Stores to fields of the structure, one after the other. *)
Definition stored (l : list (Z * Z)) (s : machine) : machine :=
  with_board (with_ram (foldl (fun m p => store32 m p.1 p.2) (ram (board s)) l) (board s)) s.
Lemma stored_loads l s : timely (board s) ->
  Forall (fun p => data <= p.1 /\ p.1 + 4 <= data + sizeof_boot_code_t) l -> loads busy [] [] s (stored l s).
Proof.
  intros Ht Hl. split; try done; [intros id; by rewrite app_nil_r|]. intros x Hx. cbn.
  assert (Hx' : ~ in_data x) by (intros ?; apply Hx; by right). clear Hx Ht. generalize (ram (board s)) as m.
  induction Hl as [|[a v] l Ha Hl IH]; intros m; [done|]. cbn [foldl]. rewrite IH. unfold store32.
  apply mem_get_write_out. unfold in_data in Hx'. cbn [length le32 fst snd] in *. lia.
Qed.

(** Reading into the structure. *)
Lemma read_into fa la n s : running s -> 0 <= fa -> 0 < n < 65536 -> n mod 4 = 0 -> data <= la -> la + n <= data + sizeof_boot_code_t ->
  exists s', flash_load fa la n s = Ok tt s' /\ loads busy [] [] s s' /\
    (forall x, in_data x -> mem_get (ram (board s')) x =
       if decide (la <= x < la + n) then flash_byte (flash (board s)) (fa + (x - la)) else mem_get (ram (board s)) x).
Proof.
  intros Hr Hfa Hn H4 Hla1 Hla2. assert (Hla : in_l2 la n) by (unfold in_l2 in *; lia).
  destruct (flash_load_spec fa la n s Hr Hfa Hn H4 Hla) as (s' & E & [Hf Hc Ht Hs Hm]).
  exists s'. split; [done|]. split.
  - split; try done. intros x Hx. rewrite Hm by (intros [? _]; apply Hx; by left). cbn.
    apply flash_bytes_out; [lia|]. intros Hin. apply Hx. right. unfold in_data. lia.
  - intros x Hx. rewrite Hm by (intros [? _]; by apply (Hcmd x)). cbn.
    case_decide; [by apply flash_bytes_in|by apply flash_bytes_out; [lia|]].
Qed.

Lemma getMemAreas_spec f s : running s -> flash (board s) = f -> flash_nbAreas f <= MAX_NB_AREA ->
  load32 (ram (board s)) (data + off_blockSize) = FLASH_BLOCK_SIZE ->
  exists s', getMemAreas data s = Ok tt s' /\ ready f s' /\ loads busy [] [] s s'.
Proof.
  intros Hr Hf Hnb Hbs. unfold getMemAreas, sizeof_header, sizeof_area, MAX_NB_AREA in *.
  assert (Hin : forall x, data + off_header <= x < data + sizeof_boot_code_t -> in_data x).
  { unfold in_data, off_header. lia. }
  unfold off_header, off_memArea, off_blockSize, sizeof_boot_code_t in *.
  destruct (read_into 0 (data + 5128) 16 s) as (s1 & E1 & L1 & M1); try done; try (unfold sizeof_boot_code_t; lia).
  rewrite (bind_ok _ _ _ _ _ E1), bind_rd32. pose proof (running_loads _ _ _ _ _ Hr L1) as Hr1.
  rewrite Hf in M1.
  assert (Hnw : load32 (ram (board s1)) (data + 5128 + 4) = flash_nbAreas f).
  { unfold load32, flash_nbAreas, flash_word. rewrite !M1 by (apply Hin; lia).
    rewrite !decide_True by lia. flash_sum. }
  rewrite Hnw. pose proof (flash_word_range f 4 : 0 <= flash_nbAreas f < 2 ^ 32).
  replace (s32 (flash_nbAreas f)) with (flash_nbAreas f) by (unfold s32; rewrite Z.mod_small; lia).
  replace (if flash_nbAreas f >=? 16 then 16 else flash_nbAreas f) with (flash_nbAreas f)
    by (destruct (Z.geb_spec (flash_nbAreas f) 16); lia).
  destruct (Z.eqb_spec (flash_nbAreas f) 0) as [E0|Ne]; cbn [negb when].
  - exists s1. split; [done|]. split; [|done]. split; [by rewrite (ld_flash _ _ _ _ _ L1)|]. split; [|done].
    split; unfold off_header, off_memArea, off_blockSize in *.
    + intros x Hx. rewrite E0 in Hx. rewrite M1, decide_True by (try apply Hin; lia). f_equal; lia.
    + rewrite <- Hbs. apply load32_ext. intros x Hx. by rewrite M1, decide_False by (try apply Hin; lia).
  - rewrite u32_small by lia.
    destruct (read_into 16 (data + 5144) (flash_nbAreas f * 16) s1) as (s2 & E2 & L2 & M2);
      try done; try (unfold sizeof_boot_code_t; Z.div_mod_to_equations; lia).
    exists s2. split; [done|]. split; [|by apply (loads_trans busy [] [] [] [] _ s1)].
    split; [by rewrite (ld_flash _ _ _ _ _ L2), (ld_flash _ _ _ _ _ L1)|].
    split; [|by eapply running_loads]. rewrite (ld_flash _ _ _ _ _ L1), Hf in M2.
    split; unfold off_header, off_memArea, off_blockSize in *.
    + intros x Hx. rewrite M2 by (apply Hin; lia). case_decide; [f_equal; lia|].
      rewrite M1, decide_True by (try apply Hin; lia). f_equal; lia.
    + rewrite <- Hbs. apply load32_ext. intros x Hx. rewrite M2, decide_False by (try apply Hin; lia).
      by rewrite M1, decide_False by (try apply Hin; lia).
Qed.

Lemma findDataFit_spec f s : ready f s -> flash_nbAreas f <= MAX_NB_AREA ->
  findDataFit data s = Ok (data_fit (flash_areas f)) s.
Proof.
  intros Hr Hnb. unfold findDataFit, data_fit, flash_areas. pose proof (flash_word_range f 4 : 0 <= flash_nbAreas f < 2 ^ 32).
  assert (Hgen : forall (k n : nat) i addr, (k <= n)%nat -> 0 <= i -> flash_nbAreas f = i + Z.of_nat k ->
    findDataFit_loop n data i addr s =
      Ok (foldl fit_step addr (map (flash_area f) (seqZ i (Z.of_nat k)))) s).
  { unfold MAX_NB_AREA in *. pose proof Hr as (_ & Ht & _).
    induction k as [|k IH]; intros n i addr Hn Hi Hk.
    - destruct n; cbn [findDataFit_loop]; rewrite bind_rd32, (tables_word f _ 4 Ht) by lia;
        change (flash_word f 4) with (flash_nbAreas f); destruct (Z.ltb_spec i (flash_nbAreas f)); (done || lia).
    - destruct n as [|n]; [lia|]. cbn [findDataFit_loop]. rewrite bind_rd32, (tables_word f _ 4 Ht) by lia.
      change (flash_word f 4) with (flash_nbAreas f). destruct (Z.ltb_spec i (flash_nbAreas f)); [|lia].
      rewrite bind_elem by (unfold MAX_NB_AREA; lia).
      rewrite bind_rd32, (area_word f s i 4), bind_rd32, (area_word f s i 8), bind_rd32, (tb_block _ _ Ht)
        by (done || unfold MAX_NB_AREA; lia).
      rewrite u32_small by lia. rewrite IH by lia.
      replace (Z.of_nat (S k)) with (1 + Z.of_nat k) by lia. rewrite seqZ_app by lia.
      change (seqZ i 1) with [i]. done. }
  rewrite (Hgen (Z.to_nat (flash_nbAreas f)) 17%nat 0 0x1c000000) by (unfold MAX_NB_AREA in *; lia).
  by rewrite Z2Nat.id by lia.
Qed.

(** What the console shows of the load. *)
Definition boot_out (f : flash_hw) : list (Z * Z) :=
  concat (map (section_out f) (seqZ 0 (flash_nbAreas f))) ++
  line_out "Jumping to " ++ uart1 (hex_digits 8 (flash_entry f)) ++ uart1 (ascii_bytes " ").
Lemma loadBinaryAndStart_spec f fuel s : running s -> flash (board s) = f -> flash_nbAreas f <= MAX_NB_AREA ->
  load32 (ram (board s)) (data + off_blockSize) = FLASH_BLOCK_SIZE ->
  (forall i, 0 <= i < flash_nbAreas f -> a_blocks (flash_area f i) <= Z.of_nat fuel) ->
  (forall i, 0 <= i < flash_nbAreas f -> loadable data (flash_area f i)) ->
  (forall i, 0 <= i < flash_nbAreas f -> reached (flash_area f i)) ->
  exists s', loadBinaryAndStart fuel data s = Jump (flash_entry f) s' /\ loads busy (boot_out f) (image_writes f) s s'.
Proof.
  intros Hr Hf Hnb Hbs Hfuel Hok Hre. pose proof (flash_word_range f 4 : 0 <= flash_nbAreas f < 2 ^ 32).
  destruct (getMemAreas_spec f s Hr Hf Hnb Hbs) as (s1 & E1 & R1 & L1).
  unfold loadBinaryAndStart. rewrite (bind_ok _ _ _ _ _ E1).
  destruct (load_sections_spec f Hnb fuel Hfuel Hok Hre (Z.to_nat (flash_nbAreas f)) 17 0 s1 R1) as (s2 & E2 & R2 & L2);
    try (unfold MAX_NB_AREA in *; lia).
  rewrite (bind_ok _ _ _ _ _ E2). rewrite Z2Nat.id in L2 by lia.
  destruct (lift_shows f Hnb _ _ s2 (dbg_line_prints "Jumping to " ltac:(literal) ltac:(literal)) R2) as (s3 & E3 & L3 & R3).
  rewrite (bind_ok _ _ _ _ _ E3), bind_rd32. pose proof R3 as (_ & T3 & _).
  rewrite (tables_word f _ 8 T3) by lia. change (flash_word f 8) with (flash_entry f).
  destruct (lift_shows f Hnb _ _ s3 (dbg_hex32_prints (flash_entry f)) R3) as (s4 & E4 & L4 & R4).
  rewrite (bind_ok _ _ _ _ _ E4).
  destruct (lift_shows f Hnb _ _ s4 (dbg_cstr_prints " " ltac:(literal) ltac:(literal)) R4) as (s5 & E5 & L5 & R5).
  rewrite (bind_ok _ _ _ _ _ E5). unfold jump_to_entry. rewrite bind_rd32. pose proof R5 as (_ & T5 & _).
  rewrite (tables_word f _ 8 T5) by lia. exists s5.
  split; [unfold jump_to_address; by rewrite u32_small by apply flash_word_range|].
  pose proof (loads_trans _ _ _ _ _ _ _ _ L4 L5) as L45. pose proof (loads_trans _ _ _ _ _ _ _ _ L3 L45) as L35.
  pose proof (loads_trans _ _ _ _ _ _ _ _ L2 L35) as L25. cbn [app] in L25. rewrite app_nil_r in L25.
  apply (loads_weaken work busy) in L25; [|apply work_busy].
  exact (loads_trans _ _ _ _ _ _ _ _ L1 L25).
Qed.
End Loader.

(** ** [bootFromRom] *)

(** The image is fine, the uDMA reaches what it has to, and there is room for the
    loader's structure away from [auccmd]. *)
Record image_ok `{Layout} (f : flash_hw) (fuel : nat) : Prop := {
  im_fine : image_fine f fuel;
  im_reached : forall i, 0 <= i < flash_nbAreas f -> reached (flash_area f i);
  im_room : data_fit (flash_areas f) + sizeof_boot_code_t <= addr_auccmd \/
            addr_auccmd + 64 <= data_fit (flash_areas f)
}.

(** The laws of the flash driver do not depend on where the stack is. *)
#[local] Instance flash_port_on_stack `{Budget} `{Frames} `{L : Layout} `{FlashPort} (P : FlashPortOk _) sp :
  @FlashPortOk _ (on_stack L sp) _.
Proof. destruct P. split; assumption. Qed.

Lemma scratch_on_stack `{FramesOk} (L : Layout) sp x : @scratch (on_stack L sp) x -> sp - BOOT_STACK_SIZE <= x < sp.
Proof.
  pose proof frames_c. pose proof frames_lChar. unfold scratch, on_stack, addr_c, addr_lChar. lia.
Qed.

Lemma locals_on_stack `{FramesOk} (L : Layout) data : in_l2 data sizeof_boot_code_t ->
  LocalsOk (on_stack L (data + off_stack + BOOT_STACK_SIZE)).
Proof.
  pose proof frames_c. pose proof frames_lChar. unfold in_l2, sizeof_boot_code_t, off_stack, BOOT_STACK_SIZE in *.
  intros Hd. split; unfold in_l2, on_stack, addr_c, addr_lChar, BOOT_STACK_SIZE; lia.
Qed.

Section Boot.
Context `{Budget} `{SocConfig} `{LayoutOk} `{FramesOk} `{UartPort} `{!UartPortOk _} `{FlashPort} `{!FlashPortOk _}.

(** The state after the image has been loaded. *)
Record booted (f : flash_hw) (s s' : machine) : Prop := {
  bt_sections : forall i, 0 <= i < flash_nbAreas f ->
    let a := flash_area f i in
    (forall x, a_ptr a <= x < a_ptr a + a_size a -> ~ cmdbuf x) ->
    mem_read (ram (board s')) (a_ptr a) (Z.to_nat (a_size a)) = flash_bytes f (a_start a) (a_size a);
  bt_others : forall x, ~ cmdbuf x -> ~ in_data addr_bootCode x -> ~ in_data (data_fit (flash_areas f)) x ->
    (forall i, 0 <= i < flash_nbAreas f ->
       ~ a_ptr (flash_area f i) <= x < a_ptr (flash_area f i) + a_size (flash_area f i)) ->
    mem_get (ram (board s')) x = mem_get (ram (board s)) x;
  bt_console : forall id, sent id (board s') = sent id (board s) ++ on_uart id (boot_out f)
}.

Lemma booted_intro f fuel s s1 s' : image_ok f fuel ->
  loads (busy addr_bootCode) [] [] s s1 ->
  loads (busy (data_fit (flash_areas f))) (boot_out f) (image_writes f) s1 s' -> booted f s s'.
Proof.
  intros [Him _ _] L1 L2. split.
  - intros i Hi a Hc. destruct (im_section _ _ Him i Hi) as (Hs & _ & _ & _ & _ & _). fold a in Hs.
    pose proof (lo_apart _ _ (image_loadable f fuel Him i Hi)) as Hap. fold a in Hap.
    pose proof (flash_bytes_length f (a_start a) (a_size a) ltac:(lia)) as Hl.
    apply list_eq_same_length with (Z.to_nat (a_size a)); [lia|apply mem_read_length|].
    intros k x y Hk. rewrite mem_read_lookup, flash_bytes_lookup by lia. intros <-%(inj Some) <-%(inj Some).
    rewrite (ld_mem _ _ _ _ _ L2).
    + rewrite (image_in f fuel Him _ i) by (fold a; lia). fold a. f_equal. lia.
    + intros [Hx|Hx]; [apply (Hc (a_ptr a + Z.of_nat k)); (done || lia)|]. unfold in_data, apart in *. lia.
  - intros x Hc Hb Hn Ha. rewrite (ld_mem _ _ _ _ _ L2), (image_out f fuel Him) by (done || by intros [|]).
    by rewrite (ld_mem _ _ _ _ _ L1) by by intros [|].
  - intros id. rewrite (ld_sent _ _ _ _ _ L2), (ld_sent _ _ _ _ _ L1). cbn. by rewrite app_nil_r.
Qed.

Lemma bootFromRom_boots f fuel s : running s -> flash (board s) = f -> image_ok f fuel ->
  exists s', bootFromRom fuel 0 0 s = Jump (flash_entry f) s' /\ booted f s s'.
Proof.
  intros Hr Hf Hok. pose proof (im_fine _ _ Hok) as Him. pose proof nbAreas_range f fuel Him as Hn. pose proof (im_count _ _ Him) as Hc.
  set (nd := data_fit (flash_areas f)). set (bc := addr_bootCode).
  destruct (image_fit f fuel Him) as (_ & Hnd). fold nd in Hnd.
  assert (Hbc : forall x, in_data bc x -> ~ cmdbuf x).
  { intros x. pose proof layout_bootCode_auccmd. unfold in_data, cmdbuf, sizeof_boot_code_t, bc. lia. }
  assert (Hbl : in_l2 bc sizeof_boot_code_t) by apply layout_bootCode.
  assert (Hbd : 0 <= bc /\ bc + sizeof_boot_code_t <= 2 ^ 32) by (unfold in_l2, L2_BASE, L2_SIZE in Hbl; lia).
  pose proof (image_fit_l2 f fuel Him (im_reached _ _ Hok)) as Hnl. fold nd in Hnl.
  pose proof (locals_on_stack _ nd Hnl) as Hlocals.
  assert (Hnc : forall x, in_data nd x -> ~ cmdbuf x).
  { pose proof (im_room _ _ Hok) as Hroom. fold nd in Hroom. intros x. unfold in_data, cmdbuf in *. lia. }
  unfold bootFromRom. fold bc. change (block_size 0) with FLASH_BLOCK_SIZE.
  set (l1 := [(bc + off_hyperflash, 0); (bc + off_step, 0); (bc + off_blockSize, FLASH_BLOCK_SIZE); (bc + off_qpi, 0)]).
  set (l2 := [(nd + off_hyperflash, 0); (nd + off_qpi, 0); (nd + off_blockSize, FLASH_BLOCK_SIZE)]).
  assert (Hl1 : loads (busy bc) [] [] s (stored l1 s)).
  { apply stored_loads; [apply Hr|]. unfold off_hyperflash, off_step, off_blockSize, off_qpi, sizeof_boot_code_t in *.
    repeat (apply Forall_cons_2; [cbn; lia|]). constructor. }
  destruct (getMemAreas_spec bc Hbc Hbl f (stored l1 s)) as (s2 & E2 & R2 & L2); try done.
  { cbn. rewrite load32_store32_disjoint, load32_store32 by (unfold off_blockSize, off_qpi; lia). done. }
  rewrite !bind_wr32. change (with_board (with_ram (store32 _ (bc + off_qpi) 0) _) _) with (stored l1 s).
  rewrite (bind_ok _ _ _ _ _ E2). erewrite bind_ok by by apply findDataFit_spec. fold nd.
  pose proof R2 as (Hf2 & _ & Hr2).
  assert (Hl2 : loads (busy nd) [] [] s2 (stored l2 s2)).
  { apply stored_loads; [apply Hr2|]. unfold off_hyperflash, off_blockSize, off_qpi, sizeof_boot_code_t in *.
    repeat (apply Forall_cons_2; [cbn; lia|]). constructor. }
  rewrite !bind_wr32. change (with_board (with_ram (store32 _ (nd + off_blockSize) _) _) _) with (stored l2 s2).
  unfold loadBinaryAndStart_newStack, changeStack.
  rewrite u32_small by (unfold off_stack, BOOT_STACK_SIZE, sizeof_boot_code_t in *; lia).
  destruct (@loadBinaryAndStart_spec _ (on_stack _ (nd + off_stack + BOOT_STACK_SIZE)) Hlocals _ _ _ _ nd) with (f := f) (fuel := fuel) (s := stored l2 s2)
    as (s4 & E4 & L4).
  - intros x Hx%scratch_on_stack. lia.
  - exact Hnc.
  - exact Hnl.
  - by eapply running_loads.
  - done.
  - done.
  - cbn. by rewrite load32_store32.
  - intros i Hi. by apply (im_section _ _ Him i Hi).
  - by apply (image_loadable f fuel).
  - apply (im_reached _ _ Hok).
  - exists s4. split; [exact E4|]. apply (booted_intro f fuel s s2 s4 Hok).
    + exact (loads_trans _ _ _ _ _ _ _ _ Hl1 L2).
    + exact (loads_trans _ _ _ _ _ _ _ _ Hl2 L4).
Qed.
End Boot.

(** ** Properties *)
Section Properties.
Context `{Budget} `{SocConfig} `{LayoutOk} `{FramesOk} `{UartPort} `{!UartPortOk _} `{FlashPort} `{!FlashPortOk _}.

(** C4. Booting from flash.  On a board whose transfers drain within the poll budget
    and whose flash holds a well-formed image, its sections made of whole words and
    within reach of the uDMA ([im_reached]), [bootFromRom] returns from none of its
    loops' bounds: it enters the image at its entry address.  By then every
    section lies at its address byte for byte, whether it went straight to L2
    or through the flash buffer; no other memory changed but the loader's own
    structures and the command buffer, and the console shows each section and
    the entry. *)
Theorem flash_image_boots f fuel s :
  timely (board s) -> 0 <= aucclkdiv s < 256 -> flash (board s) = f -> image_ok f fuel ->
  exists s', bootFromRom fuel 0 0 s = Jump (flash_entry f) s' /\ booted f s s'.
Proof. intros Ht Hd. by apply bootFromRom_boots. Qed.

(** C5. [findDataFit] finds room: once the tables of an image are in the structure,
    it returns an address, inside the 32-bit space, at which a [boot_code_t]
    overlaps none of the sections, provided these come in the order of their end
    addresses.  It writes nothing. *)
Theorem findDataFit_apart data f s :
  ready data f s -> flash_nbAreas f <= MAX_NB_AREA -> Forall area_low (flash_areas f) -> by_end (flash_areas f) ->
  exists addr, findDataFit data s = Ok addr s /\ Forall (apart addr) (flash_areas f) /\
    0 <= addr <= 2 ^ 32 - sizeof_boot_code_t.
Proof.
  intros Hr Hn Hl Hs. exists (data_fit (flash_areas f)). split; [by apply findDataFit_spec|].
  by apply data_fit_apart.
Qed.
End Properties.

(** ** Concrete images *)
(** The order of the sections matters: with the later section first, the address
    [findDataFit] moves to is inside a section it has already passed. *)
Definition unsorted_image : list Z :=
  [0; 2; 0x1C000080; 0;  0x30; 0x1C002000; 4; 1;  0x34; 0x1C001000; 4; 1].
Definition seventeen_sections : list Z := [0; 17; 0x1C000080; 0].

Section Witnesses.
#[local] Instance w_budget : Budget := sample_budget.
#[local] Instance w_layout : Layout := sample_layout.
#[local] Instance w_frames : Frames := {| frame_c := 1000; frame_lChar := 1004 |}.
#[local] Instance w_frames_ok : FramesOk w_frames.
Proof. split; unfold BOOT_STACK_SIZE; simpl; lia. Qed.
#[local] Instance w_config : SocConfig := {| UDMA_CTRL_UART0_CLKEN := 1; UDMA_CTRL_QSPIM0_CLKEN := 4 |}.

Definition sample_machine (words : list Z) : machine := after_crt0 (reset_board (image_flash words)).

Lemma sample_image_ok : image_ok (image_flash sample_image) 1.
Proof.
  split; [apply sample_image_fine| |left; by vm_compute]. intros i Hi.
  assert (i = 0 \/ i = 1) as [-> | ->] by (change (flash_nbAreas _) with 2 in Hi; lia); left; by vm_compute.
Qed.

Lemma flash_image_boots_witness :
  let f := image_flash sample_image in let s := sample_machine sample_image in
  exists s', bootFromRom 1 0 0 s = Jump (flash_entry f) s' /\ booted f s s'.
Proof.
  intros f s. apply (flash_image_boots f 1 s); [apply reset_timely|simpl; lia|reflexivity|apply sample_image_ok].
Defined.
Lemma findDataFit_apart_witness :
  let f := image_flash sample_image in
  exists s addr, findDataFit addr_bootCode s = Ok addr s /\ Forall (apart addr) (flash_areas f) /\
    0 <= addr <= 2 ^ 32 - sizeof_boot_code_t.
Proof.
  intros f.
  assert (Hcl : forall x, in_data addr_bootCode x -> ~ cmdbuf x).
  { intros x. unfold in_data, cmdbuf, addr_bootCode, addr_auccmd, w_layout, sample_layout, sizeof_boot_code_t. lia. }
  assert (Hl2 : in_l2 addr_bootCode sizeof_boot_code_t) by apply layout_bootCode.
  destruct (getMemAreas_spec addr_bootCode Hcl Hl2 f
      (stored [(addr_bootCode + off_blockSize, FLASH_BLOCK_SIZE)] (sample_machine sample_image))) as (s & _ & Hr & _).
  - split; [apply reset_timely|simpl; lia].
  - reflexivity.
  - by vm_compute.
  - by vm_compute.
  - exists s. apply (findDataFit_apart addr_bootCode f s Hr).
    + by vm_compute.
    + apply (bool_decide_unpack (Forall (fun a => 0 <= a_ptr a /\ 0 <= a_size a /\
        a_ptr a + a_size a + FLASH_BLOCK_SIZE + sizeof_boot_code_t <= 2 ^ 32) (flash_areas f))). by vm_compute.
    + unfold by_end. change (flash_areas f) with (map (flash_area f) (seqZ 0 (Z.of_nat 2))).
      apply sorted_index. intros i j Hi Hij Hj. assert (i = 0) as -> by lia. assert (j = 1) as -> by lia. by vm_compute.
Defined.

(** The search of [findDataFit] is a single pass: for sections that are not
    in the order of their ends it can return an address inside one of them, here
    the address of the first section itself. *)
Theorem findDataFit_unsorted_overlaps :
  let f := image_flash unsorted_image in let data := addr_bootCode in
  exists addr s', (wr32 (data + off_blockSize) FLASH_BLOCK_SIZE ;; getMemAreas data ;; findDataFit data)
      (sample_machine unsorted_image) = Ok addr s' /\
    addr = a_ptr (flash_area f 0) /\ 0 < a_size (flash_area f 0).
Proof.
  intros f data.
  destruct (ok_with_true (fun addr _ => addr =? a_ptr (flash_area f 0)) ((wr32 (data + off_blockSize) FLASH_BLOCK_SIZE ;;
    getMemAreas data ;; findDataFit data) (sample_machine unsorted_image))) as (addr & s' & E & Ha); [by vm_compute|].
  exists addr, s'. split; [exact E|]. split; [by apply Z.eqb_eq|by vm_compute].
Qed.

(** The section count of the header is clamped when the table is read but not
    when it is walked: with 17 sections the loader indexes past [memArea]. *)
Theorem seventeen_sections_overrun :
  exists s', bootFromRom 1 0 0 (sample_machine seventeen_sections) = Fault s'.
Proof. apply is_fault_true. by vm_compute. Qed.
End Witnesses.
