(* ===== verification/BootMain.v ===== *)
(** * BootMain: what [main] does from reset

    The set-up, the choice between the flash and a host, and the state in which the
    loop that serves the host starts. *)

From S2P Require Import Prelude Monad Crc Hw Uart Dbg Spi I2cs Machine UartProtocol SRecord I2CProtocol Boot FlashImage FlashBoot.

(** ** The board during set-up

    [setup out h h']: the bytes [out] went out; memory is unchanged but for the
    scratch locals, and so is everything the protocols and the flash loader look at. *)
Record setup `{Budget} `{Layout} (out : list (Z * Z)) (h h' : hw) : Prop := {
  st_ram : forall x, ~ scratch x -> mem_get (ram h') x = mem_get (ram h) x;
  st_flash : flash h' = flash h;
  st_reset : s_reset_reason h' = s_reset_reason h;
  st_boot : s_bootsel h' = s_bootsel h;
  st_jtagreg : s_jtagreg h' = s_jtagreg h;
  st_jtag : s_jtag h' = s_jtag h;
  st_status : i_status (i2cs h') = i_status (i2cs h);
  st_i2c_rx : i_rx (i2cs h') = i_rx (i2cs h);
  st_i2c_out : i_out (i2cs h') = i_out (i2cs h);
  st_sent : forall id, sent id h' = sent id h ++ on_uart id out;
  st_rx : forall id, rx_schedule id h' = rx_schedule id h;
  st_timely : timely h -> timely h'
}.

Section Setup.
Context `{Budget} `{Layout}.

Lemma setup_refl h : setup [] h h.
Proof. split; try done. intros id. by rewrite app_nil_r. Qed.

Lemma setup_trans o1 o2 h1 h2 h3 : setup o1 h1 h2 -> setup o2 h2 h3 -> setup (o1 ++ o2) h1 h3.
Proof.
  intros [] []. split; try congruence; try (intros; congruence).
  - intros x Hx. by rewrite st_ram1, st_ram0.
  - intros id. by rewrite st_sent1, st_sent0, on_uart_app, app_assoc.
  - auto.
Qed.

Lemma setup_printed out h h' : printed out h h' -> setup out h h'.
Proof.
  intros P. pose proof (fun x => printed_ram _ _ _ x P) as Hr. destruct P as (m & _ & [B Hs Hx Ht]).
  split; try (rewrite ?(same_i2cs _ _ B); apply B); try done; by rewrite (same_i2cs _ _ B).
Qed.

(** Effects on a part of the board nobody looks at later. *)
Lemma setup_same h h' : ram h' = ram h -> uarts h' = uarts h -> flash h' = flash h -> delays h' = delays h ->
  s_reset_reason h' = s_reset_reason h -> s_bootsel h' = s_bootsel h -> s_jtagreg h' = s_jtagreg h ->
  s_jtag h' = s_jtag h -> i_status (i2cs h') = i_status (i2cs h) ->
  i_rx (i2cs h') = i_rx (i2cs h) -> i_out (i2cs h') = i_out (i2cs h) -> setup [] h h'.
Proof.
  intros Er Eu Ef Ed. intros. split; try done; rewrite ?Er; try done.
  - intros id. unfold sent, get_uart. by rewrite Eu, app_nil_r.
  - intros id. unfold rx_schedule, get_uart. by rewrite Eu.
  - unfold timely, get_uart. by rewrite Eu, Ed.
Qed.

Lemma setFLL_sets n h : exists h', setFLLInResetAndBypass n h = Ok tt h' /\ setup [] h h'.
Proof.
  unfold setFLLInResetAndBypass. destruct (n <=? 2); cbn [when]; [|exists h; split; [done|apply setup_refl]].
  autorewrite with monad. eexists. split; [reflexivity|]. by apply setup_same.
Qed.

Lemma FLLs_set h : exists h', for_ 3 0 setFLLInResetAndBypass h = Ok tt h' /\ setup [] h h'.
Proof.
  destruct (setFLL_sets 0 h) as (h1 & E1 & S1). destruct (setFLL_sets 1 h1) as (h2 & E2 & S2).
  destruct (setFLL_sets 2 h2) as (h3 & E3 & S3). exists h3. split.
  - rewrite for_S, (bind_ok _ _ _ _ _ E1), for_S. change (0 + 1) with 1.
    rewrite (bind_ok _ _ _ _ _ E2), for_S. change (1 + 1) with 2. by rewrite (bind_ok _ _ _ _ _ E3).
  - exact (setup_trans _ _ _ _ _ S1 (setup_trans _ _ _ _ _ S2 S3)).
Qed.

Lemma i2c_slave_set h : exists h',
  (_ ← hal_set_apb_i2cs_slave_on_off 1;
   a ← hal_get_apb_i2cs_slave_address;
   when (negb (a =? MY_I2C_SLAVE_ADDRESS)) (hal_set_apb_i2cs_slave_address MY_I2C_SLAVE_ADDRESS)) h = Ok tt h' /\
  setup [] h h'.
Proof.
  unfold hal_set_apb_i2cs_slave_on_off, hal_get_apb_i2cs_slave_address, rd8. cbn [Z.eqb Pos.eqb].
  autorewrite with monad. cbn [hw_read hw_write i2cs_read i2cs_write fst snd i2cs with_i2cs].
  destruct (negb _); cbn [when]; unfold hal_set_apb_i2cs_slave_address, wr, skip;
    eexists; (split; [reflexivity|]); apply setup_same; reflexivity.
Qed.

Definition is_setup (r : uart_reg) : bool :=
  match r with
  | uart_setup_div | uart_setup_bits | uart_setup_rx_polling_en | uart_setup_en_tx | uart_setup_en_rx => true
  | _ => false
  end.

(** A write to the setup register keeps the channel's data. *)
Lemma setup_wr_uart id r v h : is_setup r = true -> setup [] h (hw_write (Uart id r) v h).
Proof.
  intros Hr. set (u := get_uart id h).
  assert (Hu : exists u', hw_write (Uart id r) v h = with_uart id u' h /\
    u_sent u' = u_sent u /\ u_rx u' = u_rx u /\ u_busy u' = u_busy u).
  { destruct r; try discriminate Hr; eexists; (split; [reflexivity|]); done. }
  destruct Hu as (u' & -> & Es & Er & Eb). subst u.
  assert (Hget : forall j, u_sent (get_uart j (with_uart id u' h)) = u_sent (get_uart j h) /\
    u_rx (get_uart j (with_uart id u' h)) = u_rx (get_uart j h) /\
    u_busy (get_uart j (with_uart id u' h)) = u_busy (get_uart j h)).
  { intros j. destruct (decide (id = j)) as [<- |Hne]; [by rewrite get_with_uart|by rewrite get_with_uart_ne]. }
  split; try done.
  - intros j. rewrite app_nil_r. apply Hget.
  - intros j. apply Hget.
  - intros [Hd Hbusy]. split; [done|]. intros j. rewrite (proj2 (proj2 (Hget j))). apply Hbusy.
Qed.

Lemma setup_wr_udma r v h : r = Udma_reg_rst \/ r = Udma_reg_cg -> setup [] h (hw_write r v h).
Proof. intros [-> | ->]; apply setup_same; reflexivity. Qed.

Lemma uart_opens `{SocConfig} id baud h : 0 < baud ->
  exists h', udma_uart_open id baud h = Ok 0 h' /\ setup [] h h'.
Proof.
  intros Hb. unfold udma_uart_open. destruct (Z.eqb_spec baud 0); [lia|].
  do 3 (rewrite bind_rd; cbn [hw_read fst snd]; rewrite bind_wr). rewrite !bind_wr. eexists. split; [reflexivity|].
  do 5 (eapply (setup_trans [] []); [|by apply setup_wr_uart]).
  do 2 (eapply (setup_trans [] []); [|apply setup_wr_udma; auto]). apply setup_wr_udma; auto.
Qed.
End Setup.

(** ** From reset to the choice *)
Definition plain (s : string) : Prop :=
  Forall (fun c => 0 < c < 256) (ascii_bytes s) /\ Forall (fun c => c <> 10) (ascii_bytes s).
Class RomBuildOk (R : RomBuild) : Prop := { date_plain : plain DATE; time_plain : plain TIME }.

Definition banner_out `{RomBuild} (bootsel resetreason : Z) : list (Z * Z) :=
  uart1 (ascii_bytes DATE) ++ uart1 (ascii_bytes "  ") ++ uart1 (ascii_bytes TIME) ++
  line_out "A2 Bootloader Bootsel=" ++
  uart1 (ascii_bytes (if bootsel =? 1 then "1 " else "0 ")) ++ uart1 (ascii_bytes "rr=") ++
  uart1 (hex_digits 2 resetreason).

(** The board after the flash was opened and probed. *)
(** [udma_flash_readid(lFlashID)] passes 0 as the address: the identifier goes to the
    first four bytes of L2. *)
Definition probe_id (f : flash_hw) (m : memory) : memory := mem_write m L2_BASE (take 4 (flash_id f)).

Record probed `{Budget} `{Layout} (s s' : machine) : Prop := {
  pr_clk : aucclkdiv s' = 2;
  pr_flags : flgs s' = flgs s;
  pr_uartp : uartp s' = uartp s;
  pr_i2cp : i2cp s' = i2cp s;
  pr_crc : crcTable s' = crcTable s;
  pr_op : flash_op (board s) (board s');
  pr_ram : forall x, ~ cmdbuf x -> mem_get (ram (board s')) x = mem_get (probe_id (flash (board s)) (ram (board s))) x
}.

Section Choice.
Context `{Budget} `{SocConfig} `{LayoutOk} `{FramesOk} `{UartPort} `{!UartPortOk _} `{I2csPort} `{FlashPort}
  `{!FlashPortOk _} `{RomBuild} `{!RomBuildOk _}.

Lemma banner_prints b rr : prints (banner b rr) (banner_out b rr).
Proof.
  destruct date_plain, time_plain. unfold banner, banner_out.
  apply prints_seq; [by apply dbg_cstr_prints|].
  apply prints_seq; [apply (dbg_cstr_prints "  "); literal|].
  apply prints_seq; [by apply dbg_cstr_prints|].
  apply prints_seq; [apply (dbg_line_prints "A2 Bootloader Bootsel="); literal|].
  apply prints_seq; [destruct (b =? 1); [apply (dbg_cstr_prints "1 ")|apply (dbg_cstr_prints "0 ")]; literal|].
  apply prints_seq; [apply (dbg_cstr_prints "rr="); literal|apply dbg_hex8_prints].
Qed.

Lemma banner_not_uart0 b rr : on_uart 0 (banner_out b rr) = [].
Proof. unfold banner_out, line_out, uart1. rewrite !on_uart_app. by rewrite !(on_uart_other 1 0). Qed.

Lemma main_setup_spec h : timely h ->
  let b := s_bootsel h &&& 1 in let rr := s_reset_reason h in
  exists h', main_setup h = Ok (b, rr) h' /\ setup (banner_out b rr) h h'.
Proof.
  intros Ht b rr. unfold main_setup.
  destruct (FLLs_set h) as (h1 & E1 & S1). rewrite (bind_ok _ _ _ _ _ E1). rewrite !bind_rd. cbn [hw_read soc_read fst snd].
  destruct (i2c_slave_set h1) as (h2 & E2 & S2).
  destruct (uart_opens 0 115200 h2 ltac:(lia)) as (h3 & E3 & S3).
  destruct (uart_opens 1 115200 h3 ltac:(lia)) as (h4 & E4 & S4).
  pose proof (setup_trans _ _ _ _ _ (setup_trans _ _ _ _ _ (setup_trans _ _ _ _ _ S1 S2) S3) S4) as S14.
  rewrite (st_boot _ _ _ S1), (st_reset _ _ _ S1). fold b rr.
  destruct (banner_prints b rr h4) as (h5 & E5 & P5); [by apply (st_timely _ _ _ S14)|].
  exists h5. split.
  - revert E2. generalize (hal_set_apb_i2cs_slave_on_off 1). intros m E2.
    enough (Hk : forall (k : M hw (Z * Z)), (_ ← m; a ← hal_get_apb_i2cs_slave_address;
      when (negb (a =? MY_I2C_SLAVE_ADDRESS)) (hal_set_apb_i2cs_slave_address MY_I2C_SLAVE_ADDRESS) ;; k) h1 = k h2).
    { rewrite Hk, (bind_ok _ _ _ _ _ E3), (bind_ok _ _ _ _ _ E4), (bind_ok _ _ _ _ _ E5). done. }
    intros k. revert E2. unfold mbind, M_bind.
    destruct (m h1) as [z h1'| | |]; try discriminate.
    destruct (hal_get_apb_i2cs_slave_address h1') as [a h1''| | |]; try discriminate.
    by intros ->.
  - exact (setup_trans _ _ _ _ _ S14 (setup_printed _ _ _ P5)).
Qed.

Lemma main_flash_spec s : timely (board s) -> (4 <= length (flash_id (flash (board s))))%nat ->
  exists s', main_flash s = Ok tt s' /\ probed s s'.
Proof.
  intros Ht Hid. unfold main_flash.
  destruct (flash_opens 2500000 (board s) Ht ltac:(lia)) as (h1 & E1 & F1 & R1).
  pose proof (fo_timely _ _ F1 Ht) as Ht1.
  destruct (flash_commands 2 h1 Ht1 ltac:(lia)) as ((h2 & E2 & F2 & R2) & _).
  pose proof (fo_timely _ _ F2 Ht1) as Ht2.
  destruct (flash_commands 2 h2 Ht2 ltac:(lia)) as (_ & (h3 & E3 & F3 & R3)).
  pose proof (fo_timely _ _ F3 Ht2) as Ht3.
  destruct (flash_reads_id 2 0 h3 Ht3 ltac:(lia)) as (h4 & E4 & F4 & R4); [| |change (l2_addr 0) with L2_BASE in R4].
  2: { by vm_compute. }
  { by rewrite (fo_flash _ _ F3), (fo_flash _ _ F2), (fo_flash _ _ F1). }
  rewrite (bind_lift _ _ _ _ _ E1), bind_modify, bind_gets. cbn [aucclkdiv with_clkdiv snd].
  change (u8 (5000000 / 2500000)) with 2.
  rewrite (bind_lift _ _ (with_clkdiv 2 (with_board h1 s)) _ _ E2), (bind_lift _ _ (with_board h2 (with_clkdiv 2 (with_board h1 s))) _ _ E3).
  exists (with_board h4 (with_clkdiv 2 s)). split.
  - by rewrite (lift_ok _ (with_board h3 (with_board h2 (with_clkdiv 2 (with_board h1 s)))) _ _ E4).
  - split; try done.
    + exact (flash_op_trans _ _ _ F1 (flash_op_trans _ _ _ F2 (flash_op_trans _ _ _ F3 F4))).
    + intros x Hc. cbn [board with_board]. rewrite R4 by by left.
      rewrite (fo_flash _ _ F3), (fo_flash _ _ F2), (fo_flash _ _ F1). apply mem_write_agree. by rewrite R3, R2, R1.
Qed.
(** Up to the branch on the boot pin. *)
Lemma main_prefix s : VERILATOR = false -> timely (board s) ->
  (4 <= length (flash_id (flash (board s))))%nat ->
  let b := s_bootsel (board s) &&& 1 in let rr := s_reset_reason (board s) in
  exists h s', setup (banner_out b rr) (board s) h /\ probed (with_board h s) s' /\
    forall fuel, main fuel s = (if b =? 1 then bootFromRom fuel 0 0
                   else host_boot fuel (if b =? 0 then [46; 0; 0; 0; 0; 0; 0; 0] else [0; 0; 0; 0; 0; 0; 0; 0])) s'.
Proof.
  intros Hv Ht Hid b rr. destruct (main_setup_spec (board s) Ht) as (h & E & Hs). fold b rr in E, Hs.
  destruct (main_flash_spec (with_board h s)) as (s' & E' & Hp).
  { by apply (st_timely _ _ _ Hs). }
  { cbn. by rewrite (st_flash _ _ _ Hs). }
  exists h, s'. split; [done|]. split; [done|]. intros fuel. unfold main. rewrite (bind_lift _ _ _ _ _ E), Hv. cbn [when fst].
  rewrite bind_skip, (bind_ok _ _ _ _ _ E'). cbn [negb Z.eqb]. by rewrite andb_true_r.
Qed.

(** C3. From reset with the boot pin high and a well-formed image in flash: [main]
    enters the image at its entry address with every section in place, and the
    console shows the banner, the sections and the jump.  Memory that is neither
    part of a section nor of the loader's structures is unchanged, but for the
    first four bytes of L2, where the flash identifier goes ([probe_id]). *)
Theorem main_boots_from_flash fuel s :
  VERILATOR = false -> timely (board s) -> (4 <= length (flash_id (flash (board s))))%nat ->
  s_bootsel (board s) &&& 1 = 1 ->
  let f := flash (board s) in image_ok f fuel ->
  exists s', main fuel s = Jump (flash_entry f) s' /\
    (forall i, 0 <= i < flash_nbAreas f ->
       let a := flash_area f i in
       (forall x, a_ptr a <= x < a_ptr a + a_size a -> ~ cmdbuf x) ->
       mem_read (ram (board s')) (a_ptr a) (Z.to_nat (a_size a)) = flash_bytes f (a_start a) (a_size a)) /\
    (forall x, ~ scratch x -> ~ cmdbuf x ->
       ~ in_data addr_bootCode x -> ~ in_data (data_fit (flash_areas f)) x ->
       (forall i, 0 <= i < flash_nbAreas f ->
          ~ a_ptr (flash_area f i) <= x < a_ptr (flash_area f i) + a_size (flash_area f i)) ->
       mem_get (ram (board s')) x = mem_get (probe_id f (ram (board s))) x) /\
    forall id, sent id (board s') =
      sent id (board s) ++ on_uart id (banner_out 1 (s_reset_reason (board s)) ++ boot_out f).
Proof.
  intros Hv Ht Hid Hb f Him. destruct (main_prefix s Hv Ht Hid) as (h & s1 & Hs & Hp & E).
  specialize (E fuel). rewrite Hb in E, Hs. cbn [Z.eqb Pos.eqb] in E. pose proof (pr_op _ _ Hp) as Hop. cbn [board with_board] in Hop.
  assert (Hf : flash (board s1) = f) by (by rewrite (fo_flash _ _ Hop), (st_flash _ _ _ Hs)).
  destruct (bootFromRom_boots f fuel s1) as (s' & E' & [Bs Bo Bc]); [|done|done|].
  { split; [|rewrite (pr_clk _ _ Hp); lia]. by apply (fo_timely _ _ Hop), (st_timely _ _ _ Hs). }
  exists s'. rewrite E. split; [done|]. split; [exact Bs|]. split.
  - intros x Hsc Hc Hbc Hnd Ha. rewrite Bo, (pr_ram _ _ Hp) by done. cbn [board with_board].
    rewrite (st_flash _ _ _ Hs). apply mem_write_agree. by apply (st_ram _ _ _ Hs).
  - intros id. rewrite Bc, on_uart_app, app_assoc. f_equal. unfold sent, get_uart at 1. rewrite (fo_uarts _ _ Hop).
    apply (st_sent _ _ _ Hs).
Qed.
End Choice.

(** ** Entering the host loop *)
Section Host.
Context `{Budget} `{SocConfig} `{LayoutOk} `{FramesOk} `{UartPort} `{!UartPortOk _} `{I2csPort} `{!I2csPortOk _}
  `{FlashPort} `{!FlashPortOk _} `{RomBuild} `{!RomBuildOk _}.

Lemma with_same_board s : with_board (board s) s = s.
Proof. by destruct s. Qed.

(** The message that tells an I2C host why the chip was reset. *)
Definition reset_message (rr : Z) : list Z :=
  if rr =? 1 then [A2_RESET_REASON_POR] else if negb (rr &&& 2 =? 0) then [A2_RESET_REASON_WDT] else [].

(** The state in which the host loop starts, from the board [h] at reset. *)
Record loop_start (h : hw) (s : machine) : Prop := {
  ls_timely : timely (board s);
  ls_status : i_status (i2cs (board s)) = i_status (i2cs h);
  ls_jtag : s_jtag (board s) = s_jtag h;
  ls_jtagreg : s_jtagreg (board s) = 1;
  ls_flags : flgs s = flags_bss;
  ls_uartp : uartp s = uart_vars_bss;
  ls_i2cp : i2cp s = i2c_vars_bss;
  ls_table : crcTable s = crcInit CRC_CCITT crcTable_bss;
  ls_rx : rx_schedule 0 (board s) = rx_schedule 0 h;
  ls_sent : sent 0 (board s) = sent 0 h;
  ls_i2c_rx : i_rx (i2cs (board s)) = i_rx (i2cs h);
  ls_i2c_out : i_out (i2cs (board s)) = i_out (i2cs h) ++ reset_message (s_reset_reason h);
  ls_ram : forall x, ~ scratch x -> ~ cmdbuf x -> mem_get (ram (board s)) x = mem_get (probe_id (flash h) (ram h)) x
}.

Definition entered (s : machine) : machine :=
  let h := board s in
  with_crcTable (crcInit CRC_CCITT (crcTable s))
    (with_board (with_jtag 1 (s_jtag h) (set_out (i_out (i2cs h) ++ reset_message (s_reset_reason h)) h)) s).

Lemma host_boot_enters fuel tstring s : host_boot fuel tstring s = main_loop fuel tstring 0 (entered s).
Proof.
  unfold host_boot. rewrite bind_modify. set (s0 := with_crcTable _ s).
  assert (Hrd : forall h, rd (Soc reset_reason) h = Ok (s_reset_reason h) h) by done.
  assert (Hput : forall v h, hal_set_i2cs_msg_apb_i2c v h = Ok tt (set_out (i_out (i2cs h) ++ [u8 v]) h)) by done.
  assert (Hj : forall h (k : M machine unit) s1, (lift (wr (Soc jtagreg) 1) ;; k) (with_board h s1)
    = k (with_board (with_jtag 1 (s_jtag h) h) s1)) by done.
  assert (Hnil : forall h, set_out (i_out (i2cs h) ++ []) h = h).
  { intros h. rewrite app_nil_r. by destruct h as [? ? ? [] ? ? ? ? ? ? ? ? ?]. }
  rewrite (bind_lift _ _ _ _ _ (Hrd (board s0))), with_same_board. unfold entered, reset_message.
  destruct (s_reset_reason (board s0) =? 1) eqn:E1; change (board s0) with (board s) in E1; rewrite E1.
  - rewrite (bind_lift _ _ _ _ _ (Hput _ _)), Hj. done.
  - rewrite bind_assoc, (bind_lift _ _ _ _ _ (Hrd (board s0))), with_same_board.
    change (board s0) with (board s). destruct (negb _); cbn [when].
    + rewrite (bind_lift _ _ s0 _ _ (Hput _ _)), Hj. done.
    + rewrite bind_skip, Hnil. rewrite <- (with_same_board s0) at 1. by rewrite Hj.
Qed.

(** From reset with the boot pin low, [main] enters the host loop. *)
Lemma main_enters_loop h :
  VERILATOR = false -> timely h -> (4 <= length (flash_id (flash h)))%nat -> s_bootsel h &&& 1 = 0 ->
  exists s, loop_start h s /\ forall fuel, main fuel (after_crt0 h) = main_loop fuel [46; 0; 0; 0; 0; 0; 0; 0] 0 s.
Proof.
  intros Hv Ht Hid Hb. destruct (main_prefix (after_crt0 h) Hv Ht Hid) as (h1 & s1 & Hs & Hp & E).
  cbn [board after_crt0] in E, Hs. rewrite Hb in E, Hs. cbn [Z.eqb] in E.
  pose proof (pr_op _ _ Hp) as Hop. cbn [board with_board] in Hop.
  exists (entered s1). split; [|intros fuel; by rewrite E, host_boot_enters].
  assert (Hget : forall id, get_uart id (board s1) = get_uart id h1).
  { intros id. unfold get_uart. by rewrite (fo_uarts _ _ Hop). }
  assert (Hi : i2cs (board s1) = i2cs h1) by apply (fo_i2cs _ _ Hop).
  split; cbn.
  - by apply (fo_timely _ _ Hop), (st_timely _ _ _ Hs).
  - by rewrite Hi, (st_status _ _ _ Hs).
  - by rewrite (fo_jtag _ _ Hop), (st_jtag _ _ _ Hs).
  - done.
  - by rewrite (pr_flags _ _ Hp).
  - by rewrite (pr_uartp _ _ Hp).
  - by rewrite (pr_i2cp _ _ Hp).
  - by rewrite (pr_crc _ _ Hp).
  - change (rx_schedule 0 (board s1) = rx_schedule 0 h). rewrite <- (st_rx _ _ _ Hs). unfold rx_schedule. by rewrite Hget.
  - change (sent 0 (board s1) = sent 0 h). transitivity (sent 0 h1); [unfold sent; by rewrite Hget|].
    by rewrite (st_sent _ _ _ Hs 0), banner_not_uart0, app_nil_r.
  - by rewrite Hi, (st_i2c_rx _ _ _ Hs).
  - rewrite Hi, (st_i2c_out _ _ _ Hs). do 2 f_equal.
    assert (Hr : s_reset_reason (board s1) = s_reset_reason h1) by apply (fo_reset _ _ Hop).
    by rewrite Hr, (st_reset _ _ _ Hs).
  - intros x Hsc Hc. rewrite (pr_ram _ _ Hp) by done. cbn [board with_board].
    rewrite (st_flash _ _ _ Hs). apply mem_write_agree. by apply (st_ram _ _ _ Hs).
Qed.

End Host.

(** ** Concrete runs *)
Section Witnesses.
#[local] Instance w_budget : Budget := sample_budget.
#[local] Instance w_layout : Layout := sample_layout.
#[local] Instance w_frames : Frames := {| frame_c := 1000; frame_lChar := 1004 |}.
#[local] Instance w_frames_ok : FramesOk w_frames.
Proof. split; unfold BOOT_STACK_SIZE; simpl; lia. Qed.
#[local] Instance w_config : SocConfig := {| UDMA_CTRL_UART0_CLKEN := 1; UDMA_CTRL_QSPIM0_CLKEN := 4 |}.
#[local] Instance w_build : RomBuild := {| DATE := "Jan 21 2022"; TIME := "10:20:30"; VERILATOR := false |}.
#[local] Instance w_build_ok : RomBuildOk w_build.
Proof. split; split; literal. Qed.

(** A board with the boot pin at [pin]. *)
Definition with_pin (pin : Z) (h : hw) : hw :=
  mk_hw (ram h) (uarts h) (qspis h) (i2cs h) (flash h) (s_reset_reason h) pin (s_jtagreg h) (s_jtag h)
    (udma_rst h) (udma_cg h) (words h) (delays h).

Lemma main_boots_from_flash_witness :
  let h := with_pin 1 (reset_board (image_flash sample_image)) in
  exists s', main 1 (after_crt0 h) = Jump 0x1C000080 s' /\
    mem_read (ram (board s')) 0x2000 8 = [0; 1; 2; 3; 4; 5; 6; 7] /\
    sent 1 (board s') = on_uart 1 (banner_out 1 1 ++ boot_out (flash h)).
Proof.
  intros h. destruct (main_boots_from_flash 1 (after_crt0 h)) as (s' & E & Hm & _ & Hs).
  - reflexivity.
  - apply (reset_timely (image_flash sample_image)).
  - simpl. lia.
  - by vm_compute.
  - apply sample_image_ok.
  - exists s'. split; [exact E|]. split; [|exact (Hs 1)]. apply (Hm 0).
    + assert (flash_nbAreas (flash h) = 2) as Hn by by vm_compute. cbn [board after_crt0]. rewrite Hn. lia.
    + intros x. change (a_ptr _) with 0x2000. change (a_size _) with 8.
      unfold cmdbuf, addr_auccmd, w_layout, sample_layout. lia.
Defined.

(** The boot pin alone decides between the flash and a host: [main] takes the
    flash path exactly when the pin reads 1, whatever flash is there or not.  The
    comment on top of main.c promises the host path also when no flash answers, but
    [main] tests the zero it passed as the address, not the identifier. *)
Theorem boot_pin_decides fuel s :
  timely (board s) -> (4 <= length (flash_id (flash (board s))))%nat ->
  exists s', flash (board s') = flash (board s) /\
    main fuel s = (if s_bootsel (board s) &&& 1 =? 1 then bootFromRom fuel 0 0
                   else host_boot fuel [46; 0; 0; 0; 0; 0; 0; 0]) s'.
Proof.
  intros Ht Hid. assert (Hv : VERILATOR = false) by reflexivity.
  destruct (main_prefix s Hv Ht Hid) as (h & s' & Hs & Hp & E). specialize (E fuel).
  exists s'. split; [transitivity (flash h); [apply (fo_flash _ _ (pr_op _ _ Hp))|apply (st_flash _ _ _ Hs)]|]. rewrite E.
  destruct (Z.eqb_spec (s_bootsel (board s) &&& 1) 1) as [|Hne]; [done|].
  assert (Hb : s_bootsel (board s) &&& 1 = 0).
  { change 1 with (Z.ones 1) in Hne |- *. rewrite Z.land_ones in Hne |- * by lia. change (2 ^ 1) with 2 in *.
    pose proof (Z.mod_pos_bound (s_bootsel (board s)) 2 ltac:(lia)). change (Z.ones 1) with 1 in Hne. lia. }
  by rewrite Hb.
Qed.

Lemma boot_pin_decides_witness :
  exists s', main 0 (after_crt0 (with_pin 0 (reset_board sample_flash))) =
    host_boot 0 [46; 0; 0; 0; 0; 0; 0; 0] s'.
Proof.
  destruct (boot_pin_decides 0 (after_crt0 (with_pin 0 (reset_board sample_flash)))) as (s' & _ & E).
  - apply (reset_timely sample_flash).
  - simpl. lia.
  - exists s'. exact E.
Defined.
End Witnesses.
