(* ===== verification/HostLoop.v ===== *)
(** * HostLoop: the host loop of a2_boot/main.c with a host that acts between its turns

    [main_loop] of Boot runs against a board that only changes by what the program
    does.  Here the loop is cut into turns, and a host changes the board before each
    of them: [turns].  The two protocols exclude each other, and a whole I2C
    session, with frames that arrive damaged and are sent again, boots. *)

From S2P Require Import Prelude Monad Crc Hw Uart Dbg Spi I2cs Machine UartProtocol SRecord I2CProtocol Boot.
From S2P Require Import FlashImage FlashBoot BootMain.

(** ** Turns *)
Section Turns.
Context `{Budget} `{UartPort} `{I2csPort} `{Layout}.

(** The body of [while (1)], with the countdown it leaves. *)
Definition turn (tstring : list Z) (count : Z) : M machine Z :=
  v ← lift (rd (Soc jtagreg));
  (if negb (v =? 1) then jump_to_address 0x1C008080 else skip) ;;
  f ← gets flgs;
  when (gStopUartBootLoaderFlg f =? 0) processUartProtocolFrames ;;
  f ← gets flgs;
  when (gStopI2CBootLoaderFlg f =? 0) processI2CProtocolFrames ;;
  let count := u32 (count + 1) in
  if count >=? 90000 then
    f ← gets flgs;
    when (gStopUartMsgFlg f =? 0) (
      lift (dbg_str tstring) ;;
      _ ← lift sendUartBootMeFrame; skip) ;;
    mret 0
  else mret count.

(** Turns of the loop, with what the host does to the board before each of them. *)
Fixpoint turns (env : list (hw -> hw)) (tstring : list Z) (count : Z) : M machine Z :=
  match env with
  | [] => mret count
  | e :: env' => modify (fun s => with_board (e (board s)) s) ;; c ← turn tstring count; turns env' tstring c
  end.

Lemma main_loop_turn fuel tstring count s :
  main_loop (S fuel) tstring count s = (c ← turn tstring count; main_loop fuel tstring c) s.
Proof.
  cbn [main_loop]. unfold turn. unfold mbind, M_bind, lift, gets.
  destruct (rd (Soc jtagreg) (board s)) as [v h|e h|h|h]; try done.
  destruct ((if negb (v =? 1) then jump_to_address 0x1C008080 else skip) (with_board h s)) as [[] s1|e s1|s1|s1]; try done.
  destruct (when (gStopUartBootLoaderFlg (flgs s1) =? 0) processUartProtocolFrames s1) as [[] s2|e s2|s2|s2]; try done.
  destruct (when (gStopI2CBootLoaderFlg (flgs s2) =? 0) processI2CProtocolFrames s2) as [[] s3|e s3|s3|s3]; try done.
  destruct (u32 (count + 1) >=? 90000); [|done].
  match goal with |- match ?m with _ => _ end = _ => by destruct m end.
Qed.

(** A host that does nothing: the loop of Boot. *)
Lemma main_loop_turns fuel tstring n : forall count s,
  main_loop (n + fuel) tstring count s = (c ← turns (replicate n id) tstring count; main_loop fuel tstring c) s.
Proof.
  induction n as [|n IH]; intros count s; [done|]. cbn [Nat.add]. rewrite main_loop_turn.
  cbn [replicate turns]. rewrite bind_assoc, bind_modify.
  replace (with_board (id (board s)) s) with s by (by destruct s).
  rewrite bind_assoc. by apply bind_ext.
Qed.

Lemma turns_cons e env tstring count s c s' :
  turn tstring count (with_board (e (board s)) s) = Ok c s' -> turns (e :: env) tstring count s = turns env tstring c s'.
Proof. intros E. cbn [turns]. by rewrite bind_modify, (bind_ok _ _ _ _ _ E). Qed.
End Turns.

(** ** One protocol at a time

    The flags by which a protocol that has heard its host switches the other off. *)
Section Arbitration.
Context `{Budget} `{UartPort} `{I2csPort} `{Layout}.

Definition final {A} (o : outcome machine A) : machine :=
  match o with Ok _ s => s | Jump _ s => s | Fault s => s | Spin s => s end.
Definition uart_off (s : machine) : Prop := gStopUartBootLoaderFlg (flgs s) <> 0.
Definition i2c_off (s : machine) : Prop := gStopI2CBootLoaderFlg (flgs s) <> 0.

(** However a computation ends, its last state is related to its first. *)
Definition always (R : relation machine) {A} (m : M machine A) : Prop := forall s, R s (final (m s)).

Lemma always_bind (R : relation machine) `{!PreOrder R} {A B} (m : M machine A) (k : A -> M machine B) :
  always R m -> (forall a, always R (k a)) -> always R (m ≫= k).
Proof.
  intros Hm Hk s. specialize (Hm s). unfold mbind, M_bind. destruct (m s) as [a s1| | |]; try done.
  etrans; [exact Hm|]. apply Hk.
Qed.
Lemma always_ret (R : relation machine) `{!PreOrder R} {A} (a : A) : always R (mret a).
Proof. intros s. by cbn. Qed.
Lemma always_gets (R : relation machine) `{!PreOrder R} {A} (g : machine -> A) : always R (gets g).
Proof. intros s. by cbn. Qed.
Lemma always_skip (R : relation machine) `{!PreOrder R} : always R skip.
Proof. intros s. by cbn. Qed.
Lemma always_spin (R : relation machine) `{!PreOrder R} {A} : always R (spin : M machine A).
Proof. intros s. by cbn. Qed.
Lemma always_jump (R : relation machine) `{!PreOrder R} {A} e : always R (jump_to_address e : M machine A).
Proof. intros s. by cbn. Qed.
Lemma always_of_opt (R : relation machine) `{!PreOrder R} {A} (o : option A) : always R (of_opt o).
Proof. intros s. by destruct o. Qed.
Lemma always_when (R : relation machine) `{!PreOrder R} b m : always R m -> always R (when b m).
Proof. intros Hm. destruct b; [done|by apply always_skip]. Qed.

(** A relation between the statics alone; the board may do anything. *)
Class StaticsOnly (R : relation machine) := statics_only : forall s h, R s (with_board h s).

Lemma always_lift (R : relation machine) `{!StaticsOnly R} {A} (m : M hw A) : always R (lift m).
Proof. intros s. unfold lift. destruct (m (board s)); apply statics_only. Qed.
Lemma always_memcpy (R : relation machine) `{!PreOrder R} `{!StaticsOnly R} a buf n : always R (memcpy_out a buf n).
Proof. intros s. unfold memcpy_out. destruct (_ <=? _); [apply statics_only|by cbn]. Qed.

(** What the handler of each protocol does to the other one. *)
Definition uart_turn (s s' : machine) : Prop :=
  i2cp s' = i2cp s /\ (uart_off s' <-> uart_off s) /\ (i2c_off s -> i2c_off s').
Definition i2c_turn (s s' : machine) : Prop :=
  uartp s' = uartp s /\ (i2c_off s' <-> i2c_off s) /\ (uart_off s -> uart_off s').
#[local] Instance uart_turn_preorder : PreOrder uart_turn.
Proof. split; [intros s; by repeat split|]. intros s1 s2 s3 (E1 & F1 & G1) (E2 & F2 & G2). split; [congruence|]. intuition. Qed.
#[local] Instance i2c_turn_preorder : PreOrder i2c_turn.
Proof. split; [intros s; by repeat split|]. intros s1 s2 s3 (E1 & F1 & G1) (E2 & F2 & G2). split; [congruence|]. intuition. Qed.
#[local] Instance uart_turn_statics : StaticsOnly uart_turn.
Proof. intros s h. by repeat split. Qed.
#[local] Instance i2c_turn_statics : StaticsOnly i2c_turn.
Proof. intros s h. by repeat split. Qed.

Lemma always_on_uartp g : always uart_turn (on_uartp g).
Proof. intros s. unfold on_uartp. destruct (g (uartp s)); by repeat split. Qed.
Lemma always_stop_others : always uart_turn (modify stop_others).
Proof.
  intros s. unfold stop_others, uart_turn, uart_off, i2c_off. cbn. destruct (flgs s) as [a b c]. cbn.
  destruct (a =? 0); cbn; destruct (Z.eqb_spec c 0); cbn; (split; [done|split; [done|lia]]).
Qed.
Lemma always_set_i2cp g : always i2c_turn (set_i2cp g).
Proof. intros s. by repeat split. Qed.
Lemma always_stop_uart : always i2c_turn (modify stop_uart).
Proof. intros s. unfold stop_uart, i2c_turn, uart_off, i2c_off. cbn. split; [done|split; [done|lia]]. Qed.

(** The structure of a handler, statement by statement. *)
Ltac always_auto := repeat match goal with
  | H : always ?R ?m |- always ?R ?m => exact H
  | |- forall _, _ => intros ?
  | |- always _ (_ ≫= _) => apply (always_bind _); [|]
  | |- always _ (if ?b then _ else _) => destruct b
  | |- always _ (match ?p with (_, _) => _ end) => destruct p
  | |- always _ (when _ _) => apply (always_when _)
  | |- always _ (on_uartp _) => apply always_on_uartp
  | |- always _ (set_i2cp _) => apply always_set_i2cp
  | |- always _ (modify stop_others) => apply always_stop_others
  | |- always _ (modify stop_uart) => apply always_stop_uart
  | |- always _ (lift _) => apply (always_lift _)
  | |- always _ (memcpy_out _ _ _) => apply (always_memcpy _)
  | |- always _ (gets _) => apply (always_gets _)
  | |- always _ skip => apply (always_skip _)
  | |- always _ spin => apply (always_spin _)
  | |- always _ (jump_to_address _) => apply (always_jump _)
  | |- always _ (mret _) => apply (always_ret _)
  | |- always _ (of_opt _) => apply (always_of_opt _)
  end.

Lemma always_chksum n : forall i, always uart_turn (chksum_loop n i).
Proof. induction n as [|n IH]; intros i; cbn [chksum_loop]; always_auto; apply IH. Qed.

Lemma always_uart : always uart_turn processUartProtocolFrames.
Proof.
  unfold processUartProtocolFrames, receive, idle_char, get_data_char, get_crc_char, accept_record, reject_record.
  always_auto; apply always_chksum.
Qed.

Lemma always_read_fifo n : forall i, always i2c_turn (read_fifo n i).
Proof. induction n as [|n IH]; intros i; cbn [read_fifo]; always_auto; apply IH. Qed.

Lemma always_i2c : always i2c_turn processI2CProtocolFrames.
Proof.
  unfold processI2CProtocolFrames, parseI2CProtocolFrame, handle_frame. always_auto; apply always_read_fifo.
Qed.

(** The invariant of the loop, and what a turn keeps. *)
Definition someone_listens (s : machine) : Prop := ~ (uart_off s /\ i2c_off s).
Definition kept (s s' : machine) : Prop :=
  (someone_listens s -> someone_listens s') /\
  (uart_off s -> uart_off s' /\ uartp s' = uartp s) /\ (i2c_off s -> i2c_off s' /\ i2cp s' = i2cp s).

#[export] Instance kept_preorder : PreOrder kept.
Proof.
  split; [intros s; by repeat split|]. intros s1 s2 s3 (A1 & B1 & C1) (A2 & B2 & C2). split; [auto|]. split.
  - intros [Hu E]%B1. apply B2 in Hu as [Hu E']. split; [done|congruence].
  - intros [Hu E]%C1. apply C2 in Hu as [Hu E']. split; [done|congruence].
Qed.
#[export] Instance kept_statics : StaticsOnly kept.
Proof. intros s h. by repeat split. Qed.

Lemma uart_kept s s' : ~ uart_off s -> uart_turn s s' -> kept s s'.
Proof.
  intros Hn (E & F & G). split; [|split]; [|by intros ?|by auto]. intros _ [Hu _]. by apply Hn, F.
Qed.
Lemma i2c_kept s s' : ~ i2c_off s -> i2c_turn s s' -> kept s s'.
Proof.
  intros Hn (E & F & G). split; [|split]; [|by auto|by intros ?]. intros _ [_ Hu]. by apply Hn, F.
Qed.

(** The loop keeps what its two handlers keep. *)
Section Loop.
Context (R : relation machine) `{!PreOrder R} `{!StaticsOnly R}.
Context (Hu : always R (f ← gets flgs; when (gStopUartBootLoaderFlg f =? 0) processUartProtocolFrames)).
Context (Hi : always R (f ← gets flgs; when (gStopI2CBootLoaderFlg f =? 0) processI2CProtocolFrames)).

Definition after_i2c (tstring : list Z) (count : Z) : M machine Z :=
  let count := u32 (count + 1) in
  if count >=? 90000 then
    f ← gets flgs;
    when (gStopUartMsgFlg f =? 0) (lift (dbg_str tstring) ;; _ ← lift sendUartBootMeFrame; skip) ;; mret 0
  else mret count.
Definition after_uart (tstring : list Z) (count : Z) : M machine Z :=
  (f ← gets flgs; when (gStopI2CBootLoaderFlg f =? 0) processI2CProtocolFrames) ;; after_i2c tstring count.
Lemma turn_unfold tstring count s : turn tstring count s =
  (v ← lift (rd (Soc jtagreg));
   (if negb (v =? 1) then jump_to_address 0x1C008080 else skip) ;;
   (f ← gets flgs; when (gStopUartBootLoaderFlg f =? 0) processUartProtocolFrames) ;;
   after_uart tstring count) s.
Proof. done. Qed.

Lemma always_after_i2c tstring count : always R (after_i2c tstring count).
Proof. unfold after_i2c. cbv zeta. always_auto. Qed.
Lemma always_after_uart tstring count : always R (after_uart tstring count).
Proof. unfold after_uart. apply (always_bind _); [exact Hi|]. intros _. apply always_after_i2c. Qed.
Lemma always_turn tstring count : always R (turn tstring count).
Proof.
  intros s. rewrite turn_unfold. revert s. apply (always_bind _); [apply (always_lift _)|]. intros v.
  apply (always_bind _); [always_auto|]. intros _. apply (always_bind _); [exact Hu|]. intros _. apply always_after_uart.
Qed.

Lemma always_turns tstring env : forall count, always R (turns env tstring count).
Proof.
  induction env as [|e env IH]; intros count; cbn [turns]; [by apply (always_ret _)|].
  apply (always_bind _); [intros s; apply statics_only|intros _].
  apply (always_bind _); [apply always_turn|auto].
Qed.
End Loop.

(** What a computation has reached, its continuation keeps. *)
Lemma always_after (R : relation machine) `{!PreOrder R} {A B} (m : M machine A) (k : A -> M machine B) s :
  (forall a, always R (k a)) -> R (final (m s)) (final ((m ≫= k) s)).
Proof. intros Hk. unfold mbind, M_bind. destruct (m s) as [a s1| | |]; try reflexivity. apply Hk. Qed.

Lemma kept_uart : always kept (f ← gets flgs; when (gStopUartBootLoaderFlg f =? 0) processUartProtocolFrames).
Proof.
  intros s. rewrite bind_gets. destruct (Z.eqb_spec (gStopUartBootLoaderFlg (flgs s)) 0) as [E|]; cbn [when]; [|by cbn].
  apply uart_kept; [by intros []|]. apply always_uart.
Qed.
Lemma kept_i2c : always kept (f ← gets flgs; when (gStopI2CBootLoaderFlg f =? 0) processI2CProtocolFrames).
Proof.
  intros s. rewrite bind_gets. destruct (Z.eqb_spec (gStopI2CBootLoaderFlg (flgs s)) 0) as [E|]; cbn [when]; [|by cbn].
  apply i2c_kept; [by intros []|]. apply always_i2c.
Qed.

(** *** The host that is served first excludes the other

    [exclusive]: a UART record is being read only when the I2C protocol is off.
    [serves]: a run keeps that, and a protocol whose variables it changed has
    switched the other one off. *)
Definition exclusive (s : machine) : Prop := gsUart0ProtocolState (uartp s) <> UART0_PROTOCOL_STATE_IDLE -> i2c_off s.
Definition serves (s s' : machine) : Prop :=
  (uart_off s -> uart_off s') /\ (i2c_off s -> i2c_off s') /\
  (exclusive s -> exclusive s' /\ (uartp s' = uartp s \/ i2c_off s')) /\
  (i2cp s' = i2cp s \/ uart_off s').
#[export] Instance serves_preorder : PreOrder serves.
Proof.
  split; [intros s; repeat split; auto|]. intros s1 s2 s3 (A1 & B1 & C1 & D1) (A2 & B2 & C2 & D2).
  split; [auto|]. split; [auto|]. split.
  - intros [He E1]%C1. destruct (C2 He) as [He' E2]. split; [done|].
    destruct E2 as [E2|]; [|by right]. destruct E1 as [E1|]; [left; congruence|right; auto].
  - destruct D2 as [D2|]; [|by right]. destruct D1 as [D1|]; [left; congruence|right; auto].
Qed.
#[export] Instance serves_statics : StaticsOnly serves.
Proof. intros s h. by repeat split; auto. Qed.

Lemma stop_others_off s : i2c_off (stop_others s).
Proof.
  unfold stop_others, i2c_off. cbn. destruct (flgs s) as [a b c]. cbn.
  destruct (a =? 0); cbn; destruct (Z.eqb_spec c 0); cbn; lia.
Qed.

(** Waiting for a record the handler changes nothing, or sees an 'S' and switches
    the I2C protocol off. *)
Lemma idle_serves s : uartp (final (receive idle_char s)) = uartp s \/ i2c_off (final (receive idle_char s)).
Proof.
  unfold receive, lift, mbind, M_bind. destruct (readraw 0 1 0 (board s)) as [[st c] h|e h|h|h]; try by left.
  destruct (st =? 1); [|by left]. unfold idle_char. destruct (c =? 83); [|by left]. right. apply stop_others_off.
Qed.

Lemma serves_uart : always serves (f ← gets flgs; when (gStopUartBootLoaderFlg f =? 0) processUartProtocolFrames).
Proof.
  intros s. rewrite bind_gets. destruct (_ =? 0); cbn [when]; [|by cbn].
  pose proof (always_uart s) as (Ei & Hu & Hi). split; [by intros ?%Hu|]. split; [exact Hi|]. split; [|by left].
  intros He. destruct (decide (gsUart0ProtocolState (uartp s) = UART0_PROTOCOL_STATE_IDLE)) as [E|Hne].
  - assert (Ep : processUartProtocolFrames s = receive idle_char s).
    { unfold processUartProtocolFrames. rewrite bind_gets, E. done. }
    rewrite Ep. destruct (idle_serves s) as [Es|Ho]; [|split; [by intros _|by right]].
    split; [|by left]. intros Hne. rewrite Es in Hne. by destruct Hne.
  - specialize (Hi (He Hne)). split; [by intros _|by right].
Qed.

(** The I2C handler once it has seen a message and switched the UART off. *)
Lemma i2c_handler s : exists k, always i2c_turn k /\
  processI2CProtocolFrames s = (st ← lift msg_status; when (negb (st =? 0)) (modify stop_uart ;; k)) s.
Proof.
  eexists. split; [|reflexivity]. unfold parseI2CProtocolFrame, handle_frame. always_auto. apply always_read_fifo.
Qed.
Lemma stopped_uart (k : M machine unit) s : always i2c_turn k -> uart_off (final ((modify stop_uart ;; k) s)).
Proof. intros Hk. rewrite bind_modify. apply (Hk (stop_uart s)). by unfold uart_off. Qed.

Lemma serves_i2c : always serves (f ← gets flgs; when (gStopI2CBootLoaderFlg f =? 0) processI2CProtocolFrames).
Proof.
  intros s. rewrite bind_gets. destruct (_ =? 0); cbn [when]; [|by cbn].
  pose proof (always_i2c s) as (Eu & Hi & Hu). split; [exact Hu|]. split; [by intros ?%Hi|]. split.
  { intros He. rewrite Eu. split; [|by left]. unfold exclusive. rewrite Eu, Hi. exact He. }
  destruct (i2c_handler s) as (k & Hk & ->). destruct (msg_status (board s)) as [st h|e h|h|h] eqn:E.
  - rewrite (bind_lift _ _ _ _ _ E). destruct (negb (st =? 0)); cbn [when]; [|by left]. right. by apply stopped_uart.
  - left. unfold lift, mbind, M_bind. by rewrite E.
  - left. unfold lift, mbind, M_bind. by rewrite E.
  - left. unfold lift, mbind, M_bind. by rewrite E.
Qed.

(** What a host that is heard brings about. *)
Definition mailbox_idle (h : hw) : Prop := (hw_read (Soc jtagreg) h).1 = 1.
Lemma turn_mailbox tstring count s : mailbox_idle (board s) -> exists h,
  uarts h = uarts (board s) /\ i2cs h = i2cs (board s) /\
  turn tstring count s = ((f ← gets flgs; when (gStopUartBootLoaderFlg f =? 0) processUartProtocolFrames) ;;
                          after_uart tstring count) (with_board h s).
Proof.
  intros Hj. exists (hw_read (Soc jtagreg) (board s)).2. split; [|split].
  - cbn [hw_read soc_read]. by destruct (s_jtag (board s)) as [|[v|] l].
  - cbn [hw_read soc_read]. by destruct (s_jtag (board s)) as [|[v|] l].
  - rewrite turn_unfold. erewrite bind_lift by (unfold rd; rewrite (surjective_pairing (hw_read _ _)); reflexivity).
    by rewrite Hj.
Qed.

End Arbitration.

Section Exclusion.
Context `{Budget} `{LayoutOk} `{UartPort} `{!UartPortOk _} `{I2csPort} `{!I2csPortOk _}.

(** An 'S' while the UART protocol waits for a record. *)
Definition hears_S (s : machine) : Prop :=
  ~ uart_off s /\ gsUart0ProtocolState (uartp s) = UART0_PROTOCOL_STATE_IDLE /\
  exists c rest, rx_schedule 0 (board s) = Some c :: rest /\ u8 c = 83.
(** A message of an I2C host, while the UART has no character. *)
Definition hears_message (s : machine) : Prop :=
  ~ i2c_off s /\ u8 (i_status (i2cs (board s))) <> 0 /\
  (head (rx_schedule 0 (board s)) = None \/ head (rx_schedule 0 (board s)) = Some None).

Lemma turn_hears_S tstring count s : mailbox_idle (board s) -> hears_S s -> i2c_off (final (turn tstring count s)).
Proof.
  intros Hj (Hu & Hidle & c & rest & Hrx & Hc). destruct (turn_mailbox tstring count s Hj) as (h & Eh & _ & ->).
  set (s1 := with_board h s).
  destruct (readraw_char 0 1 0 h c rest) as (h2 & E & _).
  { unfold rx_schedule, get_uart in *. by rewrite Eh. }
  assert (E1 : (f ← gets flgs; when (gStopUartBootLoaderFlg f =? 0) processUartProtocolFrames) s1 =
    Ok tt (stop_others (with_uartp (set_state (uartp s) UART0_PROTOCOL_GET_RECORD_TYPE) (with_board h2 s1)))).
  { rewrite bind_gets. destruct (Z.eqb_spec (gStopUartBootLoaderFlg (flgs s1)) 0) as [_|Hne]; [|by destruct Hu].
    unfold processUartProtocolFrames. cbn [when]. rewrite bind_gets. change (uartp s1) with (uartp s). rewrite Hidle.
    cbn [Z.eqb UART0_PROTOCOL_STATE_IDLE]. unfold receive. rewrite (bind_lift _ _ s1 _ _ E). cbn [Z.eqb Pos.eqb].
    unfold idle_char. rewrite Hc. cbn [Z.eqb Pos.eqb]. by erewrite bind_on_uartp. }
  rewrite (bind_ok _ _ _ _ _ E1).
  eapply (proj1 (proj2 (always_after_uart serves serves_i2c tstring count _))). apply stop_others_off.
Qed.

(** Without a character the UART handler does nothing that the I2C slave sees. *)
Lemma uart_silent s : head (rx_schedule 0 (board s)) = None \/ head (rx_schedule 0 (board s)) = Some None ->
  exists h, processUartProtocolFrames s = Ok tt (with_board h s) /\ i2cs h = i2cs (board s).
Proof.
  intros Hrx. destruct (readraw_none 0 1 0 (board s) Hrx) as (h & E & B & _).
  assert (Hr : forall k, receive k s = Ok tt (with_board h s)) by (intros k; unfold receive; by rewrite (bind_lift _ _ _ _ _ E)).
  unfold processUartProtocolFrames. rewrite bind_gets.
  repeat (destruct (_ =? _); [exists h; split; [apply Hr|apply (same_i2cs _ _ B)]|]).
  exists (board s). split; [|done]. by destruct s.
Qed.

Lemma i2c_message s : u8 (i_status (i2cs (board s))) <> 0 -> uart_off (final (processI2CProtocolFrames s)).
Proof.
  intros Hm. destruct (i2c_handler s) as (k & Hk & ->). rewrite (bind_lift _ _ _ _ _ (msg_status_spec (board s))).
  destruct (Z.eqb_spec (u8 (i_status (i2cs (board s)))) 0); [done|]. by apply stopped_uart.
Qed.

Lemma turn_hears_message tstring count s : mailbox_idle (board s) -> hears_message s -> uart_off (final (turn tstring count s)).
Proof.
  intros Hj (Hi & Hm & Hrx). destruct (turn_mailbox tstring count s Hj) as (h & Eh & Ei & ->).
  set (s1 := with_board h s).
  assert (E1 : exists h2, (f ← gets flgs; when (gStopUartBootLoaderFlg f =? 0) processUartProtocolFrames) s1 =
    Ok tt (with_board h2 s1) /\ i2cs h2 = i2cs (board s)).
  { rewrite bind_gets. destruct (_ =? 0); cbn [when].
    - destruct (uart_silent s1) as (h2 & E & E2); [unfold rx_schedule, get_uart in *; cbn [board with_board s1]; by rewrite Eh|].
      exists h2. split; [exact E|]. by rewrite E2.
    - by exists h. }
  destruct E1 as (h2 & E1 & E2). rewrite (bind_ok _ _ _ _ _ E1). unfold after_uart.
  set (s2 := with_board h2 s1).
  eapply (proj1 (always_after serves (f ← gets flgs; when (gStopI2CBootLoaderFlg f =? 0) processI2CProtocolFrames)
    (fun _ => after_i2c tstring count) s2 (fun _ => always_after_i2c serves tstring count))).
  rewrite bind_gets. destruct (Z.eqb_spec (gStopI2CBootLoaderFlg (flgs s2)) 0) as [_|Hne]; [|by destruct Hi].
  cbn [when]. apply i2c_message. cbn [board with_board s2]. by rewrite E2.
Qed.

(** C13. The two protocols share the loop: the first host to be served excludes the
    other for good, and neither is locked out before that.  Whatever a host, a
    debugger or the lines do between the turns of the loop, for any number of turns
    and however they end:
    - at least one of the two protocols still listens;
    - a protocol that was switched off stays off, and from then on the loop changes
      none of its variables;
    - from a state where no UART record is being read with the I2C protocol on, a
      protocol whose variables changed has switched the other off, and the state is
      of that kind again;
    - when the next turn hears an 'S' on the idle UART, the I2C protocol is off at the
      end, and when it hears an I2C message and no UART character, the UART protocol is. *)
Theorem protocols_exclude env tstring count s :
  let s' := final (turns env tstring count s) in
  (someone_listens s -> someone_listens s') /\
  (uart_off s -> uart_off s' /\ uartp s' = uartp s) /\
  (i2c_off s -> i2c_off s' /\ i2cp s' = i2cp s) /\
  (exclusive s -> exclusive s' /\ (uartp s' = uartp s \/ i2c_off s') /\ (i2cp s' = i2cp s \/ uart_off s')) /\
  (forall e rest, env = e :: rest -> let s0 := with_board (e (board s)) s in mailbox_idle (board s0) ->
     (hears_S s0 -> i2c_off s') /\ (hears_message s0 -> uart_off s')).
Proof.
  destruct (always_turns kept kept_uart kept_i2c tstring env count s) as (Hl & Hu & Hi).
  destruct (always_turns serves serves_uart serves_i2c tstring env count s) as (_ & _ & He & Hc).
  split; [exact Hl|]. split; [exact Hu|]. split; [exact Hi|]. split; [by intros [? ?]%He|].
  intros e rest -> s0 Hj. cbn [turns]. rewrite bind_modify. fold s0.
  pose proof (always_after serves (turn tstring count) (fun c => turns rest tstring c) s0
    (fun c => always_turns serves serves_uart serves_i2c tstring rest c)) as (Ku & Ki & _).
  split; [intros Hs; by apply Ki, turn_hears_S|intros Hm; by apply Ku, turn_hears_message].
Qed.
End Exclusion.

(** ** A session over I2C

    The host writes its bytes into the slave's FIFO and then a message into the
    message register, which raises the new-message flag. *)
Definition says (m : Z) (bs : list Z) (h : hw) : hw :=
  let i := i2cs h in with_i2cs (mk_i2cs (i_addr i) (i_enable i) m 1 (i_rx i ++ bs) (i_tx i) (i_out i)) h.
Definition act (e : option (Z * list Z)) : hw -> hw :=
  match e with Some (m, bs) => says m bs | None => id end.

(** A frame the host sends: a load frame that arrives as it was sent, or a frame
    that arrives differently (with the checksum of what was sent). *)
Inductive i2c_item := Load (addr : Z) (data : list Z) | Garbled (sentf recvf : list Z).
Definition valid_item (it : i2c_item) : Prop :=
  match it with
  | Load addr data => 0 <= addr < 2 ^ 32 /\ bytes_ok data /\ (length data <= 246)%nat
  | Garbled sentf recvf =>
      bytes_ok sentf /\ bytes_ok recvf /\ length recvf = length sentf /\ (length sentf <= 254)%nat /\
      exists e (k : nat), 0 < e < 2 ^ 16 /\ be_poly recvf ^^^ be_poly sentf = Z.shiftl e (Z.of_nat k)
  end.
Definition framed (f : list Z) : list Z := with_crc (ccitt f) f.
Definition item_says (it : i2c_item) : Z * list Z :=
  (I2C_NEW_FRAME_READY_BYTE,
   match it with
   | Load addr data => framed (host_frame addr A2_LOAD_MEMORY_CMD data)
   | Garbled sentf recvf => with_crc (ccitt sentf) recvf
   end).
Definition jump_says (entry : Z) : Z * list Z :=
  (I2C_NEW_FRAME_READY_BYTE, framed (host_frame entry A2_JUMP_TO_ADDRESS_CMD [])).
Definition hello : Z * list Z := (A2_I2C_BL_WITH_CRC_IS_READY_CHECK_CMD, []).

Definition item_effect (it : i2c_item) (m : memory) : memory :=
  match it with Load addr data => mem_write m addr data | Garbled _ _ => m end.
Definition item_reply (it : i2c_item) : Z :=
  match it with Load _ _ => A2_GOOD_FRAME_RCVD | Garbled _ _ => A2_CORRUPTED_FRAME_RCVD end.
Definition items_memory (items : list i2c_item) (m : memory) : memory := foldl (fun m it => item_effect it m) m items.

Lemma item_effect_agree it m1 m2 x : mem_get m1 x = mem_get m2 x ->
  mem_get (item_effect it m1) x = mem_get (item_effect it m2) x.
Proof. destruct it; [apply mem_write_agree|done]. Qed.
Lemma items_memory_agree items : forall m1 m2 x, mem_get m1 x = mem_get m2 x ->
  mem_get (items_memory items m1) x = mem_get (items_memory items m2) x.
Proof. induction items as [|it items IH]; intros m1 m2 x E; [done|]. cbn. apply IH. by apply item_effect_agree. Qed.

Section Session.
Context `{Budget} `{LayoutOk} `{UartPort} `{!UartPortOk _} `{I2csPort} `{!I2csPortOk _}.

Definition dot : list Z := [46; 0; 0; 0; 0; 0; 0; 0].

(** Between frames: the UART is off, the slave has nothing pending, memory shows
    [m], the host has been told [out]. *)
Record in_session (m : memory) (out : list Z) (s : machine) : Prop := {
  se_timely : timely (board s);
  se_jtag : s_jtag (board s) = [] /\ s_jtagreg (board s) = 1;
  se_flags : flgs s = mk_flags 1 1 0;
  se_mode : crc_mode s;
  se_status : i_status (i2cs (board s)) = 0;
  se_rx : i_rx (i2cs (board s)) = [];
  se_ram : forall x, ~ scratch x -> mem_get (ram (board s)) x = mem_get m x;
  se_out : out_msgs s = out
}.

Lemma turn_i2c tstring count s : s_jtag (board s) = [] -> s_jtagreg (board s) = 1 -> flgs s = mk_flags 1 1 0 ->
  (forall s', processI2CProtocolFrames s = Ok tt s' -> flgs s' = mk_flags 1 1 0 ->
     exists c, turn tstring count s = Ok c s') /\
  (forall e s', processI2CProtocolFrames s = Jump e s' -> turn tstring count s = Jump e s').
Proof.
  intros Hj Hr Hf.
  assert (Er : rd (Soc jtagreg) (board s) = Ok 1 (board s)) by (unfold rd; cbn; by rewrite Hj, Hr).
  assert (E : forall (k : unit -> M machine Z), (v ← lift (rd (Soc jtagreg));
    (if negb (v =? 1) then jump_to_address 0x1C008080 else skip) ;;
    f ← gets flgs; when (gStopUartBootLoaderFlg f =? 0) processUartProtocolFrames ;;
    f ← gets flgs; when (gStopI2CBootLoaderFlg f =? 0) processI2CProtocolFrames ≫= k) s =
    (processI2CProtocolFrames ≫= k) s).
  { intros k. rewrite (bind_lift _ _ _ _ _ Er), with_same_board. cbn [Z.eqb Pos.eqb negb].
    rewrite bind_skip, bind_gets, Hf. cbn [Z.eqb Pos.eqb when gStopUartBootLoaderFlg].
    by rewrite bind_skip, bind_gets, Hf. }
  unfold turn. split.
  - intros s' Ep Hf'. rewrite E, (bind_ok _ _ _ _ _ Ep). cbv zeta.
    destruct (_ >=? 90000); [|by eexists]. rewrite bind_gets, Hf'. by eexists.
  - intros e s' Ep. by rewrite E, (bind_jump _ _ _ _ _ Ep).
Qed.

Lemma silent_turn tstring count m out s : in_session m out s -> exists c, turn tstring count s = Ok c s.
Proof.
  intros []. destruct (turn_i2c tstring count s) as [Hok _]; [by apply se_jtag0|by apply se_jtag0|done|].
  apply Hok; [|done]. apply i2c_idle. by rewrite se_status0.
Qed.

Lemma says_waiting bs s : i_rx (i2cs (board s)) = [] ->
  frame_waiting bs (with_board (says I2C_NEW_FRAME_READY_BYTE bs (board s)) s).
Proof. intros Hr. split; [by vm_compute|done|]. cbn. by rewrite Hr. Qed.

Lemma says_mode m bs s : crc_mode s -> crc_mode (with_board (says m bs (board s)) s).
Proof. intros []. by split. Qed.

Lemma item_turn tstring count m out it s :
  in_session m out s -> valid_item it ->
  exists c s', turn tstring count (with_board (act (Some (item_says it)) (board s)) s) = Ok c s' /\
    in_session (item_effect it m) (out ++ [item_reply it]) s'.
Proof.
  intros [Ht [Hj Hjr] Hf Hm Hst Hrx Hram Hout] Hv. cbn [act item_says].
  set (bs := match it with Load _ _ => _ | _ => _ end). set (s1 := with_board _ s).
  pose proof (says_waiting bs s Hrx) as Hw. pose proof (says_mode I2C_NEW_FRAME_READY_BYTE bs s Hm) as Hm1.
  destruct (turn_i2c tstring count s1) as [Hok _]; [done..|]. destruct it as [addr data|sentf recvf].
  - destruct Hv as (Ha & Hd & Hl).
    destruct (process_load s1 addr data Hm1 Ha Hd Hl Hw) as [E Hm2].
    destruct (Hok _ E) as [c Ec]; [by cbn; rewrite Hf|]. eexists _, _. split; [exact Ec|]. split; try done.
    + by cbn; rewrite Hf.
    + intros x Hx. cbn. by apply mem_write_agree, Hram.
    + unfold out_msgs. cbn. by rewrite <- Hout.
  - destruct Hv as (Hs & Hr & Hlr & Hl & e & k & He & Hb). destruct (ccitt_some sentf Hs) as [_ Rs].
    destruct (process_garbled s1 (ccitt sentf) recvf Hm1 Hr ltac:(lia) Rs) as [E Hm2];
      [by eapply burst_detected|exact Hw|].
    destruct (Hok _ E) as [c Ec]; [by cbn; rewrite Hf|]. eexists _, _. split; [exact Ec|]. split; try done.
    + by cbn; rewrite Hf.
    + unfold out_msgs. cbn. by rewrite <- Hout.
Qed.

(** Frames, and at last the jump. *)
Lemma session_jumps tstring entry evs : forall items count m out s,
  in_session m out s -> Forall valid_item items -> 0 <= entry < 2 ^ 32 ->
  omap id evs = map item_says items ++ [jump_says entry] ->
  exists s', turns (map act evs) tstring count s = Jump entry s' /\
    (forall x, ~ scratch x -> mem_get (ram (board s')) x = mem_get (items_memory items m) x) /\
    out_msgs s' = out ++ map item_reply items.
Proof.
  induction evs as [|[e|] evs IH]; intros items count m out s Hs Hv He Ho.
  - by destruct items.
  - destruct items as [|it items]; cbn [omap list_omap map app id] in Ho; injection Ho as -> Ho.
    + pose proof Hs as [Ht [Hj Hjr] Hf Hm Hst Hrx Hram Hout].
      cbn [map turns]. rewrite bind_modify. cbn [act jump_says]. set (bs := framed _). set (s1 := with_board _ s).
      destruct (process_jump s1 entry Ht (says_mode _ bs s Hm) He (says_waiting bs s Hrx)) as (s' & E & Hr & _ & Hout').
      destruct (turn_i2c tstring count s1) as [_ Hjump]; [done..|].
      exists s'. split; [by rewrite (bind_jump _ _ _ _ _ (Hjump _ _ E))|]. split.
      * intros x Hx. rewrite Hr by done. by apply Hram.
      * cbn [map]. rewrite Hout', app_nil_r. exact Hout.
    + apply Forall_cons in Hv as [Hv0 Hv].
      destruct (item_turn tstring count m out it s Hs Hv0) as (c & s1 & E & Hs1).
      destruct (IH items c _ _ s1 Hs1 Hv He Ho) as (s' & E' & Hm' & Ho').
      exists s'. cbn [map]. rewrite (turns_cons _ _ _ _ _ _ _ E). split; [exact E'|].
      split; [exact Hm'|]. by rewrite Ho', <- app_assoc.
  - destruct (silent_turn tstring count m out s Hs) as [c E].
    destruct (IH items c m out s Hs Hv He Ho) as (s' & E' & H').
    exists s'. cbn [map]. rewrite (turns_cons _ _ _ _ _ c s); [by split|]. cbn [act id]. by rewrite with_same_board.
Qed.

(** Before the host says hello: the S-record loader sees no 'S' on its line. *)
Definition no_S (sched : list (option Z)) : Prop :=
  Forall (fun o => match o with Some c => u8 c <> 83 | None => True end) sched.

Record waiting (m : memory) (s : machine) : Prop := {
  wt_timely : timely (board s);
  wt_jtag : s_jtag (board s) = [] /\ s_jtagreg (board s) = 1;
  wt_flags : flgs s = flags_bss;
  wt_uart : gsUart0ProtocolState (uartp s) = 0;
  wt_line : no_S (rx_schedule 0 (board s));
  wt_table : crcTable s = crcInit CRC_CCITT crcTable_bss;
  wt_buf : length (gsI2CProtocolFrameRxBuf (i2cp s)) = 256%nat /\ bytes_ok (gsI2CProtocolFrameRxBuf (i2cp s));
  wt_ram : forall x, ~ scratch x -> mem_get (ram (board s)) x = mem_get m x
}.

Lemma waiting_board m s h : waiting m s -> same_board (board s) h -> (timely (board s) -> timely h) ->
  no_S (rx_schedule 0 h) -> waiting m (with_board h s).
Proof.
  intros [Ht [Hj Hr] Hf Hu Hl Htab Hb Hram] B Ht' Hl'. split; cbn; auto.
  - by rewrite (same_jtag _ _ B), (same_jtagreg _ _ B).
  - intros x Hx. rewrite (same_ram _ _ B). auto.
Qed.

Lemma waiting_printed m s out h : waiting m s -> printed out (board s) h -> waiting m (with_board h s).
Proof.
  intros [Ht [Hj Hr] Hf Hu Hl Htab Hb Hram] P.
  pose proof (fun x => printed_ram _ _ _ x P) as Hram'. pose proof (printed_timely _ _ _ P Ht) as Ht'.
  destruct P as (m' & _ & [B _ Hrx _]). split; cbn; auto.
  - by rewrite (same_jtag _ _ B), (same_jtagreg _ _ B).
  - by rewrite Hrx.
  - intros x Hx. rewrite Hram' by done. auto.
Qed.

(** The S-record loader throws the character away, if there is one. *)
Lemma uart_waits m s : waiting m s ->
  exists h, processUartProtocolFrames s = Ok tt (with_board h s) /\ waiting m (with_board h s) /\
    i2cs h = i2cs (board s).
Proof.
  intros Hw. assert (E : processUartProtocolFrames s = receive idle_char s).
  { unfold processUartProtocolFrames. rewrite bind_gets, (wt_uart _ _ Hw). done. }
  rewrite E. unfold receive. pose proof (wt_line _ _ Hw) as Hl. destruct (rx_schedule 0 (board s)) as [|[c|] rest] eqn:Hrx.
  - destruct (readraw_none 0 1 0 (board s)) as (h & Eh & B & _ & Hr & Ht); [rewrite Hrx; by left|].
    exists h. rewrite (bind_lift _ _ _ _ _ Eh). split; [done|]. split; [|apply B].
    apply waiting_board; try done. rewrite Hr, Hrx. done.
  - destruct (readraw_char 0 1 0 (board s) c rest Hrx) as (h & Eh & B & _ & Hr & Ht).
    apply Forall_cons in Hl as [Hc Hl]. exists h. rewrite (bind_lift _ _ _ _ _ Eh). cbn [Z.eqb Pos.eqb].
    split; [unfold idle_char; by destruct (Z.eqb_spec (u8 c) 83)|]. split; [|apply B].
    apply waiting_board; try done. by rewrite Hr.
  - destruct (readraw_none 0 1 0 (board s)) as (h & Eh & B & _ & Hr & Ht); [rewrite Hrx; by right|].
    exists h. rewrite (bind_lift _ _ _ _ _ Eh). split; [done|]. split; [|apply B].
    apply waiting_board; try done. rewrite Hr, Hrx. by apply Forall_cons in Hl as [_ Hl].
Qed.

Lemma dot_prints : exists out, prints (dbg_str dot) out.
Proof. eexists. apply (dbg_str_prints [46] [0; 0; 0; 0; 0; 0]). by repeat constructor. Qed.

(** A turn up to the handler of the I2C protocol. *)
Lemma turn_waiting count m s : waiting m s ->
  exists s1, waiting m s1 /\ i2cs (board s1) = i2cs (board s) /\
    turn dot count s = (processI2CProtocolFrames ;;
      (if u32 (count + 1) >=? 90000 then
         f ← gets flgs;
         when (gStopUartMsgFlg f =? 0) (lift (dbg_str dot) ;; _ ← lift sendUartBootMeFrame; skip) ;; mret 0
       else mret (u32 (count + 1)))) s1.
Proof.
  intros Hw. destruct (uart_waits m s Hw) as (h & E & Hw' & Hi). exists (with_board h s). split; [done|]. split; [done|].
  unfold turn. destruct (wt_jtag _ _ Hw) as [Hj Hr].
  assert (Er : rd (Soc jtagreg) (board s) = Ok 1 (board s)) by (unfold rd; cbn; by rewrite Hj, Hr).
  rewrite (bind_lift _ _ _ _ _ Er), with_same_board. cbn [Z.eqb Pos.eqb negb].
  rewrite bind_skip, bind_gets, (wt_flags _ _ Hw). cbn [Z.eqb when gStopUartBootLoaderFlg flags_bss].
  rewrite (bind_ok _ _ _ _ _ E), bind_gets, (wt_flags _ _ Hw'). done.
Qed.

Lemma wait_turn count m s : waiting m s -> i_status (i2cs (board s)) = 0 ->
  exists c s', turn dot count s = Ok c s' /\ waiting m s' /\ i2cs (board s') = i2cs (board s).
Proof.
  intros Hw Hs. destruct (turn_waiting count m s Hw) as (s1 & Hw1 & Hi & E). rewrite E.
  rewrite (bind_ok _ _ _ _ _ (i2c_idle s1 ltac:(by rewrite Hi, Hs))).
  destruct (_ >=? 90000); [|by eexists _, s1]. rewrite bind_gets, (wt_flags _ _ Hw1). cbn [Z.eqb gStopUartMsgFlg flags_bss when].
  destruct dot_prints as (o1 & P1). destruct (P1 (board s1) (wt_timely _ _ Hw1)) as (h1 & E1 & Q1).
  pose proof (printed_timely _ _ _ Q1 (wt_timely _ _ Hw1)) as Ht1.
  destruct (send_frame_prints (ascii_bytes "A2 BOOTME" ++ crlf ++ [0]) 11 h1 Ht1) as (r & h2 & E2 & Q2);
    [by apply (bool_decide_unpack _)|lia|simpl; lia|].
  rewrite bind_assoc, (bind_lift _ _ _ _ _ E1), bind_assoc.
  rewrite (bind_lift sendUartBootMeFrame _ (with_board h1 s1) _ _ E2).
  pose proof (printed_trans _ _ _ _ _ Q1 Q2) as Q. eexists _, _. split; [reflexivity|].
  rewrite with_board_twice. split; [by eapply waiting_printed|].
  destruct Q as (m' & _ & [B _ _ _]). cbn. by rewrite (same_i2cs _ _ B).
Qed.

Lemma hello_turn count m s :
  waiting m s -> i_status (i2cs (board s)) = 0 -> i_rx (i2cs (board s)) = [] ->
  exists c s', turn dot count (with_board (act (Some hello) (board s)) s) = Ok c s' /\
    in_session m (out_msgs s ++ [A2_I2C_BL_IS_READY_CHECK_RSP_YES]) s'.
Proof.
  intros Hw Hs Hr. set (s0 := with_board _ s).
  assert (Hw0 : waiting m s0) by (destruct Hw; by split).
  destruct (turn_waiting count m s0 Hw0) as (s1 & Hw1 & Hi & E). rewrite E.
  assert (Eh := process_handshake 0x20 s1 ltac:(rewrite Hi; by vm_compute) ltac:(by rewrite Hi) ltac:(by right)).
  rewrite (bind_ok _ _ _ _ _ Eh). set (s2 := replied _ _) in *.
  assert (Hf : flgs s2 = mk_flags 1 1 0) by (cbn; by rewrite (wt_flags _ _ Hw1)).
  assert (Hss : in_session m (out_msgs s ++ [A2_I2C_BL_IS_READY_CHECK_RSP_YES]) s2).
  { destruct Hw1 as [Ht Hj _ _ _ Htab [Hb1 Hb2] Hram].
    split; [exact Ht|exact Hj|exact Hf|by split|reflexivity| |exact Hram|].
    - unfold s2. cbn. rewrite Hi. cbn. by rewrite Hr.
    - unfold s2, out_msgs. cbn. unfold out_msgs. cbn. by rewrite Hi. }
  destruct (_ >=? 90000); [|by eexists _, _]. rewrite bind_gets, Hf. by eexists _, _.
Qed.

Lemma waits_and_jumps entry items evs : forall count m s,
  waiting m s -> i_status (i2cs (board s)) = 0 -> i_rx (i2cs (board s)) = [] ->
  Forall valid_item items -> 0 <= entry < 2 ^ 32 ->
  omap id evs = hello :: map item_says items ++ [jump_says entry] ->
  exists s', turns (map act evs) dot count s = Jump entry s' /\
    (forall x, ~ scratch x -> mem_get (ram (board s')) x = mem_get (items_memory items m) x) /\
    out_msgs s' = out_msgs s ++ A2_I2C_BL_IS_READY_CHECK_RSP_YES :: map item_reply items.
Proof.
  induction evs as [|[e|] evs IH]; intros count m s Hw Hs Hr Hv He Ho; [done| |].
  - injection Ho as -> Ho. destruct (hello_turn count m s Hw Hs Hr) as (c & s1 & E & Hss).
    destruct (session_jumps dot entry evs items c _ _ s1 Hss Hv He Ho) as (s' & E' & Hm & Hout).
    exists s'. cbn [map]. rewrite (turns_cons _ _ _ _ _ _ _ E). split; [done|]. split; [done|].
    by rewrite Hout, <- app_assoc.
  - destruct (wait_turn count m s Hw Hs) as (c & s1 & E & Hw1 & Hi).
    destruct (IH c m s1 Hw1) as (s' & E' & Hm & Hout); [by rewrite Hi..|done|done|done|].
    exists s'. cbn [map]. rewrite (turns_cons _ _ _ _ _ c s1); [|cbn [act id]; by rewrite with_same_board].
    split; [done|]. split; [done|]. rewrite Hout. unfold out_msgs. by rewrite Hi.
Qed.
End Session.

Section Boots.
Context `{Budget} `{SocConfig} `{LayoutOk} `{FramesOk} `{UartPort} `{!UartPortOk _} `{I2csPort} `{!I2csPortOk _}
  `{FlashPort} `{!FlashPortOk _} `{RomBuild} `{!RomBuildOk _}.

(** C2. From reset with the boot pin low, a host boots the chip over I2C: it says
    hello, sends load frames, sends again what the chip reports as corrupted, and
    at last sends the jump, each whenever it likes.  [main] enters the loop, and the
    loop jumps to the entry address with memory equal to what the good frames
    describe; a frame damaged by a burst of up to 16 bits leaves no trace but the
    reply CORRUPTED, every other one is answered GOOD.  A UART line with anything
    but an 'S' on it does not interfere.  The frames are applied to the memory in
    which the first four bytes of L2 hold the flash identifier ([probe_id]). *)
Theorem main_boots_i2c h evs items entry :
  VERILATOR = false -> timely h -> (4 <= length (flash_id (flash h)))%nat -> s_bootsel h &&& 1 = 0 ->
  i_status (i2cs h) = 0 -> i_rx (i2cs h) = [] -> s_jtag h = [] -> no_S (rx_schedule 0 h) ->
  Forall valid_item items -> 0 <= entry < 2 ^ 32 ->
  omap id evs = hello :: map item_says items ++ [jump_says entry] ->
  exists s s', (forall fuel, main fuel (after_crt0 h) = main_loop fuel dot 0 s) /\
    turns (map act evs) dot 0 s = Jump entry s' /\
    (forall x, ~ scratch x -> ~ cmdbuf x ->
       mem_get (ram (board s')) x = mem_get (items_memory items (probe_id (flash h) (ram h))) x) /\
    out_msgs s' = i_out (i2cs h) ++ reset_message (s_reset_reason h) ++
                  A2_I2C_BL_IS_READY_CHECK_RSP_YES :: map item_reply items.
Proof.
  intros Hv Ht Hid Hb Hst Hrx Hj Hl Hit He Ho.
  destruct (main_enters_loop h Hv Ht Hid Hb) as (s & Hs & E).
  destruct (waits_and_jumps entry items evs 0 (ram (board s)) s) as (s' & E' & Hm & Hout); try done.
  - split; [apply (ls_timely _ _ Hs)|split; [by rewrite (ls_jtag _ _ Hs)|apply (ls_jtagreg _ _ Hs)]
      |apply (ls_flags _ _ Hs)|by rewrite (ls_uartp _ _ Hs)|by rewrite (ls_rx _ _ Hs)|apply (ls_table _ _ Hs)| |done].
    rewrite (ls_i2cp _ _ Hs). split; [done|by apply (bool_decide_unpack _)].
  - by rewrite (ls_status _ _ Hs).
  - by rewrite (ls_i2c_rx _ _ Hs).
  - exists s, s'. split; [done|]. split; [done|]. split.
    + intros x Hsc Hc. rewrite Hm by done. apply items_memory_agree. by apply (ls_ram _ _ Hs).
    + rewrite Hout. unfold out_msgs. by rewrite (ls_i2c_out _ _ Hs), <- app_assoc.
Qed.
End Boots.

(** ** Concrete runs *)
Section Witnesses.
#[local] Instance w_budget : Budget := sample_budget.
#[local] Instance w_layout : Layout := sample_layout.
#[local] Instance w_frames : Frames := {| frame_c := 1000; frame_lChar := 1004 |}.
#[local] Instance w_frames_ok : FramesOk w_frames.
Proof. split; unfold BOOT_STACK_SIZE; simpl; lia. Qed.
#[local] Instance w_config : SocConfig := {| UDMA_CTRL_UART0_CLKEN := 1; UDMA_CTRL_QSPIM0_CLKEN := 4 |}.
#[local] Instance w_build : RomBuild := {| DATE := "Jan 21 2022"; TIME := "10:20:30"; VERILATOR := false |}.
#[local] Instance w_build_ok : RomBuildOk w_build.
Proof. split; split; literal. Qed.

(** A load frame that is damaged once and sent again, then the jump. *)
Definition sample_sent : list Z := host_frame 0x1C001000 A2_LOAD_MEMORY_CMD [1; 2; 3].
Definition sample_items : list i2c_item :=
  [Garbled sample_sent (host_frame 0x1C001000 A2_JUMP_TO_ADDRESS_CMD [1; 2; 3]); Load 0x1C001000 [1; 2; 3]].
Definition sample_events : list (option (Z * list Z)) :=
  None :: map Some (hello :: map item_says sample_items ++ [jump_says 0x1C000080]).

Lemma sample_items_valid : Forall valid_item sample_items.
Proof.
  repeat apply Forall_cons_2; [| |constructor].
  - repeat (split; [first [by apply (bool_decide_unpack _)|reflexivity|vm_compute; lia]|]).
    exists 2, 32%nat. split; [lia|by vm_compute].
  - split; [lia|]. split; [by apply (bool_decide_unpack _)|simpl; lia].
Qed.

Lemma main_boots_i2c_witness :
  let h := reset_board sample_flash in
  exists s s', (forall fuel, main fuel (after_crt0 h) = main_loop fuel dot 0 s) /\
    turns (map act sample_events) dot 0 s = Jump 0x1C000080 s' /\
    mem_get (ram (board s')) 0x1C001002 = 3 /\ out_msgs s' = [0x27; 0x21; 0x30; 0x31].
Proof.
  intros h. destruct (main_boots_i2c h sample_events sample_items 0x1C000080) as (s & s' & E & E' & Hm & Ho).
  - reflexivity.
  - apply reset_timely.
  - simpl. lia.
  - by vm_compute.
  - reflexivity.
  - reflexivity.
  - reflexivity.
  - constructor.
  - apply sample_items_valid.
  - lia.
  - reflexivity.
  - exists s, s'. split; [exact E|]. split; [exact E'|]. split; [|rewrite Ho; reflexivity].
    rewrite Hm; [by vm_compute|..]; unfold scratch, cmdbuf, addr_c, addr_lChar, addr_auccmd, w_layout, sample_layout; lia.
Defined.

Lemma protocols_exclude_witness :
  let s := after_crt0 (with_jtag 1 [] (reset_board sample_flash)) in
  let s' := final (turns (map act (Some hello :: sample_events)) dot 0 s) in
  someone_listens s' /\ (i2cp s' = i2cp s \/ uart_off s') /\ uart_off s'.
Proof.
  intros s s'. destruct (protocols_exclude (map act (Some hello :: sample_events)) dot 0 s) as (Hl & _ & _ & He & Hh).
  split; [apply Hl; intros [Hn _]; by apply Hn|]. split.
  - apply He. intros Hn. by destruct Hn.
  - apply (Hh _ _ eq_refl); [reflexivity|]. split; [intros Hn; by apply Hn|]. split; [discriminate|by left].
Defined.
End Witnesses.
