(* ===== verification/UartSession.v ===== *)
(** * UartSession: the host loop with a host on the UART

    Before the host speaks the loop prompts, once every 90000 turns; from the first
    'S' on the prompt is off and every turn is one call of the S-record loader. *)

From S2P Require Import Prelude Monad Crc Hw Uart Dbg Spi I2cs Machine UartProtocol SRecord I2CProtocol Boot.
From S2P Require Import FlashImage FlashBoot BootMain HostLoop.

(** ** What the handler leaves alone

    The I2C slave, the JTAG mailbox and the flag that would stop the UART loader do
    not change, and once the prompt is off it stays off. *)
Definition hushed (s : machine) : Prop := gStopUartMsgFlg (flgs s) <> 0.
Definition quiet `{Budget} (s s' : machine) : Prop :=
  timely (board s') /\ i2cs (board s') = i2cs (board s) /\ s_jtag (board s') = s_jtag (board s) /\
  s_jtagreg (board s') = s_jtagreg (board s) /\ gStopUartBootLoaderFlg (flgs s') = gStopUartBootLoaderFlg (flgs s) /\
  (hushed s -> hushed s').
Definition keeps `{Budget} {A} (m : M machine A) : Prop :=
  forall s, timely (board s) -> match m s with Ok _ s' => quiet s s' | _ => True end.

(** A step that changes none of it. *)
Ltac quiet_auto := split; [assumption|]; do 4 (split; [first [reflexivity|assumption]|]); first [by intros ?|assumption].

Section Keeps.
Context `{Budget} `{LayoutOk} `{UartPort} `{!UartPortOk _}.

Lemma quiet_refl s : timely (board s) -> quiet s s.
Proof. by quiet_auto. Qed.
Lemma quiet_trans s1 s2 s3 : quiet s1 s2 -> quiet s2 s3 -> quiet s1 s3.
Proof. unfold quiet. intuition congruence. Qed.

Lemma keeps_bind {A B} (m : M machine A) (k : A -> M machine B) : keeps m -> (forall a, keeps (k a)) -> keeps (m ≫= k).
Proof.
  intros Hm Hk s Ht. specialize (Hm s Ht). unfold mbind, M_bind. destruct (m s) as [a s1| | |]; try done.
  pose proof Hm as (Ht1 & _). specialize (Hk a s1 Ht1). destruct (k a s1); try done. by eapply quiet_trans.
Qed.
Lemma keeps_skip : keeps skip.
Proof. intros s Ht. by apply quiet_refl. Qed.
Lemma keeps_spin {A} : keeps (A := A) spin.
Proof. done. Qed.
Lemma keeps_jump {A} e : keeps (A := A) (jump_to_address e).
Proof. done. Qed.
Lemma keeps_gets {A} (g : machine -> A) : keeps (gets g).
Proof. intros s Ht. by apply quiet_refl. Qed.
Lemma keeps_on_uartp g : keeps (on_uartp g).
Proof. intros s Ht. unfold on_uartp. destruct (g (uartp s)); [by quiet_auto|done]. Qed.
Lemma keeps_when b m : keeps m -> keeps (when b m).
Proof. intros Hm. destruct b; [done|apply keeps_skip]. Qed.
Lemma keeps_memcpy a buf n : keeps (memcpy_out a buf n).
Proof. intros s Ht. unfold memcpy_out. destruct (_ <=? _); [by quiet_auto|done]. Qed.
Lemma keeps_stop_others : keeps (modify stop_others).
Proof.
  intros s Ht. unfold stop_others. split; [done|]. do 3 (split; [done|]).
  unfold hushed. cbn. destruct (flgs s) as [a b c]. cbn. destruct (a =? 0); cbn; destruct (c =? 0); cbn; by split.
Qed.

Lemma same_quiet h h' s : same_board h h' -> board s = h -> timely h' -> quiet s (with_board h' s).
Proof. intros B <- Ht. destruct B. by quiet_auto. Qed.

Lemma printed_quiet out s h : timely (board s) -> printed out (board s) h -> quiet s (with_board h s).
Proof.
  intros Ht P. pose proof (printed_timely _ _ _ P Ht) as Ht'. destruct P as (m & _ & [[] _ _ _]). by quiet_auto.
Qed.
Lemma keeps_prints m out : prints m out -> keeps (lift m).
Proof. intros P s Ht. destruct (P (board s) Ht) as (h & E & Q). unfold lift. rewrite E. by eapply printed_quiet. Qed.
Lemma keeps_sends (m : M hw Z) out : (forall h, timely h -> exists r h', m h = Ok r h' /\ printed out h h') -> keeps (lift m).
Proof. intros P s Ht. destruct (P (board s) Ht) as (r & h & E & Q). unfold lift. rewrite E. by eapply printed_quiet. Qed.
Lemma keeps_receive k : (forall c, keeps (k c)) -> keeps (receive k).
Proof.
  intros Hk. unfold receive. apply keeps_bind; [|intros [st c]; destruct (st =? 1); [done|apply keeps_skip]].
  intros s Ht. unfold lift. destruct (rx_schedule 0 (board s)) as [|[c|] rest] eqn:Hrx.
  - destruct (readraw_none 0 1 0 (board s)) as (h & -> & B & _ & _ & Ht'); [rewrite Hrx; by left|].
    apply (same_quiet (board s)); auto.
  - destruct (readraw_char 0 1 0 (board s) c rest Hrx) as (h & -> & B & _ & _ & Ht').
    apply (same_quiet (board s)); auto.
  - destruct (readraw_none 0 1 0 (board s)) as (h & -> & B & _ & _ & Ht'); [rewrite Hrx; by right|].
    apply (same_quiet (board s)); auto.
Qed.

Lemma keeps_chksum n : forall i, keeps (chksum_loop n i).
Proof.
  induction n as [|n IH]; intros i; cbn [chksum_loop]; apply keeps_bind; try apply keeps_gets; intros u;
    destruct (i <? _); try apply keeps_skip; try apply keeps_spin.
  apply keeps_bind; [apply keeps_on_uartp|intros []; apply IH].
Qed.

Lemma keeps_ok b : keeps (_ ← lift (sendUartOKorNotOKFrame b); skip).
Proof.
  apply keeps_bind; [|intros ?; apply keeps_skip]. unfold sendUartOKorNotOKFrame.
  destruct (b =? 1); [|destruct (b =? 0)].
  - eapply keeps_sends. intros h Ht. apply (send_frame_prints (ok_text ++ [0]) 4 h Ht); [|lia|done].
    repeat (constructor; [done|]). constructor.
  - eapply keeps_sends. intros h Ht. apply (send_frame_prints (not_ok_text ++ [0]) 8 h Ht); [|lia|done].
    repeat (constructor; [done|]). constructor.
  - intros s Ht. cbn. destruct s. by apply quiet_refl.
Qed.

Lemma keeps_process : keeps processUartProtocolFrames.
Proof.
  unfold processUartProtocolFrames. apply keeps_bind; [apply keeps_gets|intros u].
  repeat (match goal with |- keeps (if ?b then _ else _) => destruct b end); try apply keeps_skip;
    apply keeps_receive; intros c; try apply keeps_on_uartp.
  - unfold idle_char. destruct (c =? 83); [|apply keeps_skip].
    apply keeps_bind; [apply keeps_on_uartp|intros []; apply keeps_stop_others].
  - unfold get_data_char. repeat (apply keeps_bind; [apply keeps_on_uartp|intros []]).
    apply keeps_bind; [apply keeps_gets|intros u']. apply keeps_when.
    apply keeps_bind; [apply keeps_chksum|intros []; apply keeps_on_uartp].
  - unfold get_crc_char. apply keeps_bind; [apply keeps_on_uartp|intros []].
    apply keeps_bind; [apply keeps_gets|intros u']. apply keeps_when.
    apply keeps_bind; [apply keeps_on_uartp|intros []]. apply keeps_bind; [apply keeps_gets|intros u2].
    apply keeps_bind; [|intros []; apply keeps_on_uartp]. destruct (_ =? _).
    + unfold accept_record. apply keeps_bind; [apply keeps_gets|intros u3].
      apply keeps_bind; [|intros []; apply keeps_ok]. destruct (negb _); [|apply keeps_skip].
      destruct (is_load_type _); [apply keeps_memcpy|]. destruct (is_start_type _); [|apply keeps_skip].
      apply keeps_bind; [eapply keeps_prints; apply (dbg_line_prints "UART BL JMP "); literal|intros []].
      apply keeps_bind; [eapply keeps_prints; apply dbg_hex32_prints|intros []].
      apply keeps_bind; [eapply keeps_prints; apply (dbg_cstr_prints " "); literal|intros []; apply keeps_jump].
    + unfold reject_record. apply keeps_bind; [apply keeps_gets|intros u3].
      apply keeps_bind; [eapply keeps_prints; apply (dbg_line_prints "CHKSUM ERR "); literal|intros []].
      apply keeps_bind; [eapply keeps_prints; apply dbg_hex8_prints|intros []].
      apply keeps_bind; [eapply keeps_prints; apply dbg_hex8_prints|intros []; apply keeps_ok].
Qed.
End Keeps.

Section Host.
Context `{Budget} `{LayoutOk} `{UartPort} `{!UartPortOk _} `{I2csPort} `{!I2csPortOk _}.

(** Nobody but the UART host talks to the chip. *)
Record uart_only (s : machine) : Prop := {
  uo_timely : timely (board s);
  uo_i2c : u8 (i_status (i2cs (board s))) = 0;
  uo_jtag : s_jtag (board s) = [] /\ s_jtagreg (board s) = 1;
  uo_flag : gStopUartBootLoaderFlg (flgs s) = 0
}.

Lemma uart_only_quiet s s' : uart_only s -> quiet s s' -> uart_only s'.
Proof.
  intros [Ht Hi [Hj Hr] Hg] (Ht' & Hi' & Hj' & Hr' & Hg' & _).
  split; [done|by rewrite Hi'|by rewrite Hj', Hr'|by rewrite Hg'].
Qed.

(** A turn is the UART handler and the count. *)
Definition wrap_up (tstring : list Z) (count : Z) : M machine Z :=
  if count + 1 =? 90000 then
    f ← gets flgs;
    when (gStopUartMsgFlg f =? 0) (lift (dbg_str tstring) ;; _ ← lift sendUartBootMeFrame; skip) ;;
    mret 0
  else mret (count + 1).

Lemma turn_uart tstring count s : uart_only s -> 0 <= count < 90000 ->
  turn tstring count s = (processUartProtocolFrames ;; wrap_up tstring count) s.
Proof.
  intros Hu Hc. destruct Hu as [Ht Hi [Hj Hr] Hg] eqn:Eu. clear Eu.
  assert (Er : rd (Soc jtagreg) (board s) = Ok 1 (board s)) by (unfold rd; cbn; by rewrite Hj, Hr).
  unfold turn. rewrite (bind_lift _ _ _ _ _ Er), with_same_board. cbn [Z.eqb Pos.eqb negb].
  rewrite bind_skip, bind_gets, Hg. cbn [Z.eqb when].
  pose proof (keeps_process s Ht) as Hk. destruct (processUartProtocolFrames s) as [[] s1|e1 s1|s1|s1] eqn:Ep.
  - rewrite !(bind_ok _ _ _ _ _ Ep), bind_gets. pose proof (uart_only_quiet s s1 Hu Hk) as Hu1.
    assert (Ei : when (gStopI2CBootLoaderFlg (flgs s1) =? 0) processI2CProtocolFrames s1 = Ok tt s1).
    { destruct (_ =? 0); cbn [when]; [|done]. apply i2c_idle, Hu1. }
    rewrite (bind_ok _ _ _ _ _ Ei), u32_small by lia. unfold wrap_up.
    destruct (Z.geb_spec (count + 1) 90000), (Z.eqb_spec (count + 1) 90000); (lia || done).
  - by rewrite !(bind_jump _ _ _ _ _ Ep).
  - by rewrite !(bind_fault _ _ _ _ Ep).
  - unfold mbind, M_bind. by rewrite Ep.
Qed.

(** Once the host is heard there is no prompt: the loop is the handler, over and over. *)
Lemma hushed_wrap tstring count s : hushed s -> 0 <= count < 90000 ->
  exists count', 0 <= count' < 90000 /\ wrap_up tstring count s = Ok count' s.
Proof.
  intros Hh Hc. unfold wrap_up. destruct (Z.eqb_spec (count + 1) 90000).
  - exists 0. split; [lia|]. rewrite bind_gets. by destruct (Z.eqb_spec (gStopUartMsgFlg (flgs s)) 0).
  - exists (count + 1). split; [lia|done].
Qed.

Lemma main_loop_heard tstring e s' : forall n fuel count s, uart_only s -> 0 <= count < 90000 ->
  (forall s1, processUartProtocolFrames s = Ok tt s1 -> hushed s1) -> (n <= fuel)%nat ->
  iter_ n processUartProtocolFrames s = Jump e s' -> main_loop fuel tstring count s = Jump e s'.
Proof.
  induction n as [|n IH]; intros fuel count s Hu Hc Hh Hn E; [discriminate E|].
  destruct fuel as [|fuel]; [lia|]. rewrite main_loop_turn. cbn [iter_] in E.
  unfold mbind, M_bind at 1. rewrite (turn_uart _ _ _ Hu Hc).
  pose proof (keeps_process s (uo_timely _ Hu)) as Hk. revert E.
  destruct (processUartProtocolFrames s) as [[] s1|e1 s1|s1|s1] eqn:Ep.
  - rewrite !(bind_ok _ _ _ _ _ Ep). intros E.
    destruct (hushed_wrap tstring count s1 (Hh _ eq_refl) Hc) as (count' & Hc' & ->).
    apply IH; [by eapply uart_only_quiet|done| |lia|done]. intros s2 E2.
    pose proof (uart_only_quiet _ _ Hu Hk) as Hu1. pose proof (keeps_process s1 (uo_timely _ Hu1)) as Hk1.
    rewrite E2 in Hk1. apply Hk1. by apply Hh.
  - by rewrite !(bind_jump _ _ _ _ _ Ep).
  - by rewrite !(bind_fault _ _ _ _ Ep).
  - unfold mbind, M_bind. by rewrite Ep.
Qed.

(** ** Before the host speaks *)
Definition heard (o : option Z) : bool := match o with Some c => u8 c =? 83 | None => false end.
(** The polls of the line before the first 'S'. *)
Fixpoint waited (sched : list (option Z)) : nat :=
  match sched with o :: sched => if heard o then O else S (waited sched) | [] => O end.
Definition bootme_text : list Z := ascii_bytes "A2 BOOTME" ++ crlf.
Definition prompts (n : Z) : list Z := concat (replicate (Z.to_nat n) bootme_text).

Record listening (m : memory) (out : list Z) (s : machine) : Prop := {
  li_only : uart_only s;
  li_flags : flgs s = flags_bss;
  li_idle : at_state 0 (uartp s);
  li_ram : forall x, ~ scratch x -> mem_get (ram (board s)) x = mem_get m x;
  li_sent : sent 0 (board s) = out
}.

Lemma listening_board m out s h o : listening m out s -> timely h -> same_board (with_ram (ram h) (board s)) h ->
  (forall x, ~ scratch x -> mem_get (ram h) x = mem_get (ram (board s)) x) ->
  sent 0 h = sent 0 (board s) ++ o -> listening m (out ++ o) (with_board h s).
Proof.
  intros [[Ht Hi [Hj Hjr] Hg] Hf Hid Hm Ho] Ht' B Hm' Ho'. split; cbn; try done.
  - split; cbn; [done|by rewrite (same_i2cs _ _ B)|by rewrite (same_jtag _ _ B), (same_jtagreg _ _ B)|done].
  - intros x Hx. rewrite Hm' by done. auto.
  - by rewrite Ho', Ho.
Qed.

(** The loader throws the character away, if there is one. *)
Lemma idle_poll m out s o rest : listening m out s -> rx_schedule 0 (board s) = o :: rest -> heard o = false ->
  exists s', processUartProtocolFrames s = Ok tt s' /\ listening m out s' /\ rx_schedule 0 (board s') = rest.
Proof.
  intros Hl Hrx Hh. assert (E : processUartProtocolFrames s = receive idle_char s).
  { unfold processUartProtocolFrames. by rewrite bind_gets, (st_state _ _ (li_idle _ _ _ Hl)). }
  rewrite E. unfold receive.
  assert (Hb : forall h, same_board (board s) h -> (forall j, sent j h = sent j (board s)) ->
    (timely (board s) -> timely h) -> listening m out (with_board h s)).
  { intros h B Hs Ht. rewrite <- (app_nil_r out). pose proof (same_ram _ _ B) as Hr. apply listening_board; try done.
    - apply Ht, (uo_timely _ (li_only _ _ _ Hl)).
    - rewrite Hr. by destruct B.
    - by rewrite Hr.
    - by rewrite Hs, app_nil_r. }
  destruct o as [c|].
  - destruct (readraw_char 0 1 0 (board s) c rest Hrx) as (h & Eh & B & Hs & Hr & Ht).
    exists (with_board h s). rewrite (bind_lift _ _ _ _ _ Eh). cbn [Z.eqb Pos.eqb].
    cbn [heard] in Hh. unfold idle_char. rewrite Hh. split; [done|]. split; [by apply Hb|done].
  - destruct (readraw_none 0 1 0 (board s)) as (h & Eh & B & Hs & Hr & Ht); [rewrite Hrx; by right|].
    exists (with_board h s). rewrite (bind_lift _ _ _ _ _ Eh). split; [done|]. split; [by apply Hb|].
    cbn. by rewrite Hr, Hrx.
Qed.
Lemma wrap_prompts m out s count : listening m out s -> 0 <= count < 90000 ->
  exists s', wrap_up dot count s = Ok ((count + 1) mod 90000) s' /\
    listening m (out ++ prompts ((count + 1) / 90000)) s' /\ rx_schedule 0 (board s') = rx_schedule 0 (board s).
Proof.
  intros Hl Hc. unfold wrap_up. destruct (Z.eqb_spec (count + 1) 90000) as [->|].
  - rewrite bind_gets, (li_flags _ _ _ Hl). cbn [Z.eqb gStopUartMsgFlg flags_bss when].
    pose proof (uo_timely _ (li_only _ _ _ Hl)) as Ht.
    destruct (dbg_str_prints [46] [0; 0; 0; 0; 0; 0] ltac:(by repeat constructor) (board s) Ht) as (h1 & E1 & Q1).
    destruct (send_frame_prints (bootme_text ++ [0]) 11 h1 (printed_timely _ _ _ Q1 Ht)) as (r & h2 & E2 & Q2);
      [by apply (bool_decide_unpack _)|lia|simpl; lia|].
    rewrite bind_assoc, (bind_lift _ _ _ _ _ E1), bind_assoc.
    rewrite (bind_lift sendUartBootMeFrame _ (with_board h1 s) _ _ E2).
    pose proof (printed_trans _ _ _ _ _ Q1 Q2) as Q. pose proof (printed_timely _ _ _ Q Ht) as Ht2.
    pose proof (fun x => printed_ram _ _ _ x Q) as Hr. pose proof (printed_rx _ _ _ Q) as Hrx.
    exists (with_board h2 s). rewrite with_board_twice. split; [reflexivity|]. split; [|exact Hrx].
    destruct Q as (m' & _ & [B Hs _ _]). apply listening_board; try done.
    pose proof (same_ram _ _ B) as Em. cbn in Em. by rewrite Em.
  - exists s. assert (Hlt : 0 <= count + 1 < 90000) by lia.
    rewrite Z.mod_small, Z.div_small by done. rewrite app_nil_r. by split.
Qed.

Lemma prompts_split count n : 0 <= count -> 0 <= n ->
  prompts ((count + 1) / 90000) ++ prompts (((count + 1) mod 90000 + n) / 90000) = prompts ((count + (1 + n)) / 90000).
Proof.
  intros Hc Hn. unfold prompts. rewrite <- concat_app, <- replicate_add.
  do 2 f_equal. rewrite <- Z2Nat.inj_add by (Z.div_mod_to_equations; lia). f_equal. Z.div_mod_to_equations. lia.
Qed.

(** As long as no 'S' arrives the loop prompts every 90000 turns. *)
Lemma listening_turns m rest fuel : forall sched out count s,
  listening m out s -> 0 <= count < 90000 -> rx_schedule 0 (board s) = sched ++ rest ->
  Forall (fun o => heard o = false) sched ->
  exists count' s', 0 <= count' < 90000 /\
    main_loop (length sched + fuel) dot count s = main_loop fuel dot count' s' /\
    listening m (out ++ prompts ((count + Z.of_nat (length sched)) / 90000)) s' /\ rx_schedule 0 (board s') = rest.
Proof.
  induction sched as [|o sched IH]; intros out count s Hl Hc Hrx Hh.
  - exists count, s. split; [done|]. split; [done|]. split; [|done].
    rewrite Z.div_small by (cbn; lia). by rewrite app_nil_r.
  - apply Forall_cons in Hh as [Ho Hh]. cbn [app] in Hrx.
    destruct (idle_poll m out s o (sched ++ rest) Hl Hrx Ho) as (s1 & E1 & Hl1 & Hr1).
    destruct (wrap_prompts m out s1 count Hl1 Hc) as (s2 & E2 & Hl2 & Hr2).
    destruct (IH _ ((count + 1) mod 90000) s2 Hl2) as (count' & s' & Hc' & E & Hl' & Hr');
      [apply Z.mod_pos_bound; lia|by rewrite Hr2|done|].
    exists count', s'. split; [done|]. split; [|split; [|done]].
    + cbn [length Nat.add]. rewrite main_loop_turn. unfold mbind, M_bind at 1.
      rewrite (turn_uart _ _ _ (li_only _ _ _ Hl) Hc), (bind_ok _ _ _ _ _ E1), E2. exact E.
    + rewrite <- app_assoc, prompts_split in Hl' by lia. cbn [length]. by rewrite Nat2Z.inj_succ, <- Z.add_1_l.
Qed.

(** The first 'S' silences the prompt. *)
Lemma first_S_hushes m out s c rest s1 : listening m out s -> rx_schedule 0 (board s) = Some c :: rest -> u8 c = 83 ->
  processUartProtocolFrames s = Ok tt s1 -> hushed s1.
Proof.
  intros Hl Hrx Hc. assert (E : processUartProtocolFrames s = receive idle_char s).
  { unfold processUartProtocolFrames. by rewrite bind_gets, (st_state _ _ (li_idle _ _ _ Hl)). }
  rewrite E. unfold receive. destruct (readraw_char 0 1 0 (board s) c rest Hrx) as (h & Eh & _).
  rewrite (bind_lift _ _ _ _ _ Eh). cbn [Z.eqb Pos.eqb]. unfold idle_char. rewrite Hc. cbn [Z.eqb Pos.eqb].
  rewrite (bind_on_uartp (fun u => Some (set_state u UART0_PROTOCOL_GET_RECORD_TYPE)) _ _ _ eq_refl). intros [= <-]. unfold hushed. rewrite stop_others_flags.
  cbn [flgs with_uartp with_board stopped gStopUartMsgFlg]. by rewrite (li_flags _ _ _ Hl).
Qed.

(** A schedule splits at the first 'S'. *)
Lemma first_S sched : forall noise cs,
  omap id sched = noise ++ 83 :: cs -> Forall (fun c => u8 c <> 83) noise ->
  exists pre post, sched = pre ++ Some 83 :: post /\ Forall (fun o => heard o = false) pre /\
    length pre = waited sched /\ omap id post = cs.
Proof.
  induction sched as [|[c|] sched IH]; intros noise cs Ho Hn.
  - by destruct noise.
  - destruct noise as [|n noise]; cbn in Ho; injection Ho as -> Ho.
    + by exists [], sched.
    + apply Forall_cons in Hn as [Hn0 Hn]. destruct (IH noise cs Ho Hn) as (pre & post & -> & Hp & Hl & E).
      exists (Some n :: pre), post. cbn [waited heard app length]. destruct (Z.eqb_spec (u8 n) 83); [done|].
      split; [done|]. split; [constructor; [|done]|by rewrite Hl].
      cbn. by destruct (Z.eqb_spec (u8 n) 83).
  - destruct (IH noise cs Ho Hn) as (pre & post & -> & Hp & Hl & E).
    exists (None :: pre), post. cbn [waited heard app length]. split; [done|]. split; [by constructor|by rewrite Hl].
Qed.
End Host.

(** ** From reset *)
Section Boots.
Context `{Budget} `{SocConfig} `{LayoutOk} `{FramesOk} `{UartPort} `{!UartPortOk _} `{I2csPort} `{!I2csPortOk _}
  `{FlashPort} `{!FlashPortOk _} `{RomBuild} `{!RomBuildOk _}.

Lemma session_text_S `{HexCoding digit} eol ls start :
  exists cs, lines_text (digit := digit) eol ls ++ record_text digit start (record_chk start) = 83 :: cs.
Proof. destruct ls as [|l ls]; eexists; reflexivity. Qed.

Lemma loop_start_listening h s : u8 (i_status (i2cs h)) = 0 -> s_jtag h = [] -> loop_start h s ->
  listening (ram (board s)) (sent 0 h) s.
Proof.
  intros Hi Hj Hl. split; try done; try apply Hl.
  - split; [apply Hl|by rewrite (ls_status _ _ Hl)| |by rewrite (ls_flags _ _ Hl)].
    split; [by rewrite (ls_jtag _ _ Hl)|apply Hl].
  - rewrite (ls_uartp _ _ Hl). by repeat split.
Qed.

(** The loop from its start, whatever the host sends before the first record. *)
Lemma session_from_loop `{HexCoding digit} fuel m out s noise ls start eol sched rest :
  listening m out s -> line_end eol -> Forall valid_line ls ->
  valid_record start -> is_start_type (r_type start) = true -> r_addr start <> 0 ->
  Forall (fun c => u8 c <> 83) noise -> rx_schedule 0 (board s) = sched ++ rest ->
  omap id sched = noise ++ lines_text (digit := digit) eol ls ++ record_text digit start (record_chk start) ->
  (length sched <= fuel)%nat ->
  exists s', main_loop fuel dot 0 s = Jump (r_addr start) s' /\
    (forall x, ~ scratch x -> mem_get (ram (board s')) x = mem_get (lines_memory ls m) x) /\
    sent 0 (board s') = out ++ prompts (Z.of_nat (waited sched) / 90000) ++ (ls ≫= line_reply).
Proof.
  intros Hl Heol Hval Hvs Hst Ha Hn Hrx Hom Hfuel.
  destruct (session_text_S (digit := digit) eol ls start) as [cs Ecs]. pose proof Hom as Hom'. rewrite Ecs in Hom'.
  destruct (first_S sched noise cs Hom' Hn) as (pre & post & -> & Hpre & Hw & Hpost).
  rewrite <- app_assoc in Hrx. rewrite length_app in Hfuel. rewrite <- Hw.
  destruct (listening_turns m _ (fuel - length pre) pre out 0 s Hl ltac:(lia) Hrx Hpre)
    as (count & s1 & Hc & E1 & Hl1 & Hr1).
  replace (length pre + (fuel - length pre))%nat with fuel in E1 by lia.
  destruct (session_boots (digit := digit) s1 ls start eol (Some 83 :: post) rest) as (s' & Ej & Hm & Hok & _); try done.
  - apply (uo_timely _ (li_only _ _ _ Hl1)).
  - apply (li_idle _ _ _ Hl1).
  - cbn. rewrite Ecs. by f_equal.
  - exists s'. rewrite E1. split; [|split].
    + apply (main_loop_heard _ _ _ (length (Some 83 :: post))); [apply (li_only _ _ _ Hl1)|done| |lia|done].
      intros s2 E2. by eapply first_S_hushes.
    + intros x Hx. rewrite Hm by done. apply lines_memory_agree. by apply (li_ram _ _ _ Hl1).
    + by rewrite Hok, (li_sent _ _ _ Hl1), <- app_assoc.
Qed.

Lemma main_session `{HexCoding digit} fuel h noise ls start eol sched rest :
  VERILATOR = false -> timely h -> (4 <= length (flash_id (flash h)))%nat ->
  s_bootsel h &&& 1 = 0 -> u8 (i_status (i2cs h)) = 0 -> s_jtag h = [] ->
  line_end eol -> Forall valid_line ls ->
  valid_record start -> is_start_type (r_type start) = true -> r_addr start <> 0 ->
  Forall (fun c => u8 c <> 83) noise -> rx_schedule 0 h = sched ++ rest ->
  omap id sched = noise ++ lines_text (digit := digit) eol ls ++ record_text digit start (record_chk start) ->
  (length sched <= fuel)%nat ->
  exists s', main fuel (after_crt0 h) = Jump (r_addr start) s' /\
    (forall x, ~ scratch x -> ~ cmdbuf x ->
       mem_get (ram (board s')) x = mem_get (lines_memory ls (probe_id (flash h) (ram h))) x) /\
    sent 0 (board s') = sent 0 h ++ prompts (Z.of_nat (waited sched) / 90000) ++ (ls ≫= line_reply).
Proof.
  intros Hv Ht Hid Hb Hi Hj Heol Hval Hvs Hst Ha Hn Hrx Hom Hfuel.
  destruct (main_enters_loop h Hv Ht Hid Hb) as (s & Hl & E).
  destruct (session_from_loop (digit := digit) fuel (ram (board s)) (sent 0 h) s noise ls start eol sched rest)
    as (s' & Ej & Hm & Hok); try done.
  - by apply loop_start_listening.
  - by rewrite (ls_rx _ _ Hl).
  - exists s'. rewrite E. split; [exact Ej|]. split; [|done].
    intros x Hsc Hc. rewrite Hm by done. apply lines_memory_agree. by apply (ls_ram _ _ Hl).
Qed.

(** A file that arrives as it was sent: every record is acknowledged. *)
Theorem main_boots_srec `{HexCoding digit} fuel h rs start eol sched rest :
  VERILATOR = false -> timely h -> (4 <= length (flash_id (flash h)))%nat ->
  s_bootsel h &&& 1 = 0 -> u8 (i_status (i2cs h)) = 0 -> s_jtag h = [] ->
  line_end eol -> Forall valid_record rs -> Forall (fun r => is_start_type (r_type r) = false) rs ->
  valid_record start -> is_start_type (r_type start) = true -> r_addr start <> 0 ->
  rx_schedule 0 h = sched ++ rest ->
  omap id sched = file_text (digit := digit) eol rs ++ record_text digit start (record_chk start) ->
  (length sched <= fuel)%nat ->
  exists s', main fuel (after_crt0 h) = Jump (r_addr start) s' /\
    (forall x, ~ scratch x -> ~ cmdbuf x ->
       mem_get (ram (board s')) x = mem_get (file_memory rs (probe_id (flash h) (ram h))) x) /\
    sent 0 (board s') = sent 0 h ++ prompts (Z.of_nat (waited sched) / 90000) ++ concat (replicate (length rs) ok_text).
Proof.
  intros Hv Ht Hid Hb Hi Hj Heol Hval Hns Hvs Hst Ha Hrx Hom Hfuel. rewrite <- lines_text_file in Hom.
  destruct (main_session (digit := digit) fuel h [] (map sent_line rs) start eol sched rest) as (s' & E & Hm & Ho); try done.
  - by apply sent_lines_valid.
  - exists s'. rewrite line_reply_file in Ho. split; [done|]. split; [|done]. intros x Hsc Hc.
    by rewrite Hm, lines_memory_file.
Qed.
End Boots.

(** ** Concrete runs *)
Section Witnesses.
#[local] Instance w_budget : Budget := sample_budget.
#[local] Instance w_layout : Layout := sample_layout.
#[local] Instance w_frames : Frames := {| frame_c := 1000; frame_lChar := 1004 |}.
#[local] Instance w_frames_ok : FramesOk w_frames.
Proof. split; unfold BOOT_STACK_SIZE; simpl; lia. Qed.
#[local] Instance w_config : SocConfig := {| UDMA_CTRL_UART0_CLKEN := 1; UDMA_CTRL_QSPIM0_CLKEN := 4 |}.
#[local] Instance w_build : RomBuild := {| DATE := "Jan 21 2022"; TIME := "10:20:30"; VERILATOR := false |}.
#[local] Instance w_build_ok : RomBuildOk w_build.
Proof. split; split; literal. Qed.

Lemma main_boots_srec_witness :
  let cs := file_text (digit := upper_digit) [13; 10] sample_file ++
            record_text upper_digit sample_start (record_chk sample_start) in
  exists s', main (length cs) (after_crt0 (board_receiving cs sample_flash)) = Jump 0x1C000080 s' /\
    mem_get (ram (board s')) 0x1000 = 1 /\ mem_get (ram (board s')) 0x1C000000 = 0xAA /\
    sent 0 (board s') = concat (replicate 3 ok_text).
Proof.
  intros cs. destruct (main_boots_srec (digit := upper_digit) (length cs) (board_receiving cs sample_flash)
    sample_file sample_start [13; 10] (map Some cs) []) as (s' & E & Hm & Hs).
  - reflexivity.
  - apply receiving_timely.
  - simpl. lia.
  - by vm_compute.
  - reflexivity.
  - reflexivity.
  - apply sample_line_end.
  - apply sample_file_valid.
  - by repeat constructor.
  - apply sample_start_valid.
  - reflexivity.
  - discriminate.
  - rewrite app_nil_r. apply receiving_rx.
  - apply omap_some.
  - rewrite length_map. lia.
  - exists s'. split; [exact E|]. split; [|split; [|exact Hs]].
    + rewrite Hm; [by vm_compute|..]; unfold scratch, cmdbuf, addr_c, addr_lChar, addr_auccmd, w_layout, sample_layout; lia.
    + rewrite Hm; [by vm_compute|..]; unfold scratch, cmdbuf, addr_c, addr_lChar, addr_auccmd, w_layout, sample_layout; lia.
Defined.

(** The second record arrives damaged and is sent again; so is the start record. *)
Definition sample_lines : list (srec * Z) :=
  [(mk_srec 49 0x1000 [1; 2; 0x83], record_chk (mk_srec 49 0x1000 [1; 2; 3])); sent_line (mk_srec 49 0x1000 [1; 2; 3]);
   (mk_srec 55 0x1C000084 [], record_chk sample_start)].

Lemma sample_lines_valid : Forall valid_line sample_lines.
Proof.
  repeat apply Forall_cons_2; [| | |constructor].
  - split; [validate|by apply (bool_decide_unpack _)|by left].
  - split; [validate|by apply (bool_decide_unpack _)|by left].
  - split; [validate|by apply (bool_decide_unpack _)|by right; right].
Qed.
End Witnesses.
