(* ===== verification/Crt0.v ===== *)
(** * Crt0: from the reset vector to [main]

    a2_boot/crt0.S: [_start] clears the memory between the symbols [_bss_start] and
    [_bss_end] of core-v-mcu2-rom.ld word by word, sets the stack pointer and jumps
    to [main].  The statics of [machine] are part of that memory and are cleared
    with it; where the stack pointer puts the locals of [main] is [Layout].  The
    interrupt vectors all lead to [mret] and are not modelled. *)

From S2P Require Import Prelude Monad Crc Hw Uart Dbg Spi I2cs Machine UartProtocol SRecord I2CProtocol Boot.
From S2P Require Import FlashImage FlashBoot BootMain HostLoop UartSession.

(** The symbols the linker script defines. *)
Class Linked := { _bss_start : Z; _bss_end : Z }.

(** The script aligns both to words; the section lies in the address space. *)
Class LinkedOk (L : Linked) : Prop := {
  bss_start_word : _bss_start mod 4 = 0;
  bss_end_word : _bss_end mod 4 = 0;
  bss_order : 0 <= _bss_start <= _bss_end;
  bss_fits : _bss_end + 4 < 2 ^ 32
}.

(** [1: sw zero,0(t0); addi t0, t0, 4; bltu t0, t1, 1b], at most [fuel] + 1 times. *)
Fixpoint clear_bss (fuel : nat) (t0 t1 : Z) : M hw unit :=
  modify (fun h => with_ram (store32 (ram h) t0 0) h) ;;
  let t0 := u32 (t0 + 4) in
  if t0 <? t1 then match fuel with O => spin | S fuel' => clear_bss fuel' t0 t1 end else skip.

Definition _start `{Linked} `{Budget} `{SocConfig} `{UartPort} `{I2csPort} `{FlashPort} `{Frames} `{Layout}
    `{RomBuild} (words fuel : nat) : M machine unit :=
  lift (clear_bss words _bss_start _bss_end) ;;
  modify (fun s => after_crt0 (board s)) ;;
  main fuel.

(** * Theorems *)

(** [m'] is [m] with zeros from [a] up to [b]. *)
Definition zeroed (a b : Z) (m m' : memory) : Prop :=
  forall x, mem_get m' x = if (a <=? x) && (x <? b) then 0 else mem_get m x.

Lemma zeroed_step a b m m' : a + 4 <= b -> zeroed (a + 4) b (store32 m a 0) m' -> zeroed a b m m'.
Proof.
  intros Hb Hz x. rewrite Hz. destruct (Z.leb_spec a x), (Z.leb_spec (a + 4) x), (Z.ltb_spec x b); simpl; try lia;
    try (unfold store32; rewrite mem_get_write_out; [done|simpl; lia]).
  assert (Hi : (Z.to_nat (x - a) < 4)%nat) by lia. unfold store32.
  replace x with (a + Z.of_nat (Z.to_nat (x - a))) by lia. generalize dependent (Z.to_nat (x - a)). intros i Hi.
  erewrite mem_get_write_in; [|by do 4 (destruct i as [|i]; [reflexivity|]); lia]. done.
Qed.

Lemma zeroed_word a m : zeroed a (a + 4) m (store32 m a 0).
Proof. apply zeroed_step; [lia|]. intros x. destruct (Z.leb_spec (a + 4) x), (Z.ltb_spec x (a + 4)); simpl; (done || lia). Qed.

(** The loop clears [n] + 1 words: given that many turns it ends, with fewer it does not. *)
Lemma clear_bss_words : forall n t0 t1 h, t1 = t0 + 4 * (Z.of_nat n + 1) -> 0 <= t0 -> t1 < 2 ^ 32 ->
  exists m, zeroed t0 t1 (ram h) m /\
    (forall fuel, (n <= fuel)%nat -> clear_bss fuel t0 t1 h = Ok tt (with_ram m h)) /\
    (forall fuel, (fuel < n)%nat -> exists h', clear_bss fuel t0 t1 h = Spin h').
Proof.
  induction n as [|n IH]; intros t0 t1 h E H0 H1.
  - exists (store32 (ram h) t0 0). rewrite E. split; [apply zeroed_word|]. split; [|intros; lia].
    intros [|fuel] _; cbn [clear_bss]; rewrite bind_modify, u32_small by lia;
      by destruct (Z.ltb_spec (t0 + 4) (t0 + 4 * (Z.of_nat 0 + 1))); [lia|].
  - destruct (IH (t0 + 4) t1 (with_ram (store32 (ram h) t0 0) h)) as (m & Hm & Hok & Hsp); [lia..|].
    exists m. split; [apply zeroed_step; [lia|exact Hm]|].
    assert (Hlt : (t0 + 4 <? t1) = true) by (apply Z.ltb_lt; lia).
    split; intros [|fuel] Hf; [lia| | |]; cbn [clear_bss]; rewrite bind_modify, u32_small, Hlt by lia.
    + apply Hok. lia.
    + by eexists.
    + apply Hsp. lia.
Qed.

(** The last address cleared: an empty section costs one word all the same. *)
Definition cleared_end `{Linked} : Z := Z.max _bss_end (_bss_start + 4).

Section Reset.
Context `{LinkedOk} `{Budget} `{SocConfig} `{LayoutOk} `{FramesOk} `{UartPort} `{!UartPortOk _} `{I2csPort}
  `{!I2csPortOk _} `{FlashPort} `{!FlashPortOk _} `{RomBuild} `{!RomBuildOk _}.

Lemma clear_bss_all h : exists m, zeroed _bss_start cleared_end (ram h) m /\
  forall words, _bss_end - _bss_start <= 4 * Z.of_nat words ->
    clear_bss words _bss_start _bss_end h = Ok tt (with_ram m h).
Proof.
  pose proof bss_start_word. pose proof bss_end_word. pose proof bss_order. pose proof bss_fits.
  destruct (Z.eqb_spec _bss_start _bss_end) as [E|Hne].
  - exists (store32 (ram h) _bss_start 0). unfold cleared_end. rewrite Z.max_r by lia. split; [apply zeroed_word|].
    intros [|words] _; cbn [clear_bss]; rewrite bind_modify, u32_small by lia;
      by destruct (Z.ltb_spec (_bss_start + 4) _bss_end); [lia|].
  - set (n := Z.to_nat ((_bss_end - _bss_start) / 4 - 1)).
    assert (En : _bss_end = _bss_start + 4 * (Z.of_nat n + 1)).
    { subst n. Z.div_mod_to_equations. lia. }
    destruct (clear_bss_words n _bss_start _bss_end h En) as (m & Hm & Hok & _); [lia..|].
    exists m. unfold cleared_end. rewrite Z.max_l by lia. split; [done|]. intros words Hw. apply Hok. lia.
Qed.

Lemma start_main s : exists m, zeroed _bss_start cleared_end (ram (board s)) m /\
  forall words fuel, _bss_end - _bss_start <= 4 * Z.of_nat words ->
    _start words fuel s = main fuel (after_crt0 (with_ram m (board s))).
Proof.
  destruct (clear_bss_all (board s)) as (m & Hm & E). exists m. split; [done|]. intros words fuel Hw.
  unfold _start. by rewrite (bind_lift _ _ _ _ _ (E words Hw)), bind_modify.
Qed.

(** C15. Whatever the memory and the statics hold when the core comes out of reset,
    the start-up code terminates: it leaves zeros from [_bss_start] to [_bss_end] and
    nothing else changed (an empty section costs the first word behind it, for the
    test is at the end of the loop), and enters [main] with every static at zero. *)
Theorem start_clears_bss s : exists m, zeroed _bss_start cleared_end (ram (board s)) m /\
  forall words fuel, _bss_end - _bss_start <= 4 * Z.of_nat words ->
    _start words fuel s = main fuel (after_crt0 (with_ram m (board s))).
Proof. apply start_main. Qed.

(** C1. From the reset vector, with the boot pin low and arbitrary memory: a host
    that sends S-records over the UART, whenever it likes and in any mixture of
    characters and idle polls, and repeats what is not acknowledged has its program
    loaded and its start address entered.  A line that arrives with a wrong checksum
    leaves no trace in memory and is answered NOT OK, every other one is loaded and
    answered OK, in order; start records are included.  Before the first 'S', where
    any other characters are thrown away, the chip sends its prompt once every
    90000 turns of the loop, and never after it.  The I2C slave, without a message,
    and the JTAG mailbox, without a write, do not interfere.  The records are applied
    to the memory in which the first four bytes of L2 hold the flash identifier
    ([probe_id]), where [main]'s probe of the flash puts it. *)
Theorem reset_boots_session `{HexCoding digit} words fuel s noise ls start eol sched rest :
  VERILATOR = false -> timely (board s) -> (4 <= length (flash_id (flash (board s))))%nat ->
  s_bootsel (board s) &&& 1 = 0 -> u8 (i_status (i2cs (board s))) = 0 -> s_jtag (board s) = [] ->
  line_end eol -> Forall valid_line ls ->
  valid_record start -> is_start_type (r_type start) = true -> r_addr start <> 0 ->
  Forall (fun c => u8 c <> 83) noise -> rx_schedule 0 (board s) = sched ++ rest ->
  omap id sched = noise ++ lines_text (digit := digit) eol ls ++ record_text digit start (record_chk start) ->
  _bss_end - _bss_start <= 4 * Z.of_nat words -> (length sched <= fuel)%nat ->
  exists m s', zeroed _bss_start cleared_end (ram (board s)) m /\
    _start words fuel s = Jump (r_addr start) s' /\
    (forall x, ~ scratch x -> ~ cmdbuf x ->
       mem_get (ram (board s')) x = mem_get (lines_memory ls (probe_id (flash (board s)) m)) x) /\
    sent 0 (board s') = sent 0 (board s) ++ prompts (Z.of_nat (waited sched) / 90000) ++ (ls ≫= line_reply).
Proof.
  intros Hv Ht Hid Hb Hi Hj Heol Hval Hvs Hst Ha Hn Hrx Hom Hw Hfuel.
  destruct (start_main s) as (m & Hm & E).
  destruct (main_session (digit := digit) fuel (with_ram m (board s)) noise ls start eol sched rest) as (s' & E' & Hs'); try done.
  exists m, s'. split; [done|]. by rewrite (E _ _ Hw).
Qed.
End Reset.

(** ** Concrete runs *)
Section Witnesses.
#[local] Instance w_budget : Budget := sample_budget.
#[local] Instance w_layout : Layout := sample_layout.
#[local] Instance w_frames : Frames := {| frame_c := 1000; frame_lChar := 1004 |}.
#[local] Instance w_frames_ok : FramesOk w_frames.
Proof. split; unfold BOOT_STACK_SIZE; simpl; lia. Qed.
#[local] Instance w_config : SocConfig := {| UDMA_CTRL_UART0_CLKEN := 1; UDMA_CTRL_QSPIM0_CLKEN := 4 |}.
#[local] Instance w_build : RomBuild := {| DATE := "Jan 21 2022"; TIME := "10:20:30"; VERILATOR := false |}.
#[local] Instance w_build_ok : RomBuildOk w_build.
Proof. split; split; literal. Qed.
#[local] Instance w_linked : Linked := {| _bss_start := 0x1C07C000; _bss_end := 0x1C07C010 |}.
#[local] Instance w_linked_ok : LinkedOk w_linked.
Proof. split; simpl; (reflexivity || lia). Qed.

(** A chip that comes up with its memory and statics full of ones. *)
Definition power_up (h : hw) : machine :=
  mk_machine (with_ram (mem_write (ram h) 0x1C07C00E [255; 255; 255; 255]) h) (mk_flags 255 255 255)
    (set_state uart_vars_bss 255) i2c_vars_bss 255 (replicate 256 0xFFFF).

Lemma start_clears_bss_witness : exists m, zeroed 0x1C07C000 0x1C07C010 (ram (board (power_up (reset_board sample_flash)))) m /\
  _start 4 0 (power_up (reset_board sample_flash)) = main 0 (after_crt0 (with_ram m (board (power_up (reset_board sample_flash))))).
Proof.
  destruct (start_clears_bss (power_up (reset_board sample_flash))) as (m & Hm & E).
  exists m. split; [exact Hm|]. apply E. simpl. lia.
Defined.

(** A host that stays silent for [n] polls, then sends a line end and the text. *)
Definition late_host (n : nat) (cs : list Z) : list (option Z) := replicate n None ++ map Some (13 :: 10 :: cs).
Definition board_hearing (sched : list (option Z)) : hw :=
  with_uart 0 (mk_uart 0 0 0 [] sched 0 0 0 0 0) (reset_board sample_flash).

Lemma late_host_chars n cs : omap id (late_host n cs) = [13; 10] ++ cs.
Proof. unfold late_host. rewrite omap_app, omap_some. by induction n. Qed.
Lemma late_host_waited n c cs : u8 c = 83 -> waited (late_host n (c :: cs)) = (n + 2)%nat.
Proof. intros Hc. induction n as [|n IH]; cbn in *; [by rewrite Hc|by f_equal]. Qed.
Lemma hearing_timely sched : timely (board_hearing sched).
Proof.
  split; [constructor|]. intros id. unfold board_hearing. destruct (decide (0 = id)) as [<-|Hne].
  - rewrite get_with_uart. apply Nat.le_0_l.
  - rewrite get_with_uart_ne by done. apply Nat.le_0_l.
Qed.

Lemma reset_boots_session_witness :
  let cs := lines_text (digit := upper_digit) [13; 10] sample_lines ++
            record_text upper_digit sample_start (record_chk sample_start) in
  let sched := late_host (Z.to_nat 200000) cs in
  exists s', _start 4 (length sched) (power_up (board_hearing sched)) = Jump 0x1C000080 s' /\
    mem_get (ram (board s')) 0x1C07C00F = 0 /\ mem_get (ram (board s')) 0x1C07C010 = 255 /\
    mem_get (ram (board s')) 0x1002 = 3 /\
    sent 0 (board s') = bootme_text ++ bootme_text ++ not_ok_text ++ ok_text ++ not_ok_text.
Proof.
  intros cs sched. destruct (reset_boots_session (digit := upper_digit) 4 (length sched)
    (power_up (board_hearing sched)) [13; 10] sample_lines sample_start [13; 10] sched [])
    as (m & s' & Hz & E & Hm & Hs).
  - reflexivity.
  - apply hearing_timely.
  - simpl. lia.
  - by vm_compute.
  - reflexivity.
  - reflexivity.
  - apply sample_line_end.
  - apply sample_lines_valid.
  - apply sample_start_valid.
  - reflexivity.
  - discriminate.
  - by repeat constructor.
  - rewrite app_nil_r. unfold rx_schedule. cbn [board power_up]. change (u_rx (get_uart 0 (board_hearing sched)) = sched).
    unfold board_hearing. by rewrite get_with_uart.
  - apply late_host_chars.
  - simpl. lia.
  - apply Nat.le_refl.
  - assert (El : forall m, lines_memory sample_lines m = mem_write m 0x1000 [1; 2; 3]) by (intros; cbv -[mem_write Z.add]; reflexivity).
    assert (Ew : waited sched = (Z.to_nat 200000 + 2)%nat) by (by apply late_host_waited).
    rewrite Ew, Nat2Z.inj_add, Z2Nat.id in Hs by lia.
    rewrite El in Hm. exists s'. split; [exact E|].
    split; [|split; [|split; [|exact Hs]]]; rewrite Hm;
      try (unfold scratch, cmdbuf, addr_c, addr_lChar, addr_auccmd, w_layout, sample_layout; lia).
    + unfold probe_id. rewrite !mem_get_write_out, Hz by (unfold L2_BASE; simpl; lia). reflexivity.
    + unfold probe_id. rewrite !mem_get_write_out, Hz by (unfold L2_BASE; simpl; lia). by vm_compute.
    + by apply (mem_get_write_in [1; 2; 3] _ 0x1000 2 3).
Defined.
End Witnesses.
