(* ===== verification/Bitbang.v ===== *)
(** * Bitbang: the JTAG remote-bitbang server of the test bench

    tb/remote_bitbang/remote_bitbang.c, sim_jtag.c and rbs_test.c.  The operating
    system is input: what each [read], [accept] and [write] on the sockets returns is a
    schedule, consumed one call at a time; a call the schedule has no answer for
    waits for ever ([Spin]).  [abort] ends the process ([Fault]).  Messages to
    stderr are not modelled. *)

From S2P Require Import Prelude Monad.

(** ** System calls *)
Inductive read_result := ReadByte (c : Z) | ReadAgain | ReadEof | ReadError.
Inductive accept_result := Accepted (fd : Z) | AcceptAgain | AcceptError.
Inductive write_result := WriteOne | WriteZero | WriteError.

(** The globals of remote_bitbang.h, [init] of sim_jtag.c, and the system. *)
Record rbs := mk_rbs {
  rbs_err : Z;
  tck : Z; tms : Z; tdi : Z; trstn : Z; tdo : Z; quit : Z;
  socket_fd : Z; client_fd : Z;
  recv_start : Z; recv_end : Z;
  init : Z;
  sys_read : list read_result;
  sys_accept : list accept_result;
  sys_write : list write_result;
  setup_ok : bool;               (* socket, setsockopt, bind, listen, getsockname succeed *)
  sys_socket : Z;                (* the descriptor [socket] returns *)
  wire : list Z                  (* bytes written to the client, oldest first *)
}.

Definition with_fds (sock client : Z) (s : rbs) : rbs :=
  mk_rbs (rbs_err s) (tck s) (tms s) (tdi s) (trstn s) (tdo s) (quit s) sock client (recv_start s) (recv_end s)
    (init s) (sys_read s) (sys_accept s) (sys_write s) (setup_ok s) (sys_socket s) (wire s).
Definition with_pins (c m d t : Z) (s : rbs) : rbs :=
  mk_rbs (rbs_err s) c m d t (tdo s) (quit s) (socket_fd s) (client_fd s) (recv_start s) (recv_end s)
    (init s) (sys_read s) (sys_accept s) (sys_write s) (setup_ok s) (sys_socket s) (wire s).
Definition with_tdo (v : Z) (s : rbs) : rbs :=
  mk_rbs (rbs_err s) (tck s) (tms s) (tdi s) (trstn s) v (quit s) (socket_fd s) (client_fd s) (recv_start s)
    (recv_end s) (init s) (sys_read s) (sys_accept s) (sys_write s) (setup_ok s) (sys_socket s) (wire s).
Definition with_quit (v : Z) (s : rbs) : rbs :=
  mk_rbs (rbs_err s) (tck s) (tms s) (tdi s) (trstn s) (tdo s) v (socket_fd s) (client_fd s) (recv_start s)
    (recv_end s) (init s) (sys_read s) (sys_accept s) (sys_write s) (setup_ok s) (sys_socket s) (wire s).
Definition with_init (v : Z) (s : rbs) : rbs :=
  mk_rbs (rbs_err s) (tck s) (tms s) (tdi s) (trstn s) (tdo s) (quit s) (socket_fd s) (client_fd s) (recv_start s)
    (recv_end s) v (sys_read s) (sys_accept s) (sys_write s) (setup_ok s) (sys_socket s) (wire s).
Definition with_reads (l : list read_result) (s : rbs) : rbs :=
  mk_rbs (rbs_err s) (tck s) (tms s) (tdi s) (trstn s) (tdo s) (quit s) (socket_fd s) (client_fd s) (recv_start s)
    (recv_end s) (init s) l (sys_accept s) (sys_write s) (setup_ok s) (sys_socket s) (wire s).
Definition with_accepts (l : list accept_result) (s : rbs) : rbs :=
  mk_rbs (rbs_err s) (tck s) (tms s) (tdi s) (trstn s) (tdo s) (quit s) (socket_fd s) (client_fd s) (recv_start s)
    (recv_end s) (init s) (sys_read s) l (sys_write s) (setup_ok s) (sys_socket s) (wire s).
Definition with_writes (l : list write_result) (w : list Z) (s : rbs) : rbs :=
  mk_rbs (rbs_err s) (tck s) (tms s) (tdi s) (trstn s) (tdo s) (quit s) (socket_fd s) (client_fd s) (recv_start s)
    (recv_end s) (init s) (sys_read s) (sys_accept s) l (setup_ok s) (sys_socket s) w.

(** ** The server *)
Definition rbs_init (port : Z) : M rbs Z := fun s =>
  if setup_ok s then
    Ok 1 (mk_rbs 0 1 1 1 1 (tdo s) 0 (sys_socket s) 0 0 0 (init s) (sys_read s) (sys_accept s) (sys_write s)
            (setup_ok s) (sys_socket s) (wire s))
  else Fault s.

(** [while (again != 0) { client_fd = accept(...); ... }]; [client_fd] keeps the
    [-1] of an unsuccessful call. *)
Fixpoint accept_loop (l : list accept_result) (s : rbs) : outcome rbs unit :=
  match l with
  | [] => Spin (with_accepts [] s)
  | AcceptAgain :: l' => accept_loop l' (with_fds (socket_fd s) (-1) s)
  | AcceptError :: l' => Fault (with_accepts l' (with_fds (socket_fd s) (-1) s))
  | Accepted fd :: l' => Ok tt (with_accepts l' (with_fds (socket_fd s) fd s))
  end.
Definition rbs_accept : M rbs unit := fun s => accept_loop (sys_accept s) s.

Definition rbs_reset : M rbs unit := skip.
Definition rbs_set_pins (_tck _tms _tdi : Z) : M rbs unit :=
  modify (fun s => with_pins (u8 _tck) (u8 _tms) (u8 _tdi) (trstn s) s).

(** [while (again) { num_read = read(client_fd, &command, 1); ... }]: the command,
    or [None] where the function returns. *)
Fixpoint read_loop (l : list read_result) (s : rbs) : outcome rbs (option Z) :=
  match l with
  | [] => Spin (with_reads [] s)
  | ReadAgain :: l' => read_loop l' s
  | ReadError :: l' => Fault (with_reads l' s)
  | ReadEof :: l' => Ok None (with_reads l' s)
  | ReadByte c :: l' => Ok (Some c) (with_reads l' s)
  end.
Definition read_command : M rbs (option Z) := fun s => read_loop (sys_read s) s.

(** [while (1) { bytes = write(client_fd, &tosend, 1); ... }] *)
Fixpoint write_loop (l : list write_result) (tosend : Z) (s : rbs) : outcome rbs unit :=
  match l with
  | [] => Spin (with_writes [] (wire s) s)
  | WriteZero :: l' => write_loop l' tosend s
  | WriteError :: l' => Fault (with_writes l' (wire s) s)
  | WriteOne :: l' => Ok tt (with_writes l' (wire s ++ [tosend]) s)
  end.
Definition send_byte (tosend : Z) : M rbs unit := fun s => write_loop (sys_write s) tosend s.

(** The switch; the result is [(dosend, tosend)]. *)
Definition command_case (command : Z) : M rbs (Z * Z) :=
  if command =? 66 then mret (0, 63)                                  (* 'B' *)
  else if command =? 98 then mret (0, 63)                             (* 'b' *)
  else if command =? 114 then rbs_reset ;; mret (0, 63)               (* 'r' *)
  else if command =? 115 then rbs_reset ;; mret (0, 63)               (* 's' *)
  else if command =? 116 then rbs_reset ;; mret (0, 63)               (* 't' *)
  else if command =? 117 then rbs_reset ;; mret (0, 63)               (* 'u' *)
  else if command =? 48 then rbs_set_pins 0 0 0 ;; mret (0, 63)
  else if command =? 49 then rbs_set_pins 0 0 1 ;; mret (0, 63)
  else if command =? 50 then rbs_set_pins 0 1 0 ;; mret (0, 63)
  else if command =? 51 then rbs_set_pins 0 1 1 ;; mret (0, 63)
  else if command =? 52 then rbs_set_pins 1 0 0 ;; mret (0, 63)
  else if command =? 53 then rbs_set_pins 1 0 1 ;; mret (0, 63)
  else if command =? 54 then rbs_set_pins 1 1 0 ;; mret (0, 63)
  else if command =? 55 then rbs_set_pins 1 1 1 ;; mret (0, 63)
  else if command =? 82 then                                          (* 'R' *)
    t ← gets tdo; mret (1, if negb (t =? 0) then 49 else 48)
  else if command =? 81 then modify (with_quit 1) ;; mret (0, 63)     (* 'Q' *)
  else mret (0, 63).

Definition rbs_execute_command : M rbs unit :=
  c ← read_command;
  match c with
  | None => skip
  | Some command =>
      r ← command_case command;
      when (negb (r.1 =? 0)) (send_byte r.2) ;;
      q ← gets quit;
      when (negb (q =? 0)) (modify (fun s => with_fds (socket_fd s) 0 s))
  end.

(** The four output pins: TCK, TMS, TDI, TRSTn. *)
Record pins := mk_pins { p_tck : Z; p_tms : Z; p_tdi : Z; p_trstn : Z }.
Definition pins_of (s : rbs) : pins := mk_pins (tck s) (tms s) (tdi s) (trstn s).

Definition rbs_tick (jtag_tdo : Z) : M rbs pins :=
  fd ← gets client_fd;
  (if fd >? 0 then modify (with_tdo jtag_tdo) ;; rbs_execute_command else rbs_accept) ;;
  gets pins_of.

Definition rbs_done : M rbs Z := gets quit.
Definition rbs_exit_code : M rbs Z := gets rbs_err.

(** sim_jtag.c: the pins and the result of a tick.  A port out of range only
    prints a message. *)
Definition jtag_tick (port jtag_TDO : Z) : M rbs (pins * Z) :=
  i ← gets init;
  when (i =? 0) (v ← rbs_init (u16 port); modify (with_init v)) ;;
  p ← rbs_tick jtag_TDO;
  d ← rbs_done;
  if negb (d =? 0) then e ← rbs_exit_code; mret (p, Z.lor (e * 2) 1) else mret (p, 0).

(** rbs_test.c: [main], with what it prints last ("jtag exit is %d"). *)
Definition rbs_test_main : M rbs Z :=
  _ ← rbs_init 0;
  _ ← rbs_tick 0;
  rbs_done.

(** [n] ticks of the simulation, with what TDO is at each. *)
Fixpoint jtag_ticks (port : Z) (tdos : list Z) : M rbs (list (pins * Z)) :=
  match tdos with
  | [] => mret []
  | d :: tdos' => x ← jtag_tick port d; xs ← jtag_ticks port tdos'; mret (x :: xs)
  end.

(** ** The protocol

    What a client means by a command byte: '0'..'7' are the levels of TCK, TMS
    and TDI as a three-bit number; 'r'..'u' the reset lines TRST and SRST as a
    two-bit number, of which TRSTn is the inverse of TRST and SRST has no pin
    here; 'R' asks for TDO. *)
Definition is_write (c : Z) : bool := (48 <=? c) && (c <=? 55).
Definition is_reset (c : Z) : bool := (114 <=? c) && (c <=? 117).
Definition level (c : Z) (i : Z) : Z := Z.b2z (Z.testbit (c - 48) i).
Definition reset_level (c : Z) : Z := Z.b2z (negb (Z.testbit (c - 114) 1)).
Definition spec_pins (p : pins) (c : Z) : pins :=
  if is_write c then mk_pins (level c 2) (level c 1) (level c 0) (p_trstn p)
  else if is_reset c then mk_pins (p_tck p) (p_tms p) (p_tdi p) (reset_level c)
  else p.
(** The pins with TRSTn at a given level. *)
Definition with_trstn (t : Z) (p : pins) : pins := mk_pins (p_tck p) (p_tms p) (p_tdi p) t.
Definition spec_reply (t c : Z) : list Z := if c =? 82 then [if t =? 0 then 48 else 49] else [].
Fixpoint spec_run (p : pins) (cs tdos : list Z) : list pins * list Z :=
  match cs, tdos with
  | c :: cs', t :: tdos' =>
      let p' := spec_pins p c in
      let '(ps, ws) := spec_run p' cs' tdos' in (p' :: ps, spec_reply t c ++ ws)
  | _, _ => ([], [])
  end.

(** Commands as they come from the socket: idle polls before each. *)
Definition polled (l : list (nat * Z)) : list read_result :=
  l ≫= (fun p => replicate p.1 ReadAgain ++ [ReadByte p.2]).

Lemma read_polled k c rest s : sys_read s = replicate k ReadAgain ++ ReadByte c :: rest ->
  read_command s = Ok (Some c) (with_reads rest s).
Proof.
  unfold read_command. intros ->. revert s. by induction k as [|k IH]; intros s; [|apply IH].
Qed.

Lemma accept_after_again fd rest : forall n s, exists s',
  accept_loop (replicate n AcceptAgain ++ Accepted fd :: rest) s = Ok tt s' /\
  client_fd s' = fd /\ quit s' = quit s /\ sys_read s' = sys_read s /\ wire s' = wire s.
Proof.
  induction n as [|n IH]; intros s; [by eexists|]. apply (IH (with_fds (socket_fd s) (-1) s)).
Qed.

(** The test program waits for a client, accepts it, and prints 0 whatever it sends:
    the first tick reads no command. *)
Lemma rbs_test_accepts n fd rest s : setup_ok s = true ->
  sys_accept s = replicate n AcceptAgain ++ Accepted fd :: rest ->
  exists s', rbs_test_main s = Ok 0 s' /\ client_fd s' = fd /\ sys_read s' = sys_read s /\ wire s' = wire s.
Proof.
  intros Hs Ea. unfold rbs_test_main, rbs_init, rbs_tick, rbs_done, rbs_accept, gets, mbind, M_bind. rewrite Hs. cbn.
  rewrite Ea. match goal with |- context [accept_loop _ ?x] => destruct (accept_after_again fd rest n x) as (s' & -> & Hc & Hq & Hr & Hw) end.
  exists s'. by rewrite Hq.
Qed.

(** One command, up to the socket writes. *)
Lemma command_case_spec c s : c <> 81 -> exists r s', command_case c s = Ok r s' /\
  pins_of s' = with_trstn (trstn s) (spec_pins (pins_of s) c) /\
  (r.1 =? 0) = negb (c =? 82) /\ (c = 82 -> r.2 = if tdo s =? 0 then 48 else 49) /\
  (exists a b d, s' = with_pins a b d (trstn s) s).
Proof.
  intros Hq. unfold command_case, spec_pins, is_write, is_reset.
  assert (Hsame : s = with_pins (tck s) (tms s) (tdi s) (trstn s) s) by by destruct s.
  repeat match goal with
  | |- context [c =? ?k] =>
      destruct (Z.eqb_spec c k) as [-> |?];
      [first [by destruct Hq |
        eexists _, _; (split; [reflexivity|]); (split; [reflexivity|]); (split; [reflexivity|]);
        (split; [try done; intros _; by destruct (tdo s =? 0)|]); first [by do 3 eexists | by exists (tck s), (tms s), (tdi s)]]|]
  end.
  eexists _, s. split; [reflexivity|]. split; [|split; [done|split; [done|by exists (tck s), (tms s), (tdi s)]]].
  destruct (Z.leb_spec 48 c), (Z.leb_spec c 55); [lia|..];
    (destruct (Z.leb_spec 114 c), (Z.leb_spec c 117); [lia|done..]).
Qed.

(** The socket takes each reply, after some refusals. *)
Definition answered (ks : list nat) : list write_result :=
  ks ≫= (fun k => replicate k WriteZero ++ [WriteOne]).
Lemma send_answered k b rest s : sys_write s = replicate k WriteZero ++ WriteOne :: rest ->
  send_byte b s = Ok tt (with_writes rest (wire s ++ [b]) s).
Proof. unfold send_byte. intros ->. revert s. by induction k as [|k IH]; intros s; [|apply IH]. Qed.

(** A connected server. *)
Record connected (s : rbs) : Prop := { cn_init : init s <> 0; cn_fd : client_fd s > 0; cn_quit : quit s = 0 }.

Lemma jtag_tick_connected port t s : connected s ->
  jtag_tick port t s = (rbs_execute_command ;; p ← gets pins_of; d ← rbs_done;
    if negb (d =? 0) then e ← rbs_exit_code; mret (p, Z.lor (e * 2) 1) else mret (p, 0)) (with_tdo t s).
Proof.
  intros [Hi Hf Hq]. unfold jtag_tick. rewrite bind_gets. destruct (Z.eqb_spec (init s) 0); [done|]. cbn [when].
  rewrite bind_skip. unfold rbs_tick. rewrite bind_assoc, bind_gets.
  destruct (Z.gtb_spec (client_fd s) 0); [|lia]. by rewrite bind_assoc, bind_assoc, bind_modify.
Qed.

(** One command from the socket to the pins. *)
Lemma tick_spec port t k c rest ks wrest s : connected s -> c <> 81 ->
  sys_read s = replicate k ReadAgain ++ ReadByte c :: rest ->
  sys_write s = answered ks ++ wrest -> length ks = (if c =? 82 then 1%nat else 0%nat) ->
  exists s', jtag_tick port t s = Ok (with_trstn (trstn s) (spec_pins (pins_of s) c), 0) s' /\ connected s' /\
    pins_of s' = with_trstn (trstn s) (spec_pins (pins_of s) c) /\ wire s' = wire s ++ spec_reply t c /\
    sys_read s' = rest /\ sys_write s' = wrest.
Proof.
  intros Hc Hq Hr Hw Hk. rewrite (jtag_tick_connected port t s Hc). set (s0 := with_tdo t s).
  destruct Hc as [Hi Hf Hqt].
  unfold rbs_execute_command. rewrite bind_assoc. rewrite (bind_ok _ _ _ _ _ (read_polled k c rest s0 Hr)).
  set (s1 := with_reads rest s0). destruct (command_case_spec c s1 Hq) as (r & s2 & E & Hp & Hd & Hv & a & b & d & ->).
  rewrite bind_assoc, (bind_ok _ _ _ _ _ E). rewrite Hd, bind_assoc. rewrite negb_involutive.
  set (s2 := with_pins a b d (trstn s1) s1) in *.
  assert (Hsend : exists s3, when (c =? 82) (send_byte r.2) s2 = Ok tt s3 /\
    s3 = with_writes wrest (wire s ++ spec_reply t c) s2).
  { unfold spec_reply. destruct (Z.eqb_spec c 82) as [-> |Hne]; cbn [when].
    - destruct ks as [|k0 [|]]; try discriminate. cbn in Hw. rewrite app_nil_r in Hw.
      assert (Hw2 : sys_write s2 = replicate k0 WriteZero ++ WriteOne :: wrest) by (change (sys_write s2) with (sys_write s); rewrite Hw, <- app_assoc; done).
      rewrite (send_answered k0 _ wrest _ Hw2), (Hv eq_refl). eexists. split; [reflexivity|]. done.
    - destruct ks; [|discriminate]. cbn in Hw. exists s2. split; [done|]. rewrite app_nil_r, <- Hw. done. }
  destruct Hsend as (s3 & E3 & ->). rewrite (bind_ok _ _ _ _ _ E3), bind_assoc, bind_gets.
  cbn [quit with_writes s2 s1 s0 with_pins with_reads with_tdo]. rewrite Hqt. cbn [Z.eqb negb when].
  rewrite bind_skip, bind_gets. unfold rbs_done. rewrite bind_gets.
  cbn [quit with_writes s2 s1 s0 with_pins with_reads with_tdo]. rewrite Hqt. cbn [Z.eqb negb].
  eexists. split; [unfold mret, M_ret; f_equal; f_equal; exact Hp|]. split; [by split|]. by repeat split.
Qed.

(** What the protocol makes of TCK, TMS and TDI does not depend on TRSTn. *)
Lemma spec_pins_trstn t p q c : with_trstn t p = with_trstn t q ->
  with_trstn t (spec_pins p c) = with_trstn t (spec_pins q c).
Proof. intros [= ? ? ?]. unfold spec_pins, with_trstn. destruct (is_write c); [done|]. destruct (is_reset c); cbn; congruence. Qed.

Lemma trstn_same t l : map (with_trstn t) l = l <-> Forall (fun p => p_trstn p = t) l.
Proof.
  induction l as [|[a b c d] l IH]; [done|]. cbn. rewrite Forall_cons. unfold with_trstn at 1. cbn. split.
  - intros [= -> El]. split; [done|by apply IH].
  - intros [-> Hl]. f_equal. by apply IH.
Qed.

(** The commands of a connected client, from the socket to the pins. *)
Lemma ticks_run port kcs : forall tdos ks rest wrest s p,
  connected s -> Forall (fun p => p.2 <> 81) kcs -> length tdos = length kcs ->
  sys_read s = polled kcs ++ rest -> sys_write s = answered ks ++ wrest ->
  length ks = length (filter (fun p => p.2 = 82) kcs) ->
  pins_of s = with_trstn (trstn s) p ->
  exists s', jtag_ticks port tdos s =
      Ok (map (fun q => (q, 0)) (map (with_trstn (trstn s)) (spec_run p (map snd kcs) tdos).1)) s' /\
    wire s' = wire s ++ (spec_run p (map snd kcs) tdos).2 /\
    connected s' /\ sys_read s' = rest.
Proof.
  induction kcs as [|[k c] kcs IH]; intros tdos ks rest wrest s p Hc Hq Hl Hr Hw Hk Hp.
  - destruct tdos; [|done]. exists s. cbn. by rewrite app_nil_r.
  - destruct tdos as [|t tdos]; [done|]. apply Forall_cons in Hq as [Hq1 Hq]. cbn [snd] in Hq1.
    assert (Hsplit : exists k1 k2, ks = k1 ++ k2 /\ length k1 = (if c =? 82 then 1%nat else 0%nat) /\
      length k2 = length (filter (fun p => p.2 = 82) kcs)).
    { rewrite filter_cons in Hk. cbn [snd] in Hk. destruct (Z.eqb_spec c 82).
      - rewrite decide_True in Hk by done. destruct ks as [|k0 ks]; [done|]. exists [k0], ks. split; [done|]. split; [done|]. cbn in Hk. lia.
      - rewrite decide_False in Hk by done. by exists [], ks. }
    destruct Hsplit as (k1 & k2 & -> & Hk1 & Hk2).
    assert (Hr1 : sys_read s = replicate k ReadAgain ++ ReadByte c :: (polled kcs ++ rest)).
    { rewrite Hr. unfold polled. cbn. by rewrite <- !app_assoc. }
    assert (Hw1 : sys_write s = answered k1 ++ (answered k2 ++ wrest)).
    { rewrite Hw. unfold answered. rewrite bind_app, <- app_assoc. done. }
    destruct (tick_spec port t k c _ k1 _ s Hc Hq1 Hr1 Hw1 Hk1) as (s1 & E1 & Hc1 & Hp1 & Hw1' & Hr1' & Hww1).
    assert (Et : trstn s1 = trstn s) by (by injection Hp1).
    rewrite (spec_pins_trstn (trstn s) (pins_of s) p c) in E1, Hp1 by (by rewrite Hp).
    destruct (IH tdos k2 rest wrest s1 (spec_pins p c) Hc1 Hq ltac:(cbn in Hl; lia) Hr1' Hww1 Hk2 ltac:(by rewrite Et))
      as (s2 & E2 & Hw2 & Hc2 & Hr2).
    exists s2. cbn [jtag_ticks]. rewrite (bind_ok _ _ _ _ _ E1), (bind_ok _ _ _ _ _ E2).
    rewrite Et. cbn [map spec_run snd].
    destruct (spec_run (spec_pins p c) (map snd kcs) tdos) as [ps ws] eqn:Es. cbn [fst snd map] in *.
    split; [done|]. split; [|done]. by rewrite Hw2, Hw1', <- app_assoc.
Qed.

(** C21. What the server serves of the remote-bitbang protocol: while a client is
    connected and does not quit, each tick of the simulation executes exactly one
    command, however often the socket had nothing to read; after it TCK, TMS and
    TDI are the three bits of the last '0'..'7' command, each 'R' is answered by
    the level TDO has in that tick, in order, and the tick reports that the
    simulation goes on.  The reset commands 'r'..'u' are read and dropped: TRSTn
    keeps its level through every command, so that all the pins are those of the
    protocol exactly when the client never asks for another level of TRSTn. *)
Theorem ticks_follow_protocol port kcs tdos ks rest wrest s :
  connected s -> Forall (fun p => p.2 <> 81) kcs -> length tdos = length kcs ->
  sys_read s = polled kcs ++ rest -> sys_write s = answered ks ++ wrest ->
  length ks = length (filter (fun p => p.2 = 82) kcs) ->
  let '(ps, replies) := spec_run (pins_of s) (map snd kcs) tdos in
  exists s' qs, jtag_ticks port tdos s = Ok (map (fun q => (q, 0)) qs) s' /\
    qs = map (with_trstn (trstn s)) ps /\
    (qs = ps <-> Forall (fun p => p_trstn p = trstn s) ps) /\
    wire s' = wire s ++ replies /\ connected s' /\ sys_read s' = rest.
Proof.
  intros Hc Hq Hl Hr Hw Hk.
  destruct (ticks_run port kcs tdos ks rest wrest s (pins_of s) Hc Hq Hl Hr Hw Hk eq_refl) as (s' & E & Ew & Hs).
  destruct (spec_run (pins_of s) (map snd kcs) tdos) as [ps replies]. cbn [fst snd] in *.
  exists s', (map (with_trstn (trstn s)) ps). split; [exact E|]. split; [done|]. split; [apply trstn_same|done].
Qed.

(** A client that closes its socket without 'Q' blocks the server: every later
    tick reads the end of file again and leaves the pins alone; no other client is
    ever accepted, and the ticks report that the simulation goes on. *)
Theorem eof_blocks_clients port n : forall tdos s,
  connected s -> length tdos = n -> sys_read s = replicate n ReadEof ->
  exists s', jtag_ticks port tdos s = Ok (replicate n (pins_of s, 0)) s' /\
    sys_accept s' = sys_accept s /\ client_fd s' = client_fd s /\ pins_of s' = pins_of s.
Proof.
  induction n as [|n IH]; intros tdos s Hc Hl Hr.
  - destruct tdos; [|done]. by exists s.
  - destruct tdos as [|t tdos]; [done|]. cbn [jtag_ticks].
    assert (E : jtag_tick port t s = Ok (pins_of s, 0) (with_reads (replicate n ReadEof) (with_tdo t s))).
    { rewrite (jtag_tick_connected port t s Hc). destruct Hc as [Hi Hf Hq].
      unfold rbs_execute_command. rewrite bind_assoc.
      assert (Er : read_command (with_tdo t s) = Ok None (with_reads (replicate n ReadEof) (with_tdo t s))).
      { unfold read_command. cbn [sys_read with_tdo]. rewrite Hr. done. }
      rewrite (bind_ok _ _ _ _ _ Er), bind_skip, bind_gets. unfold rbs_done. rewrite bind_gets.
      cbn [quit with_reads with_tdo]. by rewrite Hq. }
    rewrite (bind_ok _ _ _ _ _ E).
    destruct (IH tdos (with_reads (replicate n ReadEof) (with_tdo t s))) as (s' & E' & Ha & Hf & Hp);
      [by destruct Hc|cbn in Hl; lia|done|].
    exists s'. rewrite (bind_ok _ _ _ _ _ E'). done.
Qed.

(** ** Concrete runs *)
Definition sample_rbs (reads : list read_result) (writes : list write_result) : rbs :=
  mk_rbs 0 1 1 1 1 0 0 3 4 0 0 1 reads [] writes true 3 [].

(** Three commands, then a client that asks for a test reset ('t') and does not get it. *)
Lemma ticks_follow_protocol_witness :
  (exists s', jtag_ticks 9999 [0; 1; 1] (sample_rbs (polled [(2%nat, 54); (0%nat, 82); (1%nat, 49)]) (answered [1%nat])) =
      Ok [(mk_pins 1 1 0 1, 0); (mk_pins 1 1 0 1, 0); (mk_pins 0 0 1 1, 0)] s' /\ wire s' = [49]) /\
  (spec_run (mk_pins 1 1 1 1) [116] [0]).1 = [mk_pins 1 1 1 0] /\
  exists s', jtag_ticks 9999 [0] (sample_rbs (polled [(0%nat, 116)]) []) = Ok [(mk_pins 1 1 1 1, 0)] s'.
Proof.
  split; [|split; [reflexivity|]].
  - destruct (ticks_follow_protocol 9999 [(2%nat, 54); (0%nat, 82); (1%nat, 49)] [0; 1; 1] [1%nat] [] []
      (sample_rbs (polled [(2%nat, 54); (0%nat, 82); (1%nat, 49)]) (answered [1%nat])))
      as (s' & qs & E & Eq & _ & Hw & _); try reflexivity; [by split|by repeat constructor|].
    exists s'. rewrite Eq in E. split; [exact E|exact Hw].
  - destruct (ticks_follow_protocol 9999 [(0%nat, 116)] [0] [] [] [] (sample_rbs (polled [(0%nat, 116)]) []))
      as (s' & qs & E & Eq & _); try reflexivity; [by split|by repeat constructor|].
    exists s'. rewrite Eq in E. exact E.
Defined.

Lemma eof_blocks_clients_witness :
  exists s', jtag_ticks 9999 [0; 1] (sample_rbs [ReadEof; ReadEof] []) =
    Ok [(mk_pins 1 1 1 1, 0); (mk_pins 1 1 1 1, 0)] s' /\ client_fd s' = 4.
Proof.
  destruct (eof_blocks_clients 9999 2 [0; 1] (sample_rbs [ReadEof; ReadEof] [])) as (s' & E & _ & Hf & _);
    [by split|reflexivity|reflexivity|]. by exists s'.
Defined.
