(* ===== verification/UartDpi.v ===== *)
(** * UartDpi: the simulated UART's pseudo terminal, tb/uartdpi/uartdpi.c

    The C library and the terminal are not part of the repository: [Pty] is what the
    code uses of them.  A terminal passes the characters written on one end through
    its line discipline, which its [termios] attributes govern and which may change,
    hold back, echo or drop them; [PtyOk] is what the manual promises of the
    attributes [cfmakeraw] leaves.  The [termios] that [uartdpi_create] hands to
    [cfmakeraw] is indeterminate and so any; the [malloc]ed object starts with an
    indeterminate [tmp_read].  A read that finds nothing, or a write that finds no
    room, waits for ever ([Spin]) unless the descriptor is non-blocking. *)

From S2P Require Import Prelude Monad.

(** [char] is signed: what a conversion to it keeps of an [int]. *)
Definition s8 (x : Z) : Z := (x + 2 ^ 7) mod 2 ^ 8 - 2 ^ 7.
Lemma u8_s8 x : u8 (s8 x) = u8 x.
Proof.
  unfold u8, wrap, s8. rewrite Zminus_mod_idemp_l. f_equal. lia.
Qed.

(** ** The terminal *)
Inductive write := OnMaster (c : Z) | OnSlave (c : Z).
Class Pty := {
  termios : Type;
  cfmakeraw : termios -> termios;
  to_slave : termios -> list write -> list Z;   (* what the slave's reader gets of what was written *)
  to_master : termios -> list write -> list Z;  (* and the master's *)
  O_NONBLOCK : Z
}.
Definition on_master (w : write) : option Z := match w with OnMaster c => Some c | OnSlave _ => None end.
Definition on_slave (w : write) : option Z := match w with OnSlave c => Some c | OnMaster _ => None end.
Class PtyOk (P : Pty) : Prop := {
  raw_to_slave t l : to_slave (cfmakeraw t) l = omap on_master l;
  raw_to_master t l : to_master (cfmakeraw t) l = omap on_slave l;
  nonblock_set : O_NONBLOCK <> 0
}.

Record uartdpi_t := mk_uartdpi {
  ptyname : string; master : Z; slave : Z;
  tmp_read : option Z            (* [None] while indeterminate *)
}.

Section Dpi.
Context `{Pty}.

Record dpi := mk_dpi {
  obj : uartdpi_t;
  fd : Z;                        (* the descriptor of the terminal's master end *)
  tty : termios;                 (* its attributes *)
  fl : Z;                        (* the status flags of the descriptor *)
  written : list write;          (* everything written on the two ends, oldest first *)
  taken : nat;                   (* how many characters were read from the master *)
  room : bool                    (* whether a write on the master finds room *)
}.
Definition with_obj (o : uartdpi_t) (s : dpi) : dpi := mk_dpi o (fd s) (tty s) (fl s) (written s) (taken s) (room s).
Definition with_written (l : list write) (s : dpi) : dpi := mk_dpi (obj s) (fd s) (tty s) (fl s) l (taken s) (room s).
Definition with_taken (n : nat) (s : dpi) : dpi := mk_dpi (obj s) (fd s) (tty s) (fl s) (written s) n (room s).
Definition with_room (b : bool) (s : dpi) : dpi := mk_dpi (obj s) (fd s) (tty s) (fl s) (written s) (taken s) b.

(** What waits to be read from the master, and what the slave's reader was given. *)
Definition pending (s : dpi) : list Z := drop (taken s) (to_master (tty s) (written s)).
Definition slave_reads (s : dpi) : list Z := to_slave (tty s) (written s).
Definition nonblocking (s : dpi) : bool := negb (Z.land (fl s) O_NONBLOCK =? 0).

(** [read(d, &c, 1)] and [write(d, &c, 1)]; [None] and [false] stand for the
    result [-1].  Other descriptors than the master's are not modelled. *)
Definition sys_read (d : Z) : M dpi (option Z) := fun s =>
  if d =? fd s then
    match pending s with
    | c :: _ => Ok (Some c) (with_taken (S (taken s)) s)
    | [] => if nonblocking s then Ok None s else Spin s
    end
  else Fault s.
Definition sys_write (d c : Z) : M dpi bool := fun s =>
  if d =? fd s then
    if room s then Ok true (with_written (written s ++ [OnMaster (u8 c)]) s)
    else if nonblocking s then Ok false s else Spin s
  else Fault s.

(** ** The bridge

    [openpty] chooses the descriptors, or fails and leaves [obj->master]
    indeterminate; [ttyname_r] chooses the name; [flags] is what [F_GETFL] returns. *)
Definition uartdpi_create (tty : termios) (opened : option (Z * Z)) (flags : Z) (tty_name name : string) : option dpi :=
  let tty := cfmakeraw tty in
  '(m, sl) ← opened;
  Some (mk_dpi (mk_uartdpi tty_name m sl None) m tty (Z.lor flags O_NONBLOCK) [] 0 true).

Definition uartdpi_can_read : M dpi Z :=
  d ← gets (fun s => master (obj s));
  rv ← sys_read d;
  match rv with
  | Some c =>
      modify (fun s => with_obj (mk_uartdpi (ptyname (obj s)) (master (obj s)) (slave (obj s)) (Some (s8 c))) s) ;;
      mret 1
  | None => mret 0
  end.

Definition uartdpi_read : M dpi Z := c ← gets (fun s => tmp_read (obj s)); of_opt c.

(** The result of [write] is ignored. *)
Definition uartdpi_write (c : Z) : M dpi unit :=
  let c := s8 c in
  d ← gets (fun s => master (obj s));
  rv ← sys_write d c;
  skip.

(** ** The test bench

    uartdpi.sv: when its transmitter is free it asks for a character and takes the
    low byte of the one there is; its receiver writes each symbol it has received.
    In between, the program on the slave writes, and reads or leaves the terminal full. *)
Inductive call := Poll (ws : list Z) | Send (has_room : bool) (c : Z).
Definition do_call (k : call) : M dpi (list Z) :=
  match k with
  | Poll ws =>
      modify (fun s => with_written (written s ++ map OnSlave ws) s) ;;
      r ← uartdpi_can_read;
      if r =? 0 then mret [] else c ← uartdpi_read; mret [u8 c]
  | Send b c => modify (with_room b) ;; uartdpi_write c ;; mret []
  end.
Fixpoint do_calls (ks : list call) : M dpi (list Z) :=
  match ks with
  | [] => mret []
  | k :: ks' => cs ← do_call k; cs' ← do_calls ks'; mret (cs ++ cs')
  end.
End Dpi.

(** ** What is promised

    Two queues: each poll serves the oldest character the slave's program has
    written and the simulation has not had; of what the simulation sends, the slave's
    program gets the low bytes for which there was room. *)
Fixpoint served (q : list Z) (ks : list call) : list Z * list Z :=
  match ks with
  | [] => ([], q)
  | Poll ws :: ks' =>
      match q ++ ws with
      | [] => served [] ks'
      | c :: q' => let '(cs, r) := served q' ks' in (c :: cs, r)
      end
  | Send _ _ :: ks' => served q ks'
  end.
Definition sent (ks : list call) : list Z :=
  omap (fun k => match k with Send true c => Some (u8 c) | _ => None end) ks.
Definition typed (ks : list call) : list Z := ks ≫= (fun k => match k with Poll ws => ws | Send _ _ => [] end).

Lemma served_typed ks : forall q, (served q ks).1 ++ (served q ks).2 = q ++ typed ks.
Proof.
  induction ks as [|[ws|b c] ks IH]; intros q; cbn [served]; [by cbn; rewrite app_nil_r|..].
  - unfold typed. cbn [mbind list_bind]. fold (typed ks). rewrite app_assoc.
    destruct (q ++ ws) as [|c q']; [apply IH|]. specialize (IH q').
    destruct (served q' ks) as [cs r]. cbn in *. by rewrite IH.
  - apply IH.
Qed.

Section Calls.
Context `{Pty} `{!PtyOk _}.

(** A terminal as [uartdpi_create] leaves it. *)
Record raw (s : dpi) : Prop := {
  raw_tty : exists t, tty s = cfmakeraw t;
  raw_fd : master (obj s) = fd s;
  raw_nonblock : nonblocking s = true;
  raw_taken : (taken s <= length (omap on_slave (written s)))%nat
}.

Lemma raw_pending s : raw s -> pending s = drop (taken s) (omap on_slave (written s)).
Proof. intros [[t E] _ _ _]. unfold pending. by rewrite E, raw_to_master. Qed.
Lemma raw_slave_reads s : raw s -> slave_reads s = omap on_master (written s).
Proof. intros [[t E] _ _ _]. unfold slave_reads. by rewrite E, raw_to_slave. Qed.

Lemma create_raw t opened flags tn n s : uartdpi_create t opened flags tn n = Some s ->
  raw s /\ pending s = [] /\ slave_reads s = [].
Proof.
  destruct opened as [[m sl]|]; [|done]. intros [= <-].
  assert (Hr : raw (mk_dpi (mk_uartdpi tn m sl None) m (cfmakeraw t) (Z.lor flags O_NONBLOCK) [] 0 true)).
  { split; [by exists t|done| |done]. unfold nonblocking. cbn [fl]. apply negb_true_iff, Z.eqb_neq.
    intros E. apply nonblock_set. apply Z.bits_inj'. intros i Hi. apply (f_equal (fun z => Z.testbit z i)) in E.
    revert E. rewrite Z.land_spec, Z.lor_spec, Z.bits_0. by destruct (Z.testbit flags i), (Z.testbit O_NONBLOCK i). }
  split; [done|]. by rewrite raw_pending, raw_slave_reads.
Qed.

Lemma omap_slaves ws : omap on_slave (map OnSlave ws) = ws /\ omap on_master (map OnSlave ws) = [].
Proof. induction ws as [|w ws [IH1 IH2]]; [done|]. cbn. by rewrite IH1, IH2. Qed.

(** The program on the slave writes. *)
Lemma typed_spec ws s : raw s -> let s' := with_written (written s ++ map OnSlave ws) s in
  raw s' /\ pending s' = pending s ++ ws /\ slave_reads s' = slave_reads s.
Proof.
  intros Hr s'. destruct (omap_slaves ws) as [E1 E2].
  assert (Hr' : raw s').
  { destruct Hr as [? ? ? Ht]. split; [done..|]. cbn [written taken s' with_written]. rewrite omap_app, length_app. lia. }
  split; [done|]. rewrite !raw_pending, !raw_slave_reads by done. cbn [written taken s' with_written].
  rewrite !omap_app, E1, E2, app_nil_r. split; [|done]. apply drop_app_le, Hr.
Qed.

Lemma bind_master {B} (k : Z -> M dpi B) s : raw s -> (d ← gets (fun s => master (obj s)); k d) s = k (fd s) s.
Proof. intros Hr. by rewrite bind_gets, (raw_fd s Hr). Qed.

Lemma can_read_none s : raw s -> pending s = [] -> uartdpi_can_read s = Ok 0 s.
Proof.
  intros Hr Hp. unfold uartdpi_can_read. rewrite bind_master by done.
  assert (E : sys_read (fd s) s = Ok None s) by (unfold sys_read; by rewrite Z.eqb_refl, Hp, (raw_nonblock s Hr)).
  by rewrite (bind_ok _ _ _ _ _ E).
Qed.

Lemma can_read_char s c q : raw s -> pending s = c :: q -> exists s',
  uartdpi_can_read s = Ok 1 s' /\ uartdpi_read s' = Ok (s8 c) s' /\
  raw s' /\ pending s' = q /\ slave_reads s' = slave_reads s.
Proof.
  intros Hr Hp. unfold uartdpi_can_read. rewrite bind_master by done.
  assert (E : sys_read (fd s) s = Ok (Some c) (with_taken (S (taken s)) s)) by (unfold sys_read; by rewrite Z.eqb_refl, Hp).
  rewrite (bind_ok _ _ _ _ _ E), bind_modify. eexists. split; [reflexivity|]. split; [reflexivity|].
  match goal with |- raw ?x /\ _ => set (s' := x) end.
  assert (Ed : drop (S (taken s)) (omap on_slave (written s)) = q).
  { rewrite raw_pending in Hp by done. change (S (taken s)) with (1 + taken s)%nat. by rewrite Nat.add_comm, <- drop_drop, Hp. }
  assert (Hr' : raw s').
  { assert (Hlen := f_equal length Hp). rewrite raw_pending, length_drop in Hlen by done. cbn in Hlen.
    destruct Hr as [? ? ? Ht]. split; [done..|]. cbn [written taken s' with_obj with_taken]. lia. }
  split; [done|]. rewrite raw_pending, !raw_slave_reads by done. by split.
Qed.

Lemma send_spec b c s : raw s -> exists s', do_call (Send b c) s = Ok [] s' /\ raw s' /\
  pending s' = pending s /\ slave_reads s' = slave_reads s ++ (if b then [u8 c] else []).
Proof.
  intros Hr. cbn [do_call]. rewrite bind_modify. set (s1 := with_room b s).
  assert (Hr1 : raw s1) by (destruct Hr; by split).
  set (s2 := if b then with_written (written s ++ [OnMaster (u8 c)]) s1 else s1).
  assert (E : sys_write (fd s1) (s8 c) s1 = Ok b s2).
  { unfold sys_write. rewrite Z.eqb_refl, (raw_nonblock s1 Hr1), u8_s8. by destruct b. }
  unfold uartdpi_write. rewrite bind_assoc, bind_master, bind_assoc, (bind_ok _ _ _ _ _ E), bind_skip by done.
  exists s2. split; [done|]. assert (Hr2 : raw s2).
  { unfold s2. destruct b; [|done]. destruct Hr1 as [? ? ? Ht]. split; [done..|].
    cbn [written taken with_written s1 with_room] in *. rewrite omap_app, length_app. lia. }
  split; [done|]. rewrite !raw_pending, !raw_slave_reads by done. unfold s2. destruct b; cbn [written taken with_written s1 with_room].
  - rewrite !omap_app. cbn. by rewrite app_nil_r.
  - by rewrite app_nil_r.
Qed.

Lemma calls_spec ks : forall s q, raw s -> pending s = q -> Forall (fun c => 0 <= c < 256) (q ++ typed ks) ->
  exists s', do_calls ks s = Ok (served q ks).1 s' /\ pending s' = (served q ks).2 /\
    slave_reads s' = slave_reads s ++ sent ks.
Proof.
  induction ks as [|[ws|b c] ks IH]; intros s q Hr Hq Hb; cbn [do_calls served].
  - exists s. by rewrite app_nil_r.
  - unfold typed in Hb. cbn [mbind list_bind] in Hb. fold (typed ks) in Hb. rewrite app_assoc in Hb.
    destruct (typed_spec ws s Hr) as (Hr1 & Hp1 & Hs1). cbn [do_call]. rewrite bind_assoc, bind_modify, bind_assoc.
    set (s1 := with_written _ s) in *. rewrite Hq in Hp1. destruct (q ++ ws) as [|c q'] eqn:Eq.
    + rewrite (bind_ok _ _ _ _ _ (can_read_none s1 Hr1 Hp1)). cbn [Z.eqb]. rewrite bind_ret.
      destruct (IH s1 [] Hr1 Hp1 Hb) as (s' & E & Hp & Hs). exists s'. rewrite (bind_ok _ _ _ _ _ E). split; [done|].
      split; [done|]. by rewrite Hs, Hs1.
    + destruct (can_read_char s1 c q' Hr1 Hp1) as (s2 & E1 & E2 & Hr2 & Hp2 & Hs2).
      rewrite (bind_ok _ _ _ _ _ E1). cbn [Z.eqb]. rewrite bind_assoc, (bind_ok _ _ _ _ _ E2), bind_ret, u8_s8.
      apply Forall_cons in Hb as [Hc Hb]. destruct (IH s2 q' Hr2 Hp2 Hb) as (s' & E & Hp & Hs).
      exists s'. rewrite (bind_ok _ _ _ _ _ E). destruct (served q' ks) as [cs r]. cbn [fst snd] in *.
      rewrite u8_small by done. split; [done|]. split; [done|]. by rewrite Hs, Hs2, Hs1.
  - destruct (send_spec b c s Hr) as (s1 & E1 & Hr1 & Hp1 & Hs1). rewrite (bind_ok _ _ _ _ _ E1).
    destruct (IH s1 q Hr1 ltac:(by rewrite Hp1) Hb) as (s' & E & Hp & Hs). exists s'. rewrite (bind_ok _ _ _ _ _ E).
    split; [done|]. split; [done|]. rewrite Hs, Hs1, <- app_assoc. by destruct b.
Qed.

(** C22. The bridge is a transparent pair of queues that never holds up the
    simulation.  From any indeterminate attributes, and for any sequence of polls and
    sends, whatever bytes the program on the slave writes in between and whenever
    the terminal is full, every call returns; the simulation gets the program's
    characters one per poll, in order, none of them lost, changed or repeated and
    none of its own echoed, and what it has not had is still there; the program gets
    the low bytes of what the simulation sends, in order and unchanged, less the
    characters sent while the terminal was full: those are lost, since the result
    of [write] is dropped. *)
Theorem uartdpi_keeps_order t opened flags tty_name name s ks :
  uartdpi_create t opened flags tty_name name = Some s -> Forall (fun c => 0 <= c < 256) (typed ks) ->
  exists s', do_calls ks s = Ok (served [] ks).1 s' /\
    pending s' = (served [] ks).2 /\ (served [] ks).1 ++ pending s' = typed ks /\
    slave_reads s' = sent ks.
Proof.
  intros Hc Hb. destruct (create_raw _ _ _ _ _ _ Hc) as (Hr & Hp & Hs).
  destruct (calls_spec ks s [] Hr Hp Hb) as (s' & E & Hp' & Hs'). exists s'. split; [done|]. split; [done|].
  split; [by rewrite Hp', served_typed|]. by rewrite Hs', Hs.
Qed.
End Calls.

(** ** A concrete terminal

    The attributes that matter in its small line discipline: a carriage return on the
    master becomes a line feed, what is written on the master is echoed to it, a line
    feed on the slave becomes two characters. *)
Record attributes := mk_attributes { ICRNL : bool; ECHO : bool; OPOST : bool }.
Definition discipline : Pty := {|
  termios := attributes;
  cfmakeraw _ := mk_attributes false false false;
  to_slave t := omap (fun w => match w with OnMaster c => Some (if ICRNL t && (c =? 13) then 10 else c) | OnSlave _ => None end);
  to_master t l := l ≫= (fun w => match w with
    | OnMaster c => if ECHO t then [c] else []
    | OnSlave c => if OPOST t && (c =? 10) then [13; 10] else [c]
    end);
  O_NONBLOCK := 2048
|}.
Lemma discipline_ok : PtyOk discipline.
Proof.
  split; [done| |done]. intros t l. induction l as [|[c|c] l IH]; [done|exact IH|]. cbn in IH |- *. by rewrite <- IH.
Qed.

Lemma uartdpi_keeps_order_witness :
  let ks := [Send true 13; Poll []; Poll [65; 10]; Send false 2; Send true (-1); Poll []] in
  exists s, uartdpi_create (H := discipline) (mk_attributes true true true) (Some (3, 4)) 2 "/dev/pts/7" "uart0" = Some s /\
  exists s', do_calls ks s = Ok [65; 10] s' /\ pending s' = [] /\ slave_reads s' = [13; 255].
Proof.
  intros ks. eexists. split; [reflexivity|].
  destruct (uartdpi_keeps_order (H := discipline) (PtyOk0 := discipline_ok) (mk_attributes true true true) (Some (3, 4)) 2 "/dev/pts/7" "uart0" _ ks
    eq_refl) as (s' & E & Ep & _ & Es); [repeat (constructor; [lia|]); constructor|].
  exists s'. split; [exact E|]. split; [exact Ep|exact Es].
Defined.
