(* ===== verification/Pulp.v ===== *)
(** * Pulp: the PULPissimo platform boot_code runs on, and its HAL

    boot_code/include: the memory map and event numbers of archi/chips/pulpissimo,
    the documented behaviour of the peripherals the boot code uses (interrupt
    controller, SoC event unit, uDMA with the SPI master and a serial flash, APB
    SoC controller) as a state [soc], and the HAL's access functions as programs
    over 32-bit loads and stores.  Time is the list [events] of what happens while
    the core sleeps.  The address registers of this uDMA keep the whole address: the
    loader's structure and the sections it reads directly are in L2. *)

From S2P Require Import Prelude Monad Hw.

(** ** archi/utils.h *)
Definition ARCHI_REG_MASK (offset size : Z) : Z := Z.shiftl (Z.shiftl 1 size - 1) offset.
Definition ARCHI_REG_FIELD_SET (fullValue value offset size : Z) : Z :=
  (fullValue &&& Z.lnot (ARCHI_REG_MASK offset size)) ||| Z.shiftl value offset.
Definition ARCHI_REG_FIELD_GET (fullValue offset size : Z) : Z :=
  Z.shiftr (fullValue &&& ARCHI_REG_MASK offset size) offset.

(** ** archi/chips/pulpissimo/properties.h and memory_map.h *)
Definition ARCHI_UDMA_UART_ID (id : Z) : Z := 0.
Definition ARCHI_UDMA_SPIM_ID (id : Z) : Z := 1.
Definition ARCHI_UDMA_I2C_ID (id : Z) : Z := 2 + id.
Definition ARCHI_UDMA_SDIO_ID (id : Z) : Z := 4 + id.
Definition ARCHI_UDMA_I2S_ID (id : Z) : Z := 5.
Definition ARCHI_UDMA_CAM_ID (id : Z) : Z := 6.
Definition ARCHI_UDMA_FILTER_ID (id : Z) : Z := 7 + id.
Definition ARCHI_UDMA_TRACER_ID (id : Z) : Z := 8.
Definition ARCHI_UDMA_TGEN_ID (id : Z) : Z := 9.
Definition ARCHI_SOC_EVENT_UDMA_NB_CHANNEL_EVT_LOG2 : Z := 2.
Definition ARCHI_SOC_EVENT_UDMA_NB_CHANNEL_EVT : Z := Z.shiftl 1 ARCHI_SOC_EVENT_UDMA_NB_CHANNEL_EVT_LOG2.
Definition ARCHI_SOC_EVENT_PERIPH_FIRST_EVT (x : Z) : Z := x * ARCHI_SOC_EVENT_UDMA_NB_CHANNEL_EVT.
(** The event numbers of the uDMA peripherals, by name. *)
Definition soc_events : list (string * Z) :=
  [("UART0_RX", 0); ("UART0_TX", 1); ("UART0_EOT", 2); ("UART0_RX_DATA", 3);
   ("SPIM0_RX", 4); ("SPIM0_TX", 5); ("SPIM0_CMD", 6); ("SPIM0_EOT", 7);
   ("I2C0_RX", 8); ("I2C0_TX", 9); ("I2C1_RX", 12); ("I2C1_TX", 13);
   ("SDIO0_RX", 16); ("SDIO0_TX", 17); ("I2S0_RX", 20); ("I2S0_TX", 21);
   ("CPI0_RX", 24); ("FILTER0_RX", 28); ("FILTER0_TX", 29)]%string.
Definition ARCHI_SOC_EVENT_SPIM0_EOT : Z := 7.
Definition ARCHI_FC_EVT_CLK_REF : Z := 14.
Definition ARCHI_FC_EVT_SOC_EVT : Z := 26.

Definition ARCHI_SOC_PERIPHERALS_ADDR : Z := 0x1A100000.
Definition ARCHI_FLL_OFFSET : Z := 0x00000000.
Definition ARCHI_GPIO_OFFSET : Z := 0x00001000.
Definition ARCHI_UDMA_OFFSET : Z := 0x00002000.
Definition ARCHI_APB_SOC_CTRL_OFFSET : Z := 0x00004000.
Definition ARCHI_SOC_EU_OFFSET : Z := 0x00006000.
Definition ARCHI_FC_ITC_OFFSET : Z := 0x00009800.
Definition ARCHI_FC_TIMER_OFFSET : Z := 0x0000B000.
Definition ARCHI_UDMA_ADDR : Z := ARCHI_SOC_PERIPHERALS_ADDR + ARCHI_UDMA_OFFSET.
Definition ARCHI_APB_SOC_CTRL_ADDR : Z := ARCHI_SOC_PERIPHERALS_ADDR + ARCHI_APB_SOC_CTRL_OFFSET.
Definition ARCHI_SOC_EU_ADDR : Z := ARCHI_SOC_PERIPHERALS_ADDR + ARCHI_SOC_EU_OFFSET.
Definition ARCHI_FC_ITC_ADDR : Z := ARCHI_SOC_PERIPHERALS_ADDR + ARCHI_FC_ITC_OFFSET.

(** ** archi/udma/udma_v3.h *)
Definition UDMA_PERIPH_AREA_SIZE_LOG2 : Z := 7.
Definition UDMA_CHANNEL_SIZE_LOG2 : Z := 4.
Definition UDMA_FIRST_CHANNEL_OFFSET : Z := 0x80.
Definition UDMA_CHANNEL_RX_OFFSET : Z := 0x00.
Definition UDMA_CHANNEL_TX_OFFSET : Z := 0x10.
Definition UDMA_CHANNEL_CUSTOM_OFFSET : Z := 0x20.
Definition UDMA_CHANNEL_SADDR_OFFSET : Z := 0x0.
Definition UDMA_CHANNEL_SIZE_OFFSET : Z := 0x4.
Definition UDMA_CHANNEL_CFG_OFFSET : Z := 0x8.
Definition UDMA_CONF_OFFSET : Z := 0x0.
Definition UDMA_CONF_CG_OFFSET : Z := 0x00.
Definition UDMA_CONF_EVTIN_OFFSET : Z := 0x04.
Definition UDMA_CHANNEL_CFG_SHADOW : Z := Z.shiftl 1 5.
Definition UDMA_CHANNEL_CFG_CLEAR : Z := Z.shiftl 1 5.
Definition UDMA_CHANNEL_CFG_EN : Z := Z.shiftl 1 4.
Definition UDMA_CHANNEL_CFG_SIZE_8 : Z := Z.shiftl 0 1.
Definition UDMA_CHANNEL_CFG_SIZE_16 : Z := Z.shiftl 1 1.
Definition UDMA_CHANNEL_CFG_SIZE_32 : Z := Z.shiftl 2 1.
Definition UDMA_CHANNEL_CFG_CONT : Z := Z.shiftl 1 0.
Definition UDMA_PERIPH_OFFSET (id : Z) : Z := Z.shiftl id UDMA_PERIPH_AREA_SIZE_LOG2 + UDMA_FIRST_CHANNEL_OFFSET.
Definition UDMA_PERIPH_GET (offset : Z) : Z := Z.shiftr offset UDMA_PERIPH_AREA_SIZE_LOG2.
Definition UDMA_CHANNEL_OFFSET (id : Z) : Z := Z.shiftl id UDMA_CHANNEL_SIZE_LOG2.
Definition UDMA_CHANNEL_GET (offset : Z) : Z := Z.shiftr offset UDMA_CHANNEL_SIZE_LOG2.
Definition UDMA_CHANNEL_ID (id : Z) : Z := id * 2.
Definition UDMA_NB_PERIPH_EVENTS : Z := Z.shiftl 1 2.
Definition UDMA_PERIPH_ID (id : Z) : Z := Z.quot id 2.
Definition UDMA_EVENT_ID (id : Z) : Z := id * UDMA_NB_PERIPH_EVENTS.

Definition UDMA_SPIM_OFFSET (id : Z) : Z := UDMA_PERIPH_OFFSET (ARCHI_UDMA_SPIM_ID id).
Definition UDMA_SPIM_CMD_ADDR (id : Z) : Z := ARCHI_UDMA_ADDR + UDMA_SPIM_OFFSET id + 0x20.
Definition UDMA_SPIM_RX_ADDR (id : Z) : Z := ARCHI_UDMA_ADDR + UDMA_SPIM_OFFSET id + 0x00.
Definition UDMA_SPIM_TX_ADDR (id : Z) : Z := ARCHI_UDMA_ADDR + UDMA_SPIM_OFFSET id + 0x10.
Definition UDMA_SPIM_CUSTOM_ADDR (id : Z) : Z := ARCHI_UDMA_ADDR + UDMA_SPIM_OFFSET id + UDMA_CHANNEL_CUSTOM_OFFSET.
Definition UDMA_UART_OFFSET (id : Z) : Z := UDMA_PERIPH_OFFSET (ARCHI_UDMA_UART_ID id).
Definition UDMA_UART_RX_ADDR (id : Z) : Z := ARCHI_UDMA_ADDR + UDMA_UART_OFFSET id + UDMA_CHANNEL_RX_OFFSET.
Definition UDMA_UART_TX_ADDR (id : Z) : Z := ARCHI_UDMA_ADDR + UDMA_UART_OFFSET id + UDMA_CHANNEL_TX_OFFSET.
Definition UDMA_UART_CUSTOM_ADDR (id : Z) : Z := ARCHI_UDMA_ADDR + UDMA_UART_OFFSET id + UDMA_CHANNEL_CUSTOM_OFFSET.
Definition UART_STATUS_OFFSET : Z := 0x00.
Definition UART_SETUP_OFFSET : Z := 0x04.
Definition ARCHI_SOC_EVENT_UART_RX (id : Z) : Z := ARCHI_SOC_EVENT_PERIPH_FIRST_EVT (ARCHI_UDMA_UART_ID id) + 0.
Definition ARCHI_SOC_EVENT_UART_TX (id : Z) : Z := ARCHI_SOC_EVENT_PERIPH_FIRST_EVT (ARCHI_UDMA_UART_ID id) + 1.

(** ** archi/itc/itc_v1.h, archi/soc_eu/soc_eu_v2.h, archi/chips/pulpissimo/apb_soc.h *)
Definition ITC_MASK_OFFSET : Z := 0x0.
Definition ITC_MASK_SET_OFFSET : Z := 0x4.
Definition ITC_MASK_CLR_OFFSET : Z := 0x8.
Definition ITC_STATUS_OFFSET : Z := 0xc.
Definition ITC_STATUS_SET_OFFSET : Z := 0x10.
Definition ITC_STATUS_CLR_OFFSET : Z := 0x14.
Definition ITC_ACK_OFFSET : Z := 0x18.
Definition ITC_ACK_SET_OFFSET : Z := 0x1c.
Definition ITC_ACK_CLR_OFFSET : Z := 0x20.
Definition ITC_FIFO_OFFSET : Z := 0x24.

Definition SOC_EU_EVENT : Z := 0x00.
Definition SOC_FC_FIRST_MASK : Z := 0x04.
Definition SOC_CL_FIRST_MASK : Z := 0x24.
Definition SOC_PR_FIRST_MASK : Z := 0x44.
Definition SOC_ERR_FIRST_MASK : Z := 0x64.
Definition SOC_TIMER_SEL_HI : Z := 0x84.
Definition SOC_TIMER_SEL_LO : Z := 0x88.
Definition SOC_TIMER_SEL_ENABLE_SHIFT : Z := 31.
Definition SOC_TIMER_SEL_EVT_SHIFT : Z := 0.
Definition SOC_TIMER_SEL_EVT_WIDTH : Z := 8.
Definition SOC_TIMER_SEL_EVT_MASK : Z := Z.shiftr 0xffffffff (32 - SOC_TIMER_SEL_EVT_WIDTH).
Definition SOC_NB_EVENT_REGS : Z := 8.

Definition APB_SOC_BOOT_OTHER : Z := 0.
Definition APB_SOC_BOOT_JTAG : Z := 1.
Definition APB_SOC_BOOT_SPIM : Z := 6.
Definition APB_SOC_PLT_OTHER : Z := 0.
Definition APB_SOC_BOOTADDR_OFFSET : Z := 0x04.
Definition APB_SOC_INFO_OFFSET : Z := 0x00.
Definition APB_SOC_CLUSTER_ISOLATE_OFFSET : Z := 0x0C.
Definition APB_SOC_PADFUN0_OFFSET : Z := 0x10.
Definition APB_SOC_PADCFG0_OFFSET : Z := 0x20.
Definition APB_SOC_PADFUN_OFFSET (g : Z) : Z := APB_SOC_PADFUN0_OFFSET + g * 4.
Definition APB_SOC_PADFUN_NO (pad : Z) : Z := Z.shiftr pad 4.
Definition APB_SOC_PADFUN_SIZE : Z := 2.
Definition APB_SOC_PADFUN_BIT (pad : Z) : Z := Z.shiftl (pad &&& 0xF) 1.
Definition APB_SOC_PADCFG_OFFSET (g : Z) : Z := APB_SOC_PADCFG0_OFFSET + g * 4.
Definition APB_SOC_PADCFG_NO (pad : Z) : Z := Z.shiftr pad 2.
Definition APB_SOC_PADCFG_SIZE : Z := 8.
Definition APB_SOC_PADCFG_BIT (pad : Z) : Z := Z.shiftl (pad &&& 0x3) 3.
Definition APB_SOC_BUSY_OFFSET : Z := 0x6C.
Definition APB_SOC_JTAG_REG : Z := 0x74.
Definition APB_SOC_CORESTATUS_OFFSET : Z := 0xA0.
Definition APB_SOC_PADS_CONFIG : Z := 0xC4.
Definition APB_SOC_PADS_CONFIG_BOOTSEL_BIT : Z := 0.
Definition APB_SOC_JTAG_REG_EXT_BIT : Z := 8.
Definition APB_SOC_JTAG_REG_EXT_WIDTH : Z := 4.
Definition APB_SOC_JTAG_REG_LOC_BIT : Z := 0.
Definition APB_SOC_JTAG_REG_LOC_WIDTH : Z := 4.
Definition APB_SOC_INFO_CORES_OFFSET : Z := APB_SOC_INFO_OFFSET + 2.
Definition APB_SOC_INFO_CLUSTERS_OFFSET : Z := APB_SOC_INFO_OFFSET.
Definition APB_SOC_STATUS_EOC_BIT : Z := 31.
Definition APB_SOC_FLL_CTRL_OFFSET : Z := 0xD0.
Definition APB_SOC_CLKDIV_SOC_OFFSET : Z := 0xD4.
Definition APB_SOC_CLKDIV_CLUSTER_OFFSET : Z := 0xD8.
Definition APB_SOC_CLKDIV_PERIPH_OFFSET : Z := 0xDC.
Definition APB_SOC_BOOTSEL_OFFSET : Z := 0xc4.

(** ** The platform state *)
Inductive event :=
  | ClkRef                       (* a tick of the reference clock *)
  | SpimDone                     (* the SPI master reaches the end of its command sequence *)
  | Debugger (v : Z).            (* the debugger changes its half of the JTAG register *)

(** A started SPI transfer: destination, received bytes, whether its end of
    transfer raises an event. *)
Record transfer := mk_transfer { t_addr : Z; t_bytes : list Z; t_event : bool }.

Record soc := mk_soc {
  mem : memory;
  sregs : gmap Z Z;              (* registers that hold what is written to them, by address *)
  itc_mask : Z;                  (* enabled interrupts *)
  itc_status : Z;                (* pending interrupts *)
  itc_fifo : list Z;             (* SoC events not yet popped *)
  jtag_in : Z;                   (* the debugger's half of the JTAG register *)
  spim_job : option transfer;
  events : list event;           (* what will happen, in order *)
  csrs : gmap Z Z;               (* the core's control and status registers *)
  serial_flash : flash_hw        (* on chip select 0 of SPI master 0 *)
}.

Definition with_mem (m : memory) (s : soc) : soc :=
  mk_soc m (sregs s) (itc_mask s) (itc_status s) (itc_fifo s) (jtag_in s) (spim_job s) (events s) (csrs s) (serial_flash s).
Definition with_sregs (r : gmap Z Z) (s : soc) : soc :=
  mk_soc (mem s) r (itc_mask s) (itc_status s) (itc_fifo s) (jtag_in s) (spim_job s) (events s) (csrs s) (serial_flash s).
Definition with_mask (v : Z) (s : soc) : soc :=
  mk_soc (mem s) (sregs s) v (itc_status s) (itc_fifo s) (jtag_in s) (spim_job s) (events s) (csrs s) (serial_flash s).
Definition with_status (v : Z) (s : soc) : soc :=
  mk_soc (mem s) (sregs s) (itc_mask s) v (itc_fifo s) (jtag_in s) (spim_job s) (events s) (csrs s) (serial_flash s).
Definition with_fifo (l : list Z) (s : soc) : soc :=
  mk_soc (mem s) (sregs s) (itc_mask s) (itc_status s) l (jtag_in s) (spim_job s) (events s) (csrs s) (serial_flash s).
Definition with_jtag_in (v : Z) (s : soc) : soc :=
  mk_soc (mem s) (sregs s) (itc_mask s) (itc_status s) (itc_fifo s) v (spim_job s) (events s) (csrs s) (serial_flash s).
Definition with_job (j : option transfer) (s : soc) : soc :=
  mk_soc (mem s) (sregs s) (itc_mask s) (itc_status s) (itc_fifo s) (jtag_in s) j (events s) (csrs s) (serial_flash s).
Definition with_events (l : list event) (s : soc) : soc :=
  mk_soc (mem s) (sregs s) (itc_mask s) (itc_status s) (itc_fifo s) (jtag_in s) (spim_job s) l (csrs s) (serial_flash s).
Definition with_csrs (c : gmap Z Z) (s : soc) : soc :=
  mk_soc (mem s) (sregs s) (itc_mask s) (itc_status s) (itc_fifo s) (jtag_in s) (spim_job s) (events s) c (serial_flash s).

Definition sreg (a : Z) (s : soc) : Z := default 0 (sregs s !! a).
Definition set_sreg (a v : Z) (s : soc) : soc := with_sregs (<[a := v]> (sregs s)) s.

(** The SoC event unit forwards an event to the core unless its mask bit is set. *)
Definition fc_mask_addr (evt : Z) : Z := ARCHI_SOC_EU_ADDR + (SOC_FC_FIRST_MASK + Z.quot evt 32 * 4).
Definition event_enabled (evt : Z) (s : soc) : bool := negb (Z.testbit (sreg (fc_mask_addr evt) s) (Z.rem evt 32)).
Definition raise_event (evt : Z) (s : soc) : soc :=
  if event_enabled evt s then
    with_status (itc_status s ||| Z.shiftl 1 ARCHI_FC_EVT_SOC_EVT) (with_fifo (itc_fifo s ++ [evt]) s)
  else s.

Definition happen (e : event) (s : soc) : soc :=
  match e with
  | ClkRef => with_status (itc_status s ||| Z.shiftl 1 ARCHI_FC_EVT_CLK_REF) s
  | Debugger v => with_jtag_in v s
  | SpimDone =>
      match spim_job s with
      | None => s
      | Some t =>
          let s' := with_job None (with_mem (mem_write (mem s) (t_addr t) (t_bytes t)) s) in
          if t_event t then raise_event ARCHI_SOC_EVENT_SPIM0_EOT s' else s'
      end
  end.

(** The CMD channel is started: the SPI master runs if it has a clock; what it
    receives goes where the RX channel points. *)
Definition raises_eot (ws : list Z) : bool :=
  existsb (fun w => (field w 31 28 =? 9) && Z.testbit w 0) ws.
Definition start_spim (s : soc) : soc :=
  let rx := UDMA_SPIM_RX_ADDR 0 in
  let cmd := UDMA_SPIM_CMD_ADDR 0 in
  let ws := fetch_words (mem s) (sreg (cmd + UDMA_CHANNEL_SADDR_OFFSET) s)
              (Z.to_nat (sreg (cmd + UDMA_CHANNEL_SIZE_OFFSET) s / 4)) in
  let received :=
    if Z.testbit (sreg (rx + UDMA_CHANNEL_CFG_OFFSET) s) 4
    then take (Z.to_nat (sreg (rx + UDMA_CHANNEL_SIZE_OFFSET) s)) (spim_run (serial_flash s) ws) else [] in
  if Z.testbit (sreg (ARCHI_UDMA_ADDR + UDMA_CONF_OFFSET + UDMA_CONF_CG_OFFSET) s) (ARCHI_UDMA_SPIM_ID 0)
  then with_job (Some (mk_transfer (sreg (rx + UDMA_CHANNEL_SADDR_OFFSET) s) received (raises_eot ws))) s
  else s.

Definition bus_read (a : Z) (s : soc) : Z * soc :=
  if a =? ARCHI_FC_ITC_ADDR + ITC_MASK_OFFSET then (itc_mask s, s)
  else if a =? ARCHI_FC_ITC_ADDR + ITC_STATUS_OFFSET then (itc_status s, s)
  else if a =? ARCHI_FC_ITC_ADDR + ITC_FIFO_OFFSET then (hd 0 (itc_fifo s), with_fifo (tl (itc_fifo s)) s)
  else if a =? ARCHI_APB_SOC_CTRL_ADDR + APB_SOC_JTAG_REG then
    ((sreg a s &&& 0xF) ||| Z.shiftl (jtag_in s) APB_SOC_JTAG_REG_EXT_BIT, s)
  else (sreg a s, s).

Definition bus_write (a v : Z) (s : soc) : soc :=
  if a =? ARCHI_FC_ITC_ADDR + ITC_MASK_OFFSET then with_mask v s
  else if a =? ARCHI_FC_ITC_ADDR + ITC_MASK_SET_OFFSET then with_mask (itc_mask s ||| v) s
  else if a =? ARCHI_FC_ITC_ADDR + ITC_MASK_CLR_OFFSET then with_mask (itc_mask s &&& Z.lnot v) s
  else if a =? ARCHI_FC_ITC_ADDR + ITC_STATUS_OFFSET then with_status v s
  else if a =? ARCHI_FC_ITC_ADDR + ITC_STATUS_SET_OFFSET then with_status (itc_status s ||| v) s
  else if a =? ARCHI_FC_ITC_ADDR + ITC_STATUS_CLR_OFFSET then with_status (itc_status s &&& Z.lnot v) s
  else if a =? UDMA_SPIM_CMD_ADDR 0 + UDMA_CHANNEL_CFG_OFFSET then
    let s' := set_sreg a v s in if Z.testbit v 4 then start_spim s' else s'
  else set_sreg a v s.

(** The core sleeps until an enabled interrupt is pending. *)
Fixpoint sleep (l : list event) (s : soc) : outcome soc unit :=
  if negb (itc_status s &&& itc_mask s =? 0) then Ok tt (with_events l s)
  else match l with
       | [] => Spin (with_events [] s)
       | e :: l' => sleep l' (happen e s)
       end.

(** ** hal/pulp_io.h and archi/utils.h: accesses *)
Definition pulp_read32 (a : Z) : M soc Z := fun s => let r := bus_read (u32 a) s in Ok r.1 r.2.
Definition pulp_write32 (a v : Z) : M soc unit := modify (bus_write (u32 a) (u32 v)).
(** A 16-bit load, of one half of a register. *)
Definition pulp_read16 (a : Z) : M soc Z :=
  v ← pulp_read32 (a - a mod 4); mret (u16 (Z.shiftr v (8 * (a mod 4)))).
Definition ARCHI_WRITE (base offset value : Z) : M soc unit := pulp_write32 (base + offset) value.
Definition ARCHI_READ (base offset : Z) : M soc Z := pulp_read32 (base + offset).
Definition wfi : M soc unit := fun s => sleep (events s) s.

(** ** hal/itc/itc_v1.h *)
Definition hal_itc_enable_value_set (mask : Z) : M soc unit := pulp_write32 (ARCHI_FC_ITC_ADDR + ITC_MASK_OFFSET) mask.
Definition hal_itc_enable_value_get : M soc Z := pulp_read32 (ARCHI_FC_ITC_ADDR + ITC_MASK_OFFSET).
Definition hal_itc_enable_set (mask : Z) : M soc unit := pulp_write32 (ARCHI_FC_ITC_ADDR + ITC_MASK_SET_OFFSET) mask.
Definition hal_itc_enable_clr (mask : Z) : M soc unit := pulp_write32 (ARCHI_FC_ITC_ADDR + ITC_MASK_CLR_OFFSET) mask.
Definition hal_itc_ack_value_set (mask : Z) : M soc unit := pulp_write32 (ARCHI_FC_ITC_ADDR + ITC_ACK_OFFSET) mask.
Definition hal_itc_ack_value_get : M soc Z := pulp_read32 (ARCHI_FC_ITC_ADDR + ITC_ACK_OFFSET).
Definition hal_itc_ack_set (mask : Z) : M soc unit := pulp_write32 (ARCHI_FC_ITC_ADDR + ITC_ACK_SET_OFFSET) mask.
Definition hal_itc_ack_clr (mask : Z) : M soc unit := pulp_write32 (ARCHI_FC_ITC_ADDR + ITC_ACK_CLR_OFFSET) mask.
Definition hal_itc_status_value_set (mask : Z) : M soc unit := pulp_write32 (ARCHI_FC_ITC_ADDR + ITC_STATUS_OFFSET) mask.
Definition hal_itc_status_value_set_remote (mask : Z) : M soc unit :=
  pulp_write32 (ARCHI_FC_ITC_ADDR + ITC_STATUS_OFFSET) mask.
Definition hal_itc_status_value_get : M soc Z := pulp_read32 (ARCHI_FC_ITC_ADDR + ITC_STATUS_OFFSET).
Definition hal_itc_status_set (mask : Z) : M soc unit := pulp_write32 (ARCHI_FC_ITC_ADDR + ITC_STATUS_SET_OFFSET) mask.
Definition hal_itc_status_clr (mask : Z) : M soc unit := pulp_write32 (ARCHI_FC_ITC_ADDR + ITC_STATUS_CLR_OFFSET) mask.
Definition hal_itc_fifo_pop : M soc Z := pulp_read32 (ARCHI_FC_ITC_ADDR + ITC_FIFO_OFFSET).
Definition hal_itc_wait_for_interrupt : M soc unit := wfi.

(** ** hal/riscv/riscv_v5.h: control and status registers *)
Definition csr (r : Z) (s : soc) : Z := default 0 (csrs s !! r).
Definition hal_spr_read (reg : Z) : M soc Z := gets (csr reg).
Definition hal_spr_write (reg val : Z) : M soc unit := modify (fun s => with_csrs (<[reg := u32 val]> (csrs s)) s).
Definition hal_spr_read_then_clr (reg val : Z) : M soc Z :=
  state ← hal_spr_read reg; hal_spr_write reg (state &&& Z.lnot val) ;; mret state.
Definition hal_spr_read_then_set (reg val : Z) : M soc Z :=
  state ← hal_spr_read reg; hal_spr_write reg (state ||| val) ;; mret state.
Definition core_id : M soc Z := hart_id ← hal_spr_read 0xF14; mret (hart_id &&& 0x01f).
Definition cluster_id : M soc Z := hart_id ← hal_spr_read 0xF14; mret (Z.shiftr (s32 hart_id) 5 &&& 0x3f).
Definition hal_core_id : M soc Z := core_id.
Definition hal_irq_disable : M soc Z := hal_spr_read_then_clr 0x300 (Z.shiftl 0x1 3).
Definition hal_irq_restore (state : Z) : M soc unit := hal_spr_write 0x300 state.
Definition hal_irq_enable : M soc unit := _ ← hal_spr_read_then_set 0x300 (Z.shiftl 0x1 3); skip.

Definition CSR_PCMR_ACTIVE : Z := 0x1.
Definition cpu_perf_conf_events (eventMask : Z) : M soc unit := hal_spr_write 0xCC0 eventMask.
Definition cpu_perf_conf_events_get : M soc Z := hal_spr_read 0xCC0.
Definition cpu_perf_conf (confMask : Z) : M soc unit := hal_spr_write 0xCC1 confMask.
Definition cpu_perf_start (conf : Z) : M soc unit := cpu_perf_conf (conf ||| CSR_PCMR_ACTIVE).
Definition cpu_perf_stop (conf : Z) : M soc unit := cpu_perf_conf conf.
Definition cpu_perf_set (counterId value : Z) : M soc unit := skip.
Definition cpu_perf_setall (value : Z) : M soc unit := hal_spr_write 0x79F value.
(** [case n] reads the CSR [0x780 + n], for the 31 counters. *)
Definition cpu_perf_get (counterId : Z) : M soc Z :=
  if (0 <=? counterId) && (counterId <=? 30) then hal_spr_read (0x780 + counterId) else mret 0.
Definition cpu_perf_names : list string :=
  ["CYCLES"; "INSTR"; "LD_STALL"; "JMP_STALL"; "IMISS"; "LD"; "ST"; "JUMP"; "BRANCH"; "TAKEN_BRANCH"; "RVC";
   "LD_EXT"; "ST_EXT"; "LD_EXT_CYC"; "ST_EXT_CYC"; "TCDM_CONT"]%string.
Definition cpu_perf_name (event : Z) : option string := if event <? 0 then None else cpu_perf_names !! Z.to_nat event.
Definition cpu_stack_check_enable (base end_ : Z) : M soc unit :=
  hal_spr_write 0x7D0 0 ;; hal_spr_write 0x7D1 base ;; hal_spr_write 0x7D2 end_ ;; hal_spr_write 0x7D0 1.
Definition cpu_stack_check_disable : M soc unit := hal_spr_write 0x7D0 0.

(** *** itc_v1.h: [do { ... } while (!end)] *)
Fixpoint hal_itc_wait_for_event_noirq (fuel : nat) (mask : Z) : M soc unit :=
  state ← hal_irq_disable;
  v ← hal_itc_status_value_get;
  if v &&& mask =? 0 then
    hal_itc_enable_set mask ;; wfi ;; hal_itc_enable_clr mask ;;
    hal_irq_restore state ;;
    match fuel with O => spin | S fuel' => hal_itc_wait_for_event_noirq fuel' mask end
  else hal_itc_status_clr mask ;; hal_irq_restore state.
Definition hal_itc_wait_for_event (fuel : nat) (mask : Z) : M soc unit := hal_itc_wait_for_event_noirq fuel mask.

(** ** hal/soc_eu/soc_eu_v2.h *)
Definition hal_soc_eu_addr : Z := ARCHI_SOC_EU_ADDR.
Definition soc_eu_eventMask_set (reg value : Z) : M soc unit := pulp_write32 (ARCHI_SOC_EU_ADDR + reg) value.
Definition soc_eu_eventMask_get (reg : Z) : M soc Z := pulp_read32 (ARCHI_SOC_EU_ADDR + reg).
Definition soc_eu_eventMask_reset (first_reg : Z) : M soc unit :=
  for_ (Z.to_nat SOC_NB_EVENT_REGS) 0 (fun i => soc_eu_eventMask_set (first_reg + i * 4) 0xffffffff).
Definition soc_eu_eventMask_setEvent (evt first_reg : Z) : M soc unit :=
  let reg := first_reg + (Z.quot evt 32 * 4) in
  let evt := Z.rem evt 32 in
  v ← soc_eu_eventMask_get reg; soc_eu_eventMask_set reg (v &&& Z.lnot (Z.shiftl 1 evt)).
Definition soc_eu_eventMask_clearEvent (evt first_reg : Z) : M soc unit :=
  let reg := first_reg + (Z.quot evt 32 * 4) in
  let evt := Z.rem evt 32 in
  v ← soc_eu_eventMask_get reg; soc_eu_eventMask_set reg (v ||| Z.shiftl 1 evt).
Definition soc_eu_fcEventMask_setEvent (evt : Z) : M soc unit := soc_eu_eventMask_setEvent evt SOC_FC_FIRST_MASK.
Definition soc_eu_prEventMask_setEvent (evt : Z) : M soc unit := soc_eu_eventMask_setEvent evt SOC_PR_FIRST_MASK.
Definition soc_eu_clEventMask_setEvent (clusterId evt : Z) : M soc unit := soc_eu_eventMask_setEvent evt SOC_CL_FIRST_MASK.
Definition soc_eu_fcEventMask_clearEvent (evt : Z) : M soc unit := soc_eu_eventMask_clearEvent evt SOC_FC_FIRST_MASK.
Definition soc_eu_prEventMask_clearEvent (evt : Z) : M soc unit := soc_eu_eventMask_clearEvent evt SOC_PR_FIRST_MASK.
Definition soc_eu_clEventMask_clearEvent (clusterId evt : Z) : M soc unit := soc_eu_eventMask_clearEvent evt SOC_CL_FIRST_MASK.
Definition soc_eu_genEventMask (mask : Z) : M soc unit := pulp_write32 (ARCHI_SOC_EU_ADDR + SOC_EU_EVENT) mask.
Definition soc_eu_selEventTimer (timer_id mask : Z) : M soc unit :=
  v ← pulp_read32 (ARCHI_SOC_EU_ADDR + SOC_TIMER_SEL_HI + timer_id * 4);
  pulp_write32 (ARCHI_SOC_EU_ADDR + SOC_TIMER_SEL_HI + timer_id * 4)
    ((v &&& Z.lnot (Z.shiftl SOC_TIMER_SEL_EVT_MASK SOC_TIMER_SEL_EVT_SHIFT)) ||| (mask &&& SOC_TIMER_SEL_EVT_MASK)).
Definition soc_eu_setEnableEventTimer (timer_id val : Z) : M soc unit :=
  v ← pulp_read32 (ARCHI_SOC_EU_ADDR + SOC_TIMER_SEL_HI + timer_id * 4);
  pulp_write32 (ARCHI_SOC_EU_ADDR + SOC_TIMER_SEL_HI + timer_id * 4)
    ((v &&& Z.lnot (Z.shiftl 1 SOC_TIMER_SEL_ENABLE_SHIFT)) ||| val).

(** ** hal/apb_soc/apb_soc_v3.h and archi/chips/pulpissimo/apb_soc_ctrl.h *)
Definition apb_soc_get (offset : Z) : M soc Z := pulp_read32 (ARCHI_APB_SOC_CTRL_ADDR + offset).
Definition apb_soc_set (offset value : Z) : M soc unit := pulp_write32 (ARCHI_APB_SOC_CTRL_ADDR + offset) value.
Definition apb_soc_bootaddr_set (value : Z) : M soc unit := apb_soc_set APB_SOC_BOOTADDR_OFFSET value.
Definition apb_soc_bootaddr_get : M soc Z := apb_soc_get APB_SOC_BOOTADDR_OFFSET.
Definition apb_soc_busy_get : M soc Z := v ← apb_soc_get APB_SOC_BUSY_OFFSET; mret (s32 v).
Definition apb_soc_cluster_isolate_set (isolate : Z) : M soc unit := apb_soc_set APB_SOC_CLUSTER_ISOLATE_OFFSET isolate.
Definition apb_soc_status_set (value : Z) : M soc unit :=
  apb_soc_set APB_SOC_CORESTATUS_OFFSET (value ||| Z.shiftl 1 APB_SOC_STATUS_EOC_BIT).
Definition apb_soc_nbCores : M soc Z := pulp_read16 (ARCHI_APB_SOC_CTRL_ADDR + APB_SOC_INFO_CORES_OFFSET).
Definition apb_soc_nbClusters : M soc Z := pulp_read16 (ARCHI_APB_SOC_CTRL_ADDR + APB_SOC_INFO_CLUSTERS_OFFSET).
Definition hal_apb_soc_padfun_get (id : Z) : M soc Z := apb_soc_get (APB_SOC_PADFUN_OFFSET id).
Definition hal_apb_soc_padfun_set (id value : Z) : M soc unit := apb_soc_set (APB_SOC_PADFUN_OFFSET id) value.
Definition hal_apb_soc_padcfg_get (id : Z) : M soc Z := apb_soc_get (APB_SOC_PADCFG_OFFSET id).
Definition hal_apb_soc_padcfg_set (id value : Z) : M soc unit := apb_soc_set (APB_SOC_PADCFG_OFFSET id) value.
Definition hal_apb_soc_pad_set_function (pad func : Z) : M soc unit :=
  let padfunId := APB_SOC_PADFUN_NO pad in
  let padBit := APB_SOC_PADFUN_BIT pad in
  v ← hal_apb_soc_padfun_get padfunId;
  let oldval := v &&& Z.lnot (Z.shiftl (Z.shiftl 1 APB_SOC_PADFUN_SIZE - 1) padBit) in
  let newVal := oldval ||| u32 (Z.shiftl func padBit) in
  hal_apb_soc_padfun_set padfunId newVal.
Definition hal_apb_soc_pad_set_config (pad cfg : Z) : M soc unit :=
  let padcfgId := APB_SOC_PADCFG_NO pad in
  let padBit := APB_SOC_PADCFG_BIT pad in
  v ← hal_apb_soc_padcfg_get padcfgId;
  let oldval := v &&& Z.lnot (Z.shiftl (Z.shiftl 1 APB_SOC_PADCFG_SIZE - 1) padBit) in
  let newVal := oldval ||| u32 (Z.shiftl cfg padBit) in
  hal_apb_soc_padcfg_set padcfgId newVal.
Definition apb_soc_jtag_reg_read : M soc Z := apb_soc_get APB_SOC_JTAG_REG.
Definition apb_soc_jtag_reg_write (value : Z) : M soc unit := apb_soc_set APB_SOC_JTAG_REG value.
Definition apb_soc_jtag_reg_ext (value : Z) : Z :=
  ARCHI_REG_FIELD_GET value APB_SOC_JTAG_REG_EXT_BIT APB_SOC_JTAG_REG_EXT_WIDTH.
Definition apb_soc_jtag_reg_loc (value : Z) : Z :=
  ARCHI_REG_FIELD_GET value APB_SOC_JTAG_REG_LOC_BIT APB_SOC_JTAG_REG_LOC_WIDTH.
Definition apb_soc_fll_ctrl_set (value : Z) : M soc unit := apb_soc_set APB_SOC_FLL_CTRL_OFFSET value.
Definition apb_soc_fll_ctrl_get : M soc Z := apb_soc_get APB_SOC_FLL_CTRL_OFFSET.
Definition apb_soc_fll_clkdiv_set (fll value : Z) : M soc unit :=
  apb_soc_set (APB_SOC_CLKDIV_SOC_OFFSET + Z.shiftl fll 2) value.
Definition apb_soc_fll_clkdiv_get (fll : Z) : M soc Z := apb_soc_get (APB_SOC_CLKDIV_SOC_OFFSET + Z.shiftl fll 2).
Definition apb_soc_fll_clkdiv_soc_set (value : Z) : M soc unit := apb_soc_set APB_SOC_CLKDIV_SOC_OFFSET value.
Definition apb_soc_fll_clkdiv_soc_get : M soc Z := v ← apb_soc_get APB_SOC_CLKDIV_SOC_OFFSET; mret (s32 v).
Definition apb_soc_fll_clkdiv_cluster_set (value : Z) : M soc unit := apb_soc_set APB_SOC_CLKDIV_CLUSTER_OFFSET value.
Definition apb_soc_fll_clkdiv_cluster_get : M soc Z := v ← apb_soc_get APB_SOC_CLKDIV_CLUSTER_OFFSET; mret (s32 v).
Definition apb_soc_fll_clkdiv_periph_set (value : Z) : M soc unit := apb_soc_set APB_SOC_CLKDIV_PERIPH_OFFSET value.
Definition apb_soc_fll_clkdiv_periph_get : M soc Z := v ← apb_soc_get APB_SOC_CLKDIV_PERIPH_OFFSET; mret (s32 v).
Definition apb_soc_pads_config_get : M soc Z := v ← apb_soc_get APB_SOC_PADS_CONFIG; mret (s32 v).
Definition apb_soc_pads_config_bootself_get : M soc Z :=
  v ← apb_soc_pads_config_get; mret (Z.shiftr v APB_SOC_PADS_CONFIG_BOOTSEL_BIT &&& 1).
Definition apb_soc_bootsel_get (base : Z) : M soc Z := ARCHI_READ base APB_SOC_BOOTSEL_OFFSET.
Definition apb_soc_bootsel_set (base value : Z) : M soc unit := ARCHI_WRITE base APB_SOC_BOOTSEL_OFFSET value.

(** ** hal/udma/udma_v3.h *)
Definition rxtx_member (handle offset : Z) : M soc Z := pulp_read32 (handle + offset).
Definition plpUdmaRxChStartAddrSet (handle data : Z) : M soc unit := pulp_write32 (handle + 0x00) data.
Definition plpUdmaRxChStartAddrGet (handle : Z) : M soc Z := rxtx_member handle 0x00.
Definition plpUdmaRxChSizeSet (handle data : Z) : M soc unit := pulp_write32 (handle + 0x04) data.
Definition plpUdmaRxChSizeGet (handle : Z) : M soc Z := rxtx_member handle 0x04.
Definition plpUdmaRxChCfgSet (handle data : Z) : M soc unit := pulp_write32 (handle + 0x08) data.
Definition plpUdmaRxChCfgGet (handle : Z) : M soc Z := rxtx_member handle 0x08.
Definition plpUdmaTxChStartAddrSet (handle data : Z) : M soc unit := pulp_write32 (handle + 0x10) data.
Definition plpUdmaTxChStartAddrGet (handle : Z) : M soc Z := rxtx_member handle 0x10.
Definition plpUdmaTxChSizeSet (handle data : Z) : M soc unit := pulp_write32 (handle + 0x14) data.
Definition plpUdmaTxChSizeGet (handle : Z) : M soc Z := rxtx_member handle 0x14.
Definition plpUdmaTxChCfgSet (handle data : Z) : M soc unit := pulp_write32 (handle + 0x18) data.
Definition plpUdmaTxChCfgGet (handle : Z) : M soc Z := rxtx_member handle 0x18.
Definition hal_udma_channel_isTx (addr : Z) : Z := Z.shiftr addr UDMA_CHANNEL_SIZE_LOG2 &&& 1.
Definition plp_udma_canEnqueue (channelBase : Z) : M soc Z :=
  v ← pulp_read32 (channelBase + UDMA_CHANNEL_CFG_OFFSET);
  mret (if v &&& UDMA_CHANNEL_CFG_SHADOW =? 0 then 1 else 0).
Definition plp_udma_enqueue (channelBase l2Addr size cfg : Z) : M soc unit :=
  pulp_write32 (channelBase + UDMA_CHANNEL_SADDR_OFFSET) l2Addr ;;
  pulp_write32 (channelBase + UDMA_CHANNEL_SIZE_OFFSET) size ;;
  pulp_write32 (channelBase + UDMA_CHANNEL_CFG_OFFSET) (cfg ||| UDMA_CHANNEL_CFG_EN).
Definition plp_udma_busy (channelOffset : Z) : M soc Z :=
  v ← pulp_read32 (channelOffset + UDMA_CHANNEL_CFG_OFFSET); mret (v &&& UDMA_CHANNEL_CFG_EN).
Definition udma_conf (offset : Z) : Z := ARCHI_SOC_PERIPHERALS_ADDR + ARCHI_UDMA_OFFSET + UDMA_CONF_OFFSET + offset.
Definition plp_udma_cg_set (value : Z) : M soc unit := pulp_write32 (udma_conf UDMA_CONF_CG_OFFSET) value.
Definition plp_udma_cg_get : M soc Z := pulp_read32 (udma_conf UDMA_CONF_CG_OFFSET).
Definition plp_udma_evtin_set (value : Z) : M soc unit := pulp_write32 (udma_conf UDMA_CONF_EVTIN_OFFSET) value.
Definition plp_udma_evtin_get : M soc Z := pulp_read32 (udma_conf UDMA_CONF_EVTIN_OFFSET).
Definition hal_udma_periph_base (id : Z) : Z :=
  ARCHI_SOC_PERIPHERALS_ADDR + ARCHI_UDMA_OFFSET + UDMA_PERIPH_OFFSET id.
Definition hal_udma_channel_base (id : Z) : Z :=
  ARCHI_SOC_PERIPHERALS_ADDR + ARCHI_UDMA_OFFSET + UDMA_PERIPH_OFFSET (Z.shiftr id 1) + UDMA_CHANNEL_OFFSET (id &&& 1).

(** ** hal/udma/uart/udma_uart_v1.h *)
Definition uart_reg_addr (channel addr : Z) : Z :=
  ARCHI_UDMA_ADDR + UDMA_UART_OFFSET channel + UDMA_CHANNEL_CUSTOM_OFFSET + addr.
Definition plpUdmaUartSetupSet (handle data : Z) : M soc unit := pulp_write32 (handle + 0x24) data.
Definition plpUdmaUartSetupGet (handle : Z) : M soc Z := pulp_read32 (handle + 0x24).
Definition plpUdmaUartStatusGet (handle : Z) : M soc Z := pulp_read32 (handle + 0x20).
Definition plp_uart_setup (channel parity clk_counter : Z) : M soc unit :=
  let val := 0x0306 ||| u32 parity in
  let val := val ||| u32 (Z.shiftl (u16 clk_counter) 16) in
  pulp_write32 (uart_reg_addr channel UART_SETUP_OFFSET) val.
Definition plp_uart_disable (channel : Z) : M soc unit := pulp_write32 (uart_reg_addr channel UART_SETUP_OFFSET) 0x00500006.
Definition plp_uart_tx_busy (channel : Z) : M soc Z :=
  v ← pulp_read32 (uart_reg_addr channel UART_STATUS_OFFSET); mret (v &&& 1).
Definition plp_uart_rx_busy (channel : Z) : M soc Z :=
  v ← pulp_read32 (uart_reg_addr channel UART_STATUS_OFFSET); mret (Z.shiftr v 1 &&& 1).
Definition plp_uart_reg_read (channel addr : Z) : M soc Z := pulp_read32 (uart_reg_addr channel addr).
Definition plp_uart_reg_write (channel addr cfg : Z) : M soc unit := pulp_write32 (uart_reg_addr channel addr) cfg.
