(* ===== verification/BootCode.v ===== *)
(** * BootCode: the PULPissimo boot ROM, boot_code/boot_code.c

    The program over the platform of [Pulp]: waiting for events and clock ticks,
    the flash reads through the SPI commands of archi/udma/spim/udma_spim_v3.h, the
    image loader, and the choice of the boot source from the debugger's JTAG
    register and the boot pad.  The build is PULPissimo's: no HyperBus
    ([PLP_UDMA_HAS_HYPER] is not defined), no [DEBUG]. *)

From S2P Require Import Prelude Monad Hw Spi Boot Pulp.

(** ** archi/udma/spim/udma_spim_v3.h: the command words *)
Definition SPI_CMD_CFG_ID : Z := 0.
Definition SPI_CMD_SOT_ID : Z := 1.
Definition SPI_CMD_SEND_CMD_ID : Z := 2.
Definition SPI_CMD_DUMMY_ID : Z := 4.
Definition SPI_CMD_WAIT_ID : Z := 5.
Definition SPI_CMD_TX_DATA_ID : Z := 6.
Definition SPI_CMD_RX_DATA_ID : Z := 7.
Definition SPI_CMD_RPT_ID : Z := 8.
Definition SPI_CMD_EOT_ID : Z := 9.
Definition SPI_CMD_RPT_END_ID : Z := 10.
Definition SPI_CMD_RX_CHECK_ID : Z := 11.
Definition SPI_CMD_FUL_ID : Z := 12.
Definition SPI_CMD_QPI_ENA : Z := 1.
Definition SPI_CMD_QPI_DIS : Z := 0.
Definition SPI_CMD_LSB_FIRST : Z := 1.
Definition SPI_CMD_MSB_FIRST : Z := 0.
Definition SPI_CMD_4_WORD_PER_TRANSF : Z := 2.
Definition SPI_CMD_2_WORD_PER_TRANSF : Z := 1.
Definition SPI_CMD_1_WORD_PER_TRANSF : Z := 0.

(** The encoders combine their fields with OR; the words are stored as 32-bit
    integers. *)
Definition spi_id (id : Z) : Z := Z.shiftl id 28.
Definition SPI_CMD_CFG (clockDiv cpol cpha : Z) : Z :=
  u32 (spi_id SPI_CMD_CFG_ID ||| Z.shiftl cpol 9 ||| Z.shiftl cpha 8 ||| Z.shiftl clockDiv 0).
Definition SPI_CMD_SOT (cs : Z) : Z := u32 (spi_id SPI_CMD_SOT_ID ||| Z.shiftl cs 0).
Definition SPI_CMD_SEND_CMD (cmd bits qpi : Z) : Z :=
  u32 (spi_id SPI_CMD_SEND_CMD_ID ||| Z.shiftl qpi 27 ||| Z.shiftl (bits - 1) 16 ||| (cmd &&& 0xFFFF)).
Definition SPI_CMD_SEND_BITS (data bits qpi : Z) : Z :=
  u32 (spi_id SPI_CMD_SEND_CMD_ID ||| Z.shiftl qpi 27 ||| Z.shiftl (bits - 1) 16 ||| (data &&& 0xFFFF)).
Definition SPI_CMD_DUMMY (cycles : Z) : Z := u32 (spi_id SPI_CMD_DUMMY_ID ||| Z.shiftl (cycles - 1) 16).
Definition SPI_CMD_TX_DATA (words wordstrans bitsword qpi lsbfirst : Z) : Z :=
  u32 (spi_id SPI_CMD_TX_DATA_ID ||| Z.shiftl qpi 27 ||| Z.shiftl wordstrans 21 ||| Z.shiftl (bitsword - 1) 16
       ||| Z.shiftl (words - 1) 0 ||| Z.shiftl lsbfirst 26).
Definition SPI_CMD_RX_DATA (words wordstrans bitsword qpi lsbfirst : Z) : Z :=
  u32 (spi_id SPI_CMD_RX_DATA_ID ||| Z.shiftl qpi 27 ||| Z.shiftl wordstrans 21 ||| Z.shiftl (bitsword - 1) 16
       ||| Z.shiftl (words - 1) 0 ||| Z.shiftl lsbfirst 26).
Definition SPI_CMD_RPT (iter : Z) : Z := u32 (spi_id SPI_CMD_RPT_ID ||| Z.shiftl iter 0).
Definition SPI_CMD_EOT (evt cs_keep : Z) : Z := u32 (spi_id SPI_CMD_EOT_ID ||| Z.shiftl evt 0 ||| Z.shiftl cs_keep 1).
Definition SPI_CMD_RX_CHECK (mode bits value qpi byte_align : Z) : Z :=
  u32 (spi_id SPI_CMD_RX_CHECK_ID ||| Z.shiftl value 0 ||| Z.shiftl mode 24 ||| Z.shiftl (bits - 1) 16
       ||| Z.shiftl byte_align 26 ||| Z.shiftl qpi 27).
Definition SPI_CMD_WAIT (event : Z) : Z := u32 (spi_id SPI_CMD_WAIT_ID ||| Z.shiftl event 0).
Definition SPI_CMD_RPT_END : Z := u32 (spi_id SPI_CMD_RPT_END_ID).
Definition SPI_CMD_FUL (words wordstrans bitsword lsbfirst : Z) : Z :=
  u32 (spi_id SPI_CMD_FUL_ID ||| Z.shiftl wordstrans 21 ||| Z.shiftl (bitsword - 1) 16
       ||| Z.shiftl (words - 1) 0 ||| Z.shiftl lsbfirst 26).

(** ** hal/rom/rom_v2.h and the data of boot_code.c *)
Definition flash_v2_mem_area_t : list c_field :=
  [uint32_field "start"; uint32_field "ptr"; uint32_field "size"; uint32_field "blocks"].
Definition flash_v2_header_t : list c_field :=
  [uint32_field "nextDesc"; uint32_field "nbAreas"; uint32_field "entry"; uint32_field "bootaddr"].
Definition FLASH_BLOCK_SIZE_LOG2 : Z := 12.
Definition FLASH_BLOCK_SIZE : Z := Z.shiftl 1 FLASH_BLOCK_SIZE_LOG2.
Definition HYPER_FLASH_BLOCK_SIZE_LOG2 : Z := 10.
Definition HYPER_FLASH_BLOCK_SIZE : Z := Z.shiftl 1 HYPER_FLASH_BLOCK_SIZE_LOG2.
Definition BOOT_STACK_SIZE : Z := 1024.
Definition MAX_NB_AREA : Z := 16.
Definition boot_code_t : list c_field :=
  [array_field "flashBuffer" FLASH_BLOCK_SIZE 1 1; array_field "udma_buffer" 256 4 4;
   uint32_field "spi_flash_id"; uint32_field "step";
   struct_field "header" flash_v2_header_t;
   array_field "memArea" MAX_NB_AREA (sizeof flash_v2_mem_area_t) (struct_align flash_v2_mem_area_t);
   array_field "udma_uart_tx_buffer" 1 1 1; array_field "stack" BOOT_STACK_SIZE 1 1;
   uint32_field "hyperflash"; uint32_field "blockSize"; uint32_field "qpi"].
Definition off_flashBuffer : Z := Eval vm_compute in offset_of "flashBuffer" boot_code_t.
Definition off_udma_buffer : Z := Eval vm_compute in offset_of "udma_buffer" boot_code_t.
Definition off_step : Z := Eval vm_compute in offset_of "step" boot_code_t.
Definition off_header : Z := Eval vm_compute in offset_of "header" boot_code_t.
Definition off_memArea : Z := Eval vm_compute in offset_of "memArea" boot_code_t.
Definition off_stack : Z := Eval vm_compute in offset_of "stack" boot_code_t.
Definition off_hyperflash : Z := Eval vm_compute in offset_of "hyperflash" boot_code_t.
Definition off_blockSize : Z := Eval vm_compute in offset_of "blockSize" boot_code_t.
Definition off_qpi : Z := Eval vm_compute in offset_of "qpi" boot_code_t.
Definition sizeof_boot_code_t : Z := Eval vm_compute in sizeof boot_code_t.
Definition sizeof_header : Z := Eval vm_compute in sizeof flash_v2_header_t.
Definition sizeof_area : Z := Eval vm_compute in sizeof flash_v2_mem_area_t.

Definition rd32 (a : Z) : M soc Z := gets (fun s => load32 (mem s) a).
Definition wr32 (a v : Z) : M soc unit := modify (fun s => with_mem (store32 (mem s) a v) s).

(** ** Waiting *)
Definition wait_soc_event (fuel : nat) : M soc unit :=
  hal_itc_enable_set (Z.shiftl 1 ARCHI_FC_EVT_SOC_EVT) ;;
  while fuel
    (v ← hal_itc_status_value_get; mret (Z.shiftr v ARCHI_FC_EVT_SOC_EVT &&& 1 =? 0))
    hal_itc_wait_for_interrupt ;;
  _ ← hal_itc_fifo_pop;
  hal_itc_status_clr (Z.shiftl 1 ARCHI_FC_EVT_SOC_EVT) ;;
  hal_itc_enable_clr (Z.shiftl 1 ARCHI_FC_EVT_SOC_EVT).

Definition wait_clock_ref (nbTicks : Z) : M soc unit :=
  hal_itc_enable_set (Z.shiftl 1 ARCHI_FC_EVT_CLK_REF) ;;
  for_ (Z.to_nat nbTicks) 0 (fun _ =>
    hal_itc_wait_for_interrupt ;;
    hal_itc_status_clr (Z.shiftl 1 ARCHI_FC_EVT_CLK_REF)) ;;
  hal_itc_enable_clr (Z.shiftl 1 ARCHI_FC_EVT_CLK_REF).

Definition boot_abort (fuel : nat) : M soc unit :=
  hal_itc_enable_value_set 0 ;;
  while fuel (mret true) hal_itc_wait_for_interrupt.

(** ** Reading the flash: commands in [udma_buffer], one transfer, its event *)
Definition read_words (flashAddr size : Z) : list Z :=
  [ SPI_CMD_CFG 0 0 0;
    SPI_CMD_SOT 0;
    SPI_CMD_SEND_CMD 0x03 8 SPI_CMD_QPI_DIS;
    SPI_CMD_SEND_BITS (Z.shiftr flashAddr 8 &&& 0xFFFF) 16 SPI_CMD_QPI_DIS;
    SPI_CMD_SEND_BITS (flashAddr &&& 0xFF) 8 SPI_CMD_QPI_DIS;
    SPI_CMD_RX_DATA size SPI_CMD_4_WORD_PER_TRANSF 8 SPI_CMD_QPI_DIS SPI_CMD_MSB_FIRST;
    SPI_CMD_EOT 1 0 ].
Definition flash_read (fuel : nat) (data flashAddr l2Addr size : Z) : M soc unit :=
  hyperflash ← rd32 (data + off_hyperflash);
  if hyperflash =? 0 then
    let buffer := data + off_udma_buffer in
    let buff_size := 7 * 4 in
    modify (fun s => with_mem (mem_write (mem s) buffer (read_words flashAddr size ≫= le32)) s) ;;
    plp_udma_enqueue (UDMA_SPIM_RX_ADDR 0) l2Addr size (UDMA_CHANNEL_CFG_EN ||| UDMA_CHANNEL_CFG_SIZE_32) ;;
    plp_udma_enqueue (UDMA_SPIM_CMD_ADDR 0) buffer buff_size (UDMA_CHANNEL_CFG_EN ||| UDMA_CHANNEL_CFG_SIZE_32) ;;
    wait_soc_event fuel
  else skip.

Definition flash_checkAndConf (data : Z) : M soc unit := _ ← rd32 (data + off_hyperflash); skip.

Definition init (data : Z) : M soc unit :=
  wr32 (data + off_step) 0 ;;
  v ← plp_udma_cg_get; plp_udma_cg_set (v ||| Z.shiftl 1 (ARCHI_UDMA_SPIM_ID 0)) ;;
  soc_eu_eventMask_reset SOC_FC_FIRST_MASK ;;
  soc_eu_fcEventMask_setEvent ARCHI_SOC_EVENT_SPIM0_EOT ;;
  soc_eu_fcEventMask_setEvent (ARCHI_SOC_EVENT_UART_TX 0) ;;
  wait_clock_ref 20.

Definition deinit (data : Z) : M soc unit :=
  plp_uart_disable 0 ;;
  soc_eu_eventMask_reset SOC_FC_FIRST_MASK ;;
  plp_udma_cg_set 0.

(** ** Loading an image *)
Fixpoint copy_loop (n : nat) (d s : Z) : M soc unit :=
  match n with
  | O => skip
  | S n' =>
      modify (fun st => with_mem (mem_set (mem st) d (mem_get (mem st) s)) st) ;;
      copy_loop n' (d + 1) (s + 1)
  end.
Definition memcpy (dest src len : Z) : M soc Z := copy_loop (Z.to_nat len) dest src ;; mret dest.

Fixpoint load_blocks (n fuel : nat) (data area : Z) (isL2Section : bool) (i flash_addr area_addr size : Z) : M soc unit :=
  blocks ← rd32 (area + 12);
  if i <? blocks then
    match n with
    | O => spin
    | S n' =>
        blockSize ← rd32 (data + off_blockSize);
        let iterSize := blockSize in
        let iterSize := if iterSize >? size then u32 (size + 3) &&& 0xfffffffc else iterSize in
        (if isL2Section then flash_read fuel data flash_addr area_addr iterSize
         else
           flash_read fuel data flash_addr (data + off_flashBuffer) iterSize ;;
           _ ← memcpy area_addr (data + off_flashBuffer) iterSize; skip) ;;
        load_blocks n' fuel data area isL2Section (u32 (i + 1)) (u32 (flash_addr + iterSize))
          (u32 (area_addr + iterSize)) (u32 (size - iterSize))
    end
  else skip.

Definition load_section (n fuel : nat) (data area : Z) : M soc unit :=
  flash_addr ← rd32 area;
  area_addr ← rd32 (area + 4);
  size ← rd32 (area + 8);
  let isL2Section := (area_addr >=? 0x1C000000) && (area_addr <? 0x1D000000) in
  load_blocks n fuel data area isL2Section 0 flash_addr area_addr size.

Definition jump_to_entry (header : Z) : M soc unit :=
  bootaddr ← rd32 (header + 12);
  apb_soc_bootaddr_set bootaddr ;;
  entry ← rd32 (header + 8);
  jump_to_address entry.

Definition getMemAreas (fuel : nat) (data : Z) : M soc unit :=
  flash_read fuel data 0 (data + off_header) sizeof_header ;;
  nbArea ← rd32 (data + off_header + 4);
  let nbArea := s32 nbArea in
  let nbArea := if nbArea >=? MAX_NB_AREA then MAX_NB_AREA else nbArea in
  when (negb (nbArea =? 0))
    (flash_read fuel data sizeof_header (data + off_memArea) (u32 (nbArea * sizeof_area))).

(** The element [i] of [memArea]; C forbids an index out of range. *)
Definition area_of (data i : Z) : M soc Z :=
  if (0 <=? i) && (i <? MAX_NB_AREA) then mret (data + off_memArea + sizeof_area * i) else fault.

Fixpoint load_sections (k n fuel : nat) (data i : Z) : M soc unit :=
  nbAreas ← rd32 (data + off_header + 4);
  if i <? nbAreas then
    match k with
    | O => spin
    | S k' =>
        area ← area_of data i;
        load_section n fuel data area ;;
        load_sections k' n fuel data (u32 (i + 1))
    end
  else skip.

Definition loadBinaryAndStart (n fuel : nat) (data : Z) : M soc unit :=
  getMemAreas fuel data ;;
  load_sections 17 n fuel data 0 ;;
  deinit data ;;
  jump_to_entry (data + off_header).

(** crt0.S [changeStack]: the stack pointer is set and the entry called; no local
    of the loader has its address taken, so the stack's place does not matter. *)
Definition changeStack (data : Z) (entry : Z -> M soc unit) (stack : Z) : M soc unit := entry data.
Definition loadBinaryAndStart_newStack (n fuel : nat) (data : Z) : M soc unit :=
  changeStack data (loadBinaryAndStart n fuel) (data + off_stack + BOOT_STACK_SIZE).

Fixpoint findDataFit_loop (k : nat) (data i addr : Z) : M soc Z :=
  nbAreas ← rd32 (data + off_header + 4);
  if i <? nbAreas then
    match k with
    | O => spin
    | S k' =>
        area ← area_of data i;
        ptr ← rd32 (area + 4);
        size ← rd32 (area + 8);
        blockSize ← rd32 (data + off_blockSize);
        let addr :=
          if (addr >=? ptr) && (addr <? u32 (ptr + size))
             || (addr <? ptr) && (u32 (addr + sizeof_boot_code_t) >? ptr)
          then u32 (u32 (ptr + size) + blockSize - 1) &&& Z.lnot (blockSize - 1)
          else addr in
        findDataFit_loop k' data (u32 (i + 1)) addr
    end
  else mret addr.
Definition findDataFit (data : Z) : M soc Z := findDataFit_loop 17 data 0 0x1c000000.

(** ** Choosing the boot source *)
Section Main.
(** Where the linker put [bootCode]. *)
Context (addr_bootCode : Z).

Definition block_size (hyperflash : Z) : Z :=
  if negb (hyperflash =? 0) then HYPER_FLASH_BLOCK_SIZE else FLASH_BLOCK_SIZE.
Definition bootFromRom (n fuel : nat) (hyperflash qpi : Z) : M soc unit :=
  let data := addr_bootCode in
  wr32 (data + off_hyperflash) hyperflash ;;
  wr32 (data + off_blockSize) (block_size hyperflash) ;;
  wr32 (data + off_qpi) qpi ;;
  init data ;;
  flash_checkAndConf data ;;
  getMemAreas fuel data ;;
  newData ← findDataFit data;
  wr32 (newData + off_hyperflash) hyperflash ;;
  wr32 (newData + off_qpi) qpi ;;
  wr32 (newData + off_blockSize) (block_size hyperflash) ;;
  loadBinaryAndStart_newStack n fuel newData.

(** [while (1) { ... break; ... wait_clock_ref(1); }] *)
Fixpoint jtag_loop (fuel : nat) : M soc unit :=
  value ← apb_soc_jtag_reg_read;
  if apb_soc_jtag_reg_ext value &&& 1 =? 0 then
    wait_clock_ref 1 ;;
    match fuel with O => spin | S fuel' => jtag_loop fuel' end
  else skip.
Definition bootFromJtag (fuel : nat) : M soc unit :=
  apb_soc_jtag_reg_write 1 ;;
  jtag_loop fuel ;;
  jump_to_address 0x1c008080.

(** The two functions call each other; [rec] bounds the depth. *)
Definition choose_boot_mode (other : Z -> M soc unit) (n fuel : nat) (mode platform : Z) : M soc unit :=
  (if mode =? APB_SOC_BOOT_SPIM then bootFromRom n fuel 0 0
   else if mode =? APB_SOC_BOOT_JTAG then bootFromJtag fuel
   else if mode =? APB_SOC_BOOT_OTHER then other platform
   else skip) ;;
  spin.
Fixpoint bootFromOther (rec n fuel : nat) (platform : Z) : M soc unit :=
  v ← apb_soc_jtag_reg_read;
  let value := apb_soc_jtag_reg_ext v in
  when (negb (value =? 0))
    (let mode := ARCHI_REG_FIELD_GET value 1 (APB_SOC_JTAG_REG_EXT_WIDTH - 1) in
     match rec with
     | O => spin
     | S rec' => choose_boot_mode (bootFromOther rec' n fuel) n fuel mode platform
     end) ;;
  b ← apb_soc_bootsel_get ARCHI_APB_SOC_CTRL_ADDR;
  (if negb (b =? 0) then boot_abort fuel else bootFromRom n fuel 0 1) ;;
  spin.

Definition main (rec n fuel : nat) : M soc unit := bootFromOther rec n fuel APB_SOC_PLT_OTHER ;; spin.
End Main.
