(* ===== verification/PulpBoot.v ===== *)
(** * PulpBoot: what boot_code does on the PULPissimo platform

    The waits of BootCode end when the platform delivers their events, its SPI
    commands read the flash, and a well-formed image is loaded and entered. *)

From S2P Require Import Prelude Monad Hw Spi Boot FlashImage Pulp BootCode.

(** ** Registers *)
Lemma sreg_set a b v s : sreg a (set_sreg b v s) = if a =? b then v else sreg a s.
Proof.
  unfold sreg, set_sreg. cbn. destruct (Z.eqb_spec a b) as [->|Hne]; [by rewrite lookup_insert_eq|].
  by rewrite lookup_insert_ne.
Qed.

(** The addresses whose accesses do more than keep a value. *)
Definition special_read (a : Z) : bool :=
  existsb (Z.eqb a) (map (Z.add ARCHI_FC_ITC_ADDR) [ITC_MASK_OFFSET; ITC_STATUS_OFFSET; ITC_FIFO_OFFSET]
                     ++ [ARCHI_APB_SOC_CTRL_ADDR + APB_SOC_JTAG_REG]).
Definition special_write (a : Z) : bool :=
  existsb (Z.eqb a) (map (Z.add ARCHI_FC_ITC_ADDR) [ITC_MASK_OFFSET; ITC_MASK_SET_OFFSET; ITC_MASK_CLR_OFFSET;
                       ITC_STATUS_OFFSET; ITC_STATUS_SET_OFFSET; ITC_STATUS_CLR_OFFSET]
                     ++ [UDMA_SPIM_CMD_ADDR 0 + UDMA_CHANNEL_CFG_OFFSET]).

Lemma bus_read_reg a s : special_read a = false -> bus_read a s = (sreg a s, s).
Proof.
  unfold special_read, bus_read. cbn [map app existsb]. intros H.
  repeat (apply orb_false_iff in H as [? H]). by repeat (match goal with E : (_ =? _) = false |- _ => rewrite E; clear E end).
Qed.
Lemma bus_write_reg a v s : special_write a = false -> bus_write a v s = set_sreg a v s.
Proof.
  unfold special_write, bus_write. cbn [map app existsb]. intros H.
  repeat (apply orb_false_iff in H as [? H]). by repeat (match goal with E : (_ =? _) = false |- _ => rewrite E; clear E end).
Qed.

Lemma bind_read {B} a (k : Z -> M soc B) s : special_read (u32 a) = false ->
  (pulp_read32 a ≫= k) s = k (sreg (u32 a) s) s.
Proof. intros H. unfold pulp_read32, mbind, M_bind. by rewrite bus_read_reg. Qed.
Lemma bind_write {B} a v (k : unit -> M soc B) s : special_write (u32 a) = false ->
  (pulp_write32 a v ≫= k) s = k tt (set_sreg (u32 a) (u32 v) s).
Proof. intros H. unfold pulp_write32. by rewrite bind_modify, bus_write_reg. Qed.

(** ** The commands *)

(** The words boot_code composes from the SPI_CMD macros are those a2_boot composes
    from its enumeration, with a clock divider of 0. *)
Lemma read_words_cmds fa n : 0 <= fa -> 0 < n <= 65536 -> read_words fa n = read_cmds 0 fa n.
Proof.
  intros Hfa Hn. unfold read_words, read_cmds.
  assert (Hsend : forall v bits, bits = 16 \/ bits = 8 -> 0 <= v < 2 ^ 16 ->
    SPI_CMD_SEND_BITS v bits SPI_CMD_QPI_DIS = (kSPIm_SendCmd ||| Z.shiftl (bits - 1) 16) ||| v).
  { intros v bits Hb Hv. unfold SPI_CMD_SEND_BITS, SPI_CMD_QPI_DIS. rewrite Z.shiftl_0_l, Z.lor_0_r.
    change 0xFFFF with (Z.ones 16). rewrite Z.land_ones, Z.mod_small by lia.
    change (spi_id SPI_CMD_SEND_CMD_ID) with kSPIm_SendCmd.
    apply u32_small. destruct (send_word_fields bits v ltac:(lia) Hv) as (_ & _ & _ & Hr). exact Hr. }
  rewrite (Hsend (Z.shiftr fa 8 &&& 0xFFFF) 16), (Hsend (fa &&& 0xFF) 8).
  - assert (Hrx : SPI_CMD_RX_DATA n SPI_CMD_4_WORD_PER_TRANSF 8 SPI_CMD_QPI_DIS SPI_CMD_MSB_FIRST =
      u32 (kSPIm_RxData ||| (0x00470000 ||| (n - 1)))).
    { unfold SPI_CMD_RX_DATA, SPI_CMD_QPI_DIS, SPI_CMD_MSB_FIRST, SPI_CMD_4_WORD_PER_TRANSF.
      rewrite !Z.shiftl_0_l, Z.shiftl_0_r, !Z.lor_0_r. change (spi_id SPI_CMD_RX_DATA_ID) with kSPIm_RxData.
      rewrite <- !Z.lor_assoc. do 2 f_equal. by rewrite Z.lor_assoc. }
    rewrite Hrx. change (SPI_CMD_CFG 0 0 0) with (u32 (kSPIm_Cfg ||| 0)). change (SPI_CMD_SOT 0) with kSPIm_SOT.
    change (SPI_CMD_EOT 1 0) with (kSPIm_EOT ||| 1).
    change (SPI_CMD_SEND_CMD 0x03 8 SPI_CMD_QPI_DIS) with (kSPIm_SendCmd ||| 0x70003).
    reflexivity.
  - by right.
  - change 0xFF with (Z.ones 8). rewrite Z.land_ones by lia. pose proof (Z.mod_pos_bound fa (2 ^ 8) ltac:(lia)). lia.
  - by left.
  - change 0xFFFF with (Z.ones 16). rewrite Z.land_ones by lia. apply Z.mod_pos_bound. lia.
Qed.

(** ** Waiting

    How many transfers, and how many clock ticks, the schedule still holds. *)
Definition is_done (e : event) : bool := match e with SpimDone => true | _ => false end.
Definition dones (l : list event) : nat := length (List.filter is_done l).

Definition soc_evt : Z := Z.shiftl 1 ARCHI_FC_EVT_SOC_EVT.
Definition clk_ref : Z := Z.shiftl 1 ARCHI_FC_EVT_CLK_REF.

(** Two platform states that differ in time only: pending interrupts other than
    the SoC event, what is to come, the debugger's input. *)
Record later (s s' : soc) : Prop := {
  lt_mem : mem s' = mem s;
  lt_regs : sregs s' = sregs s;
  lt_mask : itc_mask s' = itc_mask s;
  lt_status : Z.testbit (itc_status s') 26 = Z.testbit (itc_status s) 26;
  lt_fifo : itc_fifo s' = itc_fifo s;
  lt_job : spim_job s' = spim_job s;
  lt_csrs : csrs s' = csrs s;
  lt_flash : serial_flash s' = serial_flash s
}.
#[export] Instance later_preorder : PreOrder later.
Proof. split; [done|]. intros s1 s2 s3 [] []. split; congruence. Qed.

Lemma happen_later e s : is_done e = false -> later s (happen e s).
Proof.
  destruct e; intros H; [|done|done]. split; try done. unfold happen. cbn [with_status itc_status]. rewrite Z.lor_spec.
  unfold ARCHI_FC_EVT_CLK_REF. rewrite (shiftl_testbit 1) by lia. change (Z.testbit 1 (26 - 14)) with false.
  by rewrite andb_false_r, orb_false_r.
Qed.

(** The core sleeps through everything until its transfer is done. *)
Lemma sleep_done l : forall s t k, itc_mask s = soc_evt -> Z.testbit (itc_status s) 26 = false ->
  spim_job s = Some t -> t_event t = true -> event_enabled ARCHI_SOC_EVENT_SPIM0_EOT s = true ->
  dones l = S k ->
  exists l' s1, sleep l s = Ok tt (with_events l' (happen SpimDone s1)) /\ later s s1 /\ dones l' = k.
Proof.
  induction l as [|e l IH]; intros s t k Hm Hst Hj Ht He Hd; [done|].
  cbn [sleep]. rewrite Hm. unfold soc_evt, ARCHI_FC_EVT_SOC_EVT. rewrite land_bit_eqb, Hst by lia. cbn [negb].
  destruct (is_done e) eqn:Ee.
  - destruct e; try done. exists l, s. split; [|split; [done|]]; [|unfold dones in *; cbn in Hd; lia].
    set (s' := happen SpimDone s).
    assert (Hb : negb (itc_status s' &&& itc_mask s' =? 0) = true).
    { unfold s', happen. rewrite Hj, Ht. unfold raise_event. unfold event_enabled in *. cbn [with_job with_mem sregs sreg]. 
      change (sreg ?a (with_job None (with_mem ?m s))) with (sreg a s). rewrite He. cbn. rewrite Hm.
      unfold soc_evt, ARCHI_FC_EVT_SOC_EVT. rewrite land_bit_eqb, negb_involutive by lia.
      rewrite Z.lor_spec. by rewrite orb_true_r. }
    destruct l; cbn [sleep]; by rewrite Hb.
  - pose proof (happen_later e s Ee) as L. destruct (IH (happen e s) t k) as (l' & s1 & E & L1 & Hk).
    + by rewrite (lt_mask _ _ L).
    + by rewrite (lt_status _ _ L).
    + by rewrite (lt_job _ _ L).
    + done.
    + unfold event_enabled, sreg in *. by rewrite (lt_regs _ _ L).
    + unfold dones in *. cbn in Hd. by rewrite Ee in Hd.
    + exists l', s1. split; [done|]. split; [by etransitivity|done].
Qed.

(** What [init] leaves and every flash read keeps: the SPI master has a clock,
    its end of transfer reaches the core, and no interrupt is enabled or left
    over. *)
Record idle (s : soc) : Prop := {
  id_clock : Z.testbit (sreg (udma_conf UDMA_CONF_CG_OFFSET) s) 1 = true;
  id_event : event_enabled ARCHI_SOC_EVENT_SPIM0_EOT s = true;
  id_mask : itc_mask s = 0;
  id_status : Z.testbit (itc_status s) 26 = false;
  id_fifo : itc_fifo s = []
}.

Lemma happen_done s t : spim_job s = Some t -> t_event t = true -> event_enabled ARCHI_SOC_EVENT_SPIM0_EOT s = true ->
  happen SpimDone s =
  with_status (itc_status s ||| soc_evt) (with_fifo (itc_fifo s ++ [ARCHI_SOC_EVENT_SPIM0_EOT])
    (with_job None (with_mem (mem_write (mem s) (t_addr t) (t_bytes t)) s))).
Proof.
  intros Hj Ht He. unfold happen. rewrite Hj, Ht. unfold raise_event, event_enabled in *.
  change (sreg ?a (with_job None (with_mem ?m s))) with (sreg a s). by rewrite He.
Qed.

Lemma wait_spec fuel t k s : (1 <= fuel)%nat -> idle s -> spim_job s = Some t -> t_event t = true -> dones (events s) = S k ->
  exists s', wait_soc_event fuel s = Ok tt s' /\ idle s' /\ dones (events s') = k /\
    mem s' = mem_write (mem s) (t_addr t) (t_bytes t) /\ sregs s' = sregs s /\ serial_flash s' = serial_flash s /\
    csrs s' = csrs s.
Proof.
  intros Hfuel [Hc He Hm Hst Hf] Hj Ht Hd. unfold wait_soc_event, hal_itc_enable_set.
  unfold pulp_write32 at 1. rewrite bind_modify.
  change (bus_write (u32 (ARCHI_FC_ITC_ADDR + ITC_MASK_SET_OFFSET)) (u32 (Z.shiftl 1 ARCHI_FC_EVT_SOC_EVT)) s)
    with (with_mask (itc_mask s ||| soc_evt) s).
  rewrite Hm, Z.lor_0_l. set (s0 := with_mask soc_evt s).
  destruct (sleep_done (events s0) s0 t k) as (l' & s1 & Es & L & Hk); try done.
  assert (Hj1 : spim_job s1 = Some t) by (by rewrite (lt_job _ _ L)).
  assert (He1 : event_enabled ARCHI_SOC_EVENT_SPIM0_EOT s1 = true).
  { unfold event_enabled, sreg in *. by rewrite (lt_regs _ _ L). }
  rewrite (happen_done s1 t Hj1 Ht He1) in Es.
  set (s2 := with_events l' _) in Es.
  assert (Hw : while fuel (v ← hal_itc_status_value_get; mret (Z.shiftr v ARCHI_FC_EVT_SOC_EVT &&& 1 =? 0))
             hal_itc_wait_for_interrupt s0 = Ok tt s2).
  { destruct fuel as [|fuel]; [lia|]. rewrite (while_true _ _ _ s0 s0).
    - rewrite (bind_ok _ _ s0 tt s2) by exact Es. apply while_false.
      change (Ok (Z.shiftr (itc_status s1 ||| soc_evt) 26 &&& 1 =? 0) s2 = Ok false s2). f_equal.
      rewrite land_1_eqb, shiftr_testbit, Z.lor_spec by lia. by rewrite orb_true_r.
    - change (Ok (Z.shiftr (itc_status s) 26 &&& 1 =? 0) s0 = Ok true s0). f_equal.
      rewrite land_1_eqb, shiftr_testbit by lia. change (Z.testbit (itc_status s) _) with (Z.testbit (itc_status s) 26). by rewrite Hst. }
  rewrite (bind_ok _ _ _ _ _ Hw).
  exists (with_mask (itc_mask s2 &&& Z.lnot soc_evt) (with_status (itc_status s2 &&& Z.lnot soc_evt)
    (with_fifo (tl (itc_fifo s2)) s2))). split; [reflexivity|].
  destruct L as [Lm Lr Lk Ls Lf Lj Lc Lfl]. unfold s2, s0, event_enabled, sreg in *.
  cbn [with_events with_status with_fifo with_job with_mem with_mask mem sregs itc_mask itc_status itc_fifo
       spim_job csrs serial_flash events] in *.
  split; [|rewrite Lm, Lr, Lc, Lfl; done].
  split; unfold event_enabled, sreg; cbn [with_events with_status with_fifo with_job with_mem with_mask mem sregs
    itc_mask itc_status itc_fifo]; rewrite ?Lr, ?Lk, ?Lf, ?Hf; try done.
  rewrite Z.land_spec, Z.lnot_spec by lia. change (Z.testbit soc_evt 26) with true. by rewrite andb_false_r.
Qed.

(** ** Flash reads *)
Definition spim_area (a : Z) : Prop := 0x1A102100 <= a < 0x1A102130.
Definition buffer_of (data : Z) : Z := data + off_udma_buffer.

Lemma read_words_range fa n : 0 <= fa -> 0 < n <= 65536 -> Forall (fun w => 0 <= w < 2 ^ 32) (read_words fa n).
Proof. intros Hfa Hn. repeat (apply Forall_cons_2; [apply u32_range|]). constructor. Qed.

Lemma read_words_exchange f fa n : 0 <= fa -> 0 < n < 65536 -> n mod 4 = 0 ->
  spim_run f (read_words fa n) = flash_bytes f fa n.
Proof. intros Hfa Hn H4. rewrite read_words_cmds, read_exchange by lia. f_equal. unfold whole. lia. Qed.

(** What the two channels hold when the command channel starts. *)
Definition enqueued (la n buffer : Z) (s : soc) : soc :=
  let rx := UDMA_SPIM_RX_ADDR 0 in
  let cmd := UDMA_SPIM_CMD_ADDR 0 in
  set_sreg (cmd + 8) 0x14 (set_sreg (cmd + 4) 28 (set_sreg cmd buffer
    (set_sreg (rx + 8) 0x14 (set_sreg (rx + 4) n (set_sreg rx la s))))).

Lemma enqueue_both la n buffer (k : unit -> M soc unit) s :
  (plp_udma_enqueue (UDMA_SPIM_RX_ADDR 0) la n (UDMA_CHANNEL_CFG_EN ||| UDMA_CHANNEL_CFG_SIZE_32) ;;
   plp_udma_enqueue (UDMA_SPIM_CMD_ADDR 0) buffer (7 * 4) (UDMA_CHANNEL_CFG_EN ||| UDMA_CHANNEL_CFG_SIZE_32) ≫= k) s =
  k tt (start_spim (enqueued (u32 la) (u32 n) (u32 buffer) s)).
Proof.
  unfold plp_udma_enqueue. repeat (rewrite ?bind_assoc; rewrite bind_write by reflexivity). 
  unfold pulp_write32 at 1. by rewrite bind_modify.
Qed.

Lemma start_enqueued la n buffer s : Z.testbit (sreg (udma_conf UDMA_CONF_CG_OFFSET) s) 1 = true ->
  let ws := fetch_words (mem s) buffer 7 in
  start_spim (enqueued la n buffer s) =
  with_job (Some (mk_transfer la (take (Z.to_nat n) (spim_run (serial_flash s) ws)) (raises_eot ws))) (enqueued la n buffer s).
Proof.
  intros Hc ws. unfold start_spim.
  assert (Hreg : forall a, sreg a (enqueued la n buffer s) =
    if a =? UDMA_SPIM_CMD_ADDR 0 + 8 then 0x14 else if a =? UDMA_SPIM_CMD_ADDR 0 + 4 then 28
    else if a =? UDMA_SPIM_CMD_ADDR 0 then buffer else if a =? UDMA_SPIM_RX_ADDR 0 + 8 then 0x14
    else if a =? UDMA_SPIM_RX_ADDR 0 + 4 then n else if a =? UDMA_SPIM_RX_ADDR 0 then la else sreg a s).
  { intros a. unfold enqueued. by rewrite !sreg_set. }
  set (e := enqueued la n buffer s) in *.
  assert (R1 : sreg (udma_conf UDMA_CONF_CG_OFFSET) e = sreg (udma_conf UDMA_CONF_CG_OFFSET) s) by (rewrite Hreg; reflexivity).
  assert (R2 : sreg (UDMA_SPIM_CMD_ADDR 0 + UDMA_CHANNEL_SADDR_OFFSET) e = buffer) by (rewrite Hreg; reflexivity).
  assert (R3 : sreg (UDMA_SPIM_CMD_ADDR 0 + UDMA_CHANNEL_SIZE_OFFSET) e = 28) by (rewrite Hreg; reflexivity).
  assert (R4 : sreg (UDMA_SPIM_RX_ADDR 0 + UDMA_CHANNEL_CFG_OFFSET) e = 0x14) by (rewrite Hreg; reflexivity).
  assert (R5 : sreg (UDMA_SPIM_RX_ADDR 0 + UDMA_CHANNEL_SIZE_OFFSET) e = n) by (rewrite Hreg; reflexivity).
  assert (R6 : sreg (UDMA_SPIM_RX_ADDR 0 + UDMA_CHANNEL_SADDR_OFFSET) e = la) by (rewrite Hreg; reflexivity).
  rewrite R2, R3, R4, R5, R6.
  change (ARCHI_UDMA_ADDR + UDMA_CONF_OFFSET + UDMA_CONF_CG_OFFSET) with (udma_conf UDMA_CONF_CG_OFFSET).
  rewrite R1. unfold ARCHI_UDMA_SPIM_ID. rewrite Hc. reflexivity.
Qed.

Lemma flash_read_spec fuel data fa la n k s : (1 <= fuel)%nat -> idle s ->
  load32 (mem s) (data + off_hyperflash) = 0 -> dones (events s) = S k ->
  0 <= fa -> 0 <= la < 2 ^ 32 -> 0 < n < 65536 -> n mod 4 = 0 -> 0 <= data -> data + sizeof_boot_code_t <= 2 ^ 32 ->
  exists s', flash_read fuel data fa la n s = Ok tt s' /\ idle s' /\ dones (events s') = k /\
    mem s' = mem_write (mem_write (mem s) (buffer_of data) (read_words fa n ≫= le32)) la (flash_bytes (serial_flash s) fa n) /\
    (forall a, ~ spim_area a -> sreg a s' = sreg a s) /\ serial_flash s' = serial_flash s /\ csrs s' = csrs s.
Proof.
  unfold sizeof_boot_code_t. intros Hfuel Hi Hh Hd Hfa Hla Hn H4 Hd0 Hd1.
  unfold flash_read, rd32. rewrite bind_gets, Hh. change (0 =? 0) with true. cbv iota.
  rewrite bind_modify. fold (buffer_of data). set (s0 := with_mem _ s).
  cbv zeta. rewrite enqueue_both. rewrite !u32_small by (unfold buffer_of, off_udma_buffer; lia).
  assert (Hcg : Z.testbit (sreg (udma_conf UDMA_CONF_CG_OFFSET) s0) 1 = true) by apply Hi.
  rewrite (start_enqueued la n (buffer_of data) s0 Hcg). set (ws := fetch_words _ _ _).
  assert (Hws : ws = read_words fa n) by (apply (fetch_words_emit (read_words fa n)), read_words_range; lia).
  set (s1 := with_job _ _). 
  assert (Hreg : forall a, ~ spim_area a -> sreg a s1 = sreg a s).
  { intros a Ha. unfold s1, enqueued. change (sreg a (with_job ?j ?st)) with (sreg a st). rewrite !sreg_set.
    unfold spim_area in Ha. 
    repeat (match goal with |- (if ?x =? ?y then _ else _) = _ => destruct (Z.eqb_spec x y) as [->|_];
      [exfalso; apply Ha; vm_compute; by split|] end). done. }
  destruct (wait_spec fuel (mk_transfer la (take (Z.to_nat n) (spim_run (serial_flash s) ws)) (raises_eot ws)) k s1)
    as (s' & E & Hi' & Hk & Hm & Hr & Hf & Hcs); try done.
  - destruct Hi as [Hc He Hm Hst Hf]. split; try done.
    + rewrite Hreg; [done|]. change (udma_conf UDMA_CONF_CG_OFFSET) with 0x1A102000. unfold spim_area. lia.
    + unfold event_enabled in *. rewrite Hreg; [done|].
      change (fc_mask_addr ARCHI_SOC_EVENT_SPIM0_EOT) with 0x1A106004. unfold spim_area. lia.
  - rewrite Hws. apply existsb_exists. exists (SPI_CMD_EOT 1 0). split; [|by vm_compute]. do 6 right. by left.
  - exists s'. split; [exact E|]. split; [done|]. split; [done|]. split; [|split; [|done]].
    + rewrite Hm. cbn [t_addr t_bytes]. rewrite Hws, read_words_exchange by lia.
      pose proof (flash_bytes_length (serial_flash s) fa n ltac:(lia)). rewrite take_ge by lia. done.
    + intros a Ha. rewrite <- (Hreg a Ha). unfold sreg. by rewrite Hr.
Qed.

(** ** Clock ticks *)
Definition is_tick (e : event) : bool := match e with ClkRef => true | _ => false end.

(** What is left of the schedule after its [n]th tick. *)
Fixpoint after_ticks (n : nat) (l : list event) : option (list event) :=
  match n with
  | O => Some l
  | S n' => match l with [] => None | e :: l' => after_ticks (if is_tick e then n' else n) l' end
  end.

Lemma after_ticks_0 l : after_ticks 0 l = Some l.
Proof. by destruct l. Qed.

Lemma sleep_tick l : forall s l', itc_mask s = clk_ref -> Z.testbit (itc_status s) 14 = false ->
  spim_job s = None -> after_ticks 1 l = Some l' ->
  exists s', sleep l s = Ok tt (with_events l' s') /\ later s s' /\ Z.testbit (itc_status s') 14 = true.
Proof.
  induction l as [|e l IH]; intros s l' Hm Hst Hj Ha; [done|].
  cbn [sleep]. rewrite Hm. unfold clk_ref, ARCHI_FC_EVT_CLK_REF. rewrite land_bit_eqb, Hst by lia. cbn [negb].
  cbn [after_ticks] in Ha. destruct (is_tick e) eqn:Ee.
  - destruct e; try done. assert (l' = l) as -> by (destruct l; by inversion Ha).
    exists (happen ClkRef s).
    assert (Hb : Z.testbit (itc_status (happen ClkRef s)) 14 = true).
    { unfold happen. cbn [with_status itc_status]. rewrite Z.lor_spec. by rewrite orb_true_r. }
    assert (Hw : negb (itc_status (happen ClkRef s) &&& itc_mask (happen ClkRef s) =? 0) = true).
    { unfold happen at 2. cbn [with_status itc_mask]. rewrite Hm. unfold clk_ref, ARCHI_FC_EVT_CLK_REF.
      by rewrite land_bit_eqb, Hb by lia. }
    split; [destruct l; cbn [sleep]; by rewrite Hw|]. split; [by apply happen_later|done].
  - assert (L : later s (happen e s)).
    { destruct e; try done. unfold happen. by rewrite Hj. }
    destruct (IH (happen e s) l') as (s' & E & L' & Hb); try done.
    + by rewrite (lt_mask _ _ L).
    + destruct e; try done. unfold happen. by rewrite Hj.
    + by rewrite (lt_job _ _ L).
    + exists s'. split; [done|]. split; [by etransitivity|done].
Qed.

Lemma after_ticks_S n : forall l l', after_ticks (S n) l = Some l' ->
  exists l1, after_ticks 1 l = Some l1 /\ after_ticks n l1 = Some l'.
Proof.
  intros l. induction l as [|e l IH]; intros l' H; [done|]. cbn [after_ticks] in *.
  destruct (is_tick e); [|by apply IH]. exists l. by destruct l.
Qed.

Lemma clear_bit x n : 0 <= n -> Z.testbit (x &&& Z.lnot (Z.shiftl 1 n)) n = false.
Proof. intros Hn. rewrite Z.land_spec, Z.lnot_spec, shiftl_testbit, Z.sub_diag by lia.
  destruct (Z.leb_spec n n); [|lia]. by rewrite andb_false_r. Qed.
Lemma clear_other x n m : 0 <= n -> 0 <= m -> m <> n -> Z.testbit (x &&& Z.lnot (Z.shiftl 1 n)) m = Z.testbit x m.
Proof.
  intros Hn Hm Hne. rewrite Z.land_spec, Z.lnot_spec, Z.shiftl_1_l, Z.pow2_bits_false by lia. by rewrite andb_true_r.
Qed.

Lemma clock_loop n : forall i s l', itc_mask s = clk_ref -> Z.testbit (itc_status s) 14 = false ->
  spim_job s = None -> after_ticks n (events s) = Some l' ->
  exists s', for_ n i (fun _ => hal_itc_wait_for_interrupt ;; hal_itc_status_clr (Z.shiftl 1 ARCHI_FC_EVT_CLK_REF)) s = Ok tt s' /\
    later s s' /\ events s' = l' /\ Z.testbit (itc_status s') 14 = false.
Proof.
  induction n as [|n IH]; intros i s l' Hm Hst Hj Ha.
  - exists s. split; [done|]. split; [done|]. rewrite after_ticks_0 in Ha. apply (inj Some) in Ha. by subst.
  - destruct (after_ticks_S _ _ _ Ha) as (l1 & Ha1 & Ha2).
    destruct (sleep_tick (events s) s l1 Hm Hst Hj Ha1) as (s1 & E1 & L1 & _).
    rewrite for_S, bind_assoc, (bind_ok _ _ s tt (with_events l1 s1)) by exact E1.
    set (s2 := with_status (itc_status s1 &&& Z.lnot clk_ref) (with_events l1 s1)).
    rewrite (bind_ok _ _ (with_events l1 s1) tt s2) by reflexivity.
    assert (L2 : later s s2).
    { destruct L1. split; try done. unfold s2. cbn [with_status itc_status]. unfold clk_ref, ARCHI_FC_EVT_CLK_REF.
      by rewrite clear_other by lia. }
    destruct (IH (i + 1) s2 l') as (s' & E & L & Hev & Hb); try done.
    + by rewrite (lt_mask _ _ L2).
    + unfold s2. cbn [with_status itc_status]. unfold clk_ref, ARCHI_FC_EVT_CLK_REF. by apply clear_bit.
    + by rewrite (lt_job _ _ L2).
    + exists s'. split; [exact E|]. split; [by etransitivity|done].
Qed.

Lemma wait_clock_ref_spec n s l' : itc_mask s = 0 -> Z.testbit (itc_status s) 14 = false -> spim_job s = None ->
  after_ticks n (events s) = Some l' ->
  exists s', wait_clock_ref (Z.of_nat n) s = Ok tt s' /\ later s s' /\ events s' = l' /\
    Z.testbit (itc_status s') 14 = false.
Proof.
  intros Hm Hst Hj Ha. unfold wait_clock_ref.
  rewrite (bind_ok _ _ s tt (with_mask (itc_mask s ||| clk_ref) s)) by reflexivity. rewrite Hm, Z.lor_0_l.
  destruct (clock_loop n 0 (with_mask clk_ref s) l') as (s1 & E1 & [Lm Lr Lk Ls Lf Lj Lc Lfl] & Hev & Hb); try done.
  rewrite Nat2Z.id, (bind_ok _ _ _ _ _ E1).
  exists (with_mask (itc_mask s1 &&& Z.lnot clk_ref) s1). split; [reflexivity|]. split; [|done].
  split; try done. cbn [with_mask itc_mask]. rewrite Lk, Hm. done.
Qed.

(** ** The SoC event masks *)
Definition fc_mask (i : Z) : Z := ARCHI_SOC_EU_ADDR + SOC_FC_FIRST_MASK + 4 * i.
Definition masked_all (s : soc) : soc :=
  foldl (fun s i => set_sreg (fc_mask i) 0xffffffff s) s (seqZ 0 8).
Lemma mask_reset_spec s : soc_eu_eventMask_reset SOC_FC_FIRST_MASK s = Ok tt (masked_all s).
Proof. reflexivity. Qed.

Lemma masked_all_reg a s : sreg a (masked_all s) =
  if bool_decide (0 <= (a - fc_mask 0) / 4 < 8 /\ (a - fc_mask 0) mod 4 = 0) then 0xffffffff else sreg a s.
Proof.
  unfold masked_all. change (seqZ 0 8) with [0; 1; 2; 3; 4; 5; 6; 7]. cbn [foldl]. rewrite !sreg_set.
  assert (E : forall i, fc_mask i = fc_mask 0 + 4 * i) by (intros i; unfold fc_mask; lia).
  repeat match goal with |- (if ?x =? fc_mask ?i then _ else _) = _ => destruct (Z.eqb_spec x (fc_mask i)) as [->|] end.
  all: try (rewrite bool_decide_eq_true_2; [done|]; vm_compute; repeat split; discriminate).
  rewrite bool_decide_eq_false_2; [done|]. intros [Hq Hm].
  assert (Ha : a = fc_mask 0 + 4 * ((a - fc_mask 0) / 4)) by (Z.div_mod_to_equations; lia).
  set (q := (a - fc_mask 0) / 4) in *. rewrite <- E in Ha.
  assert (q = 0 \/ q = 1 \/ q = 2 \/ q = 3 \/ q = 4 \/ q = 5 \/ q = 6 \/ q = 7) as Hc by lia.
  destruct Hc as [Hc|[Hc|[Hc|[Hc|[Hc|[Hc|[Hc|Hc]]]]]]]; rewrite Hc in Ha; done.
Qed.

Lemma fc_mask_addr_eq e : 0 <= e -> fc_mask_addr e = fc_mask (e / 32).
Proof. intros He. unfold fc_mask_addr, fc_mask. rewrite Z.quot_div_nonneg by lia. lia. Qed.

(** Both event operations change one bit. *)
Lemma set_event_spec e s : 0 <= e < 256 -> sreg (fc_mask_addr e) s < 2 ^ 32 ->
  soc_eu_fcEventMask_setEvent e s =
  Ok tt (set_sreg (fc_mask_addr e) (u32 (sreg (fc_mask_addr e) s &&& Z.lnot (Z.shiftl 1 (e mod 32)))) s).
Proof.
  intros He Hr. unfold soc_eu_fcEventMask_setEvent, soc_eu_eventMask_setEvent, soc_eu_eventMask_get, soc_eu_eventMask_set.
  assert (Ha : u32 (fc_mask_addr e) = fc_mask_addr e).
  { apply u32_small. rewrite fc_mask_addr_eq by lia. change (fc_mask (e / 32)) with (0x1A106004 + 4 * (e / 32)).
    Z.div_mod_to_equations. lia. }
  assert (Hs : special_read (fc_mask_addr e) = false /\ special_write (fc_mask_addr e) = false).
  { rewrite fc_mask_addr_eq by lia. change (fc_mask (e / 32)) with (0x1A106004 + 4 * (e / 32)).
    assert (Hq : 0 <= e / 32 < 8) by (Z.div_mod_to_equations; lia). 
    assert (Hall : forallb (fun q => negb (special_read (0x1A106004 + 4 * q)) && negb (special_write (0x1A106004 + 4 * q)))
      (seqZ 0 8) = true) by by vm_compute.
    rewrite forallb_forall in Hall. specialize (Hall (e / 32)).
    apply andb_true_iff in Hall as [H1 H2]; [|apply list_elem_of_In, elem_of_seqZ; lia].
    by apply negb_true_iff in H1, H2. }
  destruct Hs as [Hs1 Hs2]. fold (fc_mask_addr e).
  rewrite bind_read by by rewrite Ha. unfold pulp_write32. rewrite Ha. unfold modify. rewrite bus_write_reg by done.
  by rewrite Z.rem_mod_nonneg by lia.
Qed.

Lemma event_set e e' v s : 0 <= e < 256 -> 0 <= e' < 256 ->
  event_enabled e' (set_sreg (fc_mask_addr e) (u32 (v &&& Z.lnot (Z.shiftl 1 (e mod 32)))) s) =
  if e' =? e then true else if e' / 32 =? e / 32 then negb (Z.testbit v (e' mod 32)) else event_enabled e' s.
Proof.
  intros He He'. unfold event_enabled. rewrite sreg_set, !fc_mask_addr_eq, !Z.rem_mod_nonneg by lia.
  assert (Hm : forall x, 0 <= x mod 32 < 32) by (intros x; apply Z.mod_pos_bound; lia).
  pose proof (Hm e). pose proof (Hm e').
  destruct (Z.eqb_spec e' e) as [->|Hne].
  - rewrite Z.eqb_refl. unfold u32. rewrite wrap_testbit, clear_bit by lia. by rewrite andb_false_r.
  - unfold fc_mask at 1 2. destruct (Z.eqb_spec (e' / 32) (e / 32)) as [Hd|Hd].
    + rewrite Hd, Z.eqb_refl. unfold u32. rewrite wrap_testbit, clear_other by (Z.div_mod_to_equations; lia).
      destruct (Z.ltb_spec (e' mod 32) 32); [done|lia].
    + destruct (Z.eqb_spec (ARCHI_SOC_EU_ADDR + SOC_FC_FIRST_MASK + 4 * (e' / 32))
        (ARCHI_SOC_EU_ADDR + SOC_FC_FIRST_MASK + 4 * (e / 32))); [lia|done].
Qed.

(** ** [init] *)
Record fresh (s : soc) : Prop := {
  fr_mask : itc_mask s = 0;
  fr_clk : Z.testbit (itc_status s) 14 = false;
  fr_soc : Z.testbit (itc_status s) 26 = false;
  fr_fifo : itc_fifo s = [];
  fr_job : spim_job s = None
}.

Definition set_event (e : Z) (s : soc) : soc :=
  set_sreg (fc_mask_addr e) (u32 (sreg (fc_mask_addr e) s &&& Z.lnot (Z.shiftl 1 (e mod 32)))) s.
Definition configured (s : soc) : soc :=
  set_event 1 (set_event 7 (masked_all
    (set_sreg (udma_conf UDMA_CONF_CG_OFFSET) (u32 (sreg (udma_conf UDMA_CONF_CG_OFFSET) s ||| 2)) s))).

Lemma masked_all_word e s : 0 <= e < 256 -> sreg (fc_mask_addr e) (masked_all s) = 0xffffffff.
Proof.
  intros He. rewrite masked_all_reg, bool_decide_eq_true_2; [done|]. rewrite fc_mask_addr_eq by lia.
  unfold fc_mask. Z.div_mod_to_equations. lia.
Qed.

Lemma configured_event e s : 0 <= e < 256 -> event_enabled e (configured s) = (e =? 1) || (e =? 7).
Proof.
  intros He. unfold configured. set (m := masked_all _). unfold set_event at 1. rewrite event_set by lia.
  destruct (Z.eqb_spec e 1) as [->|H1]; [done|].
  assert (Hm7 : sreg (fc_mask_addr 1) (set_event 7 m) = 0xffffff7f).
  { unfold set_event. rewrite sreg_set. change (fc_mask_addr 1 =? fc_mask_addr 7) with true. cbv iota.
    unfold m. by rewrite masked_all_word by lia. }
  destruct (Z.eqb_spec e 7) as [->|H7]; [by rewrite Hm7|]. rewrite Hm7. cbn [orb].
  destruct (Z.eqb_spec (e / 32) (1 / 32)) as [Hq|Hq].
  - assert (Hall : forallb (fun r => (r =? 1) || (r =? 7) || Z.testbit 0xffffff7f r) (seqZ 0 32) = true) by by vm_compute.
    rewrite forallb_forall in Hall. specialize (Hall e).
    change (1 / 32) with 0 in Hq. assert (0 <= e < 32) by (Z.div_mod_to_equations; lia).
    rewrite Z.mod_small by lia.
    destruct (Z.eqb_spec e 1), (Z.eqb_spec e 7); try done. cbn [orb] in Hall.
    rewrite Hall; [done|]. by apply list_elem_of_In, elem_of_seqZ.
  - unfold set_event. rewrite event_set by lia. destruct (Z.eqb_spec e 7); [done|].
    destruct (Z.eqb_spec (e / 32) (7 / 32)) as [Hq'|_]; [done|].
    unfold event_enabled, m. rewrite masked_all_word by lia. change 0xffffffff with (Z.ones 32).
    rewrite Z.rem_mod_nonneg by lia. rewrite Z.ones_spec_low; [done|]. apply Z.mod_pos_bound. lia.
Qed.

Lemma init_spec data rest s : fresh s -> after_ticks 20 (events s) = Some rest ->
  exists s', init data s = Ok tt s' /\ later (configured (with_mem (store32 (mem s) (data + off_step) 0) s)) s' /\
    events s' = rest /\ Z.testbit (itc_status s') 14 = false.
Proof.
  intros [Hm Hc Hs Hf Hj] Ha. unfold init, wr32. rewrite bind_modify. set (s0 := with_mem _ s).
  unfold plp_udma_cg_get, plp_udma_cg_set. rewrite bind_read by reflexivity. rewrite bind_write by reflexivity.
  change (u32 (udma_conf UDMA_CONF_CG_OFFSET)) with (udma_conf UDMA_CONF_CG_OFFSET).
  change (Z.shiftl 1 (ARCHI_UDMA_SPIM_ID 0)) with 2. set (s1 := set_sreg _ _ s0).
  rewrite (bind_ok _ _ _ _ _ (mask_reset_spec s1)).
  assert (Hset : forall e st, 0 <= e < 256 -> sreg (fc_mask_addr e) st < 2 ^ 32 ->
    soc_eu_fcEventMask_setEvent e st = Ok tt (set_event e st)) by (intros; by apply set_event_spec).
  rewrite (bind_ok _ _ _ tt (set_event 7 (masked_all s1))) by (apply Hset; [lia|]; by rewrite masked_all_word).
  rewrite (bind_ok _ _ _ tt (configured s0)).
  - by apply (wait_clock_ref_spec 20).
  - apply Hset; [by vm_compute|]. change (ARCHI_SOC_EVENT_UART_TX 0) with 1. unfold set_event. rewrite sreg_set.
    change (fc_mask_addr 1 =? fc_mask_addr 7) with true. cbv iota. apply u32_range.
Qed.

Lemma init_idle data rest s : fresh s -> after_ticks 20 (events s) = Some rest ->
  exists s', init data s = Ok tt s' /\ idle s' /\ events s' = rest /\
    mem s' = store32 (mem s) (data + off_step) 0 /\ serial_flash s' = serial_flash s /\ csrs s' = csrs s /\
    (forall e, 0 <= e < 256 -> event_enabled e s' = (e =? 1) || (e =? 7)).
Proof.
  intros Hfr Ha. destruct (init_spec data rest s Hfr Ha) as (s' & E & [Lm Lr Lk Ls Lf Lj Lc Lfl] & Hev & Hb).
  destruct Hfr as [Hm Hc Hs Hf Hj].
  assert (Hen : forall e, 0 <= e < 256 -> event_enabled e s' = (e =? 1) || (e =? 7)).
  { intros e He. rewrite <- (configured_event e (with_mem (store32 (mem s) (data + off_step) 0) s) He).
    unfold event_enabled, sreg. by rewrite Lr. }
  assert (Hreg : forall a, sreg a s' = sreg a (configured (with_mem (store32 (mem s) (data + off_step) 0) s)))
    by (intros a; unfold sreg; by rewrite Lr).
  exists s'. split; [exact E|]. split; [split|split; [exact Hev|split; [exact Lm|split; [exact Lfl|split; [exact Lc|exact Hen]]]]].
  - rewrite Hreg.
    unfold configured, set_event. set (cg := udma_conf UDMA_CONF_CG_OFFSET).
    rewrite (sreg_set cg). change (cg =? fc_mask_addr 1) with false. cbv iota.
    rewrite (sreg_set cg). change (cg =? fc_mask_addr 7) with false. cbv iota. rewrite masked_all_reg.
    rewrite bool_decide_eq_false_2 by (change cg with 0x1A102000;
      change (fc_mask 0) with 0x1A106004; Z.div_mod_to_equations; lia).
    rewrite sreg_set, Z.eqb_refl. unfold u32. rewrite wrap_testbit, Z.lor_spec by lia. by rewrite orb_true_r.
  - apply (Hen 7). lia.
  - rewrite Lk. exact Hm.
  - rewrite Ls. exact Hs.
  - rewrite Lf. exact Hf.
Qed.
