(* ===== verification/PulpLoad.v ===== *)
(** * PulpLoad: loading a flash image with boot_code

    The loader of BootCode on the reads of PulpBoot: each section is brought to
    its address, block by block, and the whole image is entered. *)

From Stdlib Require Import Sorted.
From S2P Require Import Prelude Monad Hw Spi Boot FlashImage Pulp BootCode PulpBoot.

(** ** [memcpy] *)
Lemma mem_read_S m a n : mem_read m a (S n) = mem_get m a :: mem_read m (a + 1) n.
Proof.
  unfold mem_read. rewrite Nat2Z.inj_succ, <- Z.add_1_l, seqZ_app, map_app by lia.
  change (seqZ 0 1) with [0]. cbn [map app]. f_equal; [f_equal; lia|].
  replace (0 + 1) with (1 + 0) by lia. rewrite <- fmap_add_seqZ. change (@fmap list list_fmap) with map.
  rewrite map_map. apply map_ext. intros i. f_equal. lia.
Qed.

Lemma copy_loop_spec n : forall d s st, d + Z.of_nat n <= s \/ s + Z.of_nat n <= d ->
  copy_loop n d s st = Ok tt (with_mem (mem_write (mem st) d (mem_read (mem st) s n)) st).
Proof.
  induction n as [|n IH]; intros d s st Hap; [by destruct st|]. cbn [copy_loop]. rewrite bind_modify, IH by lia.
  cbn [with_mem mem]. f_equal. rewrite mem_read_S. unfold with_mem. cbn [mem_write]. f_equal. f_equal.
  apply mem_read_ext. intros i Hi. rewrite mem_get_set. destruct (Z.eqb_spec i d); [lia|done].
Qed.

(** ** Loader steps

    [runs n work ws s s']: [n] flash transfers took place, the platform is idle
    again, and memory outside the working storage is what [ws] make of it. *)
Record runs (n : nat) (work : Z -> Prop) (ws : list (Z * list Z)) (s s' : soc) : Prop := {
  rn_idle : idle s';
  rn_dones : dones (events s) = (n + dones (events s'))%nat;
  rn_flash : serial_flash s' = serial_flash s;
  rn_csrs : csrs s' = csrs s;
  rn_mem : forall x, ~ work x -> mem_get (mem s') x = mem_get (writes ws (mem s)) x
}.

Lemma runs_refl work s : idle s -> runs 0 work [] s s.
Proof. by split. Qed.

Lemma runs_trans n1 n2 work w1 w2 s1 s2 s3 :
  runs n1 work w1 s1 s2 -> runs n2 work w2 s2 s3 -> runs (n1 + n2) work (w1 ++ w2) s1 s3.
Proof.
  intros [_ Hd1 Hf1 Hc1 Hm1] [Hi Hd2 Hf2 Hc2 Hm2]. split; [done|lia|congruence|congruence|].
  intros x Hx. rewrite Hm2, writes_app by done. by apply writes_agree, Hm1.
Qed.

Lemma runs_weaken n (w1 w2 : Z -> Prop) ws s s' : (forall x, w1 x -> w2 x) -> runs n w1 ws s s' -> runs n w2 ws s s'.
Proof. intros Hw [Hi Hd Hf Hc Hm]. split; try done. intros x Hx. apply Hm. by intros ?%Hw. Qed.

Lemma pulp_bind_rd32 {B} a (k : Z -> M soc B) s : (rd32 a ≫= k) s = k (load32 (mem s) a) s.
Proof. done. Qed.
Lemma bind_area {B} data i (k : Z -> M soc B) s : 0 <= i < MAX_NB_AREA ->
  (area_of data i ≫= k) s = k (data + off_memArea + 16 * i) s.
Proof. intros Hi. unfold area_of. destruct (Z.leb_spec 0 i), (Z.ltb_spec i MAX_NB_AREA); [done|lia..]. Qed.

Section Loader.
Context (data : Z) (Hdata : 0 <= data /\ data + sizeof_boot_code_t <= 2 ^ 32).
Context (fuel : nat) (Hfuel : (1 <= fuel)%nat).

(** The loader's structure; while it runs it writes the flash buffer and the
    command buffer of it. *)
Definition in_data (x : Z) : Prop := data <= x < data + sizeof_boot_code_t.
Definition work (x : Z) : Prop := data <= x < data + off_udma_buffer + 1024.

Lemma flash_read_runs fa la n s : idle s -> load32 (mem s) (data + off_hyperflash) = 0 -> (1 <= dones (events s))%nat ->
  0 <= fa -> 0 <= la < 2 ^ 32 -> 0 < n < 65536 -> n mod 4 = 0 ->
  exists s', flash_read fuel data fa la n s = Ok tt s' /\
    runs 1 (fun x => work x /\ ~ data <= x < data + off_udma_buffer /\ ~ la <= x < la + n)
      [(la, flash_bytes (serial_flash s) fa n)] s s'.
Proof.
  intros Hi Hh Hd Hfa Hla Hn H4. destruct (dones (events s)) as [|k] eqn:Ek; [lia|].
  destruct (flash_read_spec fuel data fa la n k s) as (s' & E & Hi' & Hk & Hm & _ & Hf & Hc); try done; try lia.
  exists s'. split; [exact E|]. split; try done; [lia|]. intros x Hx. rewrite Hm. unfold writes. cbn [foldl fst snd].
  destruct (decide (la <= x < la + n)) as [Hin|Hout].
  - by rewrite !flash_bytes_in by lia.
  - rewrite !flash_bytes_out by (done || lia). apply mem_get_write_out.
    change (Z.of_nat (length (read_words fa n ≫= le32))) with 28.
    unfold work, buffer_of, off_udma_buffer in *. intros Hb. apply Hx. lia.
Qed.

(** *** One block *)
Lemma pulp_block_direct fa la n s : idle s -> load32 (mem s) (data + off_hyperflash) = 0 -> (1 <= dones (events s))%nat ->
  0 <= fa -> 0 <= la < 2 ^ 32 -> 0 < n <= 4096 -> n mod 4 = 0 ->
  exists s', flash_read fuel data fa la n s = Ok tt s' /\ runs 1 work [(la, flash_bytes (serial_flash s) fa n)] s s'.
Proof.
  intros. destruct (flash_read_runs fa la n s) as (s' & E & R); try done; [lia|].
  exists s'. split; [done|]. eapply runs_weaken; [|exact R]. by intros x [? _].
Qed.

Lemma pulp_block_buffered fa la n s : idle s -> load32 (mem s) (data + off_hyperflash) = 0 -> (1 <= dones (events s))%nat ->
  0 <= fa -> 0 <= la < 2 ^ 32 -> 0 < n <= 4096 -> n mod 4 = 0 -> la + n <= data \/ data + sizeof_boot_code_t <= la ->
  exists s', (flash_read fuel data fa (data + off_flashBuffer) n ;; _ ← memcpy la (data + off_flashBuffer) n; skip) s = Ok tt s' /\
    runs 1 work [(la, flash_bytes (serial_flash s) fa n)] s s'.
Proof.
  unfold sizeof_boot_code_t, off_flashBuffer in *. rewrite Z.add_0_r. intros Hi Hh Hd Hfa Hla Hn H4 Hap.
  destruct (flash_read_runs fa data n s) as (s1 & E & [Hi1 Hd1 Hf Hc Hm]); try done; try lia.
  rewrite (bind_ok _ _ _ _ _ E). unfold memcpy. rewrite bind_assoc.
  rewrite (bind_ok _ _ _ _ _ (copy_loop_spec (Z.to_nat n) la data s1 ltac:(lia))).
  assert (Hbuf : mem_read (mem s1) data (Z.to_nat n) = flash_bytes (serial_flash s) fa n).
  { pose proof (flash_bytes_length (serial_flash s) fa n ltac:(lia)) as Hl.
    apply list_eq_same_length with (Z.to_nat n); [lia|apply mem_read_length|].
    intros i x y Hii. rewrite mem_read_lookup, flash_bytes_lookup by lia. intros <-%(inj Some) <-%(inj Some).
    rewrite Hm by lia. cbn. rewrite flash_bytes_in by lia. f_equal. lia. }
  rewrite Hbuf. eexists. split; [reflexivity|]. split; try done.
  - destruct Hi1. by split.
  - intros x Hx. cbn [with_mem mem writes foldl fst snd]. apply mem_write_agree.
    unfold work, off_udma_buffer in *. rewrite Hm by lia. cbn. apply flash_bytes_out; lia.
Qed.

(** *** The image's tables, once the loader has read them *)
Record tables (f : flash_hw) (m : memory) : Prop := {
  tb_words : forall x, data + off_header <= x < data + off_memArea + 16 * flash_nbAreas f ->
    mem_get m x = flash_byte f (x - (data + off_header));
  tb_block : load32 m (data + off_blockSize) = FLASH_BLOCK_SIZE;
  tb_spi : load32 m (data + off_hyperflash) = 0
}.

Lemma pulp_tables_word f m o : tables f m -> 0 <= o -> o + 4 <= 16 + 16 * flash_nbAreas f ->
  load32 m (data + off_header + o) = flash_word f o.
Proof.
  intros [Hw _ _] Ho Hl. unfold load32, flash_word. unfold off_header, off_memArea in *.
  rewrite !Hw by lia. flash_sum.
Qed.

Definition clear_of_data (w : Z * list Z) : Prop :=
  w.1 + Z.of_nat (length w.2) <= data \/ data + sizeof_boot_code_t <= w.1.

(** Behind the buffers, the structure is only read. *)
Definition kept (x : Z) : Prop := data + off_header <= x < data + sizeof_boot_code_t.
Lemma runs_kept n ws s s' x : runs n work ws s s' -> Forall clear_of_data ws -> kept x ->
  mem_get (mem s') x = mem_get (mem s) x.
Proof.
  intros R Hw Hx. unfold kept, off_header, sizeof_boot_code_t in *.
  rewrite (rn_mem _ _ _ _ _ R) by (unfold work, off_udma_buffer; lia). apply writes_out.
  eapply Forall_impl; [exact Hw|]. unfold clear_of_data, covers, sizeof_boot_code_t. lia.
Qed.
Lemma runs_load32 n ws s s' a : runs n work ws s s' -> Forall clear_of_data ws -> kept a -> kept (a + 3) ->
  load32 (mem s') a = load32 (mem s) a.
Proof.
  intros R Hw Ha Ha3. apply load32_ext. intros x Hx. apply (runs_kept _ _ _ _ _ R Hw). unfold kept in *. lia.
Qed.

Lemma runs_tables f n ws s s' : flash_nbAreas f <= MAX_NB_AREA -> tables f (mem s) ->
  runs n work ws s s' -> Forall clear_of_data ws -> tables f (mem s').
Proof.
  unfold MAX_NB_AREA. intros Hn [Hw Hb Hh] R Hc.
  assert (Hk : forall x, data + off_header <= x < data + sizeof_boot_code_t -> mem_get (mem s') x = mem_get (mem s) x).
  { intros x Hx. by apply (runs_kept _ _ _ _ _ R Hc). }
  unfold off_header, off_memArea, off_blockSize, off_hyperflash, sizeof_boot_code_t in *. split.
  - intros x Hx. rewrite Hk by (unfold off_memArea, off_header in *; lia). by apply Hw.
  - rewrite <- Hb. apply load32_ext. intros x Hx. unfold off_blockSize in *. apply Hk. lia.
  - rewrite <- Hh. apply load32_ext. intros x Hx. unfold off_hyperflash in *. apply Hk. lia.
Qed.

(** *** A section *)
Lemma pulp_load_blocks_spec f ar isL2 : forall (k n : nat) i fa la size s,
  serial_flash s = f -> flash_nbAreas f <= MAX_NB_AREA -> tables f (mem s) -> idle s -> (k <= dones (events s))%nat ->
  kept (ar + 12) -> kept (ar + 15) -> load32 (mem s) (ar + 12) = i + Z.of_nat k ->
  (k <= n)%nat -> 0 <= i -> i + Z.of_nat k < 2 ^ 32 ->
  0 <= size -> size mod 4 = 0 -> Z.of_nat k = blocks_of size ->
  0 <= fa -> fa + size < 2 ^ 32 -> 0 <= la -> la + size < 2 ^ 32 ->
  la + size <= data \/ data + sizeof_boot_code_t <= la ->
  exists s', load_blocks n fuel data ar isL2 i fa la size s = Ok tt s' /\
    runs k work [(la, flash_bytes f fa size)] s s'.
Proof.
  unfold blocks_of. change Boot.FLASH_BLOCK_SIZE with 4096.
  induction k as [|k IH]; intros n i fa la size s Hf Hnb Htab Hi Hd Hk1 Hk2 Hbl Hn Hi0 Hik Hs0 Hs4 Hk Hfa Hfs Hla Hls Hap.
  - assert (size = 0) as -> by (Z.div_mod_to_equations; lia). exists s. split.
    + destruct n; cbn [load_blocks]; rewrite pulp_bind_rd32, Hbl;
        destruct (Z.ltb_spec i (i + Z.of_nat 0)); (done || lia).
    + by split.
  - destruct n as [|n]; [lia|]. cbn [load_blocks]. rewrite pulp_bind_rd32, Hbl.
    destruct (Z.ltb_spec i (i + Z.of_nat (S k))) as [_|]; [|lia].
    rewrite pulp_bind_rd32, (tb_block _ _ Htab). change FLASH_BLOCK_SIZE with 4096.
    set (m := if 4096 >? size then u32 (size + 3) &&& 0xfffffffc else 4096).
    assert (Hm : m = Z.min 4096 size).
    { unfold m. destruct (Z.gtb_spec 4096 size); [|lia]. rewrite round4; change Boot.FLASH_BLOCK_SIZE with 4096; lia. }
    assert (Hmp : 0 < m <= 4096) by (Z.div_mod_to_equations; lia).
    assert (Hblk : exists s1, (if isL2 then flash_read fuel data fa la m
         else flash_read fuel data fa (data + off_flashBuffer) m ;; _ ← memcpy la (data + off_flashBuffer) m; skip) s = Ok tt s1 /\
        runs 1 work [(la, flash_bytes (serial_flash s) fa m)] s s1).
    { pose proof (tb_spi _ _ Htab). assert (H4 : m mod 4 = 0) by (rewrite Hm; Z.div_mod_to_equations; lia). destruct isL2; [apply pulp_block_direct|apply pulp_block_buffered]; try done; lia. }
    destruct Hblk as (s1 & E1 & R1). rewrite (bind_ok _ _ _ _ _ E1).
    assert (Hcl : Forall clear_of_data [(la, flash_bytes (serial_flash s) fa m)]).
    { apply Forall_cons_2; [|constructor]. unfold clear_of_data. cbn [fst snd]. rewrite flash_bytes_length; lia. }
    destruct (IH n (i + 1) (fa + m) (la + m) (size - m) s1) as (s2 & E2 & R2); try lia; try done.
    + by rewrite (rn_flash _ _ _ _ _ R1).
    + by eapply runs_tables.
    + apply R1.
    + pose proof (rn_dones _ _ _ _ _ R1). lia.
    + rewrite (runs_load32 _ _ _ _ _ R1 Hcl), Hbl; [lia|done|]. by replace (ar + 12 + 3) with (ar + 15) by lia.
    + Z.div_mod_to_equations; lia.
    + Z.div_mod_to_equations; lia.
    + exists s2. rewrite !u32_small by lia. split; [exact E2|].
      pose proof (runs_trans _ _ _ _ _ _ _ _ R1 R2) as R. rewrite Hf in R.
      replace size with (m + (size - m)) by lia. rewrite flash_bytes_app by lia.
      destruct R as [Ri Rd Rf Rc Rm]. split; try done. intros x Hx. rewrite Rm by done. unfold writes. cbn [foldl app fst snd].
      rewrite mem_write_app, flash_bytes_length by lia. done.
Qed.

Lemma pulp_section_clear f i : loadable data (flash_area f i) -> clear_of_data (section_write f i).
Proof.
  intros [Hs _ _ _ _ Ha]. unfold clear_of_data, section_write, area_bytes, apart in *. cbn [fst snd].
  change Boot.sizeof_boot_code_t with sizeof_boot_code_t in Ha. rewrite flash_bytes_length; lia.
Qed.

Definition section_reads (f : flash_hw) (i : Z) : nat := Z.to_nat (a_blocks (flash_area f i)).
Definition sections_reads (f : flash_hw) (l : list Z) : nat := sum_list (map (section_reads f) l).

Section Sections.
Context (f : flash_hw) (Hnb : flash_nbAreas f <= MAX_NB_AREA).
Context (n : nat) (Hn : forall i, 0 <= i < flash_nbAreas f -> a_blocks (flash_area f i) <= Z.of_nat n).
Context (Hok : forall i, 0 <= i < flash_nbAreas f -> loadable data (flash_area f i)).

(** The platform between two sections. *)
Definition ready (s : soc) : Prop := serial_flash s = f /\ tables f (mem s) /\ idle s.

Lemma ready_runs k ws s s' : ready s -> runs k work ws s s' -> Forall clear_of_data ws -> ready s'.
Proof.
  intros (Hf & Ht & Hi) R Hc. split; [by rewrite (rn_flash _ _ _ _ _ R)|].
  split; [by eapply runs_tables|apply R].
Qed.

Lemma pulp_area_word s i o : ready s -> 0 <= i < flash_nbAreas f -> 0 <= o <= 12 ->
  load32 (mem s) (data + off_memArea + 16 * i + o) = flash_word f (16 + 16 * i + o).
Proof.
  intros (_ & Ht & _) Hi Ho. rewrite <- (pulp_tables_word f _ (16 + 16 * i + o) Ht) by lia.
  f_equal. unfold off_memArea, off_header. lia.
Qed.

Lemma pulp_load_section_spec i s : ready s -> 0 <= i < flash_nbAreas f -> (section_reads f i <= dones (events s))%nat ->
  exists s', load_section n fuel data (data + off_memArea + 16 * i) s = Ok tt s' /\
    runs (section_reads f i) work [section_write f i] s s' /\ ready s'.
Proof.
  intros Hr Hi Hd. pose proof (Hok i Hi) as Hl. pose proof (pulp_section_clear f i Hl) as Hcl.
  destruct Hl as [Hs Hw Hb Hst Hp Ha]. pose proof (Hn i Hi) as Hfu. unfold load_section, section_reads in *.
  pose proof (pulp_area_word s i 0 Hr Hi ltac:(lia)) as W0. rewrite !Z.add_0_r in W0.
  rewrite pulp_bind_rd32, W0, pulp_bind_rd32, (pulp_area_word s i 4), pulp_bind_rd32, (pulp_area_word s i 8) by (done || lia).
  change (flash_word f (16 + 16 * i)) with (a_start (flash_area f i)).
  change (flash_word f (16 + 16 * i + 4)) with (a_ptr (flash_area f i)).
  change (flash_word f (16 + 16 * i + 8)) with (a_size (flash_area f i)).
  set (a := flash_area f i) in *. unfold MAX_NB_AREA in *.
  assert (Ra : forall o, 0 <= flash_word f o < 2 ^ 32) by apply flash_word_range.
  pose proof (Ra (16 + 16 * i) : 0 <= a_start a < 2 ^ 32). pose proof (Ra (16 + 16 * i + 4) : 0 <= a_ptr a < 2 ^ 32).
  pose proof (Ra (16 + 16 * i + 12) : 0 <= a_blocks a < 2 ^ 32).
  assert (Hkept : forall o, 0 <= o < 16 -> kept (data + off_memArea + 16 * i + o)).
  { intros o Ho. unfold kept, off_header, off_memArea, sizeof_boot_code_t. lia. }
  destruct Hr as (Hf & Ht & Hrun).
  destruct (pulp_load_blocks_spec f (data + off_memArea + 16 * i)
    ((a_ptr a >=? 0x1C000000) && (a_ptr a <? 0x1D000000)) (Z.to_nat (a_blocks a)) n 0 (a_start a) (a_ptr a)
    (a_size a) s) as (s' & E & R); try done; try lia; try (apply Hkept; lia).
  - rewrite (pulp_area_word s i 12) by (done || lia). change (flash_word f (16 + 16 * i + 12)) with (a_blocks a). lia.
  - exists s'. split; [exact E|]. split; [exact R|]. eapply ready_runs; [by split|exact R|by apply Forall_cons_2].
Qed.

Lemma pulp_load_sections_spec : forall (k m : nat) i s, ready s -> (k <= m)%nat -> 0 <= i ->
  flash_nbAreas f = i + Z.of_nat k -> (sections_reads f (seqZ i (Z.of_nat k)) <= dones (events s))%nat ->
  exists s', load_sections m n fuel data i s = Ok tt s' /\ ready s' /\
    runs (sections_reads f (seqZ i (Z.of_nat k))) work (map (section_write f) (seqZ i (Z.of_nat k))) s s'.
Proof.
  induction k as [|k IH]; intros m i s Hr Hm Hi Hk Hd.
  all: assert (Hw : load32 (mem s) (data + off_header + 4) = flash_nbAreas f)
    by (destruct Hr as (_ & Ht & _); by apply (pulp_tables_word f _ 4 Ht); lia).
  - exists s. split; [|split; [done|apply runs_refl, Hr]].
    destruct m; cbn [load_sections]; rewrite pulp_bind_rd32, Hw, Hk; destruct (Z.ltb_spec i (i + Z.of_nat 0)); (done || lia).
  - destruct m as [|m]; [lia|]. cbn [load_sections]. rewrite pulp_bind_rd32, Hw. destruct (Z.ltb_spec i (flash_nbAreas f)); [|lia].
    revert Hd. replace (Z.of_nat (S k)) with (1 + Z.of_nat k) by lia.
    unfold sections_reads. rewrite seqZ_app, !map_app, sum_list_with_app by lia. cbn [sum_list_with]. 
    change (seqZ i 1) with [i]. cbn [map sum_list_with id]. intros Hd.
    unfold MAX_NB_AREA in *. rewrite bind_area by (unfold MAX_NB_AREA; lia).
    destruct (pulp_load_section_spec i s Hr ltac:(lia) ltac:(lia)) as (s1 & E1 & R1 & Hr1). rewrite (bind_ok _ _ _ _ _ E1).
    pose proof (rn_dones _ _ _ _ _ R1) as Hd1.
    destruct (IH m (i + 1) s1 Hr1 ltac:(lia) ltac:(lia) ltac:(lia)) as (s2 & E2 & Hr2 & R2); [unfold sections_reads; lia|].
    exists s2. rewrite u32_small by lia. split; [exact E2|]. split; [exact Hr2|].
    rewrite Nat.add_0_r. exact (runs_trans _ _ _ [_] _ _ _ _ R1 R2).
Qed.
End Sections.

(** *** The whole loader on its structure *)
Lemma work_in_data x : work x -> in_data x.
Proof. unfold work, in_data, sizeof_boot_code_t, off_udma_buffer. lia. Qed.

Lemma pulp_read_into fa la n s : idle s -> load32 (mem s) (data + off_hyperflash) = 0 -> (1 <= dones (events s))%nat ->
  0 <= fa -> 0 < n < 65536 -> n mod 4 = 0 -> data + off_header <= la -> la + n <= data + off_hyperflash ->
  exists s', flash_read fuel data fa la n s = Ok tt s' /\ runs 1 in_data [] s s' /\
    (forall x, kept x -> mem_get (mem s') x =
       if decide (la <= x < la + n) then flash_byte (serial_flash s) (fa + (x - la)) else mem_get (mem s) x).
Proof.
  intros Hi Hh Hd Hfa Hn H4 Hl1 Hl2. unfold off_header, off_hyperflash, sizeof_boot_code_t in *.
  destruct (flash_read_runs fa la n s) as (s' & E & [Hi' Hd' Hf Hc Hm]); try done; try lia.
  exists s'. split; [done|]. split.
  - split; try done. intros x Hx. rewrite Hm by (intros [?%work_in_data _]; done). unfold writes. cbn [foldl fst snd].
    apply flash_bytes_out; [lia|]. intros Hin. apply Hx. unfold in_data, sizeof_boot_code_t. lia.
  - intros x Hx. unfold kept, off_header, sizeof_boot_code_t in Hx.
    rewrite Hm by (unfold work, off_udma_buffer; lia). unfold writes. cbn [foldl fst snd].
    case_decide; [by apply flash_bytes_in|by apply flash_bytes_out; [lia|]].
Qed.

Definition table_reads (f : flash_hw) : nat := if flash_nbAreas f =? 0 then 1%nat else 2%nat.

Lemma pulp_getMemAreas_spec f s : idle s -> serial_flash s = f -> flash_nbAreas f <= MAX_NB_AREA ->
  load32 (mem s) (data + off_blockSize) = FLASH_BLOCK_SIZE -> load32 (mem s) (data + off_hyperflash) = 0 ->
  (table_reads f <= dones (events s))%nat ->
  exists s', getMemAreas fuel data s = Ok tt s' /\ ready f s' /\ runs (table_reads f) in_data [] s s'.
Proof.
  intros Hi Hf Hnb Hbs Hh Hd. unfold getMemAreas, sizeof_header, sizeof_area, MAX_NB_AREA, table_reads in *.
  assert (Hd1 : (1 <= dones (events s))%nat) by (destruct (flash_nbAreas f =? 0); lia).
  unfold off_header, off_memArea, off_blockSize, off_hyperflash, sizeof_boot_code_t in *.
  assert (Hin : forall x, data + 5128 <= x < data + 6440 -> kept x) by (unfold kept, off_header, sizeof_boot_code_t; lia).
  destruct (pulp_read_into 0 (data + 5128) 16 s) as (s1 & E1 & R1 & M1); try done; try (unfold off_header, off_hyperflash; lia).
  rewrite (bind_ok _ _ _ _ _ E1), pulp_bind_rd32. rewrite Hf in M1.
  assert (Hnw : load32 (mem s1) (data + 5128 + 4) = flash_nbAreas f).
  { unfold load32, flash_nbAreas, flash_word. rewrite !M1 by (apply Hin; lia).
    rewrite !decide_True by lia. flash_sum. }
  assert (Hkeep : forall a v, data + 6424 <= a -> a + 4 <= data + 6440 -> load32 (mem s) a = v -> load32 (mem s1) a = v).
  { intros a v Ha1 Ha2 <-. apply load32_ext. intros x Hx. by rewrite M1, decide_False by (try apply Hin; lia). }
  rewrite Hnw. pose proof (flash_word_range f 4 : 0 <= flash_nbAreas f < 2 ^ 32).
  replace (s32 (flash_nbAreas f)) with (flash_nbAreas f) by (unfold s32; rewrite Z.mod_small; lia).
  replace (if flash_nbAreas f >=? 16 then 16 else flash_nbAreas f) with (flash_nbAreas f)
    by (destruct (Z.geb_spec (flash_nbAreas f) 16); lia).
  destruct (Z.eqb_spec (flash_nbAreas f) 0) as [E0|Ne]; cbn [negb when].
  - exists s1. split; [done|]. split; [|done]. split; [by rewrite (rn_flash _ _ _ _ _ R1)|]. split; [|apply R1].
    split; unfold off_header, off_memArea, off_blockSize, off_hyperflash in *.
    + intros x Hx. rewrite E0 in Hx. rewrite M1, decide_True by (try apply Hin; lia). f_equal; lia.
    + apply Hkeep; (done || lia).
    + apply Hkeep; (done || lia).
  - rewrite u32_small by lia.
    destruct (pulp_read_into 16 (data + 5144) (flash_nbAreas f * 16) s1) as (s2 & E2 & R2 & M2);
      try done; try (unfold off_header, off_hyperflash; Z.div_mod_to_equations; lia).
    { apply R1. }
    { apply Hkeep; unfold off_hyperflash in *; (done || lia). }
    { pose proof (rn_dones _ _ _ _ _ R1). lia. }
    exists s2. split; [done|]. split; [|by apply (runs_trans 1 1 in_data [] [] _ s1)].
    split; [by rewrite (rn_flash _ _ _ _ _ R2), (rn_flash _ _ _ _ _ R1)|].
    split; [|apply R2]. rewrite (rn_flash _ _ _ _ _ R1), Hf in M2.
    split; unfold off_header, off_memArea, off_blockSize, off_hyperflash in *.
    + intros x Hx. rewrite M2 by (apply Hin; lia). case_decide; [f_equal; lia|].
      rewrite M1, decide_True by (try apply Hin; lia). f_equal; lia.
    + rewrite <- (Hkeep (data + 6432) _ ltac:(lia) ltac:(lia) Hbs).
      apply load32_ext. intros x Hx. by rewrite M2, decide_False by (try apply Hin; lia).
    + transitivity (load32 (mem s1) (data + 6428)); [|by apply Hkeep; [lia..|]].
      apply load32_ext. intros x Hx. by rewrite M2, decide_False by (try apply Hin; lia).
Qed.

Lemma pulp_findDataFit_spec f s : ready f s -> flash_nbAreas f <= MAX_NB_AREA ->
  findDataFit data s = Ok (data_fit (flash_areas f)) s.
Proof.
  intros Hr Hnb. unfold findDataFit, data_fit, flash_areas. pose proof (flash_word_range f 4 : 0 <= flash_nbAreas f < 2 ^ 32).
  assert (Hgen : forall (k m : nat) i addr, (k <= m)%nat -> 0 <= i -> flash_nbAreas f = i + Z.of_nat k ->
    findDataFit_loop m data i addr s = Ok (foldl fit_step addr (map (flash_area f) (seqZ i (Z.of_nat k)))) s).
  { unfold MAX_NB_AREA in *. pose proof Hr as (_ & Ht & _).
    induction k as [|k IH]; intros m i addr Hm Hi Hk.
    - destruct m; cbn [findDataFit_loop]; rewrite pulp_bind_rd32, (pulp_tables_word f _ 4 Ht) by lia;
        change (flash_word f 4) with (flash_nbAreas f); destruct (Z.ltb_spec i (flash_nbAreas f)); (done || lia).
    - destruct m as [|m]; [lia|]. cbn [findDataFit_loop]. rewrite pulp_bind_rd32, (pulp_tables_word f _ 4 Ht) by lia.
      change (flash_word f 4) with (flash_nbAreas f). destruct (Z.ltb_spec i (flash_nbAreas f)); [|lia].
      rewrite bind_area by (unfold MAX_NB_AREA; lia).
      rewrite pulp_bind_rd32, (pulp_area_word f s i 4), pulp_bind_rd32, (pulp_area_word f s i 8), pulp_bind_rd32, (tb_block _ _ Ht)
        by (done || unfold MAX_NB_AREA; lia).
      rewrite u32_small by lia. rewrite IH by lia.
      replace (Z.of_nat (S k)) with (1 + Z.of_nat k) by lia. rewrite seqZ_app by lia.
      change (seqZ i 1) with [i]. done. }
  rewrite (Hgen (Z.to_nat (flash_nbAreas f)) 17%nat 0 0x1c000000) by (unfold MAX_NB_AREA in *; lia).
  by rewrite Z2Nat.id by lia.
Qed.

(** *** Leaving the ROM *)
Definition bootaddr_reg : Z := ARCHI_APB_SOC_CTRL_ADDR + APB_SOC_BOOTADDR_OFFSET.

(** The hardware as the image finds it: no peripheral clock, no SoC event
    forwarded, no interrupt enabled, the image's boot address registered. *)
Record handed_over (f : flash_hw) (s : soc) : Prop := {
  ho_clocks : sreg (udma_conf UDMA_CONF_CG_OFFSET) s = 0;
  ho_events : forall e, 0 <= e < 256 -> event_enabled e s = false;
  ho_interrupts : itc_mask s = 0;
  ho_bootaddr : sreg bootaddr_reg s = flash_word f 12
}.

Lemma deinit_spec s : exists s', deinit data s = Ok tt s' /\ mem s' = mem s /\ events s' = events s /\
  serial_flash s' = serial_flash s /\ csrs s' = csrs s /\ itc_mask s' = itc_mask s /\
  sreg (udma_conf UDMA_CONF_CG_OFFSET) s' = 0 /\ forall e, 0 <= e < 256 -> event_enabled e s' = false.
Proof.
  unfold deinit, plp_uart_disable. rewrite bind_write by reflexivity. set (s1 := set_sreg _ _ s).
  rewrite (bind_ok _ _ _ _ _ (mask_reset_spec s1)).
  set (m := masked_all s1). exists (set_sreg (udma_conf UDMA_CONF_CG_OFFSET) 0 m).
  split; [reflexivity|]. do 5 (split; [reflexivity|]). split; [by rewrite sreg_set, Z.eqb_refl|].
  intros e He. unfold event_enabled. rewrite sreg_set.
  assert (Hne : (fc_mask_addr e =? udma_conf UDMA_CONF_CG_OFFSET) = false).
  { apply Z.eqb_neq. rewrite fc_mask_addr_eq by lia. change (fc_mask (e / 32)) with (0x1A106004 + 4 * (e / 32)).
    change (udma_conf UDMA_CONF_CG_OFFSET) with 0x1A102000. Z.div_mod_to_equations. lia. }
  rewrite Hne. unfold m. rewrite masked_all_word by lia. change 0xffffffff with (Z.ones 32).
  rewrite Z.rem_mod_nonneg, Z.ones_spec_low by (try lia; apply Z.mod_pos_bound; lia). done.
Qed.

Definition image_reads (f : flash_hw) : nat := (table_reads f + sections_reads f (seqZ 0 (flash_nbAreas f)))%nat.

Lemma pulp_loadBinaryAndStart_spec f n s : idle s -> serial_flash s = f -> flash_nbAreas f <= MAX_NB_AREA ->
  load32 (mem s) (data + off_blockSize) = FLASH_BLOCK_SIZE -> load32 (mem s) (data + off_hyperflash) = 0 ->
  (forall i, 0 <= i < flash_nbAreas f -> a_blocks (flash_area f i) <= Z.of_nat n) ->
  (forall i, 0 <= i < flash_nbAreas f -> loadable data (flash_area f i)) ->
  (image_reads f <= dones (events s))%nat ->
  exists s', loadBinaryAndStart n fuel data s = Jump (flash_entry f) s' /\ handed_over f s' /\
    dones (events s) = (image_reads f + dones (events s'))%nat /\
    forall x, ~ in_data x -> mem_get (mem s') x = mem_get (writes (image_writes f) (mem s)) x.
Proof.
  intros Hi Hf Hnb Hbs Hh Hn Hok Hd. pose proof (flash_word_range f 4 : 0 <= flash_nbAreas f < 2 ^ 32).
  unfold image_reads in *.
  destruct (pulp_getMemAreas_spec f s Hi Hf Hnb Hbs Hh ltac:(lia)) as (s1 & E1 & Hr1 & R1).
  unfold loadBinaryAndStart. rewrite (bind_ok _ _ _ _ _ E1). pose proof (rn_dones _ _ _ _ _ R1) as D1.
  destruct (pulp_load_sections_spec f Hnb n Hn Hok (Z.to_nat (flash_nbAreas f)) 17 0 s1 Hr1) as (s2 & E2 & Hr2 & R2);
    try (rewrite ?Z2Nat.id by lia; unfold MAX_NB_AREA in *; lia).
  rewrite (bind_ok _ _ _ _ _ E2). rewrite Z2Nat.id in R2 by lia. pose proof (rn_dones _ _ _ _ _ R2) as D2.
  destruct (deinit_spec s2) as (s3 & E3 & Hm & Hev & Hfl & Hcs & Hmk & Hcg & He). rewrite (bind_ok _ _ _ _ _ E3).
  unfold jump_to_entry. rewrite pulp_bind_rd32. destruct Hr2 as (_ & T2 & [_ _ Hmask _ _]).
  rewrite Hm, (pulp_tables_word f _ 12 T2) by lia. unfold apb_soc_bootaddr_set, apb_soc_set.
  rewrite bind_write by reflexivity. change (u32 (ARCHI_APB_SOC_CTRL_ADDR + APB_SOC_BOOTADDR_OFFSET)) with bootaddr_reg.
  rewrite u32_small by apply flash_word_range. rewrite pulp_bind_rd32. cbn [set_sreg with_sregs mem].
  rewrite Hm, (pulp_tables_word f _ 8 T2) by lia. change (flash_word f 8) with (flash_entry f).
  eexists. split; [unfold jump_to_address; rewrite u32_small by apply flash_word_range; reflexivity|].
  split; [split|split].
  - rewrite sreg_set. exact Hcg.
  - intros e H0. unfold event_enabled. rewrite sreg_set.
    assert (Hne : (fc_mask_addr e =? bootaddr_reg) = false).
    { apply Z.eqb_neq. rewrite fc_mask_addr_eq by lia. change (fc_mask (e / 32)) with (0x1A106004 + 4 * (e / 32)).
      change bootaddr_reg with 0x1A104004. Z.div_mod_to_equations. lia. }
    rewrite Hne. exact (He e H0).
  - cbn [set_sreg with_sregs itc_mask]. by rewrite Hmk.
  - by rewrite sreg_set, Z.eqb_refl.
  - cbn [set_sreg with_sregs events]. rewrite Hev. lia.
  - intros x Hx. cbn [set_sreg with_sregs mem]. rewrite Hm.
    rewrite (rn_mem _ _ _ _ _ R2) by (intros ?%work_in_data; done).
    change (map (section_write f) (seqZ 0 (flash_nbAreas f))) with (image_writes f).
    apply writes_agree. by apply (rn_mem _ _ _ _ _ R1).
Qed.
End Loader.

(** ** [bootFromRom] *)

(** The memory after the image was loaded by a loader whose two structures are at
    [bc] and where [findDataFit] put it. *)
Record loaded (bc : Z) (f : flash_hw) (s s' : soc) : Prop := {
  lo_sections : forall i, 0 <= i < flash_nbAreas f ->
    let a := flash_area f i in
    mem_read (mem s') (a_ptr a) (Z.to_nat (a_size a)) = flash_bytes f (a_start a) (a_size a);
  lo_others : forall x, ~ in_data bc x -> ~ in_data (data_fit (flash_areas f)) x ->
    (forall i, 0 <= i < flash_nbAreas f ->
       ~ a_ptr (flash_area f i) <= x < a_ptr (flash_area f i) + a_size (flash_area f i)) ->
    mem_get (mem s') x = mem_get (mem s) x
}.

Lemma loaded_intro bc f n s m s' : image_fine f n ->
  (forall x, ~ in_data bc x -> ~ in_data (data_fit (flash_areas f)) x -> mem_get m x = mem_get (mem s) x) ->
  (forall x, ~ in_data (data_fit (flash_areas f)) x -> mem_get (mem s') x = mem_get (writes (image_writes f) m) x) ->
  loaded bc f s s'.
Proof.
  intros Him L1 L2. split.
  - intros i Hi a. destruct (im_section _ _ Him i Hi) as (Hs & _ & _ & _ & _ & _). fold a in Hs.
    pose proof (lo_apart _ _ (image_loadable f n Him i Hi)) as Hap. fold a in Hap.
    pose proof (flash_bytes_length f (a_start a) (a_size a) ltac:(lia)) as Hl.
    apply list_eq_same_length with (Z.to_nat (a_size a)); [lia|apply mem_read_length|].
    intros k x y Hk. rewrite mem_read_lookup, flash_bytes_lookup by lia. intros <-%(inj Some) <-%(inj Some).
    rewrite L2.
    + rewrite (image_in f n Him _ i) by (fold a; lia). fold a. f_equal. lia.
    + unfold in_data, apart in *. change Boot.sizeof_boot_code_t with sizeof_boot_code_t in Hap. lia.
  - intros x Hb Hn Ha. by rewrite L2, (image_out f n Him), L1 by done.
Qed.

(** Stores to the fields of a structure. *)
Lemma store_fields data l : 0 <= data -> forall m x, Forall (fun p => data <= p.1 /\ p.1 + 4 <= data + sizeof_boot_code_t) l ->
  ~ in_data data x -> mem_get (foldl (fun m p => store32 m p.1 p.2) m l) x = mem_get m x.
Proof.
  intros Hd m x Hl Hx. revert m. induction Hl as [|[a v] l Ha Hl IH]; intros m; [done|]. cbn [foldl]. rewrite IH.
  unfold store32. apply mem_get_write_out. unfold in_data in Hx. cbn [length le32 fst snd] in *. lia.
Qed.

(** A platform on which the ROM can load the image: out of reset, with the clock
    ticks and the transfers the loader waits for still to come. *)
Record bootable (f : flash_hw) (s : soc) : Prop := {
  bo_fresh : fresh s;
  bo_flash : serial_flash s = f;
  bo_time : exists rest, after_ticks 20 (events s) = Some rest /\ (table_reads f + image_reads f <= dones rest)%nat
}.

Lemma bootFromRom_spec bc n fuel qpi f s : (1 <= fuel)%nat -> 0 <= bc -> bc + sizeof_boot_code_t <= 2 ^ 32 ->
  image_fine f n -> bootable f s ->
  exists s', bootFromRom bc n fuel 0 qpi s = Jump (flash_entry f) s' /\ loaded bc f s s' /\ handed_over f s'.
Proof.
  intros Hfuel Hbc1 Hbc2 Him [Hfr Hfl (rest & Ha & Hd)].
  set (nd := data_fit (flash_areas f)). destruct (image_fit f n Him) as (_ & Hnd). fold nd in Hnd.
  change Boot.sizeof_boot_code_t with sizeof_boot_code_t in Hnd. pose proof (im_count _ _ Him) as Hnb.
  unfold bootFromRom, wr32. rewrite !bind_modify. change (block_size 0) with FLASH_BLOCK_SIZE. cbn [with_mem mem].
  set (s1 := with_mem _ (with_mem _ _)).
  destruct (init_idle bc rest s1) as (s2 & E2 & Hi2 & Hev2 & Hm2 & Hf2 & Hc2 & _); [by destruct Hfr|done|].
  rewrite (bind_ok _ _ _ _ _ E2). unfold flash_checkAndConf. rewrite bind_assoc, pulp_bind_rd32, bind_skip.
  set (l1 := [(bc + off_hyperflash, 0); (bc + off_blockSize, FLASH_BLOCK_SIZE); (bc + off_qpi, qpi); (bc + off_step, 0)]).
  assert (Hmem2 : mem s2 = foldl (fun m p => store32 m p.1 p.2) (mem s) l1) by exact Hm2.
  assert (Hl1 : Forall (fun p => bc <= p.1 /\ p.1 + 4 <= bc + sizeof_boot_code_t) l1).
  { unfold l1, off_hyperflash, off_step, off_blockSize, off_qpi, sizeof_boot_code_t. repeat (apply Forall_cons_2; [cbn; lia|]). constructor. }
  destruct (pulp_getMemAreas_spec bc (conj Hbc1 Hbc2) fuel Hfuel f s2 Hi2) as (s3 & E3 & Hr3 & R3); [|exact Hnb|..].
  { by rewrite Hf2. }
  { rewrite Hmem2. cbn [foldl l1 fst snd]. rewrite load32_store32_disjoint, load32_store32_disjoint, load32_store32
      by (unfold off_blockSize, off_qpi, off_step; lia). done. }
  { rewrite Hmem2. cbn [foldl l1 fst snd]. rewrite !load32_store32_disjoint, load32_store32
      by (unfold off_blockSize, off_qpi, off_step, off_hyperflash; lia). done. }
  { rewrite Hev2. lia. }
  rewrite (bind_ok _ _ _ _ _ E3). rewrite (bind_ok _ _ _ _ _ (pulp_findDataFit_spec bc fuel Hfuel f s3 Hr3 Hnb)). fold nd.
  rewrite !bind_modify. cbn [with_mem mem]. set (s4 := with_mem _ (with_mem _ _)).
  set (l2 := [(nd + off_hyperflash, 0); (nd + off_qpi, qpi); (nd + off_blockSize, FLASH_BLOCK_SIZE)]).
  assert (Hmem4 : mem s4 = foldl (fun m p => store32 m p.1 p.2) (mem s3) l2) by reflexivity.
  assert (Hl2 : Forall (fun p => nd <= p.1 /\ p.1 + 4 <= nd + sizeof_boot_code_t) l2).
  { unfold l2, off_hyperflash, off_blockSize, off_qpi, sizeof_boot_code_t. repeat (apply Forall_cons_2; [cbn; lia|]). constructor. }
  pose proof Hr3 as (Hf3 & _ & Hi3). pose proof (rn_dones _ _ _ _ _ R3) as D3. rewrite Hev2 in D3.
  destruct (pulp_loadBinaryAndStart_spec nd Hnd fuel Hfuel f n s4) as (s5 & E5 & Hho & _ & Hm5); [destruct Hi3; split; assumption|exact Hf3|exact Hnb|..].
  - rewrite Hmem4. cbn [foldl l2 fst snd]. by rewrite load32_store32.
  - rewrite Hmem4. cbn [foldl l2 fst snd]. rewrite !load32_store32_disjoint, load32_store32
      by (unfold off_blockSize, off_qpi, off_hyperflash; lia). done.
  - intros i Hi. by apply (im_section _ _ Him i Hi).
  - by apply (image_loadable f n).
  - change (events s4) with (events s3). lia.
  - exists s5. split; [exact E5|]. split; [|exact Hho]. apply (loaded_intro bc f n s (mem s4)); [done| |exact Hm5].
    intros x Hx1 Hx2. rewrite Hmem4, (store_fields nd) by (done || lia). rewrite (rn_mem _ _ _ _ _ R3) by done.
    rewrite Hmem2. cbn [writes foldl]. by apply (store_fields bc).
Qed.
