(* ===== verification/PulpMain.v ===== *)
(** * PulpMain: how the PULPissimo boot ROM chooses and enters its image

    The properties of boot_code: which boot source the debugger's half of the JTAG
    register and the boot pad select, and what each source does. *)

From S2P Require Import Prelude Monad Hw Spi Boot FlashImage Pulp BootCode PulpBoot PulpLoad.

(** ** The JTAG register *)
Definition jtag_reg : Z := ARCHI_APB_SOC_CTRL_ADDR + APB_SOC_JTAG_REG.
Definition bootsel_reg : Z := ARCHI_APB_SOC_CTRL_ADDR + APB_SOC_BOOTSEL_OFFSET.

(** The debugger writes its four bits. *)
Definition event_ok (e : event) : Prop := match e with Debugger v => 0 <= v < 16 | _ => True end.

Lemma ext_value r v : 0 <= v < 16 -> apb_soc_jtag_reg_ext ((r &&& 0xF) ||| Z.shiftl v APB_SOC_JTAG_REG_EXT_BIT) = v.
Proof.
  intros Hv. change 0xF with (Z.ones 4). rewrite Z.land_ones by lia.
  pose proof (Z.mod_pos_bound r (2 ^ 4) ltac:(lia)) as Hr. set (x := r mod 2 ^ 4) in *. change (2 ^ 4) with 16 in Hr.
  assert (Hall : forallb (fun v => forallb (fun x =>
    apb_soc_jtag_reg_ext (x ||| Z.shiftl v APB_SOC_JTAG_REG_EXT_BIT) =? v) (seqZ 0 16)) (seqZ 0 16) = true) by by vm_compute.
  rewrite forallb_forall in Hall. specialize (Hall v ltac:(apply list_elem_of_In, elem_of_seqZ; lia)).
  rewrite forallb_forall in Hall. specialize (Hall x ltac:(apply list_elem_of_In, elem_of_seqZ; lia)).
  by apply Z.eqb_eq.
Qed.

Lemma jtag_read {B} (k : Z -> M soc B) s :
  (apb_soc_jtag_reg_read ≫= k) s = k ((sreg jtag_reg s &&& 0xF) ||| Z.shiftl (jtag_in s) APB_SOC_JTAG_REG_EXT_BIT) s.
Proof. reflexivity. Qed.

(** The debugger's value after the [n]th tick. *)
Fixpoint jtag_after (n : nat) (l : list event) (v : Z) : Z :=
  match n with
  | O => v
  | S n' => match l with
            | [] => v
            | e :: l' => jtag_after (if is_tick e then n' else n) l' (match e with Debugger w => w | _ => v end)
            end
  end.
Lemma jtag_after_0 l v : jtag_after 0 l v = v.
Proof. by destruct l. Qed.

Lemma jtag_after_S n : forall l l1 v, after_ticks 1 l = Some l1 ->
  jtag_after (S n) l v = jtag_after n l1 (jtag_after 1 l v).
Proof.
  intros l. induction l as [|e l IH]; intros l1 v H; [done|]. cbn [after_ticks jtag_after] in *.
  destruct (is_tick e) eqn:Ee; [|by apply IH]. rewrite after_ticks_0 in H. apply (inj Some) in H as <-.
  by destruct e; rewrite ?jtag_after_0.
Qed.

Lemma jtag_after_ok n : forall l v, Forall event_ok l -> 0 <= v < 16 -> 0 <= jtag_after n l v < 16.
Proof.
  intros l. revert n. induction l as [|e l IH]; intros n v Hl Hv; [by destruct n|].
  destruct n as [|n]; [done|]. apply Forall_cons in Hl as [He Hl]. cbn [jtag_after]. apply IH; [done|]. by destruct e.
Qed.

Lemma after_ticks_ok n : forall l l', Forall event_ok l -> after_ticks n l = Some l' -> Forall event_ok l'.
Proof.
  intros l. revert n. induction l as [|e l IH]; intros n l' Hl H.
  - destruct n; [|done]. by apply (inj Some) in H as <-.
  - destruct n as [|n]; [by apply (inj Some) in H as <-|]. apply Forall_cons in Hl as [_ Hl].
    cbn [after_ticks] in H. by apply (IH _ _ Hl H).
Qed.

(** The sleep until a tick lets the debugger's writes through. *)
Lemma sleep_jtag l : forall s l' s', itc_mask s = clk_ref -> Z.testbit (itc_status s) 14 = false ->
  spim_job s = None -> after_ticks 1 l = Some l' -> sleep l s = Ok tt s' -> jtag_in s' = jtag_after 1 l (jtag_in s).
Proof.
  induction l as [|e l IH]; intros s l' s' Hm Hst Hj Ha E; [done|].
  cbn [sleep] in E. rewrite Hm in E. unfold clk_ref, ARCHI_FC_EVT_CLK_REF in E. rewrite land_bit_eqb, Hst in E by lia.
  cbn [negb] in E. cbn [after_ticks] in Ha. cbn [jtag_after]. destruct (is_tick e) eqn:Ee.
  - destruct e; try done. rewrite jtag_after_0.
    assert (Hw : negb (itc_status (happen ClkRef s) &&& itc_mask (happen ClkRef s) =? 0) = true).
    { unfold happen. cbn [with_status itc_status itc_mask]. rewrite Hm. unfold clk_ref, ARCHI_FC_EVT_CLK_REF.
      rewrite land_bit_eqb, Z.lor_spec by lia. by rewrite orb_true_r. }
    destruct l; cbn [sleep] in E; rewrite Hw in E; by inversion E.
  - assert (L : later s (happen e s)). { destruct e; try done. unfold happen. by rewrite Hj. }
    assert (Hst' : Z.testbit (itc_status (happen e s)) 14 = false).
    { destruct e; try done. unfold happen. by rewrite Hj. }
    rewrite (IH (happen e s) l' s'); try done.
    + f_equal. destruct e; try done. unfold happen. by rewrite Hj.
    + by rewrite (lt_mask _ _ L).
    + by rewrite (lt_job _ _ L).
Qed.

Lemma wait_tick s l' : fresh s -> after_ticks 1 (events s) = Some l' ->
  exists s', wait_clock_ref 1 s = Ok tt s' /\ fresh s' /\ events s' = l' /\ mem s' = mem s /\ sregs s' = sregs s /\
    jtag_in s' = jtag_after 1 (events s) (jtag_in s).
Proof.
  intros [Hm Hc Hs Hf Hj] Ha. unfold wait_clock_ref.
  rewrite (bind_ok _ _ s tt (with_mask (itc_mask s ||| clk_ref) s)) by reflexivity. rewrite Hm, Z.lor_0_l.
  set (s0 := with_mask clk_ref s).
  destruct (sleep_tick (events s0) s0 l') as (s1 & E1 & L1 & _); try done.
  pose proof (sleep_jtag (events s0) s0 l' _ eq_refl Hc Hj Ha E1) as Hjt.
  set (s2 := with_status (itc_status s1 &&& Z.lnot clk_ref) (with_events l' s1)).
  rewrite (bind_ok _ _ s0 tt s2).
  - exists (with_mask (itc_mask s2 &&& Z.lnot clk_ref) s2). split; [reflexivity|].
    destruct L1 as [Lm Lr Lk Ls Lf Lj Lc Lfl]. unfold s2. cbn [with_mask with_status with_events mem sregs itc_mask itc_status
      itc_fifo spim_job events jtag_in] in *.
    split; [split|]; cbn [with_mask with_status with_events mem sregs itc_mask itc_status itc_fifo spim_job events jtag_in].
    + rewrite Lk. done.
    + unfold clk_ref, ARCHI_FC_EVT_CLK_REF. by apply clear_bit.
    + unfold clk_ref, ARCHI_FC_EVT_CLK_REF. rewrite clear_other by lia. rewrite Ls. exact Hs.
    + by rewrite Lf.
    + by rewrite Lj.
    + by rewrite Lm, Lr.
  - change (Z.to_nat 1) with 1%nat. rewrite for_S, bind_assoc, (bind_ok _ _ s0 tt (with_events l' s1)) by exact E1.
    by rewrite (bind_ok _ _ (with_events l' s1) tt s2) by reflexivity.
Qed.

Lemma jtag_loop_spec : forall (k fuel : nat) s l', (k <= fuel)%nat -> fresh s -> Forall event_ok (events s) ->
  0 <= jtag_in s < 16 ->
  (forall j, (j < k)%nat -> Z.even (jtag_after j (events s) (jtag_in s)) = true) ->
  Z.odd (jtag_after k (events s) (jtag_in s)) = true -> after_ticks k (events s) = Some l' ->
  exists s', jtag_loop fuel s = Ok tt s' /\ mem s' = mem s /\ events s' = l' /\ sregs s' = sregs s.
Proof.
  induction k as [|k IH]; intros fuel s l' Hk Hfr Hev Hv Heven Hodd Ha.
  - rewrite after_ticks_0 in Ha. apply (inj Some) in Ha as <-. rewrite jtag_after_0 in Hodd.
    exists s. split; [|done].
    destruct fuel; cbn [jtag_loop]; rewrite jtag_read, ext_value, land_1_eqb, Z.bit0_odd, Hodd by done; done.
  - destruct fuel as [|fuel]; [lia|]. cbn [jtag_loop]. pose proof (Heven 0%nat ltac:(lia)) as He0.
    rewrite jtag_after_0 in He0.
    rewrite jtag_read, ext_value, land_1_eqb, Z.bit0_odd, <- Z.negb_even, He0 by done. cbn [negb].
    destruct (after_ticks_S _ _ _ Ha) as (l1 & Ha1 & Ha2).
    destruct (wait_tick s l1 Hfr Ha1) as (s1 & E1 & Hfr1 & Hev1 & Hm1 & Hr1 & Hj1).
    rewrite (bind_ok _ _ _ _ _ E1).
    assert (Hstep : forall j, jtag_after (S j) (events s) (jtag_in s) = jtag_after j (events s1) (jtag_in s1)).
    { intros j. by rewrite (jtag_after_S _ _ _ _ Ha1), Hev1, Hj1. }
    destruct (IH fuel s1 l') as (s' & E & Hm & Hevs & Hr); try done; try lia.
    + rewrite Hev1. by apply (after_ticks_ok 1 (events s)).
    + rewrite Hj1. by apply jtag_after_ok.
    + intros j Hj. rewrite <- Hstep. apply Heven. lia.
    + by rewrite <- Hstep.
    + by rewrite Hev1.
    + exists s'. split; [exact E|]. split; [congruence|]. split; [done|congruence].
Qed.

(** ** The choice *)
Section Choice.
Context (bc : Z) (n fuel : nat).

Lemma other_read rec p s : 0 <= jtag_in s < 16 ->
  bootFromOther bc rec n fuel p s =
  (when (negb (jtag_in s =? 0))
     (match rec with
      | O => spin
      | S rec' => choose_boot_mode bc (bootFromOther bc rec' n fuel) n fuel (ARCHI_REG_FIELD_GET (jtag_in s) 1 3) p
      end) ;;
   b ← apb_soc_bootsel_get ARCHI_APB_SOC_CTRL_ADDR;
   (if negb (b =? 0) then boot_abort fuel else bootFromRom bc n fuel 0 1) ;;
   spin) s.
Proof. intros Hv. destruct rec; cbn [bootFromOther]; by rewrite jtag_read, ext_value by done. Qed.

Lemma bootsel_read {B} (k : Z -> M soc B) s :
  (apb_soc_bootsel_get ARCHI_APB_SOC_CTRL_ADDR ≫= k) s = k (sreg bootsel_reg s) s.
Proof. reflexivity. Qed.

Lemma other_zero rec p s : jtag_in s = 0 ->
  bootFromOther bc rec n fuel p s =
  ((if negb (sreg bootsel_reg s =? 0) then boot_abort fuel else bootFromRom bc n fuel 0 1) ;; spin) s.
Proof.
  intros Hv. rewrite other_read, Hv by lia. change (negb (0 =? 0)) with false. cbn [when].
  by rewrite bind_skip, bootsel_read.
Qed.

(** With the debugger's value 1 the mode is "other" again, which asks the debugger
    again, at once. *)
Lemma other_again rec p s : jtag_in s = 1 -> bootFromOther bc rec n fuel p s = Spin s.
Proof.
  induction rec as [|rec IH]; intros Hv; rewrite other_read by lia; rewrite Hv; change (negb (1 =? 0)) with true; cbn [when].
  - by apply bind_spin.
  - apply bind_spin. change (ARCHI_REG_FIELD_GET 1 1 3) with 0. unfold choose_boot_mode.
    change (0 =? APB_SOC_BOOT_SPIM) with false. change (0 =? APB_SOC_BOOT_JTAG) with false.
    change (0 =? APB_SOC_BOOT_OTHER) with true. cbv iota. by apply bind_spin, IH.
Qed.

Lemma sleep_masked l : forall s, itc_mask s = 0 -> spim_job s = None ->
  exists s', sleep l s = Spin s' /\ mem s' = mem s /\ itc_mask s' = 0.
Proof.
  induction l as [|e l IH]; intros s Hm Hj; cbn [sleep]; rewrite Hm, Z.land_0_r; cbn [Z.eqb negb]; [by eexists|].
  assert (H : itc_mask (happen e s) = 0 /\ spim_job (happen e s) = None /\ mem (happen e s) = mem s).
  { destruct e; try done. unfold happen. by rewrite Hj. }
  destruct H as (H1 & H2 & H3). destruct (IH _ H1 H2) as (s' & E & Hmem & Hmask). exists s'. by rewrite Hmem.
Qed.
End Choice.

(** ** Properties *)

(** C23. Booting from the flash: when the debugger leaves its bits at 0 and the boot
    pad is low, or selects the SPI mode (12 or 13), the ROM loads the image.  Given
    the clock ticks and the transfers it waits for, it terminates: it enters the
    image at its entry address, every section byte for byte at its address, no
    other memory changed but its own two structures, with all peripheral clocks
    gated, all SoC events and interrupts masked and the image's boot address in
    the SoC controller. *)
Theorem pulp_boots_image bc rec n fuel f s :
  (1 <= fuel)%nat -> (1 <= rec)%nat -> 0 <= bc -> bc + sizeof_boot_code_t <= 2 ^ 32 ->
  image_fine f n -> bootable f s ->
  (jtag_in s = 0 /\ sreg bootsel_reg s = 0 \/ 12 <= jtag_in s <= 13) ->
  exists s', main bc rec n fuel s = Jump (flash_entry f) s' /\ loaded bc f s s' /\ handed_over f s'.
Proof.
  intros Hfuel Hrec Hb1 Hb2 Him Hbo Hsel. unfold main. destruct rec as [|rec]; [lia|].
  destruct Hsel as [[Hv Hb]|Hv].
  - destruct (bootFromRom_spec bc n fuel 1 f s Hfuel Hb1 Hb2 Him Hbo) as (s' & E & Hl). exists s'. split; [|done].
    apply bind_jump. rewrite other_zero, Hb by done. by apply bind_jump.
  - destruct (bootFromRom_spec bc n fuel 0 f s Hfuel Hb1 Hb2 Him Hbo) as (s' & E & Hl). exists s'. split; [|done].
    apply bind_jump. rewrite other_read by lia.
    assert (Hm : ARCHI_REG_FIELD_GET (jtag_in s) 1 3 = 6).
    { assert (jtag_in s = 12 \/ jtag_in s = 13) as [-> | ->] by lia; by vm_compute. }
    destruct (Z.eqb_spec (jtag_in s) 0); [lia|]. cbn [negb when]. rewrite Hm. apply bind_jump, bind_jump. exact E.
Qed.

(** C24. Booting through the debugger: with the JTAG mode selected (2 or 3) the ROM
    posts 1 in its half of the register, looks at the debugger's low bit once per
    tick of the reference clock, and when the debugger has set it before the [k]th
    tick, jumps to 0x1c008080; memory is as the debugger left it. *)
Theorem pulp_boots_jtag bc rec n fuel k rest s :
  fresh s -> Forall event_ok (events s) -> (jtag_in s = 2 \/ jtag_in s = 3) -> (1 <= rec)%nat -> (k <= fuel)%nat ->
  (forall j, (j < k)%nat -> Z.even (jtag_after j (events s) (jtag_in s)) = true) ->
  Z.odd (jtag_after k (events s) (jtag_in s)) = true -> after_ticks k (events s) = Some rest ->
  exists s', main bc rec n fuel s = Jump 0x1c008080 s' /\ mem s' = mem s /\ events s' = rest /\
    sreg jtag_reg s' = 1 /\ forall a, a <> jtag_reg -> sreg a s' = sreg a s.
Proof.
  intros Hfr Hev Hv Hrec Hk Heven Hodd Ha. destruct rec as [|rec]; [lia|].
  destruct (jtag_loop_spec k fuel (set_sreg jtag_reg 1 s) rest) as (s' & E & Hm & Hevs & Hr); try done.
  { by destruct Hfr. }
  { change (jtag_in (set_sreg jtag_reg 1 s)) with (jtag_in s). lia. }
  exists s'. split.
  - unfold main. apply bind_jump. rewrite other_read by lia.
    assert (Hmode : ARCHI_REG_FIELD_GET (jtag_in s) 1 3 = 1) by (by destruct Hv as [-> | ->]; vm_compute).
    destruct (Z.eqb_spec (jtag_in s) 0); [lia|]. cbn [negb when]. rewrite Hmode. apply bind_jump, bind_jump.
    change (1 =? APB_SOC_BOOT_SPIM) with false. change (1 =? APB_SOC_BOOT_JTAG) with true. cbv iota.
    unfold bootFromJtag. rewrite (bind_ok _ _ s tt (set_sreg jtag_reg 1 s)) by reflexivity. by rewrite (bind_ok _ _ _ _ _ E).
  - split; [exact Hm|]. split; [exact Hevs|].
    assert (Hs : forall a, sreg a s' = sreg a (set_sreg jtag_reg 1 s)) by (intros a; unfold sreg; by rewrite Hr).
    split; [by rewrite Hs, sreg_set, Z.eqb_refl|]. intros a Hne. rewrite Hs, sreg_set. by destruct (Z.eqb_spec a jtag_reg).
Qed.

(** Where the ROM stays: with the boot pad high and no mode from the debugger
    it masks every interrupt and sleeps for ever, whatever happens, without
    touching memory; and for every value of the debugger that names no boot
    source it loops without any effect. *)
Theorem pulp_stays_in_rom bc rec n fuel s :
  itc_mask s = 0 -> spim_job s = None ->
  (jtag_in s = 0 /\ sreg bootsel_reg s <> 0 ->
     exists s', main bc rec n fuel s = Spin s' /\ mem s' = mem s /\ itc_mask s' = 0) /\
  (jtag_in s = 1 \/ 4 <= jtag_in s <= 11 \/ 14 <= jtag_in s <= 15 -> main bc rec n fuel s = Spin s).
Proof.
  intros Hm Hj. split.
  - intros [Hv Hb]. unfold main.
    assert (Hs : itc_mask (with_mask 0 s) = 0) by done.
    destruct fuel as [|fuel].
    + exists (with_mask 0 s). split; [|done]. apply bind_spin. rewrite other_zero by done.
      destruct (Z.eqb_spec (sreg bootsel_reg s) 0); [done|]. by apply bind_spin.
    + destruct (sleep_masked (events s) (with_mask 0 s) Hs Hj) as (s' & E & Hmem & Hmask). exists s'. split; [|done].
      apply bind_spin. rewrite other_zero by done.
      destruct (Z.eqb_spec (sreg bootsel_reg s) 0); [done|]. cbn [negb]. apply bind_spin. unfold boot_abort.
      rewrite (bind_ok _ _ s tt (with_mask 0 s)) by reflexivity. rewrite (while_true _ _ _ _ (with_mask 0 s)) by reflexivity.
      by apply bind_spin.
  - intros [Hv|Hv]; unfold main; apply bind_spin; [by apply other_again|].
    rewrite other_read by lia. destruct (Z.eqb_spec (jtag_in s) 0); [lia|]. cbn [negb when].
    destruct rec as [|rec]; [by apply bind_spin|]. apply bind_spin.
    set (md := ARCHI_REG_FIELD_GET (jtag_in s) 1 3).
    assert (Hmd : (md =? APB_SOC_BOOT_SPIM) = false /\ (md =? APB_SOC_BOOT_JTAG) = false /\ (md =? APB_SOC_BOOT_OTHER) = false).
    { assert (Hall : forallb (fun v => ((v <? 4) || ((12 <=? v) && (v <? 14))) ||
        (negb (ARCHI_REG_FIELD_GET v 1 3 =? 6) && negb (ARCHI_REG_FIELD_GET v 1 3 =? 1) && negb (ARCHI_REG_FIELD_GET v 1 3 =? 0)))
        (seqZ 0 16) = true) by by vm_compute.
      rewrite forallb_forall in Hall. specialize (Hall (jtag_in s) ltac:(apply list_elem_of_In, elem_of_seqZ; lia)).
      fold md in Hall. change APB_SOC_BOOT_SPIM with 6. change APB_SOC_BOOT_JTAG with 1. change APB_SOC_BOOT_OTHER with 0.
      destruct (Z.ltb_spec (jtag_in s) 4), (Z.leb_spec 12 (jtag_in s)), (Z.ltb_spec (jtag_in s) 14), (md =? 6), (md =? 1), (md =? 0);
        try done; lia. }
    destruct Hmd as (H1 & H2 & H3). unfold choose_boot_mode. by rewrite H1, H2, H3.
Qed.

(** The SPI commands of boot_code's SPI_CMD encoders are, word for word, those
    a2_boot builds from its enumeration with a clock divider of 0, and on the wire
    they bring the flash contents from the given address, a whole number of accesses. *)
Theorem pulp_read_words fa size f : 0 <= fa -> 0 < size < 65536 -> size mod 4 = 0 ->
  read_words fa size = read_cmds 0 fa size /\ spim_run f (read_words fa size) = flash_bytes f fa size.
Proof. intros Hfa Hs H4. split; [apply read_words_cmds; lia|by apply read_words_exchange]. Qed.

(** [init] clocks the SPI master, enables exactly the two SoC events the ROM
    waits for out of the 256, and lets twenty ticks of the reference clock pass
    before the flash is accessed; of memory it writes only [step]. *)
Theorem pulp_init_events data rest s : fresh s -> after_ticks 20 (events s) = Some rest ->
  exists s', init data s = Ok tt s' /\ events s' = rest /\ mem s' = store32 (mem s) (data + off_step) 0 /\
    Z.testbit (sreg (udma_conf UDMA_CONF_CG_OFFSET) s') (ARCHI_UDMA_SPIM_ID 0) = true /\
    forall e, 0 <= e < 256 -> event_enabled e s' = true <-> e = ARCHI_SOC_EVENT_SPIM0_EOT \/ e = ARCHI_SOC_EVENT_UART_TX 0.
Proof.
  intros Hfr Ha. destruct (init_idle data rest s Hfr Ha) as (s' & E & Hi & Hev & Hm & _ & _ & Hen). exists s'.
  split; [exact E|]. split; [exact Hev|]. split; [exact Hm|]. split; [apply (id_clock _ Hi)|].
  intros e He. rewrite Hen by done. change (ARCHI_SOC_EVENT_UART_TX 0) with 1. unfold ARCHI_SOC_EVENT_SPIM0_EOT.
  destruct (Z.eqb_spec e 1), (Z.eqb_spec e 7); cbn [orb]; split; (done || lia).
Qed.

(** ** Concrete runs *)
Definition sample_soc (debugger pad : Z) (evs : list event) : soc :=
  mk_soc ∅ {[bootsel_reg := pad]} 0 0 [] debugger None evs ∅ (image_flash sample_image).
Definition sample_events : list event := replicate 20 ClkRef ++ replicate 6 SpimDone.

Lemma pulp_boots_image_witness :
  let f := image_flash sample_image in let s := sample_soc 0 0 sample_events in
  exists s', main 0x1C020000 1 1 1 s = Jump (flash_entry f) s' /\ loaded 0x1C020000 f s s' /\ handed_over f s'.
Proof.
  intros f s. apply (pulp_boots_image 0x1C020000 1 1 1 f s); [done|done|lia|unfold sizeof_boot_code_t; lia|apply sample_image_fine| |by left].
  split; [by split|done|]. exists (replicate 6 SpimDone). split; [reflexivity|]. apply Nat.leb_le. by vm_compute.
Defined.

Lemma pulp_boots_jtag_witness :
  let s := sample_soc 2 1 [Debugger 2; ClkRef; Debugger 3; ClkRef] in
  exists s', main 0x1C020000 1 1 2 s = Jump 0x1c008080 s' /\ mem s' = mem s /\ events s' = [] /\
    sreg jtag_reg s' = 1 /\ forall a, a <> jtag_reg -> sreg a s' = sreg a s.
Proof.
  intros s. apply (pulp_boots_jtag 0x1C020000 1 1 2 2 [] s); [by split| |by left|done|done| |reflexivity|reflexivity].
  - repeat (apply Forall_cons_2; [cbn; lia|]). constructor.
  - intros j Hj. destruct j as [|[|j]]; [reflexivity|reflexivity|lia].
Defined.

Lemma pulp_stays_in_rom_witness :
  let s := sample_soc 0 1 [ClkRef; Debugger 12] in
  (jtag_in s = 0 /\ sreg bootsel_reg s <> 0 ->
     exists s', main 0x1C020000 1 1 5 s = Spin s' /\ mem s' = mem s /\ itc_mask s' = 0) /\
  (jtag_in s = 1 \/ 4 <= jtag_in s <= 11 \/ 14 <= jtag_in s <= 15 -> main 0x1C020000 1 1 5 s = Spin s).
Proof. intros s. by apply (pulp_stays_in_rom 0x1C020000 1 1 5 s). Defined.

Lemma pulp_read_words_witness :
  let f := image_flash sample_image in
  read_words 0x30 8 = read_cmds 0 0x30 8 /\ spim_run f (read_words 0x30 8) = flash_bytes f 0x30 8.
Proof. intros f. apply (pulp_read_words 0x30 8 f); done || lia. Defined.

Lemma pulp_init_events_witness :
  let s := sample_soc 0 0 sample_events in
  exists s', init 0x1C020000 s = Ok tt s' /\ events s' = replicate 6 SpimDone /\
    mem s' = store32 (mem s) (0x1C020000 + off_step) 0 /\
    Z.testbit (sreg (udma_conf UDMA_CONF_CG_OFFSET) s') (ARCHI_UDMA_SPIM_ID 0) = true /\
    forall e, 0 <= e < 256 -> event_enabled e s' = true <-> e = ARCHI_SOC_EVENT_SPIM0_EOT \/ e = ARCHI_SOC_EVENT_UART_TX 0.
Proof. intros s. apply (pulp_init_events 0x1C020000 (replicate 6 SpimDone) s); [by split|reflexivity]. Defined.
