(* ===== verification/BothRoms.v ===== *)
(** * BothRoms: the two boot ROMs of the repository load the same program

    a2_boot drives the flash through polled registers and copies what lies outside
    L2 through a buffer; boot_code programs the uDMA, sleeps between its events and
    keeps its structures elsewhere.  On the same image they agree. *)

From S2P Require Import Prelude Monad Hw Uart Dbg Spi Machine Boot FlashImage FlashBoot Pulp BootCode PulpBoot PulpLoad.

Section Agreement.
Context `{Budget} `{SocConfig} `{LayoutOk} `{FramesOk} `{UartPort} `{!UartPortOk _} `{FlashPort} `{!FlashPortOk _}.

(** Memory that belongs to a loader: its structures at the start and after the move,
    and the command buffer of a2_boot. *)
Definition loader_memory (f : flash_hw) (bc : Z) (x : Z) : Prop :=
  cmdbuf x \/ FlashBoot.in_data addr_bootCode x \/ in_data bc x \/ in_data (data_fit (flash_areas f)) x.

(** C14. On the same flash image the loaders of the two ROMs agree: both terminate
    and enter the image at the same address, with every section that avoids
    a2_boot's command buffer equal byte for byte; and wherever the two memories
    agreed at the start, outside the sections and the loaders' own structures, they
    still agree. *)
Theorem roms_agree f fuel bc n ticks qpi s p :
  timely (board s) -> 0 <= aucclkdiv s < 256 -> flash (board s) = f -> image_ok f fuel ->
  (1 <= ticks)%nat -> 0 <= bc -> bc + sizeof_boot_code_t <= 2 ^ 32 -> image_fine f n -> bootable f p ->
  exists s' p', Boot.bootFromRom fuel 0 0 s = Jump (flash_entry f) s' /\
    BootCode.bootFromRom bc n ticks 0 qpi p = Jump (flash_entry f) p' /\
    (forall i, 0 <= i < flash_nbAreas f ->
       let a := flash_area f i in
       (forall x, a_ptr a <= x < a_ptr a + a_size a -> ~ cmdbuf x) ->
       mem_read (ram (board s')) (a_ptr a) (Z.to_nat (a_size a)) = mem_read (mem p') (a_ptr a) (Z.to_nat (a_size a))) /\
    (forall x, ~ loader_memory f bc x ->
       (forall i, 0 <= i < flash_nbAreas f ->
          ~ a_ptr (flash_area f i) <= x < a_ptr (flash_area f i) + a_size (flash_area f i)) ->
       mem_get (ram (board s)) x = mem_get (mem p) x -> mem_get (ram (board s')) x = mem_get (mem p') x).
Proof.
  intros Ht Hd Hf Him Htk Hb1 Hb2 Hfine Hbo.
  destruct (bootFromRom_boots f fuel s (conj Ht Hd) Hf Him) as (s' & E & Hs).
  destruct (bootFromRom_spec bc n ticks qpi f p Htk Hb1 Hb2 Hfine Hbo) as (p' & E' & Hp & _).
  exists s', p'. split; [exact E|]. split; [exact E'|]. split.
  - intros i Hi a Hc. etrans; [exact (bt_sections _ _ _ Hs i Hi Hc)|symmetry; exact (lo_sections _ _ _ _ Hp i Hi)].
  - intros x Hx Ha Heq. unfold loader_memory in Hx.
    rewrite (bt_others _ _ _ Hs) by tauto. by rewrite (lo_others _ _ _ _ Hp) by tauto.
Qed.
End Agreement.

(** ** A concrete image *)
Section Witnesses.
#[local] Instance w_budget : Budget := sample_budget.
#[local] Instance w_layout : Layout := sample_layout.
#[local] Instance w_frames : Frames := {| frame_c := 1000; frame_lChar := 1004 |}.
#[local] Instance w_frames_ok : FramesOk w_frames.
Proof. split; unfold Boot.BOOT_STACK_SIZE; simpl; lia. Qed.
#[local] Instance w_config : SocConfig := {| UDMA_CTRL_UART0_CLKEN := 1; UDMA_CTRL_QSPIM0_CLKEN := 4 |}.

Lemma roms_agree_witness :
  let s := sample_machine sample_image in
  let p := mk_soc ∅ ∅ 0 0 [] 0 None (replicate 20 ClkRef ++ replicate 6 SpimDone) ∅ (image_flash sample_image) in
  exists s' p', Boot.bootFromRom 1 0 0 s = Jump 0x1C000080 s' /\ BootCode.bootFromRom 0x1C020000 1 1 0 1 p = Jump 0x1C000080 p' /\
    mem_read (ram (board s')) 0x2000 8 = mem_read (mem p') 0x2000 8.
Proof.
  intros s p. destruct (roms_agree (image_flash sample_image) 1 0x1C020000 1 1 1 s p)
    as (s' & p' & E & E' & Hsec & _).
  - apply reset_timely.
  - simpl. lia.
  - reflexivity.
  - apply sample_image_ok.
  - lia.
  - lia.
  - unfold sizeof_boot_code_t. lia.
  - apply sample_image_fine.
  - split; [by split|reflexivity|]. exists (replicate 6 SpimDone). split; [reflexivity|]. apply Nat.leb_le. by vm_compute.
  - exists s', p'. split; [exact E|]. split; [exact E'|].
    assert (Ep : a_ptr (flash_area (image_flash sample_image) 0) = 0x2000) by by vm_compute.
    assert (Ez : a_size (flash_area (image_flash sample_image) 0) = 8) by by vm_compute.
    assert (En : flash_nbAreas (image_flash sample_image) = 2) by by vm_compute.
    rewrite En in Hsec. specialize (Hsec 0 ltac:(lia)). cbv zeta in Hsec. rewrite Ep, Ez in Hsec. apply Hsec.
    intros x. unfold cmdbuf, addr_auccmd, w_layout, sample_layout. lia.
Defined.
End Witnesses.
