(* ===== verification/Builtins.v ===== *)
(** * Builtins: the arithmetic macros of the PULP core, emulated in C

    boot_code/include/archi/riscv/builtins_v2_emu.h, the version every file of
    boot_code compiles (nothing defines ARCHI_CORE_HAS_PULPV2).  A C [int] is a
    signed [Z], an [unsigned int] a [Z] below [2^32]; a macro that shifts by an
    argument is [None] where C leaves the shift undefined: by a negative number or
    by 32 and more, and for an [int] also where the result is not one.  Sums and
    products of [int]s wrap around, as the machine's do.  The vector macros from
    __NEG2 to __SLL4 lack their closing parenthesis and cannot be expanded, so they
    have no model; the complex-number macros are not compiled. *)

From S2P Require Import Prelude.

(** ** Conversions and shifts of C *)
Definition swrap (w x : Z) : Z := (x + 2 ^ (w - 1)) mod 2 ^ w - 2 ^ (w - 1).
Definition s16 (x : Z) : Z := swrap 16 x.
Definition s8 (x : Z) : Z := swrap 8 x.
(** Plain [char] is unsigned in the RISC-V ABI, and boot_code's Makefile does not
    change that. *)
Definition c_char (x : Z) : Z := u8 x.

Definition shift_ok (n : Z) : bool := (0 <=? n) && (n <? 32).
Definition shl_int (x n : Z) : option Z :=
  if shift_ok n && (0 <=? x) && (Z.shiftl x n <? 2 ^ 31) then Some (Z.shiftl x n) else None.
Definition shl_u32 (x n : Z) : option Z := if shift_ok n then Some (u32 (Z.shiftl x n)) else None.
Definition shr (x n : Z) : option Z := if shift_ok n then Some (Z.shiftr x n) else None.

(** The vector types v2s, v2u, v4s, v4u: their elements. *)
Definition v2 : Type := Z * Z.
Definition v4 : Type := Z * Z * Z * Z.
Definition map2 (f : Z -> Z) (x : v2) : v2 := let '(x0, x1) := x in (f x0, f x1).
Definition map4 (f : Z -> Z) (x : v4) : v4 := let '(x0, x1, x2, x3) := x in (f x0, f x1, f x2, f x3).
Definition zip2 (f : Z -> Z -> Z) (x y : v2) : v2 :=
  let '(x0, x1) := x in let '(y0, y1) := y in (f x0 y0, f x1 y1).
Definition zip4 (f : Z -> Z -> Z) (x y : v4) : v4 :=
  let '(x0, x1, x2, x3) := x in let '(y0, y1, y2, y3) := y in (f x0 y0, f x1 y1, f x2 y2, f x3 y3).
Definition greater (x y : Z) : Z := if x >? y then x else y.
Definition less (x y : Z) : Z := if x <? y then x else y.

(** ** Packing, maximum, minimum, clipping, absolute value *)
Definition __PACK2 (x y : Z) : v2 := (s16 x, s16 y).
Definition __PACKU2 (x y : Z) : v2 := (u16 x, u16 y).
Definition __PACK4 (x y z t : Z) : v4 := (s8 x, s8 y, s8 z, s8 t).
Definition __PACKU4 (x y z t : Z) : v4 := (u8 x, u8 y, u8 z, u8 t).
Definition __MAX (x y : Z) : Z := if x >? y then x else y.
Definition __MAX2 (x y : v2) : v2 := zip2 (fun a b => greater (s16 a) (s16 b)) x y.
Definition __MAX4 (x y : v4) : v4 := zip4 (fun a b => greater (s8 a) (s8 b)) x y.
Definition __MAXU2 (x y : v2) : v2 := zip2 (fun a b => greater (u16 a) (u16 b)) x y.
Definition __MAXU4 (x y : v4) : v4 := zip4 (fun a b => greater (u8 a) (u8 b)) x y.
Definition __MIN2 (x y : v2) : v2 := zip2 (fun a b => less (s16 a) (s16 b)) x y.
Definition __MIN4 (x y : v4) : v4 := zip4 (fun a b => less (s8 a) (s8 b)) x y.
Definition __MINU2 (x y : v2) : v2 := zip2 (fun a b => less (u16 a) (u16 b)) x y.
Definition __MINU4 (x y : v4) : v4 := zip4 (fun a b => less (u8 a) (u8 b)) x y.
Definition __CLIP (x precision : Z) : option Z :=
  p ← shl_int 1 precision;
  Some (if x <? s32 (- p) then s32 (- p) else if x >? s32 (p - 1) then s32 (p - 1) else x).
Definition __CLIP_R (x bound : Z) : Z :=
  if x <=? - (bound + 1) then - (bound + 1) else if x >=? bound then bound else x.
Definition __CLIPU (x precision : Z) : option Z :=
  if x <? 0 then Some 0
  else p ← shl_int 1 precision; Some (if x >? s32 (p - 1) then s32 (p - 1) else x).
Definition __CLIPU_R (x bound : Z) : Z :=
  if x <=? 0 then 0 else if x >=? bound then bound else x.
(** The elements of the result are unsigned. *)
Definition __ABS2 (x : v2) : v2 := map2 (fun a => u16 (if a <? 0 then - a else a)) x.
Definition __ABS4 (x : v4) : v4 := map4 (fun a => u8 (if a <? 0 then - a else a)) x.

(** ** Multiplication and accumulation *)
Definition round_bit (n : Z) : option Z := shl_int 1 (n - 1).
Definition hi16 (x : Z) : Z := Z.shiftr x 16.

Definition __MAC (Acc x y : Z) : Z := s32 (Acc + x * y).
Definition __MSU (Acc x y : Z) : Z := s32 (Acc - x * y).
Definition __MACS (Acc x y : Z) : Z := s32 (Acc + s16 x * s16 y).
Definition __MACHHS (Acc x y : Z) : Z := s32 (Acc + s16 (hi16 x) * s16 (hi16 y)).
Definition __MACU (Acc x y : Z) : Z := s32 (Acc + u16 x * u16 y).
Definition __MACHHU (Acc x y : Z) : Z := s32 (Acc + u16 (hi16 x) * u16 (hi16 y)).
Definition __MACSN (Acc x y n : Z) : option Z := shr (s32 (Acc + s16 x * s16 y)) n.
Definition __MACUN (Acc x y n : Z) : option Z := shr (s32 (Acc + u16 x * u16 y)) n.
Definition __MACSRN (Acc x y n : Z) : option Z :=
  r ← round_bit n; shr (s32 (Acc + s16 x * s16 y + r)) n.
Definition __MACURN (Acc x y n : Z) : option Z :=
  r ← round_bit n; shr (s32 (Acc + u16 x * u16 y + r)) n.
Definition __MACHHSN (Acc x y n : Z) : option Z := shr (s32 (Acc + s16 (hi16 x) * s16 (hi16 y))) n.
Definition __MACHHUN (Acc x y n : Z) : option Z := shr (s32 (Acc + u16 (hi16 x) * u16 (hi16 y))) n.
Definition __MACHHSRN (Acc x y n : Z) : option Z :=
  r ← round_bit n; shr (s32 (Acc + s16 (hi16 x) * s16 (hi16 y) + r)) n.
(** This one adds [n] itself and does not shift. *)
Definition __MACHHURN (Acc x y n : Z) : Z := s32 (Acc + u16 (hi16 x) * u16 (hi16 y) + n).

Definition __MULS (x y : Z) : Z := s16 x * s16 y.
Definition __MULU (x y : Z) : Z := s32 (u16 x * u16 y).
Definition __MULHHS (x y : Z) : Z := s16 (hi16 x) * s16 (hi16 y).
Definition __MULHHU (x y : Z) : Z := s32 (u16 (hi16 x) * u16 (hi16 y)).
Definition __MULSN (x y n : Z) : option Z := shr (s16 x * s16 y) n.
Definition __MULSRN (x y n : Z) : option Z := r ← round_bit n; shr (s32 (s16 x * s16 y + r)) n.
Definition __MULUN (x y n : Z) : option Z := shr (s32 (u16 x * u16 y)) n.
Definition __MULURN (x y n : Z) : option Z := r ← round_bit n; shr (s32 (u16 x * u16 y + r)) n.
Definition __MULHHSN (x y n : Z) : option Z := shr (s16 (hi16 x) * s16 (hi16 y)) n.
Definition __MULHHSRN (x y n : Z) : option Z := r ← round_bit n; shr (s32 (s16 (hi16 x) * s16 (hi16 y) + r)) n.
Definition __MULHHUN (x y n : Z) : option Z := shr (s32 (u16 (hi16 x) * u16 (hi16 y))) n.
Definition __MULHHURN (x y n : Z) : option Z := r ← round_bit n; shr (s32 (u16 (hi16 x) * u16 (hi16 y) + r)) n.

(** ** Dot products *)
Definition __DOTP2 (x y : v2) : Z :=
  let '(x0, x1) := x in let '(y0, y1) := y in s32 (s16 x0 * s16 y0 + s16 x1 * s16 y1).
Definition __DOTPU2 (x y : v2) : Z :=
  let '(x0, x1) := x in let '(y0, y1) := y in s32 (u16 x0 * u16 y0 + u16 x1 * u16 y1).
Definition __DOTPUS2 (x y : v2) : Z :=
  let '(x0, x1) := x in let '(y0, y1) := y in s32 (u16 x0 * s16 y0 + u16 x1 * s16 y1).
Definition __DOTPSC2 (x : v2) (y : Z) : Z :=
  let '(x0, x1) := x in s32 (s16 x0 * s16 y + s16 x1 * s16 y).
Definition __DOTPUSC2 (x : v2) (y : Z) : Z :=
  let '(x0, x1) := x in s32 (u16 x0 * u16 y + u16 x1 * u16 y).
Definition __DOTPUSSC2 (x : v2) (y : Z) : Z :=
  let '(x0, x1) := x in s32 (u16 x0 * s16 y + u16 x1 * s16 y).
Definition __SUMDOTP2 (x y : v2) (z : Z) : Z :=
  let '(x0, x1) := x in let '(y0, y1) := y in s32 (z + s16 x0 * s16 y0 + s16 x1 * s16 y1).
Definition __SUMDOTPU2 (x y : v2) (z : Z) : Z :=
  let '(x0, x1) := x in let '(y0, y1) := y in s32 (z + u16 x0 * u16 y0 + u16 x1 * u16 y1).
Definition __SUMDOTPUS2 (x y : v2) (z : Z) : Z :=
  let '(x0, x1) := x in let '(y0, y1) := y in s32 (z + u16 x0 * s16 y0 + u16 x1 * s16 y1).
Definition __SUMDOTPSC2 (x : v2) (y : Z) (z : Z) : Z :=
  let '(x0, x1) := x in s32 (z + s16 x0 * s16 y + s16 x1 * s16 y).
Definition __SUMDOTPUSC2 (x : v2) (y : Z) (z : Z) : Z :=
  let '(x0, x1) := x in s32 (z + u16 x0 * u16 y + u16 x1 * u16 y).
Definition __SUMDOTPUSSC2 (x : v2) (y : Z) (z : Z) : Z :=
  let '(x0, x1) := x in s32 (z + u16 x0 * s16 y + u16 x1 * s16 y).
Definition __DOTP4 (x y : v4) : Z :=
  let '(x0, x1, x2, x3) := x in let '(y0, y1, y2, y3) := y in s32 (c_char x0 * c_char y0 + c_char x1 * c_char y1 + c_char x2 * c_char y2 + c_char x3 * c_char y3).
Definition __DOTPU4 (x y : v4) : Z :=
  let '(x0, x1, x2, x3) := x in let '(y0, y1, y2, y3) := y in s32 (u8 x0 * u8 y0 + u8 x1 * u8 y1 + u8 x2 * u8 y2 + u8 x3 * u8 y3).
Definition __DOTPUS4 (x y : v4) : Z :=
  let '(x0, x1, x2, x3) := x in let '(y0, y1, y2, y3) := y in s32 (u8 x0 * c_char y0 + u8 x1 * c_char y1 + u8 x2 * c_char y2 + u8 x3 * c_char y3).
Definition __DOTPSC4 (x : v4) (y : Z) : Z :=
  let '(x0, x1, x2, x3) := x in s32 (c_char x0 * c_char y + c_char x1 * c_char y + c_char x2 * c_char y + c_char x3 * c_char y).
Definition __DOTPUSC4 (x : v4) (y : Z) : Z :=
  let '(x0, x1, x2, x3) := x in s32 (u8 x0 * u8 y + u8 x1 * u8 y + u8 x2 * u8 y + u8 x3 * u8 y).
Definition __DOTPUSSC4 (x : v4) (y : Z) : Z :=
  let '(x0, x1, x2, x3) := x in s32 (u8 x0 * c_char y + u8 x1 * c_char y + u8 x2 * c_char y + u8 x3 * c_char y).
Definition __SUMDOTP4 (x y : v4) (z : Z) : Z :=
  let '(x0, x1, x2, x3) := x in let '(y0, y1, y2, y3) := y in s32 (z + c_char x0 * c_char y0 + c_char x1 * c_char y1 + c_char x2 * c_char y2 + c_char x3 * c_char y3).
Definition __SUMDOTPU4 (x y : v4) (z : Z) : Z :=
  let '(x0, x1, x2, x3) := x in let '(y0, y1, y2, y3) := y in s32 (z + u8 x0 * u8 y0 + u8 x1 * u8 y1 + u8 x2 * u8 y2 + u8 x3 * u8 y3).
Definition __SUMDOTPUS4 (x y : v4) (z : Z) : Z :=
  let '(x0, x1, x2, x3) := x in let '(y0, y1, y2, y3) := y in s32 (z + u8 x0 * c_char y0 + u8 x1 * c_char y1 + u8 x2 * c_char y2 + u8 x3 * c_char y3).
Definition __SUMDOTPSC4 (x : v4) (y : Z) (z : Z) : Z :=
  let '(x0, x1, x2, x3) := x in s32 (z + c_char x0 * c_char y + c_char x1 * c_char y + c_char x2 * c_char y + c_char x3 * c_char y).
Definition __SUMDOTPUSC4 (x : v4) (y : Z) (z : Z) : Z :=
  let '(x0, x1, x2, x3) := x in s32 (z + u8 x0 * u8 y + u8 x1 * u8 y + u8 x2 * u8 y + u8 x3 * u8 y).
Definition __SUMDOTPUSSC4 (x : v4) (y : Z) (z : Z) : Z :=
  let '(x0, x1, x2, x3) := x in s32 (z + u8 x0 * c_char y + u8 x1 * c_char y + u8 x2 * c_char y + u8 x3 * c_char y).

(** ** Bit fields

    The result is the 32-bit pattern; an [int] operand may be negative.  The masks
    are computed in [int]: [(1<<(size))-1], and [((1<<(size))-1)<<(off)]. *)
Definition size_mask (size : Z) : option Z := p ← shl_int 1 size; Some (p - 1).
Definition field_mask (size off : Z) : option Z := m ← size_mask size; shl_int m off.

(** The compiler's [__builtin_clz] counts leading zeros and is undefined on 0,
    [__builtin_clrsb] counts the bits below the sign bit that equal it. *)
Definition clz (x : Z) : option Z := if u32 x =? 0 then None else Some (31 - Z.log2 (u32 x)).
Definition clrsb (x : Z) : Z :=
  let y := if x <? 0 then Z.lnot x else x in if y =? 0 then 31 else 30 - Z.log2 y.
Definition __FL1 (x : Z) : option Z := n ← clz x; Some (31 - n).
Definition __CLB (x : Z) : Z := clrsb x.

Definition __BITSET (x size off : Z) : option Z := m ← field_mask size off; Some (u32 x ||| m).
Definition __BITSET_R (x size off : Z) : option Z := m ← field_mask size off; Some (u32 x ||| m).
Definition __BITSET_R_SAFE (x size off : Z) : option Z :=
  m ← field_mask (size &&& 0x1F) (off &&& 0x1F); Some (u32 x ||| m).
Definition __BITCLR (x size off : Z) : option Z := m ← field_mask size off; Some (u32 x &&& Z.lnot m).
Definition __BITCLR_R (x size off : Z) : option Z := m ← field_mask size off; Some (u32 x &&& Z.lnot m).
Definition __BITCLR_R_SAFE (x size off : Z) : option Z :=
  m ← field_mask (size &&& 0x1F) (off &&& 0x1F); Some (u32 x &&& Z.lnot m).
Definition __BITEXTRACTU (x size off : Z) : option Z :=
  v ← shr x off; m ← size_mask size; Some (v &&& m).
(** [(unsigned int)(1<<size)-1] makes the conjunction, and both shifts of it, unsigned;
    [1<<size] itself is an [int]. *)
Definition __BITEXTRACT (x size off : Z) : option Z :=
  v ← shr x off; m ← size_mask size; l ← shl_u32 (v &&& m) (32 - size); shr l (32 - size).
Definition __BITEXTRACT_R (x size off : Z) : option Z :=
  v ← shr x off; m ← size_mask size; l ← shl_u32 (v &&& m) (32 - size); shr l (32 - size).
Definition __BITEXTRACTU_R (x size off : Z) : option Z :=
  v ← shr x off; m ← size_mask size; Some (v &&& m).
Definition at_most_32 (size : Z) : Z := if size >? 32 then 32 else size.
Definition __BITEXTRACT_R_SAFE (x size off : Z) : option Z :=
  v ← shr x (off &&& 0x1F); m ← size_mask (at_most_32 size);
  l ← shl_u32 (v &&& m) (32 - at_most_32 size); shr l (32 - at_most_32 size).
Definition __BITEXTRACTU_R_SAFE (x size off : Z) : option Z :=
  v ← shr x (off &&& 0x1F); m ← size_mask (at_most_32 size); Some (v &&& m).
(** The field of [src] fits wherever its mask does, [src] an [int] or not. *)
Definition __BITINSERT (dst src size off : Z) : option Z :=
  f ← field_mask size off; m ← size_mask size; s ← shl_int (u32 src &&& m) off;
  Some ((u32 dst &&& Z.lnot f) ||| s).
Definition __BITINSERT_R (dst src size off : Z) : option Z :=
  f ← field_mask size off; m ← size_mask size; s ← shl_int (u32 src &&& m) off;
  Some ((u32 dst &&& Z.lnot f) ||| s).
Definition __BITINSERT_R_SAFE (dst src size off : Z) : option Z :=
  f ← field_mask (at_most_32 size) (off &&& 0x1F); m ← size_mask (at_most_32 size);
  s ← shl_int (u32 src &&& m) (off &&& 0x1F);
  Some ((u32 dst &&& Z.lnot f) ||| s).
(** Of an [unsigned int]. *)
Definition __ROTR (x : Z) : Z := (u32 (Z.shiftr x 1) &&& 0x7FFFFFFF) ||| u32 (Z.shiftl x 31).

(** archi/utils.h *)
Definition ARCHI_BINSERT (dst src size off : Z) : option Z := __BITINSERT dst src size off.
Definition ARCHI_BINSERT_R (dst src size off : Z) : option Z := __BITINSERT_R dst src size off.
Definition ARCHI_BEXTRACTU (src size off : Z) : option Z := __BITEXTRACTU src size off.
Definition ARCHI_BEXTRACT (src size off : Z) : option Z := __BITEXTRACT src size off.

(** ** Addition and subtraction with normalisation and rounding *)
Definition __ADDNORMU (x y scale : Z) : option Z := shr (u32 (x + y)) scale.
Definition __ADDNORMU_REG (x y scale : Z) : option Z := shr (u32 (x + y)) scale.
Definition __ADDNORM (x y scale : Z) : option Z := shr (s32 (x + y)) scale.
Definition __ADDNORM_REG (x y scale : Z) : option Z := shr (s32 (x + y)) scale.
Definition __ADDROUNDNORMU (x y scale : Z) : option Z := r ← round_bit scale; shr (u32 (x + y + r)) scale.
Definition __ADDROUNDNORMU_REG (x y scale : Z) : option Z := r ← round_bit scale; shr (u32 (x + y + r)) scale.
Definition __ADDROUNDNORM (x y scale : Z) : option Z := r ← round_bit scale; shr (s32 (x + y + r)) scale.
Definition __ADDROUNDNORM_REG (x y scale : Z) : option Z := r ← round_bit scale; shr (s32 (x + y + r)) scale.
Definition __SUBNORMU (x y scale : Z) : option Z := shr (u32 (x - y)) scale.
Definition __SUBNORMU_REG (x y scale : Z) : option Z := shr (u32 (x - y)) scale.
Definition __SUBNORM (x y scale : Z) : option Z := shr (s32 (x - y)) scale.
Definition __SUBNORM_REG (x y scale : Z) : option Z := shr (s32 (x - y)) scale.
Definition __SUBROUNDNORMU (x y scale : Z) : option Z := r ← round_bit scale; shr (u32 (x - y + r)) scale.
Definition __SUBROUNDNORMU_REG (x y scale : Z) : option Z := r ← round_bit scale; shr (u32 (x - y + r)) scale.
Definition __SUBROUNDNORM (x y scale : Z) : option Z := r ← round_bit scale; shr (s32 (x - y + r)) scale.
Definition __SUBROUNDNORM_REG (x y scale : Z) : option Z := r ← round_bit scale; shr (s32 (x - y + r)) scale.
Definition __ROUNDNORMU (x scale : Z) : option Z := r ← round_bit scale; shr (u32 (x + r)) scale.
Definition __ROUNDNORMU_REG (x scale : Z) : option Z := r ← round_bit scale; shr (u32 (x + r)) scale.
Definition __ROUNDNORM (x scale : Z) : option Z := r ← round_bit scale; shr (s32 (x + r)) scale.
Definition __ROUNDNORM_REG (x scale : Z) : option Z := r ← round_bit scale; shr (s32 (x + r)) scale.

(** ** Core identification and special registers: constants of the emulation *)
Definition __COREID : Z := 0.
Definition __CLUSTERID : Z := 0.
Definition __NCORE : Z := 1.
Definition __SPRREAD (x : Z) : Z := 0.
Definition __SPRREAD_VOL (x : Z) : Z := 0.
Definition __READ_BASE_OFF (base off : Z) : Z := 0.
Definition __READ_BASE_OFF_VOL (base off : Z) : Z := 0.
Definition __READ_BASE_OFF_HALF_VOL (base off : Z) : Z := 0.
Definition __READ_BASE_OFF_BYTE_VOL (base off : Z) : Z := 0.

(** * Theorems *)

Lemma shift_ok_true n : 0 <= n < 32 -> shift_ok n = true.
Proof. intros H. unfold shift_ok. destruct (Z.leb_spec 0 n), (Z.ltb_spec n 32); cbn; (reflexivity || (exfalso; lia)). Qed.
Lemma shift_ok_false n : ~ 0 <= n < 32 -> shift_ok n = false.
Proof. intros H. unfold shift_ok. destruct (Z.leb_spec 0 n), (Z.ltb_spec n 32); cbn; (reflexivity || (exfalso; lia)). Qed.

(** ** Masks *)
Lemma shl_int_iff x n : is_Some (shl_int x n) <-> 0 <= n < 32 /\ 0 <= x /\ Z.shiftl x n < 2 ^ 31.
Proof.
  unfold shl_int, shift_ok. destruct (Z.leb_spec 0 n), (Z.ltb_spec n 32), (Z.leb_spec 0 x), (Z.ltb_spec (Z.shiftl x n) (2 ^ 31));
    cbn; split; (lia || (intros [? [=]]) || done).
Qed.
Lemma shl_int_some x n : 0 <= n < 32 -> 0 <= x -> Z.shiftl x n < 2 ^ 31 -> shl_int x n = Some (Z.shiftl x n).
Proof.
  intros Hn Hx Hs. destruct (proj2 (shl_int_iff x n) (conj Hn (conj Hx Hs))) as [y E].
  unfold shl_int in *. by destruct (_ && _).
Qed.

Lemma size_mask_ones size : 0 <= size < 31 -> size_mask size = Some (Z.ones size).
Proof.
  intros H. unfold size_mask. assert (2 ^ size < 2 ^ 31) by (apply Z.pow_lt_mono_r; lia).
  rewrite shl_int_some; rewrite ?Z.shiftl_mul_pow2, ?Z.mul_1_l by lia; [|lia..|done].
  cbn. by rewrite Z.ones_equiv, <- Z.sub_1_r.
Qed.
Lemma size_mask_wide size : ~ 0 <= size < 31 -> size_mask size = None.
Proof.
  intros H. unfold size_mask. destruct (shl_int 1 size) eqn:E; [|done].
  destruct (proj1 (shl_int_iff 1 size) (mk_is_Some _ _ E)) as (Hs & _ & Hlt).
  rewrite Z.shiftl_mul_pow2, Z.mul_1_l in Hlt by lia. apply Z.pow_lt_mono_r_iff in Hlt; lia.
Qed.

Definition in_field (size off i : Z) : bool := (off <=? i) && (i <? off + size).

(** The fields whose mask is an [int]. *)
Definition int_field (size off : Z) : Prop := 0 <= size < 31 /\ 0 <= off < 32 /\ (size = 0 \/ size + off <= 31).

Lemma ones_shift_bound size off : 0 <= size -> 0 <= off -> Z.shiftl (Z.ones size) off < 2 ^ 31 <-> size = 0 \/ size + off <= 31.
Proof.
  intros Hs Ho. rewrite Z.shiftl_mul_pow2, Z.ones_equiv, <- Z.sub_1_r by lia.
  assert (Hp : 0 < 2 ^ off) by (apply Z.pow_pos_nonneg; lia). split.
  - intros Hlt. destruct (Z.eq_dec size 0); [by left|right]. apply Z.nlt_ge. intros Hgt.
    assert (E : 2 ^ 31 <= 2 ^ (size - 1) * 2 ^ off) by (rewrite <- Z.pow_add_r by lia; apply Z.pow_le_mono_r; lia).
    assert (1 <= 2 ^ (size - 1)) by (apply (Z.pow_le_mono_r 2 0); lia).
    assert (2 ^ size = 2 * 2 ^ (size - 1)) by (rewrite <- Z.pow_succ_r by lia; f_equal; lia). nia.
  - intros [-> |Hle]; [by rewrite Z.mul_0_l|].
    assert (2 ^ size * 2 ^ off <= 2 ^ 31) by (rewrite <- Z.pow_add_r by lia; apply Z.pow_le_mono_r; lia). nia.
Qed.

Lemma field_mask_some size off : int_field size off -> field_mask size off = Some (Z.shiftl (Z.ones size) off).
Proof.
  intros (Hs & Ho & Hw). unfold field_mask. rewrite size_mask_ones by done. apply shl_int_some; [done| |by apply ones_shift_bound; lia].
  rewrite Z.ones_equiv. pose proof (Z.pow_pos_nonneg 2 size). lia.
Qed.
Lemma field_mask_none size off : ~ int_field size off -> field_mask size off = None.
Proof.
  intros H. unfold field_mask. destruct (decide (0 <= size < 31)) as [Hs|Hs]; [|by rewrite size_mask_wide].
  rewrite size_mask_ones by done. cbn. destruct (shl_int _ off) eqn:E; [|done].
  destruct (proj1 (shl_int_iff _ off) (mk_is_Some _ _ E)) as (Ho & _ & Hlt).
  destruct H. apply ones_shift_bound in Hlt; [by split|lia..].
Qed.

Lemma field_mask_bits size off : int_field size off ->
  exists m, field_mask size off = Some m /\
    forall i, 0 <= i -> Z.testbit m i = (i <? 32) && in_field size off i.
Proof.
  intros Hf. exists (Z.shiftl (Z.ones size) off). split; [by apply field_mask_some|].
  destruct Hf as (Hs & Ho & Hw). intros i Hi. unfold in_field. rewrite shiftl_testbit by lia.
  destruct (Z.leb_spec off i); [|by rewrite andb_false_r]. rewrite ones_testbit by lia.
  destruct (Z.ltb_spec (i - off) size), (Z.ltb_spec i (off + size)), (Z.ltb_spec i 32); (done || lia).
Qed.

Lemma u32_testbit x i : 0 <= i -> Z.testbit (u32 x) i = (i <? 32) && Z.testbit x i.
Proof. intros. unfold u32. by rewrite wrap_testbit by lia. Qed.

(** A nonnegative bit expression without bits from 32 up is a 32-bit word. *)
Lemma word_of_bits x f : 0 <= x -> (forall i, 0 <= i -> Z.testbit x i = (i <? 32) && f i) ->
  0 <= x < 2 ^ 32.
Proof.
  intros Hx Hb. apply testbit_bound; [lia|done|]. intros i Hi. rewrite Hb by lia.
  by destruct (Z.ltb_spec i 32); [lia|].
Qed.

(** [r] is [dst] with the field of [size] bits at [off] given by [src]. *)
Definition has_field (r dst src size off : Z) : Prop :=
  0 <= r < 2 ^ 32 /\
  forall i, 0 <= i < 32 -> Z.testbit r i = if in_field size off i then Z.testbit src (i - off) else Z.testbit dst i.

(** The part of [src] that is shifted into the field. *)
Lemma src_shift src size off : int_field size off ->
  shl_int (u32 src &&& Z.ones size) off = Some (Z.shiftl (u32 src &&& Z.ones size) off).
Proof.
  intros (Hs & Ho & Hw). rewrite Z.land_ones by lia.
  pose proof (Z.mod_pos_bound (u32 src) (2 ^ size) ltac:(apply Z.pow_pos_nonneg; lia)) as Hm.
  pose proof (proj2 (ones_shift_bound size off ltac:(lia) ltac:(lia)) Hw) as Hb.
  apply shl_int_some; [done|lia|]. rewrite Z.shiftl_mul_pow2, Z.ones_equiv in * by lia.
  assert (0 < 2 ^ off) by (apply Z.pow_pos_nonneg; lia). nia.
Qed.

Lemma bitinsert_field dst src size off : int_field size off ->
  exists r, __BITINSERT dst src size off = Some r /\ has_field r dst src size off.
Proof.
  intros Hif. destruct (field_mask_bits size off Hif) as (f & Ef & Hf). pose proof Hif as (Hs & Ho & Hw).
  unfold __BITINSERT. rewrite Ef, size_mask_ones by done. cbn. rewrite src_shift by done. cbn.
  eexists. split; [done|].
  assert (Hb : forall i, 0 <= i -> Z.testbit ((u32 dst &&& Z.lnot f) ||| Z.shiftl (u32 src &&& Z.ones size) off) i =
    (i <? 32) && if in_field size off i then Z.testbit src (i - off) else Z.testbit dst i).
  { intros i Hi. rewrite Z.lor_spec, Z.land_spec, Z.lnot_spec by done. rewrite Hf by done.
    rewrite u32_testbit, shiftl_testbit by lia. unfold in_field.
    destruct (Z.leb_spec off i); [|destruct (Z.ltb_spec i 32); cbn; by rewrite ?andb_true_r, ?andb_false_r, ?orb_false_r].
    rewrite Z.land_spec, u32_testbit, ones_testbit by lia.
    destruct (Z.ltb_spec (i - off) 32), (Z.ltb_spec (i - off) size), (Z.ltb_spec i (off + size)), (Z.ltb_spec i 32); try lia;
      cbn; by rewrite ?andb_true_r, ?andb_false_r, ?orb_false_r. }
  split; [|intros i Hi; rewrite Hb by lia; by destruct (Z.ltb_spec i 32); [|lia]].
  refine (word_of_bits _ _ _ Hb). apply Z.lor_nonneg. split; [apply Z.land_nonneg; left; apply u32_range|].
  apply Z.shiftl_nonneg, Z.land_nonneg. left. apply u32_range.
Qed.
Lemma bitinsert_none dst src size off : ~ int_field size off -> __BITINSERT dst src size off = None.
Proof. intros H. unfold __BITINSERT. by rewrite field_mask_none. Qed.

Lemma bitextractu_field x size off : 0 <= size < 31 -> 0 <= off < 32 ->
  __BITEXTRACTU x size off = Some (Z.shiftr x off mod 2 ^ size).
Proof.
  intros Hs Ho. unfold __BITEXTRACTU, shr. rewrite size_mask_ones, shift_ok_true by done. cbn.
  by rewrite Z.land_ones by lia.
Qed.
Lemma bitextractu_none x size off : ~ (0 <= size < 31 /\ 0 <= off < 32) -> __BITEXTRACTU x size off = None.
Proof.
  intros H. unfold __BITEXTRACTU, shr. destruct (decide (0 <= off < 32)); [|by rewrite shift_ok_false].
  rewrite size_mask_wide by tauto. by destruct (shift_ok off).
Qed.

(** Extracting a field that was inserted gives the value back. *)
Lemma extract_insert dst src size off r : int_field size off ->
  __BITINSERT dst src size off = Some r -> __BITEXTRACTU r size off = Some (src mod 2 ^ size).
Proof.
  intros Hif E. destruct (bitinsert_field dst src size off Hif) as (r' & E' & _ & Hb). destruct Hif as (Hs & Ho & Hw).
  rewrite E' in E. injection E as ->. rewrite bitextractu_field by done. f_equal. apply Z.bits_inj'. intros i Hi.
  rewrite !mod_testbit by lia. destruct (Z.ltb_spec i size); [|done]. rewrite shiftr_testbit, Hb by lia.
  unfold in_field. destruct (Z.leb_spec off (i + off)), (Z.ltb_spec (i + off) (off + size)); try lia.
  cbn. do 2 f_equal. lia.
Qed.

(** Extracting a field is not affected by an insertion elsewhere. *)
Lemma extract_insert_other dst src size off size' off' r : int_field size off ->
  0 <= size' < 31 -> 0 <= off' < 32 -> off' + size' <= 32 -> (off' + size' <= off \/ off + size <= off') ->
  __BITINSERT dst src size off = Some r -> __BITEXTRACTU r size' off' = __BITEXTRACTU dst size' off'.
Proof.
  intros Hif Hs' Ho' Hw Hd E. destruct (bitinsert_field dst src size off Hif) as (r' & E' & _ & Hb).
  rewrite E' in E. injection E as ->. rewrite !bitextractu_field by lia. f_equal. apply Z.bits_inj'. intros i Hi.
  rewrite !mod_testbit by lia. destruct (Z.ltb_spec i size'); [|done]. rewrite !shiftr_testbit, Hb by lia.
  unfold in_field. destruct (Z.leb_spec off (i + off')), (Z.ltb_spec (i + off') (off + size)); (done || lia).
Qed.

Lemma bitset_field x size off : int_field size off ->
  exists r, __BITSET x size off = Some r /\ has_field r x (-1) size off.
Proof.
  intros Hif. destruct (field_mask_bits size off Hif) as (f & Ef & Hf). unfold __BITSET. rewrite Ef. eexists. split; [done|].
  assert (Hb : forall i, 0 <= i -> Z.testbit (u32 x ||| f) i = (i <? 32) && (in_field size off i || Z.testbit x i)).
  { intros i Hi. rewrite Z.lor_spec, u32_testbit, Hf by done. by destruct (i <? 32), (in_field size off i), (Z.testbit x i). }
  split; [refine (word_of_bits _ _ _ Hb)|].
  - apply Z.lor_nonneg. split; [apply u32_range|]. apply Z.bits_iff_nonneg_ex. exists 32. intros m Hm.
    rewrite Hf by lia. by destruct (Z.ltb_spec m 32); [lia|].
  - intros i Hi. rewrite Hb by lia. destruct (Z.ltb_spec i 32); [|lia]. unfold in_field.
    destruct (Z.leb_spec off i); cbn; [|done]. rewrite Z.bits_m1 by lia. by destruct (i <? off + size).
Qed.

Lemma bitclr_field x size off : int_field size off ->
  exists r, __BITCLR x size off = Some r /\ has_field r x 0 size off.
Proof.
  intros Hif. destruct (field_mask_bits size off Hif) as (f & Ef & Hf). unfold __BITCLR. rewrite Ef. eexists. split; [done|].
  assert (Hb : forall i, 0 <= i -> Z.testbit (u32 x &&& Z.lnot f) i = (i <? 32) && (negb (in_field size off i) && Z.testbit x i)).
  { intros i Hi. rewrite Z.land_spec, Z.lnot_spec, u32_testbit, Hf by done. by destruct (i <? 32), (in_field size off i), (Z.testbit x i). }
  split; [refine (word_of_bits _ _ _ Hb)|].
  - apply Z.land_nonneg. left. apply u32_range.
  - intros i Hi. rewrite Hb by lia. destruct (Z.ltb_spec i 32); [|lia]. rewrite Z.bits_0.
    by destruct (in_field size off i), (Z.testbit x i).
Qed.

Lemma rotr_bits x i : 0 <= x < 2 ^ 32 -> 0 <= i < 32 -> Z.testbit (__ROTR x) i = Z.testbit x ((i + 1) mod 32).
Proof.
  intros Hx Hi. unfold __ROTR. rewrite Z.lor_spec, Z.land_spec, !u32_testbit, shiftr_testbit, shiftl_testbit by lia.
  change 0x7FFFFFFF with (Z.ones 31). rewrite ones_testbit by lia. destruct (Z.ltb_spec i 32); [|lia].
  destruct (Z.eq_dec i 31) as [->|Hne].
  - cbn. by rewrite andb_false_r.
  - rewrite (Z.mod_small (i + 1)) by lia. destruct (Z.ltb_spec i 31), (Z.leb_spec 31 i); try lia.
    cbn. by rewrite andb_true_r, orb_false_r.
Qed.

Lemma defined_iff {A} (o : option A) (P : Prop) : P \/ ~ P -> (P -> is_Some o) -> (~ P -> o = None) -> is_Some o <-> P.
Proof. intros [HP|HP] Hy Hn; [tauto|]. rewrite (Hn HP). split; [by intros [? [=]]|done]. Qed.

(** C25. The bit-field macros do what their names say wherever C defines them, and
    where that is: the masks of BITINSERT, BITSET and BITCLR are [int]s, so that
    these macros are defined exactly for the fields that end below bit 31 and have
    at most 30 bits, and for those without bits; there BITINSERT replaces exactly
    the field, BITSET and BITCLR set and clear exactly it.  BITEXTRACTU is defined
    exactly up to 30 bits, at any offset, and returns the field; what was inserted
    is extracted again; and ROTR rotates a word by one. *)
Theorem bit_macros_correct x src size off :
  (is_Some (__BITINSERT x src size off) <-> int_field size off) /\
  (is_Some (__BITSET x size off) <-> int_field size off) /\
  (is_Some (__BITCLR x size off) <-> int_field size off) /\
  (is_Some (__BITEXTRACTU x size off) <-> 0 <= size < 31 /\ 0 <= off < 32) /\
  (forall r, __BITINSERT x src size off = Some r ->
     has_field r x src size off /\ __BITEXTRACTU r size off = Some (src mod 2 ^ size)) /\
  (forall r, __BITSET x size off = Some r -> has_field r x (-1) size off) /\
  (forall r, __BITCLR x size off = Some r -> has_field r x 0 size off) /\
  (forall r, __BITEXTRACTU x size off = Some r -> r = Z.shiftr x off mod 2 ^ size) /\
  (0 <= x < 2 ^ 32 -> forall i, 0 <= i < 32 -> Z.testbit (__ROTR x) i = Z.testbit x ((i + 1) mod 32)).
Proof.
  assert (Hsplit : int_field size off \/ ~ int_field size off) by (unfold int_field; lia).
  assert (Hx : (0 <= size < 31 /\ 0 <= off < 32) \/ ~ (0 <= size < 31 /\ 0 <= off < 32)) by lia.
  assert (Hs : ~ int_field size off -> __BITSET x size off = None) by (intros; unfold __BITSET; by rewrite field_mask_none).
  assert (Hc : ~ int_field size off -> __BITCLR x size off = None) by (intros; unfold __BITCLR; by rewrite field_mask_none).
  split; [|split; [|split; [|split]]].
  - apply defined_iff; [done|intros H; destruct (bitinsert_field x src size off H) as (r & -> & _); done|apply bitinsert_none].
  - apply defined_iff; [done|intros H; destruct (bitset_field x size off H) as (r & -> & _); done|done].
  - apply defined_iff; [done|intros H; destruct (bitclr_field x size off H) as (r & -> & _); done|done].
  - apply defined_iff; [done|intros [? ?]; rewrite bitextractu_field by done; done|apply bitextractu_none].
  - split; [|split; [|split; [|split]]].
    + intros r E. destruct Hsplit as [H|H]; [|by rewrite bitinsert_none in E].
      split; [destruct (bitinsert_field x src size off H) as (r' & E' & F); by simplify_eq|by apply (extract_insert x src)].
    + intros r E. destruct Hsplit as [H|H]; [|by rewrite Hs in E]. destruct (bitset_field x size off H) as (r' & E' & F). by simplify_eq.
    + intros r E. destruct Hsplit as [H|H]; [|by rewrite Hc in E]. destruct (bitclr_field x size off H) as (r' & E' & F). by simplify_eq.
    + intros r E. destruct Hx as [H|H]; [|by rewrite bitextractu_none in E]. rewrite bitextractu_field in E by tauto. by injection E.
    + intros Hr i Hi. by apply rotr_bits.
Qed.

(** A nibble is inserted below bit 16; at bit 28 the macro is not defined. *)
Lemma bit_macros_correct_witness :
  (exists r, __BITINSERT 0xFFFF0000 0x5 4 12 = Some r /\ r = 0xFFFF5000 /\ __BITEXTRACTU r 4 12 = Some 5) /\
  ~ is_Some (__BITINSERT 0 0x5 4 28) /\ Z.testbit (__ROTR 1) 31 = true.
Proof.
  split; [|split].
  - destruct (bit_macros_correct 0xFFFF0000 0x5 4 12) as (_ & _ & _ & _ & H & _).
    exists 0xFFFF5000. split; [by vm_compute|]. split; [done|]. by apply H.
  - intros H%(bit_macros_correct 0 0x5 4 28). unfold int_field in H. lia.
  - destruct (bit_macros_correct 1 0 0 0) as (_ & _ & _ & _ & _ & _ & _ & _ & H). rewrite H by lia. done.
Defined.

Lemma bitextract_unsigned x size off : 1 <= size < 31 -> 0 <= off < 32 ->
  __BITEXTRACT x size off = __BITEXTRACTU x size off.
Proof.
  intros Hs Ho. rewrite bitextractu_field by lia. unfold __BITEXTRACT, shr, shl_u32.
  rewrite size_mask_ones, !shift_ok_true by lia. cbn. rewrite Z.land_ones by lia. f_equal.
  pose proof (Z.mod_pos_bound (Z.shiftr x off) (2 ^ size) ltac:(apply Z.pow_pos_nonneg; lia)).
  set (v := Z.shiftr x off mod 2 ^ size) in *. unfold u32.
  rewrite shiftl_wrap; [|lia|by replace (32 - (32 - size)) with size by lia].
  rewrite Z.shiftr_shiftl_l by lia. by rewrite Z.sub_diag.
Qed.

(** __BITEXTRACT is meant to sign-extend the field it reads, but its mask is
    unsigned, so that it always returns what __BITEXTRACTU returns: the field of four
    ones is 15, not -1.  A field without bits shifts by 32, which is undefined. *)
Theorem bitextract_never_signed x size off : 0 <= off < 32 ->
  (1 <= size < 31 -> __BITEXTRACT x size off = __BITEXTRACTU x size off /\
                     __BITEXTRACT_R x size off = __BITEXTRACTU_R x size off) /\
  __BITEXTRACT x 0 off = None /\ __BITEXTRACT 0xF0 4 4 = Some 15.
Proof.
  intros Ho. split; [|split; [|done]].
  - intros Hs. split; by apply bitextract_unsigned.
  - unfold __BITEXTRACT, shr, shl_u32. by rewrite size_mask_ones, (shift_ok_true off) by lia.
Qed.

Lemma bitextract_never_signed_witness : __BITEXTRACT 0xABCD 8 4 = __BITEXTRACTU 0xABCD 8 4.
Proof. apply (bitextract_never_signed 0xABCD 8 4); lia. Defined.

(** ** Dot products *)
Lemma s32_small x : - 2 ^ 31 <= x < 2 ^ 31 -> s32 x = x.
Proof. intros H. word_lia. Qed.
Lemma swrap_small w x : 0 < w -> - 2 ^ (w - 1) <= x < 2 ^ (w - 1) -> swrap w x = x.
Proof.
  intros Hw Hx. unfold swrap. rewrite Z.mod_small; [lia|].
  replace (2 ^ w) with (2 ^ (w - 1) + 2 ^ (w - 1)); [lia|].
  rewrite Z.add_diag, <- (Z.pow_succ_r 2 (w - 1)) by lia. f_equal. lia.
Qed.

Definition is_short (x : Z) : Prop := - 2 ^ 15 <= x < 2 ^ 15.
Definition short2 (x : v2) : Prop := is_short x.1 /\ is_short x.2.
Definition char4 (x : v4) : Prop := let '(a, b, c, d) := x in byte_ok a /\ byte_ok b /\ byte_ok c /\ byte_ok d.
Definition dot2 (x y : v2) : Z := x.1 * y.1 + x.2 * y.2.
Definition dot4 (x y : v4) : Z :=
  let '(a, b, c, d) := x in let '(e, f, g, h) := y in a * e + b * f + c * g + d * h.
Definition lowest2 : v2 := (- 2 ^ 15, - 2 ^ 15).

Lemma short_product x y : is_short x -> is_short y ->
  - 2 ^ 30 < x * y <= 2 ^ 30 /\ (x * y = 2 ^ 30 -> x = - 2 ^ 15 /\ y = - 2 ^ 15).
Proof. unfold is_short. change (2 ^ 15) with 32768. change (2 ^ 30) with 1073741824. intros Hx Hy. nia. Qed.
Lemma byte_product x y : byte_ok x -> byte_ok y -> 0 <= x * y <= 65025.
Proof. unfold byte_ok. nia. Qed.

(** The dot products of two shorts are exact except for the one pair of vectors
    whose sum reaches 2^31, where it wraps to the most negative number; those of four
    characters are exact, and the accumulating form is exact while the sum stays an
    int.  Plain char being unsigned, the signed four-element product is the unsigned
    one: an element of -1 counts as 255. *)
Theorem dot_products_exact x y (a b : v4) z : short2 x -> short2 y -> char4 a -> char4 b ->
  (if decide (x = lowest2 /\ y = lowest2) then __DOTP2 x y = - 2 ^ 31 else __DOTP2 x y = dot2 x y) /\
  (- 2 ^ 31 <= z + dot2 x y < 2 ^ 31 -> __SUMDOTP2 x y z = z + dot2 x y) /\
  __DOTPU4 a b = dot4 a b /\
  (forall p q, __DOTP4 p q = __DOTPU4 p q) /\ __DOTP4 (__PACK4 (-1) 0 0 0) (__PACK4 1 0 0 0) = 255.
Proof.
  destruct x as [x0 x1], y as [y0 y1]. intros [Hx0 Hx1] [Hy0 Hy1] Ha Hb. cbn [fst snd] in *.
  unfold __DOTP2, __SUMDOTP2, dot2, s16. cbn [fst snd].
  rewrite !(swrap_small 16) by (lia || assumption).
  pose proof (short_product x0 y0 Hx0 Hy0) as [B0 E0]. pose proof (short_product x1 y1 Hx1 Hy1) as [B1 E1].
  split; [|split; [|split; [|split]]].
  - case_decide as D.
    + destruct D as [Ex Ey]. unfold lowest2 in *. by simplify_eq.
    + apply s32_small. change (2 ^ 31) with (2 * 2 ^ 30). split; [lia|].
      destruct (decide (x0 * y0 = 2 ^ 30)) as [F0|]; [|lia]. destruct (decide (x1 * y1 = 2 ^ 30)) as [F1|]; [|lia].
      exfalso. apply D. apply E0 in F0 as [-> ->]. by apply E1 in F1 as [-> ->].
  - intros Hz. rewrite <- Z.add_assoc. by apply s32_small.
  - destruct a as [[[a0 a1] a2] a3], b as [[[b0 b1] b2] b3].
    destruct Ha as (?&?&?&?), Hb as (?&?&?&?). unfold __DOTPU4, dot4.
    rewrite !u8_small by assumption.
    pose proof (byte_product a0 b0). pose proof (byte_product a1 b1). pose proof (byte_product a2 b2).
    pose proof (byte_product a3 b3). apply s32_small. change (2 ^ 31) with 2147483648. intuition lia.
  - done.
  - done.
Qed.

Lemma dot_products_exact_witness : __DOTP2 (300, -200) (-100, 50) = -40000 /\ __DOTPU4 (255, 255, 255, 255) (255, 255, 255, 255) = 260100.
Proof.
  pose proof (dot_products_exact (300, -200) (-100, 50) (255, 255, 255, 255) (255, 255, 255, 255) 0
    ltac:(split; split; vm_compute; congruence) ltac:(split; split; vm_compute; congruence)
    ltac:(repeat split; vm_compute; congruence) ltac:(repeat split; vm_compute; congruence)) as (H1 & _ & H2 & _).
  rewrite decide_False in H1 by (intros [[=] _]). split; [exact H1 | exact H2].
Defined.

(** ** Rounding *)
Lemma round_shift x n : 1 <= n < 32 -> - 2 ^ 31 <= x < 2 ^ 31 - 2 ^ (n - 1) ->
  exists r p, round_bit n = Some p /\ shr (s32 (x + p)) n = Some r /\
    2 ^ n * r - 2 ^ (n - 1) <= x < 2 ^ n * r + 2 ^ (n - 1).
Proof.
  intros Hn Hx.
  assert (Hp : 0 < 2 ^ (n - 1) <= 2 ^ 30) by (split; [apply Z.pow_pos_nonneg|apply Z.pow_le_mono_r]; lia).
  assert (E2 : 2 ^ n = 2 * 2 ^ (n - 1)) by (rewrite <- Z.pow_succ_r by lia; f_equal; lia).
  change (2 ^ 30) with 1073741824 in *. change (2 ^ 31) with 2147483648 in *.
  exists ((x + 2 ^ (n - 1)) / 2 ^ n), (2 ^ (n - 1)). split; [|split].
  - unfold round_bit. rewrite shl_int_some; rewrite ?Z.shiftl_mul_pow2, ?Z.mul_1_l by lia; (done || lia).
  - unfold shr. rewrite shift_ok_true by lia. rewrite s32_small by (change (2 ^ 31) with 2147483648; lia).
    by rewrite Z.shiftr_div_pow2 by lia.
  - pose proof (Z.div_mod (x + 2 ^ (n - 1)) (2 ^ n) ltac:(lia)).
    pose proof (Z.mod_pos_bound (x + 2 ^ (n - 1)) (2 ^ n) ltac:(lia)). lia.
Qed.

(** The rounding macros return the multiple of [2^n] nearest to the exact value,
    divided by [2^n], as long as adding the rounding bit stays an int; __MACHHURN
    alone adds [n] and returns the unshifted sum. *)
Theorem rounding_is_nearest x a b n : 1 <= n < 32 ->
  (- 2 ^ 31 <= x < 2 ^ 31 - 2 ^ (n - 1) ->
   exists r, __ROUNDNORM x n = Some r /\ 2 ^ n * r - 2 ^ (n - 1) <= x < 2 ^ n * r + 2 ^ (n - 1)) /\
  (let y := x + s16 a * s16 b in - 2 ^ 31 <= y < 2 ^ 31 - 2 ^ (n - 1) ->
   exists r, __MACSRN x a b n = Some r /\ 2 ^ n * r - 2 ^ (n - 1) <= y < 2 ^ n * r + 2 ^ (n - 1)) /\
  __MACHHURN 0 0x20000 0x30000 1 = 7 /\ __MACHHUN 0 0x20000 0x30000 1 = Some 3.
Proof.
  intros Hn. split; [|split; [|done]].
  - intros Hx. destruct (round_shift x n Hn Hx) as (r & p & Ep & Er & H). exists r. unfold __ROUNDNORM.
    rewrite Ep. cbn. by rewrite Er.
  - intros y Hy. destruct (round_shift y n Hn Hy) as (r & p & Ep & Er & H). exists r. unfold __MACSRN.
    rewrite Ep. cbn. fold y. by rewrite Er.
Qed.
