(* ===== verification/Regs.v ===== *)
(** * Regs: memory-mapped registers as the archi headers describe them

    A generated header of boot_code/include/archi describes each register several
    times over: its offset, the position, width and mask of its fields, a union with
    a bit-field struct, a member of the peripheral's struct, and GET, SET and shift
    macros.  A [header] holds these tables as they are written; [header_ok] compares
    them, and [header_sound] says what agreement means for the code that uses them. *)

From S2P Require Import Prelude Builtins.

(** ** The tables of a header *)
Record field := mk_field {
  f_reg : string; f_name : string;
  f_bit : Z; f_width : Z; f_mask : Z        (* ..._BIT, ..._WIDTH, ..._MASK *)
}.

(** The macros of a field: the size and offset its GET, GETS and SET pass to
    ARCHI_BEXTRACTU, ARCHI_BEXTRACT and ARCHI_BINSERT, and the shift of the last. *)
Record macros := mk_macros {
  m_reg : string; m_name : string;
  m_get : Z * Z; m_gets : Z * Z; m_set : Z * Z; m_shift : Z
}.

(** A union of a bit-field struct with its raw word: members in order, with widths. *)
Record union := mk_union { u_reg : string; u_members : list (string * Z) }.

Record header := mk_header {
  h_offsets : list (string * Z);
  h_fields : list field;
  h_unions : list union;
  h_struct : list string;
  h_macros : list macros
}.

Definition macro_get (m : macros) (value : Z) : option Z := ARCHI_BEXTRACTU value (m_get m).1 (m_get m).2.
Definition macro_gets (m : macros) (value : Z) : option Z := ARCHI_BEXTRACT value (m_gets m).1 (m_gets m).2.
Definition macro_set (m : macros) (value field : Z) : option Z :=
  ARCHI_BINSERT value field (m_set m).1 (m_set m).2.
Definition macro_val (m : macros) (val : Z) : Z := u32 (Z.shiftl val (m_shift m)).

(** ** Bit-field members

    The RISC-V ABI allocates them from the least significant bit. *)
Fixpoint layout (off : Z) (l : list (string * Z)) : list (string * (Z * Z)) :=
  match l with
  | [] => []
  | (n, w) :: l' => (n, (off, w)) :: layout (off + w) l'
  end.

Definition bitfield_get (raw off w : Z) : Z := Z.shiftr raw off mod 2 ^ w.
Definition bitfield_set (raw x off w : Z) : Z :=
  (raw &&& Z.lnot (Z.shiftl (Z.ones w) off)) ||| Z.shiftl (x mod 2 ^ w) off.

Definition member (u : union) (n : string) : option (Z * Z) :=
  snd <$> find (fun p => (p.1 =? n)%string) (layout 0 (u_members u)).
Definition member_get (u : union) (n : string) (raw : Z) : option Z :=
  '(o, w) ← member u n; Some (bitfield_get raw o w).
Definition member_set (u : union) (n : string) (raw x : Z) : option Z :=
  '(o, w) ← member u n; Some (bitfield_set raw x o w).

(** ** Agreement of the tables *)
Definition lower_ascii (c : Ascii.ascii) : Ascii.ascii :=
  let n := Ascii.nat_of_ascii c in
  if (65 <=? n)%nat && (n <=? 90)%nat then Ascii.ascii_of_nat (n + 32) else c.
Fixpoint lower (s : string) : string :=
  match s with
  | EmptyString => EmptyString
  | String c s' => String (lower_ascii c) (lower s')
  end.

Definition same_field (r n r' n' : string) : bool := (r =? r')%string && (n =? n')%string.
Definition pair_eqb (p q : Z * Z) : bool := (p.1 =? q.1) && (p.2 =? q.2).
Definition apart (f g : field) : bool :=
  (f_bit f + f_width f <=? f_bit g) || (f_bit g + f_width g <=? f_bit f).

Definition field_wf (f : field) : bool := (0 <=? f_bit f) && (1 <=? f_width f).
Definition field_ok (h : header) (f : field) : bool :=
  (f_bit f + f_width f <=? 32)
  && (f_mask f =? Z.shiftl (Z.ones (f_width f)) (f_bit f))
  && existsb (fun u => (u_reg u =? lower (f_reg f))%string
       && match member u (lower (f_name f)) with
          | Some p => pair_eqb p (f_bit f, f_width f) | None => false end) (h_unions h)
  && forallb (fun g => negb (f_reg g =? f_reg f)%string || (f_name g =? f_name f)%string || apart f g) (h_fields h).
Definition macros_ok (h : header) (m : macros) : bool :=
  existsb (fun f => same_field (f_reg f) (f_name f) (m_reg m) (m_name m)
     && pair_eqb (m_get m) (f_width f, f_bit f) && pair_eqb (m_gets m) (f_width f, f_bit f)
     && pair_eqb (m_set m) (f_width f, f_bit f) && (m_shift m =? f_bit f)) (h_fields h).
Definition placed (h : header) (p : string * Z) : bool :=
  existsb (fun q => (q.2 =? lower p.1)%string && (p.2 =? 4 * Z.of_nat q.1)) (imap pair (h_struct h)).

(** Names are unique; fields and members have a width; the struct starts with the
    registers in order; macros repeat the constants of their field. *)
Definition header_wf (h : header) : bool :=
  bool_decide (NoDup (map fst (h_offsets h)))
  && bool_decide (NoDup (map (fun f => (f_reg f, f_name f)) (h_fields h)))
  && forallb field_wf (h_fields h)
  && forallb (fun u => forallb (fun m => 1 <=? m.2) (u_members u)) (h_unions h)
  && bool_decide (take (length (h_offsets h)) (h_struct h) = map (fun p => lower p.1) (h_offsets h))
  && forallb (macros_ok h) (h_macros h).

(** The registers that are not where the struct has them, and the fields whose
    tables disagree or overlap. *)
Definition misplaced (h : header) : list string := map fst (filter (fun p => placed h p = false) (h_offsets h)).
Definition clashing (h : header) : list (string * string) :=
  map (fun f => (f_reg f, f_name f)) (filter (fun f => field_ok h f = false) (h_fields h)).

(** * Theorems *)

(** ** Bit-field members *)
Lemma bitfield_set_bits raw x off w i : 0 <= off -> 0 <= w -> 0 <= i ->
  Z.testbit (bitfield_set raw x off w) i = if in_field w off i then Z.testbit x (i - off) else Z.testbit raw i.
Proof.
  intros Ho Hw Hi. unfold bitfield_set, in_field.
  rewrite Z.lor_spec, Z.land_spec, Z.lnot_spec, !shiftl_testbit by lia.
  destruct (Z.leb_spec off i); [|by rewrite andb_true_r, orb_false_r].
  rewrite mod_testbit, ones_testbit by lia.
  destruct (Z.ltb_spec (i - off) w), (Z.ltb_spec i (off + w)); try lia;
    by rewrite ?andb_true_r, ?andb_false_r, ?orb_false_r.
Qed.

Lemma bitfield_get_bits raw off w i : 0 <= off -> 0 <= w -> 0 <= i ->
  Z.testbit (bitfield_get raw off w) i = (i <? w) && Z.testbit raw (i + off).
Proof. intros. unfold bitfield_get. by rewrite mod_testbit, shiftr_testbit by lia. Qed.

Lemma bitfield_get_set raw x off w : 0 <= off -> 0 <= w ->
  bitfield_get (bitfield_set raw x off w) off w = x mod 2 ^ w.
Proof.
  intros Ho Hw. apply Z.bits_inj'. intros i Hi.
  rewrite bitfield_get_bits, bitfield_set_bits, mod_testbit by lia. unfold in_field.
  destruct (Z.ltb_spec i w); [|done]. destruct (Z.leb_spec off (i + off)), (Z.ltb_spec (i + off) (off + w)); try lia.
  cbn. f_equal. lia.
Qed.

Lemma bitfield_get_set_other raw x off w off' w' : 0 <= off -> 0 <= w -> 0 <= off' -> 0 <= w' ->
  off + w <= off' \/ off' + w' <= off ->
  bitfield_get (bitfield_set raw x off w) off' w' = bitfield_get raw off' w'.
Proof.
  intros Ho Hw Ho' Hw' Hd. apply Z.bits_inj'. intros i Hi. rewrite !bitfield_get_bits by lia.
  destruct (Z.ltb_spec i w'); [|done]. cbn. rewrite bitfield_set_bits by lia. unfold in_field.
  destruct (Z.leb_spec off (i + off')), (Z.ltb_spec (i + off') (off + w)); (done || lia).
Qed.

Lemma bitfield_set_range raw x off w : 0 <= off -> 0 <= w -> off + w <= 32 -> 0 <= raw < 2 ^ 32 ->
  0 <= bitfield_set raw x off w < 2 ^ 32.
Proof.
  intros Ho Hw Hs Hr. apply testbit_bound; [lia| |].
  - unfold bitfield_set. apply Z.lor_nonneg. split; [apply Z.land_nonneg; lia|].
    apply Z.shiftl_nonneg. apply Z.mod_pos_bound, Z.pow_pos_nonneg; lia.
  - intros i Hi. rewrite bitfield_set_bits by lia. unfold in_field.
    destruct (Z.ltb_spec i (off + w)); [lia|]. rewrite andb_false_r. by apply (testbit_above 32).
Qed.

(** The mask of a field isolates its bits. *)
Lemma mask_isolates v off w : 0 <= off -> 0 <= w ->
  v &&& Z.shiftl (Z.ones w) off = Z.shiftl (bitfield_get v off w) off.
Proof.
  intros Ho Hw. apply Z.bits_inj'. intros i Hi. rewrite Z.land_spec, !shiftl_testbit by lia.
  destruct (Z.leb_spec off i); [|by rewrite andb_false_r]. rewrite bitfield_get_bits, ones_testbit by lia. cbn.
  rewrite andb_comm. by replace (i - off + off) with i by lia.
Qed.

(** ** Macros and bit-field members *)
Lemma binsert_bitfield v x size off : 0 <= size < 31 -> 0 <= off < 32 -> off + size <= 31 -> 0 <= v < 2 ^ 32 ->
  ARCHI_BINSERT v x size off = Some (bitfield_set v x off size).
Proof.
  intros Hs Ho Hw Hv. destruct (bitinsert_field v x size off) as (r & E & Hr & Hb); [split; lia|].
  unfold ARCHI_BINSERT. rewrite E. f_equal. apply Z.bits_inj'. intros i Hi.
  rewrite bitfield_set_bits by lia. destruct (Z.lt_ge_cases i 32); [by apply Hb|].
  rewrite (testbit_above 32 r) by lia. unfold in_field.
  destruct (Z.ltb_spec i (off + size)); [lia|]. rewrite andb_false_r. symmetry. by apply (testbit_above 32).
Qed.
Lemma binsert_none v x size off : 1 <= size -> 31 < off + size -> ARCHI_BINSERT v x size off = None.
Proof. intros Hs Hw. apply bitinsert_none. unfold int_field. lia. Qed.

Lemma bextractu_bitfield v size off : 0 <= size < 31 -> 0 <= off < 32 ->
  ARCHI_BEXTRACTU v size off = Some (bitfield_get v off size).
Proof. apply bitextractu_field. Qed.

Lemma bextract_bitfield v size off : 1 <= size < 31 -> 0 <= off < 32 ->
  ARCHI_BEXTRACT v size off = Some (bitfield_get v off size).
Proof. intros Hs Ho. unfold ARCHI_BEXTRACT. rewrite bitextract_unsigned by lia. apply bitextractu_field; lia. Qed.

Lemma wide_macros v x size off : 31 <= size -> 0 <= off < 32 ->
  ARCHI_BEXTRACTU v size off = None /\ ARCHI_BEXTRACT v size off = None /\ ARCHI_BINSERT v x size off = None.
Proof.
  intros Hs Ho. unfold ARCHI_BEXTRACTU, ARCHI_BEXTRACT, ARCHI_BINSERT, __BITEXTRACTU, __BITEXTRACT, __BITINSERT, field_mask.
  rewrite size_mask_wide by lia. by destruct (shr v off).
Qed.

(** ** What agreement means

    A field can be reached through its mask, its bit-field member and its macros
    alike, and writing it leaves the other fields of the register alone.  Wide and high
    fields are the exception: the masks of the macros are [int]s, so that C defines
    none of them for a field of 31 or 32 bits, and not SET for a field that holds
    bit 31. *)
Record field_sound (h : header) (f : field) : Prop := {
  fs_range : 0 <= f_bit f /\ 1 <= f_width f /\ f_bit f + f_width f <= 32;
  fs_mask : forall v, v &&& f_mask f = Z.shiftl (bitfield_get v (f_bit f) (f_width f)) (f_bit f);
  fs_member : exists u, u ∈ h_unions h /\ u_reg u = lower (f_reg f) /\
    forall raw x, member_get u (lower (f_name f)) raw = Some (bitfield_get raw (f_bit f) (f_width f)) /\
                  member_set u (lower (f_name f)) raw x = Some (bitfield_set raw x (f_bit f) (f_width f));
  fs_others : forall g, g ∈ h_fields h -> f_reg g = f_reg f -> f_name g <> f_name f ->
    forall raw x, bitfield_get (bitfield_set raw x (f_bit f) (f_width f)) (f_bit g) (f_width g)
                  = bitfield_get raw (f_bit g) (f_width g)
}.

Record macros_sound (h : header) (m : macros) : Prop := {
  ms_field : exists f, f ∈ h_fields h /\ f_reg f = m_reg m /\ f_name f = m_name m /\
    forall v x, 0 <= v < 2 ^ 32 ->
    if f_width f <? 31 then
      macro_get m v = Some (bitfield_get v (f_bit f) (f_width f)) /\
      macro_gets m v = Some (bitfield_get v (f_bit f) (f_width f)) /\
      macro_set m v x =
        (if f_bit f + f_width f <? 32 then Some (bitfield_set v x (f_bit f) (f_width f)) else None) /\
      (0 <= x < 2 ^ f_width f -> macro_val m x = bitfield_set 0 x (f_bit f) (f_width f))
    else macro_get m v = None /\ macro_gets m v = None /\ macro_set m v x = None
}.

Definition placed_sound (h : header) (r : string) (o : Z) : Prop :=
  exists i, h_struct h !! i = Some (lower r) /\ o = 4 * Z.of_nat i.

(** The tables agree but for the registers [regs] and the fields [fields]. *)
Record header_sound_but (h : header) (regs : list string) (fields : list (string * string)) : Prop := {
  hs_struct : take (length (h_offsets h)) (h_struct h) = map (fun p => lower p.1) (h_offsets h);
  hs_offsets : forall r o, (r, o) ∈ h_offsets h -> placed_sound h r o <-> r ∉ regs;
  hs_fields : forall f, f ∈ h_fields h -> field_sound h f <-> (f_reg f, f_name f) ∉ fields;
  hs_macros : forall m, m ∈ h_macros h -> (m_reg m, m_name m) ∉ fields -> macros_sound h m
}.
Definition header_sound (h : header) : Prop := header_sound_but h [] [].

Lemma pair_eqb_eq p q : pair_eqb p q = true -> p = q.
Proof. destruct p, q. unfold pair_eqb. cbn. intros [->%Z.eqb_eq ->%Z.eqb_eq]%andb_true_iff. done. Qed.

(** *** Each check is what it stands for *)
Lemma mask_iff bit w mask : 0 <= bit -> 1 <= w ->
  mask = Z.shiftl (Z.ones w) bit <-> forall v, v &&& mask = Z.shiftl (bitfield_get v bit w) bit.
Proof.
  intros Hb Hw. split; [intros -> v; apply mask_isolates; lia|]. intros E. specialize (E (-1)).
  rewrite Z.land_m1_l in E. rewrite E. f_equal. unfold bitfield_get. apply Z.bits_inj'. intros i Hi.
  rewrite mod_testbit, shiftr_testbit, ones_testbit, Z.bits_m1 by lia. by rewrite andb_true_r.
Qed.

(** Two bit ranges that read the same out of every word are the same. *)
Lemma bitfield_get_inj o w o' w' : 0 <= o -> 1 <= w -> 0 <= o' -> 1 <= w' ->
  (forall raw, bitfield_get raw o w = bitfield_get raw o' w') -> o = o' /\ w = w'.
Proof.
  intros Ho Hw Ho' Hw' E.
  assert (Hbit : forall i j, 0 <= i -> 0 <= j -> (i <? w) && (i + o =? j) = (i <? w') && (i + o' =? j)).
  { intros i j Hi Hj. pose proof (f_equal (fun z => Z.testbit z i) (E (2 ^ j))) as B. cbv beta in B.
    rewrite !bitfield_get_bits, !Z.pow2_bits_eqb in B by lia. by rewrite (Z.eqb_sym (i + o)), (Z.eqb_sym (i + o')). }
  assert (o = o') as <-.
  { pose proof (Hbit 0 o ltac:(lia) Ho) as B.
    destruct (Z.ltb_spec 0 w), (Z.ltb_spec 0 w'), (Z.eqb_spec (0 + o) o), (Z.eqb_spec (0 + o') o); try done; lia. }
  split; [done|]. pose proof (Hbit (w - 1) (w - 1 + o) ltac:(lia) ltac:(lia)) as B1.
  pose proof (Hbit (w' - 1) (w' - 1 + o) ltac:(lia) ltac:(lia)) as B2. rewrite !Z.eqb_refl, !andb_true_r in B1, B2.
  destruct (Z.ltb_spec (w - 1) w), (Z.ltb_spec (w - 1) w'), (Z.ltb_spec (w' - 1) w), (Z.ltb_spec (w' - 1) w'); try done; lia.
Qed.

(** Bit ranges are disjoint exactly when writing one never shows in the other. *)
Lemma apart_iff o w o' w' : 0 <= o -> 1 <= w -> 0 <= o' -> 1 <= w' ->
  o + w <= o' \/ o' + w' <= o <->
  forall raw x, bitfield_get (bitfield_set raw x o w) o' w' = bitfield_get raw o' w'.
Proof.
  intros Ho Hw Ho' Hw'. split; [intros; apply bitfield_get_set_other; lia|]. intros E.
  destruct (Z.le_gt_cases (o + w) o'); [by left|]. destruct (Z.le_gt_cases (o' + w') o); [by right|].
  exfalso. set (i := Z.max o o'). pose proof (f_equal (fun z => Z.testbit z (i - o')) (E 0 (-1))) as B. cbv beta in B.
  rewrite !bitfield_get_bits, bitfield_set_bits, Z.bits_0, Z.bits_m1 in B by lia. unfold in_field in B.
  destruct (Z.ltb_spec (i - o') w'), (Z.leb_spec o (i - o' + o')), (Z.ltb_spec (i - o' + o') (o + w)); try done; lia.
Qed.

Lemma layout_range l : forall off n o w, Forall (fun m => 1 <= m.2) l -> 0 <= off -> (n, (o, w)) ∈ layout off l -> 0 <= o /\ 1 <= w.
Proof.
  induction l as [|[n0 w0] l IH]; intros off n o w Hl Hoff Hin; [by apply elem_of_nil in Hin|].
  apply Forall_cons in Hl as [H0 Hl]. cbn [snd layout] in *. apply elem_of_cons in Hin as [E|Hin].
  - injection E as -> -> ->. lia.
  - apply (IH (off + w0) n o w Hl); [lia|done].
Qed.

Lemma member_range u n o w : Forall (fun m => 1 <= m.2) (u_members u) -> member u n = Some (o, w) -> 0 <= o /\ 1 <= w.
Proof.
  intros Hu. unfold member. destruct (find _ _) as [[n' [o' w']]|] eqn:E; [|done]. intros [= -> ->].
  apply find_some in E as [Hin _]. apply (layout_range (u_members u) 0 n' o w Hu); [done|]. by apply list_elem_of_In.
Qed.

(** *** The checks decide soundness *)
Section Decides.
Context (h : header) (Hwf : header_wf h = true).

Lemma wf_facts : NoDup (map fst (h_offsets h)) /\ NoDup (map (fun f => (f_reg f, f_name f)) (h_fields h)) /\
  (forall f, f ∈ h_fields h -> 0 <= f_bit f /\ 1 <= f_width f) /\
  (forall u, u ∈ h_unions h -> Forall (fun m => 1 <= m.2) (u_members u)) /\
  take (length (h_offsets h)) (h_struct h) = map (fun p => lower p.1) (h_offsets h) /\ forall m, m ∈ h_macros h -> macros_ok h m = true.
Proof.
  unfold header_wf in Hwf. rewrite !andb_true_iff, !bool_decide_eq_true, !forallb_forall in Hwf.
  destruct Hwf as [[[[[H1 H2] H3] H4] H5] H6]. split; [exact H1|]. split; [exact H2|]. split; [|split; [|split; [exact H5|]]].
  - intros f Hf. apply list_elem_of_In, H3 in Hf. unfold field_wf in Hf. by rewrite andb_true_iff, !Z.leb_le in Hf.
  - intros u Hu. apply list_elem_of_In, H4 in Hu. rewrite forallb_forall in Hu. apply Forall_forall. intros m Hm.
    apply Z.leb_le, Hu. by apply list_elem_of_In.
  - intros m Hm. apply H6. by apply list_elem_of_In.
Qed.

Lemma member_iff f : f ∈ h_fields h ->
  existsb (fun u => (u_reg u =? lower (f_reg f))%string
     && match member u (lower (f_name f)) with
        | Some p => pair_eqb p (f_bit f, f_width f) | None => false end) (h_unions h) = true <->
  exists u, u ∈ h_unions h /\ u_reg u = lower (f_reg f) /\
    forall raw x, member_get u (lower (f_name f)) raw = Some (bitfield_get raw (f_bit f) (f_width f)) /\
                  member_set u (lower (f_name f)) raw x = Some (bitfield_set raw x (f_bit f) (f_width f)).
Proof.
  intros Hf. destruct wf_facts as (_ & _ & Hr & Hu & _). pose proof (Hr f Hf) as Hfr. rewrite existsb_exists. split.
  - intros (u & Hin & Hc). apply andb_true_iff in Hc as [Hreg Hp]. exists u. split; [by apply list_elem_of_In|].
    split; [by apply String.eqb_eq|]. intros raw x. unfold member_get, member_set.
    destruct (member u (lower (f_name f))) as [p|]; [|done]. apply pair_eqb_eq in Hp as ->. done.
  - intros (u & Hin & Hreg & Hm). exists u. split; [by apply list_elem_of_In|]. rewrite Hreg, String.eqb_refl. cbn [andb].
    unfold member_get in Hm. destruct (member u (lower (f_name f))) as [[o w]|] eqn:E; [|by destruct (Hm 0 0)].
    pose proof (member_range u _ o w (Hu u Hin) E) as [Ho Hw].
    destruct (bitfield_get_inj o w (f_bit f) (f_width f)) as [-> ->]; try lia.
    + intros raw. destruct (Hm raw 0) as [E' _]. by injection E'.
    + unfold pair_eqb. cbn. by rewrite !Z.eqb_refl.
Qed.

Lemma field_ok_iff f : f ∈ h_fields h -> field_ok h f = true <-> field_sound h f.
Proof.
  intros Hf. destruct wf_facts as (_ & _ & Hr & _). pose proof (Hr f Hf) as Hfr.
  unfold field_ok. rewrite !andb_true_iff, Z.leb_le, Z.eqb_eq, (member_iff f Hf), (mask_iff (f_bit f) (f_width f)) by lia. split.
  - intros [[[Hle Hm] Hu] Ha]. split; [lia|exact Hm|exact Hu|]. intros g Hg Er En.
    rewrite forallb_forall in Ha. specialize (Ha g ltac:(by apply list_elem_of_In)). rewrite !orb_true_iff in Ha.
    destruct Ha as [[Ha|Ha]|Ha]; [by apply negb_true_iff, String.eqb_neq in Ha|by apply String.eqb_eq in Ha|].
    unfold apart in Ha. rewrite orb_true_iff, !Z.leb_le in Ha. pose proof (Hr g Hg). apply apart_iff; lia.
  - intros [Hle Hm Hu Ha]. split; [split; [split; [lia|exact Hm]|exact Hu]|]. apply forallb_forall. intros g Hg%list_elem_of_In.
    destruct (String.eqb_spec (f_reg g) (f_reg f)) as [Er|]; [|done].
    destruct (String.eqb_spec (f_name g) (f_name f)) as [|En]; [by rewrite orb_true_r|]. cbn [negb orb].
    pose proof (Hr g Hg). unfold apart. rewrite orb_true_iff, !Z.leb_le. apply apart_iff; try lia. by apply Ha.
Qed.

Lemma placed_iff r o : placed h (r, o) = true <-> placed_sound h r o.
Proof.
  unfold placed, placed_sound. rewrite existsb_exists. cbn [fst snd]. split.
  - intros ([i s] & Hin & Hc). apply andb_true_iff in Hc as [Hs%String.eqb_eq Ho%Z.eqb_eq]. cbn [fst snd] in *. subst s.
    apply list_elem_of_In, list_elem_of_lookup in Hin as [j Hj]. rewrite list_lookup_imap in Hj.
    destruct (h_struct h !! j) eqn:Ej; [|done]. injection Hj as <- ->. by exists j.
  - intros (i & Hi & ->). exists (i, lower r). split; [|by rewrite String.eqb_refl, Z.eqb_refl].
    apply list_elem_of_In, list_elem_of_lookup. exists i. by rewrite list_lookup_imap, Hi.
Qed.
End Decides.

(** An element is outside the failing ones exactly when it passes. *)
Lemma fails_iff {A B} (key : A -> B) (ok : A -> bool) (l : list A) a : NoDup (map key l) -> a ∈ l ->
  ok a = true <-> key a ∉ map key (filter (fun x => ok x = false) l).
Proof.
  intros Hd Ha. split.
  - intros Hok Hin. apply list_elem_of_fmap in Hin as (b & Hk & Hb). apply list_elem_of_filter in Hb as [Hbad Hb].
    apply list_elem_of_lookup in Ha as [i Hi]. apply list_elem_of_lookup in Hb as [j Hj].
    assert (i = j) as <-; [|congruence].
    apply (NoDup_lookup (map key l) i j (key a) Hd); rewrite list_lookup_fmap; [by rewrite Hi|rewrite Hj; cbn; congruence].
  - intros Hn. destruct (ok a) eqn:E; [done|]. exfalso. apply Hn, list_elem_of_fmap. exists a. split; [done|].
    by apply list_elem_of_filter.
Qed.

Lemma macros_ok_sound h m : header_wf h = true -> macros_ok h m = true -> (m_reg m, m_name m) ∉ clashing h ->
  macros_sound h m.
Proof.
  intros Hwf Hm Hn. split. apply existsb_exists in Hm as (f & Hin & Hm). apply list_elem_of_In in Hin.
  rewrite !andb_true_iff in Hm. destruct Hm as [[[[Hsame Hg] Hgs] Hs] Hv].
  unfold same_field in Hsame. apply andb_true_iff in Hsame as [Er%String.eqb_eq En%String.eqb_eq].
  apply pair_eqb_eq in Hg, Hgs, Hs. apply Z.eqb_eq in Hv.
  destruct (wf_facts h Hwf) as (_ & Hd & Hr & _). pose proof (Hr f Hin) as (R1 & R2).
  assert (R3 : f_bit f + f_width f <= 32).
  { rewrite <- Er, <- En in Hn. apply (fails_iff (fun f => (f_reg f, f_name f)) (field_ok h) (h_fields h) f Hd Hin) in Hn.
    apply (field_ok_iff h Hwf f Hin) in Hn. apply (fs_range _ _ Hn). }
  exists f. do 3 (split; [done|]). intros v x Hrange.
  unfold macro_get, macro_gets, macro_set, macro_val. rewrite Hg, Hgs, Hs, Hv. cbn [fst snd].
  destruct (Z.ltb_spec (f_width f) 31).
  - rewrite bextractu_bitfield, bextract_bitfield by lia. do 2 (split; [done|]). split.
    { destruct (Z.ltb_spec (f_bit f + f_width f) 32); [apply binsert_bitfield; lia|apply binsert_none; lia]. }
    intros Hx. unfold bitfield_set, u32. rewrite Z.land_0_l, Z.lor_0_l, Z.mod_small by lia.
    apply shiftl_wrap; [lia|]. split; [lia|]. apply Z.lt_le_trans with (2 ^ f_width f); [lia|].
    apply Z.pow_le_mono_r; lia.
  - apply wide_macros; lia.
Qed.

(** Of a well-formed header the checks find exactly what does not agree. *)
Lemma header_report h : header_wf h = true -> header_sound_but h (misplaced h) (clashing h).
Proof.
  intros Hwf. destruct (wf_facts h Hwf) as (Ho & Hf & _ & _ & Hs & Hm). split.
  - exact Hs.
  - intros r o Hin. rewrite <- (placed_iff h). exact (fails_iff fst (placed h) (h_offsets h) (r, o) Ho Hin).
  - intros f Hin. rewrite <- (field_ok_iff h Hwf f Hin).
    exact (fails_iff (fun f => (f_reg f, f_name f)) (field_ok h) (h_fields h) f Hf Hin).
  - intros m Hin. apply (macros_ok_sound h m Hwf). by apply Hm.
Qed.

Lemma header_but h regs fields : header_wf h = true -> misplaced h = regs -> clashing h = fields ->
  header_sound_but h regs fields.
Proof. intros Hwf <- <-. by apply header_report. Qed.

(** The reports of the headers. *)
Create HintDb registers.
