(* ===== verification/PeriphRegs.v ===== *)
(** * PeriphRegs: the registers of GPIO, timer and camera interface

    The tables of boot_code/include/archi/gpio/gpio_v3.h, archi/timer/timer_v2.h and
    archi/udma/cpi/udma_cpi_v1.h, the headers the PULPissimo build includes, and
    their accessors as programs over the platform of Pulp.  The classes of the
    simulator (__GVSOC__) are not compiled into the ROM and not modelled. *)

From S2P Require Import Prelude Monad Builtins Regs Pulp.

(** ** GPIO: archi/gpio/gpio_v3.h *)
Definition GPIO_OFFSETS : list (string * Z) :=
  [("PADDIR", 0x0); ("GPIOEN", 0x4); ("PADIN", 0x8); ("PADOUT", 0xc); ("PADOUTSET", 0x10); ("PADOUTCLR", 0x14);
   ("INTEN", 0x18); ("INTTYPE0", 0x1c); ("INTTYPE1", 0x20); ("INTSTATUS", 0x24); ("PADCFG0", 0x28);
   ("PADCFG1", 0x2c); ("PADCFG2", 0x30); ("PADCFG3", 0x34); ("PADDIR_32_63", 0x38); ("GPIOEN_32_63", 0x3c);
   ("PADIN_32_63", 0x40); ("PADOUT_32_63", 0x44); ("PADOUTSET_32_63", 0x48); ("PADOUTCLR_32_63", 0x4c);
   ("INTEN_32_63", 0x50); ("INTTYPE_32_47", 0x54); ("INTTYPE_48_63", 0x58); ("INTSTATUS_32_63", 0x5c);
   ("PADCFG_32_39", 0x60); ("PADCFG_40_47", 0x64); ("PADCFG_48_55", 0x68); ("PADCFG_56_63", 0x6c)]%string.
Definition GPIO_FIELDS : list field :=
  [mk_field "PADDIR" "DIR" 0 32 0xffffffff; mk_field "GPIOEN" "GPIOEN" 0 32 0xffffffff;
   mk_field "PADIN" "DATA_IN" 0 32 0xffffffff; mk_field "PADOUT" "DATA_OUT" 0 32 0xffffffff;
   mk_field "PADOUTSET" "DATA_SET" 0 32 0xffffffff; mk_field "PADOUTCLR" "DATA_CLEAR" 0 32 0xffffffff;
   mk_field "INTEN" "INTEN" 0 32 0xffffffff; mk_field "INTTYPE0" "INTTYPE0" 0 32 0xffffffff;
   mk_field "INTTYPE1" "INTTYPE1" 0 32 0xffffffff; mk_field "INTSTATUS" "INTSTATUS" 0 32 0xffffffff;
   mk_field "PADCFG0" "GPIO0_CFG" 0 4 0xf; mk_field "PADCFG0" "GPIO1_CFG" 4 4 0xf0;
   mk_field "PADCFG0" "GPIO2_CFG" 8 4 0xf00; mk_field "PADCFG0" "GPIO3_CFG" 12 4 0xf000;
   mk_field "PADCFG0" "GPIO4_CFG" 16 4 0xf0000; mk_field "PADCFG0" "GPIO5_CFG" 20 4 0xf00000;
   mk_field "PADCFG0" "GPIO6_CFG" 24 4 0xf000000; mk_field "PADCFG0" "GPIO7_CFG" 28 4 0xf0000000;
   mk_field "PADCFG1" "GPIO4_PE" 0 1 0x1; mk_field "PADCFG1" "GPIO4_DS" 1 1 0x2;
   mk_field "PADDIR_32_63" "DIR" 0 32 0xffffffff; mk_field "GPIOEN_32_63" "GPIOEN" 0 32 0xffffffff;
   mk_field "PADIN_32_63" "DATA_IN" 0 32 0xffffffff; mk_field "PADOUT_32_63" "DATA_OUT" 0 32 0xffffffff;
   mk_field "PADOUTSET_32_63" "DATA_SET" 0 32 0xffffffff;
   mk_field "PADOUTCLR_32_63" "DATA_CLEAR" 0 32 0xffffffff; mk_field "INTEN_32_63" "INTEN" 0 32 0xffffffff;
   mk_field "INTTYPE_32_47" "INTTYPE0" 0 32 0xffffffff; mk_field "INTTYPE_48_63" "INTTYPE1" 0 32 0xffffffff;
   mk_field "INTSTATUS_32_63" "INTSTATUS" 0 32 0xffffffff]%string.
Definition GPIO_UNIONS_0 : list union :=
  [mk_union "paddir" [("dir", 32)]; mk_union "gpioen" [("gpioen", 32)]; mk_union "padin" [("data_in", 32)];
   mk_union "padout" [("data_out", 32)]; mk_union "padoutset" [("data_set", 32)];
   mk_union "padoutclr" [("data_clear", 32)]; mk_union "inten" [("inten", 32)];
   mk_union "inttype0" [("inttype0", 32)]; mk_union "inttype1" [("inttype1", 32)];
   mk_union "intstatus" [("intstatus", 32)];
   mk_union "padcfg0" [("gpio0_cfg", 4); ("gpio1_cfg", 4); ("gpio2_cfg", 4); ("gpio3_cfg", 4); ("gpio4_cfg", 4); ("gpio5_cfg", 4); ("gpio6_cfg", 4); ("gpio7_cfg", 4)];
   mk_union "padcfg1" [("gpio4_pe", 1); ("gpio4_ds", 1)]; mk_union "padcfg2" []; mk_union "padcfg3" [];
   mk_union "paddir_32_63" [("dir", 32)]; mk_union "gpioen_32_63" [("gpioen", 32)];
   mk_union "padin_32_63" [("data_in", 32)]; mk_union "padout_32_63" [("data_out", 32)];
   mk_union "padoutset_32_63" [("data_set", 32)]; mk_union "padoutclr_32_63" [("data_clear", 32)]]%string.
Definition GPIO_UNIONS_1 : list union :=
  [mk_union "inten_32_63" [("inten", 32)]; mk_union "inttype_32_47" [("inttype0", 32)];
   mk_union "inttype_48_63" [("inttype1", 32)]; mk_union "intstatus_32_63" [("intstatus", 32)];
   mk_union "padcfg_32_39" []; mk_union "padcfg_40_47" []; mk_union "padcfg_48_55" []; mk_union "padcfg_56_63" []]%string.
Definition GPIO_STRUCT : list string :=
  ["paddir"; "gpioen"; "padin"; "padout"; "padoutset"; "padoutclr"; "inten"; "inttype0"; "inttype1"; "intstatus";
   "padcfg0"; "padcfg1"; "padcfg2"; "padcfg3"; "paddir_32_63"; "gpioen_32_63"; "padin_32_63"; "padout_32_63";
   "padoutset_32_63"; "padoutclr_32_63"; "inten_32_63"; "inttype_32_47"; "inttype_48_63"; "intstatus_32_63";
   "padcfg_32_39"; "padcfg_40_47"; "padcfg_48_55"; "padcfg_56_63"]%string.
Definition GPIO_MACROS : list macros :=
  [mk_macros "PADDIR" "DIR" (32, 0) (32, 0) (32, 0) 0; mk_macros "GPIOEN" "GPIOEN" (32, 0) (32, 0) (32, 0) 0;
   mk_macros "PADIN" "DATA_IN" (32, 0) (32, 0) (32, 0) 0;
   mk_macros "PADOUT" "DATA_OUT" (32, 0) (32, 0) (32, 0) 0;
   mk_macros "PADOUTSET" "DATA_SET" (32, 0) (32, 0) (32, 0) 0;
   mk_macros "PADOUTCLR" "DATA_CLEAR" (32, 0) (32, 0) (32, 0) 0;
   mk_macros "INTEN" "INTEN" (32, 0) (32, 0) (32, 0) 0;
   mk_macros "INTTYPE0" "INTTYPE0" (32, 0) (32, 0) (32, 0) 0;
   mk_macros "INTTYPE1" "INTTYPE1" (32, 0) (32, 0) (32, 0) 0;
   mk_macros "INTSTATUS" "INTSTATUS" (32, 0) (32, 0) (32, 0) 0;
   mk_macros "PADCFG0" "GPIO0_CFG" (4, 0) (4, 0) (4, 0) 0;
   mk_macros "PADCFG0" "GPIO1_CFG" (4, 4) (4, 4) (4, 4) 4;
   mk_macros "PADCFG0" "GPIO2_CFG" (4, 8) (4, 8) (4, 8) 8;
   mk_macros "PADCFG0" "GPIO3_CFG" (4, 12) (4, 12) (4, 12) 12;
   mk_macros "PADCFG0" "GPIO4_CFG" (4, 16) (4, 16) (4, 16) 16;
   mk_macros "PADCFG0" "GPIO5_CFG" (4, 20) (4, 20) (4, 20) 20;
   mk_macros "PADCFG0" "GPIO6_CFG" (4, 24) (4, 24) (4, 24) 24;
   mk_macros "PADCFG0" "GPIO7_CFG" (4, 28) (4, 28) (4, 28) 28;
   mk_macros "PADCFG1" "GPIO4_PE" (1, 0) (1, 0) (1, 0) 0; mk_macros "PADCFG1" "GPIO4_DS" (1, 1) (1, 1) (1, 1) 1;
   mk_macros "PADDIR_32_63" "DIR" (32, 0) (32, 0) (32, 0) 0;
   mk_macros "GPIOEN_32_63" "GPIOEN" (32, 0) (32, 0) (32, 0) 0;
   mk_macros "PADIN_32_63" "DATA_IN" (32, 0) (32, 0) (32, 0) 0;
   mk_macros "PADOUT_32_63" "DATA_OUT" (32, 0) (32, 0) (32, 0) 0;
   mk_macros "PADOUTSET_32_63" "DATA_SET" (32, 0) (32, 0) (32, 0) 0;
   mk_macros "PADOUTCLR_32_63" "DATA_CLEAR" (32, 0) (32, 0) (32, 0) 0;
   mk_macros "INTEN_32_63" "INTEN" (32, 0) (32, 0) (32, 0) 0;
   mk_macros "INTTYPE_32_47" "INTTYPE0" (32, 0) (32, 0) (32, 0) 0;
   mk_macros "INTTYPE_48_63" "INTTYPE1" (32, 0) (32, 0) (32, 0) 0;
   mk_macros "INTSTATUS_32_63" "INTSTATUS" (32, 0) (32, 0) (32, 0) 0]%string.
Definition GPIO_HEADER : header :=
  mk_header (GPIO_OFFSETS) (GPIO_FIELDS) (GPIO_UNIONS_0 ++ GPIO_UNIONS_1) GPIO_STRUCT (GPIO_MACROS).

Definition GPIO_PADDIR_OFFSET : Z := 0x0.
Definition GPIO_GPIOEN_OFFSET : Z := 0x4.
Definition GPIO_PADIN_OFFSET : Z := 0x8.
Definition GPIO_PADOUT_OFFSET : Z := 0xc.
Definition GPIO_PADOUTSET_OFFSET : Z := 0x10.
Definition GPIO_PADOUTCLR_OFFSET : Z := 0x14.
Definition GPIO_INTEN_OFFSET : Z := 0x18.
Definition GPIO_INTTYPE0_OFFSET : Z := 0x1c.
Definition GPIO_INTTYPE1_OFFSET : Z := 0x20.
Definition GPIO_INTSTATUS_OFFSET : Z := 0x24.
Definition GPIO_PADCFG0_OFFSET : Z := 0x28.
Definition GPIO_PADCFG1_OFFSET : Z := 0x2c.
Definition GPIO_PADCFG2_OFFSET : Z := 0x30.
Definition GPIO_PADCFG3_OFFSET : Z := 0x34.
Definition GPIO_PADDIR_32_63_OFFSET : Z := 0x38.
Definition GPIO_GPIOEN_32_63_OFFSET : Z := 0x3c.
Definition GPIO_PADIN_32_63_OFFSET : Z := 0x40.
Definition GPIO_PADOUT_32_63_OFFSET : Z := 0x44.
Definition GPIO_PADOUTSET_32_63_OFFSET : Z := 0x48.
Definition GPIO_PADOUTCLR_32_63_OFFSET : Z := 0x4c.
Definition GPIO_INTEN_32_63_OFFSET : Z := 0x50.
Definition GPIO_INTTYPE_32_47_OFFSET : Z := 0x54.
Definition GPIO_INTTYPE_48_63_OFFSET : Z := 0x58.
Definition GPIO_INTSTATUS_32_63_OFFSET : Z := 0x5c.
Definition GPIO_PADCFG_32_39_OFFSET : Z := 0x60.
Definition GPIO_PADCFG_40_47_OFFSET : Z := 0x64.
Definition GPIO_PADCFG_48_55_OFFSET : Z := 0x68.
Definition GPIO_PADCFG_56_63_OFFSET : Z := 0x6c.

Definition gpio_paddir_get (base : Z) : M soc Z := ARCHI_READ base GPIO_PADDIR_OFFSET.
Definition gpio_paddir_set (base value : Z) : M soc unit := ARCHI_WRITE base GPIO_PADDIR_OFFSET value.
Definition gpio_gpioen_get (base : Z) : M soc Z := ARCHI_READ base GPIO_GPIOEN_OFFSET.
Definition gpio_gpioen_set (base value : Z) : M soc unit := ARCHI_WRITE base GPIO_GPIOEN_OFFSET value.
Definition gpio_padin_get (base : Z) : M soc Z := ARCHI_READ base GPIO_PADIN_OFFSET.
Definition gpio_padin_set (base value : Z) : M soc unit := ARCHI_WRITE base GPIO_PADIN_OFFSET value.
Definition gpio_padout_get (base : Z) : M soc Z := ARCHI_READ base GPIO_PADOUT_OFFSET.
Definition gpio_padout_set (base value : Z) : M soc unit := ARCHI_WRITE base GPIO_PADOUT_OFFSET value.
Definition gpio_padoutset_get (base : Z) : M soc Z := ARCHI_READ base GPIO_PADOUTSET_OFFSET.
Definition gpio_padoutset_set (base value : Z) : M soc unit := ARCHI_WRITE base GPIO_PADOUTSET_OFFSET value.
Definition gpio_padoutclr_get (base : Z) : M soc Z := ARCHI_READ base GPIO_PADOUTCLR_OFFSET.
Definition gpio_padoutclr_set (base value : Z) : M soc unit := ARCHI_WRITE base GPIO_PADOUTCLR_OFFSET value.
Definition gpio_inten_get (base : Z) : M soc Z := ARCHI_READ base GPIO_INTEN_OFFSET.
Definition gpio_inten_set (base value : Z) : M soc unit := ARCHI_WRITE base GPIO_INTEN_OFFSET value.
Definition gpio_inttype0_get (base : Z) : M soc Z := ARCHI_READ base GPIO_INTTYPE0_OFFSET.
Definition gpio_inttype0_set (base value : Z) : M soc unit := ARCHI_WRITE base GPIO_INTTYPE0_OFFSET value.
Definition gpio_inttype1_get (base : Z) : M soc Z := ARCHI_READ base GPIO_INTTYPE1_OFFSET.
Definition gpio_inttype1_set (base value : Z) : M soc unit := ARCHI_WRITE base GPIO_INTTYPE1_OFFSET value.
Definition gpio_intstatus_get (base : Z) : M soc Z := ARCHI_READ base GPIO_INTSTATUS_OFFSET.
Definition gpio_intstatus_set (base value : Z) : M soc unit := ARCHI_WRITE base GPIO_INTSTATUS_OFFSET value.
Definition gpio_padcfg0_get (base : Z) : M soc Z := ARCHI_READ base GPIO_PADCFG0_OFFSET.
Definition gpio_padcfg0_set (base value : Z) : M soc unit := ARCHI_WRITE base GPIO_PADCFG0_OFFSET value.
Definition gpio_padcfg1_get (base : Z) : M soc Z := ARCHI_READ base GPIO_PADCFG1_OFFSET.
Definition gpio_padcfg1_set (base value : Z) : M soc unit := ARCHI_WRITE base GPIO_PADCFG1_OFFSET value.
Definition gpio_padcfg2_get (base : Z) : M soc Z := ARCHI_READ base GPIO_PADCFG2_OFFSET.
Definition gpio_padcfg2_set (base value : Z) : M soc unit := ARCHI_WRITE base GPIO_PADCFG2_OFFSET value.
Definition gpio_padcfg3_get (base : Z) : M soc Z := ARCHI_READ base GPIO_PADCFG3_OFFSET.
Definition gpio_padcfg3_set (base value : Z) : M soc unit := ARCHI_WRITE base GPIO_PADCFG3_OFFSET value.
Definition gpio_paddir_32_63_get (base : Z) : M soc Z := ARCHI_READ base GPIO_PADDIR_32_63_OFFSET.
Definition gpio_paddir_32_63_set (base value : Z) : M soc unit := ARCHI_WRITE base GPIO_PADDIR_32_63_OFFSET value.
Definition gpio_gpioen_32_63_get (base : Z) : M soc Z := ARCHI_READ base GPIO_GPIOEN_32_63_OFFSET.
Definition gpio_gpioen_32_63_set (base value : Z) : M soc unit := ARCHI_WRITE base GPIO_GPIOEN_32_63_OFFSET value.
Definition gpio_padin_32_63_get (base : Z) : M soc Z := ARCHI_READ base GPIO_PADIN_32_63_OFFSET.
Definition gpio_padin_32_63_set (base value : Z) : M soc unit := ARCHI_WRITE base GPIO_PADIN_32_63_OFFSET value.
Definition gpio_padout_32_63_get (base : Z) : M soc Z := ARCHI_READ base GPIO_PADOUT_32_63_OFFSET.
Definition gpio_padout_32_63_set (base value : Z) : M soc unit := ARCHI_WRITE base GPIO_PADOUT_32_63_OFFSET value.
Definition gpio_padoutset_32_63_get (base : Z) : M soc Z := ARCHI_READ base GPIO_PADOUTSET_32_63_OFFSET.
Definition gpio_padoutset_32_63_set (base value : Z) : M soc unit := ARCHI_WRITE base GPIO_PADOUTSET_32_63_OFFSET value.
Definition gpio_padoutclr_32_63_get (base : Z) : M soc Z := ARCHI_READ base GPIO_PADOUTCLR_32_63_OFFSET.
Definition gpio_padoutclr_32_63_set (base value : Z) : M soc unit := ARCHI_WRITE base GPIO_PADOUTCLR_32_63_OFFSET value.
Definition gpio_inten_32_63_get (base : Z) : M soc Z := ARCHI_READ base GPIO_INTEN_32_63_OFFSET.
Definition gpio_inten_32_63_set (base value : Z) : M soc unit := ARCHI_WRITE base GPIO_INTEN_32_63_OFFSET value.
Definition gpio_inttype_32_47_get (base : Z) : M soc Z := ARCHI_READ base GPIO_INTTYPE_32_47_OFFSET.
Definition gpio_inttype_32_47_set (base value : Z) : M soc unit := ARCHI_WRITE base GPIO_INTTYPE_32_47_OFFSET value.
Definition gpio_inttype_48_63_get (base : Z) : M soc Z := ARCHI_READ base GPIO_INTTYPE_48_63_OFFSET.
Definition gpio_inttype_48_63_set (base value : Z) : M soc unit := ARCHI_WRITE base GPIO_INTTYPE_48_63_OFFSET value.
Definition gpio_intstatus_32_63_get (base : Z) : M soc Z := ARCHI_READ base GPIO_INTSTATUS_32_63_OFFSET.
Definition gpio_intstatus_32_63_set (base value : Z) : M soc unit := ARCHI_WRITE base GPIO_INTSTATUS_32_63_OFFSET value.
Definition gpio_padcfg_32_39_get (base : Z) : M soc Z := ARCHI_READ base GPIO_PADCFG_32_39_OFFSET.
Definition gpio_padcfg_32_39_set (base value : Z) : M soc unit := ARCHI_WRITE base GPIO_PADCFG_32_39_OFFSET value.
Definition gpio_padcfg_40_47_get (base : Z) : M soc Z := ARCHI_READ base GPIO_PADCFG_40_47_OFFSET.
Definition gpio_padcfg_40_47_set (base value : Z) : M soc unit := ARCHI_WRITE base GPIO_PADCFG_40_47_OFFSET value.
Definition gpio_padcfg_48_55_get (base : Z) : M soc Z := ARCHI_READ base GPIO_PADCFG_48_55_OFFSET.
Definition gpio_padcfg_48_55_set (base value : Z) : M soc unit := ARCHI_WRITE base GPIO_PADCFG_48_55_OFFSET value.
Definition gpio_padcfg_56_63_get (base : Z) : M soc Z := ARCHI_READ base GPIO_PADCFG_56_63_OFFSET.
Definition gpio_padcfg_56_63_set (base value : Z) : M soc unit := ARCHI_WRITE base GPIO_PADCFG_56_63_OFFSET value.

(** ** Timer: archi/timer/timer_v2.h *)
Definition TIMER_OFFSETS : list (string * Z) :=
  [("CFG_LO", 0x0); ("CFG_HI", 0x4); ("CNT_LO", 0x8); ("CNT_HI", 0xc); ("CMP_LO", 0x10); ("CMP_HI", 0x14);
   ("START_LO", 0x18); ("START_HI", 0x1c); ("RESET_LO", 0x20); ("RESET_HI", 0x24)]%string.
Definition TIMER_FIELDS : list field :=
  [mk_field "CFG_LO" "ENABLE" 0 1 0x1; mk_field "CFG_LO" "RESET" 1 1 0x2; mk_field "CFG_LO" "IRQEN" 2 1 0x4;
   mk_field "CFG_LO" "IEM" 3 1 0x8; mk_field "CFG_LO" "MODE" 4 1 0x10; mk_field "CFG_LO" "ONE_S" 5 1 0x20;
   mk_field "CFG_LO" "PEN" 6 1 0x40; mk_field "CFG_LO" "CCFG" 7 1 0x80; mk_field "CFG_LO" "PVAL" 8 8 0xff00;
   mk_field "CFG_LO" "CASC" 31 1 0x80000000; mk_field "CFG_HI" "ENABLE" 0 1 0x1;
   mk_field "CFG_HI" "RESET" 1 1 0x2; mk_field "CFG_HI" "IRQEN" 2 1 0x4; mk_field "CFG_HI" "IEM" 3 1 0x8;
   mk_field "CFG_HI" "MODE" 4 1 0x10; mk_field "CFG_HI" "ONE_S" 5 1 0x20; mk_field "CFG_HI" "PEN" 6 1 0x40;
   mk_field "CFG_HI" "CLKCFG" 7 1 0x80; mk_field "CNT_LO" "CNT_LO" 0 32 0xffffffff;
   mk_field "CNT_HI" "CNT_HI" 0 32 0xffffffff; mk_field "CMP_LO" "CMP_LO" 0 32 0xffffffff;
   mk_field "CMP_HI" "CMP_HI" 0 32 0xffffffff; mk_field "START_LO" "STRT_LO" 0 1 0x1;
   mk_field "START_HI" "STRT_HI" 0 1 0x1; mk_field "RESET_LO" "RST_LO" 0 1 0x1;
   mk_field "RESET_HI" "RST_HI" 0 1 0x1]%string.
Definition TIMER_UNIONS : list union :=
  [mk_union "cfg_lo" [("enable", 1); ("reset", 1); ("irqen", 1); ("iem", 1); ("mode", 1); ("one_s", 1); ("pen", 1); ("ccfg", 1); ("pval", 8); ("padding0", 15); ("casc", 1)];
   mk_union "cfg_hi" [("enable", 1); ("reset", 1); ("irqen", 1); ("iem", 1); ("mode", 1); ("one_s", 1); ("pen", 1); ("clkcfg", 1)];
   mk_union "cnt_lo" [("cnt_lo", 32)]; mk_union "cnt_hi" [("cnt_hi", 32)]; mk_union "cmp_lo" [("cmp_lo", 32)];
   mk_union "cmp_hi" [("cmp_hi", 32)]; mk_union "start_lo" [("strt_lo", 1)];
   mk_union "start_hi" [("strt_hi", 1)]; mk_union "reset_lo" [("rst_lo", 1)]; mk_union "reset_hi" [("rst_hi", 1)]]%string.
Definition TIMER_STRUCT : list string :=
  ["cfg_lo"; "cfg_hi"; "cnt_lo"; "cnt_hi"; "cmp_lo"; "cmp_hi"; "start_lo"; "start_hi"; "reset_lo"; "reset_hi"]%string.
Definition TIMER_MACROS : list macros :=
  [mk_macros "CFG_LO" "ENABLE" (1, 0) (1, 0) (1, 0) 0; mk_macros "CFG_LO" "RESET" (1, 1) (1, 1) (1, 1) 1;
   mk_macros "CFG_LO" "IRQEN" (1, 2) (1, 2) (1, 2) 2; mk_macros "CFG_LO" "IEM" (1, 3) (1, 3) (1, 3) 3;
   mk_macros "CFG_LO" "MODE" (1, 4) (1, 4) (1, 4) 4; mk_macros "CFG_LO" "ONE_S" (1, 5) (1, 5) (1, 5) 5;
   mk_macros "CFG_LO" "PEN" (1, 6) (1, 6) (1, 6) 6; mk_macros "CFG_LO" "CCFG" (1, 7) (1, 7) (1, 7) 7;
   mk_macros "CFG_LO" "PVAL" (8, 8) (8, 8) (8, 8) 8; mk_macros "CFG_LO" "CASC" (1, 31) (1, 31) (1, 31) 31;
   mk_macros "CFG_HI" "ENABLE" (1, 0) (1, 0) (1, 0) 0; mk_macros "CFG_HI" "RESET" (1, 1) (1, 1) (1, 1) 1;
   mk_macros "CFG_HI" "IRQEN" (1, 2) (1, 2) (1, 2) 2; mk_macros "CFG_HI" "IEM" (1, 3) (1, 3) (1, 3) 3;
   mk_macros "CFG_HI" "MODE" (1, 4) (1, 4) (1, 4) 4; mk_macros "CFG_HI" "ONE_S" (1, 5) (1, 5) (1, 5) 5;
   mk_macros "CFG_HI" "PEN" (1, 6) (1, 6) (1, 6) 6; mk_macros "CFG_HI" "CLKCFG" (1, 7) (1, 7) (1, 7) 7;
   mk_macros "CNT_LO" "CNT_LO" (32, 0) (32, 0) (32, 0) 0; mk_macros "CNT_HI" "CNT_HI" (32, 0) (32, 0) (32, 0) 0;
   mk_macros "CMP_LO" "CMP_LO" (32, 0) (32, 0) (32, 0) 0; mk_macros "CMP_HI" "CMP_HI" (32, 0) (32, 0) (32, 0) 0;
   mk_macros "START_LO" "STRT_LO" (1, 0) (1, 0) (1, 0) 0; mk_macros "START_HI" "STRT_HI" (1, 0) (1, 0) (1, 0) 0;
   mk_macros "RESET_LO" "RST_LO" (1, 0) (1, 0) (1, 0) 0; mk_macros "RESET_HI" "RST_HI" (1, 0) (1, 0) (1, 0) 0]%string.
Definition TIMER_HEADER : header :=
  mk_header (TIMER_OFFSETS) (TIMER_FIELDS) (TIMER_UNIONS) TIMER_STRUCT (TIMER_MACROS).

Definition TIMER_CFG_LO_OFFSET : Z := 0x0.
Definition TIMER_CFG_HI_OFFSET : Z := 0x4.
Definition TIMER_CNT_LO_OFFSET : Z := 0x8.
Definition TIMER_CNT_HI_OFFSET : Z := 0xc.
Definition TIMER_CMP_LO_OFFSET : Z := 0x10.
Definition TIMER_CMP_HI_OFFSET : Z := 0x14.
Definition TIMER_START_LO_OFFSET : Z := 0x18.
Definition TIMER_START_HI_OFFSET : Z := 0x1c.
Definition TIMER_RESET_LO_OFFSET : Z := 0x20.
Definition TIMER_RESET_HI_OFFSET : Z := 0x24.

Definition timer_cfg_lo_get (base : Z) : M soc Z := ARCHI_READ base TIMER_CFG_LO_OFFSET.
Definition timer_cfg_lo_set (base value : Z) : M soc unit := ARCHI_WRITE base TIMER_CFG_LO_OFFSET value.
Definition timer_cfg_hi_get (base : Z) : M soc Z := ARCHI_READ base TIMER_CFG_HI_OFFSET.
Definition timer_cfg_hi_set (base value : Z) : M soc unit := ARCHI_WRITE base TIMER_CFG_HI_OFFSET value.
Definition timer_cnt_lo_get (base : Z) : M soc Z := ARCHI_READ base TIMER_CNT_LO_OFFSET.
Definition timer_cnt_lo_set (base value : Z) : M soc unit := ARCHI_WRITE base TIMER_CNT_LO_OFFSET value.
Definition timer_cnt_hi_get (base : Z) : M soc Z := ARCHI_READ base TIMER_CNT_HI_OFFSET.
Definition timer_cnt_hi_set (base value : Z) : M soc unit := ARCHI_WRITE base TIMER_CNT_HI_OFFSET value.
Definition timer_cmp_lo_get (base : Z) : M soc Z := ARCHI_READ base TIMER_CMP_LO_OFFSET.
Definition timer_cmp_lo_set (base value : Z) : M soc unit := ARCHI_WRITE base TIMER_CMP_LO_OFFSET value.
Definition timer_cmp_hi_get (base : Z) : M soc Z := ARCHI_READ base TIMER_CMP_HI_OFFSET.
Definition timer_cmp_hi_set (base value : Z) : M soc unit := ARCHI_WRITE base TIMER_CMP_HI_OFFSET value.
Definition timer_start_lo_get (base : Z) : M soc Z := ARCHI_READ base TIMER_START_LO_OFFSET.
Definition timer_start_lo_set (base value : Z) : M soc unit := ARCHI_WRITE base TIMER_START_LO_OFFSET value.
Definition timer_start_hi_get (base : Z) : M soc Z := ARCHI_READ base TIMER_START_HI_OFFSET.
Definition timer_start_hi_set (base value : Z) : M soc unit := ARCHI_WRITE base TIMER_START_HI_OFFSET value.
Definition timer_reset_lo_get (base : Z) : M soc Z := ARCHI_READ base TIMER_RESET_LO_OFFSET.
Definition timer_reset_lo_set (base value : Z) : M soc unit := ARCHI_WRITE base TIMER_RESET_LO_OFFSET value.
Definition timer_reset_hi_get (base : Z) : M soc Z := ARCHI_READ base TIMER_RESET_HI_OFFSET.
Definition timer_reset_hi_set (base value : Z) : M soc unit := ARCHI_WRITE base TIMER_RESET_HI_OFFSET value.

(** ** Camera interface: archi/udma/cpi/udma_cpi_v1.h *)
Definition CPI_OFFSETS : list (string * Z) :=
  [("CAM_RX_SADDR", 0x0); ("CAM_RX_SIZE", 0x4); ("CAM_RX_CFG", 0x8); ("CAM_RX_INITCFG", 0xc);
   ("CAM_TX_SADDR", 0x10); ("CAM_TX_SIZE", 0x14); ("CAM_TX_CFG", 0x18); ("CAM_TX_INITCFG", 0x1c);
   ("CAM_CFG_GLOB", 0x20); ("CAM_CFG_LL", 0x24); ("CAM_CFG_UR", 0x28); ("CAM_CFG_SIZE", 0x2c);
   ("CAM_CFG_FILTER", 0x30); ("CAM_VSYNC_POLARITY", 0x34)]%string.
Definition CPI_FIELDS : list field :=
  [mk_field "CAM_RX_SADDR" "RX_SADDR" 0 16 0xffff; mk_field "CAM_RX_SIZE" "RX_SIZE" 0 17 0x1ffff;
   mk_field "CAM_RX_CFG" "CONTINOUS" 0 1 0x1; mk_field "CAM_RX_CFG" "DATASIZE" 1 2 0x6;
   mk_field "CAM_RX_CFG" "EN" 4 1 0x10; mk_field "CAM_RX_CFG" "PENDING" 5 1 0x20;
   mk_field "CAM_RX_CFG" "CLR" 6 1 0x40; mk_field "CAM_CFG_GLOB" "FRAMEDROP_EN" 0 1 0x1;
   mk_field "CAM_CFG_GLOB" "FRAMEDROP_VAL" 1 6 0x7e; mk_field "CAM_CFG_GLOB" "FRAMESLICE_EN" 7 1 0x80;
   mk_field "CAM_CFG_GLOB" "FORMAT" 8 3 0x700; mk_field "CAM_CFG_GLOB" "SHIFT" 11 4 0x7800;
   mk_field "CAM_CFG_GLOB" "EN" 31 1 0x80000000; mk_field "CAM_CFG_LL" "FRAMESLICE_LLX" 0 16 0xffff;
   mk_field "CAM_CFG_LL" "FRAMESLICE_LLY" 16 16 0xffff0000; mk_field "CAM_CFG_UR" "FRAMESLICE_URX" 0 16 0xffff;
   mk_field "CAM_CFG_UR" "FRAMESLICE_URY" 16 16 0xffff0000; mk_field "CAM_CFG_SIZE" "ROWLEN" 16 16 0xffff0000;
   mk_field "CAM_CFG_FILTER" "B_COEFF" 0 8 0xff; mk_field "CAM_CFG_FILTER" "G_COEFF" 8 8 0xff00;
   mk_field "CAM_CFG_FILTER" "R_COEFF" 16 8 0xff0000; mk_field "CAM_VSYNC_POLARITY" "VSYNC_POLARITY" 0 1 0x1]%string.
Definition CPI_UNIONS : list union :=
  [mk_union "cam_rx_saddr" [("rx_saddr", 16)]; mk_union "cam_rx_size" [("rx_size", 17)];
   mk_union "cam_rx_cfg" [("continous", 1); ("datasize", 2); ("padding0", 1); ("en", 1); ("pending", 1); ("clr", 1)];
   mk_union "cam_rx_initcfg" []; mk_union "cam_tx_saddr" []; mk_union "cam_tx_size" []; mk_union "cam_tx_cfg" [];
   mk_union "cam_tx_initcfg" [];
   mk_union "cam_cfg_glob" [("framedrop_en", 1); ("framedrop_val", 6); ("frameslice_en", 1); ("format", 3); ("shift", 4); ("padding0", 16); ("en", 1)];
   mk_union "cam_cfg_ll" [("frameslice_llx", 16); ("frameslice_lly", 16)];
   mk_union "cam_cfg_ur" [("frameslice_urx", 16); ("frameslice_ury", 16)];
   mk_union "cam_cfg_size" [("padding0", 16); ("rowlen", 16)];
   mk_union "cam_cfg_filter" [("b_coeff", 8); ("g_coeff", 8); ("r_coeff", 8)];
   mk_union "cam_vsync_polarity" [("vsync_polarity", 1)]]%string.
Definition CPI_STRUCT : list string :=
  ["cam_rx_saddr"; "cam_rx_size"; "cam_rx_cfg"; "cam_rx_initcfg"; "cam_tx_saddr"; "cam_tx_size"; "cam_tx_cfg";
   "cam_tx_initcfg"; "cam_cfg_glob"; "cam_cfg_ll"; "cam_cfg_ur"; "cam_cfg_size"; "cam_cfg_filter";
   "cam_vsync_polarity"]%string.
Definition CPI_MACROS : list macros :=
  [mk_macros "CAM_RX_SADDR" "RX_SADDR" (16, 0) (16, 0) (16, 0) 0;
   mk_macros "CAM_RX_SIZE" "RX_SIZE" (17, 0) (17, 0) (17, 0) 0;
   mk_macros "CAM_RX_CFG" "CONTINOUS" (1, 0) (1, 0) (1, 0) 0;
   mk_macros "CAM_RX_CFG" "DATASIZE" (2, 1) (2, 1) (2, 1) 1; mk_macros "CAM_RX_CFG" "EN" (1, 4) (1, 4) (1, 4) 4;
   mk_macros "CAM_RX_CFG" "PENDING" (1, 5) (1, 5) (1, 5) 5; mk_macros "CAM_RX_CFG" "CLR" (1, 6) (1, 6) (1, 6) 6;
   mk_macros "CAM_CFG_GLOB" "FRAMEDROP_EN" (1, 0) (1, 0) (1, 0) 0;
   mk_macros "CAM_CFG_GLOB" "FRAMEDROP_VAL" (6, 1) (6, 1) (6, 1) 1;
   mk_macros "CAM_CFG_GLOB" "FRAMESLICE_EN" (1, 7) (1, 7) (1, 7) 7;
   mk_macros "CAM_CFG_GLOB" "FORMAT" (3, 8) (3, 8) (3, 8) 8;
   mk_macros "CAM_CFG_GLOB" "SHIFT" (4, 11) (4, 11) (4, 11) 11;
   mk_macros "CAM_CFG_GLOB" "EN" (1, 31) (1, 31) (1, 31) 31;
   mk_macros "CAM_CFG_LL" "FRAMESLICE_LLX" (16, 0) (16, 0) (16, 0) 0;
   mk_macros "CAM_CFG_LL" "FRAMESLICE_LLY" (16, 16) (16, 16) (16, 16) 16;
   mk_macros "CAM_CFG_UR" "FRAMESLICE_URX" (16, 0) (16, 0) (16, 0) 0;
   mk_macros "CAM_CFG_UR" "FRAMESLICE_URY" (16, 16) (16, 16) (16, 16) 16;
   mk_macros "CAM_CFG_SIZE" "ROWLEN" (16, 16) (16, 16) (16, 16) 16;
   mk_macros "CAM_CFG_FILTER" "B_COEFF" (8, 0) (8, 0) (8, 0) 0;
   mk_macros "CAM_CFG_FILTER" "G_COEFF" (8, 8) (8, 8) (8, 8) 8;
   mk_macros "CAM_CFG_FILTER" "R_COEFF" (8, 16) (8, 16) (8, 16) 16;
   mk_macros "CAM_VSYNC_POLARITY" "VSYNC_POLARITY" (1, 0) (1, 0) (1, 0) 0]%string.
Definition CPI_HEADER : header :=
  mk_header (CPI_OFFSETS) (CPI_FIELDS) (CPI_UNIONS) CPI_STRUCT (CPI_MACROS).

Definition UDMA_CPI_CAM_RX_SADDR_OFFSET : Z := 0x0.
Definition UDMA_CPI_CAM_RX_SIZE_OFFSET : Z := 0x4.
Definition UDMA_CPI_CAM_RX_CFG_OFFSET : Z := 0x8.
Definition UDMA_CPI_CAM_RX_INITCFG_OFFSET : Z := 0xc.
Definition UDMA_CPI_CAM_TX_SADDR_OFFSET : Z := 0x10.
Definition UDMA_CPI_CAM_TX_SIZE_OFFSET : Z := 0x14.
Definition UDMA_CPI_CAM_TX_CFG_OFFSET : Z := 0x18.
Definition UDMA_CPI_CAM_TX_INITCFG_OFFSET : Z := 0x1c.
Definition UDMA_CPI_CAM_CFG_GLOB_OFFSET : Z := 0x20.
Definition UDMA_CPI_CAM_CFG_LL_OFFSET : Z := 0x24.
Definition UDMA_CPI_CAM_CFG_UR_OFFSET : Z := 0x28.
Definition UDMA_CPI_CAM_CFG_SIZE_OFFSET : Z := 0x2c.
Definition UDMA_CPI_CAM_CFG_FILTER_OFFSET : Z := 0x30.
Definition UDMA_CPI_CAM_VSYNC_POLARITY_OFFSET : Z := 0x34.

Definition udma_cpi_cam_rx_saddr_get (base : Z) : M soc Z := ARCHI_READ base UDMA_CPI_CAM_RX_SADDR_OFFSET.
Definition udma_cpi_cam_rx_saddr_set (base value : Z) : M soc unit := ARCHI_WRITE base UDMA_CPI_CAM_RX_SADDR_OFFSET value.
Definition udma_cpi_cam_rx_size_get (base : Z) : M soc Z := ARCHI_READ base UDMA_CPI_CAM_RX_SIZE_OFFSET.
Definition udma_cpi_cam_rx_size_set (base value : Z) : M soc unit := ARCHI_WRITE base UDMA_CPI_CAM_RX_SIZE_OFFSET value.
Definition udma_cpi_cam_rx_cfg_get (base : Z) : M soc Z := ARCHI_READ base UDMA_CPI_CAM_RX_CFG_OFFSET.
Definition udma_cpi_cam_rx_cfg_set (base value : Z) : M soc unit := ARCHI_WRITE base UDMA_CPI_CAM_RX_CFG_OFFSET value.
Definition udma_cpi_cam_rx_initcfg_get (base : Z) : M soc Z := ARCHI_READ base UDMA_CPI_CAM_RX_INITCFG_OFFSET.
Definition udma_cpi_cam_rx_initcfg_set (base value : Z) : M soc unit := ARCHI_WRITE base UDMA_CPI_CAM_RX_INITCFG_OFFSET value.
Definition udma_cpi_cam_tx_saddr_get (base : Z) : M soc Z := ARCHI_READ base UDMA_CPI_CAM_TX_SADDR_OFFSET.
Definition udma_cpi_cam_tx_saddr_set (base value : Z) : M soc unit := ARCHI_WRITE base UDMA_CPI_CAM_TX_SADDR_OFFSET value.
Definition udma_cpi_cam_tx_size_get (base : Z) : M soc Z := ARCHI_READ base UDMA_CPI_CAM_TX_SIZE_OFFSET.
Definition udma_cpi_cam_tx_size_set (base value : Z) : M soc unit := ARCHI_WRITE base UDMA_CPI_CAM_TX_SIZE_OFFSET value.
Definition udma_cpi_cam_tx_cfg_get (base : Z) : M soc Z := ARCHI_READ base UDMA_CPI_CAM_TX_CFG_OFFSET.
Definition udma_cpi_cam_tx_cfg_set (base value : Z) : M soc unit := ARCHI_WRITE base UDMA_CPI_CAM_TX_CFG_OFFSET value.
Definition udma_cpi_cam_tx_initcfg_get (base : Z) : M soc Z := ARCHI_READ base UDMA_CPI_CAM_TX_INITCFG_OFFSET.
Definition udma_cpi_cam_tx_initcfg_set (base value : Z) : M soc unit := ARCHI_WRITE base UDMA_CPI_CAM_TX_INITCFG_OFFSET value.
Definition udma_cpi_cam_cfg_glob_get (base : Z) : M soc Z := ARCHI_READ base UDMA_CPI_CAM_CFG_GLOB_OFFSET.
Definition udma_cpi_cam_cfg_glob_set (base value : Z) : M soc unit := ARCHI_WRITE base UDMA_CPI_CAM_CFG_GLOB_OFFSET value.
Definition udma_cpi_cam_cfg_ll_get (base : Z) : M soc Z := ARCHI_READ base UDMA_CPI_CAM_CFG_LL_OFFSET.
Definition udma_cpi_cam_cfg_ll_set (base value : Z) : M soc unit := ARCHI_WRITE base UDMA_CPI_CAM_CFG_LL_OFFSET value.
Definition udma_cpi_cam_cfg_ur_get (base : Z) : M soc Z := ARCHI_READ base UDMA_CPI_CAM_CFG_UR_OFFSET.
Definition udma_cpi_cam_cfg_ur_set (base value : Z) : M soc unit := ARCHI_WRITE base UDMA_CPI_CAM_CFG_UR_OFFSET value.
Definition udma_cpi_cam_cfg_size_get (base : Z) : M soc Z := ARCHI_READ base UDMA_CPI_CAM_CFG_SIZE_OFFSET.
Definition udma_cpi_cam_cfg_size_set (base value : Z) : M soc unit := ARCHI_WRITE base UDMA_CPI_CAM_CFG_SIZE_OFFSET value.
Definition udma_cpi_cam_cfg_filter_get (base : Z) : M soc Z := ARCHI_READ base UDMA_CPI_CAM_CFG_FILTER_OFFSET.
Definition udma_cpi_cam_cfg_filter_set (base value : Z) : M soc unit := ARCHI_WRITE base UDMA_CPI_CAM_CFG_FILTER_OFFSET value.
Definition udma_cpi_cam_vsync_polarity_get (base : Z) : M soc Z := ARCHI_READ base UDMA_CPI_CAM_VSYNC_POLARITY_OFFSET.
Definition udma_cpi_cam_vsync_polarity_set (base value : Z) : M soc unit := ARCHI_WRITE base UDMA_CPI_CAM_VSYNC_POLARITY_OFFSET value.

(** * Theorems *)

(** C26. In the register descriptions of GPIO, timer and camera interface all tables
    agree: registers follow each other word by word in the order of the struct; the
    mask, the bit-field member and the macros of a field reach the same bits, which
    lie inside the word and in no other field of the register.  The masks of the
    macros being [int]s, C defines none of them for a field of 31 or 32 bits, and SET
    for no field that holds bit 31: there alone the macros are undefined. *)
Theorem registers_sound : Forall header_sound [GPIO_HEADER; TIMER_HEADER; CPI_HEADER].
Proof. repeat (apply Forall_cons; split; [apply header_but; vm_compute; reflexivity|]). apply Forall_nil. done. Qed.
