(* ===== verification/Fll.v ===== *)
(** * Fll: the frequency-locked loops

    boot_code/include/archi/fll/fll_v1.h and hal/fll/fll_v1.h: the fields of the four
    registers of an FLL, the unions and macros that access them, and the HAL as
    programs over the platform of Pulp. *)

From S2P Require Import Prelude Monad Hw Builtins Regs Pulp PulpBoot.

(** ** archi/fll/fll_v1.h *)
Definition FLL_STATUS_OFFSET : Z := 0x000.
Definition FLL_CONF1_OFFSET : Z := 0x004.
Definition FLL_CONF2_OFFSET : Z := 0x008.
Definition FLL_INTEGRATOR_OFFSET : Z := 0x00C.

Definition FLL_FIELDS : list field :=
  [mk_field "STATUS" "MULT_FACTOR" 0 16 0xFFFF;
   mk_field "CONF1" "MODE" 31 1 0x80000000;
   mk_field "CONF1" "LOCK" 30 1 0x40000000;
   mk_field "CONF1" "DIV" 26 4 0x3C000000;
   mk_field "CONF1" "DCO" 16 10 0x03FF0000;
   mk_field "CONF1" "MULT_FACTOR" 0 16 0xFFFF;
   mk_field "CONF2" "GAIN" 0 4 0x0000000F;
   mk_field "CONF2" "DEASSERT_CYCLES" 4 6 0x000003F0;
   mk_field "CONF2" "ASSERT_CYCLES" 10 6 0x0000FC00;
   mk_field "CONF2" "TOLERANCE" 16 12 0x0FFF0000;
   mk_field "CONF2" "STA_CLOCK" 29 1 0x20000000;
   mk_field "CONF2" "OPEN_LOOP" 30 1 0x40000000;
   mk_field "CONF2" "DITHERING" 31 1 0x80000000;
   mk_field "INTEGRATOR" "INT" 16 10 0x03FF0000;
   mk_field "INTEGRATOR" "FRACT" 6 10 0x0000FFC0]%string.
Definition FLL_CONF1_MODE_STANDALONE : Z := 0.
Definition FLL_CONF1_MODE_NORMAL : Z := 1.

Definition fll_reg_status_t : union := mk_union "status" [("actual_mult_factor", 16); ("reserved", 16)]%string.
Definition fll_reg_conf1_t : union :=
  mk_union "conf1" [("mult_factor", 16); ("dco_input", 10); ("clock_out_divider", 4);
                    ("output_lock_enable", 1); ("mode", 1)]%string.
Definition fll_reg_conf2_t : union :=
  mk_union "conf2" [("loop_gain", 4); ("de_assert_cycles", 6); ("assert_cycles", 6); ("lock_tolerance", 12);
                    ("pad", 1); ("config_clock_sel", 1); ("open_loop", 1); ("dithering", 1)]%string.
Definition fll_reg_integrator_t : union :=
  mk_union "integrator" [("pad1", 6); ("state_fract_part", 10); ("state_int_part", 10); ("pad2", 6)]%string.

(** The macros: [(value >> shift) & mask], BITINSERT, and the shift of a value. *)
Definition get_at (value shift mask : Z) : Z := Z.shiftr (u32 value) shift &&& mask.
Definition FLL_STATUS_MULT_FACTOR_GET (value : Z) : Z := get_at value 0 0xFFFF.
Definition FLL_STATUS_MULT_FACTOR_SET (dst src factor : Z) : option Z := __BITINSERT dst src 16 0.
Definition FLL_STATUS_MULT_FACTOR (factor : Z) : Z := u32 (Z.shiftl factor 16).
Definition FLL_CONF1_MODE_GET (value : Z) : Z := get_at value 16 0x1.
Definition FLL_CONF1_MODE_SET (dst src : Z) : option Z := __BITINSERT dst src 1 31.
Definition FLL_CONF1_MODE (factor : Z) : Z := u32 (Z.shiftl factor 31).
Definition FLL_CONF1_LOCK_GET (value : Z) : Z := get_at value 16 0x1.
Definition FLL_CONF1_LOCK_SET (dst src : Z) : option Z := __BITINSERT dst src 30 1.
Definition FLL_CONF1_LOCK (factor : Z) : Z := u32 (Z.shiftl factor 30).
Definition FLL_CONF1_DIV_GET (value : Z) : Z := get_at value 26 0xF.
Definition FLL_CONF1_DIV_SET (dst src : Z) : option Z := __BITINSERT dst src 26 4.
Definition FLL_CONF1_DIV (factor : Z) : Z := u32 (Z.shiftl factor 26).
Definition FLL_CONF1_DCO_GET (value : Z) : Z := get_at value 16 0x3FF.
Definition FLL_CONF1_DCO_SET (dst src : Z) : option Z := __BITINSERT dst src 16 10.
Definition FLL_CONF1_DCO (factor : Z) : Z := u32 (Z.shiftl factor 16).
Definition FLL_CONF1_MULT_FACTOR_GET (value : Z) : Z := get_at value 0 0xFFFF.
Definition FLL_CONF1_MULT_FACTOR_SET (dst src : Z) : option Z := __BITINSERT dst src 0 16.
Definition FLL_CONF1_MULT_FACTOR (factor : Z) : Z := u32 (Z.shiftl factor 0).
Definition FLL_CONF2_GAIN_GET (value : Z) : Z := get_at value 0 0xF.
Definition FLL_CONF2_GAIN_SET (dst src : Z) : option Z := __BITINSERT dst src 4 0.
Definition FLL_CONF2_GAIN (value : Z) : Z := u32 (Z.shiftl value 0).
Definition FLL_CONF2_ASSERT_CYCLES_GET (value : Z) : Z := get_at value 4 0x3F.
Definition FLL_CONF2_ASSERT_CYCLES_SET (dst src : Z) : option Z := __BITINSERT dst src 6 4.
Definition FLL_CONF2_ASSERT_CYCLES (value : Z) : Z := u32 (Z.shiftl value 4).
Definition FLL_CONF2_DEASSERT_CYCLES_GET (value : Z) : Z := get_at value 10 0x3F.
Definition FLL_CONF2_DEASSERT_CYCLES_SET (dst src : Z) : option Z := __BITINSERT dst src 6 10.
Definition FLL_CONF2_DEASSERT_CYCLES (value : Z) : Z := u32 (Z.shiftl value 10).
Definition FLL_CONF2_TOLERANCE_GET (value : Z) : Z := get_at value 16 0xFFF.
Definition FLL_CONF2_TOLERANCE_SET (dst src : Z) : option Z := __BITINSERT dst src 12 16.
Definition FLL_CONF2_TOLERANCE (value : Z) : Z := u32 (Z.shiftl value 16).
Definition FLL_CONF2_STA_CLOCK_GET (value : Z) : Z := get_at value 29 0x1.
Definition FLL_CONF2_STA_CLOCK_SET (dst src : Z) : option Z := __BITINSERT dst src 1 29.
Definition FLL_CONF2_STA_CLOCK (value : Z) : Z := u32 (Z.shiftl value 29).
Definition FLL_CONF2_OPEN_LOOP_GET (value : Z) : Z := get_at value 30 0x1.
Definition FLL_CONF2_OPEN_LOOP_SET (dst src : Z) : option Z := __BITINSERT dst src 1 30.
Definition FLL_CONF2_OPEN_LOOP (value : Z) : Z := u32 (Z.shiftl value 30).
Definition FLL_CONF2_DITHER_GET (value : Z) : Z := get_at value 31 0x1.
Definition FLL_CONF2_DITHER_SET (dst src : Z) : option Z := __BITINSERT dst src 1 31.
Definition FLL_CONF2_DITHER (value : Z) : Z := u32 (Z.shiftl value 31).
Definition FLL_INTEGRATOR_FRACT_GET (value : Z) : Z := get_at value 6 0x3FF.
Definition FLL_INTEGRATOR_FRACT_SET (dst src : Z) : option Z := __BITINSERT dst src 6 10.
Definition FLL_INTEGRATOR_FRACT (value : Z) : Z := u32 (Z.shiftl value 6).
Definition FLL_INTEGRATOR_INT_GET (value : Z) : Z := get_at value 16 0x3FF.
Definition FLL_INTEGRATOR_INT_SET (dst src : Z) : option Z := __BITINSERT dst src 16 10.
Definition FLL_INTEGRATOR_INT (value : Z) : Z := u32 (Z.shiftl value 16).
Definition ARCHI_REF_CLOCK_LOG2 : Z := 15.
Definition FLL_LOG2_MAXDCO : Z := 29.
Definition FLL_LOG2_MAXDIV : Z := 15.
Definition FLL_LOG2_MAXM : Z := FLL_LOG2_MAXDCO - ARCHI_REF_CLOCK_LOG2.

(** ** hal/pulp_io.h and hal/fll/fll_v1.h *)
Definition IP_WRITE (base offset value : Z) : M soc unit := pulp_write32 (base + offset) value.
Definition IP_READ (base offset : Z) : M soc Z := pulp_read32 (base + offset).
Definition ARCHI_FLL_AREA_SIZE : Z := 0x00000010.

Inductive hal_fll_e := FLL_SOC | FLL_CLUSTER.
Definition hal_fll_e_value (f : hal_fll_e) : Z := match f with FLL_SOC => 0 | FLL_CLUSTER => 1 end.
Inductive hal_fll_config_e := FLL_CONFIG1 | FLL_CONFIG2 | FLL_INTEGRATOR.
Definition hal_fll_config_e_value (r : hal_fll_config_e) : Z :=
  match r with FLL_CONFIG1 => 0 | FLL_CONFIG2 => 1 | FLL_INTEGRATOR => 2 end.
Definition N_FLL : Z := 2.

Definition fll_addr (fll : Z) : Z := ARCHI_SOC_PERIPHERALS_ADDR + ARCHI_FLL_OFFSET + fll * ARCHI_FLL_AREA_SIZE.
Definition fll_status_set (base value : Z) : M soc unit := IP_WRITE base FLL_STATUS_OFFSET value.
Definition fll_status_get (base : Z) : M soc Z := v ← IP_READ base FLL_STATUS_OFFSET; mret (s32 v).
Definition fll_conf1_set (base value : Z) : M soc unit := IP_WRITE base FLL_CONF1_OFFSET value.
Definition fll_conf1_get (base : Z) : M soc Z := v ← IP_READ base FLL_CONF1_OFFSET; mret (s32 v).
Definition fll_conf2_set (base value : Z) : M soc unit := IP_WRITE base FLL_CONF2_OFFSET value.
Definition fll_conf2_get (base : Z) : M soc Z := v ← IP_READ base FLL_CONF2_OFFSET; mret (s32 v).

Definition GetFllStatus (Fll : Z) : M soc Z := IP_READ ARCHI_SOC_PERIPHERALS_ADDR FLL_STATUS_OFFSET.
Definition GetFllConfiguration (Fll : Z) (Reg : hal_fll_config_e) : M soc Z :=
  let Offset := FLL_CONF1_OFFSET + hal_fll_config_e_value Reg * 4 + Fll * ARCHI_FLL_AREA_SIZE in
  IP_READ ARCHI_SOC_PERIPHERALS_ADDR Offset.
Definition SetFllConfiguration (Fll : Z) (Reg : hal_fll_config_e) (Value : Z) : M soc unit :=
  IP_WRITE ARCHI_SOC_PERIPHERALS_ADDR
    (FLL_CONF1_OFFSET + hal_fll_config_e_value Reg * 4 + Fll * ARCHI_FLL_AREA_SIZE) Value.
Definition hal_fll_status_reg_get (fll : Z) : M soc Z :=
  IP_READ ARCHI_SOC_PERIPHERALS_ADDR (FLL_STATUS_OFFSET + fll * ARCHI_FLL_AREA_SIZE).
Definition hal_fll_conf_reg1_set (fll value : Z) : M soc unit :=
  IP_WRITE ARCHI_SOC_PERIPHERALS_ADDR (FLL_CONF1_OFFSET + fll * ARCHI_FLL_AREA_SIZE) value.
Definition hal_fll_conf_reg1_get (fll : Z) : M soc Z :=
  IP_READ ARCHI_SOC_PERIPHERALS_ADDR (FLL_CONF1_OFFSET + fll * ARCHI_FLL_AREA_SIZE).
Definition hal_fll_conf_reg2_set (fll value : Z) : M soc unit :=
  IP_WRITE ARCHI_SOC_PERIPHERALS_ADDR (FLL_CONF2_OFFSET + fll * ARCHI_FLL_AREA_SIZE) value.
Definition hal_fll_conf_reg2_get (fll : Z) : M soc Z :=
  IP_READ ARCHI_SOC_PERIPHERALS_ADDR (FLL_CONF2_OFFSET + fll * ARCHI_FLL_AREA_SIZE).
Definition hal_fll_integrator_set (fll value : Z) : M soc unit :=
  IP_WRITE ARCHI_SOC_PERIPHERALS_ADDR (FLL_INTEGRATOR_OFFSET + fll * ARCHI_FLL_AREA_SIZE) value.
Definition hal_fll_integrator_get (fll : Z) : M soc Z :=
  IP_READ ARCHI_SOC_PERIPHERALS_ADDR (FLL_INTEGRATOR_OFFSET + fll * ARCHI_FLL_AREA_SIZE).
Definition hal_fll_update_mult_div (fll mult div : Z) : M soc unit :=
  raw ← hal_fll_conf_reg1_get fll;
  raw ← of_opt (member_set fll_reg_conf1_t "mult_factor" raw mult);
  raw ← of_opt (member_set fll_reg_conf1_t "clock_out_divider" raw div);
  hal_fll_conf_reg1_set fll raw.

(** * Theorems *)

(** The registers of the loops hold what is written to them. *)
Lemma fll_plain fll o : 0 <= fll < N_FLL -> 0 <= o < 16 ->
  u32 (ARCHI_SOC_PERIPHERALS_ADDR + (o + fll * ARCHI_FLL_AREA_SIZE)) = fll_addr fll + o /\
  special_read (fll_addr fll + o) = false /\ special_write (fll_addr fll + o) = false.
Proof.
  unfold N_FLL, fll_addr, ARCHI_SOC_PERIPHERALS_ADDR, ARCHI_FLL_OFFSET, ARCHI_FLL_AREA_SIZE. intros Hf Ho.
  assert (Hn : forall l, forallb (fun b => 0x1A101000 <=? b) l = true -> existsb (Z.eqb (0x1A100000 + 0 + fll * 0x10 + o)) l = false).
  { intros l Hl. apply not_true_iff_false. intros (b & Hin & E%Z.eqb_eq)%existsb_exists.
    rewrite forallb_forall in Hl. specialize (Hl b Hin). apply Z.leb_le in Hl. lia. }
  split; [rewrite u32_small by lia; lia|]. split; apply Hn; reflexivity.
Qed.

Lemma conf1_get {B} fll (k : Z -> M soc B) s : 0 <= fll < N_FLL ->
  (hal_fll_conf_reg1_get fll ≫= k) s = k (sreg (fll_addr fll + FLL_CONF1_OFFSET) s) s.
Proof.
  intros Hf. destruct (fll_plain fll FLL_CONF1_OFFSET Hf ltac:(vm_compute; split; congruence)) as (E & Hr & _).
  unfold hal_fll_conf_reg1_get, IP_READ. rewrite bind_read by (by rewrite E). by rewrite E.
Qed.
Lemma conf1_set fll w s : 0 <= fll < N_FLL ->
  hal_fll_conf_reg1_set fll w s = Ok tt (set_sreg (fll_addr fll + FLL_CONF1_OFFSET) (u32 w) s).
Proof.
  intros Hf. destruct (fll_plain fll FLL_CONF1_OFFSET Hf ltac:(vm_compute; split; congruence)) as (E & _ & Hw).
  unfold hal_fll_conf_reg1_set, IP_WRITE, pulp_write32, modify. rewrite E. by rewrite bus_write_reg.
Qed.

(** C27. hal_fll_update_mult_div sets the multiplication factor and the output divider
    of the chosen loop, each to the low bits of its argument, and nothing else: the
    other fields of the register, every other register and the rest of the platform
    keep their values. *)
Theorem fll_update_sets_two_fields s fll mult div :
  let a := fll_addr fll + FLL_CONF1_OFFSET in
  0 <= fll < N_FLL -> 0 <= sreg a s < 2 ^ 32 ->
  exists w, hal_fll_update_mult_div fll mult div s = Ok tt (set_sreg a w s) /\ 0 <= w < 2 ^ 32 /\
    member_get fll_reg_conf1_t "mult_factor" w = Some (mult mod 2 ^ 16) /\
    member_get fll_reg_conf1_t "clock_out_divider" w = Some (div mod 2 ^ 4) /\
    (forall n, n ∈ ["dco_input"; "output_lock_enable"; "mode"]%string ->
       member_get fll_reg_conf1_t n w = member_get fll_reg_conf1_t n (sreg a s)) /\
    (forall b, b <> a -> sreg b (set_sreg a w s) = sreg b s).
Proof.
  intros a Hf Hr. set (v := sreg a s) in *.
  set (w := bitfield_set (bitfield_set v mult 0 16) div 26 4).
  assert (Hw : 0 <= w < 2 ^ 32) by (unfold w; apply bitfield_set_range; [lia..|]; apply bitfield_set_range; lia).
  exists w. split; [|split; [done|split; [|split; [|split]]]].
  - rewrite <- (u32_small w) by exact Hw. unfold hal_fll_update_mult_div. rewrite conf1_get by done.
    fold a v. apply (conf1_set fll w s Hf).
  - change (Some (bitfield_get w 0 16) = Some (mult mod 2 ^ 16)). f_equal. unfold w.
    rewrite bitfield_get_set_other by lia. apply bitfield_get_set; lia.
  - change (Some (bitfield_get w 26 4) = Some (div mod 2 ^ 4)). f_equal. apply bitfield_get_set; lia.
  - intros n Hn. rewrite !elem_of_cons in Hn. unfold w.
    assert (Ho : forall o k, 16 <= o -> 0 <= k -> o + k <= 26 \/ 30 <= o -> bitfield_get w o k = bitfield_get v o k).
    { intros o k H1 H2 H3. unfold w. rewrite !bitfield_get_set_other by lia. done. }
    destruct Hn as [->|[->|[->|Hn]]]; [| | |by apply elem_of_nil in Hn];
      [change (Some (bitfield_get w 16 10) = Some (bitfield_get v 16 10))
      |change (Some (bitfield_get w 30 1) = Some (bitfield_get v 30 1))
      |change (Some (bitfield_get w 31 1) = Some (bitfield_get v 31 1))]; f_equal; apply Ho; lia.
  - intros b Hb. rewrite sreg_set. by destruct (Z.eqb_spec b a).
Qed.

(** [get] and [set] are the accesses of the field of [width] bits at [bit]. *)
Definition accesses (get : Z -> Z) (set : Z -> Z -> option Z) (bit width : Z) : Prop :=
  forall v x, 0 <= v < 2 ^ 32 -> get v = bitfield_get v bit width /\ set v x = Some (bitfield_set v x bit width).

Lemma accesses_intro bit width : 0 <= bit -> 0 <= width < 31 -> bit + width <= 31 -> bit < 32 ->
  accesses (fun v => get_at v bit (Z.ones width)) (fun v x => __BITINSERT v x width bit) bit width.
Proof.
  intros Hb Hw Hs Hl v x Hv. unfold get_at. rewrite u32_small, Z.land_ones by lia. split; [done|].
  apply binsert_bitfield; lia.
Qed.

(** The GET and SET macros of the header: those of CONF2 access a field each, though
    ASSERT and DEASSERT are exchanged against the BIT constants and the union; those
    of CONF1 and of the integrator mostly do not, and the SET of the multiplication
    factor changes nothing. *)
Theorem fll_macros_checked :
  accesses FLL_STATUS_MULT_FACTOR_GET (fun d x => FLL_STATUS_MULT_FACTOR_SET d x 0) 0 16 /\
  accesses FLL_CONF2_GAIN_GET FLL_CONF2_GAIN_SET 0 4 /\
  accesses FLL_CONF2_ASSERT_CYCLES_GET FLL_CONF2_ASSERT_CYCLES_SET 4 6 /\
  accesses FLL_CONF2_DEASSERT_CYCLES_GET FLL_CONF2_DEASSERT_CYCLES_SET 10 6 /\
  accesses FLL_CONF2_TOLERANCE_GET FLL_CONF2_TOLERANCE_SET 16 12 /\
  accesses FLL_CONF2_STA_CLOCK_GET FLL_CONF2_STA_CLOCK_SET 29 1 /\
  accesses FLL_CONF2_OPEN_LOOP_GET FLL_CONF2_OPEN_LOOP_SET 30 1 /\
  (forall v x, 0 <= v < 2 ^ 32 -> FLL_CONF2_DITHER_GET v = bitfield_get v 31 1 /\ FLL_CONF2_DITHER_SET v x = None) /\
  (member fll_reg_conf2_t "de_assert_cycles" = Some (4, 6) /\ member fll_reg_conf2_t "assert_cycles" = Some (10, 6)) /\
  (FLL_CONF1_MODE_GET 0x80000000 = 0 /\ FLL_CONF1_LOCK_GET 0x40000000 = 0) /\
  (FLL_CONF1_LOCK_SET 0xFFFFFFFF 0 = Some 0x80000001 /\ FLL_CONF1_DIV_SET 0 1 = Some 0x10 /\
   FLL_CONF1_DCO_SET 0 1 = Some 0x400 /\ FLL_INTEGRATOR_FRACT_SET 0 1 = Some 0x400 /\
   FLL_INTEGRATOR_INT_SET 0 1 = Some 0x400 /\ FLL_STATUS_MULT_FACTOR 1 = 0x10000) /\
  (forall v x, 0 <= v < 2 ^ 32 -> FLL_CONF1_MULT_FACTOR_SET v x = Some v).
Proof.
  do 7 (split; [match goal with |- accesses _ _ ?b ?w => apply (accesses_intro b w); lia end|]).
  split. { intros v x Hv. split; [|by apply (binsert_none v x 1 31)].
    unfold FLL_CONF2_DITHER_GET, get_at. change 0x1 with (Z.ones 1). by rewrite u32_small, Z.land_ones by lia. }
  split; [done|]. split; [done|]. split; [done|].
  intros v x Hv. destruct (bitinsert_field v x 0 16) as (r & E & Hr & Hb); [split; lia|].
  unfold FLL_CONF1_MULT_FACTOR_SET. rewrite E. f_equal. apply Z.bits_inj'. intros i Hi.
  destruct (Z.lt_ge_cases i 32) as [Hlt|]; [|by rewrite !(testbit_above 32) by lia].
  rewrite Hb by lia. unfold in_field. destruct (Z.leb_spec 16 i), (Z.ltb_spec i (16 + 0)); (done || lia).
Qed.

(** A platform whose second loop has its reset configuration. *)
Definition sample_fll : soc :=
  mk_soc ∅ {[ 0x1A100014 := 0xC52105F5 ]} 0 0 [] 0 None [] ∅ (mk_flash (fun _ => 0) []).

Lemma fll_update_sets_two_fields_witness :
  exists w, hal_fll_update_mult_div 1 0x1234 3 sample_fll =
    Ok tt (set_sreg 0x1A100014 w sample_fll) /\
    member_get fll_reg_conf1_t "mult_factor" w = Some 0x1234.
Proof.
  destruct (fll_update_sets_two_fields sample_fll 1 0x1234 3
    ltac:(vm_compute; split; congruence) ltac:(vm_compute; split; congruence)) as (w & E & _ & Hm & _).
  exists w. split; [exact E | exact Hm].
Defined.
