(* ===== verification/Periph.v ===== *)
(** * Periph: the HAL of GPIO, timer, camera interface, I2C and UART

    boot_code/include/hal/gpio/gpio_v3.h, hal/timer/timer_v2.h,
    hal/udma/cpi/udma_cpi_v1.h with archi/udma/cpi/udma_cpi_v1_old.h,
    hal/udma/i2c/udma_i2c_v2.h and the fields of archi/udma/uart/udma_uart_v1.h, as
    programs over the platform of Pulp. *)

From S2P Require Import Prelude Monad Hw Builtins Regs Pulp PulpBoot PeriphRegs.

Definition ARCHI_GPIO_ADDR : Z := ARCHI_SOC_PERIPHERALS_ADDR + ARCHI_GPIO_OFFSET.
Definition ARCHI_FC_TIMER_ADDR : Z := ARCHI_SOC_PERIPHERALS_ADDR + ARCHI_FC_TIMER_OFFSET.

(** ** hal/gpio/gpio_v3.h *)
Definition ARCHI_GPIO_PADDIR_IN : Z := 0.
Definition ARCHI_GPIO_PADDIR_OUT : Z := 1.
Definition ARCHI_GPIO_INTTYPE_RISE : Z := 1.
Definition ARCHI_GPIO_INTTYPE_FALL : Z := 0.
Definition ARCHI_GPIO_INTTYPE_RISE_AND_FALL : Z := 2.
Definition ARCHI_GPIO_INTTYPE_NO (gpio : Z) : Z := Z.shiftr gpio 4.
Definition ARCHI_GPIO_INTTYPE_GPIO (inttype : Z) : Z := inttype * 16.
Definition ARCHI_GPIO_INTTYPE_SIZE : Z := 2.
Definition ARCHI_GPIO_INTTYPE_BIT (pad : Z) : Z := Z.shiftl (pad &&& 0xF) 1.
Definition ARCHI_GPIO_INTTYPE_GET (gpio value : Z) : Z :=
  Z.shiftr value (ARCHI_GPIO_INTTYPE_BIT gpio) &&& (Z.shiftl 1 ARCHI_GPIO_INTTYPE_SIZE - 1).

Definition hal_gpio_inttype_set (id value : Z) : M soc unit :=
  if id =? 0 then gpio_inttype0_set ARCHI_GPIO_ADDR value else gpio_inttype1_set ARCHI_GPIO_ADDR value.
Definition hal_gpio_inttype_get (id : Z) : M soc Z :=
  if id =? 0 then gpio_inttype0_get ARCHI_GPIO_ADDR else gpio_inttype1_get ARCHI_GPIO_ADDR.
Definition hal_gpio_en_get : M soc Z := gpio_gpioen_get ARCHI_GPIO_ADDR.
Definition hal_gpio_en_set (value : Z) : M soc unit := gpio_gpioen_set ARCHI_GPIO_ADDR value.
(** [is_out] and [value] are [uint8_t]. *)
Definition hal_gpio_set_dir (mask is_out : Z) : M soc unit :=
  let is_out := u8 is_out in
  current ← gpio_paddir_get ARCHI_GPIO_ADDR;
  let current := if negb (is_out =? 0) then current ||| mask else current &&& Z.lnot mask in
  gpio_paddir_set ARCHI_GPIO_ADDR current.
Definition hal_gpio_set_value (mask value : Z) : M soc unit :=
  let value := u8 value in
  current ← gpio_padout_get ARCHI_GPIO_ADDR;
  let current := if negb (value =? 0) then current ||| mask else current &&& Z.lnot mask in
  gpio_padout_set ARCHI_GPIO_ADDR current.
(** This reads back the output register; versions 0 and 2 read the input. *)
Definition hal_gpio_get_value : M soc Z := gpio_padout_get ARCHI_GPIO_ADDR.
(** [1<<pin] is an [int]: undefined from 31 on. *)
Definition hal_gpio_set_pin_value (pin value : Z) : M soc unit :=
  let pin := u32 pin in let value := u8 value in
  current ← gpio_padout_get ARCHI_GPIO_ADDR;
  bit ← of_opt (shl_int 1 pin);
  let current := if negb (value =? 0) then current ||| bit else current &&& Z.lnot bit in
  gpio_padout_set ARCHI_GPIO_ADDR current.

(** ** hal/timer/timer_v2.h *)
Definition timer_conf_get (addr : Z) : M soc Z := timer_cfg_lo_get addr.
Definition timer_conf_set (addr value : Z) : M soc unit := timer_cfg_lo_set addr value.
Definition timer_count_get (addr : Z) : M soc Z := timer_cnt_lo_get addr.
Definition timer_count_set (addr value : Z) : M soc unit := timer_cnt_lo_set addr value.
Definition timer_cmp_get (addr : Z) : M soc Z := timer_cmp_lo_get addr.
Definition timer_cmp_set (addr cmp : Z) : M soc unit := timer_cmp_lo_set addr cmp.
Definition timer_reset (addr : Z) : M soc unit := timer_reset_lo_set addr 1.
Definition timer_start (addr : Z) : M soc unit := timer_start_lo_set addr 1.

(** ** archi/udma/cpi/udma_cpi_v1_old.h *)
Definition CAM_GLOB_OFFSET : Z := 0x00.
Definition CAM_LL_OFFSET : Z := 0x04.
Definition CAM_UR_OFFSET : Z := 0x08.
Definition CAM_SIZE_OFFSET : Z := 0x0C.
Definition CAM_FILTER_OFFSET : Z := 0x10.
(** [..._OFFSET], [..._WIDTH], [..._MASK]. *)
Definition CAM_FIELDS : list field :=
  [mk_field "CFG_GLOB" "FRAMEDROP_EN" 0 1 (Z.shiftl 0x1 0); mk_field "CFG_GLOB" "FRAMEDROP_VAL" 1 6 (Z.shiftl 0x3f 1);
   mk_field "CFG_GLOB" "FRAMESLICE_EN" 7 1 (Z.shiftl 0x1 7); mk_field "CFG_GLOB" "FORMAT" 8 2 (Z.shiftl 0x7 8);
   mk_field "CFG_GLOB" "SHIFT" 11 4 (Z.shiftl 0xf 11); mk_field "CFG_GLOB" "EN" 31 1 (Z.shiftl 0x1 31);
   mk_field "CFG_LL" "FRAMESLICE_LLX" 0 16 (Z.shiftl 0xffff 0); mk_field "CFG_LL" "FRAMESLICE_LLY" 16 16 (Z.shiftl 0xffff 16);
   mk_field "CFG_UR" "FRAMESLICE_URX" 0 16 (Z.shiftl 0xffff 0); mk_field "CFG_UR" "FRAMESLICE_URY" 16 16 (Z.shiftl 0xffff 16);
   mk_field "CFG_SIZE" "ROWLEN" 16 16 (Z.shiftl 0xffff 16);
   mk_field "CFG_FILTER" "B_COEFF" 0 8 (Z.shiftl 0xff 0); mk_field "CFG_FILTER" "G_COEFF" 8 8 (Z.shiftl 0xff 8);
   mk_field "CFG_FILTER" "R_COEFF" 16 8 (Z.shiftl 0xff 16)]%string.
Definition CAM_CFG_GLOB_FORMAT_RGB565 : Z := Z.shiftl 0 8.
Definition CAM_CFG_GLOB_FORMAT_RGB555 : Z := Z.shiftl 1 8.
Definition CAM_CFG_GLOB_FORMAT_RGB444 : Z := Z.shiftl 2 8.
Definition CAM_CFG_GLOB_FORMAT_BYPASS_LITEND : Z := Z.shiftl 4 8.
Definition CAM_CFG_GLOB_FORMAT_BYPASS_BIGEND : Z := Z.shiftl 5 8.
Definition CAM_CFG_SIZE_ROWLEN (val : Z) : Z := u32 (Z.shiftl (val - 1) 16).
(** The deprecated [..._BIT] and [..._SIZE] constants. *)
Definition CAM_OBSOLETE_FIELDS : list (string * Z * option Z) :=
  [("GLOB_FRAMEDROP_EN", 0, None); ("GLOB_FRAMEDROP_VAL", 1, Some 6); ("GLOB_FRAMESLICE_EN", 7, None);
   ("GLOB_FORMAT", 8, Some 3); ("GLOB_SHIFT", 11, Some 4); ("GLOB_EN", 31, None);
   ("LL_FRAMESLICE_LLX", 0, Some 16); ("LL_FRAMESLICE_LLY", 16, Some 16); ("UR_FRAMESLICE_URX", 0, Some 16);
   ("UR_FRAMESLICE_URY", 16, Some 16); ("SIZE_ROWLEN", 16, Some 16); ("FILTER_B_COEFF", 0, Some 8);
   ("FILTER_G_COEFF", 8, Some 8); ("FILTER_R_COEFF", 16, Some 8)]%string.
Definition CAM_CFG_GLOB_FRAMEDROP_EN_BIT : Z := 0.
Definition CAM_CFG_GLOB_FRAMEDROP_VAL_BIT : Z := 1.
Definition CAM_CFG_GLOB_FORMAT_BIT : Z := 8.
Definition CAM_CFG_GLOB_SHIFT_BIT : Z := 11.
Definition CAM_CFG_GLOB_EN_BIT : Z := 31.

(** ** hal/udma/cpi/udma_cpi_v1.h *)
Definition UDMA_CAM_OFFSET (id : Z) : Z := UDMA_PERIPH_OFFSET (ARCHI_UDMA_CAM_ID id).
Definition UDMA_CAM_RX_ADDR (id : Z) : Z := ARCHI_UDMA_ADDR + UDMA_CAM_OFFSET id + UDMA_CHANNEL_RX_OFFSET.
Definition UDMA_CAM_CUSTOM_ADDR (id : Z) : Z := ARCHI_UDMA_ADDR + UDMA_CAM_OFFSET id + UDMA_CHANNEL_CUSTOM_OFFSET.
Definition plpUdmaCameraHandle_t : list string :=
  ["rx_ch_saddr"; "rx_ch_size"; "rx_ch_cfg"; "rx_ch_initcfg_unused"; "tx_ch_saddr"; "tx_ch_size"; "tx_ch_cfg";
   "tx_ch_initcfg_unused"; "cfg_glob"; "cfg_ll"; "cfg_ur"; "cfg_size"; "cfg_filter"]%string.
Definition plpUdmaCamCfgGlob_t : union :=
  mk_union "cfg_glob" [("framedrop_enable", 1); ("framedrop_value", 6); ("frameslice_enable", 1); ("format", 3);
                       ("shift", 4); ("unused", 16); ("enable", 1)]%string.
Definition plpUdmaCamCfgLl_t : union := mk_union "cfg_ll" [("frameslice_llx", 16); ("frameslice_lly", 16)]%string.
Definition plpUdmaCamCfgUr_t : union := mk_union "cfg_ur" [("frameslice_urx", 16); ("frameslice_ury", 16)]%string.
Definition plpUdmaCamCfgSize_t : union := mk_union "cfg_size" [("unused", 16); ("row_length", 16)]%string.
Definition plpUdmaCamCfgFilter_t : union :=
  mk_union "cfg_filter" [("b_coeff", 8); ("g_coeff", 8); ("r_coeff", 8); ("unused", 8)]%string.

Definition hal_cpi_ll_set (cpi value : Z) : M soc unit := pulp_write32 (UDMA_CAM_CUSTOM_ADDR cpi + CAM_LL_OFFSET) value.
Definition hal_cpi_ll_read (cpi : Z) : M soc Z := pulp_read32 (UDMA_CAM_CUSTOM_ADDR cpi + CAM_LL_OFFSET).
Definition hal_cpi_ur_set (cpi value : Z) : M soc unit := pulp_write32 (UDMA_CAM_CUSTOM_ADDR cpi + CAM_UR_OFFSET) value.
Definition hal_cpi_ur_read (cpi : Z) : M soc Z := pulp_read32 (UDMA_CAM_CUSTOM_ADDR cpi + CAM_UR_OFFSET).
Definition hal_cpi_size_set (cpi value : Z) : M soc unit := pulp_write32 (UDMA_CAM_CUSTOM_ADDR cpi + CAM_SIZE_OFFSET) value.
Definition hal_cpi_size_read (cpi : Z) : M soc Z := pulp_read32 (UDMA_CAM_CUSTOM_ADDR cpi + CAM_SIZE_OFFSET).
Definition hal_cpi_glob_set (cpi value : Z) : M soc unit := pulp_write32 (UDMA_CAM_CUSTOM_ADDR cpi + CAM_GLOB_OFFSET) value.
Definition hal_cpi_glob_read (cpi : Z) : M soc Z := pulp_read32 (UDMA_CAM_CUSTOM_ADDR cpi + CAM_GLOB_OFFSET).
Definition hal_cpi_filter_set (cpi value : Z) : M soc unit := pulp_write32 (UDMA_CAM_CUSTOM_ADDR cpi + CAM_FILTER_OFFSET) value.
Definition hal_cpi_filter_read (cpi : Z) : M soc Z := pulp_read32 (UDMA_CAM_CUSTOM_ADDR cpi + CAM_FILTER_OFFSET).
Definition plp_cam_glob_set (enabled frameDropEn nbFrameDrop frameSliceEn format shift : Z) : M soc unit :=
  let value := u32 (Z.shiftl enabled CAM_CFG_GLOB_EN_BIT) ||| u32 (Z.shiftl frameDropEn CAM_CFG_GLOB_FRAMEDROP_EN_BIT)
    ||| u32 (Z.shiftl nbFrameDrop CAM_CFG_GLOB_FRAMEDROP_VAL_BIT) ||| u32 (Z.shiftl format CAM_CFG_GLOB_FORMAT_BIT)
    ||| u32 (Z.shiftl shift CAM_CFG_GLOB_SHIFT_BIT) in
  pulp_write32 (ARCHI_UDMA_ADDR + UDMA_CAM_OFFSET 0 + UDMA_CHANNEL_CUSTOM_OFFSET + CAM_GLOB_OFFSET) value.
Definition CAM_HANDLE (id : Z) : Z := ARCHI_UDMA_ADDR + UDMA_CAM_OFFSET id.
(** The members of plpUdmaCameraHandle_t behind the eight channel registers. *)
Definition plpUdmaCamGlobSet (handle data : Z) : M soc unit := pulp_write32 (handle + 0x20) data.
Definition plpUdmaCamGlobGet (handle : Z) : M soc Z := pulp_read32 (handle + 0x20).
Definition plpUdmaCamLlSet (handle data : Z) : M soc unit := pulp_write32 (handle + 0x24) data.
Definition plpUdmaCamLlGet (handle : Z) : M soc Z := pulp_read32 (handle + 0x24).
Definition plpUdmaCamUrSet (handle data : Z) : M soc unit := pulp_write32 (handle + 0x28) data.
Definition plpUdmaCamUrGet (handle : Z) : M soc Z := pulp_read32 (handle + 0x28).
Definition plpUdmaCamSizeSet (handle data : Z) : M soc unit := pulp_write32 (handle + 0x2C) data.
Definition plpUdmaCamSizeGet (handle : Z) : M soc Z := pulp_read32 (handle + 0x2C).
Definition plpUdmaCamFilterSet (handle data : Z) : M soc unit := pulp_write32 (handle + 0x30) data.
Definition plpUdmaCamFilterGet (handle : Z) : M soc Z := pulp_read32 (handle + 0x30).

(** ** archi/udma/i2c/udma_i2c_v2.h and hal/udma/i2c/udma_i2c_v2.h *)
Definition I2C_CMD_OFFSET : Z := 4.
Definition I2C_CMD_START : Z := Z.shiftl 0x0 I2C_CMD_OFFSET.
Definition I2C_CMD_STOP : Z := Z.shiftl 0x2 I2C_CMD_OFFSET.
Definition I2C_CMD_RD_ACK : Z := Z.shiftl 0x4 I2C_CMD_OFFSET.
Definition I2C_CMD_RD_NACK : Z := Z.shiftl 0x6 I2C_CMD_OFFSET.
Definition I2C_CMD_WR : Z := Z.shiftl 0x8 I2C_CMD_OFFSET.
Definition I2C_CMD_WAIT : Z := Z.shiftl 0xA I2C_CMD_OFFSET.
Definition I2C_CMD_RPT : Z := Z.shiftl 0xC I2C_CMD_OFFSET.
Definition I2C_CMD_CFG : Z := Z.shiftl 0xE I2C_CMD_OFFSET.
Definition I2C_CMD_WAIT_EV : Z := Z.shiftl 0x1 I2C_CMD_OFFSET.
Definition UDMA_I2C_OFFSET (id : Z) : Z := UDMA_PERIPH_OFFSET (ARCHI_UDMA_I2C_ID id).
Definition UDMA_I2C_DATA_ADDR (id : Z) : Z := ARCHI_UDMA_ADDR + UDMA_I2C_OFFSET id + UDMA_CHANNEL_RX_OFFSET.
Definition UDMA_I2C_CMD_ADDR (id : Z) : Z := ARCHI_UDMA_ADDR + UDMA_I2C_OFFSET id + UDMA_CHANNEL_TX_OFFSET.
Definition UDMA_I2C_CUSTOM_ADDR (id : Z) : Z := ARCHI_UDMA_ADDR + UDMA_I2C_OFFSET id + UDMA_CHANNEL_CUSTOM_OFFSET.
Definition ARCHI_SOC_EVENT_I2C_DATA (id : Z) : Z := ARCHI_SOC_EVENT_PERIPH_FIRST_EVT (ARCHI_UDMA_I2C_ID id) + 0.
Definition ARCHI_SOC_EVENT_I2C_CMD (id : Z) : Z := ARCHI_SOC_EVENT_PERIPH_FIRST_EVT (ARCHI_UDMA_I2C_ID id) + 1.

(** The event numbers: of udma_v3.h, used for the camera, and of properties.h. *)
Definition ARCHI_SOC_EVENT_UDMA_RX (periph : Z) : Z := periph * 2.
Definition ARCHI_SOC_EVENT_UDMA_TX (periph : Z) : Z := periph * 2 + 1.
Definition ARCHI_SOC_EVENT_CAM_RX (id : Z) : Z := ARCHI_SOC_EVENT_UDMA_RX (ARCHI_UDMA_CAM_ID id).

(** ** archi/udma/uart/udma_uart_v1.h *)
Definition UART_FIELDS : list field :=
  [mk_field "STATUS" "TX_BUSY" 0 1 (Z.shiftl 0x1 0); mk_field "STATUS" "RX_BUSY" 1 1 (Z.shiftl 0x1 1);
   mk_field "STATUS" "RX_PE" 2 1 (Z.shiftl 0x1 2);
   mk_field "SETUP" "PARITY" 0 1 (Z.shiftl 0x1 0); mk_field "SETUP" "BIT_LENGTH" 1 2 (Z.shiftl 0x3 1);
   mk_field "SETUP" "STOP_BITS" 3 1 (Z.shiftl 0x1 3); mk_field "SETUP" "TX" 8 1 (Z.shiftl 0x1 8);
   mk_field "SETUP" "RX" 9 1 (Z.shiftl 0x1 9); mk_field "SETUP" "CLKDIV" 16 16 (Z.shiftl 0xffff 16)]%string.
Definition UART_BIT_LENGTH_8 : Z := Z.shiftl 3 1.
Definition UART_STOP_BITS_1 : Z := Z.shiftl 0 3.
Definition UART_TX_ENA : Z := Z.shiftl 1 8.
Definition UART_RX_ENA : Z := Z.shiftl 1 9.

(** * Theorems *)

(** The bits of a register after [current |= mask] or [current &= ~mask]. *)
Definition selected (mask v current : Z) : Z :=
  if negb (v =? 0) then current ||| mask else current &&& Z.lnot mask.
Lemma selected_bits mask v current i : 0 <= i < 32 ->
  Z.testbit (u32 (selected mask v current)) i = if Z.testbit mask i then negb (v =? 0) else Z.testbit current i.
Proof.
  intros Hi. rewrite u32_testbit by lia. destruct (Z.ltb_spec i 32); [|lia]. rewrite andb_true_l. unfold selected.
  destruct (negb (v =? 0)); [rewrite Z.lor_spec|rewrite Z.land_spec, Z.lnot_spec by lia];
    by destruct (Z.testbit current i), (Z.testbit mask i).
Qed.

(** Reading a plain register, changing the value and writing it back. *)
Lemma modify_register a (f : Z -> Z) s : special_read (u32 a) = false -> special_write (u32 a) = false ->
  (current ← pulp_read32 a; pulp_write32 a (f current)) s = Ok tt (set_sreg (u32 a) (u32 (f (sreg (u32 a) s))) s).
Proof. intros Hr Hw. rewrite bind_read by done. unfold pulp_write32, modify. by rewrite bus_write_reg. Qed.

(** C28. The GPIO functions drive exactly the pins they are given: the output
    (or direction) bit of each selected pin becomes the level of the value, which is
    its low byte (256 drives a pin low), the bits of the other pins and the rest of
    the platform stay, and the value read back is the one written.  A single pin is
    given by number; for pin 31 and above the shift of the [int] 1 is undefined. *)
Theorem gpio_sets_selected_pins s pin mask v : 0 <= pin < 2 ^ 32 ->
  let out := ARCHI_GPIO_ADDR + GPIO_PADOUT_OFFSET in
  let dir := ARCHI_GPIO_ADDR + GPIO_PADDIR_OFFSET in
  let level := negb (v mod 256 =? 0) in
  (pin < 31 -> exists w, hal_gpio_set_pin_value pin v s = Ok tt (set_sreg out w s) /\
     forall i, 0 <= i < 32 -> Z.testbit w i = if i =? pin then level else Z.testbit (sreg out s) i) /\
  (31 <= pin -> hal_gpio_set_pin_value pin v s = Fault s) /\
  (exists w, hal_gpio_set_value mask v s = Ok tt (set_sreg out w s) /\
     forall i, 0 <= i < 32 -> Z.testbit w i = if Z.testbit mask i then level else Z.testbit (sreg out s) i) /\
  (exists w, hal_gpio_set_dir mask v s = Ok tt (set_sreg dir w s) /\
     forall i, 0 <= i < 32 -> Z.testbit w i = if Z.testbit mask i then level else Z.testbit (sreg dir s) i) /\
  (forall w, hal_gpio_get_value (set_sreg out w s) = Ok w (set_sreg out w s)).
Proof.
  intros Hpin out dir level. split; [|split; [|split; [|split]]].
  - intros Hlt. assert (E : shl_int 1 (u32 pin) = Some (Z.shiftl 1 pin)).
    { rewrite u32_small by lia. apply shl_int_some; [lia..|]. rewrite Z.shiftl_mul_pow2, Z.mul_1_l by lia. apply Z.pow_lt_mono_r; lia. }
    exists (u32 (selected (Z.shiftl 1 pin) (u8 v) (sreg out s))). split.
    + unfold hal_gpio_set_pin_value. cbv zeta. rewrite E.
      apply (modify_register out (selected (Z.shiftl 1 pin) (u8 v))); reflexivity.
    + intros i Hi. rewrite selected_bits by done. rewrite shiftl_testbit by lia.
      destruct (Z.eqb_spec i pin) as [->|Hne]; [by rewrite Z.leb_refl, Z.sub_diag|].
      destruct (Z.leb_spec pin i); [|done]. rewrite (Z.bits_above_log2 1) by (cbn; lia). done.
  - intros Hge. assert (E : shl_int 1 (u32 pin) = None).
    { rewrite u32_small by lia. destruct (shl_int 1 pin) eqn:E; [|done].
      destruct (proj1 (shl_int_iff 1 pin) (mk_is_Some _ _ E)) as (Hs & _ & Hlt).
      rewrite Z.shiftl_mul_pow2, Z.mul_1_l in Hlt by lia. apply Z.pow_lt_mono_r_iff in Hlt; lia. }
    unfold hal_gpio_set_pin_value, gpio_padout_get, ARCHI_READ. cbv zeta. by rewrite E, bind_read by reflexivity.
  - exists (u32 (selected mask (u8 v) (sreg out s))). split; [|intros i Hi; by apply selected_bits].
    apply (modify_register out (selected mask (u8 v))); reflexivity.
  - exists (u32 (selected mask (u8 v) (sreg dir s))). split; [|intros i Hi; by apply selected_bits].
    apply (modify_register dir (selected mask (u8 v))); reflexivity.
  - intros w. unfold hal_gpio_get_value, gpio_padout_get, ARCHI_READ, pulp_read32.
    rewrite bus_read_reg by reflexivity. cbn [fst snd]. f_equal. change (u32 _) with out. rewrite sreg_set. by rewrite Z.eqb_refl.
Qed.

Lemma gpio_sets_selected_pins_witness :
  let s := mk_soc ∅ {[ 0x1A10100C := 0x81 ]} 0 0 [] 0 None [] ∅ (mk_flash (fun _ => 0) []) in
  (exists w, hal_gpio_set_pin_value 5 1 s = Ok tt (set_sreg 0x1A10100C w s) /\
    Z.testbit w 5 = true /\ Z.testbit w 7 = true /\ Z.testbit w 6 = false) /\
  (exists w, hal_gpio_set_value 0x80 256 s = Ok tt (set_sreg 0x1A10100C w s) /\ Z.testbit w 7 = false) /\
  hal_gpio_set_pin_value 31 1 s = Fault s.
Proof.
  intros s. split; [|split].
  - destruct (gpio_sets_selected_pins s 5 0 1 ltac:(lia)) as (H & _). destruct (H ltac:(lia)) as (w & E & Hw).
    exists w. split; [exact E|]. rewrite !Hw by lia. vm_compute. repeat split.
  - destruct (gpio_sets_selected_pins s 5 0x80 256 ltac:(lia)) as (_ & _ & (w & E & Hw) & _).
    exists w. split; [exact E|]. by rewrite Hw by lia.
  - destruct (gpio_sets_selected_pins s 31 0 1 ltac:(lia)) as (_ & H & _). apply H. lia.
Defined.

(** The two type bits of each pin are its own. *)
Lemma inttype_fields_apart g g' : 0 <= g < 32 -> 0 <= g' < 32 -> g <> g' ->
  ARCHI_GPIO_INTTYPE_NO g = ARCHI_GPIO_INTTYPE_NO g' ->
  ARCHI_GPIO_INTTYPE_BIT g + ARCHI_GPIO_INTTYPE_SIZE <= ARCHI_GPIO_INTTYPE_BIT g' \/
  ARCHI_GPIO_INTTYPE_BIT g' + ARCHI_GPIO_INTTYPE_SIZE <= ARCHI_GPIO_INTTYPE_BIT g.
Proof.
  unfold ARCHI_GPIO_INTTYPE_NO, ARCHI_GPIO_INTTYPE_BIT, ARCHI_GPIO_INTTYPE_SIZE. intros Hg Hg' Hne.
  change 0xF with (Z.ones 4). rewrite !Z.land_ones, !Z.shiftr_div_pow2, !Z.shiftl_mul_pow2 by lia.
  change (2 ^ 4) with 16. change (2 ^ 1) with 2. intros E.
  pose proof (Z.div_mod g 16 ltac:(lia)). pose proof (Z.div_mod g' 16 ltac:(lia)). lia.
Qed.

(** The field constants of the older camera header agree with the generated one and
    with their own masks, except for the width of FORMAT; the handle's members are at
    the generated offsets; and plp_cam_glob_set ignores its frameSliceEn. *)
Definition in_cpi_header (f : field) : bool :=
  existsb (fun g => same_field (f_reg g) (f_name g) ("CAM_" +:+ f_reg f) (f_name f)
                    && (f_bit g =? f_bit f) && (f_width g =? f_width f) && (f_mask g =? f_mask f)) CPI_FIELDS.
Lemma cam_headers_compared :
  List.filter (fun f => negb (in_cpi_header f)) CAM_FIELDS = [mk_field "CFG_GLOB" "FORMAT" 8 2 0x700]%string /\
  List.filter (fun f => negb (f_mask f =? Z.shiftl (Z.ones (f_width f)) (f_bit f))) CAM_FIELDS
    = [mk_field "CFG_GLOB" "FORMAT" 8 2 0x700]%string /\
  (CAM_HANDLE 0 + 0x20 = ARCHI_UDMA_ADDR + UDMA_CAM_OFFSET 0 + UDMA_CPI_CAM_CFG_GLOB_OFFSET /\
   UDMA_CAM_CUSTOM_ADDR 0 + CAM_FILTER_OFFSET = ARCHI_UDMA_ADDR + UDMA_CAM_OFFSET 0 + UDMA_CPI_CAM_CFG_FILTER_OFFSET) /\
  (forall e d n f g format shift, plp_cam_glob_set e d n f format shift = plp_cam_glob_set e d n g format shift).
Proof. split; [|split; [|split; [split|]]]; [vm_compute; reflexivity..|reflexivity]. Qed.

(** The macro for the camera's event takes the peripheral's number times two, but the
    platform has four events per peripheral: it names the event of I2C 1. *)
Lemma cam_event_is_i2c :
  List.filter (fun p : string * Z => p.2 =? ARCHI_SOC_EVENT_CAM_RX 0) soc_events = [("I2C1_RX"%string, 12)] /\
  List.filter (fun p : string * Z => p.2 =? ARCHI_SOC_EVENT_PERIPH_FIRST_EVT (ARCHI_UDMA_CAM_ID 0)) soc_events
    = [("CPI0_RX"%string, 24)].
Proof. by split. Qed.

(** plp_uart_setup enables both directions with 8 bits and one stop bit, and takes
    the parity bit and the divider from its arguments. *)
Lemma uart_setup_fields channel parity clk s : parity = 0 \/ parity = 1 -> 0 <= clk < 65536 -> 0 <= channel < 4 ->
  exists v, plp_uart_setup channel parity clk s = Ok tt (set_sreg (uart_reg_addr channel UART_SETUP_OFFSET) v s) /\
    bitfield_get v 0 1 = parity /\ bitfield_get v 1 2 = 3 /\ bitfield_get v 3 1 = 0 /\
    bitfield_get v 8 1 = 1 /\ bitfield_get v 9 1 = 1 /\ bitfield_get v 16 16 = clk.
Proof.
  intros Hp Hc Hch. unfold plp_uart_setup. rewrite (u16_small clk) by lia.
  assert (Ec : u32 (Z.shiftl clk 16) = Z.shiftl clk 16) by (apply shiftl_wrap; lia).
  rewrite Ec, (u32_small parity) by lia. set (v := (0x0306 ||| parity) ||| Z.shiftl clk 16).
  assert (Hlow : bitfield_get v 0 16 = 0x306 ||| parity).
  { unfold bitfield_get. rewrite Z.shiftr_0_r. unfold v. rewrite <- Z.land_ones by lia. rewrite Z.land_lor_distr_l.
    rewrite !Z.land_ones by lia. rewrite Z.shiftl_mul_pow2, Z.mod_mul by lia. rewrite Z.lor_0_r. by destruct Hp as [-> | ->]. }
  assert (Hhi : bitfield_get v 16 16 = clk).
  { unfold bitfield_get, v. rewrite Z.shiftr_lor, Z.shiftr_shiftl_l, Z.sub_diag, Z.shiftl_0_r by lia.
    replace (Z.shiftr (0x306 ||| parity) 16) with 0 by (by destruct Hp as [-> | ->]). rewrite Z.lor_0_l. apply Z.mod_small. lia. }
  assert (Hsub : forall o w, 0 <= o -> 0 <= w -> o + w <= 16 -> bitfield_get v o w = bitfield_get (0x306 ||| parity) o w).
  { intros o w H1 H2 H3. rewrite <- Hlow. apply Z.bits_inj'. intros i Hi. rewrite !bitfield_get_bits by lia.
    destruct (Z.ltb_spec i w); [|done]. destruct (Z.ltb_spec (i + o) 16); [|lia].
    rewrite !andb_true_l. f_equal. lia. }
  assert (Hv : 0 <= v < 2 ^ 32).
  { assert (Hpr : 0 <= 0x306 ||| parity < 2 ^ 16) by (destruct Hp as [-> | ->]; vm_compute; split; congruence).
    apply testbit_bound; [lia|unfold v; apply Z.lor_nonneg; split; [lia|apply Z.shiftl_nonneg; lia]|].
    intros i Hi. unfold v. rewrite Z.lor_spec, shiftl_testbit, (testbit_above 16 (0x306 ||| parity)) by lia.
    rewrite (testbit_above 16 clk) by lia. by rewrite andb_false_r. }
  exists v. split.
  - unfold pulp_write32, modify. rewrite (u32_small v) by lia.
    assert (channel = 0 \/ channel = 1 \/ channel = 2 \/ channel = 3) as [-> | [-> | [-> | ->]]] by lia;
      change (u32 (uart_reg_addr ?c ?o)) with (uart_reg_addr c o); by rewrite bus_write_reg by reflexivity.
  - rewrite !Hsub by lia. split; [|split; [|split; [|split; [|split]]]]; [by destruct Hp as [-> | ->]..|exact Hhi].
Qed.
