(* ===== verification/GpioV2.v ===== *)
(** * GpioV2: the registers of the GPIO of other chips

    The tables of boot_code/include/archi/gpio/gpio_v2_new.h, and the accessors as programs over the
    platform of Pulp.  No build of this repository includes the header; the classes
    of the simulator (__GVSOC__) are not modelled. *)

From S2P Require Import Prelude Monad Builtins Regs Pulp.

Definition GPIO2_OFFSETS : list (string * Z) :=
  [("APBGPIO_PADDIR", 0x0); ("APBGPIO_PADIN", 0x4); ("APBGPIO_PADOUT", 0x8); ("APBGPIO_INTEN", 0xc);
   ("APBGPIO_INTTYPE0", 0x10); ("APBGPIO_INTTYPE1", 0x14); ("APBGPIO_INTSTATUS", 0x18); ("APBGPIO_GPIOEN", 0x1c);
   ("APBGPIO_PADCFG0", 0x20); ("APBGPIO_PADCFG1", 0x24); ("APBGPIO_PADCFG2", 0x28); ("APBGPIO_PADCFG3", 0x2c);
   ("APBGPIO_PADCFG4", 0x30); ("APBGPIO_PADCFG5", 0x34); ("APBGPIO_PADCFG6", 0x38); ("APBGPIO_PADCFG7", 0x3c)]%string.
Definition GPIO2_FIELDS_0 : list field :=
  [mk_field "APBGPIO_PADDIR" "DIR" 0 32 0xffffffff; mk_field "APBGPIO_PADIN" "DATA_IN" 0 32 0xffffffff;
   mk_field "APBGPIO_PADOUT" "DATA_OUT" 0 32 0xffffffff; mk_field "APBGPIO_INTEN" "INTEN" 0 32 0xffffffff;
   mk_field "APBGPIO_INTTYPE0" "INTTYPE0" 0 32 0xffffffff; mk_field "APBGPIO_INTTYPE1" "INTTYPE1" 0 32 0xffffffff;
   mk_field "APBGPIO_INTSTATUS" "INTSTATUS" 0 32 0xffffffff; mk_field "APBGPIO_GPIOEN" "GPIOEN" 0 32 0xffffffff;
   mk_field "APBGPIO_PADCFG0" "PADCFG0_GPIO0_PE" 0 1 0x1; mk_field "APBGPIO_PADCFG0" "PADCFG0_GPIO0_DS" 1 1 0x2;
   mk_field "APBGPIO_PADCFG0" "PADCFG0_GPIO1_PE" 8 1 0x100;
   mk_field "APBGPIO_PADCFG0" "PADCFG0_GPIO1_DS" 9 1 0x200;
   mk_field "APBGPIO_PADCFG0" "PADCFG0_GPIO2_PE" 16 1 0x10000;
   mk_field "APBGPIO_PADCFG0" "PADCFG0_GPIO2_DS" 17 1 0x20000;
   mk_field "APBGPIO_PADCFG0" "PADCFG0_GPIO3_PE" 24 1 0x1000000;
   mk_field "APBGPIO_PADCFG0" "PADCFG0_GPIO3_DS" 25 1 0x2000000;
   mk_field "APBGPIO_PADCFG1" "PADCFG1_GPIO4_PE" 0 1 0x1; mk_field "APBGPIO_PADCFG1" "PADCFG1_GPIO4_DS" 1 1 0x2;
   mk_field "APBGPIO_PADCFG1" "PADCFG1_GPIO5_PE" 8 1 0x100;
   mk_field "APBGPIO_PADCFG1" "PADCFG1_GPIO5_DS" 9 1 0x200;
   mk_field "APBGPIO_PADCFG1" "PADCFG1_GPIO6_PE" 16 1 0x10000;
   mk_field "APBGPIO_PADCFG1" "PADCFG1_GPIO6_DS" 17 1 0x20000;
   mk_field "APBGPIO_PADCFG1" "PADCFG1_GPIO7_PE" 24 1 0x1000000;
   mk_field "APBGPIO_PADCFG1" "PADCFG1_GPIO7_DS" 25 1 0x2000000;
   mk_field "APBGPIO_PADCFG2" "PADCFG2_GPIO8_PE" 0 1 0x1; mk_field "APBGPIO_PADCFG2" "PADCFG2_GPIO8_DS" 1 1 0x2;
   mk_field "APBGPIO_PADCFG2" "PADCFG2_GPIO9_PE" 8 1 0x100;
   mk_field "APBGPIO_PADCFG2" "PADCFG2_GPIO9_DS" 9 1 0x200;
   mk_field "APBGPIO_PADCFG2" "PADCFG2_GPIO10_PE" 16 1 0x10000;
   mk_field "APBGPIO_PADCFG2" "PADCFG2_GPIO10_DS" 17 1 0x20000]%string.
Definition GPIO2_FIELDS_1 : list field :=
  [mk_field "APBGPIO_PADCFG2" "PADCFG2_GPIO11_PE" 24 1 0x1000000;
   mk_field "APBGPIO_PADCFG2" "PADCFG2_GPIO11_DS" 25 1 0x2000000;
   mk_field "APBGPIO_PADCFG3" "PADCFG3_GPIO12_PE" 0 1 0x1; mk_field "APBGPIO_PADCFG3" "PADCFG3_GPIO12_DS" 1 1 0x2;
   mk_field "APBGPIO_PADCFG3" "PADCFG3_GPIO13_PE" 8 1 0x100;
   mk_field "APBGPIO_PADCFG3" "PADCFG3_GPIO13_DS" 9 1 0x200;
   mk_field "APBGPIO_PADCFG3" "PADCFG3_GPIO14_PE" 16 1 0x10000;
   mk_field "APBGPIO_PADCFG3" "PADCFG3_GPIO14_DS" 17 1 0x20000;
   mk_field "APBGPIO_PADCFG3" "PADCFG3_GPIO15_PE" 24 1 0x1000000;
   mk_field "APBGPIO_PADCFG3" "PADCFG3_GPIO15_DS" 25 1 0x2000000;
   mk_field "APBGPIO_PADCFG4" "PADCFG4_GPIO16_PE" 0 1 0x1; mk_field "APBGPIO_PADCFG4" "PADCFG4_GPIO16_DS" 1 1 0x2;
   mk_field "APBGPIO_PADCFG4" "PADCFG4_GPIO17_PE" 8 1 0x100;
   mk_field "APBGPIO_PADCFG4" "PADCFG4_GPIO17_DS" 9 1 0x200;
   mk_field "APBGPIO_PADCFG4" "PADCFG4_GPIO18_PE" 16 1 0x10000;
   mk_field "APBGPIO_PADCFG4" "PADCFG4_GPIO18_DS" 17 1 0x20000;
   mk_field "APBGPIO_PADCFG4" "PADCFG4_GPIO19_PE" 24 1 0x1000000;
   mk_field "APBGPIO_PADCFG4" "PADCFG4_GPIO19_DS" 25 1 0x2000000;
   mk_field "APBGPIO_PADCFG5" "PADCFG5_GPIO20_PE" 0 1 0x1; mk_field "APBGPIO_PADCFG5" "PADCFG5_GPIO20_DS" 1 1 0x2;
   mk_field "APBGPIO_PADCFG5" "PADCFG5_GPIO21_PE" 8 1 0x100;
   mk_field "APBGPIO_PADCFG5" "PADCFG5_GPIO21_DS" 9 1 0x200;
   mk_field "APBGPIO_PADCFG5" "PADCFG5_GPIO22_PE" 16 1 0x10000;
   mk_field "APBGPIO_PADCFG5" "PADCFG5_GPIO22_DS" 17 1 0x20000;
   mk_field "APBGPIO_PADCFG5" "PADCFG5_GPIO23_PE" 24 1 0x1000000;
   mk_field "APBGPIO_PADCFG5" "PADCFG5_GPIO23_DS" 25 1 0x2000000;
   mk_field "APBGPIO_PADCFG6" "PADCFG6_GPIO24_PE" 0 1 0x1; mk_field "APBGPIO_PADCFG6" "PADCFG6_GPIO24_DS" 1 1 0x2;
   mk_field "APBGPIO_PADCFG6" "PADCFG6_GPIO25_PE" 8 1 0x100;
   mk_field "APBGPIO_PADCFG6" "PADCFG6_GPIO25_DS" 9 1 0x200]%string.
Definition GPIO2_FIELDS_2 : list field :=
  [mk_field "APBGPIO_PADCFG6" "PADCFG6_GPIO26_PE" 16 1 0x10000;
   mk_field "APBGPIO_PADCFG6" "PADCFG6_GPIO26_DS" 17 1 0x20000;
   mk_field "APBGPIO_PADCFG6" "PADCFG6_GPIO27_PE" 24 1 0x1000000;
   mk_field "APBGPIO_PADCFG6" "PADCFG6_GPIO27_DS" 25 1 0x2000000;
   mk_field "APBGPIO_PADCFG7" "PADCFG7_GPIO28_PE" 0 1 0x1; mk_field "APBGPIO_PADCFG7" "PADCFG7_GPIO28_DS" 1 1 0x2;
   mk_field "APBGPIO_PADCFG7" "PADCFG7_GPIO29_PE" 8 1 0x100;
   mk_field "APBGPIO_PADCFG7" "PADCFG7_GPIO29_DS" 9 1 0x200;
   mk_field "APBGPIO_PADCFG7" "PADCFG7_GPIO30_PE" 16 1 0x10000;
   mk_field "APBGPIO_PADCFG7" "PADCFG7_GPIO30_DS" 17 1 0x20000;
   mk_field "APBGPIO_PADCFG7" "PADCFG7_GPIO31_PE" 24 1 0x1000000;
   mk_field "APBGPIO_PADCFG7" "PADCFG7_GPIO31_DS" 25 1 0x2000000]%string.
Definition GPIO2_UNIONS_0 : list union :=
  [mk_union "apbgpio_paddir" [("dir", 32)]; mk_union "apbgpio_padin" [("data_in", 32)];
   mk_union "apbgpio_padout" [("data_out", 32)]; mk_union "apbgpio_inten" [("inten", 32)];
   mk_union "apbgpio_inttype0" [("inttype0", 32)]; mk_union "apbgpio_inttype1" [("inttype1", 32)];
   mk_union "apbgpio_intstatus" [("intstatus", 32)]; mk_union "apbgpio_gpioen" [("gpioen", 32)];
   mk_union "apbgpio_padcfg0" [("padcfg0_gpio0_pe", 1); ("padcfg0_gpio0_ds", 1); ("padding0", 6); ("padcfg0_gpio1_pe", 1); ("padcfg0_gpio1_ds", 1); ("padding1", 6); ("padcfg0_gpio2_pe", 1); ("padcfg0_gpio2_ds", 1); ("padding2", 6); ("padcfg0_gpio3_pe", 1); ("padcfg0_gpio3_ds", 1)];
   mk_union "apbgpio_padcfg1" [("padcfg1_gpio4_pe", 1); ("padcfg1_gpio4_ds", 1); ("padding0", 6); ("padcfg1_gpio5_pe", 1); ("padcfg1_gpio5_ds", 1); ("padding1", 6); ("padcfg1_gpio6_pe", 1); ("padcfg1_gpio6_ds", 1); ("padding2", 6); ("padcfg1_gpio7_pe", 1); ("padcfg1_gpio7_ds", 1)];
   mk_union "apbgpio_padcfg2" [("padcfg2_gpio8_pe", 1); ("padcfg2_gpio8_ds", 1); ("padding0", 6); ("padcfg2_gpio9_pe", 1); ("padcfg2_gpio9_ds", 1); ("padding1", 6); ("padcfg2_gpio10_pe", 1); ("padcfg2_gpio10_ds", 1); ("padding2", 6); ("padcfg2_gpio11_pe", 1); ("padcfg2_gpio11_ds", 1)];
   mk_union "apbgpio_padcfg3" [("padcfg3_gpio12_pe", 1); ("padcfg3_gpio12_ds", 1); ("padding0", 6); ("padcfg3_gpio13_pe", 1); ("padcfg3_gpio13_ds", 1); ("padding1", 6); ("padcfg3_gpio14_pe", 1); ("padcfg3_gpio14_ds", 1); ("padding2", 6); ("padcfg3_gpio15_pe", 1); ("padcfg3_gpio15_ds", 1)];
   mk_union "apbgpio_padcfg4" [("padcfg4_gpio16_pe", 1); ("padcfg4_gpio16_ds", 1); ("padding0", 6); ("padcfg4_gpio17_pe", 1); ("padcfg4_gpio17_ds", 1); ("padding1", 6); ("padcfg4_gpio18_pe", 1); ("padcfg4_gpio18_ds", 1); ("padding2", 6); ("padcfg4_gpio19_pe", 1); ("padcfg4_gpio19_ds", 1)]]%string.
Definition GPIO2_UNIONS_1 : list union :=
  [mk_union "apbgpio_padcfg5" [("padcfg5_gpio20_pe", 1); ("padcfg5_gpio20_ds", 1); ("padding0", 6); ("padcfg5_gpio21_pe", 1); ("padcfg5_gpio21_ds", 1); ("padding1", 6); ("padcfg5_gpio22_pe", 1); ("padcfg5_gpio22_ds", 1); ("padding2", 6); ("padcfg5_gpio23_pe", 1); ("padcfg5_gpio23_ds", 1)];
   mk_union "apbgpio_padcfg6" [("padcfg6_gpio24_pe", 1); ("padcfg6_gpio24_ds", 1); ("padding0", 6); ("padcfg6_gpio25_pe", 1); ("padcfg6_gpio25_ds", 1); ("padding1", 6); ("padcfg6_gpio26_pe", 1); ("padcfg6_gpio26_ds", 1); ("padding2", 6); ("padcfg6_gpio27_pe", 1); ("padcfg6_gpio27_ds", 1)];
   mk_union "apbgpio_padcfg7" [("padcfg7_gpio28_pe", 1); ("padcfg7_gpio28_ds", 1); ("padding0", 6); ("padcfg7_gpio29_pe", 1); ("padcfg7_gpio29_ds", 1); ("padding1", 6); ("padcfg7_gpio30_pe", 1); ("padcfg7_gpio30_ds", 1); ("padding2", 6); ("padcfg7_gpio31_pe", 1); ("padcfg7_gpio31_ds", 1)]]%string.
Definition GPIO2_STRUCT : list string :=
  ["apbgpio_paddir"; "apbgpio_padin"; "apbgpio_padout"; "apbgpio_inten"; "apbgpio_inttype0"; "apbgpio_inttype1";
   "apbgpio_intstatus"; "apbgpio_gpioen"; "apbgpio_padcfg0"; "apbgpio_padcfg1"; "apbgpio_padcfg2";
   "apbgpio_padcfg3"; "apbgpio_padcfg4"; "apbgpio_padcfg5"; "apbgpio_padcfg6"; "apbgpio_padcfg7"]%string.
Definition GPIO2_MACROS_0 : list macros :=
  [mk_macros "APBGPIO_PADDIR" "DIR" (32, 0) (32, 0) (32, 0) 0;
   mk_macros "APBGPIO_PADIN" "DATA_IN" (32, 0) (32, 0) (32, 0) 0;
   mk_macros "APBGPIO_PADOUT" "DATA_OUT" (32, 0) (32, 0) (32, 0) 0;
   mk_macros "APBGPIO_INTEN" "INTEN" (32, 0) (32, 0) (32, 0) 0;
   mk_macros "APBGPIO_INTTYPE0" "INTTYPE0" (32, 0) (32, 0) (32, 0) 0;
   mk_macros "APBGPIO_INTTYPE1" "INTTYPE1" (32, 0) (32, 0) (32, 0) 0;
   mk_macros "APBGPIO_INTSTATUS" "INTSTATUS" (32, 0) (32, 0) (32, 0) 0;
   mk_macros "APBGPIO_GPIOEN" "GPIOEN" (32, 0) (32, 0) (32, 0) 0;
   mk_macros "APBGPIO_PADCFG0" "PADCFG0_GPIO0_PE" (1, 0) (1, 0) (1, 0) 0;
   mk_macros "APBGPIO_PADCFG0" "PADCFG0_GPIO0_DS" (1, 1) (1, 1) (1, 1) 1;
   mk_macros "APBGPIO_PADCFG0" "PADCFG0_GPIO1_PE" (1, 8) (1, 8) (1, 8) 8;
   mk_macros "APBGPIO_PADCFG0" "PADCFG0_GPIO1_DS" (1, 9) (1, 9) (1, 9) 9;
   mk_macros "APBGPIO_PADCFG0" "PADCFG0_GPIO2_PE" (1, 16) (1, 16) (1, 16) 16;
   mk_macros "APBGPIO_PADCFG0" "PADCFG0_GPIO2_DS" (1, 17) (1, 17) (1, 17) 17;
   mk_macros "APBGPIO_PADCFG0" "PADCFG0_GPIO3_PE" (1, 24) (1, 24) (1, 24) 24;
   mk_macros "APBGPIO_PADCFG0" "PADCFG0_GPIO3_DS" (1, 25) (1, 25) (1, 25) 25;
   mk_macros "APBGPIO_PADCFG1" "PADCFG1_GPIO4_PE" (1, 0) (1, 0) (1, 0) 0;
   mk_macros "APBGPIO_PADCFG1" "PADCFG1_GPIO4_DS" (1, 1) (1, 1) (1, 1) 1;
   mk_macros "APBGPIO_PADCFG1" "PADCFG1_GPIO5_PE" (1, 8) (1, 8) (1, 8) 8;
   mk_macros "APBGPIO_PADCFG1" "PADCFG1_GPIO5_DS" (1, 9) (1, 9) (1, 9) 9;
   mk_macros "APBGPIO_PADCFG1" "PADCFG1_GPIO6_PE" (1, 16) (1, 16) (1, 16) 16;
   mk_macros "APBGPIO_PADCFG1" "PADCFG1_GPIO6_DS" (1, 17) (1, 17) (1, 17) 17;
   mk_macros "APBGPIO_PADCFG1" "PADCFG1_GPIO7_PE" (1, 24) (1, 24) (1, 24) 24;
   mk_macros "APBGPIO_PADCFG1" "PADCFG1_GPIO7_DS" (1, 25) (1, 25) (1, 25) 25;
   mk_macros "APBGPIO_PADCFG2" "PADCFG2_GPIO8_PE" (1, 0) (1, 0) (1, 0) 0;
   mk_macros "APBGPIO_PADCFG2" "PADCFG2_GPIO8_DS" (1, 1) (1, 1) (1, 1) 1;
   mk_macros "APBGPIO_PADCFG2" "PADCFG2_GPIO9_PE" (1, 8) (1, 8) (1, 8) 8;
   mk_macros "APBGPIO_PADCFG2" "PADCFG2_GPIO9_DS" (1, 9) (1, 9) (1, 9) 9;
   mk_macros "APBGPIO_PADCFG2" "PADCFG2_GPIO10_PE" (1, 16) (1, 16) (1, 16) 16;
   mk_macros "APBGPIO_PADCFG2" "PADCFG2_GPIO10_DS" (1, 17) (1, 17) (1, 17) 17]%string.
Definition GPIO2_MACROS_1 : list macros :=
  [mk_macros "APBGPIO_PADCFG2" "PADCFG2_GPIO11_PE" (1, 24) (1, 24) (1, 24) 24;
   mk_macros "APBGPIO_PADCFG2" "PADCFG2_GPIO11_DS" (1, 25) (1, 25) (1, 25) 25;
   mk_macros "APBGPIO_PADCFG3" "PADCFG3_GPIO12_PE" (1, 0) (1, 0) (1, 0) 0;
   mk_macros "APBGPIO_PADCFG3" "PADCFG3_GPIO12_DS" (1, 1) (1, 1) (1, 1) 1;
   mk_macros "APBGPIO_PADCFG3" "PADCFG3_GPIO13_PE" (1, 8) (1, 8) (1, 8) 8;
   mk_macros "APBGPIO_PADCFG3" "PADCFG3_GPIO13_DS" (1, 9) (1, 9) (1, 9) 9;
   mk_macros "APBGPIO_PADCFG3" "PADCFG3_GPIO14_PE" (1, 16) (1, 16) (1, 16) 16;
   mk_macros "APBGPIO_PADCFG3" "PADCFG3_GPIO14_DS" (1, 17) (1, 17) (1, 17) 17;
   mk_macros "APBGPIO_PADCFG3" "PADCFG3_GPIO15_PE" (1, 24) (1, 24) (1, 24) 24;
   mk_macros "APBGPIO_PADCFG3" "PADCFG3_GPIO15_DS" (1, 25) (1, 25) (1, 25) 25;
   mk_macros "APBGPIO_PADCFG4" "PADCFG4_GPIO16_PE" (1, 0) (1, 0) (1, 0) 0;
   mk_macros "APBGPIO_PADCFG4" "PADCFG4_GPIO16_DS" (1, 1) (1, 1) (1, 1) 1;
   mk_macros "APBGPIO_PADCFG4" "PADCFG4_GPIO17_PE" (1, 8) (1, 8) (1, 8) 8;
   mk_macros "APBGPIO_PADCFG4" "PADCFG4_GPIO17_DS" (1, 9) (1, 9) (1, 9) 9;
   mk_macros "APBGPIO_PADCFG4" "PADCFG4_GPIO18_PE" (1, 16) (1, 16) (1, 16) 16;
   mk_macros "APBGPIO_PADCFG4" "PADCFG4_GPIO18_DS" (1, 17) (1, 17) (1, 17) 17;
   mk_macros "APBGPIO_PADCFG4" "PADCFG4_GPIO19_PE" (1, 24) (1, 24) (1, 24) 24;
   mk_macros "APBGPIO_PADCFG4" "PADCFG4_GPIO19_DS" (1, 25) (1, 25) (1, 25) 25;
   mk_macros "APBGPIO_PADCFG5" "PADCFG5_GPIO20_PE" (1, 0) (1, 0) (1, 0) 0;
   mk_macros "APBGPIO_PADCFG5" "PADCFG5_GPIO20_DS" (1, 1) (1, 1) (1, 1) 1;
   mk_macros "APBGPIO_PADCFG5" "PADCFG5_GPIO21_PE" (1, 8) (1, 8) (1, 8) 8;
   mk_macros "APBGPIO_PADCFG5" "PADCFG5_GPIO21_DS" (1, 9) (1, 9) (1, 9) 9;
   mk_macros "APBGPIO_PADCFG5" "PADCFG5_GPIO22_PE" (1, 16) (1, 16) (1, 16) 16;
   mk_macros "APBGPIO_PADCFG5" "PADCFG5_GPIO22_DS" (1, 17) (1, 17) (1, 17) 17;
   mk_macros "APBGPIO_PADCFG5" "PADCFG5_GPIO23_PE" (1, 24) (1, 24) (1, 24) 24;
   mk_macros "APBGPIO_PADCFG5" "PADCFG5_GPIO23_DS" (1, 25) (1, 25) (1, 25) 25;
   mk_macros "APBGPIO_PADCFG6" "PADCFG6_GPIO24_PE" (1, 0) (1, 0) (1, 0) 0;
   mk_macros "APBGPIO_PADCFG6" "PADCFG6_GPIO24_DS" (1, 1) (1, 1) (1, 1) 1;
   mk_macros "APBGPIO_PADCFG6" "PADCFG6_GPIO25_PE" (1, 8) (1, 8) (1, 8) 8;
   mk_macros "APBGPIO_PADCFG6" "PADCFG6_GPIO25_DS" (1, 9) (1, 9) (1, 9) 9]%string.
Definition GPIO2_MACROS_2 : list macros :=
  [mk_macros "APBGPIO_PADCFG6" "PADCFG6_GPIO26_PE" (1, 16) (1, 16) (1, 16) 16;
   mk_macros "APBGPIO_PADCFG6" "PADCFG6_GPIO26_DS" (1, 17) (1, 17) (1, 17) 17;
   mk_macros "APBGPIO_PADCFG6" "PADCFG6_GPIO27_PE" (1, 24) (1, 24) (1, 24) 24;
   mk_macros "APBGPIO_PADCFG6" "PADCFG6_GPIO27_DS" (1, 25) (1, 25) (1, 25) 25;
   mk_macros "APBGPIO_PADCFG7" "PADCFG7_GPIO28_PE" (1, 0) (1, 0) (1, 0) 0;
   mk_macros "APBGPIO_PADCFG7" "PADCFG7_GPIO28_DS" (1, 1) (1, 1) (1, 1) 1;
   mk_macros "APBGPIO_PADCFG7" "PADCFG7_GPIO29_PE" (1, 8) (1, 8) (1, 8) 8;
   mk_macros "APBGPIO_PADCFG7" "PADCFG7_GPIO29_DS" (1, 9) (1, 9) (1, 9) 9;
   mk_macros "APBGPIO_PADCFG7" "PADCFG7_GPIO30_PE" (1, 16) (1, 16) (1, 16) 16;
   mk_macros "APBGPIO_PADCFG7" "PADCFG7_GPIO30_DS" (1, 17) (1, 17) (1, 17) 17;
   mk_macros "APBGPIO_PADCFG7" "PADCFG7_GPIO31_PE" (1, 24) (1, 24) (1, 24) 24;
   mk_macros "APBGPIO_PADCFG7" "PADCFG7_GPIO31_DS" (1, 25) (1, 25) (1, 25) 25]%string.
Definition GPIO2_HEADER : header :=
  mk_header (GPIO2_OFFSETS) (GPIO2_FIELDS_0 ++ GPIO2_FIELDS_1 ++ GPIO2_FIELDS_2)
    (GPIO2_UNIONS_0 ++ GPIO2_UNIONS_1) GPIO2_STRUCT (GPIO2_MACROS_0 ++ GPIO2_MACROS_1 ++ GPIO2_MACROS_2).

Definition GPIO_APBGPIO_PADDIR_OFFSET : Z := 0x0.
Definition GPIO_APBGPIO_PADIN_OFFSET : Z := 0x4.
Definition GPIO_APBGPIO_PADOUT_OFFSET : Z := 0x8.
Definition GPIO_APBGPIO_INTEN_OFFSET : Z := 0xc.
Definition GPIO_APBGPIO_INTTYPE0_OFFSET : Z := 0x10.
Definition GPIO_APBGPIO_INTTYPE1_OFFSET : Z := 0x14.
Definition GPIO_APBGPIO_INTSTATUS_OFFSET : Z := 0x18.
Definition GPIO_APBGPIO_GPIOEN_OFFSET : Z := 0x1c.
Definition GPIO_APBGPIO_PADCFG0_OFFSET : Z := 0x20.
Definition GPIO_APBGPIO_PADCFG1_OFFSET : Z := 0x24.
Definition GPIO_APBGPIO_PADCFG2_OFFSET : Z := 0x28.
Definition GPIO_APBGPIO_PADCFG3_OFFSET : Z := 0x2c.
Definition GPIO_APBGPIO_PADCFG4_OFFSET : Z := 0x30.
Definition GPIO_APBGPIO_PADCFG5_OFFSET : Z := 0x34.
Definition GPIO_APBGPIO_PADCFG6_OFFSET : Z := 0x38.
Definition GPIO_APBGPIO_PADCFG7_OFFSET : Z := 0x3c.

Definition gpio_apbgpio_paddir_get (base : Z) : M soc Z := ARCHI_READ base GPIO_APBGPIO_PADDIR_OFFSET.
Definition gpio_apbgpio_paddir_set (base value : Z) : M soc unit := ARCHI_WRITE base GPIO_APBGPIO_PADDIR_OFFSET value.
Definition gpio_apbgpio_padin_get (base : Z) : M soc Z := ARCHI_READ base GPIO_APBGPIO_PADIN_OFFSET.
Definition gpio_apbgpio_padin_set (base value : Z) : M soc unit := ARCHI_WRITE base GPIO_APBGPIO_PADIN_OFFSET value.
Definition gpio_apbgpio_padout_get (base : Z) : M soc Z := ARCHI_READ base GPIO_APBGPIO_PADOUT_OFFSET.
Definition gpio_apbgpio_padout_set (base value : Z) : M soc unit := ARCHI_WRITE base GPIO_APBGPIO_PADOUT_OFFSET value.
Definition gpio_apbgpio_inten_get (base : Z) : M soc Z := ARCHI_READ base GPIO_APBGPIO_INTEN_OFFSET.
Definition gpio_apbgpio_inten_set (base value : Z) : M soc unit := ARCHI_WRITE base GPIO_APBGPIO_INTEN_OFFSET value.
Definition gpio_apbgpio_inttype0_get (base : Z) : M soc Z := ARCHI_READ base GPIO_APBGPIO_INTTYPE0_OFFSET.
Definition gpio_apbgpio_inttype0_set (base value : Z) : M soc unit := ARCHI_WRITE base GPIO_APBGPIO_INTTYPE0_OFFSET value.
Definition gpio_apbgpio_inttype1_get (base : Z) : M soc Z := ARCHI_READ base GPIO_APBGPIO_INTTYPE1_OFFSET.
Definition gpio_apbgpio_inttype1_set (base value : Z) : M soc unit := ARCHI_WRITE base GPIO_APBGPIO_INTTYPE1_OFFSET value.
Definition gpio_apbgpio_intstatus_get (base : Z) : M soc Z := ARCHI_READ base GPIO_APBGPIO_INTSTATUS_OFFSET.
Definition gpio_apbgpio_intstatus_set (base value : Z) : M soc unit := ARCHI_WRITE base GPIO_APBGPIO_INTSTATUS_OFFSET value.
Definition gpio_apbgpio_gpioen_get (base : Z) : M soc Z := ARCHI_READ base GPIO_APBGPIO_GPIOEN_OFFSET.
Definition gpio_apbgpio_gpioen_set (base value : Z) : M soc unit := ARCHI_WRITE base GPIO_APBGPIO_GPIOEN_OFFSET value.
Definition gpio_apbgpio_padcfg0_get (base : Z) : M soc Z := ARCHI_READ base GPIO_APBGPIO_PADCFG0_OFFSET.
Definition gpio_apbgpio_padcfg0_set (base value : Z) : M soc unit := ARCHI_WRITE base GPIO_APBGPIO_PADCFG0_OFFSET value.
Definition gpio_apbgpio_padcfg1_get (base : Z) : M soc Z := ARCHI_READ base GPIO_APBGPIO_PADCFG1_OFFSET.
Definition gpio_apbgpio_padcfg1_set (base value : Z) : M soc unit := ARCHI_WRITE base GPIO_APBGPIO_PADCFG1_OFFSET value.
Definition gpio_apbgpio_padcfg2_get (base : Z) : M soc Z := ARCHI_READ base GPIO_APBGPIO_PADCFG2_OFFSET.
Definition gpio_apbgpio_padcfg2_set (base value : Z) : M soc unit := ARCHI_WRITE base GPIO_APBGPIO_PADCFG2_OFFSET value.
Definition gpio_apbgpio_padcfg3_get (base : Z) : M soc Z := ARCHI_READ base GPIO_APBGPIO_PADCFG3_OFFSET.
Definition gpio_apbgpio_padcfg3_set (base value : Z) : M soc unit := ARCHI_WRITE base GPIO_APBGPIO_PADCFG3_OFFSET value.
Definition gpio_apbgpio_padcfg4_get (base : Z) : M soc Z := ARCHI_READ base GPIO_APBGPIO_PADCFG4_OFFSET.
Definition gpio_apbgpio_padcfg4_set (base value : Z) : M soc unit := ARCHI_WRITE base GPIO_APBGPIO_PADCFG4_OFFSET value.
Definition gpio_apbgpio_padcfg5_get (base : Z) : M soc Z := ARCHI_READ base GPIO_APBGPIO_PADCFG5_OFFSET.
Definition gpio_apbgpio_padcfg5_set (base value : Z) : M soc unit := ARCHI_WRITE base GPIO_APBGPIO_PADCFG5_OFFSET value.
Definition gpio_apbgpio_padcfg6_get (base : Z) : M soc Z := ARCHI_READ base GPIO_APBGPIO_PADCFG6_OFFSET.
Definition gpio_apbgpio_padcfg6_set (base value : Z) : M soc unit := ARCHI_WRITE base GPIO_APBGPIO_PADCFG6_OFFSET value.
Definition gpio_apbgpio_padcfg7_get (base : Z) : M soc Z := ARCHI_READ base GPIO_APBGPIO_PADCFG7_OFFSET.
Definition gpio_apbgpio_padcfg7_set (base value : Z) : M soc unit := ARCHI_WRITE base GPIO_APBGPIO_PADCFG7_OFFSET value.

(** * Theorems *)

(** All tables agree. *)
Lemma GPIO2_report : header_sound_but GPIO2_HEADER [] [].
Proof. apply header_but; vm_compute; reflexivity. Qed.
#[export] Hint Resolve GPIO2_report : registers.
