(* ===== verification/HwceV4.v ===== *)
(** * HwceV4: the registers of the convolution engine

    The tables of boot_code/include/archi/hwce/hwce_v4.h, and the accessors as programs over the
    platform of Pulp.  No build of this repository includes the header; the classes
    of the simulator (__GVSOC__) are not modelled. *)

From S2P Require Import Prelude Monad Builtins Regs Pulp.

Definition HWCE_OFFSETS_0 : list (string * Z) :=
  [("TRIGGER", 0x0); ("ACQUIRE", 0x4); ("FINISHED_JOBS", 0x8); ("STATUS", 0xc); ("RUNNING_JOB", 0x10);
   ("SOFT_CLEAR", 0x14); ("GEN_CONFIG0", 0x20); ("GEN_CONFIG1", 0x24); ("Y_TRANS_SIZE", 0x40);
   ("Y_LINE_STRIDE_LENGTH", 0x44); ("Y_FEAT_STRIDE_LENGTH", 0x48); ("Y_OUT_3_BASE_ADDR", 0x4c);
   ("Y_OUT_2_BASE_ADDR", 0x50); ("Y_OUT_1_BASE_ADDR", 0x54); ("Y_OUT_0_BASE_ADDR", 0x58);
   ("Y_IN_3_BASE_ADDR", 0x5c); ("Y_IN_2_BASE_ADDR", 0x60); ("Y_IN_1_BASE_ADDR", 0x64); ("Y_IN_0_BASE_ADDR", 0x68);
   ("X_TRANS_SIZE", 0x6c); ("X_LINE_STRIDE_LENGTH", 0x70); ("X_FEAT_STRIDE_LENGTH", 0x74);
   ("X_IN_BASE_ADDR", 0x78); ("W_BASE_ADDR", 0x7c); ("JOB_CONFIG0", 0x80); ("JOB_CONFIG1", 0x84);
   ("Y_TRANS_SIZE_CTX0", 0x140); ("Y_LINE_STRIDE_LENGTH_CTX0", 0x144); ("Y_FEAT_STRIDE_LENGTH_CTX0", 0x148);
   ("Y_OUT_3_BASE_ADDR_CTX0", 0x14c); ("Y_OUT_2_BASE_ADDR_CTX0", 0x150); ("Y_OUT_1_BASE_ADDR_CTX0", 0x154);
   ("Y_OUT_0_BASE_ADDR_CTX0", 0x158); ("Y_IN_3_BASE_ADDR_CTX0", 0x15c); ("Y_IN_2_BASE_ADDR_CTX0", 0x160);
   ("Y_IN_1_BASE_ADDR_CTX0", 0x164); ("Y_IN_0_BASE_ADDR_CTX0", 0x168); ("X_TRANS_SIZE_CTX0", 0x16c);
   ("X_LINE_STRIDE_LENGTH_CTX0", 0x170); ("X_FEAT_STRIDE_LENGTH_CTX0", 0x174); ("X_IN_BASE_ADDR_CTX0", 0x178);
   ("W_BASE_ADDR_CTX0", 0x17c); ("JOB_CONFIG0_CTX0", 0x180); ("JOB_CONFIG1_CTX0", 0x184);
   ("Y_TRANS_SIZE_CTX1", 0x240); ("Y_LINE_STRIDE_LENGTH_CTX1", 0x244); ("Y_FEAT_STRIDE_LENGTH_CTX1", 0x248);
   ("Y_OUT_3_BASE_ADDR_CTX1", 0x24c); ("Y_OUT_2_BASE_ADDR_CTX1", 0x250); ("Y_OUT_1_BASE_ADDR_CTX1", 0x254)]%string.
Definition HWCE_OFFSETS_1 : list (string * Z) :=
  [("Y_OUT_0_BASE_ADDR_CTX1", 0x258); ("Y_IN_3_BASE_ADDR_CTX1", 0x25c); ("Y_IN_2_BASE_ADDR_CTX1", 0x260);
   ("Y_IN_1_BASE_ADDR_CTX1", 0x264); ("Y_IN_0_BASE_ADDR_CTX1", 0x268); ("X_TRANS_SIZE_CTX1", 0x26c);
   ("X_LINE_STRIDE_LENGTH_CTX1", 0x270); ("X_FEAT_STRIDE_LENGTH_CTX1", 0x274); ("X_IN_BASE_ADDR_CTX1", 0x278);
   ("W_BASE_ADDR_CTX1", 0x27c); ("JOB_CONFIG0_CTX1", 0x280); ("JOB_CONFIG1_CTX1", 0x284)]%string.
Definition HWCE_FIELDS_0 : list field :=
  [mk_field "TRIGGER" "ANY" 0 32 0xffffffff; mk_field "ACQUIRE" "ID_ERR" 0 8 0xff;
   mk_field "ACQUIRE" "ERR" 8 24 0xffffff00; mk_field "FINISHED_JOBS" "JOBS" 0 32 0xffffffff;
   mk_field "STATUS" "ST" 0 1 0x1; mk_field "RUNNING_JOB" "ID" 0 8 0xff;
   mk_field "SOFT_CLEAR" "ANY" 0 32 0xffffffff; mk_field "GEN_CONFIG0" "QF" 0 6 0x3f;
   mk_field "GEN_CONFIG0" "NF" 6 1 0x40; mk_field "GEN_CONFIG0" "NY" 7 1 0x80;
   mk_field "GEN_CONFIG0" "UNS" 8 1 0x100; mk_field "GEN_CONFIG0" "VECT" 9 2 0x600;
   mk_field "GEN_CONFIG0" "CONV" 11 2 0x1800; mk_field "GEN_CONFIG0" "NCP" 13 1 0x2000;
   mk_field "GEN_CONFIG0" "WSTRIDE" 16 16 0xffff0000; mk_field "GEN_CONFIG1" "PIXSHIFTL" 0 5 0x1f;
   mk_field "GEN_CONFIG1" "PIXMODE" 8 2 0x300; mk_field "GEN_CONFIG1" "PIXSHIFTR" 16 5 0x1f0000;
   mk_field "Y_TRANS_SIZE" "SIZE" 0 32 0xffffffff; mk_field "Y_LINE_STRIDE_LENGTH" "LENGTH" 0 16 0xffff;
   mk_field "Y_LINE_STRIDE_LENGTH" "STRIDE" 16 16 0xffff0000; mk_field "Y_FEAT_STRIDE_LENGTH" "LENGTH" 0 16 0xffff;
   mk_field "Y_FEAT_STRIDE_LENGTH" "STRIDE" 16 16 0xffff0000; mk_field "Y_OUT_3_BASE_ADDR" "ADDR" 0 32 0xffffffff;
   mk_field "Y_OUT_2_BASE_ADDR" "ADDR" 0 32 0xffffffff; mk_field "Y_OUT_1_BASE_ADDR" "ADDR" 0 32 0xffffffff;
   mk_field "Y_OUT_0_BASE_ADDR" "ADDR" 0 32 0xffffffff; mk_field "Y_IN_3_BASE_ADDR" "ADDR" 0 32 0xffffffff;
   mk_field "Y_IN_2_BASE_ADDR" "ADDR" 0 32 0xffffffff; mk_field "Y_IN_1_BASE_ADDR" "ADDR" 0 32 0xffffffff]%string.
Definition HWCE_FIELDS_1 : list field :=
  [mk_field "Y_IN_0_BASE_ADDR" "ADDR" 0 32 0xffffffff; mk_field "X_TRANS_SIZE" "SIZE" 0 32 0xffffffff;
   mk_field "X_LINE_STRIDE_LENGTH" "LENGTH" 0 16 0xffff; mk_field "X_LINE_STRIDE_LENGTH" "STRIDE" 16 16 0xffff0000;
   mk_field "X_FEAT_STRIDE_LENGTH" "LENGTH" 0 16 0xffff; mk_field "X_FEAT_STRIDE_LENGTH" "STRIDE" 16 16 0xffff0000;
   mk_field "X_IN_BASE_ADDR" "ADDR" 0 32 0xffffffff; mk_field "W_BASE_ADDR" "ADDR" 0 32 0xffffffff;
   mk_field "JOB_CONFIG0" "LBUFLEN" 0 10 0x3ff; mk_field "JOB_CONFIG0" "NOYCONST" 16 16 0xffff0000;
   mk_field "JOB_CONFIG1" "VECT_DISABLE_MASK" 0 4 0xf; mk_field "JOB_CONFIG1" "WOF_PARAM" 8 6 0x3f00;
   mk_field "JOB_CONFIG1" "WIF_PARAM" 16 6 0x3f0000; mk_field "JOB_CONFIG1" "LO" 24 1 0x1000000;
   mk_field "JOB_CONFIG1" "LN" 25 1 0x2000000]%string.
Definition HWCE_UNIONS_0 : list union :=
  [mk_union "trigger" [("any", 32)]; mk_union "acquire" [("id_err", 8); ("err", 24)];
   mk_union "finished_jobs" [("jobs", 32)]; mk_union "status" [("st", 1)]; mk_union "running_job" [("id", 8)];
   mk_union "soft_clear" [("any", 32)];
   mk_union "gen_config0" [("qf", 6); ("nf", 1); ("ny", 1); ("uns", 1); ("vect", 2); ("conv", 2); ("ncp", 1); ("padding0", 2); ("wstride", 16)];
   mk_union "gen_config1" [("pixshiftl", 5); ("padding0", 3); ("pixmode", 2); ("padding1", 6); ("pixshiftr", 5)];
   mk_union "y_trans_size" [("size", 32)]; mk_union "y_line_stride_length" [("length", 16); ("stride", 16)];
   mk_union "y_feat_stride_length" [("length", 16); ("stride", 16)]; mk_union "y_out_3_base_addr" [("addr", 32)];
   mk_union "y_out_2_base_addr" [("addr", 32)]; mk_union "y_out_1_base_addr" [("addr", 32)];
   mk_union "y_out_0_base_addr" [("addr", 32)]; mk_union "y_in_3_base_addr" [("addr", 32)];
   mk_union "y_in_2_base_addr" [("addr", 32)]; mk_union "y_in_1_base_addr" [("addr", 32)];
   mk_union "y_in_0_base_addr" [("addr", 32)]]%string.
Definition HWCE_UNIONS_1 : list union :=
  [mk_union "x_trans_size" [("size", 32)]; mk_union "x_line_stride_length" [("length", 16); ("stride", 16)];
   mk_union "x_feat_stride_length" [("length", 16); ("stride", 16)]; mk_union "x_in_base_addr" [("addr", 32)];
   mk_union "w_base_addr" [("addr", 32)];
   mk_union "job_config0" [("lbuflen", 10); ("padding0", 6); ("noyconst", 16)];
   mk_union "job_config1" [("vect_disable_mask", 4); ("padding0", 4); ("wof_param", 6); ("padding1", 2); ("wif_param", 6); ("padding2", 2); ("lo", 1); ("ln", 1)];
   mk_union "y_trans_size_ctx0" []; mk_union "y_line_stride_length_ctx0" [];
   mk_union "y_feat_stride_length_ctx0" []; mk_union "y_out_3_base_addr_ctx0" [];
   mk_union "y_out_2_base_addr_ctx0" []; mk_union "y_out_1_base_addr_ctx0" [];
   mk_union "y_out_0_base_addr_ctx0" []; mk_union "y_in_3_base_addr_ctx0" []; mk_union "y_in_2_base_addr_ctx0" [];
   mk_union "y_in_1_base_addr_ctx0" []; mk_union "y_in_0_base_addr_ctx0" []; mk_union "x_trans_size_ctx0" [];
   mk_union "x_line_stride_length_ctx0" []; mk_union "x_feat_stride_length_ctx0" [];
   mk_union "x_in_base_addr_ctx0" []]%string.
Definition HWCE_UNIONS_2 : list union :=
  [mk_union "w_base_addr_ctx0" []; mk_union "job_config0_ctx0" []; mk_union "job_config1_ctx0" [];
   mk_union "y_trans_size_ctx1" []; mk_union "y_line_stride_length_ctx1" [];
   mk_union "y_feat_stride_length_ctx1" []; mk_union "y_out_3_base_addr_ctx1" [];
   mk_union "y_out_2_base_addr_ctx1" []; mk_union "y_out_1_base_addr_ctx1" [];
   mk_union "y_out_0_base_addr_ctx1" []; mk_union "y_in_3_base_addr_ctx1" []; mk_union "y_in_2_base_addr_ctx1" [];
   mk_union "y_in_1_base_addr_ctx1" []; mk_union "y_in_0_base_addr_ctx1" []; mk_union "x_trans_size_ctx1" [];
   mk_union "x_line_stride_length_ctx1" []; mk_union "x_feat_stride_length_ctx1" [];
   mk_union "x_in_base_addr_ctx1" []; mk_union "w_base_addr_ctx1" []; mk_union "job_config0_ctx1" [];
   mk_union "job_config1_ctx1" []]%string.
Definition HWCE_STRUCT : list string :=
  ["trigger"; "acquire"; "finished_jobs"; "status"; "running_job"; "soft_clear"; "gen_config0"; "gen_config1";
   "y_trans_size"; "y_line_stride_length"; "y_feat_stride_length"; "y_out_3_base_addr"; "y_out_2_base_addr";
   "y_out_1_base_addr"; "y_out_0_base_addr"; "y_in_3_base_addr"; "y_in_2_base_addr"; "y_in_1_base_addr";
   "y_in_0_base_addr"; "x_trans_size"; "x_line_stride_length"; "x_feat_stride_length"; "x_in_base_addr";
   "w_base_addr"; "job_config0"; "job_config1"; "y_trans_size_ctx0"; "y_line_stride_length_ctx0";
   "y_feat_stride_length_ctx0"; "y_out_3_base_addr_ctx0"; "y_out_2_base_addr_ctx0"; "y_out_1_base_addr_ctx0";
   "y_out_0_base_addr_ctx0"; "y_in_3_base_addr_ctx0"; "y_in_2_base_addr_ctx0"; "y_in_1_base_addr_ctx0";
   "y_in_0_base_addr_ctx0"; "x_trans_size_ctx0"; "x_line_stride_length_ctx0"; "x_feat_stride_length_ctx0";
   "x_in_base_addr_ctx0"; "w_base_addr_ctx0"; "job_config0_ctx0"; "job_config1_ctx0"; "y_trans_size_ctx1";
   "y_line_stride_length_ctx1"; "y_feat_stride_length_ctx1"; "y_out_3_base_addr_ctx1"; "y_out_2_base_addr_ctx1";
   "y_out_1_base_addr_ctx1"; "y_out_0_base_addr_ctx1"; "y_in_3_base_addr_ctx1"; "y_in_2_base_addr_ctx1";
   "y_in_1_base_addr_ctx1"; "y_in_0_base_addr_ctx1"; "x_trans_size_ctx1"; "x_line_stride_length_ctx1";
   "x_feat_stride_length_ctx1"; "x_in_base_addr_ctx1"; "w_base_addr_ctx1"; "job_config0_ctx1"; "job_config1_ctx1"]%string.
Definition HWCE_MACROS_0 : list macros :=
  [mk_macros "TRIGGER" "ANY" (32, 0) (32, 0) (32, 0) 0; mk_macros "ACQUIRE" "ID_ERR" (8, 0) (8, 0) (8, 0) 0;
   mk_macros "ACQUIRE" "ERR" (24, 8) (24, 8) (24, 8) 8; mk_macros "FINISHED_JOBS" "JOBS" (32, 0) (32, 0) (32, 0) 0;
   mk_macros "STATUS" "ST" (1, 0) (1, 0) (1, 0) 0; mk_macros "RUNNING_JOB" "ID" (8, 0) (8, 0) (8, 0) 0;
   mk_macros "SOFT_CLEAR" "ANY" (32, 0) (32, 0) (32, 0) 0; mk_macros "GEN_CONFIG0" "QF" (6, 0) (6, 0) (6, 0) 0;
   mk_macros "GEN_CONFIG0" "NF" (1, 6) (1, 6) (1, 6) 6; mk_macros "GEN_CONFIG0" "NY" (1, 7) (1, 7) (1, 7) 7;
   mk_macros "GEN_CONFIG0" "UNS" (1, 8) (1, 8) (1, 8) 8; mk_macros "GEN_CONFIG0" "VECT" (2, 9) (2, 9) (2, 9) 9;
   mk_macros "GEN_CONFIG0" "CONV" (2, 11) (2, 11) (2, 11) 11;
   mk_macros "GEN_CONFIG0" "NCP" (1, 13) (1, 13) (1, 13) 13;
   mk_macros "GEN_CONFIG0" "WSTRIDE" (16, 16) (16, 16) (16, 16) 16;
   mk_macros "GEN_CONFIG1" "PIXSHIFTL" (5, 0) (5, 0) (5, 0) 0;
   mk_macros "GEN_CONFIG1" "PIXMODE" (2, 8) (2, 8) (2, 8) 8;
   mk_macros "GEN_CONFIG1" "PIXSHIFTR" (5, 16) (5, 16) (5, 16) 16;
   mk_macros "Y_TRANS_SIZE" "SIZE" (32, 0) (32, 0) (32, 0) 0;
   mk_macros "Y_LINE_STRIDE_LENGTH" "LENGTH" (16, 0) (16, 0) (16, 0) 0;
   mk_macros "Y_LINE_STRIDE_LENGTH" "STRIDE" (16, 16) (16, 16) (16, 16) 16;
   mk_macros "Y_FEAT_STRIDE_LENGTH" "LENGTH" (16, 0) (16, 0) (16, 0) 0;
   mk_macros "Y_FEAT_STRIDE_LENGTH" "STRIDE" (16, 16) (16, 16) (16, 16) 16;
   mk_macros "Y_OUT_3_BASE_ADDR" "ADDR" (32, 0) (32, 0) (32, 0) 0;
   mk_macros "Y_OUT_2_BASE_ADDR" "ADDR" (32, 0) (32, 0) (32, 0) 0;
   mk_macros "Y_OUT_1_BASE_ADDR" "ADDR" (32, 0) (32, 0) (32, 0) 0;
   mk_macros "Y_OUT_0_BASE_ADDR" "ADDR" (32, 0) (32, 0) (32, 0) 0;
   mk_macros "Y_IN_3_BASE_ADDR" "ADDR" (32, 0) (32, 0) (32, 0) 0;
   mk_macros "Y_IN_2_BASE_ADDR" "ADDR" (32, 0) (32, 0) (32, 0) 0;
   mk_macros "Y_IN_1_BASE_ADDR" "ADDR" (32, 0) (32, 0) (32, 0) 0]%string.
Definition HWCE_MACROS_1 : list macros :=
  [mk_macros "Y_IN_0_BASE_ADDR" "ADDR" (32, 0) (32, 0) (32, 0) 0;
   mk_macros "X_TRANS_SIZE" "SIZE" (32, 0) (32, 0) (32, 0) 0;
   mk_macros "X_LINE_STRIDE_LENGTH" "LENGTH" (16, 0) (16, 0) (16, 0) 0;
   mk_macros "X_LINE_STRIDE_LENGTH" "STRIDE" (16, 16) (16, 16) (16, 16) 16;
   mk_macros "X_FEAT_STRIDE_LENGTH" "LENGTH" (16, 0) (16, 0) (16, 0) 0;
   mk_macros "X_FEAT_STRIDE_LENGTH" "STRIDE" (16, 16) (16, 16) (16, 16) 16;
   mk_macros "X_IN_BASE_ADDR" "ADDR" (32, 0) (32, 0) (32, 0) 0;
   mk_macros "W_BASE_ADDR" "ADDR" (32, 0) (32, 0) (32, 0) 0;
   mk_macros "JOB_CONFIG0" "LBUFLEN" (10, 0) (10, 0) (10, 0) 0;
   mk_macros "JOB_CONFIG0" "NOYCONST" (16, 16) (16, 16) (16, 16) 16;
   mk_macros "JOB_CONFIG1" "VECT_DISABLE_MASK" (4, 0) (4, 0) (4, 0) 0;
   mk_macros "JOB_CONFIG1" "WOF_PARAM" (6, 8) (6, 8) (6, 8) 8;
   mk_macros "JOB_CONFIG1" "WIF_PARAM" (6, 16) (6, 16) (6, 16) 16;
   mk_macros "JOB_CONFIG1" "LO" (1, 24) (1, 24) (1, 24) 24; mk_macros "JOB_CONFIG1" "LN" (1, 25) (1, 25) (1, 25) 25]%string.
Definition HWCE_HEADER : header :=
  mk_header (HWCE_OFFSETS_0 ++ HWCE_OFFSETS_1) (HWCE_FIELDS_0 ++ HWCE_FIELDS_1)
    (HWCE_UNIONS_0 ++ HWCE_UNIONS_1 ++ HWCE_UNIONS_2) HWCE_STRUCT (HWCE_MACROS_0 ++ HWCE_MACROS_1).

Definition HWCE_TRIGGER_OFFSET : Z := 0x0.
Definition HWCE_ACQUIRE_OFFSET : Z := 0x4.
Definition HWCE_FINISHED_JOBS_OFFSET : Z := 0x8.
Definition HWCE_STATUS_OFFSET : Z := 0xc.
Definition HWCE_RUNNING_JOB_OFFSET : Z := 0x10.
Definition HWCE_SOFT_CLEAR_OFFSET : Z := 0x14.
Definition HWCE_GEN_CONFIG0_OFFSET : Z := 0x20.
Definition HWCE_GEN_CONFIG1_OFFSET : Z := 0x24.
Definition HWCE_Y_TRANS_SIZE_OFFSET : Z := 0x40.
Definition HWCE_Y_LINE_STRIDE_LENGTH_OFFSET : Z := 0x44.
Definition HWCE_Y_FEAT_STRIDE_LENGTH_OFFSET : Z := 0x48.
Definition HWCE_Y_OUT_3_BASE_ADDR_OFFSET : Z := 0x4c.
Definition HWCE_Y_OUT_2_BASE_ADDR_OFFSET : Z := 0x50.
Definition HWCE_Y_OUT_1_BASE_ADDR_OFFSET : Z := 0x54.
Definition HWCE_Y_OUT_0_BASE_ADDR_OFFSET : Z := 0x58.
Definition HWCE_Y_IN_3_BASE_ADDR_OFFSET : Z := 0x5c.
Definition HWCE_Y_IN_2_BASE_ADDR_OFFSET : Z := 0x60.
Definition HWCE_Y_IN_1_BASE_ADDR_OFFSET : Z := 0x64.
Definition HWCE_Y_IN_0_BASE_ADDR_OFFSET : Z := 0x68.
Definition HWCE_X_TRANS_SIZE_OFFSET : Z := 0x6c.
Definition HWCE_X_LINE_STRIDE_LENGTH_OFFSET : Z := 0x70.
Definition HWCE_X_FEAT_STRIDE_LENGTH_OFFSET : Z := 0x74.
Definition HWCE_X_IN_BASE_ADDR_OFFSET : Z := 0x78.
Definition HWCE_W_BASE_ADDR_OFFSET : Z := 0x7c.
Definition HWCE_JOB_CONFIG0_OFFSET : Z := 0x80.
Definition HWCE_JOB_CONFIG1_OFFSET : Z := 0x84.
Definition HWCE_Y_TRANS_SIZE_CTX0_OFFSET : Z := 0x140.
Definition HWCE_Y_LINE_STRIDE_LENGTH_CTX0_OFFSET : Z := 0x144.
Definition HWCE_Y_FEAT_STRIDE_LENGTH_CTX0_OFFSET : Z := 0x148.
Definition HWCE_Y_OUT_3_BASE_ADDR_CTX0_OFFSET : Z := 0x14c.
Definition HWCE_Y_OUT_2_BASE_ADDR_CTX0_OFFSET : Z := 0x150.
Definition HWCE_Y_OUT_1_BASE_ADDR_CTX0_OFFSET : Z := 0x154.
Definition HWCE_Y_OUT_0_BASE_ADDR_CTX0_OFFSET : Z := 0x158.
Definition HWCE_Y_IN_3_BASE_ADDR_CTX0_OFFSET : Z := 0x15c.
Definition HWCE_Y_IN_2_BASE_ADDR_CTX0_OFFSET : Z := 0x160.
Definition HWCE_Y_IN_1_BASE_ADDR_CTX0_OFFSET : Z := 0x164.
Definition HWCE_Y_IN_0_BASE_ADDR_CTX0_OFFSET : Z := 0x168.
Definition HWCE_X_TRANS_SIZE_CTX0_OFFSET : Z := 0x16c.
Definition HWCE_X_LINE_STRIDE_LENGTH_CTX0_OFFSET : Z := 0x170.
Definition HWCE_X_FEAT_STRIDE_LENGTH_CTX0_OFFSET : Z := 0x174.
Definition HWCE_X_IN_BASE_ADDR_CTX0_OFFSET : Z := 0x178.
Definition HWCE_W_BASE_ADDR_CTX0_OFFSET : Z := 0x17c.
Definition HWCE_JOB_CONFIG0_CTX0_OFFSET : Z := 0x180.
Definition HWCE_JOB_CONFIG1_CTX0_OFFSET : Z := 0x184.
Definition HWCE_Y_TRANS_SIZE_CTX1_OFFSET : Z := 0x240.
Definition HWCE_Y_LINE_STRIDE_LENGTH_CTX1_OFFSET : Z := 0x244.
Definition HWCE_Y_FEAT_STRIDE_LENGTH_CTX1_OFFSET : Z := 0x248.
Definition HWCE_Y_OUT_3_BASE_ADDR_CTX1_OFFSET : Z := 0x24c.
Definition HWCE_Y_OUT_2_BASE_ADDR_CTX1_OFFSET : Z := 0x250.
Definition HWCE_Y_OUT_1_BASE_ADDR_CTX1_OFFSET : Z := 0x254.
Definition HWCE_Y_OUT_0_BASE_ADDR_CTX1_OFFSET : Z := 0x258.
Definition HWCE_Y_IN_3_BASE_ADDR_CTX1_OFFSET : Z := 0x25c.
Definition HWCE_Y_IN_2_BASE_ADDR_CTX1_OFFSET : Z := 0x260.
Definition HWCE_Y_IN_1_BASE_ADDR_CTX1_OFFSET : Z := 0x264.
Definition HWCE_Y_IN_0_BASE_ADDR_CTX1_OFFSET : Z := 0x268.
Definition HWCE_X_TRANS_SIZE_CTX1_OFFSET : Z := 0x26c.
Definition HWCE_X_LINE_STRIDE_LENGTH_CTX1_OFFSET : Z := 0x270.
Definition HWCE_X_FEAT_STRIDE_LENGTH_CTX1_OFFSET : Z := 0x274.
Definition HWCE_X_IN_BASE_ADDR_CTX1_OFFSET : Z := 0x278.
Definition HWCE_W_BASE_ADDR_CTX1_OFFSET : Z := 0x27c.
Definition HWCE_JOB_CONFIG0_CTX1_OFFSET : Z := 0x280.
Definition HWCE_JOB_CONFIG1_CTX1_OFFSET : Z := 0x284.

Definition hwce_trigger_get (base : Z) : M soc Z := ARCHI_READ base HWCE_TRIGGER_OFFSET.
Definition hwce_trigger_set (base value : Z) : M soc unit := ARCHI_WRITE base HWCE_TRIGGER_OFFSET value.
Definition hwce_acquire_get (base : Z) : M soc Z := ARCHI_READ base HWCE_ACQUIRE_OFFSET.
Definition hwce_acquire_set (base value : Z) : M soc unit := ARCHI_WRITE base HWCE_ACQUIRE_OFFSET value.
Definition hwce_finished_jobs_get (base : Z) : M soc Z := ARCHI_READ base HWCE_FINISHED_JOBS_OFFSET.
Definition hwce_finished_jobs_set (base value : Z) : M soc unit := ARCHI_WRITE base HWCE_FINISHED_JOBS_OFFSET value.
Definition hwce_status_get (base : Z) : M soc Z := ARCHI_READ base HWCE_STATUS_OFFSET.
Definition hwce_status_set (base value : Z) : M soc unit := ARCHI_WRITE base HWCE_STATUS_OFFSET value.
Definition hwce_running_job_get (base : Z) : M soc Z := ARCHI_READ base HWCE_RUNNING_JOB_OFFSET.
Definition hwce_running_job_set (base value : Z) : M soc unit := ARCHI_WRITE base HWCE_RUNNING_JOB_OFFSET value.
Definition hwce_soft_clear_get (base : Z) : M soc Z := ARCHI_READ base HWCE_SOFT_CLEAR_OFFSET.
Definition hwce_soft_clear_set (base value : Z) : M soc unit := ARCHI_WRITE base HWCE_SOFT_CLEAR_OFFSET value.
Definition hwce_gen_config0_get (base : Z) : M soc Z := ARCHI_READ base HWCE_GEN_CONFIG0_OFFSET.
Definition hwce_gen_config0_set (base value : Z) : M soc unit := ARCHI_WRITE base HWCE_GEN_CONFIG0_OFFSET value.
Definition hwce_gen_config1_get (base : Z) : M soc Z := ARCHI_READ base HWCE_GEN_CONFIG1_OFFSET.
Definition hwce_gen_config1_set (base value : Z) : M soc unit := ARCHI_WRITE base HWCE_GEN_CONFIG1_OFFSET value.
Definition hwce_y_trans_size_get (base : Z) : M soc Z := ARCHI_READ base HWCE_Y_TRANS_SIZE_OFFSET.
Definition hwce_y_trans_size_set (base value : Z) : M soc unit := ARCHI_WRITE base HWCE_Y_TRANS_SIZE_OFFSET value.
Definition hwce_y_line_stride_length_get (base : Z) : M soc Z := ARCHI_READ base HWCE_Y_LINE_STRIDE_LENGTH_OFFSET.
Definition hwce_y_line_stride_length_set (base value : Z) : M soc unit := ARCHI_WRITE base HWCE_Y_LINE_STRIDE_LENGTH_OFFSET value.
Definition hwce_y_feat_stride_length_get (base : Z) : M soc Z := ARCHI_READ base HWCE_Y_FEAT_STRIDE_LENGTH_OFFSET.
Definition hwce_y_feat_stride_length_set (base value : Z) : M soc unit := ARCHI_WRITE base HWCE_Y_FEAT_STRIDE_LENGTH_OFFSET value.
Definition hwce_y_out_3_base_addr_get (base : Z) : M soc Z := ARCHI_READ base HWCE_Y_OUT_3_BASE_ADDR_OFFSET.
Definition hwce_y_out_3_base_addr_set (base value : Z) : M soc unit := ARCHI_WRITE base HWCE_Y_OUT_3_BASE_ADDR_OFFSET value.
Definition hwce_y_out_2_base_addr_get (base : Z) : M soc Z := ARCHI_READ base HWCE_Y_OUT_2_BASE_ADDR_OFFSET.
Definition hwce_y_out_2_base_addr_set (base value : Z) : M soc unit := ARCHI_WRITE base HWCE_Y_OUT_2_BASE_ADDR_OFFSET value.
Definition hwce_y_out_1_base_addr_get (base : Z) : M soc Z := ARCHI_READ base HWCE_Y_OUT_1_BASE_ADDR_OFFSET.
Definition hwce_y_out_1_base_addr_set (base value : Z) : M soc unit := ARCHI_WRITE base HWCE_Y_OUT_1_BASE_ADDR_OFFSET value.
Definition hwce_y_out_0_base_addr_get (base : Z) : M soc Z := ARCHI_READ base HWCE_Y_OUT_0_BASE_ADDR_OFFSET.
Definition hwce_y_out_0_base_addr_set (base value : Z) : M soc unit := ARCHI_WRITE base HWCE_Y_OUT_0_BASE_ADDR_OFFSET value.
Definition hwce_y_in_3_base_addr_get (base : Z) : M soc Z := ARCHI_READ base HWCE_Y_IN_3_BASE_ADDR_OFFSET.
Definition hwce_y_in_3_base_addr_set (base value : Z) : M soc unit := ARCHI_WRITE base HWCE_Y_IN_3_BASE_ADDR_OFFSET value.
Definition hwce_y_in_2_base_addr_get (base : Z) : M soc Z := ARCHI_READ base HWCE_Y_IN_2_BASE_ADDR_OFFSET.
Definition hwce_y_in_2_base_addr_set (base value : Z) : M soc unit := ARCHI_WRITE base HWCE_Y_IN_2_BASE_ADDR_OFFSET value.
Definition hwce_y_in_1_base_addr_get (base : Z) : M soc Z := ARCHI_READ base HWCE_Y_IN_1_BASE_ADDR_OFFSET.
Definition hwce_y_in_1_base_addr_set (base value : Z) : M soc unit := ARCHI_WRITE base HWCE_Y_IN_1_BASE_ADDR_OFFSET value.
Definition hwce_y_in_0_base_addr_get (base : Z) : M soc Z := ARCHI_READ base HWCE_Y_IN_0_BASE_ADDR_OFFSET.
Definition hwce_y_in_0_base_addr_set (base value : Z) : M soc unit := ARCHI_WRITE base HWCE_Y_IN_0_BASE_ADDR_OFFSET value.
Definition hwce_x_trans_size_get (base : Z) : M soc Z := ARCHI_READ base HWCE_X_TRANS_SIZE_OFFSET.
Definition hwce_x_trans_size_set (base value : Z) : M soc unit := ARCHI_WRITE base HWCE_X_TRANS_SIZE_OFFSET value.
Definition hwce_x_line_stride_length_get (base : Z) : M soc Z := ARCHI_READ base HWCE_X_LINE_STRIDE_LENGTH_OFFSET.
Definition hwce_x_line_stride_length_set (base value : Z) : M soc unit := ARCHI_WRITE base HWCE_X_LINE_STRIDE_LENGTH_OFFSET value.
Definition hwce_x_feat_stride_length_get (base : Z) : M soc Z := ARCHI_READ base HWCE_X_FEAT_STRIDE_LENGTH_OFFSET.
Definition hwce_x_feat_stride_length_set (base value : Z) : M soc unit := ARCHI_WRITE base HWCE_X_FEAT_STRIDE_LENGTH_OFFSET value.
Definition hwce_x_in_base_addr_get (base : Z) : M soc Z := ARCHI_READ base HWCE_X_IN_BASE_ADDR_OFFSET.
Definition hwce_x_in_base_addr_set (base value : Z) : M soc unit := ARCHI_WRITE base HWCE_X_IN_BASE_ADDR_OFFSET value.
Definition hwce_w_base_addr_get (base : Z) : M soc Z := ARCHI_READ base HWCE_W_BASE_ADDR_OFFSET.
Definition hwce_w_base_addr_set (base value : Z) : M soc unit := ARCHI_WRITE base HWCE_W_BASE_ADDR_OFFSET value.
Definition hwce_job_config0_get (base : Z) : M soc Z := ARCHI_READ base HWCE_JOB_CONFIG0_OFFSET.
Definition hwce_job_config0_set (base value : Z) : M soc unit := ARCHI_WRITE base HWCE_JOB_CONFIG0_OFFSET value.
Definition hwce_job_config1_get (base : Z) : M soc Z := ARCHI_READ base HWCE_JOB_CONFIG1_OFFSET.
Definition hwce_job_config1_set (base value : Z) : M soc unit := ARCHI_WRITE base HWCE_JOB_CONFIG1_OFFSET value.
Definition hwce_y_trans_size_ctx0_get (base : Z) : M soc Z := ARCHI_READ base HWCE_Y_TRANS_SIZE_CTX0_OFFSET.
Definition hwce_y_trans_size_ctx0_set (base value : Z) : M soc unit := ARCHI_WRITE base HWCE_Y_TRANS_SIZE_CTX0_OFFSET value.
Definition hwce_y_line_stride_length_ctx0_get (base : Z) : M soc Z := ARCHI_READ base HWCE_Y_LINE_STRIDE_LENGTH_CTX0_OFFSET.
Definition hwce_y_line_stride_length_ctx0_set (base value : Z) : M soc unit := ARCHI_WRITE base HWCE_Y_LINE_STRIDE_LENGTH_CTX0_OFFSET value.
Definition hwce_y_feat_stride_length_ctx0_get (base : Z) : M soc Z := ARCHI_READ base HWCE_Y_FEAT_STRIDE_LENGTH_CTX0_OFFSET.
Definition hwce_y_feat_stride_length_ctx0_set (base value : Z) : M soc unit := ARCHI_WRITE base HWCE_Y_FEAT_STRIDE_LENGTH_CTX0_OFFSET value.
Definition hwce_y_out_3_base_addr_ctx0_get (base : Z) : M soc Z := ARCHI_READ base HWCE_Y_OUT_3_BASE_ADDR_CTX0_OFFSET.
Definition hwce_y_out_3_base_addr_ctx0_set (base value : Z) : M soc unit := ARCHI_WRITE base HWCE_Y_OUT_3_BASE_ADDR_CTX0_OFFSET value.
Definition hwce_y_out_2_base_addr_ctx0_get (base : Z) : M soc Z := ARCHI_READ base HWCE_Y_OUT_2_BASE_ADDR_CTX0_OFFSET.
Definition hwce_y_out_2_base_addr_ctx0_set (base value : Z) : M soc unit := ARCHI_WRITE base HWCE_Y_OUT_2_BASE_ADDR_CTX0_OFFSET value.
Definition hwce_y_out_1_base_addr_ctx0_get (base : Z) : M soc Z := ARCHI_READ base HWCE_Y_OUT_1_BASE_ADDR_CTX0_OFFSET.
Definition hwce_y_out_1_base_addr_ctx0_set (base value : Z) : M soc unit := ARCHI_WRITE base HWCE_Y_OUT_1_BASE_ADDR_CTX0_OFFSET value.
Definition hwce_y_out_0_base_addr_ctx0_get (base : Z) : M soc Z := ARCHI_READ base HWCE_Y_OUT_0_BASE_ADDR_CTX0_OFFSET.
Definition hwce_y_out_0_base_addr_ctx0_set (base value : Z) : M soc unit := ARCHI_WRITE base HWCE_Y_OUT_0_BASE_ADDR_CTX0_OFFSET value.
Definition hwce_y_in_3_base_addr_ctx0_get (base : Z) : M soc Z := ARCHI_READ base HWCE_Y_IN_3_BASE_ADDR_CTX0_OFFSET.
Definition hwce_y_in_3_base_addr_ctx0_set (base value : Z) : M soc unit := ARCHI_WRITE base HWCE_Y_IN_3_BASE_ADDR_CTX0_OFFSET value.
Definition hwce_y_in_2_base_addr_ctx0_get (base : Z) : M soc Z := ARCHI_READ base HWCE_Y_IN_2_BASE_ADDR_CTX0_OFFSET.
Definition hwce_y_in_2_base_addr_ctx0_set (base value : Z) : M soc unit := ARCHI_WRITE base HWCE_Y_IN_2_BASE_ADDR_CTX0_OFFSET value.
Definition hwce_y_in_1_base_addr_ctx0_get (base : Z) : M soc Z := ARCHI_READ base HWCE_Y_IN_1_BASE_ADDR_CTX0_OFFSET.
Definition hwce_y_in_1_base_addr_ctx0_set (base value : Z) : M soc unit := ARCHI_WRITE base HWCE_Y_IN_1_BASE_ADDR_CTX0_OFFSET value.
Definition hwce_y_in_0_base_addr_ctx0_get (base : Z) : M soc Z := ARCHI_READ base HWCE_Y_IN_0_BASE_ADDR_CTX0_OFFSET.
Definition hwce_y_in_0_base_addr_ctx0_set (base value : Z) : M soc unit := ARCHI_WRITE base HWCE_Y_IN_0_BASE_ADDR_CTX0_OFFSET value.
Definition hwce_x_trans_size_ctx0_get (base : Z) : M soc Z := ARCHI_READ base HWCE_X_TRANS_SIZE_CTX0_OFFSET.
Definition hwce_x_trans_size_ctx0_set (base value : Z) : M soc unit := ARCHI_WRITE base HWCE_X_TRANS_SIZE_CTX0_OFFSET value.
Definition hwce_x_line_stride_length_ctx0_get (base : Z) : M soc Z := ARCHI_READ base HWCE_X_LINE_STRIDE_LENGTH_CTX0_OFFSET.
Definition hwce_x_line_stride_length_ctx0_set (base value : Z) : M soc unit := ARCHI_WRITE base HWCE_X_LINE_STRIDE_LENGTH_CTX0_OFFSET value.
Definition hwce_x_feat_stride_length_ctx0_get (base : Z) : M soc Z := ARCHI_READ base HWCE_X_FEAT_STRIDE_LENGTH_CTX0_OFFSET.
Definition hwce_x_feat_stride_length_ctx0_set (base value : Z) : M soc unit := ARCHI_WRITE base HWCE_X_FEAT_STRIDE_LENGTH_CTX0_OFFSET value.
Definition hwce_x_in_base_addr_ctx0_get (base : Z) : M soc Z := ARCHI_READ base HWCE_X_IN_BASE_ADDR_CTX0_OFFSET.
Definition hwce_x_in_base_addr_ctx0_set (base value : Z) : M soc unit := ARCHI_WRITE base HWCE_X_IN_BASE_ADDR_CTX0_OFFSET value.
Definition hwce_w_base_addr_ctx0_get (base : Z) : M soc Z := ARCHI_READ base HWCE_W_BASE_ADDR_CTX0_OFFSET.
Definition hwce_w_base_addr_ctx0_set (base value : Z) : M soc unit := ARCHI_WRITE base HWCE_W_BASE_ADDR_CTX0_OFFSET value.
Definition hwce_job_config0_ctx0_get (base : Z) : M soc Z := ARCHI_READ base HWCE_JOB_CONFIG0_CTX0_OFFSET.
Definition hwce_job_config0_ctx0_set (base value : Z) : M soc unit := ARCHI_WRITE base HWCE_JOB_CONFIG0_CTX0_OFFSET value.
Definition hwce_job_config1_ctx0_get (base : Z) : M soc Z := ARCHI_READ base HWCE_JOB_CONFIG1_CTX0_OFFSET.
Definition hwce_job_config1_ctx0_set (base value : Z) : M soc unit := ARCHI_WRITE base HWCE_JOB_CONFIG1_CTX0_OFFSET value.
Definition hwce_y_trans_size_ctx1_get (base : Z) : M soc Z := ARCHI_READ base HWCE_Y_TRANS_SIZE_CTX1_OFFSET.
Definition hwce_y_trans_size_ctx1_set (base value : Z) : M soc unit := ARCHI_WRITE base HWCE_Y_TRANS_SIZE_CTX1_OFFSET value.
Definition hwce_y_line_stride_length_ctx1_get (base : Z) : M soc Z := ARCHI_READ base HWCE_Y_LINE_STRIDE_LENGTH_CTX1_OFFSET.
Definition hwce_y_line_stride_length_ctx1_set (base value : Z) : M soc unit := ARCHI_WRITE base HWCE_Y_LINE_STRIDE_LENGTH_CTX1_OFFSET value.
Definition hwce_y_feat_stride_length_ctx1_get (base : Z) : M soc Z := ARCHI_READ base HWCE_Y_FEAT_STRIDE_LENGTH_CTX1_OFFSET.
Definition hwce_y_feat_stride_length_ctx1_set (base value : Z) : M soc unit := ARCHI_WRITE base HWCE_Y_FEAT_STRIDE_LENGTH_CTX1_OFFSET value.
Definition hwce_y_out_3_base_addr_ctx1_get (base : Z) : M soc Z := ARCHI_READ base HWCE_Y_OUT_3_BASE_ADDR_CTX1_OFFSET.
Definition hwce_y_out_3_base_addr_ctx1_set (base value : Z) : M soc unit := ARCHI_WRITE base HWCE_Y_OUT_3_BASE_ADDR_CTX1_OFFSET value.
Definition hwce_y_out_2_base_addr_ctx1_get (base : Z) : M soc Z := ARCHI_READ base HWCE_Y_OUT_2_BASE_ADDR_CTX1_OFFSET.
Definition hwce_y_out_2_base_addr_ctx1_set (base value : Z) : M soc unit := ARCHI_WRITE base HWCE_Y_OUT_2_BASE_ADDR_CTX1_OFFSET value.
Definition hwce_y_out_1_base_addr_ctx1_get (base : Z) : M soc Z := ARCHI_READ base HWCE_Y_OUT_1_BASE_ADDR_CTX1_OFFSET.
Definition hwce_y_out_1_base_addr_ctx1_set (base value : Z) : M soc unit := ARCHI_WRITE base HWCE_Y_OUT_1_BASE_ADDR_CTX1_OFFSET value.
Definition hwce_y_out_0_base_addr_ctx1_get (base : Z) : M soc Z := ARCHI_READ base HWCE_Y_OUT_0_BASE_ADDR_CTX1_OFFSET.
Definition hwce_y_out_0_base_addr_ctx1_set (base value : Z) : M soc unit := ARCHI_WRITE base HWCE_Y_OUT_0_BASE_ADDR_CTX1_OFFSET value.
Definition hwce_y_in_3_base_addr_ctx1_get (base : Z) : M soc Z := ARCHI_READ base HWCE_Y_IN_3_BASE_ADDR_CTX1_OFFSET.
Definition hwce_y_in_3_base_addr_ctx1_set (base value : Z) : M soc unit := ARCHI_WRITE base HWCE_Y_IN_3_BASE_ADDR_CTX1_OFFSET value.
Definition hwce_y_in_2_base_addr_ctx1_get (base : Z) : M soc Z := ARCHI_READ base HWCE_Y_IN_2_BASE_ADDR_CTX1_OFFSET.
Definition hwce_y_in_2_base_addr_ctx1_set (base value : Z) : M soc unit := ARCHI_WRITE base HWCE_Y_IN_2_BASE_ADDR_CTX1_OFFSET value.
Definition hwce_y_in_1_base_addr_ctx1_get (base : Z) : M soc Z := ARCHI_READ base HWCE_Y_IN_1_BASE_ADDR_CTX1_OFFSET.
Definition hwce_y_in_1_base_addr_ctx1_set (base value : Z) : M soc unit := ARCHI_WRITE base HWCE_Y_IN_1_BASE_ADDR_CTX1_OFFSET value.
Definition hwce_y_in_0_base_addr_ctx1_get (base : Z) : M soc Z := ARCHI_READ base HWCE_Y_IN_0_BASE_ADDR_CTX1_OFFSET.
Definition hwce_y_in_0_base_addr_ctx1_set (base value : Z) : M soc unit := ARCHI_WRITE base HWCE_Y_IN_0_BASE_ADDR_CTX1_OFFSET value.
Definition hwce_x_trans_size_ctx1_get (base : Z) : M soc Z := ARCHI_READ base HWCE_X_TRANS_SIZE_CTX1_OFFSET.
Definition hwce_x_trans_size_ctx1_set (base value : Z) : M soc unit := ARCHI_WRITE base HWCE_X_TRANS_SIZE_CTX1_OFFSET value.
Definition hwce_x_line_stride_length_ctx1_get (base : Z) : M soc Z := ARCHI_READ base HWCE_X_LINE_STRIDE_LENGTH_CTX1_OFFSET.
Definition hwce_x_line_stride_length_ctx1_set (base value : Z) : M soc unit := ARCHI_WRITE base HWCE_X_LINE_STRIDE_LENGTH_CTX1_OFFSET value.
Definition hwce_x_feat_stride_length_ctx1_get (base : Z) : M soc Z := ARCHI_READ base HWCE_X_FEAT_STRIDE_LENGTH_CTX1_OFFSET.
Definition hwce_x_feat_stride_length_ctx1_set (base value : Z) : M soc unit := ARCHI_WRITE base HWCE_X_FEAT_STRIDE_LENGTH_CTX1_OFFSET value.
Definition hwce_x_in_base_addr_ctx1_get (base : Z) : M soc Z := ARCHI_READ base HWCE_X_IN_BASE_ADDR_CTX1_OFFSET.
Definition hwce_x_in_base_addr_ctx1_set (base value : Z) : M soc unit := ARCHI_WRITE base HWCE_X_IN_BASE_ADDR_CTX1_OFFSET value.
Definition hwce_w_base_addr_ctx1_get (base : Z) : M soc Z := ARCHI_READ base HWCE_W_BASE_ADDR_CTX1_OFFSET.
Definition hwce_w_base_addr_ctx1_set (base value : Z) : M soc unit := ARCHI_WRITE base HWCE_W_BASE_ADDR_CTX1_OFFSET value.
Definition hwce_job_config0_ctx1_get (base : Z) : M soc Z := ARCHI_READ base HWCE_JOB_CONFIG0_CTX1_OFFSET.
Definition hwce_job_config0_ctx1_set (base value : Z) : M soc unit := ARCHI_WRITE base HWCE_JOB_CONFIG0_CTX1_OFFSET value.
Definition hwce_job_config1_ctx1_get (base : Z) : M soc Z := ARCHI_READ base HWCE_JOB_CONFIG1_CTX1_OFFSET.
Definition hwce_job_config1_ctx1_set (base value : Z) : M soc unit := ARCHI_WRITE base HWCE_JOB_CONFIG1_CTX1_OFFSET value.

(** * Theorems *)

(** The struct puts 56 registers elsewhere than their offsets do. *)
Lemma HWCE_report : header_sound_but HWCE_HEADER
  (drop 6 (map fst (HWCE_OFFSETS_0 ++ HWCE_OFFSETS_1)))
  [].
Proof. apply header_but; vm_compute; reflexivity. Qed.
#[export] Hint Resolve HWCE_report : registers.
