(* ===== verification/UdmaMram.v ===== *)
(** * UdmaMram: the registers of the MRAM channel of the uDMA

    The tables of boot_code/include/archi/udma/mram/udma_mram_v1.h, and the accessors as programs over the
    platform of Pulp.  No build of this repository includes the header; the classes
    of the simulator (__GVSOC__) are not modelled. *)

From S2P Require Import Prelude Monad Builtins Regs Pulp.

Definition MRAM_OFFSETS : list (string * Z) :=
  [("RX_SADDR", 0x0); ("RX_SIZE", 0x4); ("RX_CFG", 0x8); ("TX_SADDR", 0x10); ("TX_SIZE", 0x14); ("TX_CFG", 0x18);
   ("TX_DADDR", 0x20); ("RX_DADDR", 0x24); ("STATUS", 0x28); ("MRAM_MODE", 0x2c); ("ERASE_ADDR", 0x30);
   ("ERASE_SIZE", 0x34); ("CLOCK_DIV", 0x38); ("TRIGGER", 0x3c); ("ISR", 0x40); ("IER", 0x44); ("ICR", 0x48)]%string.
Definition MRAM_FIELDS_0 : list field :=
  [mk_field "RX_SADDR" "RX_SADDR" 0 16 0xffff; mk_field "RX_SIZE" "RX_SIZE" 0 17 0x1ffff;
   mk_field "RX_CFG" "CONTINOUS" 0 1 0x1; mk_field "RX_CFG" "EN" 4 1 0x10; mk_field "RX_CFG" "PENDING" 5 1 0x20;
   mk_field "RX_CFG" "CLR" 6 1 0x40; mk_field "TX_SADDR" "TX_SADDR" 0 16 0xffff;
   mk_field "TX_SIZE" "TX_SIZE" 0 17 0x1ffff; mk_field "TX_CFG" "CONTINOUS" 0 1 0x1;
   mk_field "TX_CFG" "EN" 4 1 0x10; mk_field "TX_CFG" "PENDING" 5 1 0x20; mk_field "TX_CFG" "CLR" 6 1 0x40;
   mk_field "TX_DADDR" "TX_DST_ADDR" 0 19 0x7ffff; mk_field "RX_DADDR" "RX_DST_ADDR" 0 19 0x7ffff;
   mk_field "STATUS" "ERASE_PENDING" 0 1 0x1; mk_field "STATUS" "TX_BUSY" 1 1 0x2;
   mk_field "STATUS" "RX_BUSY" 2 1 0x4; mk_field "STATUS" "REF_LINE_PENDING" 3 1 0x8;
   mk_field "MRAM_MODE" "ECC_BYPS" 0 1 0x1; mk_field "MRAM_MODE" "DPD" 1 1 0x2;
   mk_field "MRAM_MODE" "AREF" 2 1 0x4; mk_field "MRAM_MODE" "TMEN" 3 1 0x8; mk_field "MRAM_MODE" "NVR" 4 1 0x10;
   mk_field "MRAM_MODE" "RST_B" 5 1 0x20; mk_field "MRAM_MODE" "RET_B" 6 1 0x40;
   mk_field "MRAM_MODE" "POR_B" 7 1 0x80; mk_field "MRAM_MODE" "CMD" 8 8 0xff00;
   mk_field "ERASE_ADDR" "ADDR" 0 19 0x7ffff; mk_field "CLOCK_DIV" "DATA" 0 8 0xff;
   mk_field "CLOCK_DIV" "EN" 8 1 0x100]%string.
Definition MRAM_FIELDS_1 : list field :=
  [mk_field "TRIGGER" "EN" 0 1 0x1; mk_field "ISR" "ERASE_DONE" 0 1 0x1; mk_field "ISR" "PROGRAM_DONE" 1 1 0x2;
   mk_field "ISR" "TRIM_CFG_DONE" 2 1 0x4; mk_field "ISR" "REF_LINE_DONE" 3 1 0x8;
   mk_field "IER" "ERASE_EN" 0 1 0x1; mk_field "IER" "PROGRAM_EN" 1 1 0x2; mk_field "IER" "TRIM_CFG_EN" 2 1 0x4;
   mk_field "IER" "REF_LINE_EN" 3 1 0x8; mk_field "ICR" "ERASE_DONE" 0 1 0x1;
   mk_field "ICR" "PROGRAM_DONE" 1 1 0x2; mk_field "ICR" "TRIM_CFG_DONE" 2 1 0x4;
   mk_field "ICR" "REF_LINE_DONE" 3 1 0x8]%string.
Definition MRAM_UNIONS : list union :=
  [mk_union "rx_saddr" [("rx_saddr", 16)]; mk_union "rx_size" [("rx_size", 17)];
   mk_union "rx_cfg" [("continous", 1); ("padding0", 3); ("en", 1); ("pending", 1); ("clr", 1)];
   mk_union "tx_saddr" [("tx_saddr", 16)]; mk_union "tx_size" [("tx_size", 17)];
   mk_union "tx_cfg" [("continous", 1); ("padding0", 3); ("en", 1); ("pending", 1); ("clr", 1)];
   mk_union "tx_daddr" [("tx_dst_addr", 19)]; mk_union "rx_daddr" [("rx_dst_addr", 19)];
   mk_union "status" [("erase_pending", 1); ("tx_busy", 1); ("rx_busy", 1); ("ref_line_pending", 1)];
   mk_union "mram_mode" [("ecc_byps", 1); ("dpd", 1); ("aref", 1); ("tmen", 1); ("nvr", 1); ("rst_b", 1); ("ret_b", 1); ("por_b", 1); ("cmd", 8)];
   mk_union "erase_addr" [("addr", 19)]; mk_union "erase_size" []; mk_union "clock_div" [("data", 8); ("en", 1)];
   mk_union "trigger" [("en", 1)];
   mk_union "isr" [("erase_done", 1); ("program_done", 1); ("trim_cfg_done", 1); ("ref_line_done", 1)];
   mk_union "ier" [("erase_en", 1); ("program_en", 1); ("trim_cfg_en", 1); ("ref_line_en", 1)];
   mk_union "icr" [("erase_done", 1); ("program_done", 1); ("trim_cfg_done", 1); ("ref_line_done", 1)]]%string.
Definition MRAM_STRUCT : list string :=
  ["rx_saddr"; "rx_size"; "rx_cfg"; "tx_saddr"; "tx_size"; "tx_cfg"; "tx_daddr"; "rx_daddr"; "status"; "mram_mode";
   "erase_addr"; "erase_size"; "clock_div"; "trigger"; "isr"; "ier"; "icr"]%string.
Definition MRAM_MACROS_0 : list macros :=
  [mk_macros "RX_SADDR" "RX_SADDR" (16, 0) (16, 0) (16, 0) 0;
   mk_macros "RX_SIZE" "RX_SIZE" (17, 0) (17, 0) (17, 0) 0; mk_macros "RX_CFG" "CONTINOUS" (1, 0) (1, 0) (1, 0) 0;
   mk_macros "RX_CFG" "EN" (1, 4) (1, 4) (1, 4) 4; mk_macros "RX_CFG" "PENDING" (1, 5) (1, 5) (1, 5) 5;
   mk_macros "RX_CFG" "CLR" (1, 6) (1, 6) (1, 6) 6; mk_macros "TX_SADDR" "TX_SADDR" (16, 0) (16, 0) (16, 0) 0;
   mk_macros "TX_SIZE" "TX_SIZE" (17, 0) (17, 0) (17, 0) 0; mk_macros "TX_CFG" "CONTINOUS" (1, 0) (1, 0) (1, 0) 0;
   mk_macros "TX_CFG" "EN" (1, 4) (1, 4) (1, 4) 4; mk_macros "TX_CFG" "PENDING" (1, 5) (1, 5) (1, 5) 5;
   mk_macros "TX_CFG" "CLR" (1, 6) (1, 6) (1, 6) 6; mk_macros "TX_DADDR" "TX_DST_ADDR" (19, 0) (19, 0) (19, 0) 0;
   mk_macros "RX_DADDR" "RX_DST_ADDR" (19, 0) (19, 0) (19, 0) 0;
   mk_macros "STATUS" "ERASE_PENDING" (1, 0) (1, 0) (1, 0) 0; mk_macros "STATUS" "TX_BUSY" (1, 1) (1, 1) (1, 1) 1;
   mk_macros "STATUS" "RX_BUSY" (1, 2) (1, 2) (1, 2) 2;
   mk_macros "STATUS" "REF_LINE_PENDING" (1, 3) (1, 3) (1, 3) 3;
   mk_macros "MRAM_MODE" "ECC_BYPS" (1, 0) (1, 0) (1, 0) 0; mk_macros "MRAM_MODE" "DPD" (1, 1) (1, 1) (1, 1) 1;
   mk_macros "MRAM_MODE" "AREF" (1, 2) (1, 2) (1, 2) 2; mk_macros "MRAM_MODE" "TMEN" (1, 3) (1, 3) (1, 3) 3;
   mk_macros "MRAM_MODE" "NVR" (1, 4) (1, 4) (1, 4) 4; mk_macros "MRAM_MODE" "RST_B" (1, 5) (1, 5) (1, 5) 5;
   mk_macros "MRAM_MODE" "RET_B" (1, 6) (1, 6) (1, 6) 6; mk_macros "MRAM_MODE" "POR_B" (1, 7) (1, 7) (1, 7) 7;
   mk_macros "MRAM_MODE" "CMD" (8, 8) (8, 8) (8, 8) 8; mk_macros "ERASE_ADDR" "ADDR" (19, 0) (19, 0) (19, 0) 0;
   mk_macros "CLOCK_DIV" "DATA" (8, 0) (8, 0) (8, 0) 0; mk_macros "CLOCK_DIV" "EN" (1, 8) (1, 8) (1, 8) 8]%string.
Definition MRAM_MACROS_1 : list macros :=
  [mk_macros "TRIGGER" "EN" (1, 0) (1, 0) (1, 0) 0; mk_macros "ISR" "ERASE_DONE" (1, 0) (1, 0) (1, 0) 0;
   mk_macros "ISR" "PROGRAM_DONE" (1, 1) (1, 1) (1, 1) 1; mk_macros "ISR" "TRIM_CFG_DONE" (1, 2) (1, 2) (1, 2) 2;
   mk_macros "ISR" "REF_LINE_DONE" (1, 3) (1, 3) (1, 3) 3; mk_macros "IER" "ERASE_EN" (1, 0) (1, 0) (1, 0) 0;
   mk_macros "IER" "PROGRAM_EN" (1, 1) (1, 1) (1, 1) 1; mk_macros "IER" "TRIM_CFG_EN" (1, 2) (1, 2) (1, 2) 2;
   mk_macros "IER" "REF_LINE_EN" (1, 3) (1, 3) (1, 3) 3; mk_macros "ICR" "ERASE_DONE" (1, 0) (1, 0) (1, 0) 0;
   mk_macros "ICR" "PROGRAM_DONE" (1, 1) (1, 1) (1, 1) 1; mk_macros "ICR" "TRIM_CFG_DONE" (1, 2) (1, 2) (1, 2) 2;
   mk_macros "ICR" "REF_LINE_DONE" (1, 3) (1, 3) (1, 3) 3]%string.
Definition MRAM_HEADER : header :=
  mk_header (MRAM_OFFSETS) (MRAM_FIELDS_0 ++ MRAM_FIELDS_1)
    (MRAM_UNIONS) MRAM_STRUCT (MRAM_MACROS_0 ++ MRAM_MACROS_1).

Definition UDMA_MRAM_RX_SADDR_OFFSET : Z := 0x0.
Definition UDMA_MRAM_RX_SIZE_OFFSET : Z := 0x4.
Definition UDMA_MRAM_RX_CFG_OFFSET : Z := 0x8.
Definition UDMA_MRAM_TX_SADDR_OFFSET : Z := 0x10.
Definition UDMA_MRAM_TX_SIZE_OFFSET : Z := 0x14.
Definition UDMA_MRAM_TX_CFG_OFFSET : Z := 0x18.
Definition UDMA_MRAM_TX_DADDR_OFFSET : Z := 0x20.
Definition UDMA_MRAM_RX_DADDR_OFFSET : Z := 0x24.
Definition UDMA_MRAM_STATUS_OFFSET : Z := 0x28.
Definition UDMA_MRAM_MRAM_MODE_OFFSET : Z := 0x2c.
Definition UDMA_MRAM_ERASE_ADDR_OFFSET : Z := 0x30.
Definition UDMA_MRAM_ERASE_SIZE_OFFSET : Z := 0x34.
Definition UDMA_MRAM_CLOCK_DIV_OFFSET : Z := 0x38.
Definition UDMA_MRAM_TRIGGER_OFFSET : Z := 0x3c.
Definition UDMA_MRAM_ISR_OFFSET : Z := 0x40.
Definition UDMA_MRAM_IER_OFFSET : Z := 0x44.
Definition UDMA_MRAM_ICR_OFFSET : Z := 0x48.

Definition udma_mram_rx_saddr_get (base : Z) : M soc Z := ARCHI_READ base UDMA_MRAM_RX_SADDR_OFFSET.
Definition udma_mram_rx_saddr_set (base value : Z) : M soc unit := ARCHI_WRITE base UDMA_MRAM_RX_SADDR_OFFSET value.
Definition udma_mram_rx_size_get (base : Z) : M soc Z := ARCHI_READ base UDMA_MRAM_RX_SIZE_OFFSET.
Definition udma_mram_rx_size_set (base value : Z) : M soc unit := ARCHI_WRITE base UDMA_MRAM_RX_SIZE_OFFSET value.
Definition udma_mram_rx_cfg_get (base : Z) : M soc Z := ARCHI_READ base UDMA_MRAM_RX_CFG_OFFSET.
Definition udma_mram_rx_cfg_set (base value : Z) : M soc unit := ARCHI_WRITE base UDMA_MRAM_RX_CFG_OFFSET value.
Definition udma_mram_tx_saddr_get (base : Z) : M soc Z := ARCHI_READ base UDMA_MRAM_TX_SADDR_OFFSET.
Definition udma_mram_tx_saddr_set (base value : Z) : M soc unit := ARCHI_WRITE base UDMA_MRAM_TX_SADDR_OFFSET value.
Definition udma_mram_tx_size_get (base : Z) : M soc Z := ARCHI_READ base UDMA_MRAM_TX_SIZE_OFFSET.
Definition udma_mram_tx_size_set (base value : Z) : M soc unit := ARCHI_WRITE base UDMA_MRAM_TX_SIZE_OFFSET value.
Definition udma_mram_tx_cfg_get (base : Z) : M soc Z := ARCHI_READ base UDMA_MRAM_TX_CFG_OFFSET.
Definition udma_mram_tx_cfg_set (base value : Z) : M soc unit := ARCHI_WRITE base UDMA_MRAM_TX_CFG_OFFSET value.
Definition udma_mram_tx_daddr_get (base : Z) : M soc Z := ARCHI_READ base UDMA_MRAM_TX_DADDR_OFFSET.
Definition udma_mram_tx_daddr_set (base value : Z) : M soc unit := ARCHI_WRITE base UDMA_MRAM_TX_DADDR_OFFSET value.
Definition udma_mram_rx_daddr_get (base : Z) : M soc Z := ARCHI_READ base UDMA_MRAM_RX_DADDR_OFFSET.
Definition udma_mram_rx_daddr_set (base value : Z) : M soc unit := ARCHI_WRITE base UDMA_MRAM_RX_DADDR_OFFSET value.
Definition udma_mram_status_get (base : Z) : M soc Z := ARCHI_READ base UDMA_MRAM_STATUS_OFFSET.
Definition udma_mram_status_set (base value : Z) : M soc unit := ARCHI_WRITE base UDMA_MRAM_STATUS_OFFSET value.
Definition udma_mram_mram_mode_get (base : Z) : M soc Z := ARCHI_READ base UDMA_MRAM_MRAM_MODE_OFFSET.
Definition udma_mram_mram_mode_set (base value : Z) : M soc unit := ARCHI_WRITE base UDMA_MRAM_MRAM_MODE_OFFSET value.
Definition udma_mram_erase_addr_get (base : Z) : M soc Z := ARCHI_READ base UDMA_MRAM_ERASE_ADDR_OFFSET.
Definition udma_mram_erase_addr_set (base value : Z) : M soc unit := ARCHI_WRITE base UDMA_MRAM_ERASE_ADDR_OFFSET value.
Definition udma_mram_erase_size_get (base : Z) : M soc Z := ARCHI_READ base UDMA_MRAM_ERASE_SIZE_OFFSET.
Definition udma_mram_erase_size_set (base value : Z) : M soc unit := ARCHI_WRITE base UDMA_MRAM_ERASE_SIZE_OFFSET value.
Definition udma_mram_clock_div_get (base : Z) : M soc Z := ARCHI_READ base UDMA_MRAM_CLOCK_DIV_OFFSET.
Definition udma_mram_clock_div_set (base value : Z) : M soc unit := ARCHI_WRITE base UDMA_MRAM_CLOCK_DIV_OFFSET value.
Definition udma_mram_trigger_get (base : Z) : M soc Z := ARCHI_READ base UDMA_MRAM_TRIGGER_OFFSET.
Definition udma_mram_trigger_set (base value : Z) : M soc unit := ARCHI_WRITE base UDMA_MRAM_TRIGGER_OFFSET value.
Definition udma_mram_isr_get (base : Z) : M soc Z := ARCHI_READ base UDMA_MRAM_ISR_OFFSET.
Definition udma_mram_isr_set (base value : Z) : M soc unit := ARCHI_WRITE base UDMA_MRAM_ISR_OFFSET value.
Definition udma_mram_ier_get (base : Z) : M soc Z := ARCHI_READ base UDMA_MRAM_IER_OFFSET.
Definition udma_mram_ier_set (base value : Z) : M soc unit := ARCHI_WRITE base UDMA_MRAM_IER_OFFSET value.
Definition udma_mram_icr_get (base : Z) : M soc Z := ARCHI_READ base UDMA_MRAM_ICR_OFFSET.
Definition udma_mram_icr_set (base value : Z) : M soc unit := ARCHI_WRITE base UDMA_MRAM_ICR_OFFSET value.

(** * Theorems *)

(** The struct puts 14 registers elsewhere than their offsets do. *)
Lemma MRAM_report : header_sound_but MRAM_HEADER
  (drop 3 (map fst MRAM_OFFSETS))
  [].
Proof. apply header_but; vm_compute; reflexivity. Qed.
#[export] Hint Resolve MRAM_report : registers.
