(* ===== verification/UdmaHyper.v ===== *)
(** * UdmaHyper: the registers of the HyperBus channel of the uDMA

    The tables of boot_code/include/archi/udma/hyper/udma_hyper_v2.h, and the accessors as programs over the
    platform of Pulp.  No build of this repository includes the header; the classes
    of the simulator (__GVSOC__) are not modelled. *)

From S2P Require Import Prelude Monad Builtins Regs Pulp.

Definition HYPER_OFFSETS : list (string * Z) :=
  [("RX_SADDR", 0x0); ("RX_SIZE", 0x4); ("RX_CFG", 0x8); ("TX_SADDR", 0x10); ("TX_SIZE", 0x14); ("TX_CFG", 0x18);
   ("EXT_ADDR", 0x20); ("TIMING_CFG", 0x24); ("MBA0", 0x28); ("MBA1", 0x2c); ("DEVICE", 0x30); ("OSPI_CMD", 0x34);
   ("OSPI_ADDR", 0x38); ("OSPI_CFG", 0x3c); ("OSPI_CSN", 0x40); ("_RESERVED0", 0x44); ("_RESERVED1", 0x48);
   ("IRQ_EN", 0x4c); ("CLK_DIV", 0x50); ("STATUS", 0x54)]%string.
Definition HYPER_FIELDS_0 : list field :=
  [mk_field "RX_SADDR" "RX_SADDR" 0 16 0xffff; mk_field "RX_SIZE" "RX_SIZE" 0 17 0x1ffff;
   mk_field "RX_CFG" "CONTINOUS" 0 1 0x1; mk_field "RX_CFG" "EN" 4 1 0x10; mk_field "RX_CFG" "PENDING" 5 1 0x20;
   mk_field "RX_CFG" "CLR" 6 1 0x40; mk_field "TX_SADDR" "TX_SADDR" 0 16 0xffff;
   mk_field "TX_SIZE" "TX_SIZE" 0 17 0x1ffff; mk_field "TX_CFG" "CONTINOUS" 0 1 0x1;
   mk_field "TX_CFG" "EN" 4 1 0x10; mk_field "TX_CFG" "PENDING" 5 1 0x20; mk_field "TX_CFG" "CLR" 6 1 0x40;
   mk_field "EXT_ADDR" "SADDR" 0 31 0x7fffffff; mk_field "EXT_ADDR" "REG_ACCESS" 31 1 0x80000000;
   mk_field "TIMING_CFG" "LATENCY0" 0 5 0x1f; mk_field "TIMING_CFG" "LATENCY1" 5 5 0x3e0;
   mk_field "TIMING_CFG" "RW_RECOVERY" 10 4 0x3c00; mk_field "TIMING_CFG" "RWDS_DELAY" 14 3 0x1c000;
   mk_field "TIMING_CFG" "ADDITIONAL_LATENCY_AUTOCHECK_EN" 17 1 0x20000;
   mk_field "TIMING_CFG" "CS_MAX" 18 16 0x3fffc0000; mk_field "MBA0" "MBA0" 24 7 0x7f000000;
   mk_field "MBA1" "MBA1" 24 7 0x7f000000; mk_field "DEVICE" "TYPE" 0 1 0x1; mk_field "DEVICE" "DT0" 1 1 0x2;
   mk_field "DEVICE" "DT1" 2 1 0x4; mk_field "OSPI_CFG" "CMD_SIZE" 0 2 0x3;
   mk_field "OSPI_CFG" "ADDR_SIZE" 4 3 0x70; mk_field "OSPI_CFG" "LINE" 8 1 0x100;
   mk_field "OSPI_CFG" "CMD_DTR_STR" 12 1 0x1000; mk_field "OSPI_CFG" "ADDR_DTR_STR" 13 1 0x2000]%string.
Definition HYPER_FIELDS_1 : list field :=
  [mk_field "OSPI_CFG" "DATA_DTR_STR" 14 1 0x4000; mk_field "OSPI_CFG" "DATA_DTR_MSB" 15 1 0x8000;
   mk_field "OSPI_CSN" "INDEX" 0 1 0x1; mk_field "OSPI_CSN" "USER_CTRL_CSN" 4 1 0x10;
   mk_field "OSPI_CSN" "CSN_VAL" 5 1 0x20; mk_field "IRQ_EN" "EN" 0 1 0x1; mk_field "CLK_DIV" "DATA" 0 8 0xff;
   mk_field "CLK_DIV" "VALID" 8 1 0x100; mk_field "STATUS" "TX_ERROR" 0 1 0x1;
   mk_field "STATUS" "RX_ERROR" 1 1 0x2; mk_field "STATUS" "RX_TX_END" 2 1 0x4]%string.
Definition HYPER_UNIONS_0 : list union :=
  [mk_union "rx_saddr" [("rx_saddr", 16)]; mk_union "rx_size" [("rx_size", 17)];
   mk_union "rx_cfg" [("continous", 1); ("padding0", 3); ("en", 1); ("pending", 1); ("clr", 1)];
   mk_union "tx_saddr" [("tx_saddr", 16)]; mk_union "tx_size" [("tx_size", 17)];
   mk_union "tx_cfg" [("continous", 1); ("padding0", 3); ("en", 1); ("pending", 1); ("clr", 1)];
   mk_union "ext_addr" [("saddr", 31); ("reg_access", 1)];
   mk_union "timing_cfg" [("latency0", 5); ("latency1", 5); ("rw_recovery", 4); ("rwds_delay", 3); ("additional_latency_autocheck_en", 1); ("cs_max", 16)];
   mk_union "mba0" [("padding0", 24); ("mba0", 7)]; mk_union "mba1" [("padding0", 24); ("mba1", 7)];
   mk_union "device" [("type", 1); ("dt0", 1); ("dt1", 1)]; mk_union "ospi_cmd" []; mk_union "ospi_addr" [];
   mk_union "ospi_cfg" [("cmd_size", 2); ("padding0", 2); ("addr_size", 3); ("padding1", 1); ("line", 1); ("padding2", 3); ("cmd_dtr_str", 1); ("addr_dtr_str", 1); ("data_dtr_str", 1); ("data_dtr_msb", 1)];
   mk_union "ospi_csn" [("index", 1); ("padding0", 3); ("user_ctrl_csn", 1); ("csn_val", 1)];
   mk_union "_reserved0" []; mk_union "_reserved1" []]%string.
Definition HYPER_UNIONS_1 : list union :=
  [mk_union "irq_en" [("en", 1)]; mk_union "clk_div" [("data", 8); ("valid", 1)];
   mk_union "status" [("tx_error", 1); ("rx_error", 1); ("rx_tx_end", 1)]]%string.
Definition HYPER_STRUCT : list string :=
  ["rx_saddr"; "rx_size"; "rx_cfg"; "tx_saddr"; "tx_size"; "tx_cfg"; "ext_addr"; "timing_cfg"; "mba0"; "mba1";
   "device"; "ospi_cmd"; "ospi_addr"; "ospi_cfg"; "ospi_csn"; "_reserved0"; "_reserved1"; "irq_en"; "clk_div";
   "status"]%string.
Definition HYPER_MACROS_0 : list macros :=
  [mk_macros "RX_SADDR" "RX_SADDR" (16, 0) (16, 0) (16, 0) 0;
   mk_macros "RX_SIZE" "RX_SIZE" (17, 0) (17, 0) (17, 0) 0; mk_macros "RX_CFG" "CONTINOUS" (1, 0) (1, 0) (1, 0) 0;
   mk_macros "RX_CFG" "EN" (1, 4) (1, 4) (1, 4) 4; mk_macros "RX_CFG" "PENDING" (1, 5) (1, 5) (1, 5) 5;
   mk_macros "RX_CFG" "CLR" (1, 6) (1, 6) (1, 6) 6; mk_macros "TX_SADDR" "TX_SADDR" (16, 0) (16, 0) (16, 0) 0;
   mk_macros "TX_SIZE" "TX_SIZE" (17, 0) (17, 0) (17, 0) 0; mk_macros "TX_CFG" "CONTINOUS" (1, 0) (1, 0) (1, 0) 0;
   mk_macros "TX_CFG" "EN" (1, 4) (1, 4) (1, 4) 4; mk_macros "TX_CFG" "PENDING" (1, 5) (1, 5) (1, 5) 5;
   mk_macros "TX_CFG" "CLR" (1, 6) (1, 6) (1, 6) 6; mk_macros "EXT_ADDR" "SADDR" (31, 0) (31, 0) (31, 0) 0;
   mk_macros "EXT_ADDR" "REG_ACCESS" (1, 31) (1, 31) (1, 31) 31;
   mk_macros "TIMING_CFG" "LATENCY0" (5, 0) (5, 0) (5, 0) 0;
   mk_macros "TIMING_CFG" "LATENCY1" (5, 5) (5, 5) (5, 5) 5;
   mk_macros "TIMING_CFG" "RW_RECOVERY" (4, 10) (4, 10) (4, 10) 10;
   mk_macros "TIMING_CFG" "RWDS_DELAY" (3, 14) (3, 14) (3, 14) 14;
   mk_macros "TIMING_CFG" "ADDITIONAL_LATENCY_AUTOCHECK_EN" (1, 17) (1, 17) (1, 17) 17;
   mk_macros "TIMING_CFG" "CS_MAX" (16, 18) (16, 18) (16, 18) 18;
   mk_macros "MBA0" "MBA0" (7, 24) (7, 24) (7, 24) 24; mk_macros "MBA1" "MBA1" (7, 24) (7, 24) (7, 24) 24;
   mk_macros "DEVICE" "TYPE" (1, 0) (1, 0) (1, 0) 0; mk_macros "DEVICE" "DT0" (1, 1) (1, 1) (1, 1) 1;
   mk_macros "DEVICE" "DT1" (1, 2) (1, 2) (1, 2) 2; mk_macros "OSPI_CFG" "CMD_SIZE" (2, 0) (2, 0) (2, 0) 0;
   mk_macros "OSPI_CFG" "ADDR_SIZE" (3, 4) (3, 4) (3, 4) 4; mk_macros "OSPI_CFG" "LINE" (1, 8) (1, 8) (1, 8) 8;
   mk_macros "OSPI_CFG" "CMD_DTR_STR" (1, 12) (1, 12) (1, 12) 12;
   mk_macros "OSPI_CFG" "ADDR_DTR_STR" (1, 13) (1, 13) (1, 13) 13]%string.
Definition HYPER_MACROS_1 : list macros :=
  [mk_macros "OSPI_CFG" "DATA_DTR_STR" (1, 14) (1, 14) (1, 14) 14;
   mk_macros "OSPI_CFG" "DATA_DTR_MSB" (1, 15) (1, 15) (1, 15) 15;
   mk_macros "OSPI_CSN" "INDEX" (1, 0) (1, 0) (1, 0) 0;
   mk_macros "OSPI_CSN" "USER_CTRL_CSN" (1, 4) (1, 4) (1, 4) 4;
   mk_macros "OSPI_CSN" "CSN_VAL" (1, 5) (1, 5) (1, 5) 5; mk_macros "IRQ_EN" "EN" (1, 0) (1, 0) (1, 0) 0;
   mk_macros "CLK_DIV" "DATA" (8, 0) (8, 0) (8, 0) 0; mk_macros "CLK_DIV" "VALID" (1, 8) (1, 8) (1, 8) 8;
   mk_macros "STATUS" "TX_ERROR" (1, 0) (1, 0) (1, 0) 0; mk_macros "STATUS" "RX_ERROR" (1, 1) (1, 1) (1, 1) 1;
   mk_macros "STATUS" "RX_TX_END" (1, 2) (1, 2) (1, 2) 2]%string.
Definition HYPER_HEADER : header :=
  mk_header (HYPER_OFFSETS) (HYPER_FIELDS_0 ++ HYPER_FIELDS_1)
    (HYPER_UNIONS_0 ++ HYPER_UNIONS_1) HYPER_STRUCT (HYPER_MACROS_0 ++ HYPER_MACROS_1).

Definition HYPER_RX_SADDR_OFFSET : Z := 0x0.
Definition HYPER_RX_SIZE_OFFSET : Z := 0x4.
Definition HYPER_RX_CFG_OFFSET : Z := 0x8.
Definition HYPER_TX_SADDR_OFFSET : Z := 0x10.
Definition HYPER_TX_SIZE_OFFSET : Z := 0x14.
Definition HYPER_TX_CFG_OFFSET : Z := 0x18.
Definition HYPER_EXT_ADDR_OFFSET : Z := 0x20.
Definition HYPER_TIMING_CFG_OFFSET : Z := 0x24.
Definition HYPER_MBA0_OFFSET : Z := 0x28.
Definition HYPER_MBA1_OFFSET : Z := 0x2c.
Definition HYPER_DEVICE_OFFSET : Z := 0x30.
Definition HYPER_OSPI_CMD_OFFSET : Z := 0x34.
Definition HYPER_OSPI_ADDR_OFFSET : Z := 0x38.
Definition HYPER_OSPI_CFG_OFFSET : Z := 0x3c.
Definition HYPER_OSPI_CSN_OFFSET : Z := 0x40.
Definition HYPER__RESERVED0_OFFSET : Z := 0x44.
Definition HYPER__RESERVED1_OFFSET : Z := 0x48.
Definition HYPER_IRQ_EN_OFFSET : Z := 0x4c.
Definition HYPER_CLK_DIV_OFFSET : Z := 0x50.
Definition HYPER_STATUS_OFFSET : Z := 0x54.

Definition hyper_rx_saddr_get (base : Z) : M soc Z := ARCHI_READ base HYPER_RX_SADDR_OFFSET.
Definition hyper_rx_saddr_set (base value : Z) : M soc unit := ARCHI_WRITE base HYPER_RX_SADDR_OFFSET value.
Definition hyper_rx_size_get (base : Z) : M soc Z := ARCHI_READ base HYPER_RX_SIZE_OFFSET.
Definition hyper_rx_size_set (base value : Z) : M soc unit := ARCHI_WRITE base HYPER_RX_SIZE_OFFSET value.
Definition hyper_rx_cfg_get (base : Z) : M soc Z := ARCHI_READ base HYPER_RX_CFG_OFFSET.
Definition hyper_rx_cfg_set (base value : Z) : M soc unit := ARCHI_WRITE base HYPER_RX_CFG_OFFSET value.
Definition hyper_tx_saddr_get (base : Z) : M soc Z := ARCHI_READ base HYPER_TX_SADDR_OFFSET.
Definition hyper_tx_saddr_set (base value : Z) : M soc unit := ARCHI_WRITE base HYPER_TX_SADDR_OFFSET value.
Definition hyper_tx_size_get (base : Z) : M soc Z := ARCHI_READ base HYPER_TX_SIZE_OFFSET.
Definition hyper_tx_size_set (base value : Z) : M soc unit := ARCHI_WRITE base HYPER_TX_SIZE_OFFSET value.
Definition hyper_tx_cfg_get (base : Z) : M soc Z := ARCHI_READ base HYPER_TX_CFG_OFFSET.
Definition hyper_tx_cfg_set (base value : Z) : M soc unit := ARCHI_WRITE base HYPER_TX_CFG_OFFSET value.
Definition hyper_ext_addr_get (base : Z) : M soc Z := ARCHI_READ base HYPER_EXT_ADDR_OFFSET.
Definition hyper_ext_addr_set (base value : Z) : M soc unit := ARCHI_WRITE base HYPER_EXT_ADDR_OFFSET value.
Definition hyper_timing_cfg_get (base : Z) : M soc Z := ARCHI_READ base HYPER_TIMING_CFG_OFFSET.
Definition hyper_timing_cfg_set (base value : Z) : M soc unit := ARCHI_WRITE base HYPER_TIMING_CFG_OFFSET value.
Definition hyper_mba0_get (base : Z) : M soc Z := ARCHI_READ base HYPER_MBA0_OFFSET.
Definition hyper_mba0_set (base value : Z) : M soc unit := ARCHI_WRITE base HYPER_MBA0_OFFSET value.
Definition hyper_mba1_get (base : Z) : M soc Z := ARCHI_READ base HYPER_MBA1_OFFSET.
Definition hyper_mba1_set (base value : Z) : M soc unit := ARCHI_WRITE base HYPER_MBA1_OFFSET value.
Definition hyper_device_get (base : Z) : M soc Z := ARCHI_READ base HYPER_DEVICE_OFFSET.
Definition hyper_device_set (base value : Z) : M soc unit := ARCHI_WRITE base HYPER_DEVICE_OFFSET value.
Definition hyper_ospi_cmd_get (base : Z) : M soc Z := ARCHI_READ base HYPER_OSPI_CMD_OFFSET.
Definition hyper_ospi_cmd_set (base value : Z) : M soc unit := ARCHI_WRITE base HYPER_OSPI_CMD_OFFSET value.
Definition hyper_ospi_addr_get (base : Z) : M soc Z := ARCHI_READ base HYPER_OSPI_ADDR_OFFSET.
Definition hyper_ospi_addr_set (base value : Z) : M soc unit := ARCHI_WRITE base HYPER_OSPI_ADDR_OFFSET value.
Definition hyper_ospi_cfg_get (base : Z) : M soc Z := ARCHI_READ base HYPER_OSPI_CFG_OFFSET.
Definition hyper_ospi_cfg_set (base value : Z) : M soc unit := ARCHI_WRITE base HYPER_OSPI_CFG_OFFSET value.
Definition hyper_ospi_csn_get (base : Z) : M soc Z := ARCHI_READ base HYPER_OSPI_CSN_OFFSET.
Definition hyper_ospi_csn_set (base value : Z) : M soc unit := ARCHI_WRITE base HYPER_OSPI_CSN_OFFSET value.
Definition hyper__reserved0_get (base : Z) : M soc Z := ARCHI_READ base HYPER__RESERVED0_OFFSET.
Definition hyper__reserved0_set (base value : Z) : M soc unit := ARCHI_WRITE base HYPER__RESERVED0_OFFSET value.
Definition hyper__reserved1_get (base : Z) : M soc Z := ARCHI_READ base HYPER__RESERVED1_OFFSET.
Definition hyper__reserved1_set (base value : Z) : M soc unit := ARCHI_WRITE base HYPER__RESERVED1_OFFSET value.
Definition hyper_irq_en_get (base : Z) : M soc Z := ARCHI_READ base HYPER_IRQ_EN_OFFSET.
Definition hyper_irq_en_set (base value : Z) : M soc unit := ARCHI_WRITE base HYPER_IRQ_EN_OFFSET value.
Definition hyper_clk_div_get (base : Z) : M soc Z := ARCHI_READ base HYPER_CLK_DIV_OFFSET.
Definition hyper_clk_div_set (base value : Z) : M soc unit := ARCHI_WRITE base HYPER_CLK_DIV_OFFSET value.
Definition hyper_status_get (base : Z) : M soc Z := ARCHI_READ base HYPER_STATUS_OFFSET.
Definition hyper_status_set (base value : Z) : M soc unit := ARCHI_WRITE base HYPER_STATUS_OFFSET value.

(** * Theorems *)

(** The struct puts 17 registers elsewhere than their offsets do. One field overlaps
    another one or is not where the bit-field member is, or outside the word. *)
Lemma HYPER_report : header_sound_but HYPER_HEADER
  (drop 3 (map fst HYPER_OFFSETS))
  [("TIMING_CFG", "CS_MAX")]%string.
Proof. apply header_but; vm_compute; reflexivity. Qed.
#[export] Hint Resolve HYPER_report : registers.
