(* ===== verification/UdmaI2sV1.v ===== *)
(** * UdmaI2sV1: the registers of the I2S channel of the uDMA, version 1

    The tables of boot_code/include/archi/udma/i2s/udma_i2s_v1_new.h, and the accessors as programs over the
    platform of Pulp.  No build of this repository includes the header; the classes
    of the simulator (__GVSOC__) are not modelled. *)

From S2P Require Import Prelude Monad Builtins Regs Pulp.

Definition I2S1_OFFSETS : list (string * Z) :=
  [("RX_SADDR_CH0", 0x0); ("RX_SIZE_CH0", 0x4); ("RX_CFG_CH0", 0x8); ("RX_SADDR_CH1", 0x10); ("RX_SIZE_CH1", 0x14);
   ("RX_CFG_CH1", 0x18); ("CFG_EXT", 0x20); ("CFG_CLKGEN0", 0x24); ("CFG_CLKGEN1", 0x28); ("CHMODE", 0x2c);
   ("FILT_CH0", 0x30); ("FILT_CH1", 0x34)]%string.
Definition I2S1_FIELDS_0 : list field :=
  [mk_field "RX_SADDR_CH0" "RX_SADDR" 0 16 0xffff; mk_field "RX_SIZE_CH0" "RX_SIZE" 0 17 0x1ffff;
   mk_field "RX_CFG_CH0" "CONTINOUS" 0 1 0x1; mk_field "RX_CFG_CH0" "DATASIZE" 1 2 0x6;
   mk_field "RX_CFG_CH0" "EN" 4 1 0x10; mk_field "RX_CFG_CH0" "CLR" 5 1 0x20;
   mk_field "RX_CFG_CH0" "PENDING" 5 1 0x20; mk_field "RX_SADDR_CH1" "TX_SADDR" 0 16 0xffff;
   mk_field "RX_SIZE_CH1" "TX_SIZE" 0 17 0x1ffff; mk_field "RX_CFG_CH1" "CONTINOUS" 0 1 0x1;
   mk_field "RX_CFG_CH1" "DATASIZE" 1 2 0x6; mk_field "RX_CFG_CH1" "EN" 4 1 0x10;
   mk_field "RX_CFG_CH1" "CLR" 5 1 0x20; mk_field "RX_CFG_CH1" "PENDING" 5 1 0x20;
   mk_field "CFG_EXT" "EXT_BITS_WORD" 0 5 0x1f; mk_field "CFG_CLKGEN0" "BITS_WORD" 0 5 0x1f;
   mk_field "CFG_CLKGEN0" "CLK_EN" 8 1 0x100; mk_field "CFG_CLKGEN0" "CLK_DIV" 16 16 0xffff0000;
   mk_field "CFG_CLKGEN1" "BITS_WORD" 0 5 0x1f; mk_field "CFG_CLKGEN1" "CLK_EN" 8 1 0x100;
   mk_field "CFG_CLKGEN1" "CLK_DIV" 16 16 0xffff0000; mk_field "CHMODE" "CH0_LSB_FIRST" 4 1 0x10;
   mk_field "CHMODE" "CH0_PDM_USEFILTER" 8 1 0x100; mk_field "CHMODE" "CH0_PDM_EN" 12 1 0x1000;
   mk_field "CHMODE" "CH0_USEDDR" 16 1 0x10000; mk_field "CHMODE" "CH0_MODE" 24 2 0x3000000;
   mk_field "CHMODE" "CH1_LSB_FIRST" 5 1 0x20; mk_field "CHMODE" "CH1_PDM_USEFILTER" 9 1 0x200;
   mk_field "CHMODE" "CH1_PDM_EN" 13 1 0x2000; mk_field "CHMODE" "CH1_USEDDR" 17 1 0x20000]%string.
Definition I2S1_FIELDS_1 : list field :=
  [mk_field "CHMODE" "CH1_MODE" 26 2 0xc000000; mk_field "FILT_CH0" "DECIMATION" 0 10 0x3ff;
   mk_field "FILT_CH0" "SHIFT" 16 3 0x70000; mk_field "FILT_CH1" "DECIMATION" 0 10 0x3ff;
   mk_field "FILT_CH1" "SHIFT" 16 3 0x70000]%string.
Definition I2S1_UNIONS : list union :=
  [mk_union "rx_saddr_ch0" [("rx_saddr", 16)]; mk_union "rx_size_ch0" [("rx_size", 17)];
   mk_union "rx_cfg_ch0" [("continous", 1); ("datasize", 2); ("padding0", 1); ("en", 1); ("clr", 1); ("pending", 1)];
   mk_union "rx_saddr_ch1" [("tx_saddr", 16)]; mk_union "rx_size_ch1" [("tx_size", 17)];
   mk_union "rx_cfg_ch1" [("continous", 1); ("datasize", 2); ("padding0", 1); ("en", 1); ("clr", 1); ("pending", 1)];
   mk_union "cfg_ext" [("ext_bits_word", 5)];
   mk_union "cfg_clkgen0" [("bits_word", 5); ("padding0", 3); ("clk_en", 1); ("padding1", 7); ("clk_div", 16)];
   mk_union "cfg_clkgen1" [("bits_word", 5); ("padding0", 3); ("clk_en", 1); ("padding1", 7); ("clk_div", 16)];
   mk_union "chmode" [("padding0", 4); ("ch0_lsb_first", 1); ("padding1", 3); ("ch0_pdm_usefilter", 1); ("padding2", 3); ("ch0_pdm_en", 1); ("padding3", 3); ("ch0_useddr", 1); ("padding4", 7); ("ch0_mode", 2); ("ch1_lsb_first", 1); ("padding5", 3); ("ch1_pdm_usefilter", 1); ("padding6", 3); ("ch1_pdm_en", 1); ("padding7", 3); ("ch1_useddr", 1); ("padding8", 8); ("ch1_mode", 2)];
   mk_union "filt_ch0" [("decimation", 10); ("padding0", 6); ("shift", 3)];
   mk_union "filt_ch1" [("decimation", 10); ("padding0", 6); ("shift", 3)]]%string.
Definition I2S1_STRUCT : list string :=
  ["rx_saddr_ch0"; "rx_size_ch0"; "rx_cfg_ch0"; "rx_saddr_ch1"; "rx_size_ch1"; "rx_cfg_ch1"; "cfg_ext";
   "cfg_clkgen0"; "cfg_clkgen1"; "chmode"; "filt_ch0"; "filt_ch1"]%string.
Definition I2S1_MACROS_0 : list macros :=
  [mk_macros "RX_SADDR_CH0" "RX_SADDR" (16, 0) (16, 0) (16, 0) 0;
   mk_macros "RX_SIZE_CH0" "RX_SIZE" (17, 0) (17, 0) (17, 0) 0;
   mk_macros "RX_CFG_CH0" "CONTINOUS" (1, 0) (1, 0) (1, 0) 0;
   mk_macros "RX_CFG_CH0" "DATASIZE" (2, 1) (2, 1) (2, 1) 1; mk_macros "RX_CFG_CH0" "EN" (1, 4) (1, 4) (1, 4) 4;
   mk_macros "RX_CFG_CH0" "CLR" (1, 5) (1, 5) (1, 5) 5; mk_macros "RX_CFG_CH0" "PENDING" (1, 5) (1, 5) (1, 5) 5;
   mk_macros "RX_SADDR_CH1" "TX_SADDR" (16, 0) (16, 0) (16, 0) 0;
   mk_macros "RX_SIZE_CH1" "TX_SIZE" (17, 0) (17, 0) (17, 0) 0;
   mk_macros "RX_CFG_CH1" "CONTINOUS" (1, 0) (1, 0) (1, 0) 0;
   mk_macros "RX_CFG_CH1" "DATASIZE" (2, 1) (2, 1) (2, 1) 1; mk_macros "RX_CFG_CH1" "EN" (1, 4) (1, 4) (1, 4) 4;
   mk_macros "RX_CFG_CH1" "CLR" (1, 5) (1, 5) (1, 5) 5; mk_macros "RX_CFG_CH1" "PENDING" (1, 5) (1, 5) (1, 5) 5;
   mk_macros "CFG_EXT" "EXT_BITS_WORD" (5, 0) (5, 0) (5, 0) 0;
   mk_macros "CFG_CLKGEN0" "BITS_WORD" (5, 0) (5, 0) (5, 0) 0;
   mk_macros "CFG_CLKGEN0" "CLK_EN" (1, 8) (1, 8) (1, 8) 8;
   mk_macros "CFG_CLKGEN0" "CLK_DIV" (16, 16) (16, 16) (16, 16) 16;
   mk_macros "CFG_CLKGEN1" "BITS_WORD" (5, 0) (5, 0) (5, 0) 0;
   mk_macros "CFG_CLKGEN1" "CLK_EN" (1, 8) (1, 8) (1, 8) 8;
   mk_macros "CFG_CLKGEN1" "CLK_DIV" (16, 16) (16, 16) (16, 16) 16;
   mk_macros "CHMODE" "CH0_LSB_FIRST" (1, 4) (1, 4) (1, 4) 4;
   mk_macros "CHMODE" "CH0_PDM_USEFILTER" (1, 8) (1, 8) (1, 8) 8;
   mk_macros "CHMODE" "CH0_PDM_EN" (1, 12) (1, 12) (1, 12) 12;
   mk_macros "CHMODE" "CH0_USEDDR" (1, 16) (1, 16) (1, 16) 16;
   mk_macros "CHMODE" "CH0_MODE" (2, 24) (2, 24) (2, 24) 24;
   mk_macros "CHMODE" "CH1_LSB_FIRST" (1, 5) (1, 5) (1, 5) 5;
   mk_macros "CHMODE" "CH1_PDM_USEFILTER" (1, 9) (1, 9) (1, 9) 9;
   mk_macros "CHMODE" "CH1_PDM_EN" (1, 13) (1, 13) (1, 13) 13;
   mk_macros "CHMODE" "CH1_USEDDR" (1, 17) (1, 17) (1, 17) 17]%string.
Definition I2S1_MACROS_1 : list macros :=
  [mk_macros "CHMODE" "CH1_MODE" (2, 26) (2, 26) (2, 26) 26;
   mk_macros "FILT_CH0" "DECIMATION" (10, 0) (10, 0) (10, 0) 0;
   mk_macros "FILT_CH0" "SHIFT" (3, 16) (3, 16) (3, 16) 16;
   mk_macros "FILT_CH1" "DECIMATION" (10, 0) (10, 0) (10, 0) 0;
   mk_macros "FILT_CH1" "SHIFT" (3, 16) (3, 16) (3, 16) 16]%string.
Definition I2S1_HEADER : header :=
  mk_header (I2S1_OFFSETS) (I2S1_FIELDS_0 ++ I2S1_FIELDS_1)
    (I2S1_UNIONS) I2S1_STRUCT (I2S1_MACROS_0 ++ I2S1_MACROS_1).

Definition UDMA_I2S_RX_SADDR_CH0_OFFSET : Z := 0x0.
Definition UDMA_I2S_RX_SIZE_CH0_OFFSET : Z := 0x4.
Definition UDMA_I2S_RX_CFG_CH0_OFFSET : Z := 0x8.
Definition UDMA_I2S_RX_SADDR_CH1_OFFSET : Z := 0x10.
Definition UDMA_I2S_RX_SIZE_CH1_OFFSET : Z := 0x14.
Definition UDMA_I2S_RX_CFG_CH1_OFFSET : Z := 0x18.
Definition UDMA_I2S_CFG_EXT_OFFSET : Z := 0x20.
Definition UDMA_I2S_CFG_CLKGEN0_OFFSET : Z := 0x24.
Definition UDMA_I2S_CFG_CLKGEN1_OFFSET : Z := 0x28.
Definition UDMA_I2S_CHMODE_OFFSET : Z := 0x2c.
Definition UDMA_I2S_FILT_CH0_OFFSET : Z := 0x30.
Definition UDMA_I2S_FILT_CH1_OFFSET : Z := 0x34.

Definition udma_i2s_rx_saddr_ch0_get (base : Z) : M soc Z := ARCHI_READ base UDMA_I2S_RX_SADDR_CH0_OFFSET.
Definition udma_i2s_rx_saddr_ch0_set (base value : Z) : M soc unit := ARCHI_WRITE base UDMA_I2S_RX_SADDR_CH0_OFFSET value.
Definition udma_i2s_rx_size_ch0_get (base : Z) : M soc Z := ARCHI_READ base UDMA_I2S_RX_SIZE_CH0_OFFSET.
Definition udma_i2s_rx_size_ch0_set (base value : Z) : M soc unit := ARCHI_WRITE base UDMA_I2S_RX_SIZE_CH0_OFFSET value.
Definition udma_i2s_rx_cfg_ch0_get (base : Z) : M soc Z := ARCHI_READ base UDMA_I2S_RX_CFG_CH0_OFFSET.
Definition udma_i2s_rx_cfg_ch0_set (base value : Z) : M soc unit := ARCHI_WRITE base UDMA_I2S_RX_CFG_CH0_OFFSET value.
Definition udma_i2s_rx_saddr_ch1_get (base : Z) : M soc Z := ARCHI_READ base UDMA_I2S_RX_SADDR_CH1_OFFSET.
Definition udma_i2s_rx_saddr_ch1_set (base value : Z) : M soc unit := ARCHI_WRITE base UDMA_I2S_RX_SADDR_CH1_OFFSET value.
Definition udma_i2s_rx_size_ch1_get (base : Z) : M soc Z := ARCHI_READ base UDMA_I2S_RX_SIZE_CH1_OFFSET.
Definition udma_i2s_rx_size_ch1_set (base value : Z) : M soc unit := ARCHI_WRITE base UDMA_I2S_RX_SIZE_CH1_OFFSET value.
Definition udma_i2s_rx_cfg_ch1_get (base : Z) : M soc Z := ARCHI_READ base UDMA_I2S_RX_CFG_CH1_OFFSET.
Definition udma_i2s_rx_cfg_ch1_set (base value : Z) : M soc unit := ARCHI_WRITE base UDMA_I2S_RX_CFG_CH1_OFFSET value.
Definition udma_i2s_cfg_ext_get (base : Z) : M soc Z := ARCHI_READ base UDMA_I2S_CFG_EXT_OFFSET.
Definition udma_i2s_cfg_ext_set (base value : Z) : M soc unit := ARCHI_WRITE base UDMA_I2S_CFG_EXT_OFFSET value.
Definition udma_i2s_cfg_clkgen0_get (base : Z) : M soc Z := ARCHI_READ base UDMA_I2S_CFG_CLKGEN0_OFFSET.
Definition udma_i2s_cfg_clkgen0_set (base value : Z) : M soc unit := ARCHI_WRITE base UDMA_I2S_CFG_CLKGEN0_OFFSET value.
Definition udma_i2s_cfg_clkgen1_get (base : Z) : M soc Z := ARCHI_READ base UDMA_I2S_CFG_CLKGEN1_OFFSET.
Definition udma_i2s_cfg_clkgen1_set (base value : Z) : M soc unit := ARCHI_WRITE base UDMA_I2S_CFG_CLKGEN1_OFFSET value.
Definition udma_i2s_chmode_get (base : Z) : M soc Z := ARCHI_READ base UDMA_I2S_CHMODE_OFFSET.
Definition udma_i2s_chmode_set (base value : Z) : M soc unit := ARCHI_WRITE base UDMA_I2S_CHMODE_OFFSET value.
Definition udma_i2s_filt_ch0_get (base : Z) : M soc Z := ARCHI_READ base UDMA_I2S_FILT_CH0_OFFSET.
Definition udma_i2s_filt_ch0_set (base value : Z) : M soc unit := ARCHI_WRITE base UDMA_I2S_FILT_CH0_OFFSET value.
Definition udma_i2s_filt_ch1_get (base : Z) : M soc Z := ARCHI_READ base UDMA_I2S_FILT_CH1_OFFSET.
Definition udma_i2s_filt_ch1_set (base value : Z) : M soc unit := ARCHI_WRITE base UDMA_I2S_FILT_CH1_OFFSET value.

(** * Theorems *)

(** The struct puts 9 registers elsewhere than their offsets do. 9 fields overlap
    another one or are not where the bit-field member is, or outside the word. *)
Lemma I2S1_report : header_sound_but I2S1_HEADER
  (drop 3 (map fst I2S1_OFFSETS))
  [("RX_CFG_CH0", "CLR"); ("RX_CFG_CH0", "PENDING"); ("RX_CFG_CH1", "CLR"); ("RX_CFG_CH1", "PENDING");
   ("CHMODE", "CH1_LSB_FIRST"); ("CHMODE", "CH1_PDM_USEFILTER"); ("CHMODE", "CH1_PDM_EN");
   ("CHMODE", "CH1_USEDDR"); ("CHMODE", "CH1_MODE")]%string.
Proof. apply header_but; vm_compute; reflexivity. Qed.
#[export] Hint Resolve I2S1_report : registers.
