(* ===== verification/UdmaI2sV3.v ===== *)
(** * UdmaI2sV3: the registers of the I2S channel of the uDMA, version 3

    The tables of boot_code/include/archi/udma/i2s/v3/, and the accessors as programs over the
    platform of Pulp.  No build of this repository includes the header; the classes
    of the simulator (__GVSOC__) are not modelled. *)

From S2P Require Import Prelude Monad Builtins Regs Pulp.

Definition I2S3_OFFSETS : list (string * Z) :=
  [("I2S_RX_SADDR", 0x0); ("I2S_RX_SIZE", 0x4); ("I2S_RX_CFG", 0x8); ("I2S_RX_INITCFG", 0xc);
   ("I2S_TX_SADDR", 0x10); ("I2S_TX_SIZE", 0x14); ("I2S_TX_CFG", 0x18); ("I2S_TX_INITCFG", 0x1c);
   ("I2S_CLKCFG_SETUP", 0x20); ("I2S_SLV_SETUP", 0x24); ("I2S_MST_SETUP", 0x28); ("I2S_PDM_SETUP", 0x2c)]%string.
Definition I2S3_FIELDS_0 : list field :=
  [mk_field "I2S_RX_SADDR" "RX_SADDR" 0 16 0xffff; mk_field "I2S_RX_SIZE" "RX_SIZE" 0 17 0x1ffff;
   mk_field "I2S_RX_CFG" "CONTINOUS" 0 1 0x1; mk_field "I2S_RX_CFG" "DATASIZE" 1 2 0x6;
   mk_field "I2S_RX_CFG" "EN" 4 1 0x10; mk_field "I2S_RX_CFG" "CLR" 5 1 0x20;
   mk_field "I2S_RX_CFG" "PENDING" 5 1 0x20; mk_field "I2S_TX_SADDR" "TX_SADDR" 0 16 0xffff;
   mk_field "I2S_TX_SIZE" "TX_SIZE" 0 17 0x1ffff; mk_field "I2S_TX_CFG" "CONTINOUS" 0 1 0x1;
   mk_field "I2S_TX_CFG" "DATASIZE" 1 2 0x6; mk_field "I2S_TX_CFG" "EN" 4 1 0x10;
   mk_field "I2S_TX_CFG" "CLR" 5 1 0x20; mk_field "I2S_TX_CFG" "PENDING" 5 1 0x20;
   mk_field "I2S_CLKCFG_SETUP" "MASTER_CLK_DIV" 0 8 0xff; mk_field "I2S_CLKCFG_SETUP" "SLAVE_CLK_DIV" 8 8 0xff00;
   mk_field "I2S_CLKCFG_SETUP" "COMMON_CLK_DIV" 16 8 0xff0000;
   mk_field "I2S_CLKCFG_SETUP" "SLAVE_CLK_EN" 24 1 0x1000000;
   mk_field "I2S_CLKCFG_SETUP" "MASTER_CLK_EN" 25 1 0x2000000;
   mk_field "I2S_CLKCFG_SETUP" "PDM_CLK_EN" 26 1 0x4000000;
   mk_field "I2S_CLKCFG_SETUP" "SLAVE_EXT" 28 1 0x10000000;
   mk_field "I2S_CLKCFG_SETUP" "SLAVE_NUM" 29 1 0x20000000;
   mk_field "I2S_CLKCFG_SETUP" "MASTER_EXT" 30 1 0x40000000;
   mk_field "I2S_CLKCFG_SETUP" "MASTER_NUM" 31 1 0x80000000; mk_field "I2S_SLV_SETUP" "SLAVE_WORDS" 0 3 0x7;
   mk_field "I2S_SLV_SETUP" "SLAVE_BITS" 8 5 0x1f00; mk_field "I2S_SLV_SETUP" "SLAVE_LSB" 16 1 0x10000;
   mk_field "I2S_SLV_SETUP" "SLAVE_2CH" 17 1 0x20000; mk_field "I2S_SLV_SETUP" "SLAVE_EN" 31 1 0x80000000;
   mk_field "I2S_MST_SETUP" "MASTER_WORDS" 0 3 0x7]%string.
Definition I2S3_FIELDS_1 : list field :=
  [mk_field "I2S_MST_SETUP" "MASTER_BITS" 8 5 0x1f00; mk_field "I2S_MST_SETUP" "MASTER_LSB" 16 1 0x10000;
   mk_field "I2S_MST_SETUP" "MASTER_2CH" 17 1 0x20000; mk_field "I2S_MST_SETUP" "MASTER_EN" 31 1 0x80000000;
   mk_field "I2S_PDM_SETUP" "PDM_SHIFT" 0 3 0x7; mk_field "I2S_PDM_SETUP" "PDM_DECIMATION" 3 10 0x1ff8;
   mk_field "I2S_PDM_SETUP" "PDM_MODE" 13 2 0x6000; mk_field "I2S_PDM_SETUP" "PDM_EN" 31 1 0x80000000]%string.
Definition I2S3_UNIONS : list union :=
  [mk_union "i2s_rx_saddr" [("rx_saddr", 16)]; mk_union "i2s_rx_size" [("rx_size", 17)];
   mk_union "i2s_rx_cfg" [("continous", 1); ("datasize", 2); ("padding0", 1); ("en", 1); ("clr", 1); ("pending", 1)];
   mk_union "i2s_rx_initcfg" []; mk_union "i2s_tx_saddr" [("tx_saddr", 16)];
   mk_union "i2s_tx_size" [("tx_size", 17)];
   mk_union "i2s_tx_cfg" [("continous", 1); ("datasize", 2); ("padding0", 1); ("en", 1); ("clr", 1); ("pending", 1)];
   mk_union "i2s_tx_initcfg" [];
   mk_union "i2s_clkcfg_setup" [("master_clk_div", 8); ("slave_clk_div", 8); ("common_clk_div", 8); ("slave_clk_en", 1); ("master_clk_en", 1); ("pdm_clk_en", 1); ("padding0", 1); ("slave_ext", 1); ("slave_num", 1); ("master_ext", 1); ("master_num", 1)];
   mk_union "i2s_slv_setup" [("slave_words", 3); ("padding0", 5); ("slave_bits", 5); ("padding1", 3); ("slave_lsb", 1); ("slave_2ch", 1); ("padding2", 13); ("slave_en", 1)];
   mk_union "i2s_mst_setup" [("master_words", 3); ("padding0", 5); ("master_bits", 5); ("padding1", 3); ("master_lsb", 1); ("master_2ch", 1); ("padding2", 13); ("master_en", 1)];
   mk_union "i2s_pdm_setup" [("pdm_shift", 3); ("pdm_decimation", 10); ("pdm_mode", 2); ("padding0", 16); ("pdm_en", 1)]]%string.
Definition I2S3_STRUCT : list string :=
  ["i2s_rx_saddr"; "i2s_rx_size"; "i2s_rx_cfg"; "i2s_rx_initcfg"; "i2s_tx_saddr"; "i2s_tx_size"; "i2s_tx_cfg";
   "i2s_tx_initcfg"; "i2s_clkcfg_setup"; "i2s_slv_setup"; "i2s_mst_setup"; "i2s_pdm_setup"]%string.
Definition I2S3_MACROS_0 : list macros :=
  [mk_macros "I2S_RX_SADDR" "RX_SADDR" (16, 0) (16, 0) (16, 0) 0;
   mk_macros "I2S_RX_SIZE" "RX_SIZE" (17, 0) (17, 0) (17, 0) 0;
   mk_macros "I2S_RX_CFG" "CONTINOUS" (1, 0) (1, 0) (1, 0) 0;
   mk_macros "I2S_RX_CFG" "DATASIZE" (2, 1) (2, 1) (2, 1) 1; mk_macros "I2S_RX_CFG" "EN" (1, 4) (1, 4) (1, 4) 4;
   mk_macros "I2S_RX_CFG" "CLR" (1, 5) (1, 5) (1, 5) 5; mk_macros "I2S_RX_CFG" "PENDING" (1, 5) (1, 5) (1, 5) 5;
   mk_macros "I2S_TX_SADDR" "TX_SADDR" (16, 0) (16, 0) (16, 0) 0;
   mk_macros "I2S_TX_SIZE" "TX_SIZE" (17, 0) (17, 0) (17, 0) 0;
   mk_macros "I2S_TX_CFG" "CONTINOUS" (1, 0) (1, 0) (1, 0) 0;
   mk_macros "I2S_TX_CFG" "DATASIZE" (2, 1) (2, 1) (2, 1) 1; mk_macros "I2S_TX_CFG" "EN" (1, 4) (1, 4) (1, 4) 4;
   mk_macros "I2S_TX_CFG" "CLR" (1, 5) (1, 5) (1, 5) 5; mk_macros "I2S_TX_CFG" "PENDING" (1, 5) (1, 5) (1, 5) 5;
   mk_macros "I2S_CLKCFG_SETUP" "MASTER_CLK_DIV" (8, 0) (8, 0) (8, 0) 0;
   mk_macros "I2S_CLKCFG_SETUP" "SLAVE_CLK_DIV" (8, 8) (8, 8) (8, 8) 8;
   mk_macros "I2S_CLKCFG_SETUP" "COMMON_CLK_DIV" (8, 16) (8, 16) (8, 16) 16;
   mk_macros "I2S_CLKCFG_SETUP" "SLAVE_CLK_EN" (1, 24) (1, 24) (1, 24) 24;
   mk_macros "I2S_CLKCFG_SETUP" "MASTER_CLK_EN" (1, 25) (1, 25) (1, 25) 25;
   mk_macros "I2S_CLKCFG_SETUP" "PDM_CLK_EN" (1, 26) (1, 26) (1, 26) 26;
   mk_macros "I2S_CLKCFG_SETUP" "SLAVE_EXT" (1, 28) (1, 28) (1, 28) 28;
   mk_macros "I2S_CLKCFG_SETUP" "SLAVE_NUM" (1, 29) (1, 29) (1, 29) 29;
   mk_macros "I2S_CLKCFG_SETUP" "MASTER_EXT" (1, 30) (1, 30) (1, 30) 30;
   mk_macros "I2S_CLKCFG_SETUP" "MASTER_NUM" (1, 31) (1, 31) (1, 31) 31;
   mk_macros "I2S_SLV_SETUP" "SLAVE_WORDS" (3, 0) (3, 0) (3, 0) 0;
   mk_macros "I2S_SLV_SETUP" "SLAVE_BITS" (5, 8) (5, 8) (5, 8) 8;
   mk_macros "I2S_SLV_SETUP" "SLAVE_LSB" (1, 16) (1, 16) (1, 16) 16;
   mk_macros "I2S_SLV_SETUP" "SLAVE_2CH" (1, 17) (1, 17) (1, 17) 17;
   mk_macros "I2S_SLV_SETUP" "SLAVE_EN" (1, 31) (1, 31) (1, 31) 31;
   mk_macros "I2S_MST_SETUP" "MASTER_WORDS" (3, 0) (3, 0) (3, 0) 0]%string.
Definition I2S3_MACROS_1 : list macros :=
  [mk_macros "I2S_MST_SETUP" "MASTER_BITS" (5, 8) (5, 8) (5, 8) 8;
   mk_macros "I2S_MST_SETUP" "MASTER_LSB" (1, 16) (1, 16) (1, 16) 16;
   mk_macros "I2S_MST_SETUP" "MASTER_2CH" (1, 17) (1, 17) (1, 17) 17;
   mk_macros "I2S_MST_SETUP" "MASTER_EN" (1, 31) (1, 31) (1, 31) 31;
   mk_macros "I2S_PDM_SETUP" "PDM_SHIFT" (3, 0) (3, 0) (3, 0) 0;
   mk_macros "I2S_PDM_SETUP" "PDM_DECIMATION" (10, 3) (10, 3) (10, 3) 3;
   mk_macros "I2S_PDM_SETUP" "PDM_MODE" (2, 13) (2, 13) (2, 13) 13;
   mk_macros "I2S_PDM_SETUP" "PDM_EN" (1, 31) (1, 31) (1, 31) 31]%string.
Definition I2S3_HEADER : header :=
  mk_header (I2S3_OFFSETS) (I2S3_FIELDS_0 ++ I2S3_FIELDS_1)
    (I2S3_UNIONS) I2S3_STRUCT (I2S3_MACROS_0 ++ I2S3_MACROS_1).

Definition UDMA_I2S_I2S_RX_SADDR_OFFSET : Z := 0x0.
Definition UDMA_I2S_I2S_RX_SIZE_OFFSET : Z := 0x4.
Definition UDMA_I2S_I2S_RX_CFG_OFFSET : Z := 0x8.
Definition UDMA_I2S_I2S_RX_INITCFG_OFFSET : Z := 0xc.
Definition UDMA_I2S_I2S_TX_SADDR_OFFSET : Z := 0x10.
Definition UDMA_I2S_I2S_TX_SIZE_OFFSET : Z := 0x14.
Definition UDMA_I2S_I2S_TX_CFG_OFFSET : Z := 0x18.
Definition UDMA_I2S_I2S_TX_INITCFG_OFFSET : Z := 0x1c.
Definition UDMA_I2S_I2S_CLKCFG_SETUP_OFFSET : Z := 0x20.
Definition UDMA_I2S_I2S_SLV_SETUP_OFFSET : Z := 0x24.
Definition UDMA_I2S_I2S_MST_SETUP_OFFSET : Z := 0x28.
Definition UDMA_I2S_I2S_PDM_SETUP_OFFSET : Z := 0x2c.

Definition udma_i2s_i2s_rx_saddr_get (base : Z) : M soc Z := ARCHI_READ base UDMA_I2S_I2S_RX_SADDR_OFFSET.
Definition udma_i2s_i2s_rx_saddr_set (base value : Z) : M soc unit := ARCHI_WRITE base UDMA_I2S_I2S_RX_SADDR_OFFSET value.
Definition udma_i2s_i2s_rx_size_get (base : Z) : M soc Z := ARCHI_READ base UDMA_I2S_I2S_RX_SIZE_OFFSET.
Definition udma_i2s_i2s_rx_size_set (base value : Z) : M soc unit := ARCHI_WRITE base UDMA_I2S_I2S_RX_SIZE_OFFSET value.
Definition udma_i2s_i2s_rx_cfg_get (base : Z) : M soc Z := ARCHI_READ base UDMA_I2S_I2S_RX_CFG_OFFSET.
Definition udma_i2s_i2s_rx_cfg_set (base value : Z) : M soc unit := ARCHI_WRITE base UDMA_I2S_I2S_RX_CFG_OFFSET value.
Definition udma_i2s_i2s_rx_initcfg_get (base : Z) : M soc Z := ARCHI_READ base UDMA_I2S_I2S_RX_INITCFG_OFFSET.
Definition udma_i2s_i2s_rx_initcfg_set (base value : Z) : M soc unit := ARCHI_WRITE base UDMA_I2S_I2S_RX_INITCFG_OFFSET value.
Definition udma_i2s_i2s_tx_saddr_get (base : Z) : M soc Z := ARCHI_READ base UDMA_I2S_I2S_TX_SADDR_OFFSET.
Definition udma_i2s_i2s_tx_saddr_set (base value : Z) : M soc unit := ARCHI_WRITE base UDMA_I2S_I2S_TX_SADDR_OFFSET value.
Definition udma_i2s_i2s_tx_size_get (base : Z) : M soc Z := ARCHI_READ base UDMA_I2S_I2S_TX_SIZE_OFFSET.
Definition udma_i2s_i2s_tx_size_set (base value : Z) : M soc unit := ARCHI_WRITE base UDMA_I2S_I2S_TX_SIZE_OFFSET value.
Definition udma_i2s_i2s_tx_cfg_get (base : Z) : M soc Z := ARCHI_READ base UDMA_I2S_I2S_TX_CFG_OFFSET.
Definition udma_i2s_i2s_tx_cfg_set (base value : Z) : M soc unit := ARCHI_WRITE base UDMA_I2S_I2S_TX_CFG_OFFSET value.
Definition udma_i2s_i2s_tx_initcfg_get (base : Z) : M soc Z := ARCHI_READ base UDMA_I2S_I2S_TX_INITCFG_OFFSET.
Definition udma_i2s_i2s_tx_initcfg_set (base value : Z) : M soc unit := ARCHI_WRITE base UDMA_I2S_I2S_TX_INITCFG_OFFSET value.
Definition udma_i2s_i2s_clkcfg_setup_get (base : Z) : M soc Z := ARCHI_READ base UDMA_I2S_I2S_CLKCFG_SETUP_OFFSET.
Definition udma_i2s_i2s_clkcfg_setup_set (base value : Z) : M soc unit := ARCHI_WRITE base UDMA_I2S_I2S_CLKCFG_SETUP_OFFSET value.
Definition udma_i2s_i2s_slv_setup_get (base : Z) : M soc Z := ARCHI_READ base UDMA_I2S_I2S_SLV_SETUP_OFFSET.
Definition udma_i2s_i2s_slv_setup_set (base value : Z) : M soc unit := ARCHI_WRITE base UDMA_I2S_I2S_SLV_SETUP_OFFSET value.
Definition udma_i2s_i2s_mst_setup_get (base : Z) : M soc Z := ARCHI_READ base UDMA_I2S_I2S_MST_SETUP_OFFSET.
Definition udma_i2s_i2s_mst_setup_set (base value : Z) : M soc unit := ARCHI_WRITE base UDMA_I2S_I2S_MST_SETUP_OFFSET value.
Definition udma_i2s_i2s_pdm_setup_get (base : Z) : M soc Z := ARCHI_READ base UDMA_I2S_I2S_PDM_SETUP_OFFSET.
Definition udma_i2s_i2s_pdm_setup_set (base value : Z) : M soc unit := ARCHI_WRITE base UDMA_I2S_I2S_PDM_SETUP_OFFSET value.

(** * Theorems *)

(** 4 fields overlap another one or are not where the bit-field member is, or outside
    the word. *)
Lemma I2S3_report : header_sound_but I2S3_HEADER
  []
  [("I2S_RX_CFG", "CLR"); ("I2S_RX_CFG", "PENDING"); ("I2S_TX_CFG", "CLR"); ("I2S_TX_CFG", "PENDING")]%string.
Proof. apply header_but; vm_compute; reflexivity. Qed.
#[export] Hint Resolve I2S3_report : registers.
