(* ===== verification/UdmaMemcpy.v ===== *)
(** * UdmaMemcpy: the registers of the memory copy channel of the uDMA

    The tables of boot_code/include/archi/udma/memcpy/v1/, and the accessors as programs over the
    platform of Pulp.  No build of this repository includes the header; the classes
    of the simulator (__GVSOC__) are not modelled. *)

From S2P Require Import Prelude Monad Builtins Regs Pulp.

Definition MEMCPY_OFFSETS : list (string * Z) :=
  [("RX_SADDR", 0x0); ("RX_SIZE", 0x4); ("RX_CFG", 0x8); ("TX_SADDR", 0x10); ("TX_SIZE", 0x14); ("TX_CFG", 0x18);
   ("DST_ADDR", 0x20); ("SRC_ADDR", 0x24); ("MEM_SEL", 0x28)]%string.
Definition MEMCPY_FIELDS : list field :=
  [mk_field "RX_SADDR" "RX_SADDR" 0 16 0xffff; mk_field "RX_SIZE" "RX_SIZE" 0 17 0x1ffff;
   mk_field "RX_CFG" "CONTINOUS" 0 1 0x1; mk_field "RX_CFG" "EN" 4 1 0x10; mk_field "RX_CFG" "CLR" 5 1 0x20;
   mk_field "RX_CFG" "PENDING" 5 1 0x20; mk_field "TX_SADDR" "TX_SADDR" 0 16 0xffff;
   mk_field "TX_SIZE" "TX_SIZE" 0 17 0x1ffff; mk_field "TX_CFG" "CONTINOUS" 0 1 0x1;
   mk_field "TX_CFG" "EN" 4 1 0x10; mk_field "TX_CFG" "CLR" 5 1 0x20; mk_field "TX_CFG" "PENDING" 5 1 0x20;
   mk_field "DST_ADDR" "DST_ADDR" 0 17 0x1ffff; mk_field "SRC_ADDR" "SRC_ADDR" 0 17 0x1ffff;
   mk_field "MEM_SEL" "MEM_SEL" 0 1 0x1]%string.
Definition MEMCPY_UNIONS : list union :=
  [mk_union "rx_saddr" [("rx_saddr", 16)]; mk_union "rx_size" [("rx_size", 17)];
   mk_union "rx_cfg" [("continous", 1); ("padding0", 3); ("en", 1); ("clr", 1); ("pending", 1)];
   mk_union "tx_saddr" [("tx_saddr", 16)]; mk_union "tx_size" [("tx_size", 17)];
   mk_union "tx_cfg" [("continous", 1); ("padding0", 3); ("en", 1); ("clr", 1); ("pending", 1)];
   mk_union "dst_addr" [("dst_addr", 17)]; mk_union "src_addr" [("src_addr", 17)];
   mk_union "mem_sel" [("mem_sel", 1)]]%string.
Definition MEMCPY_STRUCT : list string :=
  ["rx_saddr"; "rx_size"; "rx_cfg"; "tx_saddr"; "tx_size"; "tx_cfg"; "dst_addr"; "src_addr"; "mem_sel"]%string.
Definition MEMCPY_MACROS : list macros :=
  [mk_macros "RX_SADDR" "RX_SADDR" (16, 0) (16, 0) (16, 0) 0;
   mk_macros "RX_SIZE" "RX_SIZE" (17, 0) (17, 0) (17, 0) 0; mk_macros "RX_CFG" "CONTINOUS" (1, 0) (1, 0) (1, 0) 0;
   mk_macros "RX_CFG" "EN" (1, 4) (1, 4) (1, 4) 4; mk_macros "RX_CFG" "CLR" (1, 5) (1, 5) (1, 5) 5;
   mk_macros "RX_CFG" "PENDING" (1, 5) (1, 5) (1, 5) 5; mk_macros "TX_SADDR" "TX_SADDR" (16, 0) (16, 0) (16, 0) 0;
   mk_macros "TX_SIZE" "TX_SIZE" (17, 0) (17, 0) (17, 0) 0; mk_macros "TX_CFG" "CONTINOUS" (1, 0) (1, 0) (1, 0) 0;
   mk_macros "TX_CFG" "EN" (1, 4) (1, 4) (1, 4) 4; mk_macros "TX_CFG" "CLR" (1, 5) (1, 5) (1, 5) 5;
   mk_macros "TX_CFG" "PENDING" (1, 5) (1, 5) (1, 5) 5; mk_macros "DST_ADDR" "DST_ADDR" (17, 0) (17, 0) (17, 0) 0;
   mk_macros "SRC_ADDR" "SRC_ADDR" (17, 0) (17, 0) (17, 0) 0; mk_macros "MEM_SEL" "MEM_SEL" (1, 0) (1, 0) (1, 0) 0]%string.
Definition MEMCPY_HEADER : header :=
  mk_header (MEMCPY_OFFSETS) (MEMCPY_FIELDS)
    (MEMCPY_UNIONS) MEMCPY_STRUCT (MEMCPY_MACROS).

Definition UDMA_MEMCPY_RX_SADDR_OFFSET : Z := 0x0.
Definition UDMA_MEMCPY_RX_SIZE_OFFSET : Z := 0x4.
Definition UDMA_MEMCPY_RX_CFG_OFFSET : Z := 0x8.
Definition UDMA_MEMCPY_TX_SADDR_OFFSET : Z := 0x10.
Definition UDMA_MEMCPY_TX_SIZE_OFFSET : Z := 0x14.
Definition UDMA_MEMCPY_TX_CFG_OFFSET : Z := 0x18.
Definition UDMA_MEMCPY_DST_ADDR_OFFSET : Z := 0x20.
Definition UDMA_MEMCPY_SRC_ADDR_OFFSET : Z := 0x24.
Definition UDMA_MEMCPY_MEM_SEL_OFFSET : Z := 0x28.

Definition udma_memcpy_rx_saddr_get (base : Z) : M soc Z := ARCHI_READ base UDMA_MEMCPY_RX_SADDR_OFFSET.
Definition udma_memcpy_rx_saddr_set (base value : Z) : M soc unit := ARCHI_WRITE base UDMA_MEMCPY_RX_SADDR_OFFSET value.
Definition udma_memcpy_rx_size_get (base : Z) : M soc Z := ARCHI_READ base UDMA_MEMCPY_RX_SIZE_OFFSET.
Definition udma_memcpy_rx_size_set (base value : Z) : M soc unit := ARCHI_WRITE base UDMA_MEMCPY_RX_SIZE_OFFSET value.
Definition udma_memcpy_rx_cfg_get (base : Z) : M soc Z := ARCHI_READ base UDMA_MEMCPY_RX_CFG_OFFSET.
Definition udma_memcpy_rx_cfg_set (base value : Z) : M soc unit := ARCHI_WRITE base UDMA_MEMCPY_RX_CFG_OFFSET value.
Definition udma_memcpy_tx_saddr_get (base : Z) : M soc Z := ARCHI_READ base UDMA_MEMCPY_TX_SADDR_OFFSET.
Definition udma_memcpy_tx_saddr_set (base value : Z) : M soc unit := ARCHI_WRITE base UDMA_MEMCPY_TX_SADDR_OFFSET value.
Definition udma_memcpy_tx_size_get (base : Z) : M soc Z := ARCHI_READ base UDMA_MEMCPY_TX_SIZE_OFFSET.
Definition udma_memcpy_tx_size_set (base value : Z) : M soc unit := ARCHI_WRITE base UDMA_MEMCPY_TX_SIZE_OFFSET value.
Definition udma_memcpy_tx_cfg_get (base : Z) : M soc Z := ARCHI_READ base UDMA_MEMCPY_TX_CFG_OFFSET.
Definition udma_memcpy_tx_cfg_set (base value : Z) : M soc unit := ARCHI_WRITE base UDMA_MEMCPY_TX_CFG_OFFSET value.
Definition udma_memcpy_dst_addr_get (base : Z) : M soc Z := ARCHI_READ base UDMA_MEMCPY_DST_ADDR_OFFSET.
Definition udma_memcpy_dst_addr_set (base value : Z) : M soc unit := ARCHI_WRITE base UDMA_MEMCPY_DST_ADDR_OFFSET value.
Definition udma_memcpy_src_addr_get (base : Z) : M soc Z := ARCHI_READ base UDMA_MEMCPY_SRC_ADDR_OFFSET.
Definition udma_memcpy_src_addr_set (base value : Z) : M soc unit := ARCHI_WRITE base UDMA_MEMCPY_SRC_ADDR_OFFSET value.
Definition udma_memcpy_mem_sel_get (base : Z) : M soc Z := ARCHI_READ base UDMA_MEMCPY_MEM_SEL_OFFSET.
Definition udma_memcpy_mem_sel_set (base value : Z) : M soc unit := ARCHI_WRITE base UDMA_MEMCPY_MEM_SEL_OFFSET value.

(** * Theorems *)

(** The struct puts 6 registers elsewhere than their offsets do. 4 fields overlap
    another one or are not where the bit-field member is, or outside the word. *)
Lemma MEMCPY_report : header_sound_but MEMCPY_HEADER
  (drop 3 (map fst MEMCPY_OFFSETS))
  [("RX_CFG", "CLR"); ("RX_CFG", "PENDING"); ("TX_CFG", "CLR"); ("TX_CFG", "PENDING")]%string.
Proof. apply header_but; vm_compute; reflexivity. Qed.
#[export] Hint Resolve MEMCPY_report : registers.
