(* ===== verification/PwmV1.v ===== *)
(** * PwmV1: the registers of the PWM timers

    The tables of boot_code/include/archi/pwm/v1/, and the accessors as programs over the
    platform of Pulp.  No build of this repository includes the header; the classes
    of the simulator (__GVSOC__) are not modelled. *)

From S2P Require Import Prelude Monad Builtins Regs Pulp.

Definition PWM_OFFSETS : list (string * Z) :=
  [("T0_CMD", 0x0); ("T0_CONFIG", 0x4); ("T0_THRESHOLD", 0x8); ("T0_TH_CHANNEL0", 0xc); ("T0_TH_CHANNEL1", 0x10);
   ("T0_TH_CHANNEL2", 0x14); ("T0_TH_CHANNEL3", 0x18); ("T0_COUNTER", 0x2c); ("T1_CMD", 0x40); ("T1_CONFIG", 0x44);
   ("T1_THRESHOLD", 0x48); ("T1_TH_CHANNEL0", 0x4c); ("T1_TH_CHANNEL1", 0x50); ("T1_TH_CHANNEL2", 0x54);
   ("T1_TH_CHANNEL3", 0x58); ("T1_COUNTER", 0x6c); ("T2_CMD", 0x80); ("T2_CONFIG", 0x84); ("T2_THRESHOLD", 0x88);
   ("T2_TH_CHANNEL0", 0x8c); ("T2_TH_CHANNEL1", 0x90); ("T2_TH_CHANNEL2", 0x94); ("T2_TH_CHANNEL3", 0x98);
   ("T2_COUNTER", 0xac); ("T3_CMD", 0xc0); ("T3_CONFIG", 0xc4); ("T3_THRESHOLD", 0xc8); ("T3_TH_CHANNEL0", 0xcc);
   ("T3_TH_CHANNEL1", 0xd0); ("T3_TH_CHANNEL2", 0xd4); ("T3_TH_CHANNEL3", 0xd8); ("T3_COUNTER", 0xec);
   ("EVENT_CFG", 0x100); ("CG", 0x104)]%string.
Definition PWM_FIELDS_0 : list field :=
  [mk_field "T0_CMD" "START" 0 1 0x1; mk_field "T0_CMD" "STOP" 1 1 0x2; mk_field "T0_CMD" "UPDATE" 2 1 0x4;
   mk_field "T0_CMD" "RESET" 3 1 0x8; mk_field "T0_CMD" "ARM" 4 1 0x10; mk_field "T0_CONFIG" "INSEL" 0 8 0xff;
   mk_field "T0_CONFIG" "MODE" 8 3 0x700; mk_field "T0_CONFIG" "CLKSEL" 11 1 0x800;
   mk_field "T0_CONFIG" "UPDOWNSEL" 12 1 0x1000; mk_field "T0_CONFIG" "PRESC" 16 8 0xff0000;
   mk_field "T0_THRESHOLD" "TH_LO" 0 16 0xffff; mk_field "T0_THRESHOLD" "TH_HI" 16 16 0xffff0000;
   mk_field "T0_TH_CHANNEL0" "TH" 0 16 0xffff; mk_field "T0_TH_CHANNEL0" "MODE" 16 3 0x70000;
   mk_field "T0_TH_CHANNEL1" "TH" 0 16 0xffff; mk_field "T0_TH_CHANNEL1" "MODE" 16 3 0x70000;
   mk_field "T0_TH_CHANNEL2" "TH" 0 16 0xffff; mk_field "T0_TH_CHANNEL2" "MODE" 16 3 0x70000;
   mk_field "T0_TH_CHANNEL3" "TH" 0 16 0xffff; mk_field "T0_TH_CHANNEL3" "MODE" 16 3 0x70000;
   mk_field "T1_CMD" "START" 0 1 0x1; mk_field "T1_CMD" "STOP" 1 1 0x2; mk_field "T1_CMD" "UPDATE" 2 1 0x4;
   mk_field "T1_CMD" "RESET" 3 1 0x8; mk_field "T1_CMD" "ARM" 4 1 0x10; mk_field "T1_CONFIG" "INSEL" 0 8 0xff;
   mk_field "T1_CONFIG" "MODE" 8 3 0x700; mk_field "T1_CONFIG" "CLKSEL" 11 1 0x800;
   mk_field "T1_CONFIG" "UPDOWNSEL" 12 1 0x1000; mk_field "T1_CONFIG" "PRESC" 16 8 0xff0000]%string.
Definition PWM_FIELDS_1 : list field :=
  [mk_field "T1_THRESHOLD" "TH_LO" 0 16 0xffff; mk_field "T1_THRESHOLD" "TH_HI" 16 16 0xffff0000;
   mk_field "T1_TH_CHANNEL0" "TH" 0 16 0xffff; mk_field "T1_TH_CHANNEL0" "MODE" 16 3 0x70000;
   mk_field "T1_TH_CHANNEL1" "TH" 0 16 0xffff; mk_field "T1_TH_CHANNEL1" "MODE" 16 3 0x70000;
   mk_field "T1_TH_CHANNEL2" "TH" 0 16 0xffff; mk_field "T1_TH_CHANNEL2" "MODE" 16 3 0x70000;
   mk_field "T1_TH_CHANNEL3" "TH" 0 16 0xffff; mk_field "T1_TH_CHANNEL3" "MODE" 16 3 0x70000;
   mk_field "T2_CMD" "START" 0 1 0x1; mk_field "T2_CMD" "STOP" 1 1 0x2; mk_field "T2_CMD" "UPDATE" 2 1 0x4;
   mk_field "T2_CMD" "RESET" 3 1 0x8; mk_field "T2_CMD" "ARM" 4 1 0x10; mk_field "T2_CONFIG" "INSEL" 0 8 0xff;
   mk_field "T2_CONFIG" "MODE" 8 3 0x700; mk_field "T2_CONFIG" "CLKSEL" 11 1 0x800;
   mk_field "T2_CONFIG" "UPDOWNSEL" 12 1 0x1000; mk_field "T2_CONFIG" "PRESC" 16 8 0xff0000;
   mk_field "T2_THRESHOLD" "TH_LO" 0 16 0xffff; mk_field "T2_THRESHOLD" "TH_HI" 16 16 0xffff0000;
   mk_field "T2_TH_CHANNEL0" "TH" 0 16 0xffff; mk_field "T2_TH_CHANNEL0" "MODE" 16 3 0x70000;
   mk_field "T2_TH_CHANNEL1" "TH" 0 16 0xffff; mk_field "T2_TH_CHANNEL1" "MODE" 16 3 0x70000;
   mk_field "T2_TH_CHANNEL2" "TH" 0 16 0xffff; mk_field "T2_TH_CHANNEL2" "MODE" 16 3 0x70000;
   mk_field "T2_TH_CHANNEL3" "TH" 0 16 0xffff; mk_field "T2_TH_CHANNEL3" "MODE" 16 3 0x70000]%string.
Definition PWM_FIELDS_2 : list field :=
  [mk_field "T3_CMD" "START" 0 1 0x1; mk_field "T3_CMD" "STOP" 1 1 0x2; mk_field "T3_CMD" "UPDATE" 2 1 0x4;
   mk_field "T3_CMD" "RESET" 3 1 0x8; mk_field "T3_CMD" "ARM" 4 1 0x10; mk_field "T3_CONFIG" "INSEL" 0 8 0xff;
   mk_field "T3_CONFIG" "MODE" 8 3 0x700; mk_field "T3_CONFIG" "CLKSEL" 11 1 0x800;
   mk_field "T3_CONFIG" "UPDOWNSEL" 12 1 0x1000; mk_field "T3_CONFIG" "PRESC" 16 8 0xff0000;
   mk_field "T3_THRESHOLD" "TH_LO" 0 16 0xffff; mk_field "T3_THRESHOLD" "TH_HI" 16 16 0xffff0000;
   mk_field "T3_TH_CHANNEL0" "TH" 0 16 0xffff; mk_field "T3_TH_CHANNEL0" "MODE" 16 3 0x70000;
   mk_field "T3_TH_CHANNEL1" "TH" 0 16 0xffff; mk_field "T3_TH_CHANNEL1" "MODE" 16 3 0x70000;
   mk_field "T3_TH_CHANNEL2" "TH" 0 16 0xffff; mk_field "T3_TH_CHANNEL2" "MODE" 16 3 0x70000;
   mk_field "T3_TH_CHANNEL3" "TH" 0 16 0xffff; mk_field "T3_TH_CHANNEL3" "MODE" 16 3 0x70000;
   mk_field "EVENT_CFG" "SEL0" 0 4 0xf; mk_field "EVENT_CFG" "SEL1" 4 4 0xf0;
   mk_field "EVENT_CFG" "SEL2" 8 4 0xf00; mk_field "EVENT_CFG" "SEL3" 12 4 0xf000;
   mk_field "EVENT_CFG" "ENA" 16 4 0xf0000; mk_field "CG" "ENA" 0 16 0xffff]%string.
Definition PWM_UNIONS_0 : list union :=
  [mk_union "t0_cmd" [("start", 1); ("stop", 1); ("update", 1); ("reset", 1); ("arm", 1)];
   mk_union "t0_config" [("insel", 8); ("mode", 3); ("clksel", 1); ("updownsel", 1); ("padding0", 3); ("presc", 8)];
   mk_union "t0_threshold" [("th_lo", 16); ("th_hi", 16)]; mk_union "t0_th_channel0" [("th", 16); ("mode", 3)];
   mk_union "t0_th_channel1" [("th", 16); ("mode", 3)]; mk_union "t0_th_channel2" [("th", 16); ("mode", 3)];
   mk_union "t0_th_channel3" [("th", 16); ("mode", 3)]; mk_union "t0_counter" [];
   mk_union "t1_cmd" [("start", 1); ("stop", 1); ("update", 1); ("reset", 1); ("arm", 1)];
   mk_union "t1_config" [("insel", 8); ("mode", 3); ("clksel", 1); ("updownsel", 1); ("padding0", 3); ("presc", 8)];
   mk_union "t1_threshold" [("th_lo", 16); ("th_hi", 16)]; mk_union "t1_th_channel0" [("th", 16); ("mode", 3)];
   mk_union "t1_th_channel1" [("th", 16); ("mode", 3)]; mk_union "t1_th_channel2" [("th", 16); ("mode", 3)];
   mk_union "t1_th_channel3" [("th", 16); ("mode", 3)]; mk_union "t1_counter" [];
   mk_union "t2_cmd" [("start", 1); ("stop", 1); ("update", 1); ("reset", 1); ("arm", 1)]]%string.
Definition PWM_UNIONS_1 : list union :=
  [mk_union "t2_config" [("insel", 8); ("mode", 3); ("clksel", 1); ("updownsel", 1); ("padding0", 3); ("presc", 8)];
   mk_union "t2_threshold" [("th_lo", 16); ("th_hi", 16)]; mk_union "t2_th_channel0" [("th", 16); ("mode", 3)];
   mk_union "t2_th_channel1" [("th", 16); ("mode", 3)]; mk_union "t2_th_channel2" [("th", 16); ("mode", 3)];
   mk_union "t2_th_channel3" [("th", 16); ("mode", 3)]; mk_union "t2_counter" [];
   mk_union "t3_cmd" [("start", 1); ("stop", 1); ("update", 1); ("reset", 1); ("arm", 1)];
   mk_union "t3_config" [("insel", 8); ("mode", 3); ("clksel", 1); ("updownsel", 1); ("padding0", 3); ("presc", 8)];
   mk_union "t3_threshold" [("th_lo", 16); ("th_hi", 16)]; mk_union "t3_th_channel0" [("th", 16); ("mode", 3)];
   mk_union "t3_th_channel1" [("th", 16); ("mode", 3)]; mk_union "t3_th_channel2" [("th", 16); ("mode", 3)];
   mk_union "t3_th_channel3" [("th", 16); ("mode", 3)]; mk_union "t3_counter" [];
   mk_union "event_cfg" [("sel0", 4); ("sel1", 4); ("sel2", 4); ("sel3", 4); ("ena", 4)];
   mk_union "cg" [("ena", 16)]]%string.
Definition PWM_STRUCT : list string :=
  ["t0_cmd"; "t0_config"; "t0_threshold"; "t0_th_channel0"; "t0_th_channel1"; "t0_th_channel2"; "t0_th_channel3";
   "t0_counter"; "t1_cmd"; "t1_config"; "t1_threshold"; "t1_th_channel0"; "t1_th_channel1"; "t1_th_channel2";
   "t1_th_channel3"; "t1_counter"; "t2_cmd"; "t2_config"; "t2_threshold"; "t2_th_channel0"; "t2_th_channel1";
   "t2_th_channel2"; "t2_th_channel3"; "t2_counter"; "t3_cmd"; "t3_config"; "t3_threshold"; "t3_th_channel0";
   "t3_th_channel1"; "t3_th_channel2"; "t3_th_channel3"; "t3_counter"; "event_cfg"; "cg"]%string.
Definition PWM_MACROS_0 : list macros :=
  [mk_macros "T0_CMD" "START" (1, 0) (1, 0) (1, 0) 0; mk_macros "T0_CMD" "STOP" (1, 1) (1, 1) (1, 1) 1;
   mk_macros "T0_CMD" "UPDATE" (1, 2) (1, 2) (1, 2) 2; mk_macros "T0_CMD" "RESET" (1, 3) (1, 3) (1, 3) 3;
   mk_macros "T0_CMD" "ARM" (1, 4) (1, 4) (1, 4) 4; mk_macros "T0_CONFIG" "INSEL" (8, 0) (8, 0) (8, 0) 0;
   mk_macros "T0_CONFIG" "MODE" (3, 8) (3, 8) (3, 8) 8; mk_macros "T0_CONFIG" "CLKSEL" (1, 11) (1, 11) (1, 11) 11;
   mk_macros "T0_CONFIG" "UPDOWNSEL" (1, 12) (1, 12) (1, 12) 12;
   mk_macros "T0_CONFIG" "PRESC" (8, 16) (8, 16) (8, 16) 16;
   mk_macros "T0_THRESHOLD" "TH_LO" (16, 0) (16, 0) (16, 0) 0;
   mk_macros "T0_THRESHOLD" "TH_HI" (16, 16) (16, 16) (16, 16) 16;
   mk_macros "T0_TH_CHANNEL0" "TH" (16, 0) (16, 0) (16, 0) 0;
   mk_macros "T0_TH_CHANNEL0" "MODE" (3, 16) (3, 16) (3, 16) 16;
   mk_macros "T0_TH_CHANNEL1" "TH" (16, 0) (16, 0) (16, 0) 0;
   mk_macros "T0_TH_CHANNEL1" "MODE" (3, 16) (3, 16) (3, 16) 16;
   mk_macros "T0_TH_CHANNEL2" "TH" (16, 0) (16, 0) (16, 0) 0;
   mk_macros "T0_TH_CHANNEL2" "MODE" (3, 16) (3, 16) (3, 16) 16;
   mk_macros "T0_TH_CHANNEL3" "TH" (16, 0) (16, 0) (16, 0) 0;
   mk_macros "T0_TH_CHANNEL3" "MODE" (3, 16) (3, 16) (3, 16) 16; mk_macros "T1_CMD" "START" (1, 0) (1, 0) (1, 0) 0;
   mk_macros "T1_CMD" "STOP" (1, 1) (1, 1) (1, 1) 1; mk_macros "T1_CMD" "UPDATE" (1, 2) (1, 2) (1, 2) 2;
   mk_macros "T1_CMD" "RESET" (1, 3) (1, 3) (1, 3) 3; mk_macros "T1_CMD" "ARM" (1, 4) (1, 4) (1, 4) 4;
   mk_macros "T1_CONFIG" "INSEL" (8, 0) (8, 0) (8, 0) 0; mk_macros "T1_CONFIG" "MODE" (3, 8) (3, 8) (3, 8) 8;
   mk_macros "T1_CONFIG" "CLKSEL" (1, 11) (1, 11) (1, 11) 11;
   mk_macros "T1_CONFIG" "UPDOWNSEL" (1, 12) (1, 12) (1, 12) 12;
   mk_macros "T1_CONFIG" "PRESC" (8, 16) (8, 16) (8, 16) 16]%string.
Definition PWM_MACROS_1 : list macros :=
  [mk_macros "T1_THRESHOLD" "TH_LO" (16, 0) (16, 0) (16, 0) 0;
   mk_macros "T1_THRESHOLD" "TH_HI" (16, 16) (16, 16) (16, 16) 16;
   mk_macros "T1_TH_CHANNEL0" "TH" (16, 0) (16, 0) (16, 0) 0;
   mk_macros "T1_TH_CHANNEL0" "MODE" (3, 16) (3, 16) (3, 16) 16;
   mk_macros "T1_TH_CHANNEL1" "TH" (16, 0) (16, 0) (16, 0) 0;
   mk_macros "T1_TH_CHANNEL1" "MODE" (3, 16) (3, 16) (3, 16) 16;
   mk_macros "T1_TH_CHANNEL2" "TH" (16, 0) (16, 0) (16, 0) 0;
   mk_macros "T1_TH_CHANNEL2" "MODE" (3, 16) (3, 16) (3, 16) 16;
   mk_macros "T1_TH_CHANNEL3" "TH" (16, 0) (16, 0) (16, 0) 0;
   mk_macros "T1_TH_CHANNEL3" "MODE" (3, 16) (3, 16) (3, 16) 16; mk_macros "T2_CMD" "START" (1, 0) (1, 0) (1, 0) 0;
   mk_macros "T2_CMD" "STOP" (1, 1) (1, 1) (1, 1) 1; mk_macros "T2_CMD" "UPDATE" (1, 2) (1, 2) (1, 2) 2;
   mk_macros "T2_CMD" "RESET" (1, 3) (1, 3) (1, 3) 3; mk_macros "T2_CMD" "ARM" (1, 4) (1, 4) (1, 4) 4;
   mk_macros "T2_CONFIG" "INSEL" (8, 0) (8, 0) (8, 0) 0; mk_macros "T2_CONFIG" "MODE" (3, 8) (3, 8) (3, 8) 8;
   mk_macros "T2_CONFIG" "CLKSEL" (1, 11) (1, 11) (1, 11) 11;
   mk_macros "T2_CONFIG" "UPDOWNSEL" (1, 12) (1, 12) (1, 12) 12;
   mk_macros "T2_CONFIG" "PRESC" (8, 16) (8, 16) (8, 16) 16;
   mk_macros "T2_THRESHOLD" "TH_LO" (16, 0) (16, 0) (16, 0) 0;
   mk_macros "T2_THRESHOLD" "TH_HI" (16, 16) (16, 16) (16, 16) 16;
   mk_macros "T2_TH_CHANNEL0" "TH" (16, 0) (16, 0) (16, 0) 0;
   mk_macros "T2_TH_CHANNEL0" "MODE" (3, 16) (3, 16) (3, 16) 16;
   mk_macros "T2_TH_CHANNEL1" "TH" (16, 0) (16, 0) (16, 0) 0;
   mk_macros "T2_TH_CHANNEL1" "MODE" (3, 16) (3, 16) (3, 16) 16;
   mk_macros "T2_TH_CHANNEL2" "TH" (16, 0) (16, 0) (16, 0) 0;
   mk_macros "T2_TH_CHANNEL2" "MODE" (3, 16) (3, 16) (3, 16) 16;
   mk_macros "T2_TH_CHANNEL3" "TH" (16, 0) (16, 0) (16, 0) 0;
   mk_macros "T2_TH_CHANNEL3" "MODE" (3, 16) (3, 16) (3, 16) 16]%string.
Definition PWM_MACROS_2 : list macros :=
  [mk_macros "T3_CMD" "START" (1, 0) (1, 0) (1, 0) 0; mk_macros "T3_CMD" "STOP" (1, 1) (1, 1) (1, 1) 1;
   mk_macros "T3_CMD" "UPDATE" (1, 2) (1, 2) (1, 2) 2; mk_macros "T3_CMD" "RESET" (1, 3) (1, 3) (1, 3) 3;
   mk_macros "T3_CMD" "ARM" (1, 4) (1, 4) (1, 4) 4; mk_macros "T3_CONFIG" "INSEL" (8, 0) (8, 0) (8, 0) 0;
   mk_macros "T3_CONFIG" "MODE" (3, 8) (3, 8) (3, 8) 8; mk_macros "T3_CONFIG" "CLKSEL" (1, 11) (1, 11) (1, 11) 11;
   mk_macros "T3_CONFIG" "UPDOWNSEL" (1, 12) (1, 12) (1, 12) 12;
   mk_macros "T3_CONFIG" "PRESC" (8, 16) (8, 16) (8, 16) 16;
   mk_macros "T3_THRESHOLD" "TH_LO" (16, 0) (16, 0) (16, 0) 0;
   mk_macros "T3_THRESHOLD" "TH_HI" (16, 16) (16, 16) (16, 16) 16;
   mk_macros "T3_TH_CHANNEL0" "TH" (16, 0) (16, 0) (16, 0) 0;
   mk_macros "T3_TH_CHANNEL0" "MODE" (3, 16) (3, 16) (3, 16) 16;
   mk_macros "T3_TH_CHANNEL1" "TH" (16, 0) (16, 0) (16, 0) 0;
   mk_macros "T3_TH_CHANNEL1" "MODE" (3, 16) (3, 16) (3, 16) 16;
   mk_macros "T3_TH_CHANNEL2" "TH" (16, 0) (16, 0) (16, 0) 0;
   mk_macros "T3_TH_CHANNEL2" "MODE" (3, 16) (3, 16) (3, 16) 16;
   mk_macros "T3_TH_CHANNEL3" "TH" (16, 0) (16, 0) (16, 0) 0;
   mk_macros "T3_TH_CHANNEL3" "MODE" (3, 16) (3, 16) (3, 16) 16;
   mk_macros "EVENT_CFG" "SEL0" (4, 0) (4, 0) (4, 0) 0; mk_macros "EVENT_CFG" "SEL1" (4, 4) (4, 4) (4, 4) 4;
   mk_macros "EVENT_CFG" "SEL2" (4, 8) (4, 8) (4, 8) 8; mk_macros "EVENT_CFG" "SEL3" (4, 12) (4, 12) (4, 12) 12;
   mk_macros "EVENT_CFG" "ENA" (4, 16) (4, 16) (4, 16) 16; mk_macros "CG" "ENA" (16, 0) (16, 0) (16, 0) 0]%string.
Definition PWM_HEADER : header :=
  mk_header (PWM_OFFSETS) (PWM_FIELDS_0 ++ PWM_FIELDS_1 ++ PWM_FIELDS_2)
    (PWM_UNIONS_0 ++ PWM_UNIONS_1) PWM_STRUCT (PWM_MACROS_0 ++ PWM_MACROS_1 ++ PWM_MACROS_2).

Definition PWM_T0_CMD_OFFSET : Z := 0x0.
Definition PWM_T0_CONFIG_OFFSET : Z := 0x4.
Definition PWM_T0_THRESHOLD_OFFSET : Z := 0x8.
Definition PWM_T0_TH_CHANNEL0_OFFSET : Z := 0xc.
Definition PWM_T0_TH_CHANNEL1_OFFSET : Z := 0x10.
Definition PWM_T0_TH_CHANNEL2_OFFSET : Z := 0x14.
Definition PWM_T0_TH_CHANNEL3_OFFSET : Z := 0x18.
Definition PWM_T0_COUNTER_OFFSET : Z := 0x2c.
Definition PWM_T1_CMD_OFFSET : Z := 0x40.
Definition PWM_T1_CONFIG_OFFSET : Z := 0x44.
Definition PWM_T1_THRESHOLD_OFFSET : Z := 0x48.
Definition PWM_T1_TH_CHANNEL0_OFFSET : Z := 0x4c.
Definition PWM_T1_TH_CHANNEL1_OFFSET : Z := 0x50.
Definition PWM_T1_TH_CHANNEL2_OFFSET : Z := 0x54.
Definition PWM_T1_TH_CHANNEL3_OFFSET : Z := 0x58.
Definition PWM_T1_COUNTER_OFFSET : Z := 0x6c.
Definition PWM_T2_CMD_OFFSET : Z := 0x80.
Definition PWM_T2_CONFIG_OFFSET : Z := 0x84.
Definition PWM_T2_THRESHOLD_OFFSET : Z := 0x88.
Definition PWM_T2_TH_CHANNEL0_OFFSET : Z := 0x8c.
Definition PWM_T2_TH_CHANNEL1_OFFSET : Z := 0x90.
Definition PWM_T2_TH_CHANNEL2_OFFSET : Z := 0x94.
Definition PWM_T2_TH_CHANNEL3_OFFSET : Z := 0x98.
Definition PWM_T2_COUNTER_OFFSET : Z := 0xac.
Definition PWM_T3_CMD_OFFSET : Z := 0xc0.
Definition PWM_T3_CONFIG_OFFSET : Z := 0xc4.
Definition PWM_T3_THRESHOLD_OFFSET : Z := 0xc8.
Definition PWM_T3_TH_CHANNEL0_OFFSET : Z := 0xcc.
Definition PWM_T3_TH_CHANNEL1_OFFSET : Z := 0xd0.
Definition PWM_T3_TH_CHANNEL2_OFFSET : Z := 0xd4.
Definition PWM_T3_TH_CHANNEL3_OFFSET : Z := 0xd8.
Definition PWM_T3_COUNTER_OFFSET : Z := 0xec.
Definition PWM_EVENT_CFG_OFFSET : Z := 0x100.
Definition PWM_CG_OFFSET : Z := 0x104.

Definition pwm_t0_cmd_get (base : Z) : M soc Z := ARCHI_READ base PWM_T0_CMD_OFFSET.
Definition pwm_t0_cmd_set (base value : Z) : M soc unit := ARCHI_WRITE base PWM_T0_CMD_OFFSET value.
Definition pwm_t0_config_get (base : Z) : M soc Z := ARCHI_READ base PWM_T0_CONFIG_OFFSET.
Definition pwm_t0_config_set (base value : Z) : M soc unit := ARCHI_WRITE base PWM_T0_CONFIG_OFFSET value.
Definition pwm_t0_threshold_get (base : Z) : M soc Z := ARCHI_READ base PWM_T0_THRESHOLD_OFFSET.
Definition pwm_t0_threshold_set (base value : Z) : M soc unit := ARCHI_WRITE base PWM_T0_THRESHOLD_OFFSET value.
Definition pwm_t0_th_channel0_get (base : Z) : M soc Z := ARCHI_READ base PWM_T0_TH_CHANNEL0_OFFSET.
Definition pwm_t0_th_channel0_set (base value : Z) : M soc unit := ARCHI_WRITE base PWM_T0_TH_CHANNEL0_OFFSET value.
Definition pwm_t0_th_channel1_get (base : Z) : M soc Z := ARCHI_READ base PWM_T0_TH_CHANNEL1_OFFSET.
Definition pwm_t0_th_channel1_set (base value : Z) : M soc unit := ARCHI_WRITE base PWM_T0_TH_CHANNEL1_OFFSET value.
Definition pwm_t0_th_channel2_get (base : Z) : M soc Z := ARCHI_READ base PWM_T0_TH_CHANNEL2_OFFSET.
Definition pwm_t0_th_channel2_set (base value : Z) : M soc unit := ARCHI_WRITE base PWM_T0_TH_CHANNEL2_OFFSET value.
Definition pwm_t0_th_channel3_get (base : Z) : M soc Z := ARCHI_READ base PWM_T0_TH_CHANNEL3_OFFSET.
Definition pwm_t0_th_channel3_set (base value : Z) : M soc unit := ARCHI_WRITE base PWM_T0_TH_CHANNEL3_OFFSET value.
Definition pwm_t0_counter_get (base : Z) : M soc Z := ARCHI_READ base PWM_T0_COUNTER_OFFSET.
Definition pwm_t0_counter_set (base value : Z) : M soc unit := ARCHI_WRITE base PWM_T0_COUNTER_OFFSET value.
Definition pwm_t1_cmd_get (base : Z) : M soc Z := ARCHI_READ base PWM_T1_CMD_OFFSET.
Definition pwm_t1_cmd_set (base value : Z) : M soc unit := ARCHI_WRITE base PWM_T1_CMD_OFFSET value.
Definition pwm_t1_config_get (base : Z) : M soc Z := ARCHI_READ base PWM_T1_CONFIG_OFFSET.
Definition pwm_t1_config_set (base value : Z) : M soc unit := ARCHI_WRITE base PWM_T1_CONFIG_OFFSET value.
Definition pwm_t1_threshold_get (base : Z) : M soc Z := ARCHI_READ base PWM_T1_THRESHOLD_OFFSET.
Definition pwm_t1_threshold_set (base value : Z) : M soc unit := ARCHI_WRITE base PWM_T1_THRESHOLD_OFFSET value.
Definition pwm_t1_th_channel0_get (base : Z) : M soc Z := ARCHI_READ base PWM_T1_TH_CHANNEL0_OFFSET.
Definition pwm_t1_th_channel0_set (base value : Z) : M soc unit := ARCHI_WRITE base PWM_T1_TH_CHANNEL0_OFFSET value.
Definition pwm_t1_th_channel1_get (base : Z) : M soc Z := ARCHI_READ base PWM_T1_TH_CHANNEL1_OFFSET.
Definition pwm_t1_th_channel1_set (base value : Z) : M soc unit := ARCHI_WRITE base PWM_T1_TH_CHANNEL1_OFFSET value.
Definition pwm_t1_th_channel2_get (base : Z) : M soc Z := ARCHI_READ base PWM_T1_TH_CHANNEL2_OFFSET.
Definition pwm_t1_th_channel2_set (base value : Z) : M soc unit := ARCHI_WRITE base PWM_T1_TH_CHANNEL2_OFFSET value.
Definition pwm_t1_th_channel3_get (base : Z) : M soc Z := ARCHI_READ base PWM_T1_TH_CHANNEL3_OFFSET.
Definition pwm_t1_th_channel3_set (base value : Z) : M soc unit := ARCHI_WRITE base PWM_T1_TH_CHANNEL3_OFFSET value.
Definition pwm_t1_counter_get (base : Z) : M soc Z := ARCHI_READ base PWM_T1_COUNTER_OFFSET.
Definition pwm_t1_counter_set (base value : Z) : M soc unit := ARCHI_WRITE base PWM_T1_COUNTER_OFFSET value.
Definition pwm_t2_cmd_get (base : Z) : M soc Z := ARCHI_READ base PWM_T2_CMD_OFFSET.
Definition pwm_t2_cmd_set (base value : Z) : M soc unit := ARCHI_WRITE base PWM_T2_CMD_OFFSET value.
Definition pwm_t2_config_get (base : Z) : M soc Z := ARCHI_READ base PWM_T2_CONFIG_OFFSET.
Definition pwm_t2_config_set (base value : Z) : M soc unit := ARCHI_WRITE base PWM_T2_CONFIG_OFFSET value.
Definition pwm_t2_threshold_get (base : Z) : M soc Z := ARCHI_READ base PWM_T2_THRESHOLD_OFFSET.
Definition pwm_t2_threshold_set (base value : Z) : M soc unit := ARCHI_WRITE base PWM_T2_THRESHOLD_OFFSET value.
Definition pwm_t2_th_channel0_get (base : Z) : M soc Z := ARCHI_READ base PWM_T2_TH_CHANNEL0_OFFSET.
Definition pwm_t2_th_channel0_set (base value : Z) : M soc unit := ARCHI_WRITE base PWM_T2_TH_CHANNEL0_OFFSET value.
Definition pwm_t2_th_channel1_get (base : Z) : M soc Z := ARCHI_READ base PWM_T2_TH_CHANNEL1_OFFSET.
Definition pwm_t2_th_channel1_set (base value : Z) : M soc unit := ARCHI_WRITE base PWM_T2_TH_CHANNEL1_OFFSET value.
Definition pwm_t2_th_channel2_get (base : Z) : M soc Z := ARCHI_READ base PWM_T2_TH_CHANNEL2_OFFSET.
Definition pwm_t2_th_channel2_set (base value : Z) : M soc unit := ARCHI_WRITE base PWM_T2_TH_CHANNEL2_OFFSET value.
Definition pwm_t2_th_channel3_get (base : Z) : M soc Z := ARCHI_READ base PWM_T2_TH_CHANNEL3_OFFSET.
Definition pwm_t2_th_channel3_set (base value : Z) : M soc unit := ARCHI_WRITE base PWM_T2_TH_CHANNEL3_OFFSET value.
Definition pwm_t2_counter_get (base : Z) : M soc Z := ARCHI_READ base PWM_T2_COUNTER_OFFSET.
Definition pwm_t2_counter_set (base value : Z) : M soc unit := ARCHI_WRITE base PWM_T2_COUNTER_OFFSET value.
Definition pwm_t3_cmd_get (base : Z) : M soc Z := ARCHI_READ base PWM_T3_CMD_OFFSET.
Definition pwm_t3_cmd_set (base value : Z) : M soc unit := ARCHI_WRITE base PWM_T3_CMD_OFFSET value.
Definition pwm_t3_config_get (base : Z) : M soc Z := ARCHI_READ base PWM_T3_CONFIG_OFFSET.
Definition pwm_t3_config_set (base value : Z) : M soc unit := ARCHI_WRITE base PWM_T3_CONFIG_OFFSET value.
Definition pwm_t3_threshold_get (base : Z) : M soc Z := ARCHI_READ base PWM_T3_THRESHOLD_OFFSET.
Definition pwm_t3_threshold_set (base value : Z) : M soc unit := ARCHI_WRITE base PWM_T3_THRESHOLD_OFFSET value.
Definition pwm_t3_th_channel0_get (base : Z) : M soc Z := ARCHI_READ base PWM_T3_TH_CHANNEL0_OFFSET.
Definition pwm_t3_th_channel0_set (base value : Z) : M soc unit := ARCHI_WRITE base PWM_T3_TH_CHANNEL0_OFFSET value.
Definition pwm_t3_th_channel1_get (base : Z) : M soc Z := ARCHI_READ base PWM_T3_TH_CHANNEL1_OFFSET.
Definition pwm_t3_th_channel1_set (base value : Z) : M soc unit := ARCHI_WRITE base PWM_T3_TH_CHANNEL1_OFFSET value.
Definition pwm_t3_th_channel2_get (base : Z) : M soc Z := ARCHI_READ base PWM_T3_TH_CHANNEL2_OFFSET.
Definition pwm_t3_th_channel2_set (base value : Z) : M soc unit := ARCHI_WRITE base PWM_T3_TH_CHANNEL2_OFFSET value.
Definition pwm_t3_th_channel3_get (base : Z) : M soc Z := ARCHI_READ base PWM_T3_TH_CHANNEL3_OFFSET.
Definition pwm_t3_th_channel3_set (base value : Z) : M soc unit := ARCHI_WRITE base PWM_T3_TH_CHANNEL3_OFFSET value.
Definition pwm_t3_counter_get (base : Z) : M soc Z := ARCHI_READ base PWM_T3_COUNTER_OFFSET.
Definition pwm_t3_counter_set (base value : Z) : M soc unit := ARCHI_WRITE base PWM_T3_COUNTER_OFFSET value.
Definition pwm_event_cfg_get (base : Z) : M soc Z := ARCHI_READ base PWM_EVENT_CFG_OFFSET.
Definition pwm_event_cfg_set (base value : Z) : M soc unit := ARCHI_WRITE base PWM_EVENT_CFG_OFFSET value.
Definition pwm_cg_get (base : Z) : M soc Z := ARCHI_READ base PWM_CG_OFFSET.
Definition pwm_cg_set (base value : Z) : M soc unit := ARCHI_WRITE base PWM_CG_OFFSET value.

(** * Theorems *)

(** The struct puts 27 registers elsewhere than their offsets do. *)
Lemma PWM_report : header_sound_but PWM_HEADER
  (drop 7 (map fst PWM_OFFSETS))
  [].
Proof. apply header_but; vm_compute; reflexivity. Qed.
#[export] Hint Resolve PWM_report : registers.
