(* ===== verification/RtcV2.v ===== *)
(** * RtcV2: the registers of the real-time clock

    The tables of boot_code/include/archi/rtc/rtc_v2.h, and the accessors as programs over the
    platform of Pulp.  No build of this repository includes the header; the classes
    of the simulator (__GVSOC__) are not modelled. *)

From S2P Require Import Prelude Monad Builtins Regs Pulp.

Definition RTC_OFFSETS : list (string * Z) :=
  [("CLOCK", 0x0); ("ALARM", 0x4); ("TIMER", 0x8); ("DATE", 0xc)]%string.
Definition RTC_FIELDS : list field :=
  [mk_field "CLOCK" "SECONDS_0" 0 4 0xf; mk_field "CLOCK" "SECONDS_1" 4 4 0xf0;
   mk_field "CLOCK" "MINUTES_0" 8 4 0xf00; mk_field "CLOCK" "MINUTES_1" 12 4 0xf000;
   mk_field "CLOCK" "HOURS_0" 16 4 0xf0000; mk_field "CLOCK" "HOURS_1" 20 2 0x300000;
   mk_field "CLOCK" "INIT_SEC_COUNT" 22 10 0xffc00000; mk_field "ALARM" "SECONDS_0" 0 8 0xff;
   mk_field "ALARM" "SECONDS_1" 0 8 0xff; mk_field "ALARM" "MINUTES_0" 8 8 0xff00;
   mk_field "ALARM" "MINUTES_1" 8 8 0xff00; mk_field "ALARM" "HOURS_0" 16 6 0x3f0000;
   mk_field "ALARM" "HOURS_1" 16 6 0x3f0000; mk_field "ALARM" "ENABLE" 31 1 0x80000000;
   mk_field "TIMER" "TARGET" 0 17 0x1ffff; mk_field "TIMER" "RETRIG" 30 1 0x40000000;
   mk_field "TIMER" "ENABLE" 31 1 0x80000000; mk_field "DATE" "DAY_0" 0 6 0x3f; mk_field "DATE" "DAY_1" 0 6 0x3f;
   mk_field "DATE" "MONTH_0" 8 5 0x1f00; mk_field "DATE" "MONTH_1" 8 5 0x1f00;
   mk_field "DATE" "YEAR_0" 16 14 0x3fff0000; mk_field "DATE" "YEAR_1" 16 14 0x3fff0000]%string.
Definition RTC_UNIONS : list union :=
  [mk_union "clock" [("seconds_0", 4); ("seconds_1", 4); ("minutes_0", 4); ("minutes_1", 4); ("hours_0", 4); ("hours_1", 2); ("init_sec_count", 10)];
   mk_union "alarm" [("seconds_0", 8); ("seconds_1", 8); ("minutes_0", 8); ("minutes_1", 8); ("hours_0", 6); ("hours_1", 6); ("padding0", 9); ("enable", 1)];
   mk_union "timer" [("target", 17); ("padding0", 13); ("retrig", 1); ("enable", 1)];
   mk_union "date" [("day_0", 6); ("day_1", 6); ("padding0", 2); ("month_0", 5); ("month_1", 5); ("padding1", 3); ("year_0", 14); ("year_1", 14)]]%string.
Definition RTC_STRUCT : list string :=
  ["clock"; "alarm"; "timer"; "date"]%string.
Definition RTC_MACROS : list macros :=
  [mk_macros "CLOCK" "SECONDS_0" (4, 0) (4, 0) (4, 0) 0; mk_macros "CLOCK" "SECONDS_1" (4, 4) (4, 4) (4, 4) 4;
   mk_macros "CLOCK" "MINUTES_0" (4, 8) (4, 8) (4, 8) 8; mk_macros "CLOCK" "MINUTES_1" (4, 12) (4, 12) (4, 12) 12;
   mk_macros "CLOCK" "HOURS_0" (4, 16) (4, 16) (4, 16) 16; mk_macros "CLOCK" "HOURS_1" (2, 20) (2, 20) (2, 20) 20;
   mk_macros "CLOCK" "INIT_SEC_COUNT" (10, 22) (10, 22) (10, 22) 22;
   mk_macros "ALARM" "SECONDS_0" (8, 0) (8, 0) (8, 0) 0; mk_macros "ALARM" "SECONDS_1" (8, 0) (8, 0) (8, 0) 0;
   mk_macros "ALARM" "MINUTES_0" (8, 8) (8, 8) (8, 8) 8; mk_macros "ALARM" "MINUTES_1" (8, 8) (8, 8) (8, 8) 8;
   mk_macros "ALARM" "HOURS_0" (6, 16) (6, 16) (6, 16) 16; mk_macros "ALARM" "HOURS_1" (6, 16) (6, 16) (6, 16) 16;
   mk_macros "ALARM" "ENABLE" (1, 31) (1, 31) (1, 31) 31; mk_macros "TIMER" "TARGET" (17, 0) (17, 0) (17, 0) 0;
   mk_macros "TIMER" "RETRIG" (1, 30) (1, 30) (1, 30) 30; mk_macros "TIMER" "ENABLE" (1, 31) (1, 31) (1, 31) 31;
   mk_macros "DATE" "DAY_0" (6, 0) (6, 0) (6, 0) 0; mk_macros "DATE" "DAY_1" (6, 0) (6, 0) (6, 0) 0;
   mk_macros "DATE" "MONTH_0" (5, 8) (5, 8) (5, 8) 8; mk_macros "DATE" "MONTH_1" (5, 8) (5, 8) (5, 8) 8;
   mk_macros "DATE" "YEAR_0" (14, 16) (14, 16) (14, 16) 16; mk_macros "DATE" "YEAR_1" (14, 16) (14, 16) (14, 16) 16]%string.
Definition RTC_HEADER : header :=
  mk_header (RTC_OFFSETS) (RTC_FIELDS)
    (RTC_UNIONS) RTC_STRUCT (RTC_MACROS).

Definition RTC_CLOCK_OFFSET : Z := 0x0.
Definition RTC_ALARM_OFFSET : Z := 0x4.
Definition RTC_TIMER_OFFSET : Z := 0x8.
Definition RTC_DATE_OFFSET : Z := 0xc.

Definition rtc_clock_get (base : Z) : M soc Z := ARCHI_READ base RTC_CLOCK_OFFSET.
Definition rtc_clock_set (base value : Z) : M soc unit := ARCHI_WRITE base RTC_CLOCK_OFFSET value.
Definition rtc_alarm_get (base : Z) : M soc Z := ARCHI_READ base RTC_ALARM_OFFSET.
Definition rtc_alarm_set (base value : Z) : M soc unit := ARCHI_WRITE base RTC_ALARM_OFFSET value.
Definition rtc_timer_get (base : Z) : M soc Z := ARCHI_READ base RTC_TIMER_OFFSET.
Definition rtc_timer_set (base value : Z) : M soc unit := ARCHI_WRITE base RTC_TIMER_OFFSET value.
Definition rtc_date_get (base : Z) : M soc Z := ARCHI_READ base RTC_DATE_OFFSET.
Definition rtc_date_set (base value : Z) : M soc unit := ARCHI_WRITE base RTC_DATE_OFFSET value.

(** * Theorems *)

(** 13 fields overlap another one or are not where the bit-field member is, or outside
    the word. *)
Lemma RTC_report : header_sound_but RTC_HEADER
  []
  [("ALARM", "SECONDS_0"); ("ALARM", "SECONDS_1"); ("ALARM", "MINUTES_0"); ("ALARM", "MINUTES_1");
   ("ALARM", "HOURS_0"); ("ALARM", "HOURS_1"); ("ALARM", "ENABLE"); ("DATE", "DAY_0"); ("DATE", "DAY_1");
   ("DATE", "MONTH_0"); ("DATE", "MONTH_1"); ("DATE", "YEAR_0"); ("DATE", "YEAR_1")]%string.
Proof. apply header_but; vm_compute; reflexivity. Qed.
#[export] Hint Resolve RTC_report : registers.
