(* ===== verification/MchanV7.v ===== *)
(** * MchanV7: the registers of the cluster DMA

    The tables of boot_code/include/archi/dma/mchan_v7.h, and the accessors as programs over the
    platform of Pulp.  No build of this repository includes the header; the classes
    of the simulator (__GVSOC__) are not modelled. *)

From S2P Require Import Prelude Monad Builtins Regs Pulp.

Definition MCHAN_OFFSETS : list (string * Z) :=
  [("CMD", 0x0); ("STATUS", 0x4)]%string.
Definition MCHAN_FIELDS : list field :=
  [mk_field "CMD" "CMD" 0 32 0xffffffff; mk_field "STATUS" "STATUS" 0 32 0xffffffff;
   mk_field "CMD_CMD" "LEN" 0 17 0x1ffff; mk_field "CMD_CMD" "TYPE" 17 1 0x20000;
   mk_field "CMD_CMD" "INC" 18 1 0x40000; mk_field "CMD_CMD" "_2D_EXT" 19 1 0x80000;
   mk_field "CMD_CMD" "ELE" 20 1 0x100000; mk_field "CMD_CMD" "ILE" 21 1 0x200000;
   mk_field "CMD_CMD" "BLE" 22 1 0x400000; mk_field "CMD_CMD" "_2D_TCDM" 23 1 0x800000;
   mk_field "CMD_GET_TID" "TID" 0 4 0xf; mk_field "CMD_TCDM_ADDR" "ADDR" 0 32 0xffffffff;
   mk_field "CMD_EXT_ADDR" "ADDR" 0 32 0xffffffff; mk_field "CMD_2D_EXT_COUNT" "_2D_EXT_COUNT" 0 32 0xffffffff;
   mk_field "CMD_2D_EXT_STRIDE" "_2D_EXT_STRIDE" 0 32 0xffffffff;
   mk_field "CMD_2D_TCDM_COUNT" "_2D_TCDM_COUNT" 0 32 0xffffffff;
   mk_field "CMD_2D_TCDM_STRIDE" "_2D_TCDM_STRIDE" 0 32 0xffffffff; mk_field "STATUS_STATUS" "TID_TR" 0 16 0xffff;
   mk_field "STATUS_STATUS" "TID_ALLOC" 16 16 0xffff0000; mk_field "STATUS_FREE_TID" "TID_FREE" 0 16 0xffff]%string.
Definition MCHAN_UNIONS : list union :=
  [mk_union "cmd" [("cmd", 32)]; mk_union "status" [("status", 32)];
   mk_union "cmd_cmd" [("len", 17); ("type", 1); ("inc", 1); ("_2d_ext", 1); ("ele", 1); ("ile", 1); ("ble", 1); ("_2d_tcdm", 1)];
   mk_union "cmd_get_tid" [("tid", 4)]; mk_union "cmd_tcdm_addr" [("addr", 32)];
   mk_union "cmd_ext_addr" [("addr", 32)]; mk_union "cmd_2d_ext_count" [("_2d_ext_count", 32)];
   mk_union "cmd_2d_ext_stride" [("_2d_ext_stride", 32)]; mk_union "cmd_2d_tcdm_count" [("_2d_tcdm_count", 32)];
   mk_union "cmd_2d_tcdm_stride" [("_2d_tcdm_stride", 32)];
   mk_union "status_status" [("tid_tr", 16); ("tid_alloc", 16)]; mk_union "status_free_tid" [("tid_free", 16)]]%string.
Definition MCHAN_STRUCT : list string :=
  ["cmd"; "status"; "cmd_cmd"; "cmd_get_tid"; "cmd_tcdm_addr"; "cmd_ext_addr"; "cmd_2d_ext_count";
   "cmd_2d_ext_stride"; "cmd_2d_tcdm_count"; "cmd_2d_tcdm_stride"; "status_status"; "status_free_tid"]%string.
Definition MCHAN_MACROS : list macros :=
  [mk_macros "CMD" "CMD" (32, 0) (32, 0) (32, 0) 0; mk_macros "STATUS" "STATUS" (32, 0) (32, 0) (32, 0) 0;
   mk_macros "CMD_CMD" "LEN" (17, 0) (17, 0) (17, 0) 0; mk_macros "CMD_CMD" "TYPE" (1, 17) (1, 17) (1, 17) 17;
   mk_macros "CMD_CMD" "INC" (1, 18) (1, 18) (1, 18) 18; mk_macros "CMD_CMD" "_2D_EXT" (1, 19) (1, 19) (1, 19) 19;
   mk_macros "CMD_CMD" "ELE" (1, 20) (1, 20) (1, 20) 20; mk_macros "CMD_CMD" "ILE" (1, 21) (1, 21) (1, 21) 21;
   mk_macros "CMD_CMD" "BLE" (1, 22) (1, 22) (1, 22) 22; mk_macros "CMD_CMD" "_2D_TCDM" (1, 23) (1, 23) (1, 23) 23;
   mk_macros "CMD_GET_TID" "TID" (4, 0) (4, 0) (4, 0) 0;
   mk_macros "CMD_TCDM_ADDR" "ADDR" (32, 0) (32, 0) (32, 0) 0;
   mk_macros "CMD_EXT_ADDR" "ADDR" (32, 0) (32, 0) (32, 0) 0;
   mk_macros "CMD_2D_EXT_COUNT" "_2D_EXT_COUNT" (32, 0) (32, 0) (32, 0) 0;
   mk_macros "CMD_2D_EXT_STRIDE" "_2D_EXT_STRIDE" (32, 0) (32, 0) (32, 0) 0;
   mk_macros "CMD_2D_TCDM_COUNT" "_2D_TCDM_COUNT" (32, 0) (32, 0) (32, 0) 0;
   mk_macros "CMD_2D_TCDM_STRIDE" "_2D_TCDM_STRIDE" (32, 0) (32, 0) (32, 0) 0;
   mk_macros "STATUS_STATUS" "TID_TR" (16, 0) (16, 0) (16, 0) 0;
   mk_macros "STATUS_STATUS" "TID_ALLOC" (16, 16) (16, 16) (16, 16) 16;
   mk_macros "STATUS_FREE_TID" "TID_FREE" (16, 0) (16, 0) (16, 0) 0]%string.
Definition MCHAN_HEADER : header :=
  mk_header (MCHAN_OFFSETS) (MCHAN_FIELDS)
    (MCHAN_UNIONS) MCHAN_STRUCT (MCHAN_MACROS).

Definition MCHAN_CMD_OFFSET : Z := 0x0.
Definition MCHAN_STATUS_OFFSET : Z := 0x4.

Definition mchan_cmd_get (base : Z) : M soc Z := ARCHI_READ base MCHAN_CMD_OFFSET.
Definition mchan_cmd_set (base value : Z) : M soc unit := ARCHI_WRITE base MCHAN_CMD_OFFSET value.
Definition mchan_status_get (base : Z) : M soc Z := ARCHI_READ base MCHAN_STATUS_OFFSET.
Definition mchan_status_set (base value : Z) : M soc unit := ARCHI_WRITE base MCHAN_STATUS_OFFSET value.

(** * Theorems *)

(** All tables agree. *)
Lemma MCHAN_report : header_sound_but MCHAN_HEADER [] [].
Proof. apply header_but; vm_compute; reflexivity. Qed.
#[export] Hint Resolve MCHAN_report : registers.
