(* ===== verification/Mmio.v ===== *)
(** * Mmio: memory-mapped registers that read back what was written

    The port of the HAL files that include hal/pulp_io.h: words by address, and the
    stores in their order, so that a theorem can speak about every moment of a
    sequence of stores. *)

From S2P Require Import Prelude Monad.

Record port := mk_port {
  regs : gmap Z Z;               (* the registers, by address; 0 where nothing was written *)
  stores : list (Z * Z)          (* the stores, oldest first *)
}.

Definition word (m : gmap Z Z) (a : Z) : Z := default 0 (m !! a).
Definition stored (a v : Z) (p : port) : port := mk_port (<[a := u32 v]> (regs p)) (stores p ++ [(a, u32 v)]).

(** hal/pulp_io.h *)
Definition pulp_read32 (add : Z) : M port Z := gets (fun p => word (regs p) add).
Definition pulp_write32 (add val_ : Z) : M port unit := modify (stored add val_).
Definition IP_WRITE (base offset value : Z) : M port unit := pulp_write32 (base + offset) value.
Definition IP_READ (base offset : Z) : M port Z := pulp_read32 (base + offset).

(** * Lemmas *)
Lemma word_insert m a v : word (<[a := v]> m) a = v.
Proof. unfold word. by rewrite lookup_insert_eq. Qed.
Lemma word_insert_ne m a b v : a <> b -> word (<[a := v]> m) b = word m b.
Proof. intros Hne. unfold word. by rewrite lookup_insert_ne. Qed.
Create Rewrite HintDb mmio.
#[export] Hint Rewrite word_insert : mmio.
#[export] Hint Rewrite word_insert_ne using lia : mmio.

Lemma write_ok {B} a v (k : unit -> M port B) p : (pulp_write32 a v ≫= k) p = k tt (stored a v p).
Proof. done. Qed.
Lemma read_ok {B} a (k : Z -> M port B) p : (pulp_read32 a ≫= k) p = k (word (regs p) a) p.
Proof. done. Qed.

Lemma bind_of_opt {S A B} (o : option A) (a : A) (k : A -> M S B) s : o = Some a -> (of_opt o ≫= k) s = k a s.
Proof. by intros ->. Qed.

(** The registers after the stores [l]. *)
Definition replay (m : gmap Z Z) (l : list (Z * Z)) : gmap Z Z := foldl (fun m s => <[s.1 := s.2]> m) m l.

(** From [p] to [p'] the registers satisfy [P] between any two stores. *)
Definition throughout (P : gmap Z Z -> Prop) (p p' : port) : Prop :=
  exists new, stores p' = stores p ++ new /\ regs p' = replay (regs p) new /\
    forall k, P (replay (regs p) (take k new)).

Lemma throughout_refl (P : gmap Z Z -> Prop) p : P (regs p) -> throughout P p p.
Proof. intros HP. exists []. split; [by rewrite app_nil_r|]. split; [done|]. intros k. by rewrite take_nil. Qed.

Lemma throughout_store (P : gmap Z Z -> Prop) a v p p' :
  P (regs p) -> throughout P (stored a v p) p' -> throughout P p p'.
Proof.
  intros HP (new & Hs & Hr & Hk). exists ((a, u32 v) :: new). split; [|split; [exact Hr|]].
  - rewrite Hs. cbn [stores stored]. by rewrite <- app_assoc.
  - intros [|k]; [exact HP|exact (Hk k)].
Qed.

Lemma throughout_impl (P Q : gmap Z Z -> Prop) p p' : (forall m, P m -> Q m) -> throughout P p p' -> throughout Q p p'.
Proof. intros HPQ (new & Hs & Hr & Hk). exists new. split; [done|]. split; [done|]. intros k. by apply HPQ. Qed.
