(* ===== verification/Rab.v ===== *)
(** * Rab: the HAL of the remapping address block

    boot_code/include/hal/rab/rab_v1.h with archi/rab/rab_v1.h, and the bit macros of
    hal/utils.h it uses.  The block translates the virtual addresses of a host: its L1
    has slices of eight words, its L2 sets of entries of two words, and it reports
    misses through two registers.  The sizes of the chip and the host's physical
    addresses, whose headers are not in the repository, are [RabMap] and [HostPhys]. *)

From S2P Require Import Prelude Monad Builtins Mmio.

(** ** hal/utils.h *)
Definition BIT_MASK_ONE (n : Z) : option Z := shl_u32 1 n.
Definition BIT_MASK_LSBS (n : Z) : option Z := m ← BIT_MASK_ONE n; Some (u32 (m - 1)).
Definition BIT_MASK_IMEDS (start n : Z) : option Z := m ← BIT_MASK_LSBS n; shl_u32 m start.
Definition BIT_SET (y mask : Z) : Z := y ||| mask.
Definition BIT_CLEAR (y mask : Z) : Z := y &&& Z.lnot mask.
Definition BIT_FLIP (y mask : Z) : Z := y ^^^ mask.
Definition __BIT_MASK_PREP (x start n : Z) : option Z := m ← BIT_MASK_LSBS n; shl_u32 (x &&& m) start.
Definition BIT_GET (y start n : Z) : option Z := v ← shr y start; m ← BIT_MASK_LSBS n; Some (v &&& m).
Definition BIT_INSERT (y x start n : Z) : option Z :=
  m ← BIT_MASK_IMEDS start n; q ← __BIT_MASK_PREP x start n; Some ((y &&& Z.lnot m) ||| q).

(** ** Parameters *)

(** archi/pulp.h of a chip with this block, and the widths of its AXI bus. *)
Class RabMap := {
  ARCHI_RAB_CFG_ADDR : Z;
  RAB_L1_N_SLICES_PORT_0 : Z;
  RAB_L1_N_SLICES_PORT_1 : Z;
  RAB_L2_N_SETS : Z;
  RAB_L2_N_ENTRIES_PER_SET : Z;
  AXI_ID_WIDTH_CORE : Z;
  AXI_ID_WIDTH_CLUSTER : Z;
  AXI_ID_WIDTH_SOC : Z;
  AXI_ID_WIDTH : Z;
  RAB_PORT_ID_WIDTH : Z;
  AXI_USER_WIDTH : Z
}.

(** archi-host/phys_addr.h: a physical address is an object of one or two words;
    [copy_phys_addr] copies it between objects, into a slice and out of one, and
    returns a status. *)
Class HostPhys := {
  phys_addr_t : Type;
  phys_ok : phys_addr_t -> Prop;
  phys_words : phys_addr_t -> list Z;
  copy_phys_addr : phys_addr_t -> Z * phys_addr_t;
  copy_phys_addr_to : Z -> phys_addr_t -> M port Z;
  copy_phys_addr_from : Z -> M port phys_addr_t
}.

Fixpoint put_words (a : Z) (ws : list Z) : M port unit :=
  match ws with [] => skip | w :: ws => pulp_write32 a w ;; put_words (a + 4) ws end.
Fixpoint words_at (m : gmap Z Z) (a : Z) (ws : list Z) : Prop :=
  match ws with [] => True | w :: ws => word m a = w /\ words_at m (a + 4) ws end.

Class HostPhysOk (H : HostPhys) : Prop := {
  phys_size : forall x, (length (phys_words x) <= 2)%nat;
  phys_range : forall x, phys_ok x -> Forall (fun w => 0 <= w < 2 ^ 32) (phys_words x);
  copy_same : forall x, phys_ok x -> copy_phys_addr x = (0, x);
  copy_to : forall a x p, phys_ok x -> copy_phys_addr_to a x p = (put_words a (phys_words x) ;; mret 0) p;
  copy_from : forall a x p, phys_ok x -> words_at (regs p) a (phys_words x) -> copy_phys_addr_from a p = Ok x p
}.

(** ** The interface *)
Definition RAB_CFG_FLAG_EN : Z := Z.shiftl 1 0.
Definition RAB_CFG_FLAG_RDEN : Z := Z.shiftl 1 1.
Definition RAB_CFG_FLAG_WREN : Z := Z.shiftl 1 2.
Definition RAB_CFG_FLAG_COHERENT : Z := Z.shiftl 1 3.
Definition ENOENT : Z := 2.

Record rab_miss_t := mk_rab_miss {
  miss_virt_addr : Z; miss_core_id : Z; miss_cluster_id : Z; miss_intra_cluster_id : Z; miss_is_prefetch : Z
}.
Record rab_cfg_l2_val_t := mk_rab_cfg_l2_val { l2_virt_pfn : Z; l2_phys_pfn : Z; l2_flags : Z; l2_set : Z }.

Section Hal.
Context `{RabMap} `{HostPhys}.

Record rab_cfg_val_t := mk_rab_cfg_val { va_start : Z; va_end : Z; offset : phys_addr_t; flags : Z }.

Definition RAB_CFG_L1_ADDR : Z := u32 (u32 ARCHI_RAB_CFG_ADDR + 4 * 8).
(** The address of [word[i]] of a slice. *)
Definition slice_word (rab_slice i : Z) : Z := rab_slice + 4 * i.
Definition RAB_CFG_BPTR : Z := RAB_CFG_L1_ADDR + 32 * RAB_L1_N_SLICES_PORT_0.
Definition RAB_CFG_EPTR : Z := RAB_CFG_BPTR + 32 * RAB_L1_N_SLICES_PORT_1.
Definition RAB_CFG_L2_ADDR : Z := u32 (u32 ARCHI_RAB_CFG_ADDR + 2 * 0x4000).
Definition RAB_CFG_L2_VARAM_PTR (i_set i_entry : Z) : Z :=
  u32 (RAB_CFG_L2_ADDR + i_set * RAB_L2_N_ENTRIES_PER_SET * 4 + i_entry * 4).
Definition RAB_CFG_L2_PARAM_PTR (i_set i_entry : Z) : Z :=
  u32 (RAB_CFG_L2_ADDR + i_set * RAB_L2_N_ENTRIES_PER_SET * 4 + i_entry * 4 + RAB_L2_N_SETS * RAB_L2_N_ENTRIES_PER_SET * 4).
Definition RAB_CFG_L2_SET_PFN_MASK : Z := u32 (RAB_L2_N_SETS - 1).

(** The object [*dst] is the result. *)
Definition read_rab_cfg_val (src : Z) : M port rab_cfg_val_t :=
  a ← pulp_read32 (slice_word src 0);
  b ← pulp_read32 (slice_word src 2);
  o ← copy_phys_addr_from (slice_word src 4);
  f ← pulp_read32 (slice_word src 6);
  mret (mk_rab_cfg_val a b o (u8 (f &&& 0xFF))).

Definition write_rab_cfg_val (dst : Z) (src : rab_cfg_val_t) : M port Z :=
  pulp_write32 (slice_word dst 6) 0 ;;
  pulp_write32 (slice_word dst 0) (va_start src) ;;
  pulp_write32 (slice_word dst 2) (va_end src) ;;
  _ ← copy_phys_addr_to (slice_word dst 4) (offset src);
  pulp_write32 (slice_word dst 6) (0x000000FF &&& flags src) ;;
  mret 0.

Definition access_flags (rdonly cache_coherent : Z) : Z :=
  RAB_CFG_FLAG_EN ||| RAB_CFG_FLAG_RDEN ||| (if rdonly =? 0 then RAB_CFG_FLAG_WREN else 0)
    ||| (if cache_coherent =? 0 then 0 else RAB_CFG_FLAG_COHERENT).

Definition config_rab_slice (begin end_ : Z) (phys_addr : phys_addr_t) (rab_slice rdonly cache_coherent : Z) : M port Z :=
  let '(ret, off) := copy_phys_addr phys_addr in
  let cfg := mk_rab_cfg_val begin (u32 (end_ - 1)) off (u8 (access_flags rdonly cache_coherent)) in
  if ret <? 0 then mret ret
  else ret ← write_rab_cfg_val rab_slice cfg; if ret <? 0 then mret ret else mret 0.

Definition disable_rab_slice (rab_slice : Z) : M port Z := pulp_write32 (slice_word rab_slice 6) 0 ;; mret 0.
Definition rab_slice_is_enabled (cfg_val : rab_cfg_val_t) : Z :=
  if flags cfg_val &&& RAB_CFG_FLAG_EN =? RAB_CFG_FLAG_EN then 1 else 0.
Definition rab_slice_contains_virt_addr (cfg_val : rab_cfg_val_t) (virt_addr : Z) : Z :=
  if (virt_addr >=? va_start cfg_val) && (virt_addr <=? va_end cfg_val) then 1 else 0.

Definition page_set (virt_pfn : Z) : Z := u8 (virt_pfn &&& RAB_CFG_L2_SET_PFN_MASK).

Definition write_rab_cfg_l2_val (varam_ptr param_ptr : Z) (src : rab_cfg_l2_val_t) : M port Z :=
  pulp_write32 varam_ptr 0 ;;
  pulp_write32 param_ptr (l2_phys_pfn src) ;;
  pulp_write32 varam_ptr (u32 (Z.shiftl (l2_virt_pfn src) 4) ||| l2_flags src) ;;
  mret 0.

Definition config_rab_l2_entry (virt_pfn phys_pfn set_ entry rdonly cache_coherent : Z) : M port Z :=
  let cfg := mk_rab_cfg_l2_val virt_pfn phys_pfn (u8 (access_flags rdonly cache_coherent)) set_ in
  let varam_ptr := RAB_CFG_L2_VARAM_PTR set_ entry in
  let param_ptr := RAB_CFG_L2_PARAM_PTR set_ entry in
  ret ← write_rab_cfg_l2_val varam_ptr param_ptr cfg;
  if ret <? 0 then mret ret else mret 0.

(** The status, and the object [*rab_miss] afterwards. *)
Definition get_rab_miss (rab_miss : rab_miss_t) : M port (Z * rab_miss_t) :=
  meta_fifo_val ← pulp_read32 (u32 ARCHI_RAB_CFG_ADDR + 8);
  empty ← of_opt (BIT_GET meta_fifo_val 31 1);
  if negb (empty =? 0) then mret (- ENOENT, rab_miss)
  else
    virt_addr ← pulp_read32 ARCHI_RAB_CFG_ADDR;
    core_id ← of_opt (BIT_GET meta_fifo_val 0 AXI_ID_WIDTH_CORE);
    intra_cluster_id ← of_opt (BIT_GET meta_fifo_val AXI_ID_WIDTH_CORE AXI_ID_WIDTH_CLUSTER);
    cluster_id ← of_opt (BIT_GET meta_fifo_val (AXI_ID_WIDTH_CLUSTER + AXI_ID_WIDTH_CORE) AXI_ID_WIDTH_SOC);
    axi_user ← of_opt (BIT_GET meta_fifo_val (AXI_ID_WIDTH + RAB_PORT_ID_WIDTH) AXI_USER_WIDTH);
    all_ones ← of_opt (BIT_MASK_LSBS AXI_USER_WIDTH);
    mret (0, mk_rab_miss virt_addr (s32 core_id) (s32 cluster_id) (s32 intra_cluster_id) (if axi_user =? all_ones then 1 else 0)).
End Hal.

(** * Theorems *)

(** ** The bit macros *)
Lemma lsbs_ones n : 0 <= n < 32 -> BIT_MASK_LSBS n = Some (Z.ones n).
Proof.
  intros H. unfold BIT_MASK_LSBS, BIT_MASK_ONE, shl_u32. rewrite shift_ok_true by done. cbn.
  assert (E : 0 < 2 ^ n < 2 ^ 32) by (split; [apply Z.pow_pos_nonneg|apply Z.pow_lt_mono_r]; lia).
  rewrite Z.shiftl_mul_pow2, Z.mul_1_l, (u32_small (2 ^ n)) by lia.
  rewrite Z.ones_equiv, <- Z.sub_1_r, u32_small; [done|]. change (2 ^ 32) with 4294967296 in E. lia.
Qed.

Lemma bit_get_spec y start n : 0 <= start < 32 -> 0 <= n < 32 -> BIT_GET y start n = Some (y / 2 ^ start mod 2 ^ n).
Proof.
  intros Hs Hn. unfold BIT_GET, shr. rewrite shift_ok_true, lsbs_ones by done. cbn.
  by rewrite Z.land_ones, Z.shiftr_div_pow2 by lia.
Qed.

(** ** Slices of the L1 *)
Section Slices.
Context `{RabMap} `{HostPhysOk}.

Lemma put_words_spec ws : forall a p, Forall (fun w => 0 <= w < 2 ^ 32) ws ->
  exists p', put_words a ws p = Ok tt p' /\ words_at (regs p') a ws /\
    (forall b, b < a \/ a + 4 * Z.of_nat (length ws) <= b -> word (regs p') b = word (regs p) b) /\
    (forall (P : gmap Z Z -> Prop), (forall m, (forall b, b < a \/ a + 4 * Z.of_nat (length ws) <= b -> word m b = word (regs p) b) -> P m) ->
       throughout P p p').
Proof.
  induction ws as [|w ws IH]; intros a p Hw.
  - exists p. split; [done|]. split; [done|]. split; [done|]. intros P HP. apply throughout_refl. by apply HP.
  - apply Forall_cons in Hw as [Hw0 Hw]. destruct (IH (a + 4) (stored a w p) Hw) as (p' & E & Ha & Ho & Ht).
    exists p'. split; [exact E|]. cbn [length]. rewrite Nat2Z.inj_succ. split; [|split].
    + split; [|exact Ha]. rewrite Ho by lia. cbn [regs stored]. autorewrite with mmio. by rewrite u32_small.
    + intros b Hb. rewrite Ho by lia. cbn [regs stored]. by autorewrite with mmio.
    + intros P HP. eapply throughout_store; [by apply HP|]. apply Ht. intros m Hm. apply HP.
      intros b Hb. rewrite Hm by lia. cbn [regs stored]. by autorewrite with mmio.
Qed.

(** The slice at [a] holds the configuration [c]. *)
Definition slice_holds (m : gmap Z Z) (a : Z) (c : rab_cfg_val_t) : Prop :=
  word m (slice_word a 0) = va_start c /\ word m (slice_word a 2) = va_end c /\
  words_at m (slice_word a 4) (phys_words (offset c)) /\ word m (slice_word a 6) = flags c.
Definition slice_off (m : gmap Z Z) (a : Z) : Prop := word m (slice_word a 6) = 0.
Definition valid_cfg (c : rab_cfg_val_t) : Prop :=
  0 <= va_start c < 2 ^ 32 /\ 0 <= va_end c < 2 ^ 32 /\ 0 <= flags c < 256 /\ phys_ok (offset c).

Lemma land_byte f : 0 <= f < 256 -> 0xFF &&& f = f.
Proof. intros Hf. change 0xFF with (Z.ones 8). rewrite Z.land_comm, Z.land_ones by lia. by apply Z.mod_small. Qed.

Lemma read_slice a c p : valid_cfg c -> slice_holds (regs p) a c -> read_rab_cfg_val a p = Ok c p.
Proof.
  intros (_ & _ & Hf & Hp) (E0 & E2 & E4 & E6). unfold read_rab_cfg_val. rewrite !read_ok, E0, E2.
  rewrite (bind_ok _ _ _ _ _ (copy_from _ _ _ Hp E4)), read_ok, E6, Z.land_comm, land_byte, u8_small by done.
  by destruct c.
Qed.

(** Between the first store, which turns the slice off, and the last, which turns it
    on again, the slice is off. *)
Lemma write_slice a c p : valid_cfg c ->
  exists p', write_rab_cfg_val a c p = Ok 0 p' /\ slice_holds (regs p') a c /\
    (forall b, b < a \/ a + 32 <= b -> word (regs p') b = word (regs p) b) /\
    throughout (fun m => m = regs p \/ slice_off m a \/ m = regs p') p p'.
Proof.
  intros (Hs & He & Hf & Hp). unfold write_rab_cfg_val. rewrite !write_ok. set (p3 := stored _ _ (stored _ _ (stored _ _ p))).
  pose proof (phys_size (offset c)) as Hl.
  destruct (put_words_spec (phys_words (offset c)) (slice_word a 4) p3 (phys_range _ Hp)) as (p4 & E & Ha & Ho & Ht).
  assert (Ec : copy_phys_addr_to (slice_word a 4) (offset c) p3 = Ok 0 p4) by (by rewrite (copy_to _ _ _ Hp), (bind_ok _ _ _ _ _ E)).
  rewrite (bind_ok _ _ _ _ _ Ec), write_ok, land_byte by done. set (p5 := stored (slice_word a 6) (flags c) p4).
  assert (W : forall b, b < slice_word a 4 \/ slice_word a 6 <= b -> word (regs p4) b = word (regs p3) b).
  { intros b Hb. apply Ho. unfold slice_word in *. lia. }
  exists p5. split; [done|]. split; [|split].
  - unfold slice_holds, p5. cbn [regs stored]. autorewrite with mmio. unfold slice_word in *.
    rewrite !word_insert_ne, !W, u32_small by lia. unfold p3. cbn [regs stored].
    split; [|split; [|split; [|done]]].
    + autorewrite with mmio. rewrite u32_small by lia. done.
    + autorewrite with mmio. by rewrite u32_small.
    + revert Ha Hl. generalize (phys_words (offset c)). intros ws Ha Hl.
      destruct ws as [|w1 [|w2 [|? ?]]]; cbn in *; [done|..|lia]; rewrite !word_insert_ne by lia; done.
  - intros b Hb. unfold p5, slice_word in *. cbn [regs stored]. rewrite word_insert_ne, W by lia.
    unfold p3. cbn [regs stored]. by autorewrite with mmio.
  - assert (Hoff : forall m, (forall b, b < slice_word a 4 \/ slice_word a 4 + 4 * Z.of_nat (length (phys_words (offset c))) <= b ->
        word m b = word (regs p3) b) -> slice_off m a).
    { intros m Hm. unfold slice_off, slice_word in *. rewrite Hm by lia. unfold p3. cbn [regs stored]. by autorewrite with mmio. }
    destruct (Ht (fun m => slice_off m a) Hoff) as (new & Es & Er & Hk).
    apply (throughout_store _ (slice_word a 6) 0); [by left|].
    apply (throughout_store _ (slice_word a 0) (va_start c)); [right; left; apply word_insert|].
    apply (throughout_store _ (slice_word a 2) (va_end c)).
    { right. left. unfold slice_off, slice_word. cbn [regs stored]. by autorewrite with mmio. }
    fold p3.
    exists (new ++ [(slice_word a 6, u32 (flags c))]). split; [|split].
    + unfold p5. cbn [stores stored]. by rewrite Es, <- app_assoc.
    + unfold p5, replay. cbn [regs stored]. by rewrite foldl_app, Er.
    + intros k. destruct (decide (k <= length new)%nat) as [Hle|Hgt].
      * rewrite take_app_le by done. right. left. apply Hk.
      * rewrite take_ge by (rewrite length_app; cbn; lia). right. right.
        unfold p5, replay. cbn [regs stored]. by rewrite foldl_app, Er.
Qed.
(** The first address behind the mapped ones: an [end] of zero is the end of the
    address space. *)
Definition range_end (end_ : Z) : Z := if end_ =? 0 then 2 ^ 32 else end_.

Lemma config_contains begin end_ off fl va : 0 <= begin < 2 ^ 32 -> 0 <= end_ < 2 ^ 32 -> 0 <= va < 2 ^ 32 ->
  rab_slice_contains_virt_addr (mk_rab_cfg_val begin (u32 (end_ - 1)) off fl) va =
  if (begin <=? va) && (va <? range_end end_) then 1 else 0.
Proof.
  intros Hb He Hva. unfold rab_slice_contains_virt_addr, range_end. cbn [va_start va_end].
  assert (E : u32 (end_ - 1) = (if end_ =? 0 then 2 ^ 32 else end_) - 1).
  { destruct (Z.eqb_spec end_ 0) as [->|]; [by vm_compute|]. rewrite u32_small; lia. }
  rewrite E, Z.geb_leb. set (top := if end_ =? 0 then 2 ^ 32 else end_).
  destruct (Z.leb_spec begin va), (Z.leb_spec va (top - 1)), (Z.ltb_spec va top); simpl; (done || lia).
Qed.

Definition has_flag (f bit : Z) : bool := negb (f &&& bit =? 0).
Lemma access_flags_spec rdonly coherent :
  let f := access_flags rdonly coherent in
  0 <= f < 16 /\ has_flag f RAB_CFG_FLAG_EN = true /\ has_flag f RAB_CFG_FLAG_RDEN = true /\
  has_flag f RAB_CFG_FLAG_WREN = (rdonly =? 0) /\ has_flag f RAB_CFG_FLAG_COHERENT = negb (coherent =? 0).
Proof. unfold access_flags. destruct (rdonly =? 0), (coherent =? 0); vm_compute; (repeat split; discriminate || done). Qed.


Lemma config_slice_ok begin end_ phys a rdonly coherent p : 0 <= begin < 2 ^ 32 -> 0 <= end_ < 2 ^ 32 -> phys_ok phys ->
  exists p', config_rab_slice begin end_ phys a rdonly coherent p = Ok 0 p'.
Proof.
  intros Hb He Hph. destruct (access_flags_spec rdonly coherent) as (Hf & _).
  unfold config_rab_slice. rewrite (copy_same _ Hph). cbn [Z.ltb Z.compare]. set (c := mk_rab_cfg_val _ _ _ _).
  destruct (write_slice a c p) as (p' & E & _); [|exists p'; by rewrite (bind_ok _ _ _ _ _ E)].
  split; [done|]. split; [apply u32_range|]. split; [apply u8_range|done].
Qed.

(** A slice that was switched off is not enabled. *)
Lemma disable_rab_slice_off a p :
  exists p', disable_rab_slice a p = Ok 0 p' /\ slice_off (regs p') a /\
    forall b, b <> slice_word a 6 -> word (regs p') b = word (regs p) b.
Proof.
  eexists. split; [reflexivity|]. split; [apply word_insert|]. intros b Hb. cbn [regs stored]. by apply word_insert_ne.
Qed.
End Slices.

(** A host address that cannot be copied: the error comes back and nothing is stored. *)
Lemma config_rab_slice_error `{RabMap} `{HostPhys} begin end_ phys rab_slice rdonly coherent p :
  (copy_phys_addr phys).1 < 0 ->
  config_rab_slice begin end_ phys rab_slice rdonly coherent p = Ok (copy_phys_addr phys).1 p.
Proof.
  intros He. unfold config_rab_slice. destruct (copy_phys_addr phys) as [ret off]. cbn in *.
  by destruct (Z.ltb_spec ret 0); [|lia].
Qed.

(** ** Entries of the L2 *)
Class RabMapOk (R : RabMap) : Prop := {
  cfg_addr : 0 <= ARCHI_RAB_CFG_ADDR;
  sets_power : exists k, 0 <= k <= 8 /\ RAB_L2_N_SETS = 2 ^ k;
  entries : 0 < RAB_L2_N_ENTRIES_PER_SET;
  l2_fits : ARCHI_RAB_CFG_ADDR + 2 * 0x4000 + 8 * (RAB_L2_N_SETS * RAB_L2_N_ENTRIES_PER_SET) < 2 ^ 32;
  widths : 0 <= AXI_ID_WIDTH_CORE /\ 0 <= AXI_ID_WIDTH_CLUSTER /\ 0 <= AXI_ID_WIDTH_SOC /\ 0 < AXI_USER_WIDTH /\
    0 <= AXI_ID_WIDTH /\ 0 <= RAB_PORT_ID_WIDTH /\
    AXI_ID_WIDTH_CORE + AXI_ID_WIDTH_CLUSTER + AXI_ID_WIDTH_SOC <= AXI_ID_WIDTH /\
    AXI_ID_WIDTH + RAB_PORT_ID_WIDTH + AXI_USER_WIDTH <= 31
}.

Section Entries.
Context `{RabMapOk} `{HostPhys}.

Definition valid_entry (i_set i_entry : Z) : Prop := 0 <= i_set < RAB_L2_N_SETS /\ 0 <= i_entry < RAB_L2_N_ENTRIES_PER_SET.
Definition entry_index (i_set i_entry : Z) : Z := i_set * RAB_L2_N_ENTRIES_PER_SET + i_entry.

Lemma entry_index_range s e : valid_entry s e -> 0 <= entry_index s e < RAB_L2_N_SETS * RAB_L2_N_ENTRIES_PER_SET.
Proof. intros [Hs He]. unfold entry_index. nia. Qed.
Lemma entry_index_inj s e s' e' : valid_entry s e -> valid_entry s' e' -> entry_index s e = entry_index s' e' -> s = s' /\ e = e'.
Proof.
  intros [Hs He] [Hs' He'] E. apply (Z.div_mod_unique RAB_L2_N_ENTRIES_PER_SET); [by left..|]. unfold entry_index in E. lia.
Qed.

Lemma l2_ptrs s e : valid_entry s e ->
  RAB_CFG_L2_VARAM_PTR s e = ARCHI_RAB_CFG_ADDR + 2 * 0x4000 + 4 * entry_index s e /\
  RAB_CFG_L2_PARAM_PTR s e = ARCHI_RAB_CFG_ADDR + 2 * 0x4000 + 4 * (RAB_L2_N_SETS * RAB_L2_N_ENTRIES_PER_SET + entry_index s e).
Proof.
  intros Hv. pose proof (entry_index_range s e Hv). pose proof cfg_addr. pose proof l2_fits.
  unfold RAB_CFG_L2_VARAM_PTR, RAB_CFG_L2_PARAM_PTR, RAB_CFG_L2_ADDR, entry_index in *.
  rewrite (u32_small ARCHI_RAB_CFG_ADDR), (u32_small (ARCHI_RAB_CFG_ADDR + _)) by lia.
  split; rewrite u32_small; lia.
Qed.

(** What the block makes of the first word of an entry. *)
Definition entry_pfn (w : Z) : Z := Z.shiftr w 4.
Definition entry_flags (w : Z) : Z := w &&& 0xF.

Lemma entry_word pfn f : 0 <= pfn < 2 ^ 20 -> 0 <= f < 16 ->
  let w := u32 (Z.shiftl pfn 4) ||| f in 0 <= w < 2 ^ 32 /\ entry_pfn w = pfn /\ entry_flags w = f.
Proof.
  intros Hp Hf. assert (Hs : 0 <= Z.shiftl pfn 4 < 4294967296) by (rewrite Z.shiftl_mul_pow2; lia).
  cbn zeta. rewrite u32_small by done.
  rewrite shiftl_lor_add by lia. unfold entry_pfn, entry_flags. change 0xF with (Z.ones 4).
  rewrite Z.land_ones, Z.shiftr_div_pow2 by lia. change (2 ^ 4) with 16. split; [lia|]. split; Z.div_mod_to_equations; lia.
Qed.

(** An entry of the second level is written without disturbing any other, and is
    off while it is written: [config_rab_l2_entry] succeeds, its two words hold the
    page frames and the access flags, every other word keeps its value, and until the
    last store either nothing has changed or the entry is off. *)
Theorem config_rab_l2_entry_maps virt_pfn phys_pfn set_ entry rdonly coherent p :
  valid_entry set_ entry -> 0 <= virt_pfn < 2 ^ 20 -> 0 <= phys_pfn < 2 ^ 32 ->
  exists p', config_rab_l2_entry virt_pfn phys_pfn set_ entry rdonly coherent p = Ok 0 p' /\
    let w := word (regs p') (RAB_CFG_L2_VARAM_PTR set_ entry) in
    entry_pfn w = virt_pfn /\ has_flag (entry_flags w) RAB_CFG_FLAG_EN = true /\
    has_flag (entry_flags w) RAB_CFG_FLAG_WREN = (rdonly =? 0) /\
    has_flag (entry_flags w) RAB_CFG_FLAG_COHERENT = negb (coherent =? 0) /\
    word (regs p') (RAB_CFG_L2_PARAM_PTR set_ entry) = phys_pfn /\
    (forall s e, valid_entry s e -> (s, e) <> (set_, entry) ->
       word (regs p') (RAB_CFG_L2_VARAM_PTR s e) = word (regs p) (RAB_CFG_L2_VARAM_PTR s e) /\
       word (regs p') (RAB_CFG_L2_PARAM_PTR s e) = word (regs p) (RAB_CFG_L2_PARAM_PTR s e)) /\
    throughout (fun m => m = regs p \/ word m (RAB_CFG_L2_VARAM_PTR set_ entry) = 0 \/ m = regs p') p p'.
Proof.
  intros Hv Hvp Hpp. destruct (access_flags_spec rdonly coherent) as (Hf & Hen & _ & Hw & Hc).
  pose proof (entry_index_range _ _ Hv) as Hi. destruct (l2_ptrs _ _ Hv) as [Ea Eb].
  destruct (entry_word virt_pfn (access_flags rdonly coherent) Hvp Hf) as (Hr & Ep & Efl).
  eexists. split; [reflexivity|]. cbn [regs stored l2_virt_pfn l2_flags l2_phys_pfn].
  rewrite (u8_small (access_flags _ _)) by lia. rewrite Ea, Eb. autorewrite with mmio.
  rewrite !(u32_small phys_pfn), (u32_small (u32 _ ||| _)), Ep, Efl by done.
  do 5 (split; [done|]). split.
  - intros s e Hv' Hne. pose proof (entry_index_range _ _ Hv') as Hi'. destruct (l2_ptrs _ _ Hv') as [-> ->].
    assert (entry_index s e <> entry_index set_ entry).
    { intros E. destruct (entry_index_inj _ _ _ _ Hv' Hv E) as [-> ->]. by apply Hne. }
    by rewrite !word_insert_ne by lia.
  - set (a := ARCHI_RAB_CFG_ADDR + 2 * 0x4000 + 4 * entry_index set_ entry) in *. set (b := _ + 4 * (_ + _)) in *.
    apply (throughout_store _ a 0); [by left|].
    apply (throughout_store _ b phys_pfn); [right; left; cbn [regs stored]; by rewrite word_insert|].
    eapply (throughout_store _ a); [right; left; cbn [regs stored]; by autorewrite with mmio|].
    apply throughout_refl. right. right. cbn [regs stored]. by rewrite (u32_small phys_pfn), (u32_small (u32 _ ||| _)).
Qed.
End Entries.

(** ** The miss registers *)
Lemma bit_get_low a y n : 0 <= n < 32 -> 0 <= a < 2 ^ n -> BIT_GET (a + 2 ^ n * y) 0 n = Some a.
Proof.
  intros Hn Ha. rewrite bit_get_spec, Z.div_1_r, Z.mul_comm, Z.mod_add by lia. by rewrite Z.mod_small.
Qed.
Lemma bit_get_high a y n s w : 0 <= n -> 0 <= s -> n + s < 32 -> 0 <= w < 32 -> 0 <= a < 2 ^ n ->
  BIT_GET (a + 2 ^ n * y) (n + s) w = BIT_GET y s w.
Proof.
  intros Hn Hs Hns Hw Ha. rewrite !bit_get_spec, Z.pow_add_r by lia. do 2 f_equal.
  rewrite <- Z.div_div by lia. f_equal. rewrite Z.mul_comm, Z.div_add by lia. by rewrite Z.div_small.
Qed.
Lemma bit_get_next a y n w : 0 <= n < 32 -> 0 <= w < 32 -> 0 <= a < 2 ^ n -> BIT_GET (a + 2 ^ n * y) n w = BIT_GET y 0 w.
Proof. intros Hn Hw Ha. rewrite <- (bit_get_high a y n 0 w), Z.add_0_r by lia. done. Qed.
Lemma pack_bound a y n k : 0 <= n -> 0 <= k -> 0 <= a < 2 ^ n -> 0 <= y < 2 ^ k -> 0 <= a + 2 ^ n * y < 2 ^ (n + k).
Proof. intros Hn Hk Ha Hy. rewrite Z.pow_add_r by done. nia. Qed.

Section Misses.
Context `{RabMapOk}.

(** The identifier of a transaction, the port it came through and its user bits. *)
Definition miss_gap : Z := AXI_ID_WIDTH + RAB_PORT_ID_WIDTH - AXI_ID_WIDTH_CORE - AXI_ID_WIDTH_CLUSTER - AXI_ID_WIDTH_SOC.
Definition miss_meta (core intra cluster gap user : Z) : Z :=
  core + 2 ^ AXI_ID_WIDTH_CORE * (intra + 2 ^ AXI_ID_WIDTH_CLUSTER * (cluster + 2 ^ AXI_ID_WIDTH_SOC *
    (gap + 2 ^ miss_gap * user))).
Record valid_miss (core intra cluster gap user : Z) : Prop := {
  vm_core : 0 <= core < 2 ^ AXI_ID_WIDTH_CORE;
  vm_intra : 0 <= intra < 2 ^ AXI_ID_WIDTH_CLUSTER;
  vm_cluster : 0 <= cluster < 2 ^ AXI_ID_WIDTH_SOC;
  vm_gap : 0 <= gap < 2 ^ miss_gap;
  vm_user : 0 <= user < 2 ^ AXI_USER_WIDTH
}.

Lemma miss_meta_fields core intra cluster gap user : valid_miss core intra cluster gap user ->
  let m := miss_meta core intra cluster gap user in
  0 <= m < 2 ^ 31 /\ BIT_GET m 0 AXI_ID_WIDTH_CORE = Some core /\
  BIT_GET m AXI_ID_WIDTH_CORE AXI_ID_WIDTH_CLUSTER = Some intra /\
  BIT_GET m (AXI_ID_WIDTH_CLUSTER + AXI_ID_WIDTH_CORE) AXI_ID_WIDTH_SOC = Some cluster /\
  BIT_GET m (AXI_ID_WIDTH + RAB_PORT_ID_WIDTH) AXI_USER_WIDTH = Some user.
Proof.
  intros [Hc Hi Hl Hg Hu]. destruct widths as (W1 & W2 & W3 & W4 & W5 & W6 & W7 & W8).
  assert (Hw : 0 <= miss_gap) by (unfold miss_gap; lia). cbn zeta. unfold miss_meta.
  set (r3 := gap + 2 ^ miss_gap * user). set (r2 := cluster + 2 ^ AXI_ID_WIDTH_SOC * r3).
  set (r1 := intra + 2 ^ AXI_ID_WIDTH_CLUSTER * r2).
  assert (B3 : 0 <= r3 < 2 ^ (miss_gap + AXI_USER_WIDTH)) by (apply pack_bound; (done || lia)).
  assert (B2 : 0 <= r2 < 2 ^ (AXI_ID_WIDTH_SOC + (miss_gap + AXI_USER_WIDTH))) by (apply pack_bound; (done || lia)).
  assert (B1 : 0 <= r1 < 2 ^ (AXI_ID_WIDTH_CLUSTER + (AXI_ID_WIDTH_SOC + (miss_gap + AXI_USER_WIDTH))))
    by (apply pack_bound; (done || lia)).
  assert (B0 : 0 <= core + 2 ^ AXI_ID_WIDTH_CORE * r1 <
    2 ^ (AXI_ID_WIDTH_CORE + (AXI_ID_WIDTH_CLUSTER + (AXI_ID_WIDTH_SOC + (miss_gap + AXI_USER_WIDTH)))))
    by (apply pack_bound; (done || lia)).
  split.
  - split; [lia|]. eapply Z.lt_le_trans; [apply B0|]. apply Z.pow_le_mono_r; unfold miss_gap; lia.
  - split; [apply bit_get_low; (done || lia)|]. split; [|split].
    + rewrite bit_get_next by (done || lia). unfold r1. apply bit_get_low; (done || lia).
    + rewrite (Z.add_comm AXI_ID_WIDTH_CLUSTER), bit_get_high by (done || lia). unfold r1.
      rewrite bit_get_next by (done || lia). unfold r2. apply bit_get_low; (done || lia).
    + replace (AXI_ID_WIDTH + RAB_PORT_ID_WIDTH) with
        (AXI_ID_WIDTH_CORE + (AXI_ID_WIDTH_CLUSTER + (AXI_ID_WIDTH_SOC + (miss_gap + 0)))) by (unfold miss_gap; lia).
      rewrite bit_get_high by (done || unfold miss_gap in *; lia). unfold r1.
      rewrite bit_get_high by (done || unfold miss_gap in *; lia). unfold r2.
      rewrite bit_get_high by (done || unfold miss_gap in *; lia). unfold r3.
      rewrite bit_get_high by (done || unfold miss_gap in *; lia).
      rewrite bit_get_spec, Z.div_1_r by lia. by rewrite Z.mod_small.
Qed.

Lemma get_rab_miss_spec core intra cluster gap user va old p :
  valid_miss core intra cluster gap user ->
  word (regs p) (u32 ARCHI_RAB_CFG_ADDR + 8) = miss_meta core intra cluster gap user ->
  word (regs p) ARCHI_RAB_CFG_ADDR = va ->
  get_rab_miss old p =
    Ok (0, mk_rab_miss va (s32 core) (s32 cluster) (s32 intra) (if user =? 2 ^ AXI_USER_WIDTH - 1 then 1 else 0)) p.
Proof.
  intros Hv Em Ea. destruct (miss_meta_fields _ _ _ _ _ Hv) as (Hr & Hc & Hi & Hl & Hu).
  destruct widths as (W1 & W2 & W3 & W4 & W5 & W6 & W7 & W8).
  assert (E31 : BIT_GET (miss_meta core intra cluster gap user) 31 1 = Some 0).
  { rewrite bit_get_spec, Z.div_small by lia. done. }
  unfold get_rab_miss. rewrite read_ok, Em, (bind_of_opt _ _ _ _ E31). cbn [Z.eqb negb].
  rewrite read_ok, Ea, (bind_of_opt _ _ _ _ Hc), (bind_of_opt _ _ _ _ Hi), (bind_of_opt _ _ _ _ Hl), (bind_of_opt _ _ _ _ Hu).
  assert (Eo : BIT_MASK_LSBS AXI_USER_WIDTH = Some (Z.ones AXI_USER_WIDTH)) by (apply lsbs_ones; lia).
  rewrite (bind_of_opt _ _ _ _ Eo). by rewrite Z.ones_equiv, <- Z.sub_1_r.
Qed.

(** A miss is read as it happened: from the transaction identifier and the user
    bits that the hardware latched, [get_rab_miss] recovers core, position in the
    cluster and cluster, and calls it a prefetch exactly when all user bits are set;
    when the register says that there is none, it returns [-ENOENT] and leaves the
    object alone. *)
Theorem get_rab_miss_decodes core intra cluster gap user va old p :
  valid_miss core intra cluster gap user ->
  word (regs p) (u32 ARCHI_RAB_CFG_ADDR + 8) = miss_meta core intra cluster gap user ->
  word (regs p) ARCHI_RAB_CFG_ADDR = va ->
  get_rab_miss old p =
    Ok (0, mk_rab_miss va (s32 core) (s32 cluster) (s32 intra) (if user =? 2 ^ AXI_USER_WIDTH - 1 then 1 else 0)) p /\
  forall p', Z.testbit (word (regs p') (u32 ARCHI_RAB_CFG_ADDR + 8)) 31 = true -> get_rab_miss old p' = Ok (- ENOENT, old) p'.
Proof.
  intros Hv Em Ea. split; [by apply (get_rab_miss_spec core intra cluster gap user)|].
  intros p' Hb. unfold get_rab_miss. rewrite read_ok.
  assert (E31 : BIT_GET (word (regs p') (u32 ARCHI_RAB_CFG_ADDR + 8)) 31 1 = Some 1).
  { rewrite bit_get_spec by lia. change (2 ^ 1) with 2. rewrite <- Z.testbit_spec' by lia. by rewrite Hb. }
  by rewrite (bind_of_opt _ _ _ _ E31).
Qed.
End Misses.

(** ** A chip, for the concrete runs *)
#[export] Instance sample_rab : RabMap := {|
  ARCHI_RAB_CFG_ADDR := 0x51030000; RAB_L1_N_SLICES_PORT_0 := 4; RAB_L1_N_SLICES_PORT_1 := 32;
  RAB_L2_N_SETS := 32; RAB_L2_N_ENTRIES_PER_SET := 32; AXI_ID_WIDTH_CORE := 4; AXI_ID_WIDTH_CLUSTER := 2;
  AXI_ID_WIDTH_SOC := 3; AXI_ID_WIDTH := 10; RAB_PORT_ID_WIDTH := 1; AXI_USER_WIDTH := 6 |}.
#[export] Instance sample_rab_ok : RabMapOk sample_rab.
Proof. split; cbn; try lia. exists 5. split; [lia|reflexivity]. Qed.

(** A host with physical addresses of two words. *)
#[export] Instance sample_phys : HostPhys := {|
  phys_addr_t := Z * Z;
  phys_ok x := 0 <= x.1 < 2 ^ 32 /\ 0 <= x.2 < 2 ^ 32;
  phys_words x := [x.1; x.2];
  copy_phys_addr x := (0, x);
  copy_phys_addr_to a x := pulp_write32 a x.1 ;; pulp_write32 (a + 4) x.2 ;; mret 0;
  copy_phys_addr_from a := lo ← pulp_read32 a; hi ← pulp_read32 (a + 4); mret (lo, hi)
|}.
#[export] Instance sample_phys_ok : HostPhysOk sample_phys.
Proof.
  split.
  - intros x. apply Nat.le_refl.
  - intros x [H1 H2]. do 2 (apply Forall_cons_2; [done|]). apply Forall_nil_2.
  - done.
  - done.
  - intros a [lo hi] p _ (E1 & E2 & _). cbn [phys_words fst snd] in *. cbn [copy_phys_addr_from sample_phys].
    by rewrite !read_ok, E1, E2.
Qed.

Definition sample_slice : Z := RAB_CFG_BPTR.
Definition sample_target : phys_addr_t (HostPhys := sample_phys) := (0x80000000, 1).

Lemma config_rab_l2_entry_maps_witness :
  exists p', config_rab_l2_entry 0x40000 0x80000 3 5 0 0 (mk_port ∅ []) = Ok 0 p' /\
    entry_pfn (word (regs p') (RAB_CFG_L2_VARAM_PTR 3 5)) = 0x40000 /\ word (regs p') (RAB_CFG_L2_PARAM_PTR 3 5) = 0x80000.
Proof.
  destruct (config_rab_l2_entry_maps 0x40000 0x80000 3 5 0 0 (mk_port ∅ [])) as (p' & E & Hp & _ & _ & _ & Hq & _);
    [split; cbn; lia|lia|lia|]. by exists p'.
Defined.

(** Core 3 of cluster 2 missed at 0x40000010, third in its cluster's queue, as a prefetch. *)
Definition sample_miss : port :=
  mk_port (<[0x51030000 := 0x40000010]> (<[0x51030008 := miss_meta 3 1 2 0 63]> ∅)) [].
Lemma get_rab_miss_decodes_witness :
  get_rab_miss (mk_rab_miss 0 0 0 0 0) sample_miss = Ok (0, mk_rab_miss 0x40000010 3 2 1 1) sample_miss.
Proof.
  destruct (get_rab_miss_decodes 3 1 2 0 63 0x40000010 (mk_rab_miss 0 0 0 0 0) sample_miss) as [E _].
  - split; unfold miss_gap; cbn; lia.
  - by vm_compute.
  - by vm_compute.
  - exact E.
Defined.
