(* ===== verification/Tryx.v ===== *)
(** * Tryx: memory accesses that may miss in the remapping address block

    boot_code/include/hal/tryx/tryx_v1.h.  An access to host memory goes through the
    slices of [Rab], which translate its address: memory is a map from physical
    addresses, and [bus_addr] the one the block forms from the base of a slice and the
    distance to its start.  As the comments of the header say, an access that no slice
    allows ends in a slave error, which the TRYX register shows, and in an entry of the
    miss registers; after [pulp_tryx_set_prefetch] the next access stops at the block,
    hit or miss, and its miss is marked as a prefetch.  The body of
    [pulp_tryx_slowpath] ("go to sleep and wait for wake-up event") is not in the
    repository: it is a parameter that may do anything, to memory and to the slices
    too, and the theorems speak of whatever runs it gives rise to. *)

From S2P Require Import Prelude Monad Builtins Mmio Rab.

(** ** The core's view of host memory *)
Record host := mk_host {
  rab : port;                    (* the registers of the block *)
  host_ram : gmap Z Z;           (* words by physical address *)
  tryx : Z;                      (* the TRYX register *)
  armed : bool;                  (* the next access is a prefetch *)
  noise : Z                      (* what a read that goes nowhere returns *)
}.

(** Who the core is on the bus, and the physical address of a byte of a slice. *)
Class Master := { self_core : Z; self_intra : Z; self_cluster : Z }.
Class Bus `{HostPhys} := { bus_addr : phys_addr_t -> Z -> Z }.

Section Access.
Context `{RabMap} `{Master} `{Bus}.

Definition l1_slices : list Z :=
  map (fun k => RAB_CFG_BPTR + 32 * Z.of_nat k) (seq 0 (Z.to_nat RAB_L1_N_SLICES_PORT_1)).
Definition slice_allows (m : gmap Z Z) (access va a : Z) : bool :=
  has_flag (word m (slice_word a 6)) RAB_CFG_FLAG_EN && has_flag (word m (slice_word a 6)) access &&
  (word m (slice_word a 0) <=? va) && (va <=? word m (slice_word a 2)).
Definition allowed (access va : Z) (s : host) : bool := existsb (slice_allows (regs (rab s)) access va) l1_slices.
(** Where the access goes: the first slice that allows it translates it. *)
Definition location (access va : Z) (s : host) : option Z :=
  a ← find (slice_allows (regs (rab s)) access va) l1_slices;
  match copy_phys_addr_from (slice_word a 4) (rab s) with
  | Ok base _ => Some (bus_addr base (va - word (regs (rab s)) (slice_word a 0)))
  | _ => None
  end.

(** The block latches the miss. *)
Definition user_bits (prefetch : bool) : Z := if prefetch then 2 ^ AXI_USER_WIDTH - 1 else 0.
Definition latch (va : Z) (prefetch : bool) (p : port) : port :=
  mk_port (<[ARCHI_RAB_CFG_ADDR := va]> (<[u32 ARCHI_RAB_CFG_ADDR + 8 :=
    miss_meta self_core self_intra self_cluster 0 (user_bits prefetch)]> (regs p))) (stores p).
Definition missed (va : Z) (s : host) : host := mk_host (latch va (armed s) (rab s)) (host_ram s) 1 false (noise s).
Definition hit (s : host) : host := mk_host (rab s) (host_ram s) 0 false (noise s).
Definition written (l v : Z) (s : host) : host := mk_host (rab s) (<[l := u32 v]> (host_ram s)) 0 false (noise s).

(** A slice whose base is no host address ([location] is [None]) is not modelled. *)
Definition host_load (va : Z) : M host Z := fun s =>
  if allowed RAB_CFG_FLAG_RDEN va s then
    if armed s then Ok (noise s) (hit s)
    else match location RAB_CFG_FLAG_RDEN va s with
         | Some l => Ok (word (host_ram s) l) (hit s)
         | None => Fault s
         end
  else Ok (noise s) (missed va s).
Definition host_store (va v : Z) : M host unit := fun s =>
  if allowed RAB_CFG_FLAG_WREN va s then
    if armed s then Ok tt (hit s)
    else match location RAB_CFG_FLAG_WREN va s with
         | Some l => Ok tt (written l v s)
         | None => Fault s
         end
  else Ok tt (missed va s).

(** ** tryx_v1.h *)
Definition pulp_tryx_has_slverr : M host Z := gets (fun s => if tryx s &&& 0x1 =? 0x1 then 1 else 0).
(** The store of [0xFFFFFFFF]. *)
Definition pulp_tryx_set_prefetch : M host unit :=
  modify (fun s => mk_host (rab s) (host_ram s) (tryx s) true (noise s)).

(** The object [*val] and the result. *)
Definition pulp_tryread_noblock (addr : Z) : M host (Z * Z) := v ← host_load addr; e ← pulp_tryx_has_slverr; mret (v, e).
Definition pulp_trywrite_noblock (addr val : Z) : M host Z := host_store addr val ;; pulp_tryx_has_slverr.

Definition pulp_tryread_prefetch (addr : Z) : M host Z :=
  pulp_tryx_set_prefetch ;; _ ← host_load addr; e ← pulp_tryx_has_slverr;
  if negb (e =? 0) then mret 1 else mret 0.
Definition pulp_trywrite_prefetch (addr : Z) : M host Z :=
  pulp_tryx_set_prefetch ;; host_store addr 0x5000BAD1 ;; e ← pulp_tryx_has_slverr;
  if negb (e =? 0) then mret 1 else mret 0.

Section Blocking.
Context (pulp_tryx_slowpath : M host unit).

(** [while (miss) { pulp_tryx_slowpath(); miss = pulp_tryread_noblock(addr, &val); }]. *)
Fixpoint tryread_loop (fuel : nat) (addr val miss : Z) : M host Z :=
  if miss =? 0 then mret val
  else match fuel with
       | O => spin
       | S fuel => pulp_tryx_slowpath ;; r ← pulp_tryread_noblock addr; tryread_loop fuel addr r.1 r.2
       end.
Definition pulp_tryread (fuel : nat) (addr : Z) : M host Z :=
  r ← pulp_tryread_noblock addr; tryread_loop fuel addr r.1 r.2.

Fixpoint trywrite_loop (fuel : nat) (addr val miss : Z) : M host unit :=
  if miss =? 0 then skip
  else match fuel with
       | O => spin
       | S fuel => pulp_tryx_slowpath ;; miss ← pulp_trywrite_noblock addr val; trywrite_loop fuel addr val miss
       end.
Definition pulp_trywrite (fuel : nat) (addr val : Z) : M host unit :=
  miss ← pulp_trywrite_noblock addr val; trywrite_loop fuel addr val miss.

(** * Theorems *)

(** From [s] the access misses [n] times, and the handler runs after each; [s'] is
    the state when it is tried again. *)
Inductive misses (access addr : Z) : nat -> host -> host -> Prop :=
  | misses_none s : misses access addr 0 s s
  | misses_once n s s1 s' : allowed access addr s = false -> pulp_tryx_slowpath (missed addr s) = Ok tt s1 ->
      misses access addr n s1 s' -> misses access addr (S n) s s'.
(** The access goes to the physical address [l]. *)
Definition reaches (access addr l : Z) (s : host) : Prop :=
  allowed access addr s = true /\ armed s = false /\ location access addr s = Some l.

Lemma load_reaches va l s : reaches RAB_CFG_FLAG_RDEN va l s ->
  pulp_tryread_noblock va s = Ok (word (host_ram s) l, 0) (hit s).
Proof. intros (Ha & Hn & El). unfold pulp_tryread_noblock, host_load, mbind, M_bind. by rewrite Ha, Hn, El. Qed.
Lemma load_missed va s : allowed RAB_CFG_FLAG_RDEN va s = false ->
  pulp_tryread_noblock va s = Ok (noise s, 1) (missed va s).
Proof. intros Ha. unfold pulp_tryread_noblock, host_load, mbind, M_bind. by rewrite Ha. Qed.
Lemma store_reaches va l v s : reaches RAB_CFG_FLAG_WREN va l s ->
  pulp_trywrite_noblock va v s = Ok 0 (written l v s).
Proof. intros (Ha & Hn & El). unfold pulp_trywrite_noblock, host_store, mbind, M_bind. by rewrite Ha, Hn, El. Qed.
Lemma store_missed va v s : allowed RAB_CFG_FLAG_WREN va s = false ->
  pulp_trywrite_noblock va v s = Ok 1 (missed va s).
Proof. intros Ha. unfold pulp_trywrite_noblock, host_store, mbind, M_bind. by rewrite Ha. Qed.

(** A blocking read after [n] misses, with [fuel] rounds of its loop. *)
Lemma read_run addr l n s s' fuel : misses RAB_CFG_FLAG_RDEN addr n s s' -> reaches RAB_CFG_FLAG_RDEN addr l s' ->
  ((n <= fuel)%nat -> pulp_tryread fuel addr s = Ok (word (host_ram s') l) (hit s')) /\
  ((fuel < n)%nat -> exists s1, misses RAB_CFG_FLAG_RDEN addr fuel s s1 /\ pulp_tryread fuel addr s = Spin (missed addr s1)).
Proof.
  intros Hs Hl. revert fuel. unfold pulp_tryread. induction Hs as [s|n s s1 s' Ha E Hs IH]; intros fuel.
  - split; [|lia]. intros _. rewrite (bind_ok _ _ _ _ _ (load_reaches _ _ _ Hl)). by destruct fuel.
  - rewrite (bind_ok _ _ _ _ _ (load_missed _ _ Ha)). destruct fuel as [|fuel]; cbn [tryread_loop fst snd Z.eqb].
    + split; [lia|]. intros _. exists s. split; [constructor|done].
    + rewrite (bind_ok _ _ _ _ _ E). destruct (IH Hl fuel) as [Hok Hsp]. split; [intros; apply Hok; lia|].
      intros Hf. destruct (Hsp ltac:(lia)) as (s2 & Hm & Es). exists s2. split; [by econstructor|done].
Qed.

(** A blocking write. *)
Lemma write_run addr l v n s s' fuel : misses RAB_CFG_FLAG_WREN addr n s s' -> reaches RAB_CFG_FLAG_WREN addr l s' ->
  ((n <= fuel)%nat -> pulp_trywrite fuel addr v s = Ok tt (written l v s')) /\
  ((fuel < n)%nat -> exists s1, misses RAB_CFG_FLAG_WREN addr fuel s s1 /\ pulp_trywrite fuel addr v s = Spin (missed addr s1)).
Proof.
  intros Hs Hl. revert fuel. unfold pulp_trywrite. induction Hs as [s|n s s1 s' Ha E Hs IH]; intros fuel.
  - split; [|lia]. intros _. rewrite (bind_ok _ _ _ _ _ (store_reaches _ _ _ _ Hl)). by destruct fuel.
  - rewrite (bind_ok _ _ _ _ _ (store_missed _ _ _ Ha)). destruct fuel as [|fuel]; cbn [trywrite_loop fst snd Z.eqb].
    + split; [lia|]. intros _. exists s. split; [constructor|done].
    + rewrite (bind_ok _ _ _ _ _ E). destruct (IH Hl fuel) as [Hok Hsp]. split; [intros; apply Hok; lia|].
      intros Hf. destruct (Hsp ltac:(lia)) as (s2 & Hm & Es). exists s2. split; [by econstructor|done].
Qed.
End Blocking.
End Access.

(** ** With the slices *)
Section WithSlices.
Context `{RabMapOk} `{HostPhysOk} `{Master} `{!Bus}.

(** The slice at [a] still holds what it held in [p']. *)
Definition slice_kept (a : Z) (p' : port) (s : host) : Prop :=
  forall i, 0 <= i < 8 -> word (regs (rab s)) (slice_word a i) = word (regs p') (slice_word a i).
(** No other slice allows the access. *)
Definition only_slice (access addr a : Z) (s : host) : Prop :=
  In a l1_slices /\ forall b, In b l1_slices -> slice_allows (regs (rab s)) access addr b = true -> b = a.

Lemma words_at_kept ws : forall m m' a, (length ws <= 2)%nat ->
  (forall i, 0 <= i < 8 -> word m' (slice_word a i) = word m (slice_word a i)) ->
  words_at m (slice_word a 4) ws -> words_at m' (slice_word a 4) ws.
Proof.
  intros m m' a Hl Hk. unfold slice_word in *. pose proof (Hk 4 ltac:(lia)) as E4. pose proof (Hk 5 ltac:(lia)) as E5.
  replace (a + 4 * 5) with (a + 4 * 4 + 4) in E5 by lia.
  destruct ws as [|w1 [|w2 [|? ?]]]; cbn in *; [done|..|lia]; by rewrite E4, ?E5.
Qed.

(** A configured slice allows the accesses it was configured for, and translates
    them to its physical range. *)
Lemma config_translates begin end_ phys a rdonly coherent p p' va s access :
  0 <= begin < 2 ^ 32 -> 0 <= end_ < 2 ^ 32 -> phys_ok phys ->
  config_rab_slice begin end_ phys a rdonly coherent p = Ok 0 p' -> slice_kept a p' s ->
  begin <= va < range_end end_ -> 0 <= va < 2 ^ 32 ->
  access = RAB_CFG_FLAG_RDEN \/ (access = RAB_CFG_FLAG_WREN /\ rdonly = 0) ->
  slice_allows (regs (rab s)) access va a = true /\
  word (regs (rab s)) (slice_word a 0) = begin /\ copy_phys_addr_from (slice_word a 4) (rab s) = Ok phys (rab s).
Proof.
  intros Hb He Hp E Hk Hva Hva32 Hacc. destruct (access_flags_spec rdonly coherent) as (Hf & Hen & Hr & Hw & _).
  revert E. unfold config_rab_slice. rewrite (copy_same _ Hp). cbn [Z.ltb Z.compare].
  set (c := mk_rab_cfg_val begin (u32 (end_ - 1)) phys (u8 (access_flags rdonly coherent))).
  assert (Ef : flags c = access_flags rdonly coherent) by (cbn [flags c]; rewrite u8_small; lia).
  assert (Hv : valid_cfg c) by (split; [done|]; split; [apply u32_range|]; split; [rewrite Ef; lia|done]).
  destruct (write_slice a c p Hv) as (p1 & E1 & (W0 & W2 & W4 & W6) & _). rewrite (bind_ok _ _ _ _ _ E1).
  cbn [Z.ltb Z.compare]. intros [= <-]. cbn [va_start va_end offset c] in W0, W2, W4.
  split; [|split; [by rewrite (Hk 0) by lia|apply copy_from; [done|by apply (words_at_kept _ (regs p1)); [apply phys_size|..]]]].
  unfold slice_allows. rewrite (Hk 0), (Hk 2), (Hk 6), W0, W2, W6, Ef, Hen by lia.
  pose proof (config_contains begin end_ phys (flags c) va Hb He Hva32) as Hc.
  unfold rab_slice_contains_virt_addr in Hc. cbn [va_start va_end c] in *. rewrite Z.geb_leb in Hc.
  destruct (Z.leb_spec begin va); [|lia]. destruct (Z.ltb_spec va (range_end end_)); [|lia]. cbn [andb] in Hc.
  destruct (va <=? u32 (end_ - 1)); [|discriminate]. rewrite andb_true_r, andb_true_r.
  destruct Hacc as [->|[-> ->]]; [by rewrite Hr|by rewrite Hw].
Qed.

Lemma config_reaches begin end_ phys a rdonly coherent p p' va s access :
  0 <= begin < 2 ^ 32 -> 0 <= end_ < 2 ^ 32 -> phys_ok phys ->
  config_rab_slice begin end_ phys a rdonly coherent p = Ok 0 p' -> slice_kept a p' s -> only_slice access va a s ->
  begin <= va < range_end end_ -> 0 <= va < 2 ^ 32 -> armed s = false ->
  access = RAB_CFG_FLAG_RDEN \/ (access = RAB_CFG_FLAG_WREN /\ rdonly = 0) ->
  reaches access va (bus_addr phys (va - begin)) s.
Proof.
  intros Hb He Hp E Hk [Ha Ho] Hva Hva32 Hn Hacc.
  destruct (config_translates begin end_ phys a rdonly coherent p p' va s access) as (Hal & Eb & Ep); try done.
  split; [apply existsb_exists; by exists a|]. split; [done|]. unfold location.
  destruct (find _ l1_slices) as [b|] eqn:Ef; [|by rewrite (find_none _ _ Ef a Ha) in Hal].
  apply find_some in Ef as [Hb1 Hb2]. rewrite (Ho b Hb1 Hb2). cbn. by rewrite Ep, Eb.
Qed.

(** C32. A blocking access ends in the physical memory the translation block maps it
    to, whatever runs while the core sleeps.  When the access has missed [n] times,
    and at the next try the one slice that allows it is as [config_rab_slice] left it
    for a range that contains the address, then the read returns the word that memory
    holds by then at the slice's physical address plus the distance from the start of
    the range, and the write stores its word there and nowhere else; the access takes
    exactly [n] sleeps: with fewer rounds of the loop it is still waiting, its last
    miss latched and memory as the handler left it. *)
Theorem try_through_slice pulp_tryx_slowpath addr v n s s' fuel begin end_ phys a rdonly coherent p p' :
  0 <= begin < 2 ^ 32 -> 0 <= end_ < 2 ^ 32 -> phys_ok phys ->
  config_rab_slice begin end_ phys a rdonly coherent p = Ok 0 p' -> slice_kept a p' s' ->
  begin <= addr < range_end end_ -> 0 <= addr < 2 ^ 32 -> armed s' = false ->
  let l := bus_addr phys (addr - begin) in
  let asleep access s1 := misses pulp_tryx_slowpath access addr fuel s s1 in
  (misses pulp_tryx_slowpath RAB_CFG_FLAG_RDEN addr n s s' -> only_slice RAB_CFG_FLAG_RDEN addr a s' ->
     ((n <= fuel)%nat -> pulp_tryread pulp_tryx_slowpath fuel addr s = Ok (word (host_ram s') l) (hit s')) /\
     ((fuel < n)%nat -> exists s1, asleep RAB_CFG_FLAG_RDEN s1 /\
        pulp_tryread pulp_tryx_slowpath fuel addr s = Spin (missed addr s1))) /\
  (misses pulp_tryx_slowpath RAB_CFG_FLAG_WREN addr n s s' -> only_slice RAB_CFG_FLAG_WREN addr a s' -> rdonly = 0 ->
     ((n <= fuel)%nat -> exists s2, pulp_trywrite pulp_tryx_slowpath fuel addr v s = Ok tt s2 /\
        host_ram s2 = <[l := u32 v]> (host_ram s') /\ rab s2 = rab s') /\
     ((fuel < n)%nat -> exists s1, asleep RAB_CFG_FLAG_WREN s1 /\
        pulp_trywrite pulp_tryx_slowpath fuel addr v s = Spin (missed addr s1))).
Proof.
  intros Hb He Hp E Hk Hva Haddr Hn l asleep. split.
  - intros Hm Ho. apply read_run; [done|].
    apply (config_reaches begin end_ phys a rdonly coherent p p'); try done. by left.
  - intros Hm Ho Hrd. destruct (write_run pulp_tryx_slowpath addr l v n s s' fuel Hm) as [Hok Hsp].
    { apply (config_reaches begin end_ phys a rdonly coherent p p'); try done. by right. }
    split; [|done]. intros Hf. eexists. split; [by apply Hok|done].
Qed.

Lemma latch_words va prefetch p :
  word (regs (latch va prefetch p)) (u32 ARCHI_RAB_CFG_ADDR + 8) =
    miss_meta self_core self_intra self_cluster 0 (user_bits prefetch) /\
  word (regs (latch va prefetch p)) ARCHI_RAB_CFG_ADDR = va.
Proof.
  pose proof cfg_addr. pose proof l2_fits. destruct sets_power as (k & Hk & Es). pose proof entries.
  assert (0 <= 2 ^ k) by (apply Z.pow_nonneg; lia). rewrite Es in *. unfold latch. cbn [regs].
  rewrite (u32_small ARCHI_RAB_CFG_ADDR) by nia. split; [by rewrite word_insert_ne, word_insert by lia|by rewrite word_insert].
Qed.

Definition self_ok : Prop := valid_miss self_core self_intra self_cluster 0 (user_bits true).
Lemma self_valid prefetch : self_ok -> valid_miss self_core self_intra self_cluster 0 (user_bits prefetch).
Proof.
  intros [? ? ? ? Huser]. split; try done. unfold user_bits in *. destruct prefetch; [done|]. split; [lia|].
  destruct widths as (_ & _ & _ & Hu & _). apply Z.pow_pos_nonneg; lia.
Qed.

Lemma latched va prefetch p old : self_ok ->
  get_rab_miss old (latch va prefetch p) =
    Ok (0, mk_rab_miss va (s32 self_core) (s32 self_cluster) (s32 self_intra) (if prefetch then 1 else 0)) (latch va prefetch p).
Proof.
  intros Hs. destruct (latch_words va prefetch p) as [Em Ea].
  rewrite (get_rab_miss_spec _ _ _ _ _ _ old _ (self_valid prefetch Hs) Em Ea).
  do 3 f_equal. destruct widths as (_ & _ & _ & Hu & _). unfold user_bits. destruct prefetch; [by rewrite Z.eqb_refl|].
  assert (2 ^ 1 <= 2 ^ AXI_USER_WIDTH) by (apply Z.pow_le_mono_r; lia).
  by destruct (Z.eqb_spec 0 (2 ^ AXI_USER_WIDTH - 1)); [lia|].
Qed.

(** Probing an address has no effect on memory and tells the truth: the two
    prefetch functions return 0 exactly when a slice allows the access and 1
    otherwise, leave every word of memory alone, and a miss they cause is found in
    the miss registers under the probed address, marked as a prefetch. *)
Theorem prefetch_probes addr s : self_ok ->
  exists sr sw, pulp_tryread_prefetch addr s = Ok (if allowed RAB_CFG_FLAG_RDEN addr s then 0 else 1) sr /\
    pulp_trywrite_prefetch addr s = Ok (if allowed RAB_CFG_FLAG_WREN addr s then 0 else 1) sw /\
    host_ram sr = host_ram s /\ host_ram sw = host_ram s /\ armed sr = false /\ armed sw = false /\
    (allowed RAB_CFG_FLAG_RDEN addr s = false -> forall old,
       get_rab_miss old (rab sr) = Ok (0, mk_rab_miss addr (s32 self_core) (s32 self_cluster) (s32 self_intra) 1) (rab sr)) /\
    (allowed RAB_CFG_FLAG_WREN addr s = false -> forall old,
       get_rab_miss old (rab sw) = Ok (0, mk_rab_miss addr (s32 self_core) (s32 self_cluster) (s32 self_intra) 1) (rab sw)).
Proof.
  intros Hs. set (s1 := mk_host (rab s) (host_ram s) (tryx s) true (noise s)).
  exists (if allowed RAB_CFG_FLAG_RDEN addr s then hit s1 else missed addr s1),
    (if allowed RAB_CFG_FLAG_WREN addr s then hit s1 else missed addr s1).
  unfold pulp_tryread_prefetch, pulp_trywrite_prefetch, pulp_tryx_set_prefetch. rewrite !bind_modify. fold s1.
  unfold host_load, host_store, mbind, M_bind. cbn [armed s1].
  change (allowed RAB_CFG_FLAG_RDEN addr s1) with (allowed RAB_CFG_FLAG_RDEN addr s).
  change (allowed RAB_CFG_FLAG_WREN addr s1) with (allowed RAB_CFG_FLAG_WREN addr s).
  split; [by destruct (allowed RAB_CFG_FLAG_RDEN addr s)|].
  split; [by destruct (allowed RAB_CFG_FLAG_WREN addr s)|].
  split; [by destruct (allowed RAB_CFG_FLAG_RDEN addr s)|]. split; [by destruct (allowed RAB_CFG_FLAG_WREN addr s)|].
  split; [by destruct (allowed RAB_CFG_FLAG_RDEN addr s)|]. split; [by destruct (allowed RAB_CFG_FLAG_WREN addr s)|].
  split; intros -> old; by apply latched.
Qed.
End WithSlices.

(** ** Concrete runs *)
#[export] Instance sample_master : Master := {| self_core := 3; self_intra := 1; self_cluster := 2 |}.
#[export] Instance sample_bus : Bus := {| bus_addr x d := fst x + 2 ^ 32 * snd x + d |}.
Definition sample_host : host := mk_host (mk_port ∅ []) (<[0x180000010 := 42]> ∅) 0 false 0xDEAD.
(** What may run while the core sleeps: it maps the last page of the address space. *)
Definition sample_handler : M host unit := fun s =>
  match config_rab_slice 0xFFFFF000 0 sample_target sample_slice 0 0 (rab s) with
  | Ok _ p => Ok tt (mk_host p (host_ram s) (tryx s) (armed s) (noise s))
  | _ => Fault s
  end.
Lemma sample_self_ok : self_ok.
Proof. split; unfold miss_gap; cbn; lia. Qed.

(** The state in which the access is tried again. *)
Definition sample_mapped : port :=
  match config_rab_slice 0xFFFFF000 0 sample_target sample_slice 0 0 (rab (missed 0xFFFFF010 sample_host)) with
  | Ok _ p => p | _ => rab sample_host
  end.
Definition sample_awake : host := mk_host sample_mapped (host_ram sample_host) 1 false 0xDEAD.
Lemma sample_config :
  config_rab_slice 0xFFFFF000 0 sample_target sample_slice 0 0 (rab (missed 0xFFFFF010 sample_host)) = Ok 0 sample_mapped.
Proof.
  unfold sample_mapped.
  destruct (config_slice_ok 0xFFFFF000 0 sample_target sample_slice 0 0 (rab (missed 0xFFFFF010 sample_host))) as (p & ->);
    [lia|lia|split; simpl; lia|done].
Qed.
Lemma sample_misses access : access = RAB_CFG_FLAG_RDEN \/ access = RAB_CFG_FLAG_WREN ->
  misses sample_handler access 0xFFFFF010 1 sample_host sample_awake.
Proof.
  intros Ha. apply (misses_once _ _ _ 0 _ sample_awake); [by destruct Ha as [->| ->]; vm_compute| |constructor].
  unfold sample_handler. by rewrite sample_config.
Qed.
Lemma sample_only access : access = RAB_CFG_FLAG_RDEN \/ access = RAB_CFG_FLAG_WREN ->
  only_slice access 0xFFFFF010 sample_slice sample_awake.
Proof.
  intros Ha. split; [by left|]. intros b Hin Hal.
  assert (Hall : forallb (fun b => negb (slice_allows (regs (rab sample_awake)) access 0xFFFFF010 b) || (b =? sample_slice)) l1_slices = true)
    by (by destruct Ha as [->| ->]; vm_compute).
  rewrite forallb_forall in Hall. specialize (Hall b Hin). rewrite Hal in Hall. by apply Z.eqb_eq.
Qed.

Lemma try_through_slice_witness :
  (exists s', pulp_tryread sample_handler 1 0xFFFFF010 sample_host = Ok 42 s') /\
  (exists s', pulp_trywrite sample_handler 1 0xFFFFF010 7 sample_host = Ok tt s' /\ word (host_ram s') 0x180000010 = 7) /\
  (exists s1, pulp_tryread sample_handler 0 0xFFFFF010 sample_host = Spin s1).
Proof.
  assert (Hp : phys_ok sample_target) by (split; simpl; lia).
  destruct (try_through_slice sample_handler 0xFFFFF010 7 1 sample_host sample_awake 1 0xFFFFF000 0 sample_target sample_slice 0 0 _ _
    ltac:(lia) ltac:(lia) Hp sample_config ltac:(done) ltac:(by vm_compute) ltac:(lia) eq_refl) as [Hr Hw].
  destruct (try_through_slice sample_handler 0xFFFFF010 7 1 sample_host sample_awake 0 0xFFFFF000 0 sample_target sample_slice 0 0 _ _
    ltac:(lia) ltac:(lia) Hp sample_config ltac:(done) ltac:(by vm_compute) ltac:(lia) eq_refl) as [Hr0 _].
  assert (Hrd : RAB_CFG_FLAG_RDEN = RAB_CFG_FLAG_RDEN \/ RAB_CFG_FLAG_RDEN = RAB_CFG_FLAG_WREN) by by left.
  assert (Hwr : RAB_CFG_FLAG_WREN = RAB_CFG_FLAG_RDEN \/ RAB_CFG_FLAG_WREN = RAB_CFG_FLAG_WREN) by by right.
  split; [|split].
  - destruct (Hr (sample_misses _ Hrd) (sample_only _ Hrd)) as [H _]. exists (hit sample_awake). rewrite H by lia. f_equal.
  - destruct (Hw (sample_misses _ Hwr) (sample_only _ Hwr) eq_refl) as [H _]. destruct (H ltac:(lia)) as (s2 & E2 & Em & _).
    exists s2. split; [exact E2|]. rewrite Em. by vm_compute.
  - destruct (Hr0 (sample_misses _ Hrd) (sample_only _ Hrd)) as [_ H]. destruct (H ltac:(lia)) as (s1 & _ & E1).
    exists (missed 0xFFFFF010 s1). exact E1.
Defined.

Lemma prefetch_probes_witness : exists sr,
  pulp_tryread_prefetch 0xFFFFF010 sample_host = Ok 1 sr /\ host_ram sr = host_ram sample_host /\
  get_rab_miss (mk_rab_miss 0 0 0 0 0) (rab sr) = Ok (0, mk_rab_miss 0xFFFFF010 3 2 1 1) (rab sr).
Proof.
  destruct (prefetch_probes 0xFFFFF010 sample_host sample_self_ok) as (sr & sw & Er & _ & Hm & _ & _ & _ & Hr & _).
  exists sr. split; [exact Er|]. split; [exact Hm|]. apply Hr. by vm_compute.
Defined.
