(* ===== verification/Riscv.v ===== *)
(** * Riscv: the core access headers of the PULP family

    boot_code/include/hal/riscv: the functions over control and status registers of
    riscv_v3.h and riscv_v4.h (those of riscv_v5.h, which the PULPissimo ROM uses, are
    in [Pulp]), and the macros that riscv_v5.h gives a compiler without the PULP
    extensions (riscv_v4.h has the same text).  The assembler instructions access the
    registers of a [port], by number; the macros of a compiler with the extensions
    call its own functions, which are not in the repository. *)

From S2P Require Import Prelude Monad Builtins Mmio.

(** ** The instructions *)
Definition csrr (reg : Z) : M port Z := pulp_read32 reg.
Definition csrw (reg val : Z) : M port unit := pulp_write32 reg val.
Definition csrrc (reg val : Z) : M port Z := state ← csrr reg; csrw reg (state &&& Z.lnot val) ;; mret state.
Definition csrrs (reg val : Z) : M port Z := state ← csrr reg; csrw reg (state ||| val) ;; mret state.

(** The names of the sixteen events of [cpu_perf_name]; no name is a null pointer. *)
Definition event_names : list string :=
  ["CYCLES"; "INSTR"; "LD_STALL"; "JMP_STALL"; "IMISS"; "LD"; "ST"; "JUMP"; "BRANCH"; "TAKEN_BRANCH"; "RVC"; "LD_EXT";
   "ST_EXT"; "LD_EXT_CYC"; "ST_EXT_CYC"; "TCDM_CONT"]%string.

(** ** riscv_v3.h *)
Module V3.
Definition hal_mepc_read : M port Z := csrr 0x341.
Definition core_id : M port Z := hart_id ← csrr 0xF10; mret (hart_id &&& 0x01f).
Definition cluster_id : M port Z := hart_id ← csrr 0xF10; mret (hart_id &&& 0x3e0).
Definition hal_core_id : M port Z := hart_id ← csrr 0xF10; mret (hart_id &&& 0x01f).
Definition hal_cluster_id : M port Z := hart_id ← csrr 0xF10; mret (Z.shiftr (s32 hart_id) 5 &&& 0x3f).
(** [PLP_HAS_FC] is a parameter of the build. *)
Definition hal_has_fc (PLP_HAS_FC : bool) : Z := if PLP_HAS_FC then 1 else 0.
Definition hal_is_fc (PLP_HAS_FC : bool) : M port Z :=
  if negb (hal_has_fc PLP_HAS_FC =? 0) then c ← hal_cluster_id; mret (if c =? 32 then 1 else 0) else mret 0.
Definition hal_irq_disable : M port Z := csrrc 0x300 0.
Definition hal_irq_restore (state : Z) : M port unit := _ ← csrrc 0x300 state; skip.
Definition hal_irq_enable : M port unit := _ ← csrrc 0x300 (Z.shiftl 0x1 1); skip.
Definition CSR_PCMR_ACTIVE : Z := 0x1.
Definition cpu_perf_conf_events (eventMask : Z) : M port unit := csrw 0x7A0 eventMask.
Definition cpu_perf_conf_events_get : M port Z := csrr 0x7A0.
Definition cpu_perf_conf (confMask : Z) : M port unit := csrw 0x7A1 confMask.
Definition cpu_perf_start (conf : Z) : M port unit := cpu_perf_conf (conf ||| CSR_PCMR_ACTIVE).
Definition cpu_perf_stop (conf : Z) : M port unit := cpu_perf_conf conf.
Definition cpu_perf_setall (value : Z) : M port unit := csrw 0x79F value.
(** [case n] reads the CSR [0x780 + n], for the 31 counters. *)
Definition cpu_perf_get (counterId : Z) : M port Z :=
  if (0 <=? counterId) && (counterId <=? 30) then csrr (0x780 + counterId) else mret 0.
Definition cpu_perf_name (event : Z) : option string := event_names !? event.
End V3.

(** ** riscv_v4.h, for a compiler that is not LLVM *)
Module V4.
Section Core.
(** The build: [RISCV_VERSION >= 4] without [RISCV_1_7], the GAP family, and the
    cluster number of the fabric controller where there is one. *)
Context (priv_1_9 gap : bool) (ARCHI_FC_CID : option Z).

Definition hal_spr_read_then_clr (reg val : Z) : M port Z := csrrc reg val.
Definition hal_spr_read_then_set (reg val : Z) : M port Z := csrrs reg val.
Definition hal_spr_write (reg val : Z) : M port unit := csrw reg val.
Definition hal_spr_read (reg : Z) : M port Z := csrr reg.
Definition RV_CSR_MEPC : Z := 0x341.
Definition hal_mepc_read : M port Z := hal_spr_read RV_CSR_MEPC.
Definition hart_csr : Z := if priv_1_9 then if gap then 0x014 else 0xF14 else 0xF10.
Definition core_id : M port Z := hart_id ← csrr hart_csr; mret (hart_id &&& 0x01f).
Definition cluster_id : M port Z := hart_id ← csrr hart_csr; mret (Z.shiftr (s32 hart_id) 5 &&& 0x3f).
Definition hal_core_id : M port Z := core_id.
Definition hal_cluster_id : M port Z := cluster_id.
Definition hal_has_fc : Z := match ARCHI_FC_CID with Some _ => 1 | None => 0 end.
Definition hal_is_fc : M port Z :=
  match ARCHI_FC_CID with
  | None => mret 0
  | Some cid => if negb (hal_has_fc =? 0) then c ← hal_cluster_id; mret (if c =? cid then 1 else 0) else mret 0
  end.
Definition hal_irq_disable : M port Z := hal_spr_read_then_clr 0x300 (Z.shiftl 0x1 3).
Definition hal_irq_restore (state : Z) : M port unit := hal_spr_write 0x300 state.
Definition hal_irq_enable : M port unit := _ ← hal_spr_read_then_set 0x300 (Z.shiftl 0x1 3); skip.
Definition CSR_PCMR_ACTIVE : Z := 0x1.
Definition cpu_perf_conf_events (eventMask : Z) : M port unit := csrw 0x7A0 eventMask.
Definition cpu_perf_conf_events_get : M port Z := csrr 0x7A0.
Definition cpu_perf_conf (confMask : Z) : M port unit := csrw 0x7A1 confMask.
Definition cpu_perf_start (conf : Z) : M port unit := cpu_perf_conf (conf ||| CSR_PCMR_ACTIVE).
Definition cpu_perf_stop (conf : Z) : M port unit := cpu_perf_conf conf.
(** The body is empty. *)
Definition cpu_perf_set (counterId value : Z) : M port unit := skip.
Definition cpu_perf_setall (value : Z) : M port unit := csrw 0x79F value.
Definition cpu_perf_get (counterId : Z) : M port Z :=
  if (0 <=? counterId) && (counterId <=? 30) then csrr (0x780 + counterId) else mret 0.
Definition cpu_perf_name (event : Z) : option string := event_names !? event.
Definition cpu_stack_check_enable (base end_ : Z) : M port unit :=
  csrw 0x7D0 0 ;; csrw 0x7D1 base ;; csrw 0x7D2 end_ ;; csrw 0x7D0 1.
Definition cpu_stack_check_disable : M port unit := csrw 0x7D0 0.
End Core.
End V4.

(** ** The macros for RV32 (riscv_v5.h)

    The elements of a vector have the range of its type. *)
Definition __builtin_pack2 (x y : Z) : v2 := (s16 x, s16 y).
Definition __builtin_packu2 (x y : Z) : v2 := (u16 x, u16 y).
Definition __builtin_pack4 (x y z t : Z) : v4 := (s8 x, s8 y, s8 z, s8 t).
Definition __builtin_packu4 (x y z t : Z) : v4 := (u8 x, u8 y, u8 z, u8 t).
Definition __builtin_max2 (x y : v2) : v2 := zip2 (fun a b => greater (s16 a) (s16 b)) x y.
Definition __builtin_max4 (x y : v4) : v4 := zip4 (fun a b => greater (s8 a) (s8 b)) x y.
Definition __builtin_maxu2 (x y : v2) : v2 := zip2 (fun a b => greater (u16 a) (u16 b)) x y.
Definition __builtin_maxu4 (x y : v4) : v4 := zip4 (fun a b => greater (u8 a) (u8 b)) x y.
Definition __builtin_min2 (x y : v2) : v2 := zip2 (fun a b => less (s16 a) (s16 b)) x y.
Definition __builtin_min4 (x y : v4) : v4 := zip4 (fun a b => less (s8 a) (s8 b)) x y.
Definition __builtin_minu2 (x y : v2) : v2 := zip2 (fun a b => less (u16 a) (u16 b)) x y.
Definition __builtin_minu4 (x y : v4) : v4 := zip4 (fun a b => less (u8 a) (u8 b)) x y.
Definition __builtin_clip (x precision : Z) : option Z :=
  p ← shl_int 1 precision;
  Some (if x <? s32 (- p) then s32 (- p) else if x >? s32 (p - 1) then s32 (p - 1) else x).
Definition __builtin_clipu (x precision : Z) : option Z :=
  if x <? 0 then Some 0 else p ← shl_int 1 precision; Some (if x >? s32 (p - 1) then s32 (p - 1) else x).
(** The expression [k * __builtin_clipu(x, precision)]: the expansion has no outer
    parentheses, so the product belongs to the comparison. *)
Definition product_with_clipu (k x precision : Z) : option Z :=
  if s32 (k * x) <? 0 then Some 0 else p ← shl_int 1 precision; Some (if x >? s32 (p - 1) then s32 (p - 1) else x).
Definition __builtin_abs2 (x : v2) : v2 := map2 (fun a => s16 (if a <? 0 then - a else a)) x.
Definition __builtin_abs4 (x : v4) : v4 := map4 (fun a => s8 (if a <? 0 then - a else a)) x.

Definition __builtin_macs (Acc x y : Z) : Z := s32 (Acc + s16 x * s16 y).
Definition __builtin_machhs (Acc x y : Z) : Z := s32 (Acc + s16 (hi16 x) * s16 (hi16 y)).
Definition __builtin_macu (Acc x y : Z) : Z := s32 (Acc + u16 x * u16 y).
Definition __builtin_machhu (Acc x y : Z) : Z := s32 (Acc + u16 (hi16 x) * u16 (hi16 y)).
Definition __builtin_macsN (Acc x y n : Z) : option Z := shr (s32 (Acc + s16 x * s16 y)) n.
Definition __builtin_macuN (Acc x y n : Z) : option Z := shr (s32 (Acc + u16 x * u16 y)) n.
Definition __builtin_macsRN (Acc x y n : Z) : option Z := r ← round_bit n; shr (s32 (Acc + s16 x * s16 y + r)) n.
Definition __builtin_macuRN (Acc x y n : Z) : option Z := r ← round_bit n; shr (s32 (Acc + u16 x * u16 y + r)) n.
Definition __builtin_machhsN (Acc x y n : Z) : option Z := shr (s32 (Acc + s16 (hi16 x) * s16 (hi16 y))) n.
Definition __builtin_machhuN (Acc x y n : Z) : option Z := shr (s32 (Acc + u16 (hi16 x) * u16 (hi16 y))) n.
Definition __builtin_machhsRN (Acc x y n : Z) : option Z :=
  r ← round_bit n; shr (s32 (Acc + s16 (hi16 x) * s16 (hi16 y) + r)) n.
(** This one adds [n] itself and does not shift. *)
Definition __builtin_machhuRN (Acc x y n : Z) : Z := s32 (Acc + u16 (hi16 x) * u16 (hi16 y) + n).
Definition __builtin_mulsN (x y n : Z) : option Z := shr (s16 x * s16 y) n.
Definition __builtin_mulsRN (x y n : Z) : option Z := r ← round_bit n; shr (s32 (s16 x * s16 y + r)) n.
Definition __builtin_muluN (x y n : Z) : option Z := shr (s32 (u16 x * u16 y)) n.
Definition __builtin_muluRN (x y n : Z) : option Z := r ← round_bit n; shr (s32 (u16 x * u16 y + r)) n.

Definition dot2 (x y : v2) : Z := let '(x0, x1) := x in let '(y0, y1) := y in x0 * y0 + x1 * y1.
Definition dot4 (x y : v4) : Z :=
  let '(x0, x1, x2, x3) := x in let '(y0, y1, y2, y3) := y in x0 * y0 + x1 * y1 + x2 * y2 + x3 * y3.
Definition __builtin_dotp2 (x y : v2) : Z := s32 (dot2 x y).
Definition __builtin_dotpu2 (x y : v2) : Z := s32 (dot2 x y).
Definition __builtin_dotpus2 (x y : v2) : Z := s32 (dot2 x y).
Definition __builtin_sumdotp2 (x y : v2) (z : Z) : Z := s32 (z + dot2 x y).
Definition __builtin_sumdotpu2 (x y : v2) (z : Z) : Z := s32 (z + dot2 x y).
Definition __builtin_sumdotpus2 (x y : v2) (z : Z) : Z := s32 (z + dot2 x y).
Definition __builtin_dotp4 (x y : v4) : Z := s32 (dot4 x y).
Definition __builtin_dotpu4 (x y : v4) : Z := s32 (dot4 x y).
Definition __builtin_dotpus4 (x y : v4) : Z := s32 (dot4 x y).
Definition __builtin_sumdotp4 (x y : v4) (z : Z) : Z := s32 (z + dot4 x y).
Definition __builtin_sumdotpu4 (x y : v4) (z : Z) : Z := s32 (z + dot4 x y).
Definition __builtin_sumdotpus4 (x y : v4) (z : Z) : Z := s32 (z + dot4 x y).

Definition __FL1 (x : Z) : option Z := n ← clz x; Some (31 - n).
(** [while (x) { if (x & 1) result++; x >>= 1; }], at most [fuel] times; [None] when
    the loop is not over. *)
Fixpoint clb_loop (fuel : nat) (x result : Z) : option Z :=
  if x =? 0 then Some result
  else match fuel with
       | O => None
       | S fuel => clb_loop fuel (Z.shiftr x 1) (if x &&& 1 =? 0 then result else result + 1)
       end.
Definition __builtin_clb (x : Z) : option Z := clb_loop 32 (u32 x) 0.

Definition bi_ExtInsMaskFast (Size Offset : Z) : Z := u32 (Z.shiftl (Size - 1) 5) ||| Offset.
(** [(unsigned int)(1<<(size))-1]: the shift is that of an [int]. *)
Definition low_mask (size : Z) : option Z := p ← shl_int 1 size; Some (p - 1).
Definition __builtin_bitextractu (x size off : Z) : option Z := v ← shr x off; m ← low_mask size; Some (u32 v &&& m).
Definition __builtin_bitextract (x size off : Z) : option Z :=
  v ← __builtin_bitextractu x size off; l ← shl_u32 v (32 - size); shr l (32 - size).
Definition __builtin_bitinsert_r (dst src size off : Z) : option Z :=
  p ← shl_int 1 size; m ← shl_int (p - 1) off; q ← shl_int (src &&& (p - 1)) off;
  Some (u32 ((dst &&& Z.lnot m) ||| q)).
Definition __builtin_rotr (x : Z) : Z := (Z.shiftr x 1 &&& 0x7FFFFFFF) ||| u32 (Z.shiftl x 31).
Definition __builtin_addroundnormu (x y scale : Z) : option Z := r ← round_bit scale; shr (u32 (x + y + r)) scale.
Definition __builtin_addroundnorm (x y scale : Z) : option Z := r ← round_bit scale; shr (s32 (x + y + r)) scale.
Definition __builtin_roundnormu (x scale : Z) : option Z := r ← round_bit scale; shr (u32 (x + r)) scale.
Definition __builtin_roundnorm (x scale : Z) : option Z := r ← round_bit scale; shr (s32 (x + r)) scale.

(** * Theorems *)

(** ** Interrupts *)
Definition MSTATUS : Z := 0x300.
Definition status (p : port) : Z := word (regs p) MSTATUS.
Definition status_ok (p : port) : Prop := 0 <= status p < 2 ^ 32.

Lemma land_not_range x m : 0 <= x < 2 ^ 32 -> 0 <= x &&& Z.lnot m < 2 ^ 32.
Proof.
  intros Hx. apply testbit_bound; [lia|apply Z.land_nonneg; lia|].
  intros i Hi. rewrite Z.land_spec, (testbit_above 32 x i) by lia. done.
Qed.

Lemma csrrc_status val p : status_ok p -> exists p', csrrc MSTATUS val p = Ok (status p) p' /\
  status p' = status p &&& Z.lnot val /\ status_ok p'.
Proof.
  intros Hp. pose proof (land_not_range (status p) val Hp) as Hr. eexists. split; [reflexivity|].
  unfold status_ok, status in *. cbn [regs stored]. rewrite word_insert, u32_small by done. done.
Qed.

(** [s = disable(); body; restore(s);] *)
Definition critical {A} (disable : M port Z) (restore : Z -> M port unit) (body : M port A) : M port A :=
  s ← disable; a ← body; restore s ;; mret a.

(** C38. Critical sections nest in the version 4 of the core access functions: for
    every body that leaves the status register as it found it (another critical
    section, for instance), interrupts are off when the body starts, no other bit of
    the register has changed, and at the end the register is what it was before.  In
    version 3 the same functions do something else: disabling changes nothing,
    restoring clears every bit that was set, and enabling clears a bit. *)
Theorem irq_sections_nest {A} (body : M port A) p :
  status_ok p ->
  (forall a p2,
     let p1 := stored MSTATUS (status p &&& Z.lnot 8) p in
     body p1 = Ok a p2 -> status p2 = status p1 ->
     Z.testbit (status p1) 3 = false /\ (forall i, 0 <= i -> i <> 3 -> Z.testbit (status p1) i = Z.testbit (status p) i) /\
     exists p', critical V4.hal_irq_disable V4.hal_irq_restore body p = Ok a p' /\ status p' = status p) /\
  (exists p', V3.hal_irq_disable p = Ok (status p) p' /\ status p' = status p) /\
  (forall a p2, body (stored MSTATUS (status p) p) = Ok a p2 -> status p2 = status p ->
     exists p', critical V3.hal_irq_disable V3.hal_irq_restore body p = Ok a p' /\ status p' = 0) /\
  (exists p', V3.hal_irq_enable p = Ok tt p' /\ Z.testbit (status p') 1 = false).
Proof.
  intros Hp. pose proof (land_not_range (status p) 8 Hp) as H8. unfold status_ok in Hp.
  assert (H0 : status p &&& Z.lnot 0 = status p) by apply Z.land_m1_r.
  split; [|split; [|split]].
  - intros a p2 p1 Eb Es.
    assert (E1 : status p1 = status p &&& Z.lnot 8) by (unfold p1, status; cbn [regs stored]; by rewrite word_insert, u32_small).
    rewrite E1. split; [|split].
    + rewrite Z.land_spec. change (Z.testbit (Z.lnot 8) 3) with false. apply andb_false_r.
    + intros i Hi Hne. rewrite Z.land_spec, Z.lnot_spec by done. change 8 with (2 ^ 3).
      rewrite Z.pow2_bits_false by lia. apply andb_true_r.
    + exists (stored MSTATUS (status p) p2). split; [|unfold status; cbn [regs stored]; by rewrite word_insert, u32_small].
      change ((a ← body; V4.hal_irq_restore (status p) ;; mret a) p1 = Ok a (stored MSTATUS (status p) p2)).
      by rewrite (bind_ok _ _ _ _ _ Eb).
  - destruct (csrrc_status 0 p Hp) as (p' & E & Es & _). exists p'. split; [exact E|]. by rewrite Es, H0.
  - intros a p2 Eb Es. destruct (csrrc_status (status p) p2) as (p' & E & Es' & _); [unfold status_ok; by rewrite Es|].
    exists p'. split; [|by rewrite Es', Es, Z.land_lnot_diag].
    change ((a ← body; V3.hal_irq_restore (status p) ;; mret a) (stored MSTATUS (status p &&& Z.lnot 0) p) = Ok a p').
    rewrite H0, (bind_ok _ _ _ _ _ Eb). unfold V3.hal_irq_restore. by rewrite bind_assoc, (bind_ok _ _ _ _ _ E).
  - destruct (csrrc_status 2 p Hp) as (p' & E & Es & _). exists p'. unfold V3.hal_irq_enable.
    split; [by rewrite (bind_ok _ _ _ _ _ E)|]. rewrite Es, Z.land_spec. apply andb_false_r.
Qed.

(** ** The stack check

    The range that is being checked: none while the check is off. *)
Definition checked_range (m : gmap Z Z) : option (Z * Z) :=
  if word m 0x7D0 =? 0 then None else Some (word m 0x7D1, word m 0x7D2).

(** The check never sees one bound of the new range with one of the old. *)
Lemma stack_check_enable_safe base end_ p : 0 <= base < 2 ^ 32 -> 0 <= end_ < 2 ^ 32 ->
  exists p', V4.cpu_stack_check_enable base end_ p = Ok tt p' /\ checked_range (regs p') = Some (base, end_) /\
    throughout (fun m => checked_range m = checked_range (regs p) \/ checked_range m = None \/
                         checked_range m = Some (base, end_)) p p'.
Proof.
  intros Hb He. eexists. split; [reflexivity|]. unfold checked_range. cbn [regs stored]. split.
  - autorewrite with mmio. rewrite !(u32_small base), !(u32_small end_) by done. done.
  - apply (throughout_store _ 0x7D0 0); [by left|]. apply (throughout_store _ 0x7D1 base).
    { right. left. cbn [regs stored]. by autorewrite with mmio. }
    apply (throughout_store _ 0x7D2 end_). { right. left. cbn [regs stored]. by autorewrite with mmio. }
    apply (throughout_store _ 0x7D0 1). { right. left. cbn [regs stored]. by autorewrite with mmio. }
    apply throughout_refl. right. right. cbn [regs stored]. autorewrite with mmio.
    rewrite !(u32_small base), !(u32_small end_) by done. done.
Qed.

(** ** The macros *)
Lemma shl_int_pow n : 0 <= n <= 30 -> shl_int 1 n = Some (2 ^ n) /\ 0 < 2 ^ n <= 2 ^ 30.
Proof.
  intros Hn. assert (Hp : 0 < 2 ^ n <= 2 ^ 30) by (split; [apply Z.pow_pos_nonneg|apply Z.pow_le_mono_r]; lia).
  split; [|done]. change (2 ^ 30) with 1073741824 in Hp.
  rewrite shl_int_some; rewrite ?Z.shiftl_mul_pow2, ?Z.mul_1_l by lia; (done || lia).
Qed.

Definition clamp (lo hi x : Z) : Z := Z.max lo (Z.min hi x).
Lemma clips x n : 0 <= n <= 30 ->
  __builtin_clip x n = Some (clamp (- 2 ^ n) (2 ^ n - 1) x) /\ __builtin_clipu x n = Some (clamp 0 (2 ^ n - 1) x).
Proof.
  intros Hn. destruct (shl_int_pow n Hn) as [E Hp]. change (2 ^ 30) with 1073741824 in Hp.
  unfold __builtin_clip, __builtin_clipu, clamp. rewrite E. cbn.
  rewrite !s32_small by (change (2 ^ 31) with 2147483648; lia). rewrite !Z.gtb_ltb.
  split; [f_equal|]; destruct (Z.ltb_spec x (- 2 ^ n)), (Z.ltb_spec (2 ^ n - 1) x), (Z.ltb_spec x 0); (lia || f_equal; lia).
Qed.

(** The factor is lost. *)
Lemma clipu_loses_factor k x n : 0 < k -> 0 <= x -> k * x < 2 ^ 31 -> product_with_clipu k x n = __builtin_clipu x n.
Proof.
  intros Hk Hx Hb. unfold product_with_clipu, __builtin_clipu. rewrite s32_small by nia.
  destruct (Z.ltb_spec (k * x) 0), (Z.ltb_spec x 0); (nia || done).
Qed.

(** Multiples of [2^n] nearest to [y], divided by [2^n]. *)
Definition nearest (y n : Z) (r : option Z) : Prop :=
  exists q, r = Some q /\ 2 ^ n * q - 2 ^ (n - 1) <= y < 2 ^ n * q + 2 ^ (n - 1).
Definition roundable (y n : Z) : Prop := - 2 ^ 31 <= y < 2 ^ 31 - 2 ^ (n - 1).
Lemma rounds y n r : 1 <= n < 32 -> roundable y n -> r = (b ← round_bit n; shr (s32 (y + b)) n) -> nearest y n r.
Proof.
  intros Hn Hy ->. destruct (round_shift y n Hn Hy) as (q & b & Eb & Eq & H). exists q. split; [|done].
  rewrite Eb. exact Eq.
Qed.

(** The number of bits that are set, among the first [w]. *)
Fixpoint ones_in (w : nat) (x : Z) : Z :=
  match w with O => 0 | S w => Z.b2z (Z.testbit x (Z.of_nat w)) + ones_in w x end.
Lemma ones_in_shift w x : ones_in (S w) x = Z.b2z (Z.testbit x 0) + ones_in w (Z.shiftr x 1).
Proof.
  induction w as [|w IH]; [reflexivity|]. change (ones_in (S (S w)) x) with (Z.b2z (Z.testbit x (Z.of_nat (S w))) + ones_in (S w) x).
  rewrite IH. cbn [ones_in]. rewrite Z.shiftr_spec by lia. replace (Z.of_nat w + 1) with (Z.of_nat (S w)) by lia. lia.
Qed.
Lemma ones_in_zero w : ones_in w 0 = 0.
Proof. induction w as [|w IH]; [done|]. cbn [ones_in]. by rewrite Z.bits_0, IH. Qed.

Lemma clb_loop_counts w : forall x acc, 0 <= x < 2 ^ Z.of_nat w -> clb_loop w x acc = Some (acc + ones_in w x).
Proof.
  induction w as [|w IH]; intros x acc Hx.
  - assert (x = 0) as -> by (change (2 ^ Z.of_nat 0) with 1 in Hx; lia). cbn. by rewrite Z.add_0_r.
  - cbn [clb_loop]. destruct (Z.eqb_spec x 0) as [->|]; [by rewrite ones_in_zero, Z.add_0_r|].
    rewrite ones_in_shift, IH, land_1_eqb.
    + f_equal. destruct (Z.testbit x 0); cbn [negb Z.b2z]; lia.
    + rewrite Z.shiftr_div_pow2 by lia. change (2 ^ 1) with 2.
      rewrite Nat2Z.inj_succ, Z.pow_succ_r in Hx by lia. Z.div_mod_to_equations. lia.
Qed.
Lemma clb_counts x : 0 <= x < 2 ^ 32 -> __builtin_clb x = Some (ones_in 32 x).
Proof. intros Hx. unfold __builtin_clb. rewrite u32_small by done. by rewrite (clb_loop_counts 32 x 0 Hx). Qed.

Lemma extractu_macro x size off : 0 <= x < 2 ^ 32 -> __builtin_bitextractu x size off = __BITEXTRACTU x size off.
Proof.
  intros Hx. unfold __builtin_bitextractu, __BITEXTRACTU, shr. destruct (decide (0 <= off < 32)); [|by rewrite shift_ok_false].
  rewrite shift_ok_true by done. cbn. rewrite u32_small; [done|]. assert (0 < 2 ^ off) by (apply Z.pow_pos_nonneg; lia).
  rewrite Z.shiftr_div_pow2 by lia. split; [apply Z.div_pos; lia|]. apply Z.div_lt_upper_bound; [done|]. nia.
Qed.

(** The signed extraction does not extend the sign. *)
Lemma extract_unsigned x size off : 0 <= x < 2 ^ 32 -> 1 <= size < 31 -> 0 <= off < 32 ->
  __builtin_bitextract x size off = __builtin_bitextractu x size off.
Proof.
  intros Hx Hs Ho. unfold __builtin_bitextract. rewrite extractu_macro, bitextractu_field by lia. cbn.
  set (v := Z.shiftr x off mod 2 ^ size). assert (Hv : 0 <= v < 2 ^ size) by (apply Z.mod_pos_bound, Z.pow_pos_nonneg; lia).
  assert (E : 2 ^ size * 2 ^ (32 - size) = 2 ^ 32) by (rewrite <- Z.pow_add_r by lia; f_equal; lia).
  assert (0 < 2 ^ (32 - size)) by (apply Z.pow_pos_nonneg; lia).
  unfold shl_u32, shr. rewrite shift_ok_true by lia. cbn. rewrite Z.shiftl_mul_pow2, Z.shiftr_div_pow2 by lia.
  rewrite u32_small by (change 4294967296 with (2 ^ 32); nia). by rewrite Z.div_mul by lia.
Qed.

Lemma insert_macro dst src size off : 0 <= dst < 2 ^ 32 -> 0 <= src < 2 ^ 32 ->
  __builtin_bitinsert_r dst src size off = __BITINSERT dst src size off.
Proof.
  intros Hd Hs. assert (Hsplit : int_field size off \/ ~ int_field size off) by (unfold int_field; lia).
  assert (E : __builtin_bitinsert_r dst src size off = r ← __BITINSERT dst src size off; Some (u32 r)).
  { unfold __builtin_bitinsert_r, __BITINSERT, field_mask, size_mask. rewrite !(u32_small dst), !(u32_small src) by done.
    destruct (shl_int 1 size) as [p|]; [|done]. cbn. destruct (shl_int (p - 1) off) as [m|]; [|done]. cbn.
    by destruct (shl_int (src &&& (p - 1)) off). }
  rewrite E. destruct Hsplit as [H|H]; [|by rewrite bitinsert_none].
  destruct (bitinsert_field dst src size off H) as (r & -> & Hr & _). cbn. by rewrite u32_small.
Qed.

Lemma rotr_rotates x i : 0 <= x < 2 ^ 32 -> 0 <= i < 32 -> Z.testbit (__builtin_rotr x) i = Z.testbit x ((i + 1) mod 32).
Proof.
  intros Hx Hi. unfold __builtin_rotr. change 0x7FFFFFFF with (Z.ones 31).
  rewrite Z.lor_spec, Z.land_spec, u32_testbit, shiftl_testbit, shiftr_testbit, ones_testbit by lia.
  destruct (Z.ltb_spec i 31), (Z.ltb_spec i 32), (Z.leb_spec 31 i); cbn [andb]; try lia.
  - rewrite Z.mod_small by lia. by rewrite andb_true_r, orb_false_r.
  - assert (i = 31) as -> by lia. by rewrite andb_false_r.
Qed.

(** C39. The macros for RV32 compute what they are named for.  On any argument,
    clipping to [n] bits is clamping, also in the unsigned form standing alone; the
    rounding forms of multiply-accumulate, product, sum and normalisation return the
    nearest multiple of [2^n], divided by it, as long as the rounded sum is an int;
    unsigned extraction is defined exactly for up to 30 bits and returns the field,
    insertion replaces exactly the field wherever its mask is an int, and only there
    is it defined; rotation rotates by one.  (The macros that do something else than
    their name or comment says are those of [rv32_macros_deviate].) *)
Theorem rv32_macros acc x y n size off i :
  0 <= n <= 30 -> 0 <= x < 2 ^ 32 -> 0 <= y < 2 ^ 32 -> 0 <= i < 32 ->
  (forall z, __builtin_clip z n = Some (clamp (- 2 ^ n) (2 ^ n - 1) z)) /\
  (forall z, __builtin_clipu z n = Some (clamp 0 (2 ^ n - 1) z)) /\
  (1 <= n ->
     (roundable (acc + s16 x * s16 y) n -> nearest (acc + s16 x * s16 y) n (__builtin_macsRN acc x y n)) /\
     (roundable (acc + u16 x * u16 y) n -> nearest (acc + u16 x * u16 y) n (__builtin_macuRN acc x y n)) /\
     (let p := s16 (hi16 x) * s16 (hi16 y) in
      roundable (acc + p) n -> nearest (acc + p) n (__builtin_machhsRN acc x y n)) /\
     (roundable (s16 x * s16 y) n -> nearest (s16 x * s16 y) n (__builtin_mulsRN x y n)) /\
     (roundable (u16 x * u16 y) n -> nearest (u16 x * u16 y) n (__builtin_muluRN x y n)) /\
     (roundable (acc + y) n -> nearest (acc + y) n (__builtin_addroundnorm acc y n)) /\
     (roundable acc n -> nearest acc n (__builtin_roundnorm acc n))) /\
  (is_Some (__builtin_bitextractu x size off) <-> 0 <= size < 31 /\ 0 <= off < 32) /\
  (forall r, __builtin_bitextractu x size off = Some r -> r = x / 2 ^ off mod 2 ^ size) /\
  (is_Some (__builtin_bitinsert_r x y size off) <-> int_field size off) /\
  (forall r, __builtin_bitinsert_r x y size off = Some r -> has_field r x y size off) /\
  Z.testbit (__builtin_rotr x) i = Z.testbit x ((i + 1) mod 32).
Proof.
  intros Hn Hx Hy Hi. split; [intros z; by apply clips|]. split; [intros z; by apply clips|]. split.
  { intros Hn1. assert (Hn' : 1 <= n < 32) by lia. do 6 (split; [intros; by apply rounds|]). intros. by apply rounds. }
  rewrite extractu_macro, insert_macro by done. split; [|split; [|split; [|split]]].
  - apply defined_iff; [lia|intros [? ?]; by rewrite bitextractu_field|apply bitextractu_none].
  - intros r E. assert (H : 0 <= size < 31 /\ 0 <= off < 32 \/ ~ (0 <= size < 31 /\ 0 <= off < 32)) by lia.
    destruct H as [[? ?]|H]; [|by rewrite bitextractu_none in E]. rewrite bitextractu_field, Z.shiftr_div_pow2 in E by lia. by injection E.
  - apply defined_iff; [unfold int_field; lia| |apply bitinsert_none].
    intros H. destruct (bitinsert_field x y size off H) as (r & -> & _). done.
  - intros r E. assert (H : int_field size off \/ ~ int_field size off) by (unfold int_field; lia).
    destruct H as [H|H]; [|by rewrite bitinsert_none in E]. destruct (bitinsert_field x y size off H) as (r' & E' & F). by simplify_eq.
  - by apply rotr_rotates.
Qed.

(** The macros that do something else than their name or comment says.  The unsigned
    clip loses a factor in front of it; the rounding multiply-accumulate on unsigned
    upper halves adds [n] and does not shift; the signed extraction never extends a
    sign; and what the comment calls the number of sign bits is the number of bits
    set: 1 for the word 1, whose upper 31 bits are copies of its sign. *)
Theorem rv32_macros_deviate k x z n size off :
  0 <= n <= 30 -> 0 <= x < 2 ^ 32 -> 1 <= size < 31 -> 0 <= off < 32 -> 0 < k -> 0 <= z -> k * z < 2 ^ 31 ->
  product_with_clipu k z n = __builtin_clipu z n /\
  (forall a b m, __builtin_machhuRN 0 a b m = s32 (u16 (hi16 a) * u16 (hi16 b) + m)) /\
  __builtin_bitextract x size off = __builtin_bitextractu x size off /\
  __builtin_bitextract 0xF0 4 4 = Some 15 /\
  __builtin_clb x = Some (ones_in 32 x) /\ __builtin_clb 1 = Some 1.
Proof.
  intros Hn Hx Hs Ho Hk Hz Hb. split; [by apply clipu_loses_factor|]. split; [done|].
  split; [by apply extract_unsigned|]. split; [done|]. split; [by apply clb_counts|done].
Qed.

(** ** Concrete runs *)
Lemma irq_sections_nest_witness :
  let p := stored MSTATUS 0x1888 (mk_port ∅ []) in
  (exists p', critical V4.hal_irq_disable V4.hal_irq_restore (critical V4.hal_irq_disable V4.hal_irq_restore (mret 5)) p =
     Ok 5 p' /\ status p' = 0x1888) /\
  (exists p', critical V3.hal_irq_disable V3.hal_irq_restore (mret 5) p = Ok 5 p' /\ status p' = 0).
Proof.
  intros p. split.
  - destruct (irq_sections_nest (critical V4.hal_irq_disable V4.hal_irq_restore (mret 5)) p) as [Ha _].
    + split; by vm_compute.
    + edestruct Ha as (_ & _ & H); [reflexivity|by vm_compute|exact H].
  - destruct (irq_sections_nest (mret 5) p) as (_ & _ & Hb & _).
    + split; by vm_compute.
    + edestruct Hb as (p' & E & Es); [reflexivity|by vm_compute|]. exists p'. split; [exact E|exact Es].
Defined.

Lemma rv32_macros_witness :
  __builtin_clip 1000 7 = Some 127 /\ nearest 11 2 (__builtin_macsRN 5 2 3 2) /\
  (exists r, __builtin_bitinsert_r 0xABCD 3 8 4 = Some r /\ r = 0xA03D) /\ ~ is_Some (__builtin_bitinsert_r 0xABCD 3 8 24).
Proof.
  destruct (rv32_macros 5 2 3 2 8 4 0) as (_ & _ & H & _); [lia..|].
  destruct (rv32_macros 0 0xABCD 3 7 8 4 0) as (H1 & _); [lia..|].
  destruct (rv32_macros 0 0xABCD 3 7 8 24 0) as (_ & _ & _ & _ & _ & H2 & _); [lia..|].
  split; [by rewrite H1|]. split; [apply H; [lia|by vm_compute]|]. split; [by eexists|].
  intros Hi%H2. unfold int_field in Hi. lia.
Defined.

Lemma rv32_macros_deviate_witness : product_with_clipu 2 1000 7 = Some 127 /\ __builtin_bitextract 0xABCD 8 4 = Some 0xBC.
Proof.
  destruct (rv32_macros_deviate 2 0xABCD 1000 7 8 4) as (H1 & _ & H2 & _); [lia..|]. by rewrite H1, H2.
Defined.
