(* ===== verification/Hyper.v ===== *)
(** * Hyper: the HAL of the HyperBus interface

    boot_code/include/hal/udma/hyper/udma_hyper_v1.h with archi/udma/hyper/udma_hyper_v1.h,
    over the channel functions of hal/udma/udma_v2.h and archi/udma/udma_v2.h.  Each
    configuration register packs several fields; a setter reads the register, clears
    its field with a mask and ors the shifted value in. *)

From S2P Require Import Prelude Monad Builtins Mmio.

(** ** archi/udma/udma_v2.h *)
Definition UDMA_PERIPH_AREA_SIZE_LOG2 : Z := 7.
Definition UDMA_PERIPH_AREA_SIZE : Z := Z.shiftl 1 UDMA_PERIPH_AREA_SIZE_LOG2.
Definition UDMA_CHANNEL_SIZE_LOG2 : Z := 4.
Definition UDMA_CHANNEL_SIZE : Z := Z.shiftl 1 UDMA_CHANNEL_SIZE_LOG2.
Definition UDMA_CHANNEL_RX_OFFSET : Z := 0x00.
Definition UDMA_CHANNEL_TX_OFFSET : Z := 0x10.
Definition UDMA_CHANNEL_CUSTOM_OFFSET : Z := 0x20.
Definition UDMA_CHANNEL_SADDR_OFFSET : Z := 0x0.
Definition UDMA_CHANNEL_SIZE_OFFSET : Z := 0x4.
Definition UDMA_CHANNEL_CFG_OFFSET : Z := 0x8.
Definition UDMA_CHANNEL_INTCFG_OFFSET : Z := 0xC.
Definition UDMA_CONF_SIZE : Z := 0x040.
Definition UDMA_CONF_CG_OFFSET : Z := 0x00.
Definition UDMA_CONF_EVTIN_OFFSET : Z := 0x04.
Definition UDMA_CHANNEL_CFG_SHADOW_BIT : Z := 5.
Definition UDMA_CHANNEL_CFG_CLEAR_BIT : Z := 5.
Definition UDMA_CHANNEL_CFG_EN_BIT : Z := 4.
Definition UDMA_CHANNEL_CFG_SIZE_BIT : Z := 1.
Definition UDMA_CHANNEL_CFG_CONT_BIT : Z := 0.
Definition UDMA_CHANNEL_CFG_SHADOW : Z := Z.shiftl 1 UDMA_CHANNEL_CFG_SHADOW_BIT.
Definition UDMA_CHANNEL_CFG_CLEAR : Z := Z.shiftl 1 UDMA_CHANNEL_CFG_CLEAR_BIT.
Definition UDMA_CHANNEL_CFG_EN : Z := Z.shiftl 1 UDMA_CHANNEL_CFG_EN_BIT.
Definition UDMA_CHANNEL_CFG_SIZE_8 : Z := Z.shiftl 0 UDMA_CHANNEL_CFG_SIZE_BIT.
Definition UDMA_CHANNEL_CFG_SIZE_16 : Z := Z.shiftl 1 UDMA_CHANNEL_CFG_SIZE_BIT.
Definition UDMA_CHANNEL_CFG_SIZE_32 : Z := Z.shiftl 2 UDMA_CHANNEL_CFG_SIZE_BIT.
Definition UDMA_CHANNEL_CFG_CONT : Z := Z.shiftl 1 UDMA_CHANNEL_CFG_CONT_BIT.
Definition UDMA_CONF_EVTIN_EVT (udmaId globalId : Z) : Z := Z.shiftl globalId (udmaId * 8).
Definition UDMA_PERIPH_OFFSET (id : Z) : Z := Z.shiftl id UDMA_PERIPH_AREA_SIZE_LOG2.
Definition UDMA_PERIPH_GET (offset : Z) : Z := Z.shiftr offset UDMA_PERIPH_AREA_SIZE_LOG2.
Definition UDMA_CHANNEL_OFFSET (id : Z) : Z := Z.shiftl id UDMA_CHANNEL_SIZE_LOG2.
Definition UDMA_CHANNEL_GET (offset : Z) : Z := Z.shiftr offset UDMA_CHANNEL_SIZE_LOG2.
Definition UDMA_CHANNEL_ID (id : Z) : Z := id * 2.
Definition UDMA_PERIPH_ID (id : Z) : Z := Z.quot id 2.

(** ** archi/udma/hyper/udma_hyper_v1.h *)
Definition REG_ACCESS : Z := 0x1.
Definition MEM_ACCESS : Z := 0x0.
Definition REG_MBR0 : Z := 0.
Definition REG_MBR1 : Z := 0x01000000.
Definition REG_MBR_WIDTH : Z := 24.
Definition HYPER_EXT_ADDR_CHANNEL_OFFSET : Z := 0x00.
Definition HYPER_EXT_CFG_CHANNEL_OFFSET : Z := 0x04.
Definition HYPER_MEM_CFG0_CHANNEL_OFFSET : Z := 0x08.
Definition HYPER_MEM_CFG1_CHANNEL_OFFSET : Z := 0x0C.
Definition HYPER_MEM_CFG2_CHANNEL_OFFSET : Z := 0x10.
Definition HYPER_MEM_CFG3_CHANNEL_OFFSET : Z := 0x14.
Definition HYPER_MEM_CFG4_CHANNEL_OFFSET : Z := 0x18.
Definition HYPER_MEM_CFG5_CHANNEL_OFFSET : Z := 0x1C.
Definition HYPER_MEM_CFG6_CHANNEL_OFFSET : Z := 0x20.
Definition HYPER_MEM_CFG7_CHANNEL_OFFSET : Z := 0x24.
Definition HYPER_NB_REGS : Z := 10.
Definition HYPER_EXT_ADDR_CHANNEL_CUSTOM_OFFSET : Z := 0x20.
Definition HYPER_EXT_CFG_CHANNEL_CUSTOM_OFFSET : Z := 0x24.
Definition HYPER_MEM_CFG0_CHANNEL_CUSTOM_OFFSET : Z := 0x28.
Definition HYPER_MEM_CFG1_CHANNEL_CUSTOM_OFFSET : Z := 0x2C.
Definition HYPER_MEM_CFG2_CHANNEL_CUSTOM_OFFSET : Z := 0x30.
Definition HYPER_MEM_CFG3_CHANNEL_CUSTOM_OFFSET : Z := 0x34.
Definition HYPER_MEM_CFG4_CHANNEL_CUSTOM_OFFSET : Z := 0x38.
Definition HYPER_MEM_CFG5_CHANNEL_CUSTOM_OFFSET : Z := 0x3C.
Definition HYPER_MEM_CFG6_CHANNEL_CUSTOM_OFFSET : Z := 0x40.
Definition HYPER_MEM_CFG7_CHANNEL_CUSTOM_OFFSET : Z := 0x44.
Definition HYPER_EXT_ADDR_MASK : Z := 0xFFFFFFFF.
Definition HYPER_EXT_CFG_MASK : Z := 0x0000.
Definition HYPER_MEM_CFG0_MASK : Z := 0x3FFF.
Definition HYPER_MEM_CFG1_MASK : Z := 0xFFFFFF.
Definition HYPER_MEM_CFG2_MASK : Z := 0x01FF01FF.
Definition HYPER_MEM_CFG3_MASK : Z := 0x73F.
Definition HYPER_MEM_CFG4_MASK : Z := 0x3FFF.
Definition HYPER_MEM_CFG5_MASK : Z := 0x00FFFFFF.
Definition HYPER_MEM_CFG6_MASK : Z := 0x01FF01FF.
Definition HYPER_MEM_CFG7_MASK : Z := 0x3F.
Definition HYPER_MEM_CFG0_MBR0_OFFSET : Z := 0.
Definition HYPER_MEM_CFG0_LATENCY0_OFFSET : Z := 8.
Definition HYPER_MEM_CFG0_WRAP_SIZE0_OFFSET : Z := 12.
Definition HYPER_MEM_CFG1_RD_CSHI0_OFFSET : Z := 0.
Definition HYPER_MEM_CFG1_RD_CSS0_OFFSET : Z := 4.
Definition HYPER_MEM_CFG1_RD_CSH0_OFFSET : Z := 8.
Definition HYPER_MEM_CFG1_WR_CSHI0_OFFSET : Z := 12.
Definition HYPER_MEM_CFG1_WR_CSS0_OFFSET : Z := 16.
Definition HYPER_MEM_CFG1_WR_CSH0_OFFSET : Z := 20.
Definition HYPER_MEM_CFG2_RD_MAX_LENGTH0_OFFSET : Z := 0.
Definition HYPER_MEM_CFG2_WR_MAX_LENGTH0_OFFSET : Z := 16.
Definition HYPER_MEM_CFG3_ACS0_OFFSET : Z := 0.
Definition HYPER_MEM_CFG3_TCO0_OFFSET : Z := 1.
Definition HYPER_MEM_CFG3_DT0_OFFSET : Z := 2.
Definition HYPER_MEM_CFG3_CRT0_OFFSET : Z := 3.
Definition HYPER_MEM_CFG3_RD_MAX_LEN_EN0_OFFSET : Z := 4.
Definition HYPER_MEM_CFG3_WR_MAX_LEN_EN0_OFFSET : Z := 5.
Definition HYPER_MEM_CFG3_RDS_DELAY_ADJ_OFFSET : Z := 8.
Definition HYPER_MEM_CFG4_MBR1_OFFSET : Z := 0.
Definition HYPER_MEM_CFG4_LATENCY1_OFFSET : Z := 8.
Definition HYPER_MEM_CFG4_WRAP_SIZE1_OFFSET : Z := 12.
Definition HYPER_MEM_CFG5_RD_CSHI1_OFFSET : Z := 0.
Definition HYPER_MEM_CFG5_RD_CSS1_OFFSET : Z := 4.
Definition HYPER_MEM_CFG5_RD_CSH1_OFFSET : Z := 8.
Definition HYPER_MEM_CFG5_WR_CSHI1_OFFSET : Z := 12.
Definition HYPER_MEM_CFG5_WR_CSS1_OFFSET : Z := 16.
Definition HYPER_MEM_CFG5_WR_CSH1_OFFSET : Z := 20.
Definition HYPER_MEM_CFG6_RD_MAX_LENGTH1_OFFSET : Z := 0.
Definition HYPER_MEM_CFG6_WR_MAX_LENGTH1_OFFSET : Z := 16.
Definition HYPER_MEM_CFG7_ACS1_OFFSET : Z := 0.
Definition HYPER_MEM_CFG7_TCO1_OFFSET : Z := 1.
Definition HYPER_MEM_CFG7_DT1_OFFSET : Z := 2.
Definition HYPER_MEM_CFG7_CRT1_OFFSET : Z := 3.
Definition HYPER_MEM_CFG7_RD_MAX_LEN_EN1_OFFSET : Z := 4.
Definition HYPER_MEM_CFG7_WR_MAX_LEN_EN1_OFFSET : Z := 5.
Definition HYPER_MEM_CFG3_MASK_GEN_B (offset : Z) : Z := Z.lnot (Z.shiftl 1 offset) &&& HYPER_MEM_CFG3_MASK.
Definition HYPER_MEM_CFG7_MASK_GEN_B (offset : Z) : Z := Z.lnot (Z.shiftl 1 offset) &&& HYPER_MEM_CFG7_MASK.
Definition HYPER_MEM_CFG0_MASK_GEN_TB (offset : Z) : Z := Z.lnot (Z.shiftl 0x3 offset) &&& HYPER_MEM_CFG0_MASK.
Definition HYPER_MEM_CFG4_MASK_GEN_TB (offset : Z) : Z := Z.lnot (Z.shiftl 0x3 offset) &&& HYPER_MEM_CFG4_MASK.
Definition HYPER_MEM_CFG3_MASK_GEN_THB (offset : Z) : Z := Z.lnot (Z.shiftl 0x7 offset) &&& HYPER_MEM_CFG3_MASK.
Definition HYPER_MEM_CFG0_MASK_GEN_HB (offset : Z) : Z := Z.lnot (Z.shiftl 0xF offset) &&& HYPER_MEM_CFG0_MASK.
Definition HYPER_MEM_CFG1_MASK_GEN_HB (offset : Z) : Z := Z.lnot (Z.shiftl 0xF offset) &&& HYPER_MEM_CFG1_MASK.
Definition HYPER_MEM_CFG4_MASK_GEN_HB (offset : Z) : Z := Z.lnot (Z.shiftl 0xF offset) &&& HYPER_MEM_CFG4_MASK.
Definition HYPER_MEM_CFG5_MASK_GEN_HB (offset : Z) : Z := Z.lnot (Z.shiftl 0xF offset) &&& HYPER_MEM_CFG5_MASK.
Definition HYPER_MEM_CFG0_MASK_GEN_BYTE (offset : Z) : Z := Z.lnot (Z.shiftl 0xFF offset) &&& HYPER_MEM_CFG0_MASK.
Definition HYPER_MEM_CFG4_MASK_GEN_BYTE (offset : Z) : Z := Z.lnot (Z.shiftl 0xFF offset) &&& HYPER_MEM_CFG4_MASK.
Definition HYPER_MEM_CFG2_MASK_GEN_NB (offset : Z) : Z := Z.lnot (Z.shiftl 0x1FF offset) &&& HYPER_MEM_CFG2_MASK.
Definition HYPER_MEM_CFG6_MASK_GEN_NB (offset : Z) : Z := Z.lnot (Z.shiftl 0x1FF offset) &&& HYPER_MEM_CFG6_MASK.
Definition HYPER_MEM_CFG0_MBR0_MASK_BYTE : Z := HYPER_MEM_CFG0_MASK_GEN_BYTE HYPER_MEM_CFG0_MBR0_OFFSET.
Definition HYPER_MEM_CFG0_LATENCY0_MASK_HB : Z := HYPER_MEM_CFG0_MASK_GEN_HB HYPER_MEM_CFG0_LATENCY0_OFFSET.
Definition HYPER_MEM_CFG0_WRAP_SIZE0_MASK_TB : Z := HYPER_MEM_CFG0_MASK_GEN_TB HYPER_MEM_CFG0_WRAP_SIZE0_OFFSET.
Definition HYPER_MEM_CFG1_RD_CSHI0_MASK_HB : Z := HYPER_MEM_CFG1_MASK_GEN_HB HYPER_MEM_CFG1_RD_CSHI0_OFFSET.
Definition HYPER_MEM_CFG1_RD_CSS0_MASK_HB : Z := HYPER_MEM_CFG1_MASK_GEN_HB HYPER_MEM_CFG1_RD_CSS0_OFFSET.
Definition HYPER_MEM_CFG1_RD_CSH0_MASK_HB : Z := HYPER_MEM_CFG1_MASK_GEN_HB HYPER_MEM_CFG1_RD_CSH0_OFFSET.
Definition HYPER_MEM_CFG1_WR_CSHI0_MASK_HB : Z := HYPER_MEM_CFG1_MASK_GEN_HB HYPER_MEM_CFG1_WR_CSHI0_OFFSET.
Definition HYPER_MEM_CFG1_WR_CSS0_MASK_HB : Z := HYPER_MEM_CFG1_MASK_GEN_HB HYPER_MEM_CFG1_WR_CSS0_OFFSET.
Definition HYPER_MEM_CFG1_WR_CSH0_MASK_HB : Z := HYPER_MEM_CFG1_MASK_GEN_HB HYPER_MEM_CFG1_WR_CSH0_OFFSET.
Definition HYPER_MEM_CFG2_RD_MAX_LENGTH0_MASK_NB : Z := HYPER_MEM_CFG2_MASK_GEN_NB HYPER_MEM_CFG2_RD_MAX_LENGTH0_OFFSET.
Definition HYPER_MEM_CFG2_WR_MAX_LENGTH0_MASK_NB : Z := HYPER_MEM_CFG2_MASK_GEN_NB HYPER_MEM_CFG2_WR_MAX_LENGTH0_OFFSET.
Definition HYPER_MEM_CFG3_ACS0_MASK_B : Z := HYPER_MEM_CFG3_MASK_GEN_B HYPER_MEM_CFG3_ACS0_OFFSET.
Definition HYPER_MEM_CFG3_TCO0_MASK_B : Z := HYPER_MEM_CFG3_MASK_GEN_B HYPER_MEM_CFG3_TCO0_OFFSET.
Definition HYPER_MEM_CFG3_DT0_MASK_B : Z := HYPER_MEM_CFG3_MASK_GEN_B HYPER_MEM_CFG3_DT0_OFFSET.
Definition HYPER_MEM_CFG3_CRT0_MASK_B : Z := HYPER_MEM_CFG3_MASK_GEN_B HYPER_MEM_CFG3_CRT0_OFFSET.
Definition HYPER_MEM_CFG3_RD_MAX_LEN_EN0_MASK_B : Z := HYPER_MEM_CFG3_MASK_GEN_B HYPER_MEM_CFG3_RD_MAX_LEN_EN0_OFFSET.
Definition HYPER_MEM_CFG3_WR_MAX_LEN_EN0_MASK_B : Z := HYPER_MEM_CFG3_MASK_GEN_B HYPER_MEM_CFG3_WR_MAX_LEN_EN0_OFFSET.
Definition HYPER_MEM_CFG3_RDS_DELAY_ADJ_MASK_THB : Z := HYPER_MEM_CFG3_MASK_GEN_THB HYPER_MEM_CFG3_RDS_DELAY_ADJ_OFFSET.
Definition HYPER_MEM_CFG4_MBR1_MASK_BYTE : Z := HYPER_MEM_CFG4_MASK_GEN_BYTE HYPER_MEM_CFG4_MBR1_OFFSET.
Definition HYPER_MEM_CFG4_WRAP_SIZE1_MASK_TB : Z := HYPER_MEM_CFG4_MASK_GEN_TB HYPER_MEM_CFG4_WRAP_SIZE1_OFFSET.
Definition HYPER_MEM_CFG5_RD_CSHI1_MASK_HB : Z := HYPER_MEM_CFG5_MASK_GEN_HB HYPER_MEM_CFG5_RD_CSHI1_OFFSET.
Definition HYPER_MEM_CFG5_RD_CSS1_MASK_HB : Z := HYPER_MEM_CFG5_MASK_GEN_HB HYPER_MEM_CFG5_RD_CSS1_OFFSET.
Definition HYPER_MEM_CFG5_RD_CSH1_MASK_HB : Z := HYPER_MEM_CFG5_MASK_GEN_HB HYPER_MEM_CFG5_RD_CSH1_OFFSET.
Definition HYPER_MEM_CFG5_WR_CSHI1_MASK_HB : Z := HYPER_MEM_CFG5_MASK_GEN_HB HYPER_MEM_CFG5_WR_CSHI1_OFFSET.
Definition HYPER_MEM_CFG5_WR_CSS1_MASK_HB : Z := HYPER_MEM_CFG5_MASK_GEN_HB HYPER_MEM_CFG5_WR_CSS1_OFFSET.
Definition HYPER_MEM_CFG5_WR_CSH1_MASK_HB : Z := HYPER_MEM_CFG5_MASK_GEN_HB HYPER_MEM_CFG5_WR_CSH1_OFFSET.
Definition HYPER_MEM_CFG6_RD_MAX_LENGTH1_MASK_NB : Z := HYPER_MEM_CFG6_MASK_GEN_NB HYPER_MEM_CFG6_RD_MAX_LENGTH1_OFFSET.
Definition HYPER_MEM_CFG6_WR_MAX_LENGTH1_MASK_NB : Z := HYPER_MEM_CFG6_MASK_GEN_NB HYPER_MEM_CFG6_WR_MAX_LENGTH1_OFFSET.
Definition HYPER_MEM_CFG7_ACS1_MASK_B : Z := HYPER_MEM_CFG7_MASK_GEN_B HYPER_MEM_CFG7_ACS1_OFFSET.
Definition HYPER_MEM_CFG7_TCO1_MASK_B : Z := HYPER_MEM_CFG7_MASK_GEN_B HYPER_MEM_CFG7_TCO1_OFFSET.
Definition HYPER_MEM_CFG7_DT1_MASK_B : Z := HYPER_MEM_CFG7_MASK_GEN_B HYPER_MEM_CFG7_DT1_OFFSET.
Definition HYPER_MEM_CFG7_CRT1_MASK_B : Z := HYPER_MEM_CFG7_MASK_GEN_B HYPER_MEM_CFG7_CRT1_OFFSET.
Definition HYPER_MEM_CFG7_RD_MAX_LEN_EN1_MASK_B : Z := HYPER_MEM_CFG7_MASK_GEN_B HYPER_MEM_CFG7_RD_MAX_LEN_EN1_OFFSET.
Definition HYPER_MEM_CFG7_WR_MAX_LEN_EN1_MASK_B : Z := HYPER_MEM_CFG7_MASK_GEN_B HYPER_MEM_CFG7_WR_MAX_LEN_EN1_OFFSET.
Definition ARCHI_UDMA_HYPER_RX_EVT : Z := 0.
Definition ARCHI_UDMA_HYPER_TX_EVT : Z := 1.

(** The map of the chip: [ARCHI_UDMA_HYPER_ID(id)] is the number of the peripheral, and the
    global configuration lies at 0x780 or, in one family, at 0xF80. *)
Class UdmaMap := {
  ARCHI_SOC_PERIPHERALS_ADDR : Z;
  ARCHI_UDMA_OFFSET : Z;
  UDMA_CONF_OFFSET : Z;
  ARCHI_UDMA_HYPER_ID : Z -> Z
}.

Section Hal.
Context `{UdmaMap}.

(** archi/utils.h *)
Definition ARCHI_WRITE (base offset value : Z) : M port unit := pulp_write32 (base + offset) value.
Definition ARCHI_UDMA_ADDR : Z := ARCHI_SOC_PERIPHERALS_ADDR + ARCHI_UDMA_OFFSET.

(** *** hal/udma/udma_v2.h *)
Definition hal_udma_channel_isTx (addr : Z) : Z := Z.shiftr addr UDMA_CHANNEL_SIZE_LOG2 &&& 1.
Definition plp_udma_canEnqueue (channelBase : Z) : M port Z :=
  v ← pulp_read32 (channelBase + UDMA_CHANNEL_CFG_OFFSET); mret (if v &&& UDMA_CHANNEL_CFG_SHADOW =? 0 then 1 else 0).
Definition plp_udma_enqueue (channelBase l2Addr size cfg : Z) : M port unit :=
  ARCHI_WRITE channelBase UDMA_CHANNEL_SADDR_OFFSET l2Addr ;;
  ARCHI_WRITE channelBase UDMA_CHANNEL_SIZE_OFFSET size ;;
  ARCHI_WRITE channelBase UDMA_CHANNEL_CFG_OFFSET (cfg ||| UDMA_CHANNEL_CFG_EN).
Definition plp_udma_clr (channelBase : Z) : M port unit := ARCHI_WRITE channelBase UDMA_CHANNEL_CFG_OFFSET UDMA_CHANNEL_CFG_CLEAR.
Definition plp_udma_busy (channelOffset : Z) : M port Z :=
  v ← pulp_read32 (channelOffset + UDMA_CHANNEL_CFG_OFFSET); mret (s32 (v &&& UDMA_CHANNEL_CFG_EN)).
Definition plp_udma_cg_set (value : Z) : M port unit :=
  pulp_write32 (ARCHI_SOC_PERIPHERALS_ADDR + ARCHI_UDMA_OFFSET + UDMA_CONF_OFFSET + UDMA_CONF_CG_OFFSET) value.
Definition plp_udma_cg_get : M port Z :=
  pulp_read32 (ARCHI_SOC_PERIPHERALS_ADDR + ARCHI_UDMA_OFFSET + UDMA_CONF_OFFSET + UDMA_CONF_CG_OFFSET).
Definition plp_udma_evtin_set (value : Z) : M port unit :=
  pulp_write32 (ARCHI_SOC_PERIPHERALS_ADDR + ARCHI_UDMA_OFFSET + UDMA_CONF_OFFSET + UDMA_CONF_EVTIN_OFFSET) value.
Definition plp_udma_evtin_get : M port Z :=
  pulp_read32 (ARCHI_SOC_PERIPHERALS_ADDR + ARCHI_UDMA_OFFSET + UDMA_CONF_OFFSET + UDMA_CONF_EVTIN_OFFSET).
Definition hal_udma_periph_base (id : Z) : Z := ARCHI_SOC_PERIPHERALS_ADDR + ARCHI_UDMA_OFFSET + UDMA_PERIPH_OFFSET id.
Definition hal_udma_channel_base (id : Z) : Z :=
  ARCHI_SOC_PERIPHERALS_ADDR + ARCHI_UDMA_OFFSET + UDMA_PERIPH_OFFSET (Z.shiftr id 1) + UDMA_CHANNEL_OFFSET (id &&& 1).
Definition plpUdmaRxChStartAddrSet (handle data : Z) : M port unit := pulp_write32 (handle + 0) data.
Definition plpUdmaRxChStartAddrGet (handle : Z) : M port Z := pulp_read32 (handle + 0).
Definition plpUdmaRxChSizeSet (handle data : Z) : M port unit := pulp_write32 (handle + 4) data.
Definition plpUdmaRxChSizeGet (handle : Z) : M port Z := pulp_read32 (handle + 4).
Definition plpUdmaRxChCfgSet (handle data : Z) : M port unit := pulp_write32 (handle + 8) data.
Definition plpUdmaRxChCfgGet (handle : Z) : M port Z := pulp_read32 (handle + 8).
Definition plpUdmaTxChStartAddrSet (handle data : Z) : M port unit := pulp_write32 (handle + 16) data.
Definition plpUdmaTxChStartAddrGet (handle : Z) : M port Z := pulp_read32 (handle + 16).
Definition plpUdmaTxChSizeSet (handle data : Z) : M port unit := pulp_write32 (handle + 20) data.
Definition plpUdmaTxChSizeGet (handle : Z) : M port Z := pulp_read32 (handle + 20).
Definition plpUdmaTxChCfgSet (handle data : Z) : M port unit := pulp_write32 (handle + 24) data.
Definition plpUdmaTxChCfgGet (handle : Z) : M port Z := pulp_read32 (handle + 24).

(** *** udma_hyper_v1.h *)
Definition UDMA_HYPER_OFFSET (id : Z) : Z := UDMA_PERIPH_OFFSET (ARCHI_UDMA_HYPER_ID id).
Definition UDMA_HYPER_RX_ADDR (id : Z) : Z := ARCHI_UDMA_ADDR + UDMA_HYPER_OFFSET id + UDMA_CHANNEL_RX_OFFSET.
Definition UDMA_HYPER_TX_ADDR (id : Z) : Z := ARCHI_UDMA_ADDR + UDMA_HYPER_OFFSET id + UDMA_CHANNEL_TX_OFFSET.
Definition UDMA_HYPER_CUSTOM_ADDR (id : Z) : Z := ARCHI_UDMA_ADDR + UDMA_HYPER_OFFSET id + UDMA_CHANNEL_CUSTOM_OFFSET.
Definition HYPER_EXT_ADDR_OFFSET : Z := UDMA_HYPER_OFFSET 0 + HYPER_EXT_ADDR_CHANNEL_CUSTOM_OFFSET.
Definition HYPER_EXT_CFG_OFFSET : Z := UDMA_HYPER_OFFSET 0 + HYPER_EXT_CFG_CHANNEL_CUSTOM_OFFSET.
Definition HYPER_MEM_CFG0_OFFSET : Z := UDMA_HYPER_OFFSET 0 + HYPER_MEM_CFG0_CHANNEL_CUSTOM_OFFSET.
Definition HYPER_MEM_CFG1_OFFSET : Z := UDMA_HYPER_OFFSET 0 + HYPER_MEM_CFG1_CHANNEL_CUSTOM_OFFSET.
Definition HYPER_MEM_CFG2_OFFSET : Z := UDMA_HYPER_OFFSET 0 + HYPER_MEM_CFG2_CHANNEL_CUSTOM_OFFSET.
Definition HYPER_MEM_CFG3_OFFSET : Z := UDMA_HYPER_OFFSET 0 + HYPER_MEM_CFG3_CHANNEL_CUSTOM_OFFSET.
Definition HYPER_MEM_CFG4_OFFSET : Z := UDMA_HYPER_OFFSET 0 + HYPER_MEM_CFG4_CHANNEL_CUSTOM_OFFSET.
Definition HYPER_MEM_CFG5_OFFSET : Z := UDMA_HYPER_OFFSET 0 + HYPER_MEM_CFG5_CHANNEL_CUSTOM_OFFSET.
Definition HYPER_MEM_CFG6_OFFSET : Z := UDMA_HYPER_OFFSET 0 + HYPER_MEM_CFG6_CHANNEL_CUSTOM_OFFSET.
Definition HYPER_MEM_CFG7_OFFSET : Z := UDMA_HYPER_OFFSET 0 + HYPER_MEM_CFG7_CHANNEL_CUSTOM_OFFSET.
Definition HYPER_EXT_ADDR : Z := ARCHI_UDMA_ADDR + HYPER_EXT_ADDR_OFFSET.
Definition HYPER_EXT_CFG : Z := ARCHI_UDMA_ADDR + HYPER_EXT_CFG_OFFSET.
Definition HYPER_MEM_CFG0 : Z := ARCHI_UDMA_ADDR + HYPER_MEM_CFG0_OFFSET.
Definition HYPER_MEM_CFG1 : Z := ARCHI_UDMA_ADDR + HYPER_MEM_CFG1_OFFSET.
Definition HYPER_MEM_CFG2 : Z := ARCHI_UDMA_ADDR + HYPER_MEM_CFG2_OFFSET.
Definition HYPER_MEM_CFG3 : Z := ARCHI_UDMA_ADDR + HYPER_MEM_CFG3_OFFSET.
Definition HYPER_MEM_CFG4 : Z := ARCHI_UDMA_ADDR + HYPER_MEM_CFG4_OFFSET.
Definition HYPER_MEM_CFG5 : Z := ARCHI_UDMA_ADDR + HYPER_MEM_CFG5_OFFSET.
Definition HYPER_MEM_CFG6 : Z := ARCHI_UDMA_ADDR + HYPER_MEM_CFG6_OFFSET.
Definition HYPER_MEM_CFG7 : Z := ARCHI_UDMA_ADDR + HYPER_MEM_CFG7_OFFSET.
Definition hal_hyper_udma_ext_addr_set (value : Z) : M port unit := pulp_write32 HYPER_EXT_ADDR (value &&& HYPER_EXT_ADDR_MASK).
Definition hal_hyper_udma_ext_addr_get : M port Z := v ← pulp_read32 HYPER_EXT_ADDR; mret v.
Definition hal_hyper_udma_mem_cfg0_set (value : Z) : M port unit := pulp_write32 HYPER_MEM_CFG0 (u16 value &&& HYPER_MEM_CFG0_MASK).
Definition hal_hyper_udma_mem_cfg0_get : M port Z := v ← pulp_read32 HYPER_MEM_CFG0; mret (u16 (v &&& HYPER_MEM_CFG0_MASK)).
Definition hal_hyper_udma_mem_cfg1_set (value : Z) : M port unit := pulp_write32 HYPER_MEM_CFG1 (value &&& HYPER_MEM_CFG1_MASK).
Definition hal_hyper_udma_mem_cfg1_get : M port Z := v ← pulp_read32 HYPER_MEM_CFG1; mret (v &&& HYPER_MEM_CFG1_MASK).
Definition hal_hyper_udma_mem_cfg2_set (value : Z) : M port unit := pulp_write32 HYPER_MEM_CFG2 (value &&& HYPER_MEM_CFG2_MASK).
Definition hal_hyper_udma_mem_cfg2_get : M port Z := v ← pulp_read32 HYPER_MEM_CFG2; mret (v &&& HYPER_MEM_CFG2_MASK).
Definition hal_hyper_udma_mem_cfg3_set (value : Z) : M port unit := pulp_write32 HYPER_MEM_CFG3 (u16 value &&& HYPER_MEM_CFG3_MASK).
Definition hal_hyper_udma_mem_cfg3_get : M port Z := v ← pulp_read32 HYPER_MEM_CFG3; mret (u16 (v &&& HYPER_MEM_CFG3_MASK)).
Definition hal_hyper_udma_mem_cfg4_set (value : Z) : M port unit := pulp_write32 HYPER_MEM_CFG4 (u16 value &&& HYPER_MEM_CFG4_MASK).
Definition hal_hyper_udma_mem_cfg4_get : M port Z := v ← pulp_read32 HYPER_MEM_CFG4; mret (u16 (v &&& HYPER_MEM_CFG4_MASK)).
Definition hal_hyper_udma_mem_cfg5_set (value : Z) : M port unit := pulp_write32 HYPER_MEM_CFG5 (value &&& HYPER_MEM_CFG5_MASK).
Definition hal_hyper_udma_mem_cfg5_get : M port Z := v ← pulp_read32 HYPER_MEM_CFG5; mret (v &&& HYPER_MEM_CFG5_MASK).
Definition hal_hyper_udma_mem_cfg6_set (value : Z) : M port unit := pulp_write32 HYPER_MEM_CFG6 (value &&& HYPER_MEM_CFG6_MASK).
Definition hal_hyper_udma_mem_cfg6_get : M port Z := v ← pulp_read32 HYPER_MEM_CFG6; mret (v &&& HYPER_MEM_CFG6_MASK).
Definition hal_hyper_udma_mem_cfg7_set (value : Z) : M port unit := pulp_write32 HYPER_MEM_CFG7 (u8 value &&& HYPER_MEM_CFG7_MASK).
Definition hal_hyper_udma_mem_cfg7_get : M port Z := v ← pulp_read32 HYPER_MEM_CFG7; mret (u8 (v &&& HYPER_MEM_CFG7_MASK)).
Definition hal_hyper_udma_addr_set (addr : Z) : M port unit := hal_hyper_udma_ext_addr_set addr.
Definition hal_hyper_udma_mbr0_set (mbr0 : Z) : M port unit :=
  v ← hal_hyper_udma_mem_cfg0_get; hal_hyper_udma_mem_cfg0_set ((v &&& HYPER_MEM_CFG0_MBR0_MASK_BYTE) ||| Z.shiftl (u8 mbr0) HYPER_MEM_CFG0_MBR0_OFFSET).
Definition hal_hyper_udma_latency0_set (latency0 : Z) : M port unit :=
  v ← hal_hyper_udma_mem_cfg0_get; hal_hyper_udma_mem_cfg0_set ((v &&& HYPER_MEM_CFG0_LATENCY0_MASK_HB) ||| Z.shiftl (u8 latency0) HYPER_MEM_CFG0_LATENCY0_OFFSET).
Definition hal_hyper_udma_wrap_size0_set (wrapsize : Z) : M port unit :=
  v ← hal_hyper_udma_mem_cfg0_get; hal_hyper_udma_mem_cfg0_set ((v &&& HYPER_MEM_CFG0_WRAP_SIZE0_MASK_TB) ||| Z.shiftl (u8 wrapsize) HYPER_MEM_CFG0_WRAP_SIZE0_OFFSET).
Definition hal_hyper_udma_rd_cshi0_set (value : Z) : M port unit :=
  v ← hal_hyper_udma_mem_cfg1_get; hal_hyper_udma_mem_cfg1_set ((v &&& HYPER_MEM_CFG1_RD_CSHI0_MASK_HB) ||| Z.shiftl (u8 value) HYPER_MEM_CFG1_RD_CSHI0_OFFSET).
Definition hal_hyper_udma_rd_css0_set (value : Z) : M port unit :=
  v ← hal_hyper_udma_mem_cfg1_get; hal_hyper_udma_mem_cfg1_set ((v &&& HYPER_MEM_CFG1_RD_CSS0_MASK_HB) ||| Z.shiftl (u8 value) HYPER_MEM_CFG1_RD_CSS0_OFFSET).
Definition hal_hyper_udma_rd_csh0_set (value : Z) : M port unit :=
  v ← hal_hyper_udma_mem_cfg1_get; hal_hyper_udma_mem_cfg1_set ((v &&& HYPER_MEM_CFG1_RD_CSH0_MASK_HB) ||| Z.shiftl (u8 value) HYPER_MEM_CFG1_RD_CSH0_OFFSET).
Definition hal_hyper_udma_wr_cshi0_set (value : Z) : M port unit :=
  v ← hal_hyper_udma_mem_cfg1_get; hal_hyper_udma_mem_cfg1_set ((v &&& HYPER_MEM_CFG1_WR_CSHI0_MASK_HB) ||| Z.shiftl (u8 value) HYPER_MEM_CFG1_WR_CSHI0_OFFSET).
Definition hal_hyper_udma_wr_css0_set (value : Z) : M port unit :=
  v ← hal_hyper_udma_mem_cfg1_get; hal_hyper_udma_mem_cfg1_set ((v &&& HYPER_MEM_CFG1_WR_CSS0_MASK_HB) ||| Z.shiftl (u8 value) HYPER_MEM_CFG1_WR_CSS0_OFFSET).
Definition hal_hyper_udma_wr_csh0_set (value : Z) : M port unit :=
  v ← hal_hyper_udma_mem_cfg1_get; hal_hyper_udma_mem_cfg1_set ((v &&& HYPER_MEM_CFG1_WR_CSH0_MASK_HB) ||| Z.shiftl (u8 value) HYPER_MEM_CFG1_WR_CSH0_OFFSET).
Definition hal_hyper_udma_rd_max_length0_set (value : Z) : M port unit :=
  v ← hal_hyper_udma_mem_cfg2_get; hal_hyper_udma_mem_cfg2_set ((v &&& HYPER_MEM_CFG2_RD_MAX_LENGTH0_MASK_NB) ||| Z.shiftl (u16 value) HYPER_MEM_CFG2_RD_MAX_LENGTH0_OFFSET).
Definition hal_hyper_udma_wr_max_length0_set (value : Z) : M port unit :=
  v ← hal_hyper_udma_mem_cfg2_get; hal_hyper_udma_mem_cfg2_set ((v &&& HYPER_MEM_CFG2_WR_MAX_LENGTH0_MASK_NB) ||| Z.shiftl (u16 value) HYPER_MEM_CFG2_WR_MAX_LENGTH0_OFFSET).
Definition hal_hyper_udma_acs0_set (value : Z) : M port unit :=
  v ← hal_hyper_udma_mem_cfg3_get; hal_hyper_udma_mem_cfg3_set ((v &&& HYPER_MEM_CFG3_ACS0_MASK_B) ||| Z.shiftl (u8 value) HYPER_MEM_CFG3_ACS0_OFFSET).
Definition hal_hyper_udma_tco0_set (value : Z) : M port unit :=
  v ← hal_hyper_udma_mem_cfg3_get; hal_hyper_udma_mem_cfg3_set ((v &&& HYPER_MEM_CFG3_TCO0_MASK_B) ||| Z.shiftl (u8 value) HYPER_MEM_CFG3_TCO0_OFFSET).
Definition hal_hyper_udma_dt0_set (value : Z) : M port unit :=
  v ← hal_hyper_udma_mem_cfg3_get; hal_hyper_udma_mem_cfg3_set ((v &&& HYPER_MEM_CFG3_DT0_MASK_B) ||| Z.shiftl (u8 value) HYPER_MEM_CFG3_DT0_OFFSET).
Definition hal_hyper_udma_crt0_set (value : Z) : M port unit :=
  v ← hal_hyper_udma_mem_cfg3_get; hal_hyper_udma_mem_cfg3_set ((v &&& HYPER_MEM_CFG3_CRT0_MASK_B) ||| Z.shiftl (u8 value) HYPER_MEM_CFG3_CRT0_OFFSET).
Definition hal_hyper_udma_rd_maxlen_en0_set (value : Z) : M port unit :=
  v ← hal_hyper_udma_mem_cfg3_get; hal_hyper_udma_mem_cfg3_set ((v &&& HYPER_MEM_CFG3_RD_MAX_LEN_EN0_MASK_B) ||| Z.shiftl (u8 value) HYPER_MEM_CFG3_RD_MAX_LEN_EN0_OFFSET).
Definition hal_hyper_udma_wr_maxlen_en0_set (value : Z) : M port unit :=
  v ← hal_hyper_udma_mem_cfg3_get; hal_hyper_udma_mem_cfg3_set ((v &&& HYPER_MEM_CFG3_WR_MAX_LEN_EN0_MASK_B) ||| Z.shiftl (u8 value) HYPER_MEM_CFG3_WR_MAX_LEN_EN0_OFFSET).
Definition hal_hyper_udma_rds_delay_adj_set (value : Z) : M port unit :=
  v ← hal_hyper_udma_mem_cfg3_get; hal_hyper_udma_mem_cfg3_set ((v &&& HYPER_MEM_CFG3_RDS_DELAY_ADJ_MASK_THB) ||| Z.shiftl (u8 value) HYPER_MEM_CFG3_RDS_DELAY_ADJ_OFFSET).
Definition hal_hyper_udma_mbr1_set (mbr1 : Z) : M port unit :=
  v ← hal_hyper_udma_mem_cfg4_get; hal_hyper_udma_mem_cfg4_set ((v &&& HYPER_MEM_CFG4_MBR1_MASK_BYTE) ||| Z.shiftl (u8 mbr1) HYPER_MEM_CFG4_MBR1_OFFSET).
Definition hal_hyper_udma_wrap_size1_set (wrapsize : Z) : M port unit :=
  v ← hal_hyper_udma_mem_cfg4_get; hal_hyper_udma_mem_cfg4_set ((v &&& HYPER_MEM_CFG4_WRAP_SIZE1_MASK_TB) ||| Z.shiftl (u8 wrapsize) HYPER_MEM_CFG4_WRAP_SIZE1_OFFSET).
Definition hal_hyper_udma_rd_cshi1_set (value : Z) : M port unit :=
  v ← hal_hyper_udma_mem_cfg5_get; hal_hyper_udma_mem_cfg5_set ((v &&& HYPER_MEM_CFG5_RD_CSHI1_MASK_HB) ||| Z.shiftl (u8 value) HYPER_MEM_CFG5_RD_CSHI1_OFFSET).
Definition hal_hyper_udma_rd_css1_set (value : Z) : M port unit :=
  v ← hal_hyper_udma_mem_cfg5_get; hal_hyper_udma_mem_cfg5_set ((v &&& HYPER_MEM_CFG5_RD_CSS1_MASK_HB) ||| Z.shiftl (u8 value) HYPER_MEM_CFG5_RD_CSS1_OFFSET).
Definition hal_hyper_udma_rd_csh1_set (value : Z) : M port unit :=
  v ← hal_hyper_udma_mem_cfg5_get; hal_hyper_udma_mem_cfg5_set ((v &&& HYPER_MEM_CFG5_RD_CSH1_MASK_HB) ||| Z.shiftl (u8 value) HYPER_MEM_CFG5_RD_CSH1_OFFSET).
Definition hal_hyper_udma_wr_cshi1_set (value : Z) : M port unit :=
  v ← hal_hyper_udma_mem_cfg5_get; hal_hyper_udma_mem_cfg5_set ((v &&& HYPER_MEM_CFG5_WR_CSHI1_MASK_HB) ||| Z.shiftl (u8 value) HYPER_MEM_CFG5_WR_CSHI1_OFFSET).
Definition hal_hyper_udma_wr_css1_set (value : Z) : M port unit :=
  v ← hal_hyper_udma_mem_cfg5_get; hal_hyper_udma_mem_cfg5_set ((v &&& HYPER_MEM_CFG5_WR_CSS1_MASK_HB) ||| Z.shiftl (u8 value) HYPER_MEM_CFG5_WR_CSS1_OFFSET).
Definition hal_hyper_udma_wr_csh1_set (value : Z) : M port unit :=
  v ← hal_hyper_udma_mem_cfg5_get; hal_hyper_udma_mem_cfg5_set ((v &&& HYPER_MEM_CFG5_WR_CSH1_MASK_HB) ||| Z.shiftl (u8 value) HYPER_MEM_CFG5_WR_CSH1_OFFSET).
Definition hal_hyper_udma_rd_max_length1_set (value : Z) : M port unit :=
  v ← hal_hyper_udma_mem_cfg6_get; hal_hyper_udma_mem_cfg6_set ((v &&& HYPER_MEM_CFG6_RD_MAX_LENGTH1_MASK_NB) ||| Z.shiftl (u16 value) HYPER_MEM_CFG6_RD_MAX_LENGTH1_OFFSET).
Definition hal_hyper_udma_wr_max_length1_set (value : Z) : M port unit :=
  v ← hal_hyper_udma_mem_cfg6_get; hal_hyper_udma_mem_cfg6_set ((v &&& HYPER_MEM_CFG6_WR_MAX_LENGTH1_MASK_NB) ||| Z.shiftl (u16 value) HYPER_MEM_CFG6_WR_MAX_LENGTH1_OFFSET).
Definition hal_hyper_udma_acs1_set (value : Z) : M port unit :=
  v ← hal_hyper_udma_mem_cfg7_get; hal_hyper_udma_mem_cfg7_set ((v &&& HYPER_MEM_CFG7_ACS1_MASK_B) ||| Z.shiftl (u8 value) HYPER_MEM_CFG7_ACS1_OFFSET).
Definition hal_hyper_udma_tco1_set (value : Z) : M port unit :=
  v ← hal_hyper_udma_mem_cfg7_get; hal_hyper_udma_mem_cfg7_set ((v &&& HYPER_MEM_CFG7_TCO1_MASK_B) ||| Z.shiftl (u8 value) HYPER_MEM_CFG7_TCO1_OFFSET).
Definition hal_hyper_udma_dt1_set (value : Z) : M port unit :=
  v ← hal_hyper_udma_mem_cfg7_get; hal_hyper_udma_mem_cfg7_set ((v &&& HYPER_MEM_CFG7_DT1_MASK_B) ||| Z.shiftl (u8 value) HYPER_MEM_CFG7_DT1_OFFSET).
Definition hal_hyper_udma_crt1_set (value : Z) : M port unit :=
  v ← hal_hyper_udma_mem_cfg7_get; hal_hyper_udma_mem_cfg7_set ((v &&& HYPER_MEM_CFG7_CRT1_MASK_B) ||| Z.shiftl (u8 value) HYPER_MEM_CFG7_CRT1_OFFSET).
Definition hal_hyper_udma_rd_maxlen_en1_set (value : Z) : M port unit :=
  v ← hal_hyper_udma_mem_cfg7_get; hal_hyper_udma_mem_cfg7_set ((v &&& HYPER_MEM_CFG7_RD_MAX_LEN_EN1_MASK_B) ||| Z.shiftl (u8 value) HYPER_MEM_CFG7_RD_MAX_LEN_EN1_OFFSET).
Definition hal_hyper_udma_wr_maxlen_en1_set (value : Z) : M port unit :=
  v ← hal_hyper_udma_mem_cfg7_get; hal_hyper_udma_mem_cfg7_set ((v &&& HYPER_MEM_CFG7_WR_MAX_LEN_EN1_MASK_B) ||| Z.shiftl (u8 value) HYPER_MEM_CFG7_WR_MAX_LEN_EN1_OFFSET).
Definition hal_hyper_start_ip : M port unit := v ← plp_udma_cg_get; plp_udma_cg_set (v ||| Z.shiftl 1 (ARCHI_UDMA_HYPER_ID 0)).
Definition hal_hyper_stop_ip : M port unit :=
  v ← plp_udma_cg_get; plp_udma_cg_set (v &&& Z.lnot (Z.shiftl 1 (ARCHI_UDMA_HYPER_ID 0)) &&& 0xffffffff).
Definition hal_hyper_ext_addr_set (value : Z) : M port unit := pulp_write32 (ARCHI_UDMA_ADDR + HYPER_EXT_ADDR_OFFSET) value.
Definition hal_hyper_ram_ext_addr_set (value : Z) : M port unit := hal_hyper_ext_addr_set (REG_MBR0 ||| value).
Definition hal_hyper_flash_ext_addr_set (value : Z) : M port unit := hal_hyper_ext_addr_set (REG_MBR1 ||| value).
Definition hal_hyper_enqueue (channelBase l2Addr ext_addr size cfg : Z) : M port unit :=
  hal_hyper_ext_addr_set ext_addr ;; plp_udma_enqueue channelBase l2Addr size cfg.
Definition hal_hyper_ram_enqueue (channelBase l2Addr ext_addr size cfg : Z) : M port unit :=
  hal_hyper_ram_ext_addr_set ext_addr ;; plp_udma_enqueue channelBase l2Addr size cfg.
Definition hal_hyper_flash_enqueue (channelBase l2Addr ext_addr size cfg : Z) : M port unit :=
  hal_hyper_flash_ext_addr_set ext_addr ;; plp_udma_enqueue channelBase l2Addr size cfg.

(** The setters: register, mask of the register, position and width of the field, and
    width of the argument's type. *)
Record setter := mk_setter {
  set_field : Z -> M port unit; s_reg : Z; s_mask : Z; s_off : Z; s_width : Z; s_arg : Z
}.
Definition SETTERS : list setter :=
  [mk_setter hal_hyper_udma_mbr0_set HYPER_MEM_CFG0 HYPER_MEM_CFG0_MASK HYPER_MEM_CFG0_MBR0_OFFSET 8 8;
   mk_setter hal_hyper_udma_latency0_set HYPER_MEM_CFG0 HYPER_MEM_CFG0_MASK HYPER_MEM_CFG0_LATENCY0_OFFSET 4 8;
   mk_setter hal_hyper_udma_wrap_size0_set HYPER_MEM_CFG0 HYPER_MEM_CFG0_MASK HYPER_MEM_CFG0_WRAP_SIZE0_OFFSET 2 8;
   mk_setter hal_hyper_udma_rd_cshi0_set HYPER_MEM_CFG1 HYPER_MEM_CFG1_MASK HYPER_MEM_CFG1_RD_CSHI0_OFFSET 4 8;
   mk_setter hal_hyper_udma_rd_css0_set HYPER_MEM_CFG1 HYPER_MEM_CFG1_MASK HYPER_MEM_CFG1_RD_CSS0_OFFSET 4 8;
   mk_setter hal_hyper_udma_rd_csh0_set HYPER_MEM_CFG1 HYPER_MEM_CFG1_MASK HYPER_MEM_CFG1_RD_CSH0_OFFSET 4 8;
   mk_setter hal_hyper_udma_wr_cshi0_set HYPER_MEM_CFG1 HYPER_MEM_CFG1_MASK HYPER_MEM_CFG1_WR_CSHI0_OFFSET 4 8;
   mk_setter hal_hyper_udma_wr_css0_set HYPER_MEM_CFG1 HYPER_MEM_CFG1_MASK HYPER_MEM_CFG1_WR_CSS0_OFFSET 4 8;
   mk_setter hal_hyper_udma_wr_csh0_set HYPER_MEM_CFG1 HYPER_MEM_CFG1_MASK HYPER_MEM_CFG1_WR_CSH0_OFFSET 4 8;
   mk_setter hal_hyper_udma_rd_max_length0_set HYPER_MEM_CFG2 HYPER_MEM_CFG2_MASK HYPER_MEM_CFG2_RD_MAX_LENGTH0_OFFSET 9 16;
   mk_setter hal_hyper_udma_wr_max_length0_set HYPER_MEM_CFG2 HYPER_MEM_CFG2_MASK HYPER_MEM_CFG2_WR_MAX_LENGTH0_OFFSET 9 16;
   mk_setter hal_hyper_udma_acs0_set HYPER_MEM_CFG3 HYPER_MEM_CFG3_MASK HYPER_MEM_CFG3_ACS0_OFFSET 1 8;
   mk_setter hal_hyper_udma_tco0_set HYPER_MEM_CFG3 HYPER_MEM_CFG3_MASK HYPER_MEM_CFG3_TCO0_OFFSET 1 8;
   mk_setter hal_hyper_udma_dt0_set HYPER_MEM_CFG3 HYPER_MEM_CFG3_MASK HYPER_MEM_CFG3_DT0_OFFSET 1 8;
   mk_setter hal_hyper_udma_crt0_set HYPER_MEM_CFG3 HYPER_MEM_CFG3_MASK HYPER_MEM_CFG3_CRT0_OFFSET 1 8;
   mk_setter hal_hyper_udma_rd_maxlen_en0_set HYPER_MEM_CFG3 HYPER_MEM_CFG3_MASK HYPER_MEM_CFG3_RD_MAX_LEN_EN0_OFFSET 1 8;
   mk_setter hal_hyper_udma_wr_maxlen_en0_set HYPER_MEM_CFG3 HYPER_MEM_CFG3_MASK HYPER_MEM_CFG3_WR_MAX_LEN_EN0_OFFSET 1 8;
   mk_setter hal_hyper_udma_rds_delay_adj_set HYPER_MEM_CFG3 HYPER_MEM_CFG3_MASK HYPER_MEM_CFG3_RDS_DELAY_ADJ_OFFSET 3 8;
   mk_setter hal_hyper_udma_mbr1_set HYPER_MEM_CFG4 HYPER_MEM_CFG4_MASK HYPER_MEM_CFG4_MBR1_OFFSET 8 8;
   mk_setter hal_hyper_udma_wrap_size1_set HYPER_MEM_CFG4 HYPER_MEM_CFG4_MASK HYPER_MEM_CFG4_WRAP_SIZE1_OFFSET 2 8;
   mk_setter hal_hyper_udma_rd_cshi1_set HYPER_MEM_CFG5 HYPER_MEM_CFG5_MASK HYPER_MEM_CFG5_RD_CSHI1_OFFSET 4 8;
   mk_setter hal_hyper_udma_rd_css1_set HYPER_MEM_CFG5 HYPER_MEM_CFG5_MASK HYPER_MEM_CFG5_RD_CSS1_OFFSET 4 8;
   mk_setter hal_hyper_udma_rd_csh1_set HYPER_MEM_CFG5 HYPER_MEM_CFG5_MASK HYPER_MEM_CFG5_RD_CSH1_OFFSET 4 8;
   mk_setter hal_hyper_udma_wr_cshi1_set HYPER_MEM_CFG5 HYPER_MEM_CFG5_MASK HYPER_MEM_CFG5_WR_CSHI1_OFFSET 4 8;
   mk_setter hal_hyper_udma_wr_css1_set HYPER_MEM_CFG5 HYPER_MEM_CFG5_MASK HYPER_MEM_CFG5_WR_CSS1_OFFSET 4 8;
   mk_setter hal_hyper_udma_wr_csh1_set HYPER_MEM_CFG5 HYPER_MEM_CFG5_MASK HYPER_MEM_CFG5_WR_CSH1_OFFSET 4 8;
   mk_setter hal_hyper_udma_rd_max_length1_set HYPER_MEM_CFG6 HYPER_MEM_CFG6_MASK HYPER_MEM_CFG6_RD_MAX_LENGTH1_OFFSET 9 16;
   mk_setter hal_hyper_udma_wr_max_length1_set HYPER_MEM_CFG6 HYPER_MEM_CFG6_MASK HYPER_MEM_CFG6_WR_MAX_LENGTH1_OFFSET 9 16;
   mk_setter hal_hyper_udma_acs1_set HYPER_MEM_CFG7 HYPER_MEM_CFG7_MASK HYPER_MEM_CFG7_ACS1_OFFSET 1 8;
   mk_setter hal_hyper_udma_tco1_set HYPER_MEM_CFG7 HYPER_MEM_CFG7_MASK HYPER_MEM_CFG7_TCO1_OFFSET 1 8;
   mk_setter hal_hyper_udma_dt1_set HYPER_MEM_CFG7 HYPER_MEM_CFG7_MASK HYPER_MEM_CFG7_DT1_OFFSET 1 8;
   mk_setter hal_hyper_udma_crt1_set HYPER_MEM_CFG7 HYPER_MEM_CFG7_MASK HYPER_MEM_CFG7_CRT1_OFFSET 1 8;
   mk_setter hal_hyper_udma_rd_maxlen_en1_set HYPER_MEM_CFG7 HYPER_MEM_CFG7_MASK HYPER_MEM_CFG7_RD_MAX_LEN_EN1_OFFSET 1 8;
   mk_setter hal_hyper_udma_wr_maxlen_en1_set HYPER_MEM_CFG7 HYPER_MEM_CFG7_MASK HYPER_MEM_CFG7_WR_MAX_LEN_EN1_OFFSET 1 8].
End Hal.

(** * Theorems *)
Section Setters.
Context `{UdmaMap}.

(** The bits of a setter's field, and the register after the setter from its old value. *)
Definition in_field (s : setter) (i : Z) : bool := (s_off s <=? i) && (i <? s_off s + s_width s).
Definition field_clear (s : setter) : Z := Z.lnot (Z.shiftl (Z.ones (s_width s)) (s_off s)) &&& s_mask s.
Definition field_update (s : setter) (v x : Z) : Z :=
  ((v &&& s_mask s &&& field_clear s) ||| Z.shiftl (wrap (s_arg s) x) (s_off s)) &&& s_mask s.

Lemma wrap_land w m v : 0 <= w -> 0 <= m < 2 ^ w -> wrap w (v &&& m) = v &&& m /\ wrap w v &&& m = v &&& m.
Proof.
  intros Hw Hm. split; apply Z.bits_inj'; intros i Hi; rewrite ?wrap_testbit, ?Z.land_spec, ?wrap_testbit by done;
    destruct (Z.ltb_spec i w); try done; rewrite ?(testbit_above w m i) by lia; by rewrite ?andb_false_r.
Qed.

(** The common body of the setters: [T] is the cast of the register's accessors. *)
Lemma setter_form s (T : Z -> Z) fmask x p :
  (forall v, T (v &&& s_mask s) = v &&& s_mask s /\ T v &&& s_mask s = v &&& s_mask s) ->
  fmask = field_clear s ->
  ((v ← (v ← pulp_read32 (s_reg s); mret (T (v &&& s_mask s)));
    pulp_write32 (s_reg s) (T ((v &&& fmask) ||| Z.shiftl (wrap (s_arg s) x) (s_off s)) &&& s_mask s)) : M port unit) p
  = Ok tt (stored (s_reg s) (field_update s (word (regs p) (s_reg s)) x) p).
Proof.
  intros HT ->. rewrite (bind_ok _ _ p (word (regs p) (s_reg s) &&& s_mask s) p).
  - unfold field_update. by rewrite (proj2 (HT _)).
  - rewrite read_ok. unfold mret, M_ret. by rewrite (proj1 (HT _)).
Qed.

Ltac cast_absorbed := intros v; first [by split | apply (wrap_land 16) | apply (wrap_land 8)]; vm_compute; intuition congruence.
Ltac setter_by s T := constructor; [intros x p; apply (setter_form s T); [cast_absorbed|by vm_compute]|].

(** Every setter is that update. *)
Lemma setters_update : Forall (fun s => forall x p, set_field s x p =
  Ok tt (stored (s_reg s) (field_update s (word (regs p) (s_reg s)) x) p)) SETTERS.
Proof.
  unfold SETTERS.
  repeat lazymatch goal with |- Forall _ (?s :: _) =>
    lazymatch eval cbn [s_reg] in (s_reg s) with
    | HYPER_MEM_CFG0 => setter_by s u16 | HYPER_MEM_CFG3 => setter_by s u16
    | HYPER_MEM_CFG4 => setter_by s u16 | HYPER_MEM_CFG7 => setter_by s u8
    | _ => setter_by s (fun v : Z => v) end end.
  constructor.
Qed.

(** The value of a field. *)
Definition field_of (s : setter) (p : port) : Z := Z.shiftr (word (regs p) (s_reg s)) (s_off s) &&& Z.ones (s_width s).

Lemma field_update_testbit s v x i : 0 <= s_off s -> 0 <= s_width s -> 0 <= s_arg s -> 0 <= i ->
  Z.testbit (field_update s v x) i =
  Z.testbit (s_mask s) i && ((Z.testbit v i && negb (in_field s i)) ||
                             ((s_off s <=? i) && (i - s_off s <? s_arg s) && Z.testbit x (i - s_off s))).
Proof.
  intros Ho Hw Ha Hi. unfold field_update, field_clear, in_field.
  repeat first [rewrite Z.land_spec | rewrite Z.lor_spec | rewrite Z.lnot_spec by done | rewrite Z.shiftl_spec by done].
  destruct (Z.leb_spec (s_off s) i).
  - rewrite wrap_testbit, Z.testbit_ones by lia. replace (0 <=? i - s_off s) with true by (symmetry; apply Z.leb_le; lia).
    replace (i <? s_off s + s_width s) with (i - s_off s <? s_width s)
      by (apply eq_true_iff_eq; rewrite !Z.ltb_lt; lia).
    destruct (Z.testbit v i), (Z.testbit (s_mask s) i); by rewrite ?andb_true_r, ?andb_false_r.
  - rewrite !(Z.testbit_neg_r _ (i - s_off s)) by lia.
    destruct (Z.testbit v i), (Z.testbit (s_mask s) i); done.
Qed.

(** Two bits read through the same field. *)
Lemma field_of_bits s p q : 0 <= s_off s -> 0 <= s_width s ->
  (forall i, in_field s i = true -> Z.testbit (word (regs p) (s_reg s)) i = Z.testbit (word (regs q) (s_reg s)) i) ->
  field_of s p = field_of s q.
Proof.
  intros Ho Hw Hb. apply Z.bits_inj'. intros i Hi. unfold field_of.
  rewrite !Z.land_spec, !Z.shiftr_spec, Z.testbit_ones by lia. rewrite (proj2 (Z.leb_le 0 i) Hi).
  destruct (Z.ltb_spec i (s_width s)); [|by rewrite !andb_false_r].
  rewrite Hb; [done|]. unfold in_field. apply andb_true_iff. rewrite Z.leb_le, Z.ltb_lt. lia.
Qed.

(** The number of the register of each setter, and what the layout of the fields needs. *)
Definition REGNO : list Z :=
  [0; 0; 0] ++ replicate 6 1 ++ [2; 2] ++ replicate 7 3 ++ [4; 4] ++ replicate 6 5 ++ [6; 6] ++ replicate 6 7.
Definition fits (s : setter) : bool :=
  (0 <=? s_off s) && (0 <=? s_width s) && (s_width s <=? s_arg s) &&
  (Z.shiftl (Z.ones (s_width s)) (s_off s) &&& s_mask s =? Z.shiftl (Z.ones (s_width s)) (s_off s)) &&
  (0 <=? s_mask s) && (s_mask s <? 2 ^ 32).
Definition apart (s t : setter) : bool :=
  (s_mask s =? s_mask t) && ((s_off s + s_width s <=? s_off t) || (s_off t + s_width t <=? s_off s)).
Definition no_clash (k j : nat) : bool :=
  match SETTERS !! k, SETTERS !! j, REGNO !! k, REGNO !! j with
  | Some s, Some t, Some a, Some b => (k =? j)%nat || negb (a =? b) || apart s t
  | _, _, _, _ => false
  end.

Lemma setters_fit k s : SETTERS !! k = Some s -> fits s = true.
Proof.
  revert k s. apply Forall_lookup. apply Forall_forall. intros s Hs.
  assert (Hall : forallb fits SETTERS = true) by by vm_compute.
  by apply (proj1 (forallb_forall fits SETTERS) Hall s), list_elem_of_In.
Qed.
Lemma setters_regno : Forall2 (fun s r => s_reg s = HYPER_MEM_CFG0 + 4 * r) SETTERS REGNO.
Proof.
  unfold SETTERS. let l := eval vm_compute in REGNO in change REGNO with l.
  repeat constructor; cbn [s_reg]; unfold HYPER_MEM_CFG0, HYPER_MEM_CFG1, HYPER_MEM_CFG2, HYPER_MEM_CFG3, HYPER_MEM_CFG4,
    HYPER_MEM_CFG5, HYPER_MEM_CFG6, HYPER_MEM_CFG7, HYPER_MEM_CFG0_OFFSET, HYPER_MEM_CFG1_OFFSET, HYPER_MEM_CFG2_OFFSET,
    HYPER_MEM_CFG3_OFFSET, HYPER_MEM_CFG4_OFFSET, HYPER_MEM_CFG5_OFFSET, HYPER_MEM_CFG6_OFFSET, HYPER_MEM_CFG7_OFFSET,
    HYPER_MEM_CFG0_CHANNEL_CUSTOM_OFFSET, HYPER_MEM_CFG1_CHANNEL_CUSTOM_OFFSET, HYPER_MEM_CFG2_CHANNEL_CUSTOM_OFFSET,
    HYPER_MEM_CFG3_CHANNEL_CUSTOM_OFFSET, HYPER_MEM_CFG4_CHANNEL_CUSTOM_OFFSET, HYPER_MEM_CFG5_CHANNEL_CUSTOM_OFFSET,
    HYPER_MEM_CFG6_CHANNEL_CUSTOM_OFFSET, HYPER_MEM_CFG7_CHANNEL_CUSTOM_OFFSET; lia.
Qed.
Lemma setters_apart k j s t : SETTERS !! k = Some s -> SETTERS !! j = Some t -> k <> j -> s_reg s = s_reg t -> apart s t = true.
Proof.
  intros Hs Ht Hne Hreg.
  destruct (Forall2_lookup_l _ _ _ _ _ setters_regno Hs) as (a & Ha & Hra).
  destruct (Forall2_lookup_l _ _ _ _ _ setters_regno Ht) as (b & Hb & Hrb).
  assert (Hall : forallb (fun k => forallb (no_clash k) (seq 0 34)) (seq 0 34) = true) by by vm_compute.
  assert (Hin : forall i u, SETTERS !! i = Some u -> In i (seq 0 34)).
  { intros i u Hi%lookup_lt_Some. apply in_seq. split; [lia|exact Hi]. }
  pose proof (proj1 (forallb_forall _ _) (proj1 (forallb_forall _ _) Hall k (Hin _ _ Hs)) j (Hin _ _ Ht)) as Hc.
  unfold no_clash in Hc. rewrite Hs, Ht, Ha, Hb in Hc.
  apply orb_true_iff in Hc as [[Hc%Nat.eqb_eq|Hc%negb_true_iff]%orb_true_iff|Hc]; [done| |done].
  apply Z.eqb_neq in Hc. lia.
Qed.

Lemma fits_spec s : fits s = true ->
  0 <= s_off s /\ 0 <= s_width s <= s_arg s /\ 0 <= s_mask s < 2 ^ 32 /\
  forall i, in_field s i = true -> Z.testbit (s_mask s) i = true.
Proof.
  unfold fits. rewrite !andb_true_iff, !Z.leb_le, Z.ltb_lt, Z.eqb_eq. intros [[[[[Ho Hw] Ha] Hm] H0] H32].
  split; [done|]. split; [lia|]. split; [lia|]. intros i [Hl Hr]%andb_true_iff. rewrite Z.leb_le in Hl. rewrite Z.ltb_lt in Hr.
  apply (f_equal (fun z => Z.testbit z i)) in Hm.
  rewrite Z.land_spec, Z.shiftl_spec, Z.testbit_ones in Hm by lia.
  replace ((0 <=? i - s_off s) && (i - s_off s <? s_width s)) with true in Hm; [exact Hm|].
  symmetry. apply andb_true_iff. rewrite Z.leb_le, Z.ltb_lt. lia.
Qed.

Lemma word_u32_testbit v i : i < 32 -> Z.testbit (u32 v) i = Z.testbit v i.
Proof.
  intros Hi. destruct (Z.ltb_spec i 0); [by rewrite !Z.testbit_neg_r|].
  unfold u32. rewrite wrap_testbit by done. by rewrite (proj2 (Z.ltb_lt i 32) Hi).
Qed.

Lemma in_field_below s i : fits s = true -> in_field s i = true -> 0 <= i < 32.
Proof.
  intros (Ho & Hw & Hm & Hb)%fits_spec Hi. pose proof (Hb _ Hi) as Ht.
  unfold in_field in Hi. rewrite andb_true_iff, Z.leb_le in Hi. split; [lia|].
  destruct (Z.ltb_spec i 32); [done|]. by rewrite (testbit_above 32 _ i) in Ht by lia.
Qed.

(** A field reads back what its setter stored. *)
Lemma field_of_set s x p : fits s = true -> 0 <= x < 2 ^ s_width s ->
  field_of s (stored (s_reg s) (field_update s (word (regs p) (s_reg s)) x) p) = x.
Proof.
  intros Hf Hx. destruct (fits_spec s Hf) as (Ho & Hw & Hm & Hb). unfold field_of. cbn [regs stored]. rewrite word_insert.
  apply Z.bits_inj'. intros i Hi. rewrite Z.land_spec, Z.shiftr_spec, Z.testbit_ones by lia.
  rewrite (proj2 (Z.leb_le 0 i) Hi). destruct (Z.ltb_spec i (s_width s)); cbn [andb].
  - assert (Hin : in_field s (i + s_off s) = true) by (unfold in_field; rewrite andb_true_iff, Z.leb_le, Z.ltb_lt; lia).
    rewrite andb_true_r, word_u32_testbit by apply (in_field_below s _ Hf Hin).
    rewrite field_update_testbit, Hin, (Hb _ Hin), andb_false_r by lia. cbn [andb orb].
    replace (i + s_off s - s_off s) with i by lia. rewrite (proj2 (Z.leb_le _ _)), (proj2 (Z.ltb_lt i _)) by lia. done.
  - rewrite andb_false_r. symmetry. apply (testbit_above (s_width s)); lia.
Qed.

(** A field of the same register keeps its bits. *)
Lemma field_of_other s t x p : fits s = true -> fits t = true -> s_reg s = s_reg t -> apart s t = true ->
  0 <= x < 2 ^ s_width s ->
  field_of t (stored (s_reg s) (field_update s (word (regs p) (s_reg s)) x) p) = field_of t p.
Proof.
  intros Hs Ht Hreg Hap Hx. destruct (fits_spec s Hs) as (Ho & Hw & Hm & Hb), (fits_spec t Ht) as (Hot & Hwt & Hmt & Hbt).
  apply field_of_bits; [lia|lia|]. intros i Hi. cbn [regs stored]. rewrite Hreg, word_insert.
  destruct (in_field_below t i Ht Hi). rewrite word_u32_testbit by lia. rewrite field_update_testbit by lia.
  apply andb_true_iff in Hap as [Heq%Z.eqb_eq Hap]. rewrite Heq, (Hbt _ Hi). cbn [andb].
  rewrite orb_true_iff, !Z.leb_le in Hap. unfold in_field in *. rewrite andb_true_iff, Z.leb_le, Z.ltb_lt in Hi.
  destruct (Z.leb_spec (s_off s) i); cbn [andb]; [|by rewrite andb_true_r, orb_false_r].
  rewrite (proj2 (Z.ltb_ge i _)) by lia. rewrite (testbit_above (s_width s) x) by lia.
  by rewrite andb_true_r, andb_false_r, orb_false_r.
Qed.

(** C35. Setting one of the 34 fields of the configuration registers of the HyperBus
    interface to a value that fits in it, with the function named after the field, and
    reading any of the 34 back: that field holds the value and each of the other 33 holds
    what it held. *)
Theorem hyper_fields_are_independent k j s t x p :
  SETTERS !! k = Some s -> SETTERS !! j = Some t -> 0 <= x < 2 ^ s_width s ->
  exists p', set_field s x p = Ok tt p' /\ field_of t p' = (if decide (k = j) then x else field_of t p).
Proof.
  intros Hs Ht Hx. pose proof (setters_fit _ _ Hs) as Fs. pose proof (setters_fit _ _ Ht) as Ft.
  eexists. split; [exact (proj1 (Forall_lookup _ _) setters_update k s Hs x p)|].
  destruct (decide (k = j)) as [->|Hne].
  { assert (s = t) as <- by congruence. by apply field_of_set. }
  destruct (decide (s_reg s = s_reg t)) as [Hreg|Hreg].
  - apply field_of_other; try done. by apply (setters_apart k j).
  - unfold field_of. cbn [regs stored]. by rewrite word_insert_ne.
Qed.
End Setters.

(** A map: the uDMA at 0x1A102000, the interface its fourth peripheral. *)
Definition sample_map : UdmaMap := Build_UdmaMap 0x1A100000 0x2000 0x780 (fun _ => 3).
Lemma hyper_fields_are_independent_witness :
  exists p', @hal_hyper_udma_latency0_set sample_map 6 (mk_port {[@HYPER_MEM_CFG0 sample_map := 0x2aff]} []) = Ok tt p' /\
    field_of (mk_setter (@hal_hyper_udma_wrap_size0_set sample_map) (@HYPER_MEM_CFG0 sample_map) HYPER_MEM_CFG0_MASK 12 2 8) p' = 2.
Proof.
  destruct (@hyper_fields_are_independent sample_map 1 2 _ _ 6 (mk_port {[@HYPER_MEM_CFG0 sample_map := 0x2aff]} [])
              eq_refl eq_refl ltac:(split; vm_compute; congruence)) as (p' & E & Hf).
  exists p'. split; [exact E|]. exact Hf.
Defined.
