(* ===== verification/Eu.v ===== *)
(** * Eu: the event unit of a PULP cluster and its HAL

    boot_code/include/archi/eu/eu_v3.h and hal/eu/eu_v3.h: the address arithmetic of
    the unit's areas and the access functions as programs over a port [cluster].
    The port has the event mask and the event status register, which behave as the
    comments of the header say; every other register answers from the list
    [replies].  Events arrive while the core sleeps, one element of [coming] at a
    time.  No build of this repository has a cluster: its addresses are the
    parameters [ClusterMap]. *)

From S2P Require Import Prelude Monad.

(** ** archi/eu/eu_v3.h *)
Definition EU_CORES_AREA_OFFSET : Z := 0x0000.
Definition EU_CORE_AREA_SIZE_LOG2 : Z := 6.
Definition EU_CORE_AREA_SIZE : Z := Z.shiftl 1 EU_CORE_AREA_SIZE_LOG2.
Definition EU_BARRIER_AREA_SIZE : Z := 0x0200.
Definition EU_BARRIER_SIZE_LOG2 : Z := 5.
Definition EU_BARRIER_SIZE : Z := Z.shiftl 1 EU_BARRIER_SIZE_LOG2.
Definition EU_SW_EVENTS_AREA_BASE : Z := 0x0600.
Definition EU_SOC_EVENTS_AREA_OFFSET : Z := 0x0700.
Definition EU_MUTEX_AREA_SIZE_LOG2 : Z := 4.
Definition EU_MUTEX_AREA_SIZE : Z := Z.shiftl 1 EU_MUTEX_AREA_SIZE_LOG2.
Definition EU_DISPATCH_AREA_SIZE_LOG2 : Z := 4.
Definition EU_DISPATCH_AREA_SIZE : Z := Z.shiftl 1 EU_DISPATCH_AREA_SIZE_LOG2.

(** The areas a core sees at [ARCHI_EU_DEMUX_ADDR]: name, offset, size. *)
Definition EU_DEMUX_AREAS : list (string * Z * Z) :=
  [("CORE", 0x0000, 0x0040); ("MUTEX", 0x00C0, 0x0040); ("DISPATCH", 0x0080, 0x0040); ("LOOP", 0x0060, 0x0020);
   ("SW_EVENTS", 0x0100, 0x0100); ("BARRIER", 0x0200, 0x0200); ("SEC", 0x040, 0x040)]%string.
Definition EU_MUTEX_DEMUX_OFFSET : Z := 0x00C0.
Definition EU_DISPATCH_DEMUX_OFFSET : Z := 0x0080.
Definition EU_LOOP_DEMUX_OFFSET : Z := 0x0060.
Definition EU_SW_EVENTS_DEMUX_OFFSET : Z := 0x0100.
Definition EU_BARRIER_DEMUX_OFFSET : Z := 0x0200.
Definition EU_SEC_DEMUX_OFFSET : Z := 0x040.
Definition EU_SEC_MASK_AND : Z := 0x04.
Definition EU_SEC_MASK_OR : Z := 0x08.

Definition EU_CORE_MASK : Z := 0x00.
Definition EU_CORE_MASK_AND : Z := 0x04.
Definition EU_CORE_MASK_OR : Z := 0x08.
Definition EU_CORE_MASK_IRQ : Z := 0x0C.
Definition EU_CORE_MASK_IRQ_AND : Z := 0x10.
Definition EU_CORE_MASK_IRQ_OR : Z := 0x14.
Definition EU_CORE_BUFFER : Z := 0x1C.
Definition EU_CORE_BUFFER_MASKED : Z := 0x20.
Definition EU_CORE_BUFFER_IRQ_MASKED : Z := 0x24.
Definition EU_CORE_BUFFER_CLEAR : Z := 0x28.
Definition EU_CORE_EVENT_WAIT : Z := 0x38.
Definition EU_CORE_EVENT_WAIT_CLEAR : Z := 0x3C.
Definition EU_CORE_TRIGG_SW_EVENT : Z := 0x00.
Definition EU_CORE_MASK_SEC_IRQ : Z := 0x40.
Definition EU_SOC_EVENTS_CURRENT_EVENT : Z := 0x00.
Definition EU_SOC_EVENTS_VALID_BIT : Z := 31.
Definition EU_SOC_EVENTS_EVENT_MASK_BITS : Z := 8.
Definition EU_SOC_EVENTS_EVENT_MASK_OFFSET : Z := 0.
Definition EU_SOC_EVENTS_EVENT_MASK : Z :=
  Z.shiftl (Z.shiftl 1 EU_SOC_EVENTS_EVENT_MASK_BITS - 1) EU_SOC_EVENTS_EVENT_MASK_OFFSET.
Definition EU_HW_BARR_TRIGGER_MASK : Z := 0x00.
Definition EU_HW_BARR_TARGET_MASK : Z := 0x0C.
Definition EU_HW_BARR_TRIGGER : Z := 0x10.
Definition EU_HW_BARR_TRIGGER_WAIT_CLEAR : Z := 0x1C.
Definition EU_DISPATCH_FIFO_ACCESS : Z := 0x0.
Definition EU_DISPATCH_TEAM_CONFIG : Z := 0x4.
Definition EU_LOOP_STATE : Z := 0x0.
Definition EU_LOOP_START : Z := 0x4.
Definition EU_LOOP_END : Z := 0x8.
Definition EU_LOOP_INCR : Z := 0xc.
Definition EU_LOOP_CHUNK : Z := 0x10.
Definition EU_LOOP_EPOCH : Z := 0x14.
Definition EU_LOOP_SINGLE : Z := 0x18.
Definition PULP_DISPATCH_EVENT : Z := 18.

Definition EU_CORE_AREA_OFFSET_GET (coreId : Z) : Z := EU_CORES_AREA_OFFSET + coreId * EU_CORE_AREA_SIZE.
Definition EU_CORE_AREA_COREID_GET (offset : Z) : Z := Z.shiftr offset EU_CORE_AREA_SIZE_LOG2.
Definition EU_BARRIER_AREA_OFFSET_GET (barrier : Z) : Z := barrier * EU_BARRIER_SIZE.
Definition EU_BARRIER_AREA_BARRIERID_GET (offset : Z) : Z :=
  Z.shiftr (offset &&& (EU_BARRIER_AREA_SIZE - 1)) EU_BARRIER_SIZE_LOG2.
Definition EU_MUTEX_AREA_OFFSET_GET (mutex : Z) : Z := mutex * EU_MUTEX_AREA_SIZE.
Definition EU_MUTEX_AREA_MUTEXID_GET (offset : Z) : Z := Z.shiftr (offset &&& (EU_MUTEX_AREA_SIZE - 1)) 2.
Definition EU_DISPATCH_AREA_OFFSET_GET (dispatch : Z) : Z := dispatch * EU_DISPATCH_AREA_SIZE.

(** ** The port *)
Class ClusterMap := {
  ARCHI_EU_DEMUX_ADDR : Z;
  ARCHI_CLUSTER_PERIPHERALS_ADDR : Z;
  ARCHI_EU_OFFSET : Z;
  ARCHI_MCHAN_EXT_ADDR : Z;
  ARCHI_CL_EVT_DMA0 : Z
}.

Inductive access := Load (a v : Z) | Store (a v : Z).
Record cluster := mk_cluster {
  evt_mask : Z;                  (* events that wake the core *)
  evt_status : Z;                (* events received and not cleared *)
  coming : list Z;               (* events still to arrive *)
  replies : list Z;              (* what the other registers answer *)
  log : list access              (* every access, oldest first *)
}.

(** The core sleeps until an enabled event is in the status register. *)
Fixpoint wake (mask status : Z) (coming : list Z) : option (Z * list Z) :=
  if status &&& mask =? 0 then
    match coming with [] => None | e :: coming' => wake mask (status ||| e) coming' end
  else Some (status, coming).

Section Port.
Context `{ClusterMap}.

Definition bus_load (a : Z) : M cluster Z := fun s =>
  let o := a - ARCHI_EU_DEMUX_ADDR in
  let answer v status c r := Ok v (mk_cluster (evt_mask s) status c r (log s ++ [Load a v])) in
  if o =? EU_CORE_MASK then answer (evt_mask s) (evt_status s) (coming s) (replies s)
  else if o =? EU_CORE_BUFFER then answer (evt_status s) (evt_status s) (coming s) (replies s)
  else if o =? EU_CORE_BUFFER_MASKED then answer (evt_status s &&& evt_mask s) (evt_status s) (coming s) (replies s)
  else if o =? EU_CORE_EVENT_WAIT then
    match wake (evt_mask s) (evt_status s) (coming s) with
    | Some (st, c) => answer (st &&& evt_mask s) st c (replies s)
    | None => Spin s
    end
  else if o =? EU_CORE_EVENT_WAIT_CLEAR then
    match wake (evt_mask s) (evt_status s) (coming s) with
    | Some (st, c) => answer (st &&& evt_mask s) (st &&& Z.lnot (evt_mask s)) c (replies s)
    | None => Spin s
    end
  else match replies s with v :: r => answer v (evt_status s) (coming s) r | [] => Spin s end.

Definition bus_store (a v : Z) : M cluster unit := fun s =>
  let o := a - ARCHI_EU_DEMUX_ADDR in
  let v := u32 v in
  let mask := if o =? EU_CORE_MASK then v
    else if o =? EU_CORE_MASK_OR then evt_mask s ||| v
    else if o =? EU_CORE_MASK_AND then evt_mask s &&& Z.lnot v else evt_mask s in
  let status := if o =? EU_CORE_BUFFER_CLEAR then evt_status s &&& Z.lnot v else evt_status s in
  Ok tt (mk_cluster mask status (coming s) (replies s) (log s ++ [Store a v])).

(** hal/pulp_io.h *)
Definition pulp_read32 (add : Z) : M cluster Z := bus_load add.
Definition pulp_write32 (add val_ : Z) : M cluster unit := bus_store add val_.
Definition IP_WRITE (base offset value : Z) : M cluster unit := pulp_write32 (base + offset) value.
Definition IP_READ (base offset : Z) : M cluster Z := pulp_read32 (base + offset).

(** ** hal/eu/eu_v3.h *)
Definition evt_read32 (base offset : Z) : M cluster Z := pulp_read32 (base + offset).
Definition eu_evt_status : M cluster Z := pulp_read32 (ARCHI_EU_DEMUX_ADDR + EU_CORE_BUFFER).
Definition eu_evt_statusMasked : M cluster Z := pulp_read32 (ARCHI_EU_DEMUX_ADDR + EU_CORE_BUFFER_MASKED).
Definition eu_evt_clr (evtMask : Z) : M cluster unit := pulp_write32 (ARCHI_EU_DEMUX_ADDR + EU_CORE_BUFFER_CLEAR) evtMask.
Definition eu_evt_mask (evtMask : Z) : M cluster unit := pulp_write32 (ARCHI_EU_DEMUX_ADDR + EU_CORE_MASK) evtMask.
Definition eu_evt_maskSet_base (base evtMask : Z) : M cluster unit := pulp_write32 (base + EU_CORE_MASK_OR) evtMask.
Definition eu_evt_maskSet (evtMask : Z) : M cluster unit := eu_evt_maskSet_base ARCHI_EU_DEMUX_ADDR evtMask.
Definition eu_evt_maskClr (evtMask : Z) : M cluster unit := pulp_write32 (ARCHI_EU_DEMUX_ADDR + EU_CORE_MASK_AND) evtMask.
Definition eu_evt_wait : M cluster Z := evt_read32 ARCHI_EU_DEMUX_ADDR EU_CORE_EVENT_WAIT.
Definition eu_evt_wait_noreplay : M cluster Z := pulp_read32 (ARCHI_EU_DEMUX_ADDR + EU_CORE_EVENT_WAIT).
Definition eu_wait_for_interrupt : M cluster Z := pulp_read32 (ARCHI_EU_DEMUX_ADDR + EU_CORE_EVENT_WAIT).
Definition eu_evt_waitAndClr : M cluster Z := evt_read32 ARCHI_EU_DEMUX_ADDR EU_CORE_EVENT_WAIT_CLEAR.
Definition eu_evt_maskWaitAndClr (evtMask : Z) : M cluster Z :=
  eu_evt_maskSet evtMask ;;
  result ← eu_evt_waitAndClr;
  eu_evt_maskClr evtMask ;;
  mret result.

(** [do { result = eu_evt_waitAndClr(); } while (result == 0);] *)
Fixpoint wait_nonzero (fuel : nat) : M cluster Z :=
  result ← eu_evt_waitAndClr;
  if result =? 0 then match fuel with O => spin | S fuel' => wait_nonzero fuel' end else mret result.
Definition eu_fc_evt_maskWaitAndClr (fuel : nat) (evtMask : Z) : M cluster Z :=
  eu_evt_maskSet evtMask ;;
  result ← wait_nonzero fuel;
  eu_evt_maskClr evtMask ;;
  mret result.

Definition eu_evt_statusIrqMasked : M cluster Z := pulp_read32 (ARCHI_EU_DEMUX_ADDR + EU_CORE_BUFFER_IRQ_MASKED).
Definition eu_irq_mask (irqMask : Z) : M cluster unit := pulp_write32 (ARCHI_EU_DEMUX_ADDR + EU_CORE_MASK_IRQ) irqMask.
Definition eu_irq_secMask (irqMask : Z) : M cluster unit := pulp_write32 (ARCHI_EU_DEMUX_ADDR + EU_CORE_MASK_SEC_IRQ) irqMask.
Definition eu_irq_maskSet_base (base irqMask : Z) : M cluster unit := pulp_write32 (base + EU_CORE_MASK_IRQ_OR) irqMask.
Definition eu_irq_maskSet (irqMask : Z) : M cluster unit := eu_irq_maskSet_base ARCHI_EU_DEMUX_ADDR irqMask.
Definition eu_irq_maskClr (irqMask : Z) : M cluster unit := pulp_write32 (ARCHI_EU_DEMUX_ADDR + EU_CORE_MASK_IRQ_AND) irqMask.
Definition eu_irq_secMaskSet (irqMask : Z) : M cluster unit :=
  pulp_write32 (ARCHI_EU_DEMUX_ADDR + EU_SEC_DEMUX_OFFSET + EU_SEC_MASK_OR) irqMask.
Definition eu_irq_secMaskClr (irqMask : Z) : M cluster unit :=
  pulp_write32 (ARCHI_EU_DEMUX_ADDR + EU_SEC_DEMUX_OFFSET + EU_SEC_MASK_AND) irqMask.
Definition eu_irq_status : M cluster Z := pulp_read32 (ARCHI_EU_DEMUX_ADDR + EU_CORE_BUFFER_IRQ_MASKED).

Definition eu_evt_trig_remote_addr (event : Z) : Z :=
  u32 (ARCHI_CLUSTER_PERIPHERALS_ADDR + ARCHI_EU_OFFSET + EU_SW_EVENTS_AREA_BASE + EU_CORE_TRIGG_SW_EVENT + Z.shiftl event 2).
Definition eu_evt_trig_addr (event : Z) : Z :=
  u32 (ARCHI_EU_DEMUX_ADDR + EU_SW_EVENTS_DEMUX_OFFSET + EU_CORE_TRIGG_SW_EVENT + Z.shiftl event 2).
Definition eu_evt_trig (evtAddr coreSet : Z) : M cluster unit := pulp_write32 evtAddr coreSet.
Definition eu_evt_trig_from_id (event coreSet : Z) : M cluster unit :=
  IP_WRITE ARCHI_EU_DEMUX_ADDR (EU_SW_EVENTS_DEMUX_OFFSET + EU_CORE_TRIGG_SW_EVENT + Z.shiftl event 2) coreSet.

Definition eu_bar_addr (barId : Z) : Z := u32 (ARCHI_EU_DEMUX_ADDR + EU_BARRIER_DEMUX_OFFSET + EU_BARRIER_AREA_OFFSET_GET barId).
Definition eu_bar_id (barAddr : Z) : Z := EU_BARRIER_AREA_BARRIERID_GET barAddr.
Definition eu_bar_trig_wait_clr (barAddr : Z) : M cluster Z := evt_read32 barAddr EU_HW_BARR_TRIGGER_WAIT_CLEAR.
Definition eu_bar_setup_mask (barAddr coreMask targetMask : Z) : M cluster unit :=
  IP_WRITE barAddr EU_HW_BARR_TRIGGER_MASK coreMask ;;
  IP_WRITE barAddr EU_HW_BARR_TARGET_MASK targetMask.
Definition eu_bar_setup (barAddr coreMask : Z) : M cluster unit := eu_bar_setup_mask barAddr coreMask coreMask.
Definition eu_bar_trigger (barAddr mask : Z) : M cluster unit := pulp_write32 (barAddr + EU_HW_BARR_TRIGGER) mask.

Definition eu_soc_events_pop : M cluster Z :=
  pulp_read32 (ARCHI_CLUSTER_PERIPHERALS_ADDR + ARCHI_EU_OFFSET + EU_SOC_EVENTS_AREA_OFFSET + EU_SOC_EVENTS_CURRENT_EVENT).
Definition eu_soc_events_is_valid (word : Z) : Z := Z.shiftr word EU_SOC_EVENTS_VALID_BIT &&& 1.
Definition eu_soc_events_get_event (word : Z) : Z := word &&& EU_SOC_EVENTS_EVENT_MASK.

Definition eu_mutex_addr (mutexId : Z) : Z := u32 (ARCHI_EU_DEMUX_ADDR + EU_MUTEX_DEMUX_OFFSET + Z.shiftl mutexId 2).
Definition eu_mutex_lock (mutexAddr : Z) : M cluster unit := _ ← evt_read32 mutexAddr 0; skip.
Definition eu_mutex_lock_from_id (id : Z) : M cluster unit :=
  _ ← evt_read32 ARCHI_EU_DEMUX_ADDR (EU_MUTEX_DEMUX_OFFSET + Z.shiftl id 2); skip.
Definition eu_mutex_unlock (mutexAddr : Z) : M cluster unit := pulp_write32 mutexAddr 0.
Definition eu_mutex_unlock_from_id (id : Z) : M cluster unit :=
  IP_WRITE ARCHI_EU_DEMUX_ADDR (EU_MUTEX_DEMUX_OFFSET + Z.shiftl id 2) 0.
Definition eu_mutex_init (mutexAddr : Z) : M cluster unit := pulp_write32 mutexAddr 0.

Definition eu_dispatch_pop : M cluster Z :=
  eu_evt_maskSet (Z.shiftl 1 PULP_DISPATCH_EVENT) ;;
  result ← evt_read32 ARCHI_EU_DEMUX_ADDR (EU_DISPATCH_DEMUX_OFFSET + EU_DISPATCH_FIFO_ACCESS);
  eu_evt_maskClr (Z.shiftl 1 PULP_DISPATCH_EVENT) ;;
  mret result.
Definition eu_dispatch_push (value : Z) : M cluster unit :=
  IP_WRITE ARCHI_EU_DEMUX_ADDR (EU_DISPATCH_DEMUX_OFFSET + EU_DISPATCH_FIFO_ACCESS) value.
Definition eu_dispatch_push_base (base value : Z) : M cluster unit := IP_WRITE base EU_DISPATCH_FIFO_ACCESS value.
Definition eu_dispatch_team_config (value : Z) : M cluster unit :=
  IP_WRITE ARCHI_EU_DEMUX_ADDR (EU_DISPATCH_DEMUX_OFFSET + EU_DISPATCH_TEAM_CONFIG) value.
Definition eu_dispatch_team_config_base (base value : Z) : M cluster unit := IP_WRITE base EU_DISPATCH_TEAM_CONFIG value.
Definition eu_dispatch_get_base (id : Z) : Z :=
  u32 (ARCHI_EU_DEMUX_ADDR + EU_DISPATCH_DEMUX_OFFSET + EU_DISPATCH_AREA_OFFSET_GET id).
Definition eu_dispatch_team_config_read : M cluster Z :=
  IP_READ ARCHI_EU_DEMUX_ADDR (EU_DISPATCH_DEMUX_OFFSET + EU_DISPATCH_TEAM_CONFIG).

Definition eu_loop_addr (id : Z) : Z := u32 (ARCHI_EU_DEMUX_ADDR + EU_LOOP_DEMUX_OFFSET).
Definition eu_loop_getChunk (addr : Z) : M cluster Z := pulp_read32 (addr + EU_LOOP_CHUNK).
Definition eu_loop_getStart (addr : Z) : M cluster Z := pulp_read32 (addr + EU_LOOP_START).
Definition eu_loop_getState (addr : Z) : M cluster Z := pulp_read32 (addr + EU_LOOP_STATE).
Definition eu_loop_setStart (addr value : Z) : M cluster unit := pulp_write32 (addr + EU_LOOP_START) value.
Definition eu_loop_setEnd (addr value : Z) : M cluster unit := pulp_write32 (addr + EU_LOOP_END) value.
Definition eu_loop_setIncr (addr value : Z) : M cluster unit := pulp_write32 (addr + EU_LOOP_INCR) value.
Definition eu_loop_setChunk (addr value : Z) : M cluster unit := pulp_write32 (addr + EU_LOOP_CHUNK) value.
Definition eu_loop_initEpoch (addr coreSet : Z) : M cluster unit := pulp_write32 (addr + EU_LOOP_EPOCH) coreSet.
Definition eu_loop_getSingle (addr : Z) : M cluster Z := pulp_read32 (addr + EU_LOOP_SINGLE).

Definition eu_evt_getClusterBase (coreId : Z) : Z :=
  u32 (ARCHI_CLUSTER_PERIPHERALS_ADDR + ARCHI_EU_OFFSET + EU_CORE_AREA_OFFSET_GET coreId).
Definition eu_core_base (coreId : Z) : Z := u32 (ARCHI_CLUSTER_PERIPHERALS_ADDR + ARCHI_EU_OFFSET + EU_CORE_AREA_SIZE * coreId).
End Port.

(** * Theorems *)

(** ** Waiting *)
(** The core wakes up with an enabled event pending; what arrived is in the status. *)
Lemma wake_some mask : forall cs st st' cs', wake mask st cs = Some (st', cs') ->
  st' &&& mask <> 0 /\ exists es, cs = es ++ cs' /\ st' = foldl Z.lor st es.
Proof.
  induction cs as [|e cs IH]; intros st st' cs'; simpl; destruct (Z.eqb_spec (st &&& mask) 0) as [E|E]; try done.
  - intros [= <- <-]. split; [done|]. by exists [].
  - intros Hw. destruct (IH _ _ _ Hw) as (Hne & es & -> & ->). split; [done|]. by exists (e :: es).
  - intros [= <- <-]. split; [done|]. by exists [].
Qed.

(** It sleeps for ever exactly when no event to come is enabled. *)
Lemma wake_none mask : forall cs st, wake mask st cs = None <->
  st &&& mask = 0 /\ Forall (fun e => e &&& mask = 0) cs.
Proof.
  induction cs as [|e cs IH]; intros st; simpl; destruct (Z.eqb_spec (st &&& mask) 0) as [E|E].
  - by split; [split|].
  - by split; [|intros []].
  - rewrite IH, Z.land_lor_distr_l, E, Z.lor_0_l, Forall_cons. tauto.
  - by split; [|intros []].
Qed.

Section Wait.
Context `{ClusterMap}.

Definition demux (o : Z) : Z := ARCHI_EU_DEMUX_ADDR + o.

(** The three accesses of a wait for the events of [m]: what is enabled meanwhile,
    what the core wakes up with, and what is left behind. *)
Lemma mask_wait m s : 0 <= m < 2 ^ 32 ->
  eu_evt_maskWaitAndClr m s =
  match wake (evt_mask s ||| m) (evt_status s) (coming s) with
  | Some (st, cs) =>
      let on := evt_mask s ||| m in
      Ok (st &&& on) (mk_cluster (evt_mask s &&& Z.lnot m) (st &&& Z.lnot on) cs (replies s)
        (log s ++ [Store (demux EU_CORE_MASK_OR) m; Load (demux EU_CORE_EVENT_WAIT_CLEAR) (st &&& on);
                   Store (demux EU_CORE_MASK_AND) m]))
  | None => Spin (mk_cluster (evt_mask s ||| m) (evt_status s) (coming s) (replies s)
        (log s ++ [Store (demux EU_CORE_MASK_OR) m]))
  end.
Proof.
  intros Hm. unfold eu_evt_maskWaitAndClr, eu_evt_maskSet, eu_evt_maskSet_base, eu_evt_waitAndClr, evt_read32,
    eu_evt_maskClr, pulp_write32, pulp_read32, bus_store, bus_load, mbind, M_bind.
  rewrite !Z.add_simpl_l, u32_small by done. cbn -[wake Z.land Z.lor Z.lnot].
  destruct (wake _ _ _) as [[st cs]|]; cbn; [|done]. do 2 f_equal; [|by rewrite <- !app_assoc].
  apply Z.bits_inj'. intros i Hi. rewrite !Z.land_spec, Z.lor_spec, Z.lnot_spec by done. btauto.
Qed.

(** The same for the fabric controller: the unit never wakes a core with no event,
    so that its loop is left after the first turn. *)
Lemma mask_wait_fc fuel m s : eu_fc_evt_maskWaitAndClr fuel m s = eu_evt_maskWaitAndClr m s.
Proof.
  unfold eu_fc_evt_maskWaitAndClr, eu_evt_maskWaitAndClr. apply bind_ext. intros _ s1.
  assert (E : wait_nonzero fuel s1 = eu_evt_waitAndClr s1).
  { unfold eu_evt_waitAndClr, evt_read32. destruct fuel; cbn [wait_nonzero]; unfold eu_evt_waitAndClr, evt_read32, mbind, M_bind;
      unfold pulp_read32, bus_load; rewrite Z.add_simpl_l; cbn -[wake Z.land Z.lor Z.lnot];
      destruct (wake _ _ _) as [[st cs]|] eqn:Ew; cbn; [|done| |done];
      by rewrite (proj2 (Z.eqb_neq _ _) (proj1 (wake_some _ _ _ _ _ Ew))). }
  unfold mbind, M_bind. by rewrite E.
Qed.

(** C31. [eu_evt_maskWaitAndClr] returns when, and only when, an event of its mask or
    one already enabled is pending or arrives; it returns the active events, none of
    them stays in the status register, and no event of the mask is left enabled: one
    that was enabled before is not, although the comment promises the old mask.
    The variant of the fabric controller does the same in one turn of its loop. *)
Theorem eu_waits m s : 0 <= m < 2 ^ 32 ->
  (forall fuel, eu_fc_evt_maskWaitAndClr fuel m s = eu_evt_maskWaitAndClr m s) /\
  match eu_evt_maskWaitAndClr m s with
  | Ok r s' =>
      exists es, coming s = es ++ coming s' /\
        r = foldl Z.lor (evt_status s) es &&& (evt_mask s ||| m) /\ r <> 0 /\
        evt_status s' &&& (evt_mask s ||| m) = 0 /\ evt_mask s' = evt_mask s &&& Z.lnot m
  | Spin _ => Forall (fun e => (e &&& (evt_mask s ||| m)) = 0) (evt_status s :: coming s)
  | _ => False
  end.
Proof.
  intros Hm. split; [intros fuel; by apply mask_wait_fc|]. rewrite mask_wait by done.
  destruct (wake _ _ _) as [[st cs]|] eqn:E; cbn.
  - destruct (wake_some _ _ _ _ _ E) as (Hne & es & -> & ->). exists es. repeat split; [done|].
    apply Z.bits_inj'. intros i Hi. rewrite !Z.land_spec, Z.lnot_spec, Z.bits_0 by done. btauto.
  - by apply Forall_cons, wake_none.
Qed.
End Wait.

(** ** Addresses and identifiers *)
(** The areas a core sees do not overlap, but for the one of the secure extension,
    which covers the registers of the hardware loops. *)
Definition overlap (p q : string * Z * Z) : bool :=
  (p.1.2 <? q.1.2 + q.2) && (q.1.2 <? p.1.2 + p.2).
Lemma demux_areas_apart : map (fun p => map (fun q => q.1.1) (List.filter (overlap p) EU_DEMUX_AREAS)) EU_DEMUX_AREAS =
  [["CORE"]; ["MUTEX"]; ["DISPATCH"]; ["LOOP"; "SEC"]; ["SW_EVENTS"]; ["BARRIER"]; ["LOOP"; "SEC"]]%string.
Proof. reflexivity. Qed.

Section Ids.
Context `{ClusterMap}.
Hypothesis demux_aligned : ARCHI_EU_DEMUX_ADDR mod 0x400 = 0.
Hypothesis demux_fits : 0 <= ARCHI_EU_DEMUX_ADDR /\ ARCHI_EU_DEMUX_ADDR + 0x400 <= 2 ^ 32.
(** The barrier macros are inverse to each other; the identifier of a mutex is lost
    above 3, for the macro takes four bits of the address where the area has six. *)
Lemma bar_id_addr b : 0 <= b < 16 -> eu_bar_id (eu_bar_addr b) = b.
Proof.
  intros Hb. unfold eu_bar_id, eu_bar_addr, EU_BARRIER_AREA_BARRIERID_GET, EU_BARRIER_AREA_OFFSET_GET.
  change EU_BARRIER_SIZE with 32. change EU_BARRIER_DEMUX_OFFSET with 0x200. change (EU_BARRIER_AREA_SIZE - 1) with (Z.ones 9).
  rewrite u32_small by lia. rewrite Z.land_ones by lia. rewrite Z.shiftr_div_pow2 by (unfold EU_BARRIER_SIZE_LOG2; lia).
  change (2 ^ EU_BARRIER_SIZE_LOG2) with 32. change (2 ^ 9) with 512. Z.div_mod_to_equations. lia.
Qed.

Lemma mutex_id_addr i : 0 <= i < 16 -> EU_MUTEX_AREA_MUTEXID_GET (eu_mutex_addr i) = i mod 4.
Proof.
  intros Hb. unfold EU_MUTEX_AREA_MUTEXID_GET, eu_mutex_addr. rewrite Z.shiftl_mul_pow2 by lia.
  change (2 ^ 2) with 4. change EU_MUTEX_DEMUX_OFFSET with 0xC0. change (EU_MUTEX_AREA_SIZE - 1) with (Z.ones 4).
  rewrite u32_small by lia. rewrite Z.land_ones by lia. rewrite Z.shiftr_div_pow2 by lia.
  change (2 ^ 4) with 16. change (2 ^ 2) with 4. Z.div_mod_to_equations. lia.
Qed.
End Ids.

(** ** A concrete run: an event that is not enabled arrives first *)
Section Witness.
#[local] Instance w_map : ClusterMap := {| ARCHI_EU_DEMUX_ADDR := 0x00204000; ARCHI_CLUSTER_PERIPHERALS_ADDR := 0x00200000;
  ARCHI_EU_OFFSET := 0x800; ARCHI_MCHAN_EXT_ADDR := 0x00201800; ARCHI_CL_EVT_DMA0 := 8 |}.

Lemma eu_waits_witness :
  match eu_evt_maskWaitAndClr 0x100 (mk_cluster 0x102 1 [4; 0x108; 2] [] []) with
  | Ok r s' => r = 0x100 /\ evt_status s' = 0xD /\ coming s' = [2] /\ evt_mask s' = 2
  | _ => False
  end.
Proof.
  pose proof (eu_waits 0x100 (mk_cluster 0x102 1 [4; 0x108; 2] [] []) ltac:(lia)) as [_ E].
  vm_compute in E |- *. destruct E as (es & E1 & E2 & _). by repeat split.
Defined.
End Witness.
