(* ===== verification/Dma.v ===== *)
(** * Dma: the HAL of the cluster DMA

    boot_code/include/hal/dma/mchan_v7.h over the port of Eu: the twelve functions
    that enqueue a transfer, the two that wait, and the counters.  What the DMA
    answers (the counter it allocates, its status) is the list [replies]; what the
    functions ask of it is read from the accesses by [parse], which uses the tables
    of the generated header (MchanV7). *)

From S2P Require Import Prelude Monad Builtins Regs MchanV7 Eu.

(** hal/riscv/riscv_v5.h *)
Definition __builtin_bitinsert (dst src size off : Z) : Z :=
  (dst &&& Z.lnot (Z.shiftl (Z.shiftl 1 size - 1) off)) ||| Z.shiftl (src &&& (Z.shiftl 1 size - 1)) off.

Definition PLP_DMA_LOC2EXT : Z := 0.
Definition PLP_DMA_EXT2LOC : Z := 1.
Definition PLP_DMA_1D : Z := 0.
Definition PLP_DMA_2D : Z := 1.
Definition PLP_DMA_NO_TRIG_EVT : Z := 0.
Definition PLP_DMA_TRIG_EVT : Z := 1.
Definition PLP_DMA_NO_TRIG_IRQ : Z := 0.
Definition PLP_DMA_TRIG_IRQ : Z := 1.
Definition PLP_DMA_SHARED : Z := 1.
Definition PLP_DMA_INC : Z := 1.

(** The bits of a command in archi/dma/mchan_v7.h. *)
Definition MCHAN_CMD_CMD_LEN_BIT : Z := 0.
Definition MCHAN_CMD_CMD_LEN_WIDTH : Z := 17.
Definition MCHAN_CMD_CMD_TYPE_BIT : Z := 17.
Definition MCHAN_CMD_CMD_INC_BIT : Z := 18.
Definition MCHAN_CMD_CMD__2D_EXT_BIT : Z := 19.
Definition MCHAN_CMD_CMD_ELE_BIT : Z := 20.
Definition MCHAN_CMD_CMD_ILE_BIT : Z := 21.
Definition MCHAN_CMD_CMD_BLE_BIT : Z := 22.

Definition plp_dma_getCmd (ext2loc size is2D trigEvt trigIrq broadcast : Z) : Z :=
  let res := __builtin_bitinsert 0 ext2loc 1 MCHAN_CMD_CMD_TYPE_BIT in
  let res := __builtin_bitinsert res PLP_DMA_INC 1 MCHAN_CMD_CMD_INC_BIT in
  let res := __builtin_bitinsert res is2D 1 MCHAN_CMD_CMD__2D_EXT_BIT in
  let res := __builtin_bitinsert res size MCHAN_CMD_CMD_LEN_WIDTH MCHAN_CMD_CMD_LEN_BIT in
  let res := __builtin_bitinsert res trigEvt 1 MCHAN_CMD_CMD_ELE_BIT in
  let res := __builtin_bitinsert res trigIrq 1 MCHAN_CMD_CMD_ILE_BIT in
  __builtin_bitinsert res broadcast 1 MCHAN_CMD_CMD_BLE_BIT.

Section Hal.
Context `{ClusterMap}.

Definition DMA_WRITE (value offset : Z) : M cluster unit := pulp_write32 (ARCHI_MCHAN_EXT_ADDR + offset) value.
Definition DMA_READ (offset : Z) : M cluster Z := pulp_read32 (ARCHI_MCHAN_EXT_ADDR + offset).

Definition plp_dma_counter_alloc : M cluster Z := v ← DMA_READ MCHAN_CMD_OFFSET; mret (s32 v).
Definition plp_dma_counter_free (counter : Z) : M cluster unit := DMA_WRITE (Z.shiftl 1 counter) MCHAN_STATUS_OFFSET.

(** The external address has 32 bits (ARCHI_HAS_MCHAN_64 is not defined). *)
Definition plp_dma_cmd_push (cmd locAddr extAddr : Z) : M cluster unit :=
  DMA_WRITE cmd MCHAN_CMD_OFFSET ;;
  DMA_WRITE locAddr MCHAN_CMD_OFFSET ;;
  DMA_WRITE extAddr MCHAN_CMD_OFFSET.
Definition plp_dma_cmd_push_2d (cmd locAddr extAddr stride length : Z) : M cluster unit :=
  plp_dma_cmd_push cmd locAddr extAddr ;;
  DMA_WRITE length MCHAN_CMD_OFFSET ;;
  DMA_WRITE stride MCHAN_CMD_OFFSET.

Definition plp_dma_memcpy (ext loc size ext2loc : Z) : M cluster Z :=
  counter ← plp_dma_counter_alloc;
  let cmd := plp_dma_getCmd ext2loc size PLP_DMA_1D PLP_DMA_TRIG_EVT PLP_DMA_NO_TRIG_IRQ PLP_DMA_SHARED in
  plp_dma_cmd_push cmd loc ext ;; mret counter.
Definition plp_dma_l1ToExt (ext loc size : Z) : M cluster Z :=
  counter ← plp_dma_counter_alloc;
  let cmd := plp_dma_getCmd PLP_DMA_LOC2EXT size PLP_DMA_1D PLP_DMA_TRIG_EVT PLP_DMA_NO_TRIG_IRQ PLP_DMA_SHARED in
  plp_dma_cmd_push cmd loc ext ;; mret counter.
Definition plp_dma_extToL1 (loc ext size : Z) : M cluster Z :=
  counter ← plp_dma_counter_alloc;
  let cmd := plp_dma_getCmd PLP_DMA_EXT2LOC size PLP_DMA_1D PLP_DMA_TRIG_EVT PLP_DMA_NO_TRIG_IRQ PLP_DMA_SHARED in
  plp_dma_cmd_push cmd loc ext ;; mret counter.
Definition plp_dma_memcpy_irq (ext loc size ext2loc : Z) : M cluster Z :=
  counter ← plp_dma_counter_alloc;
  let cmd := plp_dma_getCmd ext2loc size PLP_DMA_1D PLP_DMA_NO_TRIG_EVT PLP_DMA_TRIG_IRQ PLP_DMA_SHARED in
  plp_dma_cmd_push cmd loc ext ;; mret counter.
Definition plp_dma_l1ToExt_irq (ext loc size : Z) : M cluster Z :=
  counter ← plp_dma_counter_alloc;
  let cmd := plp_dma_getCmd PLP_DMA_LOC2EXT size PLP_DMA_1D PLP_DMA_NO_TRIG_EVT PLP_DMA_TRIG_IRQ PLP_DMA_SHARED in
  plp_dma_cmd_push cmd loc ext ;; mret counter.
Definition plp_dma_extToL1_irq (loc ext size : Z) : M cluster Z :=
  counter ← plp_dma_counter_alloc;
  let cmd := plp_dma_getCmd PLP_DMA_EXT2LOC size PLP_DMA_1D PLP_DMA_NO_TRIG_EVT PLP_DMA_TRIG_IRQ PLP_DMA_SHARED in
  plp_dma_cmd_push cmd loc ext ;; mret counter.

Definition plp_dma_memcpy_2d_keepCounter (ext loc size stride length ext2loc : Z) : M cluster unit :=
  let cmd := plp_dma_getCmd ext2loc size PLP_DMA_2D PLP_DMA_TRIG_EVT PLP_DMA_NO_TRIG_IRQ PLP_DMA_SHARED in
  plp_dma_cmd_push_2d cmd loc ext stride length.
Definition plp_dma_memcpy_2d (ext loc size stride length ext2loc : Z) : M cluster Z :=
  counter ← plp_dma_counter_alloc;
  plp_dma_memcpy_2d_keepCounter ext loc size stride length ext2loc ;; mret counter.
Definition plp_dma_l1ToExt_2d (ext loc size stride length : Z) : M cluster Z :=
  counter ← plp_dma_counter_alloc;
  let cmd := plp_dma_getCmd PLP_DMA_LOC2EXT size PLP_DMA_2D PLP_DMA_TRIG_EVT PLP_DMA_NO_TRIG_IRQ PLP_DMA_SHARED in
  plp_dma_cmd_push_2d cmd loc ext stride length ;; mret counter.
Definition plp_dma_extToL1_2d (loc ext size stride length : Z) : M cluster Z :=
  counter ← plp_dma_counter_alloc;
  let cmd := plp_dma_getCmd PLP_DMA_EXT2LOC size PLP_DMA_2D PLP_DMA_TRIG_EVT PLP_DMA_NO_TRIG_IRQ PLP_DMA_SHARED in
  plp_dma_cmd_push_2d cmd loc ext stride length ;; mret counter.
Definition plp_dma_memcpy_2d_irq (ext loc size stride length ext2loc : Z) : M cluster Z :=
  counter ← plp_dma_counter_alloc;
  let cmd := plp_dma_getCmd ext2loc size PLP_DMA_2D PLP_DMA_NO_TRIG_EVT PLP_DMA_TRIG_IRQ PLP_DMA_SHARED in
  plp_dma_cmd_push_2d cmd loc ext stride length ;; mret counter.
Definition plp_dma_l1ToExt_2d_irq (ext loc size stride length : Z) : M cluster Z :=
  counter ← plp_dma_counter_alloc;
  let cmd := plp_dma_getCmd PLP_DMA_LOC2EXT size PLP_DMA_2D PLP_DMA_NO_TRIG_EVT PLP_DMA_TRIG_IRQ PLP_DMA_SHARED in
  plp_dma_cmd_push_2d cmd loc ext stride length ;; mret counter.
Definition plp_dma_extToL1_2d_irq (loc ext size stride length : Z) : M cluster Z :=
  counter ← plp_dma_counter_alloc;
  let cmd := plp_dma_getCmd PLP_DMA_EXT2LOC size PLP_DMA_2D PLP_DMA_NO_TRIG_EVT PLP_DMA_TRIG_IRQ PLP_DMA_SHARED in
  plp_dma_cmd_push_2d cmd loc ext stride length ;; mret counter.

Definition plp_dma_barrier (fuel : nat) : M cluster unit :=
  while fuel (v ← DMA_READ MCHAN_STATUS_OFFSET; mret (negb (v &&& 0xFFFF =? 0)))
    (_ ← eu_evt_maskWaitAndClr (Z.shiftl 1 ARCHI_CL_EVT_DMA0); skip) ;;
  DMA_WRITE (-1) MCHAN_STATUS_OFFSET.
Definition plp_dma_wait (fuel : nat) (counter : Z) : M cluster unit :=
  while fuel (v ← DMA_READ MCHAN_STATUS_OFFSET; mret (negb (v &&& Z.shiftl 1 counter =? 0)))
    (_ ← eu_evt_maskWaitAndClr (Z.shiftl 1 ARCHI_CL_EVT_DMA0); skip) ;;
  plp_dma_counter_free counter.
Definition plp_dma_status : M cluster Z := DMA_READ MCHAN_STATUS_OFFSET.
End Hal.

(** ** What a sequence of command words asks for *)
Record dma_transfer := mk_dma_transfer {
  x_size : Z; x_ext2loc : bool; x_event : bool; x_irq : bool; x_broadcast : bool;
  x_local : Z; x_external : Z;
  x_tile : option (Z * Z)        (* bytes per line, bytes between lines *)
}.

(** The field [n] of a command word, where the header has it. *)
Definition cmd_field (n : string) (w : Z) : Z :=
  match find (fun f => same_field (f_reg f) (f_name f) "CMD_CMD" n) MCHAN_FIELDS with
  | Some f => bitfield_get w (f_bit f) (f_width f)
  | None => 0
  end.
Definition flag (n : string) (w : Z) : bool := cmd_field n w =? 1.

(** An incremental transfer with one tile at most, on the external side. *)
Definition parse (ws : list Z) : option dma_transfer :=
  match ws with
  | w :: local :: external :: tile =>
      if flag "INC" w && negb (flag "_2D_TCDM" w) then
        let x := mk_dma_transfer (cmd_field "LEN" w) (flag "TYPE" w) (flag "ELE" w) (flag "ILE" w) (flag "BLE" w)
                   local external in
        match tile with
        | [] => if flag "_2D_EXT" w then None else Some (x None)
        | [count; stride] => if flag "_2D_EXT" w then Some (x (Some (count, stride))) else None
        | _ => None
        end
      else None
  | _ => None
  end.

(** The twelve functions, by what their names say. *)
Inductive direction := Given (ext2loc : bool) | L1ToExt | ExtToL1.
Definition enqueue `{ClusterMap} (d : direction) (irq : bool) (tile : option (Z * Z)) (ext loc size : Z) : M cluster Z :=
  match tile, irq, d with
  | None, false, Given b => plp_dma_memcpy ext loc size (Z.b2z b)
  | None, false, L1ToExt => plp_dma_l1ToExt ext loc size
  | None, false, ExtToL1 => plp_dma_extToL1 loc ext size
  | None, true, Given b => plp_dma_memcpy_irq ext loc size (Z.b2z b)
  | None, true, L1ToExt => plp_dma_l1ToExt_irq ext loc size
  | None, true, ExtToL1 => plp_dma_extToL1_irq loc ext size
  | Some (length, stride), false, Given b => plp_dma_memcpy_2d ext loc size stride length (Z.b2z b)
  | Some (length, stride), false, L1ToExt => plp_dma_l1ToExt_2d ext loc size stride length
  | Some (length, stride), false, ExtToL1 => plp_dma_extToL1_2d loc ext size stride length
  | Some (length, stride), true, Given b => plp_dma_memcpy_2d_irq ext loc size stride length (Z.b2z b)
  | Some (length, stride), true, L1ToExt => plp_dma_l1ToExt_2d_irq ext loc size stride length
  | Some (length, stride), true, ExtToL1 => plp_dma_extToL1_2d_irq loc ext size stride length
  end.
Definition to_local (d : direction) : bool := match d with Given b => b | L1ToExt => false | ExtToL1 => true end.
Definition asked (d : direction) (irq : bool) (tile : option (Z * Z)) (ext loc size : Z) : dma_transfer :=
  mk_dma_transfer size (to_local d) (negb irq) irq true loc ext tile.

(** * Theorems *)

(** ** Commands *)
Lemma bitinsert_set dst src size off : 0 <= size -> 0 <= off ->
  __builtin_bitinsert dst src size off = bitfield_set dst src off size.
Proof.
  intros Hs Ho. unfold __builtin_bitinsert, bitfield_set.
  rewrite Z.shiftl_1_l. replace (2 ^ size - 1) with (Z.ones size) by (rewrite Z.ones_equiv; lia).
  by rewrite Z.land_ones by lia.
Qed.

(** The fields of a command in the header's table. *)
Lemma cmd_LEN w : cmd_field "LEN" w = bitfield_get w 0 17.
Proof. reflexivity. Qed.
Lemma cmd_TYPE w : cmd_field "TYPE" w = bitfield_get w 17 1.
Proof. reflexivity. Qed.
Lemma cmd_INC w : cmd_field "INC" w = bitfield_get w 18 1.
Proof. reflexivity. Qed.
Lemma cmd_EXT w : cmd_field "_2D_EXT" w = bitfield_get w 19 1.
Proof. reflexivity. Qed.
Lemma cmd_ELE w : cmd_field "ELE" w = bitfield_get w 20 1.
Proof. reflexivity. Qed.
Lemma cmd_ILE w : cmd_field "ILE" w = bitfield_get w 21 1.
Proof. reflexivity. Qed.
Lemma cmd_BLE w : cmd_field "BLE" w = bitfield_get w 22 1.
Proof. reflexivity. Qed.
Lemma cmd_TCDM w : cmd_field "_2D_TCDM" w = bitfield_get w 23 1.
Proof. reflexivity. Qed.

(** A command word carries the fields it was built from. *)
Lemma getCmd_fields (e t v i b : bool) size : 0 <= size < 2 ^ 17 ->
  let w := plp_dma_getCmd (Z.b2z e) size (Z.b2z t) (Z.b2z v) (Z.b2z i) (Z.b2z b) in
  0 <= w < 2 ^ 32 /\ cmd_field "LEN" w = size /\ flag "INC" w = true /\ flag "_2D_TCDM" w = false /\
  flag "TYPE" w = e /\ flag "_2D_EXT" w = t /\ flag "ELE" w = v /\ flag "ILE" w = i /\ flag "BLE" w = b.
Proof.
  intros Hs w. subst w. unfold plp_dma_getCmd. rewrite !bitinsert_set by done.
  split; [repeat apply bitfield_set_range; (by vm_compute) || (split; by vm_compute)|].
  unfold flag. rewrite cmd_LEN, cmd_INC, cmd_TCDM, cmd_TYPE, cmd_EXT, cmd_ELE, cmd_ILE, cmd_BLE.
  cbv [MCHAN_CMD_CMD_LEN_BIT MCHAN_CMD_CMD_LEN_WIDTH MCHAN_CMD_CMD_TYPE_BIT MCHAN_CMD_CMD_INC_BIT
    MCHAN_CMD_CMD__2D_EXT_BIT MCHAN_CMD_CMD_ELE_BIT MCHAN_CMD_CMD_ILE_BIT MCHAN_CMD_CMD_BLE_BIT].
  repeat match goal with |- context [bitfield_get (bitfield_set ?r ?x ?o ?w) ?o' ?w'] =>
    first [rewrite (bitfield_get_set r x o' w') by (vm_compute; discriminate)
          |rewrite (bitfield_get_set_other r x o w o' w') by (vm_compute; (discriminate || (left; discriminate) || (right; discriminate)))] end.
  split; [apply Z.mod_small; lia|]. destruct e, t, v, i, b; by vm_compute.
Qed.

(** ** The registers *)
(** The DMA is not in the area of the event unit. *)
Class ClusterMapOk (C : ClusterMap) : Prop := {
  dma_apart : forall o, 0 <= o < 0x400 -> forall o', 0 <= o' <= 4 -> ARCHI_MCHAN_EXT_ADDR + o' <> ARCHI_EU_DEMUX_ADDR + o;
  dma_event : 0 <= ARCHI_CL_EVT_DMA0 < 32
}.

Section Enqueue.
Context `{ClusterMapOk}.

Definition logged (l : list access) (s : cluster) : cluster :=
  mk_cluster (evt_mask s) (evt_status s) (coming s) (replies s) (log s ++ l).
Definition command (w : Z) : access := Store (ARCHI_MCHAN_EXT_ADDR + MCHAN_CMD_OFFSET) w.

Lemma logged_app l1 l2 s : logged l2 (logged l1 s) = logged (l1 ++ l2) s.
Proof. unfold logged. cbn. by rewrite <- app_assoc. Qed.

Lemma not_eu o' o : 0 <= o' <= 4 -> 0 <= o < 0x400 -> (ARCHI_MCHAN_EXT_ADDR + o' - ARCHI_EU_DEMUX_ADDR =? o) = false.
Proof. intros Ho' Ho. apply Z.eqb_neq. pose proof (dma_apart o Ho o' Ho'). lia. Qed.

Lemma dma_write_word v o s : 0 <= o <= 4 -> DMA_WRITE v o s = Ok tt (logged [Store (ARCHI_MCHAN_EXT_ADDR + o) (u32 v)] s).
Proof.
  intros Ho. unfold DMA_WRITE, pulp_write32, bus_store. by rewrite !not_eu by (done || (vm_compute; intuition discriminate)).
Qed.
Lemma dma_write v o s : 0 <= o <= 4 -> 0 <= v < 2 ^ 32 ->
  DMA_WRITE v o s = Ok tt (logged [Store (ARCHI_MCHAN_EXT_ADDR + o) v] s).
Proof. intros Ho Hv. by rewrite dma_write_word, u32_small. Qed.

Lemma dma_read v r o s : 0 <= o <= 4 -> replies s = v :: r ->
  DMA_READ o s = Ok v (mk_cluster (evt_mask s) (evt_status s) (coming s) r (log s ++ [Load (ARCHI_MCHAN_EXT_ADDR + o) v])).
Proof.
  intros Ho E. unfold DMA_READ, pulp_read32, bus_load. rewrite !not_eu by (done || (vm_compute; intuition discriminate)). by rewrite E.
Qed.

Lemma bind_command {A} v (k : unit -> M cluster A) s : 0 <= v < 2 ^ 32 ->
  (DMA_WRITE v MCHAN_CMD_OFFSET ≫= k) s = k tt (logged [command v] s).
Proof. intros Hv. apply bind_ok. by apply dma_write. Qed.

Lemma cmd_push c l e s : 0 <= c < 2 ^ 32 -> 0 <= l < 2 ^ 32 -> 0 <= e < 2 ^ 32 ->
  plp_dma_cmd_push c l e s = Ok tt (logged (map command [c; l; e]) s).
Proof.
  intros. unfold plp_dma_cmd_push. rewrite !bind_command by done. rewrite dma_write by done. by rewrite !logged_app.
Qed.

Lemma cmd_push_2d c l e str len s :
  0 <= c < 2 ^ 32 -> 0 <= l < 2 ^ 32 -> 0 <= e < 2 ^ 32 -> 0 <= str < 2 ^ 32 -> 0 <= len < 2 ^ 32 ->
  plp_dma_cmd_push_2d c l e str len s = Ok tt (logged (map command [c; l; e; len; str]) s).
Proof.
  intros. unfold plp_dma_cmd_push_2d. rewrite (bind_ok _ _ _ _ _ (cmd_push c l e s ltac:(done) ltac:(done) ltac:(done))).
  rewrite bind_command, dma_write by done. by rewrite !logged_app.
Qed.

(** The words of a transfer, and that they mean it. *)
Definition cmd_of (d : direction) (irq : bool) (tile : option (Z * Z)) (size : Z) : Z :=
  plp_dma_getCmd (Z.b2z (to_local d)) size (Z.b2z (bool_decide (is_Some tile))) (Z.b2z (negb irq)) (Z.b2z irq) 1.
Definition words_of (d : direction) (irq : bool) (tile : option (Z * Z)) (ext loc size : Z) : list Z :=
  cmd_of d irq tile size :: loc :: ext :: match tile with None => [] | Some (len, str) => [len; str] end.

Lemma cmd_of_ok d irq tile size : 0 <= size < 2 ^ 17 -> 0 <= cmd_of d irq tile size < 2 ^ 32.
Proof. intros Hs. by apply (getCmd_fields (to_local d) _ (negb irq) irq true size Hs). Qed.

Lemma parse_words d irq tile ext loc size : 0 <= size < 2 ^ 17 ->
  parse (words_of d irq tile ext loc size) = Some (asked d irq tile ext loc size).
Proof.
  intros Hs. unfold parse, words_of.
  destruct (getCmd_fields (to_local d) (bool_decide (is_Some tile)) (negb irq) irq true size Hs)
    as (_ & El & Ei & Ec & Et & Ex & Ev & Eq & Eb).
  fold (cmd_of d irq tile size) in *. change (Z.b2z true) with 1 in *. fold (cmd_of d irq tile size) in *.
  rewrite El, Ei, Ec, Et, Ex, Ev, Eq, Eb. by destruct tile as [[]|].
Qed.

Lemma counter_allocated tid rest s : 0 <= tid < 2 ^ 31 -> replies s = tid :: rest ->
  plp_dma_counter_alloc s = Ok tid (mk_cluster (evt_mask s) (evt_status s) (coming s) rest
    (log s ++ [Load (ARCHI_MCHAN_EXT_ADDR + MCHAN_CMD_OFFSET) tid])).
Proof.
  intros Ht Er. unfold plp_dma_counter_alloc. rewrite (bind_ok _ _ _ _ _ (dma_read _ _ _ _ ltac:(done) Er)).
  unfold mret, M_ret. f_equal. word_lia.
Qed.

Lemma enqueue_runs d irq tile ext loc size tid rest s :
  0 <= tid < 2 ^ 31 -> replies s = tid :: rest ->
  0 <= size < 2 ^ 16 -> 0 <= loc < 2 ^ 32 -> 0 <= ext < 2 ^ 32 ->
  (forall len str, tile = Some (len, str) -> 0 <= len < 2 ^ 16 /\ 0 <= str < 2 ^ 16) ->
  enqueue d irq tile ext loc size s =
  Ok tid (mk_cluster (evt_mask s) (evt_status s) (coming s) rest
    (log s ++ Load (ARCHI_MCHAN_EXT_ADDR + MCHAN_CMD_OFFSET) tid :: map command (words_of d irq tile ext loc size))).
Proof.
  intros Ht Er Hs Hl He Htile. pose proof (counter_allocated tid rest s Ht Er) as Ec.
  pose proof (cmd_of_ok d irq tile size ltac:(lia)) as Hc. unfold words_of.
  destruct tile as [[len str]|].
  - destruct (Htile _ _ eq_refl) as [Hlen Hstr].
    assert (E : forall s1, plp_dma_cmd_push_2d (cmd_of d irq (Some (len, str)) size) loc ext str len s1 =
      Ok tt (logged (map command [cmd_of d irq (Some (len, str)) size; loc; ext; len; str]) s1)).
    { intros s1. apply cmd_push_2d; (done || lia). }
    destruct irq, d as [[]| |]; cbn [enqueue]; unfold plp_dma_memcpy_2d, plp_dma_memcpy_2d_keepCounter, plp_dma_l1ToExt_2d,
      plp_dma_extToL1_2d, plp_dma_memcpy_2d_irq, plp_dma_l1ToExt_2d_irq, plp_dma_extToL1_2d_irq; rewrite (bind_ok _ _ _ _ _ Ec);
      rewrite (bind_ok _ _ _ _ _ (E _)); unfold mret, M_ret, logged; cbn; by rewrite <- app_assoc.
  - assert (E : forall s1, plp_dma_cmd_push (cmd_of d irq None size) loc ext s1 =
      Ok tt (logged (map command [cmd_of d irq None size; loc; ext]) s1)).
    { intros s1. apply cmd_push; (done || lia). }
    destruct irq, d as [[]| |]; cbn [enqueue]; unfold plp_dma_memcpy, plp_dma_l1ToExt,
      plp_dma_extToL1, plp_dma_memcpy_irq, plp_dma_l1ToExt_irq, plp_dma_extToL1_irq; rewrite (bind_ok _ _ _ _ _ Ec);
      rewrite (bind_ok _ _ _ _ _ (E _)); unfold mret, M_ret, logged; cbn; by rewrite <- app_assoc.
Qed.

(** C29. Each of the twelve functions that enqueue a transfer allocates a counter,
    returns it, and pushes exactly the words that, read with the bit fields of the
    generated header, ask for the transfer its name and arguments describe:
    direction, number of bytes, event or interrupt, broadcast, the two addresses, and
    for the two-dimensional ones the bytes per line and from line to line.  Nothing
    else on the platform is accessed. *)
Theorem dma_enqueues d irq tile ext loc size tid rest s :
  0 <= tid < 2 ^ 31 -> replies s = tid :: rest ->
  0 <= size < 2 ^ 16 -> 0 <= loc < 2 ^ 32 -> 0 <= ext < 2 ^ 32 ->
  (forall len str, tile = Some (len, str) -> 0 <= len < 2 ^ 16 /\ 0 <= str < 2 ^ 16) ->
  exists ws, parse ws = Some (asked d irq tile ext loc size) /\
    enqueue d irq tile ext loc size s =
    Ok tid (mk_cluster (evt_mask s) (evt_status s) (coming s) rest
      (log s ++ Load (ARCHI_MCHAN_EXT_ADDR + MCHAN_CMD_OFFSET) tid :: map command ws)).
Proof.
  intros. exists (words_of d irq tile ext loc size). split; [apply parse_words; lia|by apply enqueue_runs].
Qed.

(** ** Waiting *)
Definition status (v : Z) : access := Load (ARCHI_MCHAN_EXT_ADDR + MCHAN_STATUS_OFFSET) v.
Definition release (v : Z) : access := Store (ARCHI_MCHAN_EXT_ADDR + MCHAN_STATUS_OFFSET) v.
Definition address_of (a : access) : Z := match a with Load x _ | Store x _ => x end.
Definition at_dma (a : access) : bool :=
  let o := address_of a - ARCHI_MCHAN_EXT_ADDR in (0 <=? o) && (o <=? 4).
Definition dma_accesses (l : list access) : list access := List.filter at_dma l.

Lemma dma_accesses_app l1 l2 : dma_accesses (l1 ++ l2) = dma_accesses l1 ++ dma_accesses l2.
Proof. apply List.filter_app. Qed.
Lemma at_dma_on o v : 0 <= o <= 4 -> at_dma (Load (ARCHI_MCHAN_EXT_ADDR + o) v) = true /\ at_dma (Store (ARCHI_MCHAN_EXT_ADDR + o) v) = true.
Proof. intros Ho. unfold at_dma. cbn. rewrite Z.add_simpl_l. destruct (Z.leb_spec 0 o), (Z.leb_spec o 4); (done || lia). Qed.
Lemma at_dma_status v : at_dma (status v) = true.
Proof. by apply at_dma_on. Qed.
Lemma at_dma_release v : at_dma (release v) = true.
Proof. by apply at_dma_on. Qed.
Lemma at_dma_off a o : 0 <= o < 0x400 -> address_of a = demux o -> at_dma a = false.
Proof.
  intros Ho Ea. unfold at_dma, demux in *. rewrite Ea. apply andb_false_iff.
  destruct (Z.leb_spec 0 (ARCHI_EU_DEMUX_ADDR + o - ARCHI_MCHAN_EXT_ADDR)); [|by left].
  right. apply Z.leb_gt. pose proof (dma_apart o Ho (ARCHI_EU_DEMUX_ADDR + o - ARCHI_MCHAN_EXT_ADDR)). lia.
Qed.

(** An event of the DMA to come wakes the core; at most one is used up. *)
Definition dma_due (n : nat) (s : cluster) : Prop :=
  Forall (fun e => Z.testbit e ARCHI_CL_EVT_DMA0 = true) (coming s) /\ (n <= length (coming s))%nat.

Lemma sleeps n s : dma_due (S n) s -> exists r s', eu_evt_maskWaitAndClr (Z.shiftl 1 ARCHI_CL_EVT_DMA0) s = Ok r s' /\
  dma_due n s' /\ replies s' = replies s /\ dma_accesses (log s') = dma_accesses (log s).
Proof.
  intros [Hd Hn]. pose proof dma_event.
  assert (Hm : 0 <= Z.shiftl 1 ARCHI_CL_EVT_DMA0 < 2 ^ 32).
  { rewrite Z.shiftl_1_l. split; [apply Z.pow_nonneg; lia|]. apply Z.pow_lt_mono_r; lia. }
  rewrite mask_wait by done. destruct (coming s) as [|e cs] eqn:Ec; [simpl in Hn; lia|]. inversion Hd as [|? ? He Hcs]; subst.
  assert (Ew : exists st cs', wake (evt_mask s ||| Z.shiftl 1 ARCHI_CL_EVT_DMA0) (evt_status s) (e :: cs) = Some (st, cs') /\
    Forall (fun e => Z.testbit e ARCHI_CL_EVT_DMA0 = true) cs' /\ (n <= length cs')%nat).
  { simpl in Hn |- *. destruct (Z.eqb_spec (evt_status s &&& (evt_mask s ||| Z.shiftl 1 ARCHI_CL_EVT_DMA0)) 0).
    - exists (evt_status s ||| e), cs. split; [|split; [done|lia]].
      assert (Hne : ((evt_status s ||| e) &&& (evt_mask s ||| Z.shiftl 1 ARCHI_CL_EVT_DMA0) =? 0) = false).
      { apply Z.eqb_neq. intros E0. apply (f_equal (fun x => Z.testbit x ARCHI_CL_EVT_DMA0)) in E0.
        rewrite Z.land_spec, !Z.lor_spec, He, shiftl_testbit, Z.sub_diag, Z.bits_0 in E0 by lia.
        destruct (Z.leb_spec ARCHI_CL_EVT_DMA0 ARCHI_CL_EVT_DMA0); [|lia].
        cbn in E0. by rewrite !orb_true_r in E0. }
      destruct cs; cbn [wake]; by rewrite Hne.
    - exists (evt_status s), (e :: cs). split; [done|]. split; [done|]. simpl. lia. }
  destruct Ew as (st & cs' & -> & Hf & Hl). eexists _, _. split; [reflexivity|]. cbn [coming replies log].
  split; [done|]. split; [done|]. rewrite dma_accesses_app. unfold dma_accesses at 2. cbn [List.filter].
  rewrite (at_dma_off (Store _ _) EU_CORE_MASK_OR), (at_dma_off (Load _ _) EU_CORE_EVENT_WAIT_CLEAR),
    (at_dma_off (Store _ _) EU_CORE_MASK_AND) by (reflexivity || (unfold EU_CORE_MASK_OR, EU_CORE_EVENT_WAIT_CLEAR, EU_CORE_MASK_AND; lia)).
  by rewrite app_nil_r.
Qed.

(** The loop of both: it polls the status until no bit of [m] is set, and sleeps in
    between; given that many turns it ends, with fewer it does not. *)
Definition polling (m : Z) (fuel : nat) : M cluster unit :=
  while fuel (v ← DMA_READ MCHAN_STATUS_OFFSET; mret (negb (v &&& m =? 0)))
    (_ ← eu_evt_maskWaitAndClr (Z.shiftl 1 ARCHI_CL_EVT_DMA0); skip).
Definition after_status (v : Z) (r : list Z) (s : cluster) : cluster :=
  mk_cluster (evt_mask s) (evt_status s) (coming s) r (log s ++ [status v]).

Lemma read_status v r s : replies s = v :: r -> DMA_READ MCHAN_STATUS_OFFSET s = Ok v (after_status v r s).
Proof. intros E. by apply dma_read. Qed.
Lemma after_status_dma v r s : dma_accesses (log (after_status v r s)) = dma_accesses (log s) ++ [status v].
Proof.
  cbn [after_status log]. rewrite dma_accesses_app. unfold dma_accesses at 2. cbn [List.filter].
  by rewrite at_dma_status.
Qed.

Lemma polling_idle m fuel v r s : replies s = v :: r -> (v &&& m =? 0) = true ->
  polling m fuel s = Ok tt (after_status v r s).
Proof.
  intros Er Hv. apply while_false. by rewrite (bind_ok _ _ _ _ _ (read_status _ _ _ Er)), Hv.
Qed.

Lemma polling_busy m v r s : replies s = v :: r -> (v &&& m =? 0) = false ->
  polling m 0 s = Spin (after_status v r s) /\
  forall fuel, polling m (S fuel) s =
    (eu_evt_maskWaitAndClr (Z.shiftl 1 ARCHI_CL_EVT_DMA0) ≫= fun _ => polling m fuel) (after_status v r s).
Proof.
  intros Er Hv.
  assert (E : (v ← DMA_READ MCHAN_STATUS_OFFSET; mret (negb (v &&& m =? 0))) s = Ok true (after_status v r s)).
  { by rewrite (bind_ok _ _ _ _ _ (read_status _ _ _ Er)), Hv. }
  split; [by apply while_spin_0|]. intros fuel. unfold polling. rewrite (while_true _ _ _ _ _ E), bind_assoc. reflexivity.
Qed.

Lemma polls m : forall bs f rest s,
  replies s = bs ++ f :: rest -> Forall (fun b => (b &&& m =? 0) = false) bs -> (f &&& m =? 0) = true ->
  dma_due (length bs) s ->
  (exists s', replies s' = rest /\ dma_accesses (log s') = dma_accesses (log s) ++ map status (bs ++ [f]) /\
     forall fuel, (length bs <= fuel)%nat -> polling m fuel s = Ok tt s') /\
  (forall fuel, (fuel < length bs)%nat -> exists s', polling m fuel s = Spin s').
Proof.
  induction bs as [|b bs IH]; intros f rest s Er Hbs Hf Hd.
  - split; [|intros; simpl in *; lia]. exists (after_status f rest s). split; [done|].
    split; [apply after_status_dma|]. intros fuel _. by apply polling_idle.
  - inversion Hbs as [|? ? Hb Hbs']; subst. destruct (polling_busy m b _ s Er Hb) as [E0 ES].
    destruct (sleeps (length bs) (after_status b (bs ++ f :: rest) s) Hd) as (r & s2 & Es & Hd2 & Hr2 & Hl2).
    destruct (IH f rest s2 Hr2 Hbs' Hf Hd2) as [(s' & Hr & Hl & Hok) Hsp]. split.
    + exists s'. split; [done|]. split; [by rewrite Hl, Hl2, after_status_dma, <- app_assoc|].
      intros [|fuel] Hfuel; simpl in Hfuel; [lia|]. rewrite ES, (bind_ok _ _ _ _ _ Es). apply Hok. lia.
    + intros [|fuel] Hfuel; simpl in Hfuel; [by eexists|]. rewrite ES, (bind_ok _ _ _ _ _ Es). apply Hsp. lia.
Qed.

Lemma polls_then m v bs f rest s :
  replies s = bs ++ f :: rest -> Forall (fun b => (b &&& m =? 0) = false) bs -> (f &&& m =? 0) = true ->
  dma_due (length bs) s ->
  (exists s', replies s' = rest /\
     dma_accesses (log s') = dma_accesses (log s) ++ map status (bs ++ [f]) ++ [release (u32 v)] /\
     forall fuel, (length bs <= fuel)%nat -> (polling m fuel ;; DMA_WRITE v MCHAN_STATUS_OFFSET) s = Ok tt s') /\
  (forall fuel, (fuel < length bs)%nat -> exists s', (polling m fuel ;; DMA_WRITE v MCHAN_STATUS_OFFSET) s = Spin s').
Proof.
  intros Er Hbs Hf Hd. destruct (polls m bs f rest s Er Hbs Hf Hd) as [(s1 & Hr & Hl & Hok) Hsp]. split.
  - pose proof (dma_write_word v MCHAN_STATUS_OFFSET s1 ltac:(by vm_compute)) as Ew.
    exists (logged [release (u32 v)] s1). split; [done|]. split.
    + cbn [logged log]. rewrite dma_accesses_app, Hl, <- app_assoc. do 2 f_equal. unfold dma_accesses. cbn [List.filter].
      by rewrite at_dma_release.
    + intros fuel Hfuel. by rewrite (bind_ok _ _ _ _ _ (Hok fuel Hfuel)).
  - intros fuel Hfuel. destruct (Hsp fuel Hfuel) as (s' & E). exists s'. unfold mbind, M_bind. by rewrite E.
Qed.

(** C30. [plp_dma_wait] and [plp_dma_barrier] end as soon as the status they poll no
    longer shows the counter (any counter), provided every turn in which it does is
    followed by an event of the DMA; they then release that counter (all of them)
    and nothing else is done to the DMA.  Before that they do not return. *)
Theorem dma_waits counter bs f rest s : 0 <= counter < 16 -> replies s = bs ++ f :: rest -> dma_due (length bs) s ->
  (Forall (fun b => Z.testbit b counter = true) bs -> Z.testbit f counter = false ->
    (exists s', replies s' = rest /\
       dma_accesses (log s') = dma_accesses (log s) ++ map status (bs ++ [f]) ++ [release (2 ^ counter)] /\
       forall fuel, (length bs <= fuel)%nat -> plp_dma_wait fuel counter s = Ok tt s') /\
    (forall fuel, (fuel < length bs)%nat -> exists s', plp_dma_wait fuel counter s = Spin s')) /\
  (Forall (fun b => b mod 2 ^ 16 <> 0) bs -> f mod 2 ^ 16 = 0 ->
    (exists s', replies s' = rest /\
       dma_accesses (log s') = dma_accesses (log s) ++ map status (bs ++ [f]) ++ [release 0xFFFFFFFF] /\
       forall fuel, (length bs <= fuel)%nat -> plp_dma_barrier fuel s = Ok tt s') /\
    (forall fuel, (fuel < length bs)%nat -> exists s', plp_dma_barrier fuel s = Spin s')).
Proof.
  intros Hc Er Hd. split; intros Hbs Hf.
  - rewrite <- (u32_small (2 ^ counter)), <- Z.shiftl_1_l.
    + apply polls_then; [done| |by rewrite land_bit_eqb, Hf by lia|done].
      eapply Forall_impl; [exact Hbs|]. intros b Hb. cbn beta in *. by rewrite land_bit_eqb, Hb by lia.
    + split; [apply Z.pow_nonneg; lia|]. change 4294967296 with (2 ^ 32). apply Z.pow_lt_mono_r; lia.
  - change 0xFFFFFFFF with (u32 (-1)). assert (Hm : forall b, b &&& 0xFFFF = b mod 2 ^ 16) by (intros b; apply (Z.land_ones b 16); lia).
    apply polls_then; [done| |by rewrite Hm, Hf|done].
    eapply Forall_impl; [exact Hbs|]. intros b Hb. cbn beta in *. rewrite Hm. by apply Z.eqb_neq.
Qed.
End Enqueue.

(** ** Concrete runs *)
Section Witnesses.
#[local] Instance w_map : ClusterMap := {| ARCHI_EU_DEMUX_ADDR := 0x00204000; ARCHI_CLUSTER_PERIPHERALS_ADDR := 0x00200000;
  ARCHI_EU_OFFSET := 0x800; ARCHI_MCHAN_EXT_ADDR := 0x00201800; ARCHI_CL_EVT_DMA0 := 8 |}.
#[local] Instance w_map_ok : ClusterMapOk w_map.
Proof. split; [simpl|vm_compute; split; discriminate || reflexivity]; intros; lia. Qed.

Lemma dma_enqueues_witness : exists ws,
  parse ws = Some (mk_dma_transfer 600 true true false true 0x10000100 0x1C000000 (Some (20, 64))) /\
  plp_dma_extToL1_2d 0x10000100 0x1C000000 600 64 20 (mk_cluster 0 0 [] [3] []) =
  Ok 3 (mk_cluster 0 0 [] [] (Load 0x00201800 3 :: map (Store 0x00201800) ws)).
Proof.
  destruct (dma_enqueues ExtToL1 false (Some (20, 64)) 0x1C000000 0x10000100 600 3 [] (mk_cluster 0 0 [] [3] []))
    as (ws & Hp & E); [lia|done|lia..| |].
  - intros len str [= <- <-]. lia.
  - exists ws. split; [exact Hp|]. exact E.
Defined.

Lemma dma_waits_witness : exists s',
  plp_dma_wait 2 3 (mk_cluster 2 0 [0x100; 0x102; 0x100] [0xF; 0x8; 0x7] []) = Ok tt s' /\
  dma_accesses (log s') = [Load 0x00201804 0xF; Load 0x00201804 8; Load 0x00201804 7; Store 0x00201804 8].
Proof.
  destruct (dma_waits 3 [0xF; 8] 7 [] (mk_cluster 2 0 [0x100; 0x102; 0x100] [0xF; 0x8; 0x7] [])) as [Hw _];
    [lia|reflexivity|split; [by repeat constructor|simpl; lia]|].
  destruct Hw as [(s' & _ & Hl & Hok) _]; [by repeat constructor|reflexivity|].
  exists s'. split; [apply Hok; simpl; lia|exact Hl].
Defined.
End Witnesses.
