(* ===== verification/DmaV6.v ===== *)
(** * DmaV6: the HAL of the cluster DMA, version 6

    boot_code/include/hal/dma/mchan_v6.h with archi/dma/mchan_v6.h, over the same port
    as [Dma], which has version 7.  The lengths of a command have one bit less, the two
    numbers of a tile share a word, and there are two more functions.  [parse] reads the
    words with the GET macros of the header. *)

From S2P Require Import Prelude Monad Builtins Regs MchanV7 Eu.
From S2P Require Dma.

(** ** archi/dma/mchan_v6.h *)
Definition MCHAN_CMD_OFFSET : Z := 0x0.
Definition MCHAN_STATUS_OFFSET : Z := 0x4.
Definition PLP_DMA_QUEUE_OFFSET : Z := 0x0.
Definition PLP_DMA_STATUS_OFFSET : Z := 0x4.
Definition MCHAN_CMD_CMD_LEN_BIT : Z := 0.
Definition MCHAN_CMD_CMD_LEN_WIDTH : Z := 16.
Definition PLP_DMA_SIZE_BIT : Z := 0.
Definition PLP_DMA_SIZE_WIDTH : Z := 16.
Definition PLP_DMA_TYPE_BIT : Z := PLP_DMA_SIZE_WIDTH.
Definition PLP_DMA_INCR_BIT : Z := PLP_DMA_SIZE_WIDTH + 1.
Definition PLP_DMA_2D_BIT : Z := PLP_DMA_SIZE_WIDTH + 2.
Definition PLP_DMA_ELE_BIT : Z := PLP_DMA_SIZE_WIDTH + 3.
Definition PLP_DMA_ILE_BIT : Z := PLP_DMA_SIZE_WIDTH + 4.
Definition PLP_DMA_BLE_BIT : Z := PLP_DMA_SIZE_WIDTH + 5.
Definition PLP_DMA_LOC2EXT : Z := 0.
Definition PLP_DMA_EXT2LOC : Z := 1.
Definition PLP_DMA_1D : Z := 0.
Definition PLP_DMA_2D : Z := 1.
Definition PLP_DMA_NO_TRIG_EVT : Z := 0.
Definition PLP_DMA_TRIG_EVT : Z := 1.
Definition PLP_DMA_NO_TRIG_IRQ : Z := 0.
Definition PLP_DMA_TRIG_IRQ : Z := 1.
Definition PLP_DMA_PRIV : Z := 0.
Definition PLP_DMA_SHARED : Z := 1.
Definition PLP_DMA_FIX : Z := 0.
Definition PLP_DMA_INC : Z := 1.
Definition PLP_DMA_2D_STRIDE_BIT : Z := 16.
Definition PLP_DMA_2D_STRIDE_WIDTH : Z := 15.
Definition PLP_DMA_2D_LEN_BIT : Z := 0.
Definition PLP_DMA_2D_LEN_WIDTH : Z := 15.
Definition PLP_DMA_SIZE_GET (x : Z) : Z := Z.shiftr x PLP_DMA_SIZE_BIT &&& (Z.shiftl 1 PLP_DMA_SIZE_WIDTH - 1).
Definition PLP_DMA_TYPE_GET (x : Z) : Z := Z.shiftr x PLP_DMA_TYPE_BIT &&& 1.
Definition PLP_DMA_INCR_GET (x : Z) : Z := Z.shiftr x PLP_DMA_INCR_BIT &&& 1.
Definition PLP_DMA_2D_GET (x : Z) : Z := Z.shiftr x PLP_DMA_2D_BIT &&& 1.
Definition PLP_DMA_ELE_GET (x : Z) : Z := Z.shiftr x PLP_DMA_ELE_BIT &&& 1.
Definition PLP_DMA_ILE_GET (x : Z) : Z := Z.shiftr x PLP_DMA_ILE_BIT &&& 1.
Definition PLP_DMA_BLE_GET (x : Z) : Z := Z.shiftr x PLP_DMA_BLE_BIT &&& 1.
Definition PLP_DMA_2D_STRIDE_GET (x : Z) : Z := Z.shiftr x PLP_DMA_2D_STRIDE_BIT &&& (Z.shiftl 1 PLP_DMA_2D_STRIDE_WIDTH - 1).
Definition PLP_DMA_2D_LEN_GET (x : Z) : Z := Z.shiftr x PLP_DMA_2D_LEN_BIT &&& (Z.shiftl 1 PLP_DMA_2D_LEN_WIDTH - 1).

(** ** hal/dma/mchan_v6.h *)
Definition plp_dma_getCmd (ext2loc size is2D trigEvt trigIrq broadcast : Z) : Z :=
  let res := Dma.__builtin_bitinsert 0 ext2loc 1 PLP_DMA_TYPE_BIT in
  let res := Dma.__builtin_bitinsert res PLP_DMA_INC 1 PLP_DMA_INCR_BIT in
  let res := Dma.__builtin_bitinsert res is2D 1 PLP_DMA_2D_BIT in
  let res := Dma.__builtin_bitinsert res size PLP_DMA_SIZE_WIDTH PLP_DMA_SIZE_BIT in
  let res := Dma.__builtin_bitinsert res trigEvt 1 PLP_DMA_ELE_BIT in
  let res := Dma.__builtin_bitinsert res trigIrq 1 PLP_DMA_ILE_BIT in
  Dma.__builtin_bitinsert res broadcast 1 PLP_DMA_BLE_BIT.
(** Both parameters are unsigned short. *)
Definition plp_dma_getStrides (stride len : Z) : Z :=
  u32 (Z.shiftl (u16 stride) PLP_DMA_2D_STRIDE_BIT) ||| Z.shiftl (u16 len) PLP_DMA_2D_LEN_BIT.

(** Where the DMA lies in this version. *)
Class DemuxMap := { ARCHI_DEMUX_PERIPHERALS_ADDR : Z; ARCHI_MCHAN_DEMUX_OFFSET : Z }.

Section Hal.
Context `{ClusterMap} `{DemuxMap}.

Definition DMA_WRITE (value offset : Z) : M cluster unit :=
  pulp_write32 (ARCHI_DEMUX_PERIPHERALS_ADDR + ARCHI_MCHAN_DEMUX_OFFSET + offset) value.
Definition DMA_READ (offset : Z) : M cluster Z :=
  pulp_read32 (ARCHI_DEMUX_PERIPHERALS_ADDR + ARCHI_MCHAN_DEMUX_OFFSET + offset).

Definition plp_dma_counter_alloc : M cluster Z := v ← DMA_READ PLP_DMA_QUEUE_OFFSET; mret (s32 v).
Definition plp_dma_counter_free (counter : Z) : M cluster unit := DMA_WRITE (Z.shiftl 1 counter) PLP_DMA_STATUS_OFFSET.

(** The external address has 32 bits (ARCHI_HAS_MCHAN_64 is not defined). *)
Definition plp_dma_cmd_push (cmd locAddr extAddr : Z) : M cluster unit :=
  DMA_WRITE cmd PLP_DMA_QUEUE_OFFSET ;;
  DMA_WRITE locAddr PLP_DMA_QUEUE_OFFSET ;;
  DMA_WRITE extAddr PLP_DMA_QUEUE_OFFSET.
Definition plp_dma_cmd_push_2d (cmd locAddr extAddr stride length : Z) : M cluster unit :=
  plp_dma_cmd_push cmd locAddr extAddr ;;
  DMA_WRITE (plp_dma_getStrides stride length) PLP_DMA_QUEUE_OFFSET.

Definition plp_dma_memcpy (ext loc size ext2loc : Z) : M cluster Z :=
  counter ← plp_dma_counter_alloc;
  let cmd := plp_dma_getCmd ext2loc size PLP_DMA_1D PLP_DMA_TRIG_EVT PLP_DMA_NO_TRIG_IRQ PLP_DMA_SHARED in
  plp_dma_cmd_push cmd loc ext ;; mret counter.
Definition plp_dma_memcpy_merge (ext loc size ext2loc merge : Z) : M cluster Z :=
  counter ← (if merge =? 0 then plp_dma_counter_alloc else mret (-1));
  let cmd := plp_dma_getCmd ext2loc size PLP_DMA_1D PLP_DMA_TRIG_EVT PLP_DMA_NO_TRIG_IRQ PLP_DMA_SHARED in
  plp_dma_cmd_push cmd loc ext ;; mret counter.
Definition plp_dma_memcpy_priv (ext loc size ext2loc : Z) : M cluster Z :=
  counter ← plp_dma_counter_alloc;
  let cmd := plp_dma_getCmd ext2loc size PLP_DMA_1D PLP_DMA_TRIG_EVT PLP_DMA_NO_TRIG_IRQ PLP_DMA_PRIV in
  plp_dma_cmd_push cmd loc ext ;; mret counter.
Definition plp_dma_l1ToExt (ext loc size : Z) : M cluster Z :=
  counter ← plp_dma_counter_alloc;
  let cmd := plp_dma_getCmd PLP_DMA_LOC2EXT size PLP_DMA_1D PLP_DMA_TRIG_EVT PLP_DMA_NO_TRIG_IRQ PLP_DMA_SHARED in
  plp_dma_cmd_push cmd loc ext ;; mret counter.
Definition plp_dma_extToL1 (loc ext size : Z) : M cluster Z :=
  counter ← plp_dma_counter_alloc;
  let cmd := plp_dma_getCmd PLP_DMA_EXT2LOC size PLP_DMA_1D PLP_DMA_TRIG_EVT PLP_DMA_NO_TRIG_IRQ PLP_DMA_SHARED in
  plp_dma_cmd_push cmd loc ext ;; mret counter.
Definition plp_dma_memcpy_irq (ext loc size ext2loc : Z) : M cluster Z :=
  counter ← plp_dma_counter_alloc;
  let cmd := plp_dma_getCmd ext2loc size PLP_DMA_1D PLP_DMA_NO_TRIG_EVT PLP_DMA_TRIG_IRQ PLP_DMA_SHARED in
  plp_dma_cmd_push cmd loc ext ;; mret counter.
Definition plp_dma_l1ToExt_irq (ext loc size : Z) : M cluster Z :=
  counter ← plp_dma_counter_alloc;
  let cmd := plp_dma_getCmd PLP_DMA_LOC2EXT size PLP_DMA_1D PLP_DMA_NO_TRIG_EVT PLP_DMA_TRIG_IRQ PLP_DMA_SHARED in
  plp_dma_cmd_push cmd loc ext ;; mret counter.
Definition plp_dma_extToL1_irq (loc ext size : Z) : M cluster Z :=
  counter ← plp_dma_counter_alloc;
  let cmd := plp_dma_getCmd PLP_DMA_EXT2LOC size PLP_DMA_1D PLP_DMA_NO_TRIG_EVT PLP_DMA_TRIG_IRQ PLP_DMA_SHARED in
  plp_dma_cmd_push cmd loc ext ;; mret counter.

Definition plp_dma_memcpy_2d_keepCounter (ext loc size stride length ext2loc : Z) : M cluster unit :=
  let cmd := plp_dma_getCmd ext2loc size PLP_DMA_2D PLP_DMA_TRIG_EVT PLP_DMA_NO_TRIG_IRQ PLP_DMA_SHARED in
  plp_dma_cmd_push_2d cmd loc ext stride length.
Definition plp_dma_memcpy_2d (ext loc size stride length ext2loc : Z) : M cluster Z :=
  counter ← plp_dma_counter_alloc;
  plp_dma_memcpy_2d_keepCounter ext loc size stride length ext2loc ;; mret counter.
Definition plp_dma_l1ToExt_2d (ext loc size stride length : Z) : M cluster Z :=
  counter ← plp_dma_counter_alloc;
  let cmd := plp_dma_getCmd PLP_DMA_LOC2EXT size PLP_DMA_2D PLP_DMA_TRIG_EVT PLP_DMA_NO_TRIG_IRQ PLP_DMA_SHARED in
  plp_dma_cmd_push_2d cmd loc ext stride length ;; mret counter.
Definition plp_dma_extToL1_2d (loc ext size stride length : Z) : M cluster Z :=
  counter ← plp_dma_counter_alloc;
  let cmd := plp_dma_getCmd PLP_DMA_EXT2LOC size PLP_DMA_2D PLP_DMA_TRIG_EVT PLP_DMA_NO_TRIG_IRQ PLP_DMA_SHARED in
  plp_dma_cmd_push_2d cmd loc ext stride length ;; mret counter.
Definition plp_dma_memcpy_2d_irq (ext loc size stride length ext2loc : Z) : M cluster Z :=
  counter ← plp_dma_counter_alloc;
  let cmd := plp_dma_getCmd ext2loc size PLP_DMA_2D PLP_DMA_NO_TRIG_EVT PLP_DMA_TRIG_IRQ PLP_DMA_SHARED in
  plp_dma_cmd_push_2d cmd loc ext stride length ;; mret counter.
Definition plp_dma_l1ToExt_2d_irq (ext loc size stride length : Z) : M cluster Z :=
  counter ← plp_dma_counter_alloc;
  let cmd := plp_dma_getCmd PLP_DMA_LOC2EXT size PLP_DMA_2D PLP_DMA_NO_TRIG_EVT PLP_DMA_TRIG_IRQ PLP_DMA_SHARED in
  plp_dma_cmd_push_2d cmd loc ext stride length ;; mret counter.
Definition plp_dma_extToL1_2d_irq (loc ext size stride length : Z) : M cluster Z :=
  counter ← plp_dma_counter_alloc;
  let cmd := plp_dma_getCmd PLP_DMA_EXT2LOC size PLP_DMA_2D PLP_DMA_NO_TRIG_EVT PLP_DMA_TRIG_IRQ PLP_DMA_SHARED in
  plp_dma_cmd_push_2d cmd loc ext stride length ;; mret counter.

Definition plp_dma_barrier (fuel : nat) : M cluster unit :=
  while fuel (v ← DMA_READ PLP_DMA_STATUS_OFFSET; mret (negb (v &&& 0xFFFF =? 0)))
    (_ ← eu_evt_maskWaitAndClr (Z.shiftl 1 ARCHI_CL_EVT_DMA0); skip) ;;
  DMA_WRITE (-1) PLP_DMA_STATUS_OFFSET.
Definition plp_dma_wait (fuel : nat) (counter : Z) : M cluster unit :=
  while fuel (v ← DMA_READ PLP_DMA_STATUS_OFFSET; mret (negb (v &&& Z.shiftl 1 counter =? 0)))
    (_ ← eu_evt_maskWaitAndClr (Z.shiftl 1 ARCHI_CL_EVT_DMA0); skip) ;;
  plp_dma_counter_free counter.
Definition plp_dma_status : M cluster Z := DMA_READ PLP_DMA_STATUS_OFFSET.
End Hal.

(** ** What the words ask for *)
Definition parse (ws : list Z) : option Dma.dma_transfer :=
  match ws with
  | w :: local :: external :: tile =>
      if PLP_DMA_INCR_GET w =? 1 then
        let x := Dma.mk_dma_transfer (PLP_DMA_SIZE_GET w) (PLP_DMA_TYPE_GET w =? 1) (PLP_DMA_ELE_GET w =? 1)
                   (PLP_DMA_ILE_GET w =? 1) (PLP_DMA_BLE_GET w =? 1) local external in
        match tile with
        | [] => if PLP_DMA_2D_GET w =? 1 then None else Some (x None)
        | [t] => if PLP_DMA_2D_GET w =? 1 then Some (x (Some (PLP_DMA_2D_LEN_GET t, PLP_DMA_2D_STRIDE_GET t))) else None
        | _ => None
        end
      else None
  | _ => None
  end.

(** The twelve functions of both versions. *)
Definition enqueue `{ClusterMap} `{DemuxMap} (d : Dma.direction) (irq : bool) (tile : option (Z * Z)) (ext loc size : Z) : M cluster Z :=
  match tile, irq, d with
  | None, false, Dma.Given b => plp_dma_memcpy ext loc size (Z.b2z b)
  | None, false, Dma.L1ToExt => plp_dma_l1ToExt ext loc size
  | None, false, Dma.ExtToL1 => plp_dma_extToL1 loc ext size
  | None, true, Dma.Given b => plp_dma_memcpy_irq ext loc size (Z.b2z b)
  | None, true, Dma.L1ToExt => plp_dma_l1ToExt_irq ext loc size
  | None, true, Dma.ExtToL1 => plp_dma_extToL1_irq loc ext size
  | Some (length, stride), false, Dma.Given b => plp_dma_memcpy_2d ext loc size stride length (Z.b2z b)
  | Some (length, stride), false, Dma.L1ToExt => plp_dma_l1ToExt_2d ext loc size stride length
  | Some (length, stride), false, Dma.ExtToL1 => plp_dma_extToL1_2d loc ext size stride length
  | Some (length, stride), true, Dma.Given b => plp_dma_memcpy_2d_irq ext loc size stride length (Z.b2z b)
  | Some (length, stride), true, Dma.L1ToExt => plp_dma_l1ToExt_2d_irq ext loc size stride length
  | Some (length, stride), true, Dma.ExtToL1 => plp_dma_extToL1_2d_irq loc ext size stride length
  end.

(** * Theorems *)

(** ** Commands *)
Lemma get_bit w o : 0 <= o -> Z.shiftr w o &&& 1 = bitfield_get w o 1.
Proof. intros Ho. unfold bitfield_get. change 1 with (Z.ones 1) at 1. by rewrite Z.land_ones. Qed.

Lemma v6_getCmd_fields (e t v i b : bool) size : 0 <= size < 2 ^ 16 ->
  let w := plp_dma_getCmd (Z.b2z e) size (Z.b2z t) (Z.b2z v) (Z.b2z i) (Z.b2z b) in
  0 <= w < 2 ^ 32 /\ PLP_DMA_SIZE_GET w = size /\ (PLP_DMA_INCR_GET w =? 1) = true /\
  (PLP_DMA_TYPE_GET w =? 1) = e /\ (PLP_DMA_2D_GET w =? 1) = t /\ (PLP_DMA_ELE_GET w =? 1) = v /\
  (PLP_DMA_ILE_GET w =? 1) = i /\ (PLP_DMA_BLE_GET w =? 1) = b.
Proof.
  intros Hs w. subst w. unfold plp_dma_getCmd. rewrite !Dma.bitinsert_set by done.
  split; [repeat apply bitfield_set_range; (by vm_compute) || (split; by vm_compute)|].
  unfold PLP_DMA_SIZE_GET, PLP_DMA_INCR_GET, PLP_DMA_TYPE_GET, PLP_DMA_2D_GET, PLP_DMA_ELE_GET, PLP_DMA_ILE_GET, PLP_DMA_BLE_GET.
  rewrite !get_bit by done. change (Z.shiftl 1 PLP_DMA_SIZE_WIDTH - 1) with (Z.ones 16).
  rewrite Z.land_ones by done.
  match goal with |- Z.shiftr ?x PLP_DMA_SIZE_BIT mod _ = _ /\ _ => change (Z.shiftr x PLP_DMA_SIZE_BIT mod 2 ^ 16) with (bitfield_get x 0 16) end.
  cbv [PLP_DMA_SIZE_BIT PLP_DMA_SIZE_WIDTH PLP_DMA_TYPE_BIT PLP_DMA_INCR_BIT PLP_DMA_2D_BIT PLP_DMA_ELE_BIT PLP_DMA_ILE_BIT PLP_DMA_BLE_BIT].
  cbn [Z.add Pos.add Pos.succ].
  repeat match goal with |- context [bitfield_get (bitfield_set ?r ?x ?o ?w) ?o' ?w'] =>
    first [rewrite (bitfield_get_set r x o' w') by (vm_compute; discriminate)
          |rewrite (bitfield_get_set_other r x o w o' w') by (vm_compute; (discriminate || (left; discriminate) || (right; discriminate)))] end.
  split; [apply Z.mod_small; lia|]. destruct e, t, v, i, b; by vm_compute.
Qed.

Lemma getStrides_fields stride len : 0 <= stride < 2 ^ 15 -> 0 <= len < 2 ^ 15 ->
  0 <= plp_dma_getStrides stride len < 2 ^ 32 /\
  PLP_DMA_2D_STRIDE_GET (plp_dma_getStrides stride len) = stride /\ PLP_DMA_2D_LEN_GET (plp_dma_getStrides stride len) = len.
Proof.
  intros Hs Hl.
  assert (E : plp_dma_getStrides stride len = stride * 2 ^ 16 + len).
  { unfold plp_dma_getStrides. rewrite !u16_small, Z.shiftl_0_r by lia.
    rewrite u32_small by (rewrite Z.shiftl_mul_pow2; unfold PLP_DMA_2D_STRIDE_BIT; lia). apply shiftl_lor_add; lia. }
  rewrite E. split; [lia|]. unfold PLP_DMA_2D_STRIDE_GET, PLP_DMA_2D_LEN_GET.
  change (Z.shiftl 1 PLP_DMA_2D_STRIDE_WIDTH - 1) with (Z.ones 15). change (Z.shiftl 1 PLP_DMA_2D_LEN_WIDTH - 1) with (Z.ones 15).
  rewrite !Z.land_ones, !Z.shiftr_div_pow2 by done.
  unfold PLP_DMA_2D_STRIDE_BIT, PLP_DMA_2D_LEN_BIT. change (2 ^ 0) with 1. split; Z.div_mod_to_equations; lia.
Qed.

(** ** Both versions at the same place *)
Class SameDma (C : ClusterMap) (D : DemuxMap) : Prop :=
  same_dma : ARCHI_DEMUX_PERIPHERALS_ADDR + ARCHI_MCHAN_DEMUX_OFFSET = ARCHI_MCHAN_EXT_ADDR.

Section Enqueue.
Context `{Dma.ClusterMapOk} {D : DemuxMap} {S : SameDma C D}.

Lemma write_same v o : DMA_WRITE v o = Dma.DMA_WRITE v o.
Proof. unfold DMA_WRITE, Dma.DMA_WRITE. by rewrite same_dma. Qed.
Lemma read_same o : DMA_READ o = Dma.DMA_READ o.
Proof. unfold DMA_READ, Dma.DMA_READ. by rewrite same_dma. Qed.
Lemma alloc_same : plp_dma_counter_alloc = Dma.plp_dma_counter_alloc.
Proof. unfold plp_dma_counter_alloc, Dma.plp_dma_counter_alloc. by rewrite read_same. Qed.
Lemma push_same c l e : plp_dma_cmd_push c l e = Dma.plp_dma_cmd_push c l e.
Proof. unfold plp_dma_cmd_push, Dma.plp_dma_cmd_push. by rewrite !write_same. Qed.

Lemma push_2d c l e str len s :
  0 <= c < 2 ^ 32 -> 0 <= l < 2 ^ 32 -> 0 <= e < 2 ^ 32 -> 0 <= str < 2 ^ 15 -> 0 <= len < 2 ^ 15 ->
  plp_dma_cmd_push_2d c l e str len s = Ok tt (Dma.logged (map Dma.command [c; l; e; plp_dma_getStrides str len]) s).
Proof.
  intros Hc Hl He Hs Hn. unfold plp_dma_cmd_push_2d. rewrite push_same.
  rewrite (bind_ok _ _ _ _ _ (Dma.cmd_push c l e s Hc Hl He)), write_same.
  destruct (getStrides_fields str len Hs Hn) as [Hr _]. rewrite Dma.dma_write by done. by rewrite Dma.logged_app.
Qed.

(** The words of a transfer. *)
Definition cmd_of (d : Dma.direction) (irq : bool) (tile : option (Z * Z)) (size : Z) : Z :=
  plp_dma_getCmd (Z.b2z (Dma.to_local d)) size (Z.b2z (bool_decide (is_Some tile))) (Z.b2z (negb irq)) (Z.b2z irq) 1.
Definition words_of (d : Dma.direction) (irq : bool) (tile : option (Z * Z)) (ext loc size : Z) : list Z :=
  cmd_of d irq tile size :: loc :: ext :: match tile with None => [] | Some (len, str) => [plp_dma_getStrides str len] end.
Definition tile_ok (tile : option (Z * Z)) : Prop :=
  forall len str, tile = Some (len, str) -> 0 <= len < 2 ^ 15 /\ 0 <= str < 2 ^ 15.

Lemma v6_parse_words d irq tile ext loc size : 0 <= size < 2 ^ 16 -> tile_ok tile ->
  parse (words_of d irq tile ext loc size) = Some (Dma.asked d irq tile ext loc size).
Proof.
  intros Hs Ht. unfold parse, words_of.
  destruct (v6_getCmd_fields (Dma.to_local d) (bool_decide (is_Some tile)) (negb irq) irq true size Hs)
    as (_ & El & Ei & Et & Ex & Ev & Eq & Eb).
  change (Z.b2z true) with 1 in *. fold (cmd_of d irq tile size) in *. rewrite El, Ei, Et, Ex, Ev, Eq, Eb.
  destruct tile as [[len str]|]; [|done]. destruct (Ht _ _ eq_refl) as [Hlen Hstr].
  destruct (getStrides_fields str len Hstr Hlen) as (_ & E1 & E2). cbn [bool_decide decide_rel]. by rewrite E1, E2.
Qed.

Lemma v6_enqueue_runs d irq tile ext loc size tid rest s :
  0 <= tid < 2 ^ 31 -> replies s = tid :: rest ->
  0 <= size < 2 ^ 16 -> 0 <= loc < 2 ^ 32 -> 0 <= ext < 2 ^ 32 -> tile_ok tile ->
  enqueue d irq tile ext loc size s =
  Ok tid (mk_cluster (evt_mask s) (evt_status s) (coming s) rest
    (log s ++ Load (ARCHI_MCHAN_EXT_ADDR + MchanV7.MCHAN_CMD_OFFSET) tid :: map Dma.command (words_of d irq tile ext loc size))).
Proof.
  intros Ht Er Hs Hl He Htile.
  pose proof (Dma.counter_allocated tid rest s Ht Er) as Ec. rewrite <- alloc_same in Ec.
  assert (Hc : 0 <= cmd_of d irq tile size < 2 ^ 32) by (by apply (v6_getCmd_fields (Dma.to_local d) _ (negb irq) irq true size Hs)).
  unfold words_of. destruct tile as [[len str]|].
  - destruct (Htile _ _ eq_refl) as [Hlen Hstr].
    pose proof (fun s1 => push_2d (cmd_of d irq (Some (len, str)) size) loc ext str len s1 Hc Hl He Hstr Hlen) as E.
    destruct irq, d as [[]| |]; cbn [enqueue]; unfold plp_dma_memcpy_2d, plp_dma_memcpy_2d_keepCounter, plp_dma_l1ToExt_2d,
      plp_dma_extToL1_2d, plp_dma_memcpy_2d_irq, plp_dma_l1ToExt_2d_irq, plp_dma_extToL1_2d_irq; rewrite (bind_ok _ _ _ _ _ Ec);
      rewrite (bind_ok _ _ _ _ _ (E _)); unfold mret, M_ret, Dma.logged; cbn; by rewrite <- app_assoc.
  - pose proof (fun s1 => Dma.cmd_push (cmd_of d irq None size) loc ext s1 Hc Hl He) as E.
    destruct irq, d as [[]| |]; cbn [enqueue]; unfold plp_dma_memcpy, plp_dma_l1ToExt,
      plp_dma_extToL1, plp_dma_memcpy_irq, plp_dma_l1ToExt_irq, plp_dma_extToL1_irq; rewrite (bind_ok _ _ _ _ _ Ec), push_same;
      rewrite (bind_ok _ _ _ _ _ (E _)); unfold mret, M_ret, Dma.logged; cbn; by rewrite <- app_assoc.
Qed.

Lemma wait_same fuel counter s : plp_dma_wait fuel counter s = Dma.plp_dma_wait fuel counter s.
Proof.
  unfold plp_dma_wait, Dma.plp_dma_wait, plp_dma_counter_free, Dma.plp_dma_counter_free. by rewrite read_same, write_same.
Qed.
Lemma barrier_same fuel s : plp_dma_barrier fuel s = Dma.plp_dma_barrier fuel s.
Proof. unfold plp_dma_barrier, Dma.plp_dma_barrier. by rewrite read_same, write_same. Qed.

(** A merged transfer joins those of the last counter: none is allocated.  A private one
    does not broadcast its end. *)
Lemma merge_and_private (b : bool) ext loc size tid rest s :
  0 <= tid < 2 ^ 31 -> replies s = tid :: rest -> 0 <= size < 2 ^ 16 -> 0 <= loc < 2 ^ 32 -> 0 <= ext < 2 ^ 32 ->
  (exists ws, plp_dma_memcpy_merge ext loc size (Z.b2z b) 1 s = Ok (-1) (Dma.logged (map Dma.command ws) s) /\
     parse ws = Some (Dma.asked (Dma.Given b) false None ext loc size)) /\
  plp_dma_memcpy_merge ext loc size (Z.b2z b) 0 s = plp_dma_memcpy ext loc size (Z.b2z b) s /\
  (exists ws s', plp_dma_memcpy_priv ext loc size (Z.b2z b) s = Ok tid s' /\
     log s' = log s ++ Load (ARCHI_MCHAN_EXT_ADDR + MchanV7.MCHAN_CMD_OFFSET) tid :: map Dma.command ws /\
     parse ws = Some (Dma.mk_dma_transfer size b true false false loc ext None)).
Proof.
  intros Ht Er Hs Hl He. split; [|split; [done|]].
  - exists (words_of (Dma.Given b) false None ext loc size).
    assert (Hc : 0 <= cmd_of (Dma.Given b) false None size < 2 ^ 32) by (by apply (v6_getCmd_fields b _ true false true size Hs)).
    split; [|by apply v6_parse_words]. unfold plp_dma_memcpy_merge. rewrite (bind_ok _ _ s (-1) s) by done. rewrite push_same.
    by rewrite (bind_ok _ _ _ _ _ (Dma.cmd_push (cmd_of (Dma.Given b) false None size) loc ext s Hc Hl He)).
  - pose proof (Dma.counter_allocated tid rest s Ht Er) as Ec. rewrite <- alloc_same in Ec.
    destruct (v6_getCmd_fields b false true false false size Hs) as (Hc & El & Ei & Et & Ex & Ev & Eq & Eb).
    exists [plp_dma_getCmd (Z.b2z b) size PLP_DMA_1D PLP_DMA_TRIG_EVT PLP_DMA_NO_TRIG_IRQ PLP_DMA_PRIV; loc; ext]. eexists. split; [|split].
    + unfold plp_dma_memcpy_priv. rewrite (bind_ok _ _ _ _ _ Ec), push_same.
      by rewrite (bind_ok _ _ _ _ _ (Dma.cmd_push _ loc ext _ Hc Hl He)).
    + cbn [log Dma.logged]. by rewrite <- app_assoc.
    + unfold parse. change PLP_DMA_1D with (Z.b2z false). change PLP_DMA_TRIG_EVT with (Z.b2z true).
      change PLP_DMA_NO_TRIG_IRQ with (Z.b2z false). change PLP_DMA_PRIV with (Z.b2z false).
      by rewrite El, Ei, Et, Ex, Ev, Eq, Eb.
Qed.

(** The counter is allocated and returned, and the words are pushed. *)
Definition pushed (tid : Z) (rest ws : list Z) (s : cluster) : outcome cluster Z :=
  Ok tid (mk_cluster (evt_mask s) (evt_status s) (coming s) rest
    (log s ++ Load (ARCHI_MCHAN_EXT_ADDR + MchanV7.MCHAN_CMD_OFFSET) tid :: map Dma.command ws)).

(** C34. Versions 6 and 7 of the DMA's HAL mean the same where both can say it (lengths
    and strides of a tile below 2^15): each of the twelve functions returns the counter
    it allocated and pushes words that each version's own decoding reads as the same
    transfer, the one its name and arguments describe; and waiting for a counter, the
    barrier and the status are the same programs. *)
Theorem dma_versions_agree d irq tile ext loc size tid rest s :
  0 <= tid < 2 ^ 31 -> replies s = tid :: rest ->
  0 <= size < 2 ^ 16 -> 0 <= loc < 2 ^ 32 -> 0 <= ext < 2 ^ 32 -> tile_ok tile ->
  (exists ws6 ws7, parse ws6 = Some (Dma.asked d irq tile ext loc size) /\ Dma.parse ws7 = parse ws6 /\
     enqueue d irq tile ext loc size s = pushed tid rest ws6 s /\
     Dma.enqueue d irq tile ext loc size s = pushed tid rest ws7 s) /\
  (forall fuel counter s1, plp_dma_wait fuel counter s1 = Dma.plp_dma_wait fuel counter s1) /\
  (forall fuel s1, plp_dma_barrier fuel s1 = Dma.plp_dma_barrier fuel s1) /\
  plp_dma_status = Dma.plp_dma_status.
Proof.
  intros Ht Er Hs Hl He Htile. split; [|split; [exact wait_same|split; [exact barrier_same|apply read_same]]].
  exists (words_of d irq tile ext loc size), (Dma.words_of d irq tile ext loc size).
  rewrite v6_parse_words by done. split; [done|]. split; [apply Dma.parse_words; lia|].
  split; [by apply v6_enqueue_runs|].
  apply Dma.enqueue_runs; try done. intros len str Et. pose proof (Htile _ _ Et). lia.
Qed.
End Enqueue.

(** ** A concrete run *)
Section Witnesses.
#[local] Instance w_cluster : ClusterMap := {| ARCHI_EU_DEMUX_ADDR := 0x00204000; ARCHI_CLUSTER_PERIPHERALS_ADDR := 0x00200000;
  ARCHI_EU_OFFSET := 0x800; ARCHI_MCHAN_EXT_ADDR := 0x00204400; ARCHI_CL_EVT_DMA0 := 8 |}.
#[local] Instance w_cluster_ok : Dma.ClusterMapOk w_cluster.
Proof. split; [simpl|vm_compute; split; discriminate || reflexivity]; intros; lia. Qed.
#[local] Instance w_demux : DemuxMap := {| ARCHI_DEMUX_PERIPHERALS_ADDR := 0x00204000; ARCHI_MCHAN_DEMUX_OFFSET := 0x400 |}.
#[local] Instance w_same : SameDma w_cluster w_demux.
Proof. reflexivity. Qed.

Lemma dma_versions_agree_witness : exists ws,
  parse ws = Some (Dma.mk_dma_transfer 600 true true false true 0x10000100 0x1C000000 (Some (20, 64))) /\
  plp_dma_extToL1_2d 0x10000100 0x1C000000 600 64 20 (mk_cluster 0 0 [] [3] []) =
  Ok 3 (mk_cluster 0 0 [] [] (Load 0x00204400 3 :: map (Store 0x00204400) ws)).
Proof.
  destruct (dma_versions_agree Dma.ExtToL1 false (Some (20, 64)) 0x1C000000 0x10000100 600 3 [] (mk_cluster 0 0 [] [3] []))
    as [(ws & _ & Hp & _ & E & _) _]; [lia|done|lia..| |].
  - intros len str [= <- <-]. lia.
  - exists ws. split; [exact Hp|]. exact E.
Defined.
End Witnesses.
