(* ===== verification/MaestroV1.v ===== *)
(** * MaestroV1: the registers of the power manager, version 1

    The tables of boot_code/include/archi/maestro/maestro_v1_new.h, and the accessors as programs over the
    platform of Pulp.  No build of this repository includes the header; the classes
    of the simulator (__GVSOC__) are not modelled. *)

From S2P Require Import Prelude Monad Builtins Regs Pulp.

(** ** The registers of the interface *)
Definition MAESTRO1_OFFSETS : list (string * Z) :=
  [("DLC_PCTRL", 0x0); ("PRDATA", 0x4); ("DLC_SR", 0x8); ("DLC_IMR", 0xc); ("DLC_IFR", 0x10); ("DLC_IOIFR", 0x14);
   ("DLC_IDIFR", 0x18); ("DLC_IMCIFR", 0x1c)]%string.
Definition MAESTRO1_FIELDS : list field :=
  [mk_field "DLC_PCTRL" "START" 0 1 0x1; mk_field "DLC_PCTRL" "PADDR" 1 14 0x7ffe;
   mk_field "DLC_PCTRL" "DIR" 15 1 0x8000; mk_field "DLC_PCTRL" "PWDATA" 16 16 0xffff0000;
   mk_field "PRDATA" "PRDATA" 0 8 0xff; mk_field "DLC_SR" "PICL_BUSY" 0 1 0x1;
   mk_field "DLC_SR" "SCU_BUSY" 1 1 0x2; mk_field "DLC_IMR" "ICU_OK_MASK" 0 1 0x1;
   mk_field "DLC_IMR" "ICU_DELAYED_MASK" 1 1 0x2; mk_field "DLC_IMR" "ICU_MODE_CHANGED_MASK" 2 1 0x4;
   mk_field "DLC_IMR" "PICL_OK_MASK" 3 1 0x8; mk_field "DLC_IMR" "SCU_OK_MASK" 4 1 0x10;
   mk_field "DLC_IFR" "ICU_OK_FLAG" 0 1 0x1; mk_field "DLC_IFR" "ICU_DELAYED_FLAG" 1 1 0x2;
   mk_field "DLC_IFR" "ICU_MODE_CHANGED_FLAG" 2 1 0x4; mk_field "DLC_IFR" "PICL_OK_FLAG" 3 1 0x8;
   mk_field "DLC_IFR" "SCU_OK_FLAG" 4 1 0x10; mk_field "DLC_IOIFR" "ICU_OK_FLAGS" 1 31 0xfffffffe;
   mk_field "DLC_IDIFR" "ICU_DELAYED_FLAGS" 1 31 0xfffffffe;
   mk_field "DLC_IMCIFR" "ICU_MODE_CHANGED_FLAGS" 1 31 0xfffffffe]%string.
Definition MAESTRO1_RESETS : list (string * string * Z) :=
  [("DLC_PCTRL", "START", 0x0); ("DLC_PCTRL", "PADDR", 0x0); ("DLC_PCTRL", "DIR", 0x0);
   ("DLC_PCTRL", "PWDATA", 0x0); ("PRDATA", "PRDATA", 0x0); ("DLC_SR", "PICL_BUSY", 0x0);
   ("DLC_SR", "SCU_BUSY", 0x0); ("DLC_IMR", "ICU_OK_MASK", 0x0); ("DLC_IMR", "ICU_DELAYED_MASK", 0x0);
   ("DLC_IMR", "ICU_MODE_CHANGED_MASK", 0x0); ("DLC_IMR", "PICL_OK_MASK", 0x0); ("DLC_IMR", "SCU_OK_MASK", 0x0);
   ("DLC_IFR", "ICU_OK_FLAG", 0x0); ("DLC_IFR", "ICU_DELAYED_FLAG", 0x0);
   ("DLC_IFR", "ICU_MODE_CHANGED_FLAG", 0x0); ("DLC_IFR", "PICL_OK_FLAG", 0x0); ("DLC_IFR", "SCU_OK_FLAG", 0x0);
   ("DLC_IOIFR", "ICU_OK_FLAGS", 0x0); ("DLC_IDIFR", "ICU_DELAYED_FLAGS", 0x0);
   ("DLC_IMCIFR", "ICU_MODE_CHANGED_FLAGS", 0x0)]%string.
Definition MAESTRO1_UNIONS : list union :=
  [mk_union "dlc_pctrl" [("start", 1); ("paddr", 14); ("dir", 1); ("pwdata", 16)];
   mk_union "prdata" [("prdata", 8)]; mk_union "dlc_sr" [("picl_busy", 1); ("scu_busy", 1)];
   mk_union "dlc_imr" [("icu_ok_mask", 1); ("icu_delayed_mask", 1); ("icu_mode_changed_mask", 1); ("picl_ok_mask", 1); ("scu_ok_mask", 1)];
   mk_union "dlc_ifr" [("icu_ok_flag", 1); ("icu_delayed_flag", 1); ("icu_mode_changed_flag", 1); ("picl_ok_flag", 1); ("scu_ok_flag", 1)];
   mk_union "dlc_ioifr" [("padding0", 1); ("icu_ok_flags", 31)];
   mk_union "dlc_idifr" [("padding0", 1); ("icu_delayed_flags", 31)];
   mk_union "dlc_imcifr" [("padding0", 1); ("icu_mode_changed_flags", 31)]]%string.
Definition MAESTRO1_STRUCT : list string :=
  ["dlc_pctrl"; "prdata"; "dlc_sr"; "dlc_imr"; "dlc_ifr"; "dlc_ioifr"; "dlc_idifr"; "dlc_imcifr"]%string.
Definition MAESTRO1_MACROS : list macros :=
  [mk_macros "DLC_PCTRL" "START" (1, 0) (1, 0) (1, 0) 0; mk_macros "DLC_PCTRL" "PADDR" (14, 1) (14, 1) (14, 1) 1;
   mk_macros "DLC_PCTRL" "DIR" (1, 15) (1, 15) (1, 15) 15;
   mk_macros "DLC_PCTRL" "PWDATA" (16, 16) (16, 16) (16, 16) 16;
   mk_macros "PRDATA" "PRDATA" (8, 0) (8, 0) (8, 0) 0; mk_macros "DLC_SR" "PICL_BUSY" (1, 0) (1, 0) (1, 0) 0;
   mk_macros "DLC_SR" "SCU_BUSY" (1, 1) (1, 1) (1, 1) 1; mk_macros "DLC_IMR" "ICU_OK_MASK" (1, 0) (1, 0) (1, 0) 0;
   mk_macros "DLC_IMR" "ICU_DELAYED_MASK" (1, 1) (1, 1) (1, 1) 1;
   mk_macros "DLC_IMR" "ICU_MODE_CHANGED_MASK" (1, 2) (1, 2) (1, 2) 2;
   mk_macros "DLC_IMR" "PICL_OK_MASK" (1, 3) (1, 3) (1, 3) 3;
   mk_macros "DLC_IMR" "SCU_OK_MASK" (1, 4) (1, 4) (1, 4) 4;
   mk_macros "DLC_IFR" "ICU_OK_FLAG" (1, 0) (1, 0) (1, 0) 0;
   mk_macros "DLC_IFR" "ICU_DELAYED_FLAG" (1, 1) (1, 1) (1, 1) 1;
   mk_macros "DLC_IFR" "ICU_MODE_CHANGED_FLAG" (1, 2) (1, 2) (1, 2) 2;
   mk_macros "DLC_IFR" "PICL_OK_FLAG" (1, 3) (1, 3) (1, 3) 3;
   mk_macros "DLC_IFR" "SCU_OK_FLAG" (1, 4) (1, 4) (1, 4) 4;
   mk_macros "DLC_IOIFR" "ICU_OK_FLAGS" (31, 1) (31, 1) (31, 1) 1;
   mk_macros "DLC_IDIFR" "ICU_DELAYED_FLAGS" (31, 1) (31, 1) (31, 1) 1;
   mk_macros "DLC_IMCIFR" "ICU_MODE_CHANGED_FLAGS" (31, 1) (31, 1) (31, 1) 1]%string.
Definition MAESTRO1_HEADER : header :=
  mk_header (MAESTRO1_OFFSETS) (MAESTRO1_FIELDS)
    (MAESTRO1_UNIONS) MAESTRO1_STRUCT (MAESTRO1_MACROS).

Definition MAESTRO_DLC_PCTRL_OFFSET : Z := 0x0.
Definition MAESTRO_PRDATA_OFFSET : Z := 0x4.
Definition MAESTRO_DLC_SR_OFFSET : Z := 0x8.
Definition MAESTRO_DLC_IMR_OFFSET : Z := 0xc.
Definition MAESTRO_DLC_IFR_OFFSET : Z := 0x10.
Definition MAESTRO_DLC_IOIFR_OFFSET : Z := 0x14.
Definition MAESTRO_DLC_IDIFR_OFFSET : Z := 0x18.
Definition MAESTRO_DLC_IMCIFR_OFFSET : Z := 0x1c.

Definition maestro_dlc_pctrl_get (base : Z) : M soc Z := ARCHI_READ base MAESTRO_DLC_PCTRL_OFFSET.
Definition maestro_dlc_pctrl_set (base value : Z) : M soc unit := ARCHI_WRITE base MAESTRO_DLC_PCTRL_OFFSET value.
Definition maestro_prdata_get (base : Z) : M soc Z := ARCHI_READ base MAESTRO_PRDATA_OFFSET.
Definition maestro_prdata_set (base value : Z) : M soc unit := ARCHI_WRITE base MAESTRO_PRDATA_OFFSET value.
Definition maestro_dlc_sr_get (base : Z) : M soc Z := ARCHI_READ base MAESTRO_DLC_SR_OFFSET.
Definition maestro_dlc_sr_set (base value : Z) : M soc unit := ARCHI_WRITE base MAESTRO_DLC_SR_OFFSET value.
Definition maestro_dlc_imr_get (base : Z) : M soc Z := ARCHI_READ base MAESTRO_DLC_IMR_OFFSET.
Definition maestro_dlc_imr_set (base value : Z) : M soc unit := ARCHI_WRITE base MAESTRO_DLC_IMR_OFFSET value.
Definition maestro_dlc_ifr_get (base : Z) : M soc Z := ARCHI_READ base MAESTRO_DLC_IFR_OFFSET.
Definition maestro_dlc_ifr_set (base value : Z) : M soc unit := ARCHI_WRITE base MAESTRO_DLC_IFR_OFFSET value.
Definition maestro_dlc_ioifr_get (base : Z) : M soc Z := ARCHI_READ base MAESTRO_DLC_IOIFR_OFFSET.
Definition maestro_dlc_ioifr_set (base value : Z) : M soc unit := ARCHI_WRITE base MAESTRO_DLC_IOIFR_OFFSET value.
Definition maestro_dlc_idifr_get (base : Z) : M soc Z := ARCHI_READ base MAESTRO_DLC_IDIFR_OFFSET.
Definition maestro_dlc_idifr_set (base value : Z) : M soc unit := ARCHI_WRITE base MAESTRO_DLC_IDIFR_OFFSET value.
Definition maestro_dlc_imcifr_get (base : Z) : M soc Z := ARCHI_READ base MAESTRO_DLC_IMCIFR_OFFSET.
Definition maestro_dlc_imcifr_set (base value : Z) : M soc unit := ARCHI_WRITE base MAESTRO_DLC_IMCIFR_OFFSET value.

(** ** Group wiu *)
Definition MAESTRO1_WIU_OFFSETS : list (string * Z) :=
  [("WIU_ISPMR_0", 0x0); ("WIU_ISPMR_1", 0x1); ("WIU_IFR_0", 0x2); ("WIU_IFR_1", 0x3); ("WIU_ICR_0", 0x4);
   ("WIU_ICR_1", 0x5); ("WIU_ICR_2", 0x6); ("WIU_ICR_3", 0x7); ("WIU_ICR_4", 0x8); ("WIU_ICR_5", 0x9);
   ("WIU_ICR_6", 0xa); ("WIU_ICR_7", 0xb); ("WIU_ICR_8", 0xc); ("WIU_ICR_9", 0xd); ("WIU_ICR_10", 0xe);
   ("WIU_ICR_11", 0xf); ("WIU_ICR_12", 0x10); ("WIU_ICR_13", 0x11); ("WIU_ICR_14", 0x12); ("WIU_ICR_15", 0x13)]%string.
Definition MAESTRO1_WIU_FIELDS : list field :=
  [mk_field "WIU_ISPMR_0" "MASK_MODECHG_EN_IRQ" 0 8 0xff; mk_field "WIU_ISPMR_1" "MASK_MODECHG_EN_IRQ" 0 8 0xff;
   mk_field "WIU_IFR_0" "FLAG_IRQ" 0 8 0xff; mk_field "WIU_IFR_1" "FLAG_IRQ" 0 8 0xff;
   mk_field "WIU_ICR_0" "SEQ_SEL_IRQ_0" 0 5 0x1f; mk_field "WIU_ICR_1" "SEQ_SEL_IRQ_1" 0 5 0x1f;
   mk_field "WIU_ICR_2" "SEQ_SEL_IRQ_2" 0 5 0x1f; mk_field "WIU_ICR_3" "SEQ_SEL_IRQ_3" 0 5 0x1f;
   mk_field "WIU_ICR_4" "SEQ_SEL_IRQ_4" 0 5 0x1f; mk_field "WIU_ICR_5" "SEQ_SEL_IRQ_5" 0 5 0x1f;
   mk_field "WIU_ICR_6" "SEQ_SEL_IRQ_6" 0 5 0x1f; mk_field "WIU_ICR_7" "SEQ_SEL_IRQ_7" 0 5 0x1f;
   mk_field "WIU_ICR_8" "SEQ_SEL_IRQ_8" 0 5 0x1f; mk_field "WIU_ICR_9" "SEQ_SEL_IRQ_9" 0 5 0x1f;
   mk_field "WIU_ICR_10" "SEQ_SEL_IRQ_10" 0 5 0x1f; mk_field "WIU_ICR_11" "SEQ_SEL_IRQ_11" 0 5 0x1f;
   mk_field "WIU_ICR_12" "SEQ_SEL_IRQ_12" 0 5 0x1f; mk_field "WIU_ICR_13" "SEQ_SEL_IRQ_13" 0 5 0x1f;
   mk_field "WIU_ICR_14" "SEQ_SEL_IRQ_14" 0 5 0x1f; mk_field "WIU_ICR_15" "SEQ_SEL_IRQ_15" 0 5 0x1f]%string.
Definition MAESTRO1_WIU_RESETS : list (string * string * Z) :=
  [("WIU_ISPMR_0", "MASK_MODECHG_EN_IRQ", 0x0); ("WIU_ISPMR_1", "MASK_MODECHG_EN_IRQ", 0x0);
   ("WIU_IFR_0", "FLAG_IRQ", 0x0); ("WIU_IFR_1", "FLAG_IRQ", 0x0); ("WIU_ICR_0", "SEQ_SEL_IRQ_0", 0x0);
   ("WIU_ICR_1", "SEQ_SEL_IRQ_1", 0x0); ("WIU_ICR_2", "SEQ_SEL_IRQ_2", 0x0); ("WIU_ICR_3", "SEQ_SEL_IRQ_3", 0x0);
   ("WIU_ICR_4", "SEQ_SEL_IRQ_4", 0x0); ("WIU_ICR_5", "SEQ_SEL_IRQ_5", 0x0); ("WIU_ICR_6", "SEQ_SEL_IRQ_6", 0x0);
   ("WIU_ICR_7", "SEQ_SEL_IRQ_7", 0x0); ("WIU_ICR_8", "SEQ_SEL_IRQ_8", 0x0); ("WIU_ICR_9", "SEQ_SEL_IRQ_9", 0x0);
   ("WIU_ICR_10", "SEQ_SEL_IRQ_10", 0x0); ("WIU_ICR_11", "SEQ_SEL_IRQ_11", 0x0);
   ("WIU_ICR_12", "SEQ_SEL_IRQ_12", 0x0); ("WIU_ICR_13", "SEQ_SEL_IRQ_13", 0x0);
   ("WIU_ICR_14", "SEQ_SEL_IRQ_14", 0x0); ("WIU_ICR_15", "SEQ_SEL_IRQ_15", 0x0)]%string.
Definition MAESTRO1_WIU_UNIONS : list union :=
  [mk_union "wiu_ispmr_0" [("mask_modechg_en_irq", 8)]; mk_union "wiu_ispmr_1" [("mask_modechg_en_irq", 8)];
   mk_union "wiu_ifr_0" [("flag_irq", 8)]; mk_union "wiu_ifr_1" [("flag_irq", 8)];
   mk_union "wiu_icr_0" [("seq_sel_irq_0", 5)]; mk_union "wiu_icr_1" [("seq_sel_irq_1", 5)];
   mk_union "wiu_icr_2" [("seq_sel_irq_2", 5)]; mk_union "wiu_icr_3" [("seq_sel_irq_3", 5)];
   mk_union "wiu_icr_4" [("seq_sel_irq_4", 5)]; mk_union "wiu_icr_5" [("seq_sel_irq_5", 5)];
   mk_union "wiu_icr_6" [("seq_sel_irq_6", 5)]; mk_union "wiu_icr_7" [("seq_sel_irq_7", 5)];
   mk_union "wiu_icr_8" [("seq_sel_irq_8", 5)]; mk_union "wiu_icr_9" [("seq_sel_irq_9", 5)];
   mk_union "wiu_icr_10" [("seq_sel_irq_10", 5)]; mk_union "wiu_icr_11" [("seq_sel_irq_11", 5)];
   mk_union "wiu_icr_12" [("seq_sel_irq_12", 5)]; mk_union "wiu_icr_13" [("seq_sel_irq_13", 5)];
   mk_union "wiu_icr_14" [("seq_sel_irq_14", 5)]; mk_union "wiu_icr_15" [("seq_sel_irq_15", 5)]]%string.
Definition MAESTRO1_WIU_STRUCT : list string :=
  ["wiu_ispmr_0"; "wiu_ispmr_1"; "wiu_ifr_0"; "wiu_ifr_1"; "wiu_icr_0"; "wiu_icr_1"; "wiu_icr_2"; "wiu_icr_3";
   "wiu_icr_4"; "wiu_icr_5"; "wiu_icr_6"; "wiu_icr_7"; "wiu_icr_8"; "wiu_icr_9"; "wiu_icr_10"; "wiu_icr_11";
   "wiu_icr_12"; "wiu_icr_13"; "wiu_icr_14"; "wiu_icr_15"]%string.
Definition MAESTRO1_WIU_MACROS : list macros :=
  [mk_macros "WIU_ISPMR_0" "MASK_MODECHG_EN_IRQ" (8, 0) (8, 0) (8, 0) 0;
   mk_macros "WIU_ISPMR_1" "MASK_MODECHG_EN_IRQ" (8, 0) (8, 0) (8, 0) 0;
   mk_macros "WIU_IFR_0" "FLAG_IRQ" (8, 0) (8, 0) (8, 0) 0;
   mk_macros "WIU_IFR_1" "FLAG_IRQ" (8, 0) (8, 0) (8, 0) 0;
   mk_macros "WIU_ICR_0" "SEQ_SEL_IRQ_0" (5, 0) (5, 0) (5, 0) 0;
   mk_macros "WIU_ICR_1" "SEQ_SEL_IRQ_1" (5, 0) (5, 0) (5, 0) 0;
   mk_macros "WIU_ICR_2" "SEQ_SEL_IRQ_2" (5, 0) (5, 0) (5, 0) 0;
   mk_macros "WIU_ICR_3" "SEQ_SEL_IRQ_3" (5, 0) (5, 0) (5, 0) 0;
   mk_macros "WIU_ICR_4" "SEQ_SEL_IRQ_4" (5, 0) (5, 0) (5, 0) 0;
   mk_macros "WIU_ICR_5" "SEQ_SEL_IRQ_5" (5, 0) (5, 0) (5, 0) 0;
   mk_macros "WIU_ICR_6" "SEQ_SEL_IRQ_6" (5, 0) (5, 0) (5, 0) 0;
   mk_macros "WIU_ICR_7" "SEQ_SEL_IRQ_7" (5, 0) (5, 0) (5, 0) 0;
   mk_macros "WIU_ICR_8" "SEQ_SEL_IRQ_8" (5, 0) (5, 0) (5, 0) 0;
   mk_macros "WIU_ICR_9" "SEQ_SEL_IRQ_9" (5, 0) (5, 0) (5, 0) 0;
   mk_macros "WIU_ICR_10" "SEQ_SEL_IRQ_10" (5, 0) (5, 0) (5, 0) 0;
   mk_macros "WIU_ICR_11" "SEQ_SEL_IRQ_11" (5, 0) (5, 0) (5, 0) 0;
   mk_macros "WIU_ICR_12" "SEQ_SEL_IRQ_12" (5, 0) (5, 0) (5, 0) 0;
   mk_macros "WIU_ICR_13" "SEQ_SEL_IRQ_13" (5, 0) (5, 0) (5, 0) 0;
   mk_macros "WIU_ICR_14" "SEQ_SEL_IRQ_14" (5, 0) (5, 0) (5, 0) 0;
   mk_macros "WIU_ICR_15" "SEQ_SEL_IRQ_15" (5, 0) (5, 0) (5, 0) 0]%string.
Definition MAESTRO1_WIU_HEADER : header :=
  mk_header (MAESTRO1_WIU_OFFSETS) (MAESTRO1_WIU_FIELDS)
    (MAESTRO1_WIU_UNIONS) MAESTRO1_WIU_STRUCT (MAESTRO1_WIU_MACROS).

Definition MAESTRO_WIU_OFFSET : Z := 0x0.
Definition MAESTRO_WIU_ISPMR_0_OFFSET : Z := 0x0.
Definition MAESTRO_WIU_ISPMR_1_OFFSET : Z := 0x1.
Definition MAESTRO_WIU_IFR_0_OFFSET : Z := 0x2.
Definition MAESTRO_WIU_IFR_1_OFFSET : Z := 0x3.
Definition MAESTRO_WIU_ICR_0_OFFSET : Z := 0x4.
Definition MAESTRO_WIU_ICR_1_OFFSET : Z := 0x5.
Definition MAESTRO_WIU_ICR_2_OFFSET : Z := 0x6.
Definition MAESTRO_WIU_ICR_3_OFFSET : Z := 0x7.
Definition MAESTRO_WIU_ICR_4_OFFSET : Z := 0x8.
Definition MAESTRO_WIU_ICR_5_OFFSET : Z := 0x9.
Definition MAESTRO_WIU_ICR_6_OFFSET : Z := 0xa.
Definition MAESTRO_WIU_ICR_7_OFFSET : Z := 0xb.
Definition MAESTRO_WIU_ICR_8_OFFSET : Z := 0xc.
Definition MAESTRO_WIU_ICR_9_OFFSET : Z := 0xd.
Definition MAESTRO_WIU_ICR_10_OFFSET : Z := 0xe.
Definition MAESTRO_WIU_ICR_11_OFFSET : Z := 0xf.
Definition MAESTRO_WIU_ICR_12_OFFSET : Z := 0x10.
Definition MAESTRO_WIU_ICR_13_OFFSET : Z := 0x11.
Definition MAESTRO_WIU_ICR_14_OFFSET : Z := 0x12.
Definition MAESTRO_WIU_ICR_15_OFFSET : Z := 0x13.

Definition maestro_wiu_ispmr_0_get (base : Z) : M soc Z := ARCHI_READ base MAESTRO_WIU_ISPMR_0_OFFSET.
Definition maestro_wiu_ispmr_0_set (base value : Z) : M soc unit := ARCHI_WRITE base MAESTRO_WIU_ISPMR_0_OFFSET value.
Definition maestro_wiu_ispmr_1_get (base : Z) : M soc Z := ARCHI_READ base MAESTRO_WIU_ISPMR_1_OFFSET.
Definition maestro_wiu_ispmr_1_set (base value : Z) : M soc unit := ARCHI_WRITE base MAESTRO_WIU_ISPMR_1_OFFSET value.
Definition maestro_wiu_ifr_0_get (base : Z) : M soc Z := ARCHI_READ base MAESTRO_WIU_IFR_0_OFFSET.
Definition maestro_wiu_ifr_0_set (base value : Z) : M soc unit := ARCHI_WRITE base MAESTRO_WIU_IFR_0_OFFSET value.
Definition maestro_wiu_ifr_1_get (base : Z) : M soc Z := ARCHI_READ base MAESTRO_WIU_IFR_1_OFFSET.
Definition maestro_wiu_ifr_1_set (base value : Z) : M soc unit := ARCHI_WRITE base MAESTRO_WIU_IFR_1_OFFSET value.
Definition maestro_wiu_icr_0_get (base : Z) : M soc Z := ARCHI_READ base MAESTRO_WIU_ICR_0_OFFSET.
Definition maestro_wiu_icr_0_set (base value : Z) : M soc unit := ARCHI_WRITE base MAESTRO_WIU_ICR_0_OFFSET value.
Definition maestro_wiu_icr_1_get (base : Z) : M soc Z := ARCHI_READ base MAESTRO_WIU_ICR_1_OFFSET.
Definition maestro_wiu_icr_1_set (base value : Z) : M soc unit := ARCHI_WRITE base MAESTRO_WIU_ICR_1_OFFSET value.
Definition maestro_wiu_icr_2_get (base : Z) : M soc Z := ARCHI_READ base MAESTRO_WIU_ICR_2_OFFSET.
Definition maestro_wiu_icr_2_set (base value : Z) : M soc unit := ARCHI_WRITE base MAESTRO_WIU_ICR_2_OFFSET value.
Definition maestro_wiu_icr_3_get (base : Z) : M soc Z := ARCHI_READ base MAESTRO_WIU_ICR_3_OFFSET.
Definition maestro_wiu_icr_3_set (base value : Z) : M soc unit := ARCHI_WRITE base MAESTRO_WIU_ICR_3_OFFSET value.
Definition maestro_wiu_icr_4_get (base : Z) : M soc Z := ARCHI_READ base MAESTRO_WIU_ICR_4_OFFSET.
Definition maestro_wiu_icr_4_set (base value : Z) : M soc unit := ARCHI_WRITE base MAESTRO_WIU_ICR_4_OFFSET value.
Definition maestro_wiu_icr_5_get (base : Z) : M soc Z := ARCHI_READ base MAESTRO_WIU_ICR_5_OFFSET.
Definition maestro_wiu_icr_5_set (base value : Z) : M soc unit := ARCHI_WRITE base MAESTRO_WIU_ICR_5_OFFSET value.
Definition maestro_wiu_icr_6_get (base : Z) : M soc Z := ARCHI_READ base MAESTRO_WIU_ICR_6_OFFSET.
Definition maestro_wiu_icr_6_set (base value : Z) : M soc unit := ARCHI_WRITE base MAESTRO_WIU_ICR_6_OFFSET value.
Definition maestro_wiu_icr_7_get (base : Z) : M soc Z := ARCHI_READ base MAESTRO_WIU_ICR_7_OFFSET.
Definition maestro_wiu_icr_7_set (base value : Z) : M soc unit := ARCHI_WRITE base MAESTRO_WIU_ICR_7_OFFSET value.
Definition maestro_wiu_icr_8_get (base : Z) : M soc Z := ARCHI_READ base MAESTRO_WIU_ICR_8_OFFSET.
Definition maestro_wiu_icr_8_set (base value : Z) : M soc unit := ARCHI_WRITE base MAESTRO_WIU_ICR_8_OFFSET value.
Definition maestro_wiu_icr_9_get (base : Z) : M soc Z := ARCHI_READ base MAESTRO_WIU_ICR_9_OFFSET.
Definition maestro_wiu_icr_9_set (base value : Z) : M soc unit := ARCHI_WRITE base MAESTRO_WIU_ICR_9_OFFSET value.
Definition maestro_wiu_icr_10_get (base : Z) : M soc Z := ARCHI_READ base MAESTRO_WIU_ICR_10_OFFSET.
Definition maestro_wiu_icr_10_set (base value : Z) : M soc unit := ARCHI_WRITE base MAESTRO_WIU_ICR_10_OFFSET value.
Definition maestro_wiu_icr_11_get (base : Z) : M soc Z := ARCHI_READ base MAESTRO_WIU_ICR_11_OFFSET.
Definition maestro_wiu_icr_11_set (base value : Z) : M soc unit := ARCHI_WRITE base MAESTRO_WIU_ICR_11_OFFSET value.
Definition maestro_wiu_icr_12_get (base : Z) : M soc Z := ARCHI_READ base MAESTRO_WIU_ICR_12_OFFSET.
Definition maestro_wiu_icr_12_set (base value : Z) : M soc unit := ARCHI_WRITE base MAESTRO_WIU_ICR_12_OFFSET value.
Definition maestro_wiu_icr_13_get (base : Z) : M soc Z := ARCHI_READ base MAESTRO_WIU_ICR_13_OFFSET.
Definition maestro_wiu_icr_13_set (base value : Z) : M soc unit := ARCHI_WRITE base MAESTRO_WIU_ICR_13_OFFSET value.
Definition maestro_wiu_icr_14_get (base : Z) : M soc Z := ARCHI_READ base MAESTRO_WIU_ICR_14_OFFSET.
Definition maestro_wiu_icr_14_set (base value : Z) : M soc unit := ARCHI_WRITE base MAESTRO_WIU_ICR_14_OFFSET value.
Definition maestro_wiu_icr_15_get (base : Z) : M soc Z := ARCHI_READ base MAESTRO_WIU_ICR_15_OFFSET.
Definition maestro_wiu_icr_15_set (base value : Z) : M soc unit := ARCHI_WRITE base MAESTRO_WIU_ICR_15_OFFSET value.

(** ** Group icu *)
Definition MAESTRO1_ICU_OFFSETS : list (string * Z) :=
  [("ICU_CTRL", 0x0); ("ICU_MODE", 0x1); ("ISLAND_MODE", 0x2); ("DMU_MODE", 0x3)]%string.
Definition MAESTRO1_ICU_FIELDS : list field :=
  [mk_field "ICU_CTRL" "ICU_CTRL" 0 4 0xf; mk_field "ICU_MODE" "ICU_MODE" 0 4 0xf;
   mk_field "ICU_MODE" "ICU_MODE_DEFINED" 4 1 0x10; mk_field "ISLAND_MODE" "ISL_MODE" 0 2 0x3;
   mk_field "DMU_MODE" "ISL_MODE" 0 2 0x3]%string.
Definition MAESTRO1_ICU_RESETS : list (string * string * Z) :=
  [("ICU_CTRL", "ICU_CTRL", 0x0); ("ICU_MODE", "ICU_MODE", 0xf); ("ICU_MODE", "ICU_MODE_DEFINED", 0x1);
   ("ISLAND_MODE", "ISL_MODE", 0x0); ("DMU_MODE", "ISL_MODE", 0x0)]%string.
Definition MAESTRO1_ICU_UNIONS : list union :=
  [mk_union "icu_ctrl" [("icu_ctrl", 4)]; mk_union "icu_mode" [("icu_mode", 4); ("icu_mode_defined", 1)];
   mk_union "island_mode" [("isl_mode", 2)]; mk_union "dmu_mode" [("isl_mode", 2)]]%string.
Definition MAESTRO1_ICU_STRUCT : list string :=
  ["icu_ctrl"; "icu_mode"; "island_mode"; "dmu_mode"]%string.
Definition MAESTRO1_ICU_MACROS : list macros :=
  [mk_macros "ICU_CTRL" "ICU_CTRL" (4, 0) (4, 0) (4, 0) 0; mk_macros "ICU_MODE" "ICU_MODE" (4, 0) (4, 0) (4, 0) 0;
   mk_macros "ICU_MODE" "ICU_MODE_DEFINED" (1, 4) (1, 4) (1, 4) 4;
   mk_macros "ISLAND_MODE" "ISL_MODE" (2, 0) (2, 0) (2, 0) 0;
   mk_macros "DMU_MODE" "ISL_MODE" (2, 0) (2, 0) (2, 0) 0]%string.
Definition MAESTRO1_ICU_HEADER : header :=
  mk_header (MAESTRO1_ICU_OFFSETS) (MAESTRO1_ICU_FIELDS)
    (MAESTRO1_ICU_UNIONS) MAESTRO1_ICU_STRUCT (MAESTRO1_ICU_MACROS).

Definition MAESTRO_ICU_CTRL_OFFSET : Z := 0x0.
Definition MAESTRO_ICU_MODE_OFFSET : Z := 0x1.
Definition MAESTRO_ISLAND_MODE_OFFSET : Z := 0x2.
Definition MAESTRO_DMU_MODE_OFFSET : Z := 0x3.

Definition maestro_icu_ctrl_get (base : Z) : M soc Z := ARCHI_READ base MAESTRO_ICU_CTRL_OFFSET.
Definition maestro_icu_ctrl_set (base value : Z) : M soc unit := ARCHI_WRITE base MAESTRO_ICU_CTRL_OFFSET value.
Definition maestro_icu_mode_get (base : Z) : M soc Z := ARCHI_READ base MAESTRO_ICU_MODE_OFFSET.
Definition maestro_icu_mode_set (base value : Z) : M soc unit := ARCHI_WRITE base MAESTRO_ICU_MODE_OFFSET value.
Definition maestro_island_mode_get (base : Z) : M soc Z := ARCHI_READ base MAESTRO_ISLAND_MODE_OFFSET.
Definition maestro_island_mode_set (base value : Z) : M soc unit := ARCHI_WRITE base MAESTRO_ISLAND_MODE_OFFSET value.
Definition maestro_dmu_mode_get (base : Z) : M soc Z := ARCHI_READ base MAESTRO_DMU_MODE_OFFSET.
Definition maestro_dmu_mode_set (base value : Z) : M soc unit := ARCHI_WRITE base MAESTRO_DMU_MODE_OFFSET value.

(** * Theorems *)

(** All tables agree. *)
Lemma MAESTRO1_report : header_sound_but MAESTRO1_HEADER [] [].
Proof. apply header_but; vm_compute; reflexivity. Qed.
#[export] Hint Resolve MAESTRO1_report : registers.

(** The struct puts 19 registers elsewhere than their offsets do. *)
Lemma MAESTRO1_WIU_report : header_sound_but MAESTRO1_WIU_HEADER
  (drop 1 (map fst MAESTRO1_WIU_OFFSETS))
  [].
Proof. apply header_but; vm_compute; reflexivity. Qed.
#[export] Hint Resolve MAESTRO1_WIU_report : registers.

(** The struct puts 3 registers elsewhere than their offsets do. *)
Lemma MAESTRO1_ICU_report : header_sound_but MAESTRO1_ICU_HEADER
  (drop 1 (map fst MAESTRO1_ICU_OFFSETS))
  [].
Proof. apply header_but; vm_compute; reflexivity. Qed.
#[export] Hint Resolve MAESTRO1_ICU_report : registers.
