(* ===== verification/Pmu.v ===== *)
(** * Pmu: the HAL of the power manager

    boot_code/include/hal/maestro/pmu_v1.h, pmu_v2.h and pmu_v3.h: voltages and power
    states of the chip, the configuration registers of cluster, regulator and
    retention, and the commands of the third version on the bus of the power manager,
    whose registers are the tables of [MaestroV3]. *)

From S2P Require Import Prelude Monad Builtins Regs Mmio Riscv MaestroV3.

(** ** Constants of pmu_v1.h *)
Definition PCTRL : Z := 0x0.
Definition PRDATA : Z := 0x4.
Definition DLC_SR : Z := 0x8.
Definition DLC_IMR : Z := 0xC.
Definition DLC_IFR : Z := 0x10.
Definition DLC_IOIFR : Z := 0x14.
Definition DLC_IDIFR : Z := 0x18.
Definition DLC_IMCIFR : Z := 0x1C.
Definition PMU_CLUSTER_RESET_OFFSET : Z := 0x8.
Definition PMU_CLUSTER_TRANSAC_ISOLATE_OFFSET : Z := 0xC.
Definition PMU_DCDC_CONFIG_OFFSET : Z := 0x100.
Definition APB_SOC_CL_BYPASS_OFFSET : Z := 0x70.
Definition PMU_RETENTION_CONFIG_OFFSET : Z := 0x104.
Definition PMU_RETENTION_CONFIG_ALIAS_OFFSET : Z := 0x7C.
Definition PMU_RETENTION_FORCE_CONFIG_OFFSET : Z := 0x108.
Definition GAP8_MAX_LV_FREQUENCY : Z := 150000000.
Definition GAP8_MAX_NV_FREQUENCY : Z := 250000000.
Definition DCDC_OPER_POINTS : Z := 4.
Definition DCDC_DEFAULT_NV : Z := 1200.
Definition DCDC_DEFAULT_MV : Z := 1200.
Definition DCDC_DEFAULT_LV : Z := 1000.
Definition DCDC_DEFAULT_RET : Z := 800.
Definition DCDC_RANGE : Z := 5.
Definition DCDC_BASE_VALUE : Z := 550.
Definition DCDC_STEP : Z := 50.
Definition REGU_NV : Z := 0.
Definition REGU_LV : Z := 1.
Definition REGU_RET : Z := 2.
Definition REGU_OFF : Z := 3.
Definition CLUSTER_OFF : Z := 0.
Definition CLUSTER_ON : Z := 1.
Definition PMU_STATES : Z := 6.
Definition PMU_LAST_STATE : Z := 6.
Definition PMU_LN2_STATES : Z := 3.
Definition REGU_STATE_SIZE : Z := 2.
Definition REGU_STATE_OFFSET : Z := 1.
Definition CLUSTER_STATE_SIZE : Z := 1.
Definition CLUSTER_STATE_OFFSET : Z := 0.
Definition PMU_CHANGE_OK : Z := 0.
Definition PMU_CHANGE_ERROR : Z := 1.
Definition LN2_DCDC_OPER_POINTS : Z := 2.
Definition DCDC_Nominal : Z := 0.
Definition DCDC_Medium : Z := 1.
Definition DCDC_Low : Z := 2.
Definition DCDC_Retentive : Z := 3.
Definition SCU_DEEP_SLEEP : Z := 0.
Definition SCU_RETENTIVE : Z := 1.
Definition SCU_SOC_HP : Z := 2.
Definition SCU_SOC_LP : Z := 3.
Definition SCU_SOC_CLUSTER_HP : Z := 4.
Definition SCU_SOC_CLUSTER_LP : Z := 5.
Definition COLD_BOOT : Z := 0.
Definition DEEP_SLEEP_BOOT : Z := 1.
Definition RETENTIVE_BOOT : Z := 2.
Definition FAST_DEEP_SLEEP_BOOT : Z := 3.
Definition BOOT_FROM_ROM : Z := 0.
Definition BOOT_FROM_L2 : Z := 1.
Definition EXT_WAKEUP_RAISING_EDGE : Z := 0.
Definition EXT_WAKEUP_FALLING_EDGE : Z := 1.
Definition EXT_WAKEUP_HIGH : Z := 2.
Definition EXT_WAKEUP_LOW : Z := 3.
Definition L2_RETENTIVE_REGION : Z := 4.
Definition N_GPIO : Z := 32.
Definition LN2_N_GPIO : Z := 5.

(** [PMU_SystemStateT] *)
Definition SOC_CLUSTER_HP : Z := Z.shiftl REGU_NV 1 ||| CLUSTER_ON.
Definition SOC_CLUSTER_LP : Z := Z.shiftl REGU_LV 1 ||| CLUSTER_ON.
Definition SOC_HP : Z := Z.shiftl REGU_NV 1 ||| CLUSTER_OFF.
Definition SOC_LP : Z := Z.shiftl REGU_LV 1 ||| CLUSTER_OFF.
Definition RETENTIVE : Z := Z.shiftl REGU_RET 1 ||| CLUSTER_OFF.
Definition DEEP_SLEEP : Z := Z.shiftl REGU_OFF 1 ||| CLUSTER_OFF.

Definition SOC_STATES : list Z := [SOC_CLUSTER_HP; SOC_CLUSTER_LP; SOC_HP; SOC_LP; RETENTIVE; DEEP_SLEEP].

Definition POWER_SYSTEM_STATE (ReguState ClusterState : Z) : Z := Z.shiftl ReguState 1 ||| ClusterState.
Definition REGULATOR_STATE (State : Z) : option Z := __builtin_bitextractu State REGU_STATE_SIZE REGU_STATE_OFFSET.
Definition CLUSTER_STATE (State : Z) : option Z := __builtin_bitextractu State CLUSTER_STATE_SIZE CLUSTER_STATE_OFFSET.

(** With a signed [mV]: the division truncates, the cast wraps. *)
Definition mVtoDCDCSetting (mV : Z) : Z := u32 (Z.quot (mV - DCDC_BASE_VALUE) DCDC_STEP).
Definition DCDCSettingtomV (Dc : Z) : Z := u32 (Dc * DCDC_STEP + DCDC_BASE_VALUE).

(** The map of the chip. *)
Class PmuMap := {
  ARCHI_SOC_PERIPHERALS_ADDR : Z;
  ARCHI_APB_SOC_CTRL_ADDR : Z;
  ARCHI_PMU_OFFSET : Z;
  ARCHI_PMU_ADDR : Z;
  APB_SOC_BYPASS_OFFSET : Z
}.

(** The registers, and the variable [PMURetentionState] (its [Raw] word). *)
Record pmu := mk_pmu { io : port; PMURetentionState : Z }.
Definition on_io {A} (m : M port A) : M pmu A := fun s =>
  match m (io s) with
  | Ok a p => Ok a (mk_pmu p (PMURetentionState s))
  | Fault p => Fault (mk_pmu p (PMURetentionState s))
  | Spin p => Spin (mk_pmu p (PMURetentionState s))
  | Jump e p => Jump e (mk_pmu p (PMURetentionState s))
  end.

Section Hal.
(** [gap]: the build is for the GAP family. *)
Context `{PmuMap} (gap : bool).

Definition PMU_DLC_OFFSET : Z := ARCHI_PMU_OFFSET.
Definition PMU_DLC_BASE_ADDRESS : Z := ARCHI_SOC_PERIPHERALS_ADDR + PMU_DLC_OFFSET.
Definition PMU_Read (reg : Z) : M pmu Z := on_io (IP_READ PMU_DLC_BASE_ADDRESS reg).
Definition PMU_Write (reg value : Z) : M pmu unit := on_io (IP_WRITE PMU_DLC_BASE_ADDRESS reg value).
Definition PMU_CLUSTER_RESET_REG : Z := ARCHI_APB_SOC_CTRL_ADDR + PMU_CLUSTER_RESET_OFFSET.
Definition PMU_CLUSTER_TRANSAC_ISOLATE_REG : Z := ARCHI_APB_SOC_CTRL_ADDR + PMU_CLUSTER_TRANSAC_ISOLATE_OFFSET.
Definition PMU_DCDC_CONFIG_REG : Z := ARCHI_APB_SOC_CTRL_ADDR + PMU_DCDC_CONFIG_OFFSET.
Definition PMU_BYPASS_REG : Z := ARCHI_APB_SOC_CTRL_ADDR + APB_SOC_CL_BYPASS_OFFSET.
Definition PMU_RETENTION_CONFIG_REG : Z := ARCHI_APB_SOC_CTRL_ADDR + PMU_RETENTION_CONFIG_OFFSET.
Definition PMU_RETENTION_CONFIG_ALIAS_REG : Z := ARCHI_APB_SOC_CTRL_ADDR + PMU_RETENTION_CONFIG_ALIAS_OFFSET.
Definition PMU_RETENTION_FORCE_CONFIG_REG : Z := ARCHI_APB_SOC_CTRL_ADDR + PMU_RETENTION_FORCE_CONFIG_OFFSET.

Definition PMU_RetentionStateT : union := mk_union "retention"
  ((if gap then [("L2Retention", L2_RETENTIVE_REGION); ("FllSoCRetention", 1); ("FllClusterRetention", 1)]%string
    else [("FllSoCRetention", 1); ("FllClusterRetention", 1); ("L2Retention", L2_RETENTIVE_REGION)]%string) ++
   [("ExternalWakeUpSource", LN2_N_GPIO); ("ExternalWakeUpMode", 2); ("ExternalWakeupEnable", 1); ("WakeupState", 2);
    ("BootMode", 1); ("WakeupCause", 1); ("BootType", 2); ("ClusterWakeUpState", 1)]%string).
Definition PMU_ForcedRetentionStateT : union := mk_union "forced_retention"
  [("L2_Area_Retentive", 4); ("L2_Area_Down", 4); ("Fll_Cluster_Retentive", 1); ("Fll_Cluster_Down", 1)]%string.
Definition PMU_BypassT : union := mk_union "bypass"
  (if gap then
     [("Bypass", 1); ("BypassConfig", 1); ("Pad0", 1); ("ClusterState", 1); ("TRCMaxCurrent", 3); ("TRCDelay", 2);
      ("BypassClock", 1); ("ClusterClockGate", 1); ("ClockDown", 1); ("ClockRetentive", 1); ("ClusterReset", 1);
      ("Pad1", 2); ("TRCPowerOk", 1); ("PMUPowerDown", 1)]
   else
     [("Bypass", 1); ("ClusterState", 1); ("ClusterClockGate", 1); ("ClockRetentive", 1); ("ClockDown", 1);
      ("ClusterReset", 1); ("Isolate", 1); ("ClusterRetentive", 1); ("TRCPowerOk", 1); ("PMUClockEnableAck", 1);
      ("PMUPowerDown", 1)])%string.

Definition PMU_ResetCluster (Value : Z) : M pmu unit :=
  Val ← on_io (IP_READ ARCHI_APB_SOC_CTRL_ADDR APB_SOC_CL_BYPASS_OFFSET);
  Raw ← of_opt (member_set PMU_BypassT "ClusterReset" Val Value);
  on_io (IP_WRITE ARCHI_APB_SOC_CTRL_ADDR APB_SOC_CL_BYPASS_OFFSET Raw).
Definition PMU_IsolateCluster (Value : Z) : M pmu unit :=
  on_io (IP_WRITE ARCHI_APB_SOC_CTRL_ADDR PMU_CLUSTER_TRANSAC_ISOLATE_OFFSET Value).
Definition GetPMUBypass : M pmu Z := on_io (IP_READ ARCHI_APB_SOC_CTRL_ADDR APB_SOC_CL_BYPASS_OFFSET).
Definition SetPMUBypass (Value : Z) : M pmu unit := on_io (IP_WRITE ARCHI_APB_SOC_CTRL_ADDR APB_SOC_CL_BYPASS_OFFSET Value).
Definition GetRetentiveState : M pmu Z := on_io (IP_READ ARCHI_APB_SOC_CTRL_ADDR PMU_RETENTION_CONFIG_OFFSET).
Definition SetRetentiveState (Value : Z) : M pmu unit :=
  on_io (IP_WRITE ARCHI_APB_SOC_CTRL_ADDR PMU_RETENTION_CONFIG_OFFSET Value).
Definition GetForcedRetentiveState : M pmu Z := on_io (IP_READ ARCHI_APB_SOC_CTRL_ADDR PMU_RETENTION_FORCE_CONFIG_OFFSET).
Definition SetForcedRetentiveState (Value : Z) : M pmu unit :=
  on_io (IP_WRITE ARCHI_APB_SOC_CTRL_ADDR PMU_RETENTION_FORCE_CONFIG_OFFSET Value).
Definition GetDCDCSetting : M pmu Z := on_io (IP_READ ARCHI_APB_SOC_CTRL_ADDR PMU_DCDC_CONFIG_OFFSET).
Definition SetDCDCSetting (Value : Z) : M pmu unit := on_io (IP_WRITE ARCHI_APB_SOC_CTRL_ADDR PMU_DCDC_CONFIG_OFFSET Value).
Definition hal_pmu_bypass_set (Value : Z) : M pmu unit := on_io (IP_WRITE ARCHI_APB_SOC_CTRL_ADDR APB_SOC_CL_BYPASS_OFFSET Value).
Definition hal_pmu_bypass_get : M pmu Z := on_io (IP_READ ARCHI_APB_SOC_CTRL_ADDR APB_SOC_CL_BYPASS_OFFSET).

Definition SoC_WakeupState : M pmu Z := raw ← gets PMURetentionState; of_opt (member_get PMU_RetentionStateT "BootType" raw).
(** [PMURetentionState.Fields.n = x] *)
Definition set_retention (n : string) (x : Z) : M pmu unit :=
  raw ← gets PMURetentionState; raw ← of_opt (member_set PMU_RetentionStateT n raw x);
  modify (fun s => mk_pmu (io s) raw).
Definition ConfigureExternalWup (Gpio WupMode Enable : Z) : M pmu unit :=
  set_retention "ExternalWakeUpSource" Gpio ;;
  set_retention "ExternalWakeUpMode" WupMode ;;
  set_retention "ExternalWakeupEnable" Enable ;;
  raw ← gets PMURetentionState; SetRetentiveState raw.
Definition EnableExternalWakeup (Enable : Z) : M pmu unit :=
  set_retention "ExternalWakeupEnable" Enable ;;
  raw ← gets PMURetentionState; SetRetentiveState raw.

(** ** pmu_v2.h *)
Definition hal_pmu_bypass_set_v2 (Value : Z) : M pmu unit := on_io (IP_WRITE ARCHI_APB_SOC_CTRL_ADDR APB_SOC_BYPASS_OFFSET Value).
Definition hal_pmu_bypass_get_v2 : M pmu Z := on_io (IP_READ ARCHI_APB_SOC_CTRL_ADDR APB_SOC_BYPASS_OFFSET).

(** ** pmu_v3.h *)
Definition PMU_PICL_PACK (chipsel addr : Z) : Z := u32 (Z.shiftl chipsel 5) ||| addr.
Definition PMU_DLC_PACK (state picl : Z) : Z := u32 (Z.shiftl state 16) ||| u32 (Z.shiftl picl 1) ||| 0x1.
Definition PMU_WRITE (offset value : Z) : M port unit := IP_WRITE ARCHI_PMU_ADDR offset value.
Definition PMU_READ (offset : Z) : M port Z := IP_READ ARCHI_PMU_ADDR offset.
Definition maestro_picl_write (island addr value : Z) : M port unit :=
  let picl_reg := PMU_PICL_PACK island addr in
  let dlc_reg := PMU_DLC_PACK value picl_reg in
  PMU_WRITE MAESTRO_DLC_PCTRL_OFFSET dlc_reg.
Definition maestro_trigger_sequence (seq : Z) : M port unit :=
  let reg_id := s32 (MAESTRO_WIU_IFR_0_OFFSET + Z.shiftr seq 3) in
  let seq_id := seq &&& 0x7 in
  maestro_picl_write MAESTRO_WIU_OFFSET (u32 reg_id) (Z.shiftl 1 seq_id).
Definition maestro_icu_set_state (island state : Z) : M port unit := maestro_picl_write (u32 island) MAESTRO_ICU_CTRL_OFFSET state.
End Hal.

(** The names of pmu_v3.h for islands, registers and states. *)
Definition ARCHI_PMU_SAFE_ID : Z := 2.
Definition ARCHI_PMU_MRAMIO_ID : Z := 3.
Definition ARCHI_PMU_MRAMCORE_ID : Z := 4.
Definition ARCHI_PMU_IO_LS_ID : Z := 5.
Definition ARCHI_PMU_SWAFE_ID : Z := 6.
Definition ARCHI_PMU_SOC_ID : Z := 7.
Definition ARCHI_PMU_CLU_ID : Z := 8.
Definition ARCHI_PMU_IO_HS_ID : Z := 9.
Definition ARCHI_PMU_CSI2_ID : Z := 10.
Definition ARCHI_PCTRL_OFFSET : Z := 0x0.
Definition ARCHI_PRDATA_OFFSET : Z := 0x4.
Definition ARCHI_DLC_SR_OFFSET : Z := 0x8.
Definition ARCHI_DLC_IMR_OFFSET : Z := 0xC.
Definition ARCHI_DLC_IFR_OFFSET : Z := 0x10.
Definition ARCHI_DLC_IOIFR_OFFSET : Z := 0x14.
Definition ARCHI_DLC_IDIFR_OFFSET : Z := 0x18.
Definition ARCHI_DLC_IMCIFR_OFFSET : Z := 0x1C.
Definition ARCHI_PMU_CS_DLC : Z := 0x00.
Definition ARCHI_PMU_CS_WIU : Z := 0x01.
Definition ARCHI_PMU_CS_ICU0 : Z := 0x02.
Definition ARCHI_PMU_CS_ICU1 : Z := 0x03.
Definition ARCHI_PMU_CS_ICU2 : Z := 0x04.
Definition ARCHI_PMU_CS_ICU3 : Z := 0x05.
Definition ARCHI_PMU_WIU_ISPMR_0 : Z := 0x00.
Definition ARCHI_PMU_WIU_ISPMR_1 : Z := 0x01.
Definition ARCHI_PMU_WIU_IFR_0 : Z := 0x02.
Definition ARCHI_PMU_WIU_IFR_1 : Z := 0x03.
Definition ARCHI_PMU_WIU_ICR_0 : Z := 0x04.
Definition ARCHI_PMU_WIU_ICR_1 : Z := 0x05.
Definition ARCHI_PMU_WIU_ICR_2 : Z := 0x06.
Definition ARCHI_PMU_WIU_ICR_3 : Z := 0x07.
Definition ARCHI_PMU_WIU_ICR_4 : Z := 0x08.
Definition ARCHI_PMU_WIU_ICR_5 : Z := 0x09.
Definition ARCHI_PMU_WIU_ICR_6 : Z := 0x0A.
Definition ARCHI_PMU_WIU_ICR_7 : Z := 0x0B.
Definition ARCHI_PMU_WIU_ICR_8 : Z := 0x0C.
Definition ARCHI_PMU_WIU_ICR_9 : Z := 0x0D.
Definition ARCHI_PMU_WIU_ICR_10 : Z := 0x0E.
Definition ARCHI_PMU_WIU_ICR_11 : Z := 0x0F.
Definition ARCHI_PMU_WIU_ICR_12 : Z := 0x10.
Definition ARCHI_PMU_WIU_ICR_13 : Z := 0x11.
Definition ARCHI_PMU_WIU_ICR_14 : Z := 0x12.
Definition ARCHI_PMU_WIU_ICR_15 : Z := 0x13.
Definition ARCHI_PMU_STATE_SOC_NV_CLU_OFF : Z := 0x01.
Definition ARCHI_PMU_STATE_SOC_LV_CLU_OFF : Z := 0x02.
Definition ARCHI_PMU_STATE_SOC_NV_CLU_NV : Z := 0x04.
Definition ARCHI_PMU_STATE_SOC_LV_CLU_LV : Z := 0x08.
Definition ARCHI_PMU_STATE_DEEP_SLEEP : Z := 0x10.
Definition ARCHI_PMU_STATE_RETENTIVE : Z := 0x20.
(** * Theorems *)

(** ** Codes of states and voltages *)
Lemma setting_to_mV Dc : 0 <= Dc < 2 ^ DCDC_RANGE -> DCDCSettingtomV Dc = 50 * Dc + 550.
Proof. unfold DCDC_RANGE. intros HD. unfold DCDCSettingtomV, DCDC_STEP, DCDC_BASE_VALUE. rewrite u32_small; lia. Qed.
Lemma mV_to_setting mV : 550 <= mV < 2150 -> mVtoDCDCSetting mV = (mV - 550) / 50.
Proof.
  intros Hm. unfold mVtoDCDCSetting, DCDC_BASE_VALUE, DCDC_STEP. rewrite Z.quot_div_nonneg by lia.
  apply u32_small. split; [apply Z.div_pos; lia|apply Z.div_lt_upper_bound; lia].
Qed.

Lemma state_codes r c : 0 <= r < 4 -> 0 <= c < 2 ->
  REGULATOR_STATE (POWER_SYSTEM_STATE r c) = Some r /\ CLUSTER_STATE (POWER_SYSTEM_STATE r c) = Some c /\
  (POWER_SYSTEM_STATE r c ∈ SOC_STATES <-> ~ (c = CLUSTER_ON /\ (r = REGU_RET \/ r = REGU_OFF))).
Proof.
  intros Hr Hc. assert (Hrc : (r = 0 \/ r = 1 \/ r = 2 \/ r = 3) /\ (c = 0 \/ c = 1)) by lia.
  unfold SOC_STATES. rewrite !elem_of_cons, elem_of_nil.
  destruct Hrc as [[-> | [-> | [-> | ->]]] [-> | ->]]; (split; [done|]); (split; [done|]); vm_compute; intuition congruence.
Qed.
Lemma voltages mV : 0 <= mV < 2150 ->
  (550 <= mV -> 0 <= mVtoDCDCSetting mV < 2 ^ DCDC_RANGE /\
                DCDCSettingtomV (mVtoDCDCSetting mV) <= mV < DCDCSettingtomV (mVtoDCDCSetting mV) + DCDC_STEP) /\
  (500 < mV < 550 -> DCDCSettingtomV (mVtoDCDCSetting mV) = 550) /\
  (mV <= 500 -> 2 ^ DCDC_RANGE <= mVtoDCDCSetting mV).
Proof.
  intros Hm.
  split; [|split].
  - intros H550. rewrite mV_to_setting by lia. pose proof (Z.div_mod (mV - 550) 50 ltac:(lia)).
    pose proof (Z.mod_pos_bound (mV - 550) 50 ltac:(lia)). unfold DCDC_RANGE.
    assert (0 <= (mV - 550) / 50 < 2 ^ 5) by (change (2 ^ 5) with 32; split; [apply Z.div_pos|apply Z.div_lt_upper_bound]; lia).
    split; [done|]. rewrite setting_to_mV by done. unfold DCDC_STEP. lia.
  - intros Hlow. unfold mVtoDCDCSetting, DCDC_BASE_VALUE, DCDC_STEP.
    replace (mV - 550) with (- (550 - mV)) by lia. rewrite Z.quot_opp_l, Z.quot_small by lia. done.
  - intros Hlow. unfold mVtoDCDCSetting, DCDC_BASE_VALUE, DCDC_STEP, DCDC_RANGE.
    replace (mV - 550) with (- (550 - mV)) by lia. rewrite Z.quot_opp_l, Z.quot_div_nonneg by lia.
    pose proof (Z.div_mod (550 - mV) 50 ltac:(lia)). pose proof (Z.mod_pos_bound (550 - mV) 50 ltac:(lia)).
    unfold u32, wrap. rewrite <- (Z.mod_unique (- ((550 - mV) / 50)) (2 ^ 32) (-1) (2 ^ 32 - (550 - mV) / 50)); lia.
Qed.

(** A regulator state and a cluster state are read back from their system state,
    and the six system states are the ones in which the cluster is off whenever the
    regulator is. A setting of the regulator is read back from its voltage; a voltage
    from 550 to 2149 mV is rounded down by less than a step, one above 500 mV up to 550,
    and for the others the result is no setting. *)
Theorem pmu_codes_roundtrip r c Dc mV : 0 <= r < 4 -> 0 <= c < 2 -> 0 <= Dc < 2 ^ DCDC_RANGE -> 0 <= mV < 2150 ->
  REGULATOR_STATE (POWER_SYSTEM_STATE r c) = Some r /\ CLUSTER_STATE (POWER_SYSTEM_STATE r c) = Some c /\
  (POWER_SYSTEM_STATE r c ∈ SOC_STATES <-> ~ (c = CLUSTER_ON /\ (r = REGU_RET \/ r = REGU_OFF))) /\
  mVtoDCDCSetting (DCDCSettingtomV Dc) = Dc /\
  (550 <= mV -> 0 <= mVtoDCDCSetting mV < 2 ^ DCDC_RANGE /\
                DCDCSettingtomV (mVtoDCDCSetting mV) <= mV < DCDCSettingtomV (mVtoDCDCSetting mV) + DCDC_STEP) /\
  (500 < mV < 550 -> DCDCSettingtomV (mVtoDCDCSetting mV) = 550) /\
  (mV <= 500 -> 2 ^ DCDC_RANGE <= mVtoDCDCSetting mV).
Proof.
  intros Hr Hc HD Hm.
  destruct (state_codes r c Hr Hc) as (Er & Ec & Es).
  split; [exact Er|]. split; [exact Ec|]. split; [exact Es|]. split; [|by apply voltages].
  rewrite setting_to_mV by done. unfold DCDC_RANGE in HD. rewrite mV_to_setting by lia.
  replace (50 * Dc + 550 - 550) with (Dc * 50) by lia. by rewrite Z.div_mul.
Qed.

(** ** The wake-up source *)
Section Wakeup.
Context `{PmuMap} (gap : bool).

(** The fields the wake-up functions do not name. *)
Definition OTHER_RETENTION : list string :=
  ["L2Retention"; "FllSoCRetention"; "FllClusterRetention"; "WakeupState"; "BootMode"; "WakeupCause"; "BootType";
   "ClusterWakeUpState"]%string.

Lemma set_retention_ok n o w x s : member (PMU_RetentionStateT gap) n = Some (o, w) ->
  set_retention gap n x s = Ok tt (mk_pmu (io s) (bitfield_set (PMURetentionState s) x o w)).
Proof.
  intros Em. unfold set_retention.
  rewrite (bind_ok _ _ s (PMURetentionState s) s) by done.
  rewrite (bind_of_opt _ (bitfield_set (PMURetentionState s) x o w)); [done|]. unfold member_set. by rewrite Em.
Qed.

Lemma wakeup_members : member (PMU_RetentionStateT gap) "ExternalWakeUpSource" = Some (6, 5) /\ member (PMU_RetentionStateT gap) "ExternalWakeUpMode" = Some (11, 2) /\
  member (PMU_RetentionStateT gap) "ExternalWakeupEnable" = Some (13, 1).
Proof. by destruct gap. Qed.

Lemma other_members n : n ∈ OTHER_RETENTION -> exists o w, member (PMU_RetentionStateT gap) n = Some (o, w) /\ 0 <= o /\ 0 <= w /\ (o + w <= 6 \/ 14 <= o).
Proof.
  unfold OTHER_RETENTION. rewrite !elem_of_cons, elem_of_nil. intros Hn. destruct_or? Hn; subst n; destruct gap;
    (eexists _, _; split; [reflexivity|unfold L2_RETENTIVE_REGION, LN2_N_GPIO; lia]).
Qed.

(** The word with wake-up source, mode and enable bit set. *)
Definition with_wakeup (v g m e : Z) : Z := bitfield_set (bitfield_set (bitfield_set v g 6 5) m 11 2) e 13 1.

Lemma enable_wakeup_ok e s : 0 <= PMURetentionState s < 2 ^ 32 ->
  EnableExternalWakeup gap e s = Ok tt (mk_pmu (stored PMU_RETENTION_CONFIG_REG (bitfield_set (PMURetentionState s) e 13 1) (io s))
                                          (bitfield_set (PMURetentionState s) e 13 1)).
Proof.
  intros Hs. destruct wakeup_members as (_ & _ & E3). unfold EnableExternalWakeup.
  rewrite (bind_ok _ _ s tt _ (set_retention_ok _ _ _ e s E3)). reflexivity.
Qed.
Lemma configure_wakeup_ok g m e s : 0 <= PMURetentionState s < 2 ^ 32 ->
  ConfigureExternalWup gap g m e s = Ok tt (mk_pmu (stored PMU_RETENTION_CONFIG_REG (with_wakeup (PMURetentionState s) g m e) (io s))
                                              (with_wakeup (PMURetentionState s) g m e)).
Proof.
  intros Hs. destruct wakeup_members as (E1 & E2 & E3). unfold ConfigureExternalWup, with_wakeup.
  rewrite (bind_ok _ _ _ _ _ (set_retention_ok _ _ _ g s E1)), (bind_ok _ _ _ _ _ (set_retention_ok _ _ _ m _ E2)).
  by rewrite (bind_ok _ _ _ _ _ (set_retention_ok _ _ _ e _ E3)).
Qed.

Lemma reenable v g m : bitfield_set (bitfield_set (with_wakeup v g m 1) 0 13 1) 1 13 1 = with_wakeup v g m 1.
Proof.
  apply Z.bits_inj'. intros i Hi. unfold with_wakeup. rewrite !bitfield_set_bits by lia.
  by destruct (in_field 1 13 i).
Qed.

(** Resetting the cluster changes one bit of the bypass register. *)
Lemma reset_cluster_one_bit Value s : exists w o,
  PMU_ResetCluster gap Value s = Ok tt (mk_pmu (stored PMU_BYPASS_REG w (io s)) (PMURetentionState s)) /\
  member (PMU_BypassT gap) "ClusterReset" = Some (o, 1) /\
  (forall i, 0 <= i -> Z.testbit w i = if i =? o then Z.testbit Value 0 else Z.testbit (word (regs (io s)) PMU_BYPASS_REG) i).
Proof.
  assert (Em : exists o, member (PMU_BypassT gap) "ClusterReset" = Some (o, 1) /\ 0 <= o) by (destruct gap; eexists; (split; [reflexivity|lia])).
  destruct Em as (o & Em & Ho). exists (bitfield_set (word (regs (io s)) PMU_BYPASS_REG) Value o 1), o. split; [|split; [done|]].
  - unfold PMU_ResetCluster. rewrite (bind_ok _ _ s (word (regs (io s)) PMU_BYPASS_REG) s) by (by destruct s).
    by rewrite (bind_of_opt _ (bitfield_set (word (regs (io s)) PMU_BYPASS_REG) Value o 1)) by (unfold member_set; by rewrite Em).
  - intros i Hi. rewrite bitfield_set_bits by lia. unfold in_field.
    destruct (Z.eqb_spec i o) as [->|Hne].
    + rewrite (proj2 (Z.leb_le o o)), (proj2 (Z.ltb_lt o (o + 1))), Z.sub_diag by lia. done.
    + destruct (Z.leb_spec o i), (Z.ltb_spec i (o + 1)); try done; lia.
Qed.

(** C37. Configuring the external wake-up sets the three fields it names, each to the
    low bits of its argument, in the variable and in the retention register alike, and
    changes no other field of theirs, no other register and nothing more; disabling it
    and enabling it again then restores both words. *)
Theorem wakeup_configured Gpio WupMode s : 0 <= PMURetentionState s < 2 ^ 32 ->
  let s1 := mk_pmu (stored PMU_RETENTION_CONFIG_REG (with_wakeup (PMURetentionState s) Gpio WupMode 1) (io s))
                   (with_wakeup (PMURetentionState s) Gpio WupMode 1) in
  ConfigureExternalWup gap Gpio WupMode 1 s = Ok tt s1 /\
  word (regs (io s1)) PMU_RETENTION_CONFIG_REG = PMURetentionState s1 /\
  member_get (PMU_RetentionStateT gap) "ExternalWakeUpSource" (PMURetentionState s1) = Some (Gpio mod 2 ^ LN2_N_GPIO) /\
  member_get (PMU_RetentionStateT gap) "ExternalWakeUpMode" (PMURetentionState s1) = Some (WupMode mod 4) /\
  member_get (PMU_RetentionStateT gap) "ExternalWakeupEnable" (PMURetentionState s1) = Some 1 /\
  (forall n, n ∈ OTHER_RETENTION -> member_get (PMU_RetentionStateT gap) n (PMURetentionState s1) = member_get (PMU_RetentionStateT gap) n (PMURetentionState s)) /\
  (forall a, a <> PMU_RETENTION_CONFIG_REG -> word (regs (io s1)) a = word (regs (io s)) a) /\
  exists p, (EnableExternalWakeup gap 0 ;; EnableExternalWakeup gap 1) s1 = Ok tt (mk_pmu p (PMURetentionState s1)) /\
    forall a, word (regs p) a = word (regs (io s1)) a.
Proof.
  intros Hs s1. set (v := PMURetentionState s) in *. set (w := with_wakeup v Gpio WupMode 1) in *.
  assert (Hw : 0 <= w < 2 ^ 32) by (unfold w, with_wakeup; do 3 (apply bitfield_set_range; [lia|lia|lia|]); done).
  assert (Hw0 : 0 <= bitfield_set w 0 13 1 < 2 ^ 32) by (apply bitfield_set_range; lia).
  assert (R : bitfield_set (bitfield_set w 0 13 1) 1 13 1 = w) by apply reenable.
  destruct wakeup_members as (E1 & E2 & E3).
  split; [by apply configure_wakeup_ok|]. split; [cbn [io s1 stored regs]; rewrite word_insert; by apply u32_small|].
  split; [|split; [|split]].
  - unfold member_get. rewrite E1. cbn. f_equal. unfold w, with_wakeup. rewrite !bitfield_get_set_other by lia. by apply bitfield_get_set.
  - unfold member_get. rewrite E2. cbn. f_equal. unfold w, with_wakeup. rewrite bitfield_get_set_other by lia. by apply bitfield_get_set.
  - unfold member_get. rewrite E3. cbn. f_equal. unfold w, with_wakeup. by rewrite bitfield_get_set.
  - split; [|split].
    + intros n (o & k & En & Ho & Hk & Hd)%other_members. unfold member_get. rewrite En. cbn. f_equal.
      unfold w, with_wakeup. by rewrite !bitfield_get_set_other by lia.
    + intros a Ha. cbn [io s1 stored regs]. by rewrite word_insert_ne.
    + eexists. split.
      * rewrite (bind_ok _ _ _ _ _ (enable_wakeup_ok 0 s1 Hw)). rewrite enable_wakeup_ok by exact Hw0. cbn [PMURetentionState io s1].
        cbn [PMURetentionState]. by rewrite R.
      * intros a. cbn [regs stored io s1]. destruct (decide (a = PMU_RETENTION_CONFIG_REG)) as [->|Ha].
        { by rewrite !word_insert. }
        by rewrite !word_insert_ne.
Qed.
End Wakeup.

(** ** Requests on the bus of the power manager *)
Record request := mk_request { q_start : Z; q_dir : Z; q_paddr : Z; q_pwdata : Z }.

(** A word of DLC_PCTRL, read with the bit fields of the generated header. *)
Definition read_request (w : Z) : option request :=
  u ← find (fun u => (u_reg u =? "dlc_pctrl")%string) MAESTRO3_UNIONS;
  s ← member_get u "start" w; d ← member_get u "dir" w; a ← member_get u "paddr" w; v ← member_get u "pwdata" w;
  Some (mk_request s d a v).

Section Requests.
Context `{PmuMap}.

(** The word pushed for a write of [value] to register [addr] of [island]. *)
Definition picl_word (island addr value : Z) : Z := value * 2 ^ 16 + (32 * island + addr) * 2 + 1.

Lemma picl_write_ok island addr value p : 0 <= island < 2 ^ 9 -> 0 <= addr < 2 ^ 5 -> 0 <= value < 2 ^ 16 ->
  maestro_picl_write island addr value p =
    Ok tt (stored (ARCHI_PMU_ADDR + MAESTRO_DLC_PCTRL_OFFSET) (picl_word island addr value) p).
Proof.
  intros Hi Ha Hv. unfold maestro_picl_write, PMU_WRITE, IP_WRITE, pulp_write32, modify, PMU_DLC_PACK, PMU_PICL_PACK.
  do 2 f_equal.
  rewrite (u32_small (Z.shiftl island 5)) by (rewrite Z.shiftl_mul_pow2; lia). rewrite shiftl_lor_add by lia.
  rewrite (u32_small (Z.shiftl value 16)) by (rewrite Z.shiftl_mul_pow2; lia).
  rewrite (u32_small (Z.shiftl _ 1)) by (rewrite Z.shiftl_mul_pow2; lia).
  rewrite <- Z.lor_assoc, (shiftl_lor_add _ 1 1), shiftl_lor_add by lia. unfold picl_word. lia.
Qed.

Lemma picl_word_range island addr value : 0 <= island < 2 ^ 9 -> 0 <= addr < 2 ^ 5 -> 0 <= value < 2 ^ 16 ->
  0 <= picl_word island addr value < 2 ^ 32.
Proof. intros. unfold picl_word. lia. Qed.

Lemma read_picl_word island addr value : 0 <= island < 2 ^ 9 -> 0 <= addr < 2 ^ 5 -> 0 <= value < 2 ^ 16 ->
  read_request (picl_word island addr value) = Some (mk_request 1 0 (32 * island + addr) value).
Proof.
  intros Hi Ha Hv. change (read_request (picl_word island addr value)) with
    (Some (mk_request (bitfield_get (picl_word island addr value) 0 1) (bitfield_get (picl_word island addr value) 15 1)
                      (bitfield_get (picl_word island addr value) 1 14) (bitfield_get (picl_word island addr value) 16 16))).
  unfold bitfield_get, picl_word. rewrite !Z.shiftr_div_pow2 by lia. do 2 f_equal; Z.div_mod_to_equations; lia.
Qed.

(** C36. Each request the third version sends is, by the bit fields of the generated
    header, the start of a write: of the value to register [addr] of the island; for a
    sequence below 16, of its bit, which is one of the eight of the field, to the one of
    the two flag registers of the wake-up unit that has it; and, for a state, of the
    control register of the island. *)
Theorem maestro_requests island addr value seq state p :
  0 <= island < 2 ^ 9 -> 0 <= addr < 2 ^ 5 -> 0 <= value < 2 ^ 16 -> 0 <= seq < 16 -> 0 <= state < 16 ->
  let pctrl := ARCHI_PMU_ADDR + MAESTRO_DLC_PCTRL_OFFSET in
  (exists w, maestro_picl_write island addr value p = Ok tt (stored pctrl w p) /\
     read_request w = Some (mk_request 1 0 (32 * island + addr) value)) /\
  (exists w reg, maestro_trigger_sequence seq p = Ok tt (stored pctrl w p) /\
     (if seq <? 8 then "WIU_IFR_0"%string else "WIU_IFR_1"%string, reg) ∈ MAESTRO3_WIU_OFFSETS /\
     read_request w = Some (mk_request 1 0 (32 * ARCHI_PMU_CS_WIU + reg) (2 ^ (seq mod 8))) /\
     bitfield_get (2 ^ (seq mod 8)) 0 8 = 2 ^ (seq mod 8)) /\
  (exists w, maestro_icu_set_state island state p = Ok tt (stored pctrl w p) /\
     read_request w = Some (mk_request 1 0 (32 * island + MAESTRO_ICU_CTRL_OFFSET) state)).
Proof.
  intros Hi Ha Hv Hs Ht pctrl. split; [|split].
  - eexists. split; [by apply picl_write_ok|by apply read_picl_word].
  - assert (Hm : 0 <= seq mod 8 < 8) by (apply Z.mod_pos_bound; lia).
    assert (Hp : 1 <= 2 ^ (seq mod 8) < 2 ^ 8) by (split; [apply (Z.pow_le_mono_r 2 0)|apply Z.pow_lt_mono_r]; lia).
    exists (picl_word 1 (2 + seq / 8) (2 ^ (seq mod 8))), (2 + seq / 8).
    pose proof (Z.div_mod seq 8 ltac:(lia)) as Hdm.
    assert (Hd : 0 <= seq / 8 < 2) by lia.
    split; [|split; [|split]].
    + unfold maestro_trigger_sequence. change 0x7 with (Z.ones 3). rewrite Z.land_ones, Z.shiftr_div_pow2, Z.shiftl_1_l by lia.
      change (2 ^ 3) with 8. change MAESTRO_WIU_IFR_0_OFFSET with 2.
      assert (E : seq / 8 = 0 \/ seq / 8 = 1) by lia.
      assert (E' : u32 (s32 (2 + seq / 8)) = 2 + seq / 8) by (by destruct E as [-> | ->]).
      rewrite E'. apply picl_write_ok; unfold MAESTRO_WIU_OFFSET; lia.
    + assert (seq < 8 /\ seq / 8 = 0 \/ 8 <= seq /\ seq / 8 = 1) as [[Hl ->]|[Hl ->]] by lia.
      * rewrite (proj2 (Z.ltb_lt seq 8)) by done. unfold MAESTRO3_WIU_OFFSETS. rewrite !elem_of_cons. tauto.
      * rewrite (proj2 (Z.ltb_ge seq 8)) by done. unfold MAESTRO3_WIU_OFFSETS. rewrite !elem_of_cons. tauto.
    + apply (read_picl_word 1); lia.
    + unfold bitfield_get. rewrite Z.shiftr_0_r. apply Z.mod_small. lia.
  - eexists. unfold maestro_icu_set_state. rewrite u32_small by lia.
    split; [apply picl_write_ok; unfold MAESTRO_ICU_CTRL_OFFSET; lia|apply read_picl_word; unfold MAESTRO_ICU_CTRL_OFFSET; lia].
Qed.
End Requests.

(** ** Witnesses *)
Lemma pmu_codes_roundtrip_witness :
  REGULATOR_STATE (POWER_SYSTEM_STATE REGU_LV CLUSTER_ON) = Some REGU_LV /\ mVtoDCDCSetting (DCDCSettingtomV 13) = 13 /\
  DCDCSettingtomV (mVtoDCDCSetting 1219) <= 1219.
Proof.
  destruct (pmu_codes_roundtrip REGU_LV CLUSTER_ON 13 1219 ltac:(by vm_compute) ltac:(by vm_compute) ltac:(by vm_compute) ltac:(lia))
    as (E1 & _ & _ & E2 & E3 & _).
  split; [exact E1|]. split; [exact E2|]. destruct (E3 ltac:(lia)) as [_ [H _]]. exact H.
Defined.

(** The map of GAP8. *)
Definition sample_pmu_map : PmuMap := Build_PmuMap 0x1A100000 0x1A103000 0x6000 0x1A106000 0x70.
Definition sample_pmu : pmu := mk_pmu (mk_port ∅ []) 0x1F.
Lemma wakeup_configured_witness :
  @ConfigureExternalWup sample_pmu_map true 7 EXT_WAKEUP_HIGH 1 sample_pmu =
    Ok tt (mk_pmu (stored 0x1A103104 0x31DF (mk_port ∅ [])) 0x31DF).
Proof.
  destruct (@wakeup_configured sample_pmu_map true 7 EXT_WAKEUP_HIGH sample_pmu ltac:(split; vm_compute; congruence)) as [E _].
  etransitivity; [exact E|]. by vm_compute.
Defined.

Lemma maestro_requests_witness : exists w p,
  @maestro_trigger_sequence sample_pmu_map 11 (mk_port ∅ []) = Ok tt p /\
  read_request w = Some (mk_request 1 0 (32 * 1 + 3) 8).
Proof.
  destruct (@maestro_requests sample_pmu_map 7 1 2 11 3 (mk_port ∅ []) ltac:(lia) ltac:(lia) ltac:(lia) ltac:(lia) ltac:(lia))
    as (_ & (w & reg & E & Hin & Hr & _) & _).
  exists w. eexists. split; [exact E|]. rewrite Hr.
  assert (reg = 3) as ->; [|by vm_compute].
  change (if 11 <? 8 then "WIU_IFR_0"%string else "WIU_IFR_1"%string) with "WIU_IFR_1"%string in Hin.
  unfold MAESTRO3_WIU_OFFSETS in Hin. rewrite !elem_of_cons, elem_of_nil in Hin.
  repeat (destruct Hin as [Hin|Hin]; [first [discriminate Hin | by injection Hin]|]). destruct Hin.
Defined.
