(* ===== verification/OtherRegs.v ===== *)
(** * OtherRegs: the register descriptions of chips other than this one

    boot_code/include carries the generated headers of the whole PULP family.  The
    files below hold their tables; here is what holds of them together, with the
    exact list of what does not. *)

From S2P Require Import Prelude Regs Pulp.
From S2P Require Import GpioV2 HwceV4 UdmaMram UdmaHyper UdmaI2sV2 UdmaI2sV1 UdmaI2sV3 UdmaMemcpy PwmV1 RtcV2.
From S2P Require Import MchanV7 MaestroV3 MaestroV2 MaestroV1.

(** A header, the registers its struct misplaces and the fields that clash. *)
Definition OTHER_CHIPS : list (header * list string * list (string * string)) :=
  [(GPIO2_HEADER, [], []);
   (HWCE_HEADER, (drop 6 (map fst (HWCE_OFFSETS_0 ++ HWCE_OFFSETS_1))), []);
   (MRAM_HEADER, (drop 3 (map fst MRAM_OFFSETS)), []);
   (HYPER_HEADER, (drop 3 (map fst HYPER_OFFSETS)), [("TIMING_CFG", "CS_MAX")]);
   (I2S2_HEADER, [], [("I2S_RX_CFG", "CLR"); ("I2S_RX_CFG", "PENDING"); ("I2S_TX_CFG", "CLR");
         ("I2S_TX_CFG", "PENDING")]);
   (I2S1_HEADER, (drop 3 (map fst I2S1_OFFSETS)), [("RX_CFG_CH0", "CLR"); ("RX_CFG_CH0", "PENDING");
         ("RX_CFG_CH1", "CLR"); ("RX_CFG_CH1", "PENDING"); ("CHMODE", "CH1_LSB_FIRST");
         ("CHMODE", "CH1_PDM_USEFILTER"); ("CHMODE", "CH1_PDM_EN"); ("CHMODE", "CH1_USEDDR");
         ("CHMODE", "CH1_MODE")]);
   (I2S3_HEADER, [], [("I2S_RX_CFG", "CLR"); ("I2S_RX_CFG", "PENDING"); ("I2S_TX_CFG", "CLR");
         ("I2S_TX_CFG", "PENDING")]);
   (MEMCPY_HEADER, (drop 3 (map fst MEMCPY_OFFSETS)), [("RX_CFG", "CLR"); ("RX_CFG", "PENDING");
         ("TX_CFG", "CLR"); ("TX_CFG", "PENDING")]);
   (PWM_HEADER, (drop 7 (map fst PWM_OFFSETS)), []);
   (RTC_HEADER, [], [("ALARM", "SECONDS_0"); ("ALARM", "SECONDS_1"); ("ALARM", "MINUTES_0");
         ("ALARM", "MINUTES_1"); ("ALARM", "HOURS_0"); ("ALARM", "HOURS_1"); ("ALARM", "ENABLE"); ("DATE", "DAY_0");
         ("DATE", "DAY_1"); ("DATE", "MONTH_0"); ("DATE", "MONTH_1"); ("DATE", "YEAR_0"); ("DATE", "YEAR_1")]);
   (MCHAN_HEADER, [], []);
   (MAESTRO3_HEADER, [], []);
   (MAESTRO3_WIU_HEADER, (drop 1 (map fst MAESTRO3_WIU_OFFSETS)), []);
   (MAESTRO3_ICU_HEADER, (drop 1 (map fst MAESTRO3_ICU_OFFSETS)), []);
   (MAESTRO2_HEADER, [], []);
   (MAESTRO2_WIU_HEADER, (drop 1 (map fst MAESTRO2_WIU_OFFSETS)), []);
   (MAESTRO2_ICU_HEADER, (drop 1 (map fst MAESTRO2_ICU_OFFSETS)), []);
   (MAESTRO1_HEADER, [], []);
   (MAESTRO1_WIU_HEADER, (drop 1 (map fst MAESTRO1_WIU_OFFSETS)), []);
   (MAESTRO1_ICU_HEADER, (drop 1 (map fst MAESTRO1_ICU_OFFSETS)), [])]%string.

(** C40. Across the register descriptions of the other chips the tables agree, with the
    listed exceptions and no other.  A register is where the packed struct has it
    exactly if it is not listed (where a header leaves gaps between offsets the
    struct has none, so every register behind the first gap is off).  A field's mask,
    bit-field member and position agree, inside the word and apart from the other
    fields of its register, exactly if it is not listed (CLR and PENDING of the I2S
    and copy channels share a bit, the alarm and date of the clock need more than
    32 bits).  The macros of every field that is not listed do what its bit-field
    member does, where C defines them: none does for a field of 31 or 32 bits, nor SET
    for one that holds bit 31, exactly. *)
Theorem other_registers_sound : Forall (fun r => header_sound_but r.1.1 r.1.2 r.2) OTHER_CHIPS.
Proof.
  repeat (apply Forall_cons; split; [cbn [fst snd]; auto with registers|]).
  apply Forall_nil. done.
Qed.
